(* ===== verification/_CoqProject ===== *)
-Q . S2P
Prelude.v
DoubleLink.v
Bitmap.v
Ring.v
AvlTree.v
CircularArea.v
SingleLink.v
IdManager.v
Kernel.v
ReadyVector.v
Assign.v
Delay.v
Task.v
TaskInv.v
Creation.v
Deadlines.v
Priority.v
PendList.v
Waiting.v
Lifecycle.v
Recycle.v
WaitQueue.v
BlockPool.v
Interrupt.v
Ticks.v
Sleep.v
Semaphore.v
DataQueue.v
Serial.v
SerialInv.v
Mutex.v
Services.v
MutexServices.v
Bus.v
Path.v
Vfs.v
VfsInv.v
Descriptors.v
FileTable.v
MountTable.v
Devicefile.v
DeviceContract.v
Event.v
MsgQueue.v
WorkQueue.v
SoftTimer.v
TimerInv.v
TimerList.v
SchedCheck.v
KernelCheck.v
LifeCheck.v
VfsCheck.v
SerialCheck.v
FileDefects.v
ByteMemory.v
HeapList.v
HeapLayout.v
Heap.v
SmallMem.v
Memory.v
MemoryInit.v
TimerCheck.v
Applications.v
Defects.v
