(* ===== verification/Prelude.v ===== *)
(** * The XiUOS kernel, its buses and its virtual file system

    A model of the kernel of XiUOS, src/Ubiquitous/XiUOS/kernel, for one core: its
    data structures, its scheduler and the objects tasks wait for; and of what stands
    on it next to hardware and files: the bus framework (src/Ubiquitous/XiUOS/resources),
    the virtual file system and the file system of devices (src/Ubiquitous/XiUOS/fs).
    File names below without a directory are those of kernel/thread.

    ** The program and the files

    - Prelude: machine integers, error codes of include/xs_base.h, the monad in
      which the code is translated and its rules, lemmas on lists.
    - DoubleLink (double_link.c, include/xs_klist.h): circular doubly linked
      lists in a memory of link fields; [rep h L] says that the memory [h] holds
      the lists [L], a map from list heads to members.
    - Bitmap (bitmap.c): the number of the highest set bit.
    - AvlTree (avl_tree.c), CircularArea (circular_area.c), SingleLink (single_link.c):
      containers on their own.  Ring: lists in a buffer that is used as a ring.
    - IdManager (id.c): identifiers 0 .. id_max - 1 with a bitmap and a hash table.
    - Kernel: the state [kstate] that the files of kernel/thread share and their
      smallest parts (CriticalArea.c, the counters of isr.c, ktask_stat.c, lock.c).
      The link fields of all objects are one memory; descriptors are kept by
      address in one finite map per class.
    - ReadyVector (assignstat.c, assign_fifo.c, assign_roundrobin.c,
      assign_roundrobinremain.c, parts of assign.c): the ready lists and their
      bitmap, one word or two levels, behind the class
      [PriorityReadyVectorDone] with the laws [ReadyVectorLaws]; the scheduler is
      proved against the laws only.
    - Assign (assign.c): choosing and switching tasks; invariant [sched_ok].
    - Delay (tick.c, delay.c), Task (ktask.c, zombierecycle.c and the loops of
      delay.c and tick.c that wake tasks): ticks, delays and tasks.
    - TaskInv, Deadlines, Priority: invariant [kernel_ok k L I dl] of the tasks,
      their identifiers [I] and the active delays [dl], and what suspending,
      waking, delaying and changing priorities do to it.
    - Creation: what creating an object of any class does to the memory of links,
      [grows], and to the identifiers.  Lifecycle: KTaskCreate and StartupKTask.
      Recycle: KTaskDelete, KTaskQuit and the recycler, [shrinks].
    - PendList (linklist.c), Waiting: lists of waiting tasks, and the steps that
      all waiting functions share.
    - Interrupt (isr.c, arch/arm/cortex-m3/interrupt.c): the table of interrupt
      handlers and [IsrEntry].  Ticks: the tick interrupt from the vector to the
      return, the invariant [steady] between interrupts, histories of ticks and other
      activity.  Sleep: _DelayKTask and MdelayKTask until the task is woken.
    - Semaphore (semaphore.c), Mutex (mutex.c), Event (event.c), MsgQueue
      (msgqueue.c): the objects tasks wait for.  DataQueue (data_queue.c): a bounded
      queue on two semaphores.  WaitQueue (waitqueue.c): queues whose nodes decide by
      a callback whether they are woken.  BlockPool (memory/gatherblock.c): pools of
      blocks of one size, [pool_ok x w gm free used], and the tasks that wait for one.
    - WorkQueue (workqueue.c): the ring of entries, [pending ws q], and the task that
      runs them.  SoftTimer (softtimer.c): the timers.  TimerInv: the invariant
      [timers_ok k L tl] of the running timers [tl]; the nodes of timers are linked
      into their own list only ([foreign]), so steps of tasks keep it and steps of
      timers keep [kernel_ok].  TimerList: timers by identifier and CheckTimerList.
    - ByteMemory (memory/byte_manage.c): the heap.  HeapList: its free list in
      ascending classes of sizes.  HeapLayout: the region as a sequence of blocks,
      invariant [heap_ok m bs fl].  Heap: large blocks.  SmallMem: the segments of
      small items, [heap_rep], and [heap_holds m L], the list [L] of what clients hold.
      Memory: x_malloc and x_free in the critical area.  MemoryInit: InitBoardMemory.
    - Services: what files outside the kernel use of it, a class of the calls on mutexes
      and of KUpdateExstatus, with laws about a free mutex; MutexServices: the kernel
      obeys them.  Bus (resources/bus.c): buses with their lists of drivers and devices,
      whose callbacks act on a state of the hardware; the registry of a bus.
    - Path: GetAbsolutePath and GetRelativePath of fs/shared/src/iot-vfs.c on their
      buffers of characters.  Vfs: the rest of that file, mount points, the table of
      descriptors and the calls on files, paths and directories; a file system is a
      record of callbacks ([Filesystem]).  VfsInv: invariant [vfs_inv] of the mount
      points.  Descriptors: the contract [fs_contract] of a file system, and opening,
      reading, writing and closing files of one that keeps it.  FileTable: any sequence of
      these calls as a machine on a finite map from numbers to open files.  MountTable:
      mounting and unmounting.  Devicefile (fs/iot-devicefile): the file system of
      devices.  DeviceContract: it keeps the contract.
    - Serial (resources/serial/dev_serial.c): a serial device on the kernel's semaphores and a
      board that puts and gets characters, in the build without DMA, and the receive callback
      of its client in the repository (HwCh376RxInd of the board's ch376/connect_ch376.c),
      which acts on the same kernel.  SerialInv:
      [holds_chars s es], the characters in the ring of the receiver, and what interrupts,
      reads, writes and opening do.  SerialCheck: a concrete board, and runs that go wrong.
    - SchedCheck, KernelCheck, LifeCheck, TimerCheck, VfsCheck: decision procedures for the
      invariants on concrete states, proved sound, and small kernels; Applications and the
      last four: the theorems applied there; Defects, FileDefects: runs that go wrong.

    ** How the code is translated

    A C function becomes a computation in [M S], a state monad whose outcome is a
    result with a new state, [Hang] (a failed [CHECK] or [NULL_PARAM_CHECK], which
    spin) or [Fault] (a null, dangling or out-of-range access).  [wp m Q s] says
    that [m] run from [s] returns and its result satisfies [Q]: theorems stated
    with it exclude hanging and faulting.  A store into an unsigned field of [w]
    bits wraps.  The address of an object is a positive number, the address of one
    of its link fields a constructor of [link]; reading a freed field faults.
    Memory for new objects is an argument of the function that allocates it
    ([None] for a failed allocation).

    A function that gives up the processor is split at [DO_KTASK_ASSIGN]: the first
    part returns with the task switched away, and the part that runs when the task
    is scheduled again is a definition of its own with the suffix [_resume].
    A context switch saves and loads registers in assembly; of it the model keeps
    that it makes another task the running one.

    Loops over lists take fuel: the number of link fields in memory, plus one.  A
    list has fewer members ([rep_length]), so the fuel never runs out on a sound
    memory; the theorems, being total, contain this.  CheckTimerList takes as many
    steps: every turn fires a timer that is due and none becomes due again.  Bitmap loops take nine steps,
    the loops over the heap's free list as many as there are nodes, plus one.  The loops of
    GetAbsolutePath take one more step than the buffer has characters, and hang on a
    word that begins with a dot, as the code does.  The loops of a serial device whose end the
    hardware decides take the number of their turns as an argument; the theorems ask for one
    more than there are characters, or characters and units of the semaphore.

    ** Configuration

    [KConfig] has the numbers Kconfig lets choose, [KConfigOk] their ranges:
    8, 32 or 256 priorities and the three scheduling policies.  The build is the
    debug build on one core, without task isolation, hooks and stack checks, and without
    LIB_POSIX, whose descriptors 0 to 2 are those of the console.
    [MemConfig] and [MemConfigOk] do the same for the heap, on a 32-bit target; without
    small segments they ask for an alignment of 8 bytes or more, since the code does
    not keep blocks of 4 bytes large enough for a free node.

    ** What the theorems show

    - Refinement: doubly and singly linked lists, identifier managers, circular areas,
      message queues and data queues implement lists, finite maps with least-free-key
      allocation, bounded byte queues and bounded queues of messages and elements.
    - Scheduling: after every reschedule no READY task has a higher priority than
      the running one; deferral in interrupt handlers and critical areas;
      initialisation establishes the invariant.
    - Tasks and delays: suspending, waking, delaying, changing the priority of a task
      (of a READY one, if [moves_soundly]) and the tick interrupt keep [kernel_ok] and do to every task
      what they should and nothing else; exactly the tasks whose deadline passed
      are woken.  A task that calls MdelayKTask is woken by exactly the tick its
      milliseconds convert to, in every history of interrupts and other activity that
      leaves it alone (liveness).  Registered interrupt handlers are what the dispatch
      calls.
    - The life of a task: creation gives it the least unused identifier, starting
      makes it READY, deletion closes it and wakes the recycler, which frees exactly
      what the task owned; a semaphore that is created has its value and no waiters.
    - Waiting: obtaining and abandoning semaphores and mutexes (recursion; a holder, suspended
      or READY, inherits the priority of who waits and gets its own back when it gives the
      mutex away, as long as the ready lists it moves between agree, [moves_soundly]), triggering and awaiting events, sending and
      receiving, on every branch; pushing and popping elements of data queues; waking
      wait queues, whose timeouts never expire.
    - Timers and work: starting and stopping timers keeps the list of the running ones
      in the order of their deadlines; the tick interrupt fires exactly those that are
      due and submits their callbacks in that order; a work queue runs the oldest entry
      first, and an entry that was taken is not overwritten before it is run.
    - Memory: initialisation makes a heap that is all free; allocations are best fit,
      large enough and disjoint; releasing gives back exactly what was released, joins
      free neighbours, and undoes an allocation block for block.  A block pool hands out
      disjoint blocks of its region, takes them back and wakes who waits for one.
    - Buses: the drivers and devices of a bus are a list with the last one in front, under
      every sequence of registering, deleting and searching.
    - Paths and mount points: GetAbsolutePath computes the path that its words stand for,
      "." and ".." resolved; a path belongs to the longest mount point that is a
      prefix of its words; mounting and unmounting, with and without a device, extend and shrink
      the list, and give back the memory and the device of a mount point that fails.
    - Files: opening returns the least free number and hands the path below the mount
      point to the file system, every error gives back the descriptor; under a sequence
      of calls the numbers behave as a table of open files, at a host kernel that obeys the
      laws of Services and a file system that keeps [fs_contract].  The file system of
      devices keeps it; which device of its bus a file reaches is not part of the contract,
      and FileDefects shows why it could not be.
    - Serial devices: the receive interrupt calls the client and then releases the semaphore;
      interrupts and reads behave as a stream that keeps the last
      characters that arrived, for every client that leaves the reader and the semaphore of the
      device alone, the one of the CH376 among them; a write returns or waits with the rest of its characters.
    - Bounds and errors: the conversion from milliseconds to ticks, and the defects:
      trees lost by a rotation, data lost in long circular areas, READY tasks lost
      when their priority is set to one whose ready list is in the other state, freed memory in the delay list and in the list of tasks, delays
      across the wrap-around of the tick counter, urgent messages, a lost wake-up of the work
      queue, timers started twice, allocations refused for an exact fit, memory released
      twice; reads that go to the device that was opened last, paths that hang or fault, device
      errors that open does not see.

    ** What is not modelled

    The multi-core scheduler (smp_assign.c), UTaskCreate and task isolation; what clients store in
    their memory, hence x_realloc and x_calloc, external memory and the separate user
    heap; hooks, the idle task, console, shell and start-up code.  Of the virtual file system,
    poll, select, the printing of the table, the sockets and the clients of the POSIX header;
    what is stored in the buffers that read and write pass on.  The other
    file systems (FatFs, lwext4, CH376), the other kinds of devices and the DMA transfers of
    serial ones; architectures, boards, frameworks, vendored systems.  What a path call does to a file system is translated
    but has no theorem (unlink, mkdir, rename, stat, statfs, directories, chdir).  Of the objects
    that are not tasks the deletion and reset functions and, but for semaphores, the
    creation functions are translated but no theorem is about them yet, apart from the
    runs in Defects. *)

From Stdlib Require Export ZArith Lia Bool Sorted.
From stdpp Require Export base gmap list strings fin_maps.

#[global] Open Scope Z_scope.
#[export] Set Warnings "-clear-no-such-hyp".

(** ** Machine integers

    C integers are kept as [Z]; every store into a [w]-bit unsigned object
    wraps, as the code does on the target. *)

Definition u8 (x : Z) : Z := x mod 2 ^ 8.
Definition u16 (x : Z) : Z := x mod 2 ^ 16.
Definition u32 (x : Z) : Z := x mod 2 ^ 32.
Definition s16 (x : Z) : Z := (x + 2 ^ 15) mod 2 ^ 16 - 2 ^ 15.
Definition s32 (x : Z) : Z := (x + 2 ^ 31) mod 2 ^ 32 - 2 ^ 31.

Lemma u8_small x : 0 <= x < 2 ^ 8 -> u8 x = x.
Proof. apply Z.mod_small. Qed.
Lemma u16_small x : 0 <= x < 2 ^ 16 -> u16 x = x.
Proof. apply Z.mod_small. Qed.
Lemma u32_small x : 0 <= x < 2 ^ 32 -> u32 x = x.
Proof. apply Z.mod_small. Qed.
Lemma s16_small x : - 2 ^ 15 <= x < 2 ^ 15 -> s16 x = x.
Proof. intros. unfold s16. rewrite Z.mod_small; lia. Qed.
Lemma s32_small x : - 2 ^ 31 <= x < 2 ^ 31 -> s32 x = x.
Proof. intros. unfold s32. rewrite Z.mod_small; lia. Qed.

(** ** Error codes and constants of xs_base.h *)

Definition EOK : Z := 0.
Definition ERROR : Z := 1.
Definition ETIMEOUT : Z := 2.
Definition EFULL : Z := 3.
Definition EEMPTY : Z := 4.
Definition ENOMEMORY : Z := 5.
Definition EINVALED : Z := 10.
Definition INVALID_TASK_ERROR : Z := 11.
Definition RET_TRUE : Z := 1.
Definition RET_FALSE : Z := 0.
Definition WAITING_FOREVER : Z := -1.
Definition TICK_SIZE_MAX : Z := 2 ^ 32 - 1.

Definition ALIGN_MEN_UP (size align : Z) : Z := (size + align - 1) / align * align.
Definition ALIGN_MEN_DOWN (size align : Z) : Z := size / align * align.

Lemma ALIGN_MEN_UP_bounds size align : 0 < align -> 0 < size ->
  size <= ALIGN_MEN_UP size align /\ align <= ALIGN_MEN_UP size align /\ ALIGN_MEN_UP size align < size + align.
Proof.
  intros Ha Hs. unfold ALIGN_MEN_UP.
  pose proof (Z.div_mod (size + align - 1) align ltac:(lia)) as E.
  pose proof (Z.mod_pos_bound (size + align - 1) align Ha).
  assert (1 <= (size + align - 1) / align) by (apply Z.div_le_lower_bound; lia). nia.
Qed.

(** ** Outcomes and the state monad

    [Ret a s]: the code returned [a] with memory [s].  [Hang]: the code entered
    one of its [while (RET_TRUE);] loops (a failed [CHECK] or
    [NULL_PARAM_CHECK], or a list walk that never reaches its head).  [Fault]:
    the code dereferenced a null or dangling pointer, which C leaves
    undefined. *)

Inductive outcome (S A : Type) : Type :=
| Ret (a : A) (s : S)
| Hang
| Fault.
Arguments Ret {S A} a s.
Arguments Hang {S A}.
Arguments Fault {S A}.

Definition M (S A : Type) : Type := S -> outcome S A.

#[export] Instance M_ret (S : Type) : MRet (M S) := fun A a s => Ret a s.
#[export] Instance M_bind (S : Type) : MBind (M S) := fun A B f m s =>
  match m s with
  | Ret a s' => f a s'
  | Hang => Hang
  | Fault => Fault
  end.

Definition hang {S A : Type} : M S A := fun _ => Hang.
Definition fault {S A : Type} : M S A := fun _ => Fault.
Definition get {S : Type} : M S S := fun s => Ret s s.
Definition gets {S A : Type} (f : S -> A) : M S A := fun s => Ret (f s) s.
Definition modify {S : Type} (f : S -> S) : M S unit := fun s => Ret tt (f s).

(** [CHECK(cond)] and [NULL_PARAM_CHECK(p)] with KERNEL_DEBUG on: they spin. *)
Definition CHECK {S : Type} (b : bool) : M S unit := if b then mret tt else hang.

Definition NULL_PARAM_CHECK {S P : Type} (p : option P) : M S P :=
  match p with Some a => mret a | None => hang end.

(** Reading a pointer that must be valid. *)
Definition deref {S A : Type} (o : option A) : M S A :=
  match o with Some a => mret a | None => fault end.

(** ** Total correctness: [wp m Q s] says that [m] run from [s] returns (it
    neither hangs nor faults) and its result and final state satisfy [Q]. *)

Definition wp {S A : Type} (m : M S A) (Q : A -> S -> Prop) (s : S) : Prop :=
  match m s with
  | Ret a s' => Q a s'
  | Hang | Fault => False
  end.

(** An observation of the result of a run. *)
Definition observe {S A B : Type} (f : A -> S -> B) (o : outcome S A) : option B :=
  match o with Ret a s => Some (f a s) | Hang | Fault => None end.

(** ** Running a computation on one field of a larger state *)

Definition zoom {S T A : Type} (prj : T -> S) (upd : S -> T -> T) (m : M S A) : M T A :=
  fun t => match m (prj t) with
           | Ret a s => Ret a (upd s t)
           | Hang => Hang
           | Fault => Fault
           end.

(** [strncmp(a, b, n) == 0] on strings without embedded zero bytes. *)
Definition strncmp_eq (n : nat) (a b : string) : bool :=
  String.eqb (String.substring 0 n a) (String.substring 0 n b).

(** ** Rules of the program logic *)

Section wp_rules.
Context {S A B : Type}.
Implicit Types (s : S).

Lemma wp_ret (a : A) (Q : A -> S -> Prop) s : Q a s -> wp (mret a) Q s.
Proof. done. Qed.

Lemma wp_bind (m : M S A) (f : A -> M S B) Q s :
  wp m (fun a s' => wp (f a) Q s') s -> wp (m ≫= f) Q s.
Proof. unfold wp, mbind, M_bind. by destruct (m s). Qed.

(** The converse, to apply a rule for a longer program. *)
Lemma wp_unbind (m : M S A) (f : A -> M S B) Q s :
  wp (m ≫= f) Q s -> wp m (fun a s' => wp (f a) Q s') s.
Proof. unfold wp, mbind, M_bind. by destruct (m s). Qed.

Lemma wp_mono (m : M S A) (P Q : A -> S -> Prop) s :
  wp m P s -> (forall a s', P a s' -> Q a s') -> wp m Q s.
Proof. unfold wp. destruct (m s); naive_solver. Qed.

Lemma wp_run (m : M S A) Q s a s' : m s = Ret a s' -> Q a s' -> wp m Q s.
Proof. unfold wp. by intros ->. Qed.

Lemma wp_inv (m : M S A) Q s :
  wp m Q s -> exists a s', m s = Ret a s' /\ Q a s'.
Proof. unfold wp. destruct (m s); naive_solver. Qed.

Lemma wp_get (Q : S -> S -> Prop) s : Q s s -> wp get Q s.
Proof. done. Qed.

Lemma wp_gets (f : S -> A) Q s : Q (f s) s -> wp (gets f) Q s.
Proof. done. Qed.

Lemma wp_modify (f : S -> S) Q s : Q tt (f s) -> wp (modify f) Q s.
Proof. done. Qed.

Lemma wp_check (b : bool) (Q : unit -> S -> Prop) s : b = true -> Q tt s -> wp (CHECK b) Q s.
Proof. by intros ->. Qed.

Lemma wp_deref (o : option A) (Q : A -> S -> Prop) s a : o = Some a -> Q a s -> wp (deref o) Q s.
Proof. by intros ->. Qed.

Lemma wp_null_check (o : option A) (Q : A -> S -> Prop) s a :
  o = Some a -> Q a s -> wp (NULL_PARAM_CHECK o) Q s.
Proof. by intros ->. Qed.
End wp_rules.

Lemma wp_zoom {S T A : Type} (prj : T -> S) (upd : S -> T -> T) (m : M S A) (Q : A -> T -> Prop) t :
  wp m (fun a s => Q a (upd s t)) (prj t) -> wp (zoom prj upd m) Q t.
Proof. unfold wp, zoom. by destruct (m (prj t)). Qed.

(** One step of symbolic execution through a bind whose head is a primitive. *)
Ltac wp_step :=
  lazymatch goal with
  | |- wp (mbind _ _) _ _ => apply wp_bind
  | |- wp (mret _) _ _ => apply wp_ret
  | |- wp (gets _) _ _ => apply wp_gets
  | |- wp get _ _ => apply wp_get
  | |- wp (modify _) _ _ => apply wp_modify
  | |- wp (deref (Some _)) _ _ => eapply wp_deref; [reflexivity|]
  | |- wp (CHECK true) _ _ => apply wp_check; [reflexivity|]
  end.
(** Use of a rule for a sequence of calls in a larger program: after [eapply wp_mono]
    with the rule, the program is run on to the next call of the sequence. *)
Ltac wp_next :=
  let H := fresh in intros ? ? H; cbn beta iota; repeat (wp_step; cbn beta iota);
  (eapply wp_mono; [exact H|]; clear H).
Ltac wp_steps := cbn beta iota; repeat (wp_step; cbn beta iota).

(** ** Lists: the elements around a position *)

Section list_facts.
Context {A : Type} `{EqDecision A}.
Implicit Types (l : list A).

(** Removing one element; the list operation behind unlinking a node. *)
Definition without (x : A) (l : list A) : list A := filter (fun y => y <> x) l.

Lemma without_not_in x l : x ∉ l -> without x l = l.
Proof.
  induction l as [|y l IH]; [done|]. intros [Hne Hni]%not_elem_of_cons.
  unfold without in *. rewrite filter_cons_True by done. by rewrite IH.
Qed.

Lemma without_app x l1 l2 : without x (l1 ++ l2) = without x l1 ++ without x l2.
Proof. apply filter_app. Qed.

Lemma without_middle x l1 l2 : x ∉ l1 -> x ∉ l2 -> without x (l1 ++ x :: l2) = l1 ++ l2.
Proof.
  intros H1 H2. rewrite without_app. unfold without at 2.
  rewrite filter_cons_False by naive_solver. fold (without x l2).
  by rewrite !without_not_in.
Qed.

Lemma elem_of_without x y l : y ∈ without x l <-> y <> x /\ y ∈ l.
Proof. unfold without. by rewrite list_elem_of_filter. Qed.

Lemma NoDup_without x l : NoDup l -> NoDup (without x l).
Proof. apply NoDup_filter. Qed.

Lemma without_fmap {B : Type} `{EqDecision B} (f : A -> B) x l :
  Inj (=) (=) f -> filter (fun y => y <> f x) (f <$> l) = f <$> without x l.
Proof.
  intros Hf. unfold without. induction l as [|y l IH]; [done|]. rewrite fmap_cons.
  destruct (decide (y = x)) as [->|Hne].
  - by rewrite !filter_cons_False by auto.
  - rewrite !filter_cons_True by (try intros ?%Hf; done). by rewrite fmap_cons, IH.
Qed.

Lemma NoDup_middle x l1 l2 : NoDup (l1 ++ x :: l2) <-> (x ∉ l1 ++ l2) /\ NoDup (l1 ++ l2).
Proof. by rewrite <- (Permutation_middle l1 l2 x), NoDup_cons. Qed.

Lemma elem_of_rotate x y l : y ∈ l ++ [x] <-> y ∈ x :: l.
Proof. set_solver. Qed.

Lemma elem_of_middle x y l1 l2 : y ∈ l1 ++ x :: l2 <-> y = x \/ y ∈ l1 ++ l2.
Proof. set_solver. Qed.

(** Insertion at a position. *)
Definition insert_nth (n : nat) (x : A) (l : list A) : list A := take n l ++ x :: drop n l.

Lemma elem_of_insert_nth n x y l : y ∈ insert_nth n x l <-> y = x \/ y ∈ l.
Proof. unfold insert_nth. rewrite elem_of_middle. by rewrite take_drop. Qed.

Lemma fmap_insert_nth {B : Type} (f : A -> B) n x l :
  f <$> insert_nth n x l = take n (f <$> l) ++ f x :: drop n (f <$> l).
Proof. unfold insert_nth. by rewrite fmap_app, fmap_cons, fmap_take, fmap_drop. Qed.

(** The last element, with a default that stands for the list head. *)
Lemma last_cons x y l : List.last (x :: l) y = List.last l x.
Proof.
  revert x y. induction l as [|z l IH]; intros x y; [done|].
  change (List.last (z :: l) y = List.last (z :: l) x). by rewrite !IH.
Qed.

Lemma last_in x l : List.last l x ∈ x :: l.
Proof.
  revert x. induction l as [|y l IH]; intros x; [set_solver|].
  rewrite last_cons. specialize (IH y). set_solver.
Qed.

Lemma hd_in x l : List.hd x l ∈ x :: l.
Proof. destruct l; set_solver. Qed.

(** Lists in ascending order of a key, and insertion before the first larger key. *)
Definition sorted_by (key : A -> Z) (l : list A) : Prop := StronglySorted (fun x y => key x <= key y) l.

Lemma sorted_by_insert key z x l :
  key x = z -> sorted_by key l ->
  sorted_by key (insert_nth (default (length l) (fst <$> list_find (fun y => bool_decide (z < key y)) l)) x l).
Proof.
  unfold sorted_by. intros Ez. induction l as [|a l IH]; intros Hs.
  { apply SSorted_cons; constructor. }
  apply StronglySorted_inv in Hs as [Hs Ha]. cbn [list_find].
  case_decide as Hl; [apply bool_decide_unpack in Hl|].
  - cbn. apply SSorted_cons; [by apply SSorted_cons|]. rewrite Forall_forall in Ha |- *.
    intros y [->|Hy]%elem_of_cons; [lia|]. apply Ha in Hy. lia.
  - assert (key a <= key x) as Hax.
    { destruct (decide (z < key a)); [|lia]. destruct Hl. by apply bool_decide_pack. }
    specialize (IH Hs). rewrite Forall_forall in Ha.
    destruct (list_find (fun y => bool_decide (z < key y)) l) as [[n y]|]; cbn in IH |- *;
      (apply SSorted_cons; [exact IH|]; apply Forall_forall; intros w Hw;
       apply elem_of_insert_nth in Hw as [->|Hw]; [done|by apply Ha]).
Qed.

Lemma sorted_by_ext key key' l :
  (forall x, x ∈ l -> key' x = key x) -> sorted_by key l -> sorted_by key' l.
Proof.
  unfold sorted_by. induction l as [|a l IH]; intros He Hs; [constructor|].
  apply StronglySorted_inv in Hs as [Hs Ha]. apply SSorted_cons; [apply IH; [set_solver|done]|].
  rewrite Forall_forall in Ha |- *. intros x Hx. rewrite !He by set_solver. by apply Ha.
Qed.

Lemma sorted_by_without key x l : sorted_by key l -> sorted_by key (without x l).
Proof.
  unfold sorted_by, without. induction l as [|a l IH]; intros Hs; [constructor|].
  apply StronglySorted_inv in Hs as [Hs Ha]. destruct (decide (a = x)) as [->|Hne].
  - rewrite filter_cons_False by auto. auto.
  - rewrite filter_cons_True by done. apply SSorted_cons; [auto|]. rewrite Forall_forall in Ha |- *.
    intros y [_ Hy]%list_elem_of_filter. by apply Ha.
Qed.

Lemma sorted_by_app key l1 l2 : sorted_by key (l1 ++ l2) -> sorted_by key l2.
Proof.
  unfold sorted_by. induction l1 as [|a l1 IH]; [done|]. intros [Hs _]%StronglySorted_inv. auto.
Qed.

Lemma sorted_by_head key x l y : sorted_by key (x :: l) -> y ∈ l -> key x <= key y.
Proof. intros [_ Ha]%StronglySorted_inv Hy. rewrite Forall_forall in Ha. by apply Ha. Qed.

(** Appending. *)
Lemma last_app x l1 l2 : List.last (l1 ++ l2) x = List.last l2 (List.last l1 x).
Proof.
  revert x. induction l1 as [|y l1 IH]; intros x; [done|]. cbn [app]. rewrite !last_cons. apply IH.
Qed.

Lemma sorted_by_app_inv (k : A -> Z) l1 l2 : sorted_by k (l1 ++ l2) ->
  sorted_by k l1 /\ sorted_by k l2 /\ forall x y, x ∈ l1 -> y ∈ l2 -> k x <= k y.
Proof.
  unfold sorted_by. induction l1 as [|z l1 IH]; intros Hs; cbn [app] in *.
  - split_and!; [constructor|done|]. intros x y Hx. by apply not_elem_of_nil in Hx.
  - apply StronglySorted_inv in Hs as [Hs Hz]. destruct (IH Hs) as (H1 & H2 & H3).
    rewrite Forall_forall in Hz. split_and!; [|done|].
    + apply SSorted_cons; [done|]. rewrite Forall_forall. intros x Hx. apply Hz. set_solver.
    + intros x y [->|Hx]%elem_of_cons Hy; [apply Hz; set_solver|by apply H3].
Qed.

Lemma sorted_by_app_intro (k : A -> Z) l1 l2 :
  sorted_by k l1 -> sorted_by k l2 -> (forall x y, x ∈ l1 -> y ∈ l2 -> k x <= k y) -> sorted_by k (l1 ++ l2).
Proof.
  unfold sorted_by. induction l1 as [|z l1 IH]; intros H1 H2 H3; [done|]. cbn [app].
  apply StronglySorted_inv in H1 as [H1 Hz]. rewrite Forall_forall in Hz.
  apply SSorted_cons; [apply IH; set_solver|]. rewrite Forall_forall. intros y [Hy|Hy]%elem_of_app; [by apply Hz|apply H3; set_solver].
Qed.

Lemma sorted_by_middle (k : A -> Z) l1 l2 x : sorted_by k (l1 ++ l2) ->
  (forall y, y ∈ l1 -> k y <= k x) -> (forall y, y ∈ l2 -> k x <= k y) -> sorted_by k (l1 ++ x :: l2).
Proof.
  unfold sorted_by. induction l1 as [|z l1 IH]; intros Hs H1 H2; cbn [app] in *.
  - apply SSorted_cons; [done|]. rewrite Forall_forall. auto.
  - apply StronglySorted_inv in Hs as [Hs Hz]. rewrite Forall_forall in Hz.
    apply SSorted_cons; [apply IH; set_solver|]. rewrite Forall_forall.
    intros y [->|Hy]%elem_of_middle; [apply H1; set_solver|by apply Hz].
Qed.

(** Filters that keep all or nothing. *)
Lemma filter_ext_in (P Q : A -> Prop) `{forall x, Decision (P x)} `{forall x, Decision (Q x)} l :
  (forall x, x ∈ l -> P x <-> Q x) -> filter P l = filter Q l.
Proof.
  induction l as [|x l IH]; intros HPQ; [done|]. rewrite !filter_cons, IH by set_solver.
  destruct (decide (P x)) as [Hp|Hp], (decide (Q x)) as [Hq|Hq]; try done; exfalso; [apply Hq|apply Hp]; apply HPQ; set_solver.
Qed.

Lemma filter_all (P : A -> Prop) `{forall x, Decision (P x)} l : (forall x, x ∈ l -> P x) -> filter P l = l.
Proof.
  induction l as [|x l IH]; intros HP; [done|]. rewrite filter_cons_True by (apply HP; set_solver).
  f_equal. apply IH. set_solver.
Qed.

Lemma filter_none (P : A -> Prop) `{forall x, Decision (P x)} l : (forall x, x ∈ l -> ~ P x) -> filter P l = [].
Proof.
  induction l as [|x l IH]; intros HP; [done|]. rewrite filter_cons_False by (apply HP; set_solver).
  apply IH. set_solver.
Qed.
End list_facts.
