(* ===== verification/DoubleLink.v ===== *)
(** * Doubly linked lists of kernel/thread/double_link.c

    The memory that holds the [DoubleLinklistType] links is a finite map from
    link addresses to [node] records; a null pointer is [None].  The operations
    are the pointer writes of the source in their order.  [rep h L] relates a
    memory to the lists it holds ([L] maps each list head to the nodes behind
    it), and every operation is proved to implement the corresponding change of
    [L].  The loops of xs_klist.h ([DOUBLE_LINKLIST_FOR_EACH] with a break, and
    the length loop) are run with one step per allocated link plus one: a walk
    that needs more has entered a cycle that misses the head and never ends. *)

From S2P Require Import Prelude.

Record node (A : Type) : Type := mkNode {
  node_next : option A;
  node_prev : option A;
}.
Arguments mkNode {A} node_next node_prev.
Arguments node_next {A} _.
Arguments node_prev {A} _.

Section DoubleLink.
Context {A : Type} `{Countable A}.
Abbreviation heap := (gmap A (node A)).
Implicit Types (h : heap) (L : gmap A (list A)).

(** ** Pointer accesses *)

Definition load (p : A) : M heap (node A) := fun h =>
  match h !! p with Some n => Ret n h | None => Fault end.

Definition get_next (p : A) : M heap (option A) := n ← load p; mret (node_next n).
Definition get_prev (p : A) : M heap (option A) := n ← load p; mret (node_prev n).

Definition set_next (p : A) (v : option A) : M heap unit :=
  n ← load p; modify (fun h => <[p := mkNode v (node_prev n)]> h).
Definition set_prev (p : A) (v : option A) : M heap unit :=
  n ← load p; modify (fun h => <[p := mkNode (node_next n) v]> h).

(** ** The operations of double_link.c *)

Definition InitDoubleLinkList (linklist_head : A) : M heap unit :=
  set_next linklist_head (Some linklist_head);;
  set_prev linklist_head (Some linklist_head).

Definition DoubleLinkListInsertNodeAfter (linklist linklist_node : A) : M heap unit :=
  nx ← get_next linklist; q ← deref nx;
  set_prev q (Some linklist_node);;
  nx ← get_next linklist;
  set_next linklist_node nx;;
  set_next linklist (Some linklist_node);;
  set_prev linklist_node (Some linklist).

Definition DoubleLinkListInsertNodeBefore (linklist linklist_node : A) : M heap unit :=
  pv ← get_prev linklist; q ← deref pv;
  set_next q (Some linklist_node);;
  pv ← get_prev linklist;
  set_prev linklist_node pv;;
  set_prev linklist (Some linklist_node);;
  set_next linklist_node (Some linklist).

Definition DoubleLinkListRmNode (linklist_node : A) : M heap unit :=
  nx ← get_next linklist_node; q ← deref nx;
  pv ← get_prev linklist_node;
  set_prev q pv;;
  pv ← get_prev linklist_node; p ← deref pv;
  nx ← get_next linklist_node;
  set_next p nx;;
  set_next linklist_node (Some linklist_node);;
  set_prev linklist_node (Some linklist_node).

Definition IsDoubleLinkListEmpty (linklist : A) : M heap bool :=
  nx ← get_next linklist; mret (bool_decide (nx = Some linklist)).

Definition DoubleLinkListGetHead (linklist : A) : M heap (option A) :=
  b ← IsDoubleLinkListEmpty linklist;
  if (b : bool) then mret None else get_next linklist.

Definition DoubleLinkListGetNext (linklist linklist_node : A) : M heap (option A) :=
  nx ← get_next linklist_node;
  if bool_decide (nx = Some linklist) then mret None else get_next linklist_node.

(** [while (tmp_node->node_next != linklist)]; the counter is an unsigned int. *)
Fixpoint len_loop (fuel : nat) (linklist tmp_node : A) (linklist_length : Z) : M heap Z :=
  match fuel with
  | O => hang
  | S fuel =>
      nx ← get_next tmp_node;
      if bool_decide (nx = Some linklist) then mret linklist_length
      else q ← deref nx; len_loop fuel linklist q (u32 (linklist_length + 1))
  end.

Definition DoubleLinkListLenGet (linklist : A) : M heap Z :=
  h ← get; len_loop (S (size h)) linklist linklist 0.

(** The loop of [DOUBLE_LINKLIST_FOR_EACH(item, head)] whose body either breaks
    or goes on; it returns the item at which it stopped, [head] when it ran to
    the end.  [next] reads a [node_next] field in the state of the caller. *)
Fixpoint for_each_until {T : Type} (next : A -> M T (option A)) (stop : A -> M T bool)
    (fuel : nat) (head item : A) : M T A :=
  match fuel with
  | O => hang
  | S fuel =>
      if bool_decide (item = head) then mret item
      else b ← stop item;
           if (b : bool) then mret item
           else nx ← next item; q ← deref nx; for_each_until next stop fuel head q
  end.

(** ** What a memory holds *)

Definition nxt (h : heap) (p : A) : option A := h !! p ≫= node_next.
Definition prv (h : heap) (p : A) : option A := h !! p ≫= node_prev.
Definition alloc (h : heap) (p : A) : Prop := is_Some (h !! p).

Definition linked (h : heap) (a b : A) : Prop := nxt h a = Some b /\ prv h b = Some a.

(** [chain h a l b]: from [a] the links lead through [l] to [b], both ways. *)
Fixpoint chain (h : heap) (a : A) (l : list A) (b : A) : Prop :=
  match l with
  | [] => linked h a b
  | x :: l => linked h a x /\ chain h x l b
  end.

(** The lists of a memory: [L !! hd = Some l] when [hd] heads the circular list
    whose nodes are [l].  A node that is in no list is the head of an empty
    one; an uninitialised link is in no entry. *)
Record rep (h : heap) (L : gmap A (list A)) : Prop := {
  rep_chain : forall hd l, L !! hd = Some l -> chain h hd l hd;
  rep_nodup : forall hd l, L !! hd = Some l -> NoDup (hd :: l);
  rep_disj : forall hd1 l1 hd2 l2 x,
    L !! hd1 = Some l1 -> L !! hd2 = Some l2 ->
    x ∈ hd1 :: l1 -> x ∈ hd2 :: l2 -> hd1 = hd2;
}.

(** A node that may be linked in: it is in no list but possibly its own. *)
Definition unlinked (L : gmap A (list A)) (x : A) : Prop :=
  forall hd l, L !! hd = Some l -> x ∈ hd :: l -> hd = x /\ l = [].

(** A node that may be unlinked: a member of a list, or a detached node. *)
Definition linked_or_detached (L : gmap A (list A)) (x : A) : Prop :=
  L !! x = Some [] \/ exists hd l, L !! hd = Some l /\ x ∈ l.

(** The effect of the operations on the lists. *)
Definition attach (hd : A) (l : list A) (x : A) (L : gmap A (list A)) : gmap A (list A) :=
  <[hd := l]> (delete x L).
Definition detach (x : A) (L : gmap A (list A)) : gmap A (list A) :=
  <[x := []]> (without x <$> L).

(** What every operation on a node [x] leaves alone: the allocated links, and
    the null pointers of links that were never initialised. *)
Definition same_links (x : A) (h h' : heap) : Prop :=
  (forall y, alloc h' y <-> alloc h y) /\ (forall y, y <> x -> prv h y = None -> prv h' y = None).

(** ** Effects of the accesses *)

Lemma alloc_nxt h p q : nxt h p = Some q -> alloc h p.
Proof. unfold nxt, alloc. destruct (h !! p); naive_solver. Qed.
Lemma alloc_prv h p q : prv h p = Some q -> alloc h p.
Proof. unfold prv, alloc. destruct (h !! p); naive_solver. Qed.

Lemma wp_get_next h p (Q : option A -> heap -> Prop) :
  alloc h p -> Q (nxt h p) h -> wp (get_next p) Q h.
Proof.
  intros [n Hn] HQ. unfold nxt in HQ. rewrite Hn in HQ.
  unfold get_next, load, wp, mbind, M_bind. by rewrite Hn.
Qed.

Lemma wp_get_prev h p (Q : option A -> heap -> Prop) :
  alloc h p -> Q (prv h p) h -> wp (get_prev p) Q h.
Proof.
  intros [n Hn] HQ. unfold prv in HQ. rewrite Hn in HQ.
  unfold get_prev, load, wp, mbind, M_bind. by rewrite Hn.
Qed.

Lemma wp_set_next h p v (Q : unit -> heap -> Prop) :
  alloc h p ->
  (forall h', (forall y, nxt h' y = if decide (y = p) then v else nxt h y) ->
              (forall y, prv h' y = prv h y) ->
              (forall y, alloc h' y <-> alloc h y) -> Q tt h') ->
  wp (set_next p v) Q h.
Proof.
  intros [n Hn] HQ. unfold set_next, load, wp, mbind, M_bind. rewrite Hn. cbn.
  apply HQ; intros y; unfold nxt, prv, alloc;
    destruct (decide (y = p)) as [->|Hne]; simplify_map_eq; naive_solver.
Qed.

Lemma wp_set_prev h p v (Q : unit -> heap -> Prop) :
  alloc h p ->
  (forall h', (forall y, prv h' y = if decide (y = p) then v else prv h y) ->
              (forall y, nxt h' y = nxt h y) ->
              (forall y, alloc h' y <-> alloc h y) -> Q tt h') ->
  wp (set_prev p v) Q h.
Proof.
  intros [n Hn] HQ. unfold set_prev, load, wp, mbind, M_bind. rewrite Hn. cbn.
  apply HQ; intros y; unfold nxt, prv, alloc;
    destruct (decide (y = p)) as [->|Hne]; simplify_map_eq; naive_solver.
Qed.

(** ** Effects of the operations on the pointers *)

(** Rewrite the facts about intermediate memories, oldest state last. *)
Ltac link_solve :=
  repeat match goal with
  | E : forall y, nxt ?h' y = _ |- context [nxt ?h' _] => rewrite E
  | E : forall y, prv ?h' y = _ |- context [prv ?h' _] => rewrite E
  | E : forall y, alloc ?h' y <-> _ |- alloc ?h' _ => apply E
  | E : forall y, alloc ?h' y <-> _ |- alloc ?h' _ <-> _ => rewrite E
  end; eauto using alloc_nxt, alloc_prv;
  repeat case_decide; subst; try congruence; eauto.

Ltac link_step :=
  match goal with
  | |- wp (mbind _ _) _ _ => apply wp_bind
  | |- wp (get_next _) _ _ => apply wp_get_next; [by link_solve|]
  | |- wp (get_prev _) _ _ => apply wp_get_prev; [by link_solve|]
  | |- wp (set_next _ _) _ _ => apply wp_set_next; [by link_solve|]; intros ? ? ? ?
  | |- wp (set_prev _ _) _ _ => apply wp_set_prev; [by link_solve|]; intros ? ? ? ?
  | |- wp (deref _) _ _ => eapply wp_deref; [by link_solve|]
  end; cbn beta.

Lemma wp_InitDoubleLinkList h p (Q : unit -> heap -> Prop) :
  alloc h p ->
  (forall h', (forall y, nxt h' y = if decide (y = p) then Some p else nxt h y) ->
              (forall y, prv h' y = if decide (y = p) then Some p else prv h y) ->
              (forall y, alloc h' y <-> alloc h y) -> Q tt h') ->
  wp (InitDoubleLinkList p) Q h.
Proof.
  intros Hp HQ. unfold InitDoubleLinkList. repeat link_step.
  apply HQ; intros y; link_solve.
Qed.

Lemma wp_insert_after_ptr h a q x (Q : unit -> heap -> Prop) :
  nxt h a = Some q -> alloc h q -> alloc h x -> x <> a -> x <> q ->
  (forall h', (forall y, nxt h' y = if decide (y = a) then Some x
                                    else if decide (y = x) then Some q else nxt h y) ->
              (forall y, prv h' y = if decide (y = x) then Some a
                                    else if decide (y = q) then Some x else prv h y) ->
              (forall y, alloc h' y <-> alloc h y) -> Q tt h') ->
  wp (DoubleLinkListInsertNodeAfter a x) Q h.
Proof.
  intros Hnx Hq Hx Hxa Hxq HQ. unfold DoubleLinkListInsertNodeAfter. repeat link_step.
  apply HQ; intros y; link_solve.
Qed.

Lemma wp_insert_before_ptr h b p x (Q : unit -> heap -> Prop) :
  prv h b = Some p -> alloc h p -> alloc h x -> x <> b -> x <> p ->
  (forall h', (forall y, nxt h' y = if decide (y = x) then Some b
                                    else if decide (y = p) then Some x else nxt h y) ->
              (forall y, prv h' y = if decide (y = b) then Some x
                                    else if decide (y = x) then Some p else prv h y) ->
              (forall y, alloc h' y <-> alloc h y) -> Q tt h') ->
  wp (DoubleLinkListInsertNodeBefore b x) Q h.
Proof.
  intros Hpv Hp Hx Hxb Hxp HQ. unfold DoubleLinkListInsertNodeBefore. repeat link_step.
  apply HQ; intros y; link_solve.
Qed.

Lemma wp_rm_ptr h x p q (Q : unit -> heap -> Prop) :
  prv h x = Some p -> nxt h x = Some q -> alloc h p -> alloc h q ->
  (p = x <-> q = x) ->
  (forall h', (forall y, nxt h' y = if decide (y = x) then Some x
                                    else if decide (y = p) then Some q else nxt h y) ->
              (forall y, prv h' y = if decide (y = x) then Some x
                                    else if decide (y = q) then Some p else prv h y) ->
              (forall y, alloc h' y <-> alloc h y) -> Q tt h') ->
  wp (DoubleLinkListRmNode x) Q h.
Proof.
  intros Hpv Hnx Hp Hq Hpq HQ. unfold DoubleLinkListRmNode. repeat link_step.
  apply HQ; intros y; link_solve; naive_solver.
Qed.

(** ** Chains *)

Lemma chain_app h a l1 x l2 b :
  chain h a (l1 ++ x :: l2) b <-> chain h a l1 x /\ chain h x l2 b.
Proof. revert a. induction l1 as [|y l1 IH]; intros a; cbn; [done|]. rewrite IH. tauto. Qed.

Lemma chain_frame h h' a l b :
  (forall y, y ∈ a :: l -> nxt h' y = nxt h y) ->
  (forall y, y ∈ l ++ [b] -> prv h' y = prv h y) ->
  chain h a l b -> chain h' a l b.
Proof.
  revert a. induction l as [|x l IH]; intros a Hn Hp; cbn; unfold linked.
  - by rewrite Hn, Hp by set_solver.
  - rewrite Hn, Hp by set_solver. intros [? ?]. split; [done|]. apply IH; set_solver.
Qed.

Lemma chain_alloc h a l b x : chain h a l b -> x ∈ a :: b :: l -> alloc h x.
Proof.
  revert a. induction l as [|y l IH]; intros a; cbn; unfold linked.
  - intros [? ?] Hin. assert (x = a \/ x = b) as [-> | ->] by set_solver;
      eauto using alloc_nxt, alloc_prv.
  - intros [[? ?] Hc] [->|Hx]%elem_of_cons; [eauto using alloc_nxt|].
    apply (IH y); [done|]. set_solver.
Qed.

Lemma chain_nxt h a l b : chain h a l b -> nxt h a = Some (hd b l).
Proof. by destruct l; cbn; intros; destruct_and?; unfold linked in *; destruct_and?. Qed.

Lemma chain_prv h a l b : chain h a l b -> prv h b = Some (List.last l a).
Proof.
  destruct l as [|x l _] using rev_ind; cbn; [by intros [_ ?]|].
  rewrite chain_app, List.last_last. by intros [_ [_ ?]].
Qed.

(** ** Reading a list *)

Lemma rep_alloc h L hd l x : rep h L -> L !! hd = Some l -> x ∈ hd :: l -> alloc h x.
Proof. intros HR HL Hx. apply rep_chain with (1 := HR) in HL. eapply chain_alloc; set_solver. Qed.

Lemma rep_next h L hd l1 x l2 :
  rep h L -> L !! hd = Some (l1 ++ x :: l2) -> nxt h x = Some (List.hd hd l2).
Proof.
  intros HR HL. apply rep_chain with (1 := HR) in HL.
  apply chain_app in HL as [_ HL]. by eapply chain_nxt.
Qed.

Lemma rep_first h L hd l : rep h L -> L !! hd = Some l -> nxt h hd = Some (List.hd hd l).
Proof. intros HR HL. apply rep_chain with (1 := HR) in HL. by eapply chain_nxt. Qed.

Lemma rep_last h L hd l : rep h L -> L !! hd = Some l -> prv h hd = Some (List.last l hd).
Proof. intros HR HL. apply rep_chain with (1 := HR) in HL. by eapply chain_prv. Qed.

Lemma rep_head_not_member h L hd l : rep h L -> L !! hd = Some l -> hd ∉ l.
Proof. intros HR HL. apply rep_nodup with (1 := HR) in HL. by inversion_clear HL. Qed.

Lemma wp_IsDoubleLinkListEmpty h L hd l (Q : bool -> heap -> Prop) :
  rep h L -> L !! hd = Some l -> Q (bool_decide (l = [])) h ->
  wp (IsDoubleLinkListEmpty hd) Q h.
Proof.
  intros HR HL HQ. unfold IsDoubleLinkListEmpty. apply wp_bind, wp_get_next.
  { eapply rep_alloc; set_solver. }
  apply wp_ret. rewrite (rep_first _ _ _ _ HR HL).
  erewrite bool_decide_ext; [exact HQ|].
  pose proof (rep_head_not_member _ _ _ _ HR HL). destruct l; cbn; set_solver.
Qed.

(** ** Linking a node in *)

Lemma chain_insert h h' a l1 l2 b x :
  chain h a (l1 ++ l2) b ->
  NoDup (l1 ++ l2) -> a ∉ l1 ++ l2 -> b ∉ l1 ++ l2 -> x ∉ a :: b :: l1 ++ l2 ->
  (forall y, nxt h' y = if decide (y = x) then Some (List.hd b l2)
                        else if decide (y = List.last l1 a) then Some x else nxt h y) ->
  (forall y, prv h' y = if decide (y = x) then Some (List.last l1 a)
                        else if decide (y = List.hd b l2) then Some x else prv h y) ->
  chain h' a (l1 ++ x :: l2) b.
Proof.
  revert a. induction l1 as [|z l1 IH]; intros a Hc Hnd Ha Hb Hx Hn Hp.
  - destruct l2 as [|y l2]; cbn in *.
    + unfold linked. rewrite !Hn, !Hp. repeat case_decide; set_solver.
    + apply NoDup_cons in Hnd as [Hy Hnd]. destruct Hc as [Hay Hc]. unfold linked in *.
      split_and!; [rewrite ?Hn, ?Hp; repeat case_decide; set_solver..|].
      apply (chain_frame h); [..|done]; intros w Hw; rewrite ?Hn, ?Hp;
        repeat case_decide; set_solver.
  - cbn [app] in *. destruct Hc as [Haz Hc]. apply NoDup_cons in Hnd as [Hz Hnd].
    rewrite last_cons in Hn, Hp.
    pose proof (last_in z l1). pose proof (hd_in b l2).
    split; [|apply IH; set_solver].
    unfold linked in *. rewrite Hn, Hp. repeat case_decide; set_solver.
Qed.

Lemma chain_remove h h' a l1 l2 b x :
  chain h a (l1 ++ x :: l2) b ->
  NoDup (l1 ++ x :: l2) -> a ∉ l1 ++ x :: l2 -> b ∉ l1 ++ x :: l2 ->
  (forall y, nxt h' y = if decide (y = x) then Some x
                        else if decide (y = List.last l1 a) then Some (List.hd b l2) else nxt h y) ->
  (forall y, prv h' y = if decide (y = x) then Some x
                        else if decide (y = List.hd b l2) then Some (List.last l1 a) else prv h y) ->
  chain h' a (l1 ++ l2) b.
Proof.
  revert a. induction l1 as [|z l1 IH]; intros a Hc Hnd Ha Hb Hn Hp.
  - destruct Hc as [Hax Hc]. apply NoDup_cons in Hnd as [Hx Hnd]. cbn in *.
    destruct l2 as [|y l2]; cbn in *; unfold linked in *.
    + rewrite !Hn, !Hp. repeat case_decide; set_solver.
    + apply NoDup_cons in Hnd as [Hy Hnd].
      split_and!; [rewrite ?Hn, ?Hp; repeat case_decide; set_solver..|].
      apply (chain_frame h); [..|naive_solver]; intros w Hw; rewrite ?Hn, ?Hp;
        repeat case_decide; set_solver.
  - cbn [app] in *. destruct Hc as [Haz Hc]. apply NoDup_cons in Hnd as [Hz Hnd].
    rewrite last_cons in Hn, Hp.
    pose proof (last_in z l1). pose proof (hd_in b l2).
    split; [|apply IH; set_solver].
    unfold linked in *. rewrite Hn, Hp. repeat case_decide; set_solver.
Qed.

(** The lists after linking [x] into the list of [hd] between [l1] and [l2]. *)
Lemma rep_attach h h' L hd l1 l2 x :
  rep h L -> L !! hd = Some (l1 ++ l2) -> unlinked L x -> x <> hd ->
  (forall y, nxt h' y = if decide (y = x) then Some (List.hd hd l2)
                        else if decide (y = List.last l1 hd) then Some x else nxt h y) ->
  (forall y, prv h' y = if decide (y = x) then Some (List.last l1 hd)
                        else if decide (y = List.hd hd l2) then Some x else prv h y) ->
  rep h' (attach hd (l1 ++ x :: l2) x L).
Proof.
  intros HR HL Hun Hne Hn Hp. unfold attach.
  assert (x ∉ hd :: l1 ++ l2) as Hx by (intros Hin; destruct (Hun _ _ HL Hin); congruence).
  pose proof (rep_nodup _ _ HR _ _ HL) as [Hhd Hnd]%NoDup_cons.
  assert (List.last l1 hd ∈ hd :: l1 ++ l2) as Hlast
    by (pose proof (last_in hd l1); set_solver).
  assert (List.hd hd l2 ∈ hd :: l1 ++ l2) as Hfirst by (pose proof (hd_in hd l2); set_solver).
  assert (forall hd' l', hd' <> hd -> hd' <> x -> L !! hd' = Some l' ->
            forall y, y ∈ hd' :: l' -> y <> x /\ y ∉ hd :: l1 ++ l2) as Hout.
  { intros hd' l' Hne' Hnx HL' y Hy. split.
    - intros ->. by destruct (Hun _ _ HL' Hy).
    - intros Hy'. by apply Hne', (rep_disj _ _ HR _ _ _ _ y HL' HL). }
  split.
  - intros hd' l'. destruct (decide (hd' = hd)) as [->|Hne'].
    + rewrite lookup_insert_eq. intros [= <-].
      apply (chain_insert h); try done; [by apply (rep_chain _ _ HR)|set_solver].
    + rewrite lookup_insert_ne by done. intros [? HL']%lookup_delete_Some.
      specialize (Hout _ _ Hne' ltac:(done) HL').
      apply (chain_frame h); [..|by apply (rep_chain _ _ HR)]; intros w Hw.
      * destruct (Hout w Hw) as [? Hw']. rewrite Hn, !decide_False by congruence. done.
      * apply elem_of_rotate in Hw.
        destruct (Hout w Hw) as [? Hw']. rewrite Hp, !decide_False by congruence. done.
  - intros hd' l'. destruct (decide (hd' = hd)) as [->|Hne'].
    + rewrite lookup_insert_eq. intros [= <-].
      rewrite NoDup_cons, NoDup_middle. set_solver.
    + rewrite lookup_insert_ne by done. intros [? HL']%lookup_delete_Some.
      by apply (rep_nodup _ _ HR).
  - intros hd1 l1' hd2 l2' w.
    destruct (decide (hd1 = hd)) as [->|Hne1], (decide (hd2 = hd)) as [->|Hne2]; [done|..];
      rewrite ?lookup_insert_eq, ?lookup_insert_ne by done.
    + intros [= <-] [? HL2]%lookup_delete_Some Hw Hw2.
      destruct (Hout _ _ Hne2 ltac:(done) HL2 w Hw2) as [? []].
      by apply (elem_of_middle x w (hd :: l1)) in Hw as [->|?].
    + intros [? HL1]%lookup_delete_Some [= <-] Hw1 Hw.
      destruct (Hout _ _ Hne1 ltac:(done) HL1 w Hw1) as [? []].
      by apply (elem_of_middle x w (hd :: l1)) in Hw as [->|?].
    + intros [? HL1]%lookup_delete_Some [? HL2]%lookup_delete_Some.
      by apply (rep_disj _ _ HR).
Qed.

(** ** Unlinking a node *)

Lemma lookup_detach_eq x L : detach x L !! x = Some [].
Proof. apply lookup_insert_eq. Qed.

Lemma lookup_detach_ne x y L : y <> x -> detach x L !! y = without x <$> L !! y.
Proof. intros. unfold detach. by rewrite lookup_insert_ne, lookup_fmap by done. Qed.

Lemma lookup_detach_Some x y L l :
  detach x L !! y = Some l ->
  (y = x /\ l = []) \/ (y <> x /\ exists l', L !! y = Some l' /\ l = without x l').
Proof.
  destruct (decide (y = x)) as [->|Hne].
  - rewrite lookup_detach_eq. naive_solver.
  - rewrite lookup_detach_ne by done. destruct (L !! y); naive_solver.
Qed.

Lemma lookup_attach_eq hd l x L : attach hd l x L !! hd = Some l.
Proof. apply lookup_insert_eq. Qed.

Lemma lookup_attach_ne hd l x L y : y <> hd -> y <> x -> attach hd l x L !! y = L !! y.
Proof. intros. unfold attach. by rewrite lookup_insert_ne, lookup_delete_ne by done. Qed.

(** Only the membership part of the list structure matters for these two. *)
Lemma rep_detach_lists h L x :
  rep h L ->
  (forall hd l, detach x L !! hd = Some l -> NoDup (hd :: l)) /\
  (forall hd1 l1 hd2 l2 y, detach x L !! hd1 = Some l1 -> detach x L !! hd2 = Some l2 ->
     y ∈ hd1 :: l1 -> y ∈ hd2 :: l2 -> hd1 = hd2).
Proof.
  intros HR. split.
  - intros hd l [[-> ->]|(Hne & l' & HL & ->)]%lookup_detach_Some.
    { apply NoDup_singleton. }
    apply (rep_nodup _ _ HR) in HL. apply NoDup_cons in HL as [? ?].
    apply NoDup_cons. split; [by rewrite elem_of_without; intros [_ ?]|by apply NoDup_without].
  - intros hd1 l1 hd2 l2 y [[-> ->]|(Hne1 & l1' & HL1 & ->)]%lookup_detach_Some
      [[-> ->]|(Hne2 & l2' & HL2 & ->)]%lookup_detach_Some;
      rewrite ?elem_of_cons, ?elem_of_without, ?elem_of_nil; [naive_solver..|].
    intros Hy1 Hy2. apply (rep_disj _ _ HR _ _ _ _ y HL1 HL2); rewrite elem_of_cons; naive_solver.
Qed.

Lemma rep_detach h h' L hd l1 l2 x :
  rep h L -> L !! hd = Some (l1 ++ x :: l2) ->
  (forall y, nxt h' y = if decide (y = x) then Some x
                        else if decide (y = List.last l1 hd) then Some (List.hd hd l2) else nxt h y) ->
  (forall y, prv h' y = if decide (y = x) then Some x
                        else if decide (y = List.hd hd l2) then Some (List.last l1 hd) else prv h y) ->
  rep h' (detach x L).
Proof.
  intros HR HL Hn Hp.
  destruct (rep_detach_lists h L x HR) as [Hnd' Hdis']. split; [|exact Hnd'|exact Hdis'].
  pose proof (rep_nodup _ _ HR _ _ HL) as [Hhd Hnd]%NoDup_cons.
  assert (List.last l1 hd ∈ hd :: l1 ++ x :: l2) as Hlast
    by (pose proof (last_in hd l1); set_solver).
  assert (List.hd hd l2 ∈ hd :: l1 ++ x :: l2) as Hfirst
    by (pose proof (hd_in hd l2); set_solver).
  intros hd' l' [[-> ->]|(Hne & l'' & HL' & ->)]%lookup_detach_Some.
  - cbn. unfold linked. by rewrite Hn, Hp, !decide_True by done.
  - destruct (decide (hd' = hd)) as [->|Hne'].
    + rewrite HL in HL'. injection HL' as <-. apply NoDup_middle in Hnd as Hnd2.
      rewrite without_middle by set_solver.
      apply (chain_remove h _ _ _ _ _ x); try done. by apply (rep_chain _ _ HR).
    + assert (forall y, y ∈ hd' :: l'' -> y ∉ hd :: l1 ++ x :: l2) as Hout.
      { intros y Hy Hy'. by apply Hne', (rep_disj _ _ HR _ _ _ _ y HL' HL). }
      assert (x ∈ hd :: l1 ++ x :: l2) as Hxin by set_solver.
      rewrite without_not_in by (intros Hx; by apply (Hout x); [apply elem_of_cons; right|]).
      apply (chain_frame h); [..|by apply (rep_chain _ _ HR)]; intros w Hw.
      * apply Hout in Hw. rewrite Hn, !decide_False by congruence. done.
      * apply elem_of_rotate, Hout in Hw. rewrite Hp, !decide_False by congruence. done.
Qed.

(** A memory that agrees on every link holds the same lists. *)
Lemma rep_ext h h' L :
  rep h L -> (forall y, nxt h' y = nxt h y) -> (forall y, prv h' y = prv h y) -> rep h' L.
Proof.
  intros HR Hn Hp. split; [|apply HR..].
  intros hd l HL. apply (chain_frame h); [done..|by apply (rep_chain _ _ HR)].
Qed.

(** A link that was not allocated, now with any pointers. *)
Lemma fresh_unlinked h L x : rep h L -> h !! x = None -> unlinked L x.
Proof. intros HR E hd l HL Hin. destruct (rep_alloc _ _ _ _ _ HR HL Hin) as [? E']. congruence. Qed.

Lemma rep_fresh h L x n : rep h L -> h !! x = None -> rep (<[x := n]> h) L.
Proof.
  intros HR E. split; [|apply HR..]. intros hd l HL.
  assert (forall y, y ∈ hd :: l -> y <> x) as Hne.
  { intros y Hy ->. destruct (rep_alloc _ _ _ _ _ HR HL Hy) as [? E']. congruence. }
  apply (chain_frame h); [..|by apply (rep_chain _ _ HR)]; intros y Hy; [|apply elem_of_rotate in Hy];
    unfold nxt, prv; by rewrite lookup_insert_ne by (apply not_eq_sym, Hne; done).
Qed.

(** ** The operations implement the list operations *)

(** A member of a list has a predecessor: a link that holds a null [node_prev]
    is on no list. *)
Lemma rep_prv h L hd l x : rep h L -> L !! hd = Some l -> x ∈ hd :: l -> prv h x <> None.
Proof.
  intros HR HL Hx. pose proof (rep_chain _ _ HR _ _ HL) as Hc. apply elem_of_cons in Hx as [->|Hx].
  - apply chain_prv in Hc. congruence.
  - apply list_elem_of_split in Hx as (l1 & l2 & ->). apply chain_app in Hc as [Hc _].
    apply chain_prv in Hc. congruence.
Qed.

Lemma prv_None_unlinked h L x : rep h L -> prv h x = None -> unlinked L x.
Proof. intros HR Hp hd l HL Hx. by destruct (rep_prv _ _ _ _ _ HR HL Hx). Qed.

Lemma same_links_intro x y h h' :
  (forall w, alloc h' w <-> alloc h w) -> prv h y <> None ->
  (forall w, w <> x -> w <> y -> prv h' w = prv h w) -> same_links x h h'.
Proof. intros Ha Hy Hp. split; [done|]. intros w Hw E. rewrite Hp; [done|done|congruence]. Qed.

Lemma elem_of_split (x : A) (l : list A) : x ∈ l -> exists l1 l2, l = l1 ++ x :: l2.
Proof. apply list_elem_of_split. Qed.

Lemma wp_DoubleLinkListInsertNodeBefore h L hd l1 l2 x b (Q : unit -> heap -> Prop) :
  rep h L -> L !! hd = Some (l1 ++ l2) -> b = List.hd hd l2 ->
  unlinked L x -> alloc h x -> x <> hd ->
  (forall h', rep h' (attach hd (l1 ++ x :: l2) x L) -> same_links x h h' -> Q tt h') ->
  wp (DoubleLinkListInsertNodeBefore b x) Q h.
Proof.
  intros HR HL -> Hun Hx Hne HQ.
  assert (x ∉ hd :: l1 ++ l2) as Hxl by (intros Hin; destruct (Hun _ _ HL Hin); congruence).
  pose proof (last_in hd l1) as Hla. pose proof (hd_in hd l2) as Hfi.
  apply (wp_insert_before_ptr h _ (List.last l1 hd)); [|..|intros h' Hn' Hp' Ha'].
  - pose proof (rep_chain _ _ HR _ _ HL) as Hc. destruct l2 as [|y l2].
    + rewrite app_nil_r in Hc. by apply chain_prv in Hc.
    + apply chain_app in Hc as [Hc _]. by apply chain_prv in Hc.
  - eapply rep_alloc; [done..|]. set_solver.
  - done.
  - intros ->. set_solver.
  - intros ->. set_solver.
  - apply HQ.
    + apply (rep_attach h); try done. intros y. rewrite Hp'. repeat case_decide; subst; set_solver.
    + apply (same_links_intro x (List.hd hd l2)); [done|eapply rep_prv; [done..|set_solver]|].
      intros w ? ?. by rewrite Hp', !decide_False.
Qed.

Lemma wp_DoubleLinkListInsertNodeAfter h L hd l1 l2 x a (Q : unit -> heap -> Prop) :
  rep h L -> L !! hd = Some (l1 ++ l2) -> a = List.last l1 hd ->
  unlinked L x -> alloc h x -> x <> hd ->
  (forall h', rep h' (attach hd (l1 ++ x :: l2) x L) -> same_links x h h' -> Q tt h') ->
  wp (DoubleLinkListInsertNodeAfter a x) Q h.
Proof.
  intros HR HL -> Hun Hx Hne HQ.
  assert (x ∉ hd :: l1 ++ l2) as Hxl by (intros Hin; destruct (Hun _ _ HL Hin); congruence).
  pose proof (last_in hd l1) as Hla. pose proof (hd_in hd l2) as Hfi.
  apply (wp_insert_after_ptr h _ (List.hd hd l2)); [|..|intros h' Hn' Hp' Ha'].
  - pose proof (rep_chain _ _ HR _ _ HL) as Hc. destruct l1 as [|y l1 _] using rev_ind.
    + by apply chain_nxt in Hc.
    + rewrite <- app_assoc in Hc. apply chain_app in Hc as [_ Hc].
      rewrite List.last_last. by apply chain_nxt in Hc.
  - eapply rep_alloc; [done..|]. set_solver.
  - done.
  - intros ->. set_solver.
  - intros ->. set_solver.
  - apply HQ.
    + apply (rep_attach h); try done. intros y. rewrite Hn'. repeat case_decide; subst; set_solver.
    + apply (same_links_intro x (List.hd hd l2)); [done|eapply rep_prv; [done..|set_solver]|].
      intros w ? ?. by rewrite Hp', !decide_False.
Qed.

Lemma wp_DoubleLinkListRmNode h L x (Q : unit -> heap -> Prop) :
  rep h L -> linked_or_detached L x ->
  (forall h', rep h' (detach x L) -> same_links x h h' -> Q tt h') ->
  wp (DoubleLinkListRmNode x) Q h.
Proof.
  intros HR [HL|(hd & l & HL & Hin)] HQ.
  - pose proof (rep_chain _ _ HR _ _ HL) as [Hn Hp].
    apply (wp_rm_ptr h x x x); eauto using alloc_nxt.
    intros h' Hn' Hp' Ha'. apply HQ.
    2:{ apply (same_links_intro x x); [done|congruence|]. intros w ? ?. by rewrite Hp', !decide_False. }
    replace (detach x L) with L.
    + apply (rep_ext h); [done|..]; intros y; rewrite ?Hn', ?Hp'; repeat case_decide; congruence.
    + apply map_eq. intros y. destruct (decide (y = x)) as [->|Hne]; [by rewrite lookup_detach_eq|].
      rewrite lookup_detach_ne by done. destruct (L !! y) as [l|] eqn:HLy; [|done].
      cbn. rewrite without_not_in; [done|]. intros Hxl.
      apply Hne, (rep_disj _ _ HR _ _ _ _ x HLy HL); set_solver.
  - apply elem_of_split in Hin as (l1 & l2 & ->).
    pose proof (rep_chain _ _ HR _ _ HL) as [Hc1 Hc2]%chain_app.
    pose proof (rep_nodup _ _ HR _ _ HL) as [Hhd [Hx _]%NoDup_middle]%NoDup_cons.
    pose proof (last_in hd l1) as Hla. pose proof (hd_in hd l2) as Hfi.
    apply (wp_rm_ptr h x (List.last l1 hd) (List.hd hd l2)).
    + by apply chain_prv in Hc1.
    + by apply chain_nxt in Hc2.
    + eapply rep_alloc; [done..|]. set_solver.
    + eapply rep_alloc; [done..|]. set_solver.
    + split; intros E; rewrite E in *; set_solver.
    + intros h' Hn' Hp' Ha'. apply HQ; [by apply (rep_detach h h' L hd l1 l2 x)|].
      apply (same_links_intro x (List.hd hd l2)); [done|eapply rep_prv; [done..|set_solver]|].
      intros w ? ?. by rewrite Hp', !decide_False.
Qed.

Lemma wp_InitDoubleLinkList_rep h L p (Q : unit -> heap -> Prop) :
  rep h L -> unlinked L p -> alloc h p ->
  (forall h', rep h' (<[p := []]> L) -> same_links p h h' -> Q tt h') ->
  wp (InitDoubleLinkList p) Q h.
Proof.
  intros HR Hun Hp HQ. apply wp_InitDoubleLinkList; [done|].
  intros h' Hn' Hp' Ha'. apply HQ.
  2:{ split; [done|]. intros y Hy E. by rewrite Hp', decide_False. }
  assert (forall hd l, hd <> p -> L !! hd = Some l -> forall y, y ∈ hd :: l -> y <> p) as Hout.
  { intros hd l Hne HL y Hy ->. by destruct (Hun _ _ HL Hy). }
  split.
  - intros hd l [[<- <-]|[Hne HL]]%lookup_insert_Some.
    + cbn. unfold linked. by rewrite Hn', Hp', !decide_True by done.
    + apply (chain_frame h); [..|by apply (rep_chain _ _ HR)]; intros y Hy;
        [|apply elem_of_rotate in Hy]; rewrite ?Hn', ?Hp', decide_False; eauto.
  - intros hd l [[<- <-]|[Hne HL]]%lookup_insert_Some;
      [apply NoDup_singleton|by apply (rep_nodup _ _ HR)].
  - intros hd1 l1 hd2 l2 y [[<- <-]|[Hne1 HL1]]%lookup_insert_Some
      [[<- <-]|[Hne2 HL2]]%lookup_insert_Some Hy1 Hy2; [done|..].
    + apply list_elem_of_singleton in Hy1 as ->. by destruct (Hout _ _ (not_eq_sym Hne2) HL2 _ Hy2).
    + apply list_elem_of_singleton in Hy2 as ->. by destruct (Hout _ _ (not_eq_sym Hne1) HL1 _ Hy1).
    + by apply (rep_disj _ _ HR _ _ _ _ y HL1 HL2).
Qed.

(** A detached link may be linked in. *)
Lemma detached_unlinked h L x : rep h L -> L !! x = Some [] -> unlinked L x.
Proof.
  intros HR Hx hd l HL Hin. assert (hd = x) as -> by (apply (rep_disj _ _ HR _ _ _ _ x HL Hx); set_solver).
  split; congruence.
Qed.

(** Freeing links. *)
Lemma drop_lookup {X : Type} (xs : list A) (m : gmap A X) y :
  foldr (fun x => delete x) m xs !! y = if bool_decide (y ∈ xs) then None else m !! y.
Proof.
  induction xs as [|x xs IH]; [by rewrite bool_decide_false by apply not_elem_of_nil|]. cbn.
  destruct (decide (y = x)) as [->|Hne]; [by rewrite lookup_delete_eq, bool_decide_true by set_solver|].
  rewrite lookup_delete_ne, IH by done. by rewrite (bool_decide_ext (y ∈ x :: xs) (y ∈ xs)) by set_solver.
Qed.

Lemma rep_drop xs h L :
  rep h L -> (forall x, x ∈ xs -> unlinked L x) ->
  rep (foldr (fun x => delete x) h xs) (foldr (fun x => delete x) L xs).
Proof.
  intros HR Hun.
  assert (forall hd l, foldr (fun x => delete x) L xs !! hd = Some l ->
    L !! hd = Some l /\ forall y, y ∈ hd :: l -> y ∉ xs) as Hl.
  { intros hd l. rewrite drop_lookup. case_bool_decide as Hhd; [done|]. intros HL. split; [done|].
    intros y Hy Hin. by destruct (Hun y Hin hd l HL Hy) as [-> _]. }
  split.
  - intros hd l [HL Hout]%Hl. apply (chain_frame h); [..|by apply (rep_chain _ _ HR)];
      intros y Hy; [|apply elem_of_rotate in Hy]; unfold nxt, prv; by rewrite drop_lookup, bool_decide_false by by apply Hout.
  - intros hd l [HL _]%Hl. by eapply rep_nodup.
  - intros hd1 l1 hd2 l2 x [H1 _]%Hl [H2 _]%Hl. by eapply rep_disj.
Qed.

(** ** Walks *)

(** A list fits in the memory that holds it: the fuel of the walks suffices. *)
Lemma rep_length h L hd l : rep h L -> L !! hd = Some l -> (length l < size h)%nat.
Proof.
  intros HR HL. pose proof (rep_nodup _ _ HR _ _ HL) as Hnd.
  change (length l < size h)%nat with (length (hd :: l) <= size h)%nat.
  rewrite <- (size_dom (D := gset A)), <- (size_list_to_set (C := gset A) (hd :: l)) by done.
  apply subseteq_size. intros y. rewrite elem_of_list_to_set. intros Hy.
  apply elem_of_dom. by eapply rep_alloc.
Qed.

Lemma wp_len_loop h L hd l1 l2 n fuel (Q : Z -> heap -> Prop) :
  rep h L -> L !! hd = Some (l1 ++ l2) -> (length l2 < fuel)%nat ->
  0 <= n -> n + Z.of_nat (length l2) < 2 ^ 32 ->
  Q (n + Z.of_nat (length l2)) h ->
  wp (len_loop fuel hd (List.last l1 hd) n) Q h.
Proof.
  intros HR. revert l1 n fuel. induction l2 as [|x l2 IH]; intros l1 n fuel HL Hf Hn Hlt HQ;
    (destruct fuel as [|fuel]; [cbn in Hf; lia|]); cbn [len_loop];
    pose proof (rep_head_not_member _ _ _ _ HR HL) as Hhd;
    pose proof (last_in hd l1) as Hla;
    (apply wp_bind, wp_get_next; [eapply rep_alloc; [done..|set_solver]|]).
  - assert (nxt h (List.last l1 hd) = Some hd) as ->.
    { destruct l1 as [|y l1 _] using rev_ind; [by apply (rep_first _ _ _ _ HR) in HL|].
      rewrite <- app_assoc in HL. apply (rep_next _ _ _ _ _ _ HR) in HL. by rewrite List.last_last. }
    rewrite bool_decide_true by done. apply wp_ret. cbn in HQ. by rewrite Z.add_0_r in HQ.
  - assert (nxt h (List.last l1 hd) = Some x) as ->.
    { destruct l1 as [|y l1 _] using rev_ind; [by apply (rep_first _ _ _ _ HR) in HL|].
      rewrite <- app_assoc in HL. apply (rep_next _ _ _ _ _ _ HR) in HL. by rewrite List.last_last. }
    rewrite bool_decide_false by (intros [= ->]; set_solver).
    apply wp_bind. eapply wp_deref; [done|].
    cbn [length] in *. replace x with (List.last (l1 ++ [x]) hd) at 1 by apply List.last_last.
    assert (u32 (n + 1) = n + 1) as -> by (apply Z.mod_small; lia).
    apply IH; [by rewrite <- app_assoc|lia..|]. by replace (n + 1 + Z.of_nat (length l2))
      with (n + Z.of_nat (S (length l2))) by lia.
Qed.

(** [DoubleLinkListLenGet] returns the length of the list. *)
Lemma wp_DoubleLinkListLenGet h L hd l (Q : Z -> heap -> Prop) :
  rep h L -> L !! hd = Some l -> Z.of_nat (length l) < 2 ^ 32 ->
  Q (Z.of_nat (length l)) h -> wp (DoubleLinkListLenGet hd) Q h.
Proof.
  intros HR HL Hlt HQ. unfold DoubleLinkListLenGet. wp_steps.
  pose proof (rep_length _ _ _ _ HR HL).
  apply (wp_len_loop h L hd [] l); [done|done|lia|lia|lia|done].
Qed.

(** A walk that stops at the first node of [l] satisfying [P]; the body only
    reads the state [t]. *)
Lemma wp_for_each_until {T : Type} (next : A -> M T (option A)) (stop : A -> M T bool)
    (P : A -> bool) (t : T) h L hd l1 l2 fuel (Q : A -> T -> Prop) :
  rep h L -> L !! hd = Some (l1 ++ l2) ->
  (forall x, x ∈ l2 -> next x t = Ret (nxt h x) t) ->
  (forall x, x ∈ l2 -> stop x t = Ret (P x) t) ->
  (length l2 < fuel)%nat ->
  Q (default hd (snd <$> list_find P l2)) t ->
  wp (for_each_until next stop fuel hd (List.hd hd l2)) Q t.
Proof.
  intros HR. revert l1 fuel Q. induction l2 as [|x l2 IH]; intros l1 fuel Q HL Hnext Hstop Hf HQ;
    (destruct fuel as [|fuel]; [cbn in Hf; lia|]); cbn [for_each_until List.hd].
  - rewrite bool_decide_true by done. exact HQ.
  - pose proof (rep_head_not_member _ _ _ _ HR HL) as Hhd.
    rewrite bool_decide_false by (intros ->; set_solver).
    apply wp_bind. eapply wp_run; [apply Hstop; set_solver|]. cbn in HQ.
    destruct (P x) eqn:HP; cbn beta iota.
    + rewrite decide_True in HQ by done. exact HQ.
    + rewrite decide_False in HQ by auto.
      apply wp_bind. eapply wp_run; [apply Hnext; set_solver|].
      rewrite (rep_next _ _ _ _ _ _ HR HL). apply wp_bind. eapply wp_deref; [done|].
      apply (IH (l1 ++ [x])); [by rewrite <- app_assoc|set_solver..|cbn in Hf; lia|].
      by destruct (list_find (fun y => P y) l2) as [[]|].
Qed.

(** ** Histories of list operations *)

Inductive dl_op : Type :=
| DlInsertBefore (linklist x : A)
| DlInsertAfter (linklist x : A)
| DlRemove (x : A).

Definition run_dl_op (o : dl_op) : M heap unit :=
  match o with
  | DlInsertBefore b x => DoubleLinkListInsertNodeBefore b x
  | DlInsertAfter a x => DoubleLinkListInsertNodeAfter a x
  | DlRemove x => DoubleLinkListRmNode x
  end.

Fixpoint run_dl_ops (os : list dl_op) : M heap unit :=
  match os with
  | [] => mret tt
  | o :: os => run_dl_op o;; run_dl_ops os
  end.

(** The same operations on the lists: a node is put between two neighbours of a
    list, or taken out of the list it is in.  [N] is the set of linkable nodes. *)
Inductive dl_step (N : gset A) (L : gmap A (list A)) : dl_op -> gmap A (list A) -> Prop :=
| dl_before hd l1 l2 x :
    L !! hd = Some (l1 ++ l2) -> unlinked L x -> x ∈ N -> x <> hd ->
    dl_step N L (DlInsertBefore (List.hd hd l2) x) (attach hd (l1 ++ x :: l2) x L)
| dl_after hd l1 l2 x :
    L !! hd = Some (l1 ++ l2) -> unlinked L x -> x ∈ N -> x <> hd ->
    dl_step N L (DlInsertAfter (List.last l1 hd) x) (attach hd (l1 ++ x :: l2) x L)
| dl_remove x :
    linked_or_detached L x -> dl_step N L (DlRemove x) (detach x L).

Inductive dl_steps (N : gset A) : gmap A (list A) -> list dl_op -> gmap A (list A) -> Prop :=
| dl_nil L : dl_steps N L [] L
| dl_cons L o L1 os L2 : dl_step N L o L1 -> dl_steps N L1 os L2 -> dl_steps N L (o :: os) L2.

(** C7: the pointer operations implement the list operations: from a memory that
    holds the lists [L], every history of insertions next to a node and of
    removals that is possible on the lists runs without touching a bad pointer
    and ends in a memory that holds the resulting lists. *)
Theorem DoubleLink_refines_lists N h L os L' :
  rep h L -> (forall x, x ∈ N -> alloc h x) -> dl_steps N L os L' ->
  wp (run_dl_ops os) (fun _ h' => rep h' L') h.
Proof.
  intros HR HN Hs. revert h HR HN. induction Hs as [L|L o L1 os L2 Ho Hs IH]; intros h HR HN; cbn [run_dl_ops].
  { by apply wp_ret. }
  assert (forall h1 x, same_links x h h1 -> forall y, y ∈ N -> alloc h1 y) as HN1
    by (intros h1 x [Ha _] y Hy; by apply Ha, HN).
  apply wp_bind. destruct Ho as [hd l1 l2 x HL Hun Hx Hne|hd l1 l2 x HL Hun Hx Hne|x Hx]; cbn [run_dl_op].
  - eapply (wp_DoubleLinkListInsertNodeBefore h L hd l1 l2); eauto.
  - eapply (wp_DoubleLinkListInsertNodeAfter h L hd l1 l2); eauto.
  - eapply (wp_DoubleLinkListRmNode h L); eauto.
Qed.

(** [DoubleLinkListLenGet] terminates on every well-formed list and returns
    the number of its nodes. *)
Theorem DoubleLinkListLenGet_length h L hd l :
  rep h L -> L !! hd = Some l -> Z.of_nat (length l) < 2 ^ 32 ->
  DoubleLinkListLenGet hd h = Ret (Z.of_nat (length l)) h.
Proof.
  intros HR HL Hlt.
  assert (wp (DoubleLinkListLenGet hd) (fun n h' => n = Z.of_nat (length l) /\ h' = h) h) as Hwp
    by by eapply wp_DoubleLinkListLenGet.
  apply wp_inv in Hwp as (n & h' & -> & -> & ->). done.
Qed.

End DoubleLink.

(** Links 0 (a head), 1 and 2, not yet in a list. *)
Definition dl_memory : gmap Z (node Z) :=
  {[0 := mkNode (Some 0) (Some 0); 1 := mkNode None None; 2 := mkNode None None]}.

Lemma DoubleLink_refines_lists_witness :
  exists h' L', run_dl_ops [DlInsertBefore 0 1; DlInsertAfter 1 2; DlRemove 1] dl_memory = Ret tt h' /\
    rep h' L' /\ L' !! 0 = Some [2].
Proof.
  assert (rep dl_memory {[0 := []]}) as HR.
  { split; intros *; rewrite ?lookup_singleton_Some.
    - intros [<- <-]. by split.
    - intros [<- <-]. apply NoDup_singleton.
    - by intros [<- <-] [<- <-]. }
  assert (dl_steps {[1; 2]} {[0 := []]} [DlInsertBefore 0 1; DlInsertAfter 1 2; DlRemove 1]
    (detach 1 (attach 0 ([1] ++ 2 :: []) 2 (attach 0 ([] ++ 1 :: []) 1 {[0 := []]})))) as Hs.
  { econstructor; [apply (dl_before _ _ 0 [] []); [done| |set_solver|done]|].
    { intros hd l [<- <-]%lookup_singleton_Some Hin. set_solver. }
    econstructor; [apply (dl_after _ _ 0 [1] []); [done| |set_solver|done]|].
    { unfold attach. intros hd l [[<- <-]|[_ [_ [<- <-]%lookup_singleton_Some]%lookup_delete_Some]]%lookup_insert_Some Hin; set_solver. }
    econstructor; [|constructor]. constructor. right. exists 0, [1; 2]. split; [done|set_solver]. }
  destruct (wp_inv _ _ _ (DoubleLink_refines_lists {[1; 2]} dl_memory _ _ _ HR
    ltac:(intros x Hx; assert (x = 1 \/ x = 2) as [-> | ->] by set_solver; by eexists) Hs)) as ([] & h' & E & Hr).
  eexists h', _. split; [exact E|]. split; [exact Hr|]. reflexivity.
Defined.

Lemma DoubleLinkListLenGet_length_witness :
  DoubleLinkListLenGet 0 {[0 := mkNode (Some 1) (Some 1); 1 := mkNode (Some 0) (Some 0)]} =
    Ret 1 {[0 := mkNode (Some 1) (Some 1); 1 := mkNode (Some 0) (Some 0)]}.
Proof.
  apply (DoubleLinkListLenGet_length _ {[0 := [1]]} 0 [1]); [|done|done].
  split; intros *; rewrite ?lookup_singleton_Some.
  - intros [<- <-]. repeat split.
  - intros [<- <-]. apply NoDup_cons. split; [set_solver|apply NoDup_singleton].
  - by intros [<- <-] [<- <-].
Defined.
