(* ===== verification/Bitmap.v ===== *)
(** * The priority bitmap of kernel/thread/bitmap.c

    [PrioCaculate] finds the highest set bit of a 32-bit word with a 256-entry
    table of leading-zero counts. *)

From S2P Require Import Prelude.

Definition LeaderZeroCount : list Z :=
  [8; 7; 6; 6; 5; 5; 5; 5; 4; 4; 4; 4; 4; 4; 4; 4;
   3; 3; 3; 3; 3; 3; 3; 3; 3; 3; 3; 3; 3; 3; 3; 3;
   2; 2; 2; 2; 2; 2; 2; 2; 2; 2; 2; 2; 2; 2; 2; 2;
   2; 2; 2; 2; 2; 2; 2; 2; 2; 2; 2; 2; 2; 2; 2; 2;
   1; 1; 1; 1; 1; 1; 1; 1; 1; 1; 1; 1; 1; 1; 1; 1;
   1; 1; 1; 1; 1; 1; 1; 1; 1; 1; 1; 1; 1; 1; 1; 1;
   1; 1; 1; 1; 1; 1; 1; 1; 1; 1; 1; 1; 1; 1; 1; 1;
   1; 1; 1; 1; 1; 1; 1; 1; 1; 1; 1; 1; 1; 1; 1; 1;
   0; 0; 0; 0; 0; 0; 0; 0; 0; 0; 0; 0; 0; 0; 0; 0;
   0; 0; 0; 0; 0; 0; 0; 0; 0; 0; 0; 0; 0; 0; 0; 0;
   0; 0; 0; 0; 0; 0; 0; 0; 0; 0; 0; 0; 0; 0; 0; 0;
   0; 0; 0; 0; 0; 0; 0; 0; 0; 0; 0; 0; 0; 0; 0; 0;
   0; 0; 0; 0; 0; 0; 0; 0; 0; 0; 0; 0; 0; 0; 0; 0;
   0; 0; 0; 0; 0; 0; 0; 0; 0; 0; 0; 0; 0; 0; 0; 0;
   0; 0; 0; 0; 0; 0; 0; 0; 0; 0; 0; 0; 0; 0; 0; 0;
   0; 0; 0; 0; 0; 0; 0; 0; 0; 0; 0; 0; 0; 0; 0; 0].

(** An index is at most 0xff, so the access is always inside the table; the
    default 0 is never used (see [PrioCaculate_log2]). *)
Definition leader_zero (i : Z) : Z := default 0 (LeaderZeroCount !! Z.to_nat i).

Definition PrioCaculate (bitmap : Z) : Z :=
  if negb (Z.land bitmap 0xff000000 =? 0) then
    31 - leader_zero (Z.shiftr (Z.land bitmap 0xff000000) 24)
  else if negb (Z.land bitmap 0xff0000 =? 0) then
    23 - leader_zero (Z.shiftr (Z.land bitmap 0xff0000) 16)
  else if negb (Z.land bitmap 0xff00 =? 0) then
    15 - leader_zero (Z.shiftr (Z.land bitmap 0xff00) 8)
  else if negb (Z.land bitmap 0xff =? 0) then
    7 - leader_zero (Z.land bitmap 0xff)
  else 0.

(** ** The table *)

Lemma leader_zero_table :
  forallb (fun n => match n with
                    | O => true
                    | _ => leader_zero (Z.of_nat n) =? 7 - Z.log2 (Z.of_nat n)
                    end) (seq 0 256) = true.
Proof. vm_compute. reflexivity. Qed.

Lemma leader_zero_spec b : 0 < b < 256 -> leader_zero b = 7 - Z.log2 b.
Proof.
  intros Hb. pose proof leader_zero_table as Ht. rewrite forallb_forall in Ht.
  specialize (Ht (Z.to_nat b)). rewrite in_seq in Ht. specialize (Ht ltac:(lia)).
  rewrite Z2Nat.id in Ht by lia.
  destruct (Z.to_nat b) eqn:E; [lia|]. lia.
Qed.

Lemma LeaderZeroCount_length : length LeaderZeroCount = 256%nat.
Proof. reflexivity. Qed.

(** ** Bytes of a word *)

Lemma byte_at (b k : Z) : 0 <= k ->
  Z.shiftr (Z.land b (Z.shiftl 255 k)) k = (b / 2 ^ k) mod 256.
Proof.
  intros Hk. rewrite Z.shiftr_land, Z.shiftr_shiftl_l, Z.sub_diag, Z.shiftl_0_r by lia.
  change 255 with (Z.ones 8). rewrite Z.land_ones, Z.shiftr_div_pow2 by lia. done.
Qed.

Lemma byte_at_zero (b k : Z) : 0 <= k ->
  Z.land b (Z.shiftl 255 k) = 0 <-> (b / 2 ^ k) mod 256 = 0.
Proof.
  intros Hk. rewrite <- (byte_at b k Hk). split; [intros ->; apply Z.shiftr_0_l|].
  intros E. apply Z.bits_inj'. intros n Hn. rewrite Z.bits_0.
  destruct (Z.lt_ge_cases n k) as [Hlt|Hge].
  - rewrite Z.land_spec, Z.shiftl_spec_low by lia. apply andb_false_r.
  - replace n with ((n - k) + k) by lia. rewrite <- Z.shiftr_spec, E by lia. apply Z.bits_0.
Qed.

(** The position of the highest bit of a word whose bytes above [k] are zero. *)
Lemma log2_byte (b k : Z) :
  0 <= k -> 0 < b / 2 ^ k < 256 -> 0 <= b -> Z.log2 b = k + Z.log2 (b / 2 ^ k).
Proof.
  intros Hk Hb H0. apply Z.log2_unique; [pose proof (Z.log2_nonneg (b / 2 ^ k)); lia|].
  pose proof (Z.log2_spec (b / 2 ^ k) ltac:(lia)) as Hl.
  pose proof (Z.log2_nonneg (b / 2 ^ k)). pose proof (Z.pow_pos_nonneg 2 k ltac:(lia) Hk).
  pose proof (Z.div_mod b (2 ^ k) ltac:(lia)). pose proof (Z.mod_pos_bound b (2 ^ k) ltac:(lia)).
  rewrite <- Z.add_succ_r, !Z.pow_add_r by lia. nia.
Qed.

(** ** [PrioCaculate] is the base-2 logarithm *)

Lemma prio_byte (b k : Z) :
  0 <= b < 2 ^ (k + 8) -> 0 <= k -> Z.land b (Z.shiftl 255 k) <> 0 ->
  k + 7 - leader_zero (Z.shiftr (Z.land b (Z.shiftl 255 k)) k) = Z.log2 b.
Proof.
  intros Hb Hk Hnz. rewrite byte_at by done. rewrite byte_at_zero in Hnz by done.
  rewrite Z.pow_add_r in Hb by lia. change (2 ^ 8) with 256 in Hb.
  pose proof (Z.pow_pos_nonneg 2 k ltac:(lia) Hk).
  assert (0 <= b / 2 ^ k < 256).
  { split; [apply Z.div_pos; lia|]. apply Z.div_lt_upper_bound; lia. }
  rewrite Z.mod_small in * by lia.
  rewrite leader_zero_spec, (log2_byte b k) by lia. lia.
Qed.

(** Dropping a zero high byte shortens the word. *)
Lemma byte_clear (b k : Z) :
  0 <= b < 2 ^ (k + 8) -> 0 <= k -> Z.land b (Z.shiftl 255 k) = 0 -> 0 <= b < 2 ^ k.
Proof.
  intros Hb Hk Hz. rewrite byte_at_zero in Hz by done. rewrite Z.pow_add_r in Hb by lia.
  change (2 ^ 8) with 256 in Hb. pose proof (Z.pow_pos_nonneg 2 k ltac:(lia) Hk).
  assert (0 <= b / 2 ^ k < 256).
  { split; [apply Z.div_pos; lia|]. apply Z.div_lt_upper_bound; lia. }
  rewrite Z.mod_small in Hz by lia. pose proof (Z.div_mod b (2 ^ k) ltac:(lia)).
  pose proof (Z.mod_pos_bound b (2 ^ k) ltac:(lia)). lia.
Qed.

Lemma PrioCaculate_0 : PrioCaculate 0 = 0.
Proof. reflexivity. Qed.

Lemma PrioCaculate_spec bitmap : 0 <= bitmap < 2 ^ 32 -> PrioCaculate bitmap = Z.log2 bitmap.
Proof.
  intros Hb. unfold PrioCaculate.
  change 0xff000000 with (Z.shiftl 255 24). change 0xff0000 with (Z.shiftl 255 16).
  change 0xff00 with (Z.shiftl 255 8).
  destruct (Z.eqb_spec (Z.land bitmap (Z.shiftl 255 24)) 0) as [E3|E3]; cbn [negb].
  2: { by rewrite <- (prio_byte bitmap 24). }
  apply byte_clear in E3; [|done|done].
  destruct (Z.eqb_spec (Z.land bitmap (Z.shiftl 255 16)) 0) as [E2|E2]; cbn [negb].
  2: { by rewrite <- (prio_byte bitmap 16). }
  apply byte_clear in E2; [|done|done].
  destruct (Z.eqb_spec (Z.land bitmap (Z.shiftl 255 8)) 0) as [E1|E1]; cbn [negb].
  2: { by rewrite <- (prio_byte bitmap 8). }
  apply byte_clear in E1; [|done|done].
  change 0xff with (Z.shiftl 255 0).
  destruct (Z.eqb_spec (Z.land bitmap (Z.shiftl 255 0)) 0) as [E0|E0]; cbn [negb].
  - apply byte_clear in E0; [|done|done]. by replace bitmap with 0 by lia.
  - rewrite <- (prio_byte bitmap 0), Z.shiftr_0_r; [done|lia|lia|done].
Qed.

(** [PrioCaculate] computes the position of the highest set bit of every
    32-bit word, and 0 for the empty one; the table accesses stay in bounds. *)
Theorem PrioCaculate_log2 bitmap :
  0 <= bitmap < 2 ^ 32 -> PrioCaculate bitmap = Z.log2 bitmap.
Proof. apply PrioCaculate_spec. Qed.

Lemma PrioCaculate_log2_witness : 0 <= 0xa0000 < 2 ^ 32 /\ PrioCaculate 0xa0000 = 19.
Proof. split; [lia|]. rewrite PrioCaculate_log2 by lia. reflexivity. Defined.
