(* ===== verification/Ring.v ===== *)
(** * Rings

    A list kept in a buffer of [n] places from [front] on, past the end from its beginning
    on; one place is always free.  Data queues and serial devices are such rings. *)

From S2P Require Import Prelude.

(** Two places at different distances from the front. *)
Lemma mod_distance a i j m : 0 < m -> 0 <= i < m -> 0 <= j < m -> (a + i) mod m = (a + j) mod m -> i = j.
Proof.
  intros Hm Hi Hj E. pose proof (Z.mod_small i m Hi) as Ei. pose proof (Z.mod_small j m Hj) as Ej.
  rewrite <- Ei, <- Ej. replace i with (a + i - a) by lia. replace j with (a + j - a) by lia.
  rewrite Zminus_mod, E, <- Zminus_mod. done.
Qed.

(** The next place of a ring, as the code computes it. *)
Lemma wrap_next a n : 0 <= a < n -> (if n <=? a + 1 then 0 else a + 1) = (a + 1) mod n.
Proof.
  intros Ha. destruct (Z.leb_spec n (a + 1)); [|by rewrite Z.mod_small by lia].
  assert (a + 1 = n) as -> by lia. by rewrite Z.mod_same by lia.
Qed.

Section Ring.
Context {A : Type}.
Implicit Types (buf es : list A).

Record ring (n front : Z) buf es : Prop := {
  ri_front : 0 <= front < n;
  ri_room : Z.of_nat (length es) < n;
  ri_buffer : Z.of_nat (length buf) = n;
  ri_elements : forall i e, es !! i = Some e -> buf !! Z.to_nat ((front + Z.of_nat i) mod n) = Some e;
}.

(** The place behind the last element. *)
Definition ring_end (n front : Z) es : Z := (front + Z.of_nat (length es)) mod n.

Lemma ring_end_bound n front buf es : ring n front buf es -> 0 <= ring_end n front es < n.
Proof. intros []. apply Z.mod_pos_bound. lia. Qed.

Lemma ring_end_next n front es e : (ring_end n front es + 1) mod n = ring_end n front (es ++ [e]).
Proof. unfold ring_end. rewrite Zplus_mod_idemp_l, length_app. f_equal. cbn. lia. Qed.

Lemma ring_front_mod n front buf es : ring n front buf es -> front = (front + 0) mod n.
Proof. intros []. by rewrite Z.add_0_r, Z.mod_small. Qed.

Lemma ring_is_full n front buf es : ring n front buf es -> (ring_end n front es + 1) mod n = front <-> Z.of_nat (length es) + 1 = n.
Proof.
  intros Hr. pose proof Hr as []. unfold ring_end. rewrite Zplus_mod_idemp_l, <- Z.add_assoc. split; [|intros ->].
  - rewrite (ring_front_mod _ _ _ _ Hr) at 2. intros E. destruct (decide (Z.of_nat (length es) + 1 = n)); [done|].
    apply mod_distance in E; lia.
  - rewrite <- (Z.mul_1_l n) at 1. by rewrite Z.mod_add, Z.mod_small by lia.
Qed.

Lemma ring_is_empty n front buf es : ring n front buf es -> front = ring_end n front es <-> es = [].
Proof.
  intros Hr. pose proof Hr as []. unfold ring_end. split; [|intros ->; apply (ring_front_mod _ _ _ _ Hr)].
  rewrite (ring_front_mod _ _ _ _ Hr) at 1. intros E. apply mod_distance in E; [|lia..]. by destruct es.
Qed.

Lemma ring_empty_intro n front buf : 0 <= front < n -> Z.of_nat (length buf) = n -> ring n front buf [].
Proof. intros. split; [done|cbn; lia|done|done]. Qed.

(** Storing an element behind the last one, when there is room for it ... *)
Lemma ring_elements_store n front buf es e i x : ring n front buf es -> (es ++ [e]) !! i = Some x ->
  <[Z.to_nat (ring_end n front es) := e]> buf !! Z.to_nat ((front + Z.of_nat i) mod n) = Some x.
Proof.
  intros Hr Hi. pose proof (ring_end_bound _ _ _ _ Hr). destruct Hr as [Hf Hroom Hb Hes].
  apply lookup_app_Some in Hi as [Hi|[Hge Hi]].
  - pose proof (lookup_lt_Some _ _ _ Hi). rewrite list_lookup_insert_ne; [by apply Hes|]. intros E.
    apply Z2Nat.inj in E; [|lia|apply Z.mod_pos_bound; lia]. apply mod_distance in E; lia.
  - apply list_lookup_singleton_Some in Hi as [Hz <-]. replace (Z.of_nat i) with (Z.of_nat (length es)) by lia.
    apply list_lookup_insert_eq. lia.
Qed.

Lemma ring_store n front buf es e : ring n front buf es -> Z.of_nat (length es) + 1 < n ->
  ring n front (<[Z.to_nat (ring_end n front es) := e]> buf) (es ++ [e]).
Proof.
  intros Hr Hroom. pose proof Hr as []. split; [done|rewrite length_app; cbn; lia|by rewrite length_insert|].
  intros i x. by apply ring_elements_store.
Qed.

(** Taking the first element. *)
Lemma ring_take n front buf e es : ring n front buf (e :: es) ->
  buf !! Z.to_nat front = Some e /\ ring n ((front + 1) mod n) buf es.
Proof.
  intros Hr. pose proof (ring_front_mod _ _ _ _ Hr) as Hf. destruct Hr as [Hb Hl Hlen Hes]. cbn [length] in *. split.
  - rewrite Hf. by apply (Hes 0%nat).
  - split; [apply Z.mod_pos_bound; lia|lia|done|]. intros i x Hi. rewrite Zplus_mod_idemp_l.
    replace (front + 1 + Z.of_nat i) with (front + Z.of_nat (S i)) by lia. by apply Hes.
Qed.

Lemma ring_take_end n front e es : ring_end n ((front + 1) mod n) es = ring_end n front (e :: es).
Proof. unfold ring_end. rewrite Zplus_mod_idemp_l. cbn [length]. f_equal. lia. Qed.

(** ... and when there is none, over the first element. *)
Lemma ring_overwrite n front buf es e : ring n front buf es -> Z.of_nat (length es) + 1 = n ->
  ring n ((front + 1) mod n) (<[Z.to_nat (ring_end n front es) := e]> buf) (tail (es ++ [e])).
Proof.
  intros Hr Hfull. pose proof Hr as []. split; [apply Z.mod_pos_bound; lia| |by rewrite length_insert|].
  - destruct es; cbn [app tail length] in *; rewrite ?length_app; cbn [length]; lia.
  - intros i x Hi. rewrite Zplus_mod_idemp_l. replace (front + 1 + Z.of_nat i) with (front + Z.of_nat (S i)) by lia.
    apply ring_elements_store; [done|]. rewrite <- Hi. by destruct (es ++ [e]).
Qed.

Lemma ring_overwrite_end n front es e : tail (es ++ [e]) = [] \/ ring_end n ((front + 1) mod n) (tail (es ++ [e])) = ring_end n front (es ++ [e]).
Proof.
  destruct es as [|x es]; cbn [app tail]; [by left|right]. apply (ring_take_end n front x (es ++ [e])).
Qed.

(** How many elements there are, as the code computes it. *)
Lemma ring_count n front buf es : ring n front buf es ->
  (if ring_end n front es <? front then n - front + ring_end n front es else ring_end n front es - front) = Z.of_nat (length es).
Proof.
  intros []. unfold ring_end. destruct (Z.lt_ge_cases (front + Z.of_nat (length es)) n).
  - rewrite Z.mod_small by lia. rewrite (proj2 (Z.ltb_ge _ _)) by lia. lia.
  - assert ((front + Z.of_nat (length es)) mod n = front + Z.of_nat (length es) - n) as ->
      by (symmetry; apply Z.mod_unique with 1; lia).
    rewrite (proj2 (Z.ltb_lt _ _)) by lia. lia.
Qed.

(** The last elements of a list. *)
Definition keep_last (m : nat) es : list A := drop (length es - m) es.

Lemma keep_last_length m es : (length (keep_last m es) = min m (length es))%nat.
Proof. unfold keep_last. rewrite length_drop. lia. Qed.

Lemma keep_last_all m es : (length es <= m)%nat -> keep_last m es = es.
Proof. intros H. unfold keep_last. by replace (length es - m)%nat with 0%nat by lia. Qed.

Lemma keep_last_app m es cs : keep_last m (keep_last m es ++ cs) = keep_last m (es ++ cs).
Proof.
  unfold keep_last. rewrite length_app, length_drop, length_app.
  destruct (decide (length es <= m)%nat).
  - replace (length es - m)%nat with 0%nat by lia. cbn [drop]. f_equal. lia.
  - rewrite <- (drop_app_le es cs (length es - m)) by lia. rewrite drop_drop. f_equal. lia.
Qed.
End Ring.
