(* ===== verification/AvlTree.v ===== *)
(** * The AVL tree of kernel/thread/avl_tree.c

    A tree of [struct AvlNode] has no sharing, so it is an inductive tree and the
    in-place updates are constructor applications.  Heights are unbounded
    integers: a tree deep enough to wrap the 32-bit height needs more nodes than
    the address space holds.  A rotation that reads through a null child faults
    ([None]). *)

From S2P Require Import Prelude.

Inductive AvlNode : Type :=
| NONE
| Node (data height : Z) (l r : AvlNode).

Definition AVL_MAX (a b : Z) : Z := if b <? a then a else b.
Definition AVL_ABS (a : Z) : Z := if 0 <? a then a else - a.

Fixpoint AvlTreeGetNodeHeight (avl_node : AvlNode) : Z :=
  match avl_node with
  | NONE => 0
  | Node _ _ l r => AVL_MAX (AvlTreeGetNodeHeight l) (AvlTreeGetNodeHeight r) + 1
  end.

Definition AvlTreeGetNodeBalanceFactor (avl_node : AvlNode) : Z :=
  match avl_node with
  | NONE => 0
  | Node _ _ l r => AvlTreeGetNodeHeight l - AvlTreeGetNodeHeight r
  end.

Definition left_of (t : AvlNode) : AvlNode := match t with NONE => NONE | Node _ _ l _ => l end.
Definition right_of (t : AvlNode) : AvlNode := match t with NONE => NONE | Node _ _ _ r => r end.

(** The height field a rotation stores in a node with these children. *)
Definition height_of (l r : AvlNode) : Z :=
  AVL_MAX (AvlTreeGetNodeHeight l) (AvlTreeGetNodeHeight r) + 1.

Definition AvlTreeSetRightRotate (avl_node : AvlNode) : option AvlNode :=
  match avl_node with
  | Node data _ (Node ldata _ lleft lright) r =>
      let avl_node' := Node data (height_of lright r) lright r in
      Some (Node ldata (height_of lleft avl_node') lleft avl_node')
  | _ => None
  end.

Definition AvlTreeSetLeftRotate (avl_node : AvlNode) : option AvlNode :=
  match avl_node with
  | Node data _ l (Node rdata _ rleft rright) =>
      let avl_node' := Node data (height_of l rleft) l rleft in
      Some (Node rdata (height_of avl_node' rright) avl_node' rright)
  | _ => None
  end.

Definition AvlTreeSetLRRotate (avl_node : AvlNode) : option AvlNode :=
  match avl_node with
  | Node data height l r =>
      l' ← AvlTreeSetLeftRotate l;
      AvlTreeSetRightRotate (Node data height l' r)
  | NONE => None
  end.

Definition AvlTreeSetRLRotate (avl_node : AvlNode) : option AvlNode :=
  match avl_node with
  | Node data height l r =>
      r' ← AvlTreeSetRightRotate r;
      AvlTreeSetLeftRotate (Node data height l r')
  | NONE => None
  end.

Definition AvlTreeBalance (avl_node : AvlNode) : option AvlNode :=
  match avl_node with
  | NONE => Some NONE
  | Node _ _ l r =>
      let avlnode_BF := AVL_ABS (AvlTreeGetNodeBalanceFactor avl_node) in
      if 1 <? avlnode_BF then
        if 0 <? AvlTreeGetNodeBalanceFactor l then AvlTreeSetRightRotate avl_node
        else if AvlTreeGetNodeBalanceFactor l <? 0 then AvlTreeSetLRRotate avl_node
        else if AvlTreeGetNodeBalanceFactor r <? 0 then AvlTreeSetLeftRotate avl_node
        else if 0 <? AvlTreeGetNodeBalanceFactor r then AvlTreeSetRLRotate avl_node
        else Some NONE
      else Some avl_node
  end.

(** [malloc_ok] is the success of the one [x_malloc] an insertion makes. *)
Fixpoint AvlTreeInsertNode (malloc_ok : bool) (avl_node : AvlNode) (data : Z) : option AvlNode :=
  match avl_node with
  | NONE => if malloc_ok then AvlTreeBalance (Node data 1 NONE NONE) else Some NONE
  | Node d height l r =>
      if data =? d then Some avl_node
      else if d <? data then
        r' ← AvlTreeInsertNode malloc_ok r data;
        match r' with
        | NONE => Some NONE
        | _ => AvlTreeBalance (Node d height l r')
        end
      else
        l' ← AvlTreeInsertNode malloc_ok l data;
        match l' with
        | NONE => Some NONE
        | _ => AvlTreeBalance (Node d height l' r)
        end
  end.

(** [while (pre_node->right) pre_node = pre_node->right]: the data of the
    rightmost node. *)
Fixpoint rightmost (d : Z) (r : AvlNode) : Z :=
  match r with NONE => d | Node d' _ _ r => rightmost d' r end.

Definition AvlTreeFindPreNode (avl_node : AvlNode) : option Z :=
  match avl_node with
  | NONE => None
  | Node d _ NONE _ => Some d
  | Node _ _ (Node ld _ _ NONE) _ => Some ld
  | Node _ _ (Node _ _ _ (Node lrd _ _ lrr)) _ => Some (rightmost lrd lrr)
  end.

(** [delete_left] is the recursive [AvlTreeDeleteNode(avl_node->left, _)]. *)
Definition AvlTreeDeleteLeafNode (delete_left : Z -> option AvlNode) (avl_node : AvlNode)
  : option AvlNode :=
  match avl_node with
  | NONE => None
  | Node _ _ NONE NONE => Some NONE
  | Node _ height NONE (Node rd _ _ _) => Some (Node rd height NONE NONE)
  | Node _ height (Node ld _ _ _) NONE => Some (Node ld height NONE NONE)
  | Node _ height (Node _ _ _ _) r =>
      pre ← AvlTreeFindPreNode avl_node;
      l' ← delete_left pre;
      Some (Node pre height l' r)
  end.

Fixpoint AvlTreeDeleteNode (avl_node : AvlNode) (data : Z) : option AvlNode :=
  match avl_node with
  | NONE => Some NONE
  | Node d height l r =>
      avl_node' ←
        (if data =? d then AvlTreeDeleteLeafNode (AvlTreeDeleteNode l) avl_node
         else if d <? data then
           r' ← AvlTreeDeleteNode r data; Some (Node d height l r')
         else
           l' ← AvlTreeDeleteNode l data; Some (Node d height l' r));
      AvlTreeBalance avl_node'
  end.

Definition AvlNodeModifyNode (malloc_ok : bool) (avl_node : AvlNode) (src_data dst_data : Z)
  : option AvlNode :=
  match avl_node with
  | NONE => Some NONE
  | _ =>
      avl_node' ← AvlTreeDeleteNode avl_node src_data;
      AvlTreeInsertNode malloc_ok avl_node' dst_data
  end.

Fixpoint AvlNodeSearchNode (avl_node : AvlNode) (data : Z) : AvlNode :=
  match avl_node with
  | NONE => NONE
  | Node d _ l r =>
      if data =? d then avl_node
      else if d <? data then AvlNodeSearchNode r data
      else AvlNodeSearchNode l data
  end.

(** ** Order, contents and balance *)

Fixpoint inT (x : Z) (t : AvlNode) : Prop :=
  match t with
  | NONE => False
  | Node d _ l r => x = d \/ inT x l \/ inT x r
  end.

Fixpoint bst (t : AvlNode) : Prop :=
  match t with
  | NONE => True
  | Node d _ l r =>
      (forall x, inT x l -> x < d) /\ (forall x, inT x r -> d < x) /\ bst l /\ bst r
  end.

Abbreviation H := AvlTreeGetNodeHeight.
Abbreviation BF := AvlTreeGetNodeBalanceFactor.

Fixpoint avl (t : AvlNode) : Prop :=
  match t with
  | NONE => True
  | Node _ _ l r => -1 <= H l - H r <= 1 /\ avl l /\ avl r
  end.

(** On the search path of [data], every left sibling passed by is evenly
    balanced. *)
Fixpoint left_siblings_even (t : AvlNode) (data : Z) : Prop :=
  match t with
  | NONE => True
  | Node d _ l r =>
      if data =? d then True
      else if d <? data then BF l = 0 /\ left_siblings_even r data
      else left_siblings_even l data
  end.

Lemma AVL_MAX_max a b : AVL_MAX a b = Z.max a b.
Proof. unfold AVL_MAX. destruct (Z.ltb_spec b a); lia. Qed.

Lemma AVL_ABS_abs a : AVL_ABS a = Z.abs a.
Proof. unfold AVL_ABS. destruct (Z.ltb_spec 0 a); lia. Qed.

Lemma H_Node d h l r : H (Node d h l r) = Z.max (H l) (H r) + 1.
Proof. cbn. by rewrite AVL_MAX_max. Qed.

Lemma H_nonneg t : 0 <= H t.
Proof. induction t; [done|]. rewrite H_Node. lia. Qed.

Lemma H_zero t : H t <= 0 <-> t = NONE.
Proof.
  destruct t as [|d h l r]; [done|]. rewrite H_Node. pose proof (H_nonneg l).
  pose proof (H_nonneg r). split; [lia|done].
Qed.

Lemma BF_Node d h l r : BF (Node d h l r) = H l - H r.
Proof. done. Qed.

(** ** Rotations keep the contents and the order *)

Definition same (t t' : AvlNode) : Prop :=
  (forall x, inT x t' <-> inT x t) /\ (bst t -> bst t').

Lemma right_rotate_same t t' : AvlTreeSetRightRotate t = Some t' -> same t t'.
Proof.
  destruct t as [|d h [|ld lh ll lr] r]; try done. intros [= <-]. split; cbn; [tauto|].
  intros (Hl & Hr & (Hll & Hlr & Bll & Blr) & Br). split_and!; auto.
  - intros x [->|[?|?]]; [auto..|]. etrans; [|by apply Hr]. auto.
Qed.

Lemma left_rotate_same t t' : AvlTreeSetLeftRotate t = Some t' -> same t t'.
Proof.
  destruct t as [|d h l [|rd rh rl rr]]; try done. intros [= <-]. split; cbn; [tauto|].
  intros (Hl & Hr & Bl & Hrl & Hrr & Brl & Brr). split_and!; auto.
  - intros x [->|[?|?]]; [auto| |auto]. etrans; [by apply Hl|]. auto.
Qed.

Lemma same_sub d h l r l' r' : same l l' -> same r r' -> same (Node d h l r) (Node d h l' r').
Proof.
  intros [El Bl] [Er Br]. split; cbn.
  - intros x. by rewrite El, Er.
  - intros (? & ? & ? & ?). split_and!; auto; intros x; rewrite ?El, ?Er; auto.
Qed.

Lemma same_refl t : same t t.
Proof. done. Qed.

Lemma same_trans t1 t2 t3 : same t1 t2 -> same t2 t3 -> same t1 t3.
Proof. intros [E1 B1] [E2 B2]. split; [intros x; by rewrite E2, E1|auto]. Qed.

Lemma lr_rotate_same t t' : AvlTreeSetLRRotate t = Some t' -> same t t'.
Proof.
  destruct t as [|d h l r]; [done|]. unfold AvlTreeSetLRRotate.
  intros (l' & Hl & Hr)%bind_Some. eapply same_trans; [|by apply right_rotate_same].
  apply same_sub, same_refl. by apply left_rotate_same.
Qed.

Lemma rl_rotate_same t t' : AvlTreeSetRLRotate t = Some t' -> same t t'.
Proof.
  destruct t as [|d h l r]; [done|]. unfold AvlTreeSetRLRotate.
  intros (r' & Hr & Hl)%bind_Some. eapply same_trans; [|by apply left_rotate_same].
  apply same_sub; [apply same_refl|]. by apply right_rotate_same.
Qed.

(** Rebalancing keeps the contents, or drops the whole subtree. *)
Lemma balance_cases t t' : AvlTreeBalance t = Some t' -> t' = NONE \/ same t t'.
Proof.
  destruct t as [|d h l r]; [intros [= <-]; by left|]. unfold AvlTreeBalance.
  repeat case_match; intros E; try (injection E as <-; auto using same_refl);
    eauto using right_rotate_same, left_rotate_same, lr_rotate_same, rl_rotate_same.
Qed.

(** Rebalancing never reads through a null child. *)
Lemma balance_total t : is_Some (AvlTreeBalance t).
Proof.
  destruct t as [|d h l r]; [eauto|]. unfold AvlTreeBalance.
  repeat case_match; eauto;
    repeat match goal with E : (_ <? _) = true |- _ => apply Z.ltb_lt in E end.
  - destruct l; [done|]. eauto.
  - destruct l as [|ld lh ll lr]; [done|]. rewrite BF_Node in *.
    destruct lr; [|cbn; eauto]. cbn in *. pose proof (H_nonneg ll). lia.
  - destruct r; [done|]. cbn. eauto.
  - destruct r as [|rd rh rl rr]; [done|]. rewrite BF_Node in *.
    destruct rl; [|cbn; eauto]. cbn in *. pose proof (H_nonneg rr). lia.
Qed.

(** ** When rebalancing is an AVL rotation *)

Ltac avl_arith :=
  unfold BF in *; cbn [avl H] in *; unfold height_of in *;
  rewrite ?AVL_MAX_max, ?AVL_ABS_abs in *; try split_and!; try lia; try tauto.

Lemma balance_left_heavy d h l r :
  avl l -> avl r -> H l = H r + 2 -> BF l <> 0 ->
  exists t', AvlTreeBalance (Node d h l r) = Some t' /\ same (Node d h l r) t' /\
             avl t' /\ H t' = H r + 2.
Proof.
  intros Al Ar Hlr Hbf. pose proof (H_nonneg r) as Hr. unfold AvlTreeBalance.
  rewrite BF_Node, AVL_ABS_abs, (proj2 (Z.ltb_lt _ _)) by lia.
  destruct l as [|ld lh ll lr]; [done|]. destruct (Z.ltb_spec 0 (BF (Node ld lh ll lr))).
  - eexists. split; [reflexivity|]. split; [by apply right_rotate_same|]. avl_arith.
  - rewrite (proj2 (Z.ltb_lt _ _)) by lia.
    destruct lr as [|md mh ml mr]; [pose proof (H_nonneg ll); avl_arith|].
    eexists. split; [reflexivity|]. split; [by apply lr_rotate_same|]. avl_arith.
Qed.

Lemma balance_right_heavy d h l r :
  avl l -> avl r -> H r = H l + 2 -> BF l = 0 -> BF r <> 0 ->
  exists t', AvlTreeBalance (Node d h l r) = Some t' /\ same (Node d h l r) t' /\
             avl t' /\ H t' = H l + 2.
Proof.
  intros Al Ar Hlr Hbl Hbr. pose proof (H_nonneg l) as Hl. unfold AvlTreeBalance.
  rewrite BF_Node, AVL_ABS_abs, (proj2 (Z.ltb_lt _ _)), Hbl by lia. cbn [Z.ltb Z.compare].
  destruct r as [|rd rh rl rr]; [done|]. destruct (Z.ltb_spec (BF (Node rd rh rl rr)) 0).
  - eexists. split; [reflexivity|]. split; [by apply left_rotate_same|]. avl_arith.
  - rewrite (proj2 (Z.ltb_lt _ _)) by lia.
    destruct rl as [|md mh ml mr]; [pose proof (H_nonneg rr); avl_arith|].
    eexists. split; [reflexivity|]. split; [by apply rl_rotate_same|]. avl_arith.
Qed.

Lemma balance_even d h l r :
  -1 <= H l - H r <= 1 -> AvlTreeBalance (Node d h l r) = Some (Node d h l r).
Proof.
  intros Hb. unfold AvlTreeBalance. rewrite BF_Node, AVL_ABS_abs.
  by rewrite (proj2 (Z.ltb_ge _ _)) by lia.
Qed.

(** ** Insertion *)

Lemma insert_safe ok t data :
  exists t', AvlTreeInsertNode ok t data = Some t' /\
    (bst t -> bst t' /\ forall x, inT x t' -> x = data \/ inT x t).
Proof.
  induction t as [|d h l IHl r IHr]; cbn [AvlTreeInsertNode].
  { destruct ok; eexists; (split; [reflexivity|]); cbn; naive_solver. }
  destruct (Z.eqb_spec data d) as [->|Hne]; [eexists; split; [reflexivity|]; naive_solver|].
  destruct (Z.ltb_spec d data) as [Hlt|Hge].
  - destruct IHr as (r' & -> & Hr'). cbn.
    destruct r' as [|rd rh rl rr]; [eexists; split; [reflexivity|]; cbn; naive_solver|].
    destruct (balance_total (Node d h l (Node rd rh rl rr))) as [t' Ht']. exists t'.
    split; [done|]. intros (Hl & Hr & Bl & Br). destruct (Hr' Br) as [Br' Ir'].
    destruct (balance_cases _ _ Ht') as [->|[E B]]; [done|].
    split; [apply B; refine (conj _ (conj _ (conj _ _))); auto; intros x [->|?]%Ir'; auto|].
    intros x [->|[?|Hx]]%E; [cbn; auto..|]. apply Ir' in Hx as [->|?]; cbn; auto.
  - destruct IHl as (l' & -> & Hl'). cbn.
    destruct l' as [|ld lh ll lr]; [eexists; split; [reflexivity|]; cbn; naive_solver|].
    destruct (balance_total (Node d h (Node ld lh ll lr) r)) as [t' Ht']. exists t'.
    split; [done|]. intros (Hl & Hr & Bl & Br). destruct (Hl' Bl) as [Bl' Il'].
    destruct (balance_cases _ _ Ht') as [->|[E B]]; [done|].
    split; [apply B; refine (conj _ (conj _ (conj _ _))); auto; intros x [->|?]%Il'; auto; lia|].
    intros x [->|[Hx|?]]%E; [cbn; auto| |cbn; auto]. apply Il' in Hx as [->|?]; cbn; auto.
Qed.

(** What a correct AVL insertion does to the height. *)
Definition avl_grown (t t' : AvlNode) : Prop :=
  H t' = H t \/ (H t' = H t + 1 /\ (t = NONE \/ BF t' <> 0)).

Lemma insert_correct t data :
  avl t -> bst t -> left_siblings_even t data ->
  exists t', AvlTreeInsertNode true t data = Some t' /\ t' <> NONE /\
    avl t' /\ bst t' /\ (forall x, inT x t' <-> x = data \/ inT x t) /\ avl_grown t t'.
Proof.
  induction t as [|d h l IHl r IHr]; cbn [AvlTreeInsertNode avl bst left_siblings_even].
  { intros _ _ _. eexists. split; [reflexivity|]. cbn. split_and!; try done; try tauto.
    right. cbn. auto. }
  intros (Hbf & Al & Ar) (Hl & Hr & Bl & Br) Hev.
  destruct (Z.eqb_spec data d) as [->|Hne].
  { eexists. split; [reflexivity|]. cbn. split_and!; try done; try tauto. by left. }
  destruct (Z.ltb_spec d data) as [Hlt|Hge].
  - destruct Hev as [Hev Hevr]. destruct (IHr Ar Br Hevr) as (r' & -> & Hnn & Ar' & Br' & Ir' & Hg).
    cbn [mbind option_bind].
    assert (bst (Node d h l r')) as Hb.
    { cbn. split_and!; auto. intros x [->|?]%Ir'; auto. }
    assert (forall x, inT x (Node d h l r') <-> x = data \/ inT x (Node d h l r)) as Hin
      by (intros x; cbn; rewrite Ir'; tauto).
    assert (AvlTreeBalance (Node d h l r') = match r' with NONE => Some NONE
      | _ => AvlTreeBalance (Node d h l r') end) as <- by (by destruct r').
    destruct (Z.le_gt_cases (H r') (H l + 1)) as [Hle|Hgt].
    + rewrite balance_even by (destruct Hg; lia). eexists. split; [reflexivity|].
      split_and!; [done|cbn; destruct Hg; auto with lia|done|done|].
      unfold avl_grown in *. rewrite !H_Node, BF_Node. lia.
    + destruct Hg as [Hg|[Hg [->|Hg']]]; [lia|cbn in *; pose proof (H_nonneg l); lia|].
      destruct (balance_right_heavy d h l r') as (t' & -> & [Es Bs] & At & Ht); [done..|lia|done|done|].
      exists t'. split_and!; [done| |done|auto|intros x; by rewrite Es|].
      * intros ->. cbn in Ht. pose proof (H_nonneg l). lia.
      * left. rewrite H_Node. lia.
  - destruct (IHl Al Bl Hev) as (l' & -> & Hnn & Al' & Bl' & Il' & Hg). cbn [mbind option_bind].
    assert (bst (Node d h l' r)) as Hb.
    { cbn. split_and!; auto. intros x [->|?]%Il'; auto. lia. }
    assert (forall x, inT x (Node d h l' r) <-> x = data \/ inT x (Node d h l r)) as Hin
      by (intros x; cbn; rewrite Il'; tauto).
    assert (AvlTreeBalance (Node d h l' r) = match l' with NONE => Some NONE
      | _ => AvlTreeBalance (Node d h l' r) end) as <- by (by destruct l').
    destruct (Z.le_gt_cases (H l') (H r + 1)) as [Hle|Hgt].
    + rewrite balance_even by (destruct Hg; lia). eexists. split; [reflexivity|].
      split_and!; [done|cbn; destruct Hg; auto with lia|done|done|].
      unfold avl_grown in *. rewrite !H_Node, BF_Node. lia.
    + destruct Hg as [Hg|[Hg [->|Hg']]]; [lia|cbn in *; pose proof (H_nonneg r); lia|].
      destruct (balance_left_heavy d h l' r) as (t' & -> & [Es Bs] & At & Ht); [done..|lia|done|].
      exists t'. split_and!; [done| |done|auto|intros x; by rewrite Es|].
      * intros ->. cbn in Ht. pose proof (H_nonneg r). lia.
      * left. rewrite H_Node. lia.
Qed.

(** ** Deletion *)

Lemma rightmost_spec d h l r :
  bst (Node d h l r) ->
  inT (rightmost d r) (Node d h l r) /\ forall x, inT x (Node d h l r) -> x <= rightmost d r.
Proof.
  revert d h l. induction r as [|rd rh rl _ rr IH]; intros d h l (Hl & Hr & Bl & Br).
  - cbn. split; [tauto|]. intros x [->|[Hx|[]]]; [lia|]. specialize (Hl x Hx). lia.
  - destruct (IH _ _ _ Br) as [Hin Hmax]. cbn [rightmost]. split; [right; right; exact Hin|].
    pose proof (Hr rd ltac:(by left)) as Hd. pose proof (Hmax rd ltac:(by left)).
    intros x [->|[Hx|Hx]]; [lia| |auto]. specialize (Hl x Hx). lia.
Qed.

Lemma find_pre_spec d h ld lh ll lr r :
  bst (Node ld lh ll lr) ->
  exists p, AvlTreeFindPreNode (Node d h (Node ld lh ll lr) r) = Some p /\
    inT p (Node ld lh ll lr) /\ forall x, inT x (Node ld lh ll lr) -> x <= p.
Proof.
  intros Hb. exists (rightmost ld lr).
  split; [by destruct lr|]. by apply rightmost_spec with (h := lh) (l := ll).
Qed.

(** [AvlTreeDeleteLeafNode] keeps the order, invents nothing and removes the
    data of the node, given that the recursive call does. *)
Lemma delete_leaf_safe (delete_left : Z -> option AvlNode) d h l r :
  (forall y, exists l', delete_left y = Some l' /\
     (bst l -> bst l' /\ forall x, inT x l' -> inT x l /\ x <> y)) ->
  exists t', AvlTreeDeleteLeafNode delete_left (Node d h l r) = Some t' /\
    (bst (Node d h l r) -> bst t' /\ forall x, inT x t' -> inT x (Node d h l r) /\ x <> d).
Proof.
  intros Hdel. destruct l as [|ld lh ll lr], r as [|rd rh rl rr]; cbn [AvlTreeDeleteLeafNode].
  - eexists. split; [reflexivity|]. cbn. naive_solver.
  - eexists. split; [reflexivity|]. intros (_ & Hr & _ & _). split; [cbn; naive_solver|].
    intros x [->|[[]|[]]]. pose proof (Hr rd ltac:(by left)). split; [cbn; auto|lia].
  - eexists. split; [reflexivity|]. intros (Hl & _ & _ & _). split; [cbn; naive_solver|].
    intros x [->|[[]|[]]]. pose proof (Hl ld ltac:(by left)). split; [cbn; auto|lia].
  - set (l := Node ld lh ll lr) in *. set (r := Node rd rh rl rr) in *.
    assert (is_Some (AvlTreeFindPreNode (Node d h l r))) as [p Hp] by (cbn; destruct lr; eauto).
    rewrite Hp. cbn [mbind option_bind]. destruct (Hdel p) as (l' & -> & Hl').
    eexists. split; [reflexivity|]. intros (Hl & Hr & Bl & Br).
    destruct (find_pre_spec d h ld lh ll lr r Bl) as (p' & Hp' & Hin & Hmax).
    fold l in Hp', Hin, Hmax. rewrite Hp in Hp'. injection Hp' as <-. destruct (Hl' Bl) as [Bl' Il'].
    specialize (Hl p Hin) as Hpd. split.
    + refine (conj _ (conj _ (conj _ _))); auto.
      * intros x [Hx Hne]%Il'. specialize (Hmax x Hx). lia.
      * intros x Hx%Hr. lia.
    + intros x [->|[Hx|Hx]].
      * split; [right; left; exact Hin|lia].
      * apply Il' in Hx as [Hx _]. specialize (Hl x Hx). split; [right; left; exact Hx|lia].
      * specialize (Hr x Hx). split; [right; right; exact Hx|lia].
Qed.

Lemma delete_safe t data :
  exists t', AvlTreeDeleteNode t data = Some t' /\
    (bst t -> bst t' /\ forall x, inT x t' -> inT x t /\ x <> data).
Proof.
  revert data. induction t as [|d h l IHl r IHr]; intros data; cbn [AvlTreeDeleteNode].
  { eexists. split; [reflexivity|]. cbn. naive_solver. }
  assert (exists t1, (if data =? d then AvlTreeDeleteLeafNode (AvlTreeDeleteNode l) (Node d h l r)
     else if d <? data then r' ← AvlTreeDeleteNode r data; Some (Node d h l r')
     else l' ← AvlTreeDeleteNode l data; Some (Node d h l' r)) = Some t1 /\
     (bst (Node d h l r) -> bst t1 /\ forall x, inT x t1 -> inT x (Node d h l r) /\ x <> data))
    as (t1 & -> & Ht1).
  { destruct (Z.eqb_spec data d) as [->|Hne]; [by apply delete_leaf_safe|].
    destruct (Z.ltb_spec d data) as [Hlt|Hge].
    - destruct (IHr data) as (r' & -> & Hr'). eexists. split; [reflexivity|].
      intros (Hl & Hr & Bl & Br). destruct (Hr' Br) as [Br' Ir']. split.
      + refine (conj _ (conj _ (conj _ _))); auto. intros x [? _]%Ir'. auto.
      + intros x [->|[Hx|Hx]]; [split; [by left|lia]| |].
        * specialize (Hl x Hx). split; [by right; left|lia].
        * apply Ir' in Hx as [? ?]. split; [by right; right|done].
    - destruct (IHl data) as (l' & -> & Hl'). eexists. split; [reflexivity|].
      intros (Hl & Hr & Bl & Br). destruct (Hl' Bl) as [Bl' Il']. split.
      + refine (conj _ (conj _ (conj _ _))); auto. intros x [? _]%Il'. auto.
      + intros x [->|[Hx|Hx]]; [split; [by left|lia]| |].
        * apply Il' in Hx as [? ?]. split; [by right; left|done].
        * specialize (Hr x Hx). split; [by right; right|lia]. }
  cbn [mbind option_bind]. destruct (balance_total t1) as [t' Ht']. exists t'. split; [done|].
  intros Hb. destruct (Ht1 Hb) as [B1 I1]. destruct (balance_cases _ _ Ht') as [->|[E B]]; [done|].
  split; [auto|]. intros x Hx. apply I1, E, Hx.
Qed.

Lemma search_spec t data :
  bst t -> (AvlNodeSearchNode t data <> NONE <-> inT data t).
Proof.
  induction t as [|d h l IHl r IHr]; [done|]. intros (Hl & Hr & Bl & Br). cbn.
  destruct (Z.eqb_spec data d) as [->|Hne]; [naive_solver|].
  destruct (Z.ltb_spec d data).
  - rewrite (IHr Br). split; [auto|]. intros [?|[Hx|?]]; [lia| |done]. specialize (Hl _ Hx). lia.
  - rewrite (IHl Bl). split; [auto|]. intros [?|[?|Hx]]; [lia|done|]. specialize (Hr _ Hx). lia.
Qed.

(** ** Properties *)

(** Insert a sequence of data into a tree. *)
Definition insert_all (t : option AvlNode) (l : list Z) : option AvlNode :=
  fold_left (fun t data => t ≫= fun t => AvlTreeInsertNode true t data) l t.

(** Insertion into an AVL-balanced search tree whose left siblings on the
    search path are evenly balanced is a correct AVL insertion: the result is an
    AVL-balanced search tree that holds the old data and the new one. *)
Theorem AvlTreeInsertNode_correct t data :
  avl t -> bst t -> left_siblings_even t data ->
  exists t', AvlTreeInsertNode true t data = Some t' /\ avl t' /\ bst t' /\
    forall x, inT x t' <-> x = data \/ inT x t.
Proof.
  intros Ha Hb He. destruct (insert_correct t data Ha Hb He) as (t' & ? & _ & ? & ? & ? & _); eauto 10.
Qed.

Lemma AvlTreeInsertNode_correct_witness :
  exists t t', insert_all (Some NONE) [2; 1; 3; 4] = Some t /\
    AvlTreeInsertNode true t 5 = Some t' /\ avl t' /\ bst t' /\
    forall x, inT x t' <-> x = 5 \/ inT x t.
Proof.
  eexists. destruct (AvlTreeInsertNode_correct
    (Node 2 1 (Node 1 1 NONE NONE) (Node 3 1 NONE (Node 4 1 NONE NONE))) 5) as (t' & Ht').
  - vm_compute. intuition discriminate.
  - cbn. intuition lia.
  - vm_compute. auto.
  - exists t'. split; [reflexivity|exact Ht'].
Defined.

(** On any search tree, of any shape and with any outcome of the allocation,
    insertion and deletion return (they never read through a null child), keep
    the search order, invent no data, and a deletion leaves no copy of the
    deleted data. *)
Theorem AvlTree_updates_safe t data ok :
  bst t ->
  (exists t', AvlTreeInsertNode ok t data = Some t' /\ bst t' /\
     forall x, inT x t' -> x = data \/ inT x t) /\
  (exists t', AvlTreeDeleteNode t data = Some t' /\ bst t' /\
     forall x, inT x t' -> inT x t /\ x <> data).
Proof.
  intros Hb. destruct (insert_safe ok t data) as (t1 & ? & H1).
  destruct (delete_safe t data) as (t2 & ? & H2).
  destruct (H1 Hb), (H2 Hb). eauto 10.
Qed.

Lemma AvlTree_updates_safe_witness :
  bst (Node 2 1 (Node 1 1 NONE NONE) NONE) /\
  exists t', AvlTreeDeleteNode (Node 2 1 (Node 1 1 NONE NONE) NONE) 2 = Some t' /\ bst t'.
Proof.
  assert (bst (Node 2 1 (Node 1 1 NONE NONE) NONE)) as Hb by (cbn; intuition lia).
  split; [exact Hb|].
  destruct (AvlTree_updates_safe _ 2 true Hb) as [_ (t' & E & B & _)]. eauto.
Defined.

(** [AvlNodeSearchNode] finds data in a search tree exactly when the tree
    holds it. *)
Theorem AvlNodeSearchNode_correct t data :
  bst t -> (AvlNodeSearchNode t data <> NONE <-> inT data t).
Proof. apply search_spec. Qed.

Lemma AvlNodeSearchNode_correct_witness :
  AvlNodeSearchNode (Node 2 1 (Node 1 1 NONE NONE) NONE) 1 <> NONE.
Proof. apply AvlNodeSearchNode_correct; cbn; intuition lia. Defined.

(** Rebalancing tests the left child before it looks at which side is too
    high, and answers NULL when neither child leans: inserting twelve distinct
    data into an empty tree, and deleting one of five data, return an
    empty tree although every insertion succeeded. *)
Theorem AvlTreeBalance_loses_tree :
  insert_all (Some NONE) [30; 20; 70; 10; 50; 90; 40; 60; 80; 100; 110; 25] = Some NONE /\
  insert_all (Some NONE) [1; 2; 3; 4; 5] ≫= (fun t => AvlTreeDeleteNode t 1) = Some NONE.
Proof. vm_compute. auto. Qed.
