(* ===== verification/CircularArea.v ===== *)
(** * The circular area of kernel/thread/circular_area.c

    The descriptor keeps its read and write positions in [uint8] fields; stores
    into them wrap.  [data_buffer] is the list of its bytes, and [memcpy] faults
    when it leaves a buffer. *)

From S2P Require Import Prelude.

Record CircularArea : Type := mkArea {
  data_buffer : list Z;
  readidx : Z;      (* uint8 *)
  writeidx : Z;     (* uint8 *)
  area_length : Z;  (* uint32 *)
  b_status : bool;
}.

Definition set_readidx (v : Z) (a : CircularArea) : CircularArea :=
  mkArea (data_buffer a) (u8 v) (writeidx a) (area_length a) (b_status a).
Definition set_writeidx (v : Z) (a : CircularArea) : CircularArea :=
  mkArea (data_buffer a) (readidx a) (u8 v) (area_length a) (b_status a).
Definition set_b_status (v : bool) (a : CircularArea) : CircularArea :=
  mkArea (data_buffer a) (readidx a) (writeidx a) (area_length a) v.
Definition set_data_buffer (v : list Z) (a : CircularArea) : CircularArea :=
  mkArea v (readidx a) (writeidx a) (area_length a) (b_status a).

(** [memcpy] out of a buffer, from byte [off]. *)
Definition memcpy_from {S : Type} (buf : list Z) (off n : Z) : M S (list Z) :=
  if (0 <=? off) && (off + n <=? Z.of_nat (length buf))
  then mret (take (Z.to_nat n) (drop (Z.to_nat off) buf)) else fault.

(** [memcpy] into the data buffer, at byte [off]. *)
Definition memcpy_to (off : Z) (src : list Z) : M CircularArea unit :=
  a ← get;
  if (0 <=? off) && (off + Z.of_nat (length src) <=? Z.of_nat (length (data_buffer a)))
  then modify (set_data_buffer (list_inserts (Z.to_nat off) src (data_buffer a))) else fault.

Definition CircularAreaIsFull : M CircularArea bool :=
  gets (fun a => (readidx a =? writeidx a) && b_status a).

Definition CircularAreaIsEmpty : M CircularArea bool :=
  gets (fun a => (readidx a =? writeidx a) && negb (b_status a)).

Definition CircularAreaReset : M CircularArea unit :=
  modify (set_writeidx 0);; modify (set_readidx 0);; modify (set_b_status false).

Definition CircularAreaGetMaxLength : M CircularArea Z := gets area_length.

(** The sum is computed in 32 bits; a zero length divides by zero. *)
Definition CircularAreaGetDataLength : M CircularArea Z :=
  full ← CircularAreaIsFull;
  a ← get;
  if (full : bool) then mret (area_length a)
  else if area_length a =? 0 then fault
  else mret (u32 (writeidx a - readidx a + area_length a) mod area_length a).

Definition CircularAreaDivideRdData (data_length : Z) : M CircularArea bool :=
  gets (fun a => negb (u32 (readidx a + data_length) <=? area_length a)).

Definition CircularAreaDivideWrData (data_length : Z) : M CircularArea bool :=
  gets (fun a => negb (u32 (writeidx a + data_length) <=? area_length a)).

(** The bytes delivered to [output_buffer] are returned beside the code. *)
Definition CircularAreaRead (data_length : Z) : M CircularArea (Z * list Z) :=
  CHECK (0 <? data_length);;
  empty ← CircularAreaIsEmpty;
  if (empty : bool) then mret (ERROR, [])
  else
    avail ← CircularAreaGetDataLength;
    data_length ← mret (if avail <? data_length then avail else data_length);
    divide ← CircularAreaDivideRdData data_length;
    a ← get;
    out ← (if (divide : bool) then
             let read_len_up := u32 (area_length a - readidx a) in
             let read_len_down := u32 (data_length - read_len_up) in
             up ← memcpy_from (data_buffer a) (readidx a) read_len_up;
             down ← memcpy_from (data_buffer a) 0 read_len_down;
             modify (set_readidx read_len_down);;
             mret (up ++ down)
           else
             out ← memcpy_from (data_buffer a) (readidx a) data_length;
             modify (set_readidx (u32 (readidx a + data_length) mod area_length a));;
             mret out);
    modify (set_b_status false);;
    mret (EOK, out).

Definition CircularAreaWrite (input_buffer : list Z) (data_length : Z) (b_force : bool)
  : M CircularArea Z :=
  CHECK (0 <? data_length);;
  full ← CircularAreaIsFull;
  if full && negb b_force then mret ERROR
  else
    used ← CircularAreaGetDataLength;
    a ← get;
    let write_data_length := u32 (area_length a - used) in
    let data_length := if write_data_length <? data_length then write_data_length else data_length in
    divide ← CircularAreaDivideWrData data_length;
    (if (divide : bool) then
       let write_len_up := u32 (area_length a - writeidx a) in
       let write_len_down := u32 (data_length - write_len_up) in
       up ← memcpy_from input_buffer 0 write_len_up;
       memcpy_to (writeidx a) up;;
       down ← memcpy_from input_buffer write_len_up write_len_down;
       memcpy_to 0 down;;
       modify (set_writeidx write_len_down)
     else
       src ← memcpy_from input_buffer 0 data_length;
       memcpy_to (writeidx a) src;;
       modify (set_writeidx (u32 (writeidx a + data_length) mod area_length a)));;
    modify (set_b_status true);;
    (if b_force then modify (fun a => set_readidx (writeidx a) a) else mret tt);;
    mret EOK.

(** [CircularAreaInit]: [descriptor_ok] and [buffer] are the results of its two
    allocations; the buffer comes with whatever bytes the memory held. *)
Definition CircularAreaInit (MEM_ALIGN_SIZE : Z) (descriptor_ok : bool) (buffer : Z -> option (list Z))
    (circular_area_length : Z) : outcome unit (option CircularArea) :=
  if negb (0 <? circular_area_length) then Hang
  else
    let circular_area_length := ALIGN_MEN_DOWN circular_area_length MEM_ALIGN_SIZE in
    if negb descriptor_ok then Ret None tt
    else match buffer circular_area_length with
         | None => Ret None tt
         | Some bytes => Ret (Some (mkArea bytes 0 0 circular_area_length false)) tt
         end.

(** ** The bytes an area holds, oldest first *)

Definition used (a : CircularArea) : Z :=
  if (readidx a =? writeidx a) && b_status a then area_length a
  else (writeidx a - readidx a + area_length a) mod area_length a.

Definition contents (a : CircularArea) : list Z :=
  take (Z.to_nat (used a)) (drop (Z.to_nat (readidx a)) (data_buffer a ++ data_buffer a)).

(** An area whose length fits the 8-bit positions. *)
Record area_ok (a : CircularArea) : Prop := {
  ok_length : 0 < area_length a <= 256;
  ok_buffer : Z.of_nat (length (data_buffer a)) = area_length a;
  ok_read : 0 <= readidx a < area_length a;
  ok_write : 0 <= writeidx a < area_length a;
}.

Lemma used_bounds a : area_ok a -> 0 <= used a <= area_length a.
Proof.
  intros [? ? ? ?]. unfold used. case_match; [lia|].
  pose proof (Z.mod_pos_bound (writeidx a - readidx a + area_length a) (area_length a)). lia.
Qed.

(** The write position is [used] bytes after the read position. *)
Lemma used_write a : area_ok a -> writeidx a = (readidx a + used a) mod area_length a.
Proof.
  intros [? ? ? ?]. unfold used. destruct (Z.eqb_spec (readidx a) (writeidx a)) as [E|E]; cbn.
  - destruct (b_status a).
    + rewrite <- E, Z.add_mod, Z.mod_same, Z.add_0_r, Z.mod_mod, Z.mod_small; lia.
    + rewrite E, Z.add_mod_idemp_r by lia.
      replace (writeidx a + (writeidx a - writeidx a + area_length a))
        with (writeidx a + 1 * area_length a) by lia.
      rewrite Z.mod_add, Z.mod_small; lia.
  - rewrite Z.add_mod_idemp_r by lia.
    replace (readidx a + (writeidx a - readidx a + area_length a))
      with (writeidx a + 1 * area_length a) by lia.
    rewrite Z.mod_add, Z.mod_small; lia.
Qed.

Lemma contents_length a : area_ok a -> length (contents a) = Z.to_nat (used a).
Proof.
  intros Ha. pose proof (used_bounds a Ha). destruct Ha as [? ? ? ?].
  unfold contents. rewrite length_take, length_drop, length_app. lia.
Qed.

(** Byte [i] of the contents sits [i] positions after the read position. *)
Lemma contents_lookup a i : area_ok a -> 0 <= i < used a ->
  contents a !! Z.to_nat i = data_buffer a !! Z.to_nat ((readidx a + i) mod area_length a).
Proof.
  intros Ha Hi. pose proof (used_bounds a Ha). destruct Ha as [? ? ? ?].
  unfold contents. rewrite lookup_take_lt, lookup_drop by lia.
  destruct (Z.lt_ge_cases (readidx a + i) (area_length a)).
  - rewrite lookup_app_l, Z.mod_small by lia. f_equal. lia.
  - rewrite lookup_app_r by lia.
    replace ((readidx a + i) mod area_length a) with (readidx a + i - area_length a); [f_equal; lia|].
    apply Z.mod_unique with 1; lia.
Qed.

Lemma contents_eq a l : area_ok a -> Z.of_nat (length l) = used a ->
  (forall i, 0 <= i < used a ->
     l !! Z.to_nat i = data_buffer a !! Z.to_nat ((readidx a + i) mod area_length a)) ->
  contents a = l.
Proof.
  intros Ha Hlen Hl. apply list_eq_same_length with (length l); [done| |].
  { rewrite contents_length by done. lia. }
  intros i x y Hi Hx Hy. replace i with (Z.to_nat (Z.of_nat i)) in Hx, Hy by lia.
  rewrite contents_lookup in Hx by (done || lia). rewrite Hl in Hy by lia. congruence.
Qed.

Lemma used_zero a : area_ok a -> used a = 0 <-> readidx a = writeidx a /\ b_status a = false.
Proof.
  intros Ha. pose proof (used_write a Ha) as Hw. destruct Ha as [? ? ? ?].
  unfold used in *. destruct (Z.eqb_spec (readidx a) (writeidx a)) as [E|E]; cbn in *.
  - destruct (b_status a); [naive_solver lia|]. split; [done|intros _].
    replace (writeidx a - readidx a + area_length a) with (area_length a) by lia.
    apply Z.mod_same. lia.
  - split; [|naive_solver]. intros Hz. rewrite Hz, Z.add_0_r, Z.mod_small in Hw; lia.
Qed.

(** The number of bytes between two positions. *)
Lemma used_of a r k : 0 < area_length a -> 0 <= r -> 0 <= k < area_length a ->
  readidx a = r mod area_length a -> writeidx a = (r + k) mod area_length a ->
  b_status a = false \/ 0 < k -> used a = k.
Proof.
  intros Hl Hr Hk Er Ew Hs. unfold used.
  assert ((writeidx a - readidx a + area_length a) mod area_length a = k) as Hmod.
  { rewrite Er, Ew, <- Z.add_mod_idemp_l, Zminus_mod_idemp_l, Zminus_mod_idemp_r by lia.
    replace (r + k - r) with k by lia. rewrite Z.add_mod_idemp_l by lia.
    rewrite <- (Z.mul_1_l (area_length a)) at 1. rewrite Z.mod_add, Z.mod_small; lia. }
  destruct (Z.eqb_spec (readidx a) (writeidx a)) as [E|E]; cbn; [|done].
  destruct (b_status a); [|done]. destruct Hs as [|Hs]; [done|].
  rewrite <- E, Z.sub_diag, Z.add_0_l, Z.mod_same in Hmod; lia.
Qed.

Lemma wp_used a (Q : Z -> CircularArea -> Prop) :
  area_ok a -> Q (used a) a -> wp CircularAreaGetDataLength Q a.
Proof.
  intros [? ? ? ?] HQ. unfold CircularAreaGetDataLength, CircularAreaIsFull. wp_steps.
  unfold used in HQ. case_match; wp_steps; [done|].
  rewrite (proj2 (Z.eqb_neq _ _)) by lia. wp_steps. by rewrite u32_small by lia.
Qed.

Lemma wp_memcpy_from {S : Type} buf off n (Q : list Z -> S -> Prop) s :
  0 <= off -> off + n <= Z.of_nat (length buf) ->
  Q (take (Z.to_nat n) (drop (Z.to_nat off) buf)) s -> wp (memcpy_from buf off n) Q s.
Proof.
  intros. unfold memcpy_from. by rewrite (proj2 (Z.leb_le _ _)), (proj2 (Z.leb_le _ _)) by lia.
Qed.

Lemma wp_memcpy_to off src a (Q : unit -> CircularArea -> Prop) :
  0 <= off -> off + Z.of_nat (length src) <= Z.of_nat (length (data_buffer a)) ->
  Q tt (set_data_buffer (list_inserts (Z.to_nat off) src (data_buffer a)) a) ->
  wp (memcpy_to off src) Q a.
Proof.
  intros. unfold memcpy_to. wp_steps.
  by rewrite (proj2 (Z.leb_le _ _)), (proj2 (Z.leb_le _ _)) by lia.
Qed.

(** ** Reading *)

Lemma take_contents a k : area_ok a -> 0 <= k <= used a ->
  take (Z.to_nat k) (contents a) =
  if readidx a + k <=? area_length a then take (Z.to_nat k) (drop (Z.to_nat (readidx a)) (data_buffer a))
  else drop (Z.to_nat (readidx a)) (data_buffer a) ++
       take (Z.to_nat (readidx a + k - area_length a)) (data_buffer a).
Proof.
  intros Ha Hk. pose proof (used_bounds a Ha). destruct Ha as [? ? ? ?]. unfold contents.
  rewrite take_take, Nat.min_l, drop_app_le by lia. destruct (Z.leb_spec (readidx a + k) (area_length a)).
  - rewrite take_app_le; [done|]. rewrite length_drop. lia.
  - rewrite take_app_ge by (rewrite length_drop; lia). f_equal. f_equal. rewrite length_drop. lia.
Qed.

(** The area after [k] bytes were read. *)
Lemma contents_read a a' k : area_ok a -> 0 < k <= used a ->
  a' = set_b_status false (set_readidx ((readidx a + k) mod area_length a) a) ->
  area_ok a' /\ contents a' = drop (Z.to_nat k) (contents a).
Proof.
  intros Ha Hk Ea'. pose proof (used_bounds a Ha) as Hu. pose proof (used_write a Ha) as Hw.
  pose proof Ha as [? ? ? ?].
  pose proof (Z.mod_pos_bound (readidx a + k) (area_length a) ltac:(lia)) as Hm.
  assert (readidx a' = (readidx a + k) mod area_length a) as Er
    by (subst a'; cbn; rewrite u8_small; lia).
  assert (writeidx a' = writeidx a /\ area_length a' = area_length a /\ b_status a' = false /\
          data_buffer a' = data_buffer a) as (Ew & El & Es & Eb) by by subst a'.
  assert (area_ok a') as Ha' by (split; rewrite ?Er, ?Ew, ?El, ?Eb; lia).
  assert (used a' = used a - k) as Hu'.
  { apply (used_of a' (readidx a + k)); rewrite ?El, ?Er, ?Ew; [lia..|done| |by left].
    rewrite Hw. f_equal. lia. }
  split; [done|]. apply contents_eq; [done|..].
  - rewrite length_drop, contents_length, Hu' by done. lia.
  - intros i Hi. rewrite lookup_drop, <- Z2Nat.inj_add, contents_lookup by (done || lia).
    rewrite Er, Eb, El, Z.add_mod_idemp_l by lia. do 3 f_equal. lia.
Qed.

Lemma CircularAreaRead_wp a n :
  area_ok a -> 0 < n < 2 ^ 32 ->
  wp (CircularAreaRead n)
     (fun '(ret, out) a' => area_ok a' /\ area_length a' = area_length a /\
        if used a =? 0 then ret = ERROR /\ out = [] /\ a' = a
        else ret = EOK /\ out = take (Z.to_nat n) (contents a) /\
             contents a' = drop (Z.to_nat n) (contents a)) a.
Proof.
  intros Ha Hn. pose proof (used_bounds a Ha) as Hu. pose proof (used_zero a Ha) as Hz.
  pose proof (contents_length a Ha) as Hcl. pose proof Ha as [? ? ? ?].
  unfold CircularAreaRead, CircularAreaIsEmpty. apply wp_bind, wp_check; [lia|]. wp_steps.
  destruct (Z.eqb_spec (used a) 0) as [E|E].
  { apply Hz in E as [-> ->]. rewrite Z.eqb_refl. cbn. by wp_steps. }
  assert ((readidx a =? writeidx a) && negb (b_status a) = false) as ->.
  { destruct (Z.eqb_spec (readidx a) (writeidx a)), (b_status a); try done. naive_solver. }
  apply wp_bind, wp_used; [done|]. wp_steps.
  set (k := if used a <? n then used a else n).
  assert (0 < k <= used a /\ take (Z.to_nat n) (contents a) = take (Z.to_nat k) (contents a) /\
          drop (Z.to_nat n) (contents a) = drop (Z.to_nat k) (contents a)) as (Hk & -> & ->).
  { unfold k. destruct (Z.ltb_spec (used a) n); [|split_and!; done || lia].
    split_and!; [lia|lia|..]; [rewrite !take_ge by lia|rewrite !drop_ge by lia]; done. }
  clearbody k. unfold CircularAreaDivideRdData. wp_steps. rewrite (take_contents a k), (u32_small (_ + k)) by (done || lia).
  destruct (contents_read a _ k Ha Hk eq_refl) as [Ha' Hc'].
  destruct (Z.leb_spec (readidx a + k) (area_length a)) as [Hle|Hgt]; cbn [negb].
  - wp_steps. apply wp_memcpy_from; [lia..|]. wp_steps. split_and!; [exact Ha'|done..|exact Hc'].
  - rewrite !(u32_small (area_length a - readidx a)) by lia.
    rewrite !(u32_small (k - _)) by lia.
    wp_steps. apply wp_memcpy_from; [lia..|].
    wp_steps. apply wp_memcpy_from; [lia..|]. wp_steps.
    assert ((readidx a + k) mod area_length a = k - (area_length a - readidx a)) as E'
      by (symmetry; apply Z.mod_unique with 1; lia).
    rewrite E' in Ha', Hc'. split_and!; [exact Ha'|done|done| |exact Hc'].
    rewrite (take_ge (drop _ _)) by (rewrite length_drop; lia). rewrite drop_0. do 3 f_equal. lia.
Qed.

(** ** Writing *)

(** The offset of position [j] from position [w], going round. *)
Definition dist (len w j : Z) : Z := if j <? w then j - w + len else j - w.

Lemma dist_of len r u i : 0 < len -> 0 <= r < len -> 0 <= u <= len -> 0 <= i < len ->
  dist len ((r + u) mod len) ((r + i) mod len) = if i <? u then i - u + len else i - u.
Proof.
  intros. unfold dist.
  assert (forall v, 0 <= v <= len -> (r + v) mod len = if r + v <? len then r + v else r + v - len) as E.
  { intros v Hv. destruct (Z.ltb_spec (r + v) len); [apply Z.mod_small; lia|].
    symmetry. apply Z.mod_unique with 1; lia. }
  rewrite !E by lia. repeat match goal with |- context [?x <? ?y] => destruct (Z.ltb_spec x y) end; lia.
Qed.

(** The area after [k] bytes of [input] were written: the buffer is changed only
    in the [k] positions from the write position on. *)
Lemma contents_write a a' k (input : list Z) :
  area_ok a -> 0 < k <= area_length a - used a -> k <= Z.of_nat (length input) ->
  readidx a' = readidx a -> area_length a' = area_length a -> b_status a' = true ->
  writeidx a' = (writeidx a + k) mod area_length a ->
  length (data_buffer a') = length (data_buffer a) ->
  (forall j, 0 <= j < area_length a ->
     data_buffer a' !! Z.to_nat j =
       if dist (area_length a) (writeidx a) j <? k
       then input !! Z.to_nat (dist (area_length a) (writeidx a) j)
       else data_buffer a !! Z.to_nat j) ->
  area_ok a' /\ contents a' = contents a ++ take (Z.to_nat k) input.
Proof.
  intros Ha Hk Hin Er El Es Ew Hlen Hbuf.
  pose proof (used_bounds a Ha) as Hu. pose proof (used_write a Ha) as Hw. pose proof Ha as [? ? ? ?].
  pose proof (Z.mod_pos_bound (writeidx a + k) (area_length a) ltac:(lia)) as Hm.
  assert (area_ok a') as Ha' by (split; rewrite ?Er, ?Ew, ?El, ?Hlen; lia).
  rewrite Hw, Z.add_mod_idemp_l in Ew by lia.
  assert (used a' = used a + k) as Hu'.
  { destruct (Z.eq_dec (used a + k) (area_length a)) as [E|E].
    - unfold used at 1. replace (readidx a + used a + k) with (readidx a + 1 * area_length a) in Ew by lia.
      rewrite Z.mod_add, Z.mod_small in Ew by lia. by rewrite Er, Ew, Z.eqb_refl, Es, El, E.
    - apply (used_of a' (readidx a)); rewrite ?El; [lia..| | |right; lia].
      + by rewrite Er, Z.mod_small.
      + by rewrite Ew, Z.add_assoc. }
  split; [done|]. apply contents_eq; [done|..].
  - rewrite length_app, length_take, contents_length, Hu' by done. lia.
  - intros i Hi. rewrite Er, El, Hbuf, Hw, dist_of by (lia || apply Z.mod_pos_bound; lia).
    destruct (Z.ltb_spec i (used a)) as [Hlt|Hge].
    + rewrite (proj2 (Z.ltb_ge _ _)), lookup_app_l, contents_lookup by (done || lia ||
        (rewrite contents_length by done; lia)). done.
    + rewrite (proj2 (Z.ltb_lt _ _)), lookup_app_r by (lia || (rewrite contents_length by done; lia)).
      rewrite contents_length, lookup_take_lt by (done || lia). f_equal. lia.
Qed.

(** One [memcpy] that stays below the end of the buffer. *)
Lemma write_once (buf input : list Z) w k j :
  0 <= w -> 0 <= k -> w + k <= Z.of_nat (length buf) -> k <= Z.of_nat (length input) ->
  0 <= j < Z.of_nat (length buf) ->
  list_inserts (Z.to_nat w) (take (Z.to_nat k) input) buf !! Z.to_nat j =
    if dist (Z.of_nat (length buf)) w j <? k
    then input !! Z.to_nat (dist (Z.of_nat (length buf)) w j) else buf !! Z.to_nat j.
Proof.
  intros. unfold dist. destruct (Z.ltb_spec j w).
  - rewrite (proj2 (Z.ltb_ge _ _)), list_lookup_inserts_lt by lia. done.
  - destruct (Z.ltb_spec (j - w) k).
    + rewrite list_lookup_inserts, lookup_take_lt by (rewrite ?length_take; lia). f_equal. lia.
    + rewrite list_lookup_inserts_ge by (rewrite length_take; lia). done.
Qed.

(** Two [memcpy]s, the second one from the start of the buffer. *)
Lemma write_twice (buf input : list Z) w k j :
  let up := Z.of_nat (length buf) - w in
  0 <= w <= Z.of_nat (length buf) -> up < k <= Z.of_nat (length buf) -> k <= Z.of_nat (length input) ->
  0 <= j < Z.of_nat (length buf) ->
  list_inserts 0 (take (Z.to_nat (k - up)) (drop (Z.to_nat up) input))
    (list_inserts (Z.to_nat w) (take (Z.to_nat up) input) buf) !! Z.to_nat j =
    if dist (Z.of_nat (length buf)) w j <? k
    then input !! Z.to_nat (dist (Z.of_nat (length buf)) w j) else buf !! Z.to_nat j.
Proof.
  intros up ? ? ? ?. unfold dist, up in *. destruct (Z.lt_ge_cases j (k - up)) as [Hlt|Hge]; unfold up in *.
  - rewrite list_lookup_inserts, lookup_take_lt, lookup_drop
      by (rewrite ?length_take, ?length_drop, ?length_inserts; lia).
    rewrite (proj2 (Z.ltb_lt j w)), (proj2 (Z.ltb_lt _ _)) by lia. f_equal. lia.
  - rewrite list_lookup_inserts_ge by (rewrite ?length_take, ?length_drop; lia).
    destruct (Z.ltb_spec j w).
    + rewrite (proj2 (Z.ltb_ge _ _)), list_lookup_inserts_lt by lia. done.
    + rewrite (proj2 (Z.ltb_lt _ _)), list_lookup_inserts, lookup_take_lt
        by (rewrite ?length_take; lia). f_equal. lia.
Qed.

Lemma CircularAreaWrite_wp a input n :
  area_ok a -> 0 < n < 2 ^ 32 -> n <= Z.of_nat (length input) ->
  wp (CircularAreaWrite input n false)
     (fun ret a' => area_ok a' /\ area_length a' = area_length a /\
        if used a =? area_length a then ret = ERROR /\ a' = a
        else ret = EOK /\
             contents a' = contents a ++ take (Z.to_nat (Z.min n (area_length a - used a))) input) a.
Proof.
  intros Ha Hn Hin. pose proof (used_bounds a Ha) as Hu. pose proof Ha as [? ? ? ?].
  unfold CircularAreaWrite. apply wp_bind, wp_check; [lia|]. unfold CircularAreaIsFull. wp_steps.
  assert ((readidx a =? writeidx a) && b_status a = (used a =? area_length a)) as ->.
  { unfold used. destruct ((readidx a =? writeidx a) && b_status a); [by rewrite Z.eqb_refl|].
    pose proof (Z.mod_pos_bound (writeidx a - readidx a + area_length a) (area_length a) ltac:(lia)). lia. }
  destruct (Z.eqb_spec (used a) (area_length a)) as [E|E]; cbn [negb andb]; [by wp_steps|].
  apply wp_bind, wp_used; [done|]. wp_steps. rewrite (u32_small (area_length a - used a)) by lia.
  set (k := if area_length a - used a <? n then area_length a - used a else n).
  assert (Z.min n (area_length a - used a) = k) as -> by (unfold k; case_match; lia).
  assert (0 < k <= area_length a - used a /\ k <= n) as [Hk Hkn] by (unfold k; case_match; lia).
  clearbody k. unfold CircularAreaDivideWrData. wp_steps. rewrite !(u32_small (_ + k)) by lia.
  destruct (Z.leb_spec (writeidx a + k) (area_length a)) as [Hle|Hgt]; cbn [negb].
  - wp_steps. apply wp_memcpy_from; [lia..|]. wp_steps. rewrite drop_0.
    apply wp_memcpy_to; [lia|rewrite length_take; lia|]. wp_steps. cbn [negb].
    split_and!; [..|done|].
    all: try apply (contents_write a _ k input); cbn; try done; try lia; rewrite ?length_inserts; try done.
    all: try (rewrite u8_small; [done|pose proof (Z.mod_pos_bound (writeidx a + k) (area_length a)); lia]).
    all: intros j Hj; rewrite <- ok_buffer0; apply write_once; lia.
  - rewrite !(u32_small (area_length a - writeidx a)) by lia. rewrite !(u32_small (k - _)) by lia.
    wp_steps. apply wp_memcpy_from; [lia..|]. wp_steps. rewrite drop_0.
    apply wp_memcpy_to; [lia|rewrite length_take; lia|]. wp_steps.
    apply wp_memcpy_from; [lia..|]. wp_steps.
    apply wp_memcpy_to; [lia|cbn; rewrite length_take, length_drop, length_inserts; lia|]. wp_steps.
    assert ((writeidx a + k) mod area_length a = k - (area_length a - writeidx a)) as E'
      by (symmetry; apply Z.mod_unique with 1; lia).
    split_and!; [..|done|].
    all: try apply (contents_write a _ k input); cbn; try done; try lia; rewrite ?length_inserts; try done.
    all: try (rewrite E', u8_small; [done|lia]).
    all: intros j Hj; rewrite <- ok_buffer0; apply write_twice; lia.
Qed.

Lemma CircularAreaReset_wp a :
  area_ok a ->
  wp CircularAreaReset
     (fun _ a' => area_ok a' /\ area_length a' = area_length a /\ contents a' = []) a.
Proof.
  intros [? ? ? ?]. unfold CircularAreaReset. wp_steps.
  unfold set_writeidx, set_readidx, set_b_status. change (u8 0) with 0. cbn.
  split_and!; [split; cbn; lia|done|]. unfold contents, used. cbn.
  by rewrite Z.add_0_l, Z.mod_same, take_0 by lia.
Qed.

(** ** The area as a bounded byte queue *)

Inductive area_op : Type :=
| OpWrite (input : list Z)
| OpRead (n : Z)
| OpReset.

(** The requests the checks let through: lengths are positive 32-bit numbers. *)
Definition op_ok (o : area_op) : Prop :=
  match o with
  | OpWrite input => 0 < Z.of_nat (length input) < 2 ^ 32
  | OpRead n => 0 < n < 2 ^ 32
  | OpReset => True
  end.

Definition run_op (o : area_op) : M CircularArea (Z * list Z) :=
  match o with
  | OpWrite input => ret ← CircularAreaWrite input (Z.of_nat (length input)) false; mret (ret, [])
  | OpRead n => CircularAreaRead n
  | OpReset => CircularAreaReset;; mret (EOK, [])
  end.

Fixpoint run_ops (os : list area_op) : M CircularArea (list (Z * list Z)) :=
  match os with
  | [] => mret []
  | o :: os => r ← run_op o; rs ← run_ops os; mret (r :: rs)
  end.

(** A queue of at most [cap] bytes: a write appends what fits, a read takes from
    the front; writing to a full queue and reading an empty one fail. *)
Definition spec_op (cap : Z) (q : list Z) (o : area_op) : (Z * list Z) * list Z :=
  match o with
  | OpWrite input =>
      if Z.of_nat (length q) =? cap then ((ERROR, []), q)
      else ((EOK, []), q ++ take (Z.to_nat (cap - Z.of_nat (length q))) input)
  | OpRead n =>
      match q with
      | [] => ((ERROR, []), [])
      | _ => ((EOK, take (Z.to_nat n) q), drop (Z.to_nat n) q)
      end
  | OpReset => ((EOK, []), [])
  end.

Fixpoint spec_ops (cap : Z) (q : list Z) (os : list area_op) : list (Z * list Z) * list Z :=
  match os with
  | [] => ([], q)
  | o :: os =>
      let '(r, q) := spec_op cap q o in
      let '(rs, q) := spec_ops cap q os in (r :: rs, q)
  end.

Lemma run_op_refines a o :
  area_ok a -> op_ok o ->
  wp (run_op o) (fun r a' => area_ok a' /\ area_length a' = area_length a /\
                             spec_op (area_length a) (contents a) o = (r, contents a')) a.
Proof.
  intros Ha Ho. pose proof (contents_length a Ha) as Hl. pose proof (used_bounds a Ha).
  destruct o as [input|n|]; cbn [run_op op_ok spec_op] in *.
  - apply wp_bind. eapply wp_mono; [apply CircularAreaWrite_wp; [done|done|lia]|].
    intros ret a' (Ha' & El & Hr). wp_steps. split_and!; [done..|].
    replace (Z.of_nat (length (contents a))) with (used a) by lia.
    destruct (used a =? area_length a); destruct Hr as [-> Hr]; [by rewrite Hr|].
    rewrite Hr. f_equal. f_equal.
    destruct (Z.le_ge_cases (Z.of_nat (length input)) (area_length a - used a)).
    + rewrite Z.min_l, !take_ge by lia. done.
    + by rewrite Z.min_r by lia.
  - eapply wp_mono; [by apply CircularAreaRead_wp|].
    intros [ret out] a' (Ha' & El & Hr). split_and!; [done..|].
    destruct (Z.eqb_spec (used a) 0) as [E|E].
    + destruct Hr as (-> & -> & ->). by destruct (contents a); [|cbn in Hl; lia].
    + destruct Hr as (-> & -> & ->). by destruct (contents a); [cbn in Hl; lia|].
  - apply wp_bind. eapply wp_mono; [by apply CircularAreaReset_wp|].
    intros _ a' (Ha' & El & Hr). wp_steps. split_and!; [done..|]. by rewrite Hr.
Qed.

(** C25: a circular area of at most 256 bytes implements a bounded byte queue:
    every sequence of (unforced) writes, reads and resets runs to its end and
    returns what the queue returns, and leaves the contents the queue has. *)
Theorem CircularArea_refines_queue a os :
  area_ok a -> Forall op_ok os ->
  wp (run_ops os)
     (fun rs a' => area_ok a' /\ spec_ops (area_length a) (contents a) os = (rs, contents a')) a.
Proof.
  intros Ha Hos. revert a Ha. induction Hos as [|o os Ho Hos IH]; intros a Ha; cbn [run_ops spec_ops].
  { by wp_steps. }
  apply wp_bind. eapply wp_mono; [by apply run_op_refines|].
  intros r a1 (Ha1 & El1 & E1). rewrite E1. apply wp_bind. eapply wp_mono; [by apply IH|].
  intros rs a2 [Ha2 E2]. wp_steps. rewrite <- El1, E2. done.
Qed.

Lemma CircularArea_refines_queue_witness :
  exists rs a', run_ops [OpWrite [1; 2; 3]; OpRead 2; OpWrite [4; 5; 6]; OpRead 9]
                  (mkArea [0; 0; 0; 0] 0 0 4 false) = Ret rs a' /\
    area_ok a' /\ rs = [(EOK, []); (EOK, [1; 2]); (EOK, []); (EOK, [3; 4; 5; 6])].
Proof.
  destruct (wp_inv _ _ _ (CircularArea_refines_queue (mkArea [0; 0; 0; 0] 0 0 4 false)
    [OpWrite [1; 2; 3]; OpRead 2; OpWrite [4; 5; 6]; OpRead 9]
    ltac:(split; cbn; lia) ltac:(repeat constructor; cbn; lia))) as (rs & a' & E & Ha' & Hs).
  exists rs, a'. split; [exact E|]. split; [exact Ha'|]. vm_compute in Hs. by injection Hs as <- _.
Defined.

(** With an area longer than 256 bytes the 8-bit write position wraps: after
    260 bytes were written to a 264-byte area (which answers EOK) only 4 bytes
    can be read back. *)
Theorem CircularArea_long_loses_data :
  exists a', CircularAreaWrite (replicate 260 7) 260 false (mkArea (replicate 264 0) 0 0 264 false)
             = Ret EOK a' /\
  exists a'', CircularAreaRead 260 a' = Ret (EOK, replicate 4 7) a''.
Proof. eexists. split; [vm_compute; reflexivity|]. eexists. vm_compute. reflexivity. Qed.

(** A forced write to a full area stores nothing: it answers EOK and leaves
    the bytes of the area as they were. *)
Theorem CircularAreaWrite_forced_full a input n :
  area_ok a -> used a = area_length a -> 0 < n ->
  CircularAreaWrite input n true a = Ret EOK a.
Proof.
  intros Ha Hfull Hn. pose proof Ha as [? ? ? ?].
  assert (readidx a = writeidx a /\ b_status a = true) as [Er Es].
  { unfold used in Hfull. destruct (Z.eqb_spec (readidx a) (writeidx a)), (b_status a); try done; cbn in *;
      pose proof (Z.mod_pos_bound (writeidx a - readidx a + area_length a) (area_length a) ltac:(lia)); lia. }
  assert (wp (CircularAreaWrite input n true) (fun r a' => r = EOK /\ a' = a) a) as Hwp.
  { unfold CircularAreaWrite. apply wp_bind, wp_check; [lia|]. unfold CircularAreaIsFull. wp_steps.
    rewrite andb_false_r. apply wp_bind, wp_used; [done|]. wp_steps. rewrite Hfull, Z.sub_diag.
    rewrite (proj2 (Z.ltb_lt (u32 0) n)) by (change (u32 0) with 0; lia). change (u32 0) with 0.
    unfold CircularAreaDivideWrData. wp_steps. rewrite Z.add_0_r, !u32_small by lia.
    rewrite (proj2 (Z.leb_le _ _)) by lia. cbn [negb]. wp_steps.
    apply wp_memcpy_from; [lia..|]. wp_steps. change (Z.to_nat 0) with 0%nat. rewrite take_0.
    apply wp_memcpy_to; [lia|cbn [length]; lia|]. wp_steps.
    split; [done|]. rewrite Z.mod_small by lia. destruct a; cbn in *. subst.
    unfold set_readidx, set_writeidx, set_b_status, set_data_buffer. cbn.
    rewrite !u8_small; [done|lia|rewrite u8_small; lia]. }
  apply wp_inv in Hwp as (r & a' & -> & -> & ->). done.
Qed.

Lemma CircularAreaWrite_forced_full_witness :
  CircularAreaWrite [9; 9] 2 true (mkArea [1; 2; 3] 1 1 3 true) = Ret EOK (mkArea [1; 2; 3] 1 1 3 true).
Proof. apply CircularAreaWrite_forced_full; [split; cbn; lia|reflexivity|lia]. Defined.
