(* ===== verification/SingleLink.v ===== *)
(** * Singly linked lists of kernel/thread/single_link.c

    The memory is a finite map from nodes to their [node_next], null as [None].
    [slist m p xs] says that from [p] the links lead through [xs] to null; a list is
    its head node followed by its members.  The walks take one step per node of
    memory, plus one. *)

From S2P Require Import Prelude.

Section SingleLink.
Context {A : Type} `{Countable A}.
Abbreviation memory := (gmap A (option A)).
Implicit Types (m : memory) (p x : A) (xs l : list A).

Definition next_of (p : A) : M memory (option A) := m ← get; deref (m !! p).
Definition next_set (p : A) (v : option A) : M memory unit :=
  m ← get; deref (m !! p);; modify (fun m => <[p := v]> m).

(** ** The operations *)

Definition InitSingleLinkList (linklist : A) : M memory unit := next_set linklist None.

(** [while (node->node_next) node = node->node_next;] *)
Fixpoint to_tail (fuel : nat) (node : A) : M memory A :=
  match fuel with
  | O => hang
  | S fuel => nx ← next_of node; match nx with Some n => to_tail fuel n | None => mret node end
  end.

Definition AppendSingleLinkList (linklist linklist_node : A) : M memory unit :=
  m ← get;
  node ← to_tail (S (size m)) linklist;
  next_set node (Some linklist_node);;
  next_set linklist_node None.

Definition SingleLinkListNodeInsert (linklist linklist_node : A) : M memory unit :=
  nx ← next_of linklist;
  next_set linklist_node nx;;
  next_set linklist (Some linklist_node).

Fixpoint length_loop (fuel : nat) (tmp_list : option A) (length : Z) : M memory Z :=
  match fuel with
  | O => hang
  | S fuel =>
      match tmp_list with
      | None => mret length
      | Some n => nx ← next_of n; length_loop fuel nx (u32 (length + 1))
      end
  end.

Definition SingleLinkListGetLen (linklist : A) : M memory Z :=
  m ← get;
  tmp_list ← next_of linklist;
  length_loop (S (size m)) tmp_list 0.

(** [while (node->node_next && node->node_next != linklist_node) node = node->node_next;] *)
Fixpoint to_before (fuel : nat) (node linklist_node : A) : M memory A :=
  match fuel with
  | O => hang
  | S fuel =>
      nx ← next_of node;
      match nx with
      | Some n => if bool_decide (n = linklist_node) then mret node else to_before fuel n linklist_node
      | None => mret node
      end
  end.

Definition SingleLinkListRmNode (linklist linklist_node : A) : M memory A :=
  m ← get;
  node ← to_before (S (size m)) linklist linklist_node;
  nx ← next_of node;
  (match nx with
   | Some n => nn ← next_of n; next_set node nn
   | None => mret tt
   end);;
  mret linklist.

Definition SingleLinkListGetFirstNode (linklist : A) : M memory (option A) := next_of linklist.
Definition SingleLinkListGetTailNode (linklist : A) : M memory A := m ← get; to_tail (S (size m)) linklist.
Definition SingleLinkListGetNextNode (linklist_node : A) : M memory (option A) := next_of linklist_node.
Definition IsSingleLinkListEmpty (linklist : A) : M memory bool :=
  nx ← next_of linklist; mret (bool_decide (nx = None)).

(** ** What a memory holds *)

(** From [p] the links lead through [xs] to [o]. *)
Fixpoint seg (m : memory) (p : A) (xs : list A) (o : option A) : Prop :=
  match xs with
  | [] => m !! p = Some o
  | x :: xs => m !! p = Some (Some x) /\ seg m x xs o
  end.

Record slist m p xs : Prop := { sl_seg : seg m p xs None; sl_nodup : NoDup (p :: xs) }.

Lemma seg_app m p xs y ys o : seg m p (xs ++ y :: ys) o <-> seg m p xs (Some y) /\ seg m y ys o.
Proof. revert p. induction xs as [|x xs IH]; intros p; cbn; [done|]. rewrite IH. naive_solver. Qed.

Lemma seg_next m p xs : seg m p xs None -> m !! p = Some (head xs).
Proof. destruct xs; [done|]. by intros [? _]. Qed.

Lemma seg_frame m p xs o q v : q ∉ p :: xs -> seg (<[q := v]> m) p xs o <-> seg m p xs o.
Proof.
  revert p. induction xs as [|x xs IH]; intros p Hq; cbn; (rewrite lookup_insert_ne by set_solver); [done|].
  rewrite IH by set_solver. done.
Qed.

Lemma seg_alloc m p xs o x : seg m p xs o -> x ∈ p :: xs -> is_Some (m !! x).
Proof.
  revert p. induction xs as [|y xs IH]; intros p; cbn; intros Hs Hx.
  - apply list_elem_of_singleton in Hx as ->. by eexists.
  - destruct Hs as [? Hs]. apply elem_of_cons in Hx as [->|Hx]; [by eexists|by apply (IH y)].
Qed.

Lemma seg_length m p xs o : seg m p xs o -> NoDup (p :: xs) -> (length xs < size m)%nat.
Proof.
  intros Hs Hnd. rewrite <- (size_dom (D := gset A)). change (length (p :: xs) <= size (dom (D := gset A) m))%nat.
  rewrite <- (size_list_to_set (C := gset A) (p :: xs)) by done. apply subseteq_size. intros x Hx.
  apply elem_of_list_to_set in Hx. apply elem_of_dom. by eapply seg_alloc.
Qed.

(** Redirecting the last link. *)
Lemma seg_retarget m p xs o o' : seg m p xs o -> NoDup (p :: xs) -> seg (<[List.last xs p := o']> m) p xs o'.
Proof.
  revert p. induction xs as [|x xs IH]; intros p Hs Hnd; cbn [seg].
  - apply lookup_insert_eq.
  - apply NoDup_cons in Hnd as [Hp Hnd]. destruct Hs as [Hs1 Hs2]. rewrite last_cons. split; [|by apply IH].
    rewrite lookup_insert_ne; [done|]. intros E. apply Hp. rewrite <- E. apply last_in.
Qed.

(** ** Rules *)

Lemma wp_next_of m p v (Q : option A -> memory -> Prop) : m !! p = Some v -> Q v m -> wp (next_of p) Q m.
Proof. intros E HQ. unfold next_of. wp_steps. rewrite E. by wp_steps. Qed.

Lemma wp_next_set m p v (Q : unit -> memory -> Prop) :
  is_Some (m !! p) -> Q tt (<[p := v]> m) -> wp (next_set p v) Q m.
Proof. intros [w E] HQ. unfold next_set. wp_steps. rewrite E. by wp_steps. Qed.

Lemma wp_to_tail m p xs fuel (Q : A -> memory -> Prop) :
  seg m p xs None -> (length xs < fuel)%nat -> Q (List.last xs p) m -> wp (to_tail fuel p) Q m.
Proof.
  revert p fuel. induction xs as [|x xs IH]; intros p fuel Hs Hf HQ; (destruct fuel as [|fuel]; [cbn in Hf; lia|]); cbn [to_tail]; wp_steps.
  - by eapply wp_next_of.
  - destruct Hs as [Hp Hs]. eapply wp_next_of; [exact Hp|]. apply (IH x); [done|cbn in Hf; lia|].
    by rewrite last_cons in HQ.
Qed.

Lemma wp_length_loop m o xs n fuel (Q : Z -> memory -> Prop) :
  match o with Some x => exists ys, xs = x :: ys /\ seg m x ys None | None => xs = [] end ->
  (length xs < fuel)%nat -> Q (u32 (n + Z.of_nat (length xs))) m -> n = u32 n -> wp (length_loop fuel o n) Q m.
Proof.
  revert o xs n. induction fuel as [|fuel IH]; intros o xs n Ho Hf HQ Hn; [lia|]. cbn [length_loop].
  destruct o as [x|].
  - destruct Ho as (ys & -> & Hs). wp_steps. eapply wp_next_of; [by apply seg_next|].
    apply (IH _ ys).
    + destruct ys as [|y ys]; [done|]. cbn. exists ys. by destruct Hs.
    + cbn in Hf. lia.
    + unfold u32 in *. rewrite Z.add_mod_idemp_l by done. cbn [length] in HQ. by replace (n + 1 + Z.of_nat (length ys)) with (n + Z.of_nat (S (length ys))) by lia.
    + unfold u32. by rewrite Z.mod_mod.
  - subst xs. apply wp_ret. cbn in HQ. by rewrite Z.add_0_r, <- Hn in HQ.
Qed.

(** The walk of the removal ends before [n], or at the tail. *)
Lemma wp_to_before m p xs n fuel (Q : A -> memory -> Prop) :
  seg m p xs None -> (length xs < fuel)%nat ->
  (n ∉ xs -> Q (List.last xs p) m) ->
  (forall l1 l2, xs = l1 ++ n :: l2 -> n ∉ l1 -> Q (List.last l1 p) m) ->
  wp (to_before fuel p n) Q m.
Proof.
  revert p fuel. induction xs as [|x xs IH]; intros p fuel Hs Hf HQ1 HQ2; (destruct fuel as [|fuel]; [cbn in Hf; lia|]); cbn [to_before]; wp_steps.
  - eapply wp_next_of; [done|]. apply wp_ret, HQ1. set_solver.
  - destruct Hs as [Hp Hs]. eapply wp_next_of; [exact Hp|]. cbn beta iota. destruct (bool_decide_reflect (x = n)) as [E|E].
    + apply wp_ret. apply (HQ2 [] xs); [by rewrite E|apply not_elem_of_nil].
    + apply (IH x); [done|cbn in Hf; lia|..].
      * intros Hn. rewrite <- (last_cons _ p). apply HQ1. set_solver.
      * intros l1 l2 -> Hn. rewrite <- (last_cons _ p). apply (HQ2 (x :: l1) l2); [done|set_solver].
Qed.

(** ** Histories on one list *)

Inductive sl_op : Type :=
| SlAppend (x : A)
| SlInsert (after x : A)  (* SingleLinkListNodeInsert behind the head or a member *)
| SlRemove (x : A).

Definition run_sl_op (p : A) (o : sl_op) : M memory unit :=
  match o with
  | SlAppend x => AppendSingleLinkList p x
  | SlInsert q x => SingleLinkListNodeInsert q x
  | SlRemove x => SingleLinkListRmNode p x;; mret tt
  end.

Fixpoint run_sl_ops (p : A) (os : list sl_op) : M memory unit :=
  match os with
  | [] => mret tt
  | o :: os => run_sl_op p o;; run_sl_ops p os
  end.

(** The same operations on the members; [N] is the set of nodes of the memory. *)
Inductive sl_step (N : gset A) (p : A) : list A -> sl_op -> list A -> Prop :=
| sl_append xs x : x ∈ N -> x ∉ p :: xs -> sl_step N p xs (SlAppend x) (xs ++ [x])
| sl_insert l1 l2 x : x ∈ N -> x ∉ p :: l1 ++ l2 -> sl_step N p (l1 ++ l2) (SlInsert (List.last l1 p) x) (l1 ++ x :: l2)
| sl_remove xs x : sl_step N p xs (SlRemove x) (without x xs).

Inductive sl_steps (N : gset A) (p : A) : list A -> list sl_op -> list A -> Prop :=
| sl_nil xs : sl_steps N p xs [] xs
| sl_cons xs o xs1 os xs2 : sl_step N p xs o xs1 -> sl_steps N p xs1 os xs2 -> sl_steps N p xs (o :: os) xs2.

Lemma NoDup_shift (p x : A) l1 l2 : NoDup (p :: l1 ++ l2) -> x ∉ p :: l1 ++ l2 -> NoDup (p :: l1 ++ x :: l2).
Proof.
  intros Hnd Hx. apply (NoDup_Permutation_proper (x :: p :: l1 ++ l2)); [|by apply NoDup_cons].
  rewrite (Permutation_app_comm l1 (x :: l2)). cbn. rewrite (Permutation_app_comm l2 l1). constructor.
Qed.

Lemma wp_insert m p l1 l2 x (Q : unit -> memory -> Prop) :
  slist m p (l1 ++ l2) -> x ∈ dom m -> x ∉ p :: l1 ++ l2 ->
  (forall m', dom m' = dom m -> slist m' p (l1 ++ x :: l2) -> Q tt m') ->
  wp (SingleLinkListNodeInsert (List.last l1 p) x) Q m.
Proof.
  intros [Hs Hnd] Hx Hn HQ. unfold SingleLinkListNodeInsert. set (q := List.last l1 p).
  assert (m !! q = Some (head l2) /\ seg m p l1 (head l2)) as [Hq Hs1].
  { clear HQ Hnd Hn. revert p Hs q. induction l1 as [|y l1 IH]; intros p Hs q.
    - cbn in *. by rewrite (seg_next m p l2 Hs).
    - destruct Hs as [Hp Hs]. unfold q. rewrite last_cons. destruct (IH y Hs). done. }
  assert (q ∈ p :: l1) as Hqin by apply last_in. assert (q <> x) as Hqx by set_solver.
  wp_steps. eapply wp_next_of; [exact Hq|]. wp_steps. apply wp_next_set; [by apply elem_of_dom|].
  wp_steps. apply wp_next_set; [rewrite lookup_insert_ne by done; by eexists|].
  apply HQ; [|split; [|by apply NoDup_shift]].
  { apply elem_of_dom in Hx. rewrite !dom_insert_lookup_L; [done|done|by rewrite lookup_insert_ne; [eexists|]]. }
  apply seg_app. apply NoDup_cons in Hnd as Hnd'. split.
  - apply (seg_retarget _ _ _ (head l2)); [apply seg_frame; [set_solver|done]|].
    apply (NoDup_app (p :: l1) l2) in Hnd. apply Hnd.
  - destruct l2 as [|y l2]; cbn [seg head].
    + rewrite lookup_insert_ne by done. apply lookup_insert_eq.
    + split; [rewrite lookup_insert_ne by done; apply lookup_insert_eq|].
      apply seg_app in Hs as [_ Hs2]. apply seg_frame; [|apply seg_frame; [set_solver|done]].
      apply (NoDup_app (p :: l1) (y :: l2)) in Hnd as (_ & Hd & _). auto.
Qed.

Lemma wp_append m p xs x (Q : unit -> memory -> Prop) :
  slist m p xs -> x ∈ dom m -> x ∉ p :: xs ->
  (forall m', dom m' = dom m -> slist m' p (xs ++ [x]) -> Q tt m') ->
  wp (AppendSingleLinkList p x) Q m.
Proof.
  intros [Hs Hnd] Hx Hn HQ. unfold AppendSingleLinkList. wp_steps.
  apply (wp_to_tail m p xs); [done|pose proof (seg_length _ _ _ _ Hs Hnd); lia|].
  set (q := List.last xs p). assert (q ∈ p :: xs) as Hqin by apply last_in. assert (q <> x) as Hqx by set_solver.
  assert (is_Some (m !! q)) as Hq by by eapply seg_alloc.
  wp_steps. apply wp_next_set; [done|]. wp_steps. apply wp_next_set; [rewrite lookup_insert_ne by done; by apply elem_of_dom|].
  apply HQ; [|split].
  - apply elem_of_dom in Hx. rewrite !dom_insert_lookup_L; [done|done|by rewrite lookup_insert_ne].
  - apply seg_app. split; [|apply lookup_insert_eq]. apply seg_frame; [done|]. by eapply seg_retarget.
  - apply NoDup_shift; by rewrite app_nil_r.
Qed.

Lemma wp_remove m p xs x (Q : A -> memory -> Prop) :
  slist m p xs -> (forall m', dom m' = dom m -> slist m' p (without x xs) -> Q p m') ->
  wp (SingleLinkListRmNode p x) Q m.
Proof.
  intros [Hs Hnd] HQ. unfold SingleLinkListRmNode. wp_steps.
  apply (wp_to_before m p xs); [done|pose proof (seg_length _ _ _ _ Hs Hnd); lia|..].
  - intros Hx. wp_steps. eapply wp_next_of.
    { instantiate (1 := None). clear HQ Hx Hnd. revert p Hs. induction xs as [|y xs IH]; intros p Hs; [done|].
      rewrite last_cons. by apply IH, Hs. }
    wp_steps. apply HQ; [done|]. by rewrite without_not_in.
  - intros l1 l2 -> Hx. apply seg_app in Hs as [Hs1 Hs2]. set (q := List.last l1 p).
    assert (NoDup (p :: l1) /\ NoDup (x :: l2) /\ (forall y, y ∈ p :: l1 -> y ∉ x :: l2)) as (Hnd1 & Hnd2 & Hd).
    { apply (NoDup_app (p :: l1)) in Hnd as (? & ? & ?). done. }
    assert (q ∈ p :: l1) as Hqin by apply last_in.
    assert (m !! q = Some (Some x)) as Hq.
    { clear -Hs1. unfold q. clear q. revert p Hs1. induction l1 as [|y l1 IH]; intros p Hs1; [done|].
      rewrite last_cons. by apply IH, Hs1. }
    wp_steps. eapply wp_next_of; [exact Hq|]. wp_steps. eapply wp_next_of; [by apply seg_next|]. wp_steps.
    apply wp_next_set; [by eexists|]. wp_steps. apply HQ; [rewrite dom_insert_lookup_L; [done|by eexists]|].
    assert (without x (l1 ++ x :: l2) = l1 ++ l2) as ->.
    { apply without_middle; [done|]. by apply NoDup_cons in Hnd2 as [? _]. }
    assert (NoDup (p :: l1 ++ l2)) as Hnd3.
    { apply (NoDup_app (p :: l1)). split_and!; [done|intros y Hy; specialize (Hd y Hy); set_solver|by apply NoDup_cons in Hnd2 as [_ ?]]. }
    split; [|done]. destruct l2 as [|y l2]; cbn [head].
    + rewrite app_nil_r. by eapply seg_retarget.
    + apply seg_app. split; [by eapply seg_retarget|]. apply seg_frame; [|by destruct Hs2]. specialize (Hd _ Hqin). set_solver.
Qed.

Lemma wp_sl_steps p N xs os xs' m :
  sl_steps N p xs os xs' -> dom m = N -> slist m p xs ->
  wp (run_sl_ops p os) (fun _ m' => dom m' = N /\ slist m' p xs') m.
Proof.
  intros Hst. revert m. induction Hst as [xs|xs o xs1 os xs2 Ho Hst IH]; intros m Hd Hs; [by apply wp_ret|].
  cbn [run_sl_ops]. wp_steps. destruct Ho as [xs x Hx Hn|l1 l2 x Hx Hn|xs x]; cbn [run_sl_op]; subst N.
  - eapply wp_append; [done..|]. intros m' Hd' Hs'. by apply IH.
  - eapply wp_insert; [done..|]. intros m' Hd' Hs'. by apply IH.
  - wp_steps. eapply wp_remove; [done|]. intros m' Hd' Hs'. wp_steps. by apply IH.
Qed.

(** The observers on a list. *)
Lemma wp_observers m p xs :
  slist m p xs ->
  wp (SingleLinkListGetLen p) (fun n m' => n = u32 (Z.of_nat (length xs)) /\ m' = m) m /\
  SingleLinkListGetFirstNode p m = Ret (head xs) m /\
  wp (SingleLinkListGetTailNode p) (fun q m' => q = List.last xs p /\ m' = m) m /\
  IsSingleLinkListEmpty p m = Ret (bool_decide (xs = [])) m.
Proof.
  intros [Hs Hnd]. pose proof (seg_length _ _ _ _ Hs Hnd) as Hl. pose proof (seg_next _ _ _ Hs) as Hh. split_and!.
  - unfold SingleLinkListGetLen. wp_steps. eapply wp_next_of; [exact Hh|].
    eapply (wp_length_loop m (head xs) xs 0); [|lia|done|done].
    destruct xs as [|x xs]; [done|]. cbn. exists xs. by destruct Hs.
  - unfold SingleLinkListGetFirstNode, next_of, get, mbind, M_bind. by rewrite Hh.
  - unfold SingleLinkListGetTailNode. wp_steps. by apply (wp_to_tail m p xs); [done|lia|].
  - unfold IsSingleLinkListEmpty, next_of, get, mbind, M_bind. rewrite Hh. by destruct xs.
Qed.

(** The singly linked lists implement lists.  Every history of appends,
    insertions behind a node and removals (of members or not) that is possible on the
    abstract list runs without a bad pointer or an endless walk and leaves the list
    it computes; then the length (modulo 2^32), the first and the last node and the
    test for emptiness are those of that list. *)
Theorem SingleLink_refines_list m p xs os xs' :
  slist m p xs -> sl_steps (dom m) p xs os xs' ->
  wp (run_sl_ops p os) (fun _ m' => slist m' p xs' /\
    wp (SingleLinkListGetLen p) (fun n m2 => n = u32 (Z.of_nat (length xs')) /\ m2 = m') m' /\
    SingleLinkListGetFirstNode p m' = Ret (head xs') m' /\
    wp (SingleLinkListGetTailNode p) (fun q m2 => q = List.last xs' p /\ m2 = m') m' /\
    IsSingleLinkListEmpty p m' = Ret (bool_decide (xs' = [])) m') m.
Proof.
  intros Hs Hst. eapply wp_mono; [by apply (wp_sl_steps p (dom m) xs os xs')|].
  intros _ m' [_ Hs']. split; [done|]. by apply wp_observers.
Qed.

End SingleLink.

(** Node 1 heads the list. *)
Definition sl_demo : gmap positive (option positive) :=
  {[1%positive := None; 2%positive := None; 3%positive := None; 4%positive := None]}.
Definition sl_demo_ops : list sl_op :=
  [SlAppend 2%positive; SlAppend 3%positive; SlInsert 2%positive 4%positive; SlRemove 3%positive].

Lemma SingleLink_refines_list_witness :
  exists m', run_sl_ops 1%positive sl_demo_ops sl_demo = Ret tt m' /\ slist m' 1%positive [2%positive; 4%positive].
Proof.
  assert (sl_steps (dom sl_demo) 1%positive [] sl_demo_ops [2%positive; 4%positive]) as Hst.
  { eapply sl_cons; [apply sl_append; [by vm_compute|set_solver]|].
    eapply sl_cons; [apply sl_append; [by vm_compute|set_solver]|].
    eapply sl_cons; [apply (sl_insert _ _ [2%positive] [3%positive]); [by vm_compute|set_solver]|].
    eapply sl_cons; [apply (sl_remove _ _ _ 3%positive)|]. apply sl_nil. }
  assert (slist sl_demo 1%positive []) as Hs by (split; [reflexivity|apply NoDup_singleton]).
  destruct (wp_inv _ _ _ (SingleLink_refines_list sl_demo 1%positive [] sl_demo_ops _ Hs Hst)) as ([] & m' & E & Hs' & _).
  exists m'. split; [exact E|exact Hs'].
Defined.
