(* ===== verification/IdManager.v ===== *)
(** * The identifier manager of kernel/thread/id.c

    A manager hands out the identifiers [0 .. id_max - 1]: [id_map] is its
    bitmap of used identifiers (one byte per eight), and the objects are found
    again through a hash table of doubly linked lists, bucket [id mod hoffset].
    An [IdNode] is named by the address of its [link]; [node_id] holds its [id]
    field.  [htable i] is the address of bucket [i].  A bucket that was never
    used holds null pointers and is initialised on first use.

    [id_rep] relates a manager to the finite map from identifiers to nodes that
    it implements, and the three operations of the interface are proved to be
    insertion at the least free key, lookup and deletion on that map. *)

From S2P Require Import Prelude DoubleLink.

Record IdManager : Type := mkIdManager {
  id_max : Z;        (* uint16 *)
  hoffset : Z;       (* uint16 *)
  id_map : list Z;   (* uint8[] *)
}.

(** [DECLARE_ID_MANAGER(_name, _id_max)] *)
Definition DECLARE_ID_MANAGER (ID_HTABLE_SIZE _id_max : Z) : IdManager :=
  mkIdManager _id_max (if _id_max <? ID_HTABLE_SIZE then _id_max else ID_HTABLE_SIZE)
    (replicate (Z.to_nat ((_id_max + 7) / 8)) 0).

Section IdManager.
Context {A : Type} `{Countable A}.
Variable htable : Z -> A.
Implicit Types (h : gmap A (node A)) (L : gmap A (list A)) (I : gmap Z A) (x a : A).

(** The memory the operations work on. *)
Record id_state : Type := mkIdState {
  id_links : gmap A (node A);
  node_id : gmap A Z;       (* uint16 *)
  manager : IdManager;
}.

Definition set_id_links (v : gmap A (node A)) (s : id_state) : id_state :=
  mkIdState v (node_id s) (manager s).
Definition set_node_id (v : gmap A Z) (s : id_state) : id_state :=
  mkIdState (id_links s) v (manager s).
Definition set_id_map (v : list Z) (s : id_state) : id_state :=
  mkIdState (id_links s) (node_id s) (mkIdManager (id_max (manager s)) (hoffset (manager s)) v).

Definition ilinks {B : Type} : M (gmap A (node A)) B -> M id_state B := zoom id_links set_id_links.

(** [for (index = 0; index < end; index++) if (id_map[index] != 0xff) break;] *)
Fixpoint find_index (fuel : nat) (index end_ : Z) : M id_state Z :=
  match fuel with
  | O => hang
  | S fuel =>
      if index <? end_ then
        s ← get;
        entry ← deref (id_map (manager s) !! Z.to_nat index);
        if negb (entry =? 255) then mret index else find_index fuel (index + 1) end_
      else mret index
  end.

(** [while (entry & 0x1) { id++; entry >>= 1; }] *)
Fixpoint count_ones (fuel : nat) (id entry : Z) : M id_state Z :=
  match fuel with
  | O => hang
  | S fuel =>
      if Z.land entry 1 =? 0 then mret id
      else count_ones fuel (id + 1) (Z.shiftr entry 1)
  end.

Definition AllocId : M id_state Z :=
  s ← get;
  let end_ := (id_max (manager s) + 7) / 8 in
  index ← find_index (S (length (id_map (manager s)))) 0 end_;
  if index =? end_ then mret (-1)
  else
    entry ← deref (id_map (manager s) !! Z.to_nat index);
    id ← count_ones 9 (index * 8) entry;
    if id_max (manager s) <=? id then mret (-1)
    else
      modify (set_id_map (<[Z.to_nat index := u8 (Z.lor entry (Z.shiftl 1 (id mod 8)))]>
                            (id_map (manager s))));;
      mret id.

Definition FreeId (id : Z) : M id_state unit :=
  s ← get;
  entry ← deref (id_map (manager s) !! Z.to_nat (id / 8));
  modify (set_id_map (<[Z.to_nat (id / 8) := u8 (Z.land entry (Z.lnot (Z.shiftl 1 (id mod 8))))]>
                        (id_map (manager s)))).

Definition InsertObj (idnode : A) : M id_state unit :=
  s ← get;
  id ← deref (node_id s !! idnode);
  let head := htable (id mod hoffset (manager s)) in
  pv ← ilinks (get_prev head);
  (if bool_decide (pv = None) then ilinks (InitDoubleLinkList head) else mret tt);;
  ilinks (DoubleLinkListInsertNodeAfter head idnode).

(** The break test of the bucket walk. *)
Definition has_id (id : Z) (node : A) : M id_state bool :=
  s ← get;
  i ← deref (node_id s !! node);
  mret (i =? id).

Definition GetObj (id : Z) : M id_state (option A) :=
  s ← get;
  let head := htable (id mod hoffset (manager s)) in
  pv ← ilinks (get_prev head);
  if bool_decide (pv = None) then ilinks (InitDoubleLinkList head);; mret None
  else
    nx ← ilinks (get_next head);
    first ← deref nx;
    node ← for_each_until (fun x => ilinks (get_next x)) (has_id id)
             (S (size (id_links s))) head first;
    mret (if bool_decide (node = head) then None else Some node).

Definition RemoveObj (idnode : A) : M id_state unit := ilinks (DoubleLinkListRmNode idnode).

Definition IdInsertObj (idnode : A) : M id_state Z :=
  id ← AllocId;
  if id <? 0 then mret (-1)
  else
    modify (fun s => set_node_id (<[idnode := u16 id]> (node_id s)) s);;
    InsertObj idnode;;
    mret id.

Definition IdGetObj (id : Z) : M id_state (option A) :=
  s ← get;
  if id_max (manager s) <=? id then mret None else GetObj id.

Definition IdRemoveObj (id : Z) : M id_state unit :=
  o ← IdGetObj id;
  match o with
  | None => mret tt
  | Some idnode =>
      s ← get;
      i ← deref (node_id s !! idnode);
      FreeId i;;
      RemoveObj idnode;;
      modify (fun s => set_node_id (<[idnode := u16 (-1)]> (node_id s)) s)
  end.

(** ** The bitmap *)

Definition used_bit (idm : list Z) (i : Z) : bool :=
  match idm !! Z.to_nat (i / 8) with
  | Some e => Z.testbit e (i mod 8)
  | None => false
  end.

Definition bytes (idm : list Z) : Prop := forall j e, idm !! j = Some e -> 0 <= e < 256.

Lemma land_1_testbit e : (Z.land e 1 =? 0) = negb (Z.testbit e 0).
Proof.
  change 1 with (Z.ones 1). rewrite Z.land_ones, Z.bit0_odd, Zmod_odd by lia.
  by destruct (Z.odd e).
Qed.

Lemma count_ones_spec fuel id e b s :
  0 <= b < Z.of_nat fuel -> Z.testbit e b = false ->
  (forall c, 0 <= c < b -> Z.testbit e c = true) ->
  count_ones fuel id e s = Ret (id + b) s.
Proof.
  revert id e b. induction fuel as [|fuel IH]; intros id e b Hb Hz Ho; [lia|].
  cbn [count_ones]. rewrite land_1_testbit. destruct (decide (b = 0)) as [->|Hb0].
  { rewrite Hz. cbn. by rewrite Z.add_0_r. }
  rewrite (Ho 0) by lia. cbn [negb]. replace (id + b) with (id + 1 + (b - 1)) by lia.
  apply IH; [lia|..].
  - rewrite Z.shiftr_spec by lia. by replace (b - 1 + 1) with b by lia.
  - intros c Hc. rewrite Z.shiftr_spec by lia. apply Ho. lia.
Qed.

(** Every byte but 0xff has a lowest zero bit. *)
Lemma lowest_zero e :
  0 <= e < 256 -> e <> 255 ->
  exists b, 0 <= b < 8 /\ Z.testbit e b = false /\ forall c, 0 <= c < b -> Z.testbit e c = true.
Proof.
  intros He Hne.
  assert (exists b, 0 <= b < 8 /\ Z.testbit e b = false) as (b0 & Hb0 & Hz0).
  { destruct (decide (Forall (fun b => Z.testbit e b = true) (seqZ 0 8))) as [HF|HF].
    - exfalso. apply Hne. apply Z.bits_inj'. intros n Hn. change 255 with (Z.ones 8).
      rewrite Z.testbit_ones_nonneg by lia. rewrite Forall_forall in HF.
      destruct (Z.ltb_spec n 8); [apply HF, elem_of_seqZ; lia|].
      destruct (decide (e = 0)) as [->|]; [apply Z.bits_0|].
      apply Z.bits_above_log2; [lia|]. apply Z.lt_le_trans with 8; [|lia].
      apply Z.log2_lt_pow2; lia.
    - apply not_Forall_Exists in HF; [|apply _]. apply Exists_exists in HF as (b & Hb & Hz).
      apply elem_of_seqZ in Hb. exists b. split; [lia|]. by apply not_true_is_false. }
  induction b0 as [b IH] using (well_founded_induction (Z.lt_wf 0)).
  destruct (decide (Forall (fun c => Z.testbit e c = true) (seqZ 0 b))) as [HF|HF].
  - exists b. split_and!; [lia|lia|done|]. intros c Hc. rewrite Forall_forall in HF.
    apply HF, elem_of_seqZ. lia.
  - apply not_Forall_Exists in HF; [|apply _]. apply Exists_exists in HF as (c & Hc & Hcz).
    apply elem_of_seqZ in Hc. apply (IH c); [lia|lia|]. by apply not_true_is_false.
Qed.

Lemma wp_find_index fuel index end_ s (Q : Z -> id_state -> Prop) :
  0 <= index <= end_ -> end_ = Z.of_nat (length (id_map (manager s))) ->
  end_ - index < Z.of_nat fuel ->
  (forall j, 0 <= j < index -> id_map (manager s) !! Z.to_nat j = Some 255) ->
  (forall r, 0 <= r <= end_ ->
     (forall j, 0 <= j < r -> id_map (manager s) !! Z.to_nat j = Some 255) ->
     (r < end_ -> exists e, id_map (manager s) !! Z.to_nat r = Some e /\ e <> 255) -> Q r s) ->
  wp (find_index fuel index end_) Q s.
Proof.
  revert index. induction fuel as [|fuel IH]; intros index Hi He Hf Hall HQ; [lia|]. cbn [find_index].
  destruct (Z.ltb_spec index end_) as [Hlt|Hge].
  - wp_steps. destruct (id_map (manager s) !! Z.to_nat index) as [e|] eqn:Ee.
    2:{ apply lookup_ge_None in Ee. lia. }
    wp_steps. destruct (Z.eqb_spec e 255) as [->|Hne]; cbn [negb].
    + apply IH; [lia|done|lia| |done]. intros j Hj.
      destruct (decide (j = index)) as [->|]; [done|apply Hall; lia].
    + apply wp_ret, HQ; [lia|done|]. intros _. by exists e.
  - apply wp_ret, HQ; [lia|done|lia].
Qed.

Lemma used_bit_full idm j i : idm !! Z.to_nat j = Some 255 -> 0 <= j -> i / 8 = j -> used_bit idm i = true.
Proof.
  intros Hj H0 E. unfold used_bit. rewrite E, Hj. change 255 with (Z.ones 8).
  pose proof (Z.mod_pos_bound i 8). rewrite Z.testbit_ones_nonneg by lia. apply Z.ltb_lt. lia.
Qed.

Lemma testbit_u8 e b : 0 <= b -> Z.testbit (u8 e) b = (b <? 8) && Z.testbit e b.
Proof.
  intros Hb. unfold u8. destruct (Z.ltb_spec b 8).
  - by rewrite Z.mod_pow2_bits_low.
  - by rewrite Z.mod_pow2_bits_high by lia.
Qed.

(** Setting and clearing one bit. *)
Lemma used_bit_update idm j b v e e' i :
  idm !! Z.to_nat j = Some e -> 0 <= j -> 0 <= b < 8 -> 0 <= i ->
  (forall c, 0 <= c < 8 -> Z.testbit e' c = if c =? b then v else Z.testbit e c) ->
  used_bit (<[Z.to_nat j := e']> idm) i = if i =? j * 8 + b then v else used_bit idm i.
Proof.
  intros Hj H0 Hb Hi Hbit. unfold used_bit.
  pose proof (Z.div_mod i 8 ltac:(lia)). pose proof (Z.mod_pos_bound i 8 ltac:(lia)).
  destruct (decide (i / 8 = j)) as [<-|Hne].
  - rewrite list_lookup_insert_eq by (by apply lookup_lt_Some in Hj).
    rewrite Hj, Hbit by lia. destruct (Z.eqb_spec (i mod 8) b), (Z.eqb_spec i (i / 8 * 8 + b)); done || lia.
  - rewrite list_lookup_insert_ne.
    2:{ intros E. apply Z2Nat.inj in E; [done|done|apply Z.div_pos; lia]. }
    by rewrite (proj2 (Z.eqb_neq _ _)) by lia.
Qed.

Lemma u8_bytes e : 0 <= u8 e < 256.
Proof. apply Z.mod_pos_bound. lia. Qed.

Lemma bytes_insert idm j e : bytes idm -> bytes (<[j := u8 e]> idm).
Proof.
  intros Hb j' e' [(-> & <- & _)|[_ ?]]%list_lookup_insert_Some; [apply u8_bytes|by eapply Hb].
Qed.

Lemma set_bit_spec e b c :
  0 <= b < 8 -> 0 <= c < 8 ->
  Z.testbit (u8 (Z.lor e (Z.shiftl 1 b))) c = if c =? b then true else Z.testbit e c.
Proof.
  intros Hb Hc. rewrite testbit_u8, (proj2 (Z.ltb_lt c 8)), Z.lor_spec, Z.shiftl_spec by lia.
  destruct (Z.eqb_spec c b) as [->|].
  - by rewrite Z.sub_diag, orb_true_r.
  - cbn [andb]. destruct (decide (c < b)); [by rewrite (Z.testbit_neg_r 1), orb_false_r by lia|].
    rewrite Z.bits_above_log2 with (a := 1); [apply orb_false_r|lia|cbn; lia].
Qed.

Lemma clear_bit_spec e b c :
  0 <= b < 8 -> 0 <= c < 8 ->
  Z.testbit (u8 (Z.land e (Z.lnot (Z.shiftl 1 b)))) c = if c =? b then false else Z.testbit e c.
Proof.
  intros Hb Hc. rewrite testbit_u8, (proj2 (Z.ltb_lt c 8)), Z.land_spec, Z.lnot_spec, Z.shiftl_spec by lia.
  destruct (Z.eqb_spec c b) as [->|].
  - by rewrite Z.sub_diag, andb_false_r.
  - cbn [andb]. destruct (decide (c < b)); [by rewrite (Z.testbit_neg_r 1), andb_true_r by lia|].
    rewrite Z.bits_above_log2 with (a := 1); [apply andb_true_r|lia|cbn; lia].
Qed.

(** ** The map a manager implements *)

(** A bucket heads a list or is unused. *)
Definition bucket_ok (h : gmap A (node A)) (L : gmap A (list A)) (hd : A) : Prop :=
  is_Some (L !! hd) \/ (alloc h hd /\ prv h hd = None).

Record id_rep (s : id_state) (L : gmap A (list A)) (I : gmap Z A) : Prop := {
  ir_rep : rep (id_links s) L;
  ir_max : 0 <= id_max (manager s) < 2 ^ 16;
  ir_hoffset : 0 < hoffset (manager s);
  ir_len : Z.of_nat (length (id_map (manager s))) = (id_max (manager s) + 7) / 8;
  ir_bytes : bytes (id_map (manager s));
  ir_bits : forall i, 0 <= i -> used_bit (id_map (manager s)) i = bool_decide (is_Some (I !! i));
  ir_dom : forall i a, I !! i = Some a -> 0 <= i < id_max (manager s);
  ir_node : forall i a, I !! i = Some a -> node_id s !! a = Some i;
  ir_bucket : forall i a, I !! i = Some a ->
    exists l, L !! htable (i mod hoffset (manager s)) = Some l /\ a ∈ l;
  ir_members : forall j l a, 0 <= j < hoffset (manager s) -> L !! htable j = Some l -> a ∈ l ->
    exists i, I !! i = Some a /\ i mod hoffset (manager s) = j;
  ir_table : forall j, 0 <= j < hoffset (manager s) ->
    bucket_ok (id_links s) L (htable j);
}.

(** The manager only looks at its buckets. *)
Lemma id_rep_frame h h' ids mgr L L' I :
  id_rep (mkIdState h ids mgr) L I -> rep h' L' ->
  (forall j, L' !! htable j = L !! htable j) ->
  (forall j, alloc h (htable j) -> prv h (htable j) = None ->
     alloc h' (htable j) /\ prv h' (htable j) = None) ->
  id_rep (mkIdState h' ids mgr) L' I.
Proof.
  intros [] HR HL Hn. split; try done.
  - intros i a Hi. cbn. rewrite HL. eauto.
  - intros j l a Hj. cbn. rewrite HL. eauto.
  - intros j Hj. destruct (ir_table0 j Hj) as [[l E]|[? ?]]; [left; exists l; by rewrite HL|right; by apply Hn].
Qed.

(** The list map after a bucket was touched: an unused bucket becomes an empty list. *)
Definition touch (hd : A) (L : gmap A (list A)) : gmap A (list A) :=
  match L !! hd with Some _ => L | None => <[hd := []]> L end.

Lemma touch_Some hd l L : L !! hd = Some l -> touch hd L = L.
Proof. unfold touch. by intros ->. Qed.

Lemma lookup_touch hd L : touch hd L !! hd = Some (default [] (L !! hd)).
Proof. unfold touch. destruct (L !! hd) eqn:E; [done|]. apply lookup_insert_eq. Qed.

Lemma lookup_touch_ne hd x L : x <> hd -> touch hd L !! x = L !! x.
Proof. intros. unfold touch. destruct (L !! hd); [done|]. by rewrite lookup_insert_ne. Qed.

Lemma lookup_touch_Some hd x l L :
  touch hd L !! x = Some l -> L !! x = Some l \/ (x = hd /\ l = [] /\ L !! hd = None).
Proof.
  unfold touch. destruct (L !! hd) eqn:E; [by left|].
  intros [[-> <-]|[? ?]]%lookup_insert_Some; [right|left]; naive_solver.
Qed.

(** Reading [head->node_prev] and initialising an unused bucket. *)
Lemma wp_bucket s L hd (Q : option A -> id_state -> Prop) :
  rep (id_links s) L -> bucket_ok (id_links s) L hd ->
  (L !! hd = None -> Q None s) ->
  (forall l p, L !! hd = Some l -> Q (Some p) s) ->
  wp (ilinks (get_prev hd)) Q s.
Proof.
  intros HR Hb HN HS. apply wp_zoom. assert (set_id_links (id_links s) s = s) as E by by destruct s.
  destruct (L !! hd) as [l|] eqn:EL.
  - pose proof (rep_last _ _ _ _ HR EL) as Hp.
    apply wp_get_prev; [eapply alloc_prv, Hp|]. rewrite Hp, E. by eapply HS.
  - destruct Hb as [[l E']|[E' Hp]]; [congruence|].
    apply wp_get_prev; [done|]. rewrite Hp, E. by apply HN.
Qed.

Lemma wp_init_bucket s L hd (Q : unit -> id_state -> Prop) :
  rep (id_links s) L -> bucket_ok (id_links s) L hd -> L !! hd = None ->
  (forall h', rep h' (touch hd L) -> same_links hd (id_links s) h' -> Q tt (set_id_links h' s)) ->
  wp (ilinks (InitDoubleLinkList hd)) Q s.
Proof.
  intros HR [[l E']|[Ha Hp]] EL HQ; [congruence|]. apply wp_zoom. unfold touch in HQ. rewrite EL in HQ.
  apply (wp_InitDoubleLinkList_rep _ L); [done|by eapply prv_None_unlinked|done|done].
Qed.

(** [AllocId] finds the least unused identifier, or fails when all are used. *)
Lemma wp_AllocId s L I (Q : Z -> id_state -> Prop) :
  id_rep s L I ->
  ((forall i, 0 <= i < id_max (manager s) -> is_Some (I !! i)) -> Q (-1) s) ->
  (forall i m, 0 <= i < id_max (manager s) -> I !! i = None ->
     (forall j, 0 <= j < i -> is_Some (I !! j)) ->
     length m = length (id_map (manager s)) -> bytes m ->
     (forall j, 0 <= j -> used_bit m j = if j =? i then true else used_bit (id_map (manager s)) j) ->
     Q i (set_id_map m s)) ->
  wp AllocId Q s.
Proof.
  intros Hs Hfull Hfree. pose proof (ir_max _ _ _ Hs) as Hmax. pose proof (ir_len _ _ _ Hs) as Hlen.
  assert (forall i, 0 <= i -> used_bit (id_map (manager s)) i = true -> is_Some (I !! i)) as Hused.
  { intros i Hi Hu. rewrite (ir_bits _ _ _ Hs) in Hu by done. by apply bool_decide_eq_true in Hu. }
  unfold AllocId. wp_steps. rewrite <- Hlen.
  apply wp_find_index; [lia|done|lia|lia|]. intros r Hr Hall Hnf.
  assert (forall i, 0 <= i < r * 8 -> is_Some (I !! i)) as Hbelow.
  { intros i Hi. apply Hused; [lia|]. pose proof (Z.div_pos i 8 ltac:(lia) ltac:(lia)).
    pose proof (Z.div_lt_upper_bound i 8 r ltac:(lia) ltac:(lia)).
    apply (used_bit_full _ (i / 8)); [apply Hall; lia|lia|done]. }
  destruct (Z.eqb_spec r (Z.of_nat (length (id_map (manager s))))) as [E|Hne].
  { apply wp_ret, Hfull. intros i Hi. apply Hbelow.
    pose proof (Z.div_mod (id_max (manager s) + 7) 8). pose proof (Z.mod_pos_bound (id_max (manager s) + 7) 8). lia. }
  destruct (Hnf ltac:(lia)) as (e & He & He255). rewrite He. wp_steps.
  destruct (lowest_zero e) as (b & Hb & Hz & Hlow); [by eapply (ir_bytes _ _ _ Hs)|done|].
  eapply wp_run; [apply (count_ones_spec 9 (r * 8) e b); [lia|done|done]|]. cbn beta.
  assert (forall c, 0 <= c < 8 -> used_bit (id_map (manager s)) (r * 8 + c) = Z.testbit e c) as Hrow.
  { intros c Hc. unfold used_bit. replace ((r * 8 + c) / 8) with r by (apply Z.div_unique with c; lia).
    rewrite He. f_equal. symmetry. apply Z.mod_unique with r; lia. }
  assert (forall j, 0 <= j < r * 8 + b -> is_Some (I !! j)) as Hleast.
  { intros j Hj. destruct (decide (j < r * 8)); [apply Hbelow; lia|]. apply Hused; [lia|].
    replace j with (r * 8 + (j - r * 8)) by lia. rewrite Hrow by lia. apply Hlow. lia. }
  destruct (Z.leb_spec (id_max (manager s)) (r * 8 + b)).
  { apply wp_ret, Hfull. intros i Hi. apply Hleast. lia. }
  wp_steps. replace ((r * 8 + b) mod 8) with b by (apply Z.mod_unique with r; lia).
  apply Hfree; [lia| |done|apply length_insert|by apply bytes_insert, (ir_bytes _ _ _ Hs)|].
  - apply eq_None_not_Some. rewrite <- (bool_decide_eq_false (is_Some (I !! (r * 8 + b)))).
    rewrite <- (ir_bits _ _ _ Hs), Hrow by lia. done.
  - intros j Hj. apply (used_bit_update _ r b true e); try done; try lia.
    intros c Hc. by apply set_bit_spec.
Qed.

(** ** The interface *)

Lemma id_mod_bounds s L I i : id_rep s L I -> 0 <= i mod hoffset (manager s) < hoffset (manager s).
Proof. intros Hs. apply Z.mod_pos_bound, Hs. Qed.

(** Touching a bucket changes nothing of the map. *)
Lemma id_rep_touch s L I j h' :
  id_rep s L I -> rep h' (touch (htable j) L) -> same_links (htable j) (id_links s) h' ->
  id_rep (set_id_links h' s) (touch (htable j) L) I.
Proof.
  intros Hs HR [Ha Hn]. split; cbn; try apply Hs; [done|..].
  - intros i a Hi. destruct (ir_bucket _ _ _ Hs i a Hi) as (l & HL & Hin). exists l. split; [|done].
    unfold touch. destruct (L !! htable j) eqn:E; [done|]. by rewrite lookup_insert_ne by congruence.
  - intros j' l a Hj' [HL|(_ & -> & _)]%lookup_touch_Some; [by apply (ir_members _ _ _ Hs)|].
    by intros ?%not_elem_of_nil.
  - intros j' Hj'. destruct (decide (htable j' = htable j)) as [E|E].
    { left. rewrite E, lookup_touch. by eexists. }
    destruct (ir_table _ _ _ Hs j' Hj') as [[l HL]|[? ?]]; [left; exists l; by rewrite lookup_touch_ne|].
    right. split; [by apply Ha|by apply Hn].
Qed.

Lemma wp_GetObj_list s L I id l (Q : option A -> id_state -> Prop) :
  id_rep s L I -> L !! htable (id mod hoffset (manager s)) = Some l ->
  Q (I !! id) s -> wp (GetObj id) Q s.
Proof.
  intros Hs HL HQ. pose proof (ir_rep _ _ _ Hs) as HR. pose proof (id_mod_bounds _ _ _ id Hs) as Hj.
  set (hd := htable (id mod hoffset (manager s))) in *.
  assert (set_id_links (id_links s) s = s) as Es by by destruct s.
  unfold GetObj. wp_steps. fold hd.
  apply (wp_bucket s L); [done|left; by eexists|congruence|]. intros l' p _.
  rewrite bool_decide_false by done. wp_steps. apply wp_zoom.
  pose proof (rep_first _ _ _ _ HR HL) as Hf. apply wp_get_next; [by eapply alloc_nxt|].
  rewrite Hf, Es. wp_steps.
  assert (forall x, x ∈ l -> exists i, I !! i = Some x /\ node_id s !! x = Some i) as Hmem.
  { intros x Hx. destruct (ir_members _ _ _ Hs _ _ _ Hj HL Hx) as (i & Hi & _).
    exists i. split; [done|by apply (ir_node _ _ _ Hs)]. }
  apply (wp_for_each_until _ _ (fun x => bool_decide (node_id s !! x = Some id)) s (id_links s) L hd [] l); [done|done|..].
  - intros x Hx. unfold ilinks, zoom.
    assert (alloc (id_links s) x) as [n Hn] by (eapply rep_alloc; [done..|set_solver]).
    unfold get_next, load, nxt, mbind, M_bind. rewrite Hn. cbn. by rewrite Es.
  - intros x Hx. destruct (Hmem x Hx) as (i & Hi & Hni). unfold has_id, get, deref, mbind, M_bind.
    rewrite Hni. cbn. f_equal. destruct (Z.eqb_spec i id); case_bool_decide; congruence.
  - pose proof (rep_length _ _ _ _ HR HL). lia.
  - wp_steps. pose proof (rep_head_not_member _ _ _ _ HR HL) as Hhd.
    destruct (list_find _ l) as [[n x]|] eqn:Ef; cbn [fmap option_fmap option_map default snd from_option Datatypes.id].
    + apply list_find_Some in Ef as (Hlx & HP & _). apply bool_decide_unpack in HP.
      assert (x ∈ l) as Hx by (by eapply list_elem_of_lookup_2).
      rewrite bool_decide_false by (intros ->; done).
      destruct (Hmem x Hx) as (i & Hi & Hni). rewrite Hni in HP. injection HP as ->. by rewrite Hi in HQ.
    + rewrite bool_decide_true by done. apply list_find_None in Ef. rewrite Forall_forall in Ef.
      destruct (I !! id) as [a|] eqn:Ei; [exfalso|done].
      destruct (ir_bucket _ _ _ Hs _ _ Ei) as (l2 & HL2 & Hin). fold hd in HL2.
      rewrite HL in HL2. injection HL2 as <-. apply (Ef a Hin). apply bool_decide_pack.
      by apply (ir_node _ _ _ Hs).
Qed.

(** A lookup that finds its object leaves the memory as it is. *)
Lemma wp_IdGetObj_hit s L I id a (Q : option A -> id_state -> Prop) :
  id_rep s L I -> I !! id = Some a -> Q (Some a) s -> wp (IdGetObj id) Q s.
Proof.
  intros Hs Hi HQ. unfold IdGetObj. wp_steps. pose proof (ir_dom _ _ _ Hs _ _ Hi).
  rewrite (proj2 (Z.leb_gt _ _)) by lia. destruct (ir_bucket _ _ _ Hs _ _ Hi) as (l & HL & _).
  eapply wp_GetObj_list; [done..|]. by rewrite Hi.
Qed.

Lemma wp_IdGetObj s L I id (Q : option A -> id_state -> Prop) :
  id_rep s L I -> 0 <= id ->
  (forall h' L', id_rep (set_id_links h' s) L' I ->
     (L' = L \/ L' = touch (htable (id mod hoffset (manager s))) L) ->
     (forall y, alloc h' y <-> alloc (id_links s) y) -> Q (I !! id) (set_id_links h' s)) ->
  wp (IdGetObj id) Q s.
Proof.
  intros Hs Hid HQ. assert (set_id_links (id_links s) s = s) as Es by by destruct s.
  unfold IdGetObj. wp_steps. destruct (Z.leb_spec (id_max (manager s)) id).
  { apply wp_ret. replace None with (I !! id); [rewrite <- Es; apply (HQ _ L); [by rewrite Es|by left|done]|].
    destruct (I !! id) eqn:E; [|done]. apply (ir_dom _ _ _ Hs) in E. lia. }
  pose proof (id_mod_bounds _ _ _ id Hs) as Hj.
  destruct (L !! htable (id mod hoffset (manager s))) as [l|] eqn:HL.
  { eapply wp_GetObj_list; [done..|]. rewrite <- Es. apply (HQ _ L); [by rewrite Es|by left|done]. }
  unfold GetObj. wp_steps. pose proof (ir_rep _ _ _ Hs).
  apply (wp_bucket s L); [done|by apply Hs| |congruence]. intros _. rewrite bool_decide_true by done.
  wp_steps. apply (wp_init_bucket s L); [done|by apply Hs|done|]. intros h' HR' Hsl. wp_steps.
  replace None with (I !! id).
  { apply (HQ _ (touch (htable (id mod hoffset (manager s))) L)); [by apply id_rep_touch|by right|apply Hsl]. }
  destruct (I !! id) eqn:E; [|done]. destruct (ir_bucket _ _ _ Hs _ _ E) as (l & HL' & _). congruence.
Qed.

Hypothesis htable_inj : forall i j, htable i = htable j -> i = j.

(** A node that may be given an identifier: allocated and not in use. *)
Record fresh_node (s : id_state) (L : gmap A (list A)) (I : gmap Z A) (a : A) : Prop := {
  fn_alloc : alloc (id_links s) a;
  fn_unlinked : unlinked L a;
  fn_bucket : forall j, a <> htable j;
  fn_unused : forall i, I !! i <> Some a;
}.

Lemma unlinked_touch hd L a : unlinked L a -> a <> hd -> unlinked (touch hd L) a.
Proof.
  intros Hun Hne hd' l' [HL|(-> & -> & _)]%lookup_touch_Some Ha; [by eapply Hun|].
  apply list_elem_of_singleton in Ha. congruence.
Qed.

Definition insert_lists (hd a : A) (L : gmap A (list A)) : gmap A (list A) :=
  attach hd (a :: default [] (L !! hd)) a (touch hd L).

Lemma lookup_insert_lists_ne hd a L x : x <> hd -> x <> a -> insert_lists hd a L !! x = L !! x.
Proof. intros. unfold insert_lists. by rewrite lookup_attach_ne, lookup_touch_ne. Qed.

Lemma lookup_insert_lists_eq hd a L : insert_lists hd a L !! hd = Some (a :: default [] (L !! hd)).
Proof. apply lookup_attach_eq. Qed.

Lemma id_rep_insert s L I i a m h' :
  id_rep s L I -> fresh_node s L I a -> 0 <= i < id_max (manager s) -> I !! i = None ->
  length m = length (id_map (manager s)) -> bytes m ->
  (forall j, 0 <= j -> used_bit m j = if j =? i then true else used_bit (id_map (manager s)) j) ->
  rep h' (insert_lists (htable (i mod hoffset (manager s))) a L) ->
  (forall y, alloc h' y <-> alloc (id_links s) y) ->
  (forall y, y <> htable (i mod hoffset (manager s)) -> y <> a ->
     prv (id_links s) y = None -> prv h' y = None) ->
  id_rep (mkIdState h' (<[a := i]> (node_id s))
            (mkIdManager (id_max (manager s)) (hoffset (manager s)) m))
    (insert_lists (htable (i mod hoffset (manager s))) a L) (<[i := a]> I).
Proof.
  intros Hs Ha Hi HIi Hlen Hby Hbits HR Hal Hnull. pose proof (id_mod_bounds _ _ _ i Hs) as Hj.
  split; cbn [id_links node_id manager id_max hoffset id_map]; try apply Hs; [done|..].
  - rewrite Hlen. apply Hs.
  - done.
  - intros j Hj'. rewrite Hbits by done. destruct (Z.eqb_spec j i) as [->|Hne].
    + rewrite lookup_insert_eq. by rewrite bool_decide_true by by eexists.
    + rewrite lookup_insert_ne by done. by apply (ir_bits _ _ _ Hs).
  - intros j b [[<- <-]|[? Hb]]%lookup_insert_Some; [done|by apply (ir_dom _ _ _ Hs _ _ Hb)].
  - intros j b [[<- <-]|[? Hb]]%lookup_insert_Some; [by rewrite lookup_insert_eq|].
    rewrite lookup_insert_ne; [by apply (ir_node _ _ _ Hs)|]. intros <-. by apply (fn_unused _ _ _ _ Ha j).
  - intros j b [[<- <-]|[? Hb]]%lookup_insert_Some.
    { eexists. split; [apply lookup_insert_lists_eq|set_solver]. }
    destruct (ir_bucket _ _ _ Hs _ _ Hb) as (l & HL & Hin).
    destruct (decide (htable (j mod hoffset (manager s)) = htable (i mod hoffset (manager s)))) as [E|E].
    + rewrite E in HL |- *. exists (a :: l). rewrite lookup_insert_lists_eq, HL. split; [done|set_solver].
    + exists l. rewrite lookup_insert_lists_ne; [done|done|apply not_eq_sym, Ha].
  - intros j l b Hj' HL Hin.
    destruct (decide (j = i mod hoffset (manager s))) as [->|E].
    + rewrite lookup_insert_lists_eq in HL. injection HL as <-. apply elem_of_cons in Hin as [->|Hin].
      { exists i. by rewrite lookup_insert_eq. }
      destruct (L !! htable (i mod hoffset (manager s))) as [l0|] eqn:HL0; [|by apply not_elem_of_nil in Hin].
      destruct (ir_members _ _ _ Hs _ _ _ Hj HL0 Hin) as (i' & Hi' & Em). exists i'.
      rewrite lookup_insert_ne by congruence. done.
    + rewrite lookup_insert_lists_ne in HL by (done || apply not_eq_sym, Ha || (intros ?%htable_inj; done)).
      destruct (ir_members _ _ _ Hs _ _ _ Hj' HL Hin) as (i' & Hi' & Em). exists i'.
      rewrite lookup_insert_ne by congruence. done.
  - intros j Hj'. destruct (decide (j = i mod hoffset (manager s))) as [->|E].
    { left. rewrite lookup_insert_lists_eq. by eexists. }
    assert (htable j <> htable (i mod hoffset (manager s))) as E' by by intros ?%htable_inj.
    assert (htable j <> a) as E'' by apply not_eq_sym, Ha.
    unfold bucket_ok. rewrite lookup_insert_lists_ne by done.
    destruct (ir_table _ _ _ Hs j Hj') as [?|[? ?]]; [by left|right]. split; [by apply Hal|by apply Hnull].
Qed.

Lemma wp_IdInsertObj s L I a (Q : Z -> id_state -> Prop) :
  id_rep s L I -> fresh_node s L I a ->
  ((forall i, 0 <= i < id_max (manager s) -> is_Some (I !! i)) -> Q (-1) s) ->
  (forall i s', 0 <= i < id_max (manager s) -> I !! i = None ->
     (forall j, 0 <= j < i -> is_Some (I !! j)) ->
     id_rep s' (insert_lists (htable (i mod hoffset (manager s))) a L) (<[i := a]> I) ->
     (forall y, alloc (id_links s') y <-> alloc (id_links s) y) ->
     (forall y, y <> htable (i mod hoffset (manager s)) -> y <> a ->
        prv (id_links s) y = None -> prv (id_links s') y = None) ->
     node_id s' = <[a := i]> (node_id s) ->
     id_max (manager s') = id_max (manager s) -> hoffset (manager s') = hoffset (manager s) -> Q i s') ->
  wp (IdInsertObj a) Q s.
Proof.
  intros Hs Ha Hfull Hok. unfold IdInsertObj. wp_steps. apply (wp_AllocId s L I); [done|..].
  { intros HI. wp_steps. by apply Hfull. }
  intros i m Hi HIi Hleast Hlen Hby Hbits. rewrite (proj2 (Z.ltb_ge i 0)) by lia. wp_steps.
  pose proof (ir_rep _ _ _ Hs) as HR. pose proof (id_mod_bounds _ _ _ i Hs) as Hj.
  pose proof (ir_max _ _ _ Hs). rewrite u16_small by lia.
  set (hd := htable (i mod hoffset (manager s))) in *.
  assert (a <> hd) as Hne by apply Ha.
  assert (forall h1, rep h1 (touch hd L) -> (forall y, alloc h1 y <-> alloc (id_links s) y) ->
    (forall y, y <> hd -> prv (id_links s) y = None -> prv h1 y = None) ->
    wp (ilinks (DoubleLinkListInsertNodeAfter hd a)) (fun _ => Q i)
       (mkIdState h1 (<[a := i]> (node_id s))
          (mkIdManager (id_max (manager s)) (hoffset (manager s)) m))) as Hins.
  { intros h1 HR1 Hal1 Hn1. apply wp_zoom. cbn [id_links].
    apply (wp_DoubleLinkListInsertNodeAfter h1 (touch hd L) hd [] (default [] (L !! hd)) a hd); try done.
    - apply lookup_touch.
    - by apply unlinked_touch, Hne; apply Ha.
    - apply Hal1, Ha.
    - intros h' HR' [Hal' Hn']. apply Hok; try done.
      + apply id_rep_insert; try done. { intros y. by rewrite Hal'. } intros y Hy1 Hy2 Hy3. auto.
      + intros y. cbn. by rewrite Hal'.
      + intros y Hy1 Hy2 Hy3. cbn. auto. }
  unfold InsertObj, set_id_map, set_node_id. cbn [id_links node_id manager id_max hoffset id_map]. wp_steps.
  cbn [node_id]. rewrite lookup_insert_eq. wp_steps. cbn [manager hoffset]. fold hd.
  eapply (wp_bucket _ L); [done|by apply (ir_table _ _ _ Hs)|..].
  - intros HL. rewrite bool_decide_true by done. wp_steps.
    apply (wp_init_bucket _ L); [done|by apply (ir_table _ _ _ Hs)|done|].
    intros h1 HR1 [Hal1 Hn1]. exact (Hins h1 HR1 Hal1 Hn1).
  - intros l p HL. rewrite bool_decide_false by done. wp_steps.
    specialize (Hins (id_links s)). rewrite (touch_Some hd l) in Hins by done.
    exact (Hins HR ltac:(done) ltac:(done)).
Qed.

Lemma id_node_not_bucket s L I i a j :
  id_rep s L I -> I !! i = Some a -> 0 <= j < hoffset (manager s) -> a <> htable j.
Proof.
  intros Hs Hi Hj ->. pose proof (ir_rep _ _ _ Hs) as HR.
  destruct (ir_bucket _ _ _ Hs _ _ Hi) as (l & HL & Hin).
  destruct (ir_table _ _ _ Hs j Hj) as [[l' HL']|[_ Hp]].
  - assert (htable (i mod hoffset (manager s)) = htable j) as E
      by (apply (rep_disj _ _ HR _ _ _ _ (htable j) HL HL'); set_solver).
    rewrite E in HL. by apply (rep_head_not_member _ _ _ _ HR HL).
  - apply (rep_prv _ _ _ _ (htable j) HR HL); [set_solver|done].
Qed.

Lemma id_rep_remove s L I i a m h' :
  id_rep s L I -> I !! i = Some a ->
  length m = length (id_map (manager s)) -> bytes m ->
  (forall j, 0 <= j -> used_bit m j = if j =? i then false else used_bit (id_map (manager s)) j) ->
  rep h' (detach a L) -> same_links a (id_links s) h' ->
  id_rep (mkIdState h' (<[a := u16 (-1)]> (node_id s))
            (mkIdManager (id_max (manager s)) (hoffset (manager s)) m)) (detach a L) (delete i I).
Proof.
  intros Hs Hi Hlen Hby Hbits HR [Hal Hnull].
  assert (forall j b, I !! j = Some b -> j <> i -> b <> a) as Hinj.
  { intros j b Hb Hne ->. pose proof (ir_node _ _ _ Hs _ _ Hb). pose proof (ir_node _ _ _ Hs _ _ Hi).
    congruence. }
  assert (forall j, 0 <= j < hoffset (manager s) -> htable j <> a) as Hnb.
  { intros j Hj. by apply not_eq_sym, (id_node_not_bucket s L I i). }
  split; cbn [id_links node_id manager id_max hoffset id_map]; try apply Hs; [done|..].
  - rewrite Hlen. apply Hs.
  - done.
  - intros j Hj. rewrite Hbits by done. destruct (Z.eqb_spec j i) as [->|Hne].
    + rewrite lookup_delete_eq. by rewrite bool_decide_false by by intros [? ?].
    + rewrite lookup_delete_ne by done. by apply (ir_bits _ _ _ Hs).
  - intros j b [? Hb]%lookup_delete_Some. by apply (ir_dom _ _ _ Hs _ _ Hb).
  - intros j b [? Hb]%lookup_delete_Some. rewrite lookup_insert_ne; [by apply (ir_node _ _ _ Hs)|].
    by apply not_eq_sym, (Hinj j).
  - intros j b [? Hb]%lookup_delete_Some. destruct (ir_bucket _ _ _ Hs _ _ Hb) as (l & HL & Hin).
    exists (without a l). rewrite lookup_detach_ne by (by apply Hnb, (id_mod_bounds _ L I)). rewrite HL.
    split; [done|]. apply elem_of_without. split; [by apply (Hinj j)|done].
  - intros j l b Hj HL Hin. rewrite lookup_detach_ne in HL by by apply Hnb.
    destruct (L !! htable j) as [l0|] eqn:HL0; [|done]. injection HL as <-.
    apply elem_of_without in Hin as [Hba Hin].
    destruct (ir_members _ _ _ Hs _ _ _ Hj HL0 Hin) as (i' & Hi' & Em). exists i'.
    rewrite lookup_delete_ne by congruence. done.
  - intros j Hj. unfold bucket_ok. rewrite lookup_detach_ne by by apply Hnb.
    destruct (ir_table _ _ _ Hs j Hj) as [[l HL]|[? ?]]; [left; rewrite HL; by eexists|right].
    split; [by apply Hal|]. apply Hnull; [by apply Hnb|done].
Qed.

Lemma wp_IdRemoveObj_hit s L I id a (Q : unit -> id_state -> Prop) :
  id_rep s L I -> I !! id = Some a ->
  (forall s', id_rep s' (detach a L) (delete id I) -> same_links a (id_links s) (id_links s') ->
     node_id s' = <[a := u16 (-1)]> (node_id s) ->
     id_max (manager s') = id_max (manager s) -> hoffset (manager s') = hoffset (manager s) -> Q tt s') ->
  wp (IdRemoveObj id) Q s.
Proof.
  intros Hs Hi HQ. unfold IdRemoveObj. wp_steps. eapply wp_IdGetObj_hit; [done..|].
  wp_steps. rewrite (ir_node _ _ _ Hs _ _ Hi). wp_steps. pose proof (ir_dom _ _ _ Hs _ _ Hi) as Hd.
  unfold FreeId. wp_steps. pose proof (ir_len _ _ _ Hs) as Hlen.
  destruct (lookup_lt_is_Some_2 (id_map (manager s)) (Z.to_nat (id / 8))) as [e He].
  { pose proof (Z.div_pos id 8 ltac:(lia) ltac:(lia)).
    assert (id / 8 < (id_max (manager s) + 7) / 8); [|lia].
    apply Z.div_lt_upper_bound; [lia|]. pose proof (Z.div_mod (id_max (manager s) + 7) 8).
    pose proof (Z.mod_pos_bound (id_max (manager s) + 7) 8). lia. }
  rewrite He. wp_steps. unfold RemoveObj. apply wp_zoom. cbn [id_links set_id_map].
  apply (wp_DoubleLinkListRmNode _ L); [apply Hs| |].
  { right. destruct (ir_bucket _ _ _ Hs _ _ Hi) as (l & ? & ?). by eexists _, l. }
  intros h' HR' Hsl. wp_steps. apply HQ; [|done..].
  apply (id_rep_remove s L I id a); try done.
  - apply length_insert.
  - apply bytes_insert, Hs.
  - intros j Hj. pose proof (Z.div_mod id 8 ltac:(lia)). pose proof (Z.mod_pos_bound id 8 ltac:(lia)).
    rewrite (used_bit_update _ (id / 8) (id mod 8) false e); try done; try lia.
    + by replace (id / 8 * 8 + id mod 8) with id by lia.
    + intros c Hc. by apply clear_bit_spec.
Qed.

Lemma wp_IdRemoveObj_miss s L I id (Q : unit -> id_state -> Prop) :
  id_rep s L I -> 0 <= id -> I !! id = None ->
  (forall h' L', id_rep (set_id_links h' s) L' I ->
     (L' = L \/ L' = touch (htable (id mod hoffset (manager s))) L) ->
     (forall y, alloc h' y <-> alloc (id_links s) y) -> Q tt (set_id_links h' s)) ->
  wp (IdRemoveObj id) Q s.
Proof.
  intros Hs Hid Hi HQ. unfold IdRemoveObj. wp_steps. apply (wp_IdGetObj s L I); [done|done|].
  intros h' L' Hs' HL' Hal. rewrite Hi. apply wp_ret. by eapply HQ.
Qed.

(** A fresh manager implements the empty map. *)
Lemma id_rep_init h L htsize max ids :
  rep h L -> 0 < htsize -> 0 < max < 2 ^ 16 ->
  (forall j, 0 <= j < hoffset (DECLARE_ID_MANAGER htsize max) ->
     alloc h (htable j) /\ prv h (htable j) = None) ->
  id_rep (mkIdState h ids (DECLARE_ID_MANAGER htsize max)) L ∅.
Proof.
  intros HR Hsz Hmax Hb. split; cbn [id_links node_id manager DECLARE_ID_MANAGER id_max hoffset id_map].
  - done.
  - lia.
  - destruct (max <? htsize); lia.
  - rewrite length_replicate. pose proof (Z.div_pos (max + 7) 8). lia.
  - intros j e [-> _]%lookup_replicate. lia.
  - intros i Hi. rewrite lookup_empty, bool_decide_false by by intros [? ?].
    unfold used_bit. destruct (replicate _ 0 !! _) as [e|] eqn:E; [|done].
    apply lookup_replicate in E as [-> _]. apply Z.bits_0.
  - intros i a. by rewrite lookup_empty.
  - intros i a. by rewrite lookup_empty.
  - intros i a. by rewrite lookup_empty.
  - intros j l a Hj HL Hin. exfalso. destruct (Hb j Hj) as [_ Hp].
    apply (rep_prv _ _ _ _ (htable j) HR HL); [set_solver|done].
  - intros j Hj. right. by apply Hb.
Qed.

(** ** The manager as a map: histories of calls *)

Inductive id_op : Type :=
| OpInsert (a : A)
| OpGet (id : Z)
| OpRemove (id : Z).

(** What a call returns: an identifier, an object or nothing. *)
Definition id_result : Type := Z + option A.

Definition run_id_op (o : id_op) : M id_state id_result :=
  match o with
  | OpInsert a => i ← IdInsertObj a; mret (inl i)
  | OpGet id => r ← IdGetObj id; mret (inr r)
  | OpRemove id => IdRemoveObj id;; mret (inr None)
  end.

Fixpoint run_id_ops (os : list id_op) : M id_state (list id_result) :=
  match os with
  | [] => mret []
  | o :: os => r ← run_id_op o; rs ← run_id_ops os; mret (r :: rs)
  end.

(** The same calls on a finite map: insertion takes the least free key below [max]. *)
Definition spec_id_op (max : Z) (I : gmap Z A) (o : id_op) : id_result * gmap Z A :=
  match o with
  | OpInsert a =>
      match list_find (fun i => I !! i = None) (seqZ 0 max) with
      | Some (_, i) => (inl i, <[i := a]> I)
      | None => (inl (-1), I)
      end
  | OpGet id => (inr (I !! id), I)
  | OpRemove id => (inr None, delete id I)
  end.

Fixpoint spec_id_ops (max : Z) (I : gmap Z A) (os : list id_op) : list id_result * gmap Z A :=
  match os with
  | [] => ([], I)
  | o :: os =>
      let '(r, I1) := spec_id_op max I o in
      let '(rs, I2) := spec_id_ops max I1 os in (r :: rs, I2)
  end.

(** The callers' side: a node is inserted only while it has no identifier, and
    the [id] parameters are [uint16]. *)
Definition id_op_ok (N : gset A) (I : gmap Z A) (o : id_op) : Prop :=
  match o with
  | OpInsert a => a ∈ N /\ map_Forall (fun _ b => b <> a) I
  | OpGet id | OpRemove id => 0 <= id < 2 ^ 16
  end.

Fixpoint id_ops_ok (N : gset A) (max : Z) (I : gmap Z A) (os : list id_op) : Prop :=
  match os with
  | [] => True
  | o :: os => id_op_ok N I o /\ id_ops_ok N max (snd (spec_id_op max I o)) os
  end.

#[global] Instance id_op_ok_dec N I o : Decision (id_op_ok N I o).
Proof. destruct o; apply _. Defined.

#[global] Instance id_ops_ok_dec N max I os : Decision (id_ops_ok N max I os).
Proof. revert I. induction os; intros I; apply _. Defined.

(** The nodes of [N] are allocated links other than the buckets, and those
    without an identifier are on no list. *)
Record nodes_ok (N : gset A) (s : id_state) (L : gmap A (list A)) (I : gmap Z A) : Prop := {
  no_alloc : forall a, a ∈ N -> alloc (id_links s) a;
  no_bucket : forall a j, a ∈ N -> a <> htable j;
  no_unlinked : forall a, a ∈ N -> (forall i, I !! i <> Some a) -> unlinked L a;
}.

Lemma unlinked_insert_lists hd a b L :
  unlinked L b -> b <> a -> b <> hd -> unlinked (insert_lists hd a L) b.
Proof.
  intros Hun Hba Hbh hd' l' HL Hb. destruct (decide (hd' = hd)) as [->|].
  - rewrite lookup_insert_lists_eq in HL. injection HL as <-. exfalso.
    destruct (L !! hd) as [l|] eqn:E; cbn in Hb; [|set_solver].
    destruct (Hun hd l E); [set_solver|congruence].
  - destruct (decide (hd' = a)) as [->|].
    + unfold insert_lists, attach in HL. rewrite lookup_insert_ne, lookup_delete_eq in HL by done. done.
    + rewrite lookup_insert_lists_ne in HL by done. by eapply Hun.
Qed.

Lemma unlinked_detach a b L : unlinked L b \/ b = a -> unlinked (detach a L) b.
Proof.
  intros Hor hd l [[-> ->]|(Hne & l' & HL & ->)]%lookup_detach_Some Hb.
  { apply list_elem_of_singleton in Hb. naive_solver. }
  rewrite elem_of_cons, elem_of_without in Hb. destruct Hor as [Hun| ->]; [|naive_solver].
  destruct (Hun hd l' HL) as [-> ->]; [rewrite elem_of_cons; naive_solver|done].
Qed.

Lemma nodes_ok_touch N s L I L' id h' :
  nodes_ok N s L I -> (L' = L \/ L' = touch (htable (id mod hoffset (manager s))) L) ->
  (forall y, alloc h' y <-> alloc (id_links s) y) -> nodes_ok N (set_id_links h' s) L' I.
Proof.
  intros HN HL' Hal. split; [intros b Hb; by apply Hal, (no_alloc _ _ _ _ HN)|by apply (no_bucket _ _ _ _ HN)|].
  intros b Hb Hbn. pose proof (no_unlinked _ _ _ _ HN b Hb Hbn).
  destruct HL' as [-> | ->]; [done|]. apply unlinked_touch; [done|by apply (no_bucket _ _ _ _ HN)].
Qed.

Lemma least_free max I i :
  0 <= i < max -> I !! i = None -> (forall j, 0 <= j < i -> is_Some (I !! j)) ->
  list_find (fun j => I !! j = None) (seqZ 0 max) = Some (Z.to_nat i, i).
Proof.
  intros Hi HiN Hleast. apply list_find_Some. split_and!; [|done|].
  - apply lookup_seqZ. lia.
  - intros n j [-> Hn]%lookup_seqZ Hlt HjN. destruct (Hleast (0 + Z.of_nat n)) as [? ?]; [lia|congruence].
Qed.

Lemma run_id_op_refines N s L I o :
  id_rep s L I -> nodes_ok N s L I -> id_op_ok N I o ->
  wp (run_id_op o) (fun r s' => exists L' I', id_rep s' L' I' /\ nodes_ok N s' L' I' /\
       id_max (manager s') = id_max (manager s) /\
       spec_id_op (id_max (manager s)) I o = (r, I')) s.
Proof.
  intros Hs HN Ho. destruct o as [a|id|id]; cbn [run_id_op id_op_ok spec_id_op] in *.
  - destruct Ho as [HaN Hna']. assert (forall i, I !! i <> Some a) as Hna by (intros i Hi; by apply (Hna' i a)).
    wp_steps. apply (wp_IdInsertObj s L I).
    + done.
    + split; [by apply (no_alloc _ _ _ _ HN)|by apply (no_unlinked _ _ _ _ HN)| |done].
      intros j. by apply (no_bucket _ _ _ _ HN).
    + intros Hfull. wp_steps. exists L, I. split_and!; [done..|].
      destruct (list_find _ _) as [[n i]|] eqn:Ef; [|done].
      apply list_find_Some in Ef as (Hi%list_elem_of_lookup_2%elem_of_seqZ & HiN & _).
      destruct (Hfull i) as [? ?]; [lia|congruence].
    + intros i s' Hi HiN Hleast Hs' Hal Hnull Hid Emax _. wp_steps. eexists _, _. split_and!; [exact Hs'|..].
      * split; [intros b Hb; by apply Hal, (no_alloc _ _ _ _ HN)|by apply (no_bucket _ _ _ _ HN)|].
        intros b Hb Hbn. apply unlinked_insert_lists; [|intros ->; by apply (Hbn i); rewrite lookup_insert_eq|
          by apply (no_bucket _ _ _ _ HN)].
        apply (no_unlinked _ _ _ _ HN); [done|]. intros j Hj. apply (Hbn j).
        rewrite lookup_insert_ne; [done|congruence].
      * done.
      * rewrite (least_free (id_max (manager s)) I i) by done. done.
  - wp_steps. apply (wp_IdGetObj s L I); [done|lia|]. intros h' L' Hs' HL' Hal. wp_steps.
    exists L', I. split_and!; [done| |done..]. by apply (nodes_ok_touch N s L I _ id).
  - wp_steps. destruct (I !! id) as [a|] eqn:Hi.
    + apply (wp_IdRemoveObj_hit s L I id a); [done..|]. intros s' Hs' [Hal _] Hid Emax _. wp_steps.
      eexists _, _. split_and!; [exact Hs'| |done..].
      split; [intros b Hb; by apply Hal, (no_alloc _ _ _ _ HN)|by apply (no_bucket _ _ _ _ HN)|].
      intros b Hb Hbn. apply unlinked_detach. destruct (decide (b = a)) as [->|Hne]; [by right|left].
      apply (no_unlinked _ _ _ _ HN); [done|]. intros j Hj. apply (Hbn j).
      rewrite lookup_delete_ne; [done|congruence].
    + apply (wp_IdRemoveObj_miss s L I id); [done|lia|done|]. intros h' L' Hs' HL' Hal. wp_steps.
      exists L', I. split_and!; [done| |done|by rewrite delete_id]. by apply (nodes_ok_touch N s L I _ id).
Qed.

(** C6: the identifier manager implements a finite map: every history of
    insertions, lookups and removals runs to its end and returns what the map
    returns, where an insertion takes the least free identifier below [id_max]
    and answers -1 when there is none. *)
Theorem IdManager_refines_map N s L I os :
  id_rep s L I -> nodes_ok N s L I -> id_ops_ok N (id_max (manager s)) I os ->
  wp (run_id_ops os) (fun rs s' => exists L' I', id_rep s' L' I' /\
       spec_id_ops (id_max (manager s)) I os = (rs, I')) s.
Proof.
  revert s L I. induction os as [|o os IH]; intros s L I Hs HN Hok; cbn [run_id_ops spec_id_ops].
  { apply wp_ret. by exists L, I. }
  destruct Hok as [Ho Hok]. apply wp_bind. eapply wp_mono; [by eapply (run_id_op_refines N s L)|].
  intros r s1 (L1 & I1 & Hs1 & HN1 & Emax & E1). rewrite E1 in Hok |- *. cbn [snd] in Hok.
  apply wp_bind. eapply wp_mono; [apply (IH s1 L1 I1); [done..|by rewrite Emax]|].
  intros rs s2 (L2 & I2 & Hs2 & E2). rewrite Emax in E2. wp_steps. exists L2, I2. by rewrite E2.
Qed.

End IdManager.

(** A manager for two identifiers; the addresses are the buckets [inl j] and the
    nodes [inr n].  The third insertion fails until an identifier is given back. *)
Definition id_witness_state : id_state (A := Z + Z) :=
  mkIdState (list_to_map ((fun a => (a, mkNode None None)) <$> [inl 0; inl 1; inr 1; inr 2; inr 3])) ∅
    (DECLARE_ID_MANAGER 16 2).

Definition id_witness_ops : list (id_op (A := Z + Z)) :=
  [OpInsert (inr 1); OpInsert (inr 2); OpInsert (inr 3); OpGet 1; OpRemove 0; OpGet 0;
   OpInsert (inr 3); OpGet 0].

Lemma IdManager_refines_map_witness :
  exists rs s', run_id_ops inl id_witness_ops id_witness_state = Ret rs s' /\
    rs = [inl 0; inl 1; inl (-1); inr (Some (inr 2)); inr None; inr None; inl 0; inr (Some (inr 3))].
Proof.
  assert (id_rep inl id_witness_state ∅ ∅) as H1.
  { apply id_rep_init; [by intros i j [= ->]|split; intros *; by rewrite lookup_empty|lia|lia|].
    intros j Hj. assert (j = 0 \/ j = 1) as [-> | ->] by (cbn in Hj; lia); split; done || by eexists. }
  assert (nodes_ok inl {[inr 1; inr 2; inr 3]} id_witness_state ∅ ∅) as H2.
  { split; [|intros a j Ha ->; set_solver|intros a _ _ hd l; by rewrite lookup_empty].
    intros a Ha. assert (a = inr 1 \/ a = inr 2 \/ a = inr 3) as [-> | [-> | ->]] by set_solver; by eexists. }
  destruct (wp_inv _ _ _ (IdManager_refines_map inl (inj (inl : Z -> Z + Z)) {[inr 1; inr 2; inr 3]}
    id_witness_state ∅ ∅ id_witness_ops H1 H2
    ltac:(apply (bool_decide_unpack _); vm_compute; exact I))) as (rs & s' & E & L2 & I2 & _ & Hs).
  exists rs, s'. split; [exact E|]. vm_compute in Hs. by injection Hs as <- _.
Defined.
