(* ===== verification/Kernel.v ===== *)
(** * The state of the kernel

    One record holds what the translation units of kernel/thread share: the link
    fields of all objects (one memory of [node]s, see DoubleLink), the object
    descriptors by address, the identifier managers, the [Assign] structure, the
    interrupt and lock state and the tick counter.  The file also models the
    small units every other one calls: CriticalArea.c (single core), the counters
    of isr.c, ktask_stat.c and [RestoreCpusLockStatus] of lock.c.

    The configuration is the debug build: [CHECK] and [NULL_PARAM_CHECK] spin,
    single core, no task isolation, no hooks, no stack check. *)

From S2P Require Import Prelude DoubleLink IdManager.

(** ** Configuration (Kconfig) *)

Inductive policy : Type := SCHED_POLICY_FIFO | SCHED_POLICY_RR | SCHED_POLICY_RR_REMAINSLICE.

Class KConfig : Type := {
  KTASK_PRIORITY_MAX : Z;
  sched_policy : policy;
  TICK_PER_SECOND : Z;
  ID_NUM_MAX : Z;
  ID_HTABLE_SIZE : Z;
  MEM_ALIGN_SIZE : Z;
  NAME_NUM_MAX : Z;
}.

(** The values Kconfig lets choose. *)
Class KConfigOk (C : KConfig) : Prop := {
  cfg_prio : KTASK_PRIORITY_MAX = 8 \/ KTASK_PRIORITY_MAX = 32 \/ KTASK_PRIORITY_MAX = 256;
  cfg_tick : 10 <= TICK_PER_SECOND <= 1000;
  cfg_ids : 16 <= ID_NUM_MAX <= 256;
  cfg_htable : 1 <= ID_HTABLE_SIZE <= 256;
  cfg_align : 0 < MEM_ALIGN_SIZE;
}.

(** ** Addresses *)

(** Addresses of the dynamically allocated descriptors. *)
Abbreviation ptr := positive.

(** The classes of kernel objects. *)
Inductive class : Type := CTask | CDelay | CSem | CMutex | CEvent | CMq | CTimer | CGather.

#[export] Instance class_eq_dec : EqDecision class.
Proof. solve_decision. Defined.

Definition class_code (c : class) : Z :=
  match c with
  | CTask => 0 | CDelay => 1 | CSem => 2 | CMutex => 3 | CEvent => 4 | CMq => 5 | CTimer => 6 | CGather => 7
  end.
Definition class_decode (z : Z) : option class :=
  match z with
  | 0 => Some CTask | 1 => Some CDelay | 2 => Some CSem | 3 => Some CMutex | 4 => Some CEvent
  | 5 => Some CMq | 6 => Some CTimer | 7 => Some CGather | _ => None
  end.
Lemma class_decode_code c : class_decode (class_code c) = Some c.
Proof. by destruct c. Qed.
#[export] Instance class_countable : Countable class :=
  inj_countable class_code class_decode class_decode_code.

(** The addresses of the [DoubleLinklistType] fields. *)
Inductive link : Type :=
| ReadyVec (prio : Z)        (* Assign.os_assign_read_vector.priority_ready_vector[prio] *)
| ListHead (c : class)       (* xiaoshan_task_head, xiaoshan_delay_head, k_sem_list, ... *)
| ZombieHead                 (* KTaskZombie *)
| Bucket (c : class) (i : Z) (* htable[i] of the identifier manager of the class *)
| IdLink (c : class) (p : ptr)   (* &object->id.link *)
| ObjLink (c : class) (p : ptr)  (* &object->link *)
| SchedLink (t : ptr)            (* &task->task_dync_sched_member.sched_link *)
| PendList (c : class) (p : ptr) (* &object->pend_list; the recv_pend_list of a queue, the wait_task of a pool *)
| SendPendList (p : ptr)         (* &mq->send_pend_list *)
| SortList (p : ptr)             (* &timer->sortlist *)
| TimerSortHead.                 (* xiaoshan_timer_sort_head *)

#[export] Instance link_eq_dec : EqDecision link.
Proof. solve_decision. Defined.

Definition link_code (a : link) : Z * (Z * (Z + ptr)) :=
  match a with
  | ReadyVec p => (0, (0, inl p))
  | ListHead c => (1, (class_code c, inl 0))
  | ZombieHead => (2, (0, inl 0))
  | Bucket c i => (3, (class_code c, inl i))
  | IdLink c p => (4, (class_code c, inr p))
  | ObjLink c p => (5, (class_code c, inr p))
  | SchedLink t => (6, (0, inr t))
  | PendList c p => (7, (class_code c, inr p))
  | SendPendList p => (8, (0, inr p))
  | SortList p => (9, (0, inr p))
  | TimerSortHead => (10, (0, inl 0))
  end.
Definition link_decode (z : Z * (Z * (Z + ptr))) : option link :=
  match z with
  | (0, (_, inl p)) => Some (ReadyVec p)
  | (1, (c, inl _)) => ListHead <$> class_decode c
  | (2, _) => Some ZombieHead
  | (3, (c, inl i)) => (fun c => Bucket c i) <$> class_decode c
  | (4, (c, inr p)) => (fun c => IdLink c p) <$> class_decode c
  | (5, (c, inr p)) => (fun c => ObjLink c p) <$> class_decode c
  | (6, (_, inr t)) => Some (SchedLink t)
  | (7, (c, inr p)) => (fun c => PendList c p) <$> class_decode c
  | (8, (_, inr p)) => Some (SendPendList p)
  | (9, (_, inr p)) => Some (SortList p)
  | (10, _) => Some TimerSortHead
  | _ => None
  end.
Lemma link_decode_code a : link_decode (link_code a) = Some a.
Proof. destruct a; cbn; by rewrite ?class_decode_code. Qed.
#[export] Instance link_countable : Countable link :=
  inj_countable link_code link_decode link_decode_code.

(** [SYS_DOUBLE_LINKLIST_ENTRY]: the object a link is a field of.  The entry of a
    list head is no object; dereferencing it faults. *)
Definition sched_entry (a : link) : option ptr :=
  match a with SchedLink t => Some t | _ => None end.
Definition obj_entry (c : class) (a : link) : option ptr :=
  match a with ObjLink c' p => if bool_decide (c' = c) then Some p else None | _ => None end.
Definition id_entry (c : class) (a : link) : option ptr :=
  match a with IdLink c' p => if bool_decide (c' = c) then Some p else None | _ => None end.

(** ** Descriptors *)

Record TaskDescriptor : Type := mkTask {
  name : string;
  func_entry : option Z;
  func_param : Z;
  origin_prio : Z;  (* uint8 *)
  stack_depth : Z;  (* uint32 *)
  stack_start : option Z;
  stat : Z;  (* uint8 *)
  advance_cnt : Z;  (* uint8 *)
  cur_prio : Z;  (* uint8 *)
  origin_timeslice : Z;  (* x_ubase *)
  rest_timeslice : Z;  (* x_ubase *)
  bitmap_offset : Z;  (* uint8 *)
  bitmap_row : Z;  (* uint8 *)
  bitmap_column : Z;  (* uint32 *)
  delay : option ptr;
  event_id_trigger : Z;  (* 29 bits *)
  event_mode : Z;  (* 3 bits *)
  exstatus : Z;
}.

Definition set_name (v : string) (td : TaskDescriptor) : TaskDescriptor :=
  mkTask v (func_entry td) (func_param td) (origin_prio td) (stack_depth td) (stack_start td)
    (stat td) (advance_cnt td) (cur_prio td) (origin_timeslice td) (rest_timeslice td)
    (bitmap_offset td) (bitmap_row td) (bitmap_column td) (delay td) (event_id_trigger td)
    (event_mode td) (exstatus td).
Definition set_func_entry (v : option Z) (td : TaskDescriptor) : TaskDescriptor :=
  mkTask (name td) v (func_param td) (origin_prio td) (stack_depth td) (stack_start td) (stat
    td) (advance_cnt td) (cur_prio td) (origin_timeslice td) (rest_timeslice td) (bitmap_offset
    td) (bitmap_row td) (bitmap_column td) (delay td) (event_id_trigger td) (event_mode td)
    (exstatus td).
Definition set_func_param (v : Z) (td : TaskDescriptor) : TaskDescriptor :=
  mkTask (name td) (func_entry td) v (origin_prio td) (stack_depth td) (stack_start td) (stat
    td) (advance_cnt td) (cur_prio td) (origin_timeslice td) (rest_timeslice td) (bitmap_offset
    td) (bitmap_row td) (bitmap_column td) (delay td) (event_id_trigger td) (event_mode td)
    (exstatus td).
Definition set_origin_prio (v : Z) (td : TaskDescriptor) : TaskDescriptor :=
  mkTask (name td) (func_entry td) (func_param td) v (stack_depth td) (stack_start td) (stat td)
    (advance_cnt td) (cur_prio td) (origin_timeslice td) (rest_timeslice td) (bitmap_offset td)
    (bitmap_row td) (bitmap_column td) (delay td) (event_id_trigger td) (event_mode td)
    (exstatus td).
Definition set_stack_depth (v : Z) (td : TaskDescriptor) : TaskDescriptor :=
  mkTask (name td) (func_entry td) (func_param td) (origin_prio td) v (stack_start td) (stat td)
    (advance_cnt td) (cur_prio td) (origin_timeslice td) (rest_timeslice td) (bitmap_offset td)
    (bitmap_row td) (bitmap_column td) (delay td) (event_id_trigger td) (event_mode td)
    (exstatus td).
Definition set_stack_start (v : option Z) (td : TaskDescriptor) : TaskDescriptor :=
  mkTask (name td) (func_entry td) (func_param td) (origin_prio td) (stack_depth td) v (stat td)
    (advance_cnt td) (cur_prio td) (origin_timeslice td) (rest_timeslice td) (bitmap_offset td)
    (bitmap_row td) (bitmap_column td) (delay td) (event_id_trigger td) (event_mode td)
    (exstatus td).
Definition set_stat (v : Z) (td : TaskDescriptor) : TaskDescriptor :=
  mkTask (name td) (func_entry td) (func_param td) (origin_prio td) (stack_depth td)
    (stack_start td) v (advance_cnt td) (cur_prio td) (origin_timeslice td) (rest_timeslice td)
    (bitmap_offset td) (bitmap_row td) (bitmap_column td) (delay td) (event_id_trigger td)
    (event_mode td) (exstatus td).
Definition set_advance_cnt (v : Z) (td : TaskDescriptor) : TaskDescriptor :=
  mkTask (name td) (func_entry td) (func_param td) (origin_prio td) (stack_depth td)
    (stack_start td) (stat td) v (cur_prio td) (origin_timeslice td) (rest_timeslice td)
    (bitmap_offset td) (bitmap_row td) (bitmap_column td) (delay td) (event_id_trigger td)
    (event_mode td) (exstatus td).
Definition set_cur_prio (v : Z) (td : TaskDescriptor) : TaskDescriptor :=
  mkTask (name td) (func_entry td) (func_param td) (origin_prio td) (stack_depth td)
    (stack_start td) (stat td) (advance_cnt td) v (origin_timeslice td) (rest_timeslice td)
    (bitmap_offset td) (bitmap_row td) (bitmap_column td) (delay td) (event_id_trigger td)
    (event_mode td) (exstatus td).
Definition set_origin_timeslice (v : Z) (td : TaskDescriptor) : TaskDescriptor :=
  mkTask (name td) (func_entry td) (func_param td) (origin_prio td) (stack_depth td)
    (stack_start td) (stat td) (advance_cnt td) (cur_prio td) v (rest_timeslice td)
    (bitmap_offset td) (bitmap_row td) (bitmap_column td) (delay td) (event_id_trigger td)
    (event_mode td) (exstatus td).
Definition set_rest_timeslice (v : Z) (td : TaskDescriptor) : TaskDescriptor :=
  mkTask (name td) (func_entry td) (func_param td) (origin_prio td) (stack_depth td)
    (stack_start td) (stat td) (advance_cnt td) (cur_prio td) (origin_timeslice td) v
    (bitmap_offset td) (bitmap_row td) (bitmap_column td) (delay td) (event_id_trigger td)
    (event_mode td) (exstatus td).
Definition set_bitmap_offset (v : Z) (td : TaskDescriptor) : TaskDescriptor :=
  mkTask (name td) (func_entry td) (func_param td) (origin_prio td) (stack_depth td)
    (stack_start td) (stat td) (advance_cnt td) (cur_prio td) (origin_timeslice td)
    (rest_timeslice td) v (bitmap_row td) (bitmap_column td) (delay td) (event_id_trigger td)
    (event_mode td) (exstatus td).
Definition set_bitmap_row (v : Z) (td : TaskDescriptor) : TaskDescriptor :=
  mkTask (name td) (func_entry td) (func_param td) (origin_prio td) (stack_depth td)
    (stack_start td) (stat td) (advance_cnt td) (cur_prio td) (origin_timeslice td)
    (rest_timeslice td) (bitmap_offset td) v (bitmap_column td) (delay td) (event_id_trigger td)
    (event_mode td) (exstatus td).
Definition set_bitmap_column (v : Z) (td : TaskDescriptor) : TaskDescriptor :=
  mkTask (name td) (func_entry td) (func_param td) (origin_prio td) (stack_depth td)
    (stack_start td) (stat td) (advance_cnt td) (cur_prio td) (origin_timeslice td)
    (rest_timeslice td) (bitmap_offset td) (bitmap_row td) v (delay td) (event_id_trigger td)
    (event_mode td) (exstatus td).
Definition set_delay (v : option ptr) (td : TaskDescriptor) : TaskDescriptor :=
  mkTask (name td) (func_entry td) (func_param td) (origin_prio td) (stack_depth td)
    (stack_start td) (stat td) (advance_cnt td) (cur_prio td) (origin_timeslice td)
    (rest_timeslice td) (bitmap_offset td) (bitmap_row td) (bitmap_column td) v
    (event_id_trigger td) (event_mode td) (exstatus td).
Definition set_event_id_trigger (v : Z) (td : TaskDescriptor) : TaskDescriptor :=
  mkTask (name td) (func_entry td) (func_param td) (origin_prio td) (stack_depth td)
    (stack_start td) (stat td) (advance_cnt td) (cur_prio td) (origin_timeslice td)
    (rest_timeslice td) (bitmap_offset td) (bitmap_row td) (bitmap_column td) (delay td) v
    (event_mode td) (exstatus td).
Definition set_event_mode (v : Z) (td : TaskDescriptor) : TaskDescriptor :=
  mkTask (name td) (func_entry td) (func_param td) (origin_prio td) (stack_depth td)
    (stack_start td) (stat td) (advance_cnt td) (cur_prio td) (origin_timeslice td)
    (rest_timeslice td) (bitmap_offset td) (bitmap_row td) (bitmap_column td) (delay td)
    (event_id_trigger td) v (exstatus td).
Definition set_exstatus (v : Z) (td : TaskDescriptor) : TaskDescriptor :=
  mkTask (name td) (func_entry td) (func_param td) (origin_prio td) (stack_depth td)
    (stack_start td) (stat td) (advance_cnt td) (cur_prio td) (origin_timeslice td)
    (rest_timeslice td) (bitmap_offset td) (bitmap_row td) (bitmap_column td) (delay td)
    (event_id_trigger td) (event_mode td) v.

Record Delay : Type := mkDelay {
  delay_task : ptr;
  delay_ticks : Z;  (* x_ticks_t *)
  delay_status : Z;  (* uint8 *)
}.

Definition set_delay_task (v : ptr) (d : Delay) : Delay :=
  mkDelay v (delay_ticks d) (delay_status d).
Definition set_delay_ticks (v : Z) (d : Delay) : Delay :=
  mkDelay (delay_task d) v (delay_status d).
Definition set_delay_status (v : Z) (d : Delay) : Delay :=
  mkDelay (delay_task d) (delay_ticks d) v.

Record OsAssignReadyVector : Type := mkReadyVector {
  priority_ready_group : Z;  (* uint32 *)
  ready_vector : list Z;  (* uint8[32] *)
  highest_prio : Z;  (* x_ubase *)
}.

Definition set_priority_ready_group (v : Z) (rv : OsAssignReadyVector) : OsAssignReadyVector :=
  mkReadyVector v (ready_vector rv) (highest_prio rv).
Definition set_ready_vector (v : list Z) (rv : OsAssignReadyVector) : OsAssignReadyVector :=
  mkReadyVector (priority_ready_group rv) v (highest_prio rv).
Definition set_highest_prio (v : Z) (rv : OsAssignReadyVector) : OsAssignReadyVector :=
  mkReadyVector (priority_ready_group rv) (ready_vector rv) v.

Record Semaphore : Type := mkSemaphore {
  sem_value : Z;  (* uint16 *)
}.


Record Mutex : Type := mkMutex {
  mutex_val : Z;  (* uint16 *)
  recursive_cnt : Z;  (* uint8 *)
  mutex_origin_prio : Z;  (* uint8 *)
  holder : option ptr;
}.

Definition set_mutex_val (v : Z) (m : Mutex) : Mutex :=
  mkMutex v (recursive_cnt m) (mutex_origin_prio m) (holder m).
Definition set_recursive_cnt (v : Z) (m : Mutex) : Mutex :=
  mkMutex (mutex_val m) v (mutex_origin_prio m) (holder m).
Definition set_mutex_origin_prio (v : Z) (m : Mutex) : Mutex :=
  mkMutex (mutex_val m) (recursive_cnt m) v (holder m).
Definition set_holder (v : option ptr) (m : Mutex) : Mutex :=
  mkMutex (mutex_val m) (recursive_cnt m) (mutex_origin_prio m) v.

Record Event : Type := mkEvent {
  event_options : Z;  (* 3 bits *)
  events : Z;  (* 29 bits *)
}.

Definition set_event_options (v : Z) (e : Event) : Event :=
  mkEvent v (events e).
Definition set_events (v : Z) (e : Event) : Event :=
  mkEvent (event_options e) v.

Record MsgQueue : Type := mkMsgQueue {
  msg_buf : option (list Z);
  mq_index : Z;  (* uint16 *)
  num_msgs : Z;  (* uint16 *)
  each_len : Z;  (* uint16 *)
  max_msgs : Z;  (* uint16 *)
}.

Definition set_msg_buf (v : option (list Z)) (mq : MsgQueue) : MsgQueue :=
  mkMsgQueue v (mq_index mq) (num_msgs mq) (each_len mq) (max_msgs mq).
Definition set_mq_index (v : Z) (mq : MsgQueue) : MsgQueue :=
  mkMsgQueue (msg_buf mq) v (num_msgs mq) (each_len mq) (max_msgs mq).
Definition set_num_msgs (v : Z) (mq : MsgQueue) : MsgQueue :=
  mkMsgQueue (msg_buf mq) (mq_index mq) v (each_len mq) (max_msgs mq).
Definition set_each_len (v : Z) (mq : MsgQueue) : MsgQueue :=
  mkMsgQueue (msg_buf mq) (mq_index mq) (num_msgs mq) v (max_msgs mq).
Definition set_max_msgs (v : Z) (mq : MsgQueue) : MsgQueue :=
  mkMsgQueue (msg_buf mq) (mq_index mq) (num_msgs mq) (each_len mq) v.

Record Timer : Type := mkTimer {
  timer_name : string;
  active_status : Z;  (* uint8 *)
  trigger_mode : Z;  (* uint8 *)
  func_callback : Z;
  timer_param : Z;
  timer_origin : Z;  (* x_ticks_t *)
  deadline_timeslice : Z;  (* x_ticks_t *)
  timer_prio : Z;  (* uint8 *)
  t_work : option Z;
}.

Definition set_active_status (v : Z) (t : Timer) : Timer :=
  mkTimer (timer_name t) v (trigger_mode t) (func_callback t) (timer_param t) (timer_origin t) (deadline_timeslice t) (timer_prio t) (t_work t).
Definition set_timer_origin (v : Z) (t : Timer) : Timer :=
  mkTimer (timer_name t) (active_status t) (trigger_mode t) (func_callback t) (timer_param t) v (deadline_timeslice t) (timer_prio t) (t_work t).
Definition set_deadline_timeslice (v : Z) (t : Timer) : Timer :=
  mkTimer (timer_name t) (active_status t) (trigger_mode t) (func_callback t) (timer_param t) (timer_origin t) v (timer_prio t) (t_work t).
Definition set_t_work (v : option Z) (t : Timer) : Timer :=
  mkTimer (timer_name t) (active_status t) (trigger_mode t) (func_callback t) (timer_param t) (timer_origin t) (deadline_timeslice t) (timer_prio t) v.

(** ** The kernel state *)

#[projections(primitive)]
Record kstate : Type := mkKernel {
  links : gmap link (node link);
  tasks : gmap ptr TaskDescriptor;
  delays : gmap ptr Delay;
  sems : gmap ptr Semaphore;
  mutexes : gmap ptr Mutex;
  event_objs : gmap ptr Event;
  mqs : gmap ptr MsgQueue;
  timers : gmap ptr Timer;
  node_ids : gmap link Z;  (* the id fields of the IdNodes *)
  managers : gmap class IdManager;
  os_assign_read_vector : OsAssignReadyVector;
  os_running_task : option ptr;
  current_priority : Z;
  KTaskOsAssignLockNest : Z;  (* int16 *)
  interrupts : bool;
  isr_count : Z;  (* uint16 *)
  isr_switch_trigger_flag : Z;  (* uint8 *)
  heartbeat_ticks : Z;  (* x_ticks_t *)
  exstatus_global : Z;  (* __exstatus *)
  zombie_recycle : Z;  (* int32 *)
  blocks : gset Z;  (* live memory blocks that hold no descriptor *)
}.

Definition set_links (v : gmap link (node link)) (k : kstate) : kstate :=
  mkKernel v (tasks k) (delays k) (sems k) (mutexes k) (event_objs k) (mqs k) (timers k)
    (node_ids k) (managers k) (os_assign_read_vector k) (os_running_task k) (current_priority k)
    (KTaskOsAssignLockNest k) (interrupts k) (isr_count k) (isr_switch_trigger_flag k)
    (heartbeat_ticks k) (exstatus_global k) (zombie_recycle k) (blocks k).
Definition set_tasks (v : gmap ptr TaskDescriptor) (k : kstate) : kstate :=
  mkKernel (links k) v (delays k) (sems k) (mutexes k) (event_objs k) (mqs k) (timers k)
    (node_ids k) (managers k) (os_assign_read_vector k) (os_running_task k) (current_priority k)
    (KTaskOsAssignLockNest k) (interrupts k) (isr_count k) (isr_switch_trigger_flag k)
    (heartbeat_ticks k) (exstatus_global k) (zombie_recycle k) (blocks k).
Definition set_delays (v : gmap ptr Delay) (k : kstate) : kstate :=
  mkKernel (links k) (tasks k) v (sems k) (mutexes k) (event_objs k) (mqs k) (timers k)
    (node_ids k) (managers k) (os_assign_read_vector k) (os_running_task k) (current_priority k)
    (KTaskOsAssignLockNest k) (interrupts k) (isr_count k) (isr_switch_trigger_flag k)
    (heartbeat_ticks k) (exstatus_global k) (zombie_recycle k) (blocks k).
Definition set_sems (v : gmap ptr Semaphore) (k : kstate) : kstate :=
  mkKernel (links k) (tasks k) (delays k) v (mutexes k) (event_objs k) (mqs k) (timers k)
    (node_ids k) (managers k) (os_assign_read_vector k) (os_running_task k) (current_priority k)
    (KTaskOsAssignLockNest k) (interrupts k) (isr_count k) (isr_switch_trigger_flag k)
    (heartbeat_ticks k) (exstatus_global k) (zombie_recycle k) (blocks k).
Definition set_mutexes (v : gmap ptr Mutex) (k : kstate) : kstate :=
  mkKernel (links k) (tasks k) (delays k) (sems k) v (event_objs k) (mqs k) (timers k) (node_ids
    k) (managers k) (os_assign_read_vector k) (os_running_task k) (current_priority k)
    (KTaskOsAssignLockNest k) (interrupts k) (isr_count k) (isr_switch_trigger_flag k)
    (heartbeat_ticks k) (exstatus_global k) (zombie_recycle k) (blocks k).
Definition set_event_objs (v : gmap ptr Event) (k : kstate) : kstate :=
  mkKernel (links k) (tasks k) (delays k) (sems k) (mutexes k) v (mqs k) (timers k) (node_ids k)
    (managers k) (os_assign_read_vector k) (os_running_task k) (current_priority k)
    (KTaskOsAssignLockNest k) (interrupts k) (isr_count k) (isr_switch_trigger_flag k)
    (heartbeat_ticks k) (exstatus_global k) (zombie_recycle k) (blocks k).
Definition set_mqs (v : gmap ptr MsgQueue) (k : kstate) : kstate :=
  mkKernel (links k) (tasks k) (delays k) (sems k) (mutexes k) (event_objs k) v (timers k)
    (node_ids k) (managers k) (os_assign_read_vector k) (os_running_task k) (current_priority k)
    (KTaskOsAssignLockNest k) (interrupts k) (isr_count k) (isr_switch_trigger_flag k)
    (heartbeat_ticks k) (exstatus_global k) (zombie_recycle k) (blocks k).
Definition set_timers (v : gmap ptr Timer) (k : kstate) : kstate :=
  mkKernel (links k) (tasks k) (delays k) (sems k) (mutexes k) (event_objs k) (mqs k) v
    (node_ids k) (managers k) (os_assign_read_vector k) (os_running_task k) (current_priority k)
    (KTaskOsAssignLockNest k) (interrupts k) (isr_count k) (isr_switch_trigger_flag k)
    (heartbeat_ticks k) (exstatus_global k) (zombie_recycle k) (blocks k).
Definition set_node_ids (v : gmap link Z) (k : kstate) : kstate :=
  mkKernel (links k) (tasks k) (delays k) (sems k) (mutexes k) (event_objs k) (mqs k) (timers k)
    v (managers k) (os_assign_read_vector k) (os_running_task k) (current_priority k)
    (KTaskOsAssignLockNest k) (interrupts k) (isr_count k) (isr_switch_trigger_flag k)
    (heartbeat_ticks k) (exstatus_global k) (zombie_recycle k) (blocks k).
Definition set_managers (v : gmap class IdManager) (k : kstate) : kstate :=
  mkKernel (links k) (tasks k) (delays k) (sems k) (mutexes k) (event_objs k) (mqs k) (timers k)
    (node_ids k) v (os_assign_read_vector k) (os_running_task k) (current_priority k)
    (KTaskOsAssignLockNest k) (interrupts k) (isr_count k) (isr_switch_trigger_flag k)
    (heartbeat_ticks k) (exstatus_global k) (zombie_recycle k) (blocks k).
Definition set_os_assign_read_vector (v : OsAssignReadyVector) (k : kstate) : kstate :=
  mkKernel (links k) (tasks k) (delays k) (sems k) (mutexes k) (event_objs k) (mqs k) (timers k)
    (node_ids k) (managers k) v (os_running_task k) (current_priority k) (KTaskOsAssignLockNest
    k) (interrupts k) (isr_count k) (isr_switch_trigger_flag k) (heartbeat_ticks k)
    (exstatus_global k) (zombie_recycle k) (blocks k).
Definition set_os_running_task (v : option ptr) (k : kstate) : kstate :=
  mkKernel (links k) (tasks k) (delays k) (sems k) (mutexes k) (event_objs k) (mqs k) (timers k)
    (node_ids k) (managers k) (os_assign_read_vector k) v (current_priority k)
    (KTaskOsAssignLockNest k) (interrupts k) (isr_count k) (isr_switch_trigger_flag k)
    (heartbeat_ticks k) (exstatus_global k) (zombie_recycle k) (blocks k).
Definition set_current_priority (v : Z) (k : kstate) : kstate :=
  mkKernel (links k) (tasks k) (delays k) (sems k) (mutexes k) (event_objs k) (mqs k) (timers k)
    (node_ids k) (managers k) (os_assign_read_vector k) (os_running_task k) v
    (KTaskOsAssignLockNest k) (interrupts k) (isr_count k) (isr_switch_trigger_flag k)
    (heartbeat_ticks k) (exstatus_global k) (zombie_recycle k) (blocks k).
Definition set_KTaskOsAssignLockNest (v : Z) (k : kstate) : kstate :=
  mkKernel (links k) (tasks k) (delays k) (sems k) (mutexes k) (event_objs k) (mqs k) (timers k)
    (node_ids k) (managers k) (os_assign_read_vector k) (os_running_task k) (current_priority k)
    v (interrupts k) (isr_count k) (isr_switch_trigger_flag k) (heartbeat_ticks k)
    (exstatus_global k) (zombie_recycle k) (blocks k).
Definition set_interrupts (v : bool) (k : kstate) : kstate :=
  mkKernel (links k) (tasks k) (delays k) (sems k) (mutexes k) (event_objs k) (mqs k) (timers k)
    (node_ids k) (managers k) (os_assign_read_vector k) (os_running_task k) (current_priority k)
    (KTaskOsAssignLockNest k) v (isr_count k) (isr_switch_trigger_flag k) (heartbeat_ticks k)
    (exstatus_global k) (zombie_recycle k) (blocks k).
Definition set_isr_count (v : Z) (k : kstate) : kstate :=
  mkKernel (links k) (tasks k) (delays k) (sems k) (mutexes k) (event_objs k) (mqs k) (timers k)
    (node_ids k) (managers k) (os_assign_read_vector k) (os_running_task k) (current_priority k)
    (KTaskOsAssignLockNest k) (interrupts k) v (isr_switch_trigger_flag k) (heartbeat_ticks k)
    (exstatus_global k) (zombie_recycle k) (blocks k).
Definition set_isr_switch_trigger_flag (v : Z) (k : kstate) : kstate :=
  mkKernel (links k) (tasks k) (delays k) (sems k) (mutexes k) (event_objs k) (mqs k) (timers k)
    (node_ids k) (managers k) (os_assign_read_vector k) (os_running_task k) (current_priority k)
    (KTaskOsAssignLockNest k) (interrupts k) (isr_count k) v (heartbeat_ticks k)
    (exstatus_global k) (zombie_recycle k) (blocks k).
Definition set_heartbeat_ticks (v : Z) (k : kstate) : kstate :=
  mkKernel (links k) (tasks k) (delays k) (sems k) (mutexes k) (event_objs k) (mqs k) (timers k)
    (node_ids k) (managers k) (os_assign_read_vector k) (os_running_task k) (current_priority k)
    (KTaskOsAssignLockNest k) (interrupts k) (isr_count k) (isr_switch_trigger_flag k) v
    (exstatus_global k) (zombie_recycle k) (blocks k).
Definition set_exstatus_global (v : Z) (k : kstate) : kstate :=
  mkKernel (links k) (tasks k) (delays k) (sems k) (mutexes k) (event_objs k) (mqs k) (timers k)
    (node_ids k) (managers k) (os_assign_read_vector k) (os_running_task k) (current_priority k)
    (KTaskOsAssignLockNest k) (interrupts k) (isr_count k) (isr_switch_trigger_flag k)
    (heartbeat_ticks k) v (zombie_recycle k) (blocks k).
Definition set_zombie_recycle (v : Z) (k : kstate) : kstate :=
  mkKernel (links k) (tasks k) (delays k) (sems k) (mutexes k) (event_objs k) (mqs k) (timers k)
    (node_ids k) (managers k) (os_assign_read_vector k) (os_running_task k) (current_priority k)
    (KTaskOsAssignLockNest k) (interrupts k) (isr_count k) (isr_switch_trigger_flag k)
    (heartbeat_ticks k) (exstatus_global k) v (blocks k).
Definition set_blocks (v : gset Z) (k : kstate) : kstate :=
  mkKernel (links k) (tasks k) (delays k) (sems k) (mutexes k) (event_objs k) (mqs k) (timers k)
    (node_ids k) (managers k) (os_assign_read_vector k) (os_running_task k) (current_priority k)
    (KTaskOsAssignLockNest k) (interrupts k) (isr_count k) (isr_switch_trigger_flag k)
    (heartbeat_ticks k) (exstatus_global k) (zombie_recycle k) v.

Section Kernel.
Context `{C : KConfig}.

(** The list operations on the kernel's links. *)
Definition klinks {A : Type} : M (gmap link (node link)) A -> M kstate A := zoom links set_links.

(** Reads and updates of descriptor fields through a pointer. *)
Definition task_get {A : Type} (t : ptr) (f : TaskDescriptor -> A) : M kstate A :=
  k ← get; td ← deref (tasks k !! t); mret (f td).
Definition task_set (t : ptr) (f : TaskDescriptor -> TaskDescriptor) : M kstate unit :=
  k ← get; td ← deref (tasks k !! t); modify (set_tasks (<[t := f td]> (tasks k))).
Definition delay_get {A : Type} (d : ptr) (f : Delay -> A) : M kstate A :=
  k ← get; x ← deref (delays k !! d); mret (f x).
Definition delay_set (d : ptr) (f : Delay -> Delay) : M kstate unit :=
  k ← get; x ← deref (delays k !! d); modify (set_delays (<[d := f x]> (delays k))).
Definition rv_get {A : Type} (f : OsAssignReadyVector -> A) : M kstate A :=
  gets (fun k => f (os_assign_read_vector k)).
Definition rv_set (f : OsAssignReadyVector -> OsAssignReadyVector) : M kstate unit :=
  modify (fun k => set_os_assign_read_vector (f (os_assign_read_vector k)) k).

(** The identifier manager of a class, with its buckets and its nodes. *)
Definition kid {A : Type} (c : class) (m : M (id_state (A := link)) A) : M kstate A :=
  k ← get;
  mgr ← deref (managers k !! c);
  zoom (fun k => mkIdState (links k) (node_ids k) mgr)
       (fun s k => set_managers (<[c := manager s]> (managers k))
                     (set_node_ids (node_id s) (set_links (id_links s) k))) m.

(** ** CriticalArea.c and the interrupt mask *)

Definition DISABLE_INTERRUPT : M kstate bool :=
  lock ← gets (fun k => interrupts k); modify (set_interrupts false);; mret lock.
Definition ENABLE_INTERRUPT (lock : bool) : M kstate unit := modify (set_interrupts lock).

Definition GetOsAssignLockLevel : M kstate Z := gets (fun k => u16 (KTaskOsAssignLockNest k)).

Definition ResetCriticalAreaLock : M kstate unit := modify (set_KTaskOsAssignLockNest 0).

Definition CriticalAreaLock : M kstate bool :=
  lock ← DISABLE_INTERRUPT;
  modify (fun k => set_KTaskOsAssignLockNest (s16 (KTaskOsAssignLockNest k + 1)) k);;
  mret lock.

Definition CriticalAreaUnLock (lock : bool) : M kstate unit :=
  k ← get;
  (if 1 <=? KTaskOsAssignLockNest k
   then modify (set_KTaskOsAssignLockNest (s16 (KTaskOsAssignLockNest k - 1)))
   else mret tt);;
  ENABLE_INTERRUPT lock.

(** [NOT_IN_CRITICAL_AREA] *)
Definition NOT_IN_CRITICAL_AREA : M kstate unit :=
  n ← GetOsAssignLockLevel; CHECK (n =? 0).

(** ** The counters of isr.c *)

Definition GetIsrCounter : M kstate Z := gets (fun k => isr_count k).
Definition IncIsrCounter : M kstate unit := modify (fun k => set_isr_count (u16 (isr_count k + 1)) k).
Definition DecIsrCounter : M kstate unit := modify (fun k => set_isr_count (u16 (isr_count k - 1)) k).
Definition IsInIsr : M kstate bool := gets (fun k => negb (isr_count k =? 0)).
Definition SetIsrSwitchTrigerFlag : M kstate unit := modify (set_isr_switch_trigger_flag 1).
Definition ClearIsrSwitchTrigerFlag : M kstate unit := modify (set_isr_switch_trigger_flag 0).
Definition GetIsrSwitchTrigerFlag : M kstate Z := gets (fun k => isr_switch_trigger_flag k).

(** [KDEBUG_NOT_IN_INTERRUPT] *)
Definition KDEBUG_NOT_IN_INTERRUPT : M kstate unit :=
  level ← DISABLE_INTERRUPT; n ← GetIsrCounter; CHECK (n =? 0);; ENABLE_INTERRUPT level.

(** ** ktask_stat.c *)

Definition KTASK_INIT : Z := 0.
Definition KTASK_READY : Z := 1.
Definition KTASK_SUSPEND : Z := 2.
Definition KTASK_RUNNING : Z := 3.
Definition KTASK_CLOSE : Z := 4.
Definition KTASK_STAT_MASK : Z := 7.
Definition KTASK_LOWEST_PRIORITY : Z := 0.

Definition KTaskStateSet (task : ptr) (s : Z) : M kstate unit :=
  task_set task (fun td => set_stat (u8 (Z.lor s (Z.land (stat td) (Z.lnot KTASK_STAT_MASK)))) td).
Definition KTaskStatSetAsInit (task : ptr) : M kstate unit := KTaskStateSet task KTASK_INIT.
Definition KTaskStatSetAsReady (task : ptr) : M kstate unit := KTaskStateSet task KTASK_READY.
Definition KTaskStatSetAsSuspend (task : ptr) : M kstate unit := KTaskStateSet task KTASK_SUSPEND.
Definition KTaskStatSetAsRunning (task : ptr) : M kstate unit := KTaskStateSet task KTASK_RUNNING.
Definition KTaskStatSetAsClose (task : ptr) : M kstate unit := KTaskStateSet task KTASK_CLOSE.

Definition stat_of (td : TaskDescriptor) : Z := Z.land (stat td) KTASK_STAT_MASK.
Definition KTaskStatGet (task : ptr) : M kstate Z := task_get task stat_of.
Definition JudgeKTaskStatIsInit (task : ptr) : M kstate bool :=
  task_get task (fun td => stat_of td =? KTASK_INIT).
Definition JudgeKTaskStatIsReady (task : ptr) : M kstate bool :=
  task_get task (fun td => stat_of td =? KTASK_READY).
Definition JudgeKTaskStatIsSuspend (task : ptr) : M kstate bool :=
  task_get task (fun td => stat_of td =? KTASK_SUSPEND).
Definition JudgeKTaskStatIsRunning (task : ptr) : M kstate bool :=
  task_get task (fun td => stat_of td =? KTASK_RUNNING).
Definition JudgeKTaskStatIsClose (task : ptr) : M kstate bool :=
  task_get task (fun td => stat_of td =? KTASK_CLOSE).

(** ** lock.c: the context switch makes the new task the running one

    The assembly of [SwitchKtaskContext], [SwitchKtaskContextTo] and of
    [HwInterruptcontextSwitch] saves and loads registers and calls
    [RestoreCpusLockStatus] with the task it switches to. *)
Definition RestoreCpusLockStatus (task : ptr) : M kstate unit := modify (set_os_running_task (Some task)).

(** A block of memory that holds no descriptor: [KERNEL_MALLOC] is told which
    block it gets, [KERNEL_FREE] of a block that is not live is undefined. *)
Definition malloc_block (b : option Z) : M kstate (option Z) :=
  match b with
  | None => mret None
  | Some b => modify (fun k => set_blocks ({[b]} ∪ blocks k) k);; mret (Some b)
  end.
Definition free_block (b : option Z) : M kstate unit :=
  match b with
  | None => mret tt
  | Some b =>
      k ← get;
      if bool_decide (b ∈ blocks k) then modify (set_blocks (blocks k ∖ {[b]})) else fault
  end.

(** ** Rules for the primitives *)

Lemma wp_klinks {A : Type} (m : M (gmap link (node link)) A) (Q : A -> kstate -> Prop) k :
  wp m (fun a h => Q a (set_links h k)) (links k) -> wp (klinks m) Q k.
Proof. apply wp_zoom. Qed.

Lemma wp_task_get {A : Type} t (f : TaskDescriptor -> A) td (Q : A -> kstate -> Prop) k :
  tasks k !! t = Some td -> Q (f td) k -> wp (task_get t f) Q k.
Proof. intros E HQ. unfold task_get. wp_steps. rewrite E. by wp_steps. Qed.

Lemma wp_task_set t f td (Q : unit -> kstate -> Prop) k :
  tasks k !! t = Some td -> Q tt (set_tasks (<[t := f td]> (tasks k)) k) -> wp (task_set t f) Q k.
Proof. intros E HQ. unfold task_set. wp_steps. rewrite E. by wp_steps. Qed.

Lemma wp_delay_get {A : Type} d (f : Delay -> A) x (Q : A -> kstate -> Prop) k :
  delays k !! d = Some x -> Q (f x) k -> wp (delay_get d f) Q k.
Proof. intros E HQ. unfold delay_get. wp_steps. rewrite E. by wp_steps. Qed.

Lemma wp_delay_set d f x (Q : unit -> kstate -> Prop) k :
  delays k !! d = Some x -> Q tt (set_delays (<[d := f x]> (delays k)) k) -> wp (delay_set d f) Q k.
Proof. intros E HQ. unfold delay_set. wp_steps. rewrite E. by wp_steps. Qed.

Lemma wp_rv_get {A : Type} (f : OsAssignReadyVector -> A) (Q : A -> kstate -> Prop) k :
  Q (f (os_assign_read_vector k)) k -> wp (rv_get f) Q k.
Proof. done. Qed.

Lemma wp_rv_set f (Q : unit -> kstate -> Prop) k :
  Q tt (set_os_assign_read_vector (f (os_assign_read_vector k)) k) -> wp (rv_set f) Q k.
Proof. done. Qed.

Lemma wp_kid {A : Type} c mgr (m : M (id_state (A := link)) A) (Q : A -> kstate -> Prop) k :
  managers k !! c = Some mgr ->
  wp m (fun a s => Q a (set_managers (<[c := manager s]> (managers k))
                          (set_node_ids (node_id s) (set_links (id_links s) k))))
     (mkIdState (links k) (node_ids k) mgr) ->
  wp (kid c m) Q k.
Proof. intros E Hm. unfold kid. wp_steps. rewrite E. wp_steps. by apply wp_zoom. Qed.

(** The state inside and after a critical area. *)
Definition locked (k : kstate) : kstate :=
  set_KTaskOsAssignLockNest (KTaskOsAssignLockNest k + 1) (set_interrupts false k).
Definition unlocked (lock : bool) (k : kstate) : kstate :=
  set_interrupts lock (set_KTaskOsAssignLockNest (KTaskOsAssignLockNest k - 1) k).

Lemma wp_CriticalAreaLock (Q : bool -> kstate -> Prop) k :
  0 <= KTaskOsAssignLockNest k < 2 ^ 15 - 1 -> Q (interrupts k) (locked k) -> wp CriticalAreaLock Q k.
Proof.
  intros Hn HQ. unfold CriticalAreaLock, DISABLE_INTERRUPT. wp_steps.
  cbn [KTaskOsAssignLockNest set_interrupts]. rewrite s16_small by lia. done.
Qed.

Lemma wp_CriticalAreaUnLock lock (Q : unit -> kstate -> Prop) k :
  1 <= KTaskOsAssignLockNest k < 2 ^ 15 -> Q tt (unlocked lock k) -> wp (CriticalAreaUnLock lock) Q k.
Proof.
  intros Hn HQ. unfold CriticalAreaUnLock. wp_steps. rewrite (proj2 (Z.leb_le _ _)) by lia. wp_steps.
  unfold ENABLE_INTERRUPT. wp_steps. rewrite s16_small by lia. done.
Qed.

Lemma unlocked_locked k : unlocked (interrupts k) (locked k) = k.
Proof.
  unfold unlocked, locked. cbn [KTaskOsAssignLockNest set_KTaskOsAssignLockNest set_interrupts].
  by rewrite Z.add_simpl_r.
Qed.

Lemma stat_of_set td s : 0 <= s <= 7 ->
  stat_of (set_stat (u8 (Z.lor s (Z.land (stat td) (Z.lnot KTASK_STAT_MASK)))) td) = s.
Proof.
  intros Hs. unfold stat_of, KTASK_STAT_MASK, u8. cbn [stat set_stat].
  apply Z.bits_inj'. intros n Hn. change 7 with (Z.ones 3).
  rewrite Z.land_spec, Z.testbit_ones_nonneg by lia. destruct (Z.ltb_spec n 3).
  - rewrite Z.mod_pow2_bits_low, Z.lor_spec, Z.land_spec, Z.lnot_spec, Z.testbit_ones_nonneg by lia.
    rewrite (proj2 (Z.ltb_lt n 3)) by lia. by rewrite andb_false_r, orb_false_r, andb_true_r.
  - rewrite andb_false_r. symmetry. destruct (decide (s = 0)) as [->|]; [apply Z.bits_0|].
    apply Z.bits_above_log2; [lia|]. apply Z.lt_le_trans with 3; [apply Z.log2_lt_pow2; lia|lia].
Qed.

End Kernel.

(** Setting a field to what it holds changes nothing. *)
Lemma set_links_id k : set_links (links k) k = k.
Proof. done. Qed.
Lemma set_tasks_id k : set_tasks (tasks k) k = k.
Proof. done. Qed.
