(* ===== verification/ReadyVector.v ===== *)
(** * The ready table

    assignstat.c, the policies assign_fifo.c, assign_roundrobin.c and
    assign_roundrobinremain.c, [KTaskInsertToReadyVector] and
    [KTaskOsAssignRemoveKTask] of assign.c and [__BitmapSiteMask] of ktask.c.

    The table keeps one list of tasks per priority, a bitmap of the priorities
    whose list is not empty (one 32-bit word, or a word and 32 bytes when there
    are more than 32 priorities) and the highest of them.  [rv_ok] states that
    the bitmap and [highest_prio] describe a set of priorities, [rv_insert_ok]
    and [rv_remove_ok] that the bit operations of the source insert into and
    remove from that set. *)

From S2P Require Import Prelude DoubleLink IdManager Bitmap Kernel.

Section ReadyVector.
Context `{C : KConfig}.

Definition two_level : bool := 32 <? KTASK_PRIORITY_MAX.

(** ** __BitmapSiteMask *)

Definition bitmap_site (td : TaskDescriptor) : TaskDescriptor :=
  if two_level then
    let off := u8 (cur_prio td / 8) in
    set_bitmap_row (u8 (Z.shiftl 1 (Z.land (cur_prio td) 7)))
      (set_bitmap_column (u32 (Z.shiftl 1 off)) (set_bitmap_offset off td))
  else set_bitmap_column (u32 (Z.shiftl 1 (cur_prio td))) td.

Definition __BitmapSiteMask (task : ptr) : M kstate unit := task_set task bitmap_site.

(** ** assignstat.c *)

Definition JudgeAssignReadyBitmapIsEmpty : M kstate bool :=
  rv_get (fun rv => priority_ready_group rv =? 0).

(** The entry of the first link of the highest list; not a task when that list
    is empty. *)
Definition ChooseTaskWithHighestPrio : M kstate (option ptr) :=
  p ← rv_get highest_prio;
  nx ← klinks (get_next (ReadyVec p));
  mret (nx ≫= sched_entry).

Fixpoint init_lists (n : nat) (prio : Z) : M kstate unit :=
  match n with
  | O => mret tt
  | S n => klinks (InitDoubleLinkList (ReadyVec prio));; init_lists n (prio + 1)
  end.

Definition OsAssignReadyVectorInit : M kstate unit :=
  init_lists (Z.to_nat KTASK_PRIORITY_MAX) 0;;
  rv_set (set_highest_prio 0);;
  rv_set (set_priority_ready_group 0);;
  if two_level then rv_set (set_ready_vector (replicate 32 0)) else mret tt.

(** ** The policies *)

Definition KTASK_MAX_ADVANCE_PROCESS_TIME : Z := 1.

(** [tail = vector[prio].node_prev; DoubleLinkListInsertNodeAfter(tail, &sched_link)] *)
Definition insert_at_tail (task : ptr) : M kstate unit :=
  prio ← task_get task cur_prio;
  pv ← klinks (get_prev (ReadyVec prio));
  tail ← deref pv;
  klinks (DoubleLinkListInsertNodeAfter tail (SchedLink task)).

Definition FifoTaskTimesliceInit (task : ptr) : M kstate unit :=
  task_set task (set_origin_timeslice 0);; task_set task (set_rest_timeslice 0).
Definition FifoReadyVectorInsert (task : ptr) : M kstate unit := insert_at_tail task.

Definition RoundRobinTaskTimesliceInit (task : ptr) : M kstate unit :=
  task_set task (set_origin_timeslice 10);; task_set task (set_rest_timeslice 10).
Definition RoundRobinReadyVectorInsert (task : ptr) : M kstate unit := insert_at_tail task.

Definition RoundRobinRemainTaskTimesliceInit (task : ptr) : M kstate unit :=
  task_set task (set_origin_timeslice 10);; task_set task (set_rest_timeslice 10).

(** The break test of the walk: the task has less of its slice left than [node]. *)
Definition less_rest (task : ptr) (node : link) : M kstate bool :=
  tmp ← deref (sched_entry node);
  mine ← task_get task rest_timeslice;
  its ← task_get tmp rest_timeslice;
  mret (mine <? its).

Definition RoundRobinRemainReadyVectorInsert (task : ptr) : M kstate unit :=
  adv ← task_get task advance_cnt;
  if adv <? KTASK_MAX_ADVANCE_PROCESS_TIME then
    prio ← task_get task cur_prio;
    nx ← klinks (get_next (ReadyVec prio));
    first ← deref nx;
    k ← get;
    node ← for_each_until (fun x => klinks (get_next x)) (less_rest task)
             (S (size (links k))) (ReadyVec prio) first;
    if negb (bool_decide (node = ReadyVec prio))
    then klinks (DoubleLinkListInsertNodeBefore node (SchedLink task))
    else insert_at_tail task
  else insert_at_tail task.

Definition AssignPolicyInsert (task : ptr) : M kstate unit :=
  match sched_policy with
  | SCHED_POLICY_FIFO => FifoReadyVectorInsert task
  | SCHED_POLICY_RR => RoundRobinReadyVectorInsert task
  | SCHED_POLICY_RR_REMAINSLICE => RoundRobinRemainReadyVectorInsert task
  end;;
  prio ← task_get task cur_prio;
  highest ← rv_get highest_prio;
  if highest <? prio then rv_set (set_highest_prio prio) else mret tt.

(** ** assign.c: inserting and removing a task *)

Definition KTaskInsertToReadyVector (task : ptr) : M kstate unit :=
  lock ← DISABLE_INTERRUPT;
  KTaskStatSetAsReady task;;
  AssignPolicyInsert task;;
  (if two_level then
     off ← task_get task bitmap_offset;
     row ← task_get task bitmap_row;
     v ← rv_get ready_vector;
     e ← deref (v !! Z.to_nat off);
     rv_set (set_ready_vector (<[Z.to_nat off := u8 (Z.lor e row)]> v))
   else mret tt);;
  col ← task_get task bitmap_column;
  rv_set (fun rv => set_priority_ready_group (u32 (Z.lor (priority_ready_group rv) col)) rv);;
  ENABLE_INTERRUPT lock.

(** [CLEAR_FLAG(&priority_ready_group, bitmap_column)] *)
Definition clear_group (task : ptr) : M kstate unit :=
  col ← task_get task bitmap_column;
  rv_set (fun rv => set_priority_ready_group (u32 (Z.land (priority_ready_group rv) (Z.lnot col))) rv).

Definition KTaskOsAssignRemoveKTask (task : ptr) : M kstate unit :=
  lock ← DISABLE_INTERRUPT;
  klinks (DoubleLinkListRmNode (SchedLink task));;
  prio ← task_get task cur_prio;
  empty ← klinks (IsDoubleLinkListEmpty (ReadyVec prio));
  (if (empty : bool) then
     if two_level then
       off ← task_get task bitmap_offset;
       row ← task_get task bitmap_row;
       v ← rv_get ready_vector;
       e ← deref (v !! Z.to_nat off);
       rv_set (set_ready_vector (<[Z.to_nat off := u8 (Z.land e (Z.lnot row))]> v));;
       v ← rv_get ready_vector;
       e ← deref (v !! Z.to_nat off);
       (if e =? 0 then clear_group task else mret tt);;
       group ← rv_get priority_ready_group;
       let number := PrioCaculate group in
       v ← rv_get ready_vector;
       e ← deref (v !! Z.to_nat number);
       rv_set (set_highest_prio (number * 8 + PrioCaculate e))
     else
       clear_group task;;
       group ← rv_get priority_ready_group;
       rv_set (set_highest_prio (PrioCaculate group))
   else mret tt);;
  ENABLE_INTERRUPT lock.

(** [struct PriorityReadyVectorDone]: the operations the scheduler calls
    through [Assign.ready_vector_done]. *)
Class PriorityReadyVectorDone : Type := {
  rv_init : M kstate unit;
  rv_insert : ptr -> M kstate unit;
  rv_remove : ptr -> M kstate unit;
}.

#[export] Instance SingleReadyVectorDone : PriorityReadyVectorDone := {
  rv_init := OsAssignReadyVectorInit;
  rv_insert := KTaskInsertToReadyVector;
  rv_remove := KTaskOsAssignRemoveKTask;
}.

(** ** Bits *)

Lemma testbit_merge w g b c :
  0 <= b < w -> 0 <= c < w ->
  Z.testbit (Z.lor g (2 ^ b) mod 2 ^ w) c = (c =? b) || Z.testbit g c.
Proof.
  intros Hb Hc. rewrite Z.mod_pow2_bits_low, Z.lor_spec, Z.pow2_bits_eqb by lia.
  rewrite Z.eqb_sym. apply orb_comm.
Qed.

Lemma testbit_clear w g b c :
  0 <= b < w -> 0 <= c < w ->
  Z.testbit (Z.land g (Z.lnot (2 ^ b)) mod 2 ^ w) c = negb (c =? b) && Z.testbit g c.
Proof.
  intros Hb Hc. rewrite Z.mod_pow2_bits_low, Z.land_spec, Z.lnot_spec, Z.pow2_bits_eqb by lia.
  rewrite Z.eqb_sym. apply andb_comm.
Qed.

Lemma testbit_high g w c : 0 <= g < 2 ^ w -> 0 <= w <= c -> Z.testbit g c = false.
Proof.
  intros Hg Hc. destruct (decide (g = 0)) as [->|]; [apply Z.bits_0|].
  apply Z.bits_above_log2; [lia|]. apply Z.lt_le_trans with w; [apply Z.log2_lt_pow2; lia|lia].
Qed.

Lemma zero_iff_bits g w :
  0 <= g < 2 ^ w -> 0 <= w -> (g = 0 <-> forall c, 0 <= c < w -> Z.testbit g c = false).
Proof.
  intros Hg Hw. split; [intros -> c _; apply Z.bits_0|]. intros Hz. apply Z.bits_inj'. intros c Hc.
  rewrite Z.bits_0. destruct (decide (c < w)); [apply Hz; lia|apply (testbit_high g w); [done|lia]].
Qed.

(** ** The set of priorities a table describes *)

Definition ready_bit (rv : OsAssignReadyVector) (p : Z) : bool :=
  if two_level then used_bit (ready_vector rv) p else Z.testbit (priority_ready_group rv) p.

(** The bitmap describes the set [ne]. *)
Record rv_shape (rv : OsAssignReadyVector) (ne : Z -> bool) : Prop := {
  rvo_group : 0 <= priority_ready_group rv < 2 ^ 32;
  rvo_vec : two_level = true ->
    length (ready_vector rv) = 32%nat /\ bytes (ready_vector rv) /\
    forall g, 0 <= g < 32 -> exists e, ready_vector rv !! Z.to_nat g = Some e /\
      Z.testbit (priority_ready_group rv) g = negb (e =? 0);
  rvo_bits : forall p, 0 <= p -> ready_bit rv p = ne p;
  rvo_neg : forall p, p < 0 -> ne p = false;
}.

(** ... and [highest_prio] is its maximum, 0 when it is empty. *)
Record rv_ok (rv : OsAssignReadyVector) (ne : Z -> bool) : Prop := {
  rvo_shape : rv_shape rv ne;
  rvo_max : forall p, ne p = true -> p <= highest_prio rv;
  rvo_top : ne (highest_prio rv) = true \/ ((forall p, ne p = false) /\ highest_prio rv = 0);
}.

(** The bitmap fields of a task are those of its current priority. *)
Definition site_ok (td : TaskDescriptor) : Prop :=
  0 <= cur_prio td < KTASK_PRIORITY_MAX /\
  if two_level then
    bitmap_offset td = cur_prio td / 8 /\ bitmap_row td = 2 ^ (cur_prio td mod 8) /\
    bitmap_column td = 2 ^ (cur_prio td / 8)
  else bitmap_column td = 2 ^ cur_prio td.

Context {CO : KConfigOk C}.

Lemma two_level_true : two_level = true -> KTASK_PRIORITY_MAX = 256.
Proof. unfold two_level. intros ?%Z.ltb_lt. pose proof cfg_prio; lia. Qed.
Lemma two_level_false : two_level = false -> KTASK_PRIORITY_MAX <= 32.
Proof. unfold two_level. intros ?%Z.ltb_ge. done. Qed.

Lemma bitmap_site_ok td : 0 <= cur_prio td < KTASK_PRIORITY_MAX -> site_ok (bitmap_site td).
Proof.
  intros Hp. unfold site_ok, bitmap_site. destruct two_level eqn:E.
  - apply two_level_true in E. rewrite E in *. cbn [cur_prio set_bitmap_row set_bitmap_column set_bitmap_offset
      bitmap_offset bitmap_row bitmap_column].
    pose proof (Z.div_pos (cur_prio td) 8). pose proof (Z.div_lt_upper_bound (cur_prio td) 8 32).
    rewrite (u8_small (cur_prio td / 8)) by lia. rewrite !Z.shiftl_1_l.
    change 7 with (Z.ones 3). rewrite Z.land_ones by lia. change (2 ^ 3) with 8.
    pose proof (Z.mod_pos_bound (cur_prio td) 8 ltac:(lia)).
    split_and!; [lia..|done| |].
    + apply u8_small. split; [lia|]. apply Z.pow_lt_mono_r; lia.
    + apply u32_small. split; [lia|]. apply Z.pow_lt_mono_r; lia.
  - apply two_level_false in E. cbn [cur_prio set_bitmap_column bitmap_column]. split; [done|].
    rewrite Z.shiftl_1_l. apply u32_small. split; [lia|]. apply Z.pow_lt_mono_r; lia.
Qed.

Lemma bitmap_site_prio td : cur_prio (bitmap_site td) = cur_prio td.
Proof. unfold bitmap_site. by destruct two_level. Qed.

(** An empty bitmap word means that no priority is in the set. *)
Lemma rv_empty rv ne : rv_shape rv ne -> (priority_ready_group rv = 0 <-> forall p, ne p = false).
Proof.
  intros Hrv. rewrite (zero_iff_bits _ 32) by (apply Hrv || lia). split.
  - intros Hz p. destruct (decide (p < 0)) as [?|Hp]; [by apply (rvo_neg _ _ Hrv)|].
    rewrite <- (rvo_bits _ _ Hrv) by lia. unfold ready_bit. destruct two_level eqn:E.
    + destruct (rvo_vec _ _ Hrv E) as (Hlen & _ & Hvec). unfold used_bit.
      destruct (decide (p / 8 < 32)).
      * pose proof (Z.div_pos p 8 ltac:(lia) ltac:(lia)).
        destruct (Hvec (p / 8)) as (e & He & Hbit); [lia|]. rewrite He. rewrite Hz in Hbit by lia.
        destruct (Z.eqb_spec e 0) as [->|]; [apply Z.bits_0|done].
      * rewrite lookup_ge_None_2; [done|]. lia.
    + destruct (decide (p < 32)); [apply Hz; lia|]. apply (testbit_high _ 32); [apply Hrv|lia].
  - intros Hne c Hc. destruct two_level eqn:E.
    + destruct (rvo_vec _ _ Hrv E) as (Hlen & Hby & Hvec). destruct (Hvec c Hc) as (e & He & ->).
      apply negb_false_iff, Z.eqb_eq. apply (zero_iff_bits _ 8); [by eapply Hby|lia|]. intros b Hb.
      assert (ready_bit rv (c * 8 + b) = Z.testbit e b) as <-; [|rewrite (rvo_bits _ _ Hrv) by lia; apply Hne].
      unfold ready_bit, used_bit. rewrite E.
      replace ((c * 8 + b) / 8) with c by (apply Z.div_unique with b; lia). rewrite He.
      f_equal. symmetry. apply Z.mod_unique with c; lia.
    + assert (ready_bit rv c = Z.testbit (priority_ready_group rv) c) as <-
        by (unfold ready_bit; by rewrite E).
      rewrite (rvo_bits _ _ Hrv) by lia. apply Hne.
Qed.

(** The new value of [highest_prio] is the maximum of the set. *)
Definition top_prio (rv : OsAssignReadyVector) : Z :=
  if two_level then
    let number := PrioCaculate (priority_ready_group rv) in
    number * 8 + PrioCaculate (default 0 (ready_vector rv !! Z.to_nat number))
  else PrioCaculate (priority_ready_group rv).

Lemma log2_top g w : 0 < g < 2 ^ w -> 0 <= w ->
  0 <= Z.log2 g < w /\ Z.testbit g (Z.log2 g) = true /\ forall c, Z.log2 g < c -> Z.testbit g c = false.
Proof.
  intros Hg Hw. split; [split; [apply Z.log2_nonneg|apply Z.log2_lt_pow2; lia]|].
  split; [apply Z.bit_log2; lia|]. intros c Hc. apply Z.bits_above_log2; lia.
Qed.

Lemma top_prio_ok rv ne h :
  rv_shape rv ne -> h = top_prio rv -> rv_ok (set_highest_prio h rv) ne.
Proof.
  intros Hrv ->. destruct (decide (priority_ready_group rv = 0)) as [E0|Hpos].
  { assert (top_prio rv = 0) as Et.
    { unfold top_prio. rewrite E0, PrioCaculate_0. destruct two_level eqn:E; [|done].
      destruct (rvo_vec _ _ Hrv E) as (_ & _ & Hvec). destruct (Hvec 0) as (e & He & Hbit); [lia|].
      rewrite E0, Z.bits_0 in Hbit. destruct (Z.eqb_spec e 0) as [->|]; [|done].
      change (Z.to_nat 0) with 0%nat in *. rewrite He. exact PrioCaculate_0. }
    pose proof (proj1 (rv_empty _ _ Hrv) E0) as Hne. rewrite Et. split; [by destruct Hrv| |by right].
    intros p. by rewrite Hne. }
  pose proof (rvo_group _ _ Hrv) as Hg.
  destruct (log2_top (priority_ready_group rv) 32) as (Hn & Htop & Habove); [lia..|].
  assert (ready_bit rv (top_prio rv) = true /\ 0 <= top_prio rv /\
          forall p, top_prio rv < p -> ready_bit rv p = false) as (H1 & H2 & H3).
  { unfold top_prio, ready_bit. rewrite (PrioCaculate_spec (priority_ready_group rv)) by lia.
    set (n := Z.log2 (priority_ready_group rv)) in *.
    destruct two_level eqn:E; [|split_and!; [done|lia|done]]. destruct (rvo_vec _ _ Hrv E) as (Hlen & Hby & Hvec).
    destruct (Hvec n Hn) as (e & He & Hbit). rewrite He. cbn [default from_option Datatypes.id].
    rewrite Htop in Hbit. pose proof (Hby _ _ He) as Hrange.
    destruct (Z.eqb_spec e 0) as [|He0]; [done|]. rewrite PrioCaculate_spec by lia.
    destruct (log2_top e 8) as (Hm & Hetop & Heabove); [lia..|].
    assert ((n * 8 + Z.log2 e) / 8 = n) as Ed by (symmetry; apply Z.div_unique with (Z.log2 e); lia).
    assert ((n * 8 + Z.log2 e) mod 8 = Z.log2 e) as Em by (symmetry; apply Z.mod_unique with n; lia).
    split_and!; [unfold used_bit; by rewrite Ed, Em, He|lia|].
    intros p Hp. unfold used_bit. pose proof (Z.div_mod p 8 ltac:(lia)) as Hdm.
    pose proof (Z.mod_pos_bound p 8 ltac:(lia)).
    destruct (ready_vector rv !! Z.to_nat (p / 8)) as [e'|] eqn:He'; [|done].
    destruct (decide (p / 8 = n)) as [En|En].
    - rewrite En, He in He'. injection He' as <-. apply Heabove. lia.
    - assert (n < p / 8) by lia. apply lookup_lt_Some in He' as Hlt.
      destruct (Hvec (p / 8)) as (e'' & He'' & Hbit'); [lia|]. rewrite He' in He''. injection He'' as <-.
      rewrite (Habove (p / 8)) in Hbit' by lia. destruct (Z.eqb_spec e' 0) as [->|]; [apply Z.bits_0|done]. }
  split; [by destruct Hrv|..]; cbn [highest_prio set_highest_prio].
  - intros p Hp. destruct (decide (p <= top_prio rv)); [done|].
    rewrite <- (rvo_bits _ _ Hrv), H3 in Hp by lia. done.
  - left. by rewrite <- (rvo_bits _ _ Hrv).
Qed.

(** The byte of a priority, and the bytes after one of them changed. *)
Lemma rv_byte rv ne p :
  two_level = true -> rv_shape rv ne -> 0 <= p < KTASK_PRIORITY_MAX ->
  0 <= p / 8 < 32 /\ exists e, ready_vector rv !! Z.to_nat (p / 8) = Some e /\ 0 <= e < 256.
Proof.
  intros E Hrv Hp. pose proof (two_level_true E). pose proof (Z.div_pos p 8 ltac:(lia) ltac:(lia)).
  pose proof (Z.div_lt_upper_bound p 8 32 ltac:(lia) ltac:(lia)). split; [lia|].
  destruct (rvo_vec _ _ Hrv E) as (_ & Hby & Hvec). destruct (Hvec (p / 8)) as (e & He & _); [lia|].
  exists e. split; [done|by eapply Hby].
Qed.

Lemma rv_vec_update rv v' j e' group' ne :
  rv_shape rv ne -> two_level = true -> 0 <= j < 32 -> 0 <= e' < 256 ->
  v' = <[Z.to_nat j := e']> (ready_vector rv) ->
  (forall g, 0 <= g < 32 -> Z.testbit group' g =
     if g =? j then negb (e' =? 0) else Z.testbit (priority_ready_group rv) g) ->
  length v' = 32%nat /\ bytes v' /\
  forall g, 0 <= g < 32 -> exists e, v' !! Z.to_nat g = Some e /\ Z.testbit group' g = negb (e =? 0).
Proof.
  intros Hrv E Hj He' -> Hgroup. destruct (rvo_vec _ _ Hrv E) as (Hlen & Hby & Hvec).
  split_and!; [by rewrite length_insert| |].
  - intros i x [(<- & <- & _)|[_ ?]]%list_lookup_insert_Some; [done|by eapply Hby].
  - intros g Hg. rewrite Hgroup by done. destruct (Z.eqb_spec g j) as [->|Hne].
    + exists e'. rewrite list_lookup_insert_eq by lia. done.
    + destruct (Hvec g Hg) as (e & He & Hbit). exists e. rewrite list_lookup_insert_ne by lia. done.
Qed.

Lemma rv_insert_ok rv ne td :
  rv_ok rv ne -> site_ok td ->
  rv_ok (mkReadyVector (u32 (Z.lor (priority_ready_group rv) (bitmap_column td)))
           (if two_level then
              <[Z.to_nat (bitmap_offset td) :=
                  u8 (Z.lor (default 0 (ready_vector rv !! Z.to_nat (bitmap_offset td))) (bitmap_row td))]>
                (ready_vector rv)
            else ready_vector rv)
           (if highest_prio rv <? cur_prio td then cur_prio td else highest_prio rv))
        (fun q => (q =? cur_prio td) || ne q).
Proof.
  intros Hrv [Hp Hsite]. pose proof (rvo_shape _ _ Hrv) as Hs. set (p := cur_prio td) in *.
  split; [|cbn [highest_prio]..].
  2:{ intros q [->%Z.eqb_eq|Hq]%orb_true_iff; [destruct (Z.ltb_spec (highest_prio rv) p); lia|].
      apply (rvo_max _ _ Hrv) in Hq. destruct (Z.ltb_spec (highest_prio rv) p); lia. }
  2:{ left. destruct (Z.ltb_spec (highest_prio rv) p); [by rewrite Z.eqb_refl|].
      destruct (rvo_top _ _ Hrv) as [->|[_ E0]]; [apply orb_true_r|].
      replace p with (highest_prio rv) by lia. by rewrite Z.eqb_refl. }
  unfold u32. split; cbn [priority_ready_group ready_vector].
  - apply Z.mod_pos_bound. lia.
  - intros E. rewrite E in Hsite |- *. destruct Hsite as (-> & -> & ->).
    destruct (rv_byte rv ne p E Hs Hp) as (Hj & e & He & Her). rewrite He. cbn [default from_option Datatypes.id].
    pose proof (Z.mod_pos_bound p 8 ltac:(lia)).
    eapply (rv_vec_update rv); [done|done|done|apply u8_bytes|done|].
    intros g Hg. rewrite testbit_merge by lia. destruct (Z.eqb_spec g (p / 8)) as [->|]; [|done].
    symmetry. apply negb_true_iff, Z.eqb_neq. intros E0.
    assert (Z.testbit (u8 (Z.lor e (2 ^ (p mod 8)))) (p mod 8) = true) as Hb
      by (unfold u8; by rewrite testbit_merge, Z.eqb_refl by lia).
    by rewrite E0, Z.bits_0 in Hb.
  - intros q Hq. unfold ready_bit. cbn [priority_ready_group ready_vector].
    rewrite <- (rvo_bits _ _ Hs q Hq). unfold ready_bit. destruct two_level eqn:E.
    + destruct Hsite as (-> & -> & _). destruct (rv_byte rv ne p E Hs Hp) as (Hj & e & He & Her).
      rewrite He. cbn [default from_option Datatypes.id].
      pose proof (Z.mod_pos_bound p 8 ltac:(lia)). pose proof (Z.div_mod p 8 ltac:(lia)).
      rewrite (used_bit_update _ (p / 8) (p mod 8) true e); try done; try lia.
      * replace (p / 8 * 8 + p mod 8) with p by lia. by destruct (q =? p).
      * intros c Hc. unfold u8. rewrite testbit_merge by lia. by destruct (c =? p mod 8).
    + rewrite Hsite. apply two_level_false in E. destruct (decide (q < 32)); [by rewrite testbit_merge by lia|].
      rewrite Z.mod_pow2_bits_high, (testbit_high (priority_ready_group rv) 32) by (apply Hs || lia).
      rewrite (proj2 (Z.eqb_neq q p)) by lia. done.
  - intros q Hq. rewrite (rvo_neg _ _ Hs) by done. rewrite (proj2 (Z.eqb_neq q p)) by lia. done.
Qed.

Lemma rv_remove_ok rv ne td :
  rv_ok rv ne -> site_ok td ->
  let v := if two_level then
             <[Z.to_nat (bitmap_offset td) :=
                 u8 (Z.land (default 0 (ready_vector rv !! Z.to_nat (bitmap_offset td)))
                            (Z.lnot (bitmap_row td)))]> (ready_vector rv)
           else ready_vector rv in
  let g := if two_level && negb (default 0 (v !! Z.to_nat (bitmap_offset td)) =? 0)
           then priority_ready_group rv
           else u32 (Z.land (priority_ready_group rv) (Z.lnot (bitmap_column td))) in
  rv_shape (mkReadyVector g v (highest_prio rv)) (fun q => negb (q =? cur_prio td) && ne q).
Proof.
  intros Hrv [Hp Hsite] v g. pose proof (rvo_shape _ _ Hrv) as Hs. set (p := cur_prio td) in *.
  split; cbn [priority_ready_group ready_vector].
  - unfold g. destruct (_ && _); [apply Hs|]. apply Z.mod_pos_bound. lia.
  - intros E. subst v g. rewrite E in Hsite |- *. destruct Hsite as (-> & -> & ->). cbn [andb].
    destruct (rv_byte rv ne p E Hs Hp) as (Hj & e & He & Her). rewrite He. cbn [default from_option Datatypes.id].
    destruct (rvo_vec _ _ Hs E) as (Hlen & Hby & Hvec). rewrite list_lookup_insert_eq by lia.
    cbn [default from_option Datatypes.id].
    eapply (rv_vec_update rv); [done|done|done|apply u8_bytes|done|].
    intros q Hq. set (e' := u8 _). destruct (Z.eqb_spec e' 0) as [E0|E0]; cbn [negb].
    + unfold u32. rewrite testbit_clear by lia. by destruct (Z.eqb_spec q (p / 8)) as [->|].
    + destruct (Z.eqb_spec q (p / 8)) as [->|]; [|done].
      destruct (Hvec (p / 8) Hj) as (e2 & He2 & ->). rewrite He in He2. injection He2 as <-.
      apply negb_true_iff, Z.eqb_neq. intros ->. apply E0. unfold e'. by rewrite Z.land_0_l.
  - intros q Hq. unfold ready_bit. cbn [priority_ready_group ready_vector].
    rewrite <- (rvo_bits _ _ Hs q Hq). unfold ready_bit. subst v g. destruct two_level eqn:E.
    + destruct Hsite as (-> & -> & _). destruct (rv_byte rv ne p E Hs Hp) as (Hj & e & He & Her).
      rewrite He. cbn [default from_option Datatypes.id].
      pose proof (Z.mod_pos_bound p 8 ltac:(lia)). pose proof (Z.div_mod p 8 ltac:(lia)).
      rewrite (used_bit_update _ (p / 8) (p mod 8) false e); try done; try lia.
      * replace (p / 8 * 8 + p mod 8) with p by lia. by destruct (q =? p).
      * intros c Hc. unfold u8. rewrite testbit_clear by lia. by destruct (c =? p mod 8).
    + rewrite Hsite. cbn [andb]. apply two_level_false in E. unfold u32.
      destruct (decide (q < 32)); [by rewrite testbit_clear by lia|].
      rewrite Z.mod_pow2_bits_high, (testbit_high (priority_ready_group rv) 32) by (apply Hs || lia).
      by rewrite andb_false_r.
  - intros q Hq. by rewrite (rvo_neg _ _ Hs), andb_false_r by done.
Qed.

(** ** Where the policy puts a task *)

Definition rest_of (ts : gmap ptr TaskDescriptor) (x : link) : Z :=
  default 0 (rest_timeslice <$> (sched_entry x ≫= (fun t => ts !! t))).

Definition has_more_left (ts : gmap ptr TaskDescriptor) (td : TaskDescriptor) (x : link) : bool :=
  bool_decide (rest_timeslice td < rest_of ts x).

(** FIFO and round robin append; round robin with remaining slices goes before
    the first task that has more of its slice left, unless it was already
    advanced once. *)
Definition policy_position (ts : gmap ptr TaskDescriptor) (td : TaskDescriptor) (l : list link) : nat :=
  match sched_policy with
  | SCHED_POLICY_FIFO | SCHED_POLICY_RR => length l
  | SCHED_POLICY_RR_REMAINSLICE =>
      if advance_cnt td <? KTASK_MAX_ADVANCE_PROCESS_TIME then
        default (length l) (fst <$> list_find (has_more_left ts td) l)
      else length l
  end.

(** The entries of a ready list are tasks. *)
Definition tasks_on (ts : gmap ptr TaskDescriptor) (l : list link) : Prop :=
  forall x, x ∈ l -> exists t, x = SchedLink t /\ is_Some (ts !! t).

Section insert.
Context (k : kstate) (L : gmap link (list link)) (t : ptr) (td : TaskDescriptor) (l : list link).
Hypothesis HR : rep (links k) L.
Hypothesis Ht : tasks k !! t = Some td.
Hypothesis HL : L !! ReadyVec (cur_prio td) = Some l.
Hypothesis Hmem : tasks_on (tasks k) l.
Hypothesis Hun : unlinked L (SchedLink t).
Hypothesis Hal : alloc (links k) (SchedLink t).

Let inserted (n : nat) (h' : gmap link (node link)) : Prop :=
  rep h' (attach (ReadyVec (cur_prio td)) (insert_nth n (SchedLink t) l) (SchedLink t) L) /\
  same_links (SchedLink t) (links k) h'.

Lemma wp_insert_at_tail (Q : unit -> kstate -> Prop) :
  (forall h', inserted (length l) h' -> Q tt (set_links h' k)) ->
  wp (insert_at_tail t) Q k.
Proof.
  intros HQ. unfold insert_at_tail. wp_steps. eapply wp_task_get; [exact Ht|]. wp_steps.
  apply wp_klinks. pose proof (rep_last _ _ _ _ HR HL) as Hla.
  apply wp_get_prev; [by eapply alloc_prv|]. rewrite Hla, set_links_id. wp_steps. apply wp_klinks.
  apply (wp_DoubleLinkListInsertNodeAfter _ L (ReadyVec (cur_prio td)) l []); try done.
  { by rewrite app_nil_r. }
  intros h' HR' Hsl. apply HQ. split; [|done]. unfold insert_nth. by rewrite take_ge, drop_ge by done.
Qed.

Lemma less_rest_spec x : x ∈ l ->
  less_rest t x k = Ret (has_more_left (tasks k) td x) k.
Proof.
  intros Hx. destruct (Hmem x Hx) as (t' & -> & td' & Ht'). unfold less_rest, has_more_left, rest_of, task_get.
  cbn [sched_entry deref]. unfold mbind, M_bind, get, mret, M_ret, deref. rewrite Ht. cbn.
  rewrite Ht'. cbn. f_equal. destruct (Z.ltb_spec (rest_timeslice td) (rest_timeslice td')); case_bool_decide; lia || done.
Qed.

Lemma wp_klinks_next x : x ∈ l -> klinks (get_next x) k = Ret (nxt (links k) x) k.
Proof.
  intros Hx. assert (alloc (links k) x) as [n Hn] by (eapply rep_alloc; [done..|set_solver]).
  unfold klinks, zoom, get_next, load, nxt, mbind, M_bind. by rewrite Hn.
Qed.

Lemma wp_RoundRobinRemainReadyVectorInsert (Q : unit -> kstate -> Prop) :
  sched_policy = SCHED_POLICY_RR_REMAINSLICE ->
  (forall h', inserted (policy_position (tasks k) td l) h' -> Q tt (set_links h' k)) ->
  wp (RoundRobinRemainReadyVectorInsert t) Q k.
Proof.
  intros Epol HQ. unfold policy_position in HQ. rewrite Epol in HQ.
  unfold RoundRobinRemainReadyVectorInsert. wp_steps. eapply wp_task_get; [exact Ht|].
  destruct (advance_cnt td <? KTASK_MAX_ADVANCE_PROCESS_TIME); [|by apply wp_insert_at_tail].
  wp_steps. eapply wp_task_get; [exact Ht|]. wp_steps. apply wp_klinks.
  pose proof (rep_first _ _ _ _ HR HL) as Hf. apply wp_get_next; [by eapply alloc_nxt|].
  rewrite Hf, set_links_id. wp_steps.
  apply (wp_for_each_until _ _ (has_more_left (tasks k) td) k (links k) L _ [] l); [done|done|apply wp_klinks_next|apply less_rest_spec|..].
  { pose proof (rep_length _ _ _ _ HR HL). lia. }
  pose proof (rep_head_not_member _ _ _ _ HR HL) as Hhd.
  destruct (list_find (has_more_left (tasks k) td) l) as [[n x]|] eqn:Ef; cbn [fmap option_fmap option_map default fst snd from_option Datatypes.id] in *.
  - apply list_find_Some in Ef as (Hlx & _ & _). assert (x ∈ l) by (by eapply list_elem_of_lookup_2).
    rewrite bool_decide_false by congruence. cbn [negb]. apply wp_klinks.
    apply (wp_DoubleLinkListInsertNodeBefore _ L (ReadyVec (cur_prio td)) (take n l) (drop n l)); try done.
    + by rewrite take_drop.
    + by rewrite (drop_S _ _ _ Hlx).
    + intros h' HR' Hsl. apply HQ. by split.
  - rewrite bool_decide_true by done. cbn [negb]. by apply wp_insert_at_tail.
Qed.

Lemma wp_AssignPolicyInsert (Q : unit -> kstate -> Prop) :
  (forall h', inserted (policy_position (tasks k) td l) h' ->
     Q tt (set_os_assign_read_vector
             (set_highest_prio (if highest_prio (os_assign_read_vector k) <? cur_prio td
                                then cur_prio td else highest_prio (os_assign_read_vector k))
                (os_assign_read_vector k)) (set_links h' k))) ->
  wp (AssignPolicyInsert t) Q k.
Proof.
  intros HQ. unfold AssignPolicyInsert. wp_steps.
  assert (forall h', inserted (policy_position (tasks k) td l) h' ->
    wp (prio ← task_get t cur_prio; highest ← rv_get highest_prio;
        if highest <? prio then rv_set (set_highest_prio prio) else mret tt) Q (set_links h' k)) as Hrest.
  { intros h' Hh'. wp_steps. eapply wp_task_get; [exact Ht|]. wp_steps. apply wp_rv_get.
    specialize (HQ h' Hh'). cbn [os_assign_read_vector set_links].
    destruct (highest_prio (os_assign_read_vector k) <? cur_prio td); [by apply wp_rv_set|apply wp_ret].
    destruct (os_assign_read_vector k) eqn:E. unfold set_highest_prio in HQ. cbn in HQ. rewrite <- E in HQ.
    exact HQ. }
  destruct sched_policy eqn:Epol.
  - apply wp_insert_at_tail. intros h' Hh'. apply Hrest. unfold policy_position. by rewrite Epol.
  - apply wp_insert_at_tail. intros h' Hh'. apply Hrest. unfold policy_position. by rewrite Epol.
  - by apply wp_RoundRobinRemainReadyVectorInsert.
Qed.
End insert.

(** ** Inserting into and removing from the table *)

Definition as_stat (s : Z) (td : TaskDescriptor) : TaskDescriptor :=
  set_stat (u8 (Z.lor s (Z.land (stat td) (Z.lnot KTASK_STAT_MASK)))) td.

Lemma wp_KTaskStateSet t s td (Q : unit -> kstate -> Prop) k :
  tasks k !! t = Some td -> Q tt (set_tasks (<[t := as_stat s td]> (tasks k)) k) ->
  wp (KTaskStateSet t s) Q k.
Proof. intros Ht HQ. unfold KTaskStateSet. by eapply wp_task_set. Qed.

Lemma tasks_on_insert ts t td l : tasks_on ts l -> tasks_on (<[t := td]> ts) l.
Proof.
  intros Hl x Hx. destruct (Hl x Hx) as (t' & -> & ?). exists t'. split; [done|].
  destruct (decide (t' = t)) as [->|]; [rewrite lookup_insert_eq; by eexists|by rewrite lookup_insert_ne].
Qed.

Definition ready_insert (t : ptr) (td : TaskDescriptor) (ts : gmap ptr TaskDescriptor)
    (L : gmap link (list link)) : gmap link (list link) :=
  let l := default [] (L !! ReadyVec (cur_prio td)) in
  attach (ReadyVec (cur_prio td)) (insert_nth (policy_position ts td l) (SchedLink t) l) (SchedLink t) L.

(** What the scheduler relies on: the two operations on a table in order.  Removal
    takes the list of the task's [cur_prio] and the bitmap fields of the priority [q],
    which differ while the priority of a READY task is being changed. *)
Class ReadyVectorLaws (D : PriorityReadyVectorDone) : Prop := {
  rv_insert_law : forall k L t td l ne (Q : unit -> kstate -> Prop),
    rep (links k) L -> tasks k !! t = Some td -> site_ok td ->
    L !! ReadyVec (cur_prio td) = Some l -> tasks_on (tasks k) l ->
    unlinked L (SchedLink t) -> alloc (links k) (SchedLink t) ->
    rv_ok (os_assign_read_vector k) ne ->
    (forall h' rv',
       rep h' (ready_insert t (as_stat KTASK_READY td)
                 (<[t := as_stat KTASK_READY td]> (tasks k)) L) ->
       same_links (SchedLink t) (links k) h' ->
       rv_ok rv' (fun q => (q =? cur_prio td) || ne q) ->
       Q tt (set_os_assign_read_vector rv'
               (set_links h' (set_tasks (<[t := as_stat KTASK_READY td]> (tasks k)) k)))) ->
    wp (rv_insert t) Q k;
  rv_remove_site_law : forall k L t td q l ne (Q : unit -> kstate -> Prop),
    rep (links k) L -> tasks k !! t = Some td -> site_ok (set_cur_prio q td) ->
    L !! ReadyVec (cur_prio td) = Some l -> linked_or_detached L (SchedLink t) ->
    rv_ok (os_assign_read_vector k) ne ->
    (forall h' rv',
       rep h' (detach (SchedLink t) L) -> same_links (SchedLink t) (links k) h' ->
       rv_ok rv' (fun r => negb (bool_decide (without (SchedLink t) l = []) && (r =? q)) && ne r) ->
       Q tt (set_os_assign_read_vector rv' (set_links h' k))) ->
    wp (rv_remove t) Q k;
}.

Lemma rv_ok_ext rv ne ne' : rv_ok rv ne -> (forall q, ne q = ne' q) -> rv_ok rv ne'.
Proof.
  intros [[? ? Hb Hn] Hm Ht] E. split; [split; [done|done|..]|..].
  - intros p Hp. by rewrite <- E, Hb.
  - intros p Hp. rewrite <- E. auto.
  - intros p Hp. rewrite <- E in Hp. auto.
  - rewrite <- E. destruct Ht as [?|[Ha ?]]; [by left|right]. split; [|done]. intros p. by rewrite <- E.
Qed.

(** Removing a task whose bitmap fields match its priority. *)
Lemma rv_remove_law `{D : PriorityReadyVectorDone} `{DL : !ReadyVectorLaws D} k L t td l ne (Q : unit -> kstate -> Prop) :
  rep (links k) L -> tasks k !! t = Some td -> site_ok td ->
  L !! ReadyVec (cur_prio td) = Some l -> linked_or_detached L (SchedLink t) ->
  rv_ok (os_assign_read_vector k) ne ->
  ne (cur_prio td) = negb (bool_decide (l = [])) ->
  (forall h' rv',
     rep h' (detach (SchedLink t) L) -> same_links (SchedLink t) (links k) h' ->
     rv_ok rv' (fun q => if q =? cur_prio td then negb (bool_decide (without (SchedLink t) l = [])) else ne q) ->
     Q tt (set_os_assign_read_vector rv' (set_links h' k))) ->
  wp (rv_remove t) Q k.
Proof.
  intros HR Ht Hsite HL Hlk Hrv Hne HQ.
  eapply (rv_remove_site_law k L t td (cur_prio td) l ne); [done|done|by destruct td|done|done|done|].
  intros h' rv' HR' Hsl Hrv'. apply (HQ h' rv'); [done|done|]. eapply rv_ok_ext; [exact Hrv'|]. intros q. cbn beta.
  destruct (Z.eqb_spec q (cur_prio td)) as [->|]; [|by rewrite andb_false_r].
  rewrite andb_true_r. case_bool_decide as Ew; cbn [negb andb]; [done|].
  rewrite Hne, bool_decide_false; [done|]. intros ->. by apply Ew.
Qed.

Lemma wp_KTaskInsertToReadyVector k L t td l ne (Q : unit -> kstate -> Prop) :
  rep (links k) L -> tasks k !! t = Some td -> site_ok td ->
  L !! ReadyVec (cur_prio td) = Some l -> tasks_on (tasks k) l ->
  unlinked L (SchedLink t) -> alloc (links k) (SchedLink t) ->
  rv_ok (os_assign_read_vector k) ne ->
  (forall h' rv',
     rep h' (ready_insert t (as_stat KTASK_READY td) (<[t := as_stat KTASK_READY td]> (tasks k)) L) ->
     same_links (SchedLink t) (links k) h' ->
     rv_ok rv' (fun q => (q =? cur_prio td) || ne q) ->
     Q tt (set_os_assign_read_vector rv'
             (set_links h' (set_tasks (<[t := as_stat KTASK_READY td]> (tasks k)) k)))) ->
  wp (KTaskInsertToReadyVector t) Q k.
Proof.
  intros HR Ht Hsite HL Hmem Hun Hal Hrv HQ. set (td' := as_stat KTASK_READY td) in *.
  unfold KTaskInsertToReadyVector, DISABLE_INTERRUPT, ENABLE_INTERRUPT. wp_steps.
  eapply wp_KTaskStateSet; [exact Ht|]. fold td'. wp_steps.
  assert (<[t := td']> (tasks k) !! t = Some td') as Ht' by apply lookup_insert_eq.
  eapply (wp_AssignPolicyInsert _ L t td' l); try done.
  { by apply tasks_on_insert. }
  intros h' [HR' Hsl]. specialize (HQ h').
  unfold ready_insert in HQ. change (cur_prio td') with (cur_prio td) in *. rewrite HL in HQ.
  cbn [default from_option Datatypes.id tasks set_tasks set_interrupts os_assign_read_vector links set_links] in *.
  specialize (fun rv' => HQ rv' HR' Hsl).
  pose proof (rv_insert_ok _ _ td Hrv Hsite) as Hok.
  destruct two_level eqn:E.
  - destruct (rv_byte _ _ (cur_prio td) E (rvo_shape _ _ Hrv) ltac:(apply Hsite)) as (Hj & e & He & _).
    assert (bitmap_offset td = cur_prio td / 8) as Eoff by (destruct Hsite as [_ Hs]; rewrite E in Hs; apply Hs).
    repeat (wp_step || (eapply wp_task_get; [exact Ht'|]) || apply wp_rv_get || apply wp_rv_set).
    cbn. rewrite Eoff, He in Hok |- *. wp_steps.
    repeat (wp_step || (eapply wp_task_get; [exact Ht'|]) || apply wp_rv_get || apply wp_rv_set).
    apply (HQ _ Hok).
  - repeat (wp_step || (eapply wp_task_get; [exact Ht'|]) || apply wp_rv_get || apply wp_rv_set).
    apply (HQ _ Hok).
Qed.

(** Removing the last task of a priority: the bits go, [highest_prio] is recomputed. *)
Lemma wp_clear_bits k t td p ne (Q : unit -> kstate -> Prop) :
  tasks k !! t = Some td -> site_ok (set_cur_prio p td) -> rv_ok (os_assign_read_vector k) ne ->
  (forall rv', rv_ok rv' (fun q => negb (q =? p) && ne q) ->
     Q tt (set_os_assign_read_vector rv' k)) ->
  wp (if two_level then
       off ← task_get t bitmap_offset;
       row ← task_get t bitmap_row;
       v ← rv_get ready_vector;
       e ← deref (v !! Z.to_nat off);
       rv_set (set_ready_vector (<[Z.to_nat off := u8 (Z.land e (Z.lnot row))]> v));;
       v ← rv_get ready_vector;
       e ← deref (v !! Z.to_nat off);
       (if e =? 0 then clear_group t else mret tt);;
       group ← rv_get priority_ready_group;
       let number := PrioCaculate group in
       v ← rv_get ready_vector;
       e ← deref (v !! Z.to_nat number);
       rv_set (set_highest_prio (number * 8 + PrioCaculate e))
     else
       clear_group t;;
       group ← rv_get priority_ready_group;
       rv_set (set_highest_prio (PrioCaculate group))) Q k.
Proof.
  intros Ht Hsite Hrv HQ. pose proof (rv_remove_ok _ _ (set_cur_prio p td) Hrv Hsite) as Hsh.
  cbv zeta in Hsh. cbn [cur_prio bitmap_offset bitmap_row bitmap_column set_cur_prio] in Hsh.
  pose proof (rvo_shape _ _ Hrv) as Hs0. destruct two_level eqn:E.
  - destruct (rv_byte _ _ p E Hs0 ltac:(apply Hsite)) as (Hj & e & He & _).
    assert (bitmap_offset td = p / 8) as Eoff by (destruct Hsite as [_ Hs]; rewrite E in Hs; apply Hs).
    repeat (wp_step || (eapply wp_task_get; [exact Ht|]) || apply wp_rv_get || apply wp_rv_set).
    rewrite Eoff, He in *. cbn [default from_option Datatypes.id] in Hsh.
    repeat (wp_step || (eapply wp_task_get; [exact Ht|]) || apply wp_rv_get || apply wp_rv_set).
    cbn [ready_vector set_ready_vector os_assign_read_vector set_os_assign_read_vector].
    set (v' := <[Z.to_nat (p / 8) := _]> _) in *.
    assert (exists e', v' !! Z.to_nat (p / 8) = Some e') as [e' He'].
    { apply lookup_lt_Some in He. apply lookup_lt_is_Some_2. unfold v'. by rewrite length_insert. }
    rewrite He' in *. cbn [default from_option Datatypes.id andb] in Hsh. wp_steps.
    match type of Hsh with rv_shape (mkReadyVector ?g _ _) _ => set (g' := g) in * end.
    assert (forall P, P (mkReadyVector g' v' (highest_prio (os_assign_read_vector k))) ->
      (wp (if e' =? 0 then clear_group t else mret tt) (fun _ s' => P (os_assign_read_vector s') /\
        s' = set_os_assign_read_vector (os_assign_read_vector s') k)
        (set_os_assign_read_vector (set_ready_vector v' (os_assign_read_vector k)) k))) as Hclear.
    { intros P HP. unfold g' in HP. destruct (e' =? 0); cbn [negb] in HP; [|apply wp_ret].
      - unfold clear_group. wp_steps. eapply wp_task_get; [exact Ht|]. by apply wp_rv_set.
      - split; [|done]. cbn. destruct (os_assign_read_vector k). exact HP. }
    eapply wp_mono; [apply (Hclear (eq (mkReadyVector g' v' (highest_prio (os_assign_read_vector k))))); done|].
    cbn beta. intros _ k' [Erv ->]. cbn in Erv. rewrite <- Erv. wp_steps. apply wp_rv_get. wp_steps. apply wp_rv_get.
    cbn [priority_ready_group ready_vector os_assign_read_vector set_os_assign_read_vector].
    pose proof (top_prio_ok _ _ _ Hsh eq_refl) as Hok. unfold top_prio in Hok. rewrite E in Hok.
    cbn [priority_ready_group ready_vector] in Hok.
    destruct (rvo_vec _ _ Hsh E) as (Hlen & _ & _). cbn [ready_vector] in Hlen.
    pose proof (rvo_group _ _ Hsh) as Hg. cbn [priority_ready_group] in Hg.
    rewrite (PrioCaculate_spec g') in * by done.
    assert (0 <= Z.log2 g' < 32) as Hn.
    { split; [apply Z.log2_nonneg|]. destruct (decide (g' = 0)) as [->|]; [done|]. apply Z.log2_lt_pow2; lia. }
    destruct (lookup_lt_is_Some_2 v' (Z.to_nat (Z.log2 g'))) as [e2 He2]; [lia|].
    rewrite He2 in *. wp_steps. apply wp_rv_set. apply (HQ _ Hok).
  - unfold clear_group. repeat (wp_step || (eapply wp_task_get; [exact Ht|]) || apply wp_rv_get || apply wp_rv_set).
    pose proof (top_prio_ok _ _ _ Hsh eq_refl) as Hok. unfold top_prio in Hok. rewrite E in Hok.
    destruct (os_assign_read_vector k) as [g0 v0 h0] eqn:Erv. cbn in *. apply (HQ _ Hok).
Qed.

Lemma wp_KTaskOsAssignRemoveKTask k L t td p l ne (Q : unit -> kstate -> Prop) :
  rep (links k) L -> tasks k !! t = Some td -> site_ok (set_cur_prio p td) ->
  L !! ReadyVec (cur_prio td) = Some l -> linked_or_detached L (SchedLink t) ->
  rv_ok (os_assign_read_vector k) ne ->
  (forall h' rv',
     rep h' (detach (SchedLink t) L) -> same_links (SchedLink t) (links k) h' ->
     rv_ok rv' (fun r => negb (bool_decide (without (SchedLink t) l = []) && (r =? p)) && ne r) ->
     Q tt (set_os_assign_read_vector rv' (set_links h' k))) ->
  wp (KTaskOsAssignRemoveKTask t) Q k.
Proof.
  intros HR Ht Hsite HL Hlk Hrv HQ.
  unfold KTaskOsAssignRemoveKTask, DISABLE_INTERRUPT, ENABLE_INTERRUPT. wp_steps.
  apply wp_klinks. apply (wp_DoubleLinkListRmNode _ L); [done|done|]. intros h' HR' Hsl.
  wp_steps. eapply wp_task_get; [exact Ht|]. wp_steps. apply wp_klinks.
  assert (detach (SchedLink t) L !! ReadyVec (cur_prio td) = Some (without (SchedLink t) l)) as HL'
    by by rewrite lookup_detach_ne, HL.
  eapply (wp_IsDoubleLinkListEmpty _ _ _ _ _ HR' HL'). wp_steps. specialize (HQ h').
  case_bool_decide as Ew.
  - eapply (wp_clear_bits _ t td p); [exact Ht|done|done|]. intros rv' Hrv'. wp_steps. by apply (HQ rv').
  - wp_steps. by apply (HQ (os_assign_read_vector k)).
Qed.

#[export] Instance SingleReadyVectorLaws : ReadyVectorLaws SingleReadyVectorDone.
Proof.
  split; [apply wp_KTaskInsertToReadyVector|apply wp_KTaskOsAssignRemoveKTask].
Qed.

(** ** Initialisation *)

Fixpoint add_lists (n : nat) (prio : Z) (L : gmap link (list link)) : gmap link (list link) :=
  match n with
  | O => L
  | S n => add_lists n (prio + 1) (<[ReadyVec prio := []]> L)
  end.

Lemma lookup_add_lists n prio L x :
  add_lists n prio L !! x =
  match x with
  | ReadyVec p => if (prio <=? p) && (p <? prio + Z.of_nat n) then Some [] else L !! x
  | _ => L !! x
  end.
Proof.
  revert prio L. induction n as [|n IH]; intros prio L; cbn [add_lists].
  - destruct x; try done. destruct (Z.leb_spec prio prio0), (Z.ltb_spec prio0 (prio + Z.of_nat 0)); done || lia.
  - rewrite IH. destruct x; try (by rewrite lookup_insert_ne).
    destruct (decide (prio0 = prio)) as [->|Hne].
    + rewrite lookup_insert_eq, (proj2 (Z.leb_gt (prio + 1) prio)), (proj2 (Z.leb_le prio prio)) by lia.
      by rewrite (proj2 (Z.ltb_lt prio (prio + Z.of_nat (S n)))) by lia.
    + rewrite lookup_insert_ne by congruence.
      destruct (Z.leb_spec (prio + 1) prio0), (Z.ltb_spec prio0 (prio + 1 + Z.of_nat n)),
        (Z.leb_spec prio prio0), (Z.ltb_spec prio0 (prio + Z.of_nat (S n))); done || lia.
Qed.

Lemma wp_init_lists n prio k L (Q : unit -> kstate -> Prop) :
  rep (links k) L ->
  (forall p, prio <= p < prio + Z.of_nat n -> unlinked L (ReadyVec p) /\ alloc (links k) (ReadyVec p)) ->
  (forall h', rep h' (add_lists n prio L) -> (forall y, alloc h' y <-> alloc (links k) y) ->
     Q tt (set_links h' k)) ->
  wp (init_lists n prio) Q k.
Proof.
  revert prio k L. induction n as [|n IH]; intros prio k L HR Hp HQ; cbn [init_lists add_lists] in *.
  { apply wp_ret. rewrite <- (set_links_id k). by apply HQ. }
  wp_steps. apply wp_klinks. destruct (Hp prio) as [Hun Hal]; [lia|].
  apply (wp_InitDoubleLinkList_rep _ L); [done|done|done|]. intros h' HR' [Ha' _].
  eapply IH; [exact HR'| |].
  - intros p Hpr. destruct (Hp p) as [Hunp Halp]; [lia|]. split; [|by apply Ha'].
    intros hd l [[<- <-]|[? HL]]%lookup_insert_Some Hin; [|by eapply Hunp].
    apply list_elem_of_singleton in Hin as [= ->]. lia.
  - intros h'' HR'' Ha''. apply HQ; [done|]. intros y. rewrite Ha''. apply Ha'.
Qed.

Lemma rv_ok_empty : rv_ok (mkReadyVector 0 (if two_level then replicate 32 0 else []) 0) (fun _ => false).
Proof.
  assert (forall p, ready_bit (mkReadyVector 0 (if two_level then replicate 32 0 else []) 0) p = false) as Hb.
  { intros p. unfold ready_bit, used_bit. cbn [ready_vector priority_ready_group].
    destruct two_level; [|apply Z.bits_0]. destruct (replicate _ _ !! _) as [e|] eqn:E; [|done].
    apply lookup_replicate in E as [-> _]. apply Z.bits_0. }
  split; [split; [cbn; lia| |auto|done]|done|by right].
  intros E. rewrite E. cbn [ready_vector priority_ready_group]. split_and!; [done| |].
  - intros j e [-> _]%lookup_replicate. lia.
  - intros g Hg. exists 0. rewrite Z.bits_0. split; [|done]. apply lookup_replicate. split; [done|lia].
Qed.

(** With one word the bytes do not matter. *)
Lemma rv_ok_single rv rv' ne :
  two_level = false -> rv_ok rv ne -> priority_ready_group rv' = priority_ready_group rv ->
  highest_prio rv' = highest_prio rv -> rv_ok rv' ne.
Proof.
  intros E [[? ? Hb ?] ? ?] Eg Eh. split; [split|..]; rewrite ?Eg, ?Eh; try done; [by rewrite E|].
  intros p Hp. rewrite <- Hb by done. unfold ready_bit. by rewrite E, Eg.
Qed.

End ReadyVector.
