(* ===== verification/Assign.v ===== *)
(** * The scheduler of kernel/thread/assign.c (single core)

    The definitions call the ready table through the operations of
    [PriorityReadyVectorDone], as the source calls [Assign.ready_vector_done];
    the theorems use only the laws of that interface.  The effect of a context
    switch on the kernel's memory is that [os_running_task] becomes the new
    task (see [RestoreCpusLockStatus]).

    [sched_ok k L] is the invariant of the scheduler: the lists [L] of the
    memory hold exactly the tasks in the READY state, each at its priority, the
    bitmap and [highest_prio] describe them, and at most the current task is
    RUNNING. *)

From S2P Require Import Prelude DoubleLink IdManager Bitmap Kernel ReadyVector.

Section Assign.
Context `{C : KConfig} `{D : PriorityReadyVectorDone}.

(** The part of [KTaskOsAssign] and of [KTaskOsAssignDoIrqSwitch] behind their
    guards: both choose the first task of the highest list, compare it with the
    current one and switch.  [switch] is the context switch each of them uses. *)
Definition SwitchKtaskContext (to_task : ptr) : M kstate unit := RestoreCpusLockStatus to_task.
Definition HwInterruptcontextSwitch (to_task : ptr) : M kstate unit := RestoreCpusLockStatus to_task.

Definition do_switch (switch : ptr -> M kstate unit) (need_insert_from_task : bool)
    (highest : Z) (new_task : option ptr) : M kstate unit :=
  cur ← gets (fun k => os_running_task k);
  if negb (bool_decide (new_task = cur)) then
    modify (set_current_priority (u8 highest));;
    from_task ← gets (fun k => os_running_task k);
    (if need_insert_from_task then from ← NULL_PARAM_CHECK from_task; rv_insert from else mret tt);;
    new ← deref new_task;
    rv_remove new;;
    KTaskStatSetAsRunning new;;
    switch new
  else
    cur ← NULL_PARAM_CHECK cur;
    rv_remove cur;;
    KTaskStatSetAsRunning cur.

Definition choose_and_switch (switch : ptr -> M kstate unit) : M kstate unit :=
  highest ← rv_get highest_prio;
  new_task ← ChooseTaskWithHighestPrio;
  running ← gets (fun k => os_running_task k);
  cur ← NULL_PARAM_CHECK running;
  is_running ← JudgeKTaskStatIsRunning cur;
  if negb is_running then do_switch switch false highest new_task
  else
    prio ← task_get cur cur_prio;
    if highest <? prio then mret tt
    else do_switch switch true highest new_task.

Definition KTaskOsAssign : M kstate unit :=
  level ← GetOsAssignLockLevel;
  if 1 <=? level then mret tt
  else
    in_isr ← IsInIsr;
    if (in_isr : bool) then SetIsrSwitchTrigerFlag
    else
      empty ← JudgeAssignReadyBitmapIsEmpty;
      if (empty : bool) then mret tt else choose_and_switch SwitchKtaskContext.

Definition KTaskOsAssignDoIrqSwitch : M kstate unit :=
  level ← GetOsAssignLockLevel;
  if 1 <=? level then mret tt
  else
    flag ← GetIsrSwitchTrigerFlag;
    if flag =? 0 then mret tt
    else
      ClearIsrSwitchTrigerFlag;;
      empty ← JudgeAssignReadyBitmapIsEmpty;
      if (empty : bool) then mret tt else choose_and_switch HwInterruptcontextSwitch.

Definition KTaskOsAssignAfterIrq : M kstate unit :=
  lock ← DISABLE_INTERRUPT; KTaskOsAssignDoIrqSwitch;; ENABLE_INTERRUPT lock.

(** [DO_KTASK_ASSIGN].  After a switch the processor runs the new task; the
    [ENABLE_INTERRUPT] here is that of the task that gave up the processor, run
    when it is scheduled again. *)
Definition DO_KTASK_ASSIGN : M kstate unit :=
  NOT_IN_CRITICAL_AREA;;
  lock ← DISABLE_INTERRUPT;
  KTaskOsAssign;;
  ENABLE_INTERRUPT lock.

Definition SwitchToFirstRunningTask (task : option ptr) : M kstate unit :=
  task ← deref task;
  rv_remove task;;
  KTaskStatSetAsRunning task;;
  SwitchKtaskContext task.

Definition YieldOsAssign : M kstate Z :=
  lock ← DISABLE_INTERRUPT;
  level ← GetOsAssignLockLevel;
  if 1 <=? level then ENABLE_INTERRUPT lock;; mret EOK
  else
    in_isr ← IsInIsr;
    if (in_isr : bool) then ENABLE_INTERRUPT lock;; mret EOK
    else
      empty ← JudgeAssignReadyBitmapIsEmpty;
      if (empty : bool) then ENABLE_INTERRUPT lock;; mret (- ERROR)
      else
        highest ← rv_get highest_prio;
        new_task ← ChooseTaskWithHighestPrio;
        running ← gets (fun k => os_running_task k);
        from_task ← NULL_PARAM_CHECK running;
        is_running ← JudgeKTaskStatIsRunning from_task;
        (if (is_running : bool) then rv_insert from_task else mret tt);;
        (if negb (bool_decide (new_task = Some from_task)) then
           modify (set_current_priority (u8 highest));;
           new ← deref new_task;
           rv_remove new;;
           KTaskStatSetAsRunning new;;
           SwitchKtaskContext new
         else
           rv_remove from_task;;
           KTaskStatSetAsRunning from_task);;
        ENABLE_INTERRUPT lock;;
        mret EOK.

Definition StartupOsAssign : M kstate unit :=
  first ← ChooseTaskWithHighestPrio;
  modify (set_os_running_task first);;
  SwitchToFirstRunningTask first.

Definition SysInitOsAssign : M kstate unit := rv_init;; ResetCriticalAreaLock.

(** ** The invariant *)

Definition ready_nonempty (L : gmap link (list link)) (p : Z) : bool :=
  match L !! ReadyVec p with Some (_ :: _) => true | _ => false end.

Record sched_ok (k : kstate) (L : gmap link (list link)) : Prop := {
  so_rep : rep (links k) L;
  so_lists : forall p, 0 <= p < KTASK_PRIORITY_MAX -> is_Some (L !! ReadyVec p);
  so_ready : forall p l x, L !! ReadyVec p = Some l -> x ∈ l ->
    exists t td, x = SchedLink t /\ tasks k !! t = Some td /\
                 stat_of td = KTASK_READY /\ cur_prio td = p;
  so_on_list : forall t td, tasks k !! t = Some td -> stat_of td = KTASK_READY ->
    exists l, L !! ReadyVec (cur_prio td) = Some l /\ SchedLink t ∈ l;
  so_linked : forall t td, tasks k !! t = Some td -> linked_or_detached L (SchedLink t);
  so_detached : forall t td, tasks k !! t = Some td -> stat_of td = KTASK_RUNNING ->
    L !! SchedLink t = Some [];
  so_site : forall t td, tasks k !! t = Some td -> stat_of td <> KTASK_INIT -> site_ok td;
  so_running : forall t td, tasks k !! t = Some td -> stat_of td = KTASK_RUNNING ->
    os_running_task k = Some t;
  so_current : forall t, os_running_task k = Some t -> is_Some (tasks k !! t);
  so_rv : rv_ok (os_assign_read_vector k) (ready_nonempty L);
}.

Lemma ready_nonempty_in L p l x : L !! ReadyVec p = Some l -> x ∈ l -> ready_nonempty L p = true.
Proof. unfold ready_nonempty. intros -> Hx. destruct l; [by apply not_elem_of_nil in Hx|done]. Qed.

Lemma ready_nonempty_eq L p l : L !! ReadyVec p = Some l -> ready_nonempty L p = negb (bool_decide (l = [])).
Proof. unfold ready_nonempty. intros ->. by destruct l. Qed.

Lemma stat_of_as_stat s td : 0 <= s <= 7 -> stat_of (as_stat s td) = s.
Proof. apply stat_of_set. Qed.

Lemma site_ok_as_stat s td : site_ok td -> site_ok (as_stat s td).
Proof. done. Qed.

(** The task lists of the ready table hold tasks. *)
Lemma so_tasks_on k L p l : sched_ok k L -> L !! ReadyVec p = Some l -> tasks_on (tasks k) l.
Proof.
  intros Hk HL x Hx. destruct (so_ready _ _ Hk _ _ _ HL Hx) as (t & td & -> & Ht & _).
  exists t. split; [done|by eexists].
Qed.

Lemma lookup_ready_insert_ne t td ts L x :
  x <> ReadyVec (cur_prio td) -> x <> SchedLink t -> ready_insert t td ts L !! x = L !! x.
Proof. intros. unfold ready_insert. by apply lookup_attach_ne. Qed.

Lemma lookup_ready_insert_eq t td ts L l :
  L !! ReadyVec (cur_prio td) = Some l ->
  ready_insert t td ts L !! ReadyVec (cur_prio td) =
    Some (insert_nth (policy_position ts td l) (SchedLink t) l).
Proof. unfold ready_insert. intros ->. apply lookup_attach_eq. Qed.

(** ** What the scheduler leaves alone *)

(** The state without what the scheduler changes. *)
Definition rest (k : kstate) : kstate :=
  set_links ∅ (set_tasks ∅ (set_os_assign_read_vector (mkReadyVector 0 [] 0)
    (set_os_running_task None (set_current_priority 0 k)))).

(** Descriptors that differ at most in [stat]. *)
Definition same_but_stat (o o' : option TaskDescriptor) : Prop :=
  match o, o' with
  | Some td, Some td' => td' = set_stat (stat td') td
  | None, None => True
  | _, _ => False
  end.

Definition sched_link (x : link) : bool :=
  match x with ReadyVec _ | SchedLink _ => true | _ => false end.

(** Only links of tasks come onto lists. *)
Definition new_members (L L' : gmap link (list link)) : Prop :=
  forall hd l x, L' !! hd = Some l -> x ∈ l ->
    (exists t, x = SchedLink t) \/ exists l0, L !! hd = Some l0 /\ x ∈ l0.

Lemma new_members_refl L : new_members L L.
Proof. intros hd l x. eauto. Qed.

Lemma new_members_trans L0 L1 L2 : new_members L0 L1 -> new_members L1 L2 -> new_members L0 L2.
Proof. intros H1 H2 hd l x HL Hx. destruct (H2 _ _ _ HL Hx) as [?|(l1 & HL1 & Hx1)]; eauto. Qed.

Lemma new_members_detach x L : new_members L (detach x L).
Proof.
  intros hd l y [[-> ->]|(_ & l' & HL & ->)]%lookup_detach_Some Hy; [by apply not_elem_of_nil in Hy|].
  apply elem_of_without in Hy as [_ Hy]. eauto.
Qed.

Lemma new_members_attach hd l0 n t L :
  L !! hd = Some l0 -> new_members L (attach hd (insert_nth n (SchedLink t) l0) (SchedLink t) L).
Proof.
  intros HL0 hd' l x HL Hx. destruct (decide (hd' = hd)) as [->|Hne].
  - rewrite lookup_attach_eq in HL. injection HL as <-. apply elem_of_insert_nth in Hx as [->|Hx]; eauto.
  - unfold attach in HL. rewrite lookup_insert_ne in HL by done. apply lookup_delete_Some in HL as [_ HL]. eauto.
Qed.

Record sched_frame (k : kstate) (L : gmap link (list link)) (k' : kstate) (L' : gmap link (list link)) : Prop := {
  fr_rest : rest k' = rest k;
  fr_tasks : forall t, same_but_stat (tasks k !! t) (tasks k' !! t);
  fr_stat : forall t td td', tasks k !! t = Some td -> tasks k' !! t = Some td' ->
    td' = td \/ stat_of td' = KTASK_READY \/ stat_of td' = KTASK_RUNNING;
  fr_alloc : forall y, alloc (links k') y <-> alloc (links k) y;
  fr_null : forall y, sched_link y = false -> prv (links k) y = None -> prv (links k') y = None;
  fr_lists : forall y, sched_link y = false -> L' !! y = L !! y;
  fr_members : new_members L L';
}.

Lemma same_but_stat_refl o : same_but_stat o o.
Proof. destruct o as [[]|]; done. Qed.

Lemma sched_frame_refl k L : sched_frame k L k L.
Proof.
  split; [done|intros; apply same_but_stat_refl| |done|done|done|apply new_members_refl].
  intros t td td' E E'. left. congruence.
Qed.

Lemma sched_frame_trans k0 L0 k1 L1 k2 L2 :
  sched_frame k0 L0 k1 L1 -> sched_frame k1 L1 k2 L2 -> sched_frame k0 L0 k2 L2.
Proof.
  intros [R1 T1 S1 A1 N1 F1 M1] [R2 T2 S2 A2 N2 F2 M2]. split.
  - by rewrite R2.
  - intros t. specialize (T1 t). specialize (T2 t).
    destruct (tasks k0 !! t), (tasks k1 !! t), (tasks k2 !! t); cbn in *; try done.
    rewrite T2, T1. done.
  - intros t td td' E E'. specialize (T1 t). rewrite E in T1.
    destruct (tasks k1 !! t) as [td1|] eqn:E1; [|done].
    destruct (S2 _ _ _ E1 E') as [->|?]; [by eapply S1|by right].
  - intros y. by rewrite A2.
  - auto.
  - intros y Hy. by rewrite F2, F1.
  - by eapply new_members_trans.
Qed.

Lemma same_but_stat_insert (ts : gmap ptr TaskDescriptor) t y td s :
  ts !! t = Some td -> same_but_stat (ts !! y) (<[t := as_stat s td]> ts !! y).
Proof.
  intros Ht. destruct (decide (y = t)) as [->|]; [by rewrite lookup_insert_eq, Ht|].
  rewrite lookup_insert_ne by done. apply same_but_stat_refl.
Qed.

Lemma stat_insert (ts : gmap ptr TaskDescriptor) t y td s td1 td2 :
  ts !! t = Some td -> 0 <= s <= 7 -> (s = KTASK_READY \/ s = KTASK_RUNNING) ->
  ts !! y = Some td1 -> <[t := as_stat s td]> ts !! y = Some td2 ->
  td2 = td1 \/ stat_of td2 = KTASK_READY \/ stat_of td2 = KTASK_RUNNING.
Proof.
  intros Ht Hs Hor E1 [[<- <-]|[? E2]]%lookup_insert_Some; [right|left; congruence].
  by rewrite stat_of_as_stat.
Qed.

(** Changes the scheduler's own fields only. *)
Lemma sched_frame_fields k k' L :
  rest k' = rest k -> tasks k' = tasks k -> links k' = links k -> sched_frame k L k' L.
Proof.
  intros Hr Et El. split; rewrite ?Et, ?El; [done|intros; apply same_but_stat_refl| |done|done|done|apply new_members_refl].
  intros t td td' E E'. left. congruence.
Qed.

Context `{CO : !KConfigOk C} `{DL : !ReadyVectorLaws D}.

Section insert_task.
Context (k : kstate) (L : gmap link (list link)) (t : ptr) (td : TaskDescriptor).
Hypothesis Hk : sched_ok k L.
Hypothesis Ht : tasks k !! t = Some td.
Hypothesis Hdet : L !! SchedLink t = Some [].
Hypothesis Hsite : site_ok td.

Let td' := as_stat KTASK_READY td.
Let ts' := <[t := td']> (tasks k).
Let L' := ready_insert t td' ts' L.

Lemma insert_task_prio : cur_prio td' = cur_prio td.
Proof. done. Qed.

Lemma sched_insert_ok h' rv' :
  rep h' L' -> rv_ok rv' (fun q => (q =? cur_prio td) || ready_nonempty L q) ->
  sched_ok (set_os_assign_read_vector rv' (set_links h' (set_tasks ts' k))) L'.
Proof.
  intros HR' Hrv'. destruct (so_lists _ _ Hk (cur_prio td)) as [l HL]; [apply Hsite|].
  assert (L' !! ReadyVec (cur_prio td) = Some (insert_nth (policy_position ts' td' l) (SchedLink t) l)) as HLp
    by exact (lookup_ready_insert_eq t td' ts' L l HL).
  assert (forall p, p <> cur_prio td -> L' !! ReadyVec p = L !! ReadyVec p) as HLne.
  { intros p Hp. apply lookup_ready_insert_ne; [|done]. rewrite insert_task_prio. congruence. }
  assert (forall y, y <> t -> L' !! SchedLink y = L !! SchedLink y) as HLs.
  { intros y Hy. apply lookup_ready_insert_ne; congruence. }
  assert (forall y tdy, ts' !! y = Some tdy -> (y = t /\ tdy = td') \/ (y <> t /\ tasks k !! y = Some tdy)) as Hts.
  { intros y tdy [[<- <-]|[? ?]]%lookup_insert_Some; [by left|by right]. }
  assert (stat_of td' = KTASK_READY) as Hst by by apply stat_of_as_stat.
  split; cbn [links tasks os_running_task os_assign_read_vector
              set_os_assign_read_vector set_links set_tasks].
  - done.
  - intros p Hp. destruct (decide (p = cur_prio td)) as [->|Hne]; [rewrite HLp; by eexists|].
    rewrite HLne by done. by apply (so_lists _ _ Hk).
  - intros p l0 x HL0 Hx. destruct (decide (p = cur_prio td)) as [->|Hne].
    + rewrite HLp in HL0. injection HL0 as <-. apply elem_of_insert_nth in Hx as [->|Hx].
      { exists t, td'. unfold ts'. by rewrite lookup_insert_eq. }
      destruct (so_ready _ _ Hk _ _ _ HL Hx) as (y & tdy & -> & Hy & ? & ?). exists y, tdy.
      unfold ts'. rewrite lookup_insert_ne; [done|]. intros <-.
      assert (ReadyVec (cur_prio td) = SchedLink t) as [=]
        by (apply (rep_disj _ _ (so_rep _ _ Hk) _ _ _ _ (SchedLink t) HL Hdet); set_solver).
    + rewrite HLne in HL0 by done.
      destruct (so_ready _ _ Hk _ _ _ HL0 Hx) as (y & tdy & -> & Hy & ? & ?). exists y, tdy.
      unfold ts'. rewrite lookup_insert_ne; [done|]. intros <-. rewrite Ht in Hy. injection Hy as <-. done.
  - intros y tdy [[-> ->]|[Hne Hy]]%Hts Hsy.
    { eexists. split; [exact HLp|]. apply elem_of_insert_nth. by left. }
    destruct (so_on_list _ _ Hk _ _ Hy Hsy) as (l0 & HL0 & Hin).
    destruct (decide (cur_prio tdy = cur_prio td)) as [E|E].
    + rewrite E in HL0 |- *. rewrite HL in HL0. injection HL0 as <-. eexists. split; [exact HLp|].
      apply elem_of_insert_nth. by right.
    + exists l0. rewrite HLne by done. done.
  - intros y tdy [[-> ->]|[Hne Hy]]%Hts.
    { right. eexists _, _. split; [exact HLp|]. apply elem_of_insert_nth. by left. }
    destruct (so_linked _ _ Hk _ _ Hy) as [Hd|(hd & l0 & HL0 & Hin)]; [left; by rewrite HLs|right].
    destruct (decide (hd = ReadyVec (cur_prio td))) as [->|E].
    + rewrite HL in HL0. injection HL0 as <-. eexists _, _. split; [exact HLp|].
      apply elem_of_insert_nth. by right.
    + exists hd, l0. split; [|done]. rewrite <- HL0. apply lookup_ready_insert_ne; [done|].
      intros ->. rewrite Hdet in HL0. injection HL0 as <-. by apply not_elem_of_nil in Hin.
  - intros y tdy [[-> ->]|[Hne Hy]]%Hts Hsy; [by rewrite Hst in Hsy|].
    rewrite HLs by done. by apply (so_detached _ _ Hk _ _ Hy).
  - intros y tdy [[-> ->]|[Hne Hy]]%Hts Hsy; [done|by apply (so_site _ _ Hk _ _ Hy)].
  - intros y tdy [[-> ->]|[Hne Hy]]%Hts Hsy; [by rewrite Hst in Hsy|by apply (so_running _ _ Hk _ _ Hy)].
  - intros y Hy%(so_current _ _ Hk). unfold ts'.
    destruct (decide (y = t)) as [->|]; [rewrite lookup_insert_eq; by eexists|by rewrite lookup_insert_ne].
  - eapply rv_ok_ext; [exact Hrv'|]. intros q. cbn beta. destruct (Z.eqb_spec q (cur_prio td)) as [->|Hq].
    + cbn. symmetry. eapply ready_nonempty_in; [exact HLp|]. apply elem_of_insert_nth. by left.
    + unfold ready_nonempty. by rewrite HLne.
Qed.

Lemma insert_frame h' rv' :
  same_links (SchedLink t) (links k) h' ->
  sched_frame k L (set_os_assign_read_vector rv' (set_links h' (set_tasks ts' k))) L'.
Proof.
  intros [Ha Hn]. split; [done|intros y; by apply same_but_stat_insert| |done|..].
  - intros y td1 td2. apply stat_insert; [done|done|by left].
  - intros y Hy. apply Hn. by intros ->.
  - intros y Hy. apply lookup_ready_insert_ne; by intros ->.
  - destruct (so_lists _ _ Hk (cur_prio td)) as [l HL]; [apply Hsite|].
    assert (L' = attach (ReadyVec (cur_prio td)) (insert_nth (policy_position ts' td' l) (SchedLink t) l) (SchedLink t) L)
      as -> by (unfold L', ready_insert; change (cur_prio td') with (cur_prio td); by rewrite HL).
    by apply new_members_attach.
Qed.

(** The interface applied to a state that satisfies the invariant. *)
Lemma wp_rv_insert (Q : unit -> kstate -> Prop) :
  (forall h' rv', sched_ok (set_os_assign_read_vector rv' (set_links h' (set_tasks ts' k))) L' ->
     sched_frame k L (set_os_assign_read_vector rv' (set_links h' (set_tasks ts' k))) L' ->
     Q tt (set_os_assign_read_vector rv' (set_links h' (set_tasks ts' k)))) ->
  wp (rv_insert t) Q k.
Proof.
  intros HQ. destruct (so_lists _ _ Hk (cur_prio td)) as [l HL]; [apply Hsite|].
  pose proof (so_rep _ _ Hk) as HR.
  eapply (rv_insert_law k L t td l (ready_nonempty L)); try done.
  - by eapply so_tasks_on.
  - by eapply detached_unlinked.
  - eapply rep_alloc; [done|exact Hdet|set_solver].
  - apply Hk.
  - intros h' rv' HR' Hsl Hrv'. apply HQ; [by apply sched_insert_ok|by apply insert_frame].
Qed.
End insert_task.

Section remove_task.
Context (k : kstate) (L : gmap link (list link)) (t : ptr) (td : TaskDescriptor) (s : Z) (cur : option ptr).
Hypothesis Hk : sched_ok k L.
Hypothesis Ht : tasks k !! t = Some td.
Hypothesis Hsite : site_ok td.
Hypothesis Hs : 0 <= s <= 7 /\ s <> KTASK_READY.
(** Who is RUNNING, and current, afterwards. *)
Hypothesis Hcur : (cur = os_running_task k \/ cur = Some t) /\
  forall y tdy, <[t := as_stat s td]> (tasks k) !! y = Some tdy -> stat_of tdy = KTASK_RUNNING -> cur = Some y.

Let td' := as_stat s td.
Let ts' := <[t := td']> (tasks k).
Let L' := detach (SchedLink t) L.

(** Only the list of its own priority can hold a task of the ready table. *)
Lemma other_lists p l : p <> cur_prio td -> L !! ReadyVec p = Some l -> SchedLink t ∉ l.
Proof.
  intros Hp HL Hin. destruct (so_ready _ _ Hk _ _ _ HL Hin) as (y & tdy & [= <-] & Hy & _ & E). congruence.
Qed.

Lemma lookup_removed p l : L !! ReadyVec p = Some l -> L' !! ReadyVec p = Some (without (SchedLink t) l).
Proof. intros HL. unfold L'. by rewrite lookup_detach_ne, HL. Qed.

Lemma sched_remove_ok h' rv' l :
  L !! ReadyVec (cur_prio td) = Some l -> rep h' L' ->
  rv_ok rv' (fun q => if q =? cur_prio td then negb (bool_decide (without (SchedLink t) l = []))
                      else ready_nonempty L q) ->
  sched_ok (set_os_running_task cur
              (set_tasks ts' (set_os_assign_read_vector rv' (set_links h' k)))) L'.
Proof.
  intros HL HR' Hrv'. destruct Hs as [Hs1 Hs2]. destruct Hcur as [Hcur1 Hcur2].
  assert (stat_of td' = s) as Hst by by apply stat_of_as_stat.
  assert (forall y tdy, ts' !! y = Some tdy -> (y = t /\ tdy = td') \/ (y <> t /\ tasks k !! y = Some tdy)) as Hts.
  { intros y tdy [[<- <-]|[? ?]]%lookup_insert_Some; [by left|by right]. }
  assert (forall y, SchedLink y <> SchedLink t -> y <> t) as Hyt by (intros y Hy ->; done).
  split; cbn [links tasks os_running_task os_assign_read_vector
              set_os_assign_read_vector set_links set_tasks set_os_running_task].
  - done.
  - intros p Hp. destruct (so_lists _ _ Hk p Hp) as [l0 HL0]. eexists. by apply lookup_removed.
  - intros p l0 x HL0 Hx. unfold L' in HL0. rewrite lookup_detach_ne in HL0 by done.
    destruct (L !! ReadyVec p) as [l1|] eqn:HL1; [|done]. injection HL0 as <-.
    apply elem_of_without in Hx as [Hxt Hx].
    destruct (so_ready _ _ Hk _ _ _ HL1 Hx) as (y & tdy & -> & Hy & ? & ?). exists y, tdy.
    unfold ts'. rewrite lookup_insert_ne; [done|congruence].
  - intros y tdy [[-> ->]|[Hne Hy]]%Hts Hsy; [congruence|].
    destruct (so_on_list _ _ Hk _ _ Hy Hsy) as (l0 & HL0 & Hin).
    eexists. split; [by apply lookup_removed|]. apply elem_of_without. split; [congruence|done].
  - intros y tdy [[-> ->]|[Hne Hy]]%Hts.
    { left. apply lookup_detach_eq. }
    destruct (so_linked _ _ Hk _ _ Hy) as [Hd|(hd & l0 & HL0 & Hin)].
    { left. unfold L'. by rewrite lookup_detach_ne, Hd by congruence. }
    destruct (decide (hd = SchedLink t)) as [->|E].
    { exfalso. destruct (so_linked _ _ Hk _ _ Ht) as [Hd'|(hd' & l1 & HL1 & Hin')].
      - rewrite HL0 in Hd'. injection Hd' as ->. by apply not_elem_of_nil in Hin.
      - assert (SchedLink t = hd') as <-
          by (apply (rep_disj _ _ (so_rep _ _ Hk) _ _ _ _ (SchedLink t) HL0 HL1); set_solver).
        by apply (rep_head_not_member _ _ _ _ (so_rep _ _ Hk) HL1). }
    right. exists hd, (without (SchedLink t) l0). unfold L'. rewrite lookup_detach_ne, HL0 by done.
    split; [done|]. apply elem_of_without. split; [congruence|done].
  - intros y tdy [[-> ->]|[Hne Hy]]%Hts Hsy; [apply lookup_detach_eq|].
    unfold L'. rewrite lookup_detach_ne by congruence. by rewrite (so_detached _ _ Hk _ _ Hy).
  - intros y tdy [[-> ->]|[Hne Hy]]%Hts Hsy; [done|by apply (so_site _ _ Hk _ _ Hy)].
  - intros y tdy Hy Hsy. by apply (Hcur2 _ _ Hy).
  - intros y Hy. unfold ts'. destruct (decide (y = t)) as [->|]; [rewrite lookup_insert_eq; by eexists|].
    rewrite lookup_insert_ne by done. apply (so_current _ _ Hk). destruct Hcur1; congruence.
  - eapply rv_ok_ext; [exact Hrv'|]. intros q. cbn beta. destruct (Z.eqb_spec q (cur_prio td)) as [->|Hq].
    + symmetry. apply ready_nonempty_eq. by apply lookup_removed.
    + unfold ready_nonempty, L'. rewrite lookup_detach_ne by done.
      destruct (L !! ReadyVec q) as [l0|] eqn:HL0; [|done]. cbn [fmap option_fmap option_map].
      by rewrite (without_not_in (SchedLink t) l0) by by apply (other_lists q).
Qed.

(** A task that is in no list but the ready table's. *)
Lemma remove_frame h' rv' :
  s = KTASK_RUNNING -> stat_of td = KTASK_READY \/ L !! SchedLink t = Some [] ->
  same_links (SchedLink t) (links k) h' ->
  sched_frame k L (set_os_running_task cur
     (set_tasks ts' (set_os_assign_read_vector rv' (set_links h' k)))) L'.
Proof.
  clear Hsite Hs Hcur DL CO. intros Er Hor [Ha Hn].
  split; [done|intros y; by apply same_but_stat_insert| |done|..].
  - intros y td1 td2. apply stat_insert; [done|by rewrite Er|by right].
  - intros y Hy. apply Hn. by intros ->.
  - intros y Hy. unfold L'. rewrite lookup_detach_ne by by intros ->.
    destruct (L !! y) as [l|] eqn:HL; [|done]. cbn. rewrite without_not_in; [done|]. intros Hin.
    assert (exists hd l', L !! hd = Some l' /\ SchedLink t ∈ hd :: l' /\ sched_link hd = true) as (hd & l' & HL' & Hin' & Hhd).
    { destruct Hor as [Hst|Hd]; [|exists (SchedLink t), []; split_and!; [done|set_solver|done]].
      destruct (so_on_list _ _ Hk _ _ Ht Hst) as (l' & HL' & Hin'). eexists _, l'. split_and!; [done|set_solver|done]. }
    assert (y = hd) as -> by (apply (rep_disj _ _ (so_rep _ _ Hk) _ _ _ _ (SchedLink t) HL HL'); set_solver).
    by rewrite Hy in Hhd.
  - apply new_members_detach.
Qed.

Lemma wp_rv_remove (Q : unit -> kstate -> Prop) :
  (forall h' rv', sched_ok (set_os_running_task cur
       (set_tasks ts' (set_os_assign_read_vector rv' (set_links h' k)))) L' ->
     same_links (SchedLink t) (links k) h' ->
     Q tt (set_os_assign_read_vector rv' (set_links h' k))) ->
  wp (rv_remove t) Q k.
Proof.
  intros HQ. destruct (so_lists _ _ Hk (cur_prio td)) as [l HL]; [apply Hsite|].
  eapply (rv_remove_law k L t td l (ready_nonempty L)); try done; try apply Hk.
  - by apply (so_linked _ _ Hk _ _ Ht).
  - by apply ready_nonempty_eq.
  - intros h' rv' HR' Hsl Hrv'. apply HQ; [|done]. by eapply sched_remove_ok.
Qed.
End remove_task.

(** ** Choosing and switching *)

Lemma sched_ok_fields k k' L :
  sched_ok k L -> links k' = links k -> tasks k' = tasks k ->
  os_assign_read_vector k' = os_assign_read_vector k -> os_running_task k' = os_running_task k ->
  sched_ok k' L.
Proof.
  intros Hk E1 E2 E3 E4. destruct Hk. split; rewrite ?E1, ?E2, ?E3, ?E4; done.
Qed.

(** No task in the READY state has a higher priority than [p]. *)
Definition no_ready_above (k : kstate) (p : Z) : Prop :=
  forall t td, tasks k !! t = Some td -> stat_of td = KTASK_READY -> cur_prio td <= p.

(** The current task is RUNNING and no READY task has a higher priority. *)
Definition runs_highest (k : kstate) : Prop :=
  exists t td, os_running_task k = Some t /\ tasks k !! t = Some td /\
    stat_of td = KTASK_RUNNING /\ no_ready_above k (cur_prio td).

Definition some_ready (k : kstate) : Prop :=
  exists t td, tasks k !! t = Some td /\ stat_of td = KTASK_READY.

Lemma so_no_ready_above k L : sched_ok k L -> no_ready_above k (highest_prio (os_assign_read_vector k)).
Proof.
  intros Hk t td Ht Hst. destruct (so_on_list _ _ Hk _ _ Ht Hst) as (l & HL & Hin).
  apply (rvo_max _ _ (so_rv _ _ Hk)). by eapply ready_nonempty_in.
Qed.

(** A set bit of the bitmap is a READY task. *)
Lemma ready_witness k L :
  sched_ok k L -> priority_ready_group (os_assign_read_vector k) <> 0 -> some_ready k.
Proof.
  intros Hk Hg. destruct (rvo_top _ _ (so_rv _ _ Hk)) as [Ht|[Hn _]].
  - unfold ready_nonempty in Ht. destruct (L !! ReadyVec _) as [[|x l]|] eqn:E; try done.
    destruct (so_ready _ _ Hk _ _ x E) as (t & td & _ & Htd & Hst & _); [set_solver|]. by exists t, td.
  - destruct Hg. by apply (rv_empty _ _ (rvo_shape _ _ (so_rv _ _ Hk))).
Qed.

Lemma so_bitmap k L :
  sched_ok k L -> (priority_ready_group (os_assign_read_vector k) = 0 <-> ~ some_ready k).
Proof.
  intros Hk. rewrite (rv_empty _ _ (rvo_shape _ _ (so_rv _ _ Hk))). split.
  - intros He (t & td & Ht & Hst). destruct (so_on_list _ _ Hk _ _ Ht Hst) as (l & HL & Hin).
    pose proof (ready_nonempty_in _ _ _ _ HL Hin). by rewrite He in *.
  - intros Hn p. unfold ready_nonempty. destruct (L !! ReadyVec p) as [[|x l]|] eqn:E; try done.
    exfalso. apply Hn. destruct (so_ready _ _ Hk _ _ x E) as (t & td & _ & Ht & Hst & _); [set_solver|].
    by exists t, td.
Qed.

Lemma wp_ChooseTaskWithHighestPrio k L (Q : option ptr -> kstate -> Prop) :
  sched_ok k L -> some_ready k ->
  (forall n td rest, L !! ReadyVec (cur_prio td) = Some (SchedLink n :: rest) ->
     tasks k !! n = Some td -> stat_of td = KTASK_READY ->
     highest_prio (os_assign_read_vector k) = cur_prio td -> Q (Some n) k) ->
  wp ChooseTaskWithHighestPrio Q k.
Proof.
  intros Hk (t & tdt & Ht & Hst) HQ. destruct (so_on_list _ _ Hk _ _ Ht Hst) as (lt & HLt & Hin).
  pose proof (ready_nonempty_in _ _ _ _ HLt Hin) as Hne.
  set (h := highest_prio (os_assign_read_vector k)).
  assert (ready_nonempty L h = true) as Hh.
  { destruct (rvo_top _ _ (so_rv _ _ Hk)) as [?|[He _]]; [done|]. by rewrite He in Hne. }
  unfold ready_nonempty in Hh. destruct (L !! ReadyVec h) as [[|x rest]|] eqn:HL; try done.
  destruct (so_ready _ _ Hk _ _ x HL) as (n & td & -> & Hn & Hsn & Ep); [set_solver|].
  unfold ChooseTaskWithHighestPrio. wp_steps. apply wp_rv_get. fold h. wp_steps. apply wp_klinks.
  pose proof (rep_first _ _ _ _ (so_rep _ _ Hk) HL) as Hf.
  apply wp_get_next; [by eapply alloc_nxt|]. rewrite Hf, set_links_id. wp_steps. cbn.
  apply (HQ n td rest); [by rewrite Ep|done|done|]. by rewrite Ep.
Qed.

(** Making a READY task the RUNNING one. *)
Lemma wp_run_task k L n td (m : M kstate unit) (Q : unit -> kstate -> Prop) :
  sched_ok k L -> tasks k !! n = Some td -> stat_of td = KTASK_READY ->
  (forall t tdt, tasks k !! t = Some tdt -> stat_of tdt <> KTASK_RUNNING) ->
  (m = RestoreCpusLockStatus n \/ m = mret tt /\ os_running_task k = Some n) ->
  (forall k' L', sched_ok k' L' -> sched_frame k L k' L' ->
     tasks k' = <[n := as_stat KTASK_RUNNING td]> (tasks k) ->
     os_running_task k' = Some n -> Q tt k') ->
  wp (rv_remove n;; KTaskStatSetAsRunning n;; m) Q k.
Proof.
  intros Hk Hn Hst Hnr Hm HQ. assert (site_ok td) as Hsite by (apply (so_site _ _ Hk _ _ Hn); by rewrite Hst).
  wp_steps. eapply (wp_rv_remove k L n td KTASK_RUNNING (Some n)); try done.
  { split; [by right|]. intros y tdy [[<- <-]|[? Hy]]%lookup_insert_Some Hs; [done|]. by destruct (Hnr _ _ Hy). }
  intros h' rv' Hk' Hsl. wp_steps. unfold KTaskStatSetAsRunning. eapply wp_KTaskStateSet; [exact Hn|].
  match type of Hk' with sched_ok ?k1 ?L1 => assert (sched_frame k L k1 L1) as Hfr end.
  { eapply remove_frame; try done. by left. }
  destruct Hm as [-> | [-> Hcur]].
  - unfold RestoreCpusLockStatus. wp_steps. by eapply HQ.
  - wp_steps. rewrite <- Hcur in Hk', Hfr. by eapply HQ.
Qed.

Lemma runs_highest_intro k k' n td :
  no_ready_above k (cur_prio td) -> tasks k' = <[n := as_stat KTASK_RUNNING td]> (tasks k) ->
  os_running_task k' = Some n -> runs_highest k'.
Proof.
  intros Habove Ets Hn. exists n, (as_stat KTASK_RUNNING td). rewrite Ets.
  split_and!; [done|apply lookup_insert_eq|by apply stat_of_as_stat|].
  intros y tdy Hy Hsy. rewrite Ets in Hy. apply lookup_insert_Some in Hy as [[<- <-]|[? Hy]]; [done|].
  by apply (Habove y tdy).
Qed.

(** Tasks that are neither READY nor RUNNING. *)
Definition bystanders_kept (k k' : kstate) : Prop := forall t td,
  tasks k !! t = Some td -> stat_of td <> KTASK_READY -> stat_of td <> KTASK_RUNNING -> tasks k' !! t = Some td.

Lemma bystanders_insert k k' n td s :
  tasks k !! n = Some td -> stat_of td = KTASK_READY ->
  tasks k' = <[n := as_stat s td]> (tasks k) -> bystanders_kept k k'.
Proof.
  intros Hn Hst Ets t tdt Ht Hr _. rewrite Ets, lookup_insert_ne; [done|]. intros ->. congruence.
Qed.

Definition is_switch (switch : ptr -> M kstate unit) : Prop := forall t, switch t = RestoreCpusLockStatus t.

Lemma wp_choose_and_switch switch k L c tdc (Q : unit -> kstate -> Prop) :
  is_switch switch -> sched_ok k L -> some_ready k ->
  os_running_task k = Some c -> tasks k !! c = Some tdc ->
  (stat_of tdc = KTASK_RUNNING -> no_ready_above k (cur_prio tdc - 1) -> Q tt k) ->
  (forall k' L' n tdn rest,
     (stat_of tdc = KTASK_RUNNING -> cur_prio tdc <= cur_prio tdn) ->
     tasks k !! n = Some tdn -> L !! ReadyVec (cur_prio tdn) = Some (SchedLink n :: rest) ->
     no_ready_above k (cur_prio tdn) -> bystanders_kept k k' ->
     sched_ok k' L' -> sched_frame k L k' L' -> runs_highest k' -> os_running_task k' = Some n -> Q tt k') ->
  wp (choose_and_switch switch) Q k.
Proof.
  intros Hsw Hk Hsome Hc Htc HQ1 HQ2. unfold choose_and_switch. wp_steps. apply wp_rv_get. wp_steps.
  pose proof (so_no_ready_above _ _ Hk) as Habove.
  apply (wp_ChooseTaskWithHighestPrio k L); [done|done|]. intros n td rest HL Hn Hsn Eh. rewrite Eh in *.
  wp_steps. rewrite Hc. wp_steps. eapply wp_null_check; [done|]. wp_steps.
  unfold JudgeKTaskStatIsRunning. eapply wp_task_get; [exact Htc|].
  destruct (Z.eqb_spec (stat_of tdc) KTASK_RUNNING) as [Hrun|Hrun]; cbn [negb].
  - assert (n <> c) as Hnc by (intros ->; rewrite Htc in Hn; injection Hn as ->; by rewrite Hrun in Hsn).
    wp_steps. eapply wp_task_get; [exact Htc|]. destruct (Z.ltb_spec (cur_prio td) (cur_prio tdc)).
    { apply wp_ret, HQ1; [done|]. intros y tdy Hy Hsy. specialize (Habove y tdy Hy Hsy). lia. }
    unfold do_switch. wp_steps. rewrite Hc, bool_decide_false by congruence. cbn [negb]. wp_steps.
    change (os_running_task (set_current_priority (u8 (cur_prio td)) k)) with (os_running_task k).
    rewrite Hc. eapply wp_null_check; [done|].
    set (k0 := set_current_priority (u8 (cur_prio td)) k).
    assert (sched_ok k0 L) as Hk0 by by apply (sched_ok_fields k).
    apply (wp_rv_insert k0 L c tdc); [done|exact Htc|by apply (so_detached _ _ Hk _ _ Htc)|
      apply (so_site _ _ Hk _ _ Htc); by rewrite Hrun|].
    intros h1 rv1 Hk1 Hfr1. wp_steps.
    match type of Hk1 with sched_ok ?k1' ?L1' => set (k1 := k1') in *; set (L1 := L1') in * end.
    assert (tasks k1 = <[c := as_stat KTASK_READY tdc]> (tasks k)) as Ets by done.
    assert (no_ready_above k1 (cur_prio td)) as Habove1.
    { intros y tdy Hy Hsy. rewrite Ets in Hy. apply lookup_insert_Some in Hy as [[<- <-]|[? Hy]]; [done|].
      by apply (Habove y tdy). }
    apply wp_unbind, (wp_run_task k1 L1 n td); [done|by rewrite Ets, lookup_insert_ne by done|done| |left; apply Hsw|].
    + intros y tdy Hy Hsy. rewrite Ets in Hy. apply lookup_insert_Some in Hy as [[<- <-]|[Hne Hy]].
      * rewrite stat_of_as_stat in Hsy by done. done.
      * apply (so_running _ _ Hk _ _ Hy) in Hsy. congruence.
    + intros k' L' Hk' Hfr' Ets' Hn'. eapply (HQ2 k' L' n td rest); try done.
      { intros y tdy Hy Hsy Hyr. rewrite Ets', Ets, !lookup_insert_ne by congruence. done. }
      { eapply sched_frame_trans; [|exact Hfr']. eapply sched_frame_trans; [|exact Hfr1].
        by apply sched_frame_fields. }
      by eapply runs_highest_intro.
  - assert (forall t tdt, tasks k !! t = Some tdt -> stat_of tdt <> KTASK_RUNNING) as Hnr.
    { intros y tdy Hy Hsy. pose proof (so_running _ _ Hk _ _ Hy Hsy). congruence. }
    unfold do_switch. wp_steps. rewrite Hc. case_bool_decide as E; cbn [negb].
    + injection E as ->. eapply wp_bind, wp_null_check; [done|]. 
      assert (wp (rv_remove c;; KTaskStatSetAsRunning c;; mret tt) Q k) as Hwp.
      { apply (wp_run_task k L c td); try done; [by right|].
        intros k' L' Hk' Hfr' Ets' Hn'. eapply (HQ2 k' L' c td rest); try done.
        - by eapply bystanders_insert.
        - by eapply runs_highest_intro. }
      unfold wp, mbind, M_bind in Hwp |- *. destruct (rv_remove c k); [|done..].
      destruct (KTaskStatSetAsRunning c s) as [[] ?| |]; done.
    + wp_steps. set (k0 := set_current_priority (u8 (cur_prio td)) k).
      apply wp_unbind, (wp_run_task k0 L n td); try done; [by apply (sched_ok_fields k)|left; apply Hsw|].
      intros k' L' Hk' Hfr' Ets' Hn'. eapply (HQ2 k' L' n td rest); try done.
      { by eapply (bystanders_insert k k' n td). }
      { eapply sched_frame_trans; [|exact Hfr']. by apply sched_frame_fields. }
      by eapply (runs_highest_intro k0).
Qed.

(** ** The entry points *)

(** The current task is among the tasks and may run, or another one may. *)
Definition can_run (k : kstate) : Prop :=
  some_ready k \/
  exists t td, os_running_task k = Some t /\ tasks k !! t = Some td /\ stat_of td = KTASK_RUNNING.

(** The task that runs next is the current one or the first of the list of its
    priority; tasks that could not run and did not are left alone. *)
Definition next_task (k : kstate) (L : gmap link (list link)) (k' : kstate) : Prop :=
  (os_running_task k' = os_running_task k \/
   exists n p rest, L !! ReadyVec p = Some (SchedLink n :: rest) /\ os_running_task k' = Some n) /\
  bystanders_kept k k'.

Lemma next_task_refl k L : next_task k L k.
Proof. split; [by left|by intros ?]. Qed.

Lemma wp_switch_if_needed switch k L c (Q : unit -> kstate -> Prop) :
  is_switch switch -> sched_ok k L -> os_running_task k = Some c -> can_run k ->
  (forall k' L', sched_ok k' L' -> sched_frame k L k' L' -> runs_highest k' -> next_task k L k' -> Q tt k') ->
  wp (empty ← JudgeAssignReadyBitmapIsEmpty;
      if (empty : bool) then mret tt else choose_and_switch switch) Q k.
Proof.
  intros Hsw Hk Hc Hrun HQ. unfold JudgeAssignReadyBitmapIsEmpty. wp_steps. apply wp_rv_get.
  destruct (so_current _ _ Hk c Hc) as [tdc Htc].
  destruct (Z.eqb_spec (priority_ready_group (os_assign_read_vector k)) 0) as [E|E].
  - apply (so_bitmap k L Hk) in E. apply wp_ret. apply (HQ k L); [done|apply sched_frame_refl| |apply next_task_refl].
    destruct Hrun as [?|(t & td & Ht & Htd & Hst)]; [done|]. exists t, td. split_and!; [done..|].
    intros y tdy Hy Hsy. destruct E. by exists y, tdy.
  - assert (some_ready k) as Hsome.
    { by eapply ready_witness. }
    apply (wp_choose_and_switch switch k L c tdc); try done.
    + intros Hst Habove. apply (HQ k L); [done|apply sched_frame_refl| |apply next_task_refl]. exists c, tdc. split_and!; [done..|].
      intros y tdy Hy Hsy. specialize (Habove y tdy Hy Hsy). lia.
    + intros k' L' n tdn rest _ Hn HL _ Hby Hk' Hfr' Hr Hn'. apply (HQ k' L'); [done..|]. split; [|done].
      right. by eexists _, _, _.
Qed.

Lemma switch_is_switch : is_switch SwitchKtaskContext.
Proof. done. Qed.
Lemma irq_switch_is_switch : is_switch HwInterruptcontextSwitch.
Proof. done. Qed.

Lemma wp_KTaskOsAssign k L c (Q : unit -> kstate -> Prop) :
  sched_ok k L -> os_running_task k = Some c -> can_run k ->
  KTaskOsAssignLockNest k = 0 -> isr_count k = 0 ->
  (forall k' L', sched_ok k' L' -> sched_frame k L k' L' -> runs_highest k' -> next_task k L k' -> Q tt k') ->
  wp KTaskOsAssign Q k.
Proof.
  intros Hk Hc Hrun Hlock Hisr HQ. unfold KTaskOsAssign, GetOsAssignLockLevel, IsInIsr. wp_steps.
  rewrite Hlock. change (1 <=? u16 0) with false. wp_steps. rewrite Hisr. cbn [negb Z.eqb].
  by apply (wp_switch_if_needed _ k L c).
Qed.

(** Rescheduling from a task or from an interrupt handler. *)
Lemma wp_DO_KTASK_ASSIGN k L c (Q : unit -> kstate -> Prop) :
  sched_ok k L -> os_running_task k = Some c -> can_run k -> KTaskOsAssignLockNest k = 0 ->
  (forall k' L', sched_ok k' L' -> sched_frame k L k' L' -> runs_highest k' -> next_task k L k' ->
     isr_count k = 0 -> Q tt k') ->
  (isr_count k <> 0 -> Q tt (set_isr_switch_trigger_flag 1 k)) ->
  wp DO_KTASK_ASSIGN Q k.
Proof.
  intros Hk Hc Hrun Hlock HQ Hisr. unfold DO_KTASK_ASSIGN, NOT_IN_CRITICAL_AREA, GetOsAssignLockLevel.
  wp_steps. rewrite Hlock. change (u16 0 =? 0) with true. wp_steps.
  unfold DISABLE_INTERRUPT, ENABLE_INTERRUPT. wp_steps.
  set (k0 := set_interrupts false k). assert (sched_ok k0 L) as Hk0 by by apply (sched_ok_fields k).
  assert (sched_frame k L k (L) ) as _ by apply sched_frame_refl.
  destruct (decide (isr_count k = 0)) as [E|E].
  - apply (wp_KTaskOsAssign k0 L c); try done. intros k' L' Hk' Hfr' Hr' Hn'. wp_steps.
    apply (HQ _ L'); [by apply (sched_ok_fields k')| |done|done|done].
    destruct Hfr' as [HR HT HS HA HN HF HM]. split; [|done..].
    change (rest (set_interrupts (interrupts k) k')) with (set_interrupts (interrupts k) (rest k')).
    by rewrite HR.
  - unfold KTaskOsAssign, GetOsAssignLockLevel, IsInIsr, SetIsrSwitchTrigerFlag. wp_steps.
    change (KTaskOsAssignLockNest k0) with (KTaskOsAssignLockNest k). rewrite Hlock.
    change (1 <=? u16 0) with false. wp_steps. change (isr_count k0) with (isr_count k).
    rewrite (proj2 (Z.eqb_neq _ _) E). cbn [negb]. wp_steps. by apply Hisr.
Qed.

(** C1: outside interrupt handlers and critical areas, [KTaskOsAssign] ends with
    the invariant of the scheduler kept, the current task in the RUNNING state
    and no READY task of a higher priority.  The task that runs is the one that
    ran before or the first of a ready list, and nothing but the scheduler's own
    data is changed. *)
Theorem KTaskOsAssign_runs_highest k L c :
  sched_ok k L -> os_running_task k = Some c -> can_run k ->
  KTaskOsAssignLockNest k = 0 -> isr_count k = 0 ->
  wp KTaskOsAssign (fun _ k' => exists L', sched_ok k' L' /\ sched_frame k L k' L' /\
                                runs_highest k' /\ next_task k L k') k.
Proof. intros. eapply wp_KTaskOsAssign; [done..|]. intros k' L' ? ? ? ?. by exists L'. Qed.

(** The scheduler never switches with the scheduler lock held, and from an
    interrupt handler it only records that a switch is due. *)
Theorem KTaskOsAssign_deferred k :
  (1 <= KTaskOsAssignLockNest k < 2 ^ 15 -> KTaskOsAssign k = Ret tt k) /\
  (KTaskOsAssignLockNest k = 0 -> isr_count k <> 0 ->
     KTaskOsAssign k = Ret tt (set_isr_switch_trigger_flag 1 k)).
Proof.
  unfold KTaskOsAssign, GetOsAssignLockLevel, IsInIsr, SetIsrSwitchTrigerFlag, mbind, M_bind, gets, modify.
  split.
  - intros Hn. rewrite u16_small by lia. by rewrite (proj2 (Z.leb_le 1 _)) by lia.
  - intros -> Hi. change (1 <=? u16 0) with false. cbn beta iota. by rewrite (proj2 (Z.eqb_neq _ _) Hi).
Qed.

(** Leaving an interrupt: a request is cleared and served. *)
Lemma wp_KTaskOsAssignDoIrqSwitch k L c (Q : unit -> kstate -> Prop) :
  sched_ok k L -> os_running_task k = Some c -> KTaskOsAssignLockNest k = 0 ->
  (isr_switch_trigger_flag k <> 0 -> can_run k) ->
  (forall k' L', sched_ok k' L' -> sched_frame (set_isr_switch_trigger_flag 0 k) L k' L' ->
     (isr_switch_trigger_flag k = 0 -> k' = k) -> (isr_switch_trigger_flag k <> 0 -> runs_highest k') ->
     next_task k L k' -> Q tt k') ->
  wp KTaskOsAssignDoIrqSwitch Q k.
Proof.
  intros Hk Hc Hlock Hrun HQ. unfold KTaskOsAssignDoIrqSwitch, GetOsAssignLockLevel,
    GetIsrSwitchTrigerFlag, ClearIsrSwitchTrigerFlag. wp_steps.
  rewrite Hlock. change (1 <=? u16 0) with false. wp_steps.
  set (k0 := set_isr_switch_trigger_flag 0 k) in *.
  destruct (Z.eqb_spec (isr_switch_trigger_flag k) 0) as [E|E].
  - wp_steps. apply (HQ k L); [done| |done|done|apply next_task_refl].
    apply sched_frame_fields; [|done..]. unfold k0. rewrite <- E. by destruct k.
  - wp_steps. fold k0. apply wp_unbind.
    assert (sched_ok k0 L) as Hk0 by by apply (sched_ok_fields k).
    apply (wp_switch_if_needed _ k0 L c); [done..|by apply Hrun|].
    intros k' L' Hk' Hfr' Hr Hn. by apply (HQ k' L').
Qed.

(** Leaving an interrupt performs the switch that a handler asked for: outside
    critical areas [KTaskOsAssignDoIrqSwitch] clears the request and ends with the
    highest READY task RUNNING. *)
Theorem KTaskOsAssignDoIrqSwitch_runs_highest k L c :
  sched_ok k L -> os_running_task k = Some c -> can_run k ->
  KTaskOsAssignLockNest k = 0 -> isr_switch_trigger_flag k <> 0 ->
  wp KTaskOsAssignDoIrqSwitch
     (fun _ k' => exists L', sched_ok k' L' /\ runs_highest k' /\ isr_switch_trigger_flag k' = 0) k.
Proof.
  intros Hk Hc Hrun Hlock Hflag. apply (wp_KTaskOsAssignDoIrqSwitch k L c); [done..|].
  intros k' L' Hk' Hfr' _ Hr _. exists L'. split_and!; [done|by apply Hr|].
  change (isr_switch_trigger_flag (rest k') = 0). by rewrite (fr_rest _ _ _ _ Hfr').
Qed.

(** The yielding task goes to the end of its list (or where its policy puts it)
    and the first task of the highest list runs. *)
Lemma wp_YieldOsAssign k L c tdc (Q : Z -> kstate -> Prop) :
  sched_ok k L -> os_running_task k = Some c -> tasks k !! c = Some tdc -> stat_of tdc = KTASK_RUNNING ->
  KTaskOsAssignLockNest k = 0 -> isr_count k = 0 ->
  (~ some_ready k -> Q (- ERROR) k) ->
  (forall k' L' n tdn rest, tasks k !! n = Some tdn -> stat_of tdn = KTASK_READY ->
     no_ready_above k (cur_prio tdn) -> L !! ReadyVec (cur_prio tdn) = Some (SchedLink n :: rest) ->
     sched_ok k' L' -> os_running_task k' = Some n ->
     tasks k' = <[n := as_stat KTASK_RUNNING tdn]> (<[c := as_stat KTASK_READY tdc]> (tasks k)) ->
     Q EOK k') ->
  wp YieldOsAssign Q k.
Proof.
  intros Hk Hc Htc Hst Hlock Hisr HQ1 HQ2.
  unfold YieldOsAssign, DISABLE_INTERRUPT, ENABLE_INTERRUPT, GetOsAssignLockLevel, IsInIsr,
    JudgeAssignReadyBitmapIsEmpty. wp_steps. cbn [KTaskOsAssignLockNest set_interrupts].
  rewrite Hlock. change (1 <=? u16 0) with false. wp_steps. cbn [isr_count set_interrupts].
  rewrite Hisr. cbn [negb Z.eqb]. wp_steps. apply wp_rv_get. cbn [os_assign_read_vector set_interrupts].
  destruct (Z.eqb_spec (priority_ready_group (os_assign_read_vector k)) 0) as [E|E].
  { wp_steps. apply HQ1. by apply (so_bitmap k L). }
  set (k0 := set_interrupts false k). assert (sched_ok k0 L) as Hk0 by by apply (sched_ok_fields k).
  wp_steps. apply wp_rv_get. wp_steps.
  apply (wp_ChooseTaskWithHighestPrio k0 L); [done|by eapply (ready_witness k)|].
  intros n td rest HL Hn Hsn Eh. wp_steps. change (os_running_task k0) with (os_running_task k). rewrite Hc.
  wp_steps. eapply wp_null_check; [done|]. wp_steps. unfold JudgeKTaskStatIsRunning.
  eapply wp_task_get; [exact Htc|]. rewrite Hst, Z.eqb_refl. wp_steps.
  assert (n <> c) as Hnc by (intros ->; change (tasks k !! c = Some td) in Hn; rewrite Htc in Hn; injection Hn as <-; by rewrite Hst in Hsn).
  apply (wp_rv_insert k0 L c tdc); [done|exact Htc|by apply (so_detached _ _ Hk _ _ Htc)|
    apply (so_site _ _ Hk _ _ Htc); by rewrite Hst|]. intros h1 rv1 Hk1 _.
  match type of Hk1 with sched_ok ?k1' ?L1' => set (k1 := k1') in *; set (L1 := L1') in * end.
  assert (tasks k1 = <[c := as_stat KTASK_READY tdc]> (tasks k)) as Ets by done.
  rewrite bool_decide_false by congruence. cbn [negb]. wp_steps. apply wp_unbind.
  set (k2 := set_current_priority _ k1).
  apply (wp_run_task k2 L1 n td).
  - by apply (sched_ok_fields k1).
  - change (tasks k1 !! n = Some td). by rewrite Ets, lookup_insert_ne.
  - done.
  - intros y tdy Hy Hsy. change (tasks k1 !! y = Some tdy) in Hy. rewrite Ets in Hy.
    apply lookup_insert_Some in Hy as [[<- <-]|[Hne Hy]].
    + by rewrite stat_of_as_stat in Hsy.
    + apply (so_running _ _ Hk _ _ Hy) in Hsy. congruence.
  - by left.
  - intros k' L' Hk' _ Ets' Hn'. wp_steps. eapply (HQ2 _ L' n td rest); try done.
    + pose proof (so_no_ready_above _ _ Hk) as Ha. change (os_assign_read_vector k0) with (os_assign_read_vector k) in Eh.
      by rewrite Eh in Ha.
    + by apply (sched_ok_fields k').
Qed.

(** [YieldOsAssign] always hands the processor over when some task is READY:
    it returns EOK, the yielding task is READY, and the first task of the highest
    ready list is RUNNING, also when its priority is lower than that of the task
    that yields; without a READY task it returns -ERROR and changes nothing. *)
Theorem YieldOsAssign_hands_over k L c tdc :
  sched_ok k L -> os_running_task k = Some c -> tasks k !! c = Some tdc -> stat_of tdc = KTASK_RUNNING ->
  KTaskOsAssignLockNest k = 0 -> isr_count k = 0 ->
  wp YieldOsAssign (fun ret k' =>
    (ret = - ERROR /\ k' = k /\ ~ some_ready k) \/
    (ret = EOK /\ exists L' n tdn rest, sched_ok k' L' /\ os_running_task k' = Some n /\
       tasks k !! n = Some tdn /\ no_ready_above k (cur_prio tdn) /\
       L !! ReadyVec (cur_prio tdn) = Some (SchedLink n :: rest) /\
       stat_of <$> tasks k' !! n = Some KTASK_RUNNING /\ stat_of <$> tasks k' !! c = Some KTASK_READY)) k.
Proof.
  intros Hk Hc Htc Hst Hlock Hisr. eapply wp_YieldOsAssign; [done..| |].
  - intros Hn. by left.
  - intros k' L' n tdn rest Hn Hsn Ha HL Hk' Hn' Ets. right. split; [done|].
    assert (n <> c) by (intros ->; rewrite Htc in Hn; injection Hn as <-; by rewrite Hst in Hsn).
    exists L', n, tdn, rest. rewrite Ets. split_and!; try done.
    + rewrite lookup_insert_eq. cbn. by rewrite stat_of_as_stat.
    + rewrite lookup_insert_ne, lookup_insert_eq by done. cbn. by rewrite stat_of_as_stat.
Qed.

(** [StartupOsAssign] makes the first task of the highest ready list the
    current, RUNNING task. *)
Theorem StartupOsAssign_runs_highest k L :
  sched_ok k L -> some_ready k -> os_running_task k = None ->
  wp StartupOsAssign (fun _ k' => exists L', sched_ok k' L' /\ runs_highest k') k.
Proof.
  intros Hk Hsome Hnone. pose proof (so_no_ready_above _ _ Hk) as Habove.
  unfold StartupOsAssign. wp_steps. apply (wp_ChooseTaskWithHighestPrio k L); [done|done|].
  intros n td rest HL Hn Hsn Eh. rewrite Eh in Habove. wp_steps. unfold SwitchToFirstRunningTask. wp_steps.
  set (k0 := set_os_running_task (Some n) k).
  assert (forall t tdt, tasks k !! t = Some tdt -> stat_of tdt <> KTASK_RUNNING) as Hnr.
  { intros t tdt Ht Hst. pose proof (so_running _ _ Hk _ _ Ht Hst). congruence. }
  assert (sched_ok k0 L) as Hk0.
  { destruct Hk. split; cbn [links tasks os_assign_read_vector os_running_task k0 set_os_running_task]; try done.
    - intros t tdt Ht Hst. by destruct (Hnr t tdt Ht).
    - intros t [= <-]. by eexists. }
  apply wp_unbind, (wp_run_task k0 L n td); [done..|by left|].
  intros k' L' Hk' _ Ets Hn'. exists L'. split; [done|]. by eapply (runs_highest_intro k0).
Qed.

End Assign.

(** Initialising the scheduler of a kernel without tasks establishes its
    invariant, whatever the ready table and the lock count held before. *)
Theorem SysInitOsAssign_ok {C : KConfig} {CO : KConfigOk C} k L :
  rep (links k) L -> tasks k = ∅ -> os_running_task k = None ->
  (forall p, 0 <= p < KTASK_PRIORITY_MAX -> unlinked L (ReadyVec p) /\ alloc (links k) (ReadyVec p)) ->
  (forall p l, L !! ReadyVec p = Some l -> l = []) ->
  wp SysInitOsAssign (fun _ k' => exists L', sched_ok k' L' /\ KTaskOsAssignLockNest k' = 0) k.
Proof.
  intros HR Hts Hcur Hp Hl0. pose proof cfg_prio as Hcfg. unfold SysInitOsAssign, rv_init,
    SingleReadyVectorDone, OsAssignReadyVectorInit, ResetCriticalAreaLock. wp_steps.
  apply (wp_init_lists _ _ k L); [done|intros p ?; apply Hp; lia|]. intros h' HR' Ha'. wp_steps.
  assert (forall k', rv_ok (os_assign_read_vector k') (fun _ => false) -> links k' = h' -> tasks k' = ∅ ->
    os_running_task k' = None -> sched_ok k' (add_lists (Z.to_nat KTASK_PRIORITY_MAX) 0 L)) as Hok.
  { intros k' Hrv El Et Ec. split; rewrite ?El, ?Et, ?Ec; try (intros *; by rewrite lookup_empty); try done.
    - intros p Hpr. rewrite lookup_add_lists.
      rewrite (proj2 (Z.leb_le 0 p)), (proj2 (Z.ltb_lt p _)) by lia. by eexists.
    - intros p l x HL Hx. exfalso. rewrite lookup_add_lists in HL. destruct (_ && _).
      + injection HL as <-. by apply not_elem_of_nil in Hx.
      + apply Hl0 in HL. subst. by apply not_elem_of_nil in Hx.
    - eapply rv_ok_ext; [exact Hrv|]. intros q. unfold ready_nonempty. rewrite lookup_add_lists.
      destruct (_ && _); [done|]. destruct (L !! ReadyVec q) as [[|]|] eqn:E; try done. by apply Hl0 in E. }
  apply wp_rv_set. wp_steps. apply wp_rv_set. wp_steps. pose proof rv_ok_empty as Hem.
  destruct two_level eqn:E.
  - apply wp_rv_set. wp_steps. eexists. split; [by apply Hok|done].
  - wp_steps. eexists. split; [apply Hok; try done|done]. cbn.
    eapply rv_ok_single; [done|exact Hem|done|done].
Qed.
