(* ===== verification/Delay.v ===== *)
(** * Ticks and task delays

    The conversions and the counter of kernel/thread/tick.c and the delay list
    of kernel/thread/delay.c (its expiry, [CheckTaskDelay], is in Task.v).  A
    [Delay] belongs to one task; while it is active it is linked into
    [xiaoshan_delay_head], which is kept in the order of the deadlines. *)

From S2P Require Import Prelude DoubleLink IdManager Kernel ReadyVector.

Section Delay.
Context `{C : KConfig}.

(** ** tick.c *)

Definition CurrentTicksGain : M kstate Z := gets (fun k => heartbeat_ticks k).

Definition UPDATE_GLOBAL_HEARTBEAT : M kstate unit :=
  modify (fun k => set_heartbeat_ticks (u32 (heartbeat_ticks k + 1)) k).

Definition MIN_TICKS : Z := 1.

(** [ms * TICK_PER_SECOND] is computed in 32 bits before it is widened. *)
Definition CalculteTickFromTimeMs (ms : Z) : Z :=
  let product := u32 (ms * TICK_PER_SECOND) in
  let ticks := u32 (product / 1000) in
  if ticks =? 0 then MIN_TICKS
  else
    let tmp := u32 (product mod 1000) in
    if (5 <=? tmp) && (tmp <=? 9) then u32 (ticks + MIN_TICKS) else ticks.

Definition CalculteTimeMsFromTick (ticks : Z) : Z := u32 (u32 (ticks * 1000) / TICK_PER_SECOND).

(** ** delay.c *)

Definition TASK_DELAY_INACTIVE : Z := 0.
Definition TASK_DELAY_ACTIVE : Z := 1.

(** The break test of the walk: [delay->ticks < dnode->ticks]. *)
Definition earlier (d : ptr) (node : link) : M kstate bool :=
  dnode ← deref (obj_entry CDelay node);
  mine ← delay_get d delay_ticks;
  its ← delay_get dnode delay_ticks;
  mret (mine <? its).

(** The end of [KTaskSetDelay]: the delay gets its deadline and its place in the list. *)
Definition start_delay (d task : ptr) (ticks : Z) : M kstate Z :=
  now ← CurrentTicksGain;
  delay_set d (set_delay_ticks (u32 (now + ticks)));;
  delay_set d (set_delay_task task);;
  delay_set d (set_delay_status TASK_DELAY_ACTIVE);;
  lock ← CriticalAreaLock;
  nx ← klinks (get_next (ListHead CDelay));
  first ← deref nx;
  k ← get;
  nodelink ← for_each_until (fun x => klinks (get_next x)) (earlier d)
               (S (size (links k))) (ListHead CDelay) first;
  klinks (DoubleLinkListInsertNodeBefore nodelink (ObjLink CDelay d));;
  CriticalAreaUnLock lock;;
  mret EOK.

(** [mem] is what [x_malloc] returns when the task has no [Delay] yet.  The zeroed
    [task] field of the new [Delay], which nothing reads before [start_delay]
    sets it, is given its value at once. *)
Definition KTaskSetDelay (mem : option ptr) (task : ptr) (ticks : Z) : M kstate Z :=
  old ← task_get task delay;
  d ← match old with
      | None =>
          match mem with
          | None => mret None
          | Some d =>
              modify (fun k => set_delays (<[d := mkDelay task 0 TASK_DELAY_INACTIVE]> (delays k))
                                 (set_links (<[ObjLink CDelay d := mkNode None None]> (links k)) k));;
              task_set task (set_delay (Some d));;
              mret (Some d)
          end
      | Some d =>
          lock ← CriticalAreaLock;
          status ← delay_get d delay_status;
          (if status =? TASK_DELAY_ACTIVE then
             delay_set d (set_delay_status TASK_DELAY_INACTIVE);;
             klinks (DoubleLinkListRmNode (ObjLink CDelay d))
           else mret tt);;
          CriticalAreaUnLock lock;;
          mret (Some d)
      end;
  match d with
  | None => mret (- ENOMEMORY)
  | Some d => start_delay d task ticks
  end.

Definition KTaskUnSetDelay (task : ptr) : M kstate Z :=
  od ← task_get task delay;
  match od with
  | None => mret EOK
  | Some d =>
      status ← delay_get d delay_status;
      if status =? TASK_DELAY_ACTIVE then
        lock ← CriticalAreaLock;
        delay_set d (set_delay_status TASK_DELAY_INACTIVE);;
        klinks (DoubleLinkListRmNode (ObjLink CDelay d));;
        CriticalAreaUnLock lock;;
        mret EOK
      else mret EOK
  end.

(** ** The conversion *)

Lemma CalculteTickFromTimeMs_range ms : 1 <= CalculteTickFromTimeMs ms <= 4294968.
Proof.
  unfold CalculteTickFromTimeMs, MIN_TICKS. cbv zeta. set (p := u32 (ms * TICK_PER_SECOND)).
  assert (0 <= p < 2 ^ 32) as Hp by (apply Z.mod_pos_bound; lia).
  assert (0 <= p / 1000 <= 4294967) as Hq.
  { pose proof (Z.div_pos p 1000). pose proof (Z.div_lt_upper_bound p 1000 4294968). lia. }
  rewrite (u32_small (p / 1000)), (u32_small (p / 1000 + 1)) by lia.
  destruct (Z.eqb_spec (p / 1000) 0); [lia|]. destruct (_ && _); lia.
Qed.

Lemma CalculteTickFromTimeMs_int32 ms :
  1 <= CalculteTickFromTimeMs ms <= 4294968 /\ s32 (CalculteTickFromTimeMs ms) = CalculteTickFromTimeMs ms.
Proof. pose proof (CalculteTickFromTimeMs_range ms). split; [done|apply s32_small; lia]. Qed.

(** C40: whatever the argument, also 0 and [WAITING_FOREVER] (the largest 32-bit
    number), the result is a positive number of ticks that stays positive as an
    [int32]; when [ms * TICK_PER_SECOND] fits into 32 bits it is the truncated
    quotient, at least one tick, plus one tick when the remainder is 5 to 9. *)
Theorem CalculteTickFromTimeMs_bounds {CO : KConfigOk C} ms :
  1 <= CalculteTickFromTimeMs ms <= 4294968 /\ s32 (CalculteTickFromTimeMs ms) = CalculteTickFromTimeMs ms /\
  (0 <= ms * TICK_PER_SECOND < 2 ^ 32 ->
   let q := ms * TICK_PER_SECOND / 1000 in
   let r := (ms * TICK_PER_SECOND) mod 1000 in
   CalculteTickFromTimeMs ms = if q =? 0 then 1 else if (5 <=? r) && (r <=? 9) then q + 1 else q).
Proof.
  destruct (CalculteTickFromTimeMs_int32 ms) as [Hb Hs]. split; [exact Hb|]. split; [exact Hs|].
  intros Hr. unfold CalculteTickFromTimeMs, MIN_TICKS. cbv zeta. rewrite (u32_small (ms * TICK_PER_SECOND)) by done.
  set (p := ms * TICK_PER_SECOND) in *. pose proof (Z.mod_pos_bound p 1000 ltac:(lia)).
  pose proof (Z.div_pos p 1000). pose proof (Z.div_lt_upper_bound p 1000 4294968).
  by rewrite (u32_small (p / 1000)), (u32_small (p mod 1000)), (u32_small (p / 1000 + 1)) by lia.
Qed.

End Delay.
