(* ===== verification/Task.v ===== *)
(** * Tasks: kernel/thread/ktask.c, zombierecycle.c and the expiry of delays

    The identifier-based entry points look the task up in [k_task_id_manager]
    and call the operation of its [Done] table; all tasks share the table of
    this file.  A function that gives up the processor in the middle is split
    there: it returns [None] when it has reached [DO_KTASK_ASSIGN], and the
    [_resume] definition is what it does when the task is scheduled again.
    Results of memory allocations are parameters. *)

From S2P Require Import Prelude DoubleLink IdManager Bitmap Kernel ReadyVector Assign Delay.

Section Task.
Context `{C : KConfig} `{D : PriorityReadyVectorDone}.

(** [GetKTaskDescriptor] *)
Definition GetKTaskDescriptor : M kstate (option ptr) :=
  lock ← CriticalAreaLock;
  task ← gets (fun k => os_running_task k);
  CriticalAreaUnLock lock;;
  mret task.

(** [KDEBUG_IN_KTASK_CONTEXT] *)
Definition KDEBUG_IN_KTASK_CONTEXT : M kstate unit :=
  level ← DISABLE_INTERRUPT;
  task ← GetKTaskDescriptor;
  CHECK (bool_decide (is_Some task));;
  KDEBUG_NOT_IN_INTERRUPT;;
  ENABLE_INTERRUPT level.

(** ** Identifiers *)

Definition KTaskIdDelete (id : Z) : M kstate unit := kid CTask (IdRemoveObj (Bucket CTask) (u16 id)).

Definition GetTaskWithIdnodeInfo (id : Z) : M kstate (option ptr) :=
  if id <? 0 then mret None
  else
    lock ← CriticalAreaLock;
    idnode ← kid CTask (IdGetObj (Bucket CTask) (u16 id));
    CriticalAreaUnLock lock;;
    match idnode with
    | None => mret None
    | Some a => task ← deref (id_entry CTask a); mret (Some task)
    end.

(** The walk of [KTaskSearch]. *)
Definition name_matches (nm : string) (node : link) : M kstate bool :=
  t ← deref (obj_entry CTask node);
  n ← task_get t name;
  mret (strncmp_eq (Z.to_nat NAME_NUM_MAX) n nm).

Definition KTaskSearch (nm : string) : M kstate (option ptr) :=
  lock ← CriticalAreaLock;
  nx ← klinks (get_next (ListHead CTask));
  first ← deref nx;
  k ← get;
  node ← for_each_until (fun x => klinks (get_next x)) (name_matches nm)
           (S (size (links k))) (ListHead CTask) first;
  CriticalAreaUnLock lock;;
  mret (obj_entry CTask node).

(** ** Suspending and waking *)

Definition _SuspendKTask (task : ptr) : M kstate Z :=
  cur ← GetKTaskDescriptor;
  if negb (bool_decide (cur = Some task)) then mret (- ERROR)
  else
    ready ← JudgeKTaskStatIsReady task;
    running ← JudgeKTaskStatIsRunning task;
    if negb ready && negb running then mret (- ERROR)
    else
      suspended ← JudgeKTaskStatIsSuspend task;
      if (suspended : bool) then mret (- ERROR)
      else
        lock ← CriticalAreaLock;
        rv_remove task;;
        KTaskStateSet task KTASK_SUSPEND;;
        KTaskUnSetDelay task;;
        CriticalAreaUnLock lock;;
        mret EOK.

Definition _KTaskWakeup (task : ptr) : M kstate Z :=
  suspended ← JudgeKTaskStatIsSuspend task;
  if negb suspended then mret (- ERROR)
  else
    lock ← CriticalAreaLock;
    klinks (DoubleLinkListRmNode (SchedLink task));;
    KTaskUnSetDelay task;;
    rv_insert task;;
    CriticalAreaUnLock lock;;
    mret EOK.

Definition SuspendKTask (id : Z) : M kstate Z :=
  task ← GetTaskWithIdnodeInfo id; task ← NULL_PARAM_CHECK task; _SuspendKTask task.

Definition KTaskWakeup (id : Z) : M kstate Z :=
  task ← GetTaskWithIdnodeInfo id; task ← NULL_PARAM_CHECK task; _KTaskWakeup task.

(** [task->id.id] *)
Definition task_id (task : ptr) : M kstate Z :=
  k ← get; deref (node_ids k !! IdLink CTask task).

(** ** Delays *)

Definition _DelayKTask (mem : option ptr) (task : ptr) (ticks : Z) : M kstate (option Z) :=
  if ticks =? 0 then mret (Some (- EINVALED))
  else
    lock ← CriticalAreaLock;
    id ← task_id task;
    SuspendKTask id;;
    KTaskSetDelay mem task ticks;;
    CriticalAreaUnLock lock;;
    DO_KTASK_ASSIGN;;
    mret None.

Definition _DelayKTask_resume (task : ptr) : M kstate Z :=
  st ← task_get task exstatus;
  (if st =? - ETIMEOUT then task_set task (set_exstatus EOK) else mret tt);;
  mret EOK.

Definition _MdelayKTask (mem : option ptr) (task : ptr) (ms : Z) : M kstate (option Z) :=
  if ms =? 0 then mret (Some (- EINVALED))
  else _DelayKTask mem task (CalculteTickFromTimeMs ms).

Definition DelayKTask (mem : option ptr) (ticks : Z) : M kstate (option Z) :=
  if ticks =? 0 then mret (Some (- EINVALED))
  else
    task ← GetKTaskDescriptor;
    match task with
    | None => mret (Some (- EEMPTY))
    | Some task => _DelayKTask mem task ticks
    end.

Definition MdelayKTask (mem : option ptr) (ms : Z) : M kstate (option Z) :=
  if ms =? 0 then mret (Some (- EINVALED))
  else
    task ← GetKTaskDescriptor;
    match task with
    | None => mret (Some (- EEMPTY))
    | Some task => _MdelayKTask mem task ms
    end.

Definition KTaskTimeout (parameter : ptr) : M kstate unit :=
  lock ← CriticalAreaLock;
  let task := parameter in
  suspended ← JudgeKTaskStatIsSuspend task;
  if (suspended : bool) then
    task_set task (set_exstatus (- ETIMEOUT));;
    klinks (DoubleLinkListRmNode (SchedLink task));;
    rv_insert task;;
    CriticalAreaUnLock lock;;
    DO_KTASK_ASSIGN
  else CriticalAreaUnLock lock.

(** delay.c: [CheckTaskDelay]; one step of fuel per turn of its loop. *)
Fixpoint check_delays (fuel : nat) (level : bool) (current_tick : Z) : M kstate bool :=
  match fuel with
  | O => hang
  | S fuel =>
      empty ← klinks (IsDoubleLinkListEmpty (ListHead CDelay));
      if (empty : bool) then mret level
      else
        nx ← klinks (get_next (ListHead CDelay));
        node ← deref (nx ≫= obj_entry CDelay);
        ticks ← delay_get node delay_ticks;
        if u32 (current_tick - ticks) <? TICK_SIZE_MAX / 2 then
          current_tick ← CurrentTicksGain;
          task ← delay_get node delay_task;
          KTaskUnSetDelay task;;
          CriticalAreaUnLock level;;
          task ← delay_get node delay_task;
          KTaskTimeout task;;
          level ← CriticalAreaLock;
          check_delays fuel level current_tick
        else mret level
  end.

Definition CheckTaskDelay : M kstate unit :=
  current_tick ← CurrentTicksGain;
  level ← CriticalAreaLock;
  k ← get;
  level ← check_delays (S (size (links k))) level current_tick;
  CriticalAreaUnLock level.

(** ** tick.c: the tick interrupt *)

Definition RoundRobinTaskTimesliceUpdate (task : option ptr) : M kstate unit :=
  task ← NULL_PARAM_CHECK task;
  task_set task (fun td => set_rest_timeslice (u32 (rest_timeslice td - 1)) td);;
  rest ← task_get task rest_timeslice;
  if rest =? 0 then
    task_set task (fun td => set_rest_timeslice (origin_timeslice td) td);;
    DO_KTASK_ASSIGN
  else mret tt.

Definition RoundRobinRemainTaskTimesliceUpdate (task : option ptr) : M kstate unit :=
  task ← NULL_PARAM_CHECK task;
  task_set task (fun td => set_rest_timeslice (u32 (rest_timeslice td - 1)) td);;
  rest ← task_get task rest_timeslice;
  if rest =? 0 then
    adv ← task_get task advance_cnt;
    (if adv <? KTASK_MAX_ADVANCE_PROCESS_TIME
     then task_set task (fun td => set_advance_cnt (u8 (advance_cnt td + 1)) td) else mret tt);;
    task_set task (fun td => set_rest_timeslice (origin_timeslice td) td);;
    DO_KTASK_ASSIGN
  else mret tt.

Definition FifoTaskTimesliceUpdate : M kstate unit := mret tt.

(** The tick interrupt without soft timers and without the network stack. *)
Definition TickAndTaskTimesliceUpdate : M kstate unit :=
  UPDATE_GLOBAL_HEARTBEAT;;
  match sched_policy with
  | SCHED_POLICY_FIFO => FifoTaskTimesliceUpdate
  | SCHED_POLICY_RR => task ← GetKTaskDescriptor; RoundRobinTaskTimesliceUpdate task
  | SCHED_POLICY_RR_REMAINSLICE => task ← GetKTaskDescriptor; RoundRobinRemainTaskTimesliceUpdate task
  end;;
  CheckTaskDelay.

(** ** Priorities *)

Definition is_idle (nm : string) : bool := String.prefix "ktaskidle" nm.

Definition _KTaskPrioSet (task : ptr) (prio : Z) : M kstate Z :=
  lock ← CriticalAreaLock;
  nm ← task_get task name;
  if is_idle nm then CriticalAreaUnLock lock;; mret (- ERROR)
  else
    task_stat ← KTaskStatGet task;
    ret ← (if task_stat =? KTASK_READY then
             task_set task (set_cur_prio prio);;
             rv_remove task;;
             __BitmapSiteMask task;;
             rv_insert task;;
             mret EOK
           else if (task_stat =? KTASK_INIT) || (task_stat =? KTASK_SUSPEND) || (task_stat =? KTASK_RUNNING) then
             task_set task (set_cur_prio prio);;
             __BitmapSiteMask task;;
             mret EOK
           else if task_stat =? KTASK_CLOSE then mret EOK
           else mret (- EINVALED));
    CriticalAreaUnLock lock;;
    mret ret.

Definition KTaskPrioSet (id prio : Z) : M kstate Z :=
  task ← GetTaskWithIdnodeInfo id; task ← NULL_PARAM_CHECK task; _KTaskPrioSet task prio.

(** ** Exception status *)

Definition KUpdateExstatus (status : Z) : M kstate unit :=
  if (status <? EOK) || (INVALID_TASK_ERROR <=? status) then mret tt
  else
    n ← GetIsrCounter;
    if n =? 0 then
      CurrentTask ← GetKTaskDescriptor;
      match CurrentTask with
      | Some t => task_set t (set_exstatus (- status))
      | None => modify (set_exstatus_global (- status))
      end
    else modify (set_exstatus_global (- status)).

(** [KObtainExstatus] returns the place of the status; here, its value. *)
Definition KObtainExstatus : M kstate Z :=
  n ← GetIsrCounter;
  if n =? 0 then
    CurrentTask ← GetKTaskDescriptor;
    match CurrentTask with
    | Some t => task_get t exstatus
    | None => gets (fun k => exstatus_global k)
    end
  else gets (fun k => exstatus_global k).

(** ** The life of a task *)

Definition __JudgeKTaskIsIdleOrZombierecycle (task : ptr) : M kstate bool :=
  task_get task (fun td => String.prefix "ktaskidle0" (name td) || String.prefix "ktaskidle1" (name td) ||
                           String.prefix "ZombieRecycleKTask" (name td)).

Definition _KTaskResourceDelete (task : ptr) : M kstate unit :=
  rv_remove task;; KTaskStatSetAsClose task.

Definition JudgeZombieKTaskIsNotEmpty : M kstate bool :=
  b ← klinks (IsDoubleLinkListEmpty ZombieHead); mret (negb b).

(** Close a task, hand it to the recycler and wake that. *)
Definition retire (task : ptr) : M kstate unit :=
  _KTaskResourceDelete task;;
  klinks (DoubleLinkListInsertNodeAfter ZombieHead (SchedLink task));;
  some ← JudgeZombieKTaskIsNotEmpty;
  if (some : bool) then zid ← gets (fun k => zombie_recycle k); KTaskWakeup zid;; mret tt else mret tt.

Definition KTaskQuit : M kstate unit :=
  lock ← CriticalAreaLock;
  task ← GetKTaskDescriptor;
  match task with
  | Some task => retire task
  | None => mret tt
  end;;
  CriticalAreaUnLock lock;;
  DO_KTASK_ASSIGN.

Definition _DeleteKTask (task : ptr) : M kstate Z :=
  special ← __JudgeKTaskIsIdleOrZombierecycle task;
  if (special : bool) then mret (- EINVALED)
  else
    lock ← CriticalAreaLock;
    retire task;;
    CriticalAreaUnLock lock;;
    DO_KTASK_ASSIGN;;
    mret EOK.

Definition _StartupKTask (task : ptr) : M kstate Z :=
  lock ← CriticalAreaLock;
  init ← JudgeKTaskStatIsInit task;
  if negb init then CriticalAreaUnLock lock;; mret (- ERROR)
  else
    task_set task (fun td => set_cur_prio (origin_prio td) td);;
    __BitmapSiteMask task;;
    klinks (DoubleLinkListRmNode (SchedLink task));;
    KTaskUnSetDelay task;;
    rv_insert task;;
    CriticalAreaUnLock lock;;
    cur ← GetKTaskDescriptor;
    match cur with
    | Some _ => DO_KTASK_ASSIGN
    | None => mret tt
    end;;
    mret EOK.

Definition StartupKTask (id : Z) : M kstate Z :=
  if id <? 0 then mret (- EINVALED)
  else task ← GetTaskWithIdnodeInfo id; task ← NULL_PARAM_CHECK task; _StartupKTask task.

Definition KTaskDelete (id : Z) : M kstate Z :=
  if id <? 0 then mret (- EINVALED)
  else task ← GetTaskWithIdnodeInfo id; task ← NULL_PARAM_CHECK task; _DeleteKTask task.

(** [stack] is what [KERNEL_MALLOC(stack_depth)] returns; filling the stack and
    [KTaskStackSetup] write only to that block. *)
Definition _KTaskBaseInfoParse (stack : option Z) (task : ptr) (nm : option string) (entry : option Z)
    (parameter stack_size priority : Z) : M kstate Z :=
  nm ← NULL_PARAM_CHECK nm;
  entry ← NULL_PARAM_CHECK entry;
  if KTASK_PRIORITY_MAX <=? priority then mret (- EINVALED)
  else
    b ← malloc_block stack;
    task_set task (set_stack_start b);;
    match b with
    | None => mret (- ENOMEMORY)
    | Some _ =>
        task_set task (set_stack_depth stack_size);;
        task_set task (set_name (String.substring 0 (Z.to_nat NAME_NUM_MAX) nm));;
        task_set task (set_func_entry (Some entry));;
        task_set task (set_func_param parameter);;
        task_set task (set_origin_prio priority);;
        mret EOK
    end.

Definition _KTaskDyncMemberInit (task : ptr) : M kstate unit :=
  klinks (InitDoubleLinkList (SchedLink task));;
  task_set task (fun td => set_cur_prio (origin_prio td) td);;
  task_set task (set_bitmap_column 0);;
  (if two_level then task_set task (set_bitmap_offset 0);; task_set task (set_bitmap_row 0) else mret tt);;
  match sched_policy with
  | SCHED_POLICY_FIFO => FifoTaskTimesliceInit task
  | SCHED_POLICY_RR => RoundRobinTaskTimesliceInit task
  | SCHED_POLICY_RR_REMAINSLICE => RoundRobinRemainTaskTimesliceInit task
  end;;
  task_set task (set_advance_cnt 0);;
  task_set task (set_exstatus EOK);;
  KTaskStatSetAsInit task.

Definition _InitKTask (stack : option Z) (task : ptr) (nm : option string) (entry : option Z)
    (parameter stack_size priority : Z) : M kstate Z :=
  ret ← _KTaskBaseInfoParse stack task nm entry parameter stack_size priority;
  if ret <? 0 then mret (- ERROR)
  else _KTaskDyncMemberInit task;; mret EOK.

(** A descriptor filled with zero bytes. *)
Definition zero_task : TaskDescriptor := mkTask "" None 0 0 0 None 0 0 0 0 0 0 0 0 None 0 0 0.

Definition task_links (t : ptr) : list link := [SchedLink t; ObjLink CTask t; IdLink CTask t].

Definition zero_links (xs : list link) (k : kstate) : kstate :=
  set_links (foldr (fun x => <[x := mkNode None None]>) (links k) xs) k.
Definition drop_links (xs : list link) (k : kstate) : kstate :=
  set_links (foldr (fun x => delete x) (links k) xs) k.

(** [KERNEL_MALLOC] and [memset] of a descriptor at [t]; [KERNEL_FREE] of it:
    a later access to the descriptor or to its links faults. *)
Definition new_task (t : ptr) : M kstate unit :=
  modify (fun k => set_tasks (<[t := zero_task]> (tasks k)) (zero_links (task_links t) k));;
  modify (fun k => set_node_ids (<[IdLink CTask t := 0]> (node_ids k)) k).
Definition free_task (t : ptr) : M kstate unit :=
  k ← get;
  deref (tasks k !! t);;
  modify (fun k => set_tasks (delete t (tasks k)) (drop_links (task_links t) k));;
  modify (fun k => set_node_ids (delete (IdLink CTask t) (node_ids k)) k).
Definition free_delay (d : ptr) : M kstate unit :=
  k ← get;
  deref (delays k !! d);;
  modify (fun k => set_delays (delete d (delays k)) (drop_links [ObjLink CDelay d] k)).

(** [mem] and [stack] are the results of the two allocations. *)
Definition KTaskCreate (mem : option ptr) (stack : option Z) (nm : option string) (entry : option Z)
    (parameter stack_depth priority : Z) : M kstate Z :=
  KDEBUG_NOT_IN_INTERRUPT;;
  match mem with
  | None => mret (- ENOMEMORY)
  | Some task =>
      new_task task;;
      lock ← CriticalAreaLock;
      id ← kid CTask (IdInsertObj (Bucket CTask) (IdLink CTask task));
      if id <? 0 then
        CriticalAreaUnLock lock;; free_task task;; mret (- ENOMEMORY)
      else
        klinks (DoubleLinkListInsertNodeAfter (ListHead CTask) (ObjLink CTask task));;
        CriticalAreaUnLock lock;;
        ret ← _InitKTask stack task nm entry parameter stack_depth priority;
        if ret =? EOK then mret id
        else
          lock ← CriticalAreaLock;
          kid CTask (IdRemoveObj (Bucket CTask) (u16 id));;
          CriticalAreaUnLock lock;;
          free_task task;;
          mret (- ERROR)
  end.

(** ** zombierecycle.c *)

(** One turn of the loop of [ZombieKTaskEntry]. *)
Definition ZombieKTaskEntry : M kstate unit :=
  KDEBUG_NOT_IN_INTERRUPT;;
  lock ← CriticalAreaLock;
  some ← JudgeZombieKTaskIsNotEmpty;
  if (some : bool) then
    nx ← klinks (get_next ZombieHead);
    task ← deref (nx ≫= sched_entry);
    klinks (DoubleLinkListRmNode (SchedLink task));;
    CriticalAreaUnLock lock;;
    stack ← task_get task stack_start;
    free_block stack;;
    klinks (DoubleLinkListRmNode (ObjLink CTask task));;
    id ← task_id task;
    KTaskIdDelete id;;
    od ← task_get task delay;
    (match od with Some d => free_delay d | None => mret tt end);;
    free_task task
  else
    zid ← gets (fun k => zombie_recycle k);
    SuspendKTask zid;;
    CriticalAreaUnLock lock;;
    DO_KTASK_ASSIGN.

Definition ZOMBIE_KTASK_STACKSIZE : Z := 2048.

Definition ZombieTaskRecycleInit (mem : option ptr) (stack : option Z) (entry : Z) : M kstate unit :=
  klinks (InitDoubleLinkList ZombieHead);;
  id ← KTaskCreate mem stack (Some "ZombieRecycleKTask"%string) (Some entry) 0 ZOMBIE_KTASK_STACKSIZE
         (KTASK_LOWEST_PRIORITY + 1);
  modify (set_zombie_recycle id);;
  StartupKTask id;;
  mret tt.

End Task.
