(* ===== verification/TaskInv.v ===== *)
(** * The invariant of the task subsystem

    [kernel_ok k L I dl]: besides the scheduler's invariant, every list of
    waiting or closed tasks holds tasks in the matching state ([list_stat]), the
    identifier manager of the tasks implements the map [I], and the delay list
    holds exactly the active delays [dl], each owned by its task.

    The file proves that the operations of ktask.c and delay.c keep it. *)

From S2P Require Import Prelude DoubleLink IdManager Bitmap Kernel ReadyVector Assign Delay Task.

Section TaskInv.
Context `{C : KConfig} `{D : PriorityReadyVectorDone}.
Implicit Types (k : kstate) (L : gmap link (list link)) (I : gmap Z link) (dl : list ptr).

(** The state of the tasks a list holds. *)
Definition list_stat (hd : link) : option Z :=
  match hd with
  | ReadyVec _ => Some KTASK_READY
  | PendList _ _ | SendPendList _ => Some KTASK_SUSPEND
  | ZombieHead => Some KTASK_CLOSE
  | _ => None
  end.

(** The links that the scheduling of tasks uses. *)
Definition task_link (x : link) : bool :=
  match x with
  | ReadyVec _ | PendList _ _ | SendPendList _ | ZombieHead | SchedLink _ => true
  | _ => false
  end.

Record delays_ok k L dl : Prop := {
  do_list : L !! ListHead CDelay = Some (ObjLink CDelay <$> dl);
  do_owner : forall d, d ∈ dl -> exists x td, delays k !! d = Some x /\
    delay_status x = TASK_DELAY_ACTIVE /\ tasks k !! delay_task x = Some td /\ delay td = Some d;
  do_task : forall t td d, tasks k !! t = Some td -> delay td = Some d ->
    exists x, delays k !! d = Some x /\ delay_task x = t /\ alloc (links k) (ObjLink CDelay d) /\
      (delay_status x = TASK_DELAY_ACTIVE -> d ∈ dl) /\
      (delay_status x <> TASK_DELAY_ACTIVE -> unlinked L (ObjLink CDelay d));
}.

Record ids_ok k L I : Prop := {
  io_rep : exists mgr, managers k !! CTask = Some mgr /\
    id_rep (Bucket CTask) (mkIdState (links k) (node_ids k) mgr) L I;
  io_range : forall i a, I !! i = Some a -> exists t, a = IdLink CTask t /\ is_Some (tasks k !! t);
  io_task : forall t, is_Some (tasks k !! t) -> exists i, I !! i = Some (IdLink CTask t);
}.

Record kernel_ok k L I dl : Prop := {
  ko_sched : sched_ok k L;
  ko_member : forall hd l x s, list_stat hd = Some s -> L !! hd = Some l -> x ∈ l ->
    exists t td, x = SchedLink t /\ tasks k !! t = Some td /\ stat_of td = s;
  ko_typed : forall hd l t, L !! hd = Some l -> SchedLink t ∈ l -> task_link hd = true;
  ko_delays : delays_ok k L dl;
  ko_ids : ids_ok k L I;
}.

(** ** Frames *)

(** What a step that only moves tasks between lists and changes descriptors
    (but no [delay] pointer) leaves alone. *)
Record task_step k L k' L' : Prop := {
  ts_delays : delays k' = delays k;
  ts_ids : node_ids k' = node_ids k;
  ts_managers : managers k' = managers k;
  ts_alloc : forall y, alloc (links k') y <-> alloc (links k) y;
  ts_null : forall y, task_link y = false -> prv (links k) y = None -> prv (links k') y = None;
  ts_lists : forall y, task_link y = false -> L' !! y = L !! y;
  ts_members : new_members L L';
  ts_delay : forall t, delay <$> tasks k' !! t = delay <$> tasks k !! t;
}.

Lemma ts_tasks k L k' L' t td' : task_step k L k' L' -> tasks k' !! t = Some td' ->
  exists td, tasks k !! t = Some td /\ delay td = delay td'.
Proof.
  intros Hs E. pose proof (ts_delay _ _ _ _ Hs t) as Hd. rewrite E in Hd.
  destruct (tasks k !! t) as [td|]; [|done]. injection Hd as Hd. by exists td.
Qed.

Lemma ts_tasks_back k L k' L' t td : task_step k L k' L' -> tasks k !! t = Some td ->
  exists td', tasks k' !! t = Some td' /\ delay td' = delay td.
Proof.
  intros Hs E. pose proof (ts_delay _ _ _ _ Hs t) as Hd. rewrite E in Hd.
  destruct (tasks k' !! t) as [td'|]; [|done]. injection Hd as Hd. by exists td'.
Qed.

Lemma delays_ok_step k L k' L' dl :
  task_step k L k' L' -> delays_ok k L dl -> delays_ok k' L' dl.
Proof.
  intros Hs [Hl Ho Ht]. split.
  - by rewrite (ts_lists _ _ _ _ Hs).
  - intros d Hd. destruct (Ho d Hd) as (x & td & Ex & ? & Et & ?).
    destruct (ts_tasks_back _ _ _ _ _ _ Hs Et) as (td' & Et' & Ed).
    exists x, td'. rewrite (ts_delays _ _ _ _ Hs). split_and!; [done..|congruence].
  - intros t td' d Et Ed. destruct (ts_tasks _ _ _ _ _ _ Hs Et) as (td & Et0 & Ed0).
    destruct (Ht t td d Et0 ltac:(congruence)) as (x & Ex & ? & Ha & Hact & Hin).
    exists x. rewrite (ts_delays _ _ _ _ Hs). split_and!; [done|done|by apply (ts_alloc _ _ _ _ Hs)|done|].
    intros Hna hd l HL Hx. apply elem_of_cons in Hx as [<-|Hx].
    { rewrite (ts_lists _ _ _ _ Hs) in HL by done. apply (Hin Hna _ _ HL). set_solver. }
    exfalso. destruct (ts_members _ _ _ _ Hs _ _ _ HL Hx) as [[? [=]]|(l0 & HL0 & Hx0)].
    destruct (Hin Hna hd l0 HL0) as [_ ->]; [set_solver|]. by apply not_elem_of_nil in Hx0.
Qed.

Lemma ids_ok_frame k L k' L' I :
  ids_ok k L I -> rep (links k') L' -> node_ids k' = node_ids k -> managers k' = managers k ->
  (forall t, is_Some (tasks k' !! t) <-> is_Some (tasks k !! t)) ->
  (forall j, L' !! Bucket CTask j = L !! Bucket CTask j) ->
  (forall j, alloc (links k) (Bucket CTask j) -> prv (links k) (Bucket CTask j) = None ->
     alloc (links k') (Bucket CTask j) /\ prv (links k') (Bucket CTask j) = None) ->
  ids_ok k' L' I.
Proof.
  intros [(mgr & Em & Hid) Hr Ht] HR En Emg Hts HL Hb. split.
  - exists mgr. rewrite Emg, En. split; [done|]. by eapply id_rep_frame.
  - intros i a Hi. destruct (Hr i a Hi) as (t & -> & ?). exists t. split; [done|by apply Hts].
  - intros t ?%Hts. by apply Ht.
Qed.

Lemma ids_ok_step k L k' L' I :
  rep (links k') L' -> task_step k L k' L' -> ids_ok k L I -> ids_ok k' L' I.
Proof.
  intros HR Hs Hi. eapply ids_ok_frame; [exact Hi|done|apply Hs|apply Hs| | |].
  - intros t. rewrite <- !(fmap_is_Some delay). by rewrite (ts_delay _ _ _ _ Hs).
  - intros j. by apply (ts_lists _ _ _ _ Hs).
  - intros j Ha Hp. split; [by apply (ts_alloc _ _ _ _ Hs)|by apply (ts_null _ _ _ _ Hs)].
Qed.

Lemma kernel_ok_step k L k' L' I dl :
  kernel_ok k L I dl -> sched_ok k' L' -> task_step k L k' L' ->
  (forall hd l x s, list_stat hd = Some s -> (forall p, hd <> ReadyVec p) -> L' !! hd = Some l -> x ∈ l ->
     exists t td, x = SchedLink t /\ tasks k' !! t = Some td /\ stat_of td = s) ->
  kernel_ok k' L' I dl.
Proof.
  intros [Hk Hm Ht Hd Hi] Hk' Hs Hm'.
  assert (forall hd l x s, list_stat hd = Some s -> L' !! hd = Some l -> x ∈ l ->
    exists t td, x = SchedLink t /\ tasks k' !! t = Some td /\ stat_of td = s) as Hmem.
  { intros hd l x s Es HL Hx. destruct hd; try (by eapply Hm').
    injection Es as <-. destruct (so_ready _ _ Hk' _ _ _ HL Hx) as (t & td & ? & ? & ? & _). by exists t, td. }
  split; [done|done| | |].
  - intros hd l t HL Hin. destruct (task_link hd) eqn:E; [done|]. rewrite (ts_lists _ _ _ _ Hs) in HL by done.
    rewrite <- E. by eapply Ht.
  - by eapply delays_ok_step.
  - eapply ids_ok_step; [apply Hk'|done..].
Qed.

Lemma task_step_sched k L k' L' : sched_frame k L k' L' -> task_step k L k' L'.
Proof.
  intros [R T S A N F M].
  assert (forall y, task_link y = false -> sched_link y = false) as Hl by by intros [].
  split; [change (delays (rest k') = delays (rest k)); by rewrite R|
          change (node_ids (rest k') = node_ids (rest k)); by rewrite R|
          change (managers (rest k') = managers (rest k)); by rewrite R|done|auto|auto|done|].
  intros t. specialize (T t). destruct (tasks k !! t), (tasks k' !! t); cbn in T |- *; try done. by rewrite T.
Qed.

(** What the scheduler does keeps the invariant of the tasks. *)
Lemma kernel_ok_sched k L k' L' I dl :
  kernel_ok k L I dl -> sched_ok k' L' -> sched_frame k L k' L' -> kernel_ok k' L' I dl.
Proof.
  intros Hko Hk' Hfr. eapply kernel_ok_step; [done|done|by apply task_step_sched|].
  intros hd l x s Es Hnr HL Hx.
  assert (sched_link hd = false) as Hsl by (destruct hd as [p| | | | | | | | | |]; try done; by destruct (Hnr p)).
  pose proof HL as HL0. rewrite (fr_lists _ _ _ _ Hfr) in HL0 by done.
  destruct (ko_member _ _ _ _ Hko _ _ _ _ Es HL0 Hx) as (t & td & -> & Et & Hst).
  pose proof (fr_tasks _ _ _ _ Hfr t) as Htd. rewrite Et in Htd.
  destruct (tasks k' !! t) as [td'|] eqn:Et'; [|done]. exists t, td'. split_and!; [done|done|].
  destruct (fr_stat _ _ _ _ Hfr _ _ _ Et Et') as [->|[Hr|Hr]]; [done|exfalso..].
  - destruct (so_on_list _ _ Hk' _ _ Et' Hr) as (l' & HL' & Hin).
    apply (Hnr (cur_prio td')). apply (rep_disj _ _ (so_rep _ _ Hk') _ _ _ _ (SchedLink t) HL HL'); set_solver.
  - pose proof (so_detached _ _ Hk' _ _ Et' Hr) as HL'.
    assert (hd = SchedLink t) as -> by (apply (rep_disj _ _ (so_rep _ _ Hk') _ _ _ _ (SchedLink t) HL HL'); set_solver).
    done.
Qed.

Lemma kernel_ok_fields k k' L I dl :
  kernel_ok k L I dl -> links k' = links k -> tasks k' = tasks k ->
  os_assign_read_vector k' = os_assign_read_vector k -> os_running_task k' = os_running_task k ->
  delays k' = delays k -> node_ids k' = node_ids k -> managers k' = managers k -> kernel_ok k' L I dl.
Proof.
  intros [Hk Hm Ht [Hl Ho Hd] [Hi Hr Hti]] E1 E2 E3 E4 E5 E6 E7.
  split; [by apply (sched_ok_fields k)| |done|split|split]; rewrite ?E1, ?E2, ?E5, ?E6, ?E7; done.
Qed.

(** ** Changing other fields of a descriptor *)

Record same_sched (td td' : TaskDescriptor) : Prop := {
  ss_stat : stat_of td' = stat_of td;
  ss_prio : cur_prio td' = cur_prio td;
  ss_offset : bitmap_offset td' = bitmap_offset td;
  ss_row : bitmap_row td' = bitmap_row td;
  ss_column : bitmap_column td' = bitmap_column td;
  ss_delay : delay td' = delay td;
}.

(** ... or the priority, too, when the task is not READY. *)
Record may_replace (td td' : TaskDescriptor) : Prop := {
  mr_stat : stat_of td' = stat_of td;
  mr_prio : stat_of td = KTASK_READY -> cur_prio td' = cur_prio td;
  mr_site : site_ok td -> site_ok td';
  mr_delay : delay td' = delay td;
}.

Lemma same_sched_may_replace td td' : same_sched td td' -> may_replace td td'.
Proof.
  intros [E1 E2 E3 E4 E5 E6]. split; [done|done| |done]. unfold site_ok. by rewrite E2, E3, E4, E5.
Qed.

Lemma sched_ok_update k L t td td' :
  sched_ok k L -> tasks k !! t = Some td -> may_replace td td' ->
  sched_ok (set_tasks (<[t := td']> (tasks k)) k) L.
Proof.
  intros Hk Et [E1 E2 E3 _].
  assert (forall y tdy, <[t := td']> (tasks k) !! y = Some tdy -> exists td0, tasks k !! y = Some td0 /\
    stat_of tdy = stat_of td0 /\ (stat_of td0 = KTASK_READY -> cur_prio tdy = cur_prio td0) /\
    (site_ok td0 -> site_ok tdy)) as Hb.
  { intros y tdy [[<- <-]|[? Ey]]%lookup_insert_Some; [by exists td|by exists tdy]. }
  assert (forall y tdy, tasks k !! y = Some tdy -> exists td1, <[t := td']> (tasks k) !! y = Some td1 /\
    stat_of td1 = stat_of tdy /\ (stat_of tdy = KTASK_READY -> cur_prio td1 = cur_prio tdy)) as Hf.
  { intros y tdy Ey. destruct (decide (y = t)) as [->|Hne].
    - exists td'. rewrite lookup_insert_eq. rewrite Et in Ey. by injection Ey as <-.
    - exists tdy. by rewrite lookup_insert_ne. }
  split; cbn [links tasks os_assign_read_vector os_running_task set_tasks]; try apply Hk.
  - intros p l x HL Hx. destruct (so_ready _ _ Hk _ _ _ HL Hx) as (y & tdy & -> & Ey & Hs & Hp).
    destruct (Hf _ _ Ey) as (td1 & ? & ? & Ep). exists y, td1. split_and!; [done|done|congruence|by rewrite Ep].
  - intros y tdy Ey Hs. destruct (Hb _ _ Ey) as (td0 & Ey0 & Es & Ep & _). rewrite Ep by congruence.
    apply (so_on_list _ _ Hk _ _ Ey0). congruence.
  - intros y tdy Ey. destruct (Hb _ _ Ey) as (td0 & Ey0 & _). by apply (so_linked _ _ Hk _ _ Ey0).
  - intros y tdy Ey Hs. destruct (Hb _ _ Ey) as (td0 & Ey0 & Es & _). apply (so_detached _ _ Hk _ _ Ey0). congruence.
  - intros y tdy Ey Hs. destruct (Hb _ _ Ey) as (td0 & Ey0 & Es & _ & Hsite). apply Hsite, (so_site _ _ Hk _ _ Ey0). congruence.
  - intros y tdy Ey Hs. destruct (Hb _ _ Ey) as (td0 & Ey0 & Es & _). apply (so_running _ _ Hk _ _ Ey0). congruence.
  - intros y Ey. destruct (so_current _ _ Hk _ Ey) as [tdy Ey']. destruct (Hf _ _ Ey') as (td1 & ? & _). by exists td1.
Qed.

Lemma kernel_ok_replace k L I dl t td td' :
  kernel_ok k L I dl -> tasks k !! t = Some td -> may_replace td td' ->
  kernel_ok (set_tasks (<[t := td']> (tasks k)) k) L I dl.
Proof.
  intros Hko Et Hss. eapply kernel_ok_step; [exact Hko|by eapply sched_ok_update; [apply Hko|..]|split; try done|].
  - apply new_members_refl.
  - intros y. cbn. destruct (decide (y = t)) as [->|]; [|by rewrite lookup_insert_ne].
    rewrite lookup_insert_eq, Et. cbn. by rewrite (mr_delay _ _ Hss).
  - intros hd l x s Es _ HL Hx. destruct (ko_member _ _ _ _ Hko _ _ _ _ Es HL Hx) as (y & tdy & -> & Ey & Hs).
    exists y. cbn. destruct (decide (y = t)) as [->|]; [|exists tdy; by rewrite lookup_insert_ne].
    exists td'. rewrite lookup_insert_eq, (mr_stat _ _ Hss). split_and!; [done..|congruence].
Qed.

Lemma kernel_ok_update k L I dl t td td' :
  kernel_ok k L I dl -> tasks k !! t = Some td -> same_sched td td' ->
  kernel_ok (set_tasks (<[t := td']> (tasks k)) k) L I dl.
Proof. intros. eapply kernel_ok_replace; [done..|by apply same_sched_may_replace]. Qed.

(** ** Identifiers *)

Lemma kid_same k mgr : managers k !! CTask = Some mgr ->
  set_managers (<[CTask := mgr]> (managers k)) (set_node_ids (node_ids k) (set_links (links k) k)) = k.
Proof. intros E. rewrite insert_id by done. done. Qed.

Lemma wp_GetTaskWithIdnodeInfo k L I dl id t (Q : option ptr -> kstate -> Prop) :
  kernel_ok k L I dl -> I !! id = Some (IdLink CTask t) ->
  0 <= KTaskOsAssignLockNest k < 2 ^ 15 - 1 -> Q (Some t) k -> wp (GetTaskWithIdnodeInfo id) Q k.
Proof.
  intros Hko Hid Hn HQ. destruct (ko_ids _ _ _ _ Hko) as [(mgr & Em & Hrep) _ _].
  pose proof (ir_dom _ _ _ _ Hrep _ _ Hid) as Hd. pose proof (ir_max _ _ _ _ Hrep). cbn [manager] in *.
  unfold GetTaskWithIdnodeInfo. rewrite (proj2 (Z.ltb_ge id 0)) by lia. rewrite u16_small by lia.
  wp_steps. apply wp_CriticalAreaLock; [done|]. wp_steps.
  eapply wp_kid; [exact Em|]. eapply wp_IdGetObj_hit; [exact Hrep|exact Hid|]. cbn [manager node_id id_links].
  wp_steps. apply wp_CriticalAreaUnLock; [cbn; lia|].
  change (managers k) with (managers (locked k)). change (node_ids k) with (node_ids (locked k)).
  change (links k) with (links (locked k)). rewrite kid_same by done. rewrite unlocked_locked. wp_steps.
  cbn [id_entry]. rewrite bool_decide_true by done. by wp_steps.
Qed.

Lemma wp_task_id k L I dl t (Q : Z -> kstate -> Prop) :
  kernel_ok k L I dl -> is_Some (tasks k !! t) ->
  (forall id, I !! id = Some (IdLink CTask t) -> Q id k) -> wp (task_id t) Q k.
Proof.
  intros Hko Ht HQ. destruct (ko_ids _ _ _ _ Hko) as [(mgr & Em & Hrep) _ Hi].
  destruct (Hi t Ht) as (id & Hid). pose proof (ir_node _ _ _ _ Hrep _ _ Hid) as En. cbn [node_id] in En.
  unfold task_id. wp_steps. rewrite En. wp_steps. by apply HQ.
Qed.

Lemma wp_GetKTaskDescriptor k (Q : option ptr -> kstate -> Prop) :
  0 <= KTaskOsAssignLockNest k < 2 ^ 15 - 1 -> Q (os_running_task k) k -> wp GetKTaskDescriptor Q k.
Proof.
  intros Hn HQ. unfold GetKTaskDescriptor. wp_steps. apply wp_CriticalAreaLock; [done|]. wp_steps.
  apply wp_CriticalAreaUnLock; [cbn; lia|]. rewrite unlocked_locked. by wp_steps.
Qed.

(** ** Quiet steps *)

(** Delays that differ at most in their status. *)
Definition same_delays (ds ds' : gmap ptr Delay) : Prop :=
  forall d, set_delay_status TASK_DELAY_INACTIVE <$> ds' !! d = set_delay_status TASK_DELAY_INACTIVE <$> ds !! d.

(** The part of the state that moving tasks between lists does not touch. *)
Definition core (k : kstate) : kstate :=
  set_links ∅ (set_tasks ∅ (set_delays ∅ (set_os_assign_read_vector (mkReadyVector 0 [] 0) k))).

(** The links of timers, which neither tasks nor delays nor identifiers use. *)
Definition foreign (x : link) : bool := match x with TimerSortHead | SortList _ => true | _ => false end.

(** ... no memory is allocated, and delays are at most cancelled. *)
Record quiet (k k' : kstate) : Prop := {
  q_core : core k' = core k;
  q_alloc : forall y, alloc (links k') y <-> alloc (links k) y;
  q_null : forall y, foreign y = true -> prv (links k) y = None -> prv (links k') y = None;
  q_delays : same_delays (delays k) (delays k');
}.

Lemma quiet_trans k0 k1 k2 : quiet k0 k1 -> quiet k1 k2 -> quiet k0 k2.
Proof.
  intros [C0 A0 N0 D0] [C1 A1 N1 D1]. split; [congruence|intros y; by rewrite A1|auto|intros d; by rewrite (D1 d)].
Qed.

Lemma quiet_unlocked k k1 : quiet (locked k) k1 -> quiet k (unlocked (interrupts k) k1).
Proof.
  intros [C0 A0 N0 D0]. split; [|done..].
  change (unlocked (interrupts k) (core k1) = core k). rewrite C0.
  unfold core, unlocked, locked. cbn. by rewrite Z.add_simpl_r.
Qed.

Lemma quiet_relink k k' x :
  core k' = core k -> same_links x (links k) (links k') -> foreign x = false ->
  same_delays (delays k) (delays k') -> quiet k k'.
Proof. intros ? [Ha Hn] Hx ?. split; [done|done|intros y Hy; apply Hn; intros ->; congruence|done]. Qed.

Lemma quiet_nest k k' : quiet k k' -> KTaskOsAssignLockNest k' = KTaskOsAssignLockNest k.
Proof. intros [E _ _ _]. change (KTaskOsAssignLockNest (core k') = KTaskOsAssignLockNest (core k)). by rewrite E. Qed.

(** ** The delay list *)

Definition same_but_delay (o o' : option TaskDescriptor) : Prop :=
  match o, o' with
  | Some td, Some td' => td' = set_delay (delay td') td
  | None, None => True
  | _, _ => False
  end.

(** A step on the delay list and on the [delay] pointers. *)
Record delay_step k L k' L' : Prop := {
  ds_rep : rep (links k') L';
  ds_tasks : forall t, same_but_delay (tasks k !! t) (tasks k' !! t);
  ds_rv : os_assign_read_vector k' = os_assign_read_vector k;
  ds_running : os_running_task k' = os_running_task k;
  ds_ids : node_ids k' = node_ids k;
  ds_managers : managers k' = managers k;
  ds_alloc : forall y, alloc (links k) y -> alloc (links k') y;
  ds_null : forall y, (forall d, y <> ObjLink CDelay d) -> prv (links k) y = None -> prv (links k') y = None;
  ds_lists : forall y, y <> ListHead CDelay -> (forall d, y <> ObjLink CDelay d) -> L' !! y = L !! y;
}.

Lemma same_but_delay_refl o : same_but_delay o o.
Proof. destruct o as [[]|]; done. Qed.

Lemma ds_task k L k' L' t td' : delay_step k L k' L' -> tasks k' !! t = Some td' ->
  exists td v, tasks k !! t = Some td /\ td' = set_delay v td.
Proof.
  intros Hs E. pose proof (ds_tasks _ _ _ _ Hs t) as Hd. rewrite E in Hd.
  destruct (tasks k !! t) as [td|]; [|done]. by eexists td, _.
Qed.

Lemma ds_task_back k L k' L' t td : delay_step k L k' L' -> tasks k !! t = Some td ->
  exists v, tasks k' !! t = Some (set_delay v td).
Proof.
  intros Hs E. pose proof (ds_tasks _ _ _ _ Hs t) as Hd. rewrite E in Hd.
  destruct (tasks k' !! t) as [td'|]; [|done]. exists (delay td'). by f_equal.
Qed.

Lemma ds_list k L k' L' y : delay_step k L k' L' -> task_link y = true -> L' !! y = L !! y.
Proof. intros Hs Hy. apply (ds_lists _ _ _ _ Hs); destruct y; done. Qed.

Lemma sched_ok_delay k L k' L' I dl : kernel_ok k L I dl -> delay_step k L k' L' -> sched_ok k' L'.
Proof.
  intros Hko Hs. pose proof (ko_sched _ _ _ _ Hko) as Hk.
  assert (forall y, task_link y = true -> L' !! y = L !! y) as HL by (intros; by eapply ds_list).
  split.
  - apply Hs.
  - intros p Hp. rewrite HL by done. by apply (so_lists _ _ Hk).
  - intros p l x HL0 Hx. rewrite HL in HL0 by done. destruct (so_ready _ _ Hk _ _ _ HL0 Hx) as (t & td & -> & Et & ? & ?).
    destruct (ds_task_back _ _ _ _ _ _ Hs Et) as (v & Et'). by exists t, (set_delay v td).
  - intros t td' Et Hst. destruct (ds_task _ _ _ _ _ _ Hs Et) as (td & v & Et0 & ->).
    destruct (so_on_list _ _ Hk _ _ Et0 Hst) as (l & ? & ?). exists l. by rewrite HL.
  - intros t td' Et. destruct (ds_task _ _ _ _ _ _ Hs Et) as (td & v & Et0 & ->).
    destruct (so_linked _ _ Hk _ _ Et0) as [?|(hd & l & HL0 & Hin)]; [left; by rewrite HL|right].
    exists hd, l. rewrite HL; [done|]. by eapply (ko_typed _ _ _ _ Hko).
  - intros t td' Et Hst. destruct (ds_task _ _ _ _ _ _ Hs Et) as (td & v & Et0 & ->).
    rewrite HL by done. by apply (so_detached _ _ Hk _ _ Et0).
  - intros t td' Et Hst. destruct (ds_task _ _ _ _ _ _ Hs Et) as (td & v & Et0 & ->).
    by apply (so_site _ _ Hk _ _ Et0).
  - intros t td' Et Hst. destruct (ds_task _ _ _ _ _ _ Hs Et) as (td & v & Et0 & ->).
    rewrite (ds_running _ _ _ _ Hs). by apply (so_running _ _ Hk _ _ Et0).
  - intros t Ec. rewrite (ds_running _ _ _ _ Hs) in Ec. destruct (so_current _ _ Hk _ Ec) as [td Et].
    destruct (ds_task_back _ _ _ _ _ _ Hs Et) as (v & ?). by eexists.
  - rewrite (ds_rv _ _ _ _ Hs). eapply rv_ok_ext; [apply Hk|]. intros q. unfold ready_nonempty. by rewrite HL.
Qed.

Lemma kernel_ok_delay k L k' L' I dl dl' :
  kernel_ok k L I dl -> delay_step k L k' L' -> delays_ok k' L' dl' ->
  (forall hd l t, L' !! hd = Some l -> SchedLink t ∈ l -> task_link hd = true) -> kernel_ok k' L' I dl'.
Proof.
  intros Hko Hs Hd Hty. split; [by eapply sched_ok_delay| |done|done|].
  - intros hd l x s Es HL Hx. rewrite (ds_list _ _ _ _ hd Hs) in HL by (destruct hd; done).
    destruct (ko_member _ _ _ _ Hko _ _ _ _ Es HL Hx) as (t & td & -> & Et & ?).
    destruct (ds_task_back _ _ _ _ _ _ Hs Et) as (v & Et'). by eexists _, _.
  - eapply ids_ok_frame; [apply Hko|apply Hs|apply Hs|apply Hs| | |].
    + intros t. split; intros [td Et].
      * destruct (ds_task _ _ _ _ _ _ Hs Et) as (? & ? & ? & _). by eexists.
      * destruct (ds_task_back _ _ _ _ _ _ Hs Et) as (? & ?). by eexists.
    + intros j. by apply (ds_lists _ _ _ _ Hs).
    + intros j Ha Hp. split; [by apply (ds_alloc _ _ _ _ Hs)|by apply (ds_null _ _ _ _ Hs)].
Qed.

(** The delay list after the delay of a task was cancelled. *)
Definition unset (td : TaskDescriptor) (dl : list ptr) : list ptr :=
  match delay td with Some d => without d dl | None => dl end.

Lemma unset_unset td td' dl : delay td' = delay td -> unset td' (unset td dl) = unset td dl.
Proof.
  unfold unset. intros ->. destruct (delay td) as [d|]; [|done]. apply without_not_in.
  by intros [? _]%elem_of_without.
Qed.

Lemma delay_inj : Inj (=) (=) (ObjLink CDelay).
Proof. by intros ? ? [=]. Qed.

(** Linking out an active delay. *)
Section remove_delay.
Context k L I dl d x (h' : gmap link (node link)) (Hko : kernel_ok k L I dl) (Hd : d ∈ dl) (Ed : delays k !! d = Some x).
Hypothesis HR : rep h' (detach (ObjLink CDelay d) L).
Hypothesis Hsl : same_links (ObjLink CDelay d) (links k) h'.

Let k' := set_links h' (set_delays (<[d := set_delay_status TASK_DELAY_INACTIVE x]> (delays k)) k).
Let L' := detach (ObjLink CDelay d) L.

Lemma remove_delay_lists y : y <> ListHead CDelay -> y <> ObjLink CDelay d -> L' !! y = L !! y.
Proof.
  clear HR Hsl. intros Hy Hyd. unfold L'. rewrite lookup_detach_ne by done.
  destruct (L !! y) as [l|] eqn:E; [|done]. cbn. rewrite without_not_in; [done|]. intros Hin.
  pose proof (do_list _ _ _ (ko_delays _ _ _ _ Hko)) as HL. apply Hy.
  apply (rep_disj _ _ (so_rep _ _ (ko_sched _ _ _ _ Hko)) _ _ _ _ (ObjLink CDelay d) E HL); [set_solver|].
  apply elem_of_cons. right. by apply list_elem_of_fmap_2.
Qed.

Lemma remove_delay_step : delay_step k L k' L'.
Proof.
  split; try done; [intros; apply same_but_delay_refl|intros y ?; by apply Hsl|..].
  - intros y Hy. by apply Hsl.
  - intros y Hy Hyd. by apply remove_delay_lists.
Qed.

Lemma remove_delay_ok : kernel_ok k' L' I (without d dl).
Proof.
  eapply kernel_ok_delay; [exact Hko|apply remove_delay_step|split|].
  - unfold L'. rewrite lookup_detach_ne, (do_list _ _ _ (ko_delays _ _ _ _ Hko)) by done. cbn.
    f_equal. apply (without_fmap _ d dl), delay_inj.
  - intros d' [Hne Hin]%elem_of_without. destruct (do_owner _ _ _ (ko_delays _ _ _ _ Hko) d' Hin) as (x' & td & ? & ?).
    exists x', td. cbn. by rewrite lookup_insert_ne.
  - intros t td d' Et Ed'. destruct (do_task _ _ _ (ko_delays _ _ _ _ Hko) t td d' Et Ed') as (x' & Ex & Hx & Ha & Hact & Hin).
    cbn. destruct (decide (d' = d)) as [->|Hne].
    + rewrite lookup_insert_eq. rewrite Ed in Ex. injection Ex as <-. eexists. split_and!; [done|done| |done|].
      * by apply Hsl.
      * intros _. apply unlinked_detach. by right.
    + rewrite lookup_insert_ne by done. exists x'. split_and!; [done|done| | |].
      * by apply Hsl.
      * intros Hs. apply elem_of_without. auto.
      * intros Hs. apply unlinked_detach. auto.
  - intros hd l t [[-> ->]|(_ & l' & HL & ->)]%lookup_detach_Some Hin; [by apply not_elem_of_nil in Hin|].
    apply elem_of_without in Hin as [_ Hin]. by eapply (ko_typed _ _ _ _ Hko).
Qed.
End remove_delay.

Lemma wp_KTaskUnSetDelay k L I dl t td (Q : Z -> kstate -> Prop) :
  kernel_ok k L I dl -> tasks k !! t = Some td -> 0 <= KTaskOsAssignLockNest k < 2 ^ 15 - 1 ->
  (forall h' ds L', kernel_ok (set_links h' (set_delays ds k)) L' I (unset td dl) ->
     quiet k (set_links h' (set_delays ds k)) ->
     delay_step k L (set_links h' (set_delays ds k)) L' -> Q EOK (set_links h' (set_delays ds k))) ->
  wp (KTaskUnSetDelay t) Q k.
Proof.
  intros Hko Et Hn HQ. pose proof (so_rep _ _ (ko_sched _ _ _ _ Hko)) as HR.
  assert (unset td dl = dl -> Q EOK k) as Hno.
  { intros E. apply (HQ (links k) (delays k) L); [by rewrite E|done|].
    split; try done. intros; apply same_but_delay_refl. }
  unfold KTaskUnSetDelay. wp_steps. eapply wp_task_get; [exact Et|].
  unfold unset in *. destruct (delay td) as [d|] eqn:Ed; [|by apply wp_ret, Hno].
  destruct (do_task _ _ _ (ko_delays _ _ _ _ Hko) _ _ _ Et Ed) as (x & Ex & Hx & Ha & Hact & Hin).
  wp_steps. eapply wp_delay_get; [exact Ex|]. destruct (Z.eqb_spec (delay_status x) TASK_DELAY_ACTIVE) as [Es|Es].
  - specialize (Hact Es). wp_steps. apply wp_CriticalAreaLock; [done|]. wp_steps.
    eapply wp_delay_set; [exact Ex|]. wp_steps. apply wp_klinks.
    apply (wp_DoubleLinkListRmNode _ L); [exact HR| |].
    { right. eexists _, _. split; [apply (do_list _ _ _ (ko_delays _ _ _ _ Hko))|]. by apply list_elem_of_fmap_2. }
    intros h' HR' Hsl. cbn beta. wp_steps. apply wp_CriticalAreaUnLock; [cbn; lia|]. wp_steps.
    match goal with |- Q EOK ?s => assert (s = set_links h' (set_delays
      (<[d := set_delay_status TASK_DELAY_INACTIVE x]> (delays k)) k)) as -> end.
    { unfold unlocked, locked. cbn. by rewrite Z.add_simpl_r. }
    eapply HQ; [by eapply remove_delay_ok| |by eapply remove_delay_step]. eapply quiet_relink; [done|exact Hsl|done|].
    intros d'. destruct (decide (d' = d)) as [->|]; [cbn; by rewrite lookup_insert_eq, Ex|cbn; by rewrite lookup_insert_ne].
  - apply wp_ret, Hno. apply without_not_in. intros Hd.
    destruct (do_owner _ _ _ (ko_delays _ _ _ _ Hko) d Hd) as (x' & _ & Ex' & Hs & _). congruence.
Qed.

(** ** Suspending and waking *)

(** Taking a task off its list. *)
Lemma kernel_ok_detach k L I dl t td td' k' :
  kernel_ok k L I dl -> tasks k !! t = Some td -> delay td' = delay td ->
  tasks k' = <[t := td']> (tasks k) -> delays k' = delays k -> node_ids k' = node_ids k ->
  managers k' = managers k -> same_links (SchedLink t) (links k) (links k') ->
  sched_ok k' (detach (SchedLink t) L) -> kernel_ok k' (detach (SchedLink t) L) I dl.
Proof.
  intros Hko Et Ed Ets E1 E2 E3 [Ha Hnull] Hk'. eapply kernel_ok_step; [exact Hko|done|split; try done|].
  - intros y Hy. apply Hnull. by intros ->.
  - intros y Hy. rewrite lookup_detach_ne by (intros ->; done).
    destruct (L !! y) as [l|] eqn:E; [|done]. cbn. rewrite without_not_in; [done|]. intros Hin.
    by rewrite (ko_typed _ _ _ _ Hko _ _ _ E Hin) in Hy.
  - apply new_members_detach.
  - intros y. rewrite Ets. destruct (decide (y = t)) as [->|]; [|by rewrite lookup_insert_ne].
    rewrite lookup_insert_eq, Et. cbn. by rewrite Ed.
  - intros hd l x s Es _ [[-> ->]|(_ & l' & HL & ->)]%lookup_detach_Some Hx; [done|].
    apply elem_of_without in Hx as [Hne Hx].
    destruct (ko_member _ _ _ _ Hko _ _ _ _ Es HL Hx) as (y & tdy & -> & Ey & ?).
    exists y, tdy. rewrite Ets, lookup_insert_ne by congruence. done.
Qed.

(** A task that is not READY may be taken off its list without the ready table. *)
Lemma sched_ok_detach k L h' t td :
  sched_ok k L -> tasks k !! t = Some td -> stat_of td <> KTASK_READY ->
  rep h' (detach (SchedLink t) L) -> sched_ok (set_links h' k) (detach (SchedLink t) L).
Proof.
  intros Hk Et Hst HR.
  assert (forall p, detach (SchedLink t) L !! ReadyVec p = L !! ReadyVec p) as HLp.
  { intros p. rewrite lookup_detach_ne by done. destruct (L !! ReadyVec p) as [l|] eqn:E; [|done].
    cbn. rewrite without_not_in; [done|]. intros Hin.
    destruct (so_ready _ _ Hk _ _ _ E Hin) as (y & tdy & [= <-] & Ey & ? & _). congruence. }
  split; cbn [links tasks os_assign_read_vector os_running_task set_links]; try apply Hk.
  - done.
  - intros p Hp. rewrite HLp. by apply Hk.
  - intros p l x. rewrite HLp. by apply Hk.
  - intros y tdy Ey Hs. destruct (so_on_list _ _ Hk _ _ Ey Hs) as (l & ? & ?). exists l. by rewrite HLp.
  - intros y tdy Ey. destruct (decide (y = t)) as [->|Hne]; [left; apply lookup_detach_eq|].
    destruct (so_linked _ _ Hk _ _ Ey) as [Hd|(hd & l & HL & Hin)].
    { left. rewrite lookup_detach_ne, Hd by congruence. done. }
    destruct (decide (hd = SchedLink t)) as [->|Hhd].
    { exfalso. destruct (so_linked _ _ Hk _ _ Et) as [Hd|(hd & l1 & HL1 & Hin1)].
      - rewrite HL in Hd. injection Hd as ->. by apply not_elem_of_nil in Hin.
      - assert (SchedLink t = hd) as <-
          by (apply (rep_disj _ _ (so_rep _ _ Hk) _ _ _ _ (SchedLink t) HL HL1); set_solver).
        by apply (rep_head_not_member _ _ _ _ (so_rep _ _ Hk) HL1). }
    right. exists hd, (without (SchedLink t) l). rewrite lookup_detach_ne, HL by done. split; [done|].
    apply elem_of_without. split; [congruence|done].
  - intros y tdy Ey Hs. destruct (decide (y = t)) as [->|Hne]; [apply lookup_detach_eq|].
    rewrite lookup_detach_ne, (so_detached _ _ Hk _ _ Ey Hs) by congruence. done.
  - eapply rv_ok_ext; [apply Hk|]. intros q. unfold ready_nonempty. by rewrite HLp.
Qed.

Context `{CO : !KConfigOk C} `{DL : !ReadyVectorLaws D}.

(** The current task is suspended: it is on no list and its delay is cancelled. *)
Lemma wp__SuspendKTask k L I dl t td (Q : Z -> kstate -> Prop) :
  kernel_ok k L I dl -> os_running_task k = Some t -> tasks k !! t = Some td ->
  (stat_of td = KTASK_READY \/ stat_of td = KTASK_RUNNING) ->
  0 <= KTaskOsAssignLockNest k < 2 ^ 15 - 2 ->
  (forall k' L', kernel_ok k' L' I (unset td dl) -> quiet k k' ->
     tasks k' = <[t := as_stat KTASK_SUSPEND td]> (tasks k) -> L' !! SchedLink t = Some [] ->
     (forall y, sched_link y = false -> y <> ListHead CDelay -> (forall d, y <> ObjLink CDelay d) ->
        L' !! y = L !! y) -> Q EOK k') ->
  wp (_SuspendKTask t) Q k.
Proof.
  intros Hko Hc Et Hst Hn HQ. pose proof (ko_sched _ _ _ _ Hko) as Hk.
  unfold _SuspendKTask. wp_steps. apply wp_GetKTaskDescriptor; [lia|]. wp_steps.
  rewrite Hc, bool_decide_true by done. cbn [negb]. wp_steps.
  unfold JudgeKTaskStatIsReady, JudgeKTaskStatIsRunning, JudgeKTaskStatIsSuspend.
  eapply wp_task_get; [exact Et|]. wp_steps. eapply wp_task_get; [exact Et|].
  replace (negb _ && negb _) with false by (by destruct Hst as [-> | ->]). wp_steps.
  eapply wp_task_get; [exact Et|]. replace (_ =? KTASK_SUSPEND) with false by (by destruct Hst as [-> | ->]).
  wp_steps. apply wp_CriticalAreaLock; [lia|]. wp_steps.
  assert (sched_ok (locked k) L) as Hk1 by by apply (sched_ok_fields k).
  eapply (wp_rv_remove (locked k) L t td KTASK_SUSPEND (os_running_task k)); [done|done| |done| |].
  { apply (so_site _ _ Hk _ _ Et). by destruct Hst as [-> | ->]. }
  { split; [by left|]. intros y tdy [[<- <-]|[? Ey]]%lookup_insert_Some Hs; [done|].
    by eapply (so_running _ _ Hk). }
  intros h' rv' Hk2 Hsl. wp_steps. eapply wp_KTaskStateSet; [exact Et|].
  match goal with |- wp _ _ ?s => set (k2 := s) end.
  assert (kernel_ok k2 (detach (SchedLink t) L) I dl) as Hko2.
  { eapply (kernel_ok_detach k L I dl t td (as_stat KTASK_SUSPEND td)); try done. }
  wp_steps. eapply (wp_KTaskUnSetDelay k2 _ I dl t); [exact Hko2|apply lookup_insert_eq|cbn; lia|].
  intros h3 ds L3 Hko3 Hq3 Hds. wp_steps. apply wp_CriticalAreaUnLock; [cbn; lia|]. wp_steps.
  match goal with |- Q EOK ?s => set (k3 := s) end.
  apply (HQ _ L3).
  - by eapply kernel_ok_fields.
  - apply (quiet_unlocked k). eapply quiet_trans; [|exact Hq3]. by eapply quiet_relink.
  - done.
  - rewrite (ds_list _ _ _ _ _ Hds) by done. apply lookup_detach_eq.
  - intros y Hy Hyd Hyo. rewrite (ds_lists _ _ _ _ Hds) by done.
    rewrite lookup_detach_ne by (intros ->; done). destruct (L !! y) as [l|] eqn:E; [|done].
    cbn. rewrite without_not_in; [done|]. intros Hin.
    assert (exists hd l', L !! hd = Some l' /\ SchedLink t ∈ hd :: l' /\ sched_link hd = true)
      as (hd & l' & HL' & Hin' & Hhd).
    { destruct Hst as [Hst|Hst].
      - destruct (so_on_list _ _ Hk _ _ Et Hst) as (l' & HL' & Hin'). eexists _, l'. split_and!; [done|set_solver|done].
      - exists (SchedLink t), []. split_and!; [by apply (so_detached _ _ Hk _ _ Et)|set_solver|done]. }
    assert (y = hd) as -> by (apply (rep_disj _ _ (so_rep _ _ Hk) _ _ _ _ (SchedLink t) E HL'); set_solver).
    by rewrite Hy in Hhd.
Qed.

(** A task that is on no list becomes READY. *)
Lemma wp_make_ready_site k L I dl t td (Q : unit -> kstate -> Prop) :
  kernel_ok k L I dl -> tasks k !! t = Some td -> site_ok td -> L !! SchedLink t = Some [] ->
  (forall k' L', kernel_ok k' L' I dl -> quiet k k' -> delays k' = delays k ->
     tasks k' = <[t := as_stat KTASK_READY td]> (tasks k) ->
     (forall y, sched_link y = false -> L' !! y = L !! y) -> Q tt k') ->
  wp (rv_insert t) Q k.
Proof.
  intros Hko Et Hsite HL HQ. apply (wp_rv_insert k L t td); [apply Hko|done|done|done|].
  intros h2 rv2 Hk2 Hfr. eapply HQ; [by eapply kernel_ok_sched|split; [done|apply Hfr|intros y Hy; apply (fr_null _ _ _ _ Hfr); by destruct y|done]|done|done|apply Hfr].
Qed.

Lemma wp_make_ready k L I dl t td (Q : unit -> kstate -> Prop) :
  kernel_ok k L I dl -> tasks k !! t = Some td -> stat_of td <> KTASK_INIT -> L !! SchedLink t = Some [] ->
  (forall k' L', kernel_ok k' L' I dl -> quiet k k' -> delays k' = delays k ->
     tasks k' = <[t := as_stat KTASK_READY td]> (tasks k) ->
     (forall y, sched_link y = false -> L' !! y = L !! y) -> Q tt k') ->
  wp (rv_insert t) Q k.
Proof.
  intros Hko Et Hst. apply wp_make_ready_site; [done|done|]. by apply (so_site _ _ (ko_sched _ _ _ _ Hko) _ _ Et).
Qed.

(** A task that is not READY leaves the list it is on, its delay is cancelled and it
    becomes READY. *)
Lemma wp_release k L I dl t td (Q : unit -> kstate -> Prop) :
  kernel_ok k L I dl -> tasks k !! t = Some td -> stat_of td <> KTASK_READY -> site_ok td ->
  0 <= KTaskOsAssignLockNest k < 2 ^ 15 - 1 ->
  (forall k' L', kernel_ok k' L' I (unset td dl) -> quiet k k' ->
     tasks k' = <[t := as_stat KTASK_READY td]> (tasks k) ->
     (forall y, sched_link y = false -> y <> ListHead CDelay -> (forall d, y <> ObjLink CDelay d) ->
        L' !! y = without (SchedLink t) <$> L !! y) -> Q tt k') ->
  wp (klinks (DoubleLinkListRmNode (SchedLink t))) (fun _ k1 =>
    wp (KTaskUnSetDelay t) (fun _ k2 => wp (rv_insert t) Q k2) k1) k.
Proof.
  intros Hko Et Hst Hsite Hn HQ. pose proof (ko_sched _ _ _ _ Hko) as Hk.
  apply wp_klinks, (wp_DoubleLinkListRmNode _ L); [apply Hk|by apply (so_linked _ _ Hk _ _ Et)|]. intros h1 HR1 Hsl.
  assert (kernel_ok (set_links h1 k) (detach (SchedLink t) L) I dl) as Hko1.
  { eapply (kernel_ok_detach k L I dl t td td); try done; [by rewrite insert_id|by apply (sched_ok_detach k L h1 t td)]. }
  eapply (wp_KTaskUnSetDelay _ _ I dl t td); [exact Hko1|done|done|]. intros h2 ds L2 Hko2 Hq2 Hds.
  eapply (wp_make_ready_site _ L2 I _ t td); [exact Hko2|done|done| |].
  { rewrite (ds_list _ _ _ _ _ Hds) by done. apply lookup_detach_eq. }
  intros k3 L3 Hko3 Hq3 Hdel Ets HL3. apply (HQ _ L3); [done| |done|].
  - eapply quiet_trans; [|exact Hq3]. eapply quiet_trans; [|exact Hq2]. by eapply quiet_relink.
  - intros y Hy Hyd Hyo. rewrite HL3 by done. rewrite (ds_lists _ _ _ _ Hds) by done.
    apply lookup_detach_ne. by intros ->.
Qed.

Lemma wp__KTaskWakeup k L I dl t td (Q : Z -> kstate -> Prop) :
  kernel_ok k L I dl -> tasks k !! t = Some td -> stat_of td = KTASK_SUSPEND ->
  0 <= KTaskOsAssignLockNest k < 2 ^ 15 - 2 ->
  (forall k' L', kernel_ok k' L' I (unset td dl) -> quiet k k' ->
     tasks k' = <[t := as_stat KTASK_READY td]> (tasks k) ->
     (forall y, sched_link y = false -> y <> ListHead CDelay -> (forall d, y <> ObjLink CDelay d) ->
        L' !! y = without (SchedLink t) <$> L !! y) -> Q EOK k') ->
  wp (_KTaskWakeup t) Q k.
Proof.
  intros Hko Et Hst Hn HQ.
  unfold _KTaskWakeup, JudgeKTaskStatIsSuspend. wp_steps. eapply wp_task_get; [exact Et|].
  rewrite Hst. cbn [negb Z.eqb Pos.eqb KTASK_SUSPEND]. wp_steps. apply wp_CriticalAreaLock; [lia|]. wp_steps.
  assert (kernel_ok (locked k) L I dl) as Hko0 by by eapply kernel_ok_fields.
  eapply wp_mono; [apply (wp_release (locked k) L I dl t td (fun _ k' => exists L', kernel_ok k' L' I (unset td dl) /\
    quiet (locked k) k' /\ tasks k' = <[t := as_stat KTASK_READY td]> (tasks k) /\
    forall y, sched_link y = false -> y <> ListHead CDelay -> (forall d, y <> ObjLink CDelay d) ->
        L' !! y = without (SchedLink t) <$> L !! y))|].
  - exact Hko0.
  - exact Et.
  - by rewrite Hst.
  - apply (so_site _ _ (ko_sched _ _ _ _ Hko) _ _ Et). by rewrite Hst.
  - cbn. lia.
  - intros k' L' ? ? ? ?. by exists L'.
  - wp_next. wp_next. intros [] k3 (L3 & Hko3 & Hq3 & Ets & HL). wp_steps.
    apply wp_CriticalAreaUnLock; [rewrite (quiet_nest _ _ Hq3); cbn; lia|]. wp_steps. apply (HQ _ L3); [|by apply quiet_unlocked|done|done].
    by eapply kernel_ok_fields.
Qed.

(** The entry points look the task up first. *)
Lemma wp_by_id {A : Type} k L I dl id t (f : ptr -> M kstate A) (Q : A -> kstate -> Prop) :
  kernel_ok k L I dl -> I !! id = Some (IdLink CTask t) -> 0 <= KTaskOsAssignLockNest k < 2 ^ 15 - 1 ->
  wp (f t) Q k ->
  wp (task ← GetTaskWithIdnodeInfo id; task ← NULL_PARAM_CHECK task; f task) Q k.
Proof.
  intros Hko Hid Hn Hf. apply wp_bind. eapply wp_GetTaskWithIdnodeInfo; [done..|]. by wp_steps.
Qed.

(** ** Waking a task in whatever state it is *)

(** The descriptors after an attempt to wake the task [t], and the delays. *)
Definition wake_task (t : ptr) (ts : gmap ptr TaskDescriptor) : gmap ptr TaskDescriptor :=
  alter (fun td => if stat_of td =? KTASK_SUSPEND then as_stat KTASK_READY td else td) t ts.
Definition wake_delays (td : TaskDescriptor) dl : list ptr := if stat_of td =? KTASK_SUSPEND then unset td dl else dl.

Lemma lookup_wake_task t ts y td : ts !! y = Some td -> stat_of td <> KTASK_SUSPEND -> wake_task t ts !! y = Some td.
Proof.
  intros E Hs. unfold wake_task. destruct (decide (y = t)) as [->|]; [|by rewrite lookup_alter_ne].
  rewrite lookup_alter_eq, E. cbn. by rewrite (proj2 (Z.eqb_neq _ _) Hs).
Qed.

Lemma wp_wake_task k L I dl id t td (Q : Z -> kstate -> Prop) :
  kernel_ok k L I dl -> I !! id = Some (IdLink CTask t) -> tasks k !! t = Some td ->
  0 <= KTaskOsAssignLockNest k < 2 ^ 15 - 2 ->
  (forall r k' L', kernel_ok k' L' I (wake_delays td dl) -> quiet k k' -> tasks k' = wake_task t (tasks k) ->
     (forall y, foreign y = true -> L' !! y = L !! y) -> Q r k') ->
  wp (KTaskWakeup id) Q k.
Proof.
  intros Hko Hid Et Hn HQ. unfold KTaskWakeup. eapply wp_by_id; [done..|lia|].
  unfold wake_delays, wake_task in HQ. destruct (Z.eqb_spec (stat_of td) KTASK_SUSPEND) as [Es|Es].
  - eapply wp__KTaskWakeup; [done..|]. intros k' L' Hko' Hq Ets HL. apply (HQ _ k' L'); [done|done| |].
    + rewrite Ets. apply map_eq. intros y. destruct (decide (y = t)) as [->|]; [|by rewrite lookup_insert_ne, lookup_alter_ne].
      by rewrite lookup_insert_eq, lookup_alter_eq, Et; cbn; rewrite Es.
    + intros y Hy. rewrite HL by (by destruct y). destruct (L !! y) as [l|] eqn:E; [|done]. cbn.
      rewrite without_not_in; [done|]. intros Hin. pose proof (ko_typed _ _ _ _ Hko _ _ _ E Hin). by destruct y.
  - unfold _KTaskWakeup, JudgeKTaskStatIsSuspend. wp_steps. eapply wp_task_get; [exact Et|].
    rewrite (proj2 (Z.eqb_neq _ _) Es). cbn [negb]. wp_steps. apply (HQ _ k L); [done|done| |done].
    apply map_eq. intros y. destruct (decide (y = t)) as [->|]; [|by rewrite lookup_alter_ne].
    rewrite lookup_alter_eq, Et. cbn. by rewrite (proj2 (Z.eqb_neq _ _) Es).
Qed.

(** Suspending by identifier.  The current task, READY or RUNNING, becomes
    SUSPEND, is on no list, its delay is cancelled, and the invariant and all
    other tasks are kept; any other task cannot be suspended and the call
    returns -ERROR without an effect. *)
Theorem SuspendKTask_correct k L I dl id t td :
  kernel_ok k L I dl -> I !! id = Some (IdLink CTask t) -> tasks k !! t = Some td ->
  0 <= KTaskOsAssignLockNest k < 2 ^ 15 - 2 ->
  wp (SuspendKTask id) (fun ret k' =>
    if bool_decide (os_running_task k = Some t) && ((stat_of td =? KTASK_READY) || (stat_of td =? KTASK_RUNNING))
    then ret = EOK /\ tasks k' = <[t := as_stat KTASK_SUSPEND td]> (tasks k) /\ quiet k k' /\
         exists L', kernel_ok k' L' I (unset td dl) /\ L' !! SchedLink t = Some []
    else ret = - ERROR /\ k' = k) k.
Proof.
  intros Hko Hid Et Hn. unfold SuspendKTask. eapply wp_by_id; [done..|lia|].
  case_bool_decide as Hc; cbn [andb].
  - destruct (Z.eqb_spec (stat_of td) KTASK_READY) as [E1|E1]; [|destruct (Z.eqb_spec (stat_of td) KTASK_RUNNING) as [E2|E2]];
      cbn [orb].
    1,2: eapply wp__SuspendKTask; [done|done|done|auto|done|]; intros k' L' Hk' Hq Ets HL _;
      split_and!; [done..|by exists L'].
    unfold _SuspendKTask. wp_steps. apply wp_GetKTaskDescriptor; [lia|]. wp_steps.
    rewrite Hc, bool_decide_true by done. cbn [negb]. wp_steps.
    unfold JudgeKTaskStatIsReady, JudgeKTaskStatIsRunning. eapply wp_task_get; [exact Et|]. wp_steps.
    eapply wp_task_get; [exact Et|]. rewrite (proj2 (Z.eqb_neq _ _) E1), (proj2 (Z.eqb_neq _ _) E2). by wp_steps.
  - unfold _SuspendKTask. wp_steps. apply wp_GetKTaskDescriptor; [lia|]. wp_steps.
    rewrite bool_decide_false by done. cbn [negb]. by wp_steps.
Qed.

(** C10: waking by identifier.  A suspended task becomes READY and leaves the
    list it waits on, its delay is cancelled, and the invariant and all other
    tasks are kept; waking a task that is not suspended returns -ERROR without
    an effect. *)
Theorem KTaskWakeup_correct k L I dl id t td :
  kernel_ok k L I dl -> I !! id = Some (IdLink CTask t) -> tasks k !! t = Some td ->
  0 <= KTaskOsAssignLockNest k < 2 ^ 15 - 2 ->
  wp (KTaskWakeup id) (fun ret k' =>
    if stat_of td =? KTASK_SUSPEND
    then ret = EOK /\ tasks k' = <[t := as_stat KTASK_READY td]> (tasks k) /\ quiet k k' /\
         exists L', kernel_ok k' L' I (unset td dl) /\
           forall p c, L' !! PendList c p = without (SchedLink t) <$> L !! PendList c p
    else ret = - ERROR /\ k' = k) k.
Proof.
  intros Hko Hid Et Hn. unfold KTaskWakeup. eapply wp_by_id; [done..|lia|].
  destruct (Z.eqb_spec (stat_of td) KTASK_SUSPEND) as [E|E].
  - eapply wp__KTaskWakeup; [done..|]. intros k' L' Hk' Hq Ets HL. split_and!; [done..|].
    exists L'. split; [done|]. intros p c. by apply HL.
  - unfold _KTaskWakeup, JudgeKTaskStatIsSuspend. wp_steps. eapply wp_task_get; [exact Et|].
    rewrite (proj2 (Z.eqb_neq _ _) E). cbn [negb]. by wp_steps.
Qed.


End TaskInv.
