(* ===== verification/Creation.v ===== *)
(** * Creating kernel objects

    Tasks, semaphores, mutexes, events and message queues are created the same way:
    a descriptor with new links is allocated, gets an identifier, its own lists are
    initialised and it is linked into the list of its class.  [grows] is what such
    steps do to the memory of links; they keep the invariant of the kernel. *)

From S2P Require Import Prelude DoubleLink IdManager Bitmap Kernel ReadyVector Assign Delay Task TaskInv.

(** ** Steps on the links of a new object *)

(** The links an object of the class [c] has, and the lists of the class. *)
Definition object_link (c : class) (x : link) : bool :=
  match x with
  | IdLink c' _ | ObjLink c' _ | PendList c' _ => bool_decide (c' = c)
  | SendPendList _ => bool_decide (c = CMq)
  | SortList _ => bool_decide (c = CTimer)
  | SchedLink _ => bool_decide (c = CTask)
  | _ => false
  end.

Definition class_list (c : class) (x : link) : Prop := x = ListHead c \/ exists j, x = Bucket c j.

Lemma object_link_class c x : object_link c x = true -> ~ class_list c x.
Proof. by intros Hx [->|[j ->]]. Qed.

Implicit Types (h : gmap link (node link)) (L : gmap link (list link)).

(** [xs] are the links of the new object. *)
Record grows (c : class) (xs : list link) h L h' L' : Prop := {
  gr_rep : rep h' L';
  gr_alloc : forall y, alloc h y -> alloc h' y;
  gr_new : forall y, alloc h' y -> alloc h y \/ y ∈ xs;
  gr_null : forall y, y ∉ xs -> ~ class_list c y -> prv h y = None -> prv h' y = None;
  gr_lists : forall y, y ∉ xs -> ~ class_list c y -> L' !! y = L !! y;
  gr_own : (forall x l, x ∈ xs -> L !! x = Some l -> l = []) -> forall x l, x ∈ xs -> L' !! x = Some l -> l = [];
  gr_members : forall hd l x, L' !! hd = Some l -> x ∈ l ->
    (exists p, x = IdLink c p \/ x = ObjLink c p) /\ x ∈ xs \/ exists l0, L !! hd = Some l0 /\ x ∈ l0;
}.

Lemma grows_refl c xs h L : rep h L -> grows c xs h L h L.
Proof. intros HR. split; try done; [intros y; by left|]. intros hd l x HL Hx. right. by exists l. Qed.

Lemma grows_trans c xs h0 L0 h1 L1 h2 L2 :
  grows c xs h0 L0 h1 L1 -> grows c xs h1 L1 h2 L2 -> grows c xs h0 L0 h2 L2.
Proof.
  intros [R1 A1 W1 N1 E1 O1 M1] [R2 A2 W2 N2 E2 O2 M2]. split; [done|auto| |auto| |intros Hown; by apply O2, O1|].
  - intros y [Hy|Hy]%W2; [by apply W1|by right].
  - intros y Hy Hc. by rewrite E2, E1.
  - intros hd l x HL Hx. destruct (M2 _ _ _ HL Hx) as [?|(l0 & HL0 & Hx0)]; [by left|by eapply M1].
Qed.

(** Allocating the links. *)
Lemma lookup_zero (xs : list link) h y :
  foldr (fun x => <[x := mkNode None None]>) h xs !! y = if bool_decide (y ∈ xs) then Some (mkNode None None) else h !! y.
Proof.
  induction xs as [|x xs IH]; [by rewrite bool_decide_false by apply not_elem_of_nil|]. cbn.
  destruct (decide (y = x)) as [->|Hne]; [by rewrite lookup_insert_eq, bool_decide_true by set_solver|].
  rewrite lookup_insert_ne, IH by done. by rewrite (bool_decide_ext (y ∈ x :: xs) (y ∈ xs)) by set_solver.
Qed.

Definition fresh_links (xs : list link) h : Prop := forall x, x ∈ xs -> h !! x = None.

Lemma fresh_not_listed xs h L hd l x : rep h L -> fresh_links xs h -> x ∈ xs -> L !! hd = Some l -> x ∉ hd :: l.
Proof. intros HR Hf Hx HL Hin. destruct (rep_alloc _ _ _ _ _ HR HL Hin) as [? E]. by rewrite (Hf x Hx) in E. Qed.

Lemma fresh_no_list xs h L x : rep h L -> fresh_links xs h -> x ∈ xs -> L !! x = None.
Proof.
  intros HR Hf Hx. destruct (L !! x) as [l|] eqn:E; [|done]. exfalso.
  eapply (fresh_not_listed xs h L x l x); [done..|set_solver].
Qed.

(** None of [xs] is a list or on one. *)
Definition unlisted (xs : list link) L : Prop := forall x hd l, x ∈ xs -> L !! hd = Some l -> x ∉ hd :: l.

Lemma fresh_unlisted xs h L : rep h L -> fresh_links xs h -> unlisted xs L.
Proof. intros HR Hf x hd l. by apply (fresh_not_listed xs h). Qed.

Definition zeroed (xs : list link) h : gmap link (node link) := foldr (fun x => <[x := mkNode None None]>) h xs.

Lemma grows_zero c xs h L : rep h L -> fresh_links xs h -> grows c xs h L (zeroed xs h) L.
Proof.
  intros HR Hf. unfold zeroed.
  assert (forall hd l y, L !! hd = Some l -> y ∈ hd :: l -> y ∉ xs) as Hout.
  { intros hd l y HL Hy Hin. by eapply (fresh_not_listed xs h L hd l y). }
  split; try done.
  - split; [|apply HR..]. intros hd l HL. apply (chain_frame h); [..|by apply (rep_chain _ _ HR)];
      intros y Hy; [|apply elem_of_rotate in Hy]; unfold nxt, prv;
      by rewrite lookup_zero, bool_decide_false by (eapply Hout; done).
  - intros y [nd Hy]. unfold alloc. rewrite lookup_zero. case_bool_decide; by eexists.
  - intros y. unfold alloc. rewrite lookup_zero. case_bool_decide; [by right|by left].
  - intros y Hy _ Hp. unfold prv. by rewrite lookup_zero, bool_decide_false.
  - intros hd l x HL Hx. right. by exists l.
Qed.

Lemma zeroed_null xs h x : x ∈ xs -> alloc (zeroed xs h) x /\ prv (zeroed xs h) x = None.
Proof. intros Hx. unfold alloc, prv, zeroed. rewrite lookup_zero, bool_decide_true by done. split; [by eexists|done]. Qed.

(** Linking the object into the list of its class. *)
Lemma grows_attach c xs h L h' p l :
  ObjLink c p ∈ xs -> ListHead c ∉ xs -> L !! ListHead c = Some l ->
  rep h' (attach (ListHead c) (ObjLink c p :: l) (ObjLink c p) L) -> same_links (ObjLink c p) h h' ->
  grows c xs h L h' (attach (ListHead c) (ObjLink c p :: l) (ObjLink c p) L).
Proof.
  intros Hp Hhd HL HR [Ha Hn]. split; [done| | | | | |].
  - intros y Hy. by apply Ha.
  - intros y Hy%Ha. by left.
  - intros y Hy _. apply Hn. by intros ->.
  - intros y Hy Hc. apply lookup_attach_ne; [|by intros ->]. intros ->. apply Hc. by left.
  - intros Hown x l' Hx HL'. assert (x <> ListHead c) as Hh by (by intros ->).
    destruct (decide (x = ObjLink c p)) as [->|Hne].
    + unfold attach in HL'. by rewrite lookup_insert_ne, lookup_delete_eq in HL' by done.
    + rewrite lookup_attach_ne in HL' by done. by eapply Hown.
  - intros hd l' x HL' Hx. destruct (decide (hd = ListHead c)) as [->|Hne].
    + rewrite lookup_attach_eq in HL'. injection HL' as <-. apply elem_of_cons in Hx as [->|Hx]; [left|right; by exists l].
      split; [exists p; by right|done].
    + unfold attach in HL'. rewrite lookup_insert_ne in HL' by done. apply lookup_delete_Some in HL' as [_ HL']. right. by exists l'.
Qed.

(** Initialising a list of the object. *)
Lemma grows_init c xs h L h' x :
  x ∈ xs -> rep h' (<[x := []]> L) -> same_links x h h' -> grows c xs h L h' (<[x := []]> L).
Proof.
  intros Hx HR [Ha Hn]. split; [done| | | | | |].
  - intros y Hy. by apply Ha.
  - intros y Hy%Ha. by left.
  - intros y Hy _. apply Hn. by intros ->.
  - intros y Hy _. apply lookup_insert_ne. by intros ->.
  - intros Hown y l Hy [[_ <-]|[_ HL]]%lookup_insert_Some; [done|by eapply Hown].
  - intros hd l y [[_ <-]|[_ HL]]%lookup_insert_Some Hy; [by apply not_elem_of_nil in Hy|right; by exists l].
Qed.

Section Creation.
Context `{C : KConfig} `{D : PriorityReadyVectorDone}.
Implicit Types (k : kstate) (I : gmap Z link) (dl : list ptr) (mgr : IdManager).

(** ** The identifier *)

(** The identifier manager [mgr] of the class [c] of the kernel implements [I]. *)
Definition ids_of (c : class) k mgr L I : Prop :=
  managers k !! c = Some mgr /\ id_rep (Bucket c) (mkIdState (links k) (node_ids k) mgr) L I.

(** The manager does not depend on the fields of other identifiers. *)
Lemma id_rep_fields c h ids ids' mgr L I :
  id_rep (Bucket c) (mkIdState h ids mgr) L I -> (forall i a, I !! i = Some a -> ids' !! a = ids !! a) ->
  id_rep (Bucket c) (mkIdState h ids' mgr) L I.
Proof. intros [] Hids. split; try done. intros i a Hi. cbn in *. rewrite (Hids i a Hi). eauto. Qed.

(** The state with another manager, other fields of identifiers and other links. *)
Definition with_ids (c : class) mgr (ids : gmap link Z) h k : kstate :=
  set_managers (<[c := mgr]> (managers k)) (set_node_ids ids (set_links h k)).

Definition least_unused (i : Z) I : Prop := 0 <= i /\ I !! i = None /\ forall j, 0 <= j < i -> is_Some (I !! j).
Definition all_used mgr I : Prop := forall i, 0 <= i < id_max mgr -> is_Some (I !! i).

Lemma grows_insert c xs h L h' p j :
  IdLink c p ∈ xs -> (forall j, Bucket c j ∉ xs) -> rep h' (insert_lists (Bucket c j) (IdLink c p) L) ->
  (forall y, alloc h' y <-> alloc h y) ->
  (forall y, y <> Bucket c j -> y <> IdLink c p -> prv h y = None -> prv h' y = None) ->
  grows c xs h L h' (insert_lists (Bucket c j) (IdLink c p) L).
Proof.
  intros Hp Hb HR Ha Hn. split; [done| | | | | |].
  - intros y Hy. by apply Ha.
  - intros y Hy%Ha. by left.
  - intros y Hy Hc. apply Hn; intros ->; [apply Hc; right; by exists j|done].
  - intros y Hy Hc. apply lookup_insert_lists_ne; intros ->; [apply Hc; right; by exists j|done].
  - intros Hown x l Hx HL'. assert (x <> Bucket c j) as Hne by (intros ->; by apply (Hb j)).
    destruct (decide (x = IdLink c p)) as [->|Hx'].
    + unfold insert_lists, attach in HL'. by rewrite lookup_insert_ne, lookup_delete_eq in HL' by done.
    + rewrite lookup_insert_lists_ne in HL' by done. by eapply Hown.
  - intros hd l x HL' Hx. destruct (decide (hd = Bucket c j)) as [->|Hne].
    + rewrite lookup_insert_lists_eq in HL'. injection HL' as <-. apply elem_of_cons in Hx as [->|Hx].
      * left. split; [exists p; by left|done].
      * right. destruct (L !! Bucket c j) as [l0|]; [by exists l0|by apply not_elem_of_nil in Hx].
    + unfold insert_lists, attach in HL'. rewrite lookup_insert_ne in HL' by done. apply lookup_delete_Some in HL' as [_ HL'].
      rewrite lookup_touch_ne in HL' by done. right. by exists l.
Qed.

Lemma wp_new_id c xs k mgr L I p (Q : Z -> kstate -> Prop) :
  ids_of c k mgr L I -> IdLink c p ∈ xs -> (forall j, Bucket c j ∉ xs) ->
  alloc (links k) (IdLink c p) -> prv (links k) (IdLink c p) = None -> (forall i, I !! i <> Some (IdLink c p)) ->
  (all_used mgr I -> Q (-1) k) ->
  (forall i h' mgr' L', least_unused i I -> i < id_max mgr -> id_max mgr' = id_max mgr ->
     let k' := with_ids c mgr' (<[IdLink c p := i]> (node_ids k)) h' k in
     grows c xs (links k) L h' L' -> ids_of c k' mgr' L' (<[i := IdLink c p]> I) ->
     (forall y, y <> IdLink c p -> (forall j, y <> Bucket c j) -> L' !! y = L !! y) ->
     (forall y, alloc h' y <-> alloc (links k) y) ->
     (forall y, y <> IdLink c p -> (forall j, y <> Bucket c j) -> prv (links k) y = None -> prv h' y = None) ->
     Q i k') ->
  wp (kid c (IdInsertObj (Bucket c) (IdLink c p))) Q k.
Proof.
  intros [Em Hid] Hp Hb Ha Hn Hun Hfull HQ. eapply wp_kid; [exact Em|].
  eapply wp_IdInsertObj; [by intros ? ? [=]|exact Hid| | |].
  - split; [done| |done|done]. eapply prv_None_unlinked; [apply (ir_rep _ _ _ _ Hid)|done].
  - intros Hall. cbn [manager node_id id_links]. rewrite insert_id by done. by apply Hfull.
  - cbn [manager node_id id_links]. intros i s' Hi HI Hleast Hid' Hal Hnull Hnode Hmax Hoff. rewrite Hnode.
    destruct s' as [h' ids' mgr']. cbn [manager node_id id_links] in *. subst ids'.
    eapply HQ; [split; [lia|done]|lia|done| | | |done|].
    + apply grows_insert; [done|done|apply (ir_rep _ _ _ _ Hid')|done|done].
    + split; [apply lookup_insert_eq|exact Hid'].
    + intros y Hy Hyb. by apply lookup_insert_lists_ne.
    + intros y Hy Hyb. by apply Hnull.
Qed.

(** The manager after the other steps. *)
Lemma ids_of_frame c k mgr L I k' L' :
  ids_of c k mgr L I -> rep (links k') L' -> managers k' = managers k -> node_ids k' = node_ids k ->
  (forall j, L' !! Bucket c j = L !! Bucket c j) ->
  (forall j, alloc (links k) (Bucket c j) -> prv (links k) (Bucket c j) = None ->
     alloc (links k') (Bucket c j) /\ prv (links k') (Bucket c j) = None) ->
  ids_of c k' mgr L' I.
Proof. intros [Em Hid] HR E1 E2 HL Hb. split; [congruence|]. rewrite E2. by eapply id_rep_frame. Qed.

(** ** An object that is being created *)

(** From the kernel [k0]: the links [xs] exist, those of [todo] are still unused, the
    object [p] has its identifier in [J], and [l] is the list of its class. *)
Record growing (c : class) xs (p : ptr) (todo : list link) k0 L0 (J : gmap Z link) (l : list link) k L : Prop := {
  gw_grows : grows c xs (links k0) L0 (links k) L;
  gw_ids : exists mgr, ids_of c k mgr L J;
  gw_alloc : forall x, x ∈ xs -> alloc (links k) x;
  gw_null : forall x, x ∈ todo -> prv (links k) x = None;
  gw_head : L !! ListHead c = Some l;
}.

Lemma growing_fields c xs p todo k0 L0 J l k L k' :
  growing c xs p todo k0 L0 J l k L -> links k' = links k -> node_ids k' = node_ids k -> managers k' = managers k ->
  growing c xs p todo k0 L0 J l k' L.
Proof.
  intros [Hg (mgr & Em & Hid) Ha Hn Hh] E1 E2 E3. split; rewrite ?E1; try done.
  exists mgr. split; [congruence|]. by rewrite E1, E2.
Qed.

Section growing.
Context (c : class) (xs : list link) (p : ptr) k0 L0 (J : gmap Z link).
Hypothesis Hxs : Forall (fun x => object_link c x = true) xs.

Lemma xs_no_list y : class_list c y -> y ∉ xs.
Proof. intros Hcl Hin. rewrite Forall_forall in Hxs. apply Hxs in Hin. by eapply object_link_class. Qed.

Lemma wp_growing_init x todo l k L (Q : unit -> kstate -> Prop) :
  growing c xs p (x :: todo) k0 L0 J l k L -> x ∉ todo -> x ∈ xs ->
  (forall h', let L' := <[x := []]> L in growing c xs p todo k0 L0 J l (set_links h' k) L' -> Q tt (set_links h' k)) ->
  wp (klinks (InitDoubleLinkList x)) Q k.
Proof.
  intros [Hg (mgr & Hid) Ha Hn Hh] Hx Hin HQ. assert (forall y, class_list c y -> y <> x) as Hne by (intros y ?%xs_no_list; congruence).
  apply wp_klinks, (wp_InitDoubleLinkList_rep _ L); [apply Hg|eapply prv_None_unlinked; [apply Hg|apply Hn; set_solver]|by apply Ha|].
  intros h' HR Hsl. apply HQ. split.
  - eapply grows_trans; [exact Hg|]. by apply grows_init.
  - exists mgr. eapply ids_of_frame; [exact Hid|exact HR|done|done| |].
    + intros j. apply lookup_insert_ne. apply not_eq_sym, Hne. right. by exists j.
    + intros j Hal Hp. split; [by apply Hsl|]. apply Hsl; [|done]. apply Hne. right. by exists j.
  - intros y Hy. by apply Hsl, Ha.
  - intros y Hy. apply Hsl; [by intros ->|]. apply Hn. set_solver.
  - rewrite lookup_insert_ne; [done|]. apply not_eq_sym, Hne. by left.
Qed.

Lemma wp_growing_attach todo l k L (Q : unit -> kstate -> Prop) :
  growing c xs p (ObjLink c p :: todo) k0 L0 J l k L -> ObjLink c p ∉ todo -> ObjLink c p ∈ xs ->
  (forall h' L', growing c xs p todo k0 L0 J (ObjLink c p :: l) (set_links h' k) L' ->
     (forall y, y <> ListHead c -> y <> ObjLink c p -> L' !! y = L !! y) -> Q tt (set_links h' k)) ->
  wp (klinks (DoubleLinkListInsertNodeAfter (ListHead c) (ObjLink c p))) Q k.
Proof.
  intros [Hg (mgr & Hid) Ha Hn Hh] Hx Hin HQ.
  apply wp_klinks, (wp_DoubleLinkListInsertNodeAfter _ L (ListHead c) [] l);
    [apply Hg|done|done|eapply prv_None_unlinked; [apply Hg|apply Hn; set_solver]|by apply Ha|done|].
  cbn [app]. intros h' HR Hsl. eapply HQ.
  - split.
    + eapply grows_trans; [exact Hg|]. apply grows_attach; [done|apply xs_no_list; by left|done|exact HR|exact Hsl].
    + exists mgr. eapply ids_of_frame; [exact Hid|exact HR|done|done| |].
      * intros j. by apply lookup_attach_ne.
      * intros j Hal Hp. split; [by apply Hsl|by apply Hsl].
    + intros y Hy. by apply Hsl, Ha.
    + intros y Hy. apply Hsl; [by intros ->|]. apply Hn. set_solver.
    + apply lookup_attach_eq.
  - intros y. apply lookup_attach_ne.
Qed.

(** The identifier, with all links still unused but its own. *)
Lemma wp_growing_id I mgr l k (Q : Z -> kstate -> Prop) todo :
  ids_of c k0 mgr L0 I -> rep (links k0) L0 -> fresh_links xs (links k0) -> links k = zeroed xs (links k0) ->
  node_ids k = <[IdLink c p := 0]> (node_ids k0) -> managers k = managers k0 -> L0 !! ListHead c = Some l -> IdLink c p ∈ xs -> (forall i, I !! i <> Some (IdLink c p)) ->
  (forall x, x ∈ todo -> x ∈ xs /\ x <> IdLink c p) ->
  (all_used mgr I -> Q (-1) k) ->
  (forall i h' mgr' L', least_unused i I -> i < id_max mgr -> id_max mgr' = id_max mgr ->
     let k' := with_ids c mgr' (<[IdLink c p := i]> (node_ids k0)) h' k in
     growing c xs p todo k0 L0 (<[i := IdLink c p]> I) l k' L' -> Q i k') ->
  wp (kid c (IdInsertObj (Bucket c) (IdLink c p))) Q k.
Proof.
  intros Hid0 HR Hf El En Em HL Hp Hun Htodo Hfull HQ. pose proof (grows_zero c xs _ _ HR Hf) as Hz.
  assert (forall j, Bucket c j ∉ xs) as Hb by (intros j; apply xs_no_list; right; by exists j).
  destruct (zeroed_null xs (links k0) (IdLink c p) Hp) as [Ha Hn]. rewrite <- El in Ha, Hn, Hz.
  assert (ids_of c k mgr L0 I) as Hid.
  { destruct Hid0 as [Emg Hrep]. split; [by rewrite Em|]. rewrite En. apply (id_rep_fields _ _ (node_ids k0)).
    - eapply id_rep_frame; [exact Hrep|apply Hz|done|]. intros j Hal Hp'. cbn in *. split; [by apply (gr_alloc _ _ _ _ _ _ Hz)|].
      unfold prv. rewrite El. unfold zeroed. by rewrite lookup_zero, bool_decide_false by apply Hb.
    - intros i a Hi. apply lookup_insert_ne. intros <-. by apply (Hun i). }
  apply (wp_new_id c xs k mgr L0 I p); [done..|].
  intros i h' mgr' L' Hi Hmax Emax. rewrite En, insert_insert_eq. intros k' Hg Hid' HLs Hal Hnull. apply (HQ i h' mgr' L'); [done|done|done|]. split.
  - by eapply grows_trans.
  - by exists mgr'.
  - intros x Hx. apply Hal. rewrite El. by apply zeroed_null.
  - intros x [Hx Hne]%Htodo. apply Hnull; [done|by intros j ->; apply (Hb j)|]. rewrite El. by apply zeroed_null.
  - rewrite HLs by done. exact HL.
Qed.

End growing.

(** Freeing the links again. *)
Lemma drop_zeroed xs (h : gmap link (node link)) : fresh_links xs h -> foldr (fun x => delete x) (zeroed xs h) xs = h.
Proof.
  intros Hf. unfold zeroed.
  assert (forall ys (h : gmap link (node link)), foldr (fun x => delete x) h ys = filter (fun '(x, _) => x ∉ ys) h) as E.
  { clear. intros ys h. induction ys as [|y ys IH]; cbn.
    - apply map_eq. intros x. rewrite map_lookup_filter. destruct (h !! x) eqn:E; cbn; [|done].
      rewrite option_guard_True; [done|apply not_elem_of_nil].
    - rewrite IH. apply map_eq. intros x. destruct (decide (x = y)) as [->|Hne].
      + rewrite lookup_delete_eq. symmetry. apply map_lookup_filter_None. right. intros v _. set_solver.
      + rewrite lookup_delete_ne by done. rewrite !map_lookup_filter. destruct (h !! x); cbn; [|done].
        by rewrite (option_guard_iff (x ∉ y :: ys) (x ∉ ys)) by set_solver. }
  rewrite E. apply map_eq. intros x. rewrite map_lookup_filter, lookup_zero. case_bool_decide as Hx.
  - cbn. rewrite option_guard_False by (intros Hn; by apply Hn). by rewrite (Hf x Hx).
  - destruct (h !! x); cbn; [by rewrite option_guard_True|done].
Qed.

(** ** The invariant *)

(** Objects of other classes keep their identifiers. *)
Lemma grows_ids_of c xs k L k' L' c' mgr I :
  c' <> c -> Forall (fun x => object_link c x = true) xs -> grows c xs (links k) L (links k') L' ->
  managers k' !! c' = managers k !! c' -> (forall p, node_ids k' !! IdLink c' p = node_ids k !! IdLink c' p) ->
  (forall i a, I !! i = Some a -> exists p, a = IdLink c' p) ->
  ids_of c' k mgr L I -> ids_of c' k' mgr L' I.
Proof.
  intros Hc Hxs [HR Ha _ Hn HL _ _] E1 E2 Hrange [Em Hid]. rewrite Forall_forall in Hxs.
  assert (forall j, Bucket c' j ∉ xs) as Hb by (by intros j ?%Hxs).
  assert (forall j, ~ class_list c (Bucket c' j)) as Hcl by (intros j [[=]|[j' [= ? ?]]]; congruence).
  split; [congruence|]. apply (id_rep_fields _ _ (node_ids k)).
  - eapply id_rep_frame; [exact Hid|done| |]; auto.
  - intros i a Hi. destruct (Hrange i a Hi) as [p ->]. apply E2.
Qed.

(** Other links stay free. *)
Lemma grows_fresh c xs h L h' L' ys :
  grows c xs h L h' L' -> fresh_links ys h -> (forall y, y ∈ ys -> y ∉ xs) -> fresh_links ys h'.
Proof.
  intros Hg Hf Hd y Hy. destruct (h' !! y) as [nd|] eqn:E; [|done]. exfalso.
  destruct (gr_new _ _ _ _ _ _ Hg y) as [[nd0 E0]|Hin]; [by exists nd|by rewrite (Hf y Hy) in E0|by apply (Hd y)].
Qed.

Section kernel.
Context (c : class) (xs : list link) k L k' L' I dl.
Hypothesis Hko : kernel_ok k L I dl.
Hypothesis Hc : c <> CDelay.
Hypothesis Hxs : Forall (fun x => object_link c x = true) xs.
Hypothesis Hfresh : unlisted xs L.
Hypothesis Hg : grows c xs (links k) L (links k') L'.
Hypothesis Hdel : delays k' = delays k.
Hypothesis Hrv : os_assign_read_vector k' = os_assign_read_vector k.
Hypothesis Hrun : os_running_task k' = os_running_task k.
(** Tasks that are added are in the INIT state and detached. *)
Hypothesis Hold : forall t td, tasks k !! t = Some td -> tasks k' !! t = Some td.
Hypothesis Hnew : forall t td, tasks k' !! t = Some td ->
  tasks k !! t = Some td \/ stat_of td = KTASK_INIT /\ delay td = None /\ L' !! SchedLink t = Some [].

Lemma grown_list y : object_link c y = false -> ~ class_list c y -> L' !! y = L !! y.
Proof. intros Hy Hcl. apply (gr_lists _ _ _ _ _ _ Hg); [|done]. rewrite Forall_forall in Hxs. intros Hin%Hxs. congruence. Qed.

Lemma grown_old y hd l : L !! hd = Some l -> y ∈ hd :: l -> y ∉ xs.
Proof. intros HL Hy Hin. by apply (Hfresh y hd l). Qed.

(** A list of tasks that existed is the same. *)
Lemma grown_task_list hd l : task_link hd = true -> L !! hd = Some l -> L' !! hd = Some l.
Proof.
  intros Ht HL. rewrite (gr_lists _ _ _ _ _ _ Hg); [done|eapply grown_old; [done|apply elem_of_cons; by left]|].
  by intros [->|[j ->]].
Qed.

Lemma grown_task_list_back hd l : task_link hd = true -> L' !! hd = Some l -> l = [] \/ L !! hd = Some l.
Proof.
  intros Ht HL. destruct (decide (hd ∈ xs)) as [Hin|Hin].
  - left. eapply (gr_own _ _ _ _ _ _ Hg); [|done..]. intros x l0 Hx HL0.
    exfalso. apply (Hfresh x x l0 Hx HL0), elem_of_cons. by left.
  - right. rewrite <- HL. symmetry. apply (gr_lists _ _ _ _ _ _ Hg); [done|]. by intros [->|[j ->]].
Qed.

Lemma sched_ok_grows : sched_ok k' L'.
Proof.
  pose proof (ko_sched _ _ _ _ Hko) as Hk.
  assert (forall p, L' !! ReadyVec p = L !! ReadyVec p) as HLp by (intros p; apply grown_list; [done|by intros [?|[? ?]]]).
  split; rewrite ?Hrv, ?Hrun.
  - apply Hg.
  - intros p Hp. rewrite HLp. by apply Hk.
  - intros p l x. rewrite HLp. intros HL Hx. destruct (so_ready _ _ Hk _ _ _ HL Hx) as (t & td & ? & ? & ?).
    exists t, td. eauto.
  - intros t td Et Hst. rewrite HLp. destruct (Hnew _ _ Et) as [Et0|(E & _)]; [by apply (so_on_list _ _ Hk)|by rewrite E in Hst].
  - intros t td Et. destruct (Hnew _ _ Et) as [Et0|(_ & _ & HL)]; [|by left].
    destruct (so_linked _ _ Hk _ _ Et0) as [HL|(hd & l & HL & Hin)]; [left; by apply grown_task_list|right].
    exists hd, l. split; [|done]. apply grown_task_list; [by eapply (ko_typed _ _ _ _ Hko)|done].
  - intros t td Et Hst. destruct (Hnew _ _ Et) as [Et0|(E & _)]; [|by rewrite E in Hst].
    apply grown_task_list; [done|]. by apply (so_detached _ _ Hk _ _ Et0).
  - intros t td Et Hst. destruct (Hnew _ _ Et) as [Et0|(E & _)]; [by apply (so_site _ _ Hk _ _ Et0)|done].
  - intros t td Et Hst. destruct (Hnew _ _ Et) as [Et0|(E & _)]; [by apply (so_running _ _ Hk _ _ Et0)|by rewrite E in Hst].
  - intros t Ht. destruct (so_current _ _ Hk _ Ht) as [td Et]. exists td. by apply Hold.
  - eapply rv_ok_ext; [apply Hk|]. intros q. unfold ready_nonempty. by rewrite HLp.
Qed.

Lemma delays_ok_grows : delays_ok k' L' dl.
Proof.
  destruct (ko_delays _ _ _ _ Hko) as [Hl Ho Ht]. split; rewrite ?Hdel.
  - rewrite grown_list; [done|done|]. intros [[= E]|[j [=]]]. by apply Hc.
  - intros d Hd. destruct (Ho d Hd) as (x & td & ? & ? & ? & ?). exists x, td. eauto.
  - intros t td d Et Ed. destruct (Hnew _ _ Et) as [Et0|(_ & E & _)]; [|congruence].
    destruct (Ht t td d Et0 Ed) as (x & Ex & ? & Hal & ? & Hun). exists x. split_and!; [done|done|by apply (gr_alloc _ _ _ _ _ _ Hg)|done|].
    assert (object_link c (ObjLink CDelay d) = false) as Ho' by (by apply bool_decide_eq_false; intros <-).
    intros Hs hd l HL Hx. apply elem_of_cons in Hx as [<-|Hx].
    { rewrite grown_list in HL by (done || by intros [?|[? ?]]). apply (Hun Hs _ _ HL). set_solver. }
    destruct (gr_members _ _ _ _ _ _ Hg _ _ _ HL Hx) as [[_ Hin]|(l0 & HL0 & Hx0)].
    + rewrite Forall_forall in Hxs. apply Hxs in Hin. congruence.
    + destruct (Hun Hs hd l0 HL0) as [_ ->]; [set_solver|]. by apply not_elem_of_nil in Hx0.
Qed.

Lemma kernel_ok_grows I' : ids_ok k' L' I' -> kernel_ok k' L' I' dl.
Proof.
  intros Hids. split; [apply sched_ok_grows| | |apply delays_ok_grows|done].
  - intros hd l x s Es HL Hx. assert (task_link hd = true) as Ht by (by destruct hd).
    destruct (grown_task_list_back hd l Ht HL) as [->|HL0]; [by apply not_elem_of_nil in Hx|].
    destruct (ko_member _ _ _ _ Hko _ _ _ _ Es HL0 Hx) as (t & td & ? & ? & ?). exists t, td. eauto.
  - intros hd l t HL Hx. destruct (gr_members _ _ _ _ _ _ Hg _ _ _ HL Hx) as [[[p [?|?]] _]|(l0 & HL0 & Hx0)]; [done..|].
    by eapply (ko_typed _ _ _ _ Hko).
Qed.

(** An object that is no task. *)
Lemma kernel_ok_object :
  c <> CTask -> tasks k' = tasks k -> managers k' !! CTask = managers k !! CTask ->
  (forall p, node_ids k' !! IdLink CTask p = node_ids k !! IdLink CTask p) -> kernel_ok k' L' I dl.
Proof.
  intros Hct Ets Em En. apply kernel_ok_grows. destruct (ko_ids _ _ _ _ Hko) as [(mgr & Emg & Hid) Hr Ht]. split.
  - exists mgr. eapply (grows_ids_of c xs k L k' L' CTask mgr I); [congruence|done..| |by split].
    intros i0 a Hi. destruct (Hr i0 a Hi) as (t & -> & _). by exists t.
  - intros i a Hi. rewrite Ets. by apply (Hr i).
  - intros t. rewrite Ets. apply Ht.
Qed.

End kernel.
End Creation.
