(* ===== verification/Deadlines.v ===== *)
(** * Deadlines: setting a task's delay and its expiry *)

From S2P Require Import Prelude DoubleLink IdManager Bitmap Kernel ReadyVector Assign Delay Task TaskInv.

Section Deadlines.
Context `{C : KConfig} `{D : PriorityReadyVectorDone}.
Implicit Types (k : kstate) (L : gmap link (list link)) (I : gmap Z link) (dl : list ptr).

(** ** Where a deadline goes *)

Definition deadline (ds : gmap ptr Delay) (d : ptr) : Z := default 0 (delay_ticks <$> ds !! d).

Definition later (ds : gmap ptr Delay) (ticks : Z) (d : ptr) : bool := bool_decide (ticks < deadline ds d).

Definition delay_position (ds : gmap ptr Delay) (ticks : Z) (dl : list ptr) : nat :=
  default (length dl) (fst <$> list_find (later ds ticks) dl).

(** In the order of the deadlines, as numbers of ticks. *)
Definition by_deadline (ds : gmap ptr Delay) (dl : list ptr) : Prop := sorted_by (deadline ds) dl.

(** ** Setting a delay *)

(** The deadlines after a delay was started. *)
Definition started (k : kstate) (d t : ptr) (ticks : Z) (ds : gmap ptr Delay) : gmap ptr Delay :=
  <[d := mkDelay t (u32 (heartbeat_ticks k + ticks)) TASK_DELAY_ACTIVE]> ds.

(** The delay list after [d] was linked in. *)
Definition with_delay (ds : gmap ptr Delay) (d : ptr) (dl : list ptr) : list ptr :=
  insert_nth (delay_position ds (deadline ds d) dl) d dl.

Section start.
Context k L I dl (t : ptr) (td : TaskDescriptor) (d : ptr) (ticks : Z).
Hypothesis Hko : kernel_ok k L I dl.
Hypothesis Et : tasks k !! t = Some td.
Hypothesis Ed : delay td = Some d.
Hypothesis Hdl : d ∉ dl.

Let ds := started k d t ticks (delays k).
Let n := delay_position ds (deadline ds d) dl.
Let L' := attach (ListHead CDelay) (ObjLink CDelay <$> insert_nth n d dl) (ObjLink CDelay d) L.

Lemma start_unlinked : unlinked L (ObjLink CDelay d) /\ alloc (links k) (ObjLink CDelay d).
Proof.
  destruct (do_task _ _ _ (ko_delays _ _ _ _ Hko) _ _ _ Et Ed) as (x & Ex & _ & Ha & Hact & Hin).
  split; [|done]. apply Hin. intros Hs. by apply Hdl, Hact.
Qed.

Lemma start_step h' :
  rep h' L' -> same_links (ObjLink CDelay d) (links k) h' ->
  delay_step k L (set_links h' (set_delays ds k)) L'.
Proof.
  intros HR [Ha Hn]. split; try done; [intros; apply same_but_delay_refl|intros y ?; by apply Ha|..].
  - intros y Hy. by apply Hn.
  - intros y Hy Hyd. by apply lookup_attach_ne.
Qed.

Lemma start_delays_ok h' :
  rep h' L' -> same_links (ObjLink CDelay d) (links k) h' ->
  delays_ok (set_links h' (set_delays ds k)) L' (with_delay ds d dl).
Proof.
  intros HR [Ha Hn]. destruct start_unlinked as [Hun Hal].
  pose proof (ko_delays _ _ _ _ Hko) as [Hl Ho Ht]. split.
  - unfold L'. by rewrite lookup_attach_eq.
  - intros d' Hd'. apply elem_of_insert_nth in Hd' as [->|Hd'].
    + eexists _, td. cbn. unfold ds, started. by rewrite lookup_insert_eq.
    + destruct (Ho d' Hd') as (x & td' & ? & ? & ? & ?). exists x, td'. cbn. unfold ds, started.
      rewrite lookup_insert_ne by congruence. done.
  - intros t' td' d' Et' Ed'. destruct (Ht t' td' d' Et' Ed') as (x & Ex & Hx & Ha' & Hact & Hin). cbn.
    unfold ds, started. destruct (decide (d' = d)) as [->|Hne].
    + rewrite lookup_insert_eq. eexists. split; [done|]. cbn.
      destruct (Ht t td d Et Ed) as (x' & Ex' & Hx' & _). rewrite Ex in Ex'. injection Ex' as <-.
      split_and!; [congruence|by apply Ha| |done]. intros _. apply elem_of_insert_nth. by left.
    + rewrite lookup_insert_ne by done. exists x. split_and!; [done|done|by apply Ha| |].
      * intros Hs. apply elem_of_insert_nth. auto.
      * intros Hs hd l HL Hx'. specialize (Hin Hs). unfold L' in HL.
        destruct (decide (hd = ListHead CDelay)) as [->|Hhd].
        { rewrite lookup_attach_eq in HL. injection HL as <-.
          apply elem_of_cons in Hx' as [?|Hx']; [done|].
          apply list_elem_of_fmap in Hx' as (d2 & [= <-] & Hx'). apply elem_of_insert_nth in Hx' as [?|Hx']; [done|].
          destruct (Hin _ _ Hl) as [? _]; [|done]. apply elem_of_cons. right. by apply list_elem_of_fmap_2. }
        { unfold attach in HL. rewrite lookup_insert_ne in HL by done. apply lookup_delete_Some in HL as [_ HL].
          by apply (Hin hd l). }
Qed.

Lemma start_ok h' :
  rep h' L' -> same_links (ObjLink CDelay d) (links k) h' ->
  kernel_ok (set_links h' (set_delays ds k)) L' I (with_delay ds d dl).
Proof.
  intros HR Hsl. eapply kernel_ok_delay; [exact Hko|by apply start_step|by apply start_delays_ok|].
  intros hd l t' HL Hin. unfold L' in HL. destruct (decide (hd = ListHead CDelay)) as [->|Hhd].
  - rewrite lookup_attach_eq in HL. injection HL as <-.
    apply list_elem_of_fmap in Hin as (? & [=] & _).
  - unfold attach in HL. rewrite lookup_insert_ne in HL by done. apply lookup_delete_Some in HL as [_ HL].
    by eapply (ko_typed _ _ _ _ Hko).
Qed.

Lemma deadline_started : deadline ds d = u32 (heartbeat_ticks k + ticks).
Proof. unfold deadline, ds, started. by rewrite lookup_insert_eq. Qed.

(** The walk of [KTaskSetDelay] ends at the first later deadline. *)
Lemma earlier_spec k' x d' :
  delays k' = ds -> x = ObjLink CDelay d' -> d' ∈ dl ->
  earlier d x k' = Ret (later ds (deadline ds d) d') k'.
Proof.
  intros Edl -> Hd'. destruct (do_owner _ _ _ (ko_delays _ _ _ _ Hko) d' Hd') as (x & _ & Ex & _).
  unfold earlier, obj_entry. rewrite bool_decide_true by done. unfold delay_get, mbind, M_bind, deref, get, mret, M_ret.
  unfold later. rewrite deadline_started.
  assert (deadline ds d' = delay_ticks x) as -> by (unfold deadline, ds, started; by rewrite lookup_insert_ne, Ex by congruence).
  rewrite Edl. unfold ds, started. rewrite lookup_insert_eq. cbn. rewrite Edl. unfold ds, started.
  rewrite lookup_insert_ne, Ex by congruence. f_equal.
  destruct (Z.ltb_spec (u32 (heartbeat_ticks k + ticks)) (delay_ticks x)); case_bool_decide; lia || done.
Qed.
End start.

(** The node that the walk ends at is the one at the position of the deadline. *)
Lemma find_position {A B : Type} (f : A -> B) (P : A -> bool) (R : B -> bool) (h : B) (l : list A) :
  (forall a, a ∈ l -> R (f a) = P a) ->
  default h (snd <$> list_find R (f <$> l)) =
  List.hd h (drop (default (length l) (fst <$> list_find P l)) (f <$> l)).
Proof.
  intros HP. induction l as [|a l IH]; [done|]. rewrite fmap_cons. cbn [list_find].
  assert (R (f a) = P a) as E by (apply HP; set_solver). destruct (P a) eqn:Ea.
  - rewrite !decide_True by (rewrite ?E; done). done.
  - rewrite !decide_False by (rewrite ?E, ?Ea; auto).
    specialize (IH ltac:(intros b Hb; apply HP; set_solver)).
    destruct (list_find (fun b => P b) l) as [[]|]; destruct (list_find (fun b => R b) (f <$> l)) as [[]|]; exact IH.
Qed.

Lemma wp_start_delay k L I dl t td d ticks (Q : Z -> kstate -> Prop) :
  kernel_ok k L I dl -> tasks k !! t = Some td -> delay td = Some d -> d ∉ dl ->
  0 <= KTaskOsAssignLockNest k < 2 ^ 15 - 1 ->
  (forall h' L', let ds := started k d t ticks (delays k) in
     kernel_ok (set_links h' (set_delays ds k)) L' I (with_delay ds d dl) ->
     delay_step k L (set_links h' (set_delays ds k)) L' -> Q EOK (set_links h' (set_delays ds k))) ->
  wp (start_delay d t ticks) Q k.
Proof.
  intros Hko Et Ed Hdl Hn HQ. set (ds := started k d t ticks (delays k)) in *.
  destruct (do_task _ _ _ (ko_delays _ _ _ _ Hko) _ _ _ Et Ed) as (x & Ex & _).
  unfold start_delay, CurrentTicksGain. wp_steps. eapply wp_delay_set; [exact Ex|]. wp_steps.
  eapply wp_delay_set; [apply lookup_insert_eq|]. wp_steps. eapply wp_delay_set; [apply lookup_insert_eq|].
  cbn [delays set_delays]. rewrite !insert_insert_eq. wp_steps. 
  apply wp_CriticalAreaLock; [cbn; lia|]. wp_steps.
  match goal with |- wp _ _ ?s => set (k1 := s) end.
  assert (k1 = locked (set_delays ds k)) as Ek1 by done.
  pose proof (so_rep _ _ (ko_sched _ _ _ _ Hko)) as HR.
  pose proof (do_list _ _ _ (ko_delays _ _ _ _ Hko)) as HL.
  pose proof (rep_first _ _ _ _ HR HL) as Hf.
  apply wp_klinks, wp_get_next; [by eapply alloc_nxt|]. change (links k1) with (links k). rewrite Hf.
  change (set_links (links k) k1) with k1. wp_steps. change (links k1) with (links k).
  apply (wp_for_each_until _ _ (fun y => match obj_entry CDelay y with
    Some d' => later ds (deadline ds d) d' | None => false end) k1 (links k) L _ [] (ObjLink CDelay <$> dl)).
  - done.
  - done.
  - intros y Hy. assert (alloc (links k) y) as [nd Hnd] by (eapply rep_alloc; [done..|set_solver]).
    unfold klinks, zoom, get_next, load, nxt, mbind, M_bind. change (links k1) with (links k). by rewrite Hnd.
  - intros y Hy. apply list_elem_of_fmap in Hy as (d' & -> & Hd').
    rewrite (earlier_spec k L I dl t d ticks Hko Hdl k1 (ObjLink CDelay d') d') by done.
    unfold obj_entry. by rewrite bool_decide_true by done.
  - pose proof (rep_length _ _ _ _ HR HL). lia.
  - rewrite (find_position (ObjLink CDelay) (later ds (deadline ds d))) 
      by (intros a Ha; unfold obj_entry; by rewrite bool_decide_true by done).
    fold (delay_position ds (deadline ds d) dl). set (n := delay_position ds (deadline ds d) dl).
    destruct (start_unlinked k L I dl t td d Hko Et Ed Hdl) as [Hun Hal].
    wp_steps. apply wp_klinks.
    apply (wp_DoubleLinkListInsertNodeBefore _ L (ListHead CDelay) (take n (ObjLink CDelay <$> dl))
             (drop n (ObjLink CDelay <$> dl))); [done|by rewrite take_drop|done|done|done|done|].
    intros h' HR' Hsl. wp_steps. apply wp_CriticalAreaUnLock; [cbn; lia|]. wp_steps.
    rewrite <- fmap_insert_nth in HR'.
    match goal with |- Q EOK ?s => assert (s = set_links h' (set_delays ds k)) as -> end.
    { unfold unlocked. cbn. by rewrite Z.add_simpl_r. }
    eapply HQ; [by eapply start_ok|by eapply start_step].
Qed.

Lemma delay_step_trans k0 L0 k1 L1 k2 L2 : delay_step k0 L0 k1 L1 -> delay_step k1 L1 k2 L2 -> delay_step k0 L0 k2 L2.
Proof.
  intros [R0 T0 V0 U0 I0 M0 A0 N0 F0] [R1 T1 V1 U1 I1 M1 A1 N1 F1]. split; try congruence; auto.
  - intros t. specialize (T0 t). specialize (T1 t).
    destruct (tasks k0 !! t), (tasks k1 !! t), (tasks k2 !! t); cbn in *; try done. by rewrite T1, T0.
  - intros y Hy Hyd. by rewrite F1, F0.
Qed.

(** A block of memory that [x_malloc] may return for a [Delay]. *)
Definition fresh_delay (k : kstate) (d : ptr) : Prop :=
  links k !! ObjLink CDelay d = None /\ delays k !! d = None.

(** The kernel after a task got a new, inactive [Delay]. *)
Lemma new_delay_ok k L I dl t td d :
  kernel_ok k L I dl -> tasks k !! t = Some td -> delay td = None -> fresh_delay k d ->
  let k' := set_tasks (<[t := set_delay (Some d) td]> (tasks k))
              (set_delays (<[d := mkDelay t 0 TASK_DELAY_INACTIVE]> (delays k))
                 (set_links (<[ObjLink CDelay d := mkNode None None]> (links k)) k)) in
  kernel_ok k' L I dl /\ delay_step k L k' L /\ d ∉ dl.
Proof.
  intros Hko Et Ed [Hnl Hnd] k'. pose proof (so_rep _ _ (ko_sched _ _ _ _ Hko)) as HR.
  assert (forall hd l, L !! hd = Some l -> ObjLink CDelay d ∉ hd :: l) as Hout.
  { intros hd l HL Hin. destruct (rep_alloc _ _ _ _ _ HR HL Hin) as [? E]. congruence. }
  assert (delay_step k L k' L) as Hs.
  { split; try done; cbn.
    - split; [|apply HR..]. intros hd l HL. apply (chain_frame (links k)); [..|by apply (rep_chain _ _ HR)];
        intros y Hy; [|apply elem_of_rotate in Hy]; unfold nxt, prv; rewrite lookup_insert_ne; try done;
        intros <-; by apply (Hout hd l HL).
    - intros y. destruct (decide (y = t)) as [->|]; [by rewrite lookup_insert_eq, Et|].
      rewrite lookup_insert_ne by done. apply same_but_delay_refl.
    - intros y [nd Hy]. unfold alloc. cbn. destruct (decide (y = ObjLink CDelay d)) as [->|]; [congruence|].
      rewrite lookup_insert_ne by done. by eexists.
    - intros y Hy Hp. unfold prv. by rewrite lookup_insert_ne by (intros <-; by apply (Hy d)). }
  assert (d ∉ dl) as Hdl.
  { intros Hin. apply (Hout _ _ (do_list _ _ _ (ko_delays _ _ _ _ Hko))).
    apply elem_of_cons. right. by apply list_elem_of_fmap_2. }
  split_and!; [|done|done]. pose proof (ko_delays _ _ _ _ Hko) as [Hl Ho Ht].
  eapply kernel_ok_delay; [exact Hko|exact Hs| |apply Hko]. split; cbn.
  - done.
  - intros d' Hd'. destruct (Ho d' Hd') as (x & td' & Ex & ? & Et' & Ed'). exists x.
    rewrite lookup_insert_ne by (intros ->; done).
    destruct (decide (delay_task x = t)) as [<-|Hne]; [exfalso; congruence|].
    exists td'. by rewrite lookup_insert_ne.
  - intros t' td' d' [[<- <-]|[Hne Et']]%lookup_insert_Some Ed'.
    + injection Ed' as <-. rewrite lookup_insert_eq. eexists. split; [done|]. split; [done|].
      split; [unfold alloc; rewrite lookup_insert_eq; by eexists|]. split; [done|].
      intros _ hd l HL Hx. by destruct (Hout hd l HL).
    + destruct (Ht t' td' d' Et' Ed') as (x & Ex & ? & Ha & ? & ?). exists x.
      rewrite lookup_insert_ne by congruence. split_and!; try done. by apply (ds_alloc _ _ _ _ Hs).
Qed.

Lemma wp_KTaskSetDelay k L I dl mem t td ticks (Q : Z -> kstate -> Prop) :
  kernel_ok k L I dl -> tasks k !! t = Some td -> 0 <= KTaskOsAssignLockNest k < 2 ^ 15 - 2 ->
  (forall d, delay td = None -> mem = Some d -> fresh_delay k d) ->
  (delay td = None -> mem = None -> Q (- ENOMEMORY) k) ->
  (forall d h' ds L', (delay td = Some d \/ delay td = None /\ mem = Some d) ->
     let k' := set_links h' (set_delays ds (set_tasks (<[t := set_delay (Some d) td]> (tasks k)) k)) in
     kernel_ok k' L' I (with_delay ds d (unset td dl)) -> delay_step k L k' L' ->
     ds !! d = Some (mkDelay t (u32 (heartbeat_ticks k + ticks)) TASK_DELAY_ACTIVE) ->
     (forall d', d' <> d -> ds !! d' = delays k !! d') -> Q EOK k') ->
  wp (KTaskSetDelay mem t ticks) Q k.
Proof.
  intros Hko Et Hn Hfresh HQ1 HQ2. pose proof (so_rep _ _ (ko_sched _ _ _ _ Hko)) as HR.
  unfold KTaskSetDelay. wp_steps. eapply wp_task_get; [exact Et|]. wp_steps. unfold unset in HQ2.
  destruct (delay td) as [d|] eqn:Ed.
  - specialize (HQ2 d). rewrite insert_id in HQ2 by (rewrite Et; by destruct td; cbn in *; subst).
    destruct (do_task _ _ _ (ko_delays _ _ _ _ Hko) _ _ _ Et Ed) as (x & Ex & Hx & Ha & Hact & Hin).
    wp_steps. apply wp_CriticalAreaLock; [lia|]. wp_steps. eapply wp_delay_get; [exact Ex|].
    destruct (Z.eqb_spec (delay_status x) TASK_DELAY_ACTIVE) as [Es|Es].
    + specialize (Hact Es). wp_steps. eapply wp_delay_set; [exact Ex|]. wp_steps. apply wp_klinks.
      apply (wp_DoubleLinkListRmNode _ L); [exact HR| |].
      { right. eexists _, _. split; [apply (do_list _ _ _ (ko_delays _ _ _ _ Hko))|]. by apply list_elem_of_fmap_2. }
      intros h' HR' Hsl. wp_steps. apply wp_CriticalAreaUnLock; [cbn; lia|]. wp_steps.
      match goal with |- wp _ _ ?s => assert (s = set_links h' (set_delays
        (<[d := set_delay_status TASK_DELAY_INACTIVE x]> (delays k)) k)) as -> end.
      { unfold unlocked, locked. cbn. by rewrite Z.add_simpl_r. }
      eapply wp_start_delay; [by eapply remove_delay_ok|exact Et|done| |cbn; lia|].
      { intros [? _]%elem_of_without. done. }
      intros h2 L2 ds2 Hko2 Hs2. apply (HQ2 h2 ds2 L2); [by left|exact Hko2| | |].
      * eapply delay_step_trans; [by eapply remove_delay_step|exact Hs2].
      * apply lookup_insert_eq.
      * intros d' Hne. unfold ds2, started. cbn. by rewrite !lookup_insert_ne.
    + wp_steps. apply wp_CriticalAreaUnLock; [cbn; lia|]. rewrite unlocked_locked. wp_steps.
      assert (d ∉ dl) as Hdl.
      { intros Hd. destruct (do_owner _ _ _ (ko_delays _ _ _ _ Hko) d Hd) as (x' & _ & Ex' & Hs & _). congruence. }
      rewrite without_not_in in HQ2 by done.
      eapply wp_start_delay; [exact Hko|done|done|done|lia|].
      intros h2 L2 ds2 Hko2 Hs2. apply (HQ2 h2 ds2 L2); [by left|exact Hko2|exact Hs2| |].
      * apply lookup_insert_eq.
      * intros d' Hne. unfold ds2, started. by rewrite !lookup_insert_ne.
  - destruct mem as [d|]; wp_steps; [|by apply HQ1].
    eapply wp_task_set; [exact Et|]. wp_steps.
    destruct (new_delay_ok k L I dl t td d Hko Et Ed (Hfresh d eq_refl eq_refl)) as (Hko1 & Hs1 & Hdl).
    eapply wp_start_delay; [exact Hko1|apply lookup_insert_eq|done|done|cbn; lia|].
    intros h2 L2 ds2 Hko2 Hs2. apply (HQ2 d h2 ds2 L2); [by right|exact Hko2| | |].
    + by eapply delay_step_trans.
    + apply lookup_insert_eq.
    + intros d' Hne. unfold ds2, started. cbn. by rewrite !lookup_insert_ne.
Qed.

Context `{CO : !KConfigOk C} `{DL : !ReadyVectorLaws D}.

(** The list stays in order: starting [d] changes no other deadline of the list. *)
Lemma with_delay_sorted k L I dl mem t td d ds :
  kernel_ok k L I dl -> by_deadline (delays k) dl -> tasks k !! t = Some td ->
  (forall d, delay td = None -> mem = Some d -> fresh_delay k d) ->
  delay td = Some d \/ delay td = None /\ mem = Some d ->
  (forall d', d' <> d -> ds !! d' = delays k !! d') ->
  by_deadline ds (with_delay ds d (unset td dl)) /\
  forall d', d' ∈ unset td dl -> d' ∈ dl /\ deadline ds d' = deadline (delays k) d'.
Proof.
  intros Hko Hby Et Hfresh Hor Hds.
  assert (forall d', d' ∈ unset td dl -> d' ∈ dl /\ d' <> d) as Hin.
  { intros d' Hd'. unfold unset in Hd'. destruct Hor as [Hor|[Hor Hmem]]; rewrite Hor in Hd'.
    - by apply elem_of_without in Hd' as [? ?].
    - split; [done|]. intros ->. destruct (do_owner _ _ _ (ko_delays _ _ _ _ Hko) d Hd') as (x & _ & Ex & _).
      destruct (Hfresh d Hor Hmem) as [_ ?]. congruence. }
  assert (forall d', d' ∈ unset td dl -> deadline ds d' = deadline (delays k) d') as Hdd.
  { intros d' Hd'. unfold deadline. rewrite Hds; [done|]. by apply Hin. }
  split; [|intros d' Hd'; split; [by apply Hin|by apply Hdd]].
  apply sorted_by_insert; [done|]. apply (sorted_by_ext (deadline (delays k))); [done|].
  unfold unset. destruct (delay td); [by apply sorted_by_without|done].
Qed.

(** Setting a delay.  Only a failed allocation makes it fail, without an
    effect.  Otherwise the task owns an active delay with the deadline [ticks]
    from now, any earlier delay of the task is cancelled, the delay list gains
    just this entry and keeps its order. *)
Theorem KTaskSetDelay_correct k L I dl mem t td ticks :
  kernel_ok k L I dl -> by_deadline (delays k) dl -> tasks k !! t = Some td ->
  0 <= KTaskOsAssignLockNest k < 2 ^ 15 - 2 ->
  (forall d, delay td = None -> mem = Some d -> fresh_delay k d) ->
  wp (KTaskSetDelay mem t ticks) (fun ret k' =>
    (ret = - ENOMEMORY /\ k' = k /\ delay td = None /\ mem = None) \/
    (ret = EOK /\ exists d L' dl', kernel_ok k' L' I dl' /\ by_deadline (delays k') dl' /\
       dl' ≡ₚ d :: unset td dl /\ tasks k' = <[t := set_delay (Some d) td]> (tasks k) /\
       delays k' !! d = Some (mkDelay t (u32 (heartbeat_ticks k + ticks)) TASK_DELAY_ACTIVE))) k.
Proof.
  intros Hko Hby Et Hn Hfresh. eapply wp_KTaskSetDelay; [done..|by left|].
  intros d h' ds L' Hor k' Hko' Hs Ed Hds. right. split; [done|].
  exists d, L', (with_delay ds d (unset td dl)). split; [exact Hko'|]. split_and!; [| |done|exact Ed].
  - by eapply with_delay_sorted.
  - unfold with_delay, insert_nth. by rewrite <- Permutation_middle, take_drop.
Qed.

(** ** Expiry in the tick interrupt *)

(** What the expiry of its delay does to a task. *)
Definition time_out (td : TaskDescriptor) : TaskDescriptor :=
  if stat_of td =? KTASK_SUSPEND then as_stat KTASK_READY (set_exstatus (- ETIMEOUT) td) else td.

(** The state without what the tick interrupt changes. *)
Definition tick_core (k : kstate) : kstate := set_isr_switch_trigger_flag 0 (core k).

Lemma wp_DO_KTASK_ASSIGN_isr k (Q : unit -> kstate -> Prop) :
  KTaskOsAssignLockNest k = 0 -> isr_count k <> 0 -> Q tt (set_isr_switch_trigger_flag 1 k) ->
  wp DO_KTASK_ASSIGN Q k.
Proof.
  intros Hn Hisr HQ. unfold DO_KTASK_ASSIGN, NOT_IN_CRITICAL_AREA, GetOsAssignLockLevel.
  wp_steps. rewrite Hn. change (u16 0 =? 0) with true. wp_steps.
  unfold DISABLE_INTERRUPT, ENABLE_INTERRUPT. wp_steps.
  eapply wp_run; [by apply KTaskOsAssign_deferred|]. by wp_steps.
Qed.

Lemma wp_KTaskTimeout k L I dl t td (Q : unit -> kstate -> Prop) :
  kernel_ok k L I dl -> tasks k !! t = Some td -> KTaskOsAssignLockNest k = 0 -> isr_count k <> 0 ->
  (forall k' L', kernel_ok k' L' I dl -> tick_core k' = tick_core k -> delays k' = delays k ->
     tasks k' = <[t := time_out td]> (tasks k) ->
     isr_switch_trigger_flag k' = (if stat_of td =? KTASK_SUSPEND then 1 else isr_switch_trigger_flag k) -> Q tt k') ->
  wp (KTaskTimeout t) Q k.
Proof.
  intros Hko Et Hn Hisr HQ. unfold KTaskTimeout, JudgeKTaskStatIsSuspend, time_out in *. wp_steps.
  apply wp_CriticalAreaLock; [lia|]. wp_steps. eapply wp_task_get; [exact Et|].
  destruct (Z.eqb_spec (stat_of td) KTASK_SUSPEND) as [Es|Es].
  - set (td1 := set_exstatus (- ETIMEOUT) td) in *. wp_steps. eapply wp_task_set; [exact Et|]. fold td1. wp_steps.
    set (k1 := set_tasks (<[t := td1]> (tasks (locked k))) (locked k)).
    assert (kernel_ok k1 L I dl) as Hko1.
    { eapply (kernel_ok_update (locked k) L I dl t td td1); [by eapply kernel_ok_fields|done|done]. }
    assert (tasks k1 !! t = Some td1) as Et1 by apply lookup_insert_eq.
    pose proof (ko_sched _ _ _ _ Hko1) as Hk1. apply wp_klinks.
    apply (wp_DoubleLinkListRmNode _ L); [apply Hk1|by apply (so_linked _ _ Hk1 _ _ Et1)|].
    intros h2 HR2 Hsl. wp_steps.
    assert (kernel_ok (set_links h2 k1) (detach (SchedLink t) L) I dl) as Hko2.
    { eapply (kernel_ok_detach k1 L I dl t td1 td1); try done; [cbn; by rewrite insert_insert_eq|].
      apply (sched_ok_detach k1 L h2 t td1); [done|done| |done]. by change (stat_of td1) with (stat_of td); rewrite Es. }
    eapply (wp_make_ready _ _ I dl t td1); [exact Hko2|done| |apply lookup_detach_eq|].
    { by change (stat_of td1) with (stat_of td); rewrite Es. }
    intros k3 L3 Hko3 [Hcore _ _ _] Hdel Ets _. wp_steps.
    assert (KTaskOsAssignLockNest k3 = KTaskOsAssignLockNest k + 1) as En.
    { change (KTaskOsAssignLockNest (core k3) = KTaskOsAssignLockNest k + 1). by rewrite Hcore. }
    apply wp_CriticalAreaUnLock; [lia|]. apply wp_DO_KTASK_ASSIGN_isr.
    { cbn. lia. }
    { change (isr_count (core k3) <> 0). by rewrite Hcore. }
    eapply (HQ _ L3); [by eapply kernel_ok_fields| |done| |done].
    + change (unlocked (interrupts k) (tick_core k3) = tick_core k). unfold tick_core. rewrite Hcore.
      unfold core, unlocked, locked. cbn. by rewrite Z.add_simpl_r.
    + change (tasks k3 = <[t := as_stat KTASK_READY td1]> (tasks k)). rewrite Ets. cbn. by rewrite insert_insert_eq.
  - apply wp_CriticalAreaUnLock; [cbn; lia|]. rewrite unlocked_locked.
    apply (HQ k L); [done..| |done]. by rewrite insert_id.
Qed.

(** The test of the loop: the deadline lies at most half the range of the
    counter back. *)
Definition expired (now : Z) (ds : gmap ptr Delay) (d : ptr) : bool :=
  u32 (now - deadline ds d) <? TICK_SIZE_MAX / 2.

Definition wake (ds : gmap ptr Delay) (ts : gmap ptr TaskDescriptor) (d : ptr) : gmap ptr TaskDescriptor :=
  match ds !! d with Some x => alter time_out (delay_task x) ts | None => ts end.

(** The expiry of [d] wakes a task. *)
Definition wakes (ds : gmap ptr Delay) (ts : gmap ptr TaskDescriptor) (d : ptr) : Prop :=
  exists x td, ds !! d = Some x /\ ts !! delay_task x = Some td /\ stat_of td = KTASK_SUSPEND.

Lemma same_delays_deadline ds ds' d : same_delays ds ds' -> deadline ds' d = deadline ds d.
Proof.
  intros Hs. specialize (Hs d). unfold deadline.
  destruct (ds !! d), (ds' !! d); try done. cbn in *. by injection Hs.
Qed.

Lemma same_delays_wake ds ds' ts d : same_delays ds ds' -> wake ds' ts d = wake ds ts d.
Proof.
  intros Hs. specialize (Hs d). unfold wake. destruct (ds !! d), (ds' !! d); try done. cbn in Hs.
  injection Hs as E _. by rewrite E.
Qed.

Lemma foldl_wake ds ds' ts due : same_delays ds ds' -> foldl (wake ds') ts due = foldl (wake ds) ts due.
Proof.
  intros Hs. revert ts. induction due as [|d due IH]; intros ts; [done|]. cbn.
  by rewrite (same_delays_wake ds ds'), IH.
Qed.

Lemma wp_check_delays now level fuel k L I dl (Q : bool -> kstate -> Prop) :
  kernel_ok k L I dl -> (length dl < fuel)%nat -> now = heartbeat_ticks k ->
  KTaskOsAssignLockNest k = 1 -> isr_count k <> 0 -> interrupts k = false ->
  (forall k' L' due rest, dl = due ++ rest -> Forall (expired now (delays k)) due ->
     (forall d, head rest = Some d -> expired now (delays k) d = false) ->
     kernel_ok k' L' I rest -> same_delays (delays k) (delays k') -> tick_core k' = tick_core k ->
     tasks k' = foldl (wake (delays k)) (tasks k) due ->
     (isr_switch_trigger_flag k <> 0 \/ Exists (wakes (delays k) (tasks k)) due -> isr_switch_trigger_flag k' <> 0) ->
     Q level k') ->
  wp (check_delays fuel level now) Q k.
Proof.
  revert k L dl. induction fuel as [|fuel IH]; intros k L dl Hko Hf Enow Hn Hisr Hint HQ; [lia|].
  cbn [check_delays]. pose proof (so_rep _ _ (ko_sched _ _ _ _ Hko)) as HR.
  pose proof (do_list _ _ _ (ko_delays _ _ _ _ Hko)) as HL. wp_steps. apply wp_klinks.
  eapply (wp_IsDoubleLinkListEmpty _ L); [done|exact HL|]. rewrite set_links_id.
  destruct dl as [|d dl].
  { rewrite bool_decide_true by done. apply wp_ret. apply (HQ k L [] []); try done. by intros [?|?%Exists_nil]. }
  rewrite bool_decide_false by done. wp_steps. apply wp_klinks.
  pose proof (rep_first _ _ _ _ HR HL) as Hfst. apply wp_get_next; [by eapply alloc_nxt|].
  rewrite Hfst, set_links_id. cbn [List.hd fmap list_fmap]. wp_steps.
  unfold obj_entry at 1. cbn [mbind option_bind]. rewrite bool_decide_true by done. wp_steps.
  destruct (do_owner _ _ _ (ko_delays _ _ _ _ Hko) d) as (x & td & Ex & Es & Et & Ed); [set_solver|].
  eapply wp_delay_get; [exact Ex|].
  assert (expired now (delays k) d = (u32 (now - delay_ticks x) <? TICK_SIZE_MAX / 2)) as Eexp
    by (unfold expired, deadline; by rewrite Ex).
  rewrite <- Eexp. destruct (expired now (delays k) d) eqn:E.
  2:{ apply wp_ret. apply (HQ k L [] (d :: dl)); try done; [by intros ? [= <-]|by intros [?|?%Exists_nil]]. }
  unfold CurrentTicksGain. wp_steps. eapply wp_delay_get; [exact Ex|]. wp_steps.
  eapply wp_KTaskUnSetDelay; [exact Hko|exact Et|lia|]. intros h1 ds1 L1 Hko1 [_ _ _ Hds1] _. cbn [delays set_links set_delays] in Hds1. wp_steps.
  assert (unset td (d :: dl) = dl) as Eun.
  { unfold unset. rewrite Ed. pose proof (rep_nodup _ _ HR _ _ HL) as [_ Hnd]%NoDup_cons.
    apply NoDup_fmap_1, NoDup_cons in Hnd as [Hd _].
    rewrite (without_middle d [] dl); [done|set_solver|done]. }
  rewrite Eun in Hko1. apply wp_CriticalAreaUnLock; [cbn; lia|].
  set (k1 := unlocked level (set_links h1 (set_delays ds1 k))).
  assert (kernel_ok k1 L1 I dl) as Hko1' by by eapply kernel_ok_fields.
  assert (exists x1, ds1 !! d = Some x1 /\ delay_task x1 = delay_task x) as (x1 & Ex1 & Etx).
  { specialize (Hds1 d). rewrite Ex in Hds1. destruct (ds1 !! d) as [x1|]; [|done]. exists x1.
    split; [done|]. by injection Hds1. }
  wp_steps. eapply wp_delay_get; [exact Ex1|]. rewrite Etx. wp_steps.
  eapply wp_KTaskTimeout; [exact Hko1'|exact Et|cbn; lia|done|]. intros k2 L2 Hko2 Hcore Hdel Ets Hflag. wp_steps.
  assert (KTaskOsAssignLockNest k2 = 0 /\ isr_count k2 = isr_count k /\ heartbeat_ticks k2 = now /\ interrupts k2 = level)
    as (En2 & Eisr2 & Enow2 & Eint2).
  { change (KTaskOsAssignLockNest (tick_core k2) = 0 /\ isr_count (tick_core k2) = isr_count k /\
      heartbeat_ticks (tick_core k2) = now /\ interrupts (tick_core k2) = level). rewrite Hcore.
    split_and!; [cbn; lia|done..]. }
  apply wp_CriticalAreaLock; [lia|]. rewrite Eint2. replace (heartbeat_ticks k) with now.
  assert (same_delays (delays k) (delays (locked k2))) as Hsd by (change (same_delays (delays k) (delays k2)); by rewrite Hdel).
  eapply (IH (locked k2) L2 dl); [by eapply kernel_ok_fields|cbn in Hf; lia|done|cbn; lia|cbn; congruence|done|].
  intros k3 L3 due rest Edl Hdue Hrest Hko3 Hs3 Hcore3 Ets3 Hflag3.
  apply (HQ k3 L3 (d :: due) rest); [by rewrite Edl| | |done| | | |].
  - apply Forall_cons. split; [by rewrite E|]. eapply Forall_impl; [exact Hdue|]. intros y. unfold expired.
    by rewrite (same_delays_deadline _ _ _ Hsd).
  - intros y Hy. specialize (Hrest y Hy). unfold expired in *. by rewrite (same_delays_deadline _ _ _ Hsd) in Hrest.
  - intros y. by rewrite (Hs3 y), (Hsd y).
  - rewrite Hcore3. change (tick_core (locked k2)) with (locked (tick_core k2)). rewrite Hcore.
    unfold tick_core, locked, core, k1, unlocked. cbn. rewrite Z.sub_add, <- Hint. done.
  - rewrite Ets3, (foldl_wake _ _ _ _ Hsd). cbn [foldl]. f_equal. change (tasks (locked k2)) with (tasks k2).
    rewrite Ets. unfold wake. rewrite Ex. change (tasks k1) with (tasks k).
    apply map_eq. intros y. destruct (decide (y = delay_task x)) as [->|].
    + rewrite lookup_insert_eq, lookup_alter_eq, Et. done.
    + by rewrite lookup_insert_ne, lookup_alter_ne by done.
  - intros Hor. apply Hflag3. change (isr_switch_trigger_flag (locked k2)) with (isr_switch_trigger_flag k2).
    change (tasks (locked k2)) with (tasks k2). rewrite Hflag, Ets. destruct (Z.eqb_spec (stat_of td) KTASK_SUSPEND) as [Est|Est]; [by left|].
    destruct Hor as [?|Hex]; [by left|right]. apply Exists_cons in Hex as [(x' & td' & Ex' & Et' & ?)|Hex]; [congruence|].
    eapply Exists_impl; [exact Hex|]. intros d' (x' & td' & Ex' & Et' & Hst'). pose proof (Hsd d') as Hd'. rewrite Ex' in Hd'.
    destruct (delays (locked k2) !! d') as [x2|] eqn:Ex2; [|done]. injection Hd' as Etask _. exists x2, td'.
    rewrite Etask, lookup_insert_ne by congruence. done.
Qed.

Definition among (o : option ptr) (l : list ptr) : bool :=
  match o with Some d => bool_decide (d ∈ l) | None => false end.

Lemma lookup_foldl_wake ds due ts t td o :
  (forall d, d ∈ due -> exists x, ds !! d = Some x /\ (delay_task x = t <-> o = Some d)) ->
  NoDup due -> ts !! t = Some td ->
  foldl (wake ds) ts due !! t = Some (if among o due then time_out td else td).
Proof.
  revert ts td. induction due as [|d due IH]; intros ts td Hd Hnd Et.
  { destruct o; cbn; [by rewrite bool_decide_false by apply not_elem_of_nil|done]. }
  apply NoDup_cons in Hnd as [Hnin Hnd]. destruct (Hd d) as (x & Ex & Hx); [set_solver|]. cbn [foldl].
  unfold wake at 2. rewrite Ex. destruct (decide (delay_task x = t)) as [E|E].
  - rewrite (IH _ (time_out td)); [|set_solver|done|by rewrite E, lookup_alter_eq, Et].
    apply Hx in E as ->. cbn. rewrite bool_decide_false by done. by rewrite bool_decide_true by set_solver.
  - rewrite (IH _ td); [|set_solver|done|by rewrite lookup_alter_ne]. destruct o as [d'|]; [|done]. cbn.
    assert (d' <> d) by (intros ->; apply E; by apply Hx).
    by rewrite (bool_decide_ext (d' ∈ d :: due) (d' ∈ due)) by set_solver.
Qed.

(** The deadlines and the current tick are less than half the range of the
    counter apart, and none of them wrapped around. *)
Definition in_range (k : kstate) (dl : list ptr) : Prop :=
  0 <= heartbeat_ticks k < 2 ^ 32 /\
  forall d, d ∈ dl -> 0 <= deadline (delays k) d < 2 ^ 32 /\
    - 2 ^ 31 <= heartbeat_ticks k - deadline (delays k) d < 2 ^ 31 - 1.

Lemma expired_in_range k dl d : in_range k dl -> d ∈ dl ->
  expired (heartbeat_ticks k) (delays k) d = (deadline (delays k) d <=? heartbeat_ticks k).
Proof.
  intros [Hnow Hdl] Hd. destruct (Hdl d Hd) as [H1 H2]. unfold expired, u32.
  change (TICK_SIZE_MAX / 2) with (2 ^ 31 - 1).
  destruct (Z.leb_spec (deadline (delays k) d) (heartbeat_ticks k)).
  - rewrite Z.mod_small by lia. apply Z.ltb_lt. lia.
  - rewrite <- (Z_mod_plus_full _ 1), Z.mod_small by lia. apply Z.ltb_ge. lia.
Qed.

Lemma wp_CheckTaskDelay k L I dl (Q : unit -> kstate -> Prop) :
  kernel_ok k L I dl -> by_deadline (delays k) dl -> in_range k dl ->
  KTaskOsAssignLockNest k = 0 -> isr_count k <> 0 ->
  (forall k' L' due rest, dl = due ++ rest ->
     (forall d, d ∈ due -> deadline (delays k) d <= heartbeat_ticks k) ->
     (forall d, d ∈ rest -> heartbeat_ticks k < deadline (delays k) d) ->
     kernel_ok k' L' I rest -> same_delays (delays k) (delays k') -> tick_core k' = tick_core k ->
     (forall t td, tasks k !! t = Some td ->
        tasks k' !! t = Some (if among (delay td) due then time_out td else td)) ->
     (isr_switch_trigger_flag k <> 0 \/ Exists (wakes (delays k) (tasks k)) due -> isr_switch_trigger_flag k' <> 0) ->
     Q tt k') ->
  wp CheckTaskDelay Q k.
Proof.
  intros Hko Hby Hr Hn Hisr HQ. unfold CheckTaskDelay, CurrentTicksGain. wp_steps.
  apply wp_CriticalAreaLock; [lia|]. wp_steps.
  pose proof (do_list _ _ _ (ko_delays _ _ _ _ Hko)) as HL. pose proof (so_rep _ _ (ko_sched _ _ _ _ Hko)) as HR.
  pose proof (rep_length _ _ _ _ HR HL) as Hlen. rewrite length_fmap in Hlen.
  eapply (wp_check_delays _ _ _ (locked k) L I dl); [by eapply kernel_ok_fields|cbn; lia|done|cbn; lia|done|done|].
  intros k' L' due rest Edl Hdue Hrest Hko' Hsd Hcore Ets Hflag. cbn [delays locked] in *.
  change (delays (locked k)) with (delays k) in *.
  assert (KTaskOsAssignLockNest k' = 1) as En.
  { change (KTaskOsAssignLockNest (tick_core k') = 1). rewrite Hcore. cbn. lia. }
  apply wp_CriticalAreaUnLock; [lia|]. eapply (HQ _ L' due rest Edl); [| |by eapply kernel_ok_fields|done| | |done].
  - rewrite Forall_forall in Hdue. intros d Hd. apply Z.leb_le. rewrite <- (expired_in_range k dl) by (done || set_solver).
    specialize (Hdue d Hd). by destruct (expired _ _ d).
  - destruct rest as [|d0 rest]; [set_solver|]. specialize (Hrest d0 eq_refl).
    rewrite (expired_in_range k dl) in Hrest by (done || set_solver). apply Z.leb_gt in Hrest.
    subst dl. apply sorted_by_app in Hby. intros d [->|Hd]%elem_of_cons; [lia|].
    pose proof (sorted_by_head _ _ _ _ Hby Hd). lia.
  - change (tick_core (unlocked (interrupts k) k')) with (unlocked (interrupts k) (tick_core k')). rewrite Hcore.
    unfold tick_core, core, unlocked, locked. cbn. by rewrite Z.add_simpl_r.
  - intros t td Et. change (tasks (unlocked (interrupts k) k')) with (tasks k'). rewrite Ets.
    change (tasks (locked k)) with (tasks k). apply lookup_foldl_wake; [|subst dl|done].
    + intros d Hd. destruct (do_owner _ _ _ (ko_delays _ _ _ _ Hko) d) as (x & td' & Ex & _ & Et' & Ed); [set_solver|].
      exists x. split; [done|]. split; [intros <-; congruence|]. intros Ed'.
      destruct (do_task _ _ _ (ko_delays _ _ _ _ Hko) t td d Et Ed') as (x' & Ex' & ? & _). congruence.
    + pose proof (rep_nodup _ _ HR _ _ HL) as [_ Hnd]%NoDup_cons. apply NoDup_fmap_1, NoDup_app in Hnd. apply Hnd.
Qed.

(** C19: in the tick interrupt, while neither the deadlines nor the tick counter wrapped
    around ([in_range]; a delay across the wrap expires too late, see Defects.v),
    [CheckTaskDelay] terminates and expires exactly the delays whose deadline has
    come: their suspended tasks become READY with status -ETIMEOUT, all other
    tasks keep their descriptor, the other delays stay in the list and the
    invariant is kept. *)
Theorem CheckTaskDelay_expires k L I dl :
  kernel_ok k L I dl -> by_deadline (delays k) dl -> in_range k dl ->
  KTaskOsAssignLockNest k = 0 -> isr_count k <> 0 ->
  wp CheckTaskDelay (fun _ k' =>
    let due := filter (fun d => deadline (delays k) d <= heartbeat_ticks k) dl in
    tick_core k' = tick_core k /\
    (exists L', kernel_ok k' L' I (filter (fun d => ~ deadline (delays k) d <= heartbeat_ticks k) dl)) /\
    forall t td, tasks k !! t = Some td ->
      tasks k' !! t = Some (if among (delay td) due then time_out td else td)) k.
Proof.
  intros Hko Hby Hr Hn Hisr. eapply wp_CheckTaskDelay; [done..|].
  intros k' L' due rest -> Hdue Hrest Hko' _ Hcore Ets _. cbv zeta.
  assert (forall d, d ∈ rest -> ~ deadline (delays k) d <= heartbeat_ticks k) as Hr' by (intros d Hd; by apply Z.nle_gt, Hrest).
  assert (forall d, d ∈ due -> ~ ~ deadline (delays k) d <= heartbeat_ticks k) as Hd' by (intros d Hd Hne; by apply Hne, Hdue).
  rewrite !filter_app, (filter_none _ due), (filter_all _ rest), (filter_all _ due), (filter_none _ rest), app_nil_r by done.
  split_and!; [done|by exists L'|done].
Qed.

End Deadlines.
