(* ===== verification/Priority.v ===== *)
(** * Changing the priority of a task

    [_KTaskPrioSet] keeps the invariant for tasks that are not READY.  For a READY
    task it changes [cur_prio] before it takes the task out of the ready table, so
    the list of the new priority decides whether the bit of the old one goes; the
    invariant is kept when both lists agree ([moves_soundly]). *)

From S2P Require Import Prelude DoubleLink IdManager Bitmap Kernel ReadyVector Assign Delay Task TaskInv.

Section Priority.
Context `{C : KConfig} `{D : PriorityReadyVectorDone} `{CO : !KConfigOk C}.
Implicit Types (k : kstate) (L : gmap link (list link)) (I : gmap Z link) (dl : list ptr).

(** The descriptor after the call: idle and closed tasks keep their priority. *)
Definition with_prio (prio : Z) (td : TaskDescriptor) : TaskDescriptor :=
  if is_idle (name td) then td
  else if (stat_of td =? KTASK_INIT) || (stat_of td =? KTASK_READY) || (stat_of td =? KTASK_SUSPEND) ||
          (stat_of td =? KTASK_RUNNING)
  then bitmap_site (set_cur_prio prio td) else td.

Definition prio_result (td : TaskDescriptor) : Z :=
  if is_idle (name td) then - ERROR
  else if stat_of td <=? KTASK_CLOSE then EOK else - EINVALED.

Lemma bitmap_site_other td : stat (bitmap_site td) = stat td /\ delay (bitmap_site td) = delay td.
Proof. unfold bitmap_site. by destruct two_level. Qed.

Lemma stat_of_with_prio prio td : stat_of (with_prio prio td) = stat_of td.
Proof.
  unfold with_prio. destruct (is_idle _); [done|]. destruct (_ || _); [|done].
  unfold stat_of. by rewrite (proj1 (bitmap_site_other _)).
Qed.

Lemma with_prio_may_replace prio td :
  0 <= prio < KTASK_PRIORITY_MAX -> stat_of td <> KTASK_READY -> may_replace td (with_prio prio td).
Proof.
  intros Hp Hst. unfold with_prio. destruct (is_idle _); [done|]. destruct (_ || _); [|done].
  destruct (bitmap_site_other (set_cur_prio prio td)) as [Es Ed]. split; [|done| |done].
  - unfold stat_of. by rewrite Es.
  - intros _. by apply bitmap_site_ok.
Qed.

Lemma stat_of_range td : 0 <= stat_of td <= 7.
Proof.
  unfold stat_of, KTASK_STAT_MASK. rewrite (Z.land_ones (stat td) 3 ltac:(lia) : Z.land (stat td) 7 = _).
  pose proof (Z.mod_pos_bound (stat td) (2 ^ 3)). lia.
Qed.

Lemma wp__KTaskPrioSet k t td prio (Q : Z -> kstate -> Prop) :
  tasks k !! t = Some td -> stat_of td <> KTASK_READY -> 0 <= KTaskOsAssignLockNest k < 2 ^ 15 - 1 ->
  Q (prio_result td) (set_tasks (<[t := with_prio prio td]> (tasks k)) k) ->
  wp (_KTaskPrioSet t prio) Q k.
Proof.
  intros Et Hst Hn HQ. pose proof (stat_of_range td) as Hrange.
  assert (with_prio prio td = td -> forall r, r = prio_result td -> Q r (unlocked (interrupts k) (locked k))) as Hsame.
  { intros E r ->. rewrite E, insert_id in HQ by done. by rewrite unlocked_locked. }
  unfold with_prio, prio_result in *. rewrite (proj2 (Z.eqb_neq _ _) Hst), orb_false_r in HQ, Hsame.
  unfold _KTaskPrioSet. wp_steps. apply wp_CriticalAreaLock; [done|]. wp_steps.
  eapply wp_task_get; [exact Et|]. wp_steps. destruct (is_idle (name td)).
  { wp_steps. apply wp_CriticalAreaUnLock; [cbn; lia|]. wp_steps. by apply Hsame. }
  wp_steps. unfold KTaskStatGet. eapply wp_task_get; [exact Et|]. wp_steps.
  rewrite (proj2 (Z.eqb_neq _ _) Hst). destruct (_ || _) eqn:E.
  - wp_steps. eapply wp_task_set; [exact Et|]. wp_steps. unfold __BitmapSiteMask.
    eapply wp_task_set; [apply lookup_insert_eq|]. cbn [tasks set_tasks]. rewrite insert_insert_eq. wp_steps.
    apply wp_CriticalAreaUnLock; [cbn; lia|]. wp_steps.
    rewrite (proj2 (Z.leb_le _ _)) in HQ.
    + match goal with |- Q EOK ?s => assert (s = set_tasks (<[t := bitmap_site (set_cur_prio prio td)]> (tasks k)) k) as -> end;
        [|exact HQ]. unfold unlocked, locked. cbn. by rewrite Z.add_simpl_r.
    + apply orb_true_iff in E as [[E|E]%orb_true_iff|E]; apply Z.eqb_eq in E; rewrite E; done.
  - apply orb_false_iff in E as [[E1 E2]%orb_false_iff E3]. apply Z.eqb_neq in E1, E2, E3.
    unfold KTASK_INIT, KTASK_READY, KTASK_SUSPEND, KTASK_RUNNING, KTASK_CLOSE in *.
    destruct (Z.eqb_spec (stat_of td) 4) as [E4|E4]; wp_steps;
      (apply wp_CriticalAreaUnLock; [cbn; lia|]); wp_steps; apply Hsame; try done.
    + by rewrite (proj2 (Z.leb_le _ _)) by lia.
    + by rewrite (proj2 (Z.leb_gt _ _)) by lia.
Qed.

(** Changing the priority of a task that is not READY: idle tasks are refused,
    closed ones ignored, any other gets the priority and matching bitmap fields;
    nothing else changes and, for a priority below [KTASK_PRIORITY_MAX], which the
    call does not check, the invariant is kept. *)
Theorem KTaskPrioSet_not_ready k L I dl id t td prio :
  kernel_ok k L I dl -> I !! id = Some (IdLink CTask t) -> tasks k !! t = Some td ->
  stat_of td <> KTASK_READY -> 0 <= KTaskOsAssignLockNest k < 2 ^ 15 - 1 ->
  wp (KTaskPrioSet id prio) (fun ret k' =>
    ret = prio_result td /\ k' = set_tasks (<[t := with_prio prio td]> (tasks k)) k /\
    (0 <= prio < KTASK_PRIORITY_MAX -> kernel_ok k' L I dl)) k.
Proof.
  intros Hko Hid Et Hst Hn. unfold KTaskPrioSet. eapply wp_by_id; [done..|].
  apply (wp__KTaskPrioSet k t td); [done..|]. split_and!; [done|done|]. intros Hp.
  by apply (kernel_ok_replace k L I dl t td); [..|by apply with_prio_may_replace].
Qed.

(** ** A READY task *)

Context `{DL : !ReadyVectorLaws D}.

(** Without [t], the ready list of its priority [q] is empty exactly if that of the
    new priority [p] is. *)
Definition moves_soundly L (t : ptr) (q p : Z) : Prop :=
  forall lq lp, L !! ReadyVec q = Some lq -> L !! ReadyVec p = Some lp ->
    (without (SchedLink t) lq = [] <-> without (SchedLink t) lp = []).

Lemma as_stat_as_stat s s' td : 0 <= s' <= 7 -> as_stat s (as_stat s' td) = as_stat s td.
Proof.
  intros Hs. unfold as_stat. cbn [stat set_stat]. destruct td. unfold set_stat. f_equal. unfold u8, KTASK_STAT_MASK.
  apply Z.bits_inj'. intros n Hn. destruct (decide (n < 8)); [|by rewrite !Z.mod_pow2_bits_high by lia].
  rewrite !Z.mod_pow2_bits_low, !Z.lor_spec, !Z.land_spec, !Z.mod_pow2_bits_low, !Z.lor_spec, !Z.land_spec by lia.
  rewrite !Z.lnot_spec by lia. change 7 with (Z.ones 3). rewrite Z.testbit_ones_nonneg by lia.
  destruct (Z.ltb_spec n 3); [by rewrite !andb_false_r|].
  assert (Z.testbit s' n = false) as ->; [|by rewrite !andb_true_r].
  destruct (decide (s' = 0)) as [->|]; [apply Z.bits_0|].
  apply Z.bits_above_log2; [lia|]. apply Z.lt_le_trans with 3; [apply Z.log2_lt_pow2; lia|lia].
Qed.

Lemma as_stat_bitmap_site s p td :
  as_stat s (bitmap_site (set_cur_prio p td)) = bitmap_site (set_cur_prio p (as_stat s td)).
Proof. unfold bitmap_site. by destruct two_level. Qed.

(** Only the ready list of a READY task holds it. *)
Lemma ready_only_list k L t td y l :
  sched_ok k L -> tasks k !! t = Some td -> stat_of td = KTASK_READY -> L !! y = Some l ->
  y <> ReadyVec (cur_prio td) -> SchedLink t ∉ l.
Proof.
  intros Hk Et Hst HL Hy Hin. destruct (so_on_list _ _ Hk _ _ Et Hst) as (l' & HL' & Hin').
  apply Hy, (rep_disj _ _ (so_rep _ _ Hk) _ _ _ _ (SchedLink t) HL HL'); set_solver.
Qed.

(** Inserting a task whose state is not the one the invariant has for it. *)
Lemma wp_rv_insert_any k0 L I dl t td td0 (Q : unit -> kstate -> Prop) :
  kernel_ok k0 L I dl -> tasks k0 !! t = Some td0 -> L !! SchedLink t = Some [] -> site_ok td ->
  cur_prio td0 = cur_prio td -> site_ok td0 -> as_stat KTASK_READY td0 = as_stat KTASK_READY td ->
  (forall k' L', kernel_ok k' L' I dl -> quiet k0 k' -> delays k' = delays k0 ->
     tasks k' = <[t := as_stat KTASK_READY td]> (tasks k0) ->
     (forall y, sched_link y = false -> L' !! y = L !! y) -> Q tt k') ->
  wp (rv_insert t) Q (set_tasks (<[t := td]> (tasks k0)) k0).
Proof.
  intros Hko Et HL Hsite Ep Hsite0 Es HQ. pose proof (ko_sched _ _ _ _ Hko) as Hk.
  destruct (so_lists _ _ Hk (cur_prio td)) as [l Hl]; [apply Hsite|].
  eapply (rv_insert_law _ L t td l (ready_nonempty L)); [apply Hk|apply lookup_insert_eq|done|exact Hl| | | |apply Hk|].
  - apply tasks_on_insert. by eapply so_tasks_on.
  - eapply detached_unlinked; [apply Hk|done].
  - eapply rep_alloc; [apply Hk|exact HL|set_solver].
  - cbn [tasks set_tasks]. rewrite insert_insert_eq. intros h' rv' HR' Hsl Hrv'. rewrite <- Es, <- ?Ep in *.
    pose proof (sched_insert_ok k0 L t td0 Hk Et HL Hsite0 h' rv' HR' Hrv') as Hk'.
    pose proof (insert_frame k0 L t td0 Hk Et Hsite0 h' rv' Hsl) as Hfr.
    eapply (HQ _ _ (kernel_ok_sched _ _ _ _ _ _ Hko Hk' Hfr)); [|done| |apply Hfr]; [|done].
    split; [done|apply Hfr|intros y Hy; apply (fr_null _ _ _ _ Hfr); by destruct y|done].
Qed.

(** Taking a READY task off its list after its [cur_prio] was changed: the
    invariant of the state in which it is suspended. *)
Lemma wp_remove_moved k L I dl t td p (Q : unit -> kstate -> Prop) :
  kernel_ok k L I dl -> tasks k !! t = Some td -> stat_of td = KTASK_READY -> 0 <= p < KTASK_PRIORITY_MAX ->
  moves_soundly L t (cur_prio td) p ->
  (forall k1, kernel_ok k1 (detach (SchedLink t) L) I dl -> quiet k k1 -> delays k1 = delays k ->
     tasks k1 = <[t := as_stat KTASK_SUSPEND td]> (tasks k) ->
     Q tt (set_tasks (<[t := set_cur_prio p td]> (tasks k)) k1)) ->
  wp (rv_remove t) Q (set_tasks (<[t := set_cur_prio p td]> (tasks k)) k).
Proof.
  intros Hko Et Hst Hp Hsound HQ. pose proof (ko_sched _ _ _ _ Hko) as Hk.
  assert (site_ok td) as Hsite by (apply (so_site _ _ Hk _ _ Et); by rewrite Hst).
  destruct (so_lists _ _ Hk p Hp) as [lp Hlp]. destruct (so_on_list _ _ Hk _ _ Et Hst) as (lq & Hlq & Hin).
  eapply (rv_remove_site_law _ L t (set_cur_prio p td) (cur_prio td) lp (ready_nonempty L));
    [apply Hk|apply lookup_insert_eq|by destruct td|exact Hlp|by apply (so_linked _ _ Hk _ _ Et)|apply Hk|].
  intros h1 rv1 HR1 Hsl Hrv1.
  apply (HQ (set_tasks (<[t := as_stat KTASK_SUSPEND td]> (tasks k)) (set_os_assign_read_vector rv1 (set_links h1 k))));
    [|by eapply quiet_relink|done|done].
  eapply (kernel_ok_detach k L I dl t td (as_stat KTASK_SUSPEND td)); [done|done|done|done|done|done|done|exact Hsl|].
  eapply (sched_ok_fields (set_os_running_task (os_running_task k) (set_tasks (<[t := as_stat KTASK_SUSPEND td]> (tasks k))
    (set_os_assign_read_vector rv1 (set_links h1 k))))); [|done..].
  eapply (sched_remove_ok k L t td KTASK_SUSPEND (os_running_task k) Hk Et); [exact Hsite|by split| |exact Hlq|exact HR1|].
  - split; [by left|]. intros y tdy [[<- <-]|[? Ey]]%lookup_insert_Some Hs; [|by eapply (so_running _ _ Hk)].
    by rewrite stat_of_as_stat in Hs.
  - eapply rv_ok_ext; [exact Hrv1|]. intros q. cbn beta. destruct (Z.eqb_spec q (cur_prio td)) as [->|]; [|by rewrite andb_false_r].
    rewrite andb_true_r, (ready_nonempty_in _ _ _ _ Hlq Hin), andb_true_r.
    rewrite (bool_decide_ext (without (SchedLink t) lp = []) (without (SchedLink t) lq = [])); [done|].
    symmetry. by apply Hsound.
Qed.

(** Changing the priority of a READY task: it moves to the list of the new priority. *)
Lemma wp_move_ready k L I dl t td p (Q : Z -> kstate -> Prop) :
  kernel_ok k L I dl -> tasks k !! t = Some td -> stat_of td = KTASK_READY -> 0 <= p < KTASK_PRIORITY_MAX ->
  moves_soundly L t (cur_prio td) p -> 0 <= KTaskOsAssignLockNest k < 2 ^ 15 - 1 ->
  (forall k' L' td', kernel_ok k' L' I dl -> quiet k k' -> delays k' = delays k ->
     tasks k' = <[t := td']> (tasks k) -> td' = set_stat (stat td') (with_prio p td) -> stat_of td' = KTASK_READY ->
     (forall y, sched_link y = false -> L' !! y = L !! y) -> Q (prio_result td) k') ->
  wp (_KTaskPrioSet t p) Q k.
Proof.
  intros Hko Et Hst Hp Hsound Hn HQ. pose proof (ko_sched _ _ _ _ Hko) as Hk.
  assert (site_ok td) as Hsite by (apply (so_site _ _ Hk _ _ Et); by rewrite Hst).
  unfold with_prio, prio_result in HQ. rewrite Hst in HQ. change (_ || (KTASK_READY =? KTASK_READY)) with true in HQ.
  cbn [orb] in HQ. change (KTASK_READY <=? KTASK_CLOSE) with true in HQ.
  unfold _KTaskPrioSet. wp_steps. apply wp_CriticalAreaLock; [done|]. wp_steps.
  eapply wp_task_get; [exact Et|]. wp_steps. destruct (is_idle (name td)).
  { wp_steps. apply wp_CriticalAreaUnLock; [cbn; lia|]. wp_steps. rewrite unlocked_locked.
    apply (HQ k L td); [done|by split|done|by rewrite insert_id|by destruct td|done|done]. }
  wp_steps. unfold KTaskStatGet. eapply wp_task_get; [exact Et|]. wp_steps. rewrite Hst, Z.eqb_refl.
  wp_steps. eapply wp_task_set; [exact Et|]. wp_steps.
  eapply (wp_remove_moved (locked k) L I dl t td p); [by eapply kernel_ok_fields|exact Et|done|done|done|].
  intros k1 Hko1 Hq1 Ed1 Ets1. wp_steps. unfold __BitmapSiteMask. eapply wp_task_set; [apply lookup_insert_eq|].
  cbn [tasks set_tasks]. rewrite insert_insert_eq. set (td2 := bitmap_site (set_cur_prio p td)) in *. wp_steps.
  set (ts1 := as_stat KTASK_SUSPEND td) in *. set (td0 := bitmap_site (set_cur_prio p ts1)).
  assert (kernel_ok (set_tasks (<[t := td0]> (tasks k1)) k1) (detach (SchedLink t) L) I dl) as Hko2.
  { apply (kernel_ok_replace k1 _ I dl t ts1); [done|by rewrite Ets1, lookup_insert_eq|].
    destruct (bitmap_site_other (set_cur_prio p ts1)) as [Es Ed]. split; [unfold td0, stat_of; by rewrite Es| |by intros _; apply bitmap_site_ok|done].
    intros Hs. unfold ts1 in Hs. by rewrite stat_of_as_stat in Hs. }
  set (k2 := set_tasks (<[t := td0]> (tasks k1)) k1) in *.
  assert (set_tasks (<[t := td2]> (tasks (locked k))) k1 = set_tasks (<[t := td2]> (tasks k2)) k2) as E2.
  { unfold k2. cbn [tasks set_tasks]. by rewrite Ets1, !insert_insert_eq. }
  match goal with |- wp _ _ ?s => replace s with (set_tasks (<[t := td2]> (tasks k2)) k2) by by rewrite <- E2 end.
  assert (as_stat KTASK_READY td0 = as_stat KTASK_READY td2) as Eas.
  { unfold td0, td2, ts1. by rewrite !as_stat_bitmap_site, as_stat_as_stat. }
  apply (wp_rv_insert_any k2 (detach (SchedLink t) L) I dl t td2 td0 _ Hko2);
    [apply lookup_insert_eq|apply lookup_detach_eq|by apply bitmap_site_ok| |by apply bitmap_site_ok|done|].
  { unfold td0, td2. by rewrite !bitmap_site_prio. }
  intros k3 L3 Hko3 Hq3 Ed3 Ets3 HL3. wp_steps. apply wp_CriticalAreaUnLock.
  { rewrite (quiet_nest _ _ Hq3). change (KTaskOsAssignLockNest k2) with (KTaskOsAssignLockNest k1).
    rewrite (quiet_nest _ _ Hq1). cbn. lia. }
  wp_steps. apply (HQ _ L3 (as_stat KTASK_READY td2)).
  - by eapply kernel_ok_fields.
  - apply quiet_unlocked. eapply quiet_trans; [exact Hq1|]. destruct Hq3. by split.
  - exact (eq_trans Ed3 Ed1).
  - cbn. rewrite Ets3. unfold k2. cbn [tasks set_tasks]. by rewrite Ets1, !insert_insert_eq.
  - done.
  - by apply stat_of_as_stat.
  - intros y Hy. rewrite HL3 by done. rewrite lookup_detach_ne by by intros ->.
    destruct (L !! y) as [l|] eqn:E; [|done]. cbn. rewrite without_not_in; [done|].
    eapply ready_only_list; [exact Hk|exact Et|done|exact E|by intros ->].
Qed.

End Priority.
