(* ===== verification/PendList.v ===== *)
(** * Lists of waiting tasks: kernel/thread/linklist.c *)

From S2P Require Import Prelude DoubleLink IdManager Bitmap Kernel ReadyVector Assign Delay Task TaskInv Deadlines.

Section PendList.
Context `{C : KConfig} `{D : PriorityReadyVectorDone}.

Definition LINKLIST_FLAG_FIFO : Z := 0.
Definition LINKLIST_FLAG_PRIO : Z := 1.

(** The break test of the walk: [task->cur_prio < tmp_task->cur_prio]. *)
Definition lower_prio (task : ptr) (node : link) : M kstate bool :=
  tmp_task ← deref (sched_entry node);
  mine ← task_get task cur_prio;
  its ← task_get tmp_task cur_prio;
  mret (mine <? its).

Definition LinklistSuspend (list : link) (task : ptr) (flag : Z) : M kstate Z :=
  lock ← CriticalAreaLock;
  id ← task_id task;
  SuspendKTask id;;
  ret ← (if flag =? LINKLIST_FLAG_FIFO then
           klinks (DoubleLinkListInsertNodeBefore list (SchedLink task));; mret EOK
         else if flag =? LINKLIST_FLAG_PRIO then
           nx ← klinks (get_next list);
           first ← deref nx;
           k ← get;
           node ← for_each_until (fun x => klinks (get_next x)) (lower_prio task)
                    (S (size (links k))) list first;
           (if negb (bool_decide (node = list)) then
              klinks (DoubleLinkListInsertNodeBefore node (SchedLink task))
            else
              pv ← klinks (get_prev list);
              tail ← deref pv;
              klinks (DoubleLinkListInsertNodeAfter tail (SchedLink task)));;
           mret EOK
         else mret (- EINVALED));
  CriticalAreaUnLock lock;;
  mret ret.

Definition LinklistResume (list : link) : M kstate Z :=
  lock ← CriticalAreaLock;
  nx ← klinks (get_next list);
  task ← deref (nx ≫= sched_entry);
  id ← task_id task;
  KTaskWakeup id;;
  CriticalAreaUnLock lock;;
  mret EOK.

(** The loop of [LinklistResumeAll]; one step of fuel per task. *)
Fixpoint resume_all (fuel : nat) (list : link) : M kstate unit :=
  match fuel with
  | O => hang
  | S fuel =>
      nx ← klinks (get_next list);
      node ← deref nx;
      if negb (bool_decide (node = list)) then
        task ← deref (sched_entry node);
        task_set task (set_exstatus (- ERROR));;
        id ← task_id task;
        KTaskWakeup id;;
        resume_all fuel list
      else mret tt
  end.

Definition LinklistResumeAll (list : link) : M kstate Z :=
  lock ← CriticalAreaLock;
  k ← get;
  resume_all (S (size (links k))) list;;
  CriticalAreaUnLock lock;;
  mret EOK.


(** ** What they do to the lists *)

Implicit Types (k : kstate) (L : gmap link (list link)) (I : gmap Z link) (dl : list ptr).

Definition prio_of (ts : gmap ptr TaskDescriptor) (x : link) : Z :=
  default 0 (cur_prio <$> (sched_entry x ≫= (fun t => ts !! t))).

Definition outranks (ts : gmap ptr TaskDescriptor) (td : TaskDescriptor) (x : link) : bool :=
  bool_decide (cur_prio td < prio_of ts x).

(** Where a task goes: at the end, or before the first task with a larger
    [cur_prio], so that the waiting tasks are in ascending order. *)
Definition wait_position (flag : Z) (ts : gmap ptr TaskDescriptor) (td : TaskDescriptor) (l : list link) : nat :=
  if flag =? LINKLIST_FLAG_PRIO then default (length l) (fst <$> list_find (outranks ts td) l) else length l.

Context `{CO : !KConfigOk C} `{DL : !ReadyVectorLaws D}.

(** A suspended or closed task that is on no list may be put on a list of such tasks. *)
Section wait.
Context k L I dl (t : ptr) (td : TaskDescriptor) (hd : link) (l : list link) (n : nat) (s : Z).
Hypothesis Hko : kernel_ok k L I dl.
Hypothesis Et : tasks k !! t = Some td.
Hypothesis Hst : stat_of td = s.
Hypothesis Hs : s = KTASK_SUSPEND \/ s = KTASK_CLOSE.
Hypothesis Hhd : list_stat hd = Some s.
Hypothesis HL : L !! hd = Some l.
Hypothesis Hdet : L !! SchedLink t = Some [].

Let L' := attach hd (insert_nth n (SchedLink t) l) (SchedLink t) L.

Lemma wait_head : (forall y, hd <> SchedLink y) /\ (forall p, hd <> ReadyVec p) /\ task_link hd = true.
Proof. destruct hd; try done. injection Hhd as E. by destruct Hs as [Es|Es]; rewrite Es in E. Qed.

Lemma wait_other y : y <> hd -> y <> SchedLink t -> L' !! y = L !! y.
Proof. apply lookup_attach_ne. Qed.

Lemma wait_sched_ok h' : rep h' L' -> sched_ok (set_links h' k) L'.
Proof.
  intros HR. destruct wait_head as (Hns & Hnr & _). pose proof (Hns t) as Hne. pose proof (ko_sched _ _ _ _ Hko) as Hk.
  assert (forall p, L' !! ReadyVec p = L !! ReadyVec p) as HLp by (intros p; by apply wait_other).
  split; cbn [links tasks os_assign_read_vector os_running_task set_links]; try apply Hk.
  - done.
  - intros p Hp. rewrite HLp. by apply Hk.
  - intros p l0 x. rewrite HLp. by apply Hk.
  - intros y tdy Ey Hsy. destruct (so_on_list _ _ Hk _ _ Ey Hsy) as (l0 & ? & ?). exists l0. by rewrite HLp.
  - intros y tdy Ey. destruct (decide (y = t)) as [->|Hyt].
    { right. exists hd, (insert_nth n (SchedLink t) l). unfold L'. rewrite lookup_attach_eq. split; [done|].
      apply elem_of_insert_nth. by left. }
    pose proof (Hns y) as Hhy.
    destruct (so_linked _ _ Hk _ _ Ey) as [Hd|(hd' & l0 & HL0 & Hin)].
    { left. by rewrite wait_other by congruence. }
    right. destruct (decide (hd' = hd)) as [->|Hne'].
    + exists hd, (insert_nth n (SchedLink t) l). unfold L'. rewrite lookup_attach_eq. split; [done|].
      apply elem_of_insert_nth. right. congruence.
    + exists hd', l0. rewrite wait_other; [done|done|]. intros ->. rewrite Hdet in HL0. injection HL0 as <-.
      by apply not_elem_of_nil in Hin.
  - intros y tdy Ey Hsy. assert (y <> t) by (intros ->; rewrite Et in Ey; injection Ey as ->; rewrite Hst in Hsy; destruct Hs as [E|E]; by rewrite E in Hsy).
    rewrite wait_other by (congruence || by apply not_eq_sym). by apply (so_detached _ _ Hk _ _ Ey).
  - eapply rv_ok_ext; [apply Hk|]. intros q. unfold ready_nonempty. by rewrite HLp.
Qed.

Lemma wait_ok h' : rep h' L' -> same_links (SchedLink t) (links k) h' -> kernel_ok (set_links h' k) L' I dl.
Proof.
  intros HR [Ha Hn]. destruct wait_head as (Hns & Hnr & Htl). pose proof (Hns t) as Hne.
  eapply kernel_ok_step; [exact Hko|by apply wait_sched_ok|split; try done|].
  - intros y Hy. apply Hn. by intros ->.
  - intros y Hy. apply wait_other; intros ->; [congruence|done].
  - by apply new_members_attach.
  - intros hd' l' x s' Es Hnr' HL' Hx. destruct (decide (hd' = hd)) as [->|Hne'].
    + unfold L' in HL'. rewrite lookup_attach_eq in HL'. injection HL' as <-.
      apply elem_of_insert_nth in Hx as [->|Hx]; [exists t, td; split_and!; [done|done|congruence]|].
      by apply (ko_member _ _ _ _ Hko _ _ _ _ Es HL Hx).
    + rewrite wait_other in HL' by (done || by intros ->). by apply (ko_member _ _ _ _ Hko _ _ _ _ Es HL' Hx).
Qed.
End wait.

(** The walk over the waiting tasks reads their priorities. *)
Lemma lower_prio_spec k t td x y :
  tasks k !! t = Some td -> x = SchedLink y -> is_Some (tasks k !! y) ->
  lower_prio t x k = Ret (outranks (tasks k) td x) k.
Proof.
  intros Et -> [tdy Ey]. unfold lower_prio, outranks, prio_of, task_get, mbind, M_bind, deref, get, mret, M_ret.
  cbn. rewrite Et. cbn. rewrite Ey. cbn. f_equal.
  destruct (Z.ltb_spec (cur_prio td) (cur_prio tdy)); case_bool_decide; lia || done.
Qed.

Lemma prio_of_insert (ts : gmap ptr TaskDescriptor) t td td' x :
  ts !! t = Some td -> cur_prio td' = cur_prio td -> prio_of (<[t := td']> ts) x = prio_of ts x.
Proof.
  intros Et Ep. unfold prio_of. destruct (sched_entry x) as [y|]; [|done]. cbn.
  destruct (decide (y = t)) as [->|]; [by rewrite lookup_insert_eq, Et; cbn; rewrite Ep|by rewrite lookup_insert_ne].
Qed.

Lemma wait_position_insert flag (ts : gmap ptr TaskDescriptor) t td td' l :
  ts !! t = Some td -> cur_prio td' = cur_prio td ->
  wait_position flag (<[t := td']> ts) td' l = wait_position flag ts td l.
Proof.
  intros Et Ep. unfold wait_position. destruct (flag =? LINKLIST_FLAG_PRIO); [|done]. do 2 f_equal.
  apply list_find_ext. intros x. unfold outranks. by rewrite (prio_of_insert _ _ _ _ _ Et Ep), Ep.
Qed.

(** Inserting a detached, suspended task. *)
Lemma wp_wait_insert k L I dl t td hd l flag (Q : Z -> kstate -> Prop) :
  kernel_ok k L I dl -> tasks k !! t = Some td -> stat_of td = KTASK_SUSPEND ->
  list_stat hd = Some KTASK_SUSPEND -> L !! hd = Some l -> L !! SchedLink t = Some [] ->
  flag = LINKLIST_FLAG_FIFO \/ flag = LINKLIST_FLAG_PRIO ->
  (forall h', let L' := attach hd (insert_nth (wait_position flag (tasks k) td l) (SchedLink t) l) (SchedLink t) L in
     kernel_ok (set_links h' k) L' I dl -> same_links (SchedLink t) (links k) h' -> Q EOK (set_links h' k)) ->
  wp (if flag =? LINKLIST_FLAG_FIFO then
        klinks (DoubleLinkListInsertNodeBefore hd (SchedLink t));; mret EOK
      else if flag =? LINKLIST_FLAG_PRIO then
        nx ← klinks (get_next hd);
        first ← deref nx;
        k ← get;
        node ← for_each_until (fun x => klinks (get_next x)) (lower_prio t)
                 (S (size (links k))) hd first;
        (if negb (bool_decide (node = hd)) then
           klinks (DoubleLinkListInsertNodeBefore node (SchedLink t))
         else
           pv ← klinks (get_prev hd);
           tail ← deref pv;
           klinks (DoubleLinkListInsertNodeAfter tail (SchedLink t)));;
        mret EOK
      else mret (- EINVALED)) Q k.
Proof.
  intros Hko Et Hst Hhd HL Hdet Hflag HQ. pose proof (so_rep _ _ (ko_sched _ _ _ _ Hko)) as HR.
  assert (hd <> SchedLink t) as Hne by by destruct hd.
  assert (unlinked L (SchedLink t)) as Hun by by eapply detached_unlinked.
  assert (alloc (links k) (SchedLink t)) as Hal by (eapply rep_alloc; [done|exact Hdet|set_solver]).
  cbv zeta in HQ. set (n := wait_position flag (tasks k) td l) in *.
  assert (forall h', rep h' (attach hd (take n l ++ SchedLink t :: drop n l) (SchedLink t) L) ->
            same_links (SchedLink t) (links k) h' -> Q EOK (set_links h' k)) as Hend.
  { intros h' HR' Hsl. apply HQ; [by apply (wait_ok k L I dl t td hd l n KTASK_SUSPEND); [..|by left|done|done|done|done|done]|done]. }
  destruct Hflag as [-> | ->].
  - cbn [Z.eqb LINKLIST_FLAG_FIFO]. wp_steps. apply wp_klinks.
    apply (wp_DoubleLinkListInsertNodeBefore _ L hd l []); try done; [by rewrite app_nil_r|].
    intros h' HR' Hsl. wp_steps. apply Hend; [|done]. unfold n, wait_position. cbn [Z.eqb LINKLIST_FLAG_PRIO LINKLIST_FLAG_FIFO].
    by rewrite take_ge, drop_ge by done.
  - change (LINKLIST_FLAG_PRIO =? LINKLIST_FLAG_FIFO) with false. rewrite Z.eqb_refl. wp_steps. apply wp_klinks.
    pose proof (rep_first _ _ _ _ HR HL) as Hf. apply wp_get_next; [by eapply alloc_nxt|].
    rewrite Hf, set_links_id. wp_steps.
    apply (wp_for_each_until _ _ (outranks (tasks k) td) k (links k) L _ [] l); [done|done|..].
    + intros x Hx. assert (alloc (links k) x) as [nd Hnd] by (eapply rep_alloc; [done|exact HL|apply elem_of_cons; by right]).
      unfold klinks, zoom, get_next, load, nxt, mbind, M_bind. by rewrite Hnd.
    + intros x Hx. destruct (ko_member _ _ _ _ Hko _ _ _ _ Hhd HL Hx) as (y & tdy & -> & Ey & _).
      by apply (lower_prio_spec k t td _ y).
    + pose proof (rep_length _ _ _ _ HR HL). lia.
    + pose proof (rep_head_not_member _ _ _ _ HR HL) as Hnin.
      unfold n, wait_position in Hend. rewrite Z.eqb_refl in Hend.
      pose proof (find_position (fun x => x) (outranks (tasks k) td) (outranks (tasks k) td) hd l ltac:(done)) as Hfind.
      rewrite list_fmap_id in Hfind. rewrite Hfind. 
      destruct (list_find (outranks (tasks k) td) l) as [[i x]|] eqn:Ef; cbn [fmap option_fmap option_map default fst from_option Datatypes.id] in *.
      * apply list_find_Some in Ef as (Hlx & _ & _). rewrite (drop_S _ _ _ Hlx). cbn [List.hd].
        rewrite bool_decide_false by (intros ->; by apply Hnin; eapply list_elem_of_lookup_2). cbn [negb].
        wp_steps. apply wp_klinks.
        apply (wp_DoubleLinkListInsertNodeBefore _ L hd (take i l) (drop i l)); [done|by rewrite take_drop|by rewrite (drop_S _ _ _ Hlx)|done|done|done|].
        intros h' HR' Hsl. wp_steps. by apply Hend.
      * rewrite drop_ge by done. cbn [List.hd]. rewrite bool_decide_true by done. cbn [negb]. wp_steps. apply wp_klinks.
        pose proof (rep_last _ _ _ _ HR HL) as Hla. apply wp_get_prev; [by eapply alloc_prv|]. rewrite Hla, set_links_id.
        wp_steps. apply wp_klinks.
        apply (wp_DoubleLinkListInsertNodeAfter _ L hd l []); try done; [by rewrite app_nil_r|].
        intros h' HR' Hsl. wp_steps. apply Hend; [|done]. by rewrite take_ge, drop_ge by done.
Qed.

(** A list of waiting tasks. *)
Definition pend_list (hd : link) : Prop := list_stat hd = Some KTASK_SUSPEND.

Lemma pend_list_link hd : pend_list hd ->
  sched_link hd = false /\ hd <> ListHead CDelay /\ (forall d, hd <> ObjLink CDelay d).
Proof. by destruct hd. Qed.

(** What waiting and waking leave alone: lists of other tasks and objects. *)
Definition other_lists_kept (hd : link) L L' : Prop :=
  forall y, y <> hd -> sched_link y = false -> y <> ListHead CDelay -> (forall d, y <> ObjLink CDelay d) ->
    L' !! y = L !! y.

Lemma wp_LinklistSuspend k L I dl t td hd l flag (Q : Z -> kstate -> Prop) :
  kernel_ok k L I dl -> os_running_task k = Some t -> tasks k !! t = Some td ->
  (stat_of td = KTASK_READY \/ stat_of td = KTASK_RUNNING) ->
  pend_list hd -> L !! hd = Some l -> flag = LINKLIST_FLAG_FIFO \/ flag = LINKLIST_FLAG_PRIO ->
  0 <= KTaskOsAssignLockNest k < 2 ^ 15 - 3 ->
  (forall k' L', kernel_ok k' L' I (unset td dl) -> quiet k k' ->
     tasks k' = <[t := as_stat KTASK_SUSPEND td]> (tasks k) ->
     L' !! hd = Some (insert_nth (wait_position flag (tasks k) td l) (SchedLink t) l) ->
     other_lists_kept hd L L' -> Q EOK k') ->
  wp (LinklistSuspend hd t flag) Q k.
Proof.
  intros Hko Hc Et Hst Hhd HL Hflag Hn HQ. destruct (pend_list_link hd Hhd) as (Hhd1 & Hhd2 & Hhd3).
  unfold LinklistSuspend. wp_steps. apply wp_CriticalAreaLock; [lia|]. wp_steps.
  assert (kernel_ok (locked k) L I dl) as Hko0 by by eapply kernel_ok_fields.
  eapply (wp_task_id (locked k)); [exact Hko0|by eexists|]. intros id Hid. wp_steps. unfold SuspendKTask.
  eapply wp_by_id; [exact Hko0|exact Hid|cbn; lia|].
  eapply wp__SuspendKTask; [exact Hko0|exact Hc|exact Et|done|cbn; lia|].
  intros k1 L1 Hko1 Hq Ets HLs Hoth. wp_steps.
  assert (tasks k1 !! t = Some (as_stat KTASK_SUSPEND td)) as Et1 by (rewrite Ets; apply lookup_insert_eq).
  eapply (wp_wait_insert k1 L1 I _ t _ hd l flag); [exact Hko1|exact Et1|by apply stat_of_as_stat|done| |done|done|].
  { by rewrite Hoth. }
  intros h' L' Hko2 Hsl.
  assert (KTaskOsAssignLockNest k1 = KTaskOsAssignLockNest k + 1) as En.
  { by rewrite (quiet_nest _ _ Hq). }
  wp_steps. apply wp_CriticalAreaUnLock; [cbn; lia|]. wp_steps. apply (HQ _ L').
  - by eapply kernel_ok_fields.
  - apply (quiet_unlocked k). eapply quiet_trans; [exact Hq|]. by eapply quiet_relink.
  - exact Ets.
  - unfold L'. rewrite lookup_attach_eq. change (tasks k1) with (tasks k1). rewrite Ets.
    by rewrite (wait_position_insert _ _ _ td) by done.
  - intros y Hy H1 H2 H3. unfold L'. rewrite lookup_attach_ne by (done || by intros ->). by rewrite Hoth.
Qed.

(** Waking the first task of a list. *)
Lemma wp_wake_listed k L I dl w td hd l (Q : Z -> kstate -> Prop) :
  kernel_ok k L I dl -> pend_list hd -> L !! hd = Some (SchedLink w :: l) -> tasks k !! w = Some td ->
  0 <= KTaskOsAssignLockNest k < 2 ^ 15 - 2 ->
  (forall k' L', kernel_ok k' L' I (unset td dl) -> quiet k k' ->
     tasks k' = <[w := as_stat KTASK_READY td]> (tasks k) -> L' !! hd = Some l -> other_lists_kept hd L L' -> Q EOK k') ->
  wp (task_id w) (fun id k' => wp (KTaskWakeup id) Q k') k.
Proof.
  intros Hko Hhd HL Ew Hn HQ. destruct (pend_list_link hd Hhd) as (Hhd1 & Hhd2 & Hhd3).
  pose proof (so_rep _ _ (ko_sched _ _ _ _ Hko)) as HR.
  eapply wp_task_id; [exact Hko|by eexists|]. intros id Hid. unfold KTaskWakeup.
  eapply wp_by_id; [exact Hko|exact Hid|lia|].
  assert (stat_of td = KTASK_SUSPEND) as Hst.
  { destruct (ko_member _ _ _ _ Hko _ _ (SchedLink w) _ Hhd HL) as (y & tdy & [= <-] & Ey & ?); [set_solver|]. congruence. }
  eapply wp__KTaskWakeup; [exact Hko|exact Ew|exact Hst|lia|].
  intros k1 L1 Hko1 Hq Ets Hoth. apply (HQ _ L1); [done|done|done| |].
  - rewrite Hoth, HL by done. cbn. f_equal. pose proof (rep_nodup _ _ HR _ _ HL) as Hnd.
    apply NoDup_cons in Hnd as [_ [Hw _]%NoDup_cons].
    apply (without_middle (SchedLink w) [] l); [apply not_elem_of_nil|done].
  - intros y Hy H1 H2 H3. rewrite Hoth by done. destruct (L !! y) as [ly|] eqn:E; [|done]. cbn.
    rewrite without_not_in; [done|]. intros Hin. apply Hy.
    apply (rep_disj _ _ HR _ _ _ _ (SchedLink w) E HL); set_solver.
Qed.

Lemma wp_LinklistResume k L I dl w tdw hd l (Q : Z -> kstate -> Prop) :
  kernel_ok k L I dl -> pend_list hd -> L !! hd = Some (SchedLink w :: l) -> tasks k !! w = Some tdw ->
  0 <= KTaskOsAssignLockNest k < 2 ^ 15 - 3 ->
  (forall k' L', kernel_ok k' L' I (unset tdw dl) -> quiet k k' ->
     tasks k' = <[w := as_stat KTASK_READY tdw]> (tasks k) -> L' !! hd = Some l ->
     other_lists_kept hd L L' -> Q EOK k') ->
  wp (LinklistResume hd) Q k.
Proof.
  intros Hko Hhd HL Ew Hn HQ. pose proof (so_rep _ _ (ko_sched _ _ _ _ Hko)) as HR.
  unfold LinklistResume. wp_steps. apply wp_CriticalAreaLock; [lia|]. wp_steps. apply wp_klinks.
  pose proof (rep_first _ _ _ _ HR HL) as Hf. apply wp_get_next; [by eapply alloc_nxt|]. cbn [links locked] in *.
  change (links (locked k)) with (links k). rewrite Hf. cbn [List.hd].
  change (set_links (links k) (locked k)) with (locked k). wp_steps. cbn [mbind option_bind sched_entry]. wp_steps.
  assert (kernel_ok (locked k) L I dl) as Hko0 by by eapply kernel_ok_fields.
  eapply wp_mono; [eapply (wp_wake_listed (locked k) L I dl w tdw hd l (fun _ k1 => wp (CriticalAreaUnLock (interrupts k)) (fun _ => Q EOK) k1));
    [done|done|done|done|cbn; lia|]|].
  - intros k1 L1 Hko1 Hq Ets HL1 Hoth. pose proof (quiet_nest _ _ Hq) as En.
    apply wp_CriticalAreaUnLock; [rewrite En; cbn; lia|]. apply (HQ _ L1); [by eapply kernel_ok_fields|by apply quiet_unlocked|done..].
  - intros id k1 Hk1. wp_steps. eapply wp_mono; [exact Hk1|]. intros r k2 Hk2. wp_steps.
    eapply wp_mono; [exact Hk2|]. intros [] k3 HQ3. by wp_steps.
Qed.

(** Waking all tasks of a list with status -ERROR. *)
Definition fail_wait (td : TaskDescriptor) : TaskDescriptor := as_stat KTASK_READY (set_exstatus (- ERROR) td).

Definition fail_wait_all (ts : gmap ptr TaskDescriptor) (l : list link) : gmap ptr TaskDescriptor :=
  foldl (fun ts x => match sched_entry x with Some t => alter fail_wait t ts | None => ts end) ts l.

Lemma wp_resume_all fuel k L I dl hd l (Q : unit -> kstate -> Prop) :
  kernel_ok k L I dl -> pend_list hd -> L !! hd = Some l -> (length l < fuel)%nat ->
  0 <= KTaskOsAssignLockNest k < 2 ^ 15 - 2 ->
  (forall k' L' dl', kernel_ok k' L' I dl' -> quiet k k' -> tasks k' = fail_wait_all (tasks k) l ->
     L' !! hd = Some [] -> other_lists_kept hd L L' -> Q tt k') ->
  wp (resume_all fuel hd) Q k.
Proof.
  revert k L dl l. induction fuel as [|fuel IH]; intros k L dl l Hko Hhd HL Hf Hn HQ; [lia|].
  destruct (pend_list_link hd Hhd) as (Hhd1 & Hhd2 & Hhd3).
  pose proof (so_rep _ _ (ko_sched _ _ _ _ Hko)) as HR. pose proof (rep_first _ _ _ _ HR HL) as Hfst.
  cbn [resume_all]. wp_steps. apply wp_klinks, wp_get_next; [by eapply alloc_nxt|]. rewrite Hfst, set_links_id. wp_steps.
  destruct l as [|x l]; cbn [List.hd].
  { rewrite bool_decide_true by done. apply wp_ret. by apply (HQ k L dl). }
  destruct (ko_member _ _ _ _ Hko _ _ x _ Hhd HL) as (w & tdw & -> & Ew & Hst); [set_solver|].
  rewrite bool_decide_false by by destruct hd. cbn [negb sched_entry]. wp_steps.
  eapply wp_task_set; [exact Ew|]. set (td1 := set_exstatus (- ERROR) tdw).
  set (k1 := set_tasks (<[w := td1]> (tasks k)) k).
  assert (kernel_ok k1 L I dl) as Hko1 by (by apply (kernel_ok_update k L I dl w tdw)).
  assert (tasks k1 !! w = Some td1) as Ew1 by apply lookup_insert_eq. wp_steps.
  eapply wp_mono; [eapply (wp_wake_listed k1 L I dl w td1 hd l (fun _ => wp (resume_all fuel hd) Q)); [done|done|exact HL|done|cbn; lia|]|].
  2: { intros id k2 Hk2. wp_steps. eapply wp_mono; [exact Hk2|]. intros r k3 Hk3. by wp_steps. }
  intros k2 L2 Hko2 Hq Ets HL2 Hoth.
  assert (KTaskOsAssignLockNest k2 = KTaskOsAssignLockNest k) as En by by rewrite (quiet_nest _ _ Hq).
  eapply (IH k2 L2); [exact Hko2|done|exact HL2|cbn in Hf; lia|lia|].
  intros k3 L3 dl3 Hko3 Hq3 Ets3 HL3 Hoth3. apply (HQ k3 L3 dl3); [done| | |done|].
  - eapply quiet_trans; [|exact Hq3]. eapply quiet_trans; [|exact Hq]. done.
  - rewrite Ets3, Ets. cbn [fail_wait_all foldl sched_entry]. unfold fail_wait_all. f_equal.
    apply map_eq. intros y. destruct (decide (y = w)) as [->|Hne].
    + by rewrite lookup_insert_eq, lookup_alter_eq, Ew.
    + rewrite lookup_insert_ne, lookup_alter_ne by done. cbn. by rewrite lookup_insert_ne.
  - intros y Hy H1 H2 H3. by rewrite Hoth3, Hoth by done.
Qed.

Lemma wp_LinklistResumeAll k L I dl hd l (Q : Z -> kstate -> Prop) :
  kernel_ok k L I dl -> pend_list hd -> L !! hd = Some l ->
  0 <= KTaskOsAssignLockNest k < 2 ^ 15 - 3 ->
  (forall k' L' dl', kernel_ok k' L' I dl' -> quiet k k' -> tasks k' = fail_wait_all (tasks k) l ->
     L' !! hd = Some [] -> other_lists_kept hd L L' -> Q EOK k') ->
  wp (LinklistResumeAll hd) Q k.
Proof.
  intros Hko Hhd HL Hn HQ. unfold LinklistResumeAll. wp_steps. apply wp_CriticalAreaLock; [lia|]. wp_steps.
  assert (kernel_ok (locked k) L I dl) as Hko0 by by eapply kernel_ok_fields.
  pose proof (rep_length _ _ _ _ (so_rep _ _ (ko_sched _ _ _ _ Hko)) HL) as Hlen.
  eapply wp_resume_all; [exact Hko0|done|exact HL|cbn; lia|cbn; lia|].
  intros k1 L1 dl1 Hko1 Hq Ets HL1 Hoth. wp_steps.
  assert (KTaskOsAssignLockNest k1 = KTaskOsAssignLockNest k + 1) as En.
  { by rewrite (quiet_nest _ _ Hq). }
  apply wp_CriticalAreaUnLock; [lia|]. wp_steps. apply (HQ _ L1 dl1); [by eapply kernel_ok_fields| |done..].
  by apply quiet_unlocked.
Qed.

(** ** The order of the waiting tasks *)

Definition ascending (ts : gmap ptr TaskDescriptor) (l : list link) : Prop := sorted_by (prio_of ts) l.

Lemma ascending_insert ts td l t :
  ts !! t = Some td -> ascending ts l ->
  ascending ts (insert_nth (wait_position LINKLIST_FLAG_PRIO ts td l) (SchedLink t) l).
Proof.
  intros Et. unfold wait_position. rewrite Z.eqb_refl. apply sorted_by_insert.
  unfold prio_of. cbn. by rewrite Et.
Qed.

(** [LinklistSuspend] suspends the current task on the list: with the FIFO
    flag at its end; with the PRIO flag so that a list in ascending order of
    [cur_prio] stays in that order, which puts the task of the lowest priority
    first, the one [LinklistResume] wakes.  The invariant and all other lists are
    kept. *)
Theorem LinklistSuspend_order k L I dl t td hd l flag :
  kernel_ok k L I dl -> os_running_task k = Some t -> tasks k !! t = Some td -> stat_of td = KTASK_RUNNING ->
  pend_list hd -> L !! hd = Some l -> flag = LINKLIST_FLAG_FIFO \/ flag = LINKLIST_FLAG_PRIO ->
  0 <= KTaskOsAssignLockNest k < 2 ^ 15 - 3 ->
  wp (LinklistSuspend hd t flag) (fun ret k' => ret = EOK /\
    tasks k' = <[t := as_stat KTASK_SUSPEND td]> (tasks k) /\ quiet k k' /\
    exists L' l', kernel_ok k' L' I (unset td dl) /\ L' !! hd = Some l' /\ other_lists_kept hd L L' /\
      (flag = LINKLIST_FLAG_FIFO -> l' = l ++ [SchedLink t]) /\
      (flag = LINKLIST_FLAG_PRIO -> l' ≡ₚ SchedLink t :: l /\ (ascending (tasks k) l -> ascending (tasks k') l'))) k.
Proof.
  intros Hko Hc Et Hst Hhd HL Hflag Hn. eapply wp_LinklistSuspend; [done..|by right|done|done|done|done|].
  intros k' L' Hko' Hq Ets HL' Hoth. split_and!; [done..|]. eexists L', _. split_and!; [done..| |].
  - intros ->. unfold wait_position, insert_nth. change (LINKLIST_FLAG_FIFO =? LINKLIST_FLAG_PRIO) with false.
    by rewrite take_ge, drop_ge by done.
  - intros ->. split; [unfold insert_nth; by rewrite <- Permutation_middle, take_drop|].
    intros Hasc. pose proof (ascending_insert (tasks k) td l t Et Hasc) as Ha. rewrite Ets.
    eapply sorted_by_ext; [|exact Ha]. intros x _. by rewrite (prio_of_insert _ _ td) by done.
Qed.

End PendList.
