(* ===== verification/Waiting.v ===== *)
(** * Waiting for an object: the steps that semaphores, mutexes, events and
    message queues share

    The current task is suspended on the list of the object, its delay is set
    when it waits for a limited time, and the processor is given up. *)

From S2P Require Import Prelude DoubleLink IdManager Bitmap Kernel ReadyVector Assign Delay Task TaskInv Deadlines PendList.

Section Waiting.
Context `{C : KConfig} `{D : PriorityReadyVectorDone}.
Context `{CO : !KConfigOk C} `{DL : !ReadyVectorLaws D}.
Implicit Types (k : kstate) (L : gmap link (list link)) (I : gmap Z link) (dl : list ptr).

(** ** The context checks *)

Lemma wp_KDEBUG_NOT_IN_INTERRUPT k (Q : unit -> kstate -> Prop) :
  isr_count k = 0 -> Q tt k -> wp KDEBUG_NOT_IN_INTERRUPT Q k.
Proof.
  intros Hi HQ. unfold KDEBUG_NOT_IN_INTERRUPT, DISABLE_INTERRUPT, ENABLE_INTERRUPT, GetIsrCounter. wp_steps.
  cbn [isr_count set_interrupts]. rewrite Hi. change (0 =? 0) with true. by wp_steps.
Qed.

Lemma wp_KDEBUG_IN_KTASK_CONTEXT k t (Q : unit -> kstate -> Prop) :
  os_running_task k = Some t -> isr_count k = 0 -> 0 <= KTaskOsAssignLockNest k < 2 ^ 15 - 1 -> Q tt k ->
  wp KDEBUG_IN_KTASK_CONTEXT Q k.
Proof.
  intros Hc Hi Hn HQ. unfold KDEBUG_IN_KTASK_CONTEXT, DISABLE_INTERRUPT, ENABLE_INTERRUPT. wp_steps.
  apply wp_GetKTaskDescriptor; [done|]. change (os_running_task (set_interrupts false k)) with (os_running_task k).
  rewrite Hc. rewrite bool_decide_true by by eexists. wp_steps.
  apply wp_KDEBUG_NOT_IN_INTERRUPT; [done|]. by wp_steps.
Qed.

(** The state without what scheduling and waiting change. *)
Definition outer (k : kstate) : kstate := set_os_running_task None (set_current_priority 0 (core k)).

Lemma outer_core k k' : core k' = core k -> outer k' = outer k.
Proof. unfold outer. by intros ->. Qed.

Lemma outer_rest k k' : rest k' = rest k -> outer k' = outer k.
Proof. intros E. change (set_delays ∅ (rest k') = set_delays ∅ (rest k)). by rewrite E. Qed.

(** The task [t], whose descriptor was [td], waits on the list [hd] for [timeout]
    ticks, or for ever. *)
Record waits (k : kstate) L dl (t : ptr) (td : TaskDescriptor) (hd : link) (timeout : Z) (now : Z) : Prop := {
  w_task : exists v, tasks k !! t = Some (set_delay v (as_stat KTASK_SUSPEND td));
  w_list : exists l, L !! hd = Some l /\ SchedLink t ∈ l;
  w_delay : forall td d, tasks k !! t = Some td -> delay td = Some d -> 0 < timeout ->
    d ∈ dl /\ delays k !! d = Some (mkDelay t (u32 (now + timeout)) TASK_DELAY_ACTIVE);
}.

(** Setting the delay of a task that was just suspended. *)
Lemma wp_wait_delay k L I dl mem t td timeout (Q : unit -> kstate -> Prop) :
  kernel_ok k L I dl -> tasks k !! t = Some td -> 0 <= KTaskOsAssignLockNest k < 2 ^ 15 - 2 ->
  (forall d, delay td = None -> mem = Some d -> fresh_delay k d) ->
  (forall k' L' dl' td', kernel_ok k' L' I dl' -> core k' = core k ->
     tasks k' = <[t := td']> (tasks k) -> td' = set_delay (delay td') td ->
     other_lists_kept (ListHead CDelay) L L' ->
     (forall d, delay td' = Some d -> 0 < timeout ->
        d ∈ dl' /\ delays k' !! d = Some (mkDelay t (u32 (heartbeat_ticks k + timeout)) TASK_DELAY_ACTIVE)) ->
     Q tt k') ->
  wp (if 0 <? timeout then KTaskSetDelay mem t timeout;; mret tt else mret tt) Q k.
Proof.
  intros Hko Et Hn Hfresh HQ. assert (set_delay (delay td) td = td) as Eid by by destruct td.
  assert ((forall d, delay td = Some d -> 0 < timeout -> False) -> Q tt k) as Hnone.
  { intros Hd. apply (HQ k L dl td); [done|done|by rewrite insert_id|done|done|].
    intros d E Ht. by destruct (Hd d E Ht). }
  destruct (Z.ltb_spec 0 timeout) as [Hpos|Hneg].
  - wp_steps. eapply (wp_KTaskSetDelay k L I dl mem t td); [done..| |].
    + intros Ed _. wp_steps. apply Hnone. intros d E. congruence.
    + intros d h' ds L' Hor k' Hko' Hs Ed Hds. wp_steps.
      apply (HQ k' L' _ (set_delay (Some d) td) Hko'); [done|done|done| |].
      * intros y _ _ H1 H2. by apply (ds_lists _ _ _ _ Hs).
      * intros d' [= <-] _. split; [apply elem_of_insert_nth; by left|exact Ed].
  - wp_steps. apply Hnone. intros. lia.
Qed.

(** Freshness of a block is not affected by quiet steps. *)
Lemma fresh_quiet k k' d : quiet k k' -> fresh_delay k d -> fresh_delay k' d.
Proof.
  intros [_ Ha _ Hd] [Hl E]. split.
  - apply eq_None_not_Some. intros H%Ha. destruct H as [? H]. congruence.
  - specialize (Hd d). rewrite E in Hd. by destruct (delays k' !! d).
Qed.

(** Some task other than the current one can run. *)
Definition other_ready (k : kstate) (t : ptr) : Prop :=
  exists y td, y <> t /\ tasks k !! y = Some td /\ stat_of td = KTASK_READY.

(** The descriptors of the tasks other than [t] changed at most in their state. *)
Definition others_kept (t : ptr) (k k' : kstate) : Prop := forall y td, y <> t -> tasks k !! y = Some td ->
  exists td', tasks k' !! y = Some td' /\ td' = set_stat (stat td') td.

Lemma others_kept_insert t td k k' : others_kept t (set_tasks (<[t := td]> (tasks k)) k) k' -> others_kept t k k'.
Proof. intros H y tdy Hy Ey. apply H; [done|]. cbn. by rewrite lookup_insert_ne. Qed.

(** The rest of a waiting function, after the current task [t] of [k] was suspended
    and put on a list: the delay, the end of the critical area and the switch. *)
Lemma wp_block_rest k k1 L L1 I dl1 mem t td hd l timeout lock (Q : unit -> kstate -> Prop) :
  os_running_task k = Some t -> other_ready k t -> KTaskOsAssignLockNest k = 1 -> isr_count k = 0 ->
  (forall d, delay td = None -> mem = Some d -> fresh_delay k d) ->
  kernel_ok k1 L1 I dl1 -> quiet k k1 -> tasks k1 = <[t := as_stat KTASK_SUSPEND td]> (tasks k) ->
  pend_list hd -> L1 !! hd = Some l -> SchedLink t ∈ l -> other_lists_kept hd L L1 ->
  (forall k' L' dl', kernel_ok k' L' I dl' -> outer k' = outer (unlocked lock k) -> runs_highest k' ->
     L' !! hd = Some l -> other_lists_kept hd L L' -> waits k' L' dl' t td hd timeout (heartbeat_ticks k) -> others_kept t k k' -> Q tt k') ->
  wp (if 0 <? timeout then KTaskSetDelay mem t timeout;; mret tt else mret tt) (fun _ k2 =>
      wp (CriticalAreaUnLock lock) (fun _ k3 => wp DO_KTASK_ASSIGN Q k3) k2) k1.
Proof.
  intros Hc Hother Hn Hisr Hfresh Hko1 Hq1 Ets1 Hhd HL1 Hin Hoth1 HQ.
  set (td1 := as_stat KTASK_SUSPEND td) in *.
  assert (tasks k1 !! t = Some td1) as Et1 by (rewrite Ets1; apply lookup_insert_eq).
  assert (stat_of td1 = KTASK_SUSPEND) as Hst1 by by apply stat_of_as_stat.
  destruct (pend_list_link hd Hhd) as (Hhd1 & Hhd2 & Hhd3).
  eapply (wp_wait_delay k1 L1 I _ mem t td1); [done|done|rewrite (quiet_nest _ _ Hq1); lia| |].
  { intros d Ed Em. destruct (Hfresh d Ed Em) as [Hl Hd]. by apply (fresh_quiet k). }
  intros k2 L2 dl2 td2 Hko2 Hc2 Ets2 Etd2 Hoth2 Hdel2.
  assert (core k2 = core k) as Hc2k by (rewrite Hc2; apply Hq1).
  assert (KTaskOsAssignLockNest k2 = 1) as En2 by (change (KTaskOsAssignLockNest (core k2) = 1); by rewrite Hc2k).
  apply wp_CriticalAreaUnLock; [lia|].
  set (k3 := unlocked lock k2).
  assert (kernel_ok k3 L2 I dl2) as Hko3 by by eapply kernel_ok_fields.
  assert (core k3 = core (unlocked lock k)) as Hc3.
  { change (unlocked lock (core k2) = unlocked lock (core k)). by rewrite Hc2k. }
  assert (heartbeat_ticks k1 = heartbeat_ticks k) as Ehb
    by (change (heartbeat_ticks (core k1) = heartbeat_ticks (core k)); by rewrite (q_core _ _ Hq1)).
  eapply (wp_DO_KTASK_ASSIGN k3 L2 t); [apply Hko3| | | | |].
  - change (os_running_task (core k3) = Some t). by rewrite Hc3.
  - left. destruct Hother as (y & tdy & Hy & Ey & Hsy). exists y, tdy. split; [|done].
    change (tasks k2 !! y = Some tdy). by rewrite Ets2, lookup_insert_ne, Ets1, lookup_insert_ne.
  - cbn. lia.
  - intros k4 L4 Hk4 Hfr4 Hr4 _ _.
    assert (kernel_ok k4 L4 I dl2) as Hko4 by by eapply kernel_ok_sched.
    assert (delays k4 = delays k2) as Ed4.
    { change (delays (rest k4) = delays (rest k3)). by rewrite (fr_rest _ _ _ _ Hfr4). }
    assert (L4 !! hd = Some l) as HL4 by (rewrite (fr_lists _ _ _ _ Hfr4) by done; by rewrite Hoth2 by done).
    apply (HQ k4 L4 dl2 Hko4); [|done|done| |split|].
    + rewrite (outer_rest k3 k4) by apply Hfr4. by apply outer_core.
    + intros y Hy H1 H2 H3. rewrite (fr_lists _ _ _ _ Hfr4) by done. rewrite Hoth2 by done. by apply Hoth1.
    + destruct (ko_member _ _ _ _ Hko4 hd _ (SchedLink t) _ Hhd HL4 Hin) as (y & tdy & [= <-] & Ey & Hsy).
      pose proof (fr_tasks _ _ _ _ Hfr4 t) as Ht. change (tasks k3 !! t) with (tasks k2 !! t) in Ht.
      rewrite Ets2, lookup_insert_eq, Ey in Ht. exists (delay td2). fold td1. rewrite <- Etd2, Ey. f_equal.
      assert (tasks k3 !! t = Some td2) as Et3 by (change (tasks k2 !! t = Some td2); by rewrite Ets2, lookup_insert_eq).
      destruct (fr_stat _ _ _ _ Hfr4 t td2 tdy Et3 Ey) as [E|[E|E]]; [done|by rewrite E in Hsy..].
    + by exists l.
    + intros td4 d Et4 Ed Ht. rewrite Ed4, <- Ehb. apply Hdel2; [|done].
      destruct (ts_tasks _ _ _ _ _ _ (task_step_sched _ _ _ _ Hfr4) Et4) as (td3 & Et3 & E3).
      change (tasks k2 !! t = Some td3) in Et3. rewrite Ets2, lookup_insert_eq in Et3. by injection Et3 as <-; congruence.
    + intros y tdy Hy Ey. pose proof (fr_tasks _ _ _ _ Hfr4 y) as Hty. change (tasks k3) with (tasks k2) in Hty.
      rewrite Ets2, lookup_insert_ne, Ets1, lookup_insert_ne, Ey in Hty by done.
      destruct (tasks k4 !! y) as [tdy'|]; [|done]. by exists tdy'.
  - intros Hi. exfalso. apply Hi. change (isr_count (core k3) = 0). by rewrite Hc3.
Qed.

(** The calls of a waiting function in their order; [Q] is told the number of
    ticks when the delay is set. *)
Lemma wp_block_steps k L I dl mem t td hd l flag timeout lock (Q : Z -> kstate -> Prop) :
  kernel_ok k L I dl -> os_running_task k = Some t -> tasks k !! t = Some td -> stat_of td = KTASK_RUNNING ->
  other_ready k t -> pend_list hd -> L !! hd = Some l ->
  flag = LINKLIST_FLAG_FIFO \/ flag = LINKLIST_FLAG_PRIO ->
  KTaskOsAssignLockNest k = 1 -> isr_count k = 0 ->
  (forall d, delay td = None -> mem = Some d -> fresh_delay k d) ->
  (forall k' L' dl', kernel_ok k' L' I dl' -> outer k' = outer (unlocked lock k) -> runs_highest k' ->
     L' !! hd = Some (insert_nth (wait_position flag (tasks k) td l) (SchedLink t) l) ->
     other_lists_kept hd L L' -> waits k' L' dl' t td hd timeout (heartbeat_ticks k) -> others_kept t k k' -> Q (heartbeat_ticks k) k') ->
  wp (LinklistSuspend hd t flag) (fun _ k1 =>
    wp (if 0 <? timeout then KTaskSetDelay mem t timeout;; mret tt else mret tt) (fun _ k2 =>
      wp (CriticalAreaUnLock lock) (fun _ k3 => wp DO_KTASK_ASSIGN (fun _ k4 => Q (heartbeat_ticks k1) k4) k3) k2) k1) k.
Proof.
  intros Hko Hc Et Hst Hother Hhd HL Hflag Hn Hisr Hfresh HQ.
  eapply wp_LinklistSuspend; [done|done|done|by right|done|done|done|lia|].
  intros k1 L1 Hko1 Hq1 Ets1 HL1 Hoth1.
  assert (heartbeat_ticks k1 = heartbeat_ticks k) as ->
    by (change (heartbeat_ticks (core k1) = heartbeat_ticks (core k)); by rewrite (q_core _ _ Hq1)).
  eapply (wp_block_rest k k1 L L1 I _ mem t td hd _ timeout lock (fun _ => Q (heartbeat_ticks k)));
    [done|done|done|done|done|done|done|done|done|exact HL1|apply elem_of_insert_nth; by left|done|exact HQ].
Qed.

Lemma wp_block {A : Type} k L I dl mem t td hd l flag timeout lock (r : A) (Q : A -> kstate -> Prop) :
  kernel_ok k L I dl -> os_running_task k = Some t -> tasks k !! t = Some td -> stat_of td = KTASK_RUNNING ->
  other_ready k t -> pend_list hd -> L !! hd = Some l ->
  flag = LINKLIST_FLAG_FIFO \/ flag = LINKLIST_FLAG_PRIO ->
  KTaskOsAssignLockNest k = 1 -> isr_count k = 0 ->
  (forall d, delay td = None -> mem = Some d -> fresh_delay k d) ->
  (forall k' L' dl', kernel_ok k' L' I dl' -> outer k' = outer (unlocked lock k) -> runs_highest k' ->
     L' !! hd = Some (insert_nth (wait_position flag (tasks k) td l) (SchedLink t) l) ->
     other_lists_kept hd L L' -> waits k' L' dl' t td hd timeout (heartbeat_ticks k) -> others_kept t k k' -> Q r k') ->
  wp (LinklistSuspend hd t flag;;
      (if 0 <? timeout then KTaskSetDelay mem t timeout;; mret tt else mret tt);;
      CriticalAreaUnLock lock;;
      DO_KTASK_ASSIGN;;
      mret r) Q k.
Proof.
  intros. apply wp_bind. eapply wp_mono; [eapply (wp_block_steps k L I dl mem t td hd l flag timeout lock (fun _ => Q r)); eassumption|].
  do 3 wp_next. intros ? k4 ?. by wp_steps.
Qed.

(** The current task [t] runs outside interrupt handlers and critical areas,
    some other task is READY, and [mem] may become the task's [Delay]. *)
Record task_context (k : kstate) (t : ptr) (td : TaskDescriptor) (mem : option ptr) : Prop := {
  tc_current : os_running_task k = Some t;
  tc_task : tasks k !! t = Some td;
  tc_running : stat_of td = KTASK_RUNNING;
  tc_other : other_ready k t;
  tc_nest : KTaskOsAssignLockNest k = 0;
  tc_isr : isr_count k = 0;
  tc_fresh : forall d, delay td = None -> mem = Some d -> fresh_delay k d;
}.

(** Inside the critical area of a waiting function, after it cleared the
    status of the task or set other fields of its descriptor. *)
Lemma wp_block_steps_in_context k L I dl mem t td td' hd l flag timeout (Q : Z -> kstate -> Prop) :
  kernel_ok k L I dl -> task_context k t td mem -> same_sched td td' -> pend_list hd -> L !! hd = Some l ->
  flag = LINKLIST_FLAG_FIFO \/ flag = LINKLIST_FLAG_PRIO ->
  (forall k' L' dl', kernel_ok k' L' I dl' -> outer k' = outer k -> runs_highest k' ->
     L' !! hd = Some (insert_nth (wait_position flag (tasks k) td l) (SchedLink t) l) ->
     other_lists_kept hd L L' -> waits k' L' dl' t td' hd timeout (heartbeat_ticks k) -> others_kept t k k' -> Q (heartbeat_ticks k) k') ->
  wp (LinklistSuspend hd t flag) (fun _ k1 =>
    wp (if 0 <? timeout then KTaskSetDelay mem t timeout;; mret tt else mret tt) (fun _ k2 =>
      wp (CriticalAreaUnLock (interrupts k)) (fun _ k3 => wp DO_KTASK_ASSIGN (fun _ k4 => Q (heartbeat_ticks k1) k4) k3) k2) k1)
    (set_tasks (<[t := td']> (tasks k)) (locked k)).
Proof.
  intros Hko [Hc Et Hst Hother Hn Hisr Hfresh] Hss Hhd HL Hflag HQ.
  set (k1 := set_tasks (<[t := td']> (tasks k)) (locked k)).
  assert (kernel_ok k1 L I dl) as Hko1.
  { apply (kernel_ok_update (locked k) L I dl t td); [by eapply kernel_ok_fields|done|done]. }
  eapply (wp_block_steps k1 L I dl mem t td'); [done|done|apply lookup_insert_eq| | |done|exact HL|done|cbn; lia|done| |].
  - by rewrite (ss_stat _ _ Hss).
  - destruct Hother as (y & tdy & Hy & Ey & Hsy). exists y, tdy. split_and!; [done| |done].
    cbn. by rewrite lookup_insert_ne.
  - intros d Ed Em. apply Hfresh; [|done]. by rewrite <- (ss_delay _ _ Hss).
  - intros k' L' dl' Hko' Hout Hr HL' Hoth Hw Hkept. apply (HQ k' L' dl'); [done| |done| |done|done|].
    + rewrite Hout. apply outer_core. unfold core, k1, unlocked, locked. cbn. by rewrite Z.add_simpl_r.
    + rewrite HL'. do 2 f_equal. apply wait_position_insert; [done|apply Hss].
    + exact (others_kept_insert t td' (locked k) k' Hkept).
Qed.

Lemma wp_block_in_context {A : Type} k L I dl mem t td td' hd l flag timeout (r : A) (Q : A -> kstate -> Prop) :
  kernel_ok k L I dl -> task_context k t td mem -> same_sched td td' -> pend_list hd -> L !! hd = Some l ->
  flag = LINKLIST_FLAG_FIFO \/ flag = LINKLIST_FLAG_PRIO ->
  (forall k' L' dl', kernel_ok k' L' I dl' -> outer k' = outer k -> runs_highest k' ->
     L' !! hd = Some (insert_nth (wait_position flag (tasks k) td l) (SchedLink t) l) ->
     other_lists_kept hd L L' -> waits k' L' dl' t td' hd timeout (heartbeat_ticks k) -> others_kept t k k' -> Q r k') ->
  wp (LinklistSuspend hd t flag;;
      (if 0 <? timeout then KTaskSetDelay mem t timeout;; mret tt else mret tt);;
      CriticalAreaUnLock (interrupts k);;
      DO_KTASK_ASSIGN;;
      mret r) Q (set_tasks (<[t := td']> (tasks k)) (locked k)).
Proof.
  intros. apply wp_bind.
  eapply wp_mono; [eapply (wp_block_steps_in_context k L I dl mem t td td' hd l flag timeout (fun _ => Q r)); eassumption|].
  do 3 wp_next. intros ? k4 ?. by wp_steps.
Qed.

(** ** Rescheduling after waking tasks *)

(** ... and without the request for a switch after the interrupt. *)
Definition visible (k : kstate) : kstate := set_isr_switch_trigger_flag 0 (outer k).

Lemma visible_outer k k' : outer k' = outer k -> visible k' = visible k.
Proof. unfold visible. by intros ->. Qed.

(** Descriptors after rescheduling: at most the state changed, to READY or RUNNING. *)
Definition rescheduled (k k' : kstate) : Prop := forall t td, tasks k !! t = Some td ->
  exists td', tasks k' !! t = Some td' /\ td' = set_stat (stat td') td /\
    (td' = td \/ stat_of td' = KTASK_READY \/ stat_of td' = KTASK_RUNNING).

Lemma rescheduled_refl k : rescheduled k k.
Proof. intros t td E. exists td. split_and!; [done|by destruct td|by left]. Qed.

Definition woken (k : kstate) (w : ptr) : Prop :=
  exists td, tasks k !! w = Some td /\ (stat_of td = KTASK_READY \/ stat_of td = KTASK_RUNNING).

Lemma woken_rescheduled k k' w td :
  rescheduled k k' -> tasks k !! w = Some td -> stat_of td = KTASK_READY -> woken k' w.
Proof.
  intros Hr E Hs. destruct (Hr w td E) as (td' & E' & _ & [->|?]); [exists td|exists td']; auto.
Qed.

Lemma wp_reschedule k L I dl c (Q : unit -> kstate -> Prop) :
  kernel_ok k L I dl -> os_running_task k = Some c -> can_run k -> KTaskOsAssignLockNest k = 0 ->
  (forall k' L', kernel_ok k' L' I dl -> visible k' = visible k -> delays k' = delays k ->
     (isr_count k = 0 -> runs_highest k') -> rescheduled k k' -> bystanders_kept k k' ->
     (forall y, sched_link y = false -> L' !! y = L !! y) -> Q tt k') ->
  wp DO_KTASK_ASSIGN Q k.
Proof.
  intros Hko Hc Hrun Hn HQ. eapply (wp_DO_KTASK_ASSIGN k L c); [apply Hko|done|done|done| |].
  - intros k' L' Hk' Hfr Hr [_ Hby] _. apply (HQ k' L'); [by eapply kernel_ok_sched| | |done| |done|apply Hfr].
    + apply visible_outer, outer_rest, Hfr.
    + change (delays (rest k') = delays (rest k)). by rewrite (fr_rest _ _ _ _ Hfr).
    + intros t td E. pose proof (fr_tasks _ _ _ _ Hfr t) as Ht. rewrite E in Ht.
      destruct (tasks k' !! t) as [td'|] eqn:E'; [|done]. exists td'. split_and!; [done|done|].
      by eapply (fr_stat _ _ _ _ Hfr).
  - intros Hi. apply (HQ (set_isr_switch_trigger_flag 1 k) L); [by eapply kernel_ok_fields|done|done|done| |by intros ?|done].
    exact (rescheduled_refl k).
Qed.

(** Leaving the critical area and rescheduling after the task [w] became READY. *)
Lemma wp_unlock_switch k L I dl c w td lock (Q : unit -> kstate -> Prop) :
  kernel_ok k L I dl -> os_running_task k = Some c -> KTaskOsAssignLockNest k = 1 ->
  tasks k !! w = Some td -> stat_of td = KTASK_READY ->
  (forall k' L', kernel_ok k' L' I dl -> visible k' = visible (unlocked lock k) ->
     (isr_count k = 0 -> runs_highest k') -> woken k' w -> rescheduled k k' ->
     (forall y, sched_link y = false -> L' !! y = L !! y) -> Q tt k') ->
  wp (CriticalAreaUnLock lock) (fun _ k' => wp DO_KTASK_ASSIGN Q k') k.
Proof.
  intros Hko Hc Hn Ew Hst HQ. apply wp_CriticalAreaUnLock; [lia|].
  eapply (wp_reschedule (unlocked lock k) L I dl c); [by eapply kernel_ok_fields|done| |cbn; lia|].
  - left. by exists w, td.
  - intros k' L' Hko' Hvis _ Hr Hres _ HL. apply (HQ k' L'); [done|done|done| |done|done].
    by apply (woken_rescheduled (unlocked lock k) k' w td).
Qed.

(** The first task waiting on a list is woken and the processor handed over. *)
Lemma wp_resume_switch k L I dl c hd w l lock (Q : unit -> kstate -> Prop) :
  kernel_ok k L I dl -> os_running_task k = Some c -> KTaskOsAssignLockNest k = 1 ->
  pend_list hd -> L !! hd = Some (SchedLink w :: l) ->
  (forall k' L' dl', kernel_ok k' L' I dl' -> visible k' = visible (unlocked lock k) ->
     (isr_count k = 0 -> runs_highest k') -> woken k' w -> L' !! hd = Some l -> other_lists_kept hd L L' ->
     others_kept w k k' -> Q tt k') ->
  wp (LinklistResume hd) (fun _ k' => wp (CriticalAreaUnLock lock) (fun _ k' => wp DO_KTASK_ASSIGN Q k') k') k.
Proof.
  intros Hko Hc Hn Hhd HL HQ. destruct (pend_list_link hd Hhd) as (Hhd1 & Hhd2 & Hhd3).
  destruct (ko_member _ _ _ _ Hko hd _ (SchedLink w) KTASK_SUSPEND Hhd HL) as (? & tdw & [= <-] & Ew & _); [set_solver|].
  eapply (wp_LinklistResume k L I dl w tdw); [done|done|exact HL|exact Ew|lia|].
  intros k2 L2 Hko2 Hq2 Ets2 HL2 Hoth2.
  assert (tasks k2 !! w = Some (as_stat KTASK_READY tdw)) as Ew2 by (rewrite Ets2; apply lookup_insert_eq).
  eapply (wp_unlock_switch k2 L2 I _ c w); [done| |by rewrite (quiet_nest _ _ Hq2)|exact Ew2|by apply stat_of_as_stat|].
  { change (os_running_task (core k2) = Some c). by rewrite (q_core _ _ Hq2). }
  intros k3 L3 Hko3 Hvis Hr Hw Hres HL3. apply (HQ k3 L3 _ Hko3); [| |done| | |].
  - rewrite Hvis. apply visible_outer, outer_core. change (unlocked lock (core k2) = unlocked lock (core k)).
    by rewrite (q_core _ _ Hq2).
  - intros Hi. apply Hr. change (isr_count (core k2) = 0). by rewrite (q_core _ _ Hq2).
  - by rewrite HL3.
  - intros y Hy H1 H2 H3. rewrite HL3 by done. by apply Hoth2.
  - intros y tdy Hy Ey. destruct (Hres y tdy) as (tdy' & Ey' & E & _); [by rewrite Ets2, lookup_insert_ne|]. by exists tdy'.
Qed.

(** The status of the running task. *)
Lemma wp_KUpdateExstatus status k t td (Q : unit -> kstate -> Prop) :
  EOK <= status < INVALID_TASK_ERROR -> isr_count k = 0 -> os_running_task k = Some t -> tasks k !! t = Some td ->
  0 <= KTaskOsAssignLockNest k < 2 ^ 15 - 1 ->
  Q tt (set_tasks (<[t := set_exstatus (- status) td]> (tasks k)) k) -> wp (KUpdateExstatus status) Q k.
Proof.
  intros Hs Hi Hc Et Hn HQ. unfold KUpdateExstatus, GetIsrCounter, DISABLE_INTERRUPT, ENABLE_INTERRUPT.
  rewrite (proj2 (Z.ltb_ge status EOK)), (proj2 (Z.leb_gt INVALID_TASK_ERROR status)) by lia. cbn [orb]. wp_steps.
  cbn [isr_count set_interrupts]. rewrite Hi. change (0 =? 0) with true. wp_steps.
  assert (set_interrupts (interrupts k) (set_interrupts false k) = k) as E by by destruct k.
  rewrite ?E. apply wp_GetKTaskDescriptor; [done|]. rewrite Hc. wp_steps. by eapply wp_task_set.
Qed.

End Waiting.
