(* ===== verification/Lifecycle.v ===== *)
(** * The life of a task: creation and start

    [KTaskCreate] makes a task in the state INIT that only the identifier and the
    list of all tasks know; [StartupKTask] makes it READY. *)

From S2P Require Import Prelude DoubleLink IdManager Bitmap Kernel ReadyVector Assign Delay Task TaskInv Creation Deadlines PendList Waiting.

Section Lifecycle.
Context `{C : KConfig} `{D : PriorityReadyVectorDone}.
Implicit Types (k : kstate) (L : gmap link (list link)) (I : gmap Z link) (dl : list ptr).

(** ** Creation *)

(** The descriptor of a new task. *)
Definition created (nm : string) (entry parameter : Z) (b depth prio : Z) : TaskDescriptor :=
  let slice := match sched_policy with SCHED_POLICY_FIFO => 0 | _ => 10 end in
  mkTask (String.substring 0 (Z.to_nat NAME_NUM_MAX) nm) (Some entry) parameter prio depth (Some b)
    KTASK_INIT 0 prio slice slice 0 0 0 None 0 0 EOK.

Lemma task_links_class t : Forall (fun x => object_link CTask x = true) (task_links t).
Proof. by repeat constructor. Qed.

Lemma set_tasks_insert t td td' k k' :
  k' = set_tasks (<[t := td]> (tasks k)) k -> set_tasks (<[t := td']> (tasks k')) k' = set_tasks (<[t := td']> (tasks k)) k.
Proof. intros ->. cbn. by rewrite insert_insert_eq. Qed.

(** Setting the fields of a descriptor one after the other. *)
Definition at_task (t : ptr) (td : TaskDescriptor) k : kstate := set_tasks (<[t := td]> (tasks k)) k.

Lemma wp_set_at t f td (Q : unit -> kstate -> Prop) k :
  Q tt (at_task t (f td) k) -> wp (task_set t f) Q (at_task t td k).
Proof.
  intros HQ. eapply wp_task_set; [apply lookup_insert_eq|]. unfold at_task in *. cbn. by rewrite insert_insert_eq.
Qed.

Lemma wp__KTaskBaseInfoParse t td nm entry parameter b depth prio k (Q : Z -> kstate -> Prop) :
  prio < KTASK_PRIORITY_MAX ->
  Q EOK (at_task t (set_origin_prio prio (set_func_param parameter (set_func_entry (Some entry)
    (set_name (String.substring 0 (Z.to_nat NAME_NUM_MAX) nm) (set_stack_depth depth (set_stack_start (Some b) td))))))
    (set_blocks ({[b]} ∪ blocks k) k)) ->
  wp (_KTaskBaseInfoParse (Some b) t (Some nm) (Some entry) parameter depth prio) Q (at_task t td k).
Proof.
  intros Hp HQ. unfold _KTaskBaseInfoParse, malloc_block. cbn [NULL_PARAM_CHECK]. wp_steps.
  rewrite (proj2 (Z.leb_gt _ _) Hp). wp_steps.
  change (set_blocks _ (at_task t td k)) with (at_task t td (set_blocks ({[b]} ∪ blocks k) k)).
  repeat (apply wp_set_at; wp_steps). exact HQ.
Qed.

Lemma wp__KTaskDyncMemberInit_fields t td k (Q : unit -> kstate -> Prop) :
  wp (klinks (InitDoubleLinkList (SchedLink t))) (fun _ k1 => exists k2, k1 = at_task t td k2 /\
    let slice := match sched_policy with SCHED_POLICY_FIFO => 0 | _ => 10 end in
    Q tt (at_task t (mkTask (name td) (func_entry td) (func_param td) (origin_prio td) (stack_depth td) (stack_start td)
      (u8 (Z.land (stat td) (Z.lnot KTASK_STAT_MASK))) 0 (origin_prio td) slice slice
      (if two_level then 0 else bitmap_offset td) (if two_level then 0 else bitmap_row td) 0 (delay td)
      (event_id_trigger td) (event_mode td) EOK) k2)) k ->
  wp (_KTaskDyncMemberInit t) Q k.
Proof.
  intros Hwp. unfold _KTaskDyncMemberInit. apply wp_bind. eapply wp_mono; [exact Hwp|]. intros [] k1 (k2 & -> & HQ). wp_steps.
  unfold FifoTaskTimesliceInit, RoundRobinTaskTimesliceInit, RoundRobinRemainTaskTimesliceInit, KTaskStatSetAsInit, KTaskStateSet.
  destruct two_level, sched_policy; repeat (apply wp_set_at; wp_steps); exact HQ.
Qed.

(** C11: creating a task, with a priority below KTASK_PRIORITY_MAX and with the memory for
    its descriptor and its stack given.  Then it fails only when all identifiers are used,
    without an effect (a priority that is too large or no stack gives -ERROR, with the
    effect of Defects.KTaskCreate_leaves_freed_link).  Otherwise the least unused identifier denotes the new task, which is in
    the state INIT, has the given name, entry, stack and priority, is linked into the
    list of all tasks and on no other list; the invariant and everything else are kept. *)
Theorem KTaskCreate_correct k L I dl mgr l t b nm entry parameter depth prio :
  kernel_ok k L I dl -> managers k !! CTask = Some mgr -> L !! ListHead CTask = Some l ->
  fresh_links (task_links t) (links k) -> tasks k !! t = None -> node_ids k !! IdLink CTask t = None ->
  isr_count k = 0 -> 0 <= KTaskOsAssignLockNest k < 2 ^ 15 - 1 -> prio < KTASK_PRIORITY_MAX ->
  wp (KTaskCreate (Some t) (Some b) (Some nm) (Some entry) parameter depth prio) (fun ret k' =>
    ret = - ENOMEMORY /\ all_used mgr I /\ k' = k \/
    least_unused ret I /\ exists mgr' h' L',
      k' = with_ids CTask mgr' (<[IdLink CTask t := ret]> (node_ids k)) h'
             (set_blocks ({[b]} ∪ blocks k) (set_tasks (<[t := created nm entry parameter b depth prio]> (tasks k)) k)) /\
      kernel_ok k' L' (<[ret := IdLink CTask t]> I) dl /\
      L' !! ListHead CTask = Some (ObjLink CTask t :: l) /\ L' !! SchedLink t = Some []) k.
Proof.
  intros Hko Em HL Hf Ht Hn Hisr Hnest Hprio. pose proof (so_rep _ _ (ko_sched _ _ _ _ Hko)) as HR.
  pose proof (ko_ids _ _ _ _ Hko) as [(mgr0 & Em0 & Hid) Hr Hti]. rewrite Em in Em0. injection Em0 as <-.
  assert (forall i, I !! i <> Some (IdLink CTask t)) as HI.
  { intros i Hi. destruct (Hr i _ Hi) as (t' & [= <-] & [td Et]). congruence. }
  unfold KTaskCreate. wp_steps. apply wp_KDEBUG_NOT_IN_INTERRUPT; [done|]. wp_steps. unfold new_task. wp_steps.
  apply wp_CriticalAreaLock; [done|]. wp_steps.
  match goal with |- wp _ _ ?s => set (k1 := s) end.
  eapply (wp_growing_id CTask (task_links t) t k L (task_links_class t) I mgr l k1 _ [ObjLink CTask t; SchedLink t]);
    [by split|done|done|done|done|done|done|set_solver|done| | |].
  { intros x Hx. repeat (apply elem_of_cons in Hx as [->|Hx]; [split; [set_solver|done]|]). by apply elem_of_nil in Hx. }
  - intros Hall. wp_steps. change (-1 <? 0) with true. unfold free_task. wp_steps.
    apply wp_CriticalAreaUnLock; [cbn; lia|]. wp_steps.
    eapply wp_deref; [apply lookup_insert_eq|]. wp_steps.
    left. split_and!; [done|done|].
    change (set_node_ids (delete (IdLink CTask t) (<[IdLink CTask t := 0]> (node_ids k)))
      (set_tasks (delete t (<[t := zero_task]> (tasks k)))
        (set_links (foldr (fun x => delete x) (zeroed (task_links t) (links k)) (task_links t)) (unlocked (interrupts k) (locked k)))) = k).
    rewrite unlocked_locked, drop_zeroed, !delete_insert_id by done. done.
  - intros i h1 mgr1 L1 Hi Hmax _ k2 Hg1. rewrite (proj2 (Z.ltb_ge i 0)) by apply Hi. wp_steps.
    eapply wp_growing_attach; [apply task_links_class|exact Hg1|set_solver|set_solver|]. intros h3 L3 Hg3 _. wp_steps.
    apply wp_CriticalAreaUnLock; [cbn; lia|]. wp_steps.
    set (k3 := with_ids CTask mgr1 (<[IdLink CTask t := i]> (node_ids k)) h3 k).
    match goal with |- wp _ _ ?s => assert (s = at_task t zero_task k3) as -> end.
    { unfold k3, k2, k1, at_task, with_ids, unlocked, locked. cbn. by rewrite Z.add_simpl_r. }
    unfold _InitKTask. wp_steps. apply (wp__KTaskBaseInfoParse t zero_task); [done|]. wp_steps. change (EOK <? 0) with false. wp_steps.
    match goal with |- wp _ _ (at_task t ?td0 _) => set (td4 := td0) end.
    apply (wp__KTaskDyncMemberInit_fields t td4). set (k4 := at_task t td4 (set_blocks ({[b]} ∪ blocks k3) k3)).
    apply (growing_fields _ _ _ _ _ _ _ _ _ _ k4) in Hg3; [|done..].
    eapply wp_growing_init; [apply task_links_class|exact Hg3|set_solver|set_solver|]. intros h5 L5 Hg5.
    exists (set_links h5 (set_blocks ({[b]} ∪ blocks k3) k3)). split; [done|]. intros slice. wp_steps. change (EOK =? EOK) with true.
    wp_steps. right. split; [done|]. exists mgr1, h5, L5.
    match goal with |- ?s = ?s' /\ _ => assert (s = s') as -> end.
    { unfold k3, at_task, with_ids, created. cbn. by destruct two_level. }
    split; [done|]. split; [|split; [apply Hg5|apply lookup_insert_eq]].
    eapply (kernel_ok_grows CTask (task_links t) k L);
      [done|done|apply task_links_class|by apply (fresh_unlisted _ (links k))|apply Hg5|done|done|done| | |].
    + intros y td Ey. cbn. rewrite lookup_insert_ne; [done|]. intros <-. congruence.
    + intros y td Ey. change (<[t := created nm entry parameter b depth prio]> (tasks k) !! y = Some td) in Ey.
      apply lookup_insert_Some in Ey as [[<- <-]|[_ Ey]]; [right|by left]. split_and!; [done|done|apply lookup_insert_eq].
    + destruct (gw_ids _ _ _ _ _ _ _ _ _ _ Hg5) as (mgr5 & Em5 & Hid5). split.
      * exists mgr5. split; [exact Em5|exact Hid5].
      * intros j a [[<- <-]|[_ Hj]]%lookup_insert_Some; [exists t; split; [done|by eexists; apply lookup_insert_eq]|].
        destruct (Hr j a Hj) as (y & -> & Hy). exists y. split; [done|]. cbn. apply lookup_insert_is_Some'. by right.
      * intros y Hy. change (is_Some (<[t := created nm entry parameter b depth prio]> (tasks k) !! y)) in Hy. apply lookup_insert_is_Some' in Hy as [<-|Hy]; [exists i; apply lookup_insert_eq|].
        destruct (Hti y Hy) as (j & Hj). exists j. rewrite lookup_insert_ne; [done|]. intros <-.
        destruct Hi as (_ & Hi & _). congruence.
Qed.

(** ** Start *)

Context `{CO : !KConfigOk C} `{DL : !ReadyVectorLaws D}.

(** The descriptor of the task when it becomes READY. *)
Definition started_task (td : TaskDescriptor) : TaskDescriptor := bitmap_site (set_cur_prio (origin_prio td) td).

Lemma started_may_replace td :
  stat_of td = KTASK_INIT -> 0 <= origin_prio td < KTASK_PRIORITY_MAX -> may_replace td (started_task td) /\ site_ok (started_task td).
Proof.
  intros Hst Hp. assert (site_ok (started_task td)) as Hs by by apply bitmap_site_ok.
  split; [|done]. split; [|by rewrite Hst|done|]; unfold started_task, bitmap_site; by destruct two_level.
Qed.

(** C12: starting a task by identifier.  A task in the state INIT takes its original
    priority, becomes READY, and with a current task the highest READY task runs
    afterwards, from an interrupt handler after the interrupt; the invariant is kept.
    Any other task cannot be started: -ERROR, without an effect. *)
Theorem StartupKTask_correct k L I dl id t td :
  kernel_ok k L I dl -> I !! id = Some (IdLink CTask t) -> tasks k !! t = Some td ->
  0 <= origin_prio td < KTASK_PRIORITY_MAX -> KTaskOsAssignLockNest k = 0 ->
  wp (StartupKTask id) (fun ret k' =>
    if stat_of td =? KTASK_INIT
    then ret = EOK /\ (exists L', kernel_ok k' L' I (unset td dl)) /\ visible k' = visible k /\
      (exists td', tasks k' !! t = Some td' /\ td' = set_stat (stat td') (started_task td) /\
         (stat_of td' = KTASK_READY \/ stat_of td' = KTASK_RUNNING)) /\
      (os_running_task k <> None -> isr_count k = 0 -> runs_highest k')
    else ret = - ERROR /\ k' = k) k.
Proof.
  intros Hko Hid Et Hp Hn. pose proof (ko_sched _ _ _ _ Hko) as Hk.
  destruct (ko_ids _ _ _ _ Hko) as [(mgr & _ & Hrep) _ _]. pose proof (ir_dom _ _ _ _ Hrep _ _ Hid).
  unfold StartupKTask. rewrite (proj2 (Z.ltb_ge id 0)) by lia. eapply wp_by_id; [done..|lia|].
  unfold _StartupKTask, JudgeKTaskStatIsInit. wp_steps. apply wp_CriticalAreaLock; [lia|]. wp_steps.
  eapply wp_task_get; [exact Et|]. destruct (Z.eqb_spec (stat_of td) KTASK_INIT) as [Hst|Hst]; cbn [negb]; wp_steps.
  2: { apply wp_CriticalAreaUnLock; [cbn; lia|]. rewrite unlocked_locked. by wp_steps. }
  destruct (started_may_replace td Hst Hp) as [Hmr Hsite].
  eapply wp_task_set; [exact Et|]. wp_steps. unfold __BitmapSiteMask. eapply wp_task_set; [apply lookup_insert_eq|].
  cbn [tasks set_tasks]. rewrite insert_insert_eq. wp_steps.
  match goal with |- wp _ _ ?s => set (k1 := s) end.
  assert (kernel_ok k1 L I dl) as Hko1.
  { apply (kernel_ok_replace (locked k) L I dl t td); [by eapply kernel_ok_fields|done|done]. }
  assert (tasks k1 !! t = Some (started_task td)) as Et1 by apply lookup_insert_eq.
  assert (stat_of (started_task td) <> KTASK_READY) as Hst1 by (by rewrite (mr_stat _ _ Hmr), Hst).
  eapply wp_mono; [apply (wp_release k1 L I dl t (started_task td) (fun _ k' => exists L', kernel_ok k' L' I (unset td dl) /\
    quiet k1 k' /\ tasks k' !! t = Some (as_stat KTASK_READY (started_task td)))); [done|done|done|done|cbn; lia|]|].
  { intros k' L' Hko' Hq Ets _. exists L'. split; [|split; [exact Hq|rewrite Ets; apply lookup_insert_eq]].
    replace (unset td dl) with (unset (started_task td) dl) by (unfold unset; by rewrite (mr_delay _ _ Hmr)). exact Hko'. }
  wp_next. wp_next. intros [] k4 (L4 & Hko4 & Hq4 & Et5). wp_steps.
  assert (core (unlocked (interrupts k) k4) = core k) as Hc.
  { change (unlocked (interrupts k) (core k4) = core k). rewrite (q_core _ _ Hq4).
    unfold core, k1, unlocked, locked. cbn. by rewrite Z.add_simpl_r. }
  apply wp_CriticalAreaUnLock; [rewrite (quiet_nest _ _ Hq4); cbn; lia|]. wp_steps.
  set (k5 := unlocked (interrupts k) k4) in *.
  assert (kernel_ok k5 L4 I (unset td dl)) as Hko5 by by eapply kernel_ok_fields.
  change (tasks k5 !! t = Some (as_stat KTASK_READY (started_task td))) in Et5.
  assert (os_running_task k5 = os_running_task k) as Ec by (change (os_running_task (core k5) = os_running_task (core k)); by rewrite Hc).
  assert (KTaskOsAssignLockNest k5 = 0) as En by (rewrite <- Hn; change (KTaskOsAssignLockNest (core k5) = KTaskOsAssignLockNest (core k)); by rewrite Hc).
  assert (isr_count k5 = isr_count k) as Ei by (change (isr_count (core k5) = isr_count (core k)); by rewrite Hc).
  apply wp_GetKTaskDescriptor; [lia|]. wp_steps. rewrite Ec. destruct (os_running_task k) as [c|] eqn:Ec0.
  - wp_steps. eapply (wp_reschedule k5 L4 I _ c); [exact Hko5|done| |done|].
    + left. exists t, (as_stat KTASK_READY (started_task td)). split; [done|by apply stat_of_as_stat].
    + intros k6 L6 Hko6 Hvis _ Hr Hres _ _. wp_steps. split; [done|]. split; [by exists L6|].
      split; [rewrite Hvis; by apply visible_outer, outer_core|]. split; [|intros _ Hi; apply Hr; congruence].
      destruct (Hres t _ Et5) as (td6 & Et6 & E6 & Hcase). exists td6. split; [exact Et6|]. split; [exact E6|].
      destruct Hcase as [->|?]; [left; by apply stat_of_as_stat|done].
  - wp_steps. split; [done|]. split; [by exists L4|]. split; [by apply visible_outer, outer_core|].
    split; [|by intros ?]. exists (as_stat KTASK_READY (started_task td)). split; [done|]. split; [done|left; by apply stat_of_as_stat].
Qed.

End Lifecycle.
