(* ===== verification/Recycle.v ===== *)
(** * The end of a task: deletion and recycling

    [KTaskDelete] closes a task, hands it to the recycler and wakes that;
    [ZombieKTaskEntry] frees what the closed task owned. *)

From S2P Require Import Prelude DoubleLink IdManager Bitmap Kernel ReadyVector Assign Delay Task TaskInv Creation Deadlines PendList Waiting.

Section Recycle.
Context `{C : KConfig} `{D : PriorityReadyVectorDone}.
Context `{CO : !KConfigOk C} `{DL : !ReadyVectorLaws D}.
Implicit Types (k : kstate) (L : gmap link (list link)) (I : gmap Z link) (dl : list ptr).

(** ** Deletion *)

(** A task leaves the list it is on and goes to the front of the closed ones. *)
Lemma wp_close k L I dl t td zs (Q : unit -> kstate -> Prop) :
  kernel_ok k L I dl -> tasks k !! t = Some td -> stat_of td <> KTASK_INIT -> L !! ZombieHead = Some zs ->
  (forall k' L', kernel_ok k' L' I dl -> quiet k k' -> tasks k' = <[t := as_stat KTASK_CLOSE td]> (tasks k) ->
     L' !! ZombieHead = Some (SchedLink t :: without (SchedLink t) zs) -> Q tt k') ->
  wp (_KTaskResourceDelete t) (fun _ k1 => wp (klinks (DoubleLinkListInsertNodeAfter ZombieHead (SchedLink t))) Q k1) k.
Proof.
  intros Hko Et Hst HL HQ. pose proof (ko_sched _ _ _ _ Hko) as Hk. unfold _KTaskResourceDelete. wp_steps.
  eapply (wp_rv_remove k L t td KTASK_CLOSE (os_running_task k)); [done|done|by apply (so_site _ _ Hk _ _ Et)|done| |].
  { split; [by left|]. intros y tdy [[<- <-]|[? Ey]]%lookup_insert_Some Hs; [by rewrite stat_of_as_stat in Hs|].
    by eapply (so_running _ _ Hk). }
  intros h' rv' Hk1 Hsl. wp_steps. unfold KTaskStatSetAsClose. eapply wp_KTaskStateSet; [exact Et|].
  match goal with |- wp _ _ ?s => set (k1 := s) end.
  assert (kernel_ok k1 (detach (SchedLink t) L) I dl) as Hko1.
  { eapply (kernel_ok_detach k L I dl t td (as_stat KTASK_CLOSE td)); done. }
  assert (detach (SchedLink t) L !! ZombieHead = Some (without (SchedLink t) zs)) as HL1 by by rewrite lookup_detach_ne, HL.
  pose proof (so_rep _ _ (ko_sched _ _ _ _ Hko1)) as HR1. pose proof (lookup_detach_eq (SchedLink t) L) as Hdet.
  apply wp_klinks, (wp_DoubleLinkListInsertNodeAfter _ (detach (SchedLink t) L) ZombieHead [] (without (SchedLink t) zs));
    [done|exact HL1|done|by eapply detached_unlinked|eapply rep_alloc; [done|exact Hdet|set_solver]|done|].
  intros h2 HR2 Hsl2. apply (HQ _ _ (wait_ok k1 _ I dl t (as_stat KTASK_CLOSE td) ZombieHead (without (SchedLink t) zs) 0
    KTASK_CLOSE Hko1 ltac:(apply lookup_insert_eq) (stat_of_as_stat KTASK_CLOSE td ltac:(done)) ltac:(by right) eq_refl HL1 Hdet h2 HR2 Hsl2)).
  - eapply (quiet_trans _ k1); by eapply quiet_relink.
  - done.
  - apply lookup_attach_eq.
Qed.

(** What the recycler becomes when it is woken. *)
Definition recycler_woken (tdz : TaskDescriptor) : TaskDescriptor :=
  if stat_of tdz =? KTASK_SUSPEND then as_stat KTASK_READY tdz else tdz.

(** The recycler: it can run, or is suspended until there is work. *)
Record recycler (k : kstate) I (z : ptr) (tdz : TaskDescriptor) : Prop := {
  rc_id : I !! zombie_recycle k = Some (IdLink CTask z);
  rc_task : tasks k !! z = Some tdz;
  rc_stat : stat_of tdz = KTASK_READY \/ stat_of tdz = KTASK_SUSPEND \/ stat_of tdz = KTASK_RUNNING;
}.

Lemma wp_retire k L I dl t td z tdz zs (Q : unit -> kstate -> Prop) :
  kernel_ok k L I dl -> tasks k !! t = Some td -> stat_of td <> KTASK_INIT -> L !! ZombieHead = Some zs ->
  recycler k I z tdz -> t <> z -> 0 <= KTaskOsAssignLockNest k < 2 ^ 15 - 2 ->
  (forall k' L' dl', kernel_ok k' L' I dl' -> quiet k k' ->
     tasks k' = <[z := recycler_woken tdz]> (<[t := as_stat KTASK_CLOSE td]> (tasks k)) ->
     L' !! ZombieHead = Some (SchedLink t :: without (SchedLink t) zs) -> Q tt k') ->
  wp (retire t) Q k.
Proof.
  intros Hko Et Hst HL [Hz Ez Hsz] Hne Hn HQ. unfold retire. wp_steps.
  eapply wp_mono; [apply (wp_close k L I dl t td zs (fun _ k' => exists L', kernel_ok k' L' I dl /\ quiet k k' /\
    tasks k' = <[t := as_stat KTASK_CLOSE td]> (tasks k) /\ L' !! ZombieHead = Some (SchedLink t :: without (SchedLink t) zs)));
    [done..|intros k' L' ? ? ? ?; by exists L']|].
  wp_next. intros [] k1 (L1 & Hko1 & Hq1 & Ets1 & HL1). wp_steps. unfold JudgeZombieKTaskIsNotEmpty. wp_steps. apply wp_klinks.
  eapply (wp_IsDoubleLinkListEmpty _ L1); [apply Hko1|exact HL1|]. rewrite set_links_id, bool_decide_false by done. cbn [negb]. wp_steps.
  assert (zombie_recycle k1 = zombie_recycle k) as -> by (change (zombie_recycle (core k1) = zombie_recycle (core k)); by rewrite (q_core _ _ Hq1)).
  assert (tasks k1 !! z = Some tdz) as Ez1 by (by rewrite Ets1, lookup_insert_ne).
  unfold KTaskWakeup. eapply wp_mono with (P := fun _ k2 => exists L2 dl2, kernel_ok k2 L2 I dl2 /\ quiet k1 k2 /\
    tasks k2 = <[z := recycler_woken tdz]> (tasks k1) /\ L2 !! ZombieHead = L1 !! ZombieHead).
  2:{ intros _ k2 (L2 & dl2 & Hko2 & Hq2 & Ets2 & HL2). wp_steps. apply (HQ k2 L2 dl2); [done|by eapply quiet_trans|congruence|congruence]. }
  eapply wp_by_id; [exact Hko1|done|rewrite (quiet_nest _ _ Hq1); lia|].
  unfold recycler_woken. destruct (Z.eqb_spec (stat_of tdz) KTASK_SUSPEND) as [E|E].
  - eapply wp__KTaskWakeup; [exact Hko1|exact Ez1|exact E|by rewrite (quiet_nest _ _ Hq1)|].
    intros k2 L2 Hko2 Hq2 Ets2 HL2. exists L2, (unset tdz dl). split_and!; [done..|]. rewrite HL2, HL1 by done.
    apply (f_equal Some), without_not_in. intros Hin.
    destruct (ko_member _ _ _ _ Hko1 ZombieHead _ _ KTASK_CLOSE eq_refl HL1 Hin) as (? & tdz' & [= <-] & Ez' & Es).
    rewrite Ez1 in Ez'. injection Ez' as <-. by rewrite Es in E.
  - unfold _KTaskWakeup, JudgeKTaskStatIsSuspend. wp_steps. eapply wp_task_get; [exact Ez1|].
    rewrite (proj2 (Z.eqb_neq _ _) E). cbn [negb]. wp_steps. exists L1, dl. split_and!; [done|done|by rewrite insert_id|done].
Qed.

(** After [retire], in the critical area of [k]: the state outside and who may run. *)
Lemma wp_retire_switch k L I dl t td c z tdz zs (Q : unit -> kstate -> Prop) :
  kernel_ok k L I dl -> tasks k !! t = Some td -> stat_of td <> KTASK_INIT -> L !! ZombieHead = Some zs ->
  recycler k I z tdz -> t <> z -> os_running_task k = Some c -> KTaskOsAssignLockNest k = 0 ->
  (forall k' L' dl', kernel_ok k' L' I dl' -> visible k' = visible k -> (isr_count k = 0 -> runs_highest k') ->
     tasks k' !! t = Some (as_stat KTASK_CLOSE td) -> woken k' z ->
     L' !! ZombieHead = Some (SchedLink t :: without (SchedLink t) zs) -> Q tt k') ->
  wp (retire t) (fun _ k1 => wp (CriticalAreaUnLock (interrupts k)) (fun _ k2 => wp DO_KTASK_ASSIGN Q k2) k1) (locked k).
Proof.
  intros Hko Et Hst HL [Hz Ez Hsz] Hne Hc Hn HQ.
  eapply (wp_retire (locked k) L I dl t td z tdz zs); [by eapply kernel_ok_fields|done..|cbn; lia|].
  intros k1 L1 dl1 Hko1 Hq1 Ets1 HL1. wp_steps. apply wp_CriticalAreaUnLock; [rewrite (quiet_nest _ _ Hq1); cbn; lia|]. wp_steps.
  pose proof (quiet_unlocked _ _ Hq1) as Hq. set (k2 := unlocked (interrupts k) k1) in *.
  assert (tasks k2 !! z = Some (recycler_woken tdz)) as Ez2 by (change (tasks k1 !! z = Some (recycler_woken tdz)); rewrite Ets1; apply lookup_insert_eq).
  assert (tasks k2 !! t = Some (as_stat KTASK_CLOSE td)) as Et2.
  { change (tasks k1 !! t = Some (as_stat KTASK_CLOSE td)). rewrite Ets1, lookup_insert_ne by done. apply lookup_insert_eq. }
  assert (stat_of (recycler_woken tdz) = KTASK_READY \/ stat_of (recycler_woken tdz) = KTASK_RUNNING) as Hs2.
  { unfold recycler_woken. destruct (Z.eqb_spec (stat_of tdz) KTASK_SUSPEND); [left; by apply stat_of_as_stat|]. tauto. }
  assert (kernel_ok k2 L1 I dl1) as Hko2 by by eapply kernel_ok_fields.
  eapply (wp_reschedule k2 L1 I dl1 c); [exact Hko2| | |by rewrite (quiet_nest _ _ Hq)|].
  - change (os_running_task (core k2) = Some c). by rewrite (q_core _ _ Hq).
  - destruct Hs2 as [Hs2|Hs2]; [left; by exists z, (recycler_woken tdz)|right].
    exists z, (recycler_woken tdz). split_and!; [by apply (so_running _ _ (ko_sched _ _ _ _ Hko2) _ _ Ez2)|done|done].
  - intros k3 L3 Hko3 Hvis _ Hr Hres Hby HL3. apply (HQ k3 L3 dl1); [done| | | | |by rewrite HL3].
    + rewrite Hvis. apply visible_outer, outer_core, Hq.
    + intros Hi. apply Hr. change (isr_count (core k2) = 0). by rewrite (q_core _ _ Hq).
    + by apply (Hby t _ Et2); rewrite stat_of_as_stat.
    + destruct (Hres z _ Ez2) as (td' & E' & _ & [->|?]); [by exists (recycler_woken tdz)|by exists td'].
Qed.

(** What the end of the task [t] leaves: it is closed and the first one for the
    recycler [z], which can run, as can the highest READY task. *)
Definition retired k (t : ptr) (td : TaskDescriptor) (z : ptr) (zs : list link) I (k' : kstate) : Prop :=
  visible k' = visible k /\ (isr_count k = 0 -> runs_highest k') /\
  tasks k' !! t = Some (as_stat KTASK_CLOSE td) /\ woken k' z /\
  exists L' dl', kernel_ok k' L' I dl' /\ L' !! ZombieHead = Some (SchedLink t :: without (SchedLink t) zs).

Lemma retired_intro k t td z zs I k' L' dl' :
  kernel_ok k' L' I dl' -> visible k' = visible k -> (isr_count k = 0 -> runs_highest k') ->
  tasks k' !! t = Some (as_stat KTASK_CLOSE td) -> woken k' z ->
  L' !! ZombieHead = Some (SchedLink t :: without (SchedLink t) zs) -> retired k t td z zs I k'.
Proof. intros. split_and!; [done..|]. by exists L', dl'. Qed.

(** The tasks that cannot be deleted, by their names. *)
Definition permanent (td : TaskDescriptor) : bool :=
  String.prefix "ktaskidle0" (name td) || String.prefix "ktaskidle1" (name td) || String.prefix "ZombieRecycleKTask" (name td).

(** C13: deleting a task that was started, by identifier.  The task is closed, leaves the
    list it is on and is handed to the recycler, which can run afterwards; the highest
    READY task runs, from an interrupt handler after the interrupt; the invariant is
    kept.  The idle tasks and the recycler itself, if it has its name, cannot be deleted:
    -EINVALED, without an effect.  A task in the INIT state is not covered: closing it
    leaves bitmap fields that are not those of its priority, which the invariant asks of
    every task but those. *)
Theorem KTaskDelete_correct k L I dl id t td c z tdz zs :
  kernel_ok k L I dl -> I !! id = Some (IdLink CTask t) -> tasks k !! t = Some td -> stat_of td <> KTASK_INIT ->
  L !! ZombieHead = Some zs -> recycler k I z tdz -> (t = z -> permanent td = true) ->
  os_running_task k = Some c -> KTaskOsAssignLockNest k = 0 ->
  wp (KTaskDelete id) (fun ret k' =>
    if permanent td then ret = - EINVALED /\ k' = k else ret = EOK /\ retired k t td z zs I k') k.
Proof.
  intros Hko Hid Et Hst HL Hrc Hne Hc Hn. destruct (ko_ids _ _ _ _ Hko) as [(mgr & _ & Hrep) _ _].
  pose proof (ir_dom _ _ _ _ Hrep _ _ Hid). unfold KTaskDelete. rewrite (proj2 (Z.ltb_ge id 0)) by lia.
  eapply wp_by_id; [done..|lia|]. unfold _DeleteKTask, __JudgeKTaskIsIdleOrZombierecycle. wp_steps.
  eapply wp_task_get; [exact Et|]. fold (permanent td). destruct (permanent td) eqn:Ep; wp_steps; [done|].
  apply wp_CriticalAreaLock; [lia|]. wp_steps. assert (t <> z) as Hne' by (intros E%Hne; congruence).
  eapply wp_mono; [apply (wp_retire_switch k L I dl t td c z tdz zs (fun _ => retired k t td z zs I)); [done..|by apply retired_intro]|].
  do 2 wp_next. intros _ k' (? & ? & ? & ? & Hk'). by wp_steps.
Qed.

(** A task that returns from its entry function ends the same way. *)
Theorem KTaskQuit_correct k L I dl t td z tdz zs :
  kernel_ok k L I dl -> tasks k !! t = Some td -> stat_of td <> KTASK_INIT ->
  L !! ZombieHead = Some zs -> recycler k I z tdz -> t <> z ->
  os_running_task k = Some t -> KTaskOsAssignLockNest k = 0 ->
  wp KTaskQuit (fun _ k' => retired k t td z zs I k') k.
Proof.
  intros Hko Et Hst HL Hrc Hne Hc Hn. unfold KTaskQuit. wp_steps. apply wp_CriticalAreaLock; [lia|]. wp_steps.
  apply wp_GetKTaskDescriptor; [cbn; lia|]. change (os_running_task (locked k)) with (os_running_task k). rewrite Hc.
  wp_steps. eapply wp_mono; [apply (wp_retire_switch k L I dl t td t z tdz zs (fun _ => retired k t td z zs I)); [done..|by apply retired_intro]|].
  do 2 wp_next. intros ? k5 Hk5. exact Hk5.
Qed.

(** ** Freeing an object *)

(** The memory of links and the lists without the links [xs]. *)
Definition unlist (xs : list link) (l : list link) : list link := filter (fun x => x ∉ xs) l.

Lemma elem_of_unlist xs l x : x ∈ unlist xs l <-> x ∈ l /\ x ∉ xs.
Proof. unfold unlist. rewrite list_elem_of_filter. tauto. Qed.

Lemma unlist_same xs l : (forall x, x ∈ l -> x ∉ xs) -> unlist xs l = l.
Proof.
  intros H. unfold unlist. induction l as [|x l IH]; [done|]. rewrite filter_cons_True by (apply H; set_solver).
  f_equal. apply IH. intros y Hy. apply H. set_solver.
Qed.

Lemma unlist_without x xs l : x ∈ xs -> unlist xs (without x l) = unlist xs l.
Proof. intros Hx. unfold unlist, without. rewrite list_filter_filter. apply list_filter_iff. set_solver. Qed.

Record shrinks (xs : list link) (h : gmap link (node link)) L h' L' : Prop := {
  sh_rep : rep h' L';
  sh_alloc : forall y, y ∉ xs -> alloc h y -> alloc h' y;
  sh_null : forall y, y ∉ xs -> prv h y = None -> prv h' y = None;
  sh_lists : forall y, y ∉ xs -> L' !! y = unlist xs <$> L !! y;
  sh_own : forall x, x ∈ xs -> L' !! x = None;
}.

(** Freeing links that are on no list. *)
Lemma shrinks_drop xs (h : gmap link (node link)) L :
  rep h L -> (forall x, x ∈ xs -> unlinked L x) ->
  shrinks xs h L (foldr (fun x => delete x) h xs) (foldr (fun x => delete x) L xs).
Proof.
  intros HR Hun. split.
  - by apply rep_drop.
  - intros y Hy [nd E]. exists nd. by rewrite drop_lookup, bool_decide_false.
  - intros y Hy. unfold prv. by rewrite drop_lookup, bool_decide_false.
  - intros y Hy. rewrite drop_lookup, bool_decide_false by done. destruct (L !! y) as [l|] eqn:E; [|done]. cbn. f_equal.
    symmetry. apply unlist_same. intros x Hx Hin. destruct (Hun x Hin y l E) as [_ ->]; [set_solver|]. by apply not_elem_of_nil in Hx.
  - intros x Hx. by rewrite drop_lookup, bool_decide_true.
Qed.

(** Taking a link off its list before it is freed. *)
Lemma shrinks_detach xs (h h1 : gmap link (node link)) L h' L' a :
  a ∈ xs -> same_links a h h1 -> shrinks xs h1 (detach a L) h' L' -> shrinks xs h L h' L'.
Proof.
  intros Ha [Hal Hn] [HR A N E O]. split; [done| | | |done].
  - intros y Hy Hay. apply A; [done|by apply Hal].
  - intros y Hy Hp. apply N; [done|]. apply Hn; [by intros ->|done].
  - intros y Hy. rewrite E, lookup_detach_ne by (done || by intros ->). destruct (L !! y) as [l|]; [|done]. cbn.
    by rewrite unlist_without.
Qed.

(** The links the task owns. *)
Definition owned (t : ptr) (td : TaskDescriptor) : list link :=
  task_links t ++ match delay td with Some d => [ObjLink CDelay d] | None => [] end.

Lemma owned_link (t : ptr) td y : y ∈ owned t td -> y = SchedLink t \/ y = ObjLink CTask t \/ y = IdLink CTask t \/ exists d, delay td = Some d /\ y = ObjLink CDelay d.
Proof. unfold owned, task_links. intros Hy. destruct (delay td) as [d|]; set_unfold; naive_solver. Qed.

Lemma not_owned_sched (t : ptr) td y : y <> t -> SchedLink y ∉ owned t td.
Proof. intros Hne Hin. apply owned_link in Hin as [?|[?|[?|(d & _ & ?)]]]; congruence. Qed.

Lemma not_owned_head (t : ptr) td y : (forall p, y <> SchedLink p) -> (forall c p, y <> ObjLink c p) -> (forall c p, y <> IdLink c p) -> y ∉ owned t td.
Proof. intros H1 H2 H3 [?|[?|[?|(d & _ & ?)]]]%owned_link; naive_solver. Qed.

(** Freeing the closed task [t], which has no active delay. *)
Section shrink.
Context k L I dl (t : ptr) (td : TaskDescriptor) (id : Z) k' L'.
Hypothesis Hko : kernel_ok k L I dl.
Hypothesis Et : tasks k !! t = Some td.
Hypothesis Hst : stat_of td = KTASK_CLOSE.
Hypothesis Hun : unset td dl = dl.
Hypothesis Hid : I !! id = Some (IdLink CTask t).
Hypothesis Hcur : os_running_task k <> Some t.

Hypothesis Hsh : shrinks (owned t td) (links k) L (links k') L'.
Hypothesis Ets : tasks k' = delete t (tasks k).
Hypothesis Eds : delays k' = match delay td with Some d => delete d (delays k) | None => delays k end.
Hypothesis Erv : os_assign_read_vector k' = os_assign_read_vector k.
Hypothesis Erun : os_running_task k' = os_running_task k.
Hypothesis Hids : exists mgr, managers k' !! CTask = Some mgr /\
  id_rep (Bucket CTask) (mkIdState (links k') (node_ids k') mgr) L' (delete id I).

Lemma shrunk_list y l' : L' !! y = Some l' -> (y ∉ owned t td) /\ exists l, L !! y = Some l /\ l' = unlist (owned t td) l.
Proof.
  intros HL. destruct (decide (y ∈ owned t td)) as [Hy|Hy]; [by rewrite (sh_own _ _ _ _ _ Hsh y Hy) in HL|]. split; [done|].
  rewrite (sh_lists _ _ _ _ _ Hsh) in HL by done. destruct (L !! y) as [l|]; [|done]. exists l. split; [done|]. by injection HL.
Qed.

Lemma shrunk_ready p : L' !! ReadyVec p = L !! ReadyVec p.
Proof.
  rewrite (sh_lists _ _ _ _ _ Hsh) by by apply not_owned_head. destruct (L !! ReadyVec p) as [l|] eqn:HL; [|done]. cbn. f_equal.
  apply unlist_same. intros x Hx Hin. destruct (so_ready _ _ (ko_sched _ _ _ _ Hko) _ _ _ HL Hx) as (y & tdy & -> & Ey & Hsy & _).
  destruct (decide (y = t)) as [->|Hne]; [|by apply (not_owned_sched t td y)]. rewrite Et in Ey. injection Ey as <-. by rewrite Hst in Hsy.
Qed.

Lemma shrunk_task y tdy : tasks k' !! y = Some tdy <-> y <> t /\ tasks k !! y = Some tdy.
Proof. rewrite Ets, lookup_delete_Some. naive_solver. Qed.

Lemma sched_ok_shrinks : sched_ok k' L'.
Proof.
  pose proof (ko_sched _ _ _ _ Hko) as Hk. split; rewrite ?Erv, ?Erun.
  - apply Hsh.
  - intros p Hp. rewrite shrunk_ready. by apply Hk.
  - intros p l x. rewrite shrunk_ready. intros HL Hx. destruct (so_ready _ _ Hk _ _ _ HL Hx) as (y & tdy & -> & Ey & Hsy & Hp).
    exists y, tdy. rewrite shrunk_task. split_and!; [done| |done|done|done]. intros ->. rewrite Et in Ey. injection Ey as <-. by rewrite Hst in Hsy.
  - intros y tdy [_ Ey]%shrunk_task Hsy. rewrite shrunk_ready. by apply (so_on_list _ _ Hk).
  - intros y tdy [Hne Ey]%shrunk_task. pose proof (not_owned_sched t td y Hne) as Hny.
    destruct (so_linked _ _ Hk _ _ Ey) as [HL|(hd & l & HL & Hin)]; [left|].
    { by rewrite (sh_lists _ _ _ _ _ Hsh), HL by done. }
    assert (hd ∉ owned t td) as Hhd.
    { assert (task_link hd = true) as Hty by by eapply (ko_typed _ _ _ _ Hko). intros [->|[->|[->|(d & _ & ->)]]]%owned_link; try done.
      destruct (so_linked _ _ Hk _ _ Et) as [HLt|(hd' & l' & HL' & Hin')]; [rewrite HL in HLt; injection HLt as ->; by apply not_elem_of_nil in Hin|].
      assert (SchedLink t = hd') as <- by (apply (rep_disj _ _ (so_rep _ _ Hk) _ _ _ _ (SchedLink t) HL HL'); set_solver).
      by apply (rep_head_not_member _ _ _ _ (so_rep _ _ Hk) HL'). }
    right. exists hd, (unlist (owned t td) l). rewrite (sh_lists _ _ _ _ _ Hsh), HL by done. split; [done|]. by apply elem_of_unlist.
  - intros y tdy [Hne Ey]%shrunk_task Hsy. rewrite (sh_lists _ _ _ _ _ Hsh) by by apply not_owned_sched.
    by rewrite (so_detached _ _ Hk _ _ Ey).
  - intros y tdy [_ Ey]%shrunk_task. by apply (so_site _ _ Hk _ _ Ey).
  - intros y tdy [_ Ey]%shrunk_task. by apply (so_running _ _ Hk _ _ Ey).
  - intros y Ey. destruct (so_current _ _ Hk _ Ey) as [tdy Ey']. exists tdy. apply shrunk_task. split; [congruence|done].
  - eapply rv_ok_ext; [apply Hk|]. intros q. unfold ready_nonempty. by rewrite shrunk_ready.
Qed.

Lemma delays_ok_shrinks : delays_ok k' L' dl.
Proof.
  destruct (ko_delays _ _ _ _ Hko) as [Hl Ho Ht].
  assert (forall d, d ∈ dl -> delay td <> Some d) as Hnot.
  { intros d Hd E. unfold unset in Hun. rewrite E in Hun. rewrite <- Hun in Hd. by apply elem_of_without in Hd as [? _]. }
  assert (forall d, delay td <> Some d -> delays k' !! d = delays k !! d) as Hds.
  { intros d Hd. rewrite Eds. destruct (delay td) as [d0|]; [|done]. apply lookup_delete_ne. congruence. }
  assert (forall d, delay td <> Some d -> ObjLink CDelay d ∉ owned t td) as Hnl.
  { intros d Hd [?|[?|[?|(d' & Ed & [= ->])]]]%owned_link; congruence. }
  split.
  - rewrite (sh_lists _ _ _ _ _ Hsh), Hl by by apply not_owned_head. cbn. f_equal. apply unlist_same.
    intros x (d & -> & Hd)%list_elem_of_fmap. by apply Hnl, Hnot.
  - intros d Hd. destruct (Ho d Hd) as (x & tdx & Ex & ? & Ex' & Ed). exists x, tdx. rewrite Hds by by apply Hnot.
    split_and!; [done|done| |done]. apply shrunk_task. split; [|done]. intros E. rewrite E, Et in Ex'. injection Ex' as ->. by apply (Hnot d).
  - intros y tdy d [Hne Ey]%shrunk_task Ed. destruct (Ht y tdy d Ey Ed) as (x & Ex & Hx & Hal & Hact & Hinact).
    assert (delay td <> Some d) as Hd.
    { intros E. destruct (Ht t td d Et E) as (x' & Ex' & Hx' & _). rewrite Ex in Ex'. injection Ex' as <-. congruence. }
    exists x. rewrite Hds by done. split_and!; [done|done|apply (sh_alloc _ _ _ _ _ Hsh); [by apply Hnl|done]|done|].
    intros Hs hd l' (_ & l & HL & ->)%shrunk_list Hin. apply elem_of_cons in Hin as [E|Hin].
    + destruct (Hinact Hs hd l HL) as [? ->]; [subst; set_solver|]. done.
    + apply elem_of_unlist in Hin as [Hin _]. destruct (Hinact Hs hd l HL) as [_ ->]; [set_solver|]. by apply not_elem_of_nil in Hin.
Qed.

Lemma kernel_ok_shrinks : kernel_ok k' L' (delete id I) dl.
Proof.
  split; [apply sched_ok_shrinks| | |apply delays_ok_shrinks|].
  - intros hd l' x s Es (_ & l & HL & ->)%shrunk_list [Hx Hnx]%elem_of_unlist.
    destruct (ko_member _ _ _ _ Hko _ _ _ _ Es HL Hx) as (y & tdy & -> & Ey & ?). exists y, tdy. split_and!; [done| |done].
    apply shrunk_task. split; [|done]. intros ->. apply Hnx. unfold owned, task_links. set_solver.
  - intros hd l' y (_ & l & HL & ->)%shrunk_list [Hx _]%elem_of_unlist. by eapply (ko_typed _ _ _ _ Hko).
  - destruct (ko_ids _ _ _ _ Hko) as [(mgr & _ & Hrep) Hr Ht]. split; [done| |].
    + intros i a [Hne Hi]%lookup_delete_Some. destruct (Hr i a Hi) as (y & -> & [tdy Ey]). exists y. split; [done|].
      exists tdy. apply shrunk_task. split; [|done]. intros ->. pose proof (ir_node _ _ _ _ Hrep _ _ Hi) as E1.
      pose proof (ir_node _ _ _ _ Hrep _ _ Hid) as E2. congruence.
    + intros y [tdy [Hne Ey]%shrunk_task]. destruct (Ht y) as (i & Hi); [by eexists|]. exists i. rewrite lookup_delete_ne; [done|].
      intros ->. congruence.
Qed.
End shrink.

(** ** Recycling *)

Lemma detach_other (h : gmap link (node link)) L hd l x y :
  rep h L -> L !! hd = Some l -> x ∈ l -> y <> hd -> y <> x -> detach x L !! y = L !! y.
Proof.
  intros HR HL Hx Hy Hyx. rewrite lookup_detach_ne by done. destruct (L !! y) as [l'|] eqn:E; [|done]. cbn.
  rewrite without_not_in; [done|]. intros Hin. apply Hy. apply (rep_disj _ _ HR _ _ _ _ x E HL); set_solver.
Qed.

(** The memory and the other objects after the task [t] was freed. *)
Definition freed k (t : ptr) (td : TaskDescriptor) (k' : kstate) : Prop :=
  tasks k' = delete t (tasks k) /\
  delays k' = match delay td with Some d => delete d (delays k) | None => delays k end /\
  blocks k' = match stack_start td with Some b => blocks k ∖ {[b]} | None => blocks k end /\
  forall y, y ∈ owned t td -> links k' !! y = None.

Lemma drop_owned xs (h : gmap link (node link)) y : y ∈ xs -> foldr (fun x => delete x) h xs !! y = None.
Proof. intros Hy. by rewrite drop_lookup, bool_decide_true. Qed.

(** Freeing the descriptors, after the task was unlinked everywhere. *)
Lemma wp_free_task k L t td (Q : unit -> kstate -> Prop) :
  rep (links k) L -> tasks k !! t = Some td ->
  (forall d, delay td = Some d -> is_Some (delays k !! d)) -> (forall y, y ∈ owned t td -> unlinked L y) ->
  (forall h' L', shrinks (owned t td) (links k) L h' L' -> (forall y, y ∈ owned t td -> h' !! y = None) ->
     Q tt (set_node_ids (delete (IdLink CTask t) (node_ids k)) (set_tasks (delete t (tasks k)) (set_links h'
       (set_delays (match delay td with Some d => delete d (delays k) | None => delays k end) k))))) ->
  wp (od ← task_get t delay; (match od with Some d => free_delay d | None => mret tt end);; free_task t) Q k.
Proof.
  intros HR Et Hd Hun HQ. wp_steps. eapply wp_task_get; [exact Et|].
  specialize (HQ _ _ (shrinks_drop _ _ _ HR Hun) (fun y Hy => drop_owned _ _ _ Hy)).
  unfold owned in *. destruct (delay td) as [d|].
  - destruct (Hd d eq_refl) as [x Ex]. wp_steps. unfold free_delay. wp_steps. eapply wp_deref; [exact Ex|]. wp_steps.
    unfold free_task. wp_steps. eapply wp_deref; [exact Et|]. wp_steps. exact HQ.
  - wp_steps. unfold free_task. wp_steps. eapply wp_deref; [exact Et|]. wp_steps. exact HQ.
Qed.

Lemma inactive_unlinked k L I dl t td d :
  kernel_ok k L I dl -> tasks k !! t = Some td -> unset td dl = dl -> delay td = Some d -> unlinked L (ObjLink CDelay d).
Proof.
  intros Hko Et Hun Ed. destruct (do_task _ _ _ (ko_delays _ _ _ _ Hko) _ _ _ Et Ed) as (x & _ & _ & _ & Hact & Hin).
  apply Hin. intros Hs. specialize (Hact Hs). unfold unset in Hun. rewrite Ed in Hun. rewrite <- Hun in Hact.
  by apply elem_of_without in Hact as [? _].
Qed.

Lemma wp_free_block b k bl (Q : unit -> kstate -> Prop) :
  match b with Some b => b ∈ blocks k /\ bl = blocks k ∖ {[b]} | None => bl = blocks k end ->
  Q tt (set_blocks bl k) -> wp (free_block b) Q k.
Proof.
  intros Hb HQ. unfold free_block. destruct b as [b|]; [destruct Hb as [Hb ->]|rewrite Hb in HQ; by apply wp_ret; destruct k].
  wp_steps. by rewrite bool_decide_true.
Qed.

(** The first closed task, and the links after it was taken off all lists. *)
Section recycle.
Context k L I dl (t : ptr) (td : TaskDescriptor) (id : Z) (zs l : list link).
Hypothesis Hko : kernel_ok k L I dl.
Hypothesis HL : L !! ZombieHead = Some (SchedLink t :: zs).
Hypothesis Et : tasks k !! t = Some td.
Hypothesis Hid : I !! id = Some (IdLink CTask t).
Hypothesis HLo : L !! ListHead CTask = Some l.
Hypothesis Ho : ObjLink CTask t ∈ l.
Hypothesis Hun : unset td dl = dl.

Let L1 := detach (SchedLink t) L.
Let L2 := detach (ObjLink CTask t) L1.
Let L3 := detach (IdLink CTask t) L2.

Lemma first_is_closed : stat_of td = KTASK_CLOSE.
Proof.
  destruct (ko_member _ _ _ _ Hko ZombieHead _ (SchedLink t) KTASK_CLOSE eq_refl HL) as (y & tdy & [= <-] & Ey & ?); [set_solver|].
  congruence.
Qed.

Lemma detached_list : L1 !! ListHead CTask = Some l.
Proof.
  unfold L1. rewrite (detach_other (links k) L ZombieHead (SchedLink t :: zs) (SchedLink t)); [done|apply Hko|exact HL|set_solver|done|done].
Qed.

Lemma detached_bucket (h : gmap link (node link)) j : rep h L1 -> L2 !! Bucket CTask j = L !! Bucket CTask j.
Proof.
  intros HR1. unfold L2. rewrite (detach_other h L1 (ListHead CTask) l) by (done || apply detached_list).
  apply (detach_other (links k) L ZombieHead (SchedLink t :: zs)); [apply Hko|done|set_solver|done|done].
Qed.

Lemma detached_owned y : y ∈ owned t td -> unlinked L3 y.
Proof.
  intros Hy. unfold L3, L2, L1. apply owned_link in Hy as [->|[->|[->|(d & Ed & ->)]]].
  - do 2 (apply unlinked_detach; left). apply unlinked_detach. by right.
  - apply unlinked_detach; left. apply unlinked_detach. by right.
  - apply unlinked_detach. by right.
  - do 3 (apply unlinked_detach; left). by eapply inactive_unlinked.
Qed.

Lemma shrinks_from h1 h2 h3 h' L' :
  same_links (SchedLink t) (links k) h1 -> same_links (ObjLink CTask t) h1 h2 -> same_links (IdLink CTask t) h2 h3 ->
  shrinks (owned t td) h3 L3 h' L' -> shrinks (owned t td) (links k) L h' L'.
Proof.
  intros H1 H2 H3 Hsh.
  apply (shrinks_detach _ _ h1 _ _ _ (SchedLink t)); [unfold owned, task_links; set_solver|done|].
  apply (shrinks_detach _ _ h2 _ _ _ (ObjLink CTask t)); [unfold owned, task_links; set_solver|done|].
  apply (shrinks_detach _ _ h3 _ _ _ (IdLink CTask t)); [unfold owned, task_links; set_solver|done|]. exact Hsh.
Qed.

(** The manager of the identifiers after the links were freed. *)
Lemma freed_ids h3 ids3 mgr3 h' L' :
  id_rep (Bucket CTask) (mkIdState h3 ids3 mgr3) L3 (delete id I) -> shrinks (owned t td) h3 L3 h' L' ->
  (forall i, I !! i = Some (IdLink CTask t) -> i = id) ->
  id_rep (Bucket CTask) (mkIdState h' (delete (IdLink CTask t) ids3) mgr3) L' (delete id I).
Proof.
  intros Hrep Hsh Huniq. apply (id_rep_fields CTask _ ids3).
  - eapply id_rep_frame; [exact Hrep|apply Hsh|..].
    + intros j. rewrite (sh_lists _ _ _ _ _ Hsh) by by apply not_owned_head.
      destruct (L3 !! Bucket CTask j) as [lj|] eqn:E; [|done]. apply (f_equal Some), unlist_same.
      intros x Hx Hx'. destruct (detached_owned x Hx' _ _ E) as [_ ->]; [set_solver|]. by apply not_elem_of_nil in Hx.
    + intros j Hal Hp. split; [apply (sh_alloc _ _ _ _ _ Hsh)|apply (sh_null _ _ _ _ _ Hsh)]; done || by apply not_owned_head.
  - intros i a [Hne Hi]%lookup_delete_Some. apply lookup_delete_ne. intros <-. by apply Hne, eq_sym, Huniq.
Qed.

Lemma shrunk_zombies h' L' : shrinks (owned t td) (links k) L h' L' -> L' !! ZombieHead = Some zs.
Proof.
  intros Hsh. rewrite (sh_lists _ _ _ _ _ Hsh), HL by by apply not_owned_head. apply (f_equal Some).
  pose proof (rep_nodup _ _ (so_rep _ _ (ko_sched _ _ _ _ Hko)) _ _ HL) as [_ [Hnd _]%NoDup_cons]%NoDup_cons. unfold unlist.
  rewrite filter_cons_False by (intros Hnot; apply Hnot; unfold owned, task_links; set_solver).
  apply unlist_same. intros x Hx Hx'.
  destruct (ko_member _ _ _ _ Hko ZombieHead _ x KTASK_CLOSE eq_refl HL) as (y & tdy & -> & _); [set_solver|].
  apply (not_owned_sched t td y); [|done]. by intros ->.
Qed.

(** Unlinking the task and freeing its identifier. *)
Lemma wp_unregister h1 bl (Q : unit -> kstate -> Prop) :
  rep h1 L1 -> same_links (SchedLink t) (links k) h1 ->
  (forall h2 h3 mgr3, let k3 := with_ids CTask mgr3 (<[IdLink CTask t := u16 (-1)]> (node_ids k)) h3 (set_blocks bl k) in
     same_links (ObjLink CTask t) h1 h2 -> same_links (IdLink CTask t) h2 h3 ->
     id_rep (Bucket CTask) (mkIdState h3 (<[IdLink CTask t := u16 (-1)]> (node_ids k)) mgr3) L3 (delete id I) -> Q tt k3) ->
  wp (klinks (DoubleLinkListRmNode (ObjLink CTask t)))
    (fun _ k1 => wp (task_id t) (fun id k2 => wp (KTaskIdDelete id) Q k2) k1) (set_blocks bl (set_links h1 k)).
Proof.
  intros HR1 Hsl1 HQ. destruct (ko_ids _ _ _ _ Hko) as [(mgr & Em & Hrep) _ _].
  pose proof (ir_dom _ _ _ _ Hrep _ _ Hid) as Hd. pose proof (ir_max _ _ _ _ Hrep).
  pose proof (ir_node _ _ _ _ Hrep _ _ Hid) as En. cbn [manager node_id] in *.
  apply wp_klinks, (wp_DoubleLinkListRmNode _ L1); [done|right; exists (ListHead CTask), l; split; [apply detached_list|done]|].
  intros h2 HR2 Hsl2. unfold task_id. wp_steps. eapply wp_deref; [exact En|].
  unfold KTaskIdDelete. rewrite u16_small by lia. eapply wp_kid; [exact Em|].
  eapply wp_IdRemoveObj_hit; [by intros ? ? [=]| |exact Hid|].
  { eapply id_rep_frame; [exact Hrep|exact HR2|intros j; by eapply detached_bucket|].
    intros j Hal Hp. split; [by apply Hsl2, Hsl1|]. apply Hsl2; [done|]. by apply Hsl1. }
  intros [h3 ids3 mgr3] Hrep3 Hsl3 Eids3 _ _. cbn [id_links node_id manager] in *. subst ids3. by apply (HQ h2).
Qed.
End recycle.

(** C14: the recycler frees the first closed task: its stack, descriptor, delay and
    links are given back, its identifier is free again, no list holds one of its links
    and the invariant is kept, provided that no delay of the task is active. *)
Theorem ZombieKTaskEntry_recycles k L I dl t td id zs l :
  kernel_ok k L I dl -> L !! ZombieHead = Some (SchedLink t :: zs) -> tasks k !! t = Some td ->
  I !! id = Some (IdLink CTask t) -> L !! ListHead CTask = Some l -> ObjLink CTask t ∈ l ->
  unset td dl = dl -> (forall b, stack_start td = Some b -> b ∈ blocks k) -> os_running_task k <> Some t ->
  isr_count k = 0 -> 0 <= KTaskOsAssignLockNest k < 2 ^ 15 - 1 ->
  wp ZombieKTaskEntry (fun _ k' => freed k t td k' /\ exists L', kernel_ok k' L' (delete id I) dl /\
    L' !! ZombieHead = Some zs /\ L' !! ListHead CTask = Some (unlist (owned t td) l)) k.
Proof.
  intros Hko HL Et Hid HLo Ho Hun Hb Hcur Hisr Hn. pose proof (so_rep _ _ (ko_sched _ _ _ _ Hko)) as HR.
  unfold ZombieKTaskEntry. wp_steps. apply wp_KDEBUG_NOT_IN_INTERRUPT; [done|]. wp_steps. apply wp_CriticalAreaLock; [done|]. wp_steps.
  unfold JudgeZombieKTaskIsNotEmpty. wp_steps. apply wp_klinks. eapply (wp_IsDoubleLinkListEmpty _ L); [done|exact HL|].
  rewrite set_links_id, bool_decide_false by done. cbn [negb]. wp_steps. apply wp_klinks.
  pose proof (rep_first _ _ _ _ HR HL) as Hf. apply wp_get_next; [by eapply alloc_nxt|]. change (links (locked k)) with (links k).
  rewrite Hf. cbn [List.hd mbind option_bind sched_entry]. wp_steps.
  apply wp_klinks, (wp_DoubleLinkListRmNode _ L); [done|right; exists ZombieHead; eexists; split; [exact HL|set_solver]|].
  intros h1 HR1 Hsl1. wp_steps. apply wp_CriticalAreaUnLock; [cbn; lia|]. wp_steps.
  match goal with |- wp _ _ ?s => assert (s = set_links h1 k) as -> end.
  { unfold unlocked, locked. cbn. by rewrite Z.add_simpl_r. }
  eapply wp_task_get; [exact Et|]. wp_steps.
  set (bl := match stack_start td with Some b => blocks k ∖ {[b]} | None => blocks k end).
  apply (wp_free_block _ _ bl); [destruct (stack_start td) as [b|]; [split; [by apply Hb|done]|done]|]. wp_steps.
  eapply wp_mono; [eapply (wp_unregister k L I dl t td id zs l Hko HL Et Hid HLo Ho Hun h1 bl); [done|done|]|].
  2:{ do 2 wp_next. intros ? k3 Hk3. exact Hk3. }
  intros h2 h3 mgr3 k3 Hsl2 Hsl3 Hrep3. cbn beta.
  apply (wp_free_task k3 (detach (IdLink CTask t) (detach (ObjLink CTask t) (detach (SchedLink t) L))) t td); [apply (ir_rep _ _ _ _ Hrep3)|done| |by eapply detached_owned|].
  { intros d Ed. destruct (do_task _ _ _ (ko_delays _ _ _ _ Hko) _ _ _ Et Ed) as (x & Ex & _). by exists x. }
  intros h' L' Hsh3 Hnone. assert (shrinks (owned t td) (links k) L h' L') as Hsh by by eapply shrinks_from.
  split; [by split_and!|]. exists L'. split; [|split].
  - eapply (kernel_ok_shrinks k L I dl t td id); [done|done|by eapply first_is_closed|done..|].
    exists mgr3. split; [apply lookup_insert_eq|]. eapply freed_ids; [done..|].
    intros i Hi. destruct (ko_ids _ _ _ _ Hko) as [(mgr & _ & Hrep) _ _].
    pose proof (ir_node _ _ _ _ Hrep _ _ Hi) as E1. pose proof (ir_node _ _ _ _ Hrep _ _ Hid) as E2. congruence.
  - by eapply shrunk_zombies.
  - by rewrite (sh_lists _ _ _ _ _ Hsh), HLo by by apply not_owned_head.
Qed.

End Recycle.
