(* ===== verification/WaitQueue.v ===== *)
(** * Wait queues: kernel/thread/waitqueue.c

    A wait queue is a list of nodes, each for a task that waits; device drivers wait
    on them.  The list fields of the nodes are a memory of their own. *)

From S2P Require Import Prelude DoubleLink IdManager Bitmap Kernel ReadyVector Assign Delay Task TaskInv Deadlines PendList Waiting.

(** ** The state *)

(** The list field of a queue and that of a node. *)
Inductive wlink : Type :=
| WHead (queue : ptr)  (* queue->block_threads_list *)
| WNode (node : ptr).  (* node->list *)

#[export] Instance wlink_eq_dec : EqDecision wlink.
Proof. solve_decision. Defined.
#[export] Instance wlink_countable : Countable wlink.
Proof.
  apply (inj_countable' (fun x => match x with WHead q => inl q | WNode n => inr n end)
           (fun s => match s with inl q => WHead q | inr n => WNode n end)).
  by intros [].
Defined.

(** [SYS_DOUBLE_LINKLIST_ENTRY(node, struct WaitqueueNode, list)] *)
Definition node_of (x : wlink) : option ptr := match x with WNode n => Some n | WHead _ => None end.

Record WaitqueueNode : Type := mkWaitNode {
  polling_task : option ptr;
  cb : option Z;  (* a function, NONE for no callback *)
  deadline_tick : Z;
  key : Z;
}.

(** The kernel, the list fields and the nodes. *)
Record wq_state : Type := mkWqState {
  wq_kernel : kstate;
  wq_links : gmap wlink (node wlink);
  wq_nodes : gmap ptr WaitqueueNode;
}.

Definition set_wq_kernel (k : kstate) (s : wq_state) : wq_state := mkWqState k (wq_links s) (wq_nodes s).
Definition set_wq_links (h : gmap wlink (node wlink)) (s : wq_state) : wq_state := mkWqState (wq_kernel s) h (wq_nodes s).
Definition set_wq_nodes (ns : gmap ptr WaitqueueNode) (s : wq_state) : wq_state := mkWqState (wq_kernel s) (wq_links s) ns.

Definition kernel_do {A : Type} : M kstate A -> M wq_state A := zoom wq_kernel set_wq_kernel.
Definition wlinks {A : Type} : M (gmap wlink (node wlink)) A -> M wq_state A := zoom wq_links set_wq_links.

Section WaitQueue.
Context `{C : KConfig} `{D : PriorityReadyVectorDone}.

Definition InitWqueue (queue : ptr) : M wq_state unit := wlinks (InitDoubleLinkList (WHead queue)).

Definition WqueueAdd (queue n : ptr) : M wq_state unit :=
  lock ← kernel_do CriticalAreaLock;
  wlinks (DoubleLinkListInsertNodeBefore (WHead queue) (WNode n));;
  kernel_do (CriticalAreaUnLock lock).

Definition WqueueRemove (n : ptr) : M wq_state unit :=
  lock ← kernel_do CriticalAreaLock;
  wlinks (DoubleLinkListRmNode (WNode n));;
  kernel_do (CriticalAreaUnLock lock).

(** ** Waking *)

(** The body of the loop of [WakeupWqueue], which does not leave the loop; the key is
    an address, 0 for NULL.  [call f n key] runs the callback at [f] on the node [n]. *)
Definition wake_node (call : Z -> ptr -> Z -> M wq_state Z) (key : Z) (x : wlink) : M wq_state bool :=
  pEnter ← deref (node_of x);
  nodes ← gets wq_nodes;
  nd ← deref (nodes !! pEnter);
  skip ← match cb nd with
         | None => mret false
         | Some f => v ← call f pEnter key; mret (negb (v =? 0))
         end;
  if (skip : bool) then mret false
  else
    t ← deref (polling_task nd);
    id ← kernel_do (task_id t);
    kernel_do (KTaskWakeup id);;
    mret false.

Definition WakeupWqueue (call : Z -> ptr -> Z -> M wq_state Z) (queue : ptr) (key : Z) : M wq_state unit :=
  CHECK (negb (key =? 0));;
  lock ← kernel_do CriticalAreaLock;
  nx ← wlinks (get_next (WHead queue));
  first ← deref nx;
  s ← get;
  node ← for_each_until (fun x => wlinks (get_next x)) (wake_node call key) (S (size (wq_links s))) (WHead queue) first;
  kernel_do (CriticalAreaUnLock lock);;
  if bool_decide (node = WHead queue) then mret tt else kernel_do DO_KTASK_ASSIGN.

(** ** Waiting *)

(** [mem] and [pin] are the results of the allocations of a [Delay] and of the node.
    The part up to the context switch; the node is written without a test. *)
Definition WqueueWait (mem pin : option ptr) (queue : ptr) (tick : Z) : M wq_state (option Z) :=
  if tick =? 0 then mret (Some 0)
  else
    n ← deref pin;
    modify (fun s => set_wq_links (<[WNode n := mkNode None None]> (wq_links s))
                       (set_wq_nodes (<[n := mkWaitNode None None 0 0]> (wq_nodes s)) s));;
    deadline ← (if negb (tick =? u32 (-1)) then
                  now ← kernel_do CurrentTicksGain;
                  t ← kernel_do GetKTaskDescriptor;
                  t ← NULL_PARAM_CHECK t;
                  kernel_do (KTaskSetDelay mem t tick);;
                  mret (u32 (now + tick))
                else mret 0);
    t ← kernel_do GetKTaskDescriptor;
    modify (fun s => set_wq_nodes (<[n := mkWaitNode t None deadline 0]> (wq_nodes s)) s);;
    wlinks (set_next (WNode n) (Some (WNode n)));;
    wlinks (set_prev (WNode n) (Some (WNode n)));;
    lock ← kernel_do CriticalAreaLock;
    WqueueAdd queue n;;
    t ← kernel_do GetKTaskDescriptor;
    t ← deref t;
    id ← kernel_do (task_id t);
    kernel_do (SuspendKTask id);;
    kernel_do (CriticalAreaUnLock lock);;
    kernel_do DO_KTASK_ASSIGN;;
    mret None.

(** When the task is scheduled again; the node is released. *)
Definition WqueueWait_resume (n : ptr) : M wq_state Z :=
  WqueueRemove n;;
  modify (fun s => set_wq_links (delete (WNode n) (wq_links s)) (set_wq_nodes (delete n (wq_nodes s)) s));;
  mret 0.

(** ** Rules *)

Context `{CO : !KConfigOk C} `{DL : !ReadyVectorLaws D}.
Implicit Types (k : kstate) (L : gmap link (list link)) (I : gmap Z link) (dl : list ptr)
  (h : gmap wlink (node wlink)) (W : gmap wlink (list wlink)) (ns : gmap ptr WaitqueueNode).

Lemma wp_kernel_do {A : Type} (m : M kstate A) (Q : A -> wq_state -> Prop) k h ns :
  wp m (fun a k' => Q a (mkWqState k' h ns)) k -> wp (kernel_do m) Q (mkWqState k h ns).
Proof. exact (wp_zoom wq_kernel set_wq_kernel m Q (mkWqState k h ns)). Qed.

Lemma wp_wlinks {A : Type} (m : M (gmap wlink (node wlink)) A) (Q : A -> wq_state -> Prop) k h ns :
  wp m (fun a h' => Q a (mkWqState k h' ns)) h -> wp (wlinks m) Q (mkWqState k h ns).
Proof. exact (wp_zoom wq_links set_wq_links m Q (mkWqState k h ns)). Qed.

(** In the critical area that a caller may have entered before. *)
Lemma wp_WqueueAdd k h ns W queue n l (Q : unit -> wq_state -> Prop) :
  rep h W -> W !! WHead queue = Some l -> W !! WNode n = Some [] -> 0 <= KTaskOsAssignLockNest k < 2 ^ 15 - 1 ->
  (forall h', rep h' (attach (WHead queue) (l ++ [WNode n]) (WNode n) W) -> Q tt (mkWqState k h' ns)) ->
  wp (WqueueAdd queue n) Q (mkWqState k h ns).
Proof.
  intros HR Hl Hn Hnest HQ. unfold WqueueAdd. wp_steps. apply wp_kernel_do, wp_CriticalAreaLock; [done|]. wp_steps.
  apply wp_wlinks, (wp_DoubleLinkListInsertNodeBefore _ W (WHead queue) l []);
    [done|by rewrite app_nil_r|done|by eapply detached_unlinked|eapply rep_alloc; [done|exact Hn|set_solver]|done|].
  intros h' HR' _. wp_steps. apply wp_kernel_do, wp_CriticalAreaUnLock; [cbn; lia|]. rewrite unlocked_locked. by apply HQ.
Qed.

Lemma wp_WqueueRemove k h ns W n (Q : unit -> wq_state -> Prop) :
  rep h W -> linked_or_detached W (WNode n) -> 0 <= KTaskOsAssignLockNest k < 2 ^ 15 - 1 ->
  (forall h', rep h' (detach (WNode n) W) -> Q tt (mkWqState k h' ns)) ->
  wp (WqueueRemove n) Q (mkWqState k h ns).
Proof.
  intros HR Hn Hnest HQ. unfold WqueueRemove. wp_steps. apply wp_kernel_do, wp_CriticalAreaLock; [done|]. wp_steps.
  apply wp_wlinks, (wp_DoubleLinkListRmNode _ W); [done..|]. intros h' HR' _. wp_steps.
  apply wp_kernel_do, wp_CriticalAreaUnLock; [cbn; lia|]. rewrite unlocked_locked. by apply HQ.
Qed.

(** The list field of a new node. *)
Lemma wp_new_node k h ns W n nd (Q : unit -> wq_state -> Prop) :
  rep h W -> h !! WNode n = None ->
  (forall h', rep h' (<[WNode n := []]> W) -> Q tt (mkWqState k h' ns)) ->
  wp (wlinks (set_next (WNode n) (Some (WNode n)))) (fun _ s => wp (wlinks (set_prev (WNode n) (Some (WNode n)))) Q s)
    (mkWqState k (<[WNode n := nd]> h) ns).
Proof.
  intros HR Hn HQ. apply wp_wlinks.
  assert (wp (InitDoubleLinkList (WNode n)) (fun _ h' => Q tt (mkWqState k h' ns)) (<[WNode n := nd]> h)) as Hwp.
  { apply (wp_InitDoubleLinkList_rep _ W (WNode n) (fun _ h' => Q tt (mkWqState k h' ns))).
    + by apply rep_fresh.
    + by eapply fresh_unlinked.
    + exists nd. apply lookup_insert_eq.
    + intros h' HR' _. by apply HQ. }
  apply wp_unbind in Hwp. eapply wp_mono; [exact Hwp|]. intros [] h' Hw.
  apply wp_wlinks. eapply wp_mono; [exact Hw|]. by intros [].
Qed.

(** ** Waiting *)

(** The timeout is set ... *)
Lemma wp_wait_timeout k L I dl mem t td tick h ns (Q : Z -> wq_state -> Prop) :
  kernel_ok k L I dl -> os_running_task k = Some t -> tasks k !! t = Some td -> 0 <= KTaskOsAssignLockNest k < 2 ^ 15 - 2 ->
  0 < tick -> (forall d, delay td = None -> mem = Some d -> fresh_delay k d) ->
  (forall k1 L1 dl1 td1, kernel_ok k1 L1 I dl1 -> core k1 = core k -> tasks k1 = <[t := td1]> (tasks k) ->
     stat_of td1 = stat_of td -> Q (if tick =? u32 (-1) then 0 else u32 (heartbeat_ticks k + tick)) (mkWqState k1 h ns)) ->
  wp (if negb (tick =? u32 (-1)) then
        now ← kernel_do CurrentTicksGain;
        t ← kernel_do GetKTaskDescriptor;
        t ← NULL_PARAM_CHECK t;
        kernel_do (KTaskSetDelay mem t tick);;
        mret (u32 (now + tick))
      else mret 0) Q (mkWqState k h ns).
Proof.
  intros Hko Hc Et Hn Htick Hfresh HQ. destruct (tick =? u32 (-1)); cbn [negb].
  { wp_steps. apply (HQ k L dl td); [done|done|by rewrite insert_id|done]. }
  wp_steps. apply wp_kernel_do. unfold CurrentTicksGain. wp_steps. apply wp_kernel_do, wp_GetKTaskDescriptor; [lia|]. rewrite Hc.
  wp_steps. eapply wp_null_check; [done|]. apply wp_bind, wp_kernel_do.
  pose proof (wp_wait_delay k L I dl mem t td tick (fun _ k1 => Q (u32 (heartbeat_ticks k + tick)) (mkWqState k1 h ns))
    Hko Et Hn Hfresh) as Hwp.
  rewrite (proj2 (Z.ltb_lt 0 tick) Htick) in Hwp. lapply Hwp; clear Hwp.
  - intros Hwp%wp_unbind. eapply wp_mono; [exact Hwp|]. intros r k1 Hw. by wp_steps.
  - intros k1 L1 dl1 td1 Hko1 Hc1 Ets Etd _ _. apply (HQ k1 L1 dl1 td1); [done|done|done|]. by rewrite Etd.
Qed.

(** ... and suspending the task cancels it. *)
Lemma wp_wait_suspend {A : Type} k k1 L1 I dl1 t td td1 h ns (r : A) (Q : A -> wq_state -> Prop) :
  kernel_ok k1 L1 I dl1 -> core k1 = core k -> tasks k1 = <[t := td1]> (tasks k) -> stat_of td1 = KTASK_RUNNING ->
  task_context k t td None ->
  (forall k' L' td', kernel_ok k' L' I (unset td1 dl1) -> visible k' = visible k -> runs_highest k' ->
     tasks k' !! t = Some td' -> stat_of td' = KTASK_SUSPEND -> delay td' = delay td1 -> Q r (mkWqState k' h ns)) ->
  wp (t ← kernel_do GetKTaskDescriptor; t ← deref t; id ← kernel_do (task_id t);
      kernel_do (SuspendKTask id);; kernel_do (CriticalAreaUnLock (interrupts k1));; kernel_do DO_KTASK_ASSIGN;; mret r) Q
    (mkWqState (locked k1) h ns).
Proof.
  intros Hko1 Hc1 Ets Hst [Hc Et _ Hother Hn Hisr _] HQ.
  assert (forall f : kstate -> Z, (forall k, f (core k) = f k) -> f k1 = f k) as Hf by (intros f E; rewrite <- (E k1), <- (E k); by rewrite Hc1).
  assert (os_running_task k1 = Some t) as Hcur by (change (os_running_task (core k1) = Some t); by rewrite Hc1).
  pose proof (Hf KTaskOsAssignLockNest (fun _ => eq_refl)) as En. pose proof (Hf isr_count (fun _ => eq_refl)) as Ei.
  assert (tasks k1 !! t = Some td1) as Et1 by (rewrite Ets; apply lookup_insert_eq).
  assert (kernel_ok (locked k1) L1 I dl1) as Hkol by by eapply kernel_ok_fields.
  wp_steps. apply wp_kernel_do, wp_GetKTaskDescriptor; [cbn; lia|]. change (os_running_task (locked k1)) with (os_running_task k1).
  rewrite Hcur. wp_steps. apply wp_kernel_do. eapply wp_task_id; [exact Hkol|by eexists|]. intros id Hid. wp_steps.
  apply wp_kernel_do. unfold SuspendKTask. eapply wp_by_id; [exact Hkol|exact Hid|cbn; lia|].
  eapply wp__SuspendKTask; [exact Hkol|exact Hcur|exact Et1|by right|cbn; lia|].
  intros k3 L3 Hko3 Hq3 Ets3 _ _. wp_steps. apply wp_kernel_do, wp_CriticalAreaUnLock; [rewrite (quiet_nest _ _ Hq3); cbn; lia|].
  wp_steps. apply wp_kernel_do. set (k4 := unlocked (interrupts k1) k3).
  assert (core k4 = core k) as Hc4.
  { change (unlocked (interrupts k1) (core k3) = core k). rewrite (q_core _ _ Hq3).
    change (core (unlocked (interrupts k1) (locked k1)) = core k). by rewrite unlocked_locked. }
  assert (tasks k4 !! t = Some (as_stat KTASK_SUSPEND td1)) as Et4.
  { change (tasks k3 !! t = Some (as_stat KTASK_SUSPEND td1)). rewrite Ets3. apply lookup_insert_eq. }
  eapply (wp_reschedule k4 L3 I _ t); [by eapply kernel_ok_fields| | | |].
  - change (os_running_task (core k4) = Some t). by rewrite Hc4.
  - left. destruct Hother as (y & tdy & Hy & Ey & Hsy). exists y, tdy. split; [|done].
    change (tasks k3 !! y = Some tdy). rewrite Ets3, lookup_insert_ne by done. change (tasks k1 !! y = Some tdy). by rewrite Ets, lookup_insert_ne.
  - change (KTaskOsAssignLockNest (core k4) = 0). by rewrite Hc4.
  - intros k5 L5 Hko5 Hvis _ Hr _ Hby _. wp_steps. apply (HQ k5 L5 (as_stat KTASK_SUSPEND td1)).
    + done.
    + rewrite Hvis. by apply visible_outer, outer_core.
    + apply Hr. change (isr_count (core k4) = 0). by rewrite Hc4.
    + by apply (Hby t _ Et4); rewrite stat_of_as_stat.
    + by apply stat_of_as_stat.
    + done.
Qed.

(** What a task that waits in a queue looks like: it is suspended, the highest READY
    task runs, the node is the last of the queue, and no delay of the task is active. *)
Record wq_waiting k W I (t : ptr) (queue n : ptr) (l : list wlink) (deadline : Z) (s' : wq_state) : Prop := {
  ww_runs : runs_highest (wq_kernel s');
  ww_visible : visible (wq_kernel s') = visible k;
  ww_node : wq_nodes s' !! n = Some (mkWaitNode (Some t) None deadline 0);
  ww_list : exists W', rep (wq_links s') W' /\ W' !! WHead queue = Some (l ++ [WNode n]) /\
    forall y, y <> WHead queue -> y <> WNode n -> W' !! y = W !! y;
  ww_kernel : exists L' dl' td', kernel_ok (wq_kernel s') L' I dl' /\ tasks (wq_kernel s') !! t = Some td' /\
    stat_of td' = KTASK_SUSPEND /\ unset td' dl' = dl';
}.

(** Waiting in a wait queue.  A zero timeout returns 0 at once.  Otherwise the
    current task is suspended with a node at the end of the queue and the highest READY
    task runs, but whatever the timeout is, none is left: the delay is set before the
    task is suspended, and suspending a task cancels its delay. *)
Theorem WqueueWait_never_times_out k L I dl h W ns mem t td queue n l tick :
  kernel_ok k L I dl -> task_context k t td mem -> rep h W -> W !! WHead queue = Some l -> h !! WNode n = None -> 0 <= tick ->
  wp (WqueueWait mem (Some n) queue tick) (fun r s' =>
    if tick =? 0 then r = Some 0 /\ s' = mkWqState k h ns
    else r = None /\ wq_waiting k W I t queue n l (if tick =? u32 (-1) then 0 else u32 (heartbeat_ticks k + tick)) s')
    (mkWqState k h ns).
Proof.
  intros Hko Hctx HR Hl Hn Ht. pose proof Hctx as [Hc Et Hst Hother Hnest Hisr Hfresh].
  unfold WqueueWait. destruct (Z.eqb_spec tick 0) as [|Hne]; [by wp_steps|]. wp_steps.
  cbn [set_wq_links set_wq_nodes wq_kernel wq_links wq_nodes].
  eapply (wp_wait_timeout k L I dl mem t td tick); [done|done|done|lia|lia|done|].
  intros k1 L1 dl1 td1 Hko1 Hc1 Ets Etd. wp_steps.
  assert (KTaskOsAssignLockNest k1 = 0) as En by (change (KTaskOsAssignLockNest (core k1) = 0); by rewrite Hc1).
  assert (os_running_task k1 = Some t) as Hcur by (change (os_running_task (core k1) = Some t); by rewrite Hc1).
  apply wp_kernel_do, wp_GetKTaskDescriptor; [lia|]. rewrite Hcur. wp_steps.
  cbn [set_wq_nodes wq_kernel wq_links wq_nodes]. rewrite insert_insert_eq.
  set (deadline := if tick =? u32 (-1) then 0 else u32 (heartbeat_ticks k + tick)).
  set (ns1 := <[n := mkWaitNode (Some t) None deadline 0]> ns).
  eapply wp_mono; [apply (wp_new_node _ _ _ W n _ (fun _ s => exists h2, rep h2 (<[WNode n := []]> W) /\ s = mkWqState k1 h2 ns1) HR Hn); eauto|].
  wp_next. intros [] s2 (h2 & HR2 & ->). wp_steps. apply wp_kernel_do, wp_CriticalAreaLock; [lia|]. wp_steps.
  assert (WHead queue <> WNode n) as Hd by done.
  eapply (wp_WqueueAdd (locked k1) h2 _ (<[WNode n := []]> W) queue n l);
    [done|by rewrite lookup_insert_ne|apply lookup_insert_eq|cbn; lia|].
  intros h3 HR3. cbn beta. apply (wp_wait_suspend k k1 L1 I dl1 t td td1);
    [done|done|done|by rewrite Etd|by split|].
  intros k5 L5 td5 Hko5 Hvis Hr Et5 Hst5 Hd5. split; [done|]. split; [done|done|apply lookup_insert_eq| |].
  - eexists. split; [exact HR3|]. split; [apply lookup_attach_eq|]. intros y Hy Hyn.
    by rewrite lookup_attach_ne, lookup_insert_ne by done.
  - exists L5, (unset td1 dl1), td5. split_and!; [done..|]. by apply unset_unset.
Qed.

(** When the task runs again it takes its node off the queue and releases it. *)
Theorem WqueueWait_resume_correct k h W ns queue n l1 l2 :
  rep h W -> W !! WHead queue = Some (l1 ++ WNode n :: l2) -> 0 <= KTaskOsAssignLockNest k < 2 ^ 15 - 1 ->
  wp (WqueueWait_resume n) (fun r s' => r = 0 /\ wq_kernel s' = k /\ wq_nodes s' = delete n ns /\
    wq_links s' !! WNode n = None /\ exists W', rep (wq_links s') W' /\ W' !! WHead queue = Some (l1 ++ l2)) (mkWqState k h ns).
Proof.
  intros HR Hl Hnest. unfold WqueueWait_resume. wp_steps. apply (wp_WqueueRemove k h ns W n);
    [done|right; exists (WHead queue); eexists; split; [exact Hl|set_solver]|done|].
  intros h' HR'. wp_steps. cbn [wq_kernel wq_links wq_nodes set_wq_links set_wq_nodes].
  split_and!; [done|done|done|apply lookup_delete_eq|]. exists (delete (WNode n) (detach (WNode n) W)). split.
  - apply (rep_drop [WNode n]); [done|]. intros x ->%list_elem_of_singleton. eapply detached_unlinked; [done|apply lookup_detach_eq].
  - rewrite lookup_delete_ne, lookup_detach_ne, Hl by done. apply (f_equal Some).
    pose proof (rep_nodup _ _ HR _ _ Hl) as [_ [Hx _]%NoDup_middle]%NoDup_cons.
    apply without_middle; set_solver.
Qed.

(** ** Waking *)

(** [call] only looks at the state: the callback [f] answers [verdict f n key]. *)
Context (call : Z -> ptr -> Z -> M wq_state Z) (verdict : Z -> ptr -> Z -> Z).
Hypothesis Hcall : forall f n key s, call f n key s = Ret (verdict f n key) s.

(** The tasks of the nodes that have no callback or whose callback answers 0. *)
Definition to_wake ns (key : Z) (nl : list ptr) : list ptr :=
  omap (fun n => nd ← ns !! n;
    if match cb nd with None => true | Some f => verdict f n key =? 0 end then polling_task nd else None) nl.

Definition nodes_ok k ns (nl : list ptr) : Prop := forall n, n ∈ nl ->
  exists nd t, ns !! n = Some nd /\ polling_task nd = Some t /\ is_Some (tasks k !! t).

Lemma nodes_ok_wake k k' t ns nl : tasks k' = wake_task t (tasks k) -> nodes_ok k ns nl -> nodes_ok k' ns nl.
Proof.
  intros Ets Hok n Hn. destruct (Hok n Hn) as (nd & t' & ? & ? & ?). exists nd, t'. split_and!; [done..|].
  rewrite Ets. unfold wake_task. by rewrite lookup_alter_is_Some.
Qed.

Lemma wp_wake_node k L I dl h ns key n nd t (Q : bool -> wq_state -> Prop) :
  kernel_ok k L I dl -> ns !! n = Some nd -> polling_task nd = Some t -> is_Some (tasks k !! t) ->
  0 <= KTaskOsAssignLockNest k < 2 ^ 15 - 2 ->
  (forall k' L' dl', kernel_ok k' L' I dl' -> quiet k k' ->
     tasks k' = foldl (fun ts t => wake_task t ts) (tasks k) (to_wake ns key [n]) ->
     (tasks k' = tasks k \/ tasks k' = wake_task t (tasks k)) -> Q false (mkWqState k' h ns)) ->
  wp (wake_node call key (WNode n)) Q (mkWqState k h ns).
Proof.
  intros Hko En Ep [td Et] Hnest HQ. unfold wake_node. cbn [node_of]. wp_steps. cbn [wq_nodes]. rewrite En. wp_steps.
  unfold to_wake in HQ. cbn [omap list_omap] in HQ. rewrite En in HQ. cbn [mbind option_bind] in HQ.
  assert ((forall k' L' dl', kernel_ok k' L' I dl' -> quiet k k' -> tasks k' = wake_task t (tasks k) -> Q false (mkWqState k' h ns)) ->
    wp (deref (polling_task nd)) (fun t s => wp (id ← kernel_do (task_id t); kernel_do (KTaskWakeup id);; mret false) Q s)
      (mkWqState k h ns)) as Hwake.
  { intros Hend. rewrite Ep. wp_steps. apply wp_kernel_do. eapply wp_task_id; [exact Hko|by eexists|]. intros id Hid. wp_steps.
    apply wp_kernel_do. eapply wp_wake_task; [done..|]. intros r k' L' Hko' Hq Ets _. wp_steps. by eapply Hend. }
  destruct (cb nd) as [f|].
  - eapply wp_bind, wp_run; [apply Hcall|]. wp_steps. destruct (verdict f n key =? 0); cbn [negb]; wp_steps.
    + apply Hwake. intros k' L' dl' Hko' Hq Ets. apply (HQ k' L' dl'); [done|done| |by right]. by rewrite Ep.
    + apply (HQ k L dl); [done|done|done|by left].
  - wp_steps. apply Hwake. intros k' L' dl' Hko' Hq Ets. apply (HQ k' L' dl'); [done|done| |by right]. by rewrite Ep.
Qed.

Lemma wp_wake_each h W ns key queue l2 l1 fuel k L I dl (Q : wlink -> wq_state -> Prop) :
  rep h W -> W !! WHead queue = Some ((WNode <$> l1) ++ (WNode <$> l2)) -> nodes_ok k ns l2 -> kernel_ok k L I dl ->
  0 <= KTaskOsAssignLockNest k < 2 ^ 15 - 2 -> (length l2 < fuel)%nat ->
  (forall k' L' dl', kernel_ok k' L' I dl' -> quiet k k' ->
     tasks k' = foldl (fun ts t => wake_task t ts) (tasks k) (to_wake ns key l2) -> Q (WHead queue) (mkWqState k' h ns)) ->
  wp (for_each_until (fun x => wlinks (get_next x)) (wake_node call key) fuel (WHead queue)
        (List.hd (WHead queue) (WNode <$> l2))) Q (mkWqState k h ns).
Proof.
  intros HR. revert l1 fuel k L dl. induction l2 as [|n l2 IH]; intros l1 fuel k L dl HL Hok Hko Hnest Hf HQ;
    (destruct fuel as [|fuel]; [cbn in Hf; lia|]); cbn [for_each_until fmap list_fmap List.hd].
  - rewrite bool_decide_true by done. by apply (HQ k L dl).
  - rewrite bool_decide_false by done. destruct (Hok n) as (nd & t & En & Ep & Et); [set_solver|].
    apply wp_bind. eapply (wp_wake_node k L I dl h ns key n nd t); [done..|].
    intros k1 L1 dl1 Hko1 Hq1 Ets1 Hdom. apply wp_bind. apply wp_wlinks.
    cbn [fmap list_fmap] in HL. pose proof (rep_next _ _ _ _ _ _ HR HL) as Hnx. apply wp_get_next; [by eapply alloc_nxt|].
    rewrite Hnx. apply wp_bind. eapply wp_deref; [done|].
    apply (IH (l1 ++ [n]) fuel k1 L1 dl1); [by rewrite fmap_app, <- app_assoc| |done|by rewrite (quiet_nest _ _ Hq1)|cbn in Hf; lia|].
    + assert (nodes_ok k ns l2) as Hok2 by (intros m Hm; apply Hok; set_solver).
      destruct Hdom as [E|E]; [intros m Hm; rewrite E; by apply Hok2|by apply (nodes_ok_wake k k1 t)].
    + intros k2 L2 dl2 Hko2 Hq2 Ets2. apply (HQ k2 L2 dl2); [done|by eapply quiet_trans|].
      rewrite Ets2, Ets1. unfold to_wake. cbn [omap list_omap]. by destruct (_ ≫= _).
Qed.

(** C27: waking a wait queue makes exactly the suspended tasks READY that have a node in
    it which no callback rejects, in the order of the queue, and cancels their delays.
    The walk always ends at the head of the queue, where the function returns, so the
    running task stays the same: there is never a switch to a woken task. *)
Theorem WakeupWqueue_wakes k L I dl h W ns queue nl key :
  kernel_ok k L I dl -> rep h W -> W !! WHead queue = Some (WNode <$> nl) -> nodes_ok k ns nl ->
  key <> 0 -> 0 <= KTaskOsAssignLockNest k < 2 ^ 15 - 3 ->
  wp (WakeupWqueue call queue key) (fun _ s' => exists k' L' dl', s' = mkWqState k' h ns /\ kernel_ok k' L' I dl' /\
    quiet k k' /\ os_running_task k' = os_running_task k /\
    tasks k' = foldl (fun ts t => wake_task t ts) (tasks k) (to_wake ns key nl)) (mkWqState k h ns).
Proof.
  intros Hko HR Hl Hok Hkey Hnest. unfold WakeupWqueue. rewrite (proj2 (Z.eqb_neq key 0) Hkey). cbn [negb]. wp_steps. apply wp_kernel_do, wp_CriticalAreaLock; [lia|]. wp_steps.
  apply wp_wlinks. pose proof (rep_first _ _ _ _ HR Hl) as Hf. apply wp_get_next; [by eapply alloc_nxt|]. rewrite Hf. wp_steps.
  eapply (wp_wake_each h W ns key queue nl [] _ (locked k) L I dl);
    [done|done|done|by eapply kernel_ok_fields|cbn; lia| |].
  { pose proof (rep_length _ _ _ _ HR Hl) as Hlen. rewrite length_fmap in Hlen. cbn. lia. }
  intros k' L' dl' Hko' Hq Ets. wp_steps. apply wp_kernel_do, wp_CriticalAreaUnLock; [rewrite (quiet_nest _ _ Hq); cbn; lia|].
  rewrite bool_decide_true by done. wp_steps. pose proof (quiet_unlocked _ _ Hq) as Hqu.
  exists (unlocked (interrupts k) k'), L', dl'. split_and!; [done|by eapply kernel_ok_fields|done| |done].
  change (os_running_task (core (unlocked (interrupts k) k')) = os_running_task (core k)). by rewrite (q_core _ _ Hqu).
Qed.

End WaitQueue.
