(* ===== verification/BlockPool.v ===== *)
(** * Block pools: kernel/memory/gatherblock.c

    A pool hands out blocks of one size from one region.  Every block has a header of
    one pointer: in a free block it links the list of the free blocks, in a block
    that is handed out it points to the pool.  A function that waits for a block is
    split where it gives up the processor, as in Semaphore.v. *)

From S2P Require Import Prelude DoubleLink IdManager Bitmap Kernel ReadyVector Assign Delay Task TaskInv Creation Deadlines PendList Waiting.

(** ** The state *)

Record MemGather : Type := mkGather {
  m_name : string;
  m_kind : Z;  (* uint8 *)
  m_sign : Z;  (* uint8 *)
  m_start_address : option Z;
  m_size : Z;
  one_block_size : Z;
  m_block_link : option Z;
  block_total_number : Z;
  block_free_number : Z;
}.

(** What a header holds: a pointer to the next free block or the pool of the block. *)
Inductive header : Type := HNext (next : option Z) | HPool (pool : ptr).

(** The kernel, the pools and the words of memory; the list fields [m_link] and
    [wait_task] of a pool are the links [ObjLink CGather] and [PendList CGather]. *)
Record gm_state : Type := mkGmState {
  gm_kernel : kstate;
  gathers : gmap ptr MemGather;
  words : gmap Z header;
}.

Definition set_gm_kernel (k : kstate) (s : gm_state) : gm_state := mkGmState k (gathers s) (words s).
Definition set_gathers (g : gmap ptr MemGather) (s : gm_state) : gm_state := mkGmState (gm_kernel s) g (words s).
Definition set_words (w : gmap Z header) (s : gm_state) : gm_state := mkGmState (gm_kernel s) (gathers s) w.

Definition gm_do {A : Type} : M kstate A -> M gm_state A := zoom gm_kernel set_gm_kernel.

Definition Cmpt_KindN_Static : Z := 128.
(** [sizeof(uint8 * )] *)
Definition SIZEOF_PTR : Z := 4.

Definition gm_get {A : Type} (gm : ptr) (f : MemGather -> A) : M gm_state A :=
  s ← get; x ← deref (gathers s !! gm); mret (f x).
Definition gm_set (gm : ptr) (f : MemGather -> MemGather) : M gm_state unit :=
  s ← get; x ← deref (gathers s !! gm); modify (set_gathers (<[gm := f x]> (gathers s))).

(** Access to a word of memory. *)
Definition load_word (a : Z) : M gm_state header := s ← get; deref (words s !! a).
Definition store_word (a : Z) (v : header) : M gm_state unit :=
  s ← get; deref (words s !! a);; modify (set_words (<[a := v]> (words s))).
(** A header read as a link, or as the pool; reading it as the other is undefined. *)
Definition as_link (v : header) : option (option Z) := match v with HNext next => Some next | HPool _ => None end.
Definition as_pool (v : header) : option ptr := match v with HNext _ => None | HPool gm => Some gm end.

Definition set_identity (nm : string) (kind : Z) (x : MemGather) : MemGather :=
  mkGather nm kind (m_sign x) (m_start_address x) (m_size x) (one_block_size x) (m_block_link x) (block_total_number x) (block_free_number x).
Definition set_m_kind (kind : Z) (x : MemGather) : MemGather := set_identity (m_name x) kind x.
Definition set_m_sign (sign : Z) (x : MemGather) : MemGather :=
  mkGather (m_name x) (m_kind x) sign (m_start_address x) (m_size x) (one_block_size x) (m_block_link x) (block_total_number x) (block_free_number x).
Definition set_layout (start : option Z) (size one : Z) (x : MemGather) : MemGather :=
  mkGather (m_name x) (m_kind x) (m_sign x) start size one (m_block_link x) (block_total_number x) (block_free_number x).
Definition set_numbers (total free : Z) (x : MemGather) : MemGather :=
  mkGather (m_name x) (m_kind x) (m_sign x) (m_start_address x) (m_size x) (one_block_size x) (m_block_link x) total free.
Definition set_m_block_link (a : option Z) (x : MemGather) : MemGather :=
  mkGather (m_name x) (m_kind x) (m_sign x) (m_start_address x) (m_size x) (one_block_size x) a (block_total_number x) (block_free_number x).
Definition set_block_free_number (v : Z) (x : MemGather) : MemGather := set_numbers (block_total_number x) v x.

Section BlockPool.
Context `{C : KConfig} `{D : PriorityReadyVectorDone}.

(** ** Initialisation *)

(** [CHECK(gm != gm_handler)] in the walk over the pools. *)
Definition check_other (gm_handler : ptr) (entry : link) : M gm_state bool :=
  CHECK (negb (bool_decide (entry = ObjLink CGather gm_handler)));; mret false.

(** The loop that links the blocks: [fuel] of them are left. *)
Fixpoint link_blocks (fuel : nat) (block_ptr step off_block : Z) : M gm_state Z :=
  match fuel with
  | O => mret off_block
  | S fuel =>
      store_word (u32 (block_ptr + u32 (off_block * step))) (HNext (Some (u32 (block_ptr + u32 (u32 (off_block + 1) * step)))));;
      link_blocks fuel block_ptr step (off_block + 1)
  end.

(** The common end of initialisation and creation. *)
Definition build_blocks (gm : ptr) (start : Z) : M gm_state unit :=
  gm_do (klinks (InitDoubleLinkList (PendList CGather gm)));;
  one ← gm_get gm one_block_size;
  total ← gm_get gm block_total_number;
  let step := u32 (one + SIZEOF_PTR) in
  off_block ← link_blocks (Z.to_nat total) start step 0;
  store_word (u32 (start + u32 (u32 (off_block - 1) * step))) (HNext None);;
  gm_set gm (set_m_block_link (Some start)).

Definition InitMemGather (gm_handler : option ptr) (gm_name : option string) (begin_address : option Z) (gm_size one_size : Z) : M gm_state Z :=
  gm ← NULL_PARAM_CHECK gm_handler;
  nm ← NULL_PARAM_CHECK gm_name;
  start ← NULL_PARAM_CHECK begin_address;
  CHECK ((1 <=? gm_size) && (1 <=? one_size));;
  lock ← gm_do CriticalAreaLock;
  nx ← gm_do (klinks (get_next (ListHead CGather)));
  first ← deref nx;
  s ← get;
  for_each_until (fun x => gm_do (klinks (get_next x))) (check_other gm) (S (size (links (gm_kernel s)))) (ListHead CGather) first;;
  gm_do (CriticalAreaUnLock lock);;
  gm_set gm (set_identity (String.substring 0 (Z.to_nat NAME_NUM_MAX) nm) Cmpt_KindN_Static);;
  lock ← gm_do CriticalAreaLock;
  gm_do (klinks (DoubleLinkListInsertNodeAfter (ListHead CGather) (ObjLink CGather gm)));;
  gm_do (CriticalAreaUnLock lock);;
  let one := u32 (ALIGN_MEN_UP one_size MEM_ALIGN_SIZE) in
  let size := ALIGN_MEN_DOWN gm_size MEM_ALIGN_SIZE in
  gm_set gm (set_layout (Some start) size one);;
  (if u32 (one + SIZEOF_PTR) =? 0 then fault else mret tt);;
  let total := size / u32 (one + SIZEOF_PTR) in
  gm_set gm (set_numbers total total);;
  build_blocks gm start;;
  mret EOK.

(** The task at the front of the list of waiting tasks gets a status and is woken. *)
Definition wake_first_waiting (gm : ptr) (status : Z) : M kstate unit :=
  nx ← klinks (get_next (PendList CGather gm));
  task ← deref (nx ≫= sched_entry);
  task_set task (set_exstatus status);;
  id ← task_id task;
  KTaskWakeup id;;
  mret tt.

(** Waking the tasks that wait for a block, with status -ERROR; one step of fuel per task. *)
Fixpoint wake_waiting (fuel : nat) (gm : ptr) : M gm_state unit :=
  match fuel with
  | O => hang
  | S fuel =>
      empty ← gm_do (klinks (IsDoubleLinkListEmpty (PendList CGather gm)));
      if negb empty then
        lock ← gm_do CriticalAreaLock;
        gm_do (wake_first_waiting gm (- ERROR));;
        gm_do (CriticalAreaUnLock lock);;
        wake_waiting fuel gm
      else mret tt
  end.

Definition wake_all_waiting (gm : ptr) : M gm_state unit :=
  s ← get; wake_waiting (S (size (links (gm_kernel s)))) gm.

Definition unlink_gather (gm : ptr) : M gm_state unit :=
  lock ← gm_do CriticalAreaLock;
  gm_do (klinks (DoubleLinkListRmNode (ObjLink CGather gm)));;
  gm_do (CriticalAreaUnLock lock).

Definition RemoveMemGather (gm_handler : option ptr) : M gm_state Z :=
  gm ← NULL_PARAM_CHECK gm_handler;
  kind ← gm_get gm m_kind;
  CHECK (negb (Z.land kind Cmpt_KindN_Static =? 0));;
  wake_all_waiting gm;;
  gm_set gm (set_m_kind 0);;
  unlink_gather gm;;
  mret EOK.

Definition gather_links (gm : ptr) : list link := [PendList CGather gm; ObjLink CGather gm].

(** [KERNEL_MALLOC] and [memset] of a pool, and [KERNEL_FREE]. *)
Definition new_gather (gm : ptr) : M gm_state unit :=
  gm_do (modify (zero_links (gather_links gm)));;
  modify (fun s => set_gathers (<[gm := mkGather "" 0 0 None 0 0 None 0 0]> (gathers s)) s).
Definition free_gather (gm : ptr) : M gm_state unit :=
  gm_get gm m_kind;;
  gm_do (modify (drop_links (gather_links gm)));;
  modify (fun s => set_gathers (delete gm (gathers s)) s).

(** [mem] is the memory for the pool and [malloc n] the result of [x_malloc] for the blocks. *)
Definition CreateMemGather (mem : option ptr) (malloc : Z -> option Z) (gm_name : option string) (block_number one_size : Z) : M gm_state (option ptr) :=
  gm_do KDEBUG_NOT_IN_INTERRUPT;;
  nm ← NULL_PARAM_CHECK gm_name;
  CHECK ((1 <=? block_number) && (1 <=? one_size));;
  gm_do KDEBUG_NOT_IN_INTERRUPT;;
  match mem with
  | None => mret None
  | Some gm =>
      new_gather gm;;
      gm_set gm (set_identity (String.substring 0 (Z.to_nat NAME_NUM_MAX) nm) 0);;
      gm_set gm (set_m_sign 0);;
      lock ← gm_do CriticalAreaLock;
      gm_do (klinks (DoubleLinkListInsertNodeAfter (ListHead CGather) (ObjLink CGather gm)));;
      gm_do (CriticalAreaUnLock lock);;
      let one := u32 (ALIGN_MEN_UP one_size MEM_ALIGN_SIZE) in
      let size := u32 (u32 (one + SIZEOF_PTR) * block_number) in
      gm_set gm (set_layout (malloc size) size one);;
      match malloc size with
      | None => gm_set gm (set_m_kind 0);; unlink_gather gm;; free_gather gm;; mret None
      | Some start =>
          gm_set gm (set_numbers block_number block_number);;
          build_blocks gm start;;
          mret (Some gm)
      end
  end.

(** [x_free] of the region is a call of the allocator and not part of the state. *)
Definition DeleteMemGather (gm_handler : option ptr) : M gm_state Z :=
  gm_do KDEBUG_NOT_IN_INTERRUPT;;
  gm ← NULL_PARAM_CHECK gm_handler;
  kind ← gm_get gm m_kind;
  CHECK (Z.land kind Cmpt_KindN_Static =? 0);;
  wake_all_waiting gm;;
  gm_set gm (set_m_kind 0);;
  unlink_gather gm;;
  free_gather gm;;
  mret EOK.

(** ** Allocation *)

(** How the loop of [AllocBlockMemGather] ends: with the result of the function, or
    with the switch to another task, where [before_sleep] is kept. *)
Inductive gm_result : Type := GmReturns (block : option Z) | GmWaits (before_sleep : Z).

Definition take_block (gm : ptr) (lock : bool) : M gm_state gm_result :=
  gm_set gm (fun x => set_block_free_number (u32 (block_free_number x - 1)) x);;
  a ← gm_get gm m_block_link;
  block_ptr ← NULL_PARAM_CHECK a;
  v ← load_word block_ptr;
  next ← deref (as_link v);
  gm_set gm (set_m_block_link next);;
  store_word block_ptr (HPool gm);;
  gm_do (CriticalAreaUnLock lock);;
  mret (GmReturns (Some (u32 (block_ptr + SIZEOF_PTR)))).

(** The loop, entered in the critical area. *)
Definition alloc_loop (mem : option ptr) (gm : ptr) (task : option ptr) (wait_time : Z) (lock : bool) : M gm_state gm_result :=
  free ← gm_get gm block_free_number;
  if 0 =? free then
    if wait_time =? 0 then
      gm_do (CriticalAreaUnLock lock);;
      gm_do (KUpdateExstatus ETIMEOUT);;
      mret (GmReturns None)
    else
      gm_do KDEBUG_NOT_IN_INTERRUPT;;
      t ← deref task;
      gm_do (task_set t (set_exstatus EOK));;
      id ← gm_do (task_id t);
      gm_do (SuspendKTask id);;
      gm_do (klinks (DoubleLinkListInsertNodeAfter (PendList CGather gm) (SchedLink t)));;
      before_sleep ← (if 0 <? wait_time then gm_do CurrentTicksGain else mret 0);
      gm_do (if 0 <? wait_time then KTaskSetDelay mem t wait_time;; mret tt else mret tt);;
      gm_do (CriticalAreaUnLock lock);;
      gm_do DO_KTASK_ASSIGN;;
      mret (GmWaits before_sleep)
  else take_block gm lock.

Definition AllocBlockMemGather (mem : option ptr) (gm_handler : option ptr) (msec : Z) : M gm_state gm_result :=
  gm ← NULL_PARAM_CHECK gm_handler;
  task ← gm_do GetKTaskDescriptor;
  let wait_time := s32 (CalculteTickFromTimeMs (u32 msec)) in
  lock ← gm_do CriticalAreaLock;
  alloc_loop mem gm task wait_time lock.

(** The time that is left to wait. *)
Definition time_left (wait_time before_sleep now : Z) : Z :=
  if 0 <? wait_time then
    let wait_time := s32 (u32 (wait_time - u32 (now - before_sleep))) in
    if wait_time <? 0 then 0 else wait_time
  else wait_time.

(** The task runs again. *)
Definition AllocBlockMemGather_resume (mem : option ptr) (gm task : ptr) (wait_time before_sleep : Z) : M gm_state gm_result :=
  status ← gm_do (task_get task exstatus);
  if negb (EOK =? status) then mret (GmReturns None)
  else
    now ← gm_do CurrentTicksGain;
    lock ← gm_do CriticalAreaLock;
    alloc_loop mem gm (Some task) (time_left wait_time before_sleep now) lock.

(** ** Release *)

Definition FreeBlockMemGather (data_block : option Z) : M gm_state unit :=
  data ← NULL_PARAM_CHECK data_block;
  let block_ptr := u32 (data - SIZEOF_PTR) in
  v ← load_word block_ptr;
  gm ← deref (as_pool v);
  lock ← gm_do CriticalAreaLock;
  gm_set gm (fun x => set_block_free_number (u32 (block_free_number x + 1)) x);;
  next ← gm_get gm m_block_link;
  store_word block_ptr (HNext next);;
  gm_set gm (set_m_block_link (Some block_ptr));;
  empty ← gm_do (klinks (IsDoubleLinkListEmpty (PendList CGather gm)));
  if negb empty then
    gm_do (wake_first_waiting gm EOK);;
    gm_do (CriticalAreaUnLock lock);;
    gm_do DO_KTASK_ASSIGN
  else gm_do (CriticalAreaUnLock lock).

(** ** The blocks of a pool *)

Implicit Types (k : kstate) (L : gmap link (list link)) (I : gmap Z link) (dl : list ptr).
Implicit Types (x : MemGather) (w : gmap Z header) (free used : list Z).

(** The headers of the [n] blocks from the [i]th on. *)
Definition blocks_from (start step : Z) (i n : nat) : list Z := (fun j => start + Z.of_nat j * step) <$> seq i n.

(** The list of free blocks that starts at [a]. *)
Fixpoint free_chain w (a : option Z) free : Prop :=
  match free with
  | [] => a = None
  | b :: free => a = Some b /\ exists next, w !! b = Some (HNext next) /\ free_chain w next free
  end.

(** The pool [gm] with the list [free] of its free blocks and the blocks [used] that are
    handed out: together they are the blocks of its region. *)
Record pool_ok x w (gm : ptr) free used : Prop := {
  po_size : 0 < one_block_size x /\ 0 <= block_total_number x;
  po_region : exists start, m_start_address x = Some start /\ 0 < start /\
    start + block_total_number x * (one_block_size x + SIZEOF_PTR) < 2 ^ 32 /\
    free ++ used ≡ₚ blocks_from start (one_block_size x + SIZEOF_PTR) 0 (Z.to_nat (block_total_number x));
  po_number : block_free_number x = Z.of_nat (length free);
  po_chain : free_chain w (m_block_link x) free;
  po_used : forall b, b ∈ used -> w !! b = Some (HPool gm);
}.

Lemma elem_of_blocks start step i n b :
  b ∈ blocks_from start step i n <-> exists j, (i <= j < i + n)%nat /\ b = start + Z.of_nat j * step.
Proof.
  unfold blocks_from. rewrite list_elem_of_fmap. setoid_rewrite elem_of_seq. naive_solver.
Qed.

(** Two blocks are a whole block apart. *)
Lemma blocks_apart start step i n b b' : 0 < step ->
  b ∈ blocks_from start step i n -> b' ∈ blocks_from start step i n -> b <> b' -> b + step <= b' \/ b' + step <= b.
Proof.
  intros Hs (j & _ & ->)%elem_of_blocks (j' & _ & ->)%elem_of_blocks Hne.
  assert (j <> j') by (by intros ->). destruct (Nat.lt_total j j') as [?|[?|?]]; [left|done|right]; nia.
Qed.

Lemma blocks_nodup start step i n : 0 < step -> NoDup (blocks_from start step i n).
Proof.
  intros Hs. apply NoDup_fmap_2_strong; [|apply NoDup_seq]. intros j j' _ _ E. nia.
Qed.

Lemma pool_nodup x w gm free used : pool_ok x w gm free used -> NoDup (free ++ used).
Proof.
  intros [[Hs _] (start & _ & _ & _ & Hp) _ _ _]. rewrite Hp. apply blocks_nodup. unfold SIZEOF_PTR. lia.
Qed.

(** Headers lie in the region. *)
Lemma pool_range x w gm free used b : pool_ok x w gm free used -> b ∈ free ++ used ->
  exists start, m_start_address x = Some start /\ 0 < start <= b /\
    b + SIZEOF_PTR + one_block_size x <= start + block_total_number x * (one_block_size x + SIZEOF_PTR) < 2 ^ 32.
Proof.
  intros [[Hs Ht] (start & Est & H0 & Hmax & Hp) _ _ _] Hb. exists start.
  rewrite Hp in Hb. apply elem_of_blocks in Hb as (j & Hj & ->). unfold SIZEOF_PTR in *. split; [done|]. nia.
Qed.

Lemma free_chain_frame w a free b v : b ∉ free -> free_chain w a free -> free_chain (<[b := v]> w) a free.
Proof.
  revert a. induction free as [|b' free IH]; intros a Hb Hc; [done|]. apply not_elem_of_cons in Hb as [Hne Hb].
  destruct Hc as (-> & next & E & Hc). split; [done|]. exists next. rewrite lookup_insert_ne by done. auto.
Qed.

(** The length of the list of free blocks fits the 32-bit counter. *)
Lemma pool_free_bound x w gm free used : pool_ok x w gm free used -> Z.of_nat (length (free ++ used)) < 2 ^ 32.
Proof.
  intros [[Hs Ht] (start & _ & H0 & Hmax & Hp) _ _ _]. rewrite Hp. unfold blocks_from. rewrite length_fmap, length_seq.
  unfold SIZEOF_PTR in *. nia.
Qed.

Definition taken x (next : option Z) : MemGather := set_m_block_link next (set_block_free_number (block_free_number x - 1) x).
Definition given x (b : Z) : MemGather := set_m_block_link (Some b) (set_block_free_number (block_free_number x + 1) x).

Lemma pool_take x w gm b free used next :
  pool_ok x w gm (b :: free) used -> w !! b = Some (HNext next) -> pool_ok (taken x next) (<[b := HPool gm]> w) gm free (b :: used).
Proof.
  intros Hp Eb. pose proof (pool_nodup _ _ _ _ _ Hp) as Hnd. destruct Hp as [Hs (start & Est & H0 & Hmax & Hp) Hn Hc Hu].
  rewrite <- app_comm_cons in Hnd. apply NoDup_cons in Hnd as [Hb Hnd]. rewrite elem_of_app in Hb.
  split; cbn [taken set_m_block_link set_block_free_number set_numbers one_block_size block_total_number m_start_address block_free_number m_block_link].
  - done.
  - exists start. split_and!; [done..|]. by rewrite <- Permutation_middle.
  - cbn [length] in Hn. lia.
  - destruct Hc as (_ & next' & Eb' & Hc). apply free_chain_frame; [tauto|]. congruence.
  - intros b' [->|Hb']%elem_of_cons; [apply lookup_insert_eq|]. rewrite lookup_insert_ne by (intros ->; tauto). by apply Hu.
Qed.

Lemma pool_give x w gm b free used :
  pool_ok x w gm free (b :: used) -> pool_ok (given x b) (<[b := HNext (m_block_link x)]> w) gm (b :: free) used.
Proof.
  intros Hp. pose proof (pool_nodup _ _ _ _ _ Hp) as Hnd. destruct Hp as [Hs (start & Est & H0 & Hmax & Hp) Hn Hc Hu].
  rewrite <- Permutation_middle in Hnd. apply NoDup_cons in Hnd as [Hb Hnd]. rewrite elem_of_app in Hb.
  split; cbn [given set_m_block_link set_block_free_number set_numbers one_block_size block_total_number m_start_address block_free_number m_block_link].
  - done.
  - exists start. split_and!; [done..|]. by rewrite <- app_comm_cons, Permutation_middle.
  - cbn [length]. lia.
  - split; [done|]. exists (m_block_link x). split; [apply lookup_insert_eq|]. apply free_chain_frame; [tauto|done].
  - intros b' Hb'. rewrite lookup_insert_ne by (intros ->; tauto). apply Hu. set_solver.
Qed.

(** ** Allocation and release *)

Context `{CO : !KConfigOk C} `{DL : !ReadyVectorLaws D}.
Implicit Types (g : gmap ptr MemGather).

Lemma wp_gm_do {A : Type} (m : M kstate A) (Q : A -> gm_state -> Prop) k g w :
  wp m (fun a k' => Q a (mkGmState k' g w)) k -> wp (gm_do m) Q (mkGmState k g w).
Proof. exact (wp_zoom gm_kernel set_gm_kernel m Q (mkGmState k g w)). Qed.

Lemma wp_gm_get {A : Type} gm (f : MemGather -> A) x (Q : A -> gm_state -> Prop) k g w :
  g !! gm = Some x -> Q (f x) (mkGmState k g w) -> wp (gm_get gm f) Q (mkGmState k g w).
Proof. intros E HQ. unfold gm_get. wp_steps. cbn [gathers]. rewrite E. by wp_steps. Qed.

Lemma wp_gm_set gm f x (Q : unit -> gm_state -> Prop) k g w :
  g !! gm = Some x -> Q tt (mkGmState k (<[gm := f x]> g) w) -> wp (gm_set gm f) Q (mkGmState k g w).
Proof. intros E HQ. unfold gm_set. wp_steps. cbn [gathers]. rewrite E. by wp_steps. Qed.

Lemma wp_load_word a v (Q : header -> gm_state -> Prop) k g w :
  w !! a = Some v -> Q v (mkGmState k g w) -> wp (load_word a) Q (mkGmState k g w).
Proof. intros E HQ. unfold load_word. wp_steps. cbn [words]. rewrite E. by wp_steps. Qed.

Lemma wp_store_word a v (Q : unit -> gm_state -> Prop) k g w :
  is_Some (w !! a) -> Q tt (mkGmState k g (<[a := v]> w)) -> wp (store_word a v) Q (mkGmState k g w).
Proof. intros [old E] HQ. unfold store_word. wp_steps. cbn [words]. rewrite E. by wp_steps. Qed.

Lemma wp_take_block k g w gm x b free used (Q : gm_result -> gm_state -> Prop) :
  g !! gm = Some x -> pool_ok x w gm (b :: free) used -> 0 <= KTaskOsAssignLockNest k < 2 ^ 15 - 1 ->
  (forall x' w', pool_ok x' w' gm free (b :: used) -> (forall a, a <> b -> w' !! a = w !! a) ->
     Q (GmReturns (Some (b + SIZEOF_PTR))) (mkGmState k (<[gm := x']> g) w')) ->
  wp (take_block gm (interrupts k)) Q (mkGmState (locked k) g w).
Proof.
  intros Eg Hp Hn HQ. destruct (po_chain _ _ _ _ _ Hp) as (Elink & next & Eb & _).
  destruct (pool_range _ _ _ _ _ b Hp) as (start & _ & H0 & Hmax); [set_solver|].
  pose proof (pool_free_bound _ _ _ _ _ Hp) as Hlen. pose proof (po_number _ _ _ _ _ Hp) as Hnum.
  pose proof (po_size _ _ _ _ _ Hp) as [Hsize _]. cbn [length app] in Hnum, Hlen. rewrite length_app in Hlen. unfold SIZEOF_PTR in Hmax.
  unfold take_block. wp_steps. eapply wp_gm_set; [exact Eg|]. rewrite u32_small by lia. wp_steps.
  eapply wp_gm_get; [apply lookup_insert_eq|]. cbn [set_block_free_number set_numbers m_block_link]. rewrite Elink.
  wp_steps. eapply wp_null_check; [done|]. wp_steps. eapply wp_load_word; [exact Eb|]. cbn [as_link]. wp_steps.
  eapply wp_gm_set; [apply lookup_insert_eq|]. wp_steps. rewrite insert_insert_eq. eapply wp_store_word; [by eexists|]. wp_steps.
  apply wp_gm_do, wp_CriticalAreaUnLock; [cbn; lia|]. rewrite unlocked_locked. wp_steps.
  rewrite u32_small by (unfold SIZEOF_PTR; lia). apply HQ; [by apply pool_take|].
  intros a Ha. by apply lookup_insert_ne, not_eq_sym.
Qed.

(** Suspending the current task with its link at the front of a list. *)
Lemma wp_suspend_first k L I dl t td hd l id (Q : unit -> kstate -> Prop) :
  kernel_ok k L I dl -> os_running_task k = Some t -> tasks k !! t = Some td -> stat_of td = KTASK_RUNNING ->
  pend_list hd -> L !! hd = Some l -> I !! id = Some (IdLink CTask t) -> 0 <= KTaskOsAssignLockNest k < 2 ^ 15 - 2 ->
  (forall k' L', kernel_ok k' L' I (unset td dl) -> quiet k k' -> tasks k' = <[t := as_stat KTASK_SUSPEND td]> (tasks k) ->
     L' !! hd = Some (SchedLink t :: l) -> other_lists_kept hd L L' -> Q tt k') ->
  wp (SuspendKTask id) (fun _ k' => wp (klinks (DoubleLinkListInsertNodeAfter hd (SchedLink t))) Q k') k.
Proof.
  intros Hko Hc Et Hst Hhd HL Hid Hn HQ. destruct (pend_list_link hd Hhd) as (Hhd1 & Hhd2 & Hhd3).
  unfold SuspendKTask. eapply wp_by_id; [exact Hko|exact Hid|lia|].
  eapply wp__SuspendKTask; [exact Hko|exact Hc|exact Et|by right|lia|].
  intros k1 L1 Hko1 Hq Ets Hdet Hoth.
  assert (tasks k1 !! t = Some (as_stat KTASK_SUSPEND td)) as Et1 by (rewrite Ets; apply lookup_insert_eq).
  assert (L1 !! hd = Some l) as HL1 by by rewrite Hoth.
  pose proof (so_rep _ _ (ko_sched _ _ _ _ Hko1)) as HR.
  apply wp_klinks, (wp_DoubleLinkListInsertNodeAfter _ L1 hd [] l);
    [done|done|done|by eapply detached_unlinked|eapply rep_alloc; [exact HR|exact Hdet|set_solver]|by destruct hd|].
  cbn [app]. intros h' HR' Hsl. eapply HQ.
  - by apply (wait_ok k1 L1 I _ t (as_stat KTASK_SUSPEND td) hd l 0 KTASK_SUSPEND Hko1 Et1);
      [apply stat_of_as_stat|left|..].
  - eapply quiet_trans; [exact Hq|]. by eapply quiet_relink.
  - done.
  - apply lookup_attach_eq.
  - intros y Hy H1 H2 H3. rewrite lookup_attach_ne by (done || by intros ->). by apply Hoth.
Qed.

(** What the loop of an allocation does, for the first free block, with the time
    [wait_time] left to wait. *)
Definition allocated k L I dl g w gm free used l t td wait_time (r : gm_result) (s' : gm_state) : Prop :=
  match free with
  | b :: free' => r = GmReturns (Some (b + SIZEOF_PTR)) /\ gm_kernel s' = k /\ exists x', gathers s' = <[gm := x']> g /\
      pool_ok x' (words s') gm free' (b :: used) /\ forall a, a <> b -> words s' !! a = w !! a
  | [] =>
      if wait_time =? 0 then r = GmReturns None /\ s' = mkGmState (set_tasks (<[t := set_exstatus (- ETIMEOUT) td]> (tasks k)) k) g w
      else r = GmWaits (heartbeat_ticks k) /\ gathers s' = g /\ words s' = w /\ runs_highest (gm_kernel s') /\
        outer (gm_kernel s') = outer k /\ exists L' dl', kernel_ok (gm_kernel s') L' I dl' /\
        L' !! PendList CGather gm = Some (SchedLink t :: l) /\ other_lists_kept (PendList CGather gm) L L' /\
        waits (gm_kernel s') L' dl' t (set_exstatus EOK td) (PendList CGather gm) wait_time (heartbeat_ticks k)
  end.

Lemma wp_alloc_loop k L I dl g w mem gm x free used l t td wait_time :
  kernel_ok k L I dl -> g !! gm = Some x -> pool_ok x w gm free used -> L !! PendList CGather gm = Some l ->
  task_context k t td mem -> 0 <= wait_time ->
  wp (alloc_loop mem gm (Some t) wait_time (interrupts k)) (allocated k L I dl g w gm free used l t td wait_time) (mkGmState (locked k) g w).
Proof.
  intros Hko Eg Hp HL Hctx Hw. pose proof Hctx as [Hc Et Hst Hother Hn Hisr Hfresh].
  pose proof (po_number _ _ _ _ _ Hp) as Hnum. unfold alloc_loop. wp_steps. eapply wp_gm_get; [exact Eg|]. rewrite Hnum.
  destruct free as [|b free]; cbn [length allocated];
    [change (0 =? Z.of_nat 0) with true|change (0 =? Z.of_nat (S (length free))) with false]; cbn iota.
  - destruct (Z.eqb_spec wait_time 0) as [->|Hne].
    + wp_steps. apply wp_gm_do, wp_CriticalAreaUnLock; [cbn; lia|]. rewrite unlocked_locked. wp_steps.
      apply wp_gm_do, (wp_KUpdateExstatus _ k t td); [done|done|done|done|lia|]. by wp_steps.
    + wp_steps. apply wp_gm_do, wp_KDEBUG_NOT_IN_INTERRUPT; [done|]. wp_steps. apply wp_gm_do.
      eapply wp_task_set; [exact Et|]. wp_steps. change (tasks (locked k)) with (tasks k). set (td0 := set_exstatus EOK td).
      set (k1 := set_tasks (<[t := td0]> (tasks k)) (locked k)).
      assert (kernel_ok k1 L I dl) as Hko1 by (apply (kernel_ok_update (locked k) L I dl t td); [by eapply kernel_ok_fields|done|done]).
      assert (tasks k1 !! t = Some td0) as Et1 by apply lookup_insert_eq.
      apply wp_gm_do. eapply wp_task_id; [exact Hko1|by eexists|]. intros id Hid. wp_steps. apply wp_gm_do.
      eapply wp_mono; [eapply (wp_suspend_first k1 L I dl t td0 (PendList CGather gm) l id (fun _ k2 => exists L2,
        kernel_ok k2 L2 I (unset td0 dl) /\ quiet k1 k2 /\ tasks k2 = <[t := as_stat KTASK_SUSPEND td0]> (tasks k1) /\
        L2 !! PendList CGather gm = Some (SchedLink t :: l) /\ other_lists_kept (PendList CGather gm) L L2));
        [done|done|done|done|done|done|done|cbn; lia|by eauto 10]|].
      intros ? k2' Hk2. wp_steps. apply wp_gm_do. eapply wp_mono; [exact Hk2|]. clear Hk2.
      intros [] k2 (L2 & Hko2 & Hq2 & Ets2 & HL2 & Hoth2). wp_steps.
      replace (if 0 <? wait_time then gm_do CurrentTicksGain else mret 0) with (gm_do CurrentTicksGain)
        by (by rewrite (proj2 (Z.ltb_lt 0 wait_time)) by lia).
      unfold CurrentTicksGain. apply wp_gm_do. wp_steps. apply wp_gm_do.
      eapply wp_mono; [apply (wp_block_rest k1 k2 L L2 I (unset td0 dl) mem t td0 (PendList CGather gm) (SchedLink t :: l) wait_time (interrupts k)
        (fun _ k' => exists L' dl', kernel_ok k' L' I dl' /\ outer k' = outer k /\ runs_highest k' /\
           L' !! PendList CGather gm = Some (SchedLink t :: l) /\ other_lists_kept (PendList CGather gm) L L' /\
           waits k' L' dl' t td0 (PendList CGather gm) wait_time (heartbeat_ticks k)));
        [done| |cbn; lia|done|done|done|done|done|done|done|set_solver|done|]|].
      * destruct Hother as (y & tdy & Hy & Ey & Hsy). exists y, tdy. split_and!; [done| |done]. cbn. by rewrite lookup_insert_ne.
      * intros k' L' dl' Hko' Hout Hr HL' Hoth' Hwt _. exists L', dl'. split_and!; [done| |done..].
        rewrite Hout. apply outer_core. unfold core, k1, unlocked, locked. cbn. by rewrite Z.add_simpl_r.
      * intros ? k3 Hk3. wp_steps. apply wp_gm_do. eapply wp_mono; [exact Hk3|]. clear Hk3. intros ? k4 Hk4. wp_steps.
        apply wp_gm_do. eapply wp_mono; [exact Hk4|]. clear Hk4. intros [] k5 (L5 & dl5 & Hk5 & Hout & Hr & HL5 & Hoth5 & Hwt). wp_steps.
        assert (heartbeat_ticks k2 = heartbeat_ticks k) as -> by (change (heartbeat_ticks (core k2) = heartbeat_ticks (core k1)); by rewrite (q_core _ _ Hq2)).
        unfold allocated. rewrite (proj2 (Z.eqb_neq wait_time 0)) by done. split_and!; [done..|]. by exists L5, dl5.
  - eapply (wp_take_block k g w gm x b free used); [done|done|lia|]. intros x' w' Hp' Hw'. split; [done|]. split; [done|]. by exists x'.
Qed.

(** C28: allocating a block in a task.  With a free block the first one is handed out:
    the pool keeps track of it, and the kernel does not change.  Without one the caller
    is suspended at the front of the list of waiting tasks with its delay set, and the
    highest READY task runs. *)
Theorem AllocBlockMemGather_correct k L I dl g w mem gm x free used l msec t td :
  kernel_ok k L I dl -> g !! gm = Some x -> pool_ok x w gm free used -> L !! PendList CGather gm = Some l ->
  task_context k t td mem ->
  wp (AllocBlockMemGather mem (Some gm) msec)
    (allocated k L I dl g w gm free used l t td (CalculteTickFromTimeMs (u32 msec))) (mkGmState k g w).
Proof.
  intros Hko Eg Hp HL Hctx. pose proof (tc_nest _ _ _ _ Hctx). destruct (CalculteTickFromTimeMs_int32 (u32 msec)) as [Hb Hs].
  unfold AllocBlockMemGather. wp_steps. eapply wp_null_check; [done|]. wp_steps. apply wp_gm_do, wp_GetKTaskDescriptor; [lia|].
  rewrite (tc_current _ _ _ _ Hctx). wp_steps. apply wp_gm_do, wp_CriticalAreaLock; [lia|]. rewrite Hs.
  eapply wp_alloc_loop; [done..|lia].
Qed.

(** When a task that waited runs again: with a status other than EOK it gets nothing;
    else it allocates again, with the rest of its time. *)
Theorem AllocBlockMemGather_resume_correct k L I dl g w mem gm x free used l wait_time before t td :
  kernel_ok k L I dl -> g !! gm = Some x -> pool_ok x w gm free used -> L !! PendList CGather gm = Some l ->
  task_context k t td mem -> 0 <= wait_time ->
  wp (AllocBlockMemGather_resume mem gm t wait_time before) (fun r s' =>
    if EOK =? exstatus td then allocated k L I dl g w gm free used l t td (time_left wait_time before (heartbeat_ticks k)) r s'
    else r = GmReturns None /\ s' = mkGmState k g w) (mkGmState k g w).
Proof.
  intros Hko Eg Hp HL Hctx Hw. pose proof (tc_nest _ _ _ _ Hctx).
  unfold AllocBlockMemGather_resume. wp_steps. apply wp_gm_do. eapply wp_task_get; [apply Hctx|].
  destruct (EOK =? exstatus td); cbn [negb]; wp_steps; [|done]. apply wp_gm_do. unfold CurrentTicksGain. wp_steps.
  apply wp_gm_do, wp_CriticalAreaLock; [lia|]. eapply wp_alloc_loop; [done..|].
  unfold time_left. destruct (0 <? wait_time); [|done]. cbn zeta. case_match eqn:E; [done|]. lia.
Qed.

Lemma wp_wake_first_waiting k L I dl gm status t td l (Q : unit -> kstate -> Prop) :
  kernel_ok k L I dl -> L !! PendList CGather gm = Some (SchedLink t :: l) -> tasks k !! t = Some td ->
  0 <= KTaskOsAssignLockNest k < 2 ^ 15 - 2 ->
  (forall k' L', let td' := as_stat KTASK_READY (set_exstatus status td) in
     kernel_ok k' L' I (unset td dl) -> quiet k k' -> tasks k' = <[t := td']> (tasks k) ->
     L' !! PendList CGather gm = Some l -> other_lists_kept (PendList CGather gm) L L' -> Q tt k') ->
  wp (wake_first_waiting gm status) Q k.
Proof.
  intros Hko HL Et Hn HQ. pose proof (so_rep _ _ (ko_sched _ _ _ _ Hko)) as HR.
  unfold wake_first_waiting. wp_steps. apply wp_klinks. pose proof (rep_first _ _ _ _ HR HL) as Hf.
  apply wp_get_next; [by eapply alloc_nxt|]. rewrite Hf, set_links_id. cbn [List.hd]. wp_steps. cbn [mbind option_bind sched_entry].
  wp_steps. eapply wp_task_set; [exact Et|]. wp_steps. set (k1 := set_tasks _ k).
  assert (kernel_ok k1 L I dl) as Hko1 by (by apply (kernel_ok_update k L I dl t td)).
  eapply wp_mono; [eapply (wp_wake_listed k1 L I dl t (set_exstatus status td) (PendList CGather gm) l (fun _ => Q tt));
    [done|done|exact HL|apply lookup_insert_eq|done|]|].
  - intros k2 L2 Hko2 Hq Ets HL2 Hoth. apply (HQ k2 L2); [done| | |done|done].
    + eapply quiet_trans; [|exact Hq]. done.
    + rewrite Ets. apply insert_insert_eq.
  - intros id k2 Hk2. wp_steps. eapply wp_mono; [exact Hk2|]. intros r k3 Hk3. by wp_steps.
Qed.

(** C29: releasing a block that is handed out puts it in front of the free blocks.  When
    tasks wait, the one that came last can run, with the status EOK, and in a task the
    highest READY task runs. *)
Theorem FreeBlockMemGather_correct k L I dl g w gm x b free used l c :
  kernel_ok k L I dl -> g !! gm = Some x -> pool_ok x w gm free (b :: used) -> L !! PendList CGather gm = Some l ->
  os_running_task k = Some c -> KTaskOsAssignLockNest k = 0 ->
  wp (FreeBlockMemGather (Some (b + SIZEOF_PTR))) (fun _ s' =>
    exists x', gathers s' = <[gm := x']> g /\ pool_ok x' (words s') gm (b :: free) used /\
      (forall a, a <> b -> words s' !! a = w !! a) /\
      match l with
      | [] => gm_kernel s' = k
      | y :: l' => exists t L' dl', y = SchedLink t /\ kernel_ok (gm_kernel s') L' I dl' /\
          L' !! PendList CGather gm = Some l' /\ other_lists_kept (PendList CGather gm) L L' /\
          (exists td, tasks (gm_kernel s') !! t = Some td /\ exstatus td = EOK /\ (stat_of td = KTASK_READY \/ stat_of td = KTASK_RUNNING)) /\
          (isr_count k = 0 -> runs_highest (gm_kernel s')) /\ visible (gm_kernel s') = visible k
      end) (mkGmState k g w).
Proof.
  intros Hko Eg Hp HL Hc Hn. destruct (pool_range _ _ _ _ _ b Hp) as (start & _ & H0 & Hmax); [set_solver|].
  unfold SIZEOF_PTR in Hmax. pose proof (po_size _ _ _ _ _ Hp) as [Hsize _].
  pose proof (pool_free_bound _ _ _ _ _ Hp) as Hlen. pose proof (po_number _ _ _ _ _ Hp) as Hnum. rewrite length_app in Hlen. cbn [length] in Hlen.
  pose proof (po_used _ _ _ _ _ Hp b ltac:(set_solver)) as Eb.
  unfold FreeBlockMemGather. wp_steps. eapply wp_null_check; [done|].
  replace (u32 (b + SIZEOF_PTR - SIZEOF_PTR)) with b by (rewrite u32_small; unfold SIZEOF_PTR; lia).
  wp_steps. eapply wp_load_word; [exact Eb|]. cbn [as_pool]. wp_steps. apply wp_gm_do, wp_CriticalAreaLock; [lia|]. wp_steps.
  eapply wp_gm_set; [exact Eg|]. rewrite u32_small by lia. wp_steps. eapply wp_gm_get; [apply lookup_insert_eq|].
  cbn [set_block_free_number set_numbers m_block_link]. wp_steps. eapply wp_store_word; [by eexists|]. wp_steps.
  eapply wp_gm_set; [apply lookup_insert_eq|]. rewrite insert_insert_eq. wp_steps.
  apply wp_gm_do, wp_klinks. assert (kernel_ok (locked k) L I dl) as Hko1 by by eapply kernel_ok_fields.
  eapply (wp_IsDoubleLinkListEmpty _ L); [apply Hko1|exact HL|]. change (set_links _ (locked k)) with (locked k).
  pose proof (pool_give x w gm b free used Hp) as Hp'. fold (given x b).
  destruct l as [|y l].
  - rewrite bool_decide_true by done. cbn [negb]. apply wp_gm_do, wp_CriticalAreaUnLock; [cbn; lia|]. rewrite unlocked_locked.
    exists (given x b). split_and!; [done|done| |done]. intros a Ha. by apply lookup_insert_ne, not_eq_sym.
  - rewrite bool_decide_false by done. cbn [negb]. wp_steps. apply wp_gm_do.
    destruct (ko_member _ _ _ _ Hko (PendList CGather gm) _ y KTASK_SUSPEND eq_refl HL) as (t & td & -> & Et & _); [set_solver|].
    eapply (wp_wake_first_waiting (locked k) L I dl gm EOK t td l); [done|exact HL|done|cbn; lia|].
    intros k1 L1 td1 Hko2 Hq Ets HL1 Hoth. wp_steps. apply wp_gm_do.
    eapply wp_mono; [eapply (wp_unlock_switch k1 L1 I _ c t _ (interrupts k) (fun _ k' => exists L' dl', kernel_ok k' L' I dl' /\
        L' !! PendList CGather gm = Some l /\ other_lists_kept (PendList CGather gm) L L' /\
        (exists td', tasks k' !! t = Some td' /\ exstatus td' = EOK /\ (stat_of td' = KTASK_READY \/ stat_of td' = KTASK_RUNNING)) /\
        (isr_count k = 0 -> runs_highest k') /\ visible k' = visible k));
      [done| |by rewrite (quiet_nest _ _ Hq); cbn; lia|rewrite Ets; apply lookup_insert_eq|by apply stat_of_as_stat|]|].
    + change (os_running_task (core k1) = Some c). by rewrite (q_core _ _ Hq).
    + intros k2 L2 Hko3 Hvis Hr _ Hres HL2. eexists L2, _. split_and!; [done|by rewrite HL2| | | |].
      * intros z H1 H2 H3 H4. rewrite HL2 by done. by apply Hoth.
      * destruct (Hres t _ ltac:(rewrite Ets; apply lookup_insert_eq)) as (td' & Et' & E' & Hs'). exists td'. split; [done|].
        rewrite E'. split; [done|]. rewrite <- E'. destruct Hs' as [->|Hs']; [left; by apply stat_of_as_stat|done].
      * intros Hi. apply Hr. change (isr_count (core k1) = 0). by rewrite (q_core _ _ Hq).
      * rewrite Hvis. apply visible_outer, outer_core. change (unlocked (interrupts k) (core k1) = core k). rewrite (q_core _ _ Hq).
        change (core (unlocked (interrupts k) (locked k)) = core k). by rewrite unlocked_locked.
    + intros ? k2 Hk2. wp_steps. apply wp_gm_do. eapply wp_mono; [exact Hk2|]. intros [] k3 (L3 & dl3 & Hk3). cbn [gathers words gm_kernel].
      exists (given x b). split_and!; [done|done|intros a' Ha; by apply lookup_insert_ne, not_eq_sym|]. by exists t, L3, dl3.
Qed.

(** ** Building the list of blocks *)

Lemma wp_link_blocks start step k g : 0 < start -> 0 < step ->
  forall n i w (Q : Z -> gm_state -> Prop), start + Z.of_nat (i + n) * step < 2 ^ 32 ->
  (forall j, (i <= j < i + n)%nat -> is_Some (w !! (start + Z.of_nat j * step))) ->
  (forall w', (forall j, (i <= j < i + n)%nat -> w' !! (start + Z.of_nat j * step) = Some (HNext (Some (start + Z.of_nat (S j) * step)))) ->
     (forall j, (j < i)%nat -> w' !! (start + Z.of_nat j * step) = w !! (start + Z.of_nat j * step)) ->
     Q (Z.of_nat (i + n)) (mkGmState k g w')) ->
  wp (link_blocks n start step (Z.of_nat i)) Q (mkGmState k g w).
Proof.
  intros H0 Hs n. induction n as [|n IH]; intros i w Q Hmax Hw HQ; cbn [link_blocks].
  { wp_steps. rewrite Nat.add_0_r in HQ. apply HQ; [intros j Hj; lia|done]. }
  rewrite (u32_small (Z.of_nat i * step)), (u32_small (start + _)) by nia. rewrite (u32_small (Z.of_nat i + 1)) by nia.
  rewrite (u32_small ((Z.of_nat i + 1) * step)), (u32_small (start + (Z.of_nat i + 1) * step)) by nia.
  replace (Z.of_nat i + 1) with (Z.of_nat (S i)) by lia. wp_steps. eapply wp_store_word; [apply Hw; lia|].
  apply IH; [by replace (S i + n)%nat with (i + S n)%nat by lia| |].
  - intros j Hj. rewrite lookup_insert_ne by nia. apply Hw. lia.
  - intros w' Hw' Hold. replace (S i + n)%nat with (i + S n)%nat by lia. apply HQ.
    + intros j Hj. destruct (decide (j = i)) as [->|Hne]; [|apply Hw'; lia]. rewrite Hold by lia. apply lookup_insert_eq.
    + intros j Hj. rewrite Hold by lia. apply lookup_insert_ne. nia.
Qed.

(** The last header ends the list. *)
Lemma linked_chain start step w n i : 0 < step -> (0 < n)%nat ->
  (forall j, (i <= j < i + n)%nat -> w !! (start + Z.of_nat j * step) = Some (HNext (Some (start + Z.of_nat (S j) * step)))) ->
  free_chain (<[start + Z.of_nat (i + n - 1) * step := HNext None]> w) (Some (start + Z.of_nat i * step)) (blocks_from start step i n).
Proof.
  intros Hs. revert i. induction n as [|n IH]; intros i Hn Hw; [lia|].
  unfold blocks_from. cbn [seq fmap list_fmap free_chain]. split; [done|].
  destruct n as [|n].
  - exists None. replace (i + 1 - 1)%nat with i by lia. split; [apply lookup_insert_eq|done].
  - exists (Some (start + Z.of_nat (S i) * step)). split.
    + rewrite lookup_insert_ne by nia. apply Hw. lia.
    + replace (i + S (S n) - 1)%nat with (S i + S n - 1)%nat by lia. apply (IH (S i)); [lia|]. intros j Hj. apply Hw. lia.
Qed.

Lemma wp_build_blocks k L g w gm x start (n : nat) (Q : unit -> gm_state -> Prop) :
  rep (links k) L -> unlinked L (PendList CGather gm) -> alloc (links k) (PendList CGather gm) ->
  g !! gm = Some x -> m_start_address x = Some start -> 0 < start -> 0 < one_block_size x -> (0 < n)%nat ->
  block_total_number x = Z.of_nat n -> block_free_number x = Z.of_nat n ->
  let step := one_block_size x + SIZEOF_PTR in start + Z.of_nat n * step < 2 ^ 32 ->
  (forall j, (j < n)%nat -> is_Some (w !! (start + Z.of_nat j * step))) ->
  (forall h' x' w', rep h' (<[PendList CGather gm := []]> L) -> same_links (PendList CGather gm) (links k) h' ->
     one_block_size x' = one_block_size x -> pool_ok x' w' gm (blocks_from start step 0 n) [] -> Q tt (mkGmState (set_links h' k) (<[gm := x']> g) w')) ->
  wp (build_blocks gm start) Q (mkGmState k g w).
Proof.
  intros HR Hun Ha Eg Est H0 Hone Hn Etot Efree step Hmax Hw HQ. unfold build_blocks. wp_steps.
  apply wp_gm_do, wp_klinks, (wp_InitDoubleLinkList_rep _ L); [done|done|done|]. intros h' HR' Hsl. wp_steps.
  eapply wp_gm_get; [exact Eg|]. wp_steps. eapply wp_gm_get; [exact Eg|]. rewrite Etot, Nat2Z.id.
  assert (0 < step) as Hstep by (unfold step, SIZEOF_PTR; lia). rewrite (u32_small (one_block_size x + SIZEOF_PTR)) by (fold step; nia).
  fold step. wp_steps. eapply (wp_link_blocks start step _ _ H0 Hstep n 0); [done|intros j Hj; apply Hw; lia|].
  cbn [Nat.add]. intros w1 Hw1 _. wp_steps. rewrite (u32_small (Z.of_nat n - 1)), (u32_small ((Z.of_nat n - 1) * step)), u32_small by nia.
  replace (Z.of_nat n - 1) with (Z.of_nat (n - 1)) by lia. eapply wp_store_word; [rewrite Hw1 by lia; by eexists|]. wp_steps.
  eapply wp_gm_set; [exact Eg|]. apply HQ; [done|done|done|].
  pose proof (linked_chain start step w1 n 0 Hstep Hn Hw1) as Hc. cbn [Nat.add] in Hc. rewrite Z.mul_0_l, Z.add_0_r in Hc.
  split; cbn [set_m_block_link one_block_size block_total_number m_start_address block_free_number m_block_link].
  - split; [done|lia].
  - exists start. rewrite Etot, Nat2Z.id. split_and!; [done|done|done|]. by rewrite app_nil_r.
  - rewrite Efree. unfold blocks_from. by rewrite length_fmap, length_seq.
  - exact Hc.
  - intros b Hb. by apply not_elem_of_nil in Hb.
Qed.

(** ** Creation *)

(** Initialising a list that is not used yet. *)
Lemma unlisted_unlinked xs L (y : link) : unlisted xs L -> y ∈ xs -> unlinked L y.
Proof. intros Hu Hy hd l HL Hin. by destruct (Hu y hd l Hy HL). Qed.

Lemma gather_links_class gm : Forall (fun y => object_link CGather y = true) (gather_links gm).
Proof. by repeat constructor. Qed.

Lemma gather_list gm : PendList CGather gm ∈ gather_links gm.
Proof. by left. Qed.
Lemma gather_link gm : ObjLink CGather gm ∈ gather_links gm.
Proof. right. by left. Qed.

(** From the kernel [k]: the links of a new pool exist and are unused in [h0]; the pool is
    linked into the list of all pools and its list of waiting tasks is initialised. *)
Section new_pool.
Context k L I dl (gm : ptr) (l : list link) (h0 h1 h2 : gmap link (node link)).
Hypothesis Hko : kernel_ok k L I dl.
Hypothesis HL : L !! ListHead CGather = Some l.
Hypothesis Hun : unlisted (gather_links gm) L.
Hypothesis H0 : grows CGather (gather_links gm) (links k) L h0 L.

Let L1 := attach (ListHead CGather) (ObjLink CGather gm :: l) (ObjLink CGather gm) L.
Let L2 := <[PendList CGather gm := []]> L1.

Lemma new_pool_ok : rep h1 L1 -> same_links (ObjLink CGather gm) h0 h1 -> rep h2 L2 -> same_links (PendList CGather gm) h1 h2 ->
  kernel_ok (set_links h2 k) L2 I dl /\ L2 !! PendList CGather gm = Some [] /\ L2 !! ListHead CGather = Some (ObjLink CGather gm :: l).
Proof.
  intros HR1 Hs1 HR2 Hs2. split; [|split].
  - apply (kernel_ok_object CGather (gather_links gm) k L); try done.
    + apply gather_links_class.
    + eapply grows_trans; [exact H0|]. eapply grows_trans; [apply (grows_attach CGather _ h0 L h1 gm l)|apply grows_init];
        [set_solver| |done|done|done|set_solver|done|done]. intros Hin. unfold gather_links in Hin. set_solver.
    + by left.
  - apply lookup_insert_eq.
  - unfold L2, L1. rewrite lookup_insert_ne by done. apply lookup_attach_eq.
Qed.

(** Unlinking and freeing it again. *)
Lemma dropped_lists : foldr (fun y => delete y) (detach (ObjLink CGather gm) L1) (gather_links gm) = L.
Proof.
  apply map_eq. intros y. rewrite drop_lookup. case_bool_decide as Hy.
  - symmetry. apply eq_None_not_Some. intros [l0 E]. apply (Hun y y l0 Hy E), elem_of_cons. by left.
  - assert (y <> ObjLink CGather gm) as Hne by (unfold gather_links in Hy; set_solver).
    rewrite lookup_detach_ne by done. destruct (decide (y = ListHead CGather)) as [->|Hh].
    + unfold L1. rewrite lookup_attach_eq, HL. cbn. f_equal.
      apply (without_middle (ObjLink CGather gm) [] l); [apply not_elem_of_nil|].
      intros Hin. apply (Hun (ObjLink CGather gm) _ l (gather_link gm) HL). set_solver.
    + unfold L1. rewrite lookup_attach_ne by done. destruct (L !! y) as [ly|] eqn:E; [|done]. cbn. f_equal.
      apply without_not_in. intros Hin. apply (Hun (ObjLink CGather gm) _ ly (gather_link gm) E). set_solver.
Qed.

Lemma dropped_pool_ok : fresh_links (gather_links gm) (links k) -> rep h1 L1 -> same_links (ObjLink CGather gm) h0 h1 ->
  rep h2 (detach (ObjLink CGather gm) L1) -> same_links (ObjLink CGather gm) h1 h2 ->
  kernel_ok (drop_links (gather_links gm) (set_links h2 k)) L I dl.
Proof.
  intros Hf HR1 [Ha1 Hn1] HR2 [Ha2 Hn2].
  assert (rep (foldr (fun y => delete y) h2 (gather_links gm)) L) as HR3.
  { rewrite <- dropped_lists. apply rep_drop; [done|]. intros y Hy hd l0 HL' Hin.
    destruct (decide (y = ObjLink CGather gm)) as [->|Hne].
    { revert HL' Hin. apply (detached_unlinked h2 _ _ HR2 (lookup_detach_eq _ _)). }
    assert (y = PendList CGather gm) as -> by (unfold gather_links in Hy; set_solver).
    apply lookup_detach_Some in HL' as [[-> ->]|(_ & l' & HL' & ->)]; [set_solver|].
    assert (PendList CGather gm ∈ hd :: l') as Hin'.
    { apply elem_of_cons in Hin as [<-|Hin]; apply elem_of_cons; [by left|]. apply elem_of_without in Hin as [_ Hin]. by right. }
    exfalso. destruct (decide (hd = ListHead CGather)) as [->|Hh].
    - unfold L1 in HL'. rewrite lookup_attach_eq in HL'. injection HL' as <-.
      apply (Hun (PendList CGather gm) _ l (gather_list gm) HL). apply elem_of_cons. right.
      by apply elem_of_cons in Hin' as [?|[?|Hin']%elem_of_cons].
    - destruct (decide (hd = ObjLink CGather gm)) as [->|Ho].
      + unfold L1, attach in HL'. by rewrite lookup_insert_ne, lookup_delete_eq in HL' by done.
      + unfold L1 in HL'. rewrite (lookup_attach_ne _ _ _ _ _ Hh Ho) in HL'.
        exact (Hun (PendList CGather gm) hd l' (gather_list gm) HL' Hin'). }
  assert (forall y, foldr (fun y => delete y) h2 (gather_links gm) !! y = if bool_decide (y ∈ gather_links gm) then None else h2 !! y)
    as Hlook by apply drop_lookup.
  apply (kernel_ok_object CGather (gather_links gm) k L); try done; [apply gather_links_class| |by left].
  split; cbn [links drop_links set_links]; [done| | | |done| |].
  - intros y [nd E]. assert (y ∉ gather_links gm) as Hy by (intros Hy; by rewrite (Hf y Hy) in E).
    assert (alloc h2 y) as [nd2 E2] by (apply Ha2, Ha1, H0; by exists nd).
    exists nd2. by rewrite Hlook, bool_decide_false.
  - intros y [nd E]. rewrite Hlook in E. case_bool_decide; [done|]. left.
    destruct (gr_new _ _ _ _ _ _ H0 y) as [?|?]; [apply Ha1, Ha2; by exists nd|done|done].
  - intros y Hy Hc Hp. unfold prv. rewrite Hlook, bool_decide_false by done. apply Hn2; [intros ->; unfold gather_links in Hy; set_solver|].
    apply Hn1; [intros ->; unfold gather_links in Hy; set_solver|]. by apply H0.
  - done.
  - intros hd l0 y HL' Hy. right. by exists l0.
Qed.

End new_pool.

(** Memory [x_malloc] may return for [n] blocks of [step] bytes. *)
Definition region_for w (start step n : Z) : Prop :=
  0 < start /\ start + n * step < 2 ^ 32 /\ forall j, (j < Z.to_nat n)%nat -> is_Some (w !! (start + Z.of_nat j * step)).

Lemma wp_attach_gather k L l gm g w (Q : unit -> gm_state -> Prop) :
  rep (links k) L -> L !! ListHead CGather = Some l -> unlisted (gather_links gm) L -> alloc (links k) (ObjLink CGather gm) ->
  (forall h', rep h' (attach (ListHead CGather) (ObjLink CGather gm :: l) (ObjLink CGather gm) L) ->
     same_links (ObjLink CGather gm) (links k) h' -> Q tt (mkGmState (set_links h' k) g w)) ->
  wp (gm_do (klinks (DoubleLinkListInsertNodeAfter (ListHead CGather) (ObjLink CGather gm)))) Q (mkGmState k g w).
Proof.
  intros HR HL Hun Ha HQ. apply wp_gm_do, wp_klinks, (wp_DoubleLinkListInsertNodeAfter _ L (ListHead CGather) [] l); try done.
  by eapply unlisted_unlinked; [|apply gather_link].
Qed.

(** Creating a pool.  When [x_malloc] gives a region, the new pool is in the list of
    all pools, all its blocks are free, linked in the order of their addresses, and no
    task waits; otherwise nothing is left of it.  The size asked for is exact as long as
    it fits 32 bits. *)
Theorem CreateMemGather_correct k L I dl g w gm malloc nm n size l :
  kernel_ok k L I dl -> L !! ListHead CGather = Some l -> fresh_links (gather_links gm) (links k) -> g !! gm = None ->
  isr_count k = 0 -> 0 <= KTaskOsAssignLockNest k < 2 ^ 15 - 1 -> 1 <= n -> 1 <= size ->
  let one := ALIGN_MEN_UP size MEM_ALIGN_SIZE in let step := one + SIZEOF_PTR in
  n * step < 2 ^ 32 -> (forall start, malloc (n * step) = Some start -> region_for w start step n) ->
  wp (CreateMemGather (Some gm) malloc (Some nm) n size) (fun r s' => exists L', kernel_ok (gm_kernel s') L' I dl /\
    match malloc (n * step) with
    | Some start => r = Some gm /\ (exists x, gathers s' = <[gm := x]> g /\ one_block_size x = one /\
          pool_ok x (words s') gm (blocks_from start step 0 (Z.to_nat n)) []) /\
        L' !! PendList CGather gm = Some [] /\ L' !! ListHead CGather = Some (ObjLink CGather gm :: l)
    | None => r = None /\ gathers s' = g /\ words s' = w /\ L' = L
    end) (mkGmState k g w).
Proof.
  intros Hko HL Hf Eg Hisr Hnest Hn Hsize one step Hmax Hreg. pose proof (so_rep _ _ (ko_sched _ _ _ _ Hko)) as HR.
  pose proof (fresh_unlisted _ _ _ HR Hf) as Hun. pose proof (grows_zero CGather _ _ _ HR Hf) as Hz.
  unfold CreateMemGather. wp_steps. apply wp_gm_do, wp_KDEBUG_NOT_IN_INTERRUPT; [done|]. wp_steps. eapply wp_null_check; [done|].
  rewrite (proj2 (Z.leb_le 1 n)), (proj2 (Z.leb_le 1 size)) by done. cbn [andb]. wp_steps.
  apply wp_gm_do, wp_KDEBUG_NOT_IN_INTERRUPT; [done|]. wp_steps. unfold new_gather. wp_steps. apply wp_gm_do. wp_steps.
  eapply wp_gm_set; [apply lookup_insert_eq|]. wp_steps. eapply wp_gm_set; [apply lookup_insert_eq|]. wp_steps.
  rewrite !insert_insert_eq. set (kz := zero_links (gather_links gm) k).
  apply wp_gm_do, wp_CriticalAreaLock; [done|]. wp_steps.
  destruct (zeroed_null (gather_links gm) (links k) _ (gather_link gm)) as [Ha _].
  destruct (zeroed_null (gather_links gm) (links k) _ (gather_list gm)) as [Hap _].
  eapply (wp_attach_gather (locked kz) L l gm); [apply Hz|done|done|exact Ha|]. intros h1 HR1 Hs1. wp_steps.
  apply wp_gm_do, wp_CriticalAreaUnLock; [cbn; lia|].
  match goal with |- context [mkGmState ?s _ _] => assert (s = set_links h1 k) as -> end.
  { change (set_links h1 (unlocked (interrupts k) (locked k)) = set_links h1 k). by rewrite unlocked_locked. }
  wp_steps. destruct (ALIGN_MEN_UP_bounds size MEM_ALIGN_SIZE cfg_align ltac:(lia)) as (Hone & _ & _). fold one in Hone. fold one.
  unfold SIZEOF_PTR in *. rewrite (u32_small one), (u32_small (one + 4)), (u32_small ((one + 4) * n)) by nia.
  fold step. replace (step * n) with (n * step) by lia.
  eapply wp_gm_set; [apply lookup_insert_eq|]. wp_steps. rewrite insert_insert_eq.
  destruct (malloc (n * step)) as [start|] eqn:Em.
  - wp_steps. eapply wp_gm_set; [apply lookup_insert_eq|]. wp_steps. rewrite insert_insert_eq.
    destruct (Hreg start eq_refl) as (H0 & Hend & Hw).
    assert (prv h1 (PendList CGather gm) = None) as Hpn.
    { apply Hs1; [done|]. by apply (zeroed_null (gather_links gm) (links k) _ (gather_list gm)). }
    eapply (wp_build_blocks (set_links h1 k) _ _ w gm _ start (Z.to_nat n));
      [exact HR1|by eapply prv_None_unlinked|by apply Hs1|apply lookup_insert_eq|done|done|change (0 < one); lia|lia
      |change (n = Z.of_nat (Z.to_nat n)); lia|change (n = Z.of_nat (Z.to_nat n)); lia
      |change (start + Z.of_nat (Z.to_nat n) * step < 2 ^ 32); by rewrite Z2Nat.id by lia|done|].
    intros h2 x' w' HR2 Hs2 Eone Hp. wp_steps. rewrite insert_insert_eq.
    destruct (new_pool_ok k L I dl gm l _ h1 h2 Hko HL Hun Hz HR1 Hs1 HR2 Hs2) as (Hk2 & HLp & HLh).
    eexists. split; [exact Hk2|]. split; [done|]. split; [|by split]. exists x'. split_and!; [done|exact Eone|exact Hp].
  - wp_steps. eapply wp_gm_set; [apply lookup_insert_eq|]. wp_steps. rewrite insert_insert_eq. unfold unlink_gather. wp_steps.
    apply wp_gm_do, wp_CriticalAreaLock; [done|]. wp_steps.
    apply wp_gm_do, wp_klinks, (wp_DoubleLinkListRmNode _ _ _ _ HR1); [right; exists (ListHead CGather); eexists; split; [apply lookup_attach_eq|by left]|].
    intros h2 HR2 Hs2. wp_steps. apply wp_gm_do, wp_CriticalAreaUnLock; [cbn; lia|].
    match goal with |- context [mkGmState ?s _ _] => assert (s = set_links h2 k) as -> end.
    { change (set_links h2 (unlocked (interrupts k) (locked k)) = set_links h2 k). by rewrite unlocked_locked. }
    wp_steps. unfold free_gather. wp_steps. eapply wp_gm_get; [apply lookup_insert_eq|]. wp_steps. apply wp_gm_do. wp_steps.
    exists L. split; [by apply (dropped_pool_ok k L I dl gm l (zeroed (gather_links gm) (links k)) h1 h2)|].
    split_and!; [done| |done|done]. cbn. by rewrite delete_insert_id.
Qed.

End BlockPool.
