(* ===== verification/Interrupt.v ===== *)
(** * Interrupts: kernel/thread/isr.c and the entry of arch/arm/cortex-m3

    The table of handlers, their registration and dispatch, and [IsrEntry], which
    every exception of the Cortex-M3 vectors to.  The board's [SysTick_Handler] is
    the tick interrupt.

    A handler is the address of its code, 0 for NONE; what the code at an address
    does is the parameter [call]. *)

From S2P Require Import Prelude DoubleLink IdManager Bitmap Kernel ReadyVector Assign Delay Task.

(** ** The state *)

(** [struct IrqDesc]; [param] is the address handed to the handler. *)
Record IrqDesc : Type := mkIrqDesc { handler : Z; param : Z }.

(** A kernel with [isrManager.irq_table]; the counter and the switch flag of
    [isrManager] are fields of [kstate]. *)
Record isr_state : Type := mkIsrState { kernel : kstate; irq_table : list IrqDesc }.

Definition set_kernel (k : kstate) (s : isr_state) : isr_state := mkIsrState k (irq_table s).
Definition set_irq_table (tbl : list IrqDesc) (s : isr_state) : isr_state := mkIsrState (kernel s) tbl.

Definition in_kernel {A : Type} : M kstate A -> M isr_state A := zoom kernel set_kernel.

(** arch_interrupt.h of the Cortex-M3. *)
Definition ARCH_MAX_IRQ_NUM : Z := 256.
Definition SYSTICK_IRQN : Z := 15.

Definition no_irq : IrqDesc := mkIrqDesc 0 0.

Section Interrupt.
Context `{C : KConfig} `{D : PriorityReadyVectorDone}.

(** ** Registering handlers *)

Definition RegisterHwIrq (irq_num hdl arg : Z) : M isr_state Z :=
  if ARCH_MAX_IRQ_NUM <=? irq_num then mret (- ERROR)
  else
    modify (fun s => set_irq_table (<[Z.to_nat irq_num := mkIrqDesc hdl arg]> (irq_table s)) s);;
    mret EOK.

Definition FreeHwIrq (irq_num : Z) : M isr_state Z :=
  if ARCH_MAX_IRQ_NUM <=? irq_num then mret (- ERROR)
  else
    modify (fun s => set_irq_table (<[Z.to_nat irq_num := no_irq]> (irq_table s)) s);;
    mret EOK.

Definition ArchEnableHwIrq (irq_num : Z) : M isr_state Z := mret EOK.
Definition ArchDisableHwIrq (irq_num : Z) : M isr_state Z := mret EOK.

Definition EnableHwIrq (irq_num : Z) : M isr_state Z :=
  if ARCH_MAX_IRQ_NUM <=? irq_num then mret (- ERROR) else ArchEnableHwIrq irq_num.
Definition DisableHwIrq (irq_num : Z) : M isr_state Z :=
  if ARCH_MAX_IRQ_NUM <=? irq_num then mret (- ERROR) else ArchDisableHwIrq irq_num.

(** The table is cleared, then filled with what [DECLARE_HW_IRQ] put into the
    sections [.isrtbl.idx] and [.isrtbl]; an index outside of the table writes
    outside of it. *)
Fixpoint declare_irqs (isrtbl : list (Z * IrqDesc)) : M isr_state unit :=
  match isrtbl with
  | [] => mret tt
  | (index, desc) :: isrtbl =>
      s ← get;
      deref (irq_table s !! Z.to_nat index);;
      modify (fun s => set_irq_table (<[Z.to_nat index := desc]> (irq_table s)) s);;
      declare_irqs isrtbl
  end.

Definition SysInitIsrManager (isrtbl : list (Z * IrqDesc)) : M isr_state unit :=
  modify (fun s => mkIsrState (set_isr_count 0 (set_isr_switch_trigger_flag 0 (kernel s)))
                     (replicate (Z.to_nat ARCH_MAX_IRQ_NUM) no_irq));;
  declare_irqs isrtbl.

(** ** Dispatch *)

Section dispatch.
(** The code at an address, applied to [vector] and [param]. *)
Variable call : Z -> Z -> Z -> M isr_state unit.

Definition IsrCommon (irq_num : Z) : M isr_state unit :=
  s ← get;
  desc ← deref (irq_table s !! Z.to_nat irq_num);
  if handler desc =? 0 then hang else call (handler desc) (s32 irq_num) (param desc).

(** [ipsr] is what the register holds: the number of the exception. *)
Definition IsrEntry (ipsr : Z) : M isr_state unit :=
  in_kernel IncIsrCounter;;
  IsrCommon ipsr;;
  in_kernel KTaskOsAssignAfterIrq;;
  in_kernel DecIsrCounter.

Definition SysTick_Handler (irqn arg : Z) : M isr_state unit := in_kernel TickAndTaskTimesliceUpdate.

(** ** Rules *)

Lemma wp_in_kernel {A : Type} (m : M kstate A) (Q : A -> isr_state -> Prop) s :
  wp m (fun a k => Q a (set_kernel k s)) (kernel s) -> wp (in_kernel m) Q s.
Proof. apply wp_zoom. Qed.

(** An interrupt whose handler only works on the kernel. *)
Lemma wp_IsrEntry irq h arg (m : M kstate unit) (Q : unit -> isr_state -> Prop) s :
  irq_table s !! Z.to_nat irq = Some (mkIrqDesc h arg) -> h <> 0 ->
  (forall v p, call h v p = in_kernel m) -> 0 <= isr_count (kernel s) < 2 ^ 16 - 1 ->
  wp m (fun _ k => wp KTaskOsAssignAfterIrq
          (fun _ k' => Q tt (set_kernel (set_isr_count (u16 (isr_count k' - 1)) k') s)) k)
     (set_isr_count (isr_count (kernel s) + 1) (kernel s)) ->
  wp (IsrEntry irq) Q s.
Proof.
  intros Et Hh Hcall Hc Hwp. unfold IsrEntry, IsrCommon. wp_steps.
  apply wp_in_kernel. unfold IncIsrCounter. wp_steps. rewrite u16_small by lia.
  change (irq_table (set_kernel ?k s)) with (irq_table s). rewrite Et. wp_steps. cbn [handler param].
  rewrite (proj2 (Z.eqb_neq _ _) Hh), Hcall. apply wp_in_kernel. cbn [kernel set_kernel].
  eapply wp_mono; [exact Hwp|]. intros [] k Hk. wp_steps. apply wp_in_kernel.
  eapply wp_mono; [exact Hk|]. intros [] k' HQ. wp_steps. apply wp_in_kernel. unfold DecIsrCounter. wp_steps. exact HQ.
Qed.

(** ** The table *)

(** The table of handlers.  A registered handler is what the dispatch calls,
    with the number of the interrupt and the registered argument, and no other
    interrupt is affected; after it was freed the interrupt is spurious and spins,
    and freeing what was registered for an unused interrupt restores the state.
    Numbers from [ARCH_MAX_IRQ_NUM] on are refused without an effect; dispatching
    one reads outside of the table. *)
Theorem RegisterHwIrq_dispatches irq h arg s :
  0 <= irq < 2 ^ 32 -> length (irq_table s) = Z.to_nat ARCH_MAX_IRQ_NUM -> h <> 0 ->
  if ARCH_MAX_IRQ_NUM <=? irq
  then RegisterHwIrq irq h arg s = Ret (- ERROR) s /\ FreeHwIrq irq s = Ret (- ERROR) s /\ IsrCommon irq s = Fault
  else exists s1 s2,
    RegisterHwIrq irq h arg s = Ret EOK s1 /\ IsrCommon irq s1 = call h irq arg s1 /\
    FreeHwIrq irq s1 = Ret EOK s2 /\ IsrCommon irq s2 = Hang /\
    (irq_table s !! Z.to_nat irq = Some no_irq -> s2 = s) /\
    kernel s1 = kernel s /\ kernel s2 = kernel s /\
    (forall j, j <> Z.to_nat irq -> irq_table s1 !! j = irq_table s !! j /\ irq_table s2 !! j = irq_table s !! j).
Proof.
  intros Hirq Hlen Hh. unfold RegisterHwIrq, FreeHwIrq. destruct (Z.leb_spec ARCH_MAX_IRQ_NUM irq) as [Hi|Hi].
  - split_and!; [done..|]. unfold IsrCommon, mbind, M_bind, get.
    rewrite lookup_ge_None_2 by (rewrite Hlen; unfold ARCH_MAX_IRQ_NUM in *; lia). done.
  - assert (Z.to_nat irq < length (irq_table s))%nat as Hl by (rewrite Hlen; unfold ARCH_MAX_IRQ_NUM in *; lia).
    eexists _, _. split; [reflexivity|]. split; [|split; [reflexivity|split; [|split; [|split_and!]]]]; try done.
    + unfold IsrCommon, mbind, M_bind, get. cbn [irq_table set_irq_table].
      rewrite list_lookup_insert_eq by done. cbn. rewrite (proj2 (Z.eqb_neq _ _) Hh).
      by rewrite s32_small by (unfold ARCH_MAX_IRQ_NUM in *; lia).
    + unfold IsrCommon, mbind, M_bind, get. cbn [irq_table set_irq_table].
      by rewrite list_lookup_insert_eq by (by rewrite length_insert).
    + intros E. cbn [irq_table set_irq_table kernel]. rewrite list_insert_insert_eq, list_insert_id by done. by destruct s.
    + intros j Hj. cbn [irq_table set_irq_table]. by rewrite !list_lookup_insert_ne by done.
Qed.

End dispatch.
End Interrupt.
