(* ===== verification/Ticks.v ===== *)
(** * The tick interrupt as a whole, and sleeping

    One tick from the vector to the return: the counter is advanced, the time
    slice of the current task is charged, due delays expire and a switch that
    became due happens.  [steady] is the invariant between interrupts.  From it the
    file proves that a task that sleeps is woken on time in every history of ticks
    and other activity. *)

From S2P Require Import Prelude DoubleLink IdManager Bitmap Kernel ReadyVector Assign Delay Task TaskInv Deadlines Interrupt.

Section Ticks.
Context `{C : KConfig} `{D : PriorityReadyVectorDone}.
Context `{CO : !KConfigOk C} `{DL : !ReadyVectorLaws D}.
Implicit Types (k : kstate) (L : gmap link (list link)) (I : gmap Z link) (dl : list ptr).

(** ** The time slice *)

(** Descriptors that differ in what the scheduling policies count. *)
Definition sliced (td td' : TaskDescriptor) : Prop :=
  exists rest adv, td' = set_rest_timeslice rest (set_advance_cnt adv td).

Lemma sliced_refl td : sliced td td.
Proof. exists (rest_timeslice td), (advance_cnt td). by destruct td. Qed.

Lemma sliced_rest td td' rest : sliced td td' -> sliced td (set_rest_timeslice rest td').
Proof. intros (r & a & ->). by exists rest, a. Qed.

Lemma sliced_advance td td' adv : sliced td td' -> sliced td (set_advance_cnt adv td').
Proof. intros (r & a & ->). by exists r, adv. Qed.

Lemma sliced_same_sched td td' : sliced td td' -> same_sched td td'.
Proof. by intros (r & a & ->). Qed.

Lemma sliced_time_out td td' : sliced td td' -> sliced (time_out td) (time_out td').
Proof.
  intros (r & a & ->). unfold time_out. change (stat_of (set_rest_timeslice r (set_advance_cnt a td))) with (stat_of td).
  destruct (stat_of td =? KTASK_SUSPEND); by exists r, a.
Qed.

Create HintDb slices.
#[local] Hint Resolve sliced_refl sliced_rest sliced_advance : slices.

(** What charging the time slice may change. *)
Record slice_step k k' : Prop := {
  sl_core : tick_core k' = tick_core k;
  sl_delays : delays k' = delays k;
  sl_tasks : forall t td, tasks k !! t = Some td -> exists td', tasks k' !! t = Some td' /\ sliced td td';
  sl_flag : isr_switch_trigger_flag k <> 0 -> isr_switch_trigger_flag k' <> 0;
}.

Lemma charged_ok k L I dl c td td' :
  kernel_ok k L I dl -> tasks k !! c = Some td -> sliced td td' ->
  kernel_ok (set_tasks (<[c := td']> (tasks k)) k) L I dl /\ slice_step k (set_tasks (<[c := td']> (tasks k)) k).
Proof.
  intros Hko Ec Hs. split; [by eapply kernel_ok_update; [..|apply sliced_same_sched]|]. split; [done|done| |done].
  intros t tdt Et. cbn. destruct (decide (t = c)) as [->|Hne].
  - exists td'. rewrite lookup_insert_eq. split; [done|]. by rewrite Ec in Et; injection Et as <-.
  - exists tdt. rewrite lookup_insert_ne by done. auto with slices.
Qed.

(** The end of the round-robin policies: the slice is renewed and a switch asked for. *)
Lemma wp_slice_end k L I dl c td td' (Q : unit -> kstate -> Prop) :
  kernel_ok k L I dl -> tasks k !! c = Some td -> sliced td td' ->
  KTaskOsAssignLockNest k = 0 -> isr_count k <> 0 ->
  (forall k', kernel_ok k' L I dl -> slice_step k k' -> Q tt k') ->
  wp (task_set c (fun td => set_rest_timeslice (origin_timeslice td) td);; DO_KTASK_ASSIGN) Q
     (set_tasks (<[c := td']> (tasks k)) k).
Proof.
  intros Hko Ec Hs Hn Hi HQ. wp_steps. eapply wp_task_set; [apply lookup_insert_eq|].
  cbn [tasks set_tasks]. rewrite insert_insert_eq. wp_steps.
  destruct (charged_ok k L I dl c td (set_rest_timeslice (origin_timeslice td') td') Hko Ec) as [Hko' Hst]; [auto with slices|].
  apply wp_DO_KTASK_ASSIGN_isr; [done|done|]. apply HQ; [by eapply kernel_ok_fields|].
  destruct Hst. by split.
Qed.

Lemma wp_timeslice k L I dl c (Q : unit -> kstate -> Prop) :
  kernel_ok k L I dl -> os_running_task k = Some c -> KTaskOsAssignLockNest k = 0 -> isr_count k <> 0 ->
  (forall k', kernel_ok k' L I dl -> slice_step k k' -> Q tt k') ->
  wp (match sched_policy with
      | SCHED_POLICY_FIFO => FifoTaskTimesliceUpdate
      | SCHED_POLICY_RR => task ← GetKTaskDescriptor; RoundRobinTaskTimesliceUpdate task
      | SCHED_POLICY_RR_REMAINSLICE => task ← GetKTaskDescriptor; RoundRobinRemainTaskTimesliceUpdate task
      end) Q k.
Proof.
  intros Hko Hc Hn Hi HQ. destruct (so_current _ _ (ko_sched _ _ _ _ Hko) _ Hc) as [td Ec].
  set (td1 := set_rest_timeslice (u32 (rest_timeslice td - 1)) td).
  assert (sliced td td1) as Hs1 by (unfold td1; auto with slices).
  destruct sched_policy.
  - apply wp_ret, HQ; [done|]. split; try done. intros t tdt Et. exists tdt. auto with slices.
  - wp_steps. apply wp_GetKTaskDescriptor; [lia|]. rewrite Hc. unfold RoundRobinTaskTimesliceUpdate.
    wp_steps. eapply wp_null_check; [done|]. wp_steps. eapply wp_task_set; [exact Ec|]. fold td1. wp_steps. eapply wp_task_get; [apply lookup_insert_eq|].
    destruct (_ =? 0); [by eapply wp_slice_end|]. apply wp_ret.
    destruct (charged_ok k L I dl c td td1 Hko Ec Hs1). by apply HQ.
  - wp_steps. apply wp_GetKTaskDescriptor; [lia|]. rewrite Hc. unfold RoundRobinRemainTaskTimesliceUpdate.
    wp_steps. eapply wp_null_check; [done|]. wp_steps. eapply wp_task_set; [exact Ec|]. fold td1. wp_steps. eapply wp_task_get; [apply lookup_insert_eq|].
    destruct (_ =? 0).
    + wp_steps. eapply wp_task_get; [apply lookup_insert_eq|]. destruct (_ <? _); wp_steps.
      * eapply wp_task_set; [apply lookup_insert_eq|]. cbn [tasks set_tasks]. rewrite insert_insert_eq.
        match goal with |- wp _ _ (set_tasks ?ts _) => change (set_tasks ts _) with (set_tasks ts k) end.
        eapply (wp_slice_end k L I dl c td); [done|done| |done..]. auto with slices.
      * apply wp_unbind. by eapply wp_slice_end.
    + apply wp_ret. destruct (charged_ok k L I dl c td td1 Hko Ec Hs1). by apply HQ.
Qed.

(** ** The handler *)

(** No deadline lies in the past or more than half the range of the counter
    ahead, and none wrapped around. *)
Definition ahead (now : Z) (ds : gmap ptr Delay) dl : Prop := forall d, d ∈ dl ->
  now <= deadline ds d < 2 ^ 32 /\ deadline ds d - now <= 2 ^ 31.

Definition at_tick (now : Z) (k : kstate) : kstate := set_heartbeat_ticks now k.

Lemma wp_TickAndTaskTimesliceUpdate k L I dl c (Q : unit -> kstate -> Prop) :
  kernel_ok k L I dl -> by_deadline (delays k) dl -> os_running_task k = Some c ->
  KTaskOsAssignLockNest k = 0 -> isr_count k <> 0 ->
  0 <= heartbeat_ticks k -> heartbeat_ticks k + 1 < 2 ^ 32 -> ahead (heartbeat_ticks k) (delays k) dl ->
  let now := heartbeat_ticks k + 1 in
  (forall k' L' due rest, dl = due ++ rest ->
     (forall d, d ∈ due -> deadline (delays k) d <= now) -> (forall d, d ∈ rest -> now < deadline (delays k) d) ->
     kernel_ok k' L' I rest -> same_delays (delays k) (delays k') -> tick_core k' = tick_core (at_tick now k) ->
     (forall t td, tasks k !! t = Some td -> exists td', tasks k' !! t = Some td' /\
        sliced (if among (delay td) due then time_out td else td) td') ->
     (isr_switch_trigger_flag k <> 0 \/ Exists (wakes (delays k) (tasks k)) due -> isr_switch_trigger_flag k' <> 0) ->
     Q tt k') ->
  wp TickAndTaskTimesliceUpdate Q k.
Proof.
  intros Hko Hby Hc Hn Hi H0 H1 Hah now HQ. unfold TickAndTaskTimesliceUpdate, UPDATE_GLOBAL_HEARTBEAT.
  wp_steps. rewrite u32_small by lia. fold now. fold (at_tick now k).
  eapply (wp_timeslice (at_tick now k) L I dl c); [by eapply kernel_ok_fields|done..|].
  intros k1 Hko1 [Hcore Hdel Hts Hfl]. wp_steps. change (delays (at_tick now k)) with (delays k) in Hdel.
  assert (heartbeat_ticks k1 = now /\ KTaskOsAssignLockNest k1 = 0 /\ isr_count k1 <> 0) as (Enow & En & Ei).
  { change (heartbeat_ticks (tick_core k1) = now /\ KTaskOsAssignLockNest (tick_core k1) = 0 /\ isr_count (tick_core k1) <> 0).
    by rewrite Hcore. }
  eapply (wp_CheckTaskDelay k1 L I dl); rewrite ?Hdel, ?Enow; [done|done| |done|done|].
  { unfold in_range. rewrite Hdel, Enow. split; [lia|]. intros d Hd. specialize (Hah d Hd). lia. }
  intros k2 L2 due rest Edl Hdue Hrest Hko2 Hs2 Hcore2 Ets2 Hfl2. apply (HQ k2 L2 due rest Edl); try done.
  - by rewrite Hcore2, Hcore.
  - intros t td Et. destruct (Hts t td Et) as (td1 & Et1 & Hs1). rewrite (Ets2 t td1 Et1). eexists. split; [done|].
    rewrite (ss_delay _ _ (sliced_same_sched _ _ Hs1)). destruct (among _ _); [by apply sliced_time_out|done].
  - intros [Hf|Hex]; apply Hfl2; [left; by apply Hfl|right]. eapply Exists_impl; [exact Hex|].
    intros d (x & td & Ex & Et & Hst). destruct (Hts _ _ Et) as (td1 & Et1 & Hs1). exists x, td1.
    split_and!; [done|done|]. by rewrite (ss_stat _ _ (sliced_same_sched _ _ Hs1)).
Qed.

(** ** From the vector to the return *)

(** Between interrupts and outside of critical areas. *)
Record steady k L I dl : Prop := {
  sd_kernel : kernel_ok k L I dl;
  sd_sorted : by_deadline (delays k) dl;
  sd_now : 0 <= heartbeat_ticks k;
  sd_ahead : ahead (heartbeat_ticks k) (delays k) dl;
  sd_nest : KTaskOsAssignLockNest k = 0;
  sd_isr : isr_count k = 0;
  sd_running : exists c td, os_running_task k = Some c /\ tasks k !! c = Some td /\ stat_of td = KTASK_RUNNING;
}.

(** What a tick makes of a descriptor when the delays [due] expire: the switch at
    its end may make the task RUNNING, or READY instead of RUNNING. *)
Definition ticked (due : list ptr) (td td' : TaskDescriptor) : Prop :=
  exists td1, sliced (if among (delay td) due then time_out td else td) td1 /\
    td' = set_stat (stat td') td1 /\ (td' = td1 \/ stat_of td' = KTASK_READY \/ stat_of td' = KTASK_RUNNING).

Lemma wp_KTaskOsAssignAfterIrq k L I dl c td (Q : unit -> kstate -> Prop) :
  kernel_ok k L I dl -> os_running_task k = Some c -> tasks k !! c = Some td -> stat_of td = KTASK_RUNNING ->
  KTaskOsAssignLockNest k = 0 ->
  (forall k' L', kernel_ok k' L' I dl -> sched_frame (set_isr_switch_trigger_flag 0 k) L k' L' ->
     (isr_switch_trigger_flag k <> 0 -> runs_highest k') -> bystanders_kept k k' ->
     (exists c' td', os_running_task k' = Some c' /\ tasks k' !! c' = Some td' /\ stat_of td' = KTASK_RUNNING) -> Q tt k') ->
  wp KTaskOsAssignAfterIrq Q k.
Proof.
  intros Hko Hc Ec Hst Hn HQ. unfold KTaskOsAssignAfterIrq, DISABLE_INTERRUPT, ENABLE_INTERRUPT. wp_steps.
  set (k0 := set_interrupts false k).
  assert (kernel_ok k0 L I dl) as Hko0 by by eapply kernel_ok_fields.
  apply (wp_KTaskOsAssignDoIrqSwitch k0 L c); [apply Hko0|done|done|intros _; right; by exists c, td|].
  intros k1 L1 Hk1 Hfr1 Hz1 Hr1 Hn1. wp_steps.
  assert (kernel_ok k1 L1 I dl) as Hko1.
  { eapply (kernel_ok_sched (set_isr_switch_trigger_flag 0 k0) L); [by eapply kernel_ok_fields|done|done]. }
  destruct Hn1 as [_ Hby]. eapply (HQ _ L1).
  - by eapply kernel_ok_fields.
  - destruct Hfr1 as [HR HT HS HA HN HF HM]. split; [|done..].
    change (set_interrupts (interrupts k) (rest k1) = rest (set_isr_switch_trigger_flag 0 k)). rewrite HR. by destruct k.
  - exact Hr1.
  - exact Hby.
  - destruct (decide (isr_switch_trigger_flag k = 0)) as [E|E].
    + rewrite (Hz1 E). by exists c, td.
    + destruct (Hr1 E) as (c' & td' & ? & ? & ? & _). by exists c', td'.
Qed.

(** The state of the kernel when the handler is left. *)
Lemma wp_tick k L I dl (Q : unit -> kstate -> Prop) :
  steady k L I dl -> heartbeat_ticks k + 1 < 2 ^ 32 ->
  let now := heartbeat_ticks k + 1 in
  (forall k' L' due rest, dl = due ++ rest ->
     (forall d, d ∈ due -> deadline (delays k) d <= now) -> (forall d, d ∈ rest -> now < deadline (delays k) d) ->
     steady k' L' I rest -> same_delays (delays k) (delays k') -> heartbeat_ticks k' = now ->
     (forall t td, tasks k !! t = Some td -> exists td', tasks k' !! t = Some td' /\ ticked due td td' /\
        (stat_of td = KTASK_SUSPEND -> among (delay td) due = false -> sliced td td')) ->
     (Exists (wakes (delays k) (tasks k)) due -> runs_highest k') -> Q tt k') ->
  wp TickAndTaskTimesliceUpdate (fun _ k1 =>
    wp KTaskOsAssignAfterIrq (fun _ k' => Q tt (set_isr_count (u16 (isr_count k' - 1)) k')) k1)
    (set_isr_count (isr_count k + 1) k).
Proof.
  intros [Hko Hby H0 Hah Hn Hi (c & tdc & Hc & Ec & Hstc)] Hmax now HQ. rewrite Hi.
  set (k0 := set_isr_count (0 + 1) k).
  eapply (wp_TickAndTaskTimesliceUpdate k0 L I dl c); [by eapply kernel_ok_fields|done..|].
  change (heartbeat_ticks k0) with (heartbeat_ticks k). change (delays k0) with (delays k).
  change (tasks k0) with (tasks k). fold now.
  intros k1 L1 due rest Edl Hdue Hrest Hko1 Hs1 Hcore1 Ets1 Hfl1.
  assert (heartbeat_ticks k1 = now /\ KTaskOsAssignLockNest k1 = 0 /\ isr_count k1 = 1 /\ os_running_task k1 = Some c)
    as (Enow & En & Ei & Ec1).
  { change (heartbeat_ticks (tick_core k1) = now /\ KTaskOsAssignLockNest (tick_core k1) = 0 /\
      isr_count (tick_core k1) = 1 /\ os_running_task (tick_core k1) = Some c). by rewrite Hcore1. }
  destruct (Ets1 c tdc Ec) as (tdc1 & Etc1 & Hsc).
  assert ((if among (delay tdc) due then time_out tdc else tdc) = tdc) as Etdc.
  { unfold time_out. rewrite Hstc. by destruct (among _ _). }
  rewrite Etdc in Hsc.
  eapply (wp_KTaskOsAssignAfterIrq k1 L1 I rest c tdc1); [done|done|done| |done|].
  { by rewrite (ss_stat _ _ (sliced_same_sched _ _ Hsc)). }
  intros k2 L2 Hko2 Hfr Hr Hkept Hrun.
  assert (delays k2 = delays k1 /\ heartbeat_ticks k2 = now /\ KTaskOsAssignLockNest k2 = 0 /\ isr_count k2 = 1)
    as (Ed2 & Enow2 & En2 & Ei2).
  { change (delays (Assign.rest k2) = delays k1 /\ heartbeat_ticks (Assign.rest k2) = now /\
      KTaskOsAssignLockNest (Assign.rest k2) = 0 /\ isr_count (Assign.rest k2) = 1). by rewrite (fr_rest _ _ _ _ Hfr). }
  rewrite Ei2. apply (HQ _ L2 due rest Edl Hdue Hrest).
  - assert (forall d, deadline (delays k2) d = deadline (delays k) d) as Edd
      by (intros d; rewrite Ed2; by apply same_delays_deadline).
    split; [by eapply kernel_ok_fields| |cbn; lia| |done|done|exact Hrun].
    + apply (sorted_by_ext (deadline (delays k))); [intros; apply Edd|]. subst dl. by apply sorted_by_app in Hby.
    + intros d Hd. cbn. rewrite Edd, Enow2. specialize (Hrest d Hd).
      destruct (Hah d) as [? ?]; [subst dl; apply elem_of_app; by right|]. unfold now in *. lia.
  - change (same_delays (delays k) (delays k2)). by rewrite Ed2.
  - done.
  - intros t td Et. destruct (Ets1 t td Et) as (td1 & Et1 & Hsl). pose proof (fr_tasks _ _ _ _ Hfr t) as Ht.
    change (tasks (set_isr_switch_trigger_flag 0 k1) !! t) with (tasks k1 !! t) in Ht. rewrite Et1 in Ht.
    destruct (tasks k2 !! t) as [td2|] eqn:Et2; [|done]. exists td2. split; [exact Et2|]. split.
    + exists td1. split_and!; [done|done|]. by eapply (fr_stat _ _ _ _ Hfr t).
    + intros Hst Ham. rewrite Ham in Hsl. rewrite (Hkept t td1 Et1) in Et2; [by injection Et2 as <-|..].
      * by rewrite (ss_stat _ _ (sliced_same_sched _ _ Hsl)), Hst.
      * by rewrite (ss_stat _ _ (sliced_same_sched _ _ Hsl)), Hst.
  - intros Hex. apply Hr, Hfl1. by right.
Qed.

(** ** Sleeping *)

(** The task [t] is suspended and its active delay ends at [T]. *)
Definition asleep (k : kstate) dl (t : ptr) (T : Z) : Prop :=
  exists td d, tasks k !! t = Some td /\ stat_of td = KTASK_SUSPEND /\ delay td = Some d /\
    d ∈ dl /\ deadline (delays k) d = T.

(** [t] was woken by the end of its delay. *)
Definition timed_out (k : kstate) (t : ptr) : Prop :=
  exists td, tasks k !! t = Some td /\ exstatus td = - ETIMEOUT /\
    (stat_of td = KTASK_READY \/ stat_of td = KTASK_RUNNING).

Lemma ticked_times_out due td td' d :
  stat_of td = KTASK_SUSPEND -> delay td = Some d -> d ∈ due -> ticked due td td' ->
  exstatus td' = - ETIMEOUT /\ (stat_of td' = KTASK_READY \/ stat_of td' = KTASK_RUNNING).
Proof.
  intros Hst Ed Hd (td1 & (r & a & Hsl) & Etd' & Hor). unfold among in Hsl. rewrite Ed, bool_decide_true in Hsl by done.
  unfold time_out in Hsl. rewrite Hst in Hsl. change (KTASK_SUSPEND =? KTASK_SUSPEND) with true in Hsl. cbv iota in Hsl.
  subst td1. split; [by rewrite Etd'|]. destruct Hor as [->|?]; [left|done]. by apply stat_of_as_stat.
Qed.

(** One tick: the task sleeps on, or this tick is its deadline and wakes it. *)
Lemma wp_tick_asleep k L I dl t T (Q : unit -> kstate -> Prop) :
  steady k L I dl -> asleep k dl t T -> heartbeat_ticks k < T ->
  (forall k' L' dl', steady k' L' I dl' -> heartbeat_ticks k' = heartbeat_ticks k + 1 ->
     (heartbeat_ticks k' < T -> asleep k' dl' t T) ->
     (heartbeat_ticks k' = T -> timed_out k' t /\ runs_highest k') -> Q tt k') ->
  wp TickAndTaskTimesliceUpdate (fun _ k1 =>
    wp KTaskOsAssignAfterIrq (fun _ k' => Q tt (set_isr_count (u16 (isr_count k' - 1)) k')) k1)
    (set_isr_count (isr_count k + 1) k).
Proof.
  intros Hsd (td & d & Et & Hst & Ed & Hd & HT) Hlt HQ.
  destruct (sd_ahead _ _ _ _ Hsd d Hd) as [Hb _]. eapply (wp_tick k L I dl); [done|lia|].
  intros k' L' due rest Edl Hdue Hrest Hsd' Hdel Enow Hts Hex.
  destruct (Hts t td Et) as (td' & Et' & Htk & Hsl). apply (HQ k' L' rest); [done|done|intros Hlt'|intros HT'].
  - assert (d ∉ due) as Hnd by (intros Hin; specialize (Hdue d Hin); lia).
    exists td', d. destruct Hsl as (r & a & ->); [done|unfold among; by rewrite Ed, bool_decide_false|].
    split_and!; [done..| |by rewrite (same_delays_deadline (delays k))].
    subst dl. apply elem_of_app in Hd as [?|?]; done.
  - assert (d ∈ due) as Hin.
    { subst dl. apply elem_of_app in Hd as [?|Hd]; [done|]. specialize (Hrest d Hd). lia. }
    split; [exists td'; split; [done|by eapply ticked_times_out]|]. apply Hex, Exists_exists. exists d. split; [done|].
    destruct (do_task _ _ _ (ko_delays _ _ _ _ (sd_kernel _ _ _ _ Hsd)) t td d Et Ed) as (x & Ex & <- & _). by exists x, td.
Qed.

(** ** Histories *)

Section history.
(** The tick interrupt has the board's handler. *)
Context (call : Z -> Z -> Z -> M isr_state unit) (systick arg : Z) (Hnone : systick <> 0)
  (Hcall : forall vector par, call systick vector par = SysTick_Handler vector par).

(** A tick, or anything else that the tasks and other interrupts do. *)
Inductive activity : Type := Tick | Other (m : M isr_state unit).

Fixpoint run (h : list activity) : M isr_state unit :=
  match h with
  | [] => mret tt
  | Tick :: h => IsrEntry call SYSTICK_IRQN;; run h
  | Other m :: h => m;; run h
  end.

Fixpoint ticks (h : list activity) : Z :=
  match h with [] => 0 | Tick :: h => ticks h + 1 | Other _ :: h => ticks h end.

Definition sleeping I (t : ptr) (T : Z) (s : isr_state) : Prop :=
  (exists L dl, steady (kernel s) L I dl /\ asleep (kernel s) dl t T) /\
  irq_table s !! Z.to_nat SYSTICK_IRQN = Some (mkIrqDesc systick arg).

(** The other activity keeps the invariants, leaves the sleeping task alone and does
    not touch the clock. *)
Definition undisturbing I (t : ptr) (T : Z) (a : activity) : Prop :=
  match a with
  | Tick => True
  | Other m => forall s, sleeping I t T s ->
      wp m (fun _ s' => sleeping I t T s' /\ heartbeat_ticks (kernel s') = heartbeat_ticks (kernel s)) s
  end.

Lemma run_app h1 h2 s : run (h1 ++ h2) s = (run h1;; run h2) s.
Proof.
  revert s. induction h1 as [|[|m] h1 IH]; intros s; [done|..]; cbn [run app]; unfold mbind, M_bind in *.
  - destruct (IsrEntry call SYSTICK_IRQN s); [apply IH|done..].
  - destruct (m s); [apply IH|done..].
Qed.

Lemma ticks_nonneg h : 0 <= ticks h.
Proof. induction h as [|[] h IH]; cbn; lia. Qed.

Lemma wp_one_tick I t T s (Q : unit -> isr_state -> Prop) :
  sleeping I t T s -> heartbeat_ticks (kernel s) < T ->
  (forall s', heartbeat_ticks (kernel s') = heartbeat_ticks (kernel s) + 1 ->
     (heartbeat_ticks (kernel s') < T -> sleeping I t T s') ->
     (heartbeat_ticks (kernel s') = T -> timed_out (kernel s') t /\ runs_highest (kernel s')) -> Q tt s') ->
  wp (IsrEntry call SYSTICK_IRQN) Q s.
Proof.
  intros [(L & dl & Hsd & Ha) Htbl] Hlt HQ.
  eapply wp_IsrEntry; [exact Htbl|done|exact (fun v p => Hcall v p)|rewrite (sd_isr _ _ _ _ Hsd); lia|].
  eapply (wp_tick_asleep _ L I dl t T (fun _ k' => Q tt (set_kernel k' s))); [done..|].
  intros k' L' dl' Hsd' Enow Hs Ht. apply HQ; [done| |done]. intros Hlt'. split; [exists L', dl'; auto|done].
Qed.

Lemma wp_run_asleep I t T h s :
  sleeping I t T s -> Forall (undisturbing I t T) h -> heartbeat_ticks (kernel s) + ticks h < T ->
  wp (run h) (fun _ s' => sleeping I t T s' /\ heartbeat_ticks (kernel s') = heartbeat_ticks (kernel s) + ticks h) s.
Proof.
  revert s. induction h as [|a h IH]; intros s Hs Hh Hlt; [by apply wp_ret; rewrite Z.add_0_r|].
  apply Forall_cons in Hh as [Ha Hh]. pose proof (ticks_nonneg h). destruct a as [|m]; cbn [run ticks] in *; wp_steps.
  - eapply wp_one_tick; [done|lia|]. intros s' Enow Hs' _. eapply wp_mono; [apply IH; [apply Hs'; lia|done|lia]|].
    intros _ s2 [Hs2 ->]. split; [done|lia].
  - eapply wp_mono; [by apply Ha|]. intros _ s' [Hs' Enow]. eapply wp_mono; [apply IH; [done|done|lia]|].
    intros _ s2 [Hs2 ->]. split; [done|lia].
Qed.

(** The tick that reaches the deadline. *)
Lemma wp_run_wakes I t T h s :
  sleeping I t T s -> Forall (undisturbing I t T) h -> heartbeat_ticks (kernel s) + ticks h + 1 = T ->
  wp (run (h ++ [Tick])) (fun _ s' =>
    heartbeat_ticks (kernel s') = T /\ timed_out (kernel s') t /\ runs_highest (kernel s')) s.
Proof.
  intros Hs Hh HT. unfold wp. rewrite run_app. apply wp_bind.
  eapply wp_mono; [apply (wp_run_asleep I t T h s Hs Hh); lia|]. intros _ s' [Hs' Enow].
  cbn [run]. wp_steps. eapply wp_one_tick; [done|lia|]. intros s2 Enow2 _ Ht. wp_steps.
  split; [lia|]. apply Ht. lia.
Qed.

End history.
End Ticks.
