(* ===== verification/Sleep.v ===== *)
(** * Going to sleep, and other activity while a task sleeps

    [_DelayKTask] and [MdelayKTask] of ktask.c from the call to the switch: they
    establish the sleeping state whose end Ticks.v is about.  Waking other tasks is an
    activity that does not disturb a sleeping task. *)

From S2P Require Import Prelude DoubleLink IdManager Bitmap Kernel ReadyVector Assign Delay Task TaskInv Deadlines PendList Waiting Interrupt Ticks.

Section Sleep.
Context `{C : KConfig} `{D : PriorityReadyVectorDone}.
Context `{CO : !KConfigOk C} `{DL : !ReadyVectorLaws D}.
Implicit Types (k : kstate) (L : gmap link (list link)) (I : gmap Z link) (dl : list ptr).

(** ** Suspending by identifier inside of the call *)

Lemma wp_suspend_current {A : Type} k L I dl t td (f : Z -> M kstate A) (Q : A -> kstate -> Prop) :
  kernel_ok k L I dl -> os_running_task k = Some t -> tasks k !! t = Some td -> stat_of td = KTASK_RUNNING ->
  0 <= KTaskOsAssignLockNest k < 2 ^ 15 - 2 ->
  (forall k' L', kernel_ok k' L' I (unset td dl) -> quiet k k' ->
     tasks k' = <[t := as_stat KTASK_SUSPEND td]> (tasks k) -> wp (f EOK) Q k') ->
  wp (id ← task_id t; SuspendKTask id ≫= f) Q k.
Proof.
  intros Hko Hc Et Hst Hn HQ. wp_steps. eapply wp_task_id; [done|by eexists|]. intros id Hid. wp_steps.
  unfold SuspendKTask. eapply wp_by_id; [done|done|lia|]. eapply wp__SuspendKTask; [done..|by right|done|].
  intros k' L' Hko' Hq Ets _ _. by eapply HQ.
Qed.

Lemma ahead_quiet now k k' dl : quiet k k' -> ahead now (delays k) dl -> ahead now (delays k') dl.
Proof. intros [_ _ _ Hs] Ha d Hd. rewrite (same_delays_deadline (delays k)) by done. by apply Ha. Qed.

Lemma by_deadline_unset k k' td dl :
  same_delays (delays k) (delays k') -> by_deadline (delays k) dl -> by_deadline (delays k') (unset td dl).
Proof.
  intros Hs Hby. apply (sorted_by_ext (deadline (delays k))); [intros d _; by apply same_delays_deadline|].
  unfold unset. destruct (delay td); [by apply sorted_by_without|done].
Qed.

Lemma elem_of_unset td d dl : d ∈ unset td dl -> d ∈ dl.
Proof. unfold unset. destruct (delay td); [by intros [_ ?]%elem_of_without|done]. Qed.

(** ** Sleeping *)

(** The suspended task has no delay: the allocation of one failed and nobody noticed. *)
Definition asleep_for_ever k (t : ptr) : Prop :=
  exists td, tasks k !! t = Some td /\ stat_of td = KTASK_SUSPEND /\ delay td = None.

(** Setting the delay of the task that was just suspended, with the clock in range. *)
Lemma wp_set_sleep k L I dl mem t td n (Q : Z -> kstate -> Prop) :
  kernel_ok k L I dl -> by_deadline (delays k) dl -> ahead (heartbeat_ticks k) (delays k) dl ->
  0 <= heartbeat_ticks k -> 0 < n -> n <= 2 ^ 31 -> heartbeat_ticks k + n < 2 ^ 32 ->
  tasks k !! t = Some td -> stat_of td = KTASK_SUSPEND -> 0 <= KTaskOsAssignLockNest k < 2 ^ 15 - 2 ->
  (forall d, delay td = None -> mem = Some d -> fresh_delay k d) ->
  (forall ret k' L' dl', kernel_ok k' L' I dl' -> by_deadline (delays k') dl' ->
     ahead (heartbeat_ticks k) (delays k') dl' -> core k' = core k ->
     (forall y, y <> t -> tasks k' !! y = tasks k !! y) ->
     (if bool_decide (delay td = None /\ mem = None) then asleep_for_ever k' t
      else asleep k' dl' t (heartbeat_ticks k + n)) -> Q ret k') ->
  wp (KTaskSetDelay mem t n) Q k.
Proof.
  intros Hko Hby Hah H0 Hn0 Hn1 Hn2 Et Hst Hnest Hfresh HQ.
  eapply (wp_KTaskSetDelay k L I dl mem t td); [done..| |].
  - intros Ed Em. apply (HQ _ k L dl); try done. rewrite bool_decide_true by done. by exists td.
  - intros d h' ds L' Hor k' Hko' Hs Ed Hds.
    destruct (with_delay_sorted k L I dl mem t td d ds) as [Hso Hin]; [done..|].
    rewrite u32_small in Ed by lia.
    assert (deadline ds d = heartbeat_ticks k + n) as Edl by (unfold deadline; by rewrite Ed).
    apply (HQ _ k' L' (with_delay ds d (unset td dl)) Hko'); [done| |done| |].
    + intros d' Hd'. change (delays k') with ds. apply elem_of_insert_nth in Hd' as [->|Hd']; [rewrite Edl; lia|].
      destruct (Hin d' Hd') as [Hd2 ->]. by apply Hah.
    + intros y Hy. unfold k'. cbn. by rewrite lookup_insert_ne.
    + rewrite bool_decide_false by (intros [? ?]; destruct Hor as [?|[_ ?]]; congruence).
      exists (set_delay (Some d) td), d. unfold k'. cbn. rewrite lookup_insert_eq.
      split_and!; [done..| |exact Edl]. apply elem_of_insert_nth. by left.
Qed.

Lemma wp__DelayKTask k L I dl mem t td n (Q : option Z -> kstate -> Prop) :
  steady k L I dl -> task_context k t td mem ->
  0 < n -> n <= 2 ^ 31 -> heartbeat_ticks k + n < 2 ^ 32 ->
  (forall k' L' dl', steady k' L' I dl' -> runs_highest k' -> heartbeat_ticks k' = heartbeat_ticks k ->
     (if bool_decide (delay td = None /\ mem = None) then asleep_for_ever k' t
      else asleep k' dl' t (heartbeat_ticks k + n)) -> Q None k') ->
  wp (_DelayKTask mem t n) Q k.
Proof.
  intros [Hko Hby H0 Hah Hnest Hisr _] [Hc Et Hst (y & tdy & Hy & Ey & Hsy) _ _ Hfresh] Hn0 Hn1 Hn2 HQ.
  unfold _DelayKTask. rewrite (proj2 (Z.eqb_neq _ _)) by lia. wp_steps. apply wp_CriticalAreaLock; [lia|]. wp_steps.
  apply wp_unbind. eapply (wp_suspend_current (locked k) L I dl t td); [by eapply kernel_ok_fields|done..|cbn; lia|].
  intros k1 L1 Hko1 Hq1 Ets1. wp_steps. set (td1 := as_stat KTASK_SUSPEND td) in *.
  assert (core k1 = core (locked k)) as Hc1 by apply Hq1.
  assert (heartbeat_ticks k1 = heartbeat_ticks k) as Eh1 by exact (f_equal heartbeat_ticks Hc1).
  assert (tasks k1 !! t = Some td1) as Et1 by (rewrite Ets1; apply lookup_insert_eq).
  assert (same_delays (delays k) (delays k1)) as Hsd1 by apply Hq1.
  eapply (wp_set_sleep k1 L1 I (unset td dl) mem t td1 n); rewrite ?Eh1; try done.
  { by apply (by_deadline_unset k). }
  { apply (ahead_quiet _ (locked k)); [done|]. intros d Hd%elem_of_unset. by apply Hah. }
  { by apply stat_of_as_stat. }
  { rewrite (quiet_nest _ _ Hq1). cbn. lia. }
  { intros d Ed Em. apply (fresh_quiet (locked k)); [done|]. by apply Hfresh. }
  intros ret k2 L2 dl2 Hko2 Hby2 Hah2 Hc2 Hoth2 Hsleep. wp_steps.
  assert (KTaskOsAssignLockNest k2 = KTaskOsAssignLockNest k + 1) as En2 by exact (f_equal KTaskOsAssignLockNest (eq_trans Hc2 Hc1)).
  apply wp_CriticalAreaUnLock; [lia|]. wp_steps. set (k3 := unlocked (interrupts k) k2).
  assert (core k3 = core k) as Hc3 by (change (unlocked (interrupts k) (core k2) = core k); rewrite Hc2, Hc1; exact (f_equal core (unlocked_locked k))).
  eapply (wp_reschedule k3 L2 I dl2 t); [by eapply kernel_ok_fields| | | |].
  { exact (eq_trans (f_equal os_running_task Hc3) Hc). }
  { left. exists y, tdy. split; [|done]. change (tasks k2 !! y = Some tdy). by rewrite Hoth2, Ets1, lookup_insert_ne. }
  { cbn. lia. }
  intros k4 L4 Hko4 Hvis Hdel4 Hr4 _ Hkept _. wp_steps.
  assert (visible k4 = visible k) as Hv by (rewrite Hvis; by apply visible_outer, outer_core).
  assert (heartbeat_ticks k4 = heartbeat_ticks k) as Eh4 by exact (f_equal heartbeat_ticks Hv).
  assert (runs_highest k4) as Hr by (apply Hr4; exact (eq_trans (f_equal isr_count Hc3) Hisr)).
  change (delays k3) with (delays k2) in Hdel4.
  apply (HQ k4 L4 dl2); [|done|done|].
  - split; [done|by rewrite Hdel4|lia|by rewrite Eh4, Hdel4| | |].
    + exact (eq_trans (f_equal KTaskOsAssignLockNest Hv) Hnest).
    + exact (eq_trans (f_equal isr_count Hv) Hisr).
    + destruct Hr as (c & tdc & ? & ? & ? & _). by exists c, tdc.
  - assert (forall tdt, tasks k2 !! t = Some tdt -> stat_of tdt = KTASK_SUSPEND -> tasks k4 !! t = Some tdt) as Hk4.
    { intros tdt Et2 Hs2. apply Hkept; [done|by rewrite Hs2..]. }
    change (delay td1) with (delay td) in Hsleep. case_bool_decide.
    + destruct Hsleep as (tdt & Et2 & Hs2 & ?). exists tdt. auto.
    + destruct Hsleep as (tdt & d & Et2 & Hs2 & ? & ? & ?). exists tdt, d. rewrite Hdel4. auto.
Qed.

(** The end of the call, when the task runs again. *)
Lemma wp__DelayKTask_resume k t :
  timed_out k t ->
  wp (_DelayKTask_resume t) (fun r k' => r = EOK /\ exists td, tasks k' !! t = Some td /\ exstatus td = EOK) k.
Proof.
  intros (td & Et & Ex & _). unfold _DelayKTask_resume. wp_steps. eapply wp_task_get; [exact Et|].
  rewrite Ex. wp_steps. eapply wp_task_set; [exact Et|]. wp_steps. split; [done|].
  eexists. cbn [tasks set_tasks]. by rewrite lookup_insert_eq.
Qed.

(** ** From the call to the wake-up *)

Section wake_up.
Context (call : Z -> Z -> Z -> M isr_state unit) (systick arg : Z) (Hnone : systick <> 0)
  (Hcall : forall vector par, call systick vector par = SysTick_Handler vector par).

(** C2: [MdelayKTask] suspends the current task and hands the processor over; in every
    history of tick interrupts and other activity that leaves the task alone, it
    sleeps on while fewer ticks have passed than its milliseconds convert to, and
    that tick wakes it: it is READY or RUNNING with status -ETIMEOUT, no READY task has
    a higher priority than the running one, and the rest of the call returns EOK
    with the status cleared.  Provided that the time is not 0, that the tick counter does
    not wrap around before the end ([T < 2 ^ 32]; otherwise the task sleeps too long, see
    Defects.v), and that the task has a [Delay] or gets the memory for one (otherwise it
    sleeps for ever). *)
Theorem MdelayKTask_wakes_on_time I L dl mem t td ms h s :
  steady (kernel s) L I dl -> task_context (kernel s) t td mem -> (delay td = None -> mem <> None) ->
  irq_table s !! Z.to_nat SYSTICK_IRQN = Some (mkIrqDesc systick arg) -> ms <> 0 ->
  let n := CalculteTickFromTimeMs ms in
  let T := heartbeat_ticks (kernel s) + n in
  T < 2 ^ 32 -> Forall (undisturbing systick arg I t T) h ->
  (ticks h < n -> wp (in_kernel (MdelayKTask mem ms);; run call h) (fun _ s' => sleeping systick arg I t T s') s) /\
  (ticks h + 1 = n -> wp (r ← in_kernel (MdelayKTask mem ms); run call (h ++ [Tick]);; mret r) (fun r s' =>
     r = None /\ heartbeat_ticks (kernel s') = T /\ timed_out (kernel s') t /\ runs_highest (kernel s') /\
     wp (_DelayKTask_resume t)
       (fun r k' => r = EOK /\ exists td, tasks k' !! t = Some td /\ exstatus td = EOK) (kernel s')) s).
Proof.
  intros Hsd Htc Hmem Htbl Hms n T HT Hh. pose proof (CalculteTickFromTimeMs_range ms) as Hn. fold n in Hn.
  assert (wp (in_kernel (MdelayKTask mem ms)) (fun r s' => r = None /\ sleeping systick arg I t T s' /\
    heartbeat_ticks (kernel s') = heartbeat_ticks (kernel s)) s) as Hsleep.
  { apply wp_in_kernel. unfold MdelayKTask, _MdelayKTask. rewrite (proj2 (Z.eqb_neq _ _) Hms). wp_steps.
    apply wp_GetKTaskDescriptor; [rewrite (sd_nest _ _ _ _ Hsd); lia|]. rewrite (tc_current _ _ _ _ Htc). fold n.
    eapply (wp__DelayKTask _ L I dl mem t td n); [done|done|lia|lia|done|].
    intros k' L' dl' Hsd' _ Enow Hs. rewrite bool_decide_false in Hs by (intros [Hd0 Hm0]; by apply Hmem).
    split; [done|]. split; [|done]. split; [by exists L', dl'|done]. }
  split; intros Ht.
  - wp_steps. eapply wp_mono; [exact Hsleep|]. intros r s1 (-> & Hs1 & Enow).
    eapply wp_mono; [apply (wp_run_asleep call systick arg Hnone Hcall I t T h s1); [done|done|lia]|]. by intros _ s2 [? _].
  - wp_steps. eapply wp_mono; [exact Hsleep|]. intros r s1 (-> & Hs1 & Enow). wp_steps.
    eapply wp_mono; [apply (wp_run_wakes call systick arg Hnone Hcall I t T h s1); [done|done|lia]|].
    intros _ s2 (? & Hto & ?). wp_steps. split_and!; [done..|]. by apply wp__DelayKTask_resume.
Qed.

(** Waking another task does not disturb. *)
Lemma KTaskWakeup_undisturbing I t T id w :
  I !! id = Some (IdLink CTask w) -> w <> t ->
  undisturbing systick arg I t T (Other (in_kernel (KTaskWakeup id);; mret tt)).
Proof.
  intros Hid Hw s [(L & dl & Hsd & Ha) Htbl]. destruct Hsd as [Hko Hby H0 Hah Hnest Hisr Hrun].
  wp_steps. apply wp_in_kernel. unfold KTaskWakeup. eapply wp_by_id; [done|done|lia|].
  destruct (io_range _ _ _ (ko_ids _ _ _ _ Hko) _ _ Hid) as (? & [= <-] & [tdw Ew]).
  destruct (Z.eqb_spec (stat_of tdw) KTASK_SUSPEND) as [Hst|Hst].
  - eapply wp__KTaskWakeup; [done|done|done|lia|]. intros k' L' Hko' Hq Ets _. wp_steps.
    assert (core k' = core (kernel s)) as Hc by apply Hq.
    assert (same_delays (delays (kernel s)) (delays k')) as Hs by apply Hq.
    assert (heartbeat_ticks k' = heartbeat_ticks (kernel s)) as Enow by exact (f_equal heartbeat_ticks Hc).
    split; [|exact Enow]. split; [|done]. exists L', (unset tdw dl). cbn [kernel set_kernel]. split.
    + split; [done|by apply (by_deadline_unset (kernel s))|lia| |exact (eq_trans (f_equal KTaskOsAssignLockNest Hc) Hnest)|
              exact (eq_trans (f_equal isr_count Hc) Hisr)|].
      * rewrite Enow. apply (ahead_quiet _ (kernel s)); [done|]. intros d Hd%elem_of_unset. by apply Hah.
      * destruct Hrun as (c & tdc & Ec & Etc & Hsc). exists c, tdc. rewrite Ets, lookup_insert_ne
          by (intros ->; rewrite Ew in Etc; injection Etc as ->; by rewrite Hst in Hsc).
        split_and!; [exact (eq_trans (f_equal os_running_task Hc) Ec)|done|done].
    + destruct Ha as (td & d & Et & Hst' & Ed & Hd & HT). exists td, d. rewrite Ets, lookup_insert_ne by done.
      split_and!; [done..| |by rewrite (same_delays_deadline (delays (kernel s)))].
      unfold unset. destruct (delay tdw) as [dw|] eqn:Edw; [|done]. apply elem_of_without. split; [|done]. intros ->.
      destruct (do_task _ _ _ (ko_delays _ _ _ _ Hko) _ _ _ Ew Edw) as (x & Ex & ? & _).
      destruct (do_task _ _ _ (ko_delays _ _ _ _ Hko) _ _ _ Et Ed) as (x' & Ex' & ? & _). congruence.
  - unfold _KTaskWakeup, JudgeKTaskStatIsSuspend. wp_steps. eapply wp_task_get; [exact Ew|].
    rewrite (proj2 (Z.eqb_neq _ _) Hst). cbn [negb]. wp_steps. split; [|done]. split; [|done]. by exists L, dl.
Qed.

End wake_up.
End Sleep.
