(* ===== verification/Semaphore.v ===== *)
(** * Semaphores: kernel/thread/semaphore.c

    [KSemaphoreObtain] is split at [DO_KTASK_ASSIGN] (see Task.v): the first
    part returns [None] when the caller has to wait, and
    [_SemaphoreObtain_resume] is what the caller returns when it runs again. *)

From S2P Require Import Prelude DoubleLink IdManager Bitmap Kernel ReadyVector Assign Delay Task TaskInv Creation Deadlines PendList Waiting.

Section Semaphore.
Context `{C : KConfig} `{D : PriorityReadyVectorDone}.

Definition sem_get {A : Type} (s : ptr) (f : Semaphore -> A) : M kstate A :=
  k ← get; x ← deref (sems k !! s); mret (f x).
Definition sem_set (s : ptr) (f : Semaphore -> Semaphore) : M kstate unit :=
  k ← get; x ← deref (sems k !! s); modify (set_sems (<[s := f x]> (sems k))).

(** [sem->id.id] *)
Definition object_id (c : class) (p : ptr) : M kstate Z :=
  k ← get; deref (node_ids k !! IdLink c p).

Definition sem_links (s : ptr) : list link := [PendList CSem s; ObjLink CSem s; IdLink CSem s].

Definition new_sem (s : ptr) : M kstate unit :=
  modify (fun k => set_sems (<[s := mkSemaphore 0]> (sems k)) (zero_links (sem_links s) k));;
  modify (fun k => set_node_ids (<[IdLink CSem s := 0]> (node_ids k)) k).
Definition free_sem (s : ptr) : M kstate unit :=
  k ← get;
  deref (sems k !! s);;
  modify (fun k => set_sems (delete s (sems k)) (drop_links (sem_links s) k));;
  modify (fun k => set_node_ids (delete (IdLink CSem s) (node_ids k)) k).

Definition _SemaphoreCreate (mem : option ptr) (val : Z) : M kstate Z :=
  match mem with
  | None => mret (- ENOMEMORY)
  | Some sem =>
      new_sem sem;;
      lock ← CriticalAreaLock;
      id ← kid CSem (IdInsertObj (Bucket CSem) (IdLink CSem sem));
      if id <? 0 then free_sem sem;; CriticalAreaUnLock lock;; mret (- ENOMEMORY)
      else
        sem_set sem (fun _ => mkSemaphore val);;
        klinks (InitDoubleLinkList (PendList CSem sem));;
        klinks (DoubleLinkListInsertNodeAfter (ListHead CSem) (ObjLink CSem sem));;
        CriticalAreaUnLock lock;;
        mret id
  end.

Definition _SemaphoreDelete (sem : ptr) : M kstate unit :=
  lock ← CriticalAreaLock;
  empty ← klinks (IsDoubleLinkListEmpty (PendList CSem sem));
  resched ← (if negb empty then LinklistResumeAll (PendList CSem sem);; mret true else mret false);
  id ← object_id CSem sem;
  kid CSem (IdRemoveObj (Bucket CSem) id);;
  klinks (DoubleLinkListRmNode (ObjLink CSem sem));;
  CriticalAreaUnLock lock;;
  free_sem sem;;
  if (resched : bool) then DO_KTASK_ASSIGN else mret tt.

(** [mem] is the memory for the caller's [Delay], if it has none yet. *)
Definition _SemaphoreObtain (mem : option ptr) (sem : ptr) (msec : Z) : M kstate (option Z) :=
  let wait_time := s32 (CalculteTickFromTimeMs (u32 msec)) in
  lock ← CriticalAreaLock;
  value ← sem_get sem sem_value;
  if 0 <? value then
    sem_set sem (fun s => mkSemaphore (u16 (sem_value s - 1)));;
    CriticalAreaUnLock lock;;
    mret (Some EOK)
  else if wait_time =? 0 then CriticalAreaUnLock lock;; mret (Some (- ETIMEOUT))
  else
    cur ← GetKTaskDescriptor;
    task ← deref cur;
    task_set task (set_exstatus EOK);;
    LinklistSuspend (PendList CSem sem) task LINKLIST_FLAG_PRIO;;
    (if 0 <? wait_time then KTaskSetDelay mem task wait_time;; mret tt else mret tt);;
    CriticalAreaUnLock lock;;
    DO_KTASK_ASSIGN;;
    mret None.

(** [return task->exstatus] *)
Definition _SemaphoreObtain_resume (task : ptr) : M kstate Z := task_get task exstatus.

Definition _SemaphoreAbandon (sem : ptr) : M kstate Z :=
  lock ← CriticalAreaLock;
  empty ← klinks (IsDoubleLinkListEmpty (PendList CSem sem));
  resched ← (if negb empty then LinklistResume (PendList CSem sem);; mret true
             else sem_set sem (fun s => mkSemaphore (u16 (sem_value s + 1)));; mret false);
  CriticalAreaUnLock lock;;
  (if (resched : bool) then DO_KTASK_ASSIGN else mret tt);;
  mret EOK.

Definition _SemaphoreSetValue (sem : ptr) (val : Z) : M kstate Z :=
  lock ← CriticalAreaLock;
  value ← sem_get sem sem_value;
  if value =? val then CriticalAreaUnLock lock;; mret EOK
  else
    empty ← klinks (IsDoubleLinkListEmpty (PendList CSem sem));
    resched ← (if negb empty then LinklistResumeAll (PendList CSem sem);; mret true else mret false);
    sem_set sem (fun _ => mkSemaphore val);;
    CriticalAreaUnLock lock;;
    (if (resched : bool) then DO_KTASK_ASSIGN else mret tt);;
    mret EOK.

(** The lookup the entry points share. *)
Definition find_object (c : class) (id : Z) : M kstate (option ptr) :=
  if id <? 0 then mret None
  else
    lock ← CriticalAreaLock;
    idnode ← kid c (IdGetObj (Bucket c) (u16 id));
    CriticalAreaUnLock lock;;
    match idnode with
    | None => mret None
    | Some a => p ← deref (id_entry c a); mret (Some p)
    end.

Definition KSemaphoreCreate (mem : option ptr) (val : Z) : M kstate Z := _SemaphoreCreate mem val.

Definition KSemaphoreDelete (id : Z) : M kstate unit :=
  sem ← find_object CSem id;
  match sem with Some sem => _SemaphoreDelete sem | None => mret tt end.

Definition KSemaphoreObtain (mem : option ptr) (id msec : Z) : M kstate (option Z) :=
  sem ← find_object CSem id;
  match sem with Some sem => _SemaphoreObtain mem sem msec | None => mret (Some (- ERROR)) end.

Definition KSemaphoreAbandon (id : Z) : M kstate Z :=
  sem ← find_object CSem id;
  match sem with Some sem => _SemaphoreAbandon sem | None => mret (- ERROR) end.

Definition KSemaphoreSetValue (id val : Z) : M kstate Z :=
  sem ← find_object CSem id;
  match sem with Some sem => _SemaphoreSetValue sem val | None => mret (- ERROR) end.


(** ** Objects by identifier *)

Implicit Types (k : kstate) (L : gmap link (list link)) (I : gmap Z link) (dl : list ptr).

(** The identifier manager of the class maps [id] to the object [p]. *)
Definition has_object k L (c : class) (id : Z) (p : ptr) : Prop :=
  exists mgr I, managers k !! c = Some mgr /\
    id_rep (Bucket c) (mkIdState (links k) (node_ids k) mgr) L I /\ I !! id = Some (IdLink c p).

Lemma wp_find_object k L c id p (Q : option ptr -> kstate -> Prop) :
  has_object k L c id p -> 0 <= KTaskOsAssignLockNest k < 2 ^ 15 - 1 -> Q (Some p) k -> wp (find_object c id) Q k.
Proof.
  intros (mgr & I & Em & Hrep & Hid) Hn HQ. pose proof (ir_dom _ _ _ _ Hrep _ _ Hid) as Hd.
  pose proof (ir_max _ _ _ _ Hrep). cbn [manager] in *.
  unfold find_object. rewrite (proj2 (Z.ltb_ge id 0)) by lia. rewrite u16_small by lia.
  wp_steps. apply wp_CriticalAreaLock; [done|]. wp_steps.
  eapply wp_kid; [exact Em|]. eapply wp_IdGetObj_hit; [exact Hrep|exact Hid|]. cbn [manager node_id id_links].
  wp_steps. apply wp_CriticalAreaUnLock; [cbn; lia|].
  change (managers k) with (managers (locked k)). rewrite insert_id by done.
  change (set_managers (managers (locked k)) _) with (locked k).
  rewrite unlocked_locked. wp_steps.
  cbn [id_entry]. rewrite bool_decide_true by done. by wp_steps.
Qed.

Lemma find_object_negative c id k : id < 0 -> find_object c id k = Ret None k.
Proof. intros Hid. unfold find_object. by rewrite (proj2 (Z.ltb_lt id 0)) by done. Qed.

(** ** Correctness *)

Lemma wp_sem_get {A : Type} s (f : Semaphore -> A) x (Q : A -> kstate -> Prop) k :
  sems k !! s = Some x -> Q (f x) k -> wp (sem_get s f) Q k.
Proof. intros E HQ. unfold sem_get. wp_steps. rewrite E. by wp_steps. Qed.

Lemma wp_sem_set s f x (Q : unit -> kstate -> Prop) k :
  sems k !! s = Some x -> Q tt (set_sems (<[s := f x]> (sems k)) k) -> wp (sem_set s f) Q k.
Proof. intros E HQ. unfold sem_set. wp_steps. rewrite E. by wp_steps. Qed.

(** The semaphore [s] with its list of waiting tasks. *)
Record sem_ok k L (s : ptr) (v : Z) (l : list link) : Prop := {
  sk_value : sems k !! s = Some (mkSemaphore v);
  sk_range : 0 <= v < 2 ^ 16;
  sk_list : L !! PendList CSem s = Some l;
}.

Lemma kernel_ok_sems k L I dl v : kernel_ok k L I dl -> kernel_ok (set_sems v k) L I dl.
Proof. intros H. by eapply kernel_ok_fields. Qed.

Context `{CO : !KConfigOk C} `{DL : !ReadyVectorLaws D}.

(** A semaphore with a positive value ... *)
Lemma wp_KSemaphoreObtain_now k L mem id s v l msec (Q : option Z -> kstate -> Prop) :
  has_object k L CSem id s -> sem_ok k L s v l -> 0 < v -> 0 <= KTaskOsAssignLockNest k < 2 ^ 15 - 1 ->
  Q (Some EOK) (set_sems (<[s := mkSemaphore (v - 1)]> (sems k)) k) -> wp (KSemaphoreObtain mem id msec) Q k.
Proof.
  intros Hobj [Ev Hv HL] Hpos Hn HQ. unfold KSemaphoreObtain. wp_steps. eapply wp_find_object; [exact Hobj|lia|].
  wp_steps. unfold _SemaphoreObtain. wp_steps. apply wp_CriticalAreaLock; [lia|]. wp_steps.
  eapply wp_sem_get; [exact Ev|]. cbn [sem_value]. rewrite (proj2 (Z.ltb_lt 0 v)) by done.
  wp_steps. eapply wp_sem_set; [exact Ev|]. cbn [sem_value]. wp_steps.
  apply wp_CriticalAreaUnLock; [cbn; lia|]. wp_steps. rewrite u16_small by lia.
  change (Q (Some EOK) (set_sems (<[s := mkSemaphore (v - 1)]> (sems k)) (unlocked (interrupts k) (locked k)))).
  by rewrite unlocked_locked.
Qed.

(** ... and one with the value 0. *)
Lemma wp_KSemaphoreObtain_wait k L I dl mem id s l msec t td (Q : option Z -> kstate -> Prop) :
  kernel_ok k L I dl -> has_object k L CSem id s -> sem_ok k L s 0 l -> task_context k t td mem ->
  (forall k' L' dl' l', kernel_ok k' L' I dl' -> outer k' = outer k -> runs_highest k' -> sem_ok k' L' s 0 l' ->
     l' ≡ₚ SchedLink t :: l -> other_lists_kept (PendList CSem s) L L' ->
     waits k' L' dl' t (set_exstatus EOK td) (PendList CSem s) (CalculteTickFromTimeMs (u32 msec)) (heartbeat_ticks k) ->
     Q None k') ->
  wp (KSemaphoreObtain mem id msec) Q k.
Proof.
  intros Hko Hobj [Ev Hv HL] Hctx HQ. pose proof (tc_nest _ _ _ _ Hctx) as Hn.
  unfold KSemaphoreObtain. wp_steps. eapply wp_find_object; [exact Hobj|lia|]. wp_steps.
  destruct (CalculteTickFromTimeMs_int32 (u32 msec)) as [Hb Hs]. unfold _SemaphoreObtain. rewrite Hs.
  wp_steps. apply wp_CriticalAreaLock; [lia|]. wp_steps. eapply wp_sem_get; [exact Ev|]. cbn [sem_value].
  change (0 <? 0) with false. rewrite (proj2 (Z.eqb_neq _ 0)) by lia. wp_steps.
  apply wp_GetKTaskDescriptor; [cbn; lia|]. cbn [os_running_task locked].
  change (os_running_task (locked k)) with (os_running_task k).
  rewrite (tc_current _ _ _ _ Hctx). wp_steps. eapply wp_task_set; [apply (tc_task _ _ _ _ Hctx)|].
  eapply (wp_block_in_context k L I dl mem t td); [done|done|done|done|exact HL|by right|].
  intros k' L' dl' Hko' Hout Hr HL' Hoth Hw _. eapply HQ; [done|done|done|split; [|lia|exact HL']| |done|done].
  - change (sems (outer k') !! s = Some (mkSemaphore 0)). by rewrite Hout.
  - unfold insert_nth. by rewrite <- Permutation_middle, take_drop.
Qed.

(** C20: obtaining a semaphore.  A positive value is decremented and the call
    returns EOK at once, whatever the timeout; with the value 0 the caller, also
    one that gave the timeout 0, is suspended on the list of the semaphore with its
    delay set, and the highest READY task runs. *)
Theorem KSemaphoreObtain_correct k L I dl mem id s v l msec t td :
  kernel_ok k L I dl -> has_object k L CSem id s -> sem_ok k L s v l -> task_context k t td mem ->
  wp (KSemaphoreObtain mem id msec) (fun r k' =>
    if 0 <? v then r = Some EOK /\ k' = set_sems (<[s := mkSemaphore (v - 1)]> (sems k)) k
    else r = None /\ runs_highest k' /\ outer k' = outer k /\
      exists L' dl' l', kernel_ok k' L' I dl' /\ sem_ok k' L' s 0 l' /\ l' ≡ₚ SchedLink t :: l /\
        waits k' L' dl' t (set_exstatus EOK td) (PendList CSem s) (CalculteTickFromTimeMs (u32 msec)) (heartbeat_ticks k)) k.
Proof.
  intros Hko Hobj Hs Hctx. pose proof (tc_nest _ _ _ _ Hctx) as Hn. pose proof (sk_range _ _ _ _ _ Hs) as Hv.
  destruct (Z.ltb_spec 0 v) as [Hpos|Hzero].
  - eapply wp_KSemaphoreObtain_now; [done..|lia|done].
  - assert (v = 0) as -> by lia. eapply wp_KSemaphoreObtain_wait; [done..|].
    intros k' L' dl' l' Hko' Hout Hr Hs' Hl' _ Hw. split_and!; [done..|]. by exists L', dl', l'.
Qed.

(** Abandoning a semaphore nobody waits for ... *)
Lemma wp_KSemaphoreAbandon_free k L id s v (Q : Z -> kstate -> Prop) :
  rep (links k) L -> has_object k L CSem id s -> sem_ok k L s v [] -> 0 <= KTaskOsAssignLockNest k < 2 ^ 15 - 1 ->
  Q EOK (set_sems (<[s := mkSemaphore (u16 (v + 1))]> (sems k)) k) -> wp (KSemaphoreAbandon id) Q k.
Proof.
  intros HR Hobj [Ev Hv HL] Hn HQ. unfold KSemaphoreAbandon. wp_steps. eapply wp_find_object; [exact Hobj|lia|].
  wp_steps. unfold _SemaphoreAbandon. wp_steps. apply wp_CriticalAreaLock; [lia|]. wp_steps. apply wp_klinks.
  eapply (wp_IsDoubleLinkListEmpty _ L); [exact HR|exact HL|]. change (set_links _ (locked k)) with (locked k).
  rewrite bool_decide_true by done. cbn [negb]. wp_steps. eapply wp_sem_set; [exact Ev|]. wp_steps.
  apply wp_CriticalAreaUnLock; [cbn; lia|]. wp_steps. cbn [sem_value].
  change (Q EOK (set_sems (<[s := mkSemaphore (u16 (v + 1))]> (sems k)) (unlocked (interrupts k) (locked k)))).
  by rewrite unlocked_locked.
Qed.

(** ... and one with a waiting task. *)
Lemma wp_KSemaphoreAbandon_wake k L I dl id s v x l c (Q : Z -> kstate -> Prop) :
  kernel_ok k L I dl -> has_object k L CSem id s -> sem_ok k L s v (x :: l) ->
  os_running_task k = Some c -> KTaskOsAssignLockNest k = 0 ->
  (forall w k' L' dl', x = SchedLink w -> kernel_ok k' L' I dl' -> sem_ok k' L' s v l -> woken k' w ->
     (isr_count k = 0 -> runs_highest k') -> visible k' = visible k -> other_lists_kept (PendList CSem s) L L' -> Q EOK k') ->
  wp (KSemaphoreAbandon id) Q k.
Proof.
  intros Hko Hobj [Ev Hv HL] Hc Hn HQ. unfold KSemaphoreAbandon. wp_steps. eapply wp_find_object; [exact Hobj|lia|].
  wp_steps. unfold _SemaphoreAbandon. wp_steps. apply wp_CriticalAreaLock; [lia|]. wp_steps. apply wp_klinks.
  assert (kernel_ok (locked k) L I dl) as Hko1 by by eapply kernel_ok_fields.
  eapply (wp_IsDoubleLinkListEmpty _ L); [apply Hko1|exact HL|]. change (set_links _ (locked k)) with (locked k).
  rewrite bool_decide_false by done. cbn [negb]. wp_steps.
  destruct (ko_member _ _ _ _ Hko (PendList CSem s) _ x KTASK_SUSPEND eq_refl HL) as (w & tdw & -> & Ew & _); [set_solver|].
  eapply wp_mono; [apply (wp_resume_switch (locked k) L I dl c (PendList CSem s) w l (interrupts k) (fun _ => Q EOK)
    Hko1 Hc ltac:(cbn; lia) eq_refl HL)|].
  - intros k4 L4 dl4 Hko4 Hvis Hr Hw HL4 Hoth _. rewrite unlocked_locked in Hvis.
    eapply HQ; [done|exact Hko4|split; [|done|exact HL4]|done|done|done|done].
    change (sems (visible k4) !! s = Some (mkSemaphore v)). by rewrite Hvis.
  - wp_next. wp_next. intros ? k4 Hpost. by wp_steps.
Qed.

(** The semaphore [s] with another value. *)
Definition with_value (s : ptr) (v : Z) k : kstate := set_sems (<[s := mkSemaphore v]> (sems k)) k.

Lemma sem_ok_with_value k L s v v' l : sem_ok k L s v l -> 0 <= v' < 2 ^ 16 -> sem_ok (with_value s v' k) L s v' l.
Proof. intros [] Hv. split; [apply lookup_insert_eq|done|done]. Qed.

Lemma sem_ok_other k L s v' o v l : sem_ok k L o v l -> o <> s -> sem_ok (with_value s v' k) L o v l.
Proof. intros [] Hne. split; [|done|done]. cbn. by rewrite lookup_insert_ne. Qed.

(** What abandoning the semaphore [s] does: without a waiting task its value is
    incremented, modulo 65536; otherwise the first of them can run. *)
Definition released k (s : ptr) (v : Z) (l : list link) k' : Prop :=
  match l with
  | [] => k' = with_value s (u16 (v + 1)) k
  | x :: _ => exists w, x = SchedLink w /\ woken k' w /\ (isr_count k = 0 -> runs_highest k') /\ visible k' = visible k
  end.
Definition released_value (v : Z) (l : list link) : Z := match l with [] => u16 (v + 1) | _ => v end.

Lemma released_value_small v l : 0 <= v -> v + 1 < 2 ^ 16 -> v <= released_value v l <= v + 1.
Proof. intros H0 Hv. unfold released_value. destruct l; rewrite ?u16_small; lia. Qed.

Lemma wp_KSemaphoreAbandon_released k L I dl id s v l c (Q : Z -> kstate -> Prop) :
  kernel_ok k L I dl -> has_object k L CSem id s -> sem_ok k L s v l ->
  os_running_task k = Some c -> KTaskOsAssignLockNest k = 0 ->
  (forall k' L' dl', kernel_ok k' L' I dl' -> sem_ok k' L' s (released_value v l) (List.tl l) ->
     (forall o vo lo, o <> s -> sem_ok k L o vo lo -> sem_ok k' L' o vo lo) -> released k s v l k' -> Q EOK k') ->
  wp (KSemaphoreAbandon id) Q k.
Proof.
  intros Hko Hobj Hs Hc Hn HQ. destruct l as [|x l].
  - eapply wp_KSemaphoreAbandon_free; [apply Hko|done|done|lia|].
    apply (HQ (with_value s (u16 (v + 1)) k) L dl);
      [by apply kernel_ok_sems|apply (sem_ok_with_value k L s v); [done|apply Z.mod_pos_bound; lia]| |done].
    intros o vo lo Hne Ho. by apply sem_ok_other.
  - eapply wp_KSemaphoreAbandon_wake; [done..|]. intros w k' L' dl' -> Hko' Hs' Hw Hr Hvis Hoth.
    eapply HQ; [done|exact Hs'| |by exists w]. intros o vo lo Hne [E Hvo HL]. split; [|done|].
    + change (sems (visible k') !! o = Some (mkSemaphore vo)). by rewrite Hvis.
    + rewrite Hoth; [done|by intros [=]|done..].
Qed.

(** C21: abandoning a semaphore, in a task or an interrupt handler.  Without a
    waiting task the 16-bit value is incremented, modulo 65536; otherwise it stays
    and the first waiting task can run.  In a task the highest READY task runs
    afterwards. *)
Theorem KSemaphoreAbandon_correct k L I dl id s v l c :
  kernel_ok k L I dl -> has_object k L CSem id s -> sem_ok k L s v l ->
  os_running_task k = Some c -> KTaskOsAssignLockNest k = 0 ->
  wp (KSemaphoreAbandon id) (fun r k' => r = EOK /\
    match l with
    | [] => k' = set_sems (<[s := mkSemaphore (u16 (v + 1))]> (sems k)) k
    | x :: l' => exists w L' dl', x = SchedLink w /\ kernel_ok k' L' I dl' /\ sem_ok k' L' s v l' /\
        woken k' w /\ (isr_count k = 0 -> runs_highest k') /\ visible k' = visible k
    end) k.
Proof.
  intros Hko Hobj Hs Hc Hn. destruct l as [|x l].
  - eapply wp_KSemaphoreAbandon_free; [apply Hko|done..|lia|done].
  - eapply wp_KSemaphoreAbandon_wake; [done..|]. intros w k' L' dl' -> Hko' Hs' Hw Hr Hvis _.
    split; [done|]. by exists w, L', dl'.
Qed.

(** ** Creation *)

Lemma ids_of_has_object c k mgr L J i p : ids_of c k mgr L J -> J !! i = Some (IdLink c p) -> has_object k L c i p.
Proof. intros [Em Hid] Hi. by exists mgr, J. Qed.

(** A semaphore that does not exist yet. *)
Record unborn k (J : gmap Z link) (s : ptr) : Prop := {
  ub_links : fresh_links (sem_links s) (links k);
  ub_sem : sems k !! s = None;
  ub_id : node_ids k !! IdLink CSem s = None;
  ub_range : forall i, J !! i <> Some (IdLink CSem s);
}.

(** Creating a semaphore.  It fails only when all identifiers are used, without an
    effect.  Otherwise the least unused identifier denotes the new semaphore, which
    has the given value and no waiting tasks; the semaphores that existed keep theirs,
    and nothing else changes. *)
Theorem KSemaphoreCreate_correct k L I dl mgr J l s val :
  kernel_ok k L I dl -> ids_of CSem k mgr L J -> L !! ListHead CSem = Some l ->
  fresh_links (sem_links s) (links k) -> sems k !! s = None -> node_ids k !! IdLink CSem s = None ->
  (forall i, J !! i <> Some (IdLink CSem s)) -> 0 <= val < 2 ^ 16 -> 0 <= KTaskOsAssignLockNest k < 2 ^ 15 - 1 ->
  wp (KSemaphoreCreate (Some s) val) (fun ret k' =>
    ret = - ENOMEMORY /\ all_used mgr J /\ k' = k \/
    least_unused ret J /\ ret < id_max mgr /\ exists mgr' h' L', id_max mgr' = id_max mgr /\
      k' = with_ids CSem mgr' (<[IdLink CSem s := ret]> (node_ids k)) h' (set_sems (<[s := mkSemaphore val]> (sems k)) k) /\
      kernel_ok k' L' I dl /\ ids_of CSem k' mgr' L' (<[ret := IdLink CSem s]> J) /\ sem_ok k' L' s val [] /\
      L' !! ListHead CSem = Some (ObjLink CSem s :: l) /\
      (forall xs, fresh_links xs (links k) -> (forall x, x ∈ xs -> x ∉ sem_links s) -> fresh_links xs h') /\
      forall s' v' l', sem_ok k L s' v' l' -> sem_ok k' L' s' v' l') k.
Proof.
  intros Hko Hid HL Hf Hs Hn HJ Hval Hnest. pose proof (so_rep _ _ (ko_sched _ _ _ _ Hko)) as HR.
  assert (Forall (fun x => object_link CSem x = true) (sem_links s)) as Hxs by by repeat constructor.
  unfold KSemaphoreCreate, _SemaphoreCreate, new_sem. wp_steps. apply wp_CriticalAreaLock; [done|]. wp_steps.
  match goal with |- wp _ _ ?s => set (k1 := s) end.
  eapply (wp_growing_id CSem (sem_links s) s k L Hxs J mgr l k1 _ [PendList CSem s; ObjLink CSem s]);
    [done..|set_solver|done| | |].
  { intros x Hx. repeat (apply elem_of_cons in Hx as [->|Hx]; [split; [set_solver|done]|]). by apply elem_of_nil in Hx. }
  - intros Hall. wp_steps. change (-1 <? 0) with true. unfold free_sem. wp_steps.
    assert (sems k1 !! s = Some (mkSemaphore 0)) as -> by apply lookup_insert_eq. wp_steps.
    apply wp_CriticalAreaUnLock; [cbn; lia|]. wp_steps. left. split_and!; [done|done|].
    change (set_links (foldr (fun x => delete x) (zeroed (sem_links s) (links k)) (sem_links s))
      (set_sems (delete s (<[s := mkSemaphore 0]> (sems k)))
         (set_node_ids (delete (IdLink CSem s) (<[IdLink CSem s := 0]> (node_ids k))) (unlocked (interrupts k) (locked k)))) = k).
    rewrite unlocked_locked, drop_zeroed, !delete_insert_id by done. done.
  - intros i h1 mgr1 L1 Hi Hmax Emax k2 Hg1. rewrite (proj2 (Z.ltb_ge i 0)) by apply Hi. wp_steps.
    eapply wp_sem_set; [apply lookup_insert_eq|]. wp_steps.
    apply (growing_fields _ _ _ _ _ _ _ _ _ _ (set_sems (<[s := mkSemaphore val]> (sems k2)) k2)) in Hg1; [|done..].
    eapply wp_growing_init; [exact Hxs|exact Hg1|set_solver|set_solver|].
    intros h2 L2 Hg2. wp_steps. eapply wp_growing_attach; [exact Hxs|exact Hg2|set_solver|set_solver|].
    intros h3 L3 Hg3 HL3. wp_steps. apply wp_CriticalAreaUnLock; [cbn; lia|]. wp_steps. right. split; [done|]. split; [done|].
    exists mgr1, h3, L3. split; [done|].
    match goal with |- ?s = ?s' /\ _ => assert (s = s') as -> end.
    { unfold k2, k1, with_ids, unlocked, locked. cbn. by rewrite insert_insert_eq, Z.add_simpl_r. }
    split; [done|]. split_and!; [| | |apply Hg3|intros xs; apply (grows_fresh CSem (sem_links s) (links k) L h3 L3 xs), Hg3|].
    + eapply (kernel_ok_object CSem (sem_links s) k L);
        [done|done|done|by apply (fresh_unlisted _ (links k))|apply Hg3|done|done|done|done|by left|done|done|by apply lookup_insert_ne|intros p; by apply lookup_insert_ne].
    + destruct (gw_ids _ _ _ _ _ _ _ _ _ _ Hg3) as (mgr3 & Em3 & Hid3). split; [apply lookup_insert_eq|].
      change (managers k2 !! CSem = Some mgr3) in Em3. unfold k2, with_ids in Em3. cbn in Em3. rewrite lookup_insert_eq in Em3.
      injection Em3 as ->. exact Hid3.
    + split; [apply lookup_insert_eq|done|]. rewrite HL3 by done. apply lookup_insert_eq.
    + intros s' v' l' [E1 E2 E3]. assert (s' <> s) as Hne by (by intros ->; congruence).
      split; [cbn; by rewrite lookup_insert_ne by done|done|].
      eapply (grown_task_list CSem (sem_links s) k L); [by apply (fresh_unlisted _ (links k))|apply Hg3|done|exact E3].
Qed.
End Semaphore.
