(* ===== verification/DataQueue.v ===== *)
(** * Data queues: kernel/thread/data_queue.c

    A ring of elements, each the address and length of some data, with a semaphore
    for its vacancies and one for its elements.  A function that waits for a semaphore
    is split where it gives up the processor, as in Semaphore.v. *)

From S2P Require Import Prelude DoubleLink IdManager Bitmap Ring Kernel ReadyVector Assign Delay Task TaskInv Creation Deadlines PendList Waiting Semaphore.

(** ** The state *)

Record DataElemType : Type := mkDataElem { data : Z; data_length : Z }.

Record DataQueueType : Type := mkDataqueue {
  dq_front : Z;  (* uint16 *)
  dq_rear : Z;  (* uint16 *)
  max_len : Z;  (* uint16 *)
  dq_base : option (list DataElemType);
  sem_blank : Z;
  sem_data : Z;
}.

(** The kernel with one data queue. *)
Record dq_state : Type := mkDqState { dq_kernel : kstate; dqueue : DataQueueType }.

Definition set_dq_kernel (k : kstate) (s : dq_state) : dq_state := mkDqState k (dqueue s).
Definition set_dqueue (q : DataQueueType) (s : dq_state) : dq_state := mkDqState (dq_kernel s) q.
Definition in_dq_kernel {A : Type} : M kstate A -> M dq_state A := zoom dq_kernel set_dq_kernel.

Section DataQueue.
Context `{C : KConfig} `{D : PriorityReadyVectorDone}.

(** [a % b] of C on the promoted operands; a division by zero is undefined. *)
Definition c_rem (a b : Z) : M dq_state Z := if b =? 0 then fault else mret (Z.rem a b).

(** ** Waiting for a semaphore

    [None]: the processor was given up.  Otherwise the result to return, or
    [Some None] to go on. *)
Definition acquire (mem : option ptr) (sem : Z) (timeout : Z) : M dq_state (option (option Z)) :=
  if timeout =? WAITING_FOREVER then
    r ← in_dq_kernel (KSemaphoreObtain mem sem WAITING_FOREVER);
    mret (match r with None => None | Some _ => Some None end)
  else if timeout =? 0 then
    r ← in_dq_kernel (KSemaphoreObtain mem sem 0);
    mret (match r with
          | None => None
          | Some r => Some (if r =? EOK then None else Some (- ERROR))
          end)
  else mret (Some None).

(** What is made of the result of [KSemaphoreObtain] after the task had to wait. *)
Definition acquire_resume (task : ptr) (timeout : Z) : M dq_state (option Z) :=
  r ← in_dq_kernel (_SemaphoreObtain_resume task);
  mret (if timeout =? WAITING_FOREVER then None else if r =? EOK then None else Some (- ERROR)).

(** ** Pushing *)

Definition push_elem (StartAddr DataSize : Z) : M dq_state Z :=
  lock ← in_dq_kernel CriticalAreaLock;
  q ← gets dqueue;
  next ← c_rem (dq_rear q + 1) (max_len q);
  (if negb (next =? dq_front q) then
     elems ← deref (dq_base q);
     deref (elems !! Z.to_nat (dq_rear q));;
     modify (set_dqueue (mkDataqueue (dq_front q) (u16 next) (max_len q)
       (Some (<[Z.to_nat (dq_rear q) := mkDataElem StartAddr DataSize]> elems)) (sem_blank q) (sem_data q)))
   else mret tt);;
  in_dq_kernel (CriticalAreaUnLock lock);;
  in_dq_kernel (KSemaphoreAbandon (sem_data q));;
  mret EOK.

Definition PushDataqueue (mem : option ptr) (StartAddr : option Z) (DataSize timeout : Z) : M dq_state (option Z) :=
  addr ← NULL_PARAM_CHECK StartAddr;
  q ← gets dqueue;
  go ← acquire mem (sem_blank q) timeout;
  match go with
  | None => mret None
  | Some (Some r) => mret (Some r)
  | Some None => r ← push_elem addr DataSize; mret (Some r)
  end.

Definition PushDataqueue_resume (task : ptr) (addr DataSize timeout : Z) : M dq_state Z :=
  r ← acquire_resume task timeout;
  match r with Some r => mret r | None => push_elem addr DataSize end.

(** ** Popping

    The element is [None] when the function returns without writing its results. *)
Definition pop_elem : M dq_state (Z * option DataElemType) :=
  lock ← in_dq_kernel CriticalAreaLock;
  q ← gets dqueue;
  e ← (if negb (dq_front q =? dq_rear q) then
         elems ← deref (dq_base q);
         e ← deref (elems !! Z.to_nat (dq_front q));
         next ← c_rem (dq_front q + 1) (max_len q);
         modify (set_dqueue (mkDataqueue (u16 next) (dq_rear q) (max_len q) (dq_base q) (sem_blank q) (sem_data q)));;
         mret (Some e)
       else mret None);
  in_dq_kernel (CriticalAreaUnLock lock);;
  in_dq_kernel (KSemaphoreAbandon (sem_blank q));;
  mret (EOK, e).

Definition PopDataqueue (mem : option ptr) (timeout : Z) : M dq_state (option (Z * option DataElemType)) :=
  q ← gets dqueue;
  go ← acquire mem (sem_data q) timeout;
  match go with
  | None => mret None
  | Some (Some r) => mret (Some (r, None))
  | Some None => r ← pop_elem; mret (Some r)
  end.

Definition PopDataqueue_resume (task : ptr) (timeout : Z) : M dq_state (Z * option DataElemType) :=
  r ← acquire_resume task timeout;
  match r with Some r => mret (r, None) | None => pop_elem end.


(** ** Initialisation *)

Definition DeInitDataqueue : M dq_state unit :=
  lock ← in_dq_kernel DISABLE_INTERRUPT;
  modify (fun s => let q := dqueue s in
    set_dqueue (mkDataqueue (dq_front q) (dq_rear q) (max_len q) None (sem_blank q) (sem_data q)) s);;
  q ← gets dqueue;
  (if negb (sem_blank q =? 0) then
     in_dq_kernel (KSemaphoreDelete (sem_blank q));;
     modify (fun s => let q := dqueue s in
       set_dqueue (mkDataqueue (dq_front q) (dq_rear q) (max_len q) (dq_base q) 0 (sem_data q)) s)
   else mret tt);;
  q ← gets dqueue;
  (if negb (sem_data q =? 0) then
     in_dq_kernel (KSemaphoreDelete (sem_data q));;
     modify (fun s => let q := dqueue s in
       set_dqueue (mkDataqueue (dq_front q) (dq_rear q) (max_len q) (dq_base q) (sem_blank q) 0) s)
   else mret tt);;
  in_dq_kernel (ENABLE_INTERRUPT lock).

(** [buf] is the block that [x_malloc] returns, with whatever it holds; [mem1] and
    [mem2] are the results of the allocations of the semaphores. *)
Definition InitDataqueue (buf : option (list DataElemType)) (mem1 mem2 : option ptr) (NodeNumber : Z) : M dq_state Z :=
  lock ← in_dq_kernel CriticalAreaLock;
  modify (set_dqueue (mkDataqueue 0 0 NodeNumber buf 0 0));;
  ok ← match buf with
       | None => mret false
       | Some _ =>
           blank ← in_dq_kernel (KSemaphoreCreate mem1 (u16 (NodeNumber - 1)));
           modify (set_dqueue (mkDataqueue 0 0 NodeNumber buf blank 0));;
           if blank =? 0 then mret false
           else
             sdata ← in_dq_kernel (KSemaphoreCreate mem2 0);
             modify (set_dqueue (mkDataqueue 0 0 NodeNumber buf blank sdata));;
             mret (negb (sdata =? 0))
       end;
  in_dq_kernel (CriticalAreaUnLock lock);;
  if (ok : bool) then mret EOK else DeInitDataqueue;; mret (- ERROR).

(** ** The ring *)

Implicit Types (k : kstate) (L : gmap link (list link)) (I : gmap Z link) (dl : list ptr) (q : DataQueueType) (es : list DataElemType).

(** The ring [q] holds the elements [es]; one of its places is never used. *)
Record dq_ring q es : Prop := {
  rg_max : 0 < max_len q < 2 ^ 16;
  rg_rear : dq_rear q = ring_end (max_len q) (dq_front q) es;
  rg_base : exists buf, dq_base q = Some buf /\ ring (max_len q) (dq_front q) buf es;
}.

Lemma wp_c_rem a b (Q : Z -> dq_state -> Prop) s : 0 <= a -> 0 < b -> Q (a mod b) s -> wp (c_rem a b) Q s.
Proof. intros Ha Hb HQ. unfold c_rem. rewrite (proj2 (Z.eqb_neq b 0)), Z.rem_mod_nonneg by lia. exact HQ. Qed.

Lemma rear_bound q es : dq_ring q es -> 0 <= dq_rear q < max_len q.
Proof. intros [_ -> (buf & _ & Hr)]. by eapply ring_end_bound. Qed.

Lemma ring_full q es : dq_ring q es -> (dq_rear q + 1) mod max_len q = dq_front q <-> Z.of_nat (length es) + 1 = max_len q.
Proof. intros [_ -> (buf & _ & Hr)]. by eapply ring_is_full. Qed.
Lemma ring_empty q es : dq_ring q es -> dq_front q = dq_rear q <-> es = [].
Proof. intros [_ -> (buf & _ & Hr)]. by eapply ring_is_empty. Qed.

Definition push_ring (e : DataElemType) q : DataQueueType :=
  mkDataqueue (dq_front q) ((dq_rear q + 1) mod max_len q) (max_len q)
    ((fun buf => <[Z.to_nat (dq_rear q) := e]> buf) <$> dq_base q) (sem_blank q) (sem_data q).


Lemma ring_push q es e : dq_ring q es -> Z.of_nat (length es) + 1 < max_len q -> dq_ring (push_ring e q) (es ++ [e]).
Proof.
  intros [Hm Hrear (buf & Ebuf & Hr)] Hroom. split; cbn [push_ring dq_front dq_rear max_len dq_base]; [done|by rewrite Hrear, (ring_end_next _ _ es e)|].
  rewrite Ebuf, Hrear. eexists. split; [reflexivity|]. by apply ring_store.
Qed.


(** ** Its semaphores *)

Context `{CO : !KConfigOk C} `{DL : !ReadyVectorLaws D}.

(** The queue holds [es]; [b] and [d] are its semaphores, with their values and the
    tasks that wait for them.  A task that was woken and did not run yet owns a vacancy
    or an element that the values no longer count. *)
Record dq_rep (s : dq_state) L (b d : ptr) (vb vd : Z) (lb ld : list link) es : Prop := {
  dr_ring : dq_ring (dqueue s) es;
  dr_blank : sem_ok (dq_kernel s) L b vb lb;
  dr_data : sem_ok (dq_kernel s) L d vd ld;
  dr_vacancies : vb + Z.of_nat (length es) < max_len (dqueue s);
  dr_elements : vd <= Z.of_nat (length es);
}.

(** The identifiers the queue keeps. *)
Record dq_objects (s : dq_state) L (b d : ptr) : Prop := {
  do_blank : has_object (dq_kernel s) L CSem (sem_blank (dqueue s)) b;
  do_data : has_object (dq_kernel s) L CSem (sem_data (dqueue s)) d;
  do_distinct : b <> d;
}.

Lemma wp_in_dq {A : Type} (m : M kstate A) (Q : A -> dq_state -> Prop) k q :
  wp m (fun a k' => Q a (mkDqState k' q)) k -> wp (in_dq_kernel m) Q (mkDqState k q).
Proof. exact (wp_zoom dq_kernel set_dq_kernel m Q (mkDqState k q)). Qed.

Definition plain_timeout (timeout : Z) : Prop := timeout = 0 \/ timeout = WAITING_FOREVER.

Lemma wp_acquire_now k q L mem id s v l timeout (Q : option (option Z) -> dq_state -> Prop) :
  has_object k L CSem id s -> sem_ok k L s v l -> 0 < v -> 0 <= KTaskOsAssignLockNest k < 2 ^ 15 - 1 -> plain_timeout timeout ->
  Q (Some None) (mkDqState (with_value s (v - 1) k) q) -> wp (acquire mem id timeout) Q (mkDqState k q).
Proof.
  intros Hobj Hs Hpos Hn Ht HQ. unfold acquire. destruct Ht as [-> | ->]; cbn [Z.eqb WAITING_FOREVER];
    apply wp_bind, wp_in_dq; (eapply wp_KSemaphoreObtain_now; [done..|]); by wp_steps.
Qed.

Lemma wp_acquire_wait k q L I dl mem id s l timeout t td (Q : option (option Z) -> dq_state -> Prop) :
  kernel_ok k L I dl -> has_object k L CSem id s -> sem_ok k L s 0 l -> task_context k t td mem -> plain_timeout timeout ->
  (forall k' L' dl' l', kernel_ok k' L' I dl' -> outer k' = outer k -> runs_highest k' -> sem_ok k' L' s 0 l' ->
     l' ≡ₚ SchedLink t :: l -> other_lists_kept (PendList CSem s) L L' ->
     waits k' L' dl' t (set_exstatus EOK td) (PendList CSem s) (CalculteTickFromTimeMs (u32 timeout)) (heartbeat_ticks k) ->
     Q None (mkDqState k' q)) ->
  wp (acquire mem id timeout) Q (mkDqState k q).
Proof.
  intros Hko Hobj Hs Hctx Ht HQ. unfold acquire. destruct Ht as [-> | ->]; cbn [Z.eqb WAITING_FOREVER];
    apply wp_bind, wp_in_dq; (eapply wp_KSemaphoreObtain_wait; [done..|]); intros k' L' dl' l' H1 H2 H3 H4 H5 H6 H7;
    wp_steps; by eapply HQ.
Qed.

Lemma wp_release_sem k q L I dl id s v l o vo lo c (Q : Z -> dq_state -> Prop) :
  kernel_ok k L I dl -> has_object k L CSem id s -> sem_ok k L s v l -> sem_ok k L o vo lo -> o <> s -> v + 1 < 2 ^ 16 ->
  os_running_task k = Some c -> KTaskOsAssignLockNest k = 0 ->
  (forall k' L' dl', kernel_ok k' L' I dl' -> sem_ok k' L' s (released_value v l) (List.tl l) -> sem_ok k' L' o vo lo ->
     released k s v l k' -> Q EOK (mkDqState k' q)) ->
  wp (in_dq_kernel (KSemaphoreAbandon id)) Q (mkDqState k q).
Proof.
  intros Hko Hobj Hs Ho Hne Hv Hc Hn HQ. apply wp_in_dq. eapply wp_KSemaphoreAbandon_released; [done..|].
  intros k' L' dl' Hko' Hs' Hoth Hrel. eapply HQ; [done|done|by apply Hoth|done].
Qed.

(** ** Pushing and popping an element *)

Lemma wp_push_elem k q L I dl b d vb vd lb ld es addr n c (Q : Z -> dq_state -> Prop) :
  kernel_ok k L I dl -> dq_rep (mkDqState k q) L b d vb vd lb ld es -> dq_objects (mkDqState k q) L b d ->
  vb + Z.of_nat (length es) + 1 < max_len q -> os_running_task k = Some c -> KTaskOsAssignLockNest k = 0 ->
  (forall k' L' dl', let s' := mkDqState k' (push_ring (mkDataElem addr n) q) in
     kernel_ok k' L' I dl' -> dq_rep s' L' b d vb (released_value vd ld) lb (List.tl ld) (es ++ [mkDataElem addr n]) ->
     released k d vd ld k' -> Q EOK s') ->
  wp (push_elem addr n) Q (mkDqState k q).
Proof.
  intros Hko [Hring Hb Hd Hvac Hel] [_ Hobj Hne] Hroom Hc Hn HQ. cbn [dq_kernel dqueue] in *.
  pose proof (rear_bound q es Hring) as Hrear. pose proof (sk_range _ _ _ _ _ Hb). pose proof Hring as [Hmax _ (buf & Ebuf & [_ _ Hlen _])].
  assert (Z.of_nat (length es) + 1 < max_len q) as Hroom' by lia.
  unfold push_elem. wp_steps. apply wp_in_dq, wp_CriticalAreaLock; [lia|]. wp_steps. cbn [dqueue].
  apply wp_c_rem; [lia|lia|]. destruct (Z.eqb_spec ((dq_rear q + 1) mod max_len q) (dq_front q)) as [E|_].
  { apply (ring_full q es Hring) in E. lia. }
  cbn [negb]. wp_steps. rewrite Ebuf. wp_steps. destruct (lookup_lt_is_Some_2 buf (Z.to_nat (dq_rear q))) as [old Eold]; [lia|].
  rewrite Eold. wp_steps. rewrite u16_small by (pose proof (Z.mod_pos_bound (dq_rear q + 1) (max_len q)); lia).
  apply wp_in_dq, wp_CriticalAreaUnLock; [cbn; lia|]. rewrite unlocked_locked. wp_steps.
  assert (push_ring (mkDataElem addr n) q = mkDataqueue (dq_front q) ((dq_rear q + 1) mod max_len q) (max_len q)
    (Some (<[Z.to_nat (dq_rear q) := mkDataElem addr n]> buf)) (sem_blank q) (sem_data q)) as Ering by (unfold push_ring; by rewrite Ebuf).
  cbn [set_dqueue dq_kernel dqueue]. rewrite <- Ering.
  eapply (wp_release_sem k _ L I dl _ d vd ld b vb lb c); [done|exact Hobj|done|done|done|lia|done|done|].
  intros k' L' dl' Hko' Hd' Hb' Hrel. wp_steps. apply (HQ k' L' dl'); [done| |done].
  split; cbn [dq_kernel dqueue]; [by apply ring_push|done|done| |].
  { cbn [max_len push_ring]. rewrite length_app. cbn [length]. lia. }
  rewrite length_app. cbn [length]. pose proof (sk_range _ _ _ _ _ Hd). pose proof (released_value_small vd ld). lia.
Qed.


(** Taking the semaphore [s] keeps the rest. *)
Lemma wp_push_now k q L I dl mem b d vb vd lb ld es addr n timeout c (Q : option Z -> dq_state -> Prop) :
  kernel_ok k L I dl -> dq_rep (mkDqState k q) L b d vb vd lb ld es -> dq_objects (mkDqState k q) L b d -> 0 < vb ->
  plain_timeout timeout -> os_running_task k = Some c -> KTaskOsAssignLockNest k = 0 ->
  (forall k' L' dl', let s' := mkDqState k' (push_ring (mkDataElem addr n) q) in
     kernel_ok k' L' I dl' -> dq_rep s' L' b d (vb - 1) (released_value vd ld) lb (List.tl ld) (es ++ [mkDataElem addr n]) ->
     released (with_value b (vb - 1) k) d vd ld k' -> Q (Some EOK) s') ->
  wp (PushDataqueue mem (Some addr) n timeout) Q (mkDqState k q).
Proof.
  intros Hko [Hring Hb Hd Hvac Hel] [Hobb Hobd Hne] Hpos Ht Hc Hn HQ. cbn [dq_kernel dqueue] in *.
  pose proof (sk_range _ _ _ _ _ Hb). unfold PushDataqueue. wp_steps. eapply wp_null_check; [done|]. wp_steps.
  eapply wp_acquire_now; [exact Hobb|exact Hb|done|lia|done|]. wp_steps.
  eapply (wp_push_elem (with_value b (vb - 1) k) q L I dl b d (vb - 1) vd lb ld es);
    [by apply kernel_ok_sems| | |lia|done|done|].
  - split; cbn [dq_kernel dqueue]; [done|apply (sem_ok_with_value k L b vb); [done|lia]|by apply sem_ok_other, not_eq_sym|lia|done].
  - by split.
  - intros k' L' dl' s' Hko' Hrep Hrel. wp_steps. by apply (HQ k' L' dl').
Qed.


(** ** Correctness *)

(** Pushing to a data queue in a task, with the timeout 0 or WAITING_FOREVER.  With
    a vacancy the element is appended, and its semaphore is incremented or the first
    task that waits for an element can run.  Without one the caller is suspended on the
    semaphore of the vacancies, with the delay of its timeout and also for the timeout 0
    that is meant not to block, and the queue stays the same. *)
Theorem PushDataqueue_correct k q L I dl mem b d vb vd lb ld es addr n timeout t td :
  kernel_ok k L I dl -> dq_rep (mkDqState k q) L b d vb vd lb ld es -> dq_objects (mkDqState k q) L b d ->
  task_context k t td mem -> plain_timeout timeout ->
  wp (PushDataqueue mem (Some addr) n timeout) (fun r s' => exists L' dl', kernel_ok (dq_kernel s') L' I dl' /\
    if 0 <? vb then r = Some EOK /\ released (with_value b (vb - 1) k) d vd ld (dq_kernel s') /\
      dq_rep s' L' b d (vb - 1) (released_value vd ld) lb (List.tl ld) (es ++ [mkDataElem addr n])
    else r = None /\ runs_highest (dq_kernel s') /\ exists lb', lb' ≡ₚ SchedLink t :: lb /\ dq_rep s' L' b d 0 vd lb' ld es /\
      waits (dq_kernel s') L' dl' t (set_exstatus EOK td) (PendList CSem b) (CalculteTickFromTimeMs (u32 timeout)) (heartbeat_ticks k))
    (mkDqState k q).
Proof.
  intros Hko Hrep Hobj Hctx Ht. pose proof (tc_nest _ _ _ _ Hctx) as Hn. destruct (Z.ltb_spec 0 vb) as [Hpos|Hzero].
  - eapply wp_push_now; [done..|apply Hctx|done|]. intros k' L' dl' s' Hko' Hrep' Hrel. by exists L', dl'.
  - destruct Hrep as [Hring Hb Hd Hvac Hel], Hobj as [Hobb Hobd Hne]. cbn [dq_kernel dqueue] in *.
    pose proof (sk_range _ _ _ _ _ Hb). assert (vb = 0) as -> by lia.
    unfold PushDataqueue. wp_steps. eapply wp_null_check; [done|]. wp_steps.
    eapply wp_acquire_wait; [exact Hko|exact Hobb|exact Hb|exact Hctx|done|].
    intros k' L' dl' lb' Hko' Hout Hr Hb' Hlb' Hoth Hw. wp_steps. exists L', dl'. split_and!; [done|done|done|].
    exists lb'. split_and!; [done| |done]. split; cbn [dq_kernel dqueue]; [done|done| |done|done].
    destruct Hd as [E Hv HL]. split; [|done|rewrite Hoth; [done|by intros [=]|done..]].
    change (sems (outer k') !! d = Some (mkSemaphore vd)). by rewrite Hout.
Qed.

(** When a producer that was woken with a vacancy of its own runs again, or one whose
    wait ended with an error. *)
Theorem PushDataqueue_resume_correct k q L I dl b d vb vd lb ld es addr n timeout t td :
  kernel_ok k L I dl -> dq_rep (mkDqState k q) L b d vb vd lb ld es -> dq_objects (mkDqState k q) L b d ->
  os_running_task k = Some t -> tasks k !! t = Some td -> KTaskOsAssignLockNest k = 0 -> timeout = 0 ->
  (exstatus td = EOK -> vb + Z.of_nat (length es) + 1 < max_len q) ->
  wp (PushDataqueue_resume t addr n timeout) (fun r s' =>
    if exstatus td =? EOK then r = EOK /\ exists L' dl', kernel_ok (dq_kernel s') L' I dl' /\ released k d vd ld (dq_kernel s') /\
      dq_rep s' L' b d vb (released_value vd ld) lb (List.tl ld) (es ++ [mkDataElem addr n])
    else r = - ERROR /\ s' = mkDqState k q) (mkDqState k q).
Proof.
  intros Hko Hrep Hobj Hc Et Hn -> Hroom. unfold PushDataqueue_resume, acquire_resume, _SemaphoreObtain_resume.
  wp_steps. apply wp_in_dq. eapply wp_task_get; [exact Et|]. wp_steps. destruct (Z.eqb_spec (exstatus td) EOK) as [Ex|Ex]; wp_steps.
  - eapply wp_push_elem; [done|done|done|by apply Hroom|done|done|]. intros k' L' dl' s' Hko' Hrep' Hrel. split; [done|]. by exists L', dl'.
  - done.
Qed.

(** With any other timeout the semaphores are not asked at all, and running out of
    room or of elements is not noticed: pushing to a full queue drops the element,
    popping from an empty one gives none, both answer EOK, and both release a semaphore,
    so that from then on its value promises an element or a vacancy that is not there. *)
Theorem DataQueue_other_timeouts k q L I dl mem b d vb vd lb ld es addr n timeout c :
  kernel_ok k L I dl -> dq_rep (mkDqState k q) L b d vb vd lb ld es -> dq_objects (mkDqState k q) L b d ->
  timeout <> 0 -> timeout <> WAITING_FOREVER -> os_running_task k = Some c -> KTaskOsAssignLockNest k = 0 ->
  (Z.of_nat (length es) + 1 = max_len q -> wp (PushDataqueue mem (Some addr) n timeout)
    (fun r s' => r = Some EOK /\ dqueue s' = q /\ released k d vd ld (dq_kernel s')) (mkDqState k q)) /\
  (es = [] -> wp (PopDataqueue mem timeout)
    (fun r s' => r = Some (EOK, None) /\ dqueue s' = q /\ released k b vb lb (dq_kernel s')) (mkDqState k q)).
Proof.
  intros Hko [Hring Hb Hd Hvac Hel] [Hobb Hobd Hne] H0 Hf Hc Hn. cbn [dq_kernel dqueue] in *.
  pose proof (sk_range _ _ _ _ _ Hb). pose proof (rear_bound q es Hring). pose proof (rg_max _ _ Hring).
  unfold PushDataqueue, PopDataqueue, acquire, push_elem, pop_elem.
  rewrite (proj2 (Z.eqb_neq _ _) Hf), (proj2 (Z.eqb_neq _ _) H0). split; [intros Hfull|intros ->].
  - wp_steps. eapply wp_null_check; [done|]. wp_steps. apply wp_in_dq, wp_CriticalAreaLock; [lia|]. wp_steps. cbn [dqueue].
    apply wp_c_rem; [lia|lia|]. rewrite (proj2 (ring_full q es Hring) Hfull), Z.eqb_refl. cbn [negb]. wp_steps.
    apply wp_in_dq, wp_CriticalAreaUnLock; [cbn; lia|]. rewrite unlocked_locked. wp_steps.
    eapply (wp_release_sem k q L I dl _ d vd ld b vb lb c); [done..|lia|done|done|]. intros k' L' dl' _ _ _ Hrel. by wp_steps.
  - wp_steps. apply wp_in_dq, wp_CriticalAreaLock; [lia|]. wp_steps. cbn [dqueue].
    rewrite (proj2 (ring_empty q [] Hring) eq_refl), Z.eqb_refl. cbn [negb]. wp_steps.
    apply wp_in_dq, wp_CriticalAreaUnLock; [cbn; lia|]. rewrite unlocked_locked. wp_steps. cbn [length] in *.
    eapply (wp_release_sem k q L I dl _ b vb lb d vd ld c); [done..|by apply not_eq_sym|lia|done|done|].
    intros k' L' dl' _ _ _ Hrel. by wp_steps.
Qed.

(** ** Histories *)







(** A queue no task waits for: its semaphores count its vacancies and elements. *)
Definition dq_idle (s : dq_state) L (b d : ptr) es : Prop :=
  dq_rep s L b d (max_len (dqueue s) - 1 - Z.of_nat (length es)) (Z.of_nat (length es)) [] [] es /\ dq_objects s L b d.






(** ** Initialisation *)

Lemma sem_links_disjoint s s' x : s <> s' -> x ∈ sem_links s' -> x ∉ sem_links s.
Proof. unfold sem_links. set_solver. Qed.

(** A new queue is empty, and its semaphores count its vacancies and elements, when
    identifiers for two semaphores are left and the identifier 0 is used.  When it is
    not, the first semaphore gets it; that is taken for a failure, and the semaphore
    stays in the kernel. *)
Theorem InitDataqueue_correct k q L I dl mgr J l buf b d n :
  kernel_ok k L I dl -> ids_of CSem k mgr L J -> L !! ListHead CSem = Some l -> unborn k J b -> unborn k J d -> b <> d ->
  0 < n < 2 ^ 16 -> Z.of_nat (length buf) = n -> KTaskOsAssignLockNest k = 0 ->
  (exists i j, 0 <= i < j /\ j < id_max mgr /\ J !! i = None /\ J !! j = None) ->
  wp (InitDataqueue (Some buf) (Some b) (Some d) n) (fun r s' => exists L', kernel_ok (dq_kernel s') L' I dl /\
    if bool_decide (is_Some (J !! 0)) then r = EOK /\ dq_idle s' L' b d []
    else r = - ERROR /\ sem_ok (dq_kernel s') L' b (n - 1) [] /\ has_object (dq_kernel s') L' CSem 0 b /\ sems (dq_kernel s') !! d = None)
    (mkDqState k q).
Proof.
  intros Hko Hids Hl [Hf1 Hs1 Hn1 HJ1] [Hf2 Hs2 Hn2 HJ2] Hne Hn Hbuf Hnest (i & j & Hij & Hj & Ei & Ej).
  unfold InitDataqueue. wp_steps. apply wp_in_dq, wp_CriticalAreaLock; [lia|]. wp_steps.
  apply wp_in_dq. rewrite u16_small by lia.
  assert (kernel_ok (locked k) L I dl) as Hko0 by by eapply kernel_ok_fields.
  eapply wp_mono; [apply (KSemaphoreCreate_correct (locked k) L I dl mgr J l b (n - 1)); [done..|lia|cbn; lia]|].
  intros blank k1 [(_ & Hall & _)|(Hl1 & Hb1 & mgr1 & h1 & L1 & Em1 & Ek1 & Hko1 & Hids1 & Hsem1 & HL1 & Hf3 & Hkeep1)].
  { destruct (Hall i) as [? ?]; [lia|congruence]. }
  assert (KTaskOsAssignLockNest k1 = 1) as En1 by (rewrite Ek1; cbn; lia).
  wp_steps. cbn [set_dqueue dq_kernel dqueue]. destruct Hl1 as (Hpos1 & HJb & Hleast1). case_bool_decide as H0.
  - rewrite (proj2 (Z.eqb_neq blank 0)) by (intros ->; by rewrite HJb in H0; destruct H0). wp_steps. apply wp_in_dq.
    eapply wp_mono; [apply (KSemaphoreCreate_correct k1 L1 I dl mgr1 _ _ d 0 Hko1 Hids1 HL1)|].
    + rewrite Ek1. apply Hf3; [done|]. intros x. by apply sem_links_disjoint.
    + rewrite Ek1. cbn. by rewrite lookup_insert_ne.
    + rewrite Ek1. cbn. rewrite lookup_insert_ne by congruence. done.
    + intros x [[_ [=]]|[_ Hx]]%lookup_insert_Some; [by apply Hne|by apply (HJ2 x)].
    + lia.
    + lia.
    + intros sdata k2 [(_ & Hall & _)|((Hpos2 & HJd & _) & Hd2 & mgr2 & h2 & L2 & Em2 & Ek2 & Hko2 & Hids2 & Hsem2 & _ & _ & Hkeep2)].
      { exfalso. destruct (decide (blank = i)) as [->|Hbi].
        - destruct (Hall j) as [x Hx]; [lia|]. rewrite lookup_insert_ne in Hx by lia. congruence.
        - destruct (Hall i) as [x Hx]; [lia|]. rewrite lookup_insert_ne in Hx by done. congruence. }
      assert (KTaskOsAssignLockNest k2 = 1) as En2 by (rewrite Ek2; exact En1).
      wp_steps. apply wp_in_dq, wp_CriticalAreaUnLock; [cbn [dq_kernel set_dqueue]; rewrite En2; lia|]. cbn [dq_kernel set_dqueue].
      assert (sdata <> 0) as Hs0.
      { intros ->. apply lookup_insert_None in HJd as [HJ0 _]. by rewrite HJ0 in H0; destruct H0. }
      rewrite (proj2 (Z.eqb_neq _ _) Hs0). cbn [negb]. wp_steps. exists L2. split; [by eapply kernel_ok_fields|]. split; [done|].
      assert (blank <> sdata) as Hbs by (intros ->; by rewrite lookup_insert_eq in HJd).
      cbn [set_dqueue dq_kernel dqueue]. split; [split|split].
      * split; cbn [max_len dq_front dq_rear dq_base length dqueue]; [done|unfold ring_end; cbn; by rewrite Z.mod_small by lia|].
        exists buf. split; [done|]. apply ring_empty_intro; lia.
      * cbn [dqueue max_len length]. replace (n - 1 - Z.of_nat 0) with (n - 1) by lia. destruct (Hkeep2 _ _ _ Hsem1). by split.
      * destruct Hsem2. by split.
      * cbn [dqueue max_len length]. lia.
      * cbn [length]. lia.
      * eapply (ids_of_has_object CSem (unlocked (interrupts k) k2) mgr2); [exact Hids2|].
        rewrite lookup_insert_ne by done. apply lookup_insert_eq.
      * eapply (ids_of_has_object CSem (unlocked (interrupts k) k2) mgr2); [exact Hids2|apply lookup_insert_eq].
      * done.
  - assert (blank = 0) as ->.
    { destruct (decide (blank = 0)) as [|Hb0]; [done|]. destruct (Hleast1 0) as [x Hx]; [lia|]. by destruct H0; exists x. }
    cbn [Z.eqb]. wp_steps. apply wp_in_dq, wp_CriticalAreaUnLock; [cbn [dq_kernel set_dqueue]; rewrite En1; lia|].
    cbn [dq_kernel set_dqueue]. wp_steps.
    unfold DeInitDataqueue, DISABLE_INTERRUPT, ENABLE_INTERRUPT. wp_steps. apply wp_in_dq. wp_steps.
    apply wp_in_dq. wp_steps. exists L1.
    split; [by eapply kernel_ok_fields|]. split; [done|]. split; [destruct Hsem1; by split|]. split.
    + eapply (ids_of_has_object CSem (set_interrupts _ k1) mgr1); [exact Hids1|apply lookup_insert_eq].
    + rewrite Ek1. cbn. by rewrite lookup_insert_ne.
Qed.

End DataQueue.
