(* ===== verification/Serial.v ===== *)
(** * Serial devices: resources/serial/dev_serial.c

    A serial device over a board that moves single characters: a ring that its interrupt
    handler fills and a task empties, and writing with or without interrupts.  The build
    is the one without DMA (SERIAL_USING_DMA), as for the emulator boards.  A function
    that waits for a semaphore is split where it gives up the processor. *)

From S2P Require Import Prelude DoubleLink IdManager Bitmap Ring Kernel ReadyVector Assign Delay Task TaskInv Creation Deadlines PendList Waiting Semaphore.

Definition SIGN_OPER_STREAM : Z := 2 ^ 6.
Definition SIGN_OPER_INT_RX : Z := 2 ^ 8.
Definition SIGN_OPER_DMA_RX : Z := 2 ^ 9.
Definition SIGN_OPER_INT_TX : Z := 2 ^ 10.
Definition SIGN_OPER_DMA_TX : Z := 2 ^ 11.
Definition OPER_SET_INT : Z := 0x10.
Definition OPER_CLR_INT : Z := 0x11.
Definition SERIAL_EVENT_RX_IND : Z := 1.
Definition SERIAL_event_id_tX_DONE : Z := 2.

(** [flag & mode] *)
Definition flag_on (flag mode : Z) : bool := negb (Z.land flag mode =? 0).

(** ** The board

    What the code calls through pointers: [put_char] and [get_char] of the hardware, the
    function [configure] of the driver that owns the bus, and the callback of the client,
    which may be null. *)
Class SerialHwDevDone (DS : Type) : Type := {
  put_char : Z -> M DS Z;
  get_char : M DS Z;
  drv_set : Z -> M DS Z;
  dev_recv_callback : option (Z -> M (kstate * DS) Z);
}.

(** ** The state

    Structures that are allocated are kept by address. *)
Record SerialRx : Type := mkSerialRx {
  serial_rx_buffer : option ptr;
  serial_send_num : Z;  (* uint16 *)
  serial_recv_num : Z;  (* uint16 *)
  serial_rx_full : bool;
}.

Record SerialTx : Type := mkSerialTx { serial_txfifo_sem : Z }.

(** The device with the fields of its parameters that are used. *)
Record SerialHardwareDevice : Type := mkSerial {
  serial_rx : option ptr;
  serial_tx : option ptr;
  serial_work_mode : Z;  (* uint16 *)
  serial_set_mode : Z;  (* uint16 *)
  serial_stream_mode : Z;  (* uint16 *)
  serial_buffer_size : Z;  (* uint16 *)
  dev_sem : Z;
}.

Record ser_state (DS : Type) : Type := mkSer {
  ser_kernel : kstate;
  ser_hw : DS;
  serial : SerialHardwareDevice;
  rxs : gmap ptr SerialRx;
  txs : gmap ptr SerialTx;
  rx_buffers : gmap ptr (list Z);
}.
Arguments mkSer {DS} ser_kernel ser_hw serial rxs txs rx_buffers.
Arguments ser_kernel {DS} _. Arguments ser_hw {DS} _. Arguments serial {DS} _.
Arguments rxs {DS} _. Arguments txs {DS} _. Arguments rx_buffers {DS} _.

Section Serial.
Context {DS : Type} `{HW : SerialHwDevDone DS} `{C : KConfig} `{D : PriorityReadyVectorDone}.
Abbreviation sst := (ser_state DS).

Definition set_ser_kernel (k : kstate) (s : sst) : sst := mkSer k (ser_hw s) (serial s) (rxs s) (txs s) (rx_buffers s).
Definition set_ser_hw (w : DS) (s : sst) : sst := mkSer (ser_kernel s) w (serial s) (rxs s) (txs s) (rx_buffers s).
Definition set_serial (d : SerialHardwareDevice) (s : sst) : sst := mkSer (ser_kernel s) (ser_hw s) d (rxs s) (txs s) (rx_buffers s).
Definition set_rxs (r : gmap ptr SerialRx) (s : sst) : sst := mkSer (ser_kernel s) (ser_hw s) (serial s) r (txs s) (rx_buffers s).
Definition set_txs (t : gmap ptr SerialTx) (s : sst) : sst := mkSer (ser_kernel s) (ser_hw s) (serial s) (rxs s) t (rx_buffers s).
Definition set_rx_buffers (b : gmap ptr (list Z)) (s : sst) : sst := mkSer (ser_kernel s) (ser_hw s) (serial s) (rxs s) (txs s) b.

Definition set_serial_rx (v : option ptr) (d : SerialHardwareDevice) : SerialHardwareDevice :=
  mkSerial v (serial_tx d) (serial_work_mode d) (serial_set_mode d) (serial_stream_mode d) (serial_buffer_size d) (dev_sem d).
Definition set_serial_tx (v : option ptr) (d : SerialHardwareDevice) : SerialHardwareDevice :=
  mkSerial (serial_rx d) v (serial_work_mode d) (serial_set_mode d) (serial_stream_mode d) (serial_buffer_size d) (dev_sem d).
Definition set_work_mode (v : Z) (d : SerialHardwareDevice) : SerialHardwareDevice :=
  mkSerial (serial_rx d) (serial_tx d) v (serial_set_mode d) (serial_stream_mode d) (serial_buffer_size d) (dev_sem d).
Definition set_set_mode (v : Z) (d : SerialHardwareDevice) : SerialHardwareDevice :=
  mkSerial (serial_rx d) (serial_tx d) (serial_work_mode d) v (serial_stream_mode d) (serial_buffer_size d) (dev_sem d).
Definition set_dev_sem (v : Z) (d : SerialHardwareDevice) : SerialHardwareDevice :=
  mkSerial (serial_rx d) (serial_tx d) (serial_work_mode d) (serial_set_mode d) (serial_stream_mode d) (serial_buffer_size d) v.

Definition in_ser_kernel {A : Type} : M kstate A -> M sst A := zoom ser_kernel set_ser_kernel.
Definition in_ser_hw {A : Type} : M DS A -> M sst A := zoom ser_hw set_ser_hw.
(** What the client's callback may change. *)
Definition in_client {A : Type} : M (kstate * DS) A -> M sst A :=
  zoom (fun s => (ser_kernel s, ser_hw s)) (fun x s => set_ser_kernel x.1 (set_ser_hw x.2 s)).

Definition dev_get {A : Type} (f : SerialHardwareDevice -> A) : M sst A := gets (fun s => f (serial s)).
Definition dev_set (f : SerialHardwareDevice -> SerialHardwareDevice) : M sst unit := modify (fun s => set_serial (f (serial s)) s).

(** [serial_fifo.serial_rx->...] and the characters of its buffer. *)
Definition rx_get {A : Type} (f : SerialRx -> A) : M sst A :=
  p ← dev_get serial_rx; p ← deref p; s ← get; x ← deref (rxs s !! p); mret (f x).
Definition rx_set (f : SerialRx -> SerialRx) : M sst unit :=
  p ← dev_get serial_rx; p ← deref p; s ← get; x ← deref (rxs s !! p); modify (set_rxs (<[p := f x]> (rxs s))).
Definition set_send_num (v : Z) (x : SerialRx) : SerialRx := mkSerialRx (serial_rx_buffer x) v (serial_recv_num x) (serial_rx_full x).
Definition set_recv_num (v : Z) (x : SerialRx) : SerialRx := mkSerialRx (serial_rx_buffer x) (serial_send_num x) v (serial_rx_full x).
Definition set_rx_full (v : bool) (x : SerialRx) : SerialRx := mkSerialRx (serial_rx_buffer x) (serial_send_num x) (serial_recv_num x) v.

Definition rx_load (i : Z) : M sst Z :=
  b ← rx_get serial_rx_buffer; b ← deref b;
  s ← get; buf ← deref (rx_buffers s !! b); deref (buf !! Z.to_nat i).
Definition rx_store (i c : Z) : M sst unit :=
  b ← rx_get serial_rx_buffer; b ← deref b;
  s ← get; buf ← deref (rx_buffers s !! b); deref (buf !! Z.to_nat i);;
  modify (set_rx_buffers (<[b := <[Z.to_nat i := c]> buf]> (rx_buffers s))).

Definition tx_sem : M sst Z :=
  p ← dev_get serial_tx; p ← deref p; s ← get; x ← deref (txs s !! p); mret (serial_txfifo_sem x).

(** ** Reading *)

(** [recv_num += 1] and [send_num += 1], from the beginning again at the end of the buffer. *)
Definition advance_recv : M sst unit :=
  r ← rx_get serial_recv_num;
  rx_set (set_recv_num (u16 (r + 1)));;
  size ← dev_get serial_buffer_size;
  r ← rx_get serial_recv_num;
  if size <=? r then rx_set (set_recv_num 0) else mret tt.
Definition advance_send : M sst unit :=
  r ← rx_get serial_send_num;
  rx_set (set_send_num (u16 (r + 1)));;
  size ← dev_get serial_buffer_size;
  r ← rx_get serial_send_num;
  if size <=? r then rx_set (set_send_num 0) else mret tt.

(** Up to [n] characters from the ring. *)
Fixpoint SerialDevIntRead (n : nat) : M sst (list Z) :=
  match n with
  | O => mret []
  | S n =>
      lock ← in_ser_kernel CriticalAreaLock;
      r ← rx_get serial_recv_num;
      w ← rx_get serial_send_num;
      full ← rx_get serial_rx_full;
      if (r =? w) && negb full then in_ser_kernel (CriticalAreaUnLock lock);; mret []
      else
        c ← rx_load r;
        advance_recv;;
        full ← rx_get serial_rx_full;
        (if (full : bool) then rx_set (set_rx_full false) else mret tt);;
        in_ser_kernel (CriticalAreaUnLock lock);;
        cs ← SerialDevIntRead n;
        mret (c :: cs)
  end.

(** [get_char] is stored in a [uint8] before it is compared with [- ERROR]. *)
Fixpoint SerialDevPollingRead (n : nat) : M sst (list Z) :=
  match n with
  | O => mret []
  | S n =>
      c ← in_ser_hw get_char;
      if - ERROR =? u8 c then mret []
      else if u8 c =? 10 then mret [u8 c]
      else cs ← SerialDevPollingRead n; mret (u8 c :: cs)
  end.

(** The result, the characters in the buffer of the caller, and how much [read_length] grew. *)
Definition read_chars (n : nat) : M sst (Z * list Z * Z) :=
  mode ← dev_get serial_work_mode;
  if flag_on mode SIGN_OPER_INT_RX then
    cs ← SerialDevIntRead n; mret (EOK, cs, Z.of_nat (length cs))
  else cs ← SerialDevPollingRead n; mret (EOK, cs, 0).

(** [None]: the caller waits for the semaphore of the device. *)
Definition SerialDevRead (mem : option ptr) (n : nat) : M sst (option (Z * list Z * Z)) :=
  sem ← dev_get dev_sem;
  r ← in_ser_kernel (KSemaphoreObtain mem sem WAITING_FOREVER);
  match r with
  | None => mret None
  | Some r => if r =? EOK then x ← read_chars n; mret (Some x) else mret (Some (EOK, [], 0))
  end.
Definition SerialDevRead_resume (task : ptr) (n : nat) : M sst (Z * list Z * Z) :=
  r ← in_ser_kernel (_SemaphoreObtain_resume task);
  if r =? EOK then read_chars n else mret (EOK, [], 0).

(** ** Writing *)

(** [inr rest]: the caller waits for the semaphore of the transmitter, and [rest] is
    still to be written.  [turns] bounds the turns of the loop, which without end fails
    to put a character when the semaphore does not exist. *)
Fixpoint SerialDevIntWrite (turns : nat) (mem : option ptr) (data : list Z) : M sst (Z + list Z) :=
  match data with
  | [] => mret (inl EOK)
  | c :: rest =>
      match turns with
      | O => hang
      | S turns =>
          r ← in_ser_hw (put_char c);
          if r =? EOK then SerialDevIntWrite turns mem rest
          else
            sem ← tx_sem;
            r ← in_ser_kernel (KSemaphoreObtain mem sem WAITING_FOREVER);
            match r with None => mret (inr data) | Some _ => SerialDevIntWrite turns mem data end
      end
  end.

(** In a stream a line feed gets a carriage return. *)
Fixpoint SerialDevPollingWrite (data : list Z) (serial_stream_mode : Z) : M sst Z :=
  match data with
  | [] => mret EOK
  | c :: rest =>
      (if (c =? 10) && (SIGN_OPER_STREAM =? serial_stream_mode) then in_ser_hw (put_char 13);; mret tt else mret tt);;
      in_ser_hw (put_char c);;
      SerialDevPollingWrite rest serial_stream_mode
  end.

Definition SerialDevWrite (turns : nat) (mem : option ptr) (data : list Z) : M sst (Z + list Z) :=
  mode ← dev_get serial_work_mode;
  if flag_on mode SIGN_OPER_INT_TX then SerialDevIntWrite turns mem data
  else stream ← dev_get serial_stream_mode; r ← SerialDevPollingWrite data stream; mret (inl r).
(** When the caller runs again, whatever its wait ended with. *)
Definition SerialDevWrite_resume (turns : nat) (mem : option ptr) (task : ptr) (rest : list Z) : M sst (Z + list Z) :=
  in_ser_kernel (_SemaphoreObtain_resume task);;
  SerialDevIntWrite turns mem rest.

(** ** The interrupt handler *)

(** The ring is full: the oldest character is given up. *)
Definition drop_oldest : M sst unit :=
  r ← rx_get serial_recv_num;
  rx_set (set_recv_num (u16 (r + 1)));;
  rx_set (set_rx_full true);;
  size ← dev_get serial_buffer_size;
  r ← rx_get serial_recv_num;
  if size <=? r then rx_set (set_recv_num 0) else mret tt.
Definition receive_char (c : Z) : M sst unit :=
  lock ← in_ser_kernel CriticalAreaLock;
  w ← rx_get serial_send_num;
  rx_store w (u8 c);;
  advance_send;;
  w ← rx_get serial_send_num;
  r ← rx_get serial_recv_num;
  (if w =? r then drop_oldest else mret tt);;
  in_ser_kernel (CriticalAreaUnLock lock).

(** Characters are taken until the hardware has no more. *)
Fixpoint receive_loop (turns : nat) : M sst unit :=
  match turns with
  | O => hang
  | S turns =>
      c ← in_ser_hw get_char;
      if - ERROR =? c then mret tt
      else receive_char c;; receive_loop turns
  end.

Definition SerialSetIsr (turns : nat) (event : Z) : M sst unit :=
  let event := Z.land event 0xff in
  if event =? SERIAL_EVENT_RX_IND then
    receive_loop turns;;
    lock ← in_ser_kernel CriticalAreaLock;
    r ← rx_get serial_recv_num;
    w ← rx_get serial_send_num;
    size ← dev_get serial_buffer_size;
    let serial_rx_length := if w <? r then size - r + w else w - r in
    in_ser_kernel (CriticalAreaUnLock lock);;
    if negb (serial_rx_length =? 0) then
      (match dev_recv_callback with Some f => in_client (f serial_rx_length);; mret tt | None => mret tt end);;
      sem ← dev_get dev_sem;
      in_ser_kernel (KSemaphoreAbandon sem);;
      mret tt
    else mret tt
  else if event =? SERIAL_event_id_tX_DONE then
    sem ← tx_sem; in_ser_kernel (KSemaphoreAbandon sem);; mret tt
  else mret tt.

(** ** Opening and closing *)

Definition SerialWorkModeCheck : M sst Z :=
  set_mode ← dev_get serial_set_mode;
  work_mode ← dev_get serial_work_mode;
  let check flag := mret (if flag_on flag work_mode then EOK else ERROR) : M sst Z in
  if flag_on SIGN_OPER_INT_TX set_mode then check SIGN_OPER_INT_TX
  else if flag_on SIGN_OPER_INT_RX set_mode then check SIGN_OPER_INT_RX
  else if flag_on SIGN_OPER_DMA_TX set_mode then check SIGN_OPER_DMA_TX
  else if flag_on SIGN_OPER_DMA_RX set_mode then check SIGN_OPER_DMA_RX
  else dev_set (set_set_mode work_mode);; mret EOK.

(** New structures; their fields are set before they are read. *)
Definition new_rx (p : ptr) : M sst unit := modify (fun s => set_rxs (<[p := mkSerialRx None 0 0 false]> (rxs s)) s).
Definition new_tx (p : ptr) : M sst unit := modify (fun s => set_txs (<[p := mkSerialTx 0]> (txs s)) s).
Definition free_rx (p : option ptr) : M sst unit :=
  p ← deref p; s ← get; deref (rxs s !! p);; modify (set_rxs (delete p (rxs s))).
Definition free_tx (p : option ptr) : M sst unit :=
  p ← deref p; s ← get; deref (txs s !! p);; modify (set_txs (delete p (txs s))).
Definition free_rx_buffer (p : option ptr) : M sst unit :=
  p ← deref p; s ← get; deref (rx_buffers s !! p);; modify (set_rx_buffers (delete p (rx_buffers s))).

Definition add_mode (flag : Z) : M sst unit := dev_set (fun d => set_work_mode (Z.lor (serial_work_mode d) flag) d).

(** The part of SerialDevOpen for the receiver and for the transmitter. *)
Definition open_rx (mem buf : option ptr) : M sst Z :=
  rx ← dev_get serial_rx;
  mode ← dev_get serial_set_mode;
  match rx with
  | Some _ => (if flag_on SIGN_OPER_INT_RX mode then add_mode SIGN_OPER_INT_RX else mret tt);; mret EOK
  | None =>
      if flag_on SIGN_OPER_INT_RX mode then
        dev_set (set_serial_rx mem);;
        match mem with
        | None => mret ERROR
        | Some p =>
            new_rx p;;
            rx_set (fun x => mkSerialRx buf (serial_send_num x) (serial_recv_num x) (serial_rx_full x));;
            match buf with
            | None => free_rx (Some p);; mret ERROR
            | Some b =>
                size ← dev_get serial_buffer_size;
                modify (fun s => set_rx_buffers (<[b := replicate (Z.to_nat size) 0]> (rx_buffers s)) s);;
                rx_set (set_send_num 0);;
                rx_set (set_recv_num 0);;
                rx_set (set_rx_full false);;
                add_mode SIGN_OPER_INT_RX;;
                in_ser_hw (drv_set OPER_SET_INT);;
                mret EOK
            end
        end
      else dev_set (set_serial_rx None);; mret EOK
  end.

Definition open_tx (mem sem_mem : option ptr) : M sst Z :=
  tx ← dev_get serial_tx;
  mode ← dev_get serial_set_mode;
  match tx with
  | Some _ => (if flag_on SIGN_OPER_INT_TX mode then add_mode SIGN_OPER_INT_TX else mret tt);; mret EOK
  | None =>
      if flag_on SIGN_OPER_INT_TX mode then
        dev_set (set_serial_tx mem);;
        match mem with
        | None => mret ERROR
        | Some p =>
            new_tx p;;
            sem ← in_ser_kernel (KSemaphoreCreate sem_mem 0);
            modify (fun s => set_txs (<[p := mkSerialTx sem]> (txs s)) s);;
            add_mode SIGN_OPER_INT_TX;;
            in_ser_hw (drv_set OPER_SET_INT);;
            mret EOK
        end
      else dev_set (set_serial_tx None);; mret EOK
  end.

(** The arguments are the results of the allocations, in their order. *)
Definition SerialDevOpen (rx_mem buf_mem tx_mem tx_sem_mem sem_mem : option ptr) : M sst Z :=
  checked ← SerialWorkModeCheck;
  if negb (checked =? EOK) then mret ERROR
  else
    ret ← open_rx rx_mem buf_mem;
    if negb (ret =? EOK) then mret ERROR
    else
      ret ← open_tx tx_mem tx_sem_mem;
      if negb (ret =? EOK) then mret ERROR
      else
        sem ← in_ser_kernel (KSemaphoreCreate sem_mem 0);
        dev_set (set_dev_sem sem);;
        if sem <? 0 then
          b ← rx_get serial_rx_buffer;
          (match b with Some _ => free_rx_buffer b | None => mret tt end);;
          rx ← dev_get serial_rx;
          (match rx with Some _ => free_rx rx | None => mret tt end);;
          tx ← dev_get serial_tx;
          (match tx with Some _ => free_tx tx | None => mret tt end);;
          mret ERROR
        else mret EOK.

(** The pointers to the structures that are freed stay. *)
Definition SerialDevClose : M sst Z :=
  mode ← dev_get serial_work_mode;
  (if flag_on SIGN_OPER_INT_RX mode then
     b ← rx_get serial_rx_buffer;
     NULL_PARAM_CHECK b;;
     rx ← dev_get serial_rx;
     NULL_PARAM_CHECK rx;;
     free_rx_buffer b;;
     free_rx rx;;
     in_ser_hw (drv_set OPER_CLR_INT);; mret tt
   else mret tt);;
  (if flag_on SIGN_OPER_INT_TX mode then
     tx ← dev_get serial_tx;
     NULL_PARAM_CHECK tx;;
     free_tx tx;;
     in_ser_hw (drv_set OPER_CLR_INT);; mret tt
   else mret tt);;
  sem ← dev_get dev_sem;
  in_ser_kernel (KSemaphoreDelete sem);;
  mret EOK.

End Serial.

(** ** A client

    The callback that the driver of the CH376 registers for its serial device
    (connect_ch376.c).  [sdio_sem] is the semaphore in its structure [sdio], which
    [Ch376Open] created; the number of characters in the structure is kept beside the
    state of the board. *)
Section client.
Context {B : Type} `{C : KConfig} `{D : PriorityReadyVectorDone}.

(** [x_size_t] is an unsigned long, of 64 bits on that board. *)
Definition add_msg_len (n : Z) : M (kstate * (B * Z)) unit :=
  modify (fun x => (x.1, (x.2.1, (x.2.2 + n) mod 2 ^ 64))).

Definition HwCh376RxInd (sdio_sem : Z) (length : Z) : M (kstate * (B * Z)) Z :=
  add_msg_len length;;
  zoom fst (fun k x => (k, x.2)) (KSemaphoreAbandon sdio_sem);;
  mret EOK.

End client.
