(* ===== verification/SerialInv.v ===== *)
(** * Serial devices: what their functions do

    The receiver as a ring of characters, [holds_chars], kept by interrupts and reads;
    writing with and without interrupts; opening. *)

From S2P Require Import Prelude DoubleLink IdManager Bitmap Ring Kernel ReadyVector Assign Delay Task TaskInv Creation Deadlines PendList Waiting Semaphore Serial.

Section SerialInv.
Context {DS : Type} `{HW : SerialHwDevDone DS} `{C : KConfig} `{D : PriorityReadyVectorDone}.
Abbreviation sst := (ser_state DS).

(** ** The ring of the receiver *)

Implicit Types (s : sst) (k : kstate) (x : SerialRx) (es cs : list Z) (p b : ptr).

(** What operations on the ring leave alone. *)
Record ring_step s s' : Prop := {
  rs_kernel : ser_kernel s' = ser_kernel s;
  rs_hw : ser_hw s' = ser_hw s;
  rs_serial : serial s' = serial s;
  rs_txs : txs s' = txs s;
}.
#[local] Instance ring_step_po : PreOrder ring_step.
Proof. split; [by intros s|]. intros s1 s2 s3 [] []. split; congruence. Qed.

Record rx_at s p x : Prop := { ra_ptr : serial_rx (serial s) = Some p; ra_rx : rxs s !! p = Some x }.

(** The receiver holds the characters [es], the oldest first. *)
Record holds_chars s es : Prop := {
  hc_size : 2 <= serial_buffer_size (serial s) < 2 ^ 16;
  hc_ring : exists p x b buf, rx_at s p x /\ serial_rx_buffer x = Some b /\ rx_buffers s !! b = Some buf /\
    ring (serial_buffer_size (serial s)) (serial_recv_num x) buf es /\
    serial_send_num x = ring_end (serial_buffer_size (serial s)) (serial_recv_num x) es /\
    (serial_rx_full x = true -> es <> []);
}.

Lemma wp_rx_get {A : Type} (f : SerialRx -> A) s p x (Q : A -> sst -> Prop) : rx_at s p x -> Q (f x) s -> wp (rx_get f) Q s.
Proof. intros [Ep Ex] HQ. unfold rx_get, dev_get. wp_steps. rewrite Ep. wp_steps. rewrite Ex. by wp_steps. Qed.

Lemma wp_rx_set f s p x (Q : unit -> sst -> Prop) : rx_at s p x ->
  (forall s', ring_step s s' -> rx_buffers s' = rx_buffers s -> rx_at s' p (f x) -> Q tt s') -> wp (rx_set f) Q s.
Proof.
  intros [Ep Ex] HQ. unfold rx_set, dev_get. wp_steps. rewrite Ep. wp_steps. rewrite Ex. wp_steps.
  apply HQ; [by split|done|]. split; [done|apply lookup_insert_eq].
Qed.

Lemma wp_rx_load s p x b buf i c (Q : Z -> sst -> Prop) : rx_at s p x -> serial_rx_buffer x = Some b -> rx_buffers s !! b = Some buf ->
  buf !! Z.to_nat i = Some c -> Q c s -> wp (rx_load i) Q s.
Proof.
  intros Hx Eb Ebuf Ec HQ. unfold rx_load. wp_steps. eapply wp_rx_get; [exact Hx|]. rewrite Eb. wp_steps. rewrite Ebuf. wp_steps.
  rewrite Ec. by wp_steps.
Qed.

Lemma wp_rx_store s p x b buf i c (Q : unit -> sst -> Prop) : rx_at s p x -> serial_rx_buffer x = Some b -> rx_buffers s !! b = Some buf ->
  0 <= i < Z.of_nat (length buf) ->
  (forall s', ring_step s s' -> rx_at s' p x -> rx_buffers s' !! b = Some (<[Z.to_nat i := c]> buf) -> Q tt s') -> wp (rx_store i c) Q s.
Proof.
  intros Hx Eb Ebuf Hi HQ. unfold rx_store. wp_steps. eapply wp_rx_get; [exact Hx|]. rewrite Eb. wp_steps. rewrite Ebuf. wp_steps.
  destruct (lookup_lt_is_Some_2 buf (Z.to_nat i)) as [y Ey]; [lia|]. rewrite Ey. wp_steps.
  apply HQ; [by split|by destruct Hx|apply lookup_insert_eq].
Qed.

Lemma wp_dev_get {A : Type} (f : SerialHardwareDevice -> A) s (Q : A -> sst -> Prop) : Q (f (serial s)) s -> wp (dev_get f) Q s.
Proof. done. Qed.

Lemma wp_in_ser_kernel {A : Type} (m : M kstate A) s (Q : A -> sst -> Prop) :
  wp m (fun a k' => Q a (set_ser_kernel k' s)) (ser_kernel s) -> wp (in_ser_kernel m) Q s.
Proof. apply wp_zoom. Qed.

(** A critical area around a step of the ring. *)
Lemma wp_ser_lock s (Q : bool -> sst -> Prop) : 0 <= KTaskOsAssignLockNest (ser_kernel s) < 2 ^ 15 - 1 ->
  Q (interrupts (ser_kernel s)) (set_ser_kernel (locked (ser_kernel s)) s) -> wp (in_ser_kernel CriticalAreaLock) Q s.
Proof. intros Hn HQ. by apply wp_in_ser_kernel, wp_CriticalAreaLock. Qed.
Lemma wp_ser_unlock k s (Q : unit -> sst -> Prop) : 0 <= KTaskOsAssignLockNest k < 2 ^ 15 - 1 -> ser_kernel s = locked k ->
  Q tt (set_ser_kernel k s) -> wp (in_ser_kernel (CriticalAreaUnLock (interrupts k))) Q s.
Proof. intros Hn E HQ. apply wp_in_ser_kernel. rewrite E. apply wp_CriticalAreaUnLock; [cbn; lia|]. by rewrite unlocked_locked. Qed.

(** The steps of the two indices. *)
Lemma wp_advance_recv s p x (Q : unit -> sst -> Prop) : rx_at s p x -> 0 <= serial_recv_num x < serial_buffer_size (serial s) ->
  serial_buffer_size (serial s) < 2 ^ 16 ->
  (forall s', ring_step s s' -> rx_buffers s' = rx_buffers s ->
     rx_at s' p (set_recv_num ((serial_recv_num x + 1) mod serial_buffer_size (serial s)) x) -> Q tt s') ->
  wp advance_recv Q s.
Proof.
  intros Hx Hr Hn HQ. unfold advance_recv. wp_steps. eapply wp_rx_get; [exact Hx|]. wp_steps.
  eapply wp_rx_set; [exact Hx|]. intros s1 Hs1 Eb1 Hx1. wp_steps. rewrite u16_small in Hx1 by lia.
  apply wp_dev_get. wp_steps. eapply wp_rx_get; [exact Hx1|]. cbn [serial_recv_num set_recv_num]. rewrite (rs_serial _ _ Hs1).
  rewrite <- wrap_next in HQ by lia. case_match.
  - eapply wp_rx_set; [exact Hx1|]. intros s2 Hs2 Eb2 Hx2. apply HQ; [by etrans|congruence|exact Hx2].
  - wp_steps. apply HQ; [done|done|exact Hx1].
Qed.

Lemma wp_advance_send s p x (Q : unit -> sst -> Prop) : rx_at s p x -> 0 <= serial_send_num x < serial_buffer_size (serial s) ->
  serial_buffer_size (serial s) < 2 ^ 16 ->
  (forall s', ring_step s s' -> rx_buffers s' = rx_buffers s ->
     rx_at s' p (set_send_num ((serial_send_num x + 1) mod serial_buffer_size (serial s)) x) -> Q tt s') ->
  wp advance_send Q s.
Proof.
  intros Hx Hr Hn HQ. unfold advance_send. wp_steps. eapply wp_rx_get; [exact Hx|]. wp_steps.
  eapply wp_rx_set; [exact Hx|]. intros s1 Hs1 Eb1 Hx1. wp_steps. rewrite u16_small in Hx1 by lia.
  apply wp_dev_get. wp_steps. eapply wp_rx_get; [exact Hx1|]. cbn [serial_send_num set_send_num]. rewrite (rs_serial _ _ Hs1).
  rewrite <- wrap_next in HQ by lia. case_match.
  - eapply wp_rx_set; [exact Hx1|]. intros s2 Hs2 Eb2 Hx2. apply HQ; [by etrans|congruence|exact Hx2].
  - wp_steps. apply HQ; [done|done|exact Hx1].
Qed.

Lemma holds_step s s' p x b buf es : ring_step s s' -> 2 <= serial_buffer_size (serial s) < 2 ^ 16 -> rx_at s' p x ->
  serial_rx_buffer x = Some b -> rx_buffers s' !! b = Some buf -> ring (serial_buffer_size (serial s)) (serial_recv_num x) buf es ->
  serial_send_num x = ring_end (serial_buffer_size (serial s)) (serial_recv_num x) es -> (serial_rx_full x = true -> es <> []) ->
  holds_chars s' es.
Proof. intros [_ _ E _] ? ? ? ? ? ? ?. split; rewrite E; [done|]. by exists p, x, b, buf. Qed.

(** Leaving a critical area in which only the ring changed. *)
Lemma ring_step_locked k s s' : ring_step (set_ser_kernel (locked (ser_kernel s)) s) s' -> k = ser_kernel s -> ring_step s (set_ser_kernel k s').
Proof. intros [? ? ? ?] ->. by split. Qed.

Lemma wp_drop_oldest s p x (Q : unit -> sst -> Prop) : rx_at s p x -> 0 <= serial_recv_num x < serial_buffer_size (serial s) ->
  serial_buffer_size (serial s) < 2 ^ 16 ->
  (forall s', ring_step s s' -> rx_buffers s' = rx_buffers s ->
     rx_at s' p (set_rx_full true (set_recv_num ((serial_recv_num x + 1) mod serial_buffer_size (serial s)) x)) -> Q tt s') ->
  wp drop_oldest Q s.
Proof.
  intros Hx Hr Hn HQ. unfold drop_oldest. wp_steps. eapply wp_rx_get; [exact Hx|]. wp_steps.
  eapply wp_rx_set; [exact Hx|]. intros s1 Hs1 Eb1 Hx1. wp_steps. rewrite u16_small in Hx1 by lia.
  eapply wp_rx_set; [exact Hx1|]. intros s2 Hs2 Eb2 Hx2. wp_steps. assert (ring_step s s2) as Hs by by etrans.
  apply wp_dev_get. wp_steps. eapply wp_rx_get; [exact Hx2|]. cbn [serial_recv_num set_recv_num set_rx_full]. rewrite (rs_serial _ _ Hs).
  rewrite <- wrap_next in HQ by lia. case_match.
  - eapply wp_rx_set; [exact Hx2|]. intros s3 Hs3 Eb3 Hx3. apply HQ; [by etrans|congruence|exact Hx3].
  - wp_steps. apply HQ; [done|congruence|exact Hx2].
Qed.

Lemma keep_last_full (n : Z) es c : Z.of_nat (length es) + 1 = n -> keep_last (Z.to_nat (n - 1)) (es ++ [c]) = tail (es ++ [c]).
Proof.
  intros <-. unfold keep_last. rewrite length_app. cbn [length]. replace (length es + 1 - _)%nat with 1%nat by lia. by destruct (es ++ [c]).
Qed.

(** One more character: the oldest one is lost when there is no room. *)
Lemma wp_receive_char c s es (Q : unit -> sst -> Prop) : holds_chars s es -> 0 <= KTaskOsAssignLockNest (ser_kernel s) < 2 ^ 15 - 1 ->
  (forall s', ring_step s s' -> holds_chars s' (keep_last (Z.to_nat (serial_buffer_size (serial s) - 1)) (es ++ [u8 c])) -> Q tt s') ->
  wp (receive_char c) Q s.
Proof.
  intros [Hn (p & x & b & buf & Hx & Eb & Ebuf & Hr & Esend & Hfull)] Hnest HQ. pose proof (ring_end_bound _ _ _ _ Hr) as Hend.
  pose proof Hr as [Hrecv Hroom Hlen _].
  unfold receive_char. wp_steps. apply wp_ser_lock; [done|]. set (s0 := set_ser_kernel _ s). assert (rx_at s0 p x) as Hx0 by by destruct Hx.
  wp_steps. eapply wp_rx_get; [exact Hx0|]. wp_steps. rewrite Esend. eapply (wp_rx_store s0 p x b buf); [done|done|exact Ebuf|lia|].
  intros s1 Hs1 Hx1 Ebuf1. wp_steps. assert (serial s1 = serial s) as Es1 by apply Hs1.
  eapply wp_advance_send; [exact Hx1|rewrite Es1, Esend; done|rewrite Es1; lia|]. rewrite Es1, Esend.
  intros s2 Hs2 Eb2 Hx2. wp_steps. rewrite (ring_end_next _ _ _ (u8 c)) in Hx2. eapply wp_rx_get; [exact Hx2|]. wp_steps.
  eapply wp_rx_get; [exact Hx2|]. cbn [serial_send_num serial_recv_num set_send_num]. wp_steps.
  assert (ring_step s0 s2) as Hs02 by by etrans. assert (serial s2 = serial s) as Es2 by apply Hs02.
  rewrite <- (ring_end_next _ _ _ (u8 c)). case_match eqn:E; [apply Z.eqb_eq in E|apply Z.eqb_neq in E];
    rewrite (ring_is_full _ _ _ _ Hr) in E.
  - eapply wp_drop_oldest; [exact Hx2|by rewrite Es2|rewrite Es2; lia|]. rewrite Es2. intros s3 Hs3 Eb3 Hx3. wp_steps.
    assert (ring_step s0 s3) as Hs03 by by etrans. eapply (wp_ser_unlock (ser_kernel s)); [done|by apply Hs03|].
    apply HQ; [by eapply ring_step_locked|]. rewrite keep_last_full by done.
    eapply (holds_step s _ p _ b); [by eapply ring_step_locked|done|by destruct Hx3|exact Eb|cbn [rx_buffers set_ser_kernel]; rewrite Eb3, Eb2; exact Ebuf1| | |].
    + by apply ring_overwrite.
    + cbn [serial_send_num serial_recv_num set_send_num set_recv_num set_rx_full]. symmetry.
      destruct (ring_overwrite_end (serial_buffer_size (serial s)) (serial_recv_num x) es (u8 c)) as [Ht|Ht]; [|done].
      destruct es as [|e es]; [cbn in E; lia|]. by destruct es.
    + intros _ Ht. destruct es as [|e es]; [cbn in E; lia|]. by destruct es.
  - wp_steps. eapply (wp_ser_unlock (ser_kernel s)); [done|by apply Hs02|]. apply HQ; [by eapply ring_step_locked|].
    rewrite keep_last_all by (rewrite length_app; cbn; lia).
    eapply (holds_step s _ p _ b); [by eapply ring_step_locked|done|destruct Hx2; by split|exact Eb|cbn [rx_buffers set_ser_kernel]; rewrite Eb2; exact Ebuf1| |done|].
    + apply ring_store; [done|lia].
    + intros _ Ht. by destruct es.
Qed.

(** ** Receiving *)

(** From [w] on the hardware gives the characters [cs] and then no more. *)
Inductive supplies : DS -> list Z -> DS -> Prop :=
| supplies_end w w' : get_char w = Ret (- ERROR) w' -> supplies w [] w'
| supplies_char w c w1 cs w' : get_char w = Ret c w1 -> c <> - ERROR -> supplies w1 cs w' -> supplies w (c :: cs) w'.

(** What the ring keeps of [es], [cs] having arrived. *)
Definition kept s es cs : list Z := keep_last (Z.to_nat (serial_buffer_size (serial s) - 1)) (es ++ (u8 <$> cs)).

(** The hardware moved to [w]; the rest is as for [ring_step]. *)
Record hw_step (w : DS) s s' : Prop := {
  hs_kernel : ser_kernel s' = ser_kernel s;
  hs_hw : ser_hw s' = w;
  hs_serial : serial s' = serial s;
  hs_txs : txs s' = txs s;
}.

Lemma holds_chars_kernel k s es : holds_chars s es -> holds_chars (set_ser_kernel k s) es.
Proof. intros [Hn (p & x & b & buf & [] & H)]. split; [done|]. by exists p, x, b, buf. Qed.
Lemma holds_chars_hw w s es : holds_chars s es -> holds_chars (set_ser_hw w s) es.
Proof. intros [Hn (p & x & b & buf & [] & H)]. split; [done|]. by exists p, x, b, buf. Qed.

Lemma holds_chars_length s es : holds_chars s es -> (length es <= Z.to_nat (serial_buffer_size (serial s) - 1))%nat.
Proof. intros [Hn (p & x & b & buf & _ & _ & _ & [] & _)]. lia. Qed.

Lemma wp_in_ser_hw {A : Type} (m : M DS A) s (Q : A -> sst -> Prop) a w : m (ser_hw s) = Ret a w -> Q a (set_ser_hw w s) -> wp (in_ser_hw m) Q s.
Proof. intros E HQ. unfold in_ser_hw, zoom, wp. by rewrite E. Qed.

Lemma wp_receive_loop turns cs s es w (Q : unit -> sst -> Prop) :
  holds_chars s es -> 0 <= KTaskOsAssignLockNest (ser_kernel s) < 2 ^ 15 - 1 -> supplies (ser_hw s) cs w -> (length cs < turns)%nat ->
  (forall s', hw_step w s s' -> holds_chars s' (kept s es cs) -> Q tt s') -> wp (receive_loop turns) Q s.
Proof.
  intros Hh Hn Hs Ht HQ. remember (ser_hw s) as w0 eqn:Ew. revert turns s es Hh Hn Ew Ht HQ.
  induction Hs as [w0 w E|w0 c w1 cs w E Hc Hs IH]; intros [|turns] s es Hh Hn -> Ht HQ; cbn [length] in Ht; try lia; cbn [receive_loop]; wp_steps.
  - eapply wp_in_ser_hw; [exact E|]. rewrite Z.eqb_refl. wp_steps. apply HQ; [by split|]. apply holds_chars_hw.
    unfold kept. cbn [fmap list_fmap]. rewrite app_nil_r, keep_last_all; [done|]. by apply holds_chars_length.
  - eapply wp_in_ser_hw; [exact E|]. rewrite (proj2 (Z.eqb_neq _ _)) by (intros F; by apply Hc). wp_steps.
    eapply wp_receive_char; [by apply holds_chars_hw|done|]. intros s1 [Hk Hw Hd Hx] Hh1. wp_steps.
    cbn [ser_kernel ser_hw serial txs set_ser_hw] in *. eapply IH; [exact Hh1|by rewrite Hk|by rewrite Hw|lia|].
    intros s2 [Hk2 Hw2 Hd2 Hx2] Hh2. apply HQ; [split; congruence|]. unfold kept in *. rewrite Hd, keep_last_app in Hh2.
    by rewrite <- app_assoc in Hh2.
Qed.

Lemma holds_chars_count s es : holds_chars s es -> exists p x, rx_at s p x /\
  (if serial_send_num x <? serial_recv_num x then serial_buffer_size (serial s) - serial_recv_num x + serial_send_num x
   else serial_send_num x - serial_recv_num x) = Z.of_nat (length es).
Proof. intros [Hn (p & x & b & buf & Hx & _ & _ & Hr & E & _)]. exists p, x. split; [done|]. rewrite E. by eapply ring_count. Qed.

(** The callback of the client, called with [n] characters in the kernel [k] and the
    hardware [w], returns and leaves [k1] and [w1]; without one nothing happens. *)
Definition calls_back (n : Z) k (w : DS) k1 (w1 : DS) : Prop :=
  match dev_recv_callback with
  | Some f => exists r, f n (k, w) = Ret r (k1, w1)
  | None => k1 = k /\ w1 = w
  end.

(** A kernel in which the semaphore [d] with the identifier [id], of the value [v] and
    with the waiting tasks [l], can be released. *)
Record sem_ready k L I dl (id : Z) (d : ptr) (v : Z) (l : list link) : Prop := {
  sr_kernel : kernel_ok k L I dl;
  sr_id : has_object k L CSem id d;
  sr_sem : sem_ok k L d v l;
  sr_current : is_Some (os_running_task k);
  sr_nest : KTaskOsAssignLockNest k = 0;
}.

(** The device with its semaphore [d], of the value [v] and with the waiting tasks [l]. *)
Record serial_ok s L I dl (d : ptr) (v : Z) (l : list link) es : Prop := {
  sl_kernel : kernel_ok (ser_kernel s) L I dl;
  sl_chars : holds_chars s es;
  sl_id : has_object (ser_kernel s) L CSem (dev_sem (serial s)) d;
  sl_sem : sem_ok (ser_kernel s) L d v l;
}.

Context `{CO : !KConfigOk C} `{DL : !ReadyVectorLaws D}.

Lemma wp_in_client {A : Type} (f : M (kstate * DS) A) s r k1 w1 (Q : A -> sst -> Prop) :
  f (ser_kernel s, ser_hw s) = Ret r (k1, w1) -> Q r (set_ser_kernel k1 (set_ser_hw w1 s)) -> wp (in_client f) Q s.
Proof. intros E HQ. unfold in_client. apply wp_zoom. by eapply wp_run. Qed.

(** The end of the interrupt of the receiver: the callback, and then the semaphore. *)
Lemma wp_notify n s L1 I dl1 d v1 l1 es k1 w1 (Q : unit -> sst -> Prop) :
  holds_chars s es -> calls_back n (ser_kernel s) (ser_hw s) k1 w1 -> sem_ready k1 L1 I dl1 (dev_sem (serial s)) d v1 l1 ->
  (forall s' L' dl', kernel_ok (ser_kernel s') L' I dl' -> sem_ok (ser_kernel s') L' d (released_value v1 l1) (List.tl l1) ->
     released k1 d v1 l1 (ser_kernel s') -> ser_hw s' = w1 -> serial s' = serial s -> holds_chars s' es -> Q tt s') ->
  wp ((match dev_recv_callback with Some f => in_client (f n);; mret tt | None => mret tt end);;
      sem ← dev_get dev_sem;
      in_ser_kernel (KSemaphoreAbandon sem);;
      mret tt) Q s.
Proof.
  intros Hh Hcb [Hko Hid Hs [c Hc] Hn] HQ.
  assert (forall s2, ser_kernel s2 = k1 -> ser_hw s2 = w1 -> serial s2 = serial s -> holds_chars s2 es ->
    wp (dev_get dev_sem ≫= fun sem => in_ser_kernel (KSemaphoreAbandon sem);; mret tt) Q s2) as Hrest.
  { intros s2 Hk2 Hw2 Hd2 Hh2. wp_steps. apply wp_dev_get. wp_steps. apply wp_in_ser_kernel. rewrite Hk2, Hd2.
    eapply wp_KSemaphoreAbandon_released; [exact Hko|exact Hid|exact Hs|exact Hc|done|]. intros k' L' dl' Hko' Hs' _ Hrel.
    wp_steps. by apply (HQ _ L' dl'); [..|apply holds_chars_kernel]. }
  unfold calls_back in Hcb. destruct dev_recv_callback as [f|].
  - destruct Hcb as [r Ef]. wp_steps. eapply wp_in_client; [exact Ef|]. wp_steps. apply Hrest; [done|done|done|].
    by apply holds_chars_kernel, holds_chars_hw.
  - destruct Hcb as [-> ->]. wp_steps. by apply Hrest.
Qed.

(** The common part of the theorems about interrupts. *)
Lemma wp_rx_interrupt turns event s es cs w (Q : unit -> sst -> Prop) :
  holds_chars s es -> 0 <= KTaskOsAssignLockNest (ser_kernel s) < 2 ^ 15 - 1 -> Z.land event 0xff = SERIAL_EVENT_RX_IND ->
  supplies (ser_hw s) cs w -> (length cs < turns)%nat ->
  (kept s es cs = [] -> forall s', ser_kernel s' = ser_kernel s -> serial s' = serial s -> ser_hw s' = w -> holds_chars s' [] -> Q tt s') ->
  (kept s es cs <> [] -> exists k1 w1 L1 I dl1 d v1 l1, calls_back (Z.of_nat (length (kept s es cs))) (ser_kernel s) w k1 w1 /\
     sem_ready k1 L1 I dl1 (dev_sem (serial s)) d v1 l1 /\
     forall s' L' dl', kernel_ok (ser_kernel s') L' I dl' -> sem_ok (ser_kernel s') L' d (released_value v1 l1) (List.tl l1) ->
       released k1 d v1 l1 (ser_kernel s') -> ser_hw s' = w1 -> serial s' = serial s -> holds_chars s' (kept s es cs) -> Q tt s') ->
  wp (SerialSetIsr turns event) Q s.
Proof.
  intros Hh Hn Hev Hsup Ht HQ0 HQ. unfold SerialSetIsr. rewrite Hev. cbn [Z.eqb SERIAL_EVENT_RX_IND Pos.eqb]. wp_steps.
  eapply wp_receive_loop; [done|lia|done|done|]. intros s1 [Hk1 Hw1 Hd1 Hx1] Hh1. wp_steps.
  apply wp_ser_lock; [rewrite Hk1; lia|]. wp_steps.
  destruct (holds_chars_count _ _ (holds_chars_kernel (locked (ser_kernel s1)) _ _ Hh1)) as (p & x & Hx & Hcount).
  eapply wp_rx_get; [exact Hx|]. wp_steps. eapply wp_rx_get; [exact Hx|]. wp_steps. apply wp_dev_get. wp_steps. rewrite Hcount.
  eapply (wp_ser_unlock (ser_kernel s1)); [rewrite Hk1; lia|done|]. wp_steps.
  match goal with |- wp _ _ ?s2 => assert (s2 = s1) as -> by by destruct s1 end.
  destruct (Z.eqb_spec (Z.of_nat (length (kept s es cs))) 0) as [E|E]; cbn [negb].
  - assert (kept s es cs = []) as E0 by (destruct (kept s es cs); [done|cbn in E; lia]). wp_steps. apply HQ0; [done..|by rewrite <- E0].
  - assert (kept s es cs <> []) as E0 by (intros F; rewrite F in E; by apply E).
    destruct (HQ E0) as (k1 & w1 & L1 & I & dl1 & d & v1 & l1 & Hcb & Hready & HQ').
    eapply wp_notify; [exact Hh1|rewrite Hk1, Hw1; exact Hcb|rewrite Hd1; exact Hready|].
    intros s' L' dl' H1 H2 H3 H4 H5 H6. apply (HQ' s' L' dl'); [done..|congruence|done].
Qed.

(** C18: the interrupt of the receiver takes every character that the hardware has: the
    ring of N places keeps the last N - 1 of those it had and those that came.  If it is
    empty then, the kernel is as before.  Otherwise the callback of the client, if there
    is one, is called with their number, and then the semaphore of the device is
    released once, in the state [k1] the callback left: the first waiting task can run,
    and without one its value is incremented, modulo 65536.  The hardware is as the
    callback left it.  The callback may do what it wants to the kernel and the hardware;
    it has to return, with the kernel sound, the device's semaphore still there and no
    critical area open. *)
Theorem SerialSetIsr_receives turns event s I d es cs w k1 w1 L1 dl1 v1 l1 :
  holds_chars s es -> 0 <= KTaskOsAssignLockNest (ser_kernel s) < 2 ^ 15 - 1 -> Z.land event 0xff = SERIAL_EVENT_RX_IND ->
  supplies (ser_hw s) cs w -> (length cs < turns)%nat ->
  let es' := keep_last (Z.to_nat (serial_buffer_size (serial s) - 1)) (es ++ (u8 <$> cs)) in
  (es' <> [] -> calls_back (Z.of_nat (length es')) (ser_kernel s) w k1 w1 /\ sem_ready k1 L1 I dl1 (dev_sem (serial s)) d v1 l1) ->
  wp (SerialSetIsr turns event) (fun _ s' => holds_chars s' es' /\ serial s' = serial s /\
    if bool_decide (es' = []) then ser_kernel s' = ser_kernel s /\ ser_hw s' = w
    else released k1 d v1 l1 (ser_kernel s') /\ ser_hw s' = w1 /\ exists L' dl', kernel_ok (ser_kernel s') L' I dl' /\
      sem_ok (ser_kernel s') L' d (released_value v1 l1) (List.tl l1)) s.
Proof.
  intros Hh Hn Hev Hsup Ht es' Hcb. eapply wp_rx_interrupt; [done..| |].
  - intros E s' Hk Hd Hw Hh'. change (es' = []) in E. rewrite E. split; [done|]. split; [done|]. by rewrite bool_decide_true.
  - intros E. change (es' <> []) in E. destruct (Hcb E) as [H1 H2]. exists k1, w1, L1, I, dl1, d, v1, l1. split; [done|]. split; [done|].
    intros s' L' dl' Hko Hs Hrel Hw Hd Hh'. split; [done|]. split; [done|]. rewrite bool_decide_false by done.
    split; [done|]. split; [done|]. by exists L', dl'.
Qed.

(** ** Reading *)

Lemma wp_int_read n s es (Q : list Z -> sst -> Prop) :
  holds_chars s es -> 0 <= KTaskOsAssignLockNest (ser_kernel s) < 2 ^ 15 - 1 ->
  (forall s', ring_step s s' -> holds_chars s' (drop n es) -> Q (take n es) s') -> wp (SerialDevIntRead n) Q s.
Proof.
  revert s es Q. induction n as [|n IH]; intros s es Q Hh Hn HQ; cbn [SerialDevIntRead]; [wp_steps; by apply HQ|].
  pose proof Hh as [Hsize (p & x & b & buf & Hx & Eb & Ebuf & Hr & Esend & Hfull)]. pose proof Hr as [Hrecv _ _ _].
  wp_steps. apply wp_ser_lock; [done|]. set (s0 := set_ser_kernel _ s). assert (rx_at s0 p x) as Hx0 by by destruct Hx.
  wp_steps. do 3 (eapply wp_rx_get; [exact Hx0|]; wp_steps). rewrite Esend. destruct es as [|e es].
  - rewrite (proj2 (Z.eqb_eq _ _)) by (apply (ring_is_empty _ _ _ _ Hr); done).
    destruct (serial_rx_full x); [by destruct Hfull|]. cbn [negb andb]. wp_steps.
    eapply (wp_ser_unlock (ser_kernel s)); [done|done|]. wp_steps. by apply HQ; [|apply holds_chars_kernel, holds_chars_kernel].
  - rewrite (proj2 (Z.eqb_neq _ _)) by (intros F; by apply (ring_is_empty _ _ _ _ Hr) in F). cbn [andb]. wp_steps.
    destruct (ring_take _ _ _ _ _ Hr) as [Ee Hr']. eapply wp_rx_load; [exact Hx0|exact Eb|exact Ebuf|exact Ee|]. wp_steps.
    eapply wp_advance_recv; [exact Hx0|done|apply Hsize|]. intros s1 Hs1 Eb1 Hx1. wp_steps. eapply wp_rx_get; [exact Hx1|].
    change (serial s0) with (serial s) in Hx1. wp_steps.
    set (x' := mkSerialRx (serial_rx_buffer x) (serial_send_num x) ((serial_recv_num x + 1) mod serial_buffer_size (serial s)) false).
    assert (forall s2, ring_step s0 s2 -> rx_buffers s2 = rx_buffers s -> rx_at s2 p x' ->
      wp (in_ser_kernel (CriticalAreaUnLock (interrupts (ser_kernel s)));; cs ← SerialDevIntRead n; mret (e :: cs)) Q s2) as Hrest.
    { intros s2 Hs2 Eb2 Hx2. wp_steps. eapply (wp_ser_unlock (ser_kernel s)); [done|by apply Hs2|]. wp_steps.
      assert (ring_step s (set_ser_kernel (ser_kernel s) s2)) as Hs' by by eapply ring_step_locked.
      eapply (IH _ es); [|done|].
      - eapply (holds_step s _ p x' b buf); [done|done|by destruct Hx2|done|by cbn; rewrite Eb2|done| |done].
        cbn [x' serial_send_num serial_recv_num]. by rewrite (ring_take_end _ _ e).
      - intros s3 Hs3 Hh3. wp_steps. apply HQ; [by etrans|done]. }
    cbn [serial_rx_full set_recv_num]. destruct (serial_rx_full x) eqn:Ef; wp_steps.
    + eapply wp_rx_set; [exact Hx1|]. intros s2 Hs2 Eb2 Hx2. apply Hrest; [by etrans|by rewrite Eb2, Eb1|exact Hx2].
    + apply wp_unbind, Hrest; [done|by rewrite Eb1|]. subst x'. rewrite <- Ef. exact Hx1.
Qed.

(** A read in the mode with interrupts. *)
Lemma wp_read_chars n s es (Q : Z * list Z * Z -> sst -> Prop) :
  holds_chars s es -> 0 <= KTaskOsAssignLockNest (ser_kernel s) < 2 ^ 15 - 1 -> flag_on (serial_work_mode (serial s)) SIGN_OPER_INT_RX = true ->
  (forall s', ring_step s s' -> holds_chars s' (drop n es) -> Q (EOK, take n es, Z.of_nat (min n (length es))) s') -> wp (read_chars n) Q s.
Proof.
  intros Hh Hn Hm HQ. unfold read_chars. wp_steps. apply wp_dev_get. rewrite Hm. wp_steps. eapply wp_int_read; [done|done|].
  intros s' Hs' Hh'. wp_steps. rewrite length_take. by apply HQ.
Qed.

(** Reading from a device with characters that arrive by interrupts.  With a positive
    value of the semaphore, that is decremented, and the call returns the oldest
    characters, as many as asked for or as there are.  With the value 0 the caller
    waits, also when the ring holds characters. *)
Theorem SerialDevRead_correct mem n s L I dl d v l es t td :
  serial_ok s L I dl d v l es -> flag_on (serial_work_mode (serial s)) SIGN_OPER_INT_RX = true -> task_context (ser_kernel s) t td mem ->
  wp (SerialDevRead mem n) (fun r s' => serial s' = serial s /\
    if 0 <? v then r = Some (EOK, take n es, Z.of_nat (min n (length es))) /\ ser_kernel s' = with_value d (v - 1) (ser_kernel s) /\
      holds_chars s' (drop n es)
    else r = None /\ holds_chars s' es /\ runs_highest (ser_kernel s') /\ exists L' dl' l', kernel_ok (ser_kernel s') L' I dl' /\
      sem_ok (ser_kernel s') L' d 0 l' /\ l' ≡ₚ SchedLink t :: l) s.
Proof.
  intros [Hko Hh Hid Hs] Hm Hctx. pose proof (tc_nest _ _ _ _ Hctx) as Hn. pose proof (sk_range _ _ _ _ _ Hs).
  unfold SerialDevRead. wp_steps. apply wp_dev_get. wp_steps. apply wp_in_ser_kernel. destruct (Z.ltb_spec 0 v) as [Hv|Hv].
  - eapply wp_KSemaphoreObtain_now; [exact Hid|exact Hs|done|lia|]. wp_steps. change (EOK =? EOK) with true. wp_steps. eapply wp_read_chars; [by apply holds_chars_kernel|cbn; lia|done|].
    intros s' [Hk Hw Hd Hx] Hh'. by wp_steps.
  - assert (v = 0) as -> by lia. eapply wp_KSemaphoreObtain_wait; [exact Hko|exact Hid|exact Hs|exact Hctx|].
    intros k' L' dl' l' Hko' _ Hr Hs' Hl' _ _. wp_steps. split; [done|]. split; [done|]. split; [by apply holds_chars_kernel|].
    split; [done|]. by exists L', dl', l'.
Qed.

(** When the caller runs again: with EOK as its status it reads what is there; any other
    status is answered with EOK too, and no characters. *)
Theorem SerialDevRead_resume_correct n s es t td :
  holds_chars s es -> flag_on (serial_work_mode (serial s)) SIGN_OPER_INT_RX = true -> tasks (ser_kernel s) !! t = Some td ->
  0 <= KTaskOsAssignLockNest (ser_kernel s) < 2 ^ 15 - 1 ->
  wp (SerialDevRead_resume t n) (fun r s' => ser_kernel s' = ser_kernel s /\ serial s' = serial s /\
    if exstatus td =? EOK then r = (EOK, take n es, Z.of_nat (min n (length es))) /\ holds_chars s' (drop n es)
    else r = (EOK, [], 0) /\ holds_chars s' es) s.
Proof.
  intros Hh Hm Et Hn. unfold SerialDevRead_resume, _SemaphoreObtain_resume. wp_steps. apply wp_in_ser_kernel.
  eapply wp_task_get; [exact Et|]. wp_steps. case_match; wp_steps; [|by split_and!; [..|apply holds_chars_kernel]].
  eapply wp_read_chars; [by apply holds_chars_kernel|done|done|]. intros s' [] Hh'. done.
Qed.

(** ** Histories *)

Inductive ser_op : Type :=
| SerArrive (w : DS) (cs : list Z)  (* the hardware, in the state [w], raises the interrupt *)
| SerRead (n : nat).

Definition ser_op_ok (turns : nat) (o : ser_op) : Prop :=
  match o with SerArrive w cs => (exists w', supplies w cs w') /\ (length cs < turns)%nat | SerRead _ => True end.

(** The result of a read that does not wait; an interrupt has none. *)
Definition run_ser_op (turns : nat) (mem : option ptr) (o : ser_op) : M sst (option (option (Z * list Z * Z))) :=
  match o with
  | SerArrive w _ => modify (set_ser_hw w);; SerialSetIsr turns SERIAL_EVENT_RX_IND;; mret (Some None)
  | SerRead n => r ← SerialDevRead mem n; mret (Some <$> r)
  end.

(** The interrupts and the calls of a task, up to one that has to wait. *)
Fixpoint run_ser_ops (turns : nat) (mem : option ptr) (os : list ser_op) : M sst (list (option (Z * list Z * Z))) :=
  match os with
  | [] => mret []
  | o :: os =>
      r ← run_ser_op turns mem o;
      match r with None => mret [] | Some r => rs ← run_ser_ops turns mem os; mret (r :: rs) end
  end.

(** A stream that keeps the last [cap] characters, with the number of its unanswered
    interrupts, of 16 bits; [None] when a read has to wait. *)
Definition stream_op (cap : nat) (st : list Z * Z) (o : ser_op) : option (option (Z * list Z * Z) * (list Z * Z)) :=
  let '(es, v) := st in
  match o with
  | SerArrive _ cs => let es := keep_last cap (es ++ (u8 <$> cs)) in Some (None, (es, if bool_decide (es = []) then v else u16 (v + 1)))
  | SerRead n => if 0 <? v then Some (Some (EOK, take n es, Z.of_nat (min n (length es))), (drop n es, v - 1)) else None
  end.
Fixpoint stream_ops (cap : nat) (st : list Z * Z) (os : list ser_op) : list (option (Z * list Z * Z)) * (list Z * Z) :=
  match os with
  | [] => ([], st)
  | o :: os => match stream_op cap st o with
               | None => ([], st)
               | Some (r, st) => let '(rs, st) := stream_ops cap st os in (r :: rs, st)
               end
  end.

(** A device no task waits for, between the calls of the task [t]. *)
Record serial_idle s L I dl (d : ptr) (v : Z) es (t : ptr) (td : TaskDescriptor) mem : Prop := {
  si_ok : serial_ok s L I dl d v [] es;
  si_mode : flag_on (serial_work_mode (serial s)) SIGN_OPER_INT_RX = true;
  si_context : task_context (ser_kernel s) t td mem;
}.

Lemma serial_idle_value s s' L I dl d v v' es es' t td mem : serial_idle s L I dl d v es t td mem -> serial s' = serial s ->
  ser_kernel s' = with_value d v' (ser_kernel s) -> 0 <= v' < 2 ^ 16 -> holds_chars s' es' -> serial_idle s' L I dl d v' es' t td mem.
Proof.
  intros [[Hko Hh Hid Hs] Hm Hctx] Ed Ek Hv Hh'. split; [|by rewrite Ed|rewrite Ek; by destruct Hctx].
  split; rewrite ?Ed, ?Ek; [by apply kernel_ok_sems|done|done|by eapply sem_ok_with_value].
Qed.

Lemma with_value_same d v k L l : sem_ok k L d v l -> with_value d v k = k.
Proof. intros [E _ _]. unfold with_value. rewrite insert_id by done. by destruct k. Qed.

(** A client with the invariant [J] of its own objects: its callback returns, keeps [J],
    and leaves the semaphore [d] of the device alone and the task [t] running; [J] does
    not depend on the value of that semaphore. *)
Record client_ok (J : kstate -> gmap link (list link) -> Prop) I (id : Z) (d t : ptr) mem : Prop := {
  cl_call : forall n k w L dl v td, J k L -> sem_ready k L I dl id d v [] -> task_context k t td mem ->
    exists k1 w1 L1 dl1 td1, calls_back n k w k1 w1 /\ J k1 L1 /\ sem_ready k1 L1 I dl1 id d v [] /\ task_context k1 t td1 mem;
  cl_value : forall k L v, J k L -> J (with_value d v k) L;
}.

Lemma no_callback_ok I id d t mem : dev_recv_callback = None -> client_ok (fun _ _ => True) I id d t mem.
Proof. intros E. split; [|done]. intros n k w L dl v td _ Hr Hctx. exists k, w, L, dl, td. unfold calls_back. by rewrite E. Qed.

(** One operation. *)
Lemma run_ser_op_refines turns mem o s L I dl d v es t td J (Q : option (option (Z * list Z * Z)) -> sst -> Prop) :
  serial_idle s L I dl d v es t td mem -> J (ser_kernel s) L -> ser_op_ok turns o -> client_ok J I (dev_sem (serial s)) d t mem ->
  (match stream_op (Z.to_nat (serial_buffer_size (serial s) - 1)) (es, v) o with
   | Some (r, (es', v')) => forall s' L' dl' td', serial_idle s' L' I dl' d v' es' t td' mem -> J (ser_kernel s') L' ->
       serial s' = serial s -> Q (Some r) s'
   | None => forall s', serial s' = serial s -> holds_chars s' es -> Q None s'
   end) ->
  wp (run_ser_op turns mem o) Q s.
Proof.
  intros Hidle HJ Ho [Hcall Hval] HQ. pose proof Hidle as [[Hko Hh Hid Hs] Hm Hctx]. pose proof (sk_range _ _ _ _ _ Hs).
  pose proof (tc_nest _ _ _ _ Hctx) as Hn.
  destruct o as [w cs|n]; cbn [run_ser_op stream_op ser_op_ok] in *.
  - destruct Ho as [[w' Hsup] Ht]. wp_steps.
    eapply (wp_rx_interrupt turns _ (set_ser_hw w s) es cs w'); [by apply holds_chars_hw|cbn; lia|done|done|done|..];
      intros E; unfold kept in *; cbn [serial ser_kernel set_ser_hw] in *.
    + intros s' Hk Hd _ Hh'. wp_steps. rewrite bool_decide_true in HQ by done.
      apply (HQ _ L dl td); [|by rewrite Hk|done]. eapply serial_idle_value; [exact Hidle|done| |lia|by rewrite E].
      by rewrite (with_value_same _ _ _ L []).
    + rewrite bool_decide_false in HQ by done. set (es' := keep_last _ _) in *.
      destruct (Hcall (Z.of_nat (length es')) (ser_kernel s) w' L dl v td HJ) as (k1 & w1 & L1 & dl1 & td1 & Hcb & HJ1 & Hr1 & Hctx1);
        [split; [done|done|done|by eexists; apply Hctx|done]|done|].
      exists k1, w1, L1, I, dl1, d, v, []. split; [done|]. split; [done|]. intros s' _ _ _ _ Hrel _ Hd Hh'. wp_steps.
      cbn [released] in Hrel. apply (HQ s' L1 dl1 td1); [|rewrite Hrel; by apply Hval|done].
      destruct Hr1 as [Hko1 Hid1 Hs1 _ _].
      apply (serial_idle_value (set_ser_kernel k1 s') s' L1 I dl1 d v (u16 (v + 1)) es');
        [|done|exact Hrel|apply Z.mod_pos_bound; lia|done].
      split; [split; [done|by apply holds_chars_kernel|by cbn; rewrite Hd|done]|by cbn; rewrite Hd|done].
  - wp_steps. eapply wp_mono; [by eapply SerialDevRead_correct|]. intros r s' [Hd Hr]. destruct (Z.ltb_spec 0 v).
    + destruct Hr as (-> & Ek & Hh'). wp_steps. apply (HQ _ L dl td); [|rewrite Ek; by apply Hval|done].
      by eapply serial_idle_value; [..|lia|].
    + destruct Hr as (-> & Hh' & _). wp_steps. by apply HQ.
Qed.

(** C17: the receiver implements a stream that keeps the last N - 1 characters of those
    that arrived and were not read.  In every history of interrupts and reads by one task
    the characters are read in their order; a read is answered once per interrupt that
    found characters, counted modulo 65536, and otherwise waits: the history ends there.
    A callback of the client may use the kernel as long as the reading task goes on and
    nothing else touches the semaphore of the device ([client_ok]); that of the CH376,
    which releases a semaphore of its own, is such a one ([HwCh376RxInd_ok]). *)
Theorem Serial_refines_stream turns mem os s L I dl d v es t td J :
  serial_idle s L I dl d v es t td mem -> J (ser_kernel s) L -> Forall (ser_op_ok turns) os ->
  client_ok J I (dev_sem (serial s)) d t mem ->
  wp (run_ser_ops turns mem os) (fun rs s' =>
    let '(rs', (es', v')) := stream_ops (Z.to_nat (serial_buffer_size (serial s) - 1)) (es, v) os in
    rs = rs' /\ holds_chars s' es') s.
Proof.
  intros Hidle HJ Hos Hcl. revert s L dl td v es Hidle HJ Hcl.
  induction Hos as [|o os Ho Hos IH]; intros s L dl td v es Hidle HJ Hcl; cbn [run_ser_ops stream_ops] in *.
  { wp_steps. split; [done|apply Hidle]. }
  wp_steps. eapply run_ser_op_refines; [done|exact HJ|done|done|]. destruct (stream_op _ (es, v) o) as [[r [es1 v1]]|] eqn:E.
  - intros s1 L1 dl1 td1 Hidle1 HJ1 Ed. wp_steps. eapply wp_mono; [apply (IH s1 L1 dl1 td1 v1 es1 Hidle1 HJ1); by rewrite Ed|]. rewrite Ed.
    destruct (stream_ops _ _ _) as [rs' [es' v']]. intros rs s' [-> Hh]. by wp_steps.
  - intros s' _ Hh. by wp_steps.
Qed.

(** ** Writing *)

(** What the board makes of characters that are written one by one. *)
Inductive puts : DS -> list Z -> DS -> Prop :=
| puts_nil w : puts w [] w
| puts_cons w c r w1 cs w' : put_char c w = Ret r w1 -> puts w1 cs w' -> puts w (c :: cs) w'.

(** In a stream a line ends with carriage return and line feed. *)
Definition stream_of (mode : Z) (data : list Z) : list Z :=
  data ≫= fun c => if (c =? 10) && (SIGN_OPER_STREAM =? mode) then [13; c] else [c].

(** Without interrupts every character is written. *)
Theorem SerialDevPollingWrite_puts data mode s w :
  puts (ser_hw s) (stream_of mode data) w -> SerialDevPollingWrite data mode s = Ret EOK (set_ser_hw w s).
Proof.
  revert s. induction data as [|c data IH]; intros s; cbn [SerialDevPollingWrite].
  { intros H. inversion H. subst. by destruct s. }
  unfold stream_of. rewrite bind_cons. fold (stream_of mode data). unfold mbind at 1 2 3, M_bind.
  case_match; cbn [app]; intros Hp; inversion Hp as [|? ? r w1 ? ? E H1]; subst.
  - inversion H1 as [|? ? r' w2 ? ? E' H2]; subst. unfold in_ser_hw, zoom. rewrite E. cbn. rewrite E'. by apply (IH (set_ser_hw w2 s)).
  - unfold in_ser_hw, zoom. cbn. rewrite E. by apply (IH (set_ser_hw w1 s)).
Qed.

(** Writing with interrupts, [v] being the value of the semaphore: a character that the
    board does not take is tried again for every unit of the semaphore; [rest] is what
    is left when there is none. *)
Inductive write_run : DS -> Z -> list Z -> DS -> Z -> list Z -> Prop :=
| write_done w v : write_run w v [] w v []
| write_char w w1 w' v v' c data rest : put_char c w = Ret EOK w1 -> write_run w1 v data w' v' rest -> write_run w v (c :: data) w' v' rest
| write_again w w1 w' v v' r c data rest : put_char c w = Ret r w1 -> r <> EOK -> 0 < v ->
    write_run w1 (v - 1) (c :: data) w' v' rest -> write_run w v (c :: data) w' v' rest
| write_waits w w1 r c data : put_char c w = Ret r w1 -> r <> EOK -> write_run w 0 (c :: data) w1 0 (c :: data).

Definition board_puts : Prop := forall c w, exists r w', put_char c w = Ret r w'.

(** The transmitter with its semaphore [d]. *)
Record tx_ok s L I dl (d : ptr) (v : Z) (l : list link) : Prop := {
  tx_kernel : kernel_ok (ser_kernel s) L I dl;
  tx_sem_id : exists p id, serial_tx (serial s) = Some p /\ txs s !! p = Some (mkSerialTx id) /\ has_object (ser_kernel s) L CSem id d;
  tx_value : sem_ok (ser_kernel s) L d v l;
}.

Lemma wp_tx_sem s L I dl d v l (Q : Z -> sst -> Prop) : tx_ok s L I dl d v l ->
  (forall id, has_object (ser_kernel s) L CSem id d -> Q id s) -> wp tx_sem Q s.
Proof.
  intros [_ (p & id & Ep & Et & Hid) _] HQ. unfold tx_sem. wp_steps. apply wp_dev_get. rewrite Ep. wp_steps. rewrite Et. wp_steps. by apply HQ.
Qed.

Lemma tx_ok_hw w s L I dl d v l : tx_ok s L I dl d v l -> tx_ok (set_ser_hw w s) L I dl d v l.
Proof. by intros []. Qed.

(** A write with interrupts returns, when every attempt to put a character does.  All
    characters were taken, and the semaphore has lost a unit for every one that was tried
    again; or the semaphore has no unit left and the caller waits, with the rest of its
    characters, until the transmitter is ready. *)
Theorem SerialDevIntWrite_correct turns mem data s L I dl d v l t td :
  tx_ok s L I dl d v l -> task_context (ser_kernel s) t td mem -> board_puts -> Z.of_nat (length data) + v < Z.of_nat turns ->
  wp (SerialDevIntWrite turns mem data) (fun r s' => exists v' rest, write_run (ser_hw s) v data (ser_hw s') v' rest /\
    match rest with
    | [] => r = inl EOK /\ ser_kernel s' = with_value d v' (ser_kernel s)
    | _ => r = inr rest /\ runs_highest (ser_kernel s') /\ exists L' dl' l', kernel_ok (ser_kernel s') L' I dl' /\
        sem_ok (ser_kernel s') L' d 0 l' /\ l' ≡ₚ SchedLink t :: l
    end) s.
Proof.
  intros Htx Hctx Hput. revert data s v Htx Hctx. induction turns as [|turns IH]; intros [|c data] s v Htx Hctx Ht; cbn [SerialDevIntWrite length] in *.
  1, 3: wp_steps; exists v, []; split; [constructor|split; [done|]]; symmetry; eapply with_value_same; apply Htx.
  { pose proof (sk_range _ _ _ _ _ (tx_value _ _ _ _ _ _ _ Htx)). lia. }
  destruct (Hput c (ser_hw s)) as (r & w1 & Er). pose proof (tc_nest _ _ _ _ Hctx) as Hn. pose proof (sk_range _ _ _ _ _ (tx_value _ _ _ _ _ _ _ Htx)) as Hv.
  wp_steps. eapply wp_in_ser_hw; [exact Er|]. destruct (Z.eqb_spec r EOK) as [->|Hr].
  - eapply wp_mono; [apply (IH data (set_ser_hw w1 s) v); [by apply tx_ok_hw|done|lia]|].
    intros r' s' (v' & rest & Hrun & Hrest). exists v', rest. split; [by eapply write_char|done].
  - wp_steps. eapply wp_tx_sem; [by apply tx_ok_hw|]. intros id Hid. wp_steps. apply wp_in_ser_kernel.
    destruct (decide (0 < v)) as [Hpos|Hzero].
    + eapply wp_KSemaphoreObtain_now; [exact Hid|apply Htx|done|cbn; lia|]. wp_steps.
      eapply wp_mono; [apply (IH (c :: data) _ (v - 1)); [|by destruct Hctx|cbn [length]; lia]|].
      * destruct Htx as [Hko (p & id' & ? & ? & ?) Hs]. split; [by apply kernel_ok_sems|by exists p, id'|by apply (sem_ok_with_value _ _ _ v); [|lia]].
      * intros r' s' (v' & rest & Hrun & Hrest). exists v', rest. split; [by eapply write_again|].
        destruct rest; [|done]. destruct Hrest as [-> ->]. split; [done|]. unfold with_value. cbn. by rewrite insert_insert_eq.
    + assert (v = 0) as -> by lia. eapply wp_KSemaphoreObtain_wait; [apply Htx|exact Hid|apply Htx|exact Hctx|].
      intros k' L' dl' l' Hko' _ Hrh Hs' Hl' _ _. wp_steps. exists 0, (c :: data). split; [by eapply write_waits|].
      split; [done|]. split; [done|]. by exists L', dl', l'.
Qed.

(** ** Opening *)

(** What opening does to the hardware and the device; the kernel is not touched. *)
Definition drv_ok : Prop := forall cmd w, exists r w', drv_set cmd w = Ret r w'.

Lemma wp_drv_set cmd s (Q : Z -> sst -> Prop) : drv_ok -> (forall r w, Q r (set_ser_hw w s)) -> wp (in_ser_hw (drv_set cmd)) Q s.
Proof. intros Hd HQ. destruct (Hd cmd (ser_hw s)) as (r & w & E). by eapply wp_in_ser_hw. Qed.

Lemma flag_on_lor mode : flag_on (Z.lor mode SIGN_OPER_INT_RX) SIGN_OPER_INT_RX = true.
Proof.
  unfold flag_on. destruct (Z.eqb_spec (Z.land (Z.lor mode SIGN_OPER_INT_RX) SIGN_OPER_INT_RX) 0) as [E|]; [|done].
  apply (f_equal (fun z => Z.testbit z 8)) in E. by rewrite Z.land_spec, Z.lor_spec, orb_true_r in E.
Qed.

Lemma wp_SerialWorkModeCheck_rx s (Q : Z -> sst -> Prop) :
  flag_on SIGN_OPER_INT_TX (serial_set_mode (serial s)) = false -> flag_on SIGN_OPER_INT_RX (serial_set_mode (serial s)) = true ->
  flag_on SIGN_OPER_INT_RX (serial_work_mode (serial s)) = true -> Q EOK s -> wp SerialWorkModeCheck Q s.
Proof. intros E1 E2 E3 HQ. unfold SerialWorkModeCheck. wp_steps. apply wp_dev_get. wp_steps. apply wp_dev_get. rewrite E1, E2, E3. by wp_steps. Qed.

Lemma wp_open_rx p b s (Q : Z -> sst -> Prop) : serial_rx (serial s) = None -> 2 <= serial_buffer_size (serial s) < 2 ^ 16 ->
  flag_on SIGN_OPER_INT_RX (serial_set_mode (serial s)) = true -> drv_ok ->
  (forall s', ser_kernel s' = ser_kernel s -> serial_set_mode (serial s') = serial_set_mode (serial s) ->
     flag_on (serial_work_mode (serial s')) SIGN_OPER_INT_RX = true -> holds_chars s' [] -> Q EOK s') ->
  wp (open_rx (Some p) (Some b)) Q s.
Proof.
  intros Erx Hsize Hmode Hdrv HQ. unfold open_rx, new_rx, add_mode, dev_set. wp_steps. apply wp_dev_get. wp_steps. apply wp_dev_get.
  rewrite Erx, Hmode. wp_steps. eapply wp_rx_set; [split; [done|apply lookup_insert_eq]|]. intros s1 Hs1 _ Hx1. wp_steps.
  apply wp_dev_get. wp_steps. set (s2 := set_rx_buffers _ s1). assert (rx_at s2 p (mkSerialRx (Some b) 0 0 false)) as Hx2 by by destruct Hx1.
  do 3 (eapply wp_rx_set; [eassumption|]; intros ? ? ? ?; wp_steps).
  apply wp_drv_set; [done|]. intros _ w. wp_steps. subst s2.
  match goal with H : rx_at ?s5 p _ |- Q _ (set_ser_hw _ (set_serial _ ?s5)) => assert (serial s5 = set_serial_rx (Some p) (serial s)) as E5 end.
  { repeat match goal with H : ring_step _ _ |- _ => apply rs_serial in H; cbn [serial set_rxs set_serial set_rx_buffers] in H end. congruence. }
  apply HQ.
  - repeat match goal with H : ring_step _ _ |- _ => apply rs_kernel in H; cbn [ser_kernel set_rxs set_serial set_rx_buffers] in H end. cbn. congruence.
  - cbn. by rewrite E5.
  - cbn. apply flag_on_lor.
  - split; cbn; rewrite E5; [done|]. cbn.
    exists p, (mkSerialRx (Some b) 0 0 false), b, (replicate (Z.to_nat (serial_buffer_size (serial s))) 0).
    split_and!; [|done| | |by unfold ring_end; cbn; rewrite Z.mod_0_l by lia|done].
    + split; cbn; [done|]. match goal with H : rx_at _ p _ |- _ => exact (ra_rx _ _ _ H) end.
    + repeat match goal with H : rx_buffers _ = rx_buffers _ |- _ => rewrite H; clear H end. cbn. rewrite (rs_serial _ _ Hs1). apply lookup_insert_eq.
    + apply ring_empty_intro; [cbn; lia|]. rewrite length_replicate. lia.
Qed.

Lemma wp_open_tx_none tx txm s (Q : Z -> sst -> Prop) : flag_on SIGN_OPER_INT_TX (serial_set_mode (serial s)) = false ->
  (forall v, Q EOK (set_serial (set_serial_tx v (serial s)) s)) -> wp (open_tx tx txm) Q s.
Proof.
  intros Hm HQ. unfold open_tx, dev_set. wp_steps. apply wp_dev_get. wp_steps. apply wp_dev_get. rewrite Hm. pose proof (HQ (serial_tx (serial s))) as HQ1.
  destruct (serial_tx (serial s)) eqn:E; wp_steps; [|by apply HQ]. rewrite <- E in HQ1. destruct s as [? ? [] ? ? ?]. exact HQ1.
Qed.

(** Opening in the mode with interrupts of the receiver, when that is among the modes of
    the device, the memory is there and an identifier for a semaphore is left: the device
    has no characters, and its semaphore is new and has the value 0. *)
Theorem SerialDevOpen_ready s L I dl mgr J l p b d tx txm :
  kernel_ok (ser_kernel s) L I dl -> ids_of CSem (ser_kernel s) mgr L J -> L !! ListHead CSem = Some l -> unborn (ser_kernel s) J d ->
  (exists i, 0 <= i < id_max mgr /\ J !! i = None) -> 0 <= KTaskOsAssignLockNest (ser_kernel s) < 2 ^ 15 - 1 ->
  serial_rx (serial s) = None -> 2 <= serial_buffer_size (serial s) < 2 ^ 16 ->
  flag_on SIGN_OPER_INT_RX (serial_set_mode (serial s)) = true -> flag_on SIGN_OPER_INT_TX (serial_set_mode (serial s)) = false ->
  flag_on SIGN_OPER_INT_RX (serial_work_mode (serial s)) = true -> drv_ok ->
  wp (SerialDevOpen (Some p) (Some b) tx txm (Some d)) (fun r s' => r = EOK /\
    exists L', serial_ok s' L' I dl d 0 [] [] /\ flag_on (serial_work_mode (serial s')) SIGN_OPER_INT_RX = true) s.
Proof.
  intros Hko Hids Hl [Hf Hs Hn HJ] (i & Hi & Ei) Hnest Erx Hsize Hset Htx Hwork Hdrv. unfold SerialDevOpen, dev_set. wp_steps.
  apply wp_SerialWorkModeCheck_rx; [done..|]. change (negb (EOK =? EOK)) with false. wp_steps.
  apply wp_open_rx; [done..|]. intros s1 Hk1 Hset1 Hm1 Hh1. change (negb (EOK =? EOK)) with false. wp_steps.
  apply wp_open_tx_none; [by rewrite Hset1|]. intros v. change (negb (EOK =? EOK)) with false. wp_steps.
  apply wp_in_ser_kernel. cbn [ser_kernel set_serial]. rewrite Hk1.
  eapply wp_mono; [by apply (KSemaphoreCreate_correct (ser_kernel s) L I dl mgr J l d 0)|].
  intros sem k' [(_ & Hall & _)|((Hpos & _ & _) & _ & mgr1 & h1 & L1 & _ & _ & Hko1 & Hids1 & Hsem1 & _)].
  { destruct (Hall i) as [? ?]; [lia|congruence]. }
  wp_steps. rewrite (proj2 (Z.ltb_ge sem 0)) by lia. wp_steps. split; [done|]. exists L1. split; [|exact Hm1].
  split; cbn; [done| |eapply ids_of_has_object; [exact Hids1|apply lookup_insert_eq]|done].
  destruct Hh1 as [Hz (p' & x & b' & buf & [Hp Hx] & H)]. split; [done|]. by exists p', x, b', buf.
Qed.

End SerialInv.

(** ** The client of the CH376 *)

Section client.
Context {B : Type} `{HW : SerialHwDevDone (B * Z)} `{C : KConfig} `{D : PriorityReadyVectorDone}.
Context `{CO : !KConfigOk C} `{DL : !ReadyVectorLaws D}.

(** Its callback returns, whatever the kernel is like: nobody waits for its semaphore
    [o], whose value is incremented. *)
Lemma HwCh376RxInd_call sem n k b len L o v :
  rep (links k) L -> has_object k L CSem sem o -> sem_ok k L o v [] -> 0 <= KTaskOsAssignLockNest k < 2 ^ 15 - 1 ->
  HwCh376RxInd (B := B) sem n (k, (b, len)) = Ret EOK (with_value o (u16 (v + 1)) k, (b, (len + n) mod 2 ^ 64)).
Proof.
  intros HR Hobj Ho Hn.
  assert (wp (HwCh376RxInd (B := B) sem n) (fun r x => r = EOK /\ x = (with_value o (u16 (v + 1)) k, (b, (len + n) mod 2 ^ 64)))
    (k, (b, len))) as H.
  { unfold HwCh376RxInd, add_msg_len. wp_steps. apply wp_zoom. eapply wp_KSemaphoreAbandon_free; [exact HR|exact Hobj|exact Ho|done|].
    by wp_steps. }
  apply wp_inv in H as (r & x & E & -> & ->). exact E.
Qed.

(** The callback is one that [Serial_refines_stream] allows, while only the CH376 driver
    waits for its semaphore. *)
Lemma HwCh376RxInd_ok sem o I id d t mem :
  dev_recv_callback = Some (HwCh376RxInd sem) -> o <> d ->
  client_ok (fun k L => has_object k L CSem sem o /\ exists v, sem_ok k L o v []) I id d t mem.
Proof.
  intros Ecb Hne. split.
  - intros n k [b len] L dl v td [Hobj [vo Ho]] [Hko Hid Hs Hc Hn] Hctx.
    exists (with_value o (u16 (vo + 1)) k), (b, (len + n) mod 2 ^ 64), L, dl, td.
    split; [|split; [|split]].
    + unfold calls_back. rewrite Ecb. exists EOK. eapply HwCh376RxInd_call; [apply Hko|done|done|lia].
    + split; [done|]. exists (u16 (vo + 1)). eapply sem_ok_with_value; [done|]. apply Z.mod_pos_bound. lia.
    + split; [by apply kernel_ok_sems|done|by apply sem_ok_other|done|done].
    + by destruct Hctx.
  - intros k L v [Hobj [vo Ho]]. split; [done|]. exists vo. by apply sem_ok_other.
Qed.

End client.
