(* ===== verification/Mutex.v ===== *)
(** * Mutexes: kernel/thread/mutex.c

    Recursive locks with one level of priority inheritance (the step of Priority.v).  [KMutexObtain] is
    split at [DO_KTASK_ASSIGN] as in Semaphore.v. *)

From S2P Require Import Prelude DoubleLink IdManager Bitmap Kernel ReadyVector Assign Delay Task TaskInv Deadlines Priority PendList Waiting Semaphore.

Section Mutex.
Context `{C : KConfig} `{D : PriorityReadyVectorDone}.

Definition mutex_get {A : Type} (m : ptr) (f : Mutex -> A) : M kstate A :=
  k ← get; x ← deref (mutexes k !! m); mret (f x).
Definition mutex_set (m : ptr) (f : Mutex -> Mutex) : M kstate unit :=
  k ← get; x ← deref (mutexes k !! m); modify (set_mutexes (<[m := f x]> (mutexes k))).

Definition mutex_links (m : ptr) : list link := [PendList CMutex m; ObjLink CMutex m; IdLink CMutex m].

Definition new_mutex (m : ptr) : M kstate unit :=
  modify (fun k => set_mutexes (<[m := mkMutex 0 0 0 None]> (mutexes k)) (zero_links (mutex_links m) k));;
  modify (fun k => set_node_ids (<[IdLink CMutex m := 0]> (node_ids k)) k).
Definition free_mutex (m : ptr) : M kstate unit :=
  k ← get;
  deref (mutexes k !! m);;
  modify (fun k => set_mutexes (delete m (mutexes k)) (drop_links (mutex_links m) k));;
  modify (fun k => set_node_ids (delete (IdLink CMutex m) (node_ids k)) k).

Definition _MutexCreate (mem : option ptr) : M kstate Z :=
  match mem with
  | None => mret (- ENOMEMORY)
  | Some mutex =>
      new_mutex mutex;;
      lock ← CriticalAreaLock;
      id ← kid CMutex (IdInsertObj (Bucket CMutex) (IdLink CMutex mutex));
      if id <? 0 then CriticalAreaUnLock lock;; free_mutex mutex;; mret (- ENOMEMORY)
      else
        klinks (InitDoubleLinkList (PendList CMutex mutex));;
        mutex_set mutex (set_mutex_val 1);;
        mutex_set mutex (set_holder None);;
        mutex_set mutex (set_mutex_origin_prio 255);;
        mutex_set mutex (set_recursive_cnt 0);;
        klinks (DoubleLinkListInsertNodeAfter (ListHead CMutex) (ObjLink CMutex mutex));;
        CriticalAreaUnLock lock;;
        mret id
  end.

Definition _MutexDelete (mutex : ptr) : M kstate unit :=
  LinklistResumeAll (PendList CMutex mutex);;
  lock ← CriticalAreaLock;
  id ← object_id CMutex mutex;
  kid CMutex (IdRemoveObj (Bucket CMutex) id);;
  klinks (DoubleLinkListRmNode (ObjLink CMutex mutex));;
  CriticalAreaUnLock lock;;
  free_mutex mutex.

Definition _MutexObtain (mem : option ptr) (mutex : ptr) (msec : Z) : M kstate (option Z) :=
  cur ← GetKTaskDescriptor;
  let wait_time := s32 (CalculteTickFromTimeMs (u32 msec)) in
  lock ← CriticalAreaLock;
  task ← deref cur;
  task_set task (set_exstatus EOK);;
  h ← mutex_get mutex holder;
  if bool_decide (h = Some task) then
    mutex_set mutex (fun m => set_recursive_cnt (u8 (recursive_cnt m + 1)) m);;
    CriticalAreaUnLock lock;;
    mret (Some EOK)
  else
    val ← mutex_get mutex mutex_val;
    if 0 <? val then
      mutex_set mutex (fun m => set_mutex_val (u16 (mutex_val m - 1)) m);;
      mutex_set mutex (set_holder (Some task));;
      prio ← task_get task cur_prio;
      mutex_set mutex (set_mutex_origin_prio prio);;
      mutex_set mutex (fun m => set_recursive_cnt (u8 (recursive_cnt m + 1)) m);;
      CriticalAreaUnLock lock;;
      mret (Some EOK)
    else if wait_time =? 0 then
      task_set task (set_exstatus (- ETIMEOUT));;
      CriticalAreaUnLock lock;;
      mret (Some (- ETIMEOUT))
    else
      mine ← task_get task cur_prio;
      hp ← deref h;
      its ← task_get hp cur_prio;
      (if its <? mine then
         hid ← task_id hp;
         prio ← task_get task cur_prio;
         KTaskPrioSet hid prio;; mret tt
       else mret tt);;
      LinklistSuspend (PendList CMutex mutex) task LINKLIST_FLAG_PRIO;;
      (if 0 <? wait_time then KTaskSetDelay mem task wait_time;; mret tt else mret tt);;
      CriticalAreaUnLock lock;;
      DO_KTASK_ASSIGN;;
      mret None.

Definition _MutexObtain_resume (task : ptr) : M kstate Z :=
  st ← task_get task exstatus;
  if negb (st =? EOK) then task_get task exstatus
  else lock ← CriticalAreaLock; CriticalAreaUnLock lock;; mret EOK.

Definition _MutexAbandon (mutex : ptr) : M kstate Z :=
  cur ← GetKTaskDescriptor;
  lock ← CriticalAreaLock;
  h ← mutex_get mutex holder;
  if negb (bool_decide (cur = h)) then
    task ← deref cur;
    task_set task (set_exstatus (- ERROR));;
    CriticalAreaUnLock lock;;
    mret (- ERROR)
  else
    mutex_set mutex (fun m => set_recursive_cnt (u8 (recursive_cnt m - 1)) m);;
    cnt ← mutex_get mutex recursive_cnt;
    resched ←
      (if cnt =? 0 then
         origin ← mutex_get mutex mutex_origin_prio;
         hp ← deref h;
         prio ← task_get hp cur_prio;
         (if negb (origin =? prio) then
            hid ← task_id hp; KTaskPrioSet hid origin;; mret tt
          else mret tt);;
         empty ← klinks (IsDoubleLinkListEmpty (PendList CMutex mutex));
         if negb empty then
           nx ← klinks (get_next (PendList CMutex mutex));
           task ← deref (nx ≫= sched_entry);
           mutex_set mutex (set_holder (Some task));;
           prio ← task_get task cur_prio;
           mutex_set mutex (set_mutex_origin_prio prio);;
           mutex_set mutex (fun m => set_recursive_cnt (u8 (recursive_cnt m + 1)) m);;
           LinklistResume (PendList CMutex mutex);;
           mret true
         else
           mutex_set mutex (fun m => set_mutex_val (u16 (mutex_val m + 1)) m);;
           mutex_set mutex (set_holder None);;
           mutex_set mutex (set_mutex_origin_prio 255);;
           mret false
       else mret false);
    CriticalAreaUnLock lock;;
    (if (resched : bool) then DO_KTASK_ASSIGN else mret tt);;
    mret EOK.

Definition KMutexCreate (mem : option ptr) : M kstate Z :=
  KDEBUG_NOT_IN_INTERRUPT;; _MutexCreate mem.

Definition KMutexDelete (id : Z) : M kstate unit :=
  KDEBUG_NOT_IN_INTERRUPT;;
  mutex ← find_object CMutex id;
  match mutex with Some mutex => _MutexDelete mutex | None => mret tt end.

Definition KMutexObtain (mem : option ptr) (id msec : Z) : M kstate (option Z) :=
  KDEBUG_IN_KTASK_CONTEXT;;
  mutex ← find_object CMutex id;
  match mutex with Some mutex => _MutexObtain mem mutex msec | None => mret (Some (- ERROR)) end.

Definition KMutexAbandon (id : Z) : M kstate Z :=
  KDEBUG_IN_KTASK_CONTEXT;;
  mutex ← find_object CMutex id;
  match mutex with Some mutex => _MutexAbandon mutex | None => mret (- ERROR) end.


(** ** The lock a mutex implements *)

Implicit Types (k : kstate) (L : gmap link (list link)) (I : gmap Z link) (dl : list ptr).

(** The holder, how often it holds the lock (modulo 256) and the priority it had
    when it got it. *)
Definition owner : Type := option (ptr * Z * Z).

Definition mutex_repr (o : owner) : Mutex :=
  match o with
  | None => mkMutex 1 0 255 None
  | Some (t, n, origin) => mkMutex 0 n origin (Some t)
  end.

(** The mutex [m] with its holder and its list of waiting tasks: nobody waits for
    a free mutex. *)
Record mutex_ok k L (m : ptr) (o : owner) (l : list link) : Prop := {
  mk_value : mutexes k !! m = Some (mutex_repr o);
  mk_list : L !! PendList CMutex m = Some l;
  mk_free : o = None -> l = [];
  mk_count : forall t n origin, o = Some (t, n, origin) -> 0 <= n < 2 ^ 8 /\ 0 <= origin < KTASK_PRIORITY_MAX;
}.

Lemma wp_mutex_get {A : Type} m (f : Mutex -> A) x (Q : A -> kstate -> Prop) k :
  mutexes k !! m = Some x -> Q (f x) k -> wp (mutex_get m f) Q k.
Proof. intros E HQ. unfold mutex_get. wp_steps. rewrite E. by wp_steps. Qed.

Lemma wp_mutex_set m f x (Q : unit -> kstate -> Prop) k :
  mutexes k !! m = Some x -> Q tt (set_mutexes (<[m := f x]> (mutexes k)) k) -> wp (mutex_set m f) Q k.
Proof. intros E HQ. unfold mutex_set. wp_steps. rewrite E. by wp_steps. Qed.

Context `{CO : !KConfigOk C} `{DL : !ReadyVectorLaws D}.

(** The state with the status of the current task cleared and the mutex changed. *)
Definition mutex_update (m : ptr) (o : owner) (t : ptr) (td : TaskDescriptor) (k : kstate) : kstate :=
  set_mutexes (<[m := mutex_repr o]> (mutexes k)) (set_tasks (<[t := set_exstatus EOK td]> (tasks k)) k).

(** The holder's descriptor after a task of priority [prio] started to wait. *)
Definition inherit (prio : Z) (tdh : TaskDescriptor) : TaskDescriptor :=
  if cur_prio tdh <? prio then with_prio prio tdh else tdh.

(** What the inheritance needs: a READY holder of a lower priority must move soundly
    between the ready lists (Priority.v). *)
Definition can_inherit k L (h : ptr) (prio : Z) : Prop := exists tdh, tasks k !! h = Some tdh /\
  (cur_prio tdh < prio -> stat_of tdh = KTASK_READY -> moves_soundly L h (cur_prio tdh) prio).

(** A holder that is neither idle nor closed then has at least the priority of the
    waiting task. *)
Lemma inherit_prio prio tdh :
  is_idle (name tdh) = false -> 0 <= stat_of tdh < KTASK_CLOSE -> cur_prio (inherit prio tdh) = Z.max prio (cur_prio tdh).
Proof.
  intros Hi Hs. unfold inherit, with_prio. rewrite Hi. destruct (Z.ltb_spec (cur_prio tdh) prio); [|lia].
  assert (stat_of tdh = KTASK_INIT \/ stat_of tdh = KTASK_READY \/ stat_of tdh = KTASK_SUSPEND \/ stat_of tdh = KTASK_RUNNING)
    as E by (unfold KTASK_INIT, KTASK_READY, KTASK_SUSPEND, KTASK_RUNNING, KTASK_CLOSE in *; lia).
  replace (_ || _ || _ || _) with true by (by destruct E as [->|[->|[->| ->]]]).
  rewrite bitmap_site_prio. cbn. lia.
Qed.

(** The priority inheritance step of [_MutexObtain]. *)
Lemma wp_inherit k L I dl t td h tdh (Q : unit -> kstate -> Prop) :
  kernel_ok k L I dl -> tasks k !! t = Some td -> stat_of td = KTASK_RUNNING -> tasks k !! h = Some tdh ->
  (cur_prio tdh < cur_prio td -> stat_of tdh = KTASK_READY -> moves_soundly L h (cur_prio tdh) (cur_prio td)) ->
  0 <= KTaskOsAssignLockNest k < 2 ^ 15 - 1 ->
  (forall k' L' tdh', kernel_ok k' L' I dl -> quiet k k' ->
     tasks k' = <[h := tdh']> (tasks k) -> tdh' = set_stat (stat tdh') (inherit (cur_prio td) tdh) ->
     stat_of tdh' = stat_of tdh -> (forall y, sched_link y = false -> L' !! y = L !! y) -> Q tt k') ->
  wp (if cur_prio tdh <? cur_prio td then
        hid ← task_id h;
        prio ← task_get t cur_prio;
        KTaskPrioSet hid prio;; mret tt
      else mret tt) Q k.
Proof.
  intros Hko Et Hst Eh Hsound Hn HQ. unfold inherit in HQ. destruct (Z.ltb_spec (cur_prio tdh) (cur_prio td)) as [Hlt|Hge].
  - assert (0 <= cur_prio td < KTASK_PRIORITY_MAX) as Hp.
    { apply (so_site _ _ (ko_sched _ _ _ _ Hko) _ _ Et). by rewrite Hst. }
    wp_steps. eapply wp_task_id; [exact Hko|by eexists|]. intros hid Hhid. wp_steps.
    eapply wp_task_get; [exact Et|]. wp_steps. unfold KTaskPrioSet. eapply wp_by_id; [exact Hko|exact Hhid|done|].
    destruct (decide (stat_of tdh = KTASK_READY)) as [Hr|Hnr].
    + eapply (wp_move_ready k L I dl h tdh); [done|done|done|done|by apply Hsound|done|].
      intros k' L' tdh' Hko' Hq _ Ets Etd Hs HL. wp_steps. apply (HQ k' L' tdh'); try done. congruence.
    + apply (wp__KTaskPrioSet k h tdh); [done|done|done|]. wp_steps.
      apply (HQ _ L (with_prio (cur_prio td) tdh)); [|by split|done|by destruct (with_prio _ _)|apply stat_of_with_prio|done].
      apply (kernel_ok_replace k L I dl h tdh); [done|done|]. by apply with_prio_may_replace.
  - apply wp_ret. apply (HQ k L tdh); [done|by split|by rewrite insert_id|by destruct tdh|done|done].
Qed.

Lemma wp_KMutexObtain k L I dl mem id m o l msec t td :
  kernel_ok k L I dl -> has_object k L CMutex id m -> mutex_ok k L m o l -> task_context k t td mem ->
  (forall h n origin, o = Some (h, n, origin) -> h <> t -> can_inherit k L h (cur_prio td)) ->
  wp (KMutexObtain mem id msec) (fun r k' =>
    match o with
    | None => r = Some EOK /\ k' = mutex_update m (Some (t, 1, cur_prio td)) t td k
    | Some (h, n, origin) =>
        if bool_decide (h = t) then r = Some EOK /\ k' = mutex_update m (Some (t, u8 (n + 1), origin)) t td k
        else r = None /\ runs_highest k' /\ visible k' = visible k /\
          exists L' dl' l', kernel_ok k' L' I dl' /\ mutex_ok k' L' m o l' /\ l' ≡ₚ SchedLink t :: l /\
            waits k' L' dl' t (set_exstatus EOK td) (PendList CMutex m) (CalculteTickFromTimeMs (u32 msec)) (heartbeat_ticks k) /\
            exists tdh tdh', tasks k !! h = Some tdh /\ tasks k' !! h = Some tdh' /\
              tdh' = set_stat (stat tdh') (inherit (cur_prio td) tdh)
    end) k.
Proof.
  intros Hko Hobj [Em HL Hfree Hcnt] Hctx Hholder. pose proof (tc_nest _ _ _ _ Hctx) as Hn.
  unfold KMutexObtain. wp_steps.
  apply (wp_KDEBUG_IN_KTASK_CONTEXT k t); [apply Hctx|apply Hctx|lia|]. wp_steps.
  eapply wp_find_object; [exact Hobj|lia|]. wp_steps.
  destruct (CalculteTickFromTimeMs_int32 (u32 msec)) as [Hb Hs]. unfold _MutexObtain. rewrite Hs. wp_steps.
  apply wp_GetKTaskDescriptor; [lia|]. rewrite (tc_current _ _ _ _ Hctx). wp_steps.
  apply wp_CriticalAreaLock; [lia|]. wp_steps. eapply wp_task_set; [apply (tc_task _ _ _ _ Hctx)|].
  set (td1 := set_exstatus EOK td). set (k1 := set_tasks _ (locked k)). wp_steps.
  assert (mutexes k1 !! m = Some (mutex_repr o)) as Em1 by exact Em.
  eapply wp_mutex_get; [exact Em1|].
  destruct o as [[[h n] origin]|]; cbn [holder mutex_repr].
  2:{ rewrite bool_decide_false by done. wp_steps. eapply wp_mutex_get; [exact Em1|]. cbn [mutex_val mutex_repr].
      change (0 <? 1) with true. wp_steps.
      repeat first [ wp_step | eapply wp_mutex_set; [first [exact Em1|cbn; apply lookup_insert_eq]|]
                   | eapply wp_task_get; [cbn; apply lookup_insert_eq|] | progress cbn beta iota ].
      apply wp_CriticalAreaUnLock; [cbn; lia|]. wp_steps. split; [done|].
      unfold mutex_update, k1, unlocked, locked. cbn. rewrite !insert_insert_eq. by rewrite Z.add_simpl_r. }
  case_bool_decide as Ht.
  { injection Ht as ->. rewrite bool_decide_true by done. wp_steps. eapply wp_mutex_set; [exact Em1|]. wp_steps.
    apply wp_CriticalAreaUnLock; [cbn; lia|]. wp_steps. split; [done|].
    unfold mutex_update, k1, unlocked, locked. cbn. by rewrite Z.add_simpl_r. }
  rewrite (bool_decide_false (h = t)) by congruence. wp_steps. eapply wp_mutex_get; [exact Em1|].
  cbn [mutex_val mutex_repr]. change (0 <? 0) with false. rewrite (proj2 (Z.eqb_neq _ 0)) by lia. wp_steps.
  destruct (Hholder h n origin eq_refl ltac:(congruence)) as (tdh & Eh & Hsound).
  assert (h <> t) as Hht by congruence.
  assert (kernel_ok k1 L I dl) as Hko1.
  { apply (kernel_ok_update (locked k) L I dl t td); [by eapply kernel_ok_fields|apply (tc_task _ _ _ _ Hctx)|done]. }
  assert (tasks k1 !! t = Some td1) as Et1 by apply lookup_insert_eq.
  assert (tasks k1 !! h = Some tdh) as Eh1 by (cbn; by rewrite lookup_insert_ne).
  eapply wp_task_get; [exact Et1|]. wp_steps. change (cur_prio td1) with (cur_prio td).
  eapply wp_task_get; [exact Eh1|]. wp_steps.
  eapply (wp_inherit k1 L I dl t td1 h tdh); [done|done|apply Hctx|done|exact Hsound|cbn; lia|].
  intros k2 L2 tdh2 Hko2 Hq2 Ets2 Etdh2 Hst2 HL2.
  assert (tasks k2 !! t = Some td1) as Et2 by (rewrite Ets2, lookup_insert_ne by done; exact Et1).
  assert (core k2 = core k1) as Hc2 by apply Hq2.
  eapply (wp_block k2 L2 I dl mem t td1);
    [done| |done|apply Hctx| |done|rewrite HL2 by done; exact HL|by right|by rewrite (quiet_nest _ _ Hq2); cbn; lia| | |].
  { change (os_running_task (core k2) = Some t). rewrite Hc2. apply Hctx. }
  { destruct (tc_other _ _ _ _ Hctx) as (y & tdy & Hy & Ey & Hsy).
    destruct (decide (y = h)) as [->|Hyh]; [exists h, tdh2|exists y, tdy].
    - rewrite Ets2, lookup_insert_eq. split_and!; [done|done|]. rewrite Hst2. congruence.
    - rewrite Ets2, lookup_insert_ne by done. cbn. by rewrite lookup_insert_ne. }
  { change (isr_count (core k2) = 0). rewrite Hc2. apply Hctx. }
  { intros d Ed Em'. apply (fresh_quiet k1); [done|]. by apply (tc_fresh _ _ _ _ Hctx). }
  assert (outer (unlocked (interrupts k) k2) = outer k) as Hout2.
  { apply outer_core. change (unlocked (interrupts k) (core k2) = core k). rewrite Hc2.
    unfold core, k1, unlocked, locked. cbn. by rewrite Z.add_simpl_r. }
  intros k' L' dl' Hko' Hout Hr HL' Hoth Hw Hkept. rewrite Hout2 in Hout.
  split_and!; [done|done|by apply visible_outer|].
  exists L', dl'. eexists. split_and!; [done|split; [|exact HL'|done|done]| | |].
  - change (mutexes (outer k') !! m = Some (mutex_repr (Some (h, n, origin)))). rewrite Hout. exact Em.
  - unfold insert_nth. by rewrite <- Permutation_middle, take_drop.
  - assert (heartbeat_ticks k2 = heartbeat_ticks k) as <-; [|done].
    change (heartbeat_ticks (core k2) = heartbeat_ticks k). by rewrite Hc2.
  - destruct (Hkept h tdh2 Hht) as (tdh' & Eh' & E'); [by rewrite Ets2, lookup_insert_eq|].
    exists tdh, tdh'. split_and!; [done|done|]. rewrite E' at 1. by rewrite Etdh2.
Qed.

(** C38: obtaining a mutex.  A free mutex is taken with depth 1 and the caller's
    priority remembered; the holder itself takes it again, its depth counted modulo
    256; while another task holds it, that task inherits the caller's priority if it
    is higher ([inherit], [inherit_prio]: afterwards it has at least the caller's,
    whether it is suspended or READY), the caller waits on the mutex, the mutex keeps
    its holder and the highest READY task runs.  [can_inherit] excludes a READY holder
    that shares its ready list while that of the caller's priority is empty, or the
    reverse: there the bitmap goes wrong, see Defects.KTaskPrioSet_ready_breaks. *)
Theorem KMutexObtain_correct k L I dl mem id m o l msec t td :
  kernel_ok k L I dl -> has_object k L CMutex id m -> mutex_ok k L m o l -> task_context k t td mem ->
  (forall h n origin, o = Some (h, n, origin) -> h <> t -> can_inherit k L h (cur_prio td)) ->
  wp (KMutexObtain mem id msec) (fun r k' =>
    match o with
    | None => r = Some EOK /\ k' = mutex_update m (Some (t, 1, cur_prio td)) t td k
    | Some (h, n, origin) =>
        if bool_decide (h = t) then r = Some EOK /\ k' = mutex_update m (Some (t, u8 (n + 1), origin)) t td k
        else r = None /\ runs_highest k' /\ visible k' = visible k /\
          exists L' dl' l', kernel_ok k' L' I dl' /\ mutex_ok k' L' m o l' /\ l' ≡ₚ SchedLink t :: l /\
            waits k' L' dl' t (set_exstatus EOK td) (PendList CMutex m) (CalculteTickFromTimeMs (u32 msec)) (heartbeat_ticks k) /\
            exists tdh tdh', tasks k !! h = Some tdh /\ tasks k' !! h = Some tdh' /\
              tdh' = set_stat (stat tdh') (inherit (cur_prio td) tdh)
    end) k.
Proof. apply wp_KMutexObtain. Qed.

(** The descriptor of a task that gives the mutex back. *)
Definition restore (origin : Z) (td : TaskDescriptor) : TaskDescriptor :=
  if origin =? cur_prio td then td else with_prio origin td.

Lemma stat_of_restore origin td : stat_of (restore origin td) = stat_of td.
Proof. unfold restore. destruct (_ =? _); [done|]. apply stat_of_with_prio. Qed.

Lemma wp_restore k L I dl t td origin (Q : unit -> kstate -> Prop) :
  kernel_ok k L I dl -> tasks k !! t = Some td -> stat_of td <> KTASK_READY ->
  0 <= origin < KTASK_PRIORITY_MAX -> 0 <= KTaskOsAssignLockNest k < 2 ^ 15 - 1 ->
  (let k' := set_tasks (<[t := restore origin td]> (tasks k)) k in kernel_ok k' L I dl -> Q tt k') ->
  wp (if negb (origin =? cur_prio td) then
        hid ← task_id t; KTaskPrioSet hid origin;; mret tt
      else mret tt) Q k.
Proof.
  intros Hko Et Hst Ho Hn HQ. cbv zeta in HQ. unfold restore in HQ.
  destruct (origin =? cur_prio td); cbn [negb].
  - apply wp_ret. rewrite insert_id in HQ by done. by apply HQ.
  - wp_steps. eapply wp_task_id; [exact Hko|by eexists|]. intros hid Hhid. wp_steps.
    unfold KTaskPrioSet. eapply wp_by_id; [exact Hko|exact Hhid|done|].
    apply (wp__KTaskPrioSet k t td); [done|done|done|]. wp_steps. apply HQ.
    apply (kernel_ok_replace k L I dl t td); [done|done|]. by apply with_prio_may_replace.
Qed.

Ltac mutex_sets E :=
  repeat first [ wp_step | eapply wp_mutex_set; [first [exact E|cbn; apply lookup_insert_eq]|]
               | progress cbn beta iota ].

(** The part of [_MutexAbandon] that gives the mutex to the first waiting task, and
    the end of the function after it. *)
Lemma wp_hand_over k L I dl m t td y x l lock :
  kernel_ok k L I dl -> mutexes k !! m = Some y -> mutex_val y = 0 -> recursive_cnt y = 0 ->
  L !! PendList CMutex m = Some (x :: l) -> os_running_task k = Some t -> tasks k !! t = Some td ->
  stat_of td <> KTASK_SUSPEND -> KTaskOsAssignLockNest k = 1 -> isr_count k = 0 ->
  wp (nx ← klinks (get_next (PendList CMutex m));
      task ← deref (nx ≫= sched_entry);
      mutex_set m (set_holder (Some task));;
      prio ← task_get task cur_prio;
      mutex_set m (set_mutex_origin_prio prio);;
      mutex_set m (fun m => set_recursive_cnt (u8 (recursive_cnt m + 1)) m);;
      LinklistResume (PendList CMutex m);;
      mret true)
    (fun b k' => wp (CriticalAreaUnLock lock;; (if (b : bool) then DO_KTASK_ASSIGN else mret tt);; mret EOK)
      (fun r k' => r = EOK /\ exists w tdw L' dl', x = SchedLink w /\ w <> t /\ tasks k !! w = Some tdw /\
         kernel_ok k' L' I dl' /\ mutex_ok k' L' m (Some (w, 1, cur_prio tdw)) l /\ woken k' w /\ runs_highest k' /\
         exists td', tasks k' !! t = Some td' /\ td' = set_stat (stat td') td) k') k.
Proof.
  intros Hko Em Hv Hr0 HL Hc Et Hst Hn Hisr.
  destruct (ko_member _ _ _ _ Hko (PendList CMutex m) _ x KTASK_SUSPEND eq_refl HL) as (w & tdw & -> & Ew & Hsw); [set_solver|].
  assert (w <> t) as Hwt by congruence.
  pose proof (rep_first _ _ _ _ (so_rep _ _ (ko_sched _ _ _ _ Hko)) HL) as Hf.
  wp_steps. apply wp_klinks, wp_get_next; [by eapply alloc_nxt|]. rewrite Hf. cbn [List.hd].
  change (set_links (links k) k) with k. wp_steps. cbn [mbind option_bind sched_entry]. wp_steps.
  eapply wp_mutex_set; [exact Em|]. wp_steps. eapply wp_task_get; [exact Ew|]. wp_steps.
  eapply wp_mutex_set; [cbn; apply lookup_insert_eq|]. wp_steps. eapply wp_mutex_set; [cbn; apply lookup_insert_eq|]. wp_steps.
  match goal with |- wp _ _ ?s => set (k3 := s) end.
  assert (kernel_ok k3 L I dl) as Hko3 by by eapply kernel_ok_fields.
  assert (mutexes k3 !! m = Some (mutex_repr (Some (w, 1, cur_prio tdw)))) as Em3.
  { cbn. rewrite lookup_insert_eq. destruct y. cbn in *. by subst. }
  eapply wp_mono; [apply (wp_resume_switch k3 L I dl t (PendList CMutex m) w l lock (fun _ k' =>
    exists L' dl', kernel_ok k' L' I dl' /\ mutex_ok k' L' m (Some (w, 1, cur_prio tdw)) l /\ woken k' w /\ runs_highest k' /\
      exists td', tasks k' !! t = Some td' /\ td' = set_stat (stat td') td)
    Hko3 Hc Hn eq_refl HL)|].
  - intros k4 L4 dl4 Hko4 Hvis Hr Hw HL4 _ Hkept. exists L4, dl4.
    split_and!; [done|split; [|done|done|]|done|by apply Hr|by apply Hkept].
    + change (mutexes (visible k4) !! m = Some (mutex_repr (Some (w, 1, cur_prio tdw)))). by rewrite Hvis.
    + intros ? ? ? [= <- <- <-]. split; [lia|]. apply (so_site _ _ (ko_sched _ _ _ _ Hko) _ _ Ew). by rewrite Hsw.
  - wp_next. wp_next. intros _ k4 (L4 & dl4 & Hpost). wp_steps. split; [done|]. by exists w, tdw, L4, dl4.
Qed.

Lemma wp_KMutexAbandon k L I dl id m o l t td :
  kernel_ok k L I dl -> has_object k L CMutex id m -> mutex_ok k L m o l ->
  os_running_task k = Some t -> tasks k !! t = Some td -> stat_of td = KTASK_RUNNING ->
  KTaskOsAssignLockNest k = 0 -> isr_count k = 0 ->
  wp (KMutexAbandon id) (fun r k' =>
    match o with
    | Some (h, n, origin) =>
        if bool_decide (h = t) then
          r = EOK /\
          if negb (u8 (n - 1) =? 0)
          then k' = set_mutexes (<[m := mutex_repr (Some (t, u8 (n - 1), origin))]> (mutexes k)) k
          else match l with
               | [] => k' = set_mutexes (<[m := mutex_repr None]> (mutexes k))
                              (set_tasks (<[t := restore origin td]> (tasks k)) k)
               | x :: l' => exists w tdw L' dl', x = SchedLink w /\ tasks k !! w = Some tdw /\ kernel_ok k' L' I dl' /\
                   mutex_ok k' L' m (Some (w, 1, cur_prio tdw)) l' /\ woken k' w /\ runs_highest k' /\
                   exists td', tasks k' !! t = Some td' /\ td' = set_stat (stat td') (restore origin td)
               end
        else r = - ERROR /\ k' = set_tasks (<[t := set_exstatus (- ERROR) td]> (tasks k)) k
    | None => r = - ERROR /\ k' = set_tasks (<[t := set_exstatus (- ERROR) td]> (tasks k)) k
    end) k.
Proof.
  intros Hko Hobj [Em HL Hfree Hcnt] Hc Et Hst Hn Hisr. unfold KMutexAbandon. wp_steps.
  apply (wp_KDEBUG_IN_KTASK_CONTEXT k t); [done|done|lia|]. wp_steps. eapply wp_find_object; [exact Hobj|lia|]. wp_steps.
  unfold _MutexAbandon. wp_steps. apply wp_GetKTaskDescriptor; [lia|]. rewrite Hc. wp_steps.
  apply wp_CriticalAreaLock; [lia|]. wp_steps. eapply wp_mutex_get; [exact Em|].
  assert (bool_decide (Some t = holder (mutex_repr o)) = false ->
    wp (task ← deref (Some t); task_set task (set_exstatus (- ERROR));; CriticalAreaUnLock (interrupts k);; mret (- ERROR))
      (fun r k' => r = - ERROR /\ k' = set_tasks (<[t := set_exstatus (- ERROR) td]> (tasks k)) k) (locked k)) as Hrefuse.
  { intros _. wp_steps. eapply wp_task_set; [exact Et|]. wp_steps. apply wp_CriticalAreaUnLock; [cbn; lia|]. wp_steps.
    split; [done|]. unfold unlocked, locked. cbn. by rewrite Z.add_simpl_r. }
  destruct o as [[[h n] origin]|]; cbn [holder mutex_repr] in *.
  2:{ rewrite bool_decide_false by done. cbn [negb]. by apply Hrefuse. }
  case_bool_decide as Ht; cbn [negb].
  2:{ rewrite (bool_decide_false (h = t)) by congruence. by apply Hrefuse. }
  injection Ht as <-. rewrite bool_decide_true by done. destruct (Hcnt _ _ _ eq_refl) as [Hn1 Ho].
  wp_steps. eapply wp_mutex_set; [exact Em|]. cbn [recursive_cnt mutex_repr]. wp_steps.
  eapply wp_mutex_get; [cbn; apply lookup_insert_eq|]. cbn [recursive_cnt set_recursive_cnt].
  destruct (u8 (n - 1) =? 0) eqn:E0; cbn [negb].
  2:{ wp_steps. apply wp_CriticalAreaUnLock; [cbn; lia|]. wp_steps. split; [done|].
      unfold unlocked, locked. cbn. by rewrite Z.add_simpl_r. }
  wp_steps. eapply wp_mutex_get; [cbn; apply lookup_insert_eq|]. cbn [mutex_origin_prio set_recursive_cnt mutex_repr].
  wp_steps. eapply wp_task_get; [exact Et|]. wp_steps.
  match goal with |- wp _ _ ?s => set (k1 := s) end.
  assert (kernel_ok k1 L I dl) as Hko1 by by eapply kernel_ok_fields.
  eapply (wp_restore k1 L I dl t td origin); [done|done|by rewrite Hst|done|cbn; lia|]. intros k2 Hko2. wp_steps.
  apply wp_klinks. eapply (wp_IsDoubleLinkListEmpty _ L); [apply Hko2|exact HL|].
  change (set_links (links k2) k2) with k2. cbn [mutex_repr set_recursive_cnt].
  assert (mutexes k2 !! m = Some (set_recursive_cnt (u8 (n - 1)) (mutex_repr (Some (t, n, origin))))) as Em2 by apply lookup_insert_eq.
  apply Z.eqb_eq in E0. rewrite E0 in *. destruct l as [|x l].
  - rewrite bool_decide_true by done. cbn [negb]. mutex_sets Em2. apply wp_CriticalAreaUnLock; [cbn; lia|]. wp_steps.
    split; [done|]. unfold k2, k1, unlocked, locked. cbn. rewrite !insert_insert_eq. by rewrite Z.add_simpl_r.
  - rewrite bool_decide_false by done. cbn [negb].
    eapply wp_mono; [apply (wp_hand_over k2 L I dl m t (restore origin td) _ x l (interrupts k) Hko2 Em2 eq_refl eq_refl HL Hc)|].
    + apply lookup_insert_eq.
    + by rewrite stat_of_restore, Hst.
    + cbn. lia.
    + done.
    + intros b k3 Hk3. eapply wp_mono; [exact Hk3|]. intros r k4 (-> & w & tdw & L4 & dl4 & -> & Hwt & Ew & Hpost). split; [done|].
      exists w, tdw, L4, dl4. split; [done|]. split; [|exact Hpost]. cbn in Ew. by rewrite lookup_insert_ne in Ew.
Qed.

(** C22: giving a mutex back.  Only its holder can: any other task gets -ERROR.  The
    depth decreases; when it reaches 0 the holder gets the priority it had when it
    took the mutex ([restore]), whether tasks wait or not.  The mutex becomes free if
    nobody waits; otherwise the first waiting task becomes its holder with depth 1
    and can run, and the highest READY task runs. *)
Theorem KMutexAbandon_correct k L I dl id m o l t td :
  kernel_ok k L I dl -> has_object k L CMutex id m -> mutex_ok k L m o l ->
  os_running_task k = Some t -> tasks k !! t = Some td -> stat_of td = KTASK_RUNNING ->
  KTaskOsAssignLockNest k = 0 -> isr_count k = 0 ->
  wp (KMutexAbandon id) (fun r k' =>
    match o with
    | Some (h, n, origin) =>
        if bool_decide (h = t) then
          r = EOK /\
          if negb (u8 (n - 1) =? 0)
          then k' = set_mutexes (<[m := mutex_repr (Some (t, u8 (n - 1), origin))]> (mutexes k)) k
          else match l with
               | [] => k' = set_mutexes (<[m := mutex_repr None]> (mutexes k))
                              (set_tasks (<[t := restore origin td]> (tasks k)) k)
               | x :: l' => exists w tdw L' dl', x = SchedLink w /\ tasks k !! w = Some tdw /\ kernel_ok k' L' I dl' /\
                   mutex_ok k' L' m (Some (w, 1, cur_prio tdw)) l' /\ woken k' w /\ runs_highest k' /\
                   exists td', tasks k' !! t = Some td' /\ td' = set_stat (stat td') (restore origin td)
               end
        else r = - ERROR /\ k' = set_tasks (<[t := set_exstatus (- ERROR) td]> (tasks k)) k
    | None => r = - ERROR /\ k' = set_tasks (<[t := set_exstatus (- ERROR) td]> (tasks k)) k
    end) k.
Proof. apply wp_KMutexAbandon. Qed.

End Mutex.
