(* ===== verification/Services.v ===== *)
(** * What the frameworks above the kernel ask of it

    Buses and the virtual file system use four calls of the kernel: they create,
    obtain and give back mutexes and set the status of the calling task.  Their
    theorems are proved against the laws of this interface, which MutexServices.v
    discharges for the state of the kernel.  The laws are about locks that no task
    holds: a call that has to wait is outside of the models of the frameworks. *)

From S2P Require Import Prelude Kernel.

Class Services (S : Type) : Type := {
  mutex_create : option ptr -> M S Z;
  (** [KMutexObtain(id, WAITING_FOREVER)] *)
  mutex_obtain : Z -> M S Z;
  mutex_abandon : Z -> M S Z;
  update_exstatus : Z -> M S unit;
}.

Class ServicesLaws (S : Type) `{Services S} : Type := {
  (** A task runs and the mutexes [ids] exist and are free. *)
  locks_free : list Z -> S -> Prop;
  law_lock : forall ids id s, locks_free ids s -> id ∈ ids ->
    exists s1 r s2, mutex_obtain id s = Ret EOK s1 /\ mutex_abandon id s1 = Ret r s2 /\ locks_free ids s2;
  law_exstatus : forall ids v s, locks_free ids s -> exists s', update_exstatus v s = Ret tt s' /\ locks_free ids s';
}.

(** A framework whose state [T] has the kernel as a part. *)
Class Hosts (S T : Type) : Type := {
  host : T -> S;
  set_host : S -> T -> T;
}.
Class HostsLaws (S T : Type) `{Hosts S T} : Prop := {
  host_set : forall s t, host (set_host s t) = s;
  set_set_host : forall s s' t, set_host s (set_host s' t) = set_host s t;
}.

Section Services.
Context {S T : Type} `{SV : Services S} `{HS : Hosts S T}.

Definition on_host {A : Type} : M S A -> M T A := zoom host set_host.

(** [KMutexObtain], the code it protects and [KMutexAbandon]. *)
Definition with_lock {A : Type} (id : Z) (m : M T A) : M T A :=
  on_host (mutex_obtain id);;
  v ← m;
  on_host (mutex_abandon id);;
  mret v.

Context {SL : ServicesLaws S} {HL : HostsLaws S T}.

(** What is protected does not see the kernel: it commutes with changes of it. *)
Definition blind {A : Type} (m : M T A) (P : A -> T -> Prop) (t : T) : Prop :=
  forall s, wp m (fun v t' => host t' = s /\ forall s', P v (set_host s' t')) (set_host s t).

Lemma wp_with_lock {A : Type} ids id (m : M T A) (Q : A -> T -> Prop) t :
  locks_free ids (host t) -> id ∈ ids ->
  blind m (fun v t' => locks_free ids (host t') -> Q v t') t -> wp (with_lock id m) Q t.
Proof.
  intros Hf Hid Hm. destruct (law_lock ids id (host t) Hf Hid) as (s1 & r & s2 & E1 & E2 & Hf2). unfold with_lock.
  wp_step. apply (wp_run _ _ _ EOK (set_host s1 t)); [unfold on_host, zoom; by rewrite E1|].
  wp_step. eapply wp_mono; [apply Hm|]. intros v t' [Eh HQ].
  wp_step. apply (wp_run _ _ _ r (set_host s2 t')); [unfold on_host, zoom; by rewrite Eh, E2|].
  wp_step. apply HQ. by rewrite host_set.
Qed.

Lemma wp_update_exstatus ids v (Q : unit -> T -> Prop) t :
  locks_free ids (host t) -> (forall s, locks_free ids s -> Q tt (set_host s t)) -> wp (on_host (update_exstatus v)) Q t.
Proof.
  intros Hf HQ. destruct (law_exstatus ids v (host t) Hf) as (s' & E & Hf').
  apply (wp_run _ _ _ tt (set_host s' t)); [unfold on_host, zoom; by rewrite E|]. by apply HQ.
Qed.

End Services.
