(* ===== verification/MutexServices.v ===== *)
(** * The services of the kernel

    The interface of Services.v on the state of the kernel, with the mutexes of
    mutex.c. *)

From S2P Require Import Prelude DoubleLink IdManager Bitmap Kernel ReadyVector Assign Delay Task TaskInv Deadlines PendList Waiting Semaphore Mutex Services.

Section MutexServices.
Context `{C : KConfig} `{D : PriorityReadyVectorDone}.

(** A call that has to wait does not return in this model. *)
#[export] Instance kernel_services : Services kstate := {
  mutex_create := KMutexCreate;
  mutex_obtain id := r ← KMutexObtain None id WAITING_FOREVER; match r with Some v => mret v | None => hang end;
  mutex_abandon := KMutexAbandon;
  update_exstatus := KUpdateExstatus;
}.

Implicit Types (k : kstate) (L : gmap link (list link)) (I : gmap Z link) (dl : list ptr).
Context `{CO : !KConfigOk C} `{DL : !ReadyVectorLaws D}.

(** A task runs, and the mutexes [ids] exist, are free and no task waits for one. *)
Record mutexes_free (ids : list Z) k L I dl (t : ptr) (td : TaskDescriptor) : Prop := {
  mf_ok : kernel_ok k L I dl;
  mf_context : task_context k t td None;
  mf_free : forall id, id ∈ ids -> exists m, has_object k L CMutex id m /\ mutex_ok k L m None [];
}.

Definition kernel_locks_free (ids : list Z) k : Prop := exists L I dl t td, mutexes_free ids k L I dl t td.

(** Only the status of the running task changes. *)
Lemma mutexes_free_status ids k L I dl t td v :
  mutexes_free ids k L I dl t td ->
  mutexes_free ids (set_tasks (<[t := set_exstatus v td]> (tasks k)) k) L I dl t (set_exstatus v td).
Proof.
  intros [Hko Hctx Hf]. pose proof (tc_task _ _ _ _ Hctx) as Et. split.
  - by apply (kernel_ok_update k L I dl t td).
  - destruct Hctx as [H1 H2 H3 (y & tdy & Hne & Ey & Hy) H5 H6 H7]. split; [done|apply lookup_insert_eq|done| |done|done|done].
    exists y, tdy. split_and!; [done| |done]. cbn. by rewrite lookup_insert_ne.
  - intros id Hid. destruct (Hf id Hid) as (m & Hobj & [Em HL Hfree Hcnt]). exists m. split; [exact Hobj|]. by split.
Qed.

Lemma obtain_abandon ids id k L I dl t td : mutexes_free ids k L I dl t td -> id ∈ ids ->
  exists k1 r, mutex_obtain id k = Ret EOK k1 /\
    mutex_abandon id k1 = Ret r (set_tasks (<[t := set_exstatus EOK td]> (tasks k)) k).
Proof.
  intros [Hko Hctx Hf] Hid. destruct (Hf id Hid) as (m & Hobj & Hm).
  pose proof (tc_task _ _ _ _ Hctx) as Et. pose proof Hm as [Em HL Hfree Hcnt].
  destruct (wp_inv _ _ _ (wp_KMutexObtain k L I dl None id m None [] WAITING_FOREVER t td Hko Hobj Hm Hctx ltac:(done)))
    as (r & k1' & E1 & -> & ->). pose proof (mutexes_free_status [] k L I dl t td EOK ltac:(split; [done|done|intros ? ?%not_elem_of_nil; done])) as [Hko' _ _].
  set (k1 := mutex_update m (Some (t, 1, cur_prio td)) t td k) in *.
  assert (kernel_ok k1 L I dl) as Hko1 by (by eapply kernel_ok_fields).
  assert (0 <= cur_prio td < KTASK_PRIORITY_MAX) as Hprio.
  { eapply (so_site _ _ (ko_sched _ _ _ _ Hko)); [exact Et|]. by rewrite (tc_running _ _ _ _ Hctx). }
  destruct (wp_inv _ _ _ (wp_KMutexAbandon k1 L I dl id m (Some (t, 1, cur_prio td)) [] t (set_exstatus EOK td) Hko1 Hobj
    ltac:(split; [apply lookup_insert_eq|done|done|intros ? ? ? [= <- <- <-]; done]) ltac:(apply Hctx) ltac:(apply lookup_insert_eq)
    ltac:(apply (tc_running _ _ _ _ Hctx)) ltac:(apply Hctx) ltac:(apply Hctx))) as (r & k2 & E2 & Hk2).
  rewrite bool_decide_true in Hk2 by done. destruct Hk2 as [-> ->].
  exists k1, EOK. split.
  - cbn. unfold mbind, M_bind. by rewrite E1.
  - cbn. rewrite E2. f_equal. unfold k1, mutex_update, restore. rewrite Z.eqb_refl. cbn.
    rewrite !insert_insert_eq. rewrite (insert_id (mutexes k)) by done. by destruct k.
Qed.

Lemma kernel_law_lock ids id k : kernel_locks_free ids k -> id ∈ ids ->
  exists k1 r k2, mutex_obtain id k = Ret EOK k1 /\ mutex_abandon id k1 = Ret r k2 /\ kernel_locks_free ids k2.
Proof.
  intros (L & I & dl & t & td & Hf) Hid. destruct (obtain_abandon ids id k L I dl t td Hf Hid) as (k1 & r & E1 & E2).
  eexists _, _, _. split_and!; [exact E1|exact E2|]. exists L, I, dl, t, (set_exstatus EOK td). by apply mutexes_free_status.
Qed.

Lemma kernel_law_exstatus ids v k : kernel_locks_free ids k ->
  exists k', update_exstatus v k = Ret tt k' /\ kernel_locks_free ids k'.
Proof.
  intros (L & I & dl & t & td & Hf). cbn [update_exstatus kernel_services].
  destruct (decide (EOK <= v < INVALID_TASK_ERROR)) as [Hv|Hv].
  - pose proof Hf as [_ Hctx _]. pose proof (tc_nest _ _ _ _ Hctx) as Hn.
    destruct (wp_inv (KUpdateExstatus v) (fun _ k' => k' = set_tasks (<[t := set_exstatus (- v) td]> (tasks k)) k) k) as ([] & k' & E & ->).
    { apply (wp_KUpdateExstatus v k t td); [done|apply Hctx|apply Hctx|apply Hctx|lia|done]. }
    eexists. split; [exact E|]. exists L, I, dl, t, (set_exstatus (- v) td). by apply mutexes_free_status.
  - exists k. split; [|by exists L, I, dl, t, td]. unfold KUpdateExstatus.
    assert ((v <? EOK) || (INVALID_TASK_ERROR <=? v) = true) as ->; [|done].
    apply orb_true_iff. rewrite Z.ltb_lt, Z.leb_le. lia.
Qed.

#[export] Instance kernel_services_laws : ServicesLaws kstate := {
  locks_free := kernel_locks_free;
  law_lock := kernel_law_lock;
  law_exstatus := kernel_law_exstatus;
}.

(** The status of a task does not change when the value is negative or too large. *)
Lemma update_exstatus_ignored v k : ~ (EOK <= v < INVALID_TASK_ERROR) -> update_exstatus v k = Ret tt k.
Proof.
  intros Hv. cbn. unfold KUpdateExstatus. assert ((v <? EOK) || (INVALID_TASK_ERROR <=? v) = true) as ->; [|done].
  apply orb_true_iff. rewrite Z.ltb_lt, Z.leb_le. lia.
Qed.

End MutexServices.
