(* ===== verification/Bus.v ===== *)
(** * Buses, drivers and devices: resources/bus.c

    A bus has a list of drivers and a list of devices; all buses are in one list.
    What a driver or a device does is a callback on the state [DS] of the
    hardware. *)

From S2P Require Import Prelude DoubleLink Kernel Services.

(** ** The state *)

(** The link fields: the list of buses, and per bus, driver and device its own. *)
Inductive blink : Type :=
| BusHead               (* bus_linklist *)
| BusLink (b : ptr)     (* &bus->bus_link *)
| DrvHead (b : ptr)     (* &bus->bus_drvlink *)
| DevHead (b : ptr)     (* &bus->bus_devlink *)
| DrvLink (d : ptr)     (* &driver->driver_link *)
| DevLink (d : ptr).    (* &device->dev_link *)

#[export] Instance blink_eq_dec : EqDecision blink.
Proof. solve_decision. Defined.
Definition blink_code (x : blink) : Z * ptr :=
  match x with
  | BusHead => (0, 1%positive) | BusLink b => (1, b) | DrvHead b => (2, b)
  | DevHead b => (3, b) | DrvLink d => (4, d) | DevLink d => (5, d)
  end.
Definition blink_decode (z : Z * ptr) : option blink :=
  match z with
  | (0, _) => Some BusHead | (1, b) => Some (BusLink b) | (2, b) => Some (DrvHead b)
  | (3, b) => Some (DevHead b) | (4, d) => Some (DrvLink d) | (5, d) => Some (DevLink d) | _ => None
  end.
Lemma blink_decode_code x : blink_decode (blink_code x) = Some x.
Proof. by destruct x. Qed.
#[export] Instance blink_countable : Countable blink := inj_countable blink_code blink_decode blink_decode_code.

(** [SYS_DOUBLE_LINKLIST_ENTRY] *)
Definition bus_entry (x : blink) : option ptr := match x with BusLink b => Some b | _ => None end.
Definition driver_entry (x : blink) : option ptr := match x with DrvLink d => Some d | _ => None end.
Definition device_entry (x : blink) : option ptr := match x with DevLink d => Some d | _ => None end.

Definition OPE_INT : Z := 0.
Definition OPE_CFG : Z := 1.

Record BusConfigureInfo : Type := mkConfigure { configure_cmd : Z; configure_data : Z }.
Record BusBlockReadParam : Type := mkReadParam { rd_pos : Z; rd_buffer : Z; rd_size : Z; read_length : Z }.
Record BusBlockWriteParam : Type := mkWriteParam { wr_pos : Z; wr_buffer : Z; wr_size : Z }.

(** Callbacks may be null. *)
Record HalDevDone (DS : Type) : Type := mkHalDevDone {
  done_open : option (ptr -> M DS Z);
  done_close : option (ptr -> M DS Z);
  done_write : option (ptr -> BusBlockWriteParam -> M DS Z);
  done_read : option (ptr -> BusBlockReadParam -> M DS (Z * BusBlockReadParam));
}.
Arguments done_open {DS} _. Arguments done_close {DS} _. Arguments done_write {DS} _. Arguments done_read {DS} _.
Arguments mkHalDevDone {DS} done_open done_close done_write done_read.

(** The fields of the three structures that the code of bus.c uses; pointers in them may be null. *)
Record HardwareDev (DS : Type) : Type := mkDev {
  dev_name : string;
  dev_done : HalDevDone DS;
  dev_recv_callback : option Z;
  dev_owner_bus : option ptr;
  dev_private_data : Z;
}.
Arguments dev_name {DS} _. Arguments dev_done {DS} _. Arguments dev_recv_callback {DS} _. Arguments dev_owner_bus {DS} _.
Arguments dev_private_data {DS} _. Arguments mkDev {DS} dev_name dev_done dev_recv_callback dev_owner_bus dev_private_data.

Record Driver (DS : Type) : Type := mkDriver {
  drv_name : string;
  drv_configure : option (ptr -> BusConfigureInfo -> M DS Z);
  drv_owner_bus : option ptr;
  drv_private_data : Z;
}.
Arguments drv_name {DS} _. Arguments drv_configure {DS} _. Arguments drv_owner_bus {DS} _. Arguments drv_private_data {DS} _.
Arguments mkDriver {DS} drv_name drv_configure drv_owner_bus drv_private_data.

Record Bus : Type := mkBus {
  bus_name : string;
  bus_match : bool;             (* [match] points to BusMatchDrvDev *)
  bus_lock : Z;
  owner_haldev : option ptr;
  owner_driver : option ptr;
  driver_cnt : Z;               (* the counters and flags are uint8 *)
  bus_drvlink_flag : Z;
  haldev_cnt : Z;
  bus_devlink_flag : Z;
  bus_cnt : Z;
  bus_link_flag : Z;
}.

Definition set_match (b : Bus) : Bus :=
  mkBus (bus_name b) true (bus_lock b) (owner_haldev b) (owner_driver b) (driver_cnt b) (bus_drvlink_flag b) (haldev_cnt b) (bus_devlink_flag b) (bus_cnt b) (bus_link_flag b).
Definition set_bus_lock (v : Z) (b : Bus) : Bus :=
  mkBus (bus_name b) (bus_match b) v (owner_haldev b) (owner_driver b) (driver_cnt b) (bus_drvlink_flag b) (haldev_cnt b) (bus_devlink_flag b) (bus_cnt b) (bus_link_flag b).
Definition set_owner_haldev (v : option ptr) (b : Bus) : Bus :=
  mkBus (bus_name b) (bus_match b) (bus_lock b) v (owner_driver b) (driver_cnt b) (bus_drvlink_flag b) (haldev_cnt b) (bus_devlink_flag b) (bus_cnt b) (bus_link_flag b).
Definition set_owner_driver (v : option ptr) (b : Bus) : Bus :=
  mkBus (bus_name b) (bus_match b) (bus_lock b) (owner_haldev b) v (driver_cnt b) (bus_drvlink_flag b) (haldev_cnt b) (bus_devlink_flag b) (bus_cnt b) (bus_link_flag b).
Definition set_counts (drv dev bus : Z) (b : Bus) : Bus :=
  mkBus (bus_name b) (bus_match b) (bus_lock b) (owner_haldev b) (owner_driver b) drv (bus_drvlink_flag b) dev (bus_devlink_flag b) bus (bus_link_flag b).
Definition set_flags (drv dev bus : Z) (b : Bus) : Bus :=
  mkBus (bus_name b) (bus_match b) (bus_lock b) (owner_haldev b) (owner_driver b) (driver_cnt b) drv (haldev_cnt b) dev (bus_cnt b) bus.

(** [bus_list_ready] is the static flag of BusLinkInit. *)
Record bus_state (S DS : Type) : Type := mkBusState {
  bus_host : S;
  bus_links : gmap blink (node blink);
  buses : gmap ptr Bus;
  drivers : gmap ptr (Driver DS);
  haldevs : gmap ptr (HardwareDev DS);
  hardware : DS;
  bus_list_ready : bool;
}.
Arguments mkBusState {S DS} bus_host bus_links buses drivers haldevs hardware bus_list_ready.
Arguments bus_host {S DS} _. Arguments bus_links {S DS} _. Arguments buses {S DS} _. Arguments drivers {S DS} _.
Arguments haldevs {S DS} _. Arguments hardware {S DS} _. Arguments bus_list_ready {S DS} _.

Section Bus.
Context {S DS : Type} `{C : KConfig} `{SV : Services S}.
Abbreviation bst := (bus_state S DS).

Definition set_bus_host (h : S) (s : bst) : bst := mkBusState h (bus_links s) (buses s) (drivers s) (haldevs s) (hardware s) (bus_list_ready s).
Definition set_bus_links (l : gmap blink (node blink)) (s : bst) : bst := mkBusState (bus_host s) l (buses s) (drivers s) (haldevs s) (hardware s) (bus_list_ready s).
Definition set_buses (b : gmap ptr Bus) (s : bst) : bst := mkBusState (bus_host s) (bus_links s) b (drivers s) (haldevs s) (hardware s) (bus_list_ready s).
Definition set_drivers (d : gmap ptr (Driver DS)) (s : bst) : bst := mkBusState (bus_host s) (bus_links s) (buses s) d (haldevs s) (hardware s) (bus_list_ready s).
Definition set_haldevs (d : gmap ptr (HardwareDev DS)) (s : bst) : bst := mkBusState (bus_host s) (bus_links s) (buses s) (drivers s) d (hardware s) (bus_list_ready s).
Definition set_hardware (w : DS) (s : bst) : bst := mkBusState (bus_host s) (bus_links s) (buses s) (drivers s) (haldevs s) w (bus_list_ready s).
Definition set_bus_list_ready (v : bool) (s : bst) : bst := mkBusState (bus_host s) (bus_links s) (buses s) (drivers s) (haldevs s) (hardware s) v.

#[export] Instance bus_hosts : Hosts S bst := { host := bus_host; set_host := set_bus_host }.
#[export] Instance bus_hosts_laws : HostsLaws S bst.
Proof. by split. Qed.

Definition blinks {A : Type} : M (gmap blink (node blink)) A -> M bst A := zoom bus_links set_bus_links.
(** A callback of a driver or a device. *)
Definition in_hardware {A : Type} : M DS A -> M bst A := zoom hardware set_hardware.

Definition bus_get {A : Type} (b : ptr) (f : Bus -> A) : M bst A := s ← get; x ← deref (buses s !! b); mret (f x).
Definition bus_set (b : ptr) (f : Bus -> Bus) : M bst unit :=
  s ← get; x ← deref (buses s !! b); modify (set_buses (<[b := f x]> (buses s))).
Definition driver_get {A : Type} (d : ptr) (f : Driver DS -> A) : M bst A := s ← get; x ← deref (drivers s !! d); mret (f x).
Definition driver_set (d : ptr) (f : Driver DS -> Driver DS) : M bst unit :=
  s ← get; x ← deref (drivers s !! d); modify (set_drivers (<[d := f x]> (drivers s))).
Definition device_get {A : Type} (d : ptr) (f : HardwareDev DS -> A) : M bst A := s ← get; x ← deref (haldevs s !! d); mret (f x).
Definition device_set (d : ptr) (f : HardwareDev DS -> HardwareDev DS) : M bst unit :=
  s ← get; x ← deref (haldevs s !! d); modify (set_haldevs (<[d := f x]> (haldevs s))).

(** ** Initialisation and matching *)

Definition BusLinkInit (bus : ptr) : M bst unit :=
  ready ← gets bus_list_ready;
  (if negb ready then
     blinks (InitDoubleLinkList BusHead);;
     modify (set_bus_list_ready true);;
     bus_set bus (fun b => set_flags (bus_drvlink_flag b) (bus_devlink_flag b) RET_TRUE b)
   else mret tt);;
  flag ← bus_get bus bus_drvlink_flag;
  (if flag =? 0 then
     blinks (InitDoubleLinkList (DrvHead bus));;
     bus_set bus (fun b => set_flags RET_TRUE (bus_devlink_flag b) (bus_link_flag b) b)
   else mret tt);;
  flag ← bus_get bus bus_devlink_flag;
  if flag =? 0 then
    blinks (InitDoubleLinkList (DevHead bus));;
    bus_set bus (fun b => set_flags (bus_drvlink_flag b) RET_TRUE (bus_link_flag b) b)
  else mret tt.

Definition BusMatchDrvDev (driver device : option ptr) : M bst Z :=
  drv ← NULL_PARAM_CHECK driver;
  dev ← NULL_PARAM_CHECK device;
  drv_bus ← driver_get drv drv_owner_bus; drv_bus ← deref drv_bus;
  dev_bus ← device_get dev dev_owner_bus; dev_bus ← deref dev_bus;
  n1 ← bus_get drv_bus bus_name;
  n2 ← bus_get dev_bus bus_name;
  if strncmp_eq (Z.to_nat NAME_NUM_MAX) n1 n2 then
    data ← device_get dev dev_private_data;
    driver_set drv (fun d => mkDriver (drv_name d) (drv_configure d) (drv_owner_bus d) data);;
    bus_set dev_bus (set_owner_driver (Some drv));;
    bus_set drv_bus (set_owner_haldev (Some dev));;
    mret EOK
  else mret ERROR.

(** [mem]: the memory for the mutex. *)
Definition BusRegister (mem : option ptr) (bus : option ptr) : M bst Z :=
  b ← NULL_PARAM_CHECK bus;
  bus_set b set_match;;
  BusLinkInit b;;
  lock ← on_host (mutex_create mem);
  bus_set b (set_bus_lock lock);;
  blinks (DoubleLinkListInsertNodeAfter BusHead (BusLink b));;
  mret EOK.

Definition BusRelease (bus : option ptr) : M bst Z :=
  b ← NULL_PARAM_CHECK bus;
  lock ← bus_get b bus_lock;
  on_host (mutex_abandon lock);;
  bus_set b (set_counts 0 0 0);;
  bus_set b (set_flags RET_FALSE RET_FALSE RET_FALSE);;
  mret EOK.

Definition BusUnregister (bus : option ptr) : M bst Z :=
  b ← NULL_PARAM_CHECK bus;
  bus_set b (fun x => set_counts (driver_cnt x) (haldev_cnt x) (u8 (bus_cnt x - 1)) x);;
  blinks (DoubleLinkListRmNode (BusLink b));;
  mret EOK.

(** ** Registration *)

Definition DriverRegisterToBus (bus driver : option ptr) : M bst Z :=
  b ← NULL_PARAM_CHECK bus;
  d ← NULL_PARAM_CHECK driver;
  driver_set d (fun x => mkDriver (drv_name x) (drv_configure x) (Some b) (drv_private_data x));;
  bus_set b (fun x => set_counts (u8 (driver_cnt x + 1)) (haldev_cnt x) (bus_cnt x) x);;
  blinks (DoubleLinkListInsertNodeAfter (DrvHead b) (DrvLink d));;
  mret EOK.

Definition DeviceRegisterToBus (bus device : option ptr) : M bst Z :=
  b ← NULL_PARAM_CHECK bus;
  d ← NULL_PARAM_CHECK device;
  device_set d (fun x => mkDev (dev_name x) (dev_done x) (dev_recv_callback x) (Some b) (dev_private_data x));;
  bus_set b (fun x => set_counts (driver_cnt x) (u8 (haldev_cnt x + 1)) (bus_cnt x) x);;
  blinks (DoubleLinkListInsertNodeAfter (DevHead b) (DevLink d));;
  mret EOK.

(** [free]: the memory of a driver or device and of its link is gone. *)
Definition free_driver (d : ptr) : M bst unit :=
  driver_get d drv_name;;
  modify (fun s => set_drivers (delete d (drivers s)) (set_bus_links (delete (DrvLink d) (bus_links s)) s)).
Definition free_device (d : ptr) : M bst unit :=
  device_get d dev_name;;
  modify (fun s => set_haldevs (delete d (haldevs s)) (set_bus_links (delete (DevLink d) (bus_links s)) s)).

Definition DriverDeleteFromBus (bus driver : option ptr) : M bst Z :=
  b ← NULL_PARAM_CHECK bus;
  d ← NULL_PARAM_CHECK driver;
  bus_set b (fun x => set_counts (u8 (driver_cnt x - 1)) (haldev_cnt x) (bus_cnt x) x);;
  blinks (DoubleLinkListRmNode (DrvLink d));;
  free_driver d;;
  mret EOK.

Definition DeviceDeleteFromBus (bus device : option ptr) : M bst Z :=
  b ← NULL_PARAM_CHECK bus;
  d ← NULL_PARAM_CHECK device;
  bus_set b (fun x => set_counts (driver_cnt x) (u8 (haldev_cnt x - 1)) (bus_cnt x) x);;
  blinks (DoubleLinkListRmNode (DevLink d));;
  free_device d;;
  mret EOK.

(** ** Searching by name *)

(** The walk of the three searches: [entry] finds the object of a link, [named] compares its name. *)
Definition find_named (entry : blink -> option ptr) (named : ptr -> M bst bool) (hd : blink) : M bst (option ptr) :=
  nx ← blinks (get_next hd);
  first ← deref nx;
  s ← get;
  x ← for_each_until (fun x => blinks (get_next x)) (fun x => p ← deref (entry x); named p)
        (Datatypes.S (size (bus_links s))) hd first;
  mret (entry x).

Definition BusFind (name : string) : M bst (option ptr) :=
  find_named bus_entry (fun b => n ← bus_get b bus_name; mret (bool_decide (n = name))) BusHead.

Definition BusFindDriver (bus : option ptr) (driver_name : string) : M bst (option ptr) :=
  b ← NULL_PARAM_CHECK bus;
  find_named driver_entry (fun d => n ← driver_get d drv_name; mret (bool_decide (n = driver_name))) (DrvHead b).

Definition BusFindDevice (bus : option ptr) (device_name : string) : M bst (option ptr) :=
  b ← NULL_PARAM_CHECK bus;
  find_named device_entry (fun d => n ← device_get d dev_name; mret (bool_decide (n = device_name))) (DevHead b).

(** ** Use *)

(** The result and the configuration, whose command the code changes. *)
Definition DeviceObtainBus (bus dev : option ptr) (name : string) (info : BusConfigureInfo) : M bst (Z * BusConfigureInfo) :=
  b ← NULL_PARAM_CHECK bus;
  d ← NULL_PARAM_CHECK dev;
  lock ← bus_get b bus_lock;
  ret ← on_host (mutex_obtain lock);
  if negb (EOK =? ret) then mret (ret, info)
  else
    owner ← bus_get b owner_haldev;
    if negb (bool_decide (owner = Some d)) then
      drv ← BusFindDriver (Some b) name;
      let info := mkConfigure OPE_CFG (configure_data info) in
      dr ← deref drv;
      f ← driver_get dr drv_configure; f ← deref f;
      in_hardware (f dr info);;
      let info := mkConfigure OPE_INT (configure_data info) in
      f ← driver_get dr drv_configure; f ← deref f;
      in_hardware (f dr info);;
      bus_set b (set_owner_haldev (Some d));;
      mret (ret, info)
    else mret (ret, info).

Definition BusDevRecvCallback (dev : option ptr) (callback : option Z) : M bst Z :=
  d ← NULL_PARAM_CHECK dev;
  device_set d (fun x => mkDev (dev_name x) (dev_done x) callback (dev_owner_bus x) (dev_private_data x));;
  mret EOK.

Definition call_device (f : option (ptr -> M DS Z)) (d : ptr) : M bst Z :=
  match f with
  | Some f => ret ← in_hardware (f d); if negb (ret =? 0) then mret ERROR else mret ret
  | None => mret EOK
  end.

Definition BusDevOpen (dev : option ptr) : M bst Z :=
  d ← NULL_PARAM_CHECK dev; f ← device_get d (fun x => done_open (dev_done x)); call_device f d.
Definition BusDevClose (dev : option ptr) : M bst Z :=
  d ← NULL_PARAM_CHECK dev; f ← device_get d (fun x => done_close (dev_done x)); call_device f d.

Definition BusDevWriteData (dev : option ptr) (param : BusBlockWriteParam) : M bst Z :=
  d ← NULL_PARAM_CHECK dev;
  f ← device_get d (fun x => done_write (dev_done x));
  match f with Some f => in_hardware (f d param) | None => mret EOK end.

Definition BusDevReadData (dev : option ptr) (param : BusBlockReadParam) : M bst (Z * BusBlockReadParam) :=
  d ← NULL_PARAM_CHECK dev;
  f ← device_get d (fun x => done_read (dev_done x));
  match f with Some f => in_hardware (f d param) | None => mret (EOK, param) end.

Definition BusDrvConfigure (drv : option ptr) (info : option BusConfigureInfo) : M bst Z :=
  d ← NULL_PARAM_CHECK drv;
  c ← NULL_PARAM_CHECK info;
  f ← driver_get d drv_configure;
  match f with
  | Some f => ret ← in_hardware (f d c); if negb (ret =? 0) then mret ERROR else mret ret
  | None => mret EOK
  end.

(** ** Rules *)

Implicit Types (s : bst) (L : gmap blink (list blink)).

Lemma wp_bus_get {A : Type} b (f : Bus -> A) x (Q : A -> bst -> Prop) s : buses s !! b = Some x -> Q (f x) s -> wp (bus_get b f) Q s.
Proof. intros E HQ. unfold bus_get. wp_steps. rewrite E. by wp_steps. Qed.
Lemma wp_bus_set b f x (Q : unit -> bst -> Prop) s : buses s !! b = Some x -> Q tt (set_buses (<[b := f x]> (buses s)) s) -> wp (bus_set b f) Q s.
Proof. intros E HQ. unfold bus_set. wp_steps. rewrite E. by wp_steps. Qed.
Lemma wp_device_get {A : Type} d (f : HardwareDev DS -> A) x (Q : A -> bst -> Prop) s : haldevs s !! d = Some x -> Q (f x) s -> wp (device_get d f) Q s.
Proof. intros E HQ. unfold device_get. wp_steps. rewrite E. by wp_steps. Qed.
Lemma wp_device_set d f x (Q : unit -> bst -> Prop) s :
  haldevs s !! d = Some x -> Q tt (set_haldevs (<[d := f x]> (haldevs s)) s) -> wp (device_set d f) Q s.
Proof. intros E HQ. unfold device_set. wp_steps. rewrite E. by wp_steps. Qed.
Lemma wp_driver_get {A : Type} d (f : Driver DS -> A) x (Q : A -> bst -> Prop) s : drivers s !! d = Some x -> Q (f x) s -> wp (driver_get d f) Q s.
Proof. intros E HQ. unfold driver_get. wp_steps. rewrite E. by wp_steps. Qed.

Lemma wp_blinks {A : Type} (m : M (gmap blink (node blink)) A) (Q : A -> bst -> Prop) s :
  wp m (fun v h => Q v (set_bus_links h s)) (bus_links s) -> wp (blinks m) Q s.
Proof. apply wp_zoom. Qed.

Lemma set_bus_links_id s : set_bus_links (bus_links s) s = s.
Proof. by destruct s. Qed.

(** The test of a search on links. *)
Definition on_entry (entry : blink -> option ptr) (P : ptr -> bool) (x : blink) : bool :=
  match entry x with Some p => P p | None => false end.

Lemma find_entry (mk : ptr -> blink) entry (P : ptr -> bool) hd ps : (forall p, entry (mk p) = Some p) -> entry hd = None ->
  entry (default hd (snd <$> list_find (on_entry entry P) (mk <$> ps))) = snd <$> list_find P ps.
Proof.
  intros Hmk Hhd. induction ps as [|p ps IH]; [done|]. rewrite fmap_cons. cbn [list_find].
  assert (on_entry entry P (mk p) = P p) as E by (unfold on_entry; by rewrite Hmk).
  destruct (P p) eqn:Ep.
  - rewrite !decide_True by (rewrite ?E; done). cbn. apply Hmk.
  - rewrite !decide_False by (rewrite ?E, ?Ep; auto). rewrite <- !option_fmap_compose. unfold compose.
    destruct (list_find P ps) as [[]|], (list_find (on_entry entry P) (mk <$> ps)) as [[]|]; done.
Qed.

(** The first object of a list whose name fits. *)
Lemma wp_find_named (mk : ptr -> blink) entry named (P : ptr -> bool) s L hd ps (Q : option ptr -> bst -> Prop) :
  rep (bus_links s) L -> L !! hd = Some (mk <$> ps) -> (forall p, entry (mk p) = Some p) -> entry hd = None ->
  (forall p, p ∈ ps -> named p s = Ret (P p) s) -> Q (snd <$> list_find P ps) s -> wp (find_named entry named hd) Q s.
Proof.
  intros HR HL Hmk Hhd Hn HQ. unfold find_named. pose proof (rep_first _ _ _ _ HR HL) as Hf.
  wp_step. apply wp_blinks, wp_get_next; [by eapply alloc_nxt|]. rewrite Hf, set_bus_links_id. wp_steps.
  pose proof (rep_length _ _ _ _ HR HL) as Hlen.
  eapply (wp_for_each_until _ _ (on_entry entry P) s (bus_links s) L hd []); [done|done| | |lia|].
  - intros x (p & -> & Hp)%list_elem_of_fmap. unfold blinks, zoom.
    pose proof (rep_alloc _ _ _ _ (mk p) HR HL ltac:(apply elem_of_cons; right; by apply list_elem_of_fmap_2)) as [nd E].
    unfold get_next, load, mbind, M_bind, nxt. rewrite E. unfold mret, M_ret. by rewrite set_bus_links_id.
  - intros x (p & -> & Hp)%list_elem_of_fmap. unfold on_entry. rewrite Hmk. unfold deref, mbind, M_bind, mret, M_ret. by apply Hn.
  - wp_steps. by rewrite find_entry.
Qed.

(** The search for the first object with a name. *)
Definition find_name (name : ptr -> string) (n : string) (ps : list ptr) : option ptr :=
  snd <$> list_find (fun p => bool_decide (name p = n)) ps.

Lemma wp_BusFind s L bs name n (Q : option ptr -> bst -> Prop) :
  rep (bus_links s) L -> L !! BusHead = Some (BusLink <$> bs) -> (forall b, b ∈ bs -> bus_name <$> buses s !! b = Some (name b)) ->
  Q (find_name name n bs) s -> wp (BusFind n) Q s.
Proof.
  intros HR HL Hb HQ. eapply (wp_find_named BusLink _ _ (fun b => bool_decide (name b = n))); [done..| |done].
  intros b (x & E & ->)%Hb%fmap_Some. by unfold bus_get, get, mbind, M_bind, deref, mret, M_ret; rewrite E.
Qed.

Lemma wp_BusFindDriver s L b ds name n (Q : option ptr -> bst -> Prop) :
  rep (bus_links s) L -> L !! DrvHead b = Some (DrvLink <$> ds) -> (forall d, d ∈ ds -> drv_name <$> drivers s !! d = Some (name d)) ->
  Q (find_name name n ds) s -> wp (BusFindDriver (Some b) n) Q s.
Proof.
  intros HR HL Hd HQ. unfold BusFindDriver. wp_step. eapply wp_null_check; [done|].
  eapply (wp_find_named DrvLink _ _ (fun d => bool_decide (name d = n))); [done..| |done].
  intros d (x & E & ->)%Hd%fmap_Some. by unfold driver_get, get, mbind, M_bind, deref, mret, M_ret; rewrite E.
Qed.

Lemma wp_BusFindDevice s L b ds name n (Q : option ptr -> bst -> Prop) :
  rep (bus_links s) L -> L !! DevHead b = Some (DevLink <$> ds) -> (forall d, d ∈ ds -> dev_name <$> haldevs s !! d = Some (name d)) ->
  Q (find_name name n ds) s -> wp (BusFindDevice (Some b) n) Q s.
Proof.
  intros HR HL Hd HQ. unfold BusFindDevice. wp_step. eapply wp_null_check; [done|].
  eapply (wp_find_named DevLink _ _ (fun d => bool_decide (name d = n))); [done..| |done].
  intros d (x & E & ->)%Hd%fmap_Some. by unfold device_get, get, mbind, M_bind, deref, mret, M_ret; rewrite E.
Qed.

(** ** The devices of a bus as a registry *)

Inductive reg_op : Type := RegDevice (d : ptr) | DelDevice (d : ptr) | FindDevice (n : string).

Definition run_reg_op (b : ptr) (o : reg_op) : M bst (option ptr) :=
  match o with
  | RegDevice d => DeviceRegisterToBus (Some b) (Some d);; mret None
  | DelDevice d => DeviceDeleteFromBus (Some b) (Some d);; mret None
  | FindDevice n => BusFindDevice (Some b) n
  end.
Fixpoint run_reg_ops (b : ptr) (os : list reg_op) : M bst (list (option ptr)) :=
  match os with
  | [] => mret []
  | o :: os => r ← run_reg_op b o; rs ← run_reg_ops b os; mret (r :: rs)
  end.

(** The specification: a list with the device that was registered last in front, and
    the devices that may be registered. *)
Inductive reg_run (name : ptr -> string) : list reg_op -> list ptr -> list ptr -> list (option ptr) -> list ptr -> Prop :=
| reg_nil reg spare : reg_run name [] reg spare [] reg
| reg_register d os reg spare rs reg' :
    d ∈ spare -> reg_run name os (d :: reg) (without d spare) rs reg' -> reg_run name (RegDevice d :: os) reg spare (None :: rs) reg'
| reg_delete d os reg spare rs reg' :
    d ∈ reg -> reg_run name os (without d reg) spare rs reg' -> reg_run name (DelDevice d :: os) reg spare (None :: rs) reg'
| reg_find n os reg spare rs reg' :
    reg_run name os reg spare rs reg' ->
    reg_run name (FindDevice n :: os) reg spare (find_name name n reg :: rs) reg'.

Record devices_ok s L (b : ptr) (name : ptr -> string) (reg spare : list ptr) : Prop := {
  do_rep : rep (bus_links s) L;
  do_list : L !! DevHead b = Some (DevLink <$> reg);
  do_bus : is_Some (buses s !! b);
  do_names : forall d, d ∈ reg ++ spare -> dev_name <$> haldevs s !! d = Some (name d);
  do_spare : forall d, d ∈ spare -> unlinked L (DevLink d) /\ alloc (bus_links s) (DevLink d);
}.

Lemma unlinked_attach L hd l x y : unlinked L y -> L !! hd = Some l -> y <> x -> y <> hd ->
  unlinked (attach hd (x :: l) x L) y.
Proof.
  intros Hun HL Hx Hhd hd' l' HL' Hin. unfold attach in HL'. apply lookup_insert_Some in HL' as [[<- <-]|[Hne HL']].
  - assert (y ∈ hd :: l) as Hin' by set_solver. by destruct (Hun hd l HL Hin') as [-> _].
  - apply lookup_delete_Some in HL' as [_ HL']. by apply Hun.
Qed.

Lemma wp_register s L b name reg spare d (Q : Z -> bst -> Prop) :
  devices_ok s L b name reg spare -> NoDup spare -> d ∈ spare ->
  (forall s' L', devices_ok s' L' b name (d :: reg) (without d spare) -> Q EOK s') ->
  wp (DeviceRegisterToBus (Some b) (Some d)) Q s.
Proof.
  intros [HR HL [x Eb] Hn Hs] Hnd Hd HQ. destruct (Hs d Hd) as [Hun Ha].
  pose proof (Hn d ltac:(set_solver)) as (y & Ed & En)%fmap_Some.
  unfold DeviceRegisterToBus. wp_step. eapply wp_null_check; [done|]. wp_step. eapply wp_null_check; [done|].
  wp_step. eapply wp_device_set; [exact Ed|]. wp_step. eapply wp_bus_set; [exact Eb|]. wp_step.
  apply wp_blinks. eapply (wp_DoubleLinkListInsertNodeAfter _ L (DevHead b) [] (DevLink <$> reg)); [done..|].
  intros h' HR' [Ha' Hp']. wp_steps. apply (HQ _ (attach (DevHead b) (DevLink d :: (DevLink <$> reg)) (DevLink d) L)). split; cbn.
  - done.
  - apply lookup_attach_eq.
  - rewrite lookup_insert_eq. by eexists.
  - intros d' Hd'. destruct (decide (d' = d)) as [->|Hne]; [rewrite lookup_insert_eq; cbn; by f_equal|].
    rewrite lookup_insert_ne by done. apply Hn. apply elem_of_cons in Hd' as [?|[?|[_ ?]%elem_of_without]%elem_of_app]; set_solver.
  - intros d' [Hne Hd']%elem_of_without. destruct (Hs d' Hd') as [Hun' Hal']. split; [|by apply Ha'].
    apply unlinked_attach; [done|done|congruence|done].
Qed.

Lemma wp_delete s L b name reg spare d (Q : Z -> bst -> Prop) :
  devices_ok s L b name reg spare -> (forall d, d ∈ reg -> d ∉ spare) -> d ∈ reg ->
  (forall s' L', devices_ok s' L' b name (without d reg) spare -> Q EOK s') ->
  wp (DeviceDeleteFromBus (Some b) (Some d)) Q s.
Proof.
  intros [HR HL [x Eb] Hn Hs] Hdisj Hd HQ. pose proof (Hn d ltac:(set_solver)) as (y & Ed & En)%fmap_Some.
  unfold DeviceDeleteFromBus. wp_step. eapply wp_null_check; [done|]. wp_step. eapply wp_null_check; [done|].
  wp_step. eapply wp_bus_set; [exact Eb|]. wp_step. apply wp_blinks. apply (wp_DoubleLinkListRmNode _ L).
  { done. } { right. exists (DevHead b), (DevLink <$> reg). split; [done|]. by apply list_elem_of_fmap_2. }
  intros h' HR' [Ha' Hp']. wp_step. unfold free_device. wp_step. eapply wp_device_get; [exact Ed|]. wp_steps.
  assert (rep (delete (DevLink d) h') (delete (DevLink d) (detach (DevLink d) L))) as HR2.
  { apply (rep_drop [DevLink d]); [done|]. intros z ->%list_elem_of_singleton. eapply detached_unlinked; [exact HR'|apply lookup_detach_eq]. }
  eapply (HQ _ (delete (DevLink d) (detach (DevLink d) L))). split; cbn.
  - exact HR2.
  - rewrite lookup_delete_ne, lookup_detach_ne, HL by done. cbn. f_equal. apply without_fmap. by intros ? ? [= ->].
  - rewrite lookup_insert_eq. by eexists.
  - intros d' Hd'. assert (d' <> d) as Hne.
    { intros ->. apply elem_of_app in Hd' as [[? _]%elem_of_without|?]; [done|by apply (Hdisj d)]. }
    rewrite lookup_delete_ne by done. apply Hn. apply elem_of_app in Hd' as [[_ ?]%elem_of_without|?]; set_solver.
  - intros d' Hd'. assert (d' <> d) as Hne by (intros ->; by apply (Hdisj d)). destruct (Hs d' Hd') as [Hun' Hal']. split.
    + intros hd l [_ [[-> ->]|(Hne' & l' & HL' & ->)]%lookup_detach_Some]%lookup_delete_Some Hin; [set_solver|].
      assert (DevLink d' ∈ hd :: l') as Hin' by (apply elem_of_cons in Hin as [?|[_ ?]%elem_of_without]; set_solver).
      destruct (Hun' hd l' HL' Hin') as [-> ->]. done.
    + destruct (proj2 (Ha' (DevLink d')) Hal') as [nd E]. exists nd. by rewrite lookup_delete_ne by congruence.
Qed.

(** C33: every history of registrations, deletions and searches of devices on a bus gives
    what a list gives that has the device registered last in front: a search finds the
    device of that name which was registered last. *)
Theorem Bus_refines_registry b name os reg spare rs reg' s L :
  devices_ok s L b name reg spare -> NoDup (reg ++ spare) -> reg_run name os reg spare rs reg' ->
  wp (run_reg_ops b os) (fun rs' s' => rs' = rs /\ exists L' spare', devices_ok s' L' b name reg' spare') s.
Proof.
  intros H Hnd Hrun. revert s L H Hnd. induction Hrun as [|d os reg spare rs reg' Hd Hrun IH|d os reg spare rs reg' Hd Hrun IH|n os reg spare rs reg' Hrun IH];
    intros s L H Hnd; cbn [run_reg_ops run_reg_op].
  - wp_steps. split; [done|]. by exists L, spare.
  - apply NoDup_app in Hnd as (H1 & H2 & H3). do 2 wp_step. apply (wp_register s L b name reg spare d); [done..|].
    intros s' L' H'. wp_steps. eapply wp_mono; [apply (IH s' L' H')|].
    + apply NoDup_app. split_and!; [apply NoDup_cons; split; [|done]|..].
      * intros Hin. by apply (H2 d).
      * intros x Hx [Hne Hx']%elem_of_without. apply elem_of_cons in Hx as [?|?]; [done|by apply (H2 x)].
      * by apply NoDup_without.
    + intros rs' s2 [-> Hs2]. by wp_steps.
  - apply NoDup_app in Hnd as (H1 & H2 & H3). do 2 wp_step. apply (wp_delete s L b name reg spare d); [done..|].
    intros s' L' H'. wp_steps. eapply wp_mono; [apply (IH s' L' H')|].
    + apply NoDup_app. split_and!; [by apply NoDup_without| |done]. intros x [_ Hx]%elem_of_without. by apply H2.
    + intros rs' s2 [-> Hs2]. by wp_steps.
  - wp_step. eapply (wp_BusFindDevice s L b reg name); [apply H|apply H| |].
    { intros d Hd. apply (do_names _ _ _ _ _ _ H). set_solver. }
    wp_steps. eapply wp_mono; [by apply (IH s L H)|]. intros rs' s2 [-> Hs2]. by wp_steps.
Qed.

End Bus.
