(* ===== verification/Path.v ===== *)
(** * Paths: GetAbsolutePath and GetRelativePath of fs/shared/src/iot-vfs.c

    A path is resolved in a buffer of characters: slashes become zero bytes, the
    words between them are read from left to right, and "." and ".." overwrite
    themselves and the word before them with zero bytes; what is left is joined.
    The reference is a fold over the list of words.  A word that begins with a dot
    and is neither of the two stops the walk for ever. *)

From S2P Require Import Prelude.
From Stdlib Require Import Ascii.

(** ** Buffers *)

Abbreviation buffer := (list ascii).

Definition NUL : ascii := "000"%char.
Definition SLASH : ascii := "/"%char.
Definition DOT : ascii := "."%char.
Definition chars : string -> buffer := String.list_ascii_of_string.
Definition string_of : buffer -> string := String.string_of_list_ascii.

Definition peek (i : nat) : M buffer ascii := b ← get; deref (b !! i).
Definition poke (i : nat) (c : ascii) : M buffer unit := b ← get; deref (b !! i);; modify <[i := c]>.

(** The characters of the string that starts a buffer, up to its zero byte. *)
Fixpoint c_string (b : buffer) : option buffer :=
  match b with
  | [] => None
  | c :: b => if bool_decide (c = NUL) then Some [] else cons c <$> c_string b
  end.
Definition read_string (i : nat) : M buffer buffer := b ← get; deref (c_string (drop i b)).
Definition strlen (i : nat) : M buffer nat := s ← read_string i; mret (length s).
Fixpoint memset (i : nat) (c : ascii) (n : nat) : M buffer unit :=
  match n with O => mret tt | S n => poke i c;; memset (S i) c n end.
(** Copying [s] with its zero byte, and [strcat]. *)
Fixpoint strcpy (i : nat) (s : buffer) : M buffer unit :=
  match s with [] => poke i NUL | c :: s => poke i c;; strcpy (S i) s end.
Definition strcat (s : buffer) : M buffer unit := n ← strlen 0; strcpy n s.

(** ** The loops *)

(** Slashes become zero bytes; [n] characters are left. *)
Fixpoint split_loop (n curr : nat) : M buffer unit :=
  match n with
  | O => mret tt
  | S n =>
      c ← peek curr;
      (if bool_decide (c = SLASH) then poke curr NUL else mret tt);;
      split_loop n (S curr)
  end.

(** [while (prev >= tmp && *prev == '\0') prev--], with [n] for [prev + 1 - tmp]. *)
Fixpoint skip_nuls (n : nat) : M buffer nat :=
  match n with
  | O => mret O
  | S m => c ← peek m; if bool_decide (c = NUL) then skip_nuls m else mret (S m)
  end.

(** [while (prev > tmp && *(prev - 1) != '\0') prev--] *)
Fixpoint word_start (prev : nat) : M buffer nat :=
  match prev with
  | O => mret O
  | S m => c ← peek m; if bool_decide (c = NUL) then mret (S m) else word_start m
  end.

(** The word before [curr] is overwritten with zero bytes. *)
Definition drop_word (curr : nat) : M buffer unit :=
  after ← skip_nuls curr;
  match after with
  | O => mret tt
  | S prev =>
      prev ← word_start prev;
      n ← strlen prev;
      memset prev NUL n
  end.

(** One turn of the loop that resolves the dots; the new [curr]. *)
Definition dots_body (curr : nat) : M buffer nat :=
  c ← peek curr;
  if bool_decide (c = NUL) then mret (S curr)
  else if bool_decide (c = DOT) then
    n ← strlen curr;
    if bool_decide (n = 1%nat) then poke curr NUL;; mret (S curr)
    else
      parent ← (if bool_decide (n = 2%nat) then c ← peek (S curr); mret (bool_decide (c = DOT)) else mret false);
      if (parent : bool) then
        drop_word curr;;
        poke (S curr) NUL;;
        poke curr NUL;;
        mret (S (S curr))
      else mret curr
  else n ← strlen curr; mret (curr + n)%nat.

Fixpoint dots_loop (fuel len curr : nat) : M buffer unit :=
  match fuel with
  | O => hang
  | S fuel =>
      if bool_decide (curr < len)%nat then curr ← dots_body curr; dots_loop fuel len curr
      else mret tt
  end.

(** Joining the words that are left, from [tmp] into [abspath]. *)
Definition in_tmp {A : Type} : M buffer A -> M (buffer * buffer) A := zoom fst (fun b s => (b, s.2)).
Definition in_abspath {A : Type} : M buffer A -> M (buffer * buffer) A := zoom snd (fun b s => (s.1, b)).

Fixpoint join_loop (fuel len curr : nat) : M (buffer * buffer) unit :=
  match fuel with
  | O => hang
  | S fuel =>
      if bool_decide (curr < len)%nat then
        c ← in_tmp (peek curr);
        if bool_decide (c = NUL) then join_loop fuel len (S curr)
        else
          in_abspath (strcat [SLASH]);;
          w ← in_tmp (read_string curr);
          in_abspath (strcat w);;
          n ← in_tmp (strlen curr);
          join_loop fuel len (curr + n)
      else mret tt
  end.

(** The body of GetAbsolutePath on [tmp] and [abspath]; the result is in [abspath]. *)
Definition resolve_path (len : nat) : M (buffer * buffer) buffer :=
  in_tmp (split_loop len 0);;
  in_tmp (dots_loop (S len) len 0);;
  join_loop (S len) len 0;;
  c ← in_abspath (peek 0);
  (if bool_decide (c = NUL) then in_abspath (poke 0 SLASH);; in_abspath (poke 1 NUL) else mret tt);;
  in_abspath (read_string 0).

(** Local memory: it is allocated and given back. *)
Definition with_local {S T A : Type} (t : T) (m : M T A) : M S A := fun s =>
  match m t with Ret a _ => Ret a s | Hang => Hang | Fault => Fault end.

(** What [tmp] starts with. *)
Definition full_path (working_dir path : string) : buffer :=
  match chars path with
  | c :: _ => if bool_decide (c = SLASH) then chars path else chars working_dir ++ [SLASH] ++ chars path
  | [] => chars working_dir ++ [SLASH]
  end.

(** [tmp_ok] and [abs_ok]: the allocations of the two buffers succeed. *)
Definition GetAbsolutePath {S : Type} (tmp_ok abs_ok : bool) (working_dir : string) (path : option string) : M S (option string) :=
  path ← NULL_PARAM_CHECK path;
  let tmp := full_path working_dir path ++ [NUL] in
  let len := length tmp in
  if negb (tmp_ok && abs_ok) then mret None
  else
    abspath ← with_local (tmp, replicate len NUL) (resolve_path len);
    mret (Some (string_of abspath)).

(** The rest of [abspath] behind the mount point, without the slashes between. *)
Fixpoint skip_slashes (b : buffer) : buffer :=
  match b with
  | c :: b' => if bool_decide (c = SLASH) then skip_slashes b' else b
  | [] => []
  end.
Definition GetRelativePath (prefix abspath : string) : string :=
  if bool_decide (String.length prefix = String.length abspath) then ""
  else string_of (skip_slashes (drop (String.length prefix) (chars abspath))).

(** ** The reference *)

Abbreviation word := (list ascii).

(** The words between separators; [w] is the word that is being read. *)
Definition emit (w : word) : list word := match w with [] => [] | _ => [w] end.
Fixpoint tokens (sep : ascii) (w : word) (b : buffer) : list word :=
  match b with
  | [] => emit w
  | c :: b => if bool_decide (c = sep) then emit w ++ tokens sep [] b else tokens sep (w ++ [c]) b
  end.

Definition components (path : buffer) : list word := tokens SLASH [] path.

Definition resolve_step (st : list word) (w : word) : list word :=
  if bool_decide (w = [DOT]) then st
  else if bool_decide (w = [DOT; DOT]) then removelast st
  else st ++ [w].
Definition resolve (st : list word) (ws : list word) : list word := fold_left resolve_step ws st.

Definition join (ws : list word) : buffer := concat (cons SLASH <$> ws).
Definition path_of (ws : list word) : string := match ws with [] => "/" | _ => string_of (join ws) end.

(** A word that begins with a dot and is neither "." nor "..". *)
Definition hidden (w : word) : bool :=
  bool_decide (head w = Some DOT) && negb (bool_decide (w = [DOT])) && negb (bool_decide (w = [DOT; DOT])).

Definition no_nul (b : buffer) : Prop := NUL ∉ b.

(** ** Facts about words *)

Implicit Types (b p r w : buffer) (ws st : list word).

Lemma tokens_app sep w b1 b2 : tokens sep w (b1 ++ sep :: b2) = tokens sep w b1 ++ tokens sep [] b2.
Proof.
  revert w. induction b1 as [|c b1 IH]; intros w; cbn [app tokens].
  - by rewrite bool_decide_true.
  - case_bool_decide; [by rewrite IH, app_assoc|apply IH].
Qed.

Lemma tokens_word sep w x b : sep ∉ x -> tokens sep w (x ++ b) = tokens sep (w ++ x) b.
Proof.
  revert w. induction x as [|c x IH]; intros w Hx; [by rewrite app_nil_r|]. cbn [app tokens].
  rewrite bool_decide_false by set_solver. rewrite IH by set_solver. by rewrite <- app_assoc.
Qed.

Lemma tokens_seps sep n b : tokens sep [] (replicate n sep ++ b) = tokens sep [] b.
Proof. induction n as [|n IH]; [done|]. cbn. by rewrite bool_decide_true. Qed.

Definition words b : list word := tokens NUL [] b.

(** At a place where a word may begin. *)
Definition fresh p : Prop := p = [] \/ exists p', p = p' ++ [NUL].

Lemma words_fresh p r : fresh p -> words (p ++ r) = words p ++ words r.
Proof.
  intros [->|[p' ->]]; [done|]. unfold words. rewrite <- app_assoc. cbn [app]. rewrite !tokens_app. cbn. by rewrite app_nil_r.
Qed.

Lemma words_nul p : words (p ++ [NUL]) = words p.
Proof. unfold words. rewrite tokens_app. cbn. by rewrite app_nil_r. Qed.

Lemma words_cons_nul r : words (NUL :: r) = words r.
Proof. done. Qed.

Lemma words_nuls p n : words (p ++ replicate n NUL) = words p.
Proof.
  induction n as [|n IH]; [by rewrite app_nil_r|]. rewrite replicate_S_end, app_assoc, words_nul. exact IH.
Qed.

Lemma words_word w r : w <> [] -> NUL ∉ w -> words (w ++ NUL :: r) = w :: words r.
Proof.
  intros Hne Hw. unfold words. rewrite tokens_word by done. cbn. rewrite bool_decide_true by done. by destruct w.
Qed.

Lemma fresh_snoc p : fresh (p ++ [NUL]).
Proof. right. by exists p. Qed.

Lemma words_snoc p w : fresh p -> w <> [] -> NUL ∉ w -> words (p ++ w) = words p ++ [w].
Proof.
  intros Hf Hne Hw. rewrite words_fresh by done. f_equal. rewrite <- words_nul, words_word by done. done.
Qed.

(** A buffer is zero bytes, or ends with a word and zero bytes. *)
Lemma last_word p :
  (exists n, p = replicate n NUL) \/
  exists p0 w n, p = p0 ++ w ++ replicate n NUL /\ w <> [] /\ (NUL ∉ w) /\ fresh p0.
Proof.
  induction p as [|c p IH] using rev_ind; [left; by exists O|].
  destruct (decide (c = NUL)) as [->|Hc].
  - destruct IH as [[n ->]|(p0 & w & n & -> & H1 & H2 & H3)].
    + left. exists (S n). by rewrite replicate_S_end.
    + right. exists p0, w, (S n). rewrite replicate_S_end, <- !app_assoc. by split_and!.
  - right. destruct IH as [[n ->]|(p0 & w & n & -> & H1 & H2 & H3)].
    + exists (replicate n NUL), [c], O. cbn. split_and!; [done|done|set_solver|].
      destruct n; [by left|]. right. exists (replicate n NUL). apply replicate_S_end.
    + destruct n as [|n].
      * exists p0, (w ++ [c]), O. cbn. rewrite !app_nil_r, app_assoc. split_and!; [done|by destruct w|set_solver|done].
      * exists (p0 ++ w ++ replicate (S n) NUL), [c], O. cbn -[replicate]. split_and!; [done|done|set_solver|].
        right. exists (p0 ++ w ++ replicate n NUL). by rewrite replicate_S_end, <- !app_assoc.
Qed.

(** The word a buffer starts with. *)
Lemma first_word b : last b = Some NUL -> exists w r, b = w ++ NUL :: r /\ NUL ∉ w.
Proof.
  intros Hl. assert (NUL ∈ b) as Hin by (by apply last_Some_elem_of).
  apply list_elem_of_split_l in Hin as (w & r & -> & Hw). by exists w, r.
Qed.

(** ** Rules *)

Lemma wp_peek i c (Q : ascii -> buffer -> Prop) b : b !! i = Some c -> Q c b -> wp (peek i) Q b.
Proof. intros E HQ. unfold peek. wp_step. wp_step. by apply (wp_deref _ _ _ c). Qed.

Lemma wp_poke i c (Q : unit -> buffer -> Prop) b : (i < length b)%nat -> Q tt (<[i := c]> b) -> wp (poke i c) Q b.
Proof.
  intros Hi HQ. destruct (lookup_lt_is_Some_2 b i Hi) as [c0 E]. unfold poke. do 3 wp_step. eapply wp_deref; [exact E|]. by wp_step.
Qed.

Lemma c_string_app w r : NUL ∉ w -> c_string (w ++ NUL :: r) = Some w.
Proof.
  induction w as [|c w IH]; intros Hw; cbn [app c_string]; [by rewrite bool_decide_true|].
  rewrite bool_decide_false by set_solver. by rewrite IH by set_solver.
Qed.

(** A buffer that is cut at a place. *)
Lemma peek_at p c r (Q : ascii -> buffer -> Prop) : Q c (p ++ c :: r) -> wp (peek (length p)) Q (p ++ c :: r).
Proof. apply wp_peek. by rewrite list_lookup_middle. Qed.

Lemma poke_at p c d r (Q : unit -> buffer -> Prop) : Q tt (p ++ d :: r) -> wp (poke (length p) d) Q (p ++ c :: r).
Proof. intros HQ. apply wp_poke; [rewrite length_app; cbn; lia|]. by rewrite insert_app_r_alt, Nat.sub_diag by lia. Qed.

Lemma read_string_at p w r (Q : buffer -> buffer -> Prop) : NUL ∉ w -> Q w (p ++ w ++ NUL :: r) -> wp (read_string (length p)) Q (p ++ w ++ NUL :: r).
Proof.
  intros Hw HQ. unfold read_string. do 2 wp_step. rewrite drop_app_length. by eapply wp_deref; [apply c_string_app|].
Qed.

Lemma strlen_at p w r (Q : nat -> buffer -> Prop) : NUL ∉ w -> Q (length w) (p ++ w ++ NUL :: r) -> wp (strlen (length p)) Q (p ++ w ++ NUL :: r).
Proof. intros Hw HQ. unfold strlen. wp_step. apply read_string_at; [done|]. by wp_step. Qed.

Lemma memset_at p w r (Q : unit -> buffer -> Prop) :
  Q tt (p ++ replicate (length w) NUL ++ r) -> wp (memset (length p) NUL (length w)) Q (p ++ w ++ r).
Proof.
  revert p Q. induction w as [|c w IH]; intros p Q HQ; [done|]. cbn [length memset app]. wp_step. apply poke_at.
  replace (S (length p)) with (length (p ++ [NUL])) by (rewrite length_app; cbn; lia).
  replace (p ++ NUL :: w ++ r) with ((p ++ [NUL]) ++ w ++ r) by by rewrite <- app_assoc.
  apply IH. by rewrite <- app_assoc.
Qed.

Lemma skip_nuls_at p n r (Q : nat -> buffer -> Prop) : (p = [] \/ exists p' c, p = p' ++ [c] /\ c <> NUL) ->
  Q (length p) (p ++ replicate n NUL ++ r) -> wp (skip_nuls (length p + n)) Q (p ++ replicate n NUL ++ r).
Proof.
  intros Hp. revert r. induction n as [|n IH]; intros r HQ.
  - rewrite Nat.add_0_r. destruct Hp as [->|(p' & c & -> & Hc)]; [done|].
    rewrite length_app, Nat.add_comm in HQ |- *. cbn [length Nat.add skip_nuls] in *. wp_step. rewrite <- app_assoc in *. cbn [app] in *.
    apply peek_at. by rewrite bool_decide_false.
  - rewrite Nat.add_succ_r. cbn [skip_nuls]. wp_step.
    replace (p ++ replicate (S n) NUL ++ r) with ((p ++ replicate n NUL) ++ NUL :: r) in * by (rewrite replicate_S_end, <- !app_assoc; done).
    replace (length p + n)%nat with (length (p ++ replicate n NUL)) by (rewrite length_app, length_replicate; done).
    apply peek_at. rewrite bool_decide_true by done. rewrite length_app, length_replicate, <- app_assoc in *. by apply IH.
Qed.

Lemma word_start_at p w r (Q : nat -> buffer -> Prop) : fresh p -> NUL ∉ w ->
  Q (length p) (p ++ w ++ r) -> wp (word_start (length p + length w)) Q (p ++ w ++ r).
Proof.
  intros Hf Hw. revert r. induction w as [|c w IH] using rev_ind; intros r HQ.
  - rewrite Nat.add_0_r. destruct Hf as [->|[p' ->]]; [done|]. rewrite length_app, Nat.add_comm in HQ |- *.
    cbn [length Nat.add word_start app] in *. wp_step. rewrite <- app_assoc in *. cbn [app] in *. apply peek_at. by rewrite bool_decide_true.
  - rewrite length_app, Nat.add_assoc, (Nat.add_comm _ (length [c])). cbn [length Nat.add word_start]. wp_step.
    replace (p ++ (w ++ [c]) ++ r) with ((p ++ w) ++ c :: r) in * by (rewrite <- !app_assoc; done).
    rewrite <- length_app. apply peek_at. rewrite bool_decide_false by set_solver. rewrite length_app, <- app_assoc in *. apply IH; [set_solver|done].
Qed.

(** ** Resolving the dots *)

Lemma peek_word p c w r (Q : ascii -> buffer -> Prop) : Q c (p ++ (c :: w) ++ r) -> wp (peek (length p)) Q (p ++ (c :: w) ++ r).
Proof. apply (peek_at p c (w ++ r)). Qed.

(** The second character of a word. *)
Lemma peek_second p c d w r (Q : ascii -> buffer -> Prop) :
  Q d (p ++ (c :: d :: w) ++ r) -> wp (peek (S (length p))) Q (p ++ (c :: d :: w) ++ r).
Proof.
  intros HQ. apply (wp_peek _ d); [|done]. rewrite lookup_app_r by lia. by replace (S (length p) - length p)%nat with 1%nat by lia.
Qed.

Lemma wp_dots_nul p r (Q : nat -> buffer -> Prop) : Q (S (length p)) (p ++ NUL :: r) -> wp (dots_body (length p)) Q (p ++ NUL :: r).
Proof. intros HQ. unfold dots_body. wp_step. apply peek_at. by rewrite bool_decide_true. Qed.

Lemma hidden_spec w : hidden w = true <-> head w = Some DOT /\ w <> [DOT] /\ w <> [DOT; DOT].
Proof. unfold hidden. rewrite !andb_true_iff, !negb_true_iff, !bool_decide_eq_true, !bool_decide_eq_false. tauto. Qed.

Lemma wp_dots_hidden p w r (Q : nat -> buffer -> Prop) : NUL ∉ w -> hidden w = true ->
  Q (length p) (p ++ w ++ NUL :: r) -> wp (dots_body (length p)) Q (p ++ w ++ NUL :: r).
Proof.
  intros Hw (Hd & H1 & H2)%hidden_spec HQ. destruct w as [|c w]; [done|]. injection Hd as ->. unfold dots_body.
  wp_step. apply peek_word. rewrite bool_decide_false, bool_decide_true by done. wp_step. apply strlen_at; [done|].
  rewrite bool_decide_false by (destruct w; naive_solver). wp_step. destruct w as [|c [|? ?]]; [done| |by wp_steps].
  cbn [length]. rewrite bool_decide_true by done. wp_step. apply (peek_second p DOT c []). rewrite bool_decide_false by naive_solver. by wp_steps.
Qed.

(** The words before ".." lose their last one. *)
Lemma wp_drop_word p r (Q : unit -> buffer -> Prop) : fresh p ->
  (forall p', length p' = length p -> words p' = removelast (words p) -> Q tt (p' ++ r)) ->
  wp (drop_word (length p)) Q (p ++ r).
Proof.
  intros Hf HQ. unfold drop_word. wp_step. destruct (last_word p) as [[n ->]|(p0 & w & n & -> & Hne & Hw & Hf0)].
  - pose proof (skip_nuls_at [] n r) as Hs. cbn [app length Nat.add] in Hs. rewrite length_replicate. apply Hs; [by left|].
    wp_step. apply HQ; [done|]. pose proof (words_nuls [] n) as E. cbn [app] in E. by rewrite E.
  - destruct n as [|n].
    { exfalso. cbn in Hf. rewrite app_nil_r in Hf. destruct Hf as [Hf|[p' Hf]]; [by destruct p0, w|].
      destruct w as [|c w _] using rev_ind; [done|]. rewrite app_assoc in Hf. apply app_inj_tail in Hf as [_ ->]. set_solver. }
    rewrite (app_assoc p0 w) in HQ |- *. rewrite (length_app (p0 ++ w)), length_replicate, <- (app_assoc (p0 ++ w)).
    apply skip_nuls_at. { right. destruct w as [|c w _] using rev_ind; [done|]. exists (p0 ++ w), c. split; [by rewrite app_assoc|set_solver]. }
    rewrite length_app. destruct w as [|c w _] using rev_ind; [done|]. rewrite length_app, Nat.add_assoc, Nat.add_1_r.
    rewrite <- app_assoc. wp_step. rewrite <- (app_assoc w [c]). apply word_start_at; [done|set_solver|].
    rewrite (app_assoc w [c]). wp_step. cbn [replicate app]. apply strlen_at; [done|]. apply memset_at.
    change (NUL :: replicate n NUL ++ r) with (replicate (S n) NUL ++ r). rewrite !app_assoc. apply HQ.
    + by rewrite !length_app, !length_replicate.
    + rewrite !words_nuls, words_snoc by done. by rewrite removelast_last.
Qed.

(** A word is read; what is before the new place are the words it leaves. *)
Lemma wp_dots_word p w r (Q : nat -> buffer -> Prop) : fresh p -> w <> [] -> NUL ∉ w -> hidden w = false ->
  (forall p', length p' = (length p + length w)%nat -> words p' = resolve_step (words p) w -> Q (length p') (p' ++ NUL :: r)) ->
  wp (dots_body (length p)) Q (p ++ w ++ NUL :: r).
Proof.
  intros Hf Hne Hw Hh HQ. unfold resolve_step in HQ. destruct w as [|c w]; [done|]. unfold dots_body. wp_step. apply peek_word.
  rewrite bool_decide_false by set_solver. destruct (decide (c = DOT)) as [->|Hd].
  2:{ rewrite bool_decide_false by done. wp_step. apply strlen_at; [done|]. wp_step. rewrite <- length_app, app_assoc.
      apply HQ; [by rewrite length_app|]. rewrite !bool_decide_false by congruence. by apply words_snoc. }
  rewrite bool_decide_true by done. wp_step. apply strlen_at; [done|]. destruct (decide (w = [])) as [->|Hw1].
  { rewrite bool_decide_true by done. wp_step. apply (poke_at p DOT NUL (NUL :: r)). wp_step.
    replace (S (length p)) with (length (p ++ [NUL])) by (rewrite length_app; cbn; lia).
    change (NUL :: NUL :: r) with ([NUL] ++ NUL :: r). rewrite app_assoc. apply HQ; [by rewrite length_app|].
    by rewrite words_nul, bool_decide_true. }
  rewrite bool_decide_false by (destruct w; naive_solver).
  assert (w = [DOT]) as ->.
  { destruct (decide (w = [DOT])); [done|]. rewrite <- not_true_iff_false, hidden_spec in Hh. destruct Hh. split; [done|]. split; congruence. }
  cbn [length]. rewrite (bool_decide_true (2 = 2)%nat) by done. wp_step. wp_step. apply (peek_second p DOT DOT []). rewrite bool_decide_true by done. wp_steps.
  apply wp_drop_word; [done|]. intros p' Hl Hws. wp_step. rewrite <- Hl.
  change (p' ++ [DOT; DOT] ++ NUL :: r) with (p' ++ [DOT] ++ DOT :: NUL :: r). rewrite app_assoc.
  replace (S (length p')) with (length (p' ++ [DOT])) by (rewrite length_app; cbn; lia). apply poke_at. rewrite <- app_assoc.
  wp_step. apply poke_at. wp_step. replace (S (length (p' ++ [DOT]))) with (length (p' ++ [NUL; NUL])) by (rewrite !length_app; cbn; lia).
  change (NUL :: NUL :: NUL :: r) with ([NUL; NUL] ++ NUL :: r). rewrite app_assoc. apply HQ.
  - rewrite !length_app. cbn. lia.
  - change [NUL; NUL] with (replicate 2 NUL). rewrite words_nuls, Hws. by rewrite bool_decide_false, bool_decide_true by done.
Qed.

(** The walk is at a place where a word begins, or before a zero byte. *)
Definition at_word p r : Prop := fresh p \/ exists r', r = NUL :: r'.

Lemma last_suffix p r : r <> [] -> last (p ++ r) = last r.
Proof. destruct r as [|c r]; [done|]. intros _. apply last_app_cons. Qed.

Lemma next_word p r : at_word p r -> last r = Some NUL ->
  (exists r', r = NUL :: r' /\ fresh (p ++ [NUL])) \/
  (exists w r', r = w ++ NUL :: r' /\ w <> [] /\ (NUL ∉ w) /\ fresh p).
Proof.
  intros Hat Hl. destruct (first_word r Hl) as ([|c w] & r' & -> & Hw).
  - left. exists r'. split; [done|apply fresh_snoc].
  - right. exists (c :: w), r'. split_and!; [done|done|done|]. destruct Hat as [?|[? [= -> _]]]; [done|set_solver].
Qed.

(** The whole walk: the words before the place are resolved. *)
Lemma wp_dots_loop fuel p r (Q : unit -> buffer -> Prop) :
  at_word p r -> last (p ++ r) = Some NUL -> existsb hidden (words r) = false -> (length r < fuel)%nat ->
  (forall b, length b = length (p ++ r) -> last b = Some NUL -> words b = resolve (words p) (words r) -> Q tt b) ->
  wp (dots_loop fuel (length (p ++ r)) (length p)) Q (p ++ r).
Proof.
  revert p r. induction fuel as [|fuel IH]; intros p r Hat Hlast Hh Hf HQ; [lia|]. cbn [dots_loop]. rewrite length_app in *.
  destruct (decide (r = [])) as [->|Hne0].
  { rewrite bool_decide_false by (cbn; lia). wp_step. rewrite app_nil_r in *. by apply HQ. }
  rewrite bool_decide_true by (destruct r; [done|cbn; lia]). wp_step. pose proof Hlast as Hr. rewrite last_suffix in Hr by done.
  destruct (next_word p r Hat Hr) as [(r' & -> & Hf')|(w & r' & -> & Hne & Hw & Hfp)].
  - apply wp_dots_nul. change (NUL :: r') with ([NUL] ++ r') in *. rewrite app_assoc in *.
    replace (S (length p)) with (length (p ++ [NUL])) by (rewrite length_app; cbn; lia).
    replace (length p + length ([NUL] ++ r'))%nat with (length ((p ++ [NUL]) ++ r')) in * by (rewrite !length_app; cbn; lia).
    cbn in Hf. apply IH; [by left|done|done|lia|]. intros b Hl Hlb Hws. apply HQ; [done|done|]. by rewrite Hws, words_nul.
  - rewrite words_word in * by done. cbn [existsb] in Hh. apply orb_false_iff in Hh as [Hh1 Hh2].
    apply wp_dots_word; [done..|]. intros p' Hl Hws.
    assert (length p + length (w ++ NUL :: r') = length (p' ++ NUL :: r'))%nat as El by (rewrite !length_app; cbn; lia).
    rewrite El in *. rewrite length_app in Hf. assert (0 < length w)%nat by (destruct w; [done|cbn; lia]).
    apply IH; [right; by eexists| |done|cbn in *; lia|].
    + by rewrite last_suffix in Hr |- * by (by destruct w).
    + intros b Hlb Hb Hwb. apply HQ; [done|done|]. rewrite Hwb, Hws. done.
Qed.

(** A hidden word is never left. *)
Lemma dots_stuck fuel len p w r : NUL ∉ w -> hidden w = true -> (length p < len)%nat ->
  dots_loop fuel len (length p) (p ++ w ++ NUL :: r) = Hang.
Proof.
  intros Hw Hh Hlen. induction fuel as [|fuel IH]; [done|]. cbn [dots_loop]. rewrite bool_decide_true by done.
  destruct (wp_inv (dots_body (length p)) (fun n b => n = length p /\ b = p ++ w ++ NUL :: r) (p ++ w ++ NUL :: r)) as (n & b & E & -> & ->);
    [by apply wp_dots_hidden|]. unfold mbind, M_bind. by rewrite E.
Qed.

Lemma dots_loop_hangs fuel p r : at_word p r -> last (p ++ r) = Some NUL -> existsb hidden (words r) = true ->
  dots_loop fuel (length (p ++ r)) (length p) (p ++ r) = Hang.
Proof.
  revert p r. induction fuel as [|fuel IH]; intros p r Hat Hlast Hh; [done|]. destruct (decide (r = [])) as [->|Hne0]; [done|].
  pose proof Hlast as Hr. rewrite last_suffix in Hr by done.
  destruct (next_word p r Hat Hr) as [(r' & -> & Hf')|(w & r' & -> & Hne & Hw & Hfp)].
  - cbn [dots_loop]. rewrite bool_decide_true by (rewrite length_app; cbn; lia).
    destruct (wp_inv (dots_body (length p)) (fun n b => n = S (length p) /\ b = p ++ NUL :: r') (p ++ NUL :: r')) as (n & b & E & -> & ->);
      [by apply wp_dots_nul|]. unfold mbind, M_bind. rewrite E.
    change (NUL :: r') with ([NUL] ++ r') in *. rewrite app_assoc in *.
    replace (S (length p)) with (length (p ++ [NUL])) by (rewrite length_app; cbn; lia). apply IH; [by left|done|done].
  - destruct (hidden w) eqn:Ew; [apply dots_stuck; [done|done|rewrite !length_app; cbn; lia]|].
    rewrite words_word in Hh by done. cbn [existsb] in Hh. rewrite Ew in Hh.
    cbn [dots_loop]. rewrite bool_decide_true by (rewrite !length_app; cbn; lia).
    destruct (wp_inv (dots_body (length p)) (fun n b => exists p', n = length p' /\ b = p' ++ NUL :: r' /\ length p' = (length p + length w)%nat)
      (p ++ w ++ NUL :: r')) as (n & b & E & p' & -> & -> & El); [apply wp_dots_word; [done..|]; eauto|].
    unfold mbind, M_bind. rewrite E.
    replace (length (p ++ w ++ NUL :: r')) with (length (p' ++ NUL :: r')) by (rewrite !length_app; lia).
    apply IH; [right; by eexists| |done]. by rewrite !last_suffix in Hr |- * by done.
Qed.

(** ** Splitting and joining *)

Lemma wp_split_loop p r (Q : unit -> buffer -> Prop) :
  Q tt (p ++ ((fun c => if bool_decide (c = SLASH) then NUL else c) <$> r)) -> wp (split_loop (length r) (length p)) Q (p ++ r).
Proof.
  revert p Q. induction r as [|c r IH]; intros p Q HQ; [done|]. cbn [length split_loop fmap list_fmap] in *. wp_step. apply peek_at.
  assert (forall d (Q' : unit -> buffer -> Prop),
    Q' tt ((p ++ [d]) ++ ((fun c => if bool_decide (c = SLASH) then NUL else c) <$> r)) ->
    wp (split_loop (length r) (S (length p))) Q' (p ++ d :: r)) as Hrest.
  { intros d Q' H. replace (S (length p)) with (length (p ++ [d])) by (rewrite length_app; cbn; lia).
    change (d :: r) with ([d] ++ r). rewrite app_assoc. by apply IH. }
  wp_step. case_bool_decide.
  - apply poke_at. apply Hrest. by rewrite <- app_assoc.
  - wp_step. apply Hrest. by rewrite <- app_assoc.
Qed.

Lemma split_words w b : no_nul b ->
  tokens NUL w ((fun c => if bool_decide (c = SLASH) then NUL else c) <$> b) = tokens SLASH w b.
Proof.
  revert w. induction b as [|c b IH]; intros w Hb; [done|]. unfold no_nul in *. cbn [fmap list_fmap tokens].
  destruct (decide (c = SLASH)) as [->|Hc].
  - rewrite !bool_decide_true by done. by rewrite IH by set_solver.
  - rewrite (bool_decide_false (c = SLASH)) by done. rewrite bool_decide_false by set_solver. apply IH. set_solver.
Qed.

Lemma wp_strcpy p s k (Q : unit -> buffer -> Prop) : (length s < k)%nat ->
  Q tt (p ++ s ++ replicate (k - length s) NUL) -> wp (strcpy (length p) s) Q (p ++ replicate k NUL).
Proof.
  revert p k Q. induction s as [|c s IH]; intros p k Q Hk HQ; (destruct k as [|k]; [cbn in Hk; lia|]); cbn [strcpy replicate].
  - by apply poke_at.
  - wp_step. apply poke_at. replace (S (length p)) with (length (p ++ [c])) by (rewrite length_app; cbn; lia).
    change (c :: replicate k NUL) with ([c] ++ replicate k NUL). rewrite app_assoc. cbn in Hk. apply IH; [lia|]. by rewrite <- app_assoc.
Qed.

Lemma wp_strcat a s k (Q : unit -> buffer -> Prop) : no_nul a -> (length s < k)%nat ->
  Q tt ((a ++ s) ++ replicate (k - length s) NUL) -> wp (strcat s) Q (a ++ replicate k NUL).
Proof.
  intros Ha Hk HQ. unfold strcat. wp_step. destruct k as [|k]; [lia|]. cbn [replicate]. apply (strlen_at [] a); [done|]. cbn [app].
  change (NUL :: replicate k NUL) with (replicate (S k) NUL). apply wp_strcpy; [done|]. by rewrite app_assoc.
Qed.

Lemma wp_in_tmp {A : Type} (m : M buffer A) (Q : A -> buffer * buffer -> Prop) b a :
  wp m (fun v b => Q v (b, a)) b -> wp (in_tmp m) Q (b, a).
Proof. intros H. by apply (wp_zoom fst (fun b s => (b, s.2))). Qed.
Lemma wp_in_abspath {A : Type} (m : M buffer A) (Q : A -> buffer * buffer -> Prop) b a :
  wp m (fun v a => Q v (b, a)) a -> wp (in_abspath m) Q (b, a).
Proof. intros H. by apply (wp_zoom snd (fun a s => (s.1, a))). Qed.

Lemma join_cons w ws : join (w :: ws) = SLASH :: w ++ join ws.
Proof. done. Qed.

Lemma join_app ws1 ws2 : join (ws1 ++ ws2) = join ws1 ++ join ws2.
Proof. unfold join. by rewrite fmap_app, concat_app. Qed.

Lemma wp_join_loop fuel p r a k (Q : unit -> buffer * buffer -> Prop) :
  at_word p r -> last (p ++ r) = Some NUL -> (length r < fuel)%nat -> no_nul a -> (length (join (words r)) < k)%nat ->
  Q tt (p ++ r, (a ++ join (words r)) ++ replicate (k - length (join (words r))) NUL) ->
  wp (join_loop fuel (length (p ++ r)) (length p)) Q (p ++ r, a ++ replicate k NUL).
Proof.
  revert p r a k. induction fuel as [|fuel IH]; intros p r a k Hat Hlast Hf Ha Hk HQ; [lia|]. cbn [join_loop]. rewrite length_app.
  destruct (decide (r = [])) as [->|Hne0].
  { rewrite bool_decide_false by (cbn; lia). wp_step. cbn in HQ. rewrite !app_nil_r, Nat.sub_0_r in *. exact HQ. }
  rewrite bool_decide_true by (destruct r; [done|cbn; lia]). wp_step. pose proof Hlast as Hr. rewrite last_suffix in Hr by done.
  destruct (next_word p r Hat Hr) as [(r' & -> & Hf')|(w & r' & -> & Hne & Hw & Hfp)].
  - apply wp_in_tmp, peek_at. rewrite bool_decide_true by done. change (NUL :: r') with ([NUL] ++ r') in *. rewrite app_assoc in *.
    replace (S (length p)) with (length (p ++ [NUL])) by (rewrite length_app; cbn; lia).
    replace (length p + length ([NUL] ++ r'))%nat with (length ((p ++ [NUL]) ++ r')) in * by (rewrite !length_app; cbn; lia).
    cbn in Hf. apply IH; [by left|done|lia|done..].
  - destruct w as [|c w]; [done|]. apply wp_in_tmp, peek_word. rewrite bool_decide_false by set_solver.
    rewrite words_word in * by done. rewrite join_cons in *. cbn [length] in Hk. rewrite length_app in Hk. cbn [length] in Hk.
    wp_step. apply wp_in_abspath, wp_strcat; [done|cbn; lia|]. wp_step. apply wp_in_tmp, read_string_at; [done|].
    wp_step. apply wp_in_abspath, wp_strcat; [unfold no_nul in *; set_solver|cbn; lia|]. wp_step. apply wp_in_tmp, strlen_at; [done|].
    rewrite <- !length_app.
    rewrite (app_assoc p (c :: w)) in *. apply IH; [right; by eexists|done|rewrite length_app in Hf; cbn [length] in *; lia| | |].
    + unfold no_nul in *. set_solver.
    + rewrite words_cons_nul. cbn. lia.
    + rewrite words_cons_nul. cbn [length] in *. rewrite length_app in HQ. cbn [length] in HQ.
      replace (k - 1 - S (length w) - length (join (words r')))%nat with (k - S (S (length w) + length (join (words r'))))%nat by lia.
      change (SLASH :: (c :: w) ++ join (words r')) with ([SLASH] ++ (c :: w) ++ join (words r')) in HQ.
      rewrite !app_assoc in HQ. exact HQ.
Qed.

(** ** GetAbsolutePath *)

Definition absolute (s : string) : Prop := head (chars s) = Some SLASH.

Lemma tokens_no_sep sep w b x : sep ∉ w -> x ∈ tokens sep w b -> (sep ∉ x) /\ x <> [].
Proof.
  assert (forall w', sep ∉ w' -> x ∈ emit w' -> (sep ∉ x) /\ x <> []) as He.
  { intros [|c w'] Hw Hx; [by apply not_elem_of_nil in Hx|]. by apply list_elem_of_singleton in Hx as ->. }
  revert w. induction b as [|c b IH]; intros w Hw; [by apply He|]. cbn [tokens]. case_bool_decide.
  - intros [Hx|Hx]%elem_of_app; [by apply (He w)|]. apply (IH []); [apply not_elem_of_nil|done].
  - apply IH. set_solver.
Qed.

Lemma tokens_elements sep w b x c : x ∈ tokens sep w b -> c ∈ x -> c ∈ w ++ b.
Proof.
  assert (forall w', x ∈ emit w' -> c ∈ x -> c ∈ w') as He.
  { intros [|c' w'] Hx; [by apply not_elem_of_nil in Hx|]. by apply list_elem_of_singleton in Hx as ->. }
  revert w. induction b as [|c' b IH]; intros w; [rewrite app_nil_r; apply He|]. cbn [tokens]. case_bool_decide.
  - intros [Hx|Hx]%elem_of_app Hc; [apply (He w) in Hc; set_solver|]. apply (IH []) in Hc; set_solver.
  - intros Hx Hc. apply (IH _ Hx) in Hc. set_solver.
Qed.

Lemma join_no_nul ws : (forall w, w ∈ ws -> no_nul w) -> no_nul (join ws).
Proof.
  unfold no_nul. induction ws as [|w ws IH]; intros Hw; [apply not_elem_of_nil|]. rewrite join_cons.
  intros [?|[?|?]%elem_of_app]%elem_of_cons; [done|by apply (Hw w); [left|]|apply IH; [intros ? ?; apply Hw; by right|done]].
Qed.

(** The result fits into the memory for it. *)
Lemma join_tokens_length sep w b : (length (join (tokens sep w b)) <= S (length (w ++ b)))%nat.
Proof.
  assert (forall w', (length (join (emit w')) <= match w' with [] => 0 | _ => S (length w') end)%nat) as He.
  { intros [|c w']; [done|]. cbn. rewrite app_nil_r. lia. }
  revert w. induction b as [|c b IH]; intros w.
  - rewrite app_nil_r. cbn [tokens]. specialize (He w). destruct w; lia.
  - cbn [tokens]. rewrite length_app. cbn [length]. case_bool_decide as Hc.
    + rewrite join_app, length_app. specialize (IH []). specialize (He w). cbn [app] in IH.
      destruct w; cbn [length] in *; [|lia].
      assert (length (join (tokens sep [] b)) <= S (length b))%nat by done. lia.
    + specialize (IH (w ++ [c])). rewrite !length_app in IH. cbn [length] in IH. lia.
Qed.

Lemma join_components_length b : (length (join (components (SLASH :: b))) <= length (SLASH :: b))%nat.
Proof. apply (join_tokens_length SLASH [] b). Qed.

Lemma join_removelast st : (length (join (removelast st)) <= length (join st))%nat.
Proof. destruct st as [|w st _] using rev_ind; [done|]. rewrite removelast_last, join_app, length_app. lia. Qed.

Lemma join_resolve_length st ws : (length (join (resolve st ws)) <= length (join st) + length (join ws))%nat.
Proof.
  revert st. induction ws as [|w ws IH]; intros st; [change (join []) with (@nil ascii); cbn [length resolve fold_left]; lia|]. unfold resolve in *. cbn [fold_left]. rewrite join_cons. cbn [length].
  rewrite length_app. etransitivity; [apply IH|]. unfold resolve_step. repeat case_bool_decide.
  - lia.
  - pose proof (join_removelast st). lia.
  - rewrite join_app, length_app. cbn. rewrite app_nil_r. lia.
Qed.

Lemma full_path_slash wd path : absolute wd -> exists b, full_path wd path = SLASH :: b.
Proof.
  unfold absolute, full_path. intros H. destruct (chars wd) as [|c w]; [done|]. injection H as ->.
  destruct (chars path) as [|c p]; [by eexists|]. case_bool_decide; [subst; by eexists|by eexists].
Qed.

Lemma full_path_no_nul wd path : no_nul (chars wd) -> no_nul (chars path) -> no_nul (full_path wd path).
Proof.
  unfold no_nul, full_path. intros H1 H2. assert (NUL ∉ [SLASH]) as H3 by (by intros ?%list_elem_of_singleton).
  destruct (chars path) as [|c p]; [set_solver|]. case_bool_decide; set_solver.
Qed.

(** What the first loop leaves. *)
Definition zeroed_slashes b : buffer := (fun c => if bool_decide (c = SLASH) then NUL else c) <$> b.

Lemma zeroed_full f : no_nul f -> words (zeroed_slashes (f ++ [NUL])) = components f /\ last (zeroed_slashes (f ++ [NUL])) = Some NUL.
Proof.
  intros Hf. unfold zeroed_slashes. rewrite fmap_app. cbn [fmap list_fmap]. rewrite bool_decide_false by done. split; [|apply last_snoc].
  rewrite words_nul. by apply split_words.
Qed.

Lemma wp_resolve_path f (Q : buffer -> buffer * buffer -> Prop) :
  no_nul f -> head f = Some SLASH -> existsb hidden (components f) = false ->
  (forall s, Q (chars (path_of (resolve [] (components f)))) s) ->
  wp (resolve_path (length (f ++ [NUL]))) Q (f ++ [NUL], replicate (length (f ++ [NUL])) NUL).
Proof.
  intros Hf Hsl Hh HQ. destruct (zeroed_full f Hf) as [Hw Hl]. set (len := length (f ++ [NUL])).
  assert (length (zeroed_slashes (f ++ [NUL])) = len) as Elen by apply length_fmap.
  destruct f as [|c f]; [done|]. injection Hsl as ->. pose proof (join_components_length f) as Hfit.
  unfold resolve_path. wp_step. apply wp_in_tmp, (wp_split_loop [] _). cbn [app]. fold (zeroed_slashes ((SLASH :: f) ++ [NUL])).
  wp_step. apply wp_in_tmp. rewrite <- Elen. rewrite <- Hw in Hh. apply (wp_dots_loop _ []); [by left; left|done|exact Hh|apply Nat.lt_succ_diag_r|].
  intros b Elb Hlb Hwb. cbn [app] in Elb.
  assert (words b = resolve [] (components (SLASH :: f))) as Hb by (rewrite <- Hw; exact Hwb). clear Hwb. rename Hb into Hwb.
  assert (length b = len) as Eb by (etransitivity; [exact Elb|exact Elen]). clear Elb.
  assert (length (join (words b)) < len)%nat as Hlt.
  { pose proof (join_resolve_length [] (components (SLASH :: f))) as H. rewrite Hwb. cbn [length] in *. unfold len. rewrite length_app. cbn in *. lia. }
  wp_step. rewrite Elen, <- Eb. apply (wp_join_loop _ [] b [] (length b)); [by left; left|done|lia|apply not_elem_of_nil|by rewrite Eb|].
  cbn [app]. assert (no_nul (join (words b))) as Hn by (apply join_no_nul; intros w Hin; by apply (tokens_no_sep _ _ _ _ (not_elem_of_nil _) Hin)).
  rewrite Hwb, Eb in *. set (ws := resolve [] (components (SLASH :: f))) in *. wp_step. destruct ws as [|w ws].
  - change (join []) with (@nil ascii). cbn [app length]. rewrite Nat.sub_0_r. assert (2 <= len)%nat as H2 by (unfold len; rewrite length_app; cbn; lia).
    destruct len as [|[|n]]; [lia..|]. apply wp_in_abspath. cbn [replicate]. apply (peek_at [] NUL). cbn [app]. rewrite bool_decide_true by done.
    wp_step. wp_step. apply wp_in_abspath, (poke_at []). wp_steps. apply wp_in_abspath, (poke_at [SLASH] NUL). cbn [app].
    apply wp_in_abspath, (read_string_at [] [SLASH]); [by intros ?%list_elem_of_singleton|]. apply HQ.
  - apply wp_in_abspath. rewrite join_cons in *. apply (peek_at [] SLASH). cbn [app]. rewrite bool_decide_false by done. wp_steps.
    apply wp_in_abspath. destruct (len - length (SLASH :: w ++ join ws))%nat as [|n] eqn:En; [lia|]. cbn [replicate].
    apply (read_string_at [] (SLASH :: w ++ join ws)); [done|]. cbn [app].
    replace (SLASH :: w ++ join ws) with (chars (path_of (w :: ws))); [done|]. unfold chars, path_of, string_of.
    by rewrite String.list_ascii_of_string_of_list_ascii.
Qed.

Lemma GetAbsolutePath_eq {S : Type} tmp_ok abs_ok wd path (s : S) :
  no_nul (chars wd) -> no_nul (chars path) -> absolute wd ->
  GetAbsolutePath tmp_ok abs_ok wd (Some path) s =
    if negb (tmp_ok && abs_ok) then Ret None s
    else let ws := components (full_path wd path) in
         if existsb hidden ws then Hang else Ret (Some (path_of (resolve [] ws))) s.
Proof.
  intros H1 H2 H3. unfold GetAbsolutePath. cbn [NULL_PARAM_CHECK]. change (mret path ≫= ?f) with (f path). cbn beta zeta.
  destruct (negb (tmp_ok && abs_ok)); [done|]. set (f := full_path wd path).
  assert (no_nul f) as Hf by by apply full_path_no_nul. destruct (full_path_slash wd path H3) as [b Eb]. fold f in Eb.
  unfold with_local, mbind, M_bind. destruct (existsb hidden (components f)) eqn:Eh.
  - destruct (zeroed_full f Hf) as [Hw Hl].
    destruct (wp_inv (in_tmp (split_loop (length (f ++ [NUL])) 0))
      (fun _ (t : buffer * buffer) => t.1 = zeroed_slashes (f ++ [NUL])) (f ++ [NUL], replicate (length (f ++ [NUL])) NUL)) as ([] & [b1 b2] & E1 & E2).
    { by apply wp_in_tmp, (wp_split_loop []). }
    cbn in E2. subst b1. unfold resolve_path, mbind, M_bind. rewrite E1. unfold in_tmp, zoom. cbn [fst].
    pose proof (dots_loop_hangs (Datatypes.S (length (f ++ [NUL]))) [] (zeroed_slashes (f ++ [NUL]))) as Hd.
    assert (length (zeroed_slashes (f ++ [NUL])) = length (f ++ [NUL])) as El by apply length_fmap.
    change ([] ++ zeroed_slashes (f ++ [NUL])) with (zeroed_slashes (f ++ [NUL])) in Hd. rewrite El in Hd. cbn [length] in Hd. rewrite Hd; [done|by left; left|done|by rewrite Hw].
  - destruct (wp_inv (resolve_path (length (f ++ [NUL]))) (fun v _ => v = chars (path_of (resolve [] (components f))))
      (f ++ [NUL], replicate (length (f ++ [NUL])) NUL)) as (v & s' & E & ->).
    { apply wp_resolve_path; [done|by rewrite Eb|done|done]. }
    rewrite E. unfold mret, M_ret, string_of, chars. by rewrite String.string_of_list_ascii_of_string.
Qed.

(** C15: resolving a path.  When no word of it is hidden (begins with a dot and is neither
    "." nor ".."), the loops end inside their buffers with the words that a fold over the
    words leaves, each behind a slash; with a hidden word the loop never ends. *)
Theorem GetAbsolutePath_resolves {S : Type} tmp_ok abs_ok wd path (s : S) :
  no_nul (chars wd) -> no_nul (chars path) -> absolute wd ->
  GetAbsolutePath tmp_ok abs_ok wd (Some path) s =
    if negb (tmp_ok && abs_ok) then Ret None s
    else let ws := components (full_path wd path) in
         if existsb hidden ws then Hang else Ret (Some (path_of (resolve [] ws))) s.
Proof. apply GetAbsolutePath_eq. Qed.

(** ** Resolved paths *)

(** Words as GetAbsolutePath leaves them. *)
Definition proper (w : word) : Prop := w <> [] /\ (SLASH ∉ w) /\ (NUL ∉ w) /\ head w <> Some DOT.

Lemma string_of_chars s : string_of (chars s) = s.
Proof. apply String.string_of_list_ascii_of_string. Qed.
Lemma chars_string_of b : chars (string_of b) = b.
Proof. apply String.list_ascii_of_string_of_list_ascii. Qed.

Lemma chars_path_of ws : chars (path_of ws) = match ws with [] => [SLASH] | _ => join ws end.
Proof. destruct ws; [done|]. apply chars_string_of. Qed.

Lemma path_of_absolute ws : absolute (path_of ws).
Proof. unfold absolute. by rewrite chars_path_of; destruct ws. Qed.

Lemma path_of_no_nul ws : (forall w, w ∈ ws -> proper w) -> no_nul (chars (path_of ws)).
Proof.
  intros H. rewrite chars_path_of. destruct ws as [|w ws]; [by intros ?%list_elem_of_singleton|].
  apply join_no_nul. intros x Hx. by apply (H x Hx).
Qed.

Lemma tokens_join ws : (forall w, w ∈ ws -> proper w) -> tokens SLASH [] (join ws) = ws.
Proof.
  induction ws as [|w ws IH]; intros H; [done|]. rewrite join_cons. cbn [tokens]. rewrite bool_decide_true by done. cbn [emit app].
  destruct (H w ltac:(by left)) as (Hne & Hs & _). rewrite tokens_word by done. cbn [app].
  assert (tokens SLASH [] (join ws) = ws) as E by (apply IH; intros x Hx; apply H; by right).
  destruct ws as [|w2 ws]; [by destruct w|]. rewrite join_cons in *. cbn [tokens] in *.
  rewrite bool_decide_true in * by done. cbn [emit app] in E. rewrite E. by destruct w.
Qed.

Lemma components_path_of ws : (forall w, w ∈ ws -> proper w) -> components (chars (path_of ws)) = ws.
Proof. intros H. rewrite chars_path_of. destruct ws as [|w ws]; [done|]. by apply tokens_join. Qed.

Lemma not_hidden_proper w : head w <> Some DOT -> hidden w = false.
Proof. intros H. unfold hidden. by rewrite bool_decide_false. Qed.

Lemma resolve_proper st ws : (forall w, w ∈ st -> proper w) -> (forall w, w ∈ ws -> w <> [] /\ (SLASH ∉ w) /\ (NUL ∉ w)) ->
  existsb hidden ws = false -> forall w, w ∈ resolve st ws -> proper w.
Proof.
  revert st. induction ws as [|x ws IH]; intros st Hst Hws Hh; [done|]. unfold resolve in *. cbn [fold_left existsb] in *.
  apply orb_false_iff in Hh as [Hx Hh]. apply IH; [|intros w Hw; apply Hws; by right|done]. intros w. unfold resolve_step.
  repeat case_bool_decide; [apply Hst| |].
  - intros Hw. apply Hst. destruct st as [|y st _] using rev_ind; [done|]. rewrite removelast_last in Hw. apply elem_of_app. by left.
  - intros [Hw| ->%list_elem_of_singleton]%elem_of_app; [by apply Hst|]. destruct (Hws x ltac:(by left)) as (H1 & H2 & H3).
    split_and!; [done..|]. intros Hd. rewrite <- not_true_iff_false, hidden_spec in Hx. by destruct Hx.
Qed.

Lemma resolve_id st ws : (forall w, w ∈ ws -> proper w) -> resolve st ws = st ++ ws.
Proof.
  revert st. induction ws as [|w ws IH]; intros st H; [by rewrite app_nil_r|]. unfold resolve in *. cbn [fold_left].
  rewrite IH by (intros x Hx; apply H; by right). destruct (H w ltac:(by left)) as (_ & _ & _ & Hd).
  unfold resolve_step. rewrite !bool_decide_false by (intros ->; done). by rewrite <- app_assoc.
Qed.

Lemma full_path_absolute wd path : absolute path -> full_path wd path = chars path.
Proof. unfold absolute, full_path. destruct (chars path); [done|]. intros [= ->]. by rewrite bool_decide_true. Qed.

Lemma components_words f : no_nul f -> forall w, w ∈ components f -> w <> [] /\ (SLASH ∉ w) /\ (NUL ∉ w).
Proof.
  intros Hf w Hw. destruct (tokens_no_sep _ _ _ _ (not_elem_of_nil _) Hw) as [H1 H2]. split_and!; [done..|].
  intros Hn. exact (Hf (tokens_elements _ _ _ _ _ Hw Hn)).
Qed.

(** The words of the path that GetAbsolutePath gives. *)
Lemma resolved_proper wd path : no_nul (chars wd) -> no_nul (chars path) -> existsb hidden (components (full_path wd path)) = false ->
  forall w, w ∈ resolve [] (components (full_path wd path)) -> proper w.
Proof.
  intros H1 H2 Hh. apply resolve_proper; [intros w Hw; by apply not_elem_of_nil in Hw|by apply components_words, full_path_no_nul|done].
Qed.

Lemma proper_not_hidden ws : (forall w, w ∈ ws -> proper w) -> existsb hidden ws = false.
Proof.
  induction ws as [|w ws IH]; intros H; [done|]. cbn [existsb]. rewrite IH by (intros x Hx; apply H; by right).
  rewrite not_hidden_proper; [done|]. by apply (H w ltac:(by left)).
Qed.

(** A resolved path resolves to itself, from every working directory. *)
Theorem GetAbsolutePath_idempotent {S : Type} wd wd' path (s : S) (q : string) :
  no_nul (chars wd) -> no_nul (chars path) -> absolute wd -> no_nul (chars wd') -> absolute wd' ->
  GetAbsolutePath true true wd (Some path) s = Ret (Some q) s ->
  GetAbsolutePath true true wd' (Some q) s = Ret (Some q) s.
Proof.
  intros H1 H2 H3 H4 H5 E. rewrite GetAbsolutePath_eq in E by done. cbn [andb negb] in E. cbn zeta in E.
  destruct (existsb hidden (components (full_path wd path))) eqn:Eh; [done|]. injection E as <-.
  pose proof (resolved_proper wd path H1 H2 Eh) as Hp. set (ws := resolve [] (components (full_path wd path))) in *.
  rewrite GetAbsolutePath_eq by (done || by apply path_of_no_nul). cbn [andb negb]. cbn zeta.
  rewrite full_path_absolute by apply path_of_absolute. rewrite components_path_of by done.
  rewrite proper_not_hidden by done. by rewrite resolve_id.
Qed.

(** ** Relative paths *)

(** The words behind the mount point, with slashes between them. *)
Definition relative_of (ws : list word) : string := string_of (tail (join ws)).

Lemma length_string_of b : String.length (string_of b) = length b.
Proof. induction b as [|c b IH]; [done|]. cbn. by f_equal. Qed.

Lemma skip_join w ws : proper w -> skip_slashes (join (w :: ws)) = tail (join (w :: ws)) /\ skip_slashes (tail (join (w :: ws))) = tail (join (w :: ws)).
Proof.
  intros (Hne & Hs & _). rewrite join_cons. cbn [skip_slashes tail]. rewrite bool_decide_true by done.
  destruct w as [|c w]; [done|]. cbn [app skip_slashes]. by rewrite bool_decide_false by set_solver.
Qed.

Lemma GetRelativePath_words ws1 ws2 : (forall w, w ∈ ws1 ++ ws2 -> proper w) ->
  GetRelativePath (path_of ws1) (path_of (ws1 ++ ws2)) = relative_of ws2.
Proof.
  intros H. unfold GetRelativePath, relative_of. rewrite chars_path_of.
  assert (forall ws, String.length (path_of ws) = match ws with [] => 1%nat | _ => length (join ws) end) as El.
  { intros [|w ws]; [done|]. apply length_string_of. }
  rewrite !El. destruct ws2 as [|w ws2].
  { rewrite app_nil_r. by rewrite bool_decide_true by done. }
  assert (proper w) as Hw by (apply H; set_solver). pose proof (skip_join w ws2 Hw) as [E1 E2].
  destruct ws1 as [|w1 ws1]; cbn [app].
  - rewrite bool_decide_false; [f_equal; rewrite join_cons in *; exact E2|].
    destruct Hw as [Hne _]. rewrite join_cons. cbn [length]. rewrite length_app. destruct w; [done|cbn; lia].
  - change (w1 :: ws1 ++ w :: ws2) with ((w1 :: ws1) ++ w :: ws2). rewrite join_app, length_app.
    rewrite bool_decide_false by (rewrite (join_cons w); cbn; lia). by rewrite drop_app_length, E1.
Qed.

(** Bytes of a run of the resolution of the dots. *)
Example GetAbsolutePath_example :
  GetAbsolutePath true true "/dev/spi1" (Some "../.././lib//x/..") tt = Ret (Some "/lib") tt.
Proof. reflexivity. Qed.

Lemma GetAbsolutePath_resolves_witness :
  GetAbsolutePath true true "/dev" (Some "../a/./b") tt = Ret (Some "/a/b") tt /\
  GetAbsolutePath true true "/dev" (Some ".profile") tt = Hang.
Proof.
  split.
  - etransitivity; [apply GetAbsolutePath_resolves; [by apply (bool_decide_unpack (no_nul _))..|done]|reflexivity].
  - etransitivity; [apply GetAbsolutePath_resolves; [by apply (bool_decide_unpack (no_nul _))..|done]|reflexivity].
Defined.

Lemma GetAbsolutePath_idempotent_witness : GetAbsolutePath true true "/tmp" (Some "/a/b") tt = Ret (Some "/a/b") tt.
Proof.
  apply (GetAbsolutePath_idempotent "/dev" "/tmp" "../a/./b"); [by apply (bool_decide_unpack (no_nul _))..|done| |done|reflexivity].
  by apply (bool_decide_unpack (no_nul _)).
Defined.
