(* ===== verification/Vfs.v ===== *)
(** * The virtual file system: fs/shared/src/iot-vfs.c

    Mount points, the table of file descriptors, the working directory and the calls
    of iot-vfs_posix.h, which find the file system of a path or a descriptor and
    call its function.  The functions of a file system are callbacks on the
    descriptor or mount point and on the buses below ([bus_state]).  Memory for new
    objects and buffers is an argument; what is printed is left out. *)

From S2P Require Import Prelude DoubleLink Kernel Services Bus Path.
From Stdlib Require Import Ascii.

(** ** Constants *)

Definition FSTYPE_FATFS : Z := 0.
Definition FSTYPE_IOTDEVICEFILE : Z := 1.
Definition FSTYPE_CH376 : Z := 2.
Definition FSTYPE_END : Z := 3.
Definition FTYPE_FILE : Z := 0.
Definition FTYPE_DIR : Z := 1.
Definition FD_MAX : Z := 64.
Definition FD_OFFSET : Z := 3.
Definition MAX_PATH : Z := 255.

(** Of the C library. *)
Definition ENXIO : Z := 6.
Definition EBADF : Z := 9.
Definition ENOMEM : Z := 12.
Definition ENOTDIR : Z := 20.
Definition EINVAL : Z := 22.
Definition O_APPEND : Z := 0x0008.
Definition O_TRUNC : Z := 0x0400.
Definition SEEK_END : Z := 2.
Definition S_IFDIR : Z := 0x4000.
Definition S_IFREG : Z := 0x8000.
(** Read and write, and execute, for all: rw-rw-rw- and --x--x--x. *)
Definition S_RW : Z := 0x1b6.
Definition S_X : Z := 0x49.

(** ** The state *)

Inductive mlink : Type := MntList | MntNode (m : ptr).
#[export] Instance mlink_eq_dec : EqDecision mlink.
Proof. solve_decision. Defined.
Definition mlink_code (x : mlink) : option ptr := match x with MntList => None | MntNode m => Some m end.
Definition mlink_decode (x : option ptr) : mlink := match x with None => MntList | Some m => MntNode m end.
#[export] Instance mlink_countable : Countable mlink.
Proof. apply (inj_countable' mlink_code mlink_decode). by intros []. Defined.

Record MountPoint : Type := mkMount {
  fs_type : Z;
  mnt_point : string;
  mnt_point_len : Z;
  fs_data : option ptr;
  mp_bus : option ptr;
  mp_dev : option ptr;
  mp_drv : option ptr;
  mp_fs : ptr;
}.

(** [fd_path] is [None] as long as the field is not initialised, [Some None] for a null pointer. *)
Record FileDescriptor : Type := mkFd {
  fd_path : option (option string);
  fd_type : Z;
  fd_data : option ptr;
  fd_mntp : option ptr;
  fd_pos : Z;
}.
Definition set_fd_path (v : option (option string)) (d : FileDescriptor) : FileDescriptor := mkFd v (fd_type d) (fd_data d) (fd_mntp d) (fd_pos d).
Definition set_fd_type (v : Z) (d : FileDescriptor) : FileDescriptor := mkFd (fd_path d) v (fd_data d) (fd_mntp d) (fd_pos d).
Definition set_fd_data (v : option ptr) (d : FileDescriptor) : FileDescriptor := mkFd (fd_path d) (fd_type d) v (fd_mntp d) (fd_pos d).
Definition set_fd_mntp (v : option ptr) (d : FileDescriptor) : FileDescriptor := mkFd (fd_path d) (fd_type d) (fd_data d) v (fd_pos d).
Definition set_fd_pos (v : Z) (d : FileDescriptor) : FileDescriptor := mkFd (fd_path d) (fd_type d) (fd_data d) (fd_mntp d) v.

Record FileStat : Type := mkFileStat { stat_type : Z; stat_size : Z; stat_mtime : Z }.
Record stat_buf : Type := mkStat { st_dev : Z; st_mode : Z; st_size : Z; st_mtime : Z }.
Record dirent : Type := mkDirent { d_kind : Z; d_name : string }.
Record statfs_buf : Type := mkStatfs { f_bsize : Z; f_blocks : Z; f_bfree : Z }.

(** [struct Filesystem]; a null function is [None]. *)
Record Filesystem (S DS : Type) : Type := mkFs {
  fs_open : option (string -> M (FileDescriptor * bus_state S DS) Z);
  fs_close : option (M (FileDescriptor * bus_state S DS) Z);
  fs_read : option (Z -> Z -> M (FileDescriptor * bus_state S DS) Z);
  fs_write : option (Z -> Z -> M (FileDescriptor * bus_state S DS) Z);
  fs_seek : option (Z -> Z -> M (FileDescriptor * bus_state S DS) (Z * Z));
  fs_truncate : option (Z -> M (FileDescriptor * bus_state S DS) Z);
  fs_sync : option (M (FileDescriptor * bus_state S DS) Z);
  fs_ioctl : option (Z -> Z -> M (FileDescriptor * bus_state S DS) Z);
  fs_opendir : option (string -> M (FileDescriptor * bus_state S DS) Z);
  fs_closedir : option (M (FileDescriptor * bus_state S DS) Z);
  fs_readdir : option (M (FileDescriptor * bus_state S DS) (Z * dirent));
  fs_seekdir : option (Z -> M (FileDescriptor * bus_state S DS) Z);
  fs_mount : option (M (MountPoint * bus_state S DS) Z);
  fs_unmount : option (M (MountPoint * bus_state S DS) Z);
  fs_unlink : option (string -> M (MountPoint * bus_state S DS) Z);
  fs_rename : option (string -> string -> M (MountPoint * bus_state S DS) Z);
  fs_mkdir : option (string -> M (MountPoint * bus_state S DS) Z);
  fs_stat : option (string -> M (MountPoint * bus_state S DS) (Z * FileStat));
  fs_statvfs : option (string -> M (MountPoint * bus_state S DS) (Z * statfs_buf));
}.
Arguments fs_open {S DS} _. Arguments fs_close {S DS} _. Arguments fs_read {S DS} _. Arguments fs_write {S DS} _.
Arguments fs_seek {S DS} _. Arguments fs_truncate {S DS} _. Arguments fs_sync {S DS} _. Arguments fs_ioctl {S DS} _.
Arguments fs_opendir {S DS} _. Arguments fs_closedir {S DS} _. Arguments fs_readdir {S DS} _. Arguments fs_seekdir {S DS} _.
Arguments fs_mount {S DS} _. Arguments fs_unmount {S DS} _. Arguments fs_unlink {S DS} _. Arguments fs_rename {S DS} _.
Arguments fs_mkdir {S DS} _. Arguments fs_stat {S DS} _. Arguments fs_statvfs {S DS} _. Arguments mkFs {S DS}.

(** The static variables of iot-vfs.c, the objects they lead to, and [filesystems], the
    tables of functions by address. *)
Record vfs_state (S DS : Type) : Type := mkVfs {
  vfs_bus : bus_state S DS;
  filesystems : gmap ptr (Filesystem S DS);
  mnt_links : gmap mlink (node mlink);
  mount_points : gmap ptr MountPoint;
  fstable : list (option ptr);
  fdtable : list (option ptr);
  descriptors : gmap ptr FileDescriptor;
  working_dir : string;
  last_dirent : dirent;
  mnt_list_lock : Z;
  fdtable_lock : Z;
  working_dir_lock : Z;
}.
Arguments mkVfs {S DS}. Arguments vfs_bus {S DS} _. Arguments filesystems {S DS} _. Arguments mnt_links {S DS} _.
Arguments mount_points {S DS} _. Arguments fstable {S DS} _. Arguments fdtable {S DS} _. Arguments descriptors {S DS} _.
Arguments working_dir {S DS} _. Arguments last_dirent {S DS} _. Arguments mnt_list_lock {S DS} _. Arguments fdtable_lock {S DS} _.
Arguments working_dir_lock {S DS} _.

Section Vfs.
Context {S DS : Type} `{C : KConfig} `{SV : Services S}.
Abbreviation vst := (vfs_state S DS).
Abbreviation bst := (bus_state S DS).

Definition set_vfs_bus (v : bst) (s : vst) : vst :=
  mkVfs v (filesystems s) (mnt_links s) (mount_points s) (fstable s) (fdtable s) (descriptors s) (working_dir s) (last_dirent s) (mnt_list_lock s) (fdtable_lock s) (working_dir_lock s).
Definition set_mnt_links (v : gmap mlink (node mlink)) (s : vst) : vst :=
  mkVfs (vfs_bus s) (filesystems s) v (mount_points s) (fstable s) (fdtable s) (descriptors s) (working_dir s) (last_dirent s) (mnt_list_lock s) (fdtable_lock s) (working_dir_lock s).
Definition set_mount_points (v : gmap ptr MountPoint) (s : vst) : vst :=
  mkVfs (vfs_bus s) (filesystems s) (mnt_links s) v (fstable s) (fdtable s) (descriptors s) (working_dir s) (last_dirent s) (mnt_list_lock s) (fdtable_lock s) (working_dir_lock s).
Definition set_fstable (v : list (option ptr)) (s : vst) : vst :=
  mkVfs (vfs_bus s) (filesystems s) (mnt_links s) (mount_points s) v (fdtable s) (descriptors s) (working_dir s) (last_dirent s) (mnt_list_lock s) (fdtable_lock s) (working_dir_lock s).
Definition set_fdtable (v : list (option ptr)) (s : vst) : vst :=
  mkVfs (vfs_bus s) (filesystems s) (mnt_links s) (mount_points s) (fstable s) v (descriptors s) (working_dir s) (last_dirent s) (mnt_list_lock s) (fdtable_lock s) (working_dir_lock s).
Definition set_descriptors (v : gmap ptr FileDescriptor) (s : vst) : vst :=
  mkVfs (vfs_bus s) (filesystems s) (mnt_links s) (mount_points s) (fstable s) (fdtable s) v (working_dir s) (last_dirent s) (mnt_list_lock s) (fdtable_lock s) (working_dir_lock s).
Definition set_working_dir (v : string) (s : vst) : vst :=
  mkVfs (vfs_bus s) (filesystems s) (mnt_links s) (mount_points s) (fstable s) (fdtable s) (descriptors s) v (last_dirent s) (mnt_list_lock s) (fdtable_lock s) (working_dir_lock s).
Definition set_last_dirent (v : dirent) (s : vst) : vst :=
  mkVfs (vfs_bus s) (filesystems s) (mnt_links s) (mount_points s) (fstable s) (fdtable s) (descriptors s) (working_dir s) v (mnt_list_lock s) (fdtable_lock s) (working_dir_lock s).
Definition set_locks (m f w : Z) (s : vst) : vst :=
  mkVfs (vfs_bus s) (filesystems s) (mnt_links s) (mount_points s) (fstable s) (fdtable s) (descriptors s) (working_dir s) (last_dirent s) m f w.

#[export] Instance vfs_hosts : Hosts S vst := {
  host s := bus_host (vfs_bus s);
  set_host h s := set_vfs_bus (set_bus_host h (vfs_bus s)) s;
}.
#[export] Instance vfs_hosts_laws : HostsLaws S vst.
Proof. by split. Qed.

Definition on_bus {A : Type} : M bst A -> M vst A := zoom vfs_bus set_vfs_bus.
Definition mlinks {A : Type} : M (gmap mlink (node mlink)) A -> M vst A := zoom mnt_links set_mnt_links.

Definition mp_get {A : Type} (m : ptr) (f : MountPoint -> A) : M vst A := s ← get; x ← deref (mount_points s !! m); mret (f x).
Definition mp_set (m : ptr) (f : MountPoint -> MountPoint) : M vst unit :=
  s ← get; x ← deref (mount_points s !! m); modify (set_mount_points (<[m := f x]> (mount_points s))).
Definition fd_get {A : Type} (d : ptr) (f : FileDescriptor -> A) : M vst A := s ← get; x ← deref (descriptors s !! d); mret (f x).
Definition fd_set (d : ptr) (f : FileDescriptor -> FileDescriptor) : M vst unit :=
  s ← get; x ← deref (descriptors s !! d); modify (set_descriptors (<[d := f x]> (descriptors s))).

(** A field of the file system of a mount point, [mp->fs->f], and of a descriptor, [fdp->mntp->fs->f]. *)
Definition mp_fn {A : Type} (m : ptr) (f : Filesystem S DS -> A) : M vst A :=
  x ← mp_get m mp_fs; s ← get; y ← deref (filesystems s !! x); mret (f y).
Definition fd_fn {A : Type} (d : ptr) (f : Filesystem S DS -> A) : M vst A :=
  m ← fd_get d fd_mntp; m ← deref m; mp_fn m f.

(** Callbacks on a descriptor and on a mount point. *)
Definition on_fd {A : Type} (d : ptr) (f : M (FileDescriptor * bst) A) : M vst A := fun s =>
  match descriptors s !! d with
  | None => Fault
  | Some x =>
      match f (x, vfs_bus s) with
      | Ret a (x', b) => Ret a (set_descriptors (<[d := x']> (descriptors s)) (set_vfs_bus b s))
      | Hang => Hang
      | Fault => Fault
      end
  end.
Definition on_mp {A : Type} (m : ptr) (f : M (MountPoint * bst) A) : M vst A := fun s =>
  match mount_points s !! m with
  | None => Fault
  | Some x =>
      match f (x, vfs_bus s) with
      | Ret a (x', b) => Ret a (set_mount_points (<[m := x']> (mount_points s)) (set_vfs_bus b s))
      | Hang => Hang
      | Fault => Fault
      end
  end.

(** [KUpdateExstatus(v); return r;] *)
Definition fail_with {A : Type} (v : Z) (r : A) : M vst A := on_host (update_exstatus v);; mret r.

(** ** Mount points *)

(** [s[n]], also at the zero byte. *)
Definition char_at (s : string) (n : nat) : option ascii := (chars s ++ [NUL]) !! n.

(** The loop of GetMountPoint; [mp] and [longest] are its variables. *)
Fixpoint mount_loop (fuel : nat) (path : string) (x : mlink) (mp : option ptr) (longest : Z) : M vst (option ptr) :=
  match fuel with
  | O => hang
  | Datatypes.S fuel =>
      match x with
      | MntList => mret mp
      | MntNode itr =>
          len ← mp_get itr mnt_point_len;
          next ← (if (len <? longest) || (Z.of_nat (String.length path) <? len) then mret (mp, longest)
                  else
                    c ← deref (char_at path (Z.to_nat len));
                    if (1 <? len) && negb (bool_decide (c = SLASH)) && negb (bool_decide (c = NUL)) then mret (mp, longest)
                    else
                      nm ← mp_get itr mnt_point;
                      if strncmp_eq (Z.to_nat len) path nm then mret (Some itr, len) else mret (mp, longest));
          nx ← mlinks (get_next x); nx ← deref nx;
          mount_loop fuel path nx next.1 next.2
      end
  end.

Definition GetMountPoint (path : option string) : M vst (option ptr) :=
  path ← deref path;
  lock ← gets mnt_list_lock;
  with_lock lock (
    nx ← mlinks (get_next MntList); first ← deref nx;
    s ← get;
    mount_loop (Datatypes.S (size (mnt_links s))) path first None 0).

(** The loops over the mount points that compare the whole name. *)
Definition same_mount (path : string) (x : mlink) : M vst bool :=
  match x with
  | MntList => mret false
  | MntNode itr =>
      len ← mp_get itr mnt_point_len;
      if negb (len =? Z.of_nat (String.length path)) then mret false
      else nm ← mp_get itr mnt_point; mret (strncmp_eq (Z.to_nat len) path nm)
  end.
Definition find_mount (path : string) : M vst (option ptr) :=
  nx ← mlinks (get_next MntList); first ← deref nx;
  s ← get;
  x ← for_each_until (fun x => mlinks (get_next x)) (same_mount path) (Datatypes.S (size (mnt_links s))) MntList first;
  mret (match x with MntList => None | MntNode m => Some m end).

(** [path == NULL || path[0] != '/'] *)
Definition bad_mount_path (path : option string) : bool :=
  match path with Some p => negb (bool_decide (char_at p 0 = Some SLASH)) | None => true end.

Definition new_mount (m : ptr) (x : MountPoint) : M vst unit :=
  modify (fun s => set_mount_points (<[m := x]> (mount_points s)) (set_mnt_links (<[MntNode m := mkNode None None]> (mnt_links s)) s)).
Definition free_mount (m : ptr) : M vst unit :=
  mp_get m mnt_point;;
  modify (fun s => set_mount_points (delete m (mount_points s)) (set_mnt_links (delete (MntNode m) (mnt_links s)) s)).

(** The bus, device and driver of a mount point, when all three names are given. *)
Definition find_device (bus_nm dev_nm drv_nm : option string) : M vst (Z + (option ptr * option ptr * option ptr)) :=
  match bus_nm, dev_nm, drv_nm with
  | Some bn, Some dn, Some rn =>
      bus ← on_bus (BusFind bn);
      match bus with
      | None => mret (inl (- ENXIO))
      | Some b =>
          dev ← on_bus (BusFindDevice (Some b) dn);
          match dev with
          | None => mret (inl (- ENXIO))
          | Some d =>
              on_bus (bus_set b (set_owner_haldev (Some d)));;
              drv ← on_bus (BusFindDriver (Some b) rn);
              match drv with
              | None => mret (inl (- ENXIO))
              | Some r =>
                  on_bus (bus_set b (set_owner_driver (Some r)));;
                  mret (inr (Some b, Some d, Some r))
              end
          end
      end
  | _, _, _ => mret (inr (None, None, None))
  end.

(** The part of MountFilesystem under the lock; [m] is linked in at the end. *)
Definition mount_locked (m : ptr) (path : string) (dev : option ptr) (dup_ok : bool) : M vst Z :=
  if negb dup_ok then mret (- ENOMEM)
  else
    f ← mp_fn m fs_mount;
    match f with
    | None => mret (- EINVAL)
    | Some f =>
        other ← find_mount path;
        match other with
        | Some _ => mret (- EINVAL)
        | None =>
            opened ← (match dev with Some _ => on_bus (BusDevOpen dev) | None => mret 0 end);
            if negb (opened =? 0) then mret (- EINVAL)
            else
              ret ← on_mp m f;
              if ret <? 0 then
                (match dev with Some _ => on_bus (BusDevClose dev);; mret tt | None => mret tt end);;
                mret ret
              else
                mlinks (DoubleLinkListInsertNodeBefore MntList (MntNode m));;
                mret ret
        end
    end.

(** [mem] is the memory for the mount point; [dup_ok]: the copy of the path is allocated. *)
Definition MountFilesystem (mem : option ptr) (dup_ok : bool) (bus_nm dev_nm drv_nm : option string) (type : Z) (path : option string) : M vst Z :=
  found ← find_device bus_nm dev_nm drv_nm;
  match found with
  | inl err => mret err
  | inr (bus, dev, drv) =>
      if FSTYPE_END <=? type then mret (- EINVAL)
      else
        s ← get;
        entry ← deref (fstable s !! Z.to_nat type);
        match entry with
        | None => mret (- EINVAL)
        | Some fs =>
            if bad_mount_path path then mret (- EINVAL)
            else
              path ← deref path;
              match mem with
              | None => mret (- ENOMEM)
              | Some m =>
                  lock ← gets mnt_list_lock;
                  ret ← with_lock lock (
                    new_mount m (mkMount type path (Z.of_nat (String.length path)) None bus dev drv fs);;
                    mount_locked m path dev dup_ok);
                  (if ret <? 0 then free_mount m else mret tt);;
                  mret ret
              end
        end
  end.

Definition UnmountFileSystem (path : option string) : M vst Z :=
  if bad_mount_path path then mret (- EINVAL)
  else
    path ← deref path;
    lock ← gets mnt_list_lock;
    with_lock lock (
      mp ← find_mount path;
      match mp with
      | None => mret (- EINVAL)
      | Some m =>
          f ← mp_fn m fs_unmount;
          match f with
          | None => mret (- EINVAL)
          | Some f =>
              ret ← on_mp m f;
              if ret <? 0 then mret ret
              else
                mlinks (DoubleLinkListRmNode (MntNode m));;
                dev ← mp_get m mp_dev;
                (match dev with Some _ => on_bus (BusDevClose dev);; mret tt | None => mret tt end);;
                free_mount m;;
                mret ret
          end
      end).

Definition RegisterFilesystem (type : Z) (fs : ptr) : M vst Z :=
  if FSTYPE_END <=? type then mret (- EINVAL)
  else modify (fun s => set_fstable (<[Z.to_nat type := Some fs]> (fstable s)) s);; mret 0.

(** ** The table of file descriptors *)

(** The first empty entry. *)
Definition free_entry (t : list (option ptr)) : option nat := fst <$> list_find (fun x => x = None) t.

Definition NewFileDescriptor (mem : option ptr) : M vst (Z * option ptr) :=
  lock ← gets fdtable_lock;
  with_lock lock (
    s ← get;
    match free_entry (fdtable s) with
    | None => mret (-1, None)
    | Some fd =>
        match mem with
        | None => mret (-1, None)
        | Some fdp =>
            modify (fun s => set_descriptors (<[fdp := mkFd None 0 None None 0]> (descriptors s)) s);;
            modify (fun s => set_fdtable (<[fd := Some fdp]> (fdtable s)) s);;
            mret (Z.of_nat fd + FD_OFFSET, Some fdp)
        end
    end).

(** In the build without LIB_POSIX: with FS_VFS_DEVFS and LIB_POSIX a number up to 2 is first
    replaced by that of the console, [LibcStdioGetConsole()] (iot-vfs.c:202). *)
Definition GetFileDescriptor (fd : Z) : M vst (option ptr) :=
  if (fd <? 0) || (FD_MAX <=? fd) then mret None
  else if fd - FD_OFFSET <? 0 then mret None
  else s ← get; deref (fdtable s !! Z.to_nat (fd - FD_OFFSET)).

(** [free(fdp->path)]; the pointer must be initialised. *)
Definition free_path (fdp : ptr) : M vst unit := p ← fd_get fdp fd_path; deref p;; mret tt.
Definition free_fd (fdp : ptr) : M vst unit := fd_get fdp fd_type;; modify (fun s => set_descriptors (delete fdp (descriptors s)) s).

Definition FreeFileDescriptor (fdp : ptr) : M vst unit :=
  lock ← gets fdtable_lock;
  with_lock lock (
    s ← get;
    match list_find (fun x => x = Some fdp) (fdtable s) with
    | None => mret tt
    | Some (i, _) =>
        free_path fdp;;
        free_fd fdp;;
        modify (fun s => set_fdtable (<[i := None]> (fdtable s)) s)
    end).

(** ** Files *)

(** [fdp->mntp->fs->sync(fdp)] for the open files from the [i]th entry on. *)
Fixpoint sync_loop (n i : nat) : M vst unit :=
  match n with
  | O => mret tt
  | Datatypes.S n =>
      s ← get;
      fdp ← deref (fdtable s !! i);
      (match fdp with
       | None => mret tt
       | Some d =>
           f ← fd_fn d fs_sync;
           match f with Some f => on_fd d f;; mret tt | None => mret tt end
       end);;
      sync_loop n (Datatypes.S i)
  end.
Definition SyncOpenedFiles : M vst unit := sync_loop (Z.to_nat (FD_MAX - FD_OFFSET)) 0.

(** The calls on a descriptor: the function [f] of its file system, applied by [call]. *)
Definition fd_call {A : Type} (fd : Z) (f : Filesystem S DS -> option A) (call : ptr -> A -> M vst Z) : M vst Z :=
  fdp ← GetFileDescriptor fd;
  match fdp with
  | None => fail_with EBADF (-1)
  | Some d =>
      f ← fd_fn d f;
      match f with
      | None => fail_with EINVAL (-1)
      | Some f => ret ← call d f; if ret <? 0 then fail_with ret (-1) else mret ret
      end
  end.

Definition read (fd buf len : Z) : M vst Z := fd_call fd fs_read (fun d f => on_fd d (f buf len)).
Definition write (fd buf len : Z) : M vst Z := fd_call fd fs_write (fun d f => on_fd d (f buf len)).
Definition ioctl (fd cmd args : Z) : M vst Z := fd_call fd fs_ioctl (fun d f => on_fd d (f cmd args)).
Definition fsync (fd : Z) : M vst Z := fd_call fd fs_sync (fun d f => on_fd d f).
Definition ftruncate (fd len : Z) : M vst Z := fd_call fd fs_truncate (fun d f => on_fd d (f len)).

Definition close (fd : Z) : M vst Z :=
  fdp ← GetFileDescriptor fd;
  match fdp with
  | None => fail_with EBADF (-1)
  | Some d =>
      f ← fd_fn d fs_close;
      match f with
      | None => fail_with EINVAL (-1)
      | Some f =>
          ret ← on_fd d f;
          if ret <? 0 then fail_with ret (-1)
          else FreeFileDescriptor d;; mret 0
      end
  end.

Definition lseek (fd offset whence : Z) : M vst Z :=
  fdp ← GetFileDescriptor fd;
  match fdp with
  | None => fail_with EBADF (-1)
  | Some d =>
      f ← fd_fn d fs_seek;
      match f with
      | None => fail_with EINVAL (-1)
      | Some f =>
          '(ret, new_offset) ← on_fd d (f offset whence);
          if ret <? 0 then fail_with ret (-1) else mret new_offset
      end
  end.

(** The two buffers of GetAbsolutePath are allocated. *)
Record path_mem : Type := mkPathMem { tmp_ok : bool; abs_ok : bool }.

(** The absolute path of [path], its mount point and the path relative to that. *)
Definition locate (b : path_mem) (path : option string) : M vst (option string * option (ptr * string)) :=
  wd ← gets working_dir;
  abspath ← GetAbsolutePath (tmp_ok b) (abs_ok b) wd path;
  mp ← GetMountPoint abspath;
  match mp with
  | None => mret (abspath, None)
  | Some m =>
      nm ← mp_get m mnt_point;
      a ← deref abspath;
      mret (abspath, Some (m, GetRelativePath nm a))
  end.

(** The descriptor of a file or directory that is opened. *)
Definition fill_fd (fdp : ptr) (type : Z) (m : ptr) (path : option string) : M vst unit :=
  fd_set fdp (set_fd_type type);;
  fd_set fdp (set_fd_mntp (Some m));;
  fd_set fdp (set_fd_pos 0);;
  fd_set fdp (set_fd_path (Some path)).

Definition open_flags (fd flags : Z) : M vst unit :=
  (if negb (Z.land flags O_TRUNC =? 0) then ftruncate fd 0;; mret tt else mret tt);;
  (if negb (Z.land flags O_APPEND =? 0) then lseek fd 0 SEEK_END;; mret tt else mret tt).

(** [dup_ok]: the copy of the path is allocated. *)
Definition open (mem : option ptr) (b : path_mem) (dup_ok : bool) (path : option string) (flags : Z) : M vst Z :=
  match path with
  | None => fail_with EINVAL (-1)
  | Some _ =>
      '(fd, fdp) ← NewFileDescriptor mem;
      if fd <? 0 then fail_with ENOMEM (-1)
      else
        d ← deref fdp;
        '(abspath, found) ← locate b path;
        ret ← (match found with
               | None => mret (- EINVAL)
               | Some (m, rel) =>
                   fill_fd d FTYPE_FILE m (if dup_ok then abspath else None);;
                   if negb dup_ok then mret (- ENOMEM)
                   else
                     f ← mp_fn m fs_open;
                     match f with
                     | None => mret (- EINVAL)
                     | Some f =>
                         ret ← on_fd d (f rel);
                         (if ret <? 0 then mret tt else open_flags fd flags);;
                         mret ret
                     end
               end);
        if ret <? 0 then FreeFileDescriptor d;; fail_with ret (-1)
        else mret fd
  end.

(** ** Calls on paths *)

(** The function [f] of the file system of [path], applied by [call]. *)
Definition path_call {A : Type} (b : path_mem) (path : option string) (f : Filesystem S DS -> option A) (call : ptr -> A -> string -> M vst Z) : M vst Z :=
  match path with
  | None => fail_with EINVAL (-1)
  | Some _ =>
      '(_, found) ← locate b path;
      ret ← (match found with
             | None => mret (- EINVAL)
             | Some (m, rel) =>
                 f ← mp_fn m f;
                 match f with None => mret (- EINVAL) | Some f => call m f rel end
             end);
      if ret <? 0 then fail_with ret (-1) else mret 0
  end.

Definition unlink (b : path_mem) (path : option string) : M vst Z := path_call b path fs_unlink (fun m f rel => on_mp m (f rel)).
Definition mkdir (b : path_mem) (path : option string) (mode : Z) : M vst Z := path_call b path fs_mkdir (fun m f rel => on_mp m (f rel)).
Definition rmdir (b : path_mem) (path : option string) : M vst Z := unlink b path.

Definition rename (b1 b2 : path_mem) (from to : option string) : M vst Z :=
  match from, to with
  | Some _, Some _ =>
      wd ← gets working_dir;
      abs_from ← GetAbsolutePath (tmp_ok b1) (abs_ok b1) wd from;
      wd ← gets working_dir;
      abs_to ← GetAbsolutePath (tmp_ok b2) (abs_ok b2) wd to;
      mp_from ← GetMountPoint abs_from;
      mp_to ← GetMountPoint abs_to;
      ret ← (if bool_decide (mp_from = None) || negb (bool_decide (mp_from = mp_to)) then mret (- EINVAL)
             else
               m ← deref mp_from;
               nm ← mp_get m mnt_point;
               af ← deref abs_from;
               at_ ← deref abs_to;
               f ← mp_fn m fs_rename;
               match f with
               | None => mret (- EINVAL)
               | Some f => on_mp m (f (GetRelativePath nm af) (GetRelativePath nm at_))
               end);
      if ret <? 0 then fail_with ret (-1) else mret 0
  | _, _ => fail_with EINVAL (-1)
  end.

(** The result and what is stored through [buf]. *)
Definition stat (b : path_mem) (path : option string) : M vst (Z * option stat_buf) :=
  match path with
  | None => fail_with EINVAL (-1, None)
  | Some _ =>
      wd ← gets working_dir;
      abspath ← GetAbsolutePath (tmp_ok b) (abs_ok b) wd path;
      a ← deref abspath;
      if bool_decide (a = "/") then mret (0, Some (mkStat 0 (Z.lor S_RW (Z.lor S_IFDIR S_X)) 0 0))
      else
        mp ← GetMountPoint abspath;
        '(ret, st) ← (match mp with
               | None => mret (- EINVAL, None)
               | Some m =>
                   nm ← mp_get m mnt_point;
                   f ← mp_fn m fs_stat;
                   match f with
                   | None => mret (- EINVAL, None)
                   | Some f =>
                       '(ret, st) ← on_mp m (f (GetRelativePath nm a));
                       if ret <? 0 then mret (ret, None)
                       else
                         let mode := if stat_type st =? FTYPE_DIR then Z.lor S_RW (Z.lor S_IFDIR S_X) else Z.lor S_RW S_IFREG in
                         mret (ret, Some (mkStat 0 mode (stat_size st) (stat_mtime st)))
                   end
               end);
        if ret <? 0 then fail_with ret (-1, None) else mret (0, st)
  end.

Definition fstat (b : path_mem) (fd : Z) : M vst (Z * option stat_buf) :=
  fdp ← GetFileDescriptor fd;
  match fdp with
  | None => fail_with EBADF (-1, None)
  | Some d => p ← fd_get d fd_path; p ← deref p; stat b p
  end.

Definition statfs (b : path_mem) (path : option string) : M vst (Z * option statfs_buf) :=
  match path with
  | None => fail_with EINVAL (-1, None)
  | Some _ =>
      '(_, found) ← locate b path;
      '(ret, buf) ← (match found with
             | None => mret (- EINVAL, None)
             | Some (m, rel) =>
                 f ← mp_fn m fs_statvfs;
                 match f with
                 | None => mret (- EINVAL, None)
                 | Some f => '(ret, v) ← on_mp m (f rel); mret (ret, Some v)
                 end
             end);
      if ret <? 0 then fail_with ret (-1, buf) else mret (0, buf)
  end.

(** ** Directories *)

Definition opendir (mem : option ptr) (b : path_mem) (dup_ok : bool) (path : option string) : M vst (option ptr) :=
  match path with
  | None => fail_with EINVAL None
  | Some _ =>
      match mem with
      | None => fail_with ENOMEM None
      | Some d =>
          modify (fun s => set_descriptors (<[d := mkFd (Some None) 0 None None 0]> (descriptors s)) s);;
          '(abspath, found) ← locate b path;
          ret ← (match found with
                 | None => mret (- EINVAL)
                 | Some (m, rel) =>
                     fill_fd d FTYPE_DIR m (if dup_ok then abspath else None);;
                     if negb dup_ok then mret (- ENOMEM)
                     else
                       f ← mp_fn m fs_opendir;
                       match f with None => mret (- EINVAL) | Some f => on_fd d (f rel) end
                 end);
          if ret <? 0 then free_path d;; free_fd d;; fail_with ret None
          else mret (Some d)
      end
  end.

Definition closedir (dirp : option ptr) : M vst Z :=
  match dirp with
  | None => fail_with EINVAL (-1)
  | Some d =>
      f ← fd_fn d fs_closedir;
      match f with
      | None => fail_with EINVAL (-1)
      | Some f =>
          ret ← on_fd d f;
          if ret <? 0 then fail_with ret (-1)
          else free_path d;; free_fd d;; mret 0
      end
  end.

(** The pointer to the static [dirent] is given by its contents. *)
Definition readdir (dirp : option ptr) : M vst (option dirent) :=
  match dirp with
  | None => fail_with EINVAL None
  | Some d =>
      f ← fd_fn d fs_readdir;
      match f with
      | None => fail_with EINVAL None
      | Some f =>
          '(ret, e) ← on_fd d f;
          modify (set_last_dirent e);;
          if ret <? 0 then fail_with ret None
          else if bool_decide (d_name e = "") then mret None
          else mret (Some e)
      end
  end.

Definition seekdir (dirp : option ptr) (offset : Z) : M vst unit :=
  match dirp with
  | None => fail_with EINVAL tt
  | Some d =>
      f ← fd_fn d fs_seekdir;
      match f with None => fail_with EINVAL tt | Some f => on_fd d (f offset);; mret tt end
  end.
Definition rewinddir (dirp : option ptr) : M vst unit := seekdir dirp 0.

(** [working_dir] has MAX_PATH + 1 bytes; [strcpy] does not look. *)
Definition chdir (mem : option ptr) (b1 b2 : path_mem) (dup_ok : bool) (path : option string) : M vst Z :=
  match path with
  | None => fail_with EINVAL (-1)
  | Some _ =>
      dirp ← opendir mem b1 dup_ok path;
      match dirp with
      | None => fail_with ENOTDIR (-1)
      | Some _ =>
          closedir dirp;;
          wd ← gets working_dir;
          abspath ← GetAbsolutePath (tmp_ok b2) (abs_ok b2) wd path;
          lock ← gets working_dir_lock;
          with_lock lock (
            a ← deref abspath;
            if MAX_PATH <? Z.of_nat (String.length a) then fault else modify (set_working_dir a));;
          mret 0
      end
  end.

(** What [buf] holds: at most [size - 1] characters and a zero byte. *)
Definition getcwd (size : Z) : M vst string :=
  lock ← gets working_dir_lock;
  wd ← with_lock lock (gets working_dir);
  mret (String.substring 0 (Z.to_nat (size - 1)) wd).

(** ** Initialisation *)

(** [mems]: memory for the three mutexes; [devicefile] the table of DevicefileInit. *)
Definition VfsInit (mem1 mem2 mem3 mem : option ptr) (dup_ok : bool) (devicefile : ptr) : M vst Z :=
  mlinks (InitDoubleLinkList MntList);;
  m ← on_host (mutex_create mem1);
  w ← on_host (mutex_create mem2);
  f ← on_host (mutex_create mem3);
  modify (set_locks m f w);;
  modify (set_working_dir "/");;
  RegisterFilesystem FSTYPE_IOTDEVICEFILE devicefile;;
  MountFilesystem mem dup_ok None None None FSTYPE_IOTDEVICEFILE (Some "/dev");;
  mret 0.

End Vfs.
