(* ===== verification/VfsInv.v ===== *)
(** * Mount points

    [mounts s ML name ms]: the mount points [ms] are linked in this order under the
    names [name].  What GetMountPoint finds is the longest mounted name that covers
    a path; for resolved paths a name covers what begins with its words. *)

From S2P Require Import Prelude DoubleLink Kernel Services Bus Path Vfs.
From Stdlib Require Import Ascii.

Section VfsInv.
Context {S DS : Type} `{C : KConfig} `{SV : Services S} {SL : ServicesLaws S}.
Abbreviation vst := (vfs_state S DS).
Abbreviation bst := (bus_state S DS).
Implicit Types (s : vst) (ML : gmap mlink (list mlink)) (ms : list ptr) (name : ptr -> string).

(** ** Rules *)

Lemma wp_mp_get {A : Type} m (f : MountPoint -> A) x (Q : A -> vst -> Prop) s : mount_points s !! m = Some x -> Q (f x) s -> wp (mp_get m f) Q s.
Proof. intros E HQ. unfold mp_get. wp_steps. rewrite E. by wp_steps. Qed.
Lemma wp_fd_get {A : Type} d (f : FileDescriptor -> A) x (Q : A -> vst -> Prop) s : descriptors s !! d = Some x -> Q (f x) s -> wp (fd_get d f) Q s.
Proof. intros E HQ. unfold fd_get. wp_steps. rewrite E. by wp_steps. Qed.
Lemma wp_fd_set d f x (Q : unit -> vst -> Prop) s :
  descriptors s !! d = Some x -> Q tt (set_descriptors (<[d := f x]> (descriptors s)) s) -> wp (fd_set d f) Q s.
Proof. intros E HQ. unfold fd_set. wp_steps. rewrite E. by wp_steps. Qed.
Lemma wp_mp_fn {A : Type} m (f : Filesystem S DS -> A) x fs (Q : A -> vst -> Prop) s :
  mount_points s !! m = Some x -> filesystems s !! mp_fs x = Some fs -> Q (f fs) s -> wp (mp_fn m f) Q s.
Proof. intros E1 E2 HQ. unfold mp_fn. wp_step. eapply wp_mp_get; [exact E1|]. wp_steps. rewrite E2. by wp_steps. Qed.
Lemma wp_mlinks {A : Type} (m : M (gmap mlink (node mlink)) A) (Q : A -> vst -> Prop) s :
  wp m (fun v h => Q v (set_mnt_links h s)) (mnt_links s) -> wp (mlinks m) Q s.
Proof. apply wp_zoom. Qed.
Lemma set_mnt_links_id s : set_mnt_links (mnt_links s) s = s.
Proof. by destruct s. Qed.

(** ** Mount points *)

Record mounts s ML name ms : Prop := {
  mo_rep : rep (mnt_links s) ML;
  mo_list : ML !! MntList = Some (MntNode <$> ms);
  mo_point : forall m, m ∈ ms -> exists x, mount_points s !! m = Some x /\ mnt_point x = name m /\
    mnt_point_len x = Z.of_nat (String.length (name m));
  mo_names : NoDup (name <$> ms);
}.

(** What the tests of GetMountPoint amount to. *)
Definition covers (path nm : string) : bool :=
  (String.length nm <=? String.length path)%nat &&
  ((String.length nm <=? 1)%nat ||
     bool_decide (char_at path (String.length nm) = Some SLASH) || bool_decide (char_at path (String.length nm) = Some NUL)) &&
  strncmp_eq (String.length nm) path nm.

Definition better (path : string) name (acc : option ptr * Z) (m : ptr) : option ptr * Z :=
  if (acc.2 <=? Z.of_nat (String.length (name m))) && covers path (name m) then (Some m, Z.of_nat (String.length (name m))) else acc.

Lemma char_at_length path n : (n <= String.length path)%nat -> exists c, char_at path n = Some c.
Proof.
  intros Hn. unfold char_at. apply lookup_lt_is_Some_2. rewrite length_app. cbn.
  rewrite <- (length_string_of (chars path)), string_of_chars. lia.
Qed.

Lemma wp_mount_loop fuel path s ML name ms1 ms2 mp longest (Q : option ptr -> vst -> Prop) :
  mounts s ML name (ms1 ++ ms2) -> (length ms2 < fuel)%nat ->
  Q (foldl (better path name) (mp, longest) ms2).1 s ->
  wp (mount_loop fuel path (List.hd MntList (MntNode <$> ms2)) mp longest) Q s.
Proof.
  revert fuel ms1 mp longest. induction ms2 as [|m ms2 IH]; intros fuel ms1 mp longest H Hf HQ;
    (destruct fuel as [|fuel]; [cbn in Hf; lia|]); cbn [mount_loop fmap list_fmap List.hd]; [by wp_step|].
  destruct (mo_point _ _ _ _ H m ltac:(set_solver)) as (x & E & En & El).
  wp_step. eapply wp_mp_get; [exact E|]. rewrite El. wp_step.
  assert (forall r, r = better path name (mp, longest) m ->
    wp (nx ← mlinks (get_next (MntNode m)); nx ← deref nx; mount_loop fuel path nx r.1 r.2) Q s) as Hnext.
  { intros r ->. pose proof (mo_list _ _ _ _ H) as HL. rewrite fmap_app, fmap_cons in HL.
    pose proof (rep_next _ _ _ _ _ _ (mo_rep _ _ _ _ H) HL) as Hnx.
    wp_step. apply wp_mlinks, wp_get_next; [by eapply alloc_nxt|]. rewrite Hnx, set_mnt_links_id. wp_steps.
    apply (IH fuel (ms1 ++ [m])); [by rewrite <- app_assoc|cbn in Hf; lia|]. cbn [foldl] in HQ. by destruct (better path name (mp, longest) m). }
  unfold better, covers in Hnext. cbn [fst snd] in Hnext. set (len := String.length (name m)) in *.
  destruct (Z.ltb_spec (Z.of_nat len) longest); cbn [orb].
  { wp_step. apply Hnext. by rewrite (proj2 (Z.leb_gt longest _)) by lia. }
  rewrite (proj2 (Z.leb_le longest _)) in Hnext by lia. cbn [andb] in Hnext.
  destruct (Z.ltb_spec (Z.of_nat (String.length path)) (Z.of_nat len)).
  { wp_step. apply Hnext. by rewrite (proj2 (Nat.leb_gt len _)) by lia. }
  rewrite (proj2 (Nat.leb_le len _)) in Hnext by lia. cbn [andb] in Hnext. rewrite Nat2Z.id.
  destruct (char_at_length path len ltac:(lia)) as [c Ec]. rewrite Ec in *. wp_steps.
  rewrite (bool_decide_ext (Some c = Some SLASH) (c = SLASH)), (bool_decide_ext (Some c = Some NUL) (c = NUL)) in Hnext by naive_solver.
  destruct (Z.ltb_spec 1 (Z.of_nat len)) as [Hone|Hone]; [rewrite (proj2 (Nat.leb_gt len 1)) in Hnext by lia|rewrite (proj2 (Nat.leb_le len 1)) in Hnext by lia];
    cbn [orb andb negb] in *.
  - destruct (bool_decide (c = SLASH)), (bool_decide (c = NUL)); cbn [orb andb negb] in *;
      try (wp_step; eapply wp_mp_get; [exact E|]; rewrite En; destruct (strncmp_eq len path (name m)); wp_step; by apply Hnext).
    wp_step. by apply Hnext.
  - wp_step. eapply wp_mp_get; [exact E|]. rewrite En. destruct (strncmp_eq len path (name m)); wp_step; by apply Hnext.
Qed.

(** [r] is the mount point of the longest name that covers [path]. *)
Definition best_mount (path : string) name ms (r : option ptr) : Prop :=
  match r with
  | None => forall m, m ∈ ms -> covers path (name m) = false
  | Some m => m ∈ ms /\ covers path (name m) = true /\
      forall m', m' ∈ ms -> covers path (name m') = true -> (String.length (name m') <= String.length (name m))%nat
  end.

Lemma best_foldl path name ms : best_mount path name ms (foldl (better path name) (None, 0) ms).1.
Proof.
  assert (let r := foldl (better path name) (None, 0) ms in best_mount path name ms r.1 /\
    r.2 = match r.1 with Some m => Z.of_nat (String.length (name m)) | None => 0 end) as [H _]; [|done].
  induction ms as [|m ms [IH1 IH2]] using rev_ind; [split; [intros m Hm; by apply not_elem_of_nil in Hm|done]|].
  rewrite foldl_snoc. set (r := foldl (better path name) (None, 0) ms) in *. unfold better. destruct r as [[m0|] z]; cbn [fst snd] in *; subst z.
  - destruct IH1 as (H1 & H2 & H3). destruct (covers path (name m)) eqn:Ec; rewrite ?andb_false_r, ?andb_true_r.
    + destruct (Z.leb_spec (Z.of_nat (String.length (name m0))) (Z.of_nat (String.length (name m)))); cbn [fst snd]; (split; [|done]).
      * split_and!; [set_solver|done|]. intros m' [Hm'| ->%list_elem_of_singleton]%elem_of_app Hc; [|done]. specialize (H3 m' Hm' Hc). lia.
      * split_and!; [set_solver|done|]. intros m' [Hm'| ->%list_elem_of_singleton]%elem_of_app Hc; [by apply H3|lia].
    + split; [|done]. split_and!; [set_solver|done|]. intros m' [Hm'| ->%list_elem_of_singleton]%elem_of_app Hc; [by apply H3|congruence].
  - rewrite (proj2 (Z.leb_le 0 _)) by lia. cbn [andb]. destruct (covers path (name m)) eqn:Ec; cbn [fst snd]; (split; [|done]).
    + split_and!; [set_solver|done|]. intros m' [Hm'| ->%list_elem_of_singleton]%elem_of_app Hc; [by rewrite IH1 in Hc|done].
    + intros m' [Hm'| ->%list_elem_of_singleton]%elem_of_app; [by apply IH1|done].
Qed.

Lemma mounts_host h s ML name ms : mounts s ML name ms -> mounts (set_host h s) ML name ms.
Proof. by intros [? ? ? ?]. Qed.

Lemma wp_GetMountPoint ids path s ML name ms (Q : option ptr -> vst -> Prop) :
  mounts s ML name ms -> locks_free ids (host s) -> mnt_list_lock s ∈ ids ->
  (forall r h, best_mount path name ms r -> locks_free ids h -> Q r (set_host h s)) -> wp (GetMountPoint (Some path)) Q s.
Proof.
  intros H Hl Hid HQ. unfold GetMountPoint. wp_steps. eapply (wp_with_lock ids); [done|done|]. intros h.
  pose proof (mounts_host h _ _ _ _ H) as [HR HL Hp Hn].
  wp_step. apply wp_mlinks. pose proof (rep_first _ _ _ _ HR HL) as Hf. apply wp_get_next; [by eapply alloc_nxt|].
  rewrite Hf, set_mnt_links_id. wp_steps. pose proof (rep_length _ _ _ _ HR HL) as Hlen. rewrite length_fmap in Hlen.
  eapply (wp_mount_loop _ path _ ML name []); [by apply (mounts_host h)|lia|]. split; [done|]. intros h' Hfree.
  rewrite set_set_host. apply HQ; [apply best_foldl|exact Hfree].
Qed.

(** ** Names that cover a path *)

Lemma chars_substring n (t : string) : chars (String.substring 0 n t) = take n (chars t).
Proof. revert n. induction t as [|c t IH]; intros [|n]; [done..|]. cbn. f_equal. apply IH. Qed.

Lemma length_chars (t : string) : length (chars t) = String.length t.
Proof. by rewrite <- (length_string_of (chars t)), string_of_chars. Qed.

Lemma strncmp_eq_take n (a b : string) : strncmp_eq n a b = true <-> take n (chars a) = take n (chars b).
Proof.
  unfold strncmp_eq. rewrite String.eqb_eq, <- !chars_substring. split; [by intros ->|].
  intros E. rewrite <- (string_of_chars (String.substring 0 n a)), E. apply string_of_chars.
Qed.

Lemma covers_spec (path nm : string) : no_nul (chars path) ->
  covers path nm = true <-> exists rest, chars path = chars nm ++ rest /\ ((String.length nm <= 1)%nat \/ rest = [] \/ head rest = Some SLASH).
Proof.
  intros Hn. unfold covers, char_at. rewrite !andb_true_iff, !orb_true_iff, !Nat.leb_le, !bool_decide_eq_true, strncmp_eq_take.
  rewrite (take_ge (chars nm)) by (rewrite length_chars; lia). split.
  - intros [[Hlen Hb] E]. exists (drop (String.length nm) (chars path)).
    assert (chars path = chars nm ++ drop (String.length nm) (chars path)) as Ep by (rewrite <- E at 1; by rewrite take_drop).
    split; [done|]. set (rest := drop _ _) in *. rewrite Ep, <- app_assoc, <- (length_chars nm) in Hb.
    destruct Hb as [[Hb|Hb]|Hb]; [by left; rewrite <- length_chars|..]; rewrite lookup_app_r, Nat.sub_diag in Hb by lia;
      (destruct rest as [|c rest]; [by right; left|]); cbn in Hb; injection Hb as ->; [by right; right|].
    exfalso. apply Hn. rewrite Ep. set_solver.
  - intros (rest & Ep & Hb). rewrite Ep. assert (String.length nm <= String.length path)%nat as Hlen.
    { rewrite <- !length_chars, Ep, length_app. lia. }
    split; [split; [done|]|by rewrite <- (length_chars nm), take_app_length].
    rewrite <- app_assoc, <- (length_chars nm). rewrite lookup_app_r, Nat.sub_diag by lia.
    destruct Hb as [Hb|[->|Hb]]; [left; left; by rewrite length_chars|by right|left; right]. by destruct rest.
Qed.

(** For resolved paths: the words of the name begin those of the path. *)
Lemma covers_words ws1 ws2 : (forall w, w ∈ ws1 -> proper w) -> (forall w, w ∈ ws2 -> proper w) ->
  covers (path_of ws2) (path_of ws1) = true <-> ws1 `prefix_of` ws2.
Proof.
  intros H1 H2. rewrite covers_spec by by apply path_of_no_nul. split.
  - intros (rest & Ep & Hb). destruct ws1 as [|w1 ws1]; [apply prefix_nil|].
    pose proof (components_path_of ws2 H2) as E2. rewrite Ep, (chars_path_of (w1 :: ws1)) in E2.
    assert (2 <= length (join (w1 :: ws1)))%nat as Hlen.
    { rewrite join_cons. cbn [length]. rewrite length_app. destruct (H1 w1 ltac:(by left)) as [Hne _]. destruct w1; [done|cbn; lia]. }
    destruct Hb as [Hb|Hb]; [rewrite <- length_chars, chars_path_of in Hb; lia|].
    exists (components rest). rewrite <- E2. unfold components.
    destruct Hb as [->|Hb]; [by rewrite !app_nil_r, tokens_join|]. destruct rest as [|c rest]; [done|]. injection Hb as ->.
    rewrite tokens_app, tokens_join by done. cbn. by rewrite bool_decide_true.
  - intros [ws ->]. destruct ws1 as [|w1 ws1].
    + cbn [app]. rewrite chars_path_of. destruct ws as [|w ws]; [by exists []; split; [|left]|]. exists (tail (join (w :: ws))). split; [done|by left].
    + exists (join ws). cbn [app]. rewrite !chars_path_of. change (w1 :: ws1 ++ ws) with ((w1 :: ws1) ++ ws). rewrite join_app.
      split; [done|]. right. destruct ws; [by left|by right].
Qed.

(** C31: GetMountPoint returns the mount point of the longest name that covers the path,
    and null when none does; the file system is as before but for the lock. *)
Theorem GetMountPoint_longest ids path s ML name ms :
  mounts s ML name ms -> locks_free ids (host s) -> mnt_list_lock s ∈ ids ->
  exists r h, GetMountPoint (Some path) s = Ret r (set_host h s) /\ locks_free ids h /\ best_mount path name ms r.
Proof.
  intros H Hl Hid. destruct (wp_inv (GetMountPoint (Some path)) (fun r s' => exists h, s' = set_host h s /\ locks_free ids h /\ best_mount path name ms r) s)
    as (r & s' & E & h & -> & Hh & Hr); [|by exists r, h].
  apply (wp_GetMountPoint ids path s ML name ms); [done..|]. intros r h Hr Hh. by exists h.
Qed.

End VfsInv.
