(* ===== verification/Descriptors.v ===== *)
(** * File descriptors

    The invariant of the virtual file system and what its calls do with the table of
    descriptors.  The functions of the file systems are callbacks; [fs_contract] says
    what they must leave alone.  A history of opens, closes and other calls
    behaves as a table of paths ([file_run]). *)

From S2P Require Import Prelude DoubleLink Kernel Services Bus Path Vfs VfsInv.
From Stdlib Require Import Ascii.

Section Descriptors.
Context {S DS : Type} `{C : KConfig} `{SV : Services S} {SL : ServicesLaws S}.
Abbreviation vst := (vfs_state S DS).
Abbreviation bst := (bus_state S DS).
Implicit Types (s : vst) (ML : gmap mlink (list mlink)) (ms : list ptr) (name : ptr -> string) (x : FileDescriptor) (b : bst).

(** ** The invariant *)

Definition vfs_locks s : list Z := [mnt_list_lock s; fdtable_lock s; working_dir_lock s].

(** What file systems need: an invariant [fi_world] of the buses below, one [fi_file] of the
    open files, and [fi_path m p b]: the path [p] may be opened on the mount point [m].
    The kernel does not matter to them, and [advanced] is how the calls change the buses. *)
Record files_inv : Type := {
  fi_world : bst -> Prop;
  fi_file : FileDescriptor -> bst -> Prop;
  fi_path : ptr -> string -> bst -> Prop;
  fi_world_host : forall h b, fi_world b -> fi_world (set_bus_host h b);
  fi_file_host : forall h x b, fi_file x b -> fi_file x (set_bus_host h b);
  fi_path_host : forall h m p b, fi_path m p b -> fi_path m p (set_bus_host h b);
}.
Context (FI : files_inv).

Definition advanced b b' : Prop :=
  fi_world FI b' /\ (forall x, fi_file FI x b -> fi_file FI x b') /\ (forall m p, fi_path FI m p b -> fi_path FI m p b').

(** A callback on a descriptor returns, leaves the fields of the virtual file system
    alone and gives back what it locks. *)
Definition same_file x x' : Prop := fd_path x' = fd_path x /\ fd_type x' = fd_type x /\ fd_mntp x' = fd_mntp x.
Definition callback {A : Type} (ids : list Z) x b (f : M (FileDescriptor * bst) A) (P : A -> FileDescriptor -> bst -> Prop) : Prop :=
  locks_free ids (bus_host b) -> fi_world FI b ->
  wp f (fun v t => same_file x t.1 /\ locks_free ids (bus_host t.2) /\ advanced b t.2 /\ P v t.1 t.2) (x, b).
Definition fd_contract {A : Type} (ids : list Z) m (f : M (FileDescriptor * bst) A) : Prop :=
  forall x b, fd_mntp x = Some m -> fi_file FI x b -> callback ids x b f (fun _ => fi_file FI).

Record fs_contract (ids : list Z) (m : ptr) (fs : Filesystem S DS) : Prop := {
  fc_open : forall f rel, fs_open fs = Some f -> forall x b, fd_mntp x = Some m -> fi_path FI m rel b ->
    callback ids x b (f rel) (fun v x' b' => 0 <= v -> fi_file FI x' b');
  fc_close : forall f, fs_close fs = Some f -> forall x b, fd_mntp x = Some m -> fi_file FI x b ->
    callback ids x b f (fun v x' b' => v < 0 -> fi_file FI x' b');
  fc_read : forall f buf len, fs_read fs = Some f -> fd_contract ids m (f buf len);
  fc_write : forall f buf len, fs_write fs = Some f -> fd_contract ids m (f buf len);
  fc_seek : forall f off whence, fs_seek fs = Some f -> fd_contract ids m (f off whence);
  fc_truncate : forall f len, fs_truncate fs = Some f -> fd_contract ids m (f len);
  fc_sync : forall f, fs_sync fs = Some f -> fd_contract ids m f;
  fc_ioctl : forall f cmd args, fs_ioctl fs = Some f -> fd_contract ids m (f cmd args);
}.

Definition fs_of s (m : ptr) (fs : Filesystem S DS) : Prop := exists y, mount_points s !! m = Some y /\ filesystems s !! mp_fs y = Some fs.

Record vfs_ok s ML name ms : Prop := {
  vo_mounts : mounts s ML name ms;
  vo_locks : locks_free (vfs_locks s) (host s);
  vo_world : fi_world FI (vfs_bus s);
  vo_fs : forall m, m ∈ ms -> exists fs, fs_of s m fs /\ fs_contract (vfs_locks s) m fs;
  vo_length : length (fdtable s) = Z.to_nat (FD_MAX - FD_OFFSET);
  vo_open : forall i d, fdtable s !! i = Some (Some d) ->
    exists x m, descriptors s !! d = Some x /\ is_Some (fd_path x) /\ fd_mntp x = Some m /\ m ∈ ms /\ fi_file FI x (vfs_bus s);
  vo_distinct : forall i j d, fdtable s !! i = Some (Some d) -> fdtable s !! j = Some (Some d) -> i = j;
  vo_dir : absolute (working_dir s) /\ no_nul (chars (working_dir s));
}.

Lemma advanced_host b h : fi_world FI b -> advanced b (set_bus_host h b).
Proof. intros H. split_and!; [by apply fi_world_host|intros x; apply fi_file_host|intros m p; apply fi_path_host]. Qed.
Lemma advanced_trans b1 b2 b3 : advanced b1 b2 -> advanced b2 b3 -> advanced b1 b3.
Proof. intros (H1 & H2 & H3) (H4 & H5 & H6). split_and!; eauto. Qed.
Lemma advanced_set_host b b' h : advanced b b' -> advanced b (set_bus_host h b').
Proof. intros H. eapply advanced_trans; [exact H|]. apply advanced_host, H. Qed.

Lemma vfs_ok_bus s ML name ms b : vfs_ok s ML name ms -> locks_free (vfs_locks s) (bus_host b) -> advanced (vfs_bus s) b -> vfs_ok (set_vfs_bus b s) ML name ms.
Proof.
  intros [[? ? ? ?] ? ? ? ? Ho ? ?] Hl (H1 & H2 & _). split; [done..| |done|done].
  intros i d Hi. destruct (Ho i d Hi) as (x & m & Hx & Hp & Hm & Hin & Hf). exists x, m. split_and!; auto.
Qed.
Lemma vfs_ok_host s ML name ms h : vfs_ok s ML name ms -> locks_free (vfs_locks s) h -> vfs_ok (set_host h s) ML name ms.
Proof. intros H Hl. apply vfs_ok_bus; [done|done|]. by apply advanced_host, (vo_world _ _ _ _ H). Qed.

(** [s'] is [s] after callbacks on the descriptor [d]. *)
Definition after_file s d x b : vst := set_descriptors (<[d := x]> (descriptors s)) (set_vfs_bus b s).
Definition touched s d x s' : Prop :=
  exists x' b, same_file x x' /\ locks_free (vfs_locks s) (bus_host b) /\ advanced (vfs_bus s) b /\ fi_file FI x' b /\ s' = after_file s d x' b.

Lemma touched_refl s d x : locks_free (vfs_locks s) (host s) -> fi_world FI (vfs_bus s) -> fi_file FI x (vfs_bus s) ->
  descriptors s !! d = Some x -> touched s d x s.
Proof.
  intros Hl Hw Hf E. exists x, (vfs_bus s). split_and!; [done..|]. unfold after_file. rewrite insert_id by done. by destruct s.
Qed.

Lemma touched_trans s d x s1 x1 s2 : touched s d x s1 -> descriptors s1 !! d = Some x1 -> touched s1 d x1 s2 -> touched s d x s2.
Proof.
  intros (x' & b & (H1 & H2 & H3) & Hl & Ha & Hf & ->) E (x2 & b2 & (H4 & H5 & H6) & Hl2 & Ha2 & Hf2 & ->). cbn in E. rewrite lookup_insert_eq in E. injection E as <-.
  exists x2, b2. split_and!; [split_and!; congruence|done|by eapply advanced_trans|done|]. unfold after_file. cbn. by rewrite insert_insert_eq.
Qed.

Lemma touched_host s d x s' h : touched s d x s' -> locks_free (vfs_locks s) h -> touched s d x (set_host h s').
Proof.
  intros (x' & b & H & Hl & Ha & Hf & ->) Hh. exists x', (set_bus_host h b).
  split_and!; [done|done|by apply advanced_set_host|by apply fi_file_host|done].
Qed.

Lemma vfs_ok_touched s ML name ms d x s' : vfs_ok s ML name ms -> descriptors s !! d = Some x -> touched s d x s' ->
  vfs_ok s' ML name ms /\ exists x', descriptors s' !! d = Some x' /\ same_file x x'.
Proof.
  intros [[? ? ? ?] ? ? ? ? Ho ? ?] E (x' & b & (E1 & E2 & E3) & Hl & Ha & Hf & ->). split; [|by exists x'; split; [apply lookup_insert_eq|]].
  split; [done|done|apply Ha|done|done| |done|done]. intros i d' Hi. cbn in *. destruct (Ho i d' Hi) as (y & m & Ey & Hp & Hm & Hin & Hy).
  destruct (decide (d' = d)) as [->|Hne].
  - rewrite E in Ey. injection Ey as <-. exists x', m. rewrite lookup_insert_eq. by rewrite E1, E3.
  - exists y, m. rewrite lookup_insert_ne by done. split_and!; [done..|by apply Ha].
Qed.

(** ** Rules *)

Lemma wp_fail_with {A : Type} v (r : A) (Q : A -> vst -> Prop) s ids : locks_free ids (host s) ->
  (forall h, locks_free ids h -> Q r (set_host h s)) -> wp (fail_with v r) Q s.
Proof. intros Hl HQ. unfold fail_with. wp_step. eapply (wp_update_exstatus ids); [done|]. intros h Hh. wp_steps. by apply HQ. Qed.

(** The entry of a number in the table. *)
Definition entry (t : list (option ptr)) (fd : Z) : option ptr :=
  if (fd <? FD_OFFSET) || (FD_MAX <=? fd) then None else mjoin (t !! Z.to_nat (fd - FD_OFFSET)).

Lemma entry_Some t fd d : entry t fd = Some d <-> FD_OFFSET <= fd < FD_MAX /\ t !! Z.to_nat (fd - FD_OFFSET) = Some (Some d).
Proof.
  unfold entry. destruct (Z.ltb_spec fd FD_OFFSET); cbn [orb]; [split; [done|lia]|].
  destruct (Z.leb_spec FD_MAX fd); [split; [done|lia]|]. destruct (t !! _) as [[?|]|]; cbn; naive_solver lia.
Qed.

Lemma wp_GetFileDescriptor fd (Q : option ptr -> vst -> Prop) s :
  length (fdtable s) = Z.to_nat (FD_MAX - FD_OFFSET) -> Q (entry (fdtable s) fd) s -> wp (GetFileDescriptor fd) Q s.
Proof.
  intros Hl. unfold GetFileDescriptor, entry, FD_MAX, FD_OFFSET in *. intros HQ.
  destruct (Z.ltb_spec fd 0); cbn [orb].
  { rewrite (proj2 (Z.ltb_lt fd 3)) in HQ by lia. by wp_steps. }
  destruct (Z.leb_spec 64 fd); [rewrite orb_true_r in HQ; by wp_steps|].
  destruct (Z.ltb_spec fd 3); cbn [orb] in HQ.
  - rewrite (proj2 (Z.ltb_lt (fd - 3) 0)) by lia. by wp_steps.
  - rewrite (proj2 (Z.ltb_ge (fd - 3) 0)) by lia. wp_steps.
    destruct (lookup_lt_is_Some_2 (fdtable s) (Z.to_nat (fd - 3)) ltac:(lia)) as [o E]. rewrite E in *. wp_steps. exact HQ.
Qed.

Lemma wp_mp_fs {A : Type} m (f : Filesystem S DS -> A) fs (Q : A -> vst -> Prop) s : fs_of s m fs -> Q (f fs) s -> wp (mp_fn m f) Q s.
Proof. intros (y & E1 & E2) HQ. by eapply wp_mp_fn. Qed.

Lemma wp_fd_fn {A : Type} d (f : Filesystem S DS -> A) x m fs (Q : A -> vst -> Prop) s :
  descriptors s !! d = Some x -> fd_mntp x = Some m -> fs_of s m fs -> Q (f fs) s -> wp (fd_fn d f) Q s.
Proof. intros E Em Hfs HQ. unfold fd_fn. wp_step. eapply wp_fd_get; [exact E|]. rewrite Em. wp_steps. by eapply wp_mp_fs. Qed.

Lemma wp_on_fd {A : Type} d (f : M (FileDescriptor * bst) A) x (Q : A -> vst -> Prop) s :
  descriptors s !! d = Some x -> wp f (fun v t => Q v (after_file s d t.1 t.2)) (x, vfs_bus s) -> wp (on_fd d f) Q s.
Proof. intros E. unfold wp, on_fd. rewrite E. destruct (f (x, vfs_bus s)) as [v [x' b]| |]; done. Qed.

Lemma wp_callback {A : Type} d (f : M (FileDescriptor * bst) A) x P (Q : A -> vst -> Prop) s :
  descriptors s !! d = Some x -> locks_free (vfs_locks s) (host s) -> fi_world FI (vfs_bus s) -> callback (vfs_locks s) x (vfs_bus s) f P ->
  (forall v x' b, same_file x x' -> locks_free (vfs_locks s) (bus_host b) -> advanced (vfs_bus s) b -> P v x' b ->
    f (x, vfs_bus s) = Ret v (x', b) -> Q v (after_file s d x' b)) ->
  wp (on_fd d f) Q s.
Proof.
  intros E Hl Hw Hf HQ. apply (wp_on_fd d f x); [done|]. destruct (wp_inv _ _ _ (Hf Hl Hw)) as (v & [x' b] & Er & Hx & Hb & Ha & HP).
  apply (wp_run _ _ _ v (x', b)); [done|]. by apply HQ.
Qed.

(** ** Calls on a descriptor *)

Lemma vo_entry s ML name ms fd d : vfs_ok s ML name ms -> entry (fdtable s) fd = Some d ->
  exists x m fs, descriptors s !! d = Some x /\ is_Some (fd_path x) /\ fd_mntp x = Some m /\ fi_file FI x (vfs_bus s) /\ m ∈ ms /\
    fs_of s m fs /\ fs_contract (vfs_locks s) m fs.
Proof.
  intros H [_ E]%entry_Some. destruct (vo_open _ _ _ _ H _ _ E) as (x & m & Ex & Hp & Hm & Hin & Hf).
  destruct (vo_fs _ _ _ _ H m Hin) as (fs & Hfs & Hc). by exists x, m, fs.
Qed.

(** What read, write, ioctl, fsync, ftruncate and lseek do with a number: none of them
    opens or closes a file. *)
Definition file_called s (fd : Z) (r : Z) s' : Prop :=
  match entry (fdtable s) fd with
  | None => r = -1 /\ exists h, locks_free (vfs_locks s) h /\ s' = set_host h s
  | Some d => exists x, descriptors s !! d = Some x /\ touched s d x s'
  end.

Lemma wp_bad_fd s ML name ms v {A : Type} (a : A) (Q : A -> vst -> Prop) : vfs_ok s ML name ms ->
  (forall h, locks_free (vfs_locks s) h -> Q a (set_host h s)) -> wp (fail_with v a) Q s.
Proof. intros H. apply wp_fail_with. by apply (vo_locks _ _ _ _ H). Qed.

Lemma wp_fd_call {A : Type} fd (f : Filesystem S DS -> option A) (g : A -> M (FileDescriptor * bst) Z) s ML name ms :
  vfs_ok s ML name ms -> (forall m fs a, fs_contract (vfs_locks s) m fs -> f fs = Some a -> fd_contract (vfs_locks s) m (g a)) ->
  wp (fd_call fd f (fun d a => on_fd d (g a))) (file_called s fd) s.
Proof.
  intros H Hg. unfold fd_call, file_called. wp_step. apply wp_GetFileDescriptor; [apply H|].
  destruct (entry (fdtable s) fd) as [d|] eqn:Ee; [|by eapply wp_bad_fd; eauto].
  destruct (vo_entry _ _ _ _ _ _ H Ee) as (x & m & fs & Ex & Hp & Hm & Hfi & Hin & Hfs & Hc).
  wp_step. eapply wp_fd_fn; [done..|]. pose proof (vo_locks _ _ _ _ H) as Hl. pose proof (vo_world _ _ _ _ H) as Hw. destruct (f fs) as [a|] eqn:Ea.
  - wp_step. eapply wp_callback; [exact Ex|done|done|by eapply Hg|]. intros v x' b Hs Hb Ha Hf' _.
    assert (touched s d x (after_file s d x' b)) as Ht by by exists x', b. cbn beta.
    destruct (Z.ltb_spec v 0); [|by wp_steps; exists x]. destruct (vfs_ok_touched _ _ _ _ _ _ _ H Ex Ht) as [H' _].
    eapply wp_bad_fd; [exact H'|]. intros h Hh. exists x. split; [done|]. by apply touched_host.
  - eapply wp_bad_fd; [exact H|]. intros h Hh. exists x. split; [done|]. apply touched_host; [|done]. by apply touched_refl.
Qed.

Lemma wp_lseek fd off whence s ML name ms : vfs_ok s ML name ms -> wp (lseek fd off whence) (file_called s fd) s.
Proof.
  intros H. unfold lseek, file_called. wp_step. apply wp_GetFileDescriptor; [apply H|].
  destruct (entry (fdtable s) fd) as [d|] eqn:Ee; [|by eapply wp_bad_fd; eauto].
  destruct (vo_entry _ _ _ _ _ _ H Ee) as (x & m & fs & Ex & Hp & Hm & Hfi & Hin & Hfs & Hc).
  wp_step. eapply wp_fd_fn; [done..|]. pose proof (vo_locks _ _ _ _ H) as Hl. pose proof (vo_world _ _ _ _ H) as Hw. destruct (fs_seek fs) as [f|] eqn:Ea.
  - wp_step. eapply wp_callback; [exact Ex|done|done|by eapply (fc_seek _ _ _ Hc)|]. intros [v off'] x' b Hs Hb Ha Hf' _.
    assert (touched s d x (after_file s d x' b)) as Ht by by exists x', b. cbn beta iota.
    destruct (Z.ltb_spec v 0); [|by wp_steps; exists x]. destruct (vfs_ok_touched _ _ _ _ _ _ _ H Ex Ht) as [H' _].
    eapply wp_bad_fd; [exact H'|]. intros h Hh. exists x. split; [done|]. by apply touched_host.
  - eapply wp_bad_fd; [exact H|]. intros h Hh. exists x. split; [done|]. apply touched_host; [|done]. by apply touched_refl.
Qed.

(** ** Opening and closing *)

Lemma wp_NewFileDescriptor mem s (Q : Z * option ptr -> vst -> Prop) :
  locks_free (vfs_locks s) (host s) ->
  (forall h, locks_free (vfs_locks s) h ->
    match free_entry (fdtable s), mem with
    | Some i, Some d =>
        Q (Z.of_nat i + FD_OFFSET, Some d)
          (set_fdtable (<[i := Some d]> (fdtable s)) (set_descriptors (<[d := mkFd None 0 None None 0]> (descriptors s)) (set_host h s)))
    | _, _ => Q (-1, None) (set_host h s)
    end) -> wp (NewFileDescriptor mem) Q s.
Proof.
  intros Hl HQ. unfold NewFileDescriptor. wp_steps. eapply (wp_with_lock (vfs_locks s)); [done|set_solver|].
  intros h. wp_steps. change (fdtable (set_host h s)) with (fdtable s).
  destruct (free_entry (fdtable s)) as [i|]; [destruct mem as [d|]|]; wp_steps; (split; [done|]); intros h' Hh'; exact (HQ h' Hh').
Qed.

Lemma wp_FreeFileDescriptor d i x s (Q : unit -> vst -> Prop) :
  locks_free (vfs_locks s) (host s) -> (forall j, fdtable s !! j = Some (Some d) -> j = i) -> fdtable s !! i = Some (Some d) -> descriptors s !! d = Some x -> is_Some (fd_path x) ->
  (forall h, locks_free (vfs_locks s) h -> Q tt (set_fdtable (<[i := None]> (fdtable s)) (set_descriptors (delete d (descriptors s)) (set_host h s)))) ->
  wp (FreeFileDescriptor d) Q s.
Proof.
  intros Hl Hd Hi Ex [p Ep] HQ. unfold FreeFileDescriptor. wp_steps. eapply (wp_with_lock (vfs_locks s)); [done|set_solver|].
  intros h. wp_steps. change (fdtable (set_host h s)) with (fdtable s).
  assert (list_find (fun o => o = Some d) (fdtable s) = Some (i, Some d)) as ->.
  { apply list_find_Some. split_and!; [done|done|]. intros j y Hj Hlt ->. pose proof (Hd j Hj). lia. }
  wp_step. unfold free_path. wp_step. apply (wp_fd_get d _ x); [done|]. rewrite Ep. wp_steps.
  unfold free_fd. wp_step. apply (wp_fd_get d _ x); [done|]. wp_steps. split; [done|]. intros h' Hh'. exact (HQ h' Hh').
Qed.

Lemma free_entry_Some t i : free_entry t = Some i <-> t !! i = Some None /\ forall j, (j < i)%nat -> exists d, t !! j = Some (Some d).
Proof.
  unfold free_entry. rewrite fmap_Some. split.
  - intros ((j & y) & (E1 & -> & E2)%list_find_Some & ->). split; [done|]. intros k Hk.
    destruct (t !! k) as [[d|]|] eqn:Ek; [by exists d|by destruct (E2 k _ Ek Hk)|].
    apply lookup_ge_None in Ek. apply lookup_lt_Some in E1. cbn in Hk. lia.
  - intros [E1 E2]. exists (i, None). split; [|done]. apply list_find_Some. split_and!; [done|done|].
    intros k y Ek Hk ->. destruct (E2 k Hk) as [d Ed]. congruence.
Qed.

(** The state with a new entry. *)
Definition opened s (i : nat) d x b : vst := set_fdtable (<[i := Some d]> (fdtable s)) (after_file s d x b).
Definition closed s (i : nat) d b : vst := set_fdtable (<[i := None]> (fdtable s)) (set_descriptors (delete d (descriptors s)) (set_vfs_bus b s)).

(** Fresh memory is in no entry. *)
Lemma fresh_entry s ML name ms d j : vfs_ok s ML name ms -> descriptors s !! d = None -> fdtable s !! j <> Some (Some d).
Proof. intros H E Hj. destruct (vo_open _ _ _ _ H j d Hj) as (y & m' & Ey & _). congruence. Qed.

Lemma opened_distinct s ML name ms i d x b j : vfs_ok s ML name ms -> descriptors s !! d = None ->
  fdtable (opened s i d x b) !! j = Some (Some d) -> j = i.
Proof.
  intros H E [(-> & _ & _)|[Hne Hj]]%list_lookup_insert_Some; [done|]. by apply (fresh_entry _ _ _ _ _ _ H E) in Hj.
Qed.

Lemma vfs_ok_opened s ML name ms i d x b m :
  vfs_ok s ML name ms -> free_entry (fdtable s) = Some i -> descriptors s !! d = None ->
  is_Some (fd_path x) -> fd_mntp x = Some m -> m ∈ ms -> fi_file FI x b -> locks_free (vfs_locks s) (bus_host b) -> advanced (vfs_bus s) b ->
  vfs_ok (opened s i d x b) ML name ms.
Proof.
  intros H [Hi _]%free_entry_Some Hfresh Hp Hm Hin Hf Hl Ha. pose proof H as [[? ? ? ?] ? ? ? Hlen Ho Hd ?].
  split; [done|done|apply Ha|done| | | |done]; cbn.
  - by rewrite length_insert.
  - intros j d' [(-> & [= ->] & _)|[Hne Hj]]%list_lookup_insert_Some; [exists x, m; by rewrite lookup_insert_eq|].
    destruct (Ho j d' Hj) as (y & m' & Ey & Hr & Hm' & Hin' & Hy). exists y, m'. rewrite lookup_insert_ne by congruence.
    split_and!; [done..|by apply Ha].
  - intros j1 j2 d' [(-> & [= ->] & _)|[Hne1 Hj1]]%list_lookup_insert_Some [(-> & E & _)|[Hne2 Hj2]]%list_lookup_insert_Some; [done| | |by eapply Hd].
    + by destruct (fresh_entry _ _ _ _ _ _ H Hfresh Hj2).
    + injection E as <-. by destruct (fresh_entry _ _ _ _ _ _ H Hfresh Hj1).
Qed.

Lemma vfs_ok_closed s ML name ms i d b :
  vfs_ok s ML name ms -> fdtable s !! i = Some (Some d) -> locks_free (vfs_locks s) (bus_host b) -> advanced (vfs_bus s) b ->
  vfs_ok (closed s i d b) ML name ms.
Proof.
  intros [[? ? ? ?] ? ? ? Hlen Ho Hd ?] Hi Hl Ha. split; [done|done|apply Ha|done| | | |done]; cbn.
  - by rewrite length_insert.
  - intros j d' [(-> & E & _)|[Hne Hj]]%list_lookup_insert_Some; [done|]. destruct (Ho j d' Hj) as (y & m' & Ey & Hr & Hm' & Hin' & Hy).
    exists y, m'. rewrite lookup_delete_ne; [split_and!; [done..|by apply Ha]|]. intros ->. destruct Hne. by eapply Hd.
  - intros j1 j2 d' [(-> & E & _)|[Hne1 Hj1]]%list_lookup_insert_Some; [done|]. intros [(-> & E & _)|[Hne2 Hj2]]%list_lookup_insert_Some; [done|]. by eapply Hd.
Qed.

(** The words of a path, and what it resolves to. *)
Definition resolvable s (p : string) : Prop :=
  no_nul (chars p) /\ existsb hidden (components (full_path (working_dir s) p)) = false.
Definition resolved s (p : string) : string := path_of (resolve [] (components (full_path (working_dir s) p))).

Lemma wp_locate s ML name ms ids p (Q : option string * option (ptr * string) -> vst -> Prop) :
  mounts s ML name ms -> locks_free ids (host s) -> mnt_list_lock s ∈ ids ->
  absolute (working_dir s) /\ no_nul (chars (working_dir s)) -> resolvable s p ->
  (forall r h, best_mount (resolved s p) name ms r -> locks_free ids h ->
    Q (Some (resolved s p), (fun m => (m, GetRelativePath (name m) (resolved s p))) <$> r) (set_host h s)) ->
  wp (locate (mkPathMem true true) (Some p)) Q s.
Proof.
  intros H Hl Hid [Ha Hn] [Hp Hh] HQ. unfold locate. do 3 wp_step. apply (wp_run _ _ _ (Some (resolved s p)) s).
  { cbn [tmp_ok abs_ok]. rewrite GetAbsolutePath_eq by done. cbn [andb negb]. cbn zeta. by rewrite Hh. }
  wp_step. apply (wp_GetMountPoint ids _ s ML name ms); [done..|]. intros r h Hr Hf. specialize (HQ r h Hr Hf).
  destruct r as [m|]; [|by wp_steps]. destruct Hr as (Hin & _).
  destruct (mo_point _ _ _ _ (mounts_host h _ _ _ _ H) m Hin) as (y & Ey & En & _).
  wp_step. eapply wp_mp_get; [exact Ey|]. rewrite En. by wp_steps.
Qed.

Lemma wp_fill_fd d type m path x s (Q : unit -> vst -> Prop) :
  descriptors s !! d = Some x ->
  Q tt (set_descriptors (<[d := mkFd (Some path) type (fd_data x) (Some m) 0]> (descriptors s)) s) -> wp (fill_fd d type m path) Q s.
Proof.
  intros E HQ. unfold fill_fd. wp_step. eapply wp_fd_set; [exact E|].
  do 3 (wp_step || idtac; eapply wp_fd_set; [apply lookup_insert_eq|]; cbn [descriptors set_descriptors]; rewrite ?insert_insert_eq).
  exact HQ.
Qed.

(** The calls that open makes for the flags; their results are dropped. *)
Lemma wp_open_flags fd flags s ML name ms d x (Q : unit -> vst -> Prop) :
  vfs_ok s ML name ms -> entry (fdtable s) fd = Some d -> descriptors s !! d = Some x ->
  (forall s', touched s d x s' -> Q tt s') -> wp (open_flags fd flags) Q s.
Proof.
  intros H Ee Ex HQ. unfold open_flags. wp_step. pose proof (vo_locks _ _ _ _ H) as Hl. pose proof (vo_world _ _ _ _ H) as Hw.
  destruct (vo_entry _ _ _ _ _ _ H Ee) as (x0 & m & fs & Ex0 & _ & _ & Hf & _). rewrite Ex in Ex0. injection Ex0 as <-.
  assert (wp (if negb (Z.land flags O_TRUNC =? 0) then ftruncate fd 0;; mret tt else mret tt) (fun _ s' => touched s d x s') s) as Ht.
  { destruct (Z.land flags O_TRUNC =? 0); cbn [negb]; [wp_step; by apply touched_refl|]. wp_step.
    eapply wp_mono; [eapply (wp_fd_call fd fs_truncate (fun f => f 0)); [exact H|]|].
    - intros m' fs' a Hc Ea. by eapply (fc_truncate _ _ _ Hc).
    - intros r s' Hs. unfold file_called in Hs. rewrite Ee in Hs. destruct Hs as (x' & Ex' & Ht). wp_step. congruence. }
  eapply wp_mono; [exact Ht|]. intros [] s1 H1. destruct (vfs_ok_touched _ _ _ _ _ _ _ H Ex H1) as [Hok (x1 & Ex1 & _)]. cbn beta.
  assert (fdtable s1 = fdtable s) as Et by by destruct H1 as (? & ? & _ & _ & _ & _ & ->).
  destruct (Z.land flags O_APPEND =? 0); cbn [negb]; [wp_step; by apply HQ|]; wp_step.
  eapply wp_mono; [by eapply wp_lseek|]. intros r s' Hs. unfold file_called in Hs. rewrite Et, Ee in Hs. destruct Hs as (x' & Ex' & H2).
  wp_step. apply HQ. eapply touched_trans; [exact H1|exact Ex'|exact H2].
Qed.

(** The descriptor that the open function of a file system gets. *)
Definition new_file (path : string) (m : ptr) : FileDescriptor := mkFd (Some (Some path)) FTYPE_FILE None (Some m) 0.

(** What the open function [f] of the file system of [m] makes of a call of open that
    takes the entry [i] and the memory [d]. *)
Definition open_outcome s (f : option (string -> M (FileDescriptor * bst) Z)) path rel m (i : nat) d flags (fd : Z) s' : Prop :=
  match f with
  | None => fd = -1 /\ exists h, s' = set_host h s
  | Some f => exists h v x b, locks_free (vfs_locks s) h /\ locks_free (vfs_locks s) (bus_host b) /\ advanced (vfs_bus s) b /\
      same_file (new_file path m) x /\ (0 <= v -> fi_file FI x b) /\
      f rel (new_file path m, set_bus_host h (vfs_bus s)) = Ret v (x, b) /\
      if v <? 0 then fd = -1 /\ exists h', s' = set_host h' (set_vfs_bus b s)
      else fd = Z.of_nat i + FD_OFFSET /\ touched (opened s i d x b) d x s' /\
           (Z.land flags (Z.lor O_TRUNC O_APPEND) = 0 -> s' = opened s i d x b)
  end.

Lemma entry_opened s i d x b : free_entry (fdtable s) = Some i -> length (fdtable s) = Z.to_nat (FD_MAX - FD_OFFSET) ->
  entry (fdtable (opened s i d x b)) (Z.of_nat i + FD_OFFSET) = Some d.
Proof.
  intros [Hi _]%free_entry_Some Hlen. apply lookup_lt_Some in Hi as Hlt. apply entry_Some. unfold FD_MAX, FD_OFFSET in *. split; [lia|].
  replace (Z.to_nat (Z.of_nat i + 3 - 3)) with i by lia. cbn. by rewrite list_lookup_insert_eq.
Qed.

Lemma closed_opened s i d x b h : fdtable s !! i = Some None -> descriptors s !! d = None ->
  closed (opened s i d x b) i d (set_bus_host h b) = set_host h (set_vfs_bus b s).
Proof.
  intros Hi Hd. unfold closed, opened, after_file, set_fdtable, set_descriptors, set_host. cbn.
  rewrite list_insert_insert_eq, (list_insert_id _ i), delete_insert_id by done. by destruct s.
Qed.

Lemma land_lor_zero a p q : Z.land a (Z.lor p q) = 0 -> Z.land a p = 0 /\ Z.land a q = 0.
Proof. rewrite Z.land_lor_distr_r. by intros [? ?]%Z.lor_eq_0_iff. Qed.

(** The rest of open, from the state with the new entry on. *)
Lemma wp_open_fail s ML name ms i d x b v :
  vfs_ok s ML name ms -> fdtable s !! i = Some None -> descriptors s !! d = None -> is_Some (fd_path x) -> locks_free (vfs_locks s) (bus_host b) ->
  wp (FreeFileDescriptor d;; fail_with v (-1)) (fun fd s' => fd = -1 /\ exists h, s' = set_host h (set_vfs_bus b s)) (opened s i d x b).
Proof.
  intros H Hi Hd Hp Hl. wp_step. eapply (wp_FreeFileDescriptor d i x); [exact Hl| | |apply lookup_insert_eq|done|].
  { intros j. by eapply opened_distinct. }
  { cbn. apply list_lookup_insert_eq. by apply lookup_lt_Some in Hi. }
  intros h Hh. change (set_fdtable _ _) with (closed (opened s i d x b) i d (set_bus_host h b)). rewrite closed_opened by done.
  eapply (wp_fail_with _ _ _ _ (vfs_locks s)); [exact Hh|]. intros h' _. split; [done|]. by exists h'.
Qed.

(** The rest of open once the file system has answered [v]. *)
Lemma wp_open_answered s ML name ms i d x b v flags :
  vfs_ok s ML name ms -> free_entry (fdtable s) = Some i -> descriptors s !! d = None -> is_Some (fd_path x) ->
  locks_free (vfs_locks s) (bus_host b) -> (0 <= v -> vfs_ok (opened s i d x b) ML name ms) ->
  wp (a ← ((if v <? 0 then mret () else open_flags (Z.of_nat i + FD_OFFSET) flags);; mret v);
      if a <? 0 then FreeFileDescriptor d;; fail_with a (-1) else mret (Z.of_nat i + FD_OFFSET))
    (fun fd s' => if v <? 0 then fd = -1 /\ exists h', s' = set_host h' (set_vfs_bus b s)
      else fd = Z.of_nat i + FD_OFFSET /\ touched (opened s i d x b) d x s' /\
           (Z.land flags (Z.lor O_TRUNC O_APPEND) = 0 -> s' = opened s i d x b)) (opened s i d x b).
Proof.
  intros H Hi Hd Hp Hl Hok. do 2 wp_step. destruct (Z.ltb_spec v 0) as [Hv|Hv].
  - do 2 wp_step. rewrite (proj2 (Z.ltb_lt v 0)) by done. eapply wp_open_fail; [exact H|by apply free_entry_Some in Hi as [Hi _]|done..].
  - specialize (Hok Hv). assert (entry (fdtable (opened s i d x b)) (Z.of_nat i + FD_OFFSET) = Some d) as Ee.
    { apply entry_opened; [done|by apply (vo_length _ _ _ _ H)]. }
    destruct (vo_entry _ _ _ _ _ _ Hok Ee) as (x0 & m & fs & Ex & _ & _ & Hf & _).
    assert (descriptors (opened s i d x b) !! d = Some x) as Ed by apply lookup_insert_eq. rewrite Ed in Ex. injection Ex as <-.
    destruct (decide (Z.land flags (Z.lor O_TRUNC O_APPEND) = 0)) as [Hz|Hz].
    + destruct (land_lor_zero _ _ _ Hz) as [E1 E2]. unfold open_flags. rewrite E1, E2. cbn [Z.eqb negb]. wp_steps.
      rewrite (proj2 (Z.ltb_ge v 0)) by done. wp_steps. split_and!; [done| |done].
      apply touched_refl; [by apply (vo_locks _ _ _ _ Hok)|by apply (vo_world _ _ _ _ Hok)|done|apply lookup_insert_eq].
    + eapply wp_open_flags; [exact Hok|exact Ee|apply lookup_insert_eq|].
      intros s' Ht. wp_steps. rewrite (proj2 (Z.ltb_ge v 0)) by done. wp_steps. split_and!; [done|done|by intros ?].
Qed.

Lemma wp_open s ML name ms d p flags i (Q : Z -> vst -> Prop) :
  vfs_ok s ML name ms -> resolvable s p -> free_entry (fdtable s) = Some i -> descriptors s !! d = None ->
  (exists m, m ∈ ms /\ covers (resolved s p) (name m) = true) ->
  (forall m, best_mount (resolved s p) name ms (Some m) -> fi_path FI m (GetRelativePath (name m) (resolved s p)) (vfs_bus s)) ->
  (forall m fs fd s', best_mount (resolved s p) name ms (Some m) -> fs_of s m fs -> fs_contract (vfs_locks s) m fs ->
    open_outcome s (fs_open fs) (resolved s p) (GetRelativePath (name m) (resolved s p)) m i d flags fd s' -> Q fd s') ->
  wp (open (Some d) (mkPathMem true true) true (Some p) flags) Q s.
Proof.
  intros H Hres Hi Hd (m0 & Hm0 & Hc0) Hpath HQ. pose proof (vo_length _ _ _ _ H) as Hlen. pose proof Hi as [Hnone _]%free_entry_Some.
  pose proof (vo_world _ _ _ _ H) as Hw.
  unfold open. wp_step. apply wp_NewFileDescriptor; [by apply (vo_locks _ _ _ _ H)|]. intros h Hh. rewrite Hi. cbn beta iota.
  rewrite (proj2 (Z.ltb_ge (Z.of_nat i + FD_OFFSET) 0)) by (unfold FD_OFFSET; lia). wp_steps.
  eapply (wp_locate _ ML name ms (vfs_locks s)); [destruct H as [[? ? ? ?]]; by split|exact Hh|set_solver|by apply (vo_dir _ _ _ _ H)|exact Hres|].
  intros r h2 Hr Hh2. change (resolved (set_fdtable _ _) p) with (resolved s p) in *. set (path := resolved s p) in *.
  destruct r as [m|]; [|by rewrite (Hr m0 Hm0) in Hc0]. cbn [fmap option_fmap option_map]. wp_steps.
  destruct (vo_fs _ _ _ _ H m ltac:(apply Hr)) as (fs & Hfs & Hc). specialize (HQ m fs). specialize (Hpath m Hr).
  eapply wp_fill_fd; [apply lookup_insert_eq|]. cbn [descriptors set_descriptors set_host set_fdtable set_vfs_bus vfs_hosts].
  rewrite insert_insert_eq. cbn [fd_data]. change (mkFd (Some (Some path)) FTYPE_FILE None (Some m) 0) with (new_file path m).
  change (set_descriptors _ _) with (opened s i d (new_file path m) (set_bus_host h2 (vfs_bus s))).
  cbn [negb]. wp_steps. eapply wp_mp_fs; [exact Hfs|]. unfold open_outcome in HQ. destruct (fs_open fs) as [f|] eqn:Ef.
  - wp_step. eapply wp_callback; [apply lookup_insert_eq|exact Hh2|by apply fi_world_host|eapply (fc_open _ _ _ Hc); [done|done|by apply fi_path_host]|].
    intros v x b Hx Hb Ha Hv Er. unfold after_file. cbn [descriptors opened set_fdtable set_descriptors].
    change (set_descriptors _ _) with (set_descriptors (<[d := x]> (<[d := new_file path m]> (descriptors s))) (set_vfs_bus b (opened s i d (new_file path m) (set_bus_host h2 (vfs_bus s))))).
    rewrite insert_insert_eq. change (set_descriptors _ _) with (opened s i d x b).
    assert (advanced (vfs_bus s) b) as Ha' by (eapply advanced_trans; [by apply (advanced_host _ h2)|exact Ha]). pose proof Hx as (Ep & Et & Em).
    apply wp_unbind. eapply wp_mono; [eapply (wp_open_answered s ML name ms i d x b v flags); [exact H|done|done|by rewrite Ep|done|]|].
    + intros Hpos. eapply vfs_ok_opened; [exact H|done|done|by rewrite Ep|by rewrite Em|apply Hr|by apply Hv|done|done].
    + intros fd s' Hpost. apply HQ; [done..|]. by exists h2, v, x, b.
  - wp_steps. change (- EINVAL <? 0) with true. eapply wp_mono; [eapply wp_open_fail; [exact H|done|done|by eexists|exact Hh2]|].
    intros fd s' [-> [h' ->]]. apply HQ; [done..|]. split; [done|]. by exists h'.
Qed.

(** What close makes of the number [fd]. *)
Definition close_outcome s (fd r : Z) s' : Prop :=
  match entry (fdtable s) fd with
  | None => r = -1 /\ exists h, s' = set_host h s
  | Some d => exists x m fs, descriptors s !! d = Some x /\ fd_mntp x = Some m /\ fs_of s m fs /\
      match fs_close fs with
      | None => r = -1 /\ exists h, s' = set_host h s
      | Some f => exists v x' b h, advanced (vfs_bus s) b /\ f (x, vfs_bus s) = Ret v (x', b) /\
          if v <? 0 then r = -1 /\ s' = set_host h (after_file s d x' b)
          else r = 0 /\ s' = set_host h (closed s (Z.to_nat (fd - FD_OFFSET)) d b)
      end
  end.

Lemma closed_after s i d x b h : closed (after_file s d x b) i d (set_bus_host h b) = set_host h (closed s i d b).
Proof. unfold closed, after_file, set_fdtable, set_descriptors, set_host. cbn. by rewrite delete_insert_eq. Qed.

Lemma wp_close_file fd s ML name ms : vfs_ok s ML name ms -> wp (close fd) (fun r s' => close_outcome s fd r s' /\ vfs_ok s' ML name ms) s.
Proof.
  intros H. unfold close, close_outcome. wp_step. apply wp_GetFileDescriptor; [apply H|].
  assert (forall h, locks_free (vfs_locks s) h -> vfs_ok (set_host h s) ML name ms) as Hh by (intros h; by apply vfs_ok_host).
  destruct (entry (fdtable s) fd) as [d|] eqn:Ee; [|by eapply wp_bad_fd; eauto].
  destruct (vo_entry _ _ _ _ _ _ H Ee) as (x & m & fs & Ex & Hp & Hm & Hfi & Hin & Hfs & Hc). pose proof Ee as [_ Hi]%entry_Some.
  wp_step. eapply wp_fd_fn; [done..|]. pose proof (vo_locks _ _ _ _ H) as Hl. pose proof (vo_world _ _ _ _ H) as Hw. destruct (fs_close fs) as [f|] eqn:Ef.
  - wp_step. eapply wp_callback; [exact Ex|done|done|by eapply (fc_close _ _ _ Hc)|]. intros v x' b Hs Hb Ha Hf' Er. cbn beta.
    destruct (Z.ltb_spec v 0) as [Hv|Hv].
    + assert (touched s d x (after_file s d x' b)) as Ht by (exists x', b; auto 6).
      destruct (vfs_ok_touched _ _ _ _ _ _ _ H Ex Ht) as [H' _].
      eapply wp_bad_fd; [exact H'|]. intros h Hf. split; [|by apply vfs_ok_host].
      exists x, m, fs. split_and!; [done..|]. rewrite Ef. exists v, x', b, h. by rewrite (proj2 (Z.ltb_lt v 0)).
    + wp_step. eapply (wp_FreeFileDescriptor d _ x'); [exact Hb| |exact Hi|apply lookup_insert_eq|by rewrite (proj1 Hs)|].
      { intros j Hj. by apply (vo_distinct _ _ _ _ H j _ d). }
      intros h Hf. wp_steps.
      change (set_fdtable _ _) with (closed (after_file s d x' b) (Z.to_nat (fd - FD_OFFSET)) d (set_bus_host h b)). rewrite closed_after. split.
      * exists x, m, fs. split_and!; [done..|]. rewrite Ef. exists v, x', b, h. by rewrite (proj2 (Z.ltb_ge v 0)).
      * apply vfs_ok_host; [|done]. by apply vfs_ok_closed.
  - eapply wp_bad_fd; [exact H|]. intros h Hf. split; [|by apply Hh].
    exists x, m, fs. split_and!; [done..|]. rewrite Ef. split; [done|by exists h].
Qed.

(** C16: open.  A path that resolves below some mount point is opened by the file system
    of the longest one, with the rest of the path, in the least free entry; a file system
    without open function or one that refuses leaves the table and the descriptors as
    they were, and open returns -1. *)
Theorem open_correct s ML name ms d p flags i :
  vfs_ok s ML name ms -> resolvable s p -> free_entry (fdtable s) = Some i -> descriptors s !! d = None ->
  (exists m, m ∈ ms /\ covers (resolved s p) (name m) = true) ->
  (forall m, best_mount (resolved s p) name ms (Some m) -> fi_path FI m (GetRelativePath (name m) (resolved s p)) (vfs_bus s)) ->
  wp (open (Some d) (mkPathMem true true) true (Some p) flags) (fun fd s' => exists m fs,
    best_mount (resolved s p) name ms (Some m) /\ fs_of s m fs /\
    open_outcome s (fs_open fs) (resolved s p) (GetRelativePath (name m) (resolved s p)) m i d flags fd s') s.
Proof. intros H Hr Hi Hd Hm Hp. eapply wp_open; [done..|]. intros m fs fd s' Hb Hfs _ Ho. by exists m, fs. Qed.

(** Close.  A number that is not in the table gives -1; otherwise the close function
    of the file's system decides: when it is missing or refuses, the file stays open,
    else the entry and the descriptor are free again. *)
Theorem close_correct fd s ML name ms :
  vfs_ok s ML name ms -> wp (close fd) (fun r s' => close_outcome s fd r s' /\ vfs_ok s' ML name ms) s.
Proof. apply wp_close_file. Qed.

End Descriptors.
