(* ===== verification/FileTable.v ===== *)
(** * Histories of calls on files

    When no file system refuses to open or close, every history of opens, closes,
    reads, writes, seeks, truncations, syncs and device controls behaves as a table of
    resolved paths: open takes the least free entry, close frees it, the other calls
    leave the table alone, and a number that is not open gives -1. *)

From S2P Require Import Prelude DoubleLink Kernel Services Bus Path Vfs VfsInv Descriptors.
From Stdlib Require Import Ascii.

(** ** The specification *)

Inductive file_op : Type :=
| OpOpen (d : ptr) (path : string) (flags : Z)
| OpClose (fd : Z)
| OpRead (fd buf len : Z)
| OpWrite (fd buf len : Z)
| OpSeek (fd offset whence : Z)
| OpTruncate (fd len : Z)
| OpSync (fd : Z)
| OpIoctl (fd cmd args : Z).

(** The memory and the path of the files, by entry. *)
Abbreviation table := (list (option (ptr * string))).

Definition entries_of (t : table) : list (option ptr) := (fun e : option (ptr * string) => option_map fst e) <$> t.

Definition file_at (t : table) (fd : Z) : option (ptr * string) :=
  if (fd <? FD_OFFSET) || (FD_MAX <=? fd) then None else mjoin (t !! Z.to_nat (fd - FD_OFFSET)).

(** The number of a call that neither opens nor closes. *)
Definition op_fd (o : file_op) : option Z :=
  match o with
  | OpOpen _ _ _ | OpClose _ => None
  | OpRead fd _ _ | OpWrite fd _ _ | OpSeek fd _ _ | OpTruncate fd _ | OpSync fd | OpIoctl fd _ _ => Some fd
  end.

(** The table after a call and its answer; [None] stands for an answer of the file system. *)
Definition table_step (wd : string) (o : file_op) (t : table) : table * option Z :=
  match o with
  | OpOpen d p _ =>
      match free_entry (entries_of t) with
      | Some i => (<[i := Some (d, path_of (resolve [] (components (full_path wd p))))]> t, Some (Z.of_nat i + FD_OFFSET))
      | None => (t, Some (-1))
      end
  | OpClose fd => match file_at t fd with Some _ => (<[Z.to_nat (fd - FD_OFFSET) := None]> t, Some 0) | None => (t, Some (-1)) end
  | _ => (t, match op_fd o with Some fd => match file_at t fd with Some _ => None | None => Some (-1) end | None => None end)
  end.

(** What a call asks for: memory that is not in use, and a path without hidden words
    that resolves below some mount point to one of [paths]. *)
Definition op_ok (wd : string) (pool : list ptr) (names paths : list string) (o : file_op) (t : table) : Prop :=
  match o with
  | OpOpen d p _ =>
      d ∈ pool /\ (forall q, Some (d, q) ∉ t) /\ no_nul (chars p) /\ existsb hidden (components (full_path wd p)) = false /\
      path_of (resolve [] (components (full_path wd p))) ∈ paths /\ exists nm, nm ∈ names /\ covers (path_of (resolve [] (components (full_path wd p)))) nm = true
  | _ => True
  end.

Inductive file_run (wd : string) (pool : list ptr) (names paths : list string) : list file_op -> table -> list (option Z) -> table -> Prop :=
| run_nil t : file_run wd pool names paths [] t [] t
| run_cons o os t rs t' : op_ok wd pool names paths o t ->
    file_run wd pool names paths os (table_step wd o t).1 rs t' ->
    file_run wd pool names paths (o :: os) t ((table_step wd o t).2 :: rs) t'.

(** An answer is as expected. *)
Definition answers (e : option Z) (r : Z) : Prop := match e with Some v => r = v | None => True end.

Section FileTable.
Context {S DS : Type} `{C : KConfig} `{SV : Services S} {SL : ServicesLaws S}.
Abbreviation vst := (vfs_state S DS).
Abbreviation bst := (bus_state S DS).
Implicit Types (s : vst) (ML : gmap mlink (list mlink)) (ms : list ptr) (name : ptr -> string) (x : FileDescriptor) (b : bst) (t : table).

Definition run_file_op (o : file_op) : M vst Z :=
  match o with
  | OpOpen d p flags => open (Some d) (mkPathMem true true) true (Some p) flags
  | OpClose fd => close fd
  | OpRead fd buf len => read fd buf len
  | OpWrite fd buf len => write fd buf len
  | OpSeek fd offset whence => lseek fd offset whence
  | OpTruncate fd len => ftruncate fd len
  | OpSync fd => fsync fd
  | OpIoctl fd cmd args => ioctl fd cmd args
  end.
Fixpoint run_file_ops (os : list file_op) : M vst (list Z) :=
  match os with
  | [] => mret []
  | o :: os => r ← run_file_op o; rs ← run_file_ops os; mret (r :: rs)
  end.

(** ** The refinement *)

(** A file system that neither refuses to open nor to close. *)
Context (FI : files_inv (S := S) (DS := DS)).
Definition willing (m : ptr) (fs : Filesystem S DS) : Prop :=
  (exists f, fs_open fs = Some f /\ forall rel x b v z, fi_world FI b -> fi_path FI m rel b -> fd_mntp x = Some m -> f rel (x, b) = Ret v z -> 0 <= v) /\
  (exists f, fs_close fs = Some f /\ forall x b v z, fi_world FI b -> fi_file FI x b -> fd_mntp x = Some m -> f (x, b) = Ret v z -> 0 <= v).

Record files_ok s ML name ms (pool : list ptr) (paths : list string) (wd : string) t : Prop := {
  fo_ok : vfs_ok FI s ML name ms;
  fo_willing : forall m fs, m ∈ ms -> fs_of s m fs -> willing m fs;
  fo_dir : working_dir s = wd;
  fo_table : fdtable s = entries_of t;
  fo_files : forall d p, Some (d, p) ∈ t -> exists x, descriptors s !! d = Some x /\ fd_path x = Some (Some p) /\ fd_type x = FTYPE_FILE;
  fo_pool : forall d, d ∈ pool -> (forall p, Some (d, p) ∉ t) -> descriptors s !! d = None;
  fo_paths : forall p m, p ∈ paths -> best_mount p name ms (Some m) -> fi_path FI m (GetRelativePath (name m) p) (vfs_bus s);
}.

Lemma entry_file_at t fd : entry (entries_of t) fd = fst <$> file_at t fd.
Proof.
  unfold entry, file_at, entries_of. destruct (_ || _); [done|]. rewrite list_lookup_fmap. by destruct (t !! _) as [[?|]|].
Qed.

Lemma files_ok_touched s ML name ms pool paths wd t d x s' :
  files_ok s ML name ms pool paths wd t -> descriptors s !! d = Some x -> touched FI s d x s' -> files_ok s' ML name ms pool paths wd t.
Proof.
  intros [Hok Hw Hd Ht Hp Hf Hpaths] Ex Hs. destruct (vfs_ok_touched _ _ _ _ _ _ _ _ Hok Ex Hs) as [Hok' _].
  destruct Hs as (x' & b & (E1 & E2 & E3) & Hl & Ha & Hfi & ->). split; [done..| | |]; cbn.
  - intros d' p Hin. destruct (Hp d' p Hin) as (y & Ey & Hy). destruct (decide (d' = d)) as [->|Hne].
    + rewrite Ex in Ey. injection Ey as <-. exists x'. rewrite lookup_insert_eq. by rewrite E1, E2.
    + exists y. by rewrite lookup_insert_ne.
  - intros d' Hin Hno. rewrite lookup_insert_ne; [by apply Hf|]. intros <-. rewrite (Hf d Hin Hno) in Ex. done.
  - intros p m Hin Hm. apply Ha. by apply Hpaths.
Qed.

Lemma files_ok_host s ML name ms pool paths wd t h :
  files_ok s ML name ms pool paths wd t -> locks_free (vfs_locks s) h -> files_ok (set_host h s) ML name ms pool paths wd t.
Proof.
  intros [Hok ? ? ? ? ? Hp] Hl. split; [by apply vfs_ok_host|done..|]. intros p m Hin Hm. apply fi_path_host. by apply Hp.
Qed.

(** The calls that leave the table alone. *)
Lemma wp_call_step s ML name ms pool paths wd t o fd :
  files_ok s ML name ms pool paths wd t -> op_fd o = Some fd -> wp (run_file_op o) (file_called FI s fd) s ->
  wp (run_file_op o) (fun r s' => answers (table_step wd o t).2 r /\ files_ok s' ML name ms pool paths wd (table_step wd o t).1) s.
Proof.
  intros H Ho Hrun. eapply wp_mono; [exact Hrun|]. intros r s' Hs. unfold file_called in Hs.
  assert (table_step wd o t = (t, match file_at t fd with Some _ => None | None => Some (-1) end)) as ->.
  { destruct o; try done; cbn in Ho; injection Ho as <-; reflexivity. }
  rewrite (fo_table _ _ _ _ _ _ _ _ H), entry_file_at in Hs. cbn [fst snd]. destruct (file_at t fd) as [[d p]|]; cbn in Hs.
  - destruct Hs as (x & Ex & Ht). split; [done|]. by eapply files_ok_touched.
  - destruct Hs as (-> & h & Hh & ->). split; [done|]. by apply files_ok_host.
Qed.

Lemma memory_lookup t i d : entries_of t !! i = Some (Some d) <-> exists p, t !! i = Some (Some (d, p)).
Proof. unfold entries_of. rewrite list_lookup_fmap. destruct (t !! i) as [[[d' p']|]|]; cbn; naive_solver. Qed.

(** The only entry with the memory of a file. *)
Lemma files_distinct s ML name ms pool paths wd t i j d p q : files_ok s ML name ms pool paths wd t ->
  t !! i = Some (Some (d, p)) -> t !! j = Some (Some (d, q)) -> i = j.
Proof.
  intros H Hi Hj. apply (vo_distinct _ _ _ _ _ (fo_ok _ _ _ _ _ _ _ _ H) i j d); rewrite (fo_table _ _ _ _ _ _ _ _ H); apply memory_lookup; eauto.
Qed.

Lemma files_ok_opened s ML name ms pool paths wd t i d p m x b :
  files_ok s ML name ms pool paths wd t -> free_entry (entries_of t) = Some i -> (forall q, Some (d, q) ∉ t) -> d ∈ pool -> m ∈ ms ->
  same_file (new_file p m) x -> fi_file FI x b -> locks_free (vfs_locks s) (bus_host b) -> advanced FI (vfs_bus s) b ->
  files_ok (opened s i d x b) ML name ms pool paths wd (<[i := Some (d, p)]> t).
Proof.
  intros H Hi Hno Hd Hm (E1 & E2 & E3) Hfi Hl Ha. pose proof H as [Hok Hw Hdir Ht Hp Hf Hpaths]. cbn in E1, E2, E3. split; cbn; [|done|done| | | |].
  - eapply vfs_ok_opened; [exact Hok|by rewrite Ht|by apply Hf|by rewrite E1|by rewrite E3|done|done|done|done].
  - rewrite Ht. unfold entries_of. by rewrite list_fmap_insert.
  - intros d' q Hin. apply list_elem_of_lookup in Hin as (j & [(-> & [= -> ->] & _)|[Hne Hj]]%list_lookup_insert_Some).
    + exists x. by rewrite lookup_insert_eq.
    + destruct (Hp d' q ltac:(by eapply list_elem_of_lookup_2)) as (y & Ey & Hy). exists y. split; [|done].
      rewrite lookup_insert_ne; [done|]. intros <-. apply (Hno q). by eapply list_elem_of_lookup_2.
  - intros d' Hin Hno'. assert (d' <> d) as Hne.
    { intros ->. apply (Hno' p). apply list_elem_of_lookup. exists i. apply list_lookup_insert_eq.
      apply free_entry_Some in Hi as [Hi _]. apply lookup_lt_Some in Hi. unfold entries_of in Hi. by rewrite length_fmap in Hi. }
    rewrite lookup_insert_ne by done. apply Hf; [done|]. intros q Hq. apply (Hno' q).
    apply list_elem_of_lookup in Hq as [j Hj]. apply list_elem_of_lookup. exists j. rewrite list_lookup_insert_ne; [done|].
    intros <-. apply free_entry_Some in Hi as [Hi _]. unfold entries_of in Hi. rewrite list_lookup_fmap, Hj in Hi. done.
  - intros q m' Hin Hm'. apply Ha. by apply Hpaths.
Qed.

Lemma wp_open_step s ML name ms pool paths wd t d p flags : files_ok s ML name ms pool paths wd t -> op_ok wd pool (name <$> ms) paths (OpOpen d p flags) t ->
  wp (open (Some d) (mkPathMem true true) true (Some p) flags)
    (fun r s' => answers (table_step wd (OpOpen d p flags) t).2 r /\ files_ok s' ML name ms pool paths wd (table_step wd (OpOpen d p flags) t).1) s.
Proof.
  intros H (Hd & Hno & Hp & Hh & Hpath & nm & (m0 & -> & Hm0)%list_elem_of_fmap & Hc). pose proof H as [Hok Hw Hdir Ht _ Hf Hpaths]. cbn [table_step].
  destruct (free_entry (entries_of t)) as [i|] eqn:Ei; cbn [fst snd answers].
  - eapply wp_open; [exact Hok|by split; [|rewrite Hdir]|by rewrite Ht|by apply Hf|by exists m0; unfold resolved; rewrite Hdir| |].
    { unfold resolved. rewrite Hdir. intros m Hm. by apply Hpaths. }
    unfold resolved. rewrite Hdir. intros m fs fd s' Hbest Hfs _ Ho. pose proof Hbest as (Hm & _). destruct (Hw m fs Hm Hfs) as [(f & Ef & Hpos) _].
    unfold open_outcome in Ho. rewrite Ef in Ho. destruct Ho as (h & v & x & b & Hh2 & Hb & Ha & Hx & Hfi & Er & Hout).
    assert (0 <= v) as Hv by (refine (Hpos _ _ _ _ _ _ _ _ Er); [by apply fi_world_host, (vo_world _ _ _ _ _ Hok)|by apply fi_path_host, Hpaths|done]).
    rewrite (proj2 (Z.ltb_ge v 0)) in Hout by done. destruct Hout as (-> & Htouch & _). split; [done|].
    eapply files_ok_touched; [eapply files_ok_opened; eauto|apply lookup_insert_eq|exact Htouch].
  - unfold open. wp_step. apply wp_NewFileDescriptor; [by apply (vo_locks _ _ _ _ _ Hok)|]. intros h Hl. rewrite Ht, Ei. cbn beta iota.
    change (-1 <? 0) with true. eapply (wp_fail_with _ _ _ _ (vfs_locks s)); [exact Hl|]. intros h' Hl'. split; [done|].
    change (set_host h' (set_host h s)) with (set_host h' s). by apply files_ok_host.
Qed.

Lemma files_ok_closed s ML name ms pool paths wd t i d p b :
  files_ok s ML name ms pool paths wd t -> t !! i = Some (Some (d, p)) -> locks_free (vfs_locks s) (bus_host b) -> advanced FI (vfs_bus s) b ->
  files_ok (closed s i d b) ML name ms pool paths wd (<[i := None]> t).
Proof.
  intros H Hi Hl Ha. pose proof H as [Hok Hw Hdir Ht Hp Hf Hpaths]. split; cbn; [|done|done| | | |].
  - apply vfs_ok_closed; [done| |done|done]. rewrite Ht. apply memory_lookup. by exists p.
  - rewrite Ht. unfold entries_of. by rewrite list_fmap_insert.
  - intros d' q Hin. apply list_elem_of_lookup in Hin as (j & [(-> & E & _)|[Hne Hj]]%list_lookup_insert_Some); [done|].
    rewrite lookup_delete_ne; [apply Hp; by eapply list_elem_of_lookup_2|]. intros <-. destruct Hne. by eapply files_distinct.
  - intros d' Hin Hno. destruct (decide (d' = d)) as [->|Hne]; [by rewrite lookup_delete_eq|]. rewrite lookup_delete_ne by done.
    apply Hf; [done|]. intros q Hq. apply (Hno q). apply list_elem_of_lookup in Hq as [j Hj]. apply list_elem_of_lookup. exists j.
    rewrite list_lookup_insert_ne; [done|]. intros <-. congruence.
  - intros q m' Hin Hm'. apply Ha. by apply Hpaths.
Qed.

Lemma wp_close_step s ML name ms pool paths wd t fd : files_ok s ML name ms pool paths wd t ->
  wp (close fd) (fun r s' => answers (table_step wd (OpClose fd) t).2 r /\ files_ok s' ML name ms pool paths wd (table_step wd (OpClose fd) t).1) s.
Proof.
  intros H. pose proof (fo_ok _ _ _ _ _ _ _ _ H) as Hok. eapply wp_mono; [by eapply wp_close_file|]. intros r s' [Ho Hok'].
  unfold close_outcome in Ho. cbn [table_step]. rewrite (fo_table _ _ _ _ _ _ _ _ H), entry_file_at in Ho.
  destruct (file_at t fd) as [[d p]|] eqn:Ef; cbn in Ho; cbn [fst snd answers].
  - destruct Ho as (x & m & fs & Ex & Em & Hfs & Ho).
    assert (t !! Z.to_nat (fd - FD_OFFSET) = Some (Some (d, p))) as Hi.
    { unfold file_at in Ef. destruct (_ || _); [done|]. by destruct (t !! _) as [[?|]|]; cbn in Ef; [f_equal| |]. }
    assert (m ∈ ms /\ fi_file FI x (vfs_bus s)) as [Hm Hfi].
    { destruct (vo_open _ _ _ _ _ Hok _ d ltac:(rewrite (fo_table _ _ _ _ _ _ _ _ H); apply memory_lookup; by exists p)) as (x' & m' & Ex' & _ & Em' & Hm' & Hf').
      rewrite Ex in Ex'. injection Ex' as <-. rewrite Em in Em'. by injection Em' as <-. }
    destruct (fo_willing _ _ _ _ _ _ _ _ H m fs Hm Hfs) as [_ (f & Efs & Hpos)]. rewrite Efs in Ho.
    destruct Ho as (v & x' & b & h & Ha & Er & Ho).
    assert (0 <= v) as Hv by (eapply Hpos; [by apply (vo_world _ _ _ _ _ Hok)|exact Hfi|exact Em|exact Er]).
    rewrite (proj2 (Z.ltb_ge v 0)) in Ho by done. destruct Ho as [-> ->]. split; [done|].
    pose proof (vo_locks _ _ _ _ _ Hok') as Hl. change (set_vfs_bus _ (closed s ?i d b)) with (closed s i d (set_bus_host h b)).
    eapply files_ok_closed; [done|done|exact Hl|by apply advanced_set_host].
  - destruct Ho as (-> & h & ->). split; [done|]. apply files_ok_host; [done|]. by apply (vo_locks _ _ _ _ _ Hok').
Qed.

Lemma wp_file_op s ML name ms pool paths wd t o : files_ok s ML name ms pool paths wd t -> op_ok wd pool (name <$> ms) paths o t ->
  wp (run_file_op o) (fun r s' => answers (table_step wd o t).2 r /\ files_ok s' ML name ms pool paths wd (table_step wd o t).1) s.
Proof.
  intros H Ho. pose proof (fo_ok _ _ _ _ _ _ _ _ H) as Hok.
  destruct o as [d p flags|fd|fd buf len|fd buf len|fd offset whence|fd len|fd|fd cmd args]; [by apply wp_open_step|by apply wp_close_step|..];
    (eapply (wp_call_step _ _ _ _ _ _ _ _ _ fd); [exact H|done|]); cbn [run_file_op];
    [eapply (wp_fd_call FI fd fs_read (fun f => f buf len))|eapply (wp_fd_call FI fd fs_write (fun f => f buf len))|by eapply wp_lseek
    |eapply (wp_fd_call FI fd fs_truncate (fun f => f len))|eapply (wp_fd_call FI fd fs_sync (fun f => f))|eapply (wp_fd_call FI fd fs_ioctl (fun f => f cmd args))];
    try exact Hok; intros m fs a Hc Ea; destruct Hc; eauto.
Qed.

(** C5: histories of calls on files.  In every history in which each open has memory for
    its descriptor and a path that resolves, without hidden words, below a mount point
    ([op_ok]), on file systems that do not refuse to open or to close ([willing]) and
    keep their invariant ([FI]), the calls keep the invariant of the virtual file system,
    its table holds the files that the specification says, and the answers are those of
    the specification: the least free number or -1 for open, 0 or -1 for close, -1 for
    every call on a number that is not open.  What happens without these conditions is in
    Descriptors.open_correct (refusals), FileDefects.open_unmounted_faults and
    FileDefects.open_hidden_hangs. *)
Theorem Files_refine_table os s ML name ms pool paths wd t es t' :
  files_ok s ML name ms pool paths wd t -> file_run wd pool (name <$> ms) paths os t es t' ->
  wp (run_file_ops os) (fun rs s' => Forall2 answers es rs /\ files_ok s' ML name ms pool paths wd t') s.
Proof.
  intros H Hrun. revert s H. induction Hrun as [t|o os t es t' Ho Hrun IH]; intros s H; cbn [run_file_ops]; [by wp_steps|].
  wp_step. eapply wp_mono; [by apply wp_file_op|]. intros r s' [Ha H']. wp_steps.
  eapply wp_mono; [by apply IH|]. intros rs s2 [Has H2]. wp_steps. split; [by constructor|done].
Qed.

End FileTable.
