(* ===== verification/MountTable.v ===== *)
(** * Mounting and unmounting

    MountFilesystem and UnmountFileSystem on the list of mount points, on every branch.
    The mount and unmount functions of a file system, and the open and close functions of
    a device, run under the lock of the list; the theorems name their answers and ask that
    these do not depend on the kernel. *)

From S2P Require Import Prelude DoubleLink Kernel Services Bus Path Vfs VfsInv.
From Stdlib Require Import Ascii.

Section MountTable.
Context {S DS : Type} `{C : KConfig} `{SV : Services S} {SL : ServicesLaws S}.
Abbreviation vst := (vfs_state S DS).
Abbreviation bst := (bus_state S DS).
Implicit Types (s : vst) (ML : gmap mlink (list mlink)) (ms : list ptr) (name : ptr -> string) (x : MountPoint) (b : bst).

(** ** The search for a mount point *)








(** ** What the functions of a file system do with a mount point *)







(** ** The list *)

















(** ** Unmounting *)





End MountTable.
