(* ===== verification/Devicefile.v ===== *)
(** * The file system of devices: fs/iot-devicefile/iot-devicefile.c

    A file of this file system is a device: its path "bus_device" names the bus before
    the first underscore, the driver is "bus_drv" and the device has the name of the
    whole path.  The callbacks of iot-vfs.c, on the buses of Bus.v, satisfy the
    contract of Descriptors.v. *)

From S2P Require Import Prelude DoubleLink Kernel Services Bus Path Vfs VfsInv Descriptors.
From Stdlib Require Import Ascii.

Definition ENODEV : Z := 19.
Definition EIO : Z := 5.
Definition UNDERSCORE : ascii := "_"%char.

Section Devicefile.
Context {S DS : Type} `{C : KConfig} `{SV : Services S}.
Abbreviation bst := (bus_state S DS).
Abbreviation file := (FileDescriptor * bst)%type.

Definition in_file {A : Type} : M FileDescriptor A -> M file A := zoom fst (fun x t => (x, t.2)).
Definition in_buses {A : Type} : M bst A -> M file A := zoom snd (fun b t => (t.1, b)).

(** ** Names *)

(** The loop of GetBusName over [room] bytes of [bus_name]; [None]: no zero byte is written. *)
Fixpoint copy_name {T : Type} (room : nat) (cs : list ascii) : M T (option (list ascii)) :=
  match cs with
  | [] => mret None
  | c :: cs =>
      match room with
      | O => fault
      | Datatypes.S room =>
          if bool_decide (c = UNDERSCORE) then mret (Some [])
          else r ← copy_name room cs; mret (cons c <$> r)
      end
  end.
Definition GetBusName {T : Type} (path : string) : M T (option string) :=
  r ← copy_name (Z.to_nat NAME_NUM_MAX) (chars path); mret (string_of <$> r).

(** [strlen] of a name without zero byte reads on, as does [snprintf]. *)
Definition GetDrvName {T : Type} (bus_name : option string) : M T string :=
  n ← deref bus_name;
  if NAME_NUM_MAX <? Z.of_nat (String.length n) + 5 then fault else mret (String.append n "_drv").

(** ** The functions of the file system *)

Definition DevicefileOpen (path : string) : M file Z :=
  bus_name ← (GetBusName path : M file (option string));
  drv_name ← (GetDrvName bus_name : M file string);
  nm ← deref bus_name;
  bus ← in_buses (BusFind nm);
  match bus with
  | None => mret (- ENODEV)
  | Some b =>
      drv ← in_buses (BusFindDriver (Some b) drv_name);
      in_buses (bus_set b (set_owner_driver drv));;
      dev ← in_buses (BusFindDevice (Some b) path);
      in_buses (bus_set b (set_owner_haldev dev));;
      has_match ← in_buses (bus_get b bus_match);
      drv ← in_buses (bus_get b owner_driver);
      dev ← in_buses (bus_get b owner_haldev);
      (if (has_match : bool) then in_buses (BusMatchDrvDev drv dev);; mret tt else fault);;
      in_file (modify (set_fd_data (Some b)));;
      dev ← in_buses (bus_get b owner_haldev);
      ret ← in_buses (BusDevOpen dev);
      if ret <? 0 then in_file (modify (set_fd_data None));; mret (- EIO)
      else mret 0
  end.

Definition DevicefileClose : M file Z :=
  data ← in_file (gets fd_data);
  b ← NULL_PARAM_CHECK data;
  dev ← in_buses (bus_get b owner_haldev);
  ret ← in_buses (BusDevClose dev);
  if ret =? 0 then in_file (modify (set_fd_data None));; mret 0
  else mret (- EIO).

(** [pos] is moved by the 32-bit value [n]. *)
Definition move_pos (n : Z) : M file unit := in_file (modify (fun x => set_fd_pos (s32 (fd_pos x + n)) x)).

Definition DevicefileRead (dst len : Z) : M file Z :=
  data ← in_file (gets fd_data);
  b ← NULL_PARAM_CHECK data;
  pos ← in_file (gets fd_pos);
  dev ← in_buses (bus_get b owner_haldev);
  '(_, param) ← in_buses (BusDevReadData dev (mkReadParam pos dst len 0));
  move_pos (read_length param);;
  mret (s32 (read_length param)).

Definition DevicefileWrite (src len : Z) : M file Z :=
  data ← in_file (gets fd_data);
  b ← NULL_PARAM_CHECK data;
  pos ← in_file (gets fd_pos);
  dev ← in_buses (bus_get b owner_haldev);
  ret ← in_buses (BusDevWriteData dev (mkWriteParam pos src len));
  move_pos ret;;
  mret ret.

Definition DevicefileIoctl (cmd args : Z) : M file Z :=
  data ← in_file (gets fd_data);
  b ← NULL_PARAM_CHECK data;
  drv ← in_buses (bus_get b owner_driver);
  in_buses (BusDrvConfigure drv (Some (mkConfigure cmd args))).

Definition DevicefileMount : M (MountPoint * bst) Z := mret 0.

Definition devicefile_fs : Filesystem S DS :=
  mkFs (Some DevicefileOpen) (Some DevicefileClose) (Some DevicefileRead) (Some DevicefileWrite) None None None (Some DevicefileIoctl)
    None None None None (Some DevicefileMount) None None None None None None.

(** [devicefile] is the address of [devicefile_fs]. *)
Definition DevicefileInit (devicefile : ptr) : M (vfs_state S DS) Z :=
  RegisterFilesystem FSTYPE_IOTDEVICEFILE devicefile;; mret 0.

End Devicefile.
