(* ===== verification/DeviceContract.v ===== *)
(** * The file system of devices keeps the contract of file systems

    [device_world] says what the buses must hold: a fixed catalogue of buses, drivers and
    devices with their names and owners, whose functions return.  On it the functions
    of Devicefile.v are as Descriptors.v asks. *)

From S2P Require Import Prelude DoubleLink Kernel Services Bus Path Vfs VfsInv Descriptors FileTable Devicefile.
From Stdlib Require Import Ascii.

(** ** Names *)

Section Names.
Context {T : Type} `{C : KConfig}.

Lemma copy_name_spec room w rest (t : T) : UNDERSCORE ∉ w -> (length w < room)%nat -> copy_name room (w ++ UNDERSCORE :: rest) t = Ret (Some w) t.
Proof.
  revert room. induction w as [|c w IH]; intros [|room] Hw Hr; cbn in Hr; try lia; [done|]. cbn [copy_name app].
  rewrite bool_decide_false by set_solver. unfold mbind, M_bind. rewrite IH by (set_solver || lia). done.
Qed.

(** The name of the bus in a path, where there is an underscore in time. *)
Definition bus_part (path nm : string) : Prop :=
  exists rest, chars path = chars nm ++ UNDERSCORE :: rest /\ (UNDERSCORE ∉ chars nm) /\ Z.of_nat (String.length nm) + 5 <= NAME_NUM_MAX.

Lemma GetBusName_spec path nm (t : T) : bus_part path nm -> GetBusName path t = Ret (Some nm) t.
Proof.
  intros (rest & E & Hu & Hl). unfold GetBusName, mbind, M_bind. rewrite E, copy_name_spec; [|done|rewrite length_chars; lia].
  cbn. unfold mret, M_ret. by rewrite string_of_chars.
Qed.
Lemma GetDrvName_spec path nm (t : T) : bus_part path nm -> GetDrvName (Some nm) t = Ret (String.append nm "_drv") t.
Proof. intros (rest & E & Hu & Hl). unfold GetDrvName, mbind, M_bind. cbn. rewrite (proj2 (Z.ltb_ge _ _)) by lia. done. Qed.

End Names.

Lemma find_name_Some name n ps p : find_name name n ps = Some p -> p ∈ ps /\ name p = n.
Proof.
  unfold find_name. rewrite fmap_Some. intros ([i q] & (E & Hp & _)%list_find_Some & ->). split; [by eapply list_elem_of_lookup_2|].
  by apply bool_decide_unpack in Hp.
Qed.

(** ** The world of devices *)

(** The lists of buses, drivers and devices, and the names. *)
Record catalogue : Type := {
  ct_lists : gmap blink (list blink);
  ct_buses : list ptr;
  ct_drivers : ptr -> list ptr;
  ct_devices : ptr -> list ptr;
  ct_bus_name : ptr -> string;
  ct_drv_name : ptr -> string;
  ct_dev_name : ptr -> string;
}.

Section DeviceContract.
Context {S DS : Type} `{C : KConfig} `{SV : Services S} {SL : ServicesLaws S}.
Abbreviation bst := (bus_state S DS).
Abbreviation file := (FileDescriptor * bst)%type.
Implicit Types (b : bst) (x : FileDescriptor).

(** A function of the hardware returns. *)
Definition returns {A : Type} (f : M DS A) : Prop := forall w, exists v w', f w = Ret v w'.

Record device_ok (p : ptr) (nm : string) (z : HardwareDev DS) : Prop := {
  dv_name : dev_name z = nm;
  dv_bus : dev_owner_bus z = Some p;
  dv_open : forall f d, done_open (dev_done z) = Some f -> returns (f d);
  dv_close : forall f d w, done_close (dev_done z) = Some f -> exists w', f d w = Ret 0 w';
  dv_write : forall f d q, done_write (dev_done z) = Some f -> returns (f d q);
  dv_read : forall f d q, done_read (dev_done z) = Some f -> returns (f d q);
}.
Record driver_ok (p : ptr) (nm : string) (y : Driver DS) : Prop := {
  dr_name : drv_name y = nm;
  dr_bus : drv_owner_bus y = Some p;
  dr_configure : forall f d q, drv_configure y = Some f -> returns (f d q);
}.

Record device_world (ct : catalogue) b : Prop := {
  dw_rep : rep (bus_links b) (ct_lists ct);
  dw_buses : ct_lists ct !! BusHead = Some (BusLink <$> ct_buses ct);
  dw_bus : forall p, p ∈ ct_buses ct -> exists u, buses b !! p = Some u /\ bus_name u = ct_bus_name ct p /\ bus_match u = true;
  dw_drivers : forall p, p ∈ ct_buses ct -> ct_lists ct !! DrvHead p = Some (DrvLink <$> ct_drivers ct p);
  dw_devices : forall p, p ∈ ct_buses ct -> ct_lists ct !! DevHead p = Some (DevLink <$> ct_devices ct p);
  dw_driver : forall p r, p ∈ ct_buses ct -> r ∈ ct_drivers ct p -> exists y, drivers b !! r = Some y /\ driver_ok p (ct_drv_name ct r) y;
  dw_device : forall p d, p ∈ ct_buses ct -> d ∈ ct_devices ct p -> exists z, haldevs b !! d = Some z /\ device_ok p (ct_dev_name ct d) z;
}.

(** An open file: its bus has a device and a driver. *)
Definition device_file (ct : catalogue) x b : Prop :=
  exists p y d r, fd_data x = Some p /\ p ∈ ct_buses ct /\ buses b !! p = Some y /\
    owner_haldev y = Some d /\ d ∈ ct_devices ct p /\ owner_driver y = Some r /\ r ∈ ct_drivers ct p.

(** A path that leads to a device. *)
Definition device_path (ct : catalogue) (path : string) (p d r : ptr) : Prop :=
  exists nm, bus_part path nm /\ find_name (ct_bus_name ct) nm (ct_buses ct) = Some p /\
    find_name (ct_drv_name ct) (String.append nm "_drv") (ct_drivers ct p) = Some r /\
    find_name (ct_dev_name ct) path (ct_devices ct p) = Some d.

Lemma device_world_host ct h b : device_world ct b -> device_world ct (set_bus_host h b).
Proof. by intros [? ? ? ? ? ? ?]. Qed.

Definition device_inv (ct : catalogue) : files_inv (S := S) (DS := DS) := {|
  fi_world := device_world ct;
  fi_file := device_file ct;
  fi_path := fun _ path _ => exists p d r, device_path ct path p d r;
  fi_world_host := device_world_host ct;
  fi_file_host := fun h x b H => H;
  fi_path_host := fun h m p b H => H;
|}.

(** ** How the functions change the buses *)

(** Only the owners of buses, the data of drivers and the hardware. *)
Lemma world_owners ct b p y d r : device_world ct b -> p ∈ ct_buses ct -> buses b !! p = Some y -> d ∈ ct_devices ct p -> r ∈ ct_drivers ct p ->
  forall y', bus_name y' = bus_name y -> bus_match y' = bus_match y -> owner_haldev y' = Some d -> owner_driver y' = Some r ->
  advanced (device_inv ct) b (set_buses (<[p := y']> (buses b)) b).
Proof.
  intros [Hr Hb Hbus Hd1 Hd2 Hdr Hdv] Hp Ey Hd Hr' y' E1 E2 E3 E4. split_and!.
  - split; [done|done| |done..]. intros q Hq. cbn. destruct (decide (q = p)) as [->|Hne].
    + exists y'. rewrite lookup_insert_eq. destruct (Hbus p Hp) as (y0 & E0 & En & Em). rewrite Ey in E0. injection E0 as <-. by rewrite E1, E2.
    + rewrite lookup_insert_ne by done. by apply Hbus.
  - intros x (q & z & d0 & r0 & Hdata & Hq & Ez & H1 & H2 & H3 & H4). cbn. unfold device_file. cbn.
    destruct (decide (q = p)) as [->|Hne]; [exists p, y', d, r; by rewrite lookup_insert_eq|].
    exists q, z, d0, r0. by rewrite lookup_insert_ne.
  - done.
Qed.

Lemma world_driver ct b p r y v : device_world ct b -> p ∈ ct_buses ct -> r ∈ ct_drivers ct p -> drivers b !! r = Some y ->
  advanced (device_inv ct) b (set_drivers (<[r := mkDriver (drv_name y) (drv_configure y) (drv_owner_bus y) v]> (drivers b)) b).
Proof.
  intros [Hr Hb Hbus Hd1 Hd2 Hdr Hdv] Hp Hr' Ey. split_and!; [|done|done]. split; [done..| |done]. intros q r0 Hq Hr0. cbn.
  destruct (decide (r0 = r)) as [->|Hne]; [|rewrite lookup_insert_ne by done; by apply Hdr].
  rewrite lookup_insert_eq. eexists. split; [done|]. destruct (Hdr q r Hq Hr0) as (y0 & E0 & [E1 E2 E3]). rewrite Ey in E0. injection E0 as <-.
  by split.
Qed.

Lemma world_hardware ct b w : device_world ct b -> advanced (device_inv ct) b (set_hardware w b).
Proof. intros [? ? ? ? ? ? ?]. split_and!; [by split|done|done]. Qed.

(** ** Rules *)

Lemma wp_in_buses {A : Type} (m : M bst A) (Q : A -> file -> Prop) x b : wp m (fun v b' => Q v (x, b')) b -> wp (in_buses m) Q (x, b).
Proof. intros H. unfold in_buses. by apply wp_zoom. Qed.
Lemma wp_in_file {A : Type} (m : M FileDescriptor A) (Q : A -> file -> Prop) x b : wp m (fun v x' => Q v (x', b)) x -> wp (in_file m) Q (x, b).
Proof. intros H. unfold in_file. by apply wp_zoom. Qed.
Lemma wp_in_hardware {A : Type} (f : M DS A) (Q : A -> bst -> Prop) b : returns f -> (forall v w, Q v (set_hardware w b)) -> wp (in_hardware f) Q b.
Proof. intros Hf HQ. apply wp_zoom. destruct (Hf (hardware b)) as (v & w & E). by apply (wp_run _ _ _ v w). Qed.
Lemma wp_call_device (f : option (ptr -> M DS Z)) d (Q : Z -> bst -> Prop) b :
  (forall g, f = Some g -> returns (g d)) -> (forall v w, v = EOK \/ v = ERROR -> Q v (set_hardware w b)) -> wp (call_device f d) Q b.
Proof.
  intros Hf HQ. unfold call_device. destruct f as [g|].
  - wp_step. apply wp_in_hardware; [by apply Hf|]. intros v w. destruct (Z.eqb_spec v 0) as [->|Hv]; cbn [negb]; wp_steps; apply HQ; [by left|by right].
  - wp_steps. replace b with (set_hardware (hardware b) b) by by destruct b. apply HQ. by left.
Qed.

(** The bus after its driver and device are matched. *)
Definition matched b p u d r (v : Z) (y : Driver DS) : bst :=
  set_buses (<[p := set_owner_haldev (Some d) (set_owner_driver (Some r) u)]> (buses b))
    (set_drivers (<[r := mkDriver (drv_name y) (drv_configure y) (drv_owner_bus y) v]> (drivers b)) b).

Lemma wp_BusMatchDrvDev b p u d r z y (Q : Z -> bst -> Prop) :
  buses b !! p = Some u -> haldevs b !! d = Some z -> drivers b !! r = Some y -> dev_owner_bus z = Some p -> drv_owner_bus y = Some p ->
  Q EOK (matched b p u d r (dev_private_data z) y) -> wp (BusMatchDrvDev (Some r) (Some d)) Q b.
Proof.
  intros Eu Ez Ey Hz Hy HQ. unfold BusMatchDrvDev. wp_step. eapply wp_null_check; [done|]. wp_step. eapply wp_null_check; [done|].
  wp_step. eapply wp_driver_get; [exact Ey|]. rewrite Hy. wp_steps. eapply wp_device_get; [exact Ez|]. rewrite Hz. wp_steps.
  eapply wp_bus_get; [exact Eu|]. wp_step. eapply wp_bus_get; [exact Eu|].
  assert (strncmp_eq (Z.to_nat NAME_NUM_MAX) (bus_name u) (bus_name u) = true) as -> by by apply strncmp_eq_take.
  wp_step. eapply wp_device_get; [exact Ez|]. unfold driver_set. wp_steps. rewrite Ey. wp_steps.
  eapply wp_bus_set; [exact Eu|]. wp_step. eapply wp_bus_set; [apply lookup_insert_eq|]. wp_steps.
  unfold matched in HQ. cbn [buses set_buses set_drivers]. rewrite insert_insert_eq. exact HQ.
Qed.

Lemma matched_advanced ct b p u d r z y : device_world ct b -> p ∈ ct_buses ct -> d ∈ ct_devices ct p -> r ∈ ct_drivers ct p ->
  buses b !! p = Some u -> drivers b !! r = Some y -> advanced (device_inv ct) b (matched b p u d r z y).
Proof.
  intros Hw Hp Hd Hr Eu Ey. pose proof (world_driver ct b p r y z Hw Hp Hr Ey) as H1.
  eapply advanced_trans; [exact H1|]. by apply (world_owners ct (set_drivers _ b) p u d r (proj1 H1) Hp Eu Hd Hr).
Qed.

(** Opening a device: it and the driver become the owners of the bus.  What the open
    function of the device answers does not matter. *)
Lemma wp_DevicefileOpen ct path p d r x b (Q : Z -> file -> Prop) :
  device_world ct b -> device_path ct path p d r ->
  (forall b', advanced (device_inv ct) b b' -> bus_host b' = bus_host b ->
    (exists u, buses b' !! p = Some u /\ owner_haldev u = Some d /\ owner_driver u = Some r) -> Q 0 (set_fd_data (Some p) x, b')) ->
  wp (DevicefileOpen path) Q (x, b).
Proof.
  intros Hw (nm & Hbus & Fp & Fr & Fd) HQ. pose proof Hw as [HR HB Hb Hdr Hdv Hdriver Hdevice].
  apply find_name_Some in Fp as Hp. destruct Hp as [Hp _]. apply find_name_Some in Fr as Hr. destruct Hr as [Hr _]. apply find_name_Some in Fd as Hd. destruct Hd as [Hd _].
  destruct (Hb p Hp) as (u & Eu & Hu & Hm). destruct (Hdriver p r Hp Hr) as (y & Ey & Hy). destruct (Hdevice p d Hp Hd) as (z & Ez & Hz).
  unfold DevicefileOpen. wp_step. eapply wp_run; [by apply GetBusName_spec|]. wp_step. eapply wp_run; [by eapply GetDrvName_spec|]. wp_steps.
  apply wp_in_buses. eapply (wp_BusFind b _ _ (ct_bus_name ct)); [done|done| |].
  { intros q Hq. destruct (Hb q Hq) as (u' & E' & <- & _). by rewrite E'. }
  rewrite Fp. wp_step. apply wp_in_buses. eapply (wp_BusFindDriver b _ p _ (ct_drv_name ct)); [done|by apply Hdr| |].
  { intros q Hq. destruct (Hdriver p q Hp Hq) as (y' & E' & [<- _ _]). by rewrite E'. }
  rewrite Fr. wp_step. apply wp_in_buses. eapply wp_bus_set; [exact Eu|]. wp_step.
  apply wp_in_buses. eapply (wp_BusFindDevice (set_buses _ b) _ p _ (ct_dev_name ct)); [done|by apply Hdv| |].
  { intros q Hq. destruct (Hdevice p q Hp Hq) as (z' & E' & [<- _ _ _ _ _]). cbn. by rewrite E'. }
  rewrite Fd. wp_step. apply wp_in_buses. eapply wp_bus_set; [apply lookup_insert_eq|].
  cbn [buses set_buses]. rewrite insert_insert_eq. set (u1 := set_owner_haldev (Some d) (set_owner_driver (Some r) u)).
  set (b1 := set_buses (<[p := u1]> (buses b)) b). change (set_buses _ _) with b1.
  assert (advanced (device_inv ct) b b1) as H1 by (by eapply (world_owners ct b p u d r)).
  assert (buses b1 !! p = Some u1) as Eu1 by apply lookup_insert_eq.
  do 3 (wp_step; apply wp_in_buses; eapply wp_bus_get; [exact Eu1|]). cbn [bus_match owner_driver owner_haldev u1 set_owner_haldev set_owner_driver].
  rewrite Hm. do 2 wp_step. apply wp_in_buses. eapply (wp_BusMatchDrvDev b1 p u1 d r z y); [done..|apply Hz|apply Hy|].
  set (b2 := matched b1 p u1 d r (dev_private_data z) y). wp_steps. apply wp_in_file. wp_steps.
  apply wp_in_buses. eapply (wp_bus_get p _ u1); [apply lookup_insert_eq|]. cbn [owner_haldev u1 set_owner_haldev].
  wp_step. apply wp_in_buses. unfold BusDevOpen. wp_step. eapply wp_null_check; [done|]. wp_step.
  eapply (wp_device_get d _ z); [exact Ez|]. apply wp_call_device; [intros g Eg; by eapply (dv_open _ _ _ Hz)|].
  intros v w Hv. cbn beta. rewrite (proj2 (Z.ltb_ge v 0)) by (destruct Hv as [-> | ->]; done). wp_steps.
  assert (advanced (device_inv ct) b b2) as H2.
  { eapply advanced_trans; [exact H1|]. apply matched_advanced; [apply H1|done..]. }
  apply HQ; [|done|].
  - eapply advanced_trans; [exact H2|]. apply world_hardware, H2.
  - eexists. split; [apply lookup_insert_eq|]. done.
Qed.

(** The other calls only change the hardware. *)
Lemma device_callback {A : Type} ct ids x b (f : M file A) (P : A -> FileDescriptor -> bst -> Prop) :
  (device_world ct b -> wp f (fun v t => same_file x t.1 /\ (exists w, t.2 = set_hardware w b) /\ P v t.1 t.2) (x, b)) ->
  callback (device_inv ct) ids x b f P.
Proof.
  intros Hf Hl Hw. eapply wp_mono; [by apply Hf|]. intros v [x' b'] (Hs & (w & E) & HP). cbn in *. subst b'.
  split_and!; [done|done|by apply world_hardware|done].
Qed.

(** The beginning of every call on an open device. *)
Lemma wp_data {A : Type} p x b (f : ptr -> M file A) (Q : A -> file -> Prop) : fd_data x = Some p ->
  wp (f p) Q (x, b) -> wp (data ← in_file (gets fd_data); p ← NULL_PARAM_CHECK data; f p) Q (x, b).
Proof. intros E HQ. wp_step. apply wp_in_file. wp_step. rewrite E. wp_step. eapply wp_null_check; [done|]. exact HQ. Qed.

Lemma wp_move_pos n x b (Q : unit -> file -> Prop) : Q tt (set_fd_pos (s32 (fd_pos x + n)) x, b) -> wp (move_pos n) Q (x, b).
Proof. intros HQ. unfold move_pos. apply wp_in_file. by wp_step. Qed.

Lemma wp_DevicefileClose p u d z ct x b (Q : Z -> file -> Prop) :
  fd_data x = Some p -> buses b !! p = Some u -> owner_haldev u = Some d -> haldevs b !! d = Some z -> device_ok p (ct_dev_name ct d) z ->
  (forall w, Q 0 (set_fd_data None x, set_hardware w b)) -> wp DevicefileClose Q (x, b).
Proof.
  intros E Eu Ed Ez Hz HQ. unfold DevicefileClose. apply (wp_data p); [done|]. wp_step. apply wp_in_buses. eapply wp_bus_get; [exact Eu|]. rewrite Ed.
  wp_step. apply wp_in_buses. unfold BusDevClose. wp_step. eapply wp_null_check; [done|]. wp_step. eapply wp_device_get; [exact Ez|].
  unfold call_device. destruct (done_close (dev_done z)) as [f|] eqn:Ef.
  - wp_step. apply wp_zoom. destruct (dv_close _ _ _ Hz f d (hardware b) Ef) as (w & Er). apply (wp_run _ _ _ 0 w); [done|]. cbn [Z.eqb negb].
    wp_steps. change (0 =? 0) with true. wp_steps. apply wp_in_file. wp_steps. apply HQ.
  - wp_steps. change (EOK =? 0) with true. wp_steps. apply wp_in_file. wp_steps. specialize (HQ (hardware b)). by destruct b.
Qed.

Lemma wp_DevicefileRead p u d z ct x b dst len (Q : Z -> file -> Prop) :
  fd_data x = Some p -> buses b !! p = Some u -> owner_haldev u = Some d -> haldevs b !! d = Some z -> device_ok p (ct_dev_name ct d) z ->
  (forall n w, Q (s32 n) (set_fd_pos (s32 (fd_pos x + n)) x, set_hardware w b)) -> wp (DevicefileRead dst len) Q (x, b).
Proof.
  intros E Eu Ed Ez Hz HQ. unfold DevicefileRead. apply (wp_data p); [done|]. wp_step. apply wp_in_file. wp_step. wp_step.
  apply wp_in_buses. eapply wp_bus_get; [exact Eu|]. rewrite Ed.
  wp_step. apply wp_in_buses. unfold BusDevReadData. wp_step. eapply wp_null_check; [done|]. wp_step. eapply wp_device_get; [exact Ez|].
  destruct (done_read (dev_done z)) as [f|] eqn:Ef.
  - apply wp_in_hardware; [by eapply (dv_read _ _ _ Hz)|]. intros [v q] w. cbn beta iota. wp_step. apply wp_move_pos. wp_steps. apply HQ.
  - wp_steps. apply wp_move_pos. wp_steps. specialize (HQ 0 (hardware b)). by destruct b.
Qed.

Lemma wp_DevicefileWrite p u d z ct x b src len (Q : Z -> file -> Prop) :
  fd_data x = Some p -> buses b !! p = Some u -> owner_haldev u = Some d -> haldevs b !! d = Some z -> device_ok p (ct_dev_name ct d) z ->
  (forall n w, Q n (set_fd_pos (s32 (fd_pos x + n)) x, set_hardware w b)) -> wp (DevicefileWrite src len) Q (x, b).
Proof.
  intros E Eu Ed Ez Hz HQ. unfold DevicefileWrite. apply (wp_data p); [done|]. wp_step. apply wp_in_file. wp_step. wp_step.
  apply wp_in_buses. eapply wp_bus_get; [exact Eu|]. rewrite Ed.
  wp_step. apply wp_in_buses. unfold BusDevWriteData. wp_step. eapply wp_null_check; [done|]. wp_step. eapply wp_device_get; [exact Ez|].
  destruct (done_write (dev_done z)) as [f|] eqn:Ef.
  - apply wp_in_hardware; [by eapply (dv_write _ _ _ Hz)|]. intros v w. cbn beta iota. wp_step. apply wp_move_pos. wp_steps. apply HQ.
  - wp_steps. apply wp_move_pos. wp_steps. specialize (HQ EOK (hardware b)). by destruct b.
Qed.

Lemma wp_DevicefileIoctl p u r y ct x b cmd args (Q : Z -> file -> Prop) :
  fd_data x = Some p -> buses b !! p = Some u -> owner_driver u = Some r -> drivers b !! r = Some y -> driver_ok p (ct_drv_name ct r) y ->
  (forall v w, Q v (x, set_hardware w b)) -> wp (DevicefileIoctl cmd args) Q (x, b).
Proof.
  intros E Eu Er Ey Hy HQ. unfold DevicefileIoctl. apply (wp_data p); [done|]. wp_step. apply wp_in_buses. eapply wp_bus_get; [exact Eu|]. rewrite Er.
  apply wp_in_buses. unfold BusDrvConfigure. wp_step. eapply wp_null_check; [done|]. wp_step. eapply wp_null_check; [done|].
  wp_step. eapply wp_driver_get; [exact Ey|]. destruct (drv_configure y) as [f|] eqn:Ef.
  - wp_step. apply wp_in_hardware; [by eapply (dr_configure _ _ _ Hy)|]. intros v w. destruct (negb (v =? 0)); wp_steps; apply HQ.
  - wp_steps. specialize (HQ EOK (hardware b)). by destruct b.
Qed.

(** What an open device gives. *)
Lemma device_file_parts ct x b : device_world ct b -> device_file ct x b -> exists p u d r z y,
  fd_data x = Some p /\ buses b !! p = Some u /\ owner_haldev u = Some d /\ owner_driver u = Some r /\
  haldevs b !! d = Some z /\ device_ok p (ct_dev_name ct d) z /\ drivers b !! r = Some y /\ driver_ok p (ct_drv_name ct r) y.
Proof.
  intros Hw (p & u & d & r & E & Hp & Eu & Ed & Hd & Er & Hr).
  destruct (dw_driver _ _ Hw p r Hp Hr) as (y & Ey & Hy). destruct (dw_device _ _ Hw p d Hp Hd) as (z & Ez & Hz). exists p, u, d, r, z, y. done.
Qed.

Lemma device_contract {A : Type} ct ids m (f : M file A) :
  (forall x b, device_world ct b -> device_file ct x b ->
    wp f (fun _ t => same_file x t.1 /\ fd_data t.1 = fd_data x /\ exists w, t.2 = set_hardware w b) (x, b)) ->
  fd_contract (device_inv ct) ids m f.
Proof.
  intros Hf x b _ Hfi. apply device_callback. intros Hw. eapply wp_mono; [by apply Hf|].
  intros v [x' b'] (Hs & Ed & (w & E)). cbn in *. subst b'. split_and!; [done|by exists w|].
  destruct Hfi as (p & u & d & r & E & Hrest). exists p, u, d, r. by rewrite Ed.
Qed.

Lemma willing_of (v : Z) {T : Type} (m : M T Z) (t t' : T) : wp m (fun v _ => 0 <= v) t -> m t = Ret v t' -> 0 <= v.
Proof. intros H E. unfold wp in H. by rewrite E in H. Qed.

Lemma device_fs_contract ct ids m : fs_contract (device_inv ct) ids m devicefile_fs.
Proof.
  split; cbn [fs_open fs_close fs_read fs_write fs_seek fs_truncate fs_sync fs_ioctl devicefile_fs]; try done.
  - intros f rel [= <-] x b _ (p & d & r & Hp) Hl Hw. eapply wp_DevicefileOpen; [exact Hw|exact Hp|].
    intros b' Ha Eh (u & Eu & Ed & Er). cbn [fst snd]. rewrite Eh. split; [done|]. split; [done|]. split; [exact Ha|]. intros _.
    destruct Hp as (nm & _ & Fp & Fr & Fd). apply find_name_Some in Fp as [Hp _], Fr as [Hr _], Fd as [Hd _]. exists p, u, d, r. done.
  - intros f [= <-] x b _ Hfi. apply device_callback. intros Hw. destruct (device_file_parts _ _ _ Hw Hfi) as (p & u & d & r & z & y & E & Eu & Ed & Er & Ez & Hz & _).
    eapply wp_DevicefileClose; [done..|]. intros w. split_and!; [done|by exists w|done].
  - intros f buf len [= <-]. apply device_contract. intros x b Hw Hfi. destruct (device_file_parts _ _ _ Hw Hfi) as (p & u & d & r & z & y & E & Eu & Ed & Er & Ez & Hz & _).
    eapply wp_DevicefileRead; [done..|]. intros n w. split_and!; [done|done|by exists w].
  - intros f buf len [= <-]. apply device_contract. intros x b Hw Hfi. destruct (device_file_parts _ _ _ Hw Hfi) as (p & u & d & r & z & y & E & Eu & Ed & Er & Ez & Hz & _).
    eapply wp_DevicefileWrite; [done..|]. intros n w. split_and!; [done|done|by exists w].
  - intros f cmd args [= <-]. apply device_contract. intros x b Hw Hfi. destruct (device_file_parts _ _ _ Hw Hfi) as (p & u & d & r & z & y & E & Eu & Ed & Er & Ez & Hz & Ey & Hy).
    eapply wp_DevicefileIoctl; [done..|]. intros v w. split_and!; [done|done|by exists w].
Qed.

Lemma device_fs_willing ct m : willing (device_inv ct) m devicefile_fs.
Proof.
  split.
  - exists DevicefileOpen. split; [done|]. intros rel x b v t Hw (p & d & r & Hp) _. apply willing_of. eapply wp_DevicefileOpen; [exact Hw|exact Hp|]. intros; lia.
  - exists DevicefileClose. split; [done|]. intros x b v t Hw Hfi _. destruct (device_file_parts _ _ _ Hw Hfi) as (p & u & d & r & z & y & E & Eu & Ed & Er & Ez & Hz & _).
    apply willing_of. eapply wp_DevicefileClose; [done..|]. intros w. lia.
Qed.

(** C32: the functions of iot-devicefile.c satisfy the contract of file systems: on buses
    that hold the catalogue they return, keep the invariant of every open device, and
    leave the fields of the virtual file system and the locks alone; open and close
    succeed when the path leads to a device. *)
Theorem devicefile_contract ct ids m :
  fs_contract (device_inv ct) ids m devicefile_fs /\ willing (device_inv ct) m devicefile_fs.
Proof. split; [apply device_fs_contract|apply device_fs_willing]. Qed.

(** ** Paths that lead to no device *)

Lemma hang_bind {T A B : Type} (m : M T A) (f : A -> M T B) t : wp m (fun a t' => f a t' = Hang) t -> (m ≫= f) t = Hang.
Proof. unfold wp, mbind, M_bind. by destruct (m t). Qed.

Lemma match_null_hangs (drv dev : option ptr) b : drv = None \/ dev = None -> BusMatchDrvDev drv dev b = Hang.
Proof. unfold BusMatchDrvDev, mbind, M_bind. destruct drv, dev; naive_solver. Qed.

(** C35: opening a path whose bus is not there gives -ENODEV and changes nothing; when the bus
    is there, but not the device or not the driver of that name, the call never returns. *)
Theorem DevicefileOpen_missing ct path nm x b :
  device_world ct b -> bus_part path nm ->
  match find_name (ct_bus_name ct) nm (ct_buses ct) with
  | None => DevicefileOpen path (x, b) = Ret (- ENODEV) (x, b)
  | Some p =>
      find_name (ct_drv_name ct) (String.append nm "_drv") (ct_drivers ct p) = None \/ find_name (ct_dev_name ct) path (ct_devices ct p) = None ->
      DevicefileOpen path (x, b) = Hang
  end.
Proof.
  intros Hw Hpart. pose proof Hw as [HR HB Hb Hdr Hdv Hdriver Hdevice].
  assert (forall Q, Q (find_name (ct_bus_name ct) nm (ct_buses ct)) b -> wp (BusFind nm) Q b) as Hfind.
  { intros Q HQ. eapply (wp_BusFind b _ _ (ct_bus_name ct)); [done|done| |exact HQ]. intros q Hq. destruct (Hb q Hq) as (u' & E' & <- & _). by rewrite E'. }
  destruct (find_name (ct_bus_name ct) nm (ct_buses ct)) as [p|] eqn:Fp; [intros Hmiss|]; unfold DevicefileOpen.
  - apply find_name_Some in Fp as [Hp _]. destruct (Hb p Hp) as (u & Eu & Hu & Hm).
    apply hang_bind. eapply wp_run; [by apply GetBusName_spec|]. apply hang_bind. eapply wp_run; [by eapply GetDrvName_spec|].
    apply hang_bind. wp_step. apply hang_bind. apply wp_in_buses, Hfind. cbn beta iota.
    apply hang_bind. apply wp_in_buses. eapply (wp_BusFindDriver b _ p _ (ct_drv_name ct)); [done|by apply Hdr| |].
    { intros q Hq. destruct (Hdriver p q Hp Hq) as (y' & E' & [<- _ _]). by rewrite E'. }
    apply hang_bind. apply wp_in_buses. eapply wp_bus_set; [exact Eu|].
    apply hang_bind. apply wp_in_buses. eapply (wp_BusFindDevice (set_buses _ b) _ p _ (ct_dev_name ct)); [done|by apply Hdv| |].
    { intros q Hq. destruct (Hdevice p q Hp Hq) as (z' & E' & [<- _ _ _ _ _]). cbn. by rewrite E'. }
    apply hang_bind. apply wp_in_buses. eapply wp_bus_set; [apply lookup_insert_eq|].
    cbn [buses set_buses]. rewrite insert_insert_eq. set (u1 := set_owner_haldev _ _).
    do 3 (apply hang_bind; apply wp_in_buses; eapply (wp_bus_get p _ u1); [apply lookup_insert_eq|]).
    cbn [bus_match owner_driver owner_haldev u1 set_owner_haldev set_owner_driver]. rewrite Hm.
    unfold mbind at 1, M_bind at 1. unfold mbind at 1, M_bind at 1. unfold in_buses at 1, zoom at 1. cbn [snd]. by rewrite match_null_hangs.
  - unfold mbind, M_bind. rewrite (GetBusName_spec path nm), (GetDrvName_spec path nm) by done. cbn [deref]. unfold mret, M_ret at 1.
    unfold in_buses at 1, zoom at 1. cbn [snd]. destruct (wp_inv _ _ _ (Hfind (fun r b' => r = None /\ b' = b) (conj eq_refl eq_refl))) as (r & b' & E & -> & ->).
    by rewrite E.
Qed.

End DeviceContract.
