(* ===== verification/Event.v ===== *)
(** * Events: kernel/thread/event.c

    [events] holds the 29 event bits, [event_options] the 3 option bits, which
    [_EventProcess] passes on as the flag of [LinklistSuspend].  Processing is
    split at [DO_KTASK_ASSIGN] as in Semaphore.v; [processed] is returned beside
    the status. *)

From S2P Require Import Prelude DoubleLink IdManager Bitmap Kernel ReadyVector Assign Delay Task TaskInv Deadlines PendList Waiting Semaphore.

Section Event.
Context `{C : KConfig} `{D : PriorityReadyVectorDone}.

Definition EVENT_EVENTS_MASK : Z := 0x1FFFFFFF.
Definition EVENT_OPTIONS_MASK : Z := 7.
Definition EVENT_AND : Z := 1.
Definition EVENT_OR : Z := 2.
Definition EVENT_AUTOCLEAN : Z := 4.

Definition event_get {A : Type} (e : ptr) (f : Event -> A) : M kstate A :=
  k ← get; x ← deref (event_objs k !! e); mret (f x).
Definition event_set (e : ptr) (f : Event -> Event) : M kstate unit :=
  k ← get; x ← deref (event_objs k !! e); modify (set_event_objs (<[e := f x]> (event_objs k))).

Definition event_links (e : ptr) : list link := [PendList CEvent e; ObjLink CEvent e; IdLink CEvent e].

Definition new_event (e : ptr) : M kstate unit :=
  modify (fun k => set_event_objs (<[e := mkEvent 0 0]> (event_objs k)) (zero_links (event_links e) k));;
  modify (fun k => set_node_ids (<[IdLink CEvent e := 0]> (node_ids k)) k).
Definition free_event (e : ptr) : M kstate unit :=
  k ← get;
  deref (event_objs k !! e);;
  modify (fun k => set_event_objs (delete e (event_objs k)) (drop_links (event_links e) k));;
  modify (fun k => set_node_ids (delete (IdLink CEvent e) (node_ids k)) k).

Definition _EventCreate (mem : option ptr) (options : Z) : M kstate Z :=
  match mem with
  | None => mret (- ENOMEMORY)
  | Some event =>
      new_event event;;
      lock ← CriticalAreaLock;
      id ← kid CEvent (IdInsertObj (Bucket CEvent) (IdLink CEvent event));
      if id <? 0 then CriticalAreaUnLock lock;; free_event event;; mret (- ENOMEMORY)
      else
        event_set event (set_event_options (options mod 2 ^ 3));;
        klinks (InitDoubleLinkList (PendList CEvent event));;
        klinks (DoubleLinkListInsertNodeAfter (ListHead CEvent) (ObjLink CEvent event));;
        CriticalAreaUnLock lock;;
        mret id
  end.

Definition _EventDelete (event : ptr) : M kstate unit :=
  empty ← klinks (IsDoubleLinkListEmpty (PendList CEvent event));
  resched ← (if negb empty then LinklistResumeAll (PendList CEvent event);; mret true else mret false);
  lock ← CriticalAreaLock;
  id ← object_id CEvent event;
  kid CEvent (IdRemoveObj (Bucket CEvent) id);;
  klinks (DoubleLinkListRmNode (ObjLink CEvent event));;
  CriticalAreaUnLock lock;;
  free_event event;;
  if (resched : bool) then DO_KTASK_ASSIGN else mret tt.

(** [if (bits & mask)] *)
Definition has_flag (bits mask : Z) : bool := negb (Z.land bits mask =? 0).

(** Whether the events satisfy a waiting task; for [EVENT_OR] the bits that
    occurred are left in [event_id_trigger]. *)
Definition event_match (task : ptr) (evs : Z) : M kstate bool :=
  mode ← task_get task event_mode;
  trigger ← task_get task event_id_trigger;
  if has_flag mode EVENT_AND then
    mret (Z.land trigger (Z.land evs EVENT_EVENTS_MASK) =? trigger)
  else if has_flag mode EVENT_OR then
    if has_flag trigger (Z.land evs EVENT_EVENTS_MASK) then
      task_set task (set_event_id_trigger (Z.land trigger (Z.land evs EVENT_EVENTS_MASK)));;
      mret true
    else mret false
  else mret false.

(** [while (n != &(event->pend_list))] of [_EventTrigger]. *)
Fixpoint trigger_loop (fuel : nat) (event : ptr) (n : link) (resched : bool) : M kstate bool :=
  match fuel with
  | O => hang
  | S fuel =>
      if bool_decide (n = PendList CEvent event) then mret resched
      else
        task ← deref (sched_entry n);
        evs ← event_get event events;
        matched ← event_match task evs;
        nx ← klinks (get_next n);
        n ← deref nx;
        if (matched : bool) then
          mode ← task_get task event_mode;
          trigger ← task_get task event_id_trigger;
          (if has_flag mode EVENT_AUTOCLEAN
           then event_set event (fun e => set_events (Z.land (events e) (Z.lnot trigger) mod 2 ^ 29) e)
           else mret tt);;
          id ← task_id task;
          KTaskWakeup id;;
          trigger_loop fuel event n true
        else trigger_loop fuel event n resched
  end.

Definition _EventTrigger (event : ptr) (evs : Z) : M kstate Z :=
  if evs =? 0 then mret (- ERROR)
  else
    lock ← CriticalAreaLock;
    event_set event (fun e => set_events (Z.lor (events e) evs mod 2 ^ 29) e);;
    empty ← klinks (IsDoubleLinkListEmpty (PendList CEvent event));
    if (empty : bool) then CriticalAreaUnLock lock;; mret EOK
    else
      nx ← klinks (get_next (PendList CEvent event));
      n ← deref nx;
      k ← get;
      resched ← trigger_loop (S (size (links k))) event n false;
      CriticalAreaUnLock lock;;
      (if (resched : bool) then DO_KTASK_ASSIGN else mret tt);;
      mret EOK.

(** The result is [None] when the caller has to wait; otherwise the status and
    the value stored through [processed], if any. *)
Definition _EventProcess (mem : option ptr) (event : ptr) (evs options msec : Z)
    : M kstate (option (Z * option Z)) :=
  KDEBUG_IN_KTASK_CONTEXT;;
  if evs =? 0 then mret (Some (- ERROR, None))
  else
    cur ← GetKTaskDescriptor;
    task ← deref cur;
    task_set task (set_exstatus EOK);;
    let timeout := s32 (CalculteTickFromTimeMs (u32 msec)) in
    lock ← CriticalAreaLock;
    have ← event_get event events;
    ok ← (if has_flag options EVENT_AND then mret (Z.land have evs =? evs)
          else if has_flag options EVENT_OR then mret (has_flag have evs)
          else CHECK false;; mret false);
    if (ok : bool) then
      (if has_flag options EVENT_AUTOCLEAN
       then event_set event (fun e => set_events (Z.land (events e) (Z.lnot evs) mod 2 ^ 29) e)
       else mret tt);;
      CriticalAreaUnLock lock;;
      st ← task_get task exstatus;
      mret (Some (st, Some (Z.land have evs)))
    else if timeout =? 0 then
      task_set task (set_exstatus (- ETIMEOUT));;
      CriticalAreaUnLock lock;;
      st ← task_get task exstatus;
      mret (Some (st, None))
    else
      task_set task (set_event_id_trigger (Z.land evs EVENT_EVENTS_MASK));;
      task_set task (set_event_mode (Z.land options EVENT_OPTIONS_MASK));;
      flag ← event_get event event_options;
      LinklistSuspend (PendList CEvent event) task flag;;
      (if 0 <? timeout then KTaskSetDelay mem task timeout;; mret tt else mret tt);;
      CriticalAreaUnLock lock;;
      DO_KTASK_ASSIGN;;
      mret None.

Definition _EventProcess_resume (task : ptr) : M kstate (Z * option Z) :=
  st ← task_get task exstatus;
  if negb (st =? EOK) then mret (st, None)
  else
    lock ← CriticalAreaLock;
    trigger ← task_get task event_id_trigger;
    CriticalAreaUnLock lock;;
    st ← task_get task exstatus;
    mret (st, Some trigger).

Definition FindEventById (id : Z) : M kstate (option ptr) := find_object CEvent id.

Definition KEventCreate (mem : option ptr) (options : Z) : M kstate Z :=
  KDEBUG_NOT_IN_INTERRUPT;; _EventCreate mem options.

Definition KEventDelete (id : Z) : M kstate unit :=
  KDEBUG_NOT_IN_INTERRUPT;;
  event ← FindEventById id;
  match event with Some event => _EventDelete event | None => mret tt end.

Definition KEventTrigger (id evs : Z) : M kstate Z :=
  KDEBUG_NOT_IN_INTERRUPT;;
  event ← FindEventById id;
  match event with Some event => _EventTrigger event evs | None => mret (- ERROR) end.

(** A null event reaches [NULL_PARAM_CHECK] of [_EventProcess], behind its
    context check. *)
Definition KEventProcess (mem : option ptr) (id evs options msec : Z) : M kstate (option (Z * option Z)) :=
  KDEBUG_NOT_IN_INTERRUPT;;
  event ← FindEventById id;
  match event with
  | Some event => _EventProcess mem event evs options msec
  | None => KDEBUG_IN_KTASK_CONTEXT;; hang
  end.

(** ** Correctness *)

Implicit Types (k : kstate) (L : gmap link (list link)) (I : gmap Z link) (dl : list ptr).

Record event_ok k L (e : ptr) (x : Event) (l : list link) : Prop := {
  ek_object : event_objs k !! e = Some x;
  ek_list : L !! PendList CEvent e = Some l;
}.

Lemma wp_event_get {A : Type} e (f : Event -> A) x (Q : A -> kstate -> Prop) k :
  event_objs k !! e = Some x -> Q (f x) k -> wp (event_get e f) Q k.
Proof. intros E HQ. unfold event_get. wp_steps. rewrite E. by wp_steps. Qed.

Lemma wp_event_set e f x (Q : unit -> kstate -> Prop) k :
  event_objs k !! e = Some x -> Q tt (set_event_objs (<[e := f x]> (event_objs k)) k) -> wp (event_set e f) Q k.
Proof. intros E HQ. unfold event_set. wp_steps. rewrite E. by wp_steps. Qed.

(** The descriptor of a waiting task that the bits [ev] satisfy: with [EVENT_OR]
    it learns which of its bits occurred. *)
Definition satisfied (ev : Z) (td : TaskDescriptor) : option TaskDescriptor :=
  let bits := Z.land ev EVENT_EVENTS_MASK in
  if has_flag (event_mode td) EVENT_AND then
    if Z.land (event_id_trigger td) bits =? event_id_trigger td then Some td else None
  else if has_flag (event_mode td) EVENT_OR then
    if has_flag (event_id_trigger td) bits
    then Some (set_event_id_trigger (Z.land (event_id_trigger td) bits) td) else None
  else None.

(** The bits that are left after they were delivered to a task. *)
Definition consume (ev : Z) (td : TaskDescriptor) : Z :=
  if has_flag (event_mode td) EVENT_AUTOCLEAN
  then Z.land ev (Z.lnot (event_id_trigger td)) mod 2 ^ 29 else ev.

(** One pass over the waiting tasks: the bits left, the descriptors, the tasks
    that were satisfied and the tasks that still wait. *)
Fixpoint deliver (ev : Z) (ts : gmap ptr TaskDescriptor) (l : list link)
    : Z * gmap ptr TaskDescriptor * list ptr * list link :=
  match l with
  | [] => (ev, ts, [], [])
  | x :: l =>
      match (t ← sched_entry x; td ← ts !! t; td' ← satisfied ev td; Some (t, td')) with
      | Some (t, td') =>
          let '(ev', ts', ws, r) := deliver (consume ev td') (<[t := as_stat KTASK_READY td']> ts) l in
          (ev', ts', t :: ws, r)
      | None => let '(ev', ts', ws, r) := deliver ev ts l in (ev', ts', ws, x :: r)
      end
  end.

Lemma satisfied_same_sched ev td td' : satisfied ev td = Some td' -> same_sched td td'.
Proof.
  unfold satisfied. destruct (has_flag _ EVENT_AND).
  - case_match; [|done]. by intros [= <-].
  - destruct (has_flag _ EVENT_OR); [|done]. case_match; [|done]. by intros [= <-].
Qed.

(** The satisfied tasks become READY. *)
Lemma deliver_ready ev ts l w :
  let '(_, ts', ws, _) := deliver ev ts l in
  w ∈ ws \/ (exists td, ts !! w = Some td /\ stat_of td = KTASK_READY) ->
  exists td, ts' !! w = Some td /\ stat_of td = KTASK_READY.
Proof.
  revert ev ts. induction l as [|x l IH]; intros ev ts; cbn [deliver].
  { by intros [?%elem_of_nil|?]. }
  destruct (t ← sched_entry x; td ← ts !! t; td' ← satisfied ev td; Some (t, td')) as [[t td']|].
  - specialize (IH (consume ev td') (<[t := as_stat KTASK_READY td']> ts)).
    destruct (deliver _ _ l) as [[[ev' ts'] ws] r]. intros Hw. apply IH.
    assert (w <> t -> exists td, <[t := as_stat KTASK_READY td']> ts !! w = Some td /\ stat_of td = KTASK_READY \/ w ∈ ws) as Hne.
    { intros Hne. destruct Hw as [[->|Hw]%elem_of_cons|(td & E & Hs)]; [done|by exists td'; right|].
      exists td. left. by rewrite lookup_insert_ne. }
    destruct (decide (w = t)) as [->|[td [?|?]]%Hne]; [|right; by exists td|by left].
    right. eexists. split; [apply lookup_insert_eq|]. by apply stat_of_as_stat.
  - specialize (IH ev ts). by destruct (deliver _ _ l) as [[[ev' ts'] ws] r].
Qed.

Lemma wp_event_match t ev td (Q : bool -> kstate -> Prop) k :
  tasks k !! t = Some td ->
  match satisfied ev td with
  | Some td' => Q true (set_tasks (<[t := td']> (tasks k)) k)
  | None => Q false k
  end -> wp (event_match t ev) Q k.
Proof.
  intros Et HQ. unfold event_match. wp_steps. eapply wp_task_get; [exact Et|]. wp_steps.
  eapply wp_task_get; [exact Et|]. wp_steps. unfold satisfied in HQ.
  destruct (has_flag (event_mode td) EVENT_AND).
  - wp_steps. destruct (_ =? _); [by rewrite insert_id in HQ|done].
  - destruct (has_flag (event_mode td) EVENT_OR); [|by wp_steps].
    destruct (has_flag (event_id_trigger td) _); [|by wp_steps].
    wp_steps. eapply wp_task_set; [exact Et|]. by wp_steps.
Qed.

(** Everything but the waiting tasks and the event [e] is kept. *)
Definition event_frame k k' (e : ptr) (x : Event) : Prop :=
  core k' = set_event_objs (<[e := x]> (event_objs k)) (core k).

Lemma kernel_ok_event k L I dl v : kernel_ok k L I dl -> kernel_ok (set_event_objs v k) L I dl.
Proof. intros H. by eapply kernel_ok_fields. Qed.

Context `{CO : !KConfigOk C} `{DL : !ReadyVectorLaws D}.

(** The body of the loop for a satisfied task. *)
Lemma wp_deliver {A : Type} k L I dl e o ev t td td' pre l (m : M kstate A) (Q : A -> kstate -> Prop) :
  kernel_ok k L I dl -> event_objs k !! e = Some (mkEvent o ev) ->
  L !! PendList CEvent e = Some (pre ++ SchedLink t :: l) -> tasks k !! t = Some td ->
  satisfied ev td = Some td' -> 0 <= KTaskOsAssignLockNest k < 2 ^ 15 - 2 ->
  (forall k' L' dl', kernel_ok k' L' I dl' -> event_frame k k' e (mkEvent o (consume ev td')) ->
     tasks k' = <[t := as_stat KTASK_READY td']> (tasks k) -> L' !! PendList CEvent e = Some (pre ++ l) -> wp m Q k') ->
  wp (mode ← task_get t event_mode;
      trigger ← task_get t event_id_trigger;
      (if has_flag mode EVENT_AUTOCLEAN
       then event_set e (fun e => set_events (Z.land (events e) (Z.lnot trigger) mod 2 ^ 29) e)
       else mret tt);;
      id ← task_id t;
      KTaskWakeup id;; m) Q (set_tasks (<[t := td']> (tasks k)) k).
Proof.
  intros Hko Ee HL Et Hsat Hn HQ. set (k1 := set_tasks (<[t := td']> (tasks k)) k).
  assert (kernel_ok k1 L I dl) as Hko1 by (apply (kernel_ok_update k L I dl t td); [done|done|by eapply satisfied_same_sched]).
  assert (tasks k1 !! t = Some td') as Et1 by apply lookup_insert_eq.
  wp_steps. eapply wp_task_get; [exact Et1|]. wp_steps. eapply wp_task_get; [exact Et1|]. wp_steps.
  set (k2 := set_event_objs (<[e := mkEvent o (consume ev td')]> (event_objs k1)) k1).
  cut (wp (id ← task_id t; KTaskWakeup id;; m) Q k2).
  { intros Hend. destruct (has_flag (event_mode td') EVENT_AUTOCLEAN) eqn:Ea.
    - eapply wp_event_set; [exact Ee|]. unfold k2, consume in Hend. rewrite Ea in Hend. exact Hend.
    - wp_steps. unfold k2, consume in Hend. rewrite Ea in Hend. change (event_objs k1) with (event_objs k) in Hend.
      rewrite insert_id in Hend by done. by apply wp_unbind. }
  assert (kernel_ok k2 L I dl) as Hko2 by by apply kernel_ok_event.
  wp_steps. eapply wp_task_id; [exact Hko2|by eexists|]. intros id Hid. wp_steps. unfold KTaskWakeup.
  eapply wp_by_id; [exact Hko2|exact Hid|cbn; lia|].
  assert (stat_of td' = KTASK_SUSPEND) as Hst.
  { destruct (ko_member _ _ _ _ Hko1 (PendList CEvent e) _ (SchedLink t) KTASK_SUSPEND eq_refl HL) as (y & tdy & [= <-] & Ey & ?);
      [set_solver|congruence]. }
  eapply wp__KTaskWakeup; [exact Hko2|exact Et1|exact Hst|cbn; lia|].
  intros k3 L3 Hko3 Hq Ets Hoth. wp_steps. apply (HQ k3 L3 _ Hko3).
  - unfold event_frame. rewrite (q_core _ _ Hq). done.
  - rewrite Ets. cbn. by rewrite insert_insert_eq.
  - rewrite Hoth, HL by done. cbn. f_equal.
    pose proof (rep_nodup _ _ (so_rep _ _ (ko_sched _ _ _ _ Hko)) _ _ HL) as [_ Hnd]%NoDup_cons.
    apply NoDup_middle in Hnd as [Hnin _]. apply without_middle; set_solver.
Qed.

Lemma wp_trigger_loop fuel k L I dl e o ev pre l resched (Q : bool -> kstate -> Prop) :
  kernel_ok k L I dl -> event_objs k !! e = Some (mkEvent o ev) -> L !! PendList CEvent e = Some (pre ++ l) ->
  (length l < fuel)%nat -> 0 <= KTaskOsAssignLockNest k < 2 ^ 15 - 2 ->
  (let '(ev', ts', ws, r) := deliver ev (tasks k) l in
   forall k' L' dl', kernel_ok k' L' I dl' -> event_frame k k' e (mkEvent o ev') -> tasks k' = ts' ->
     L' !! PendList CEvent e = Some (pre ++ r) -> Q (resched || negb (bool_decide (ws = []))) k') ->
  wp (trigger_loop fuel e (List.hd (PendList CEvent e) l) resched) Q k.
Proof.
  revert k L dl ev pre l resched. induction fuel as [|fuel IH]; intros k L dl ev pre l resched Hko Ee HL Hf Hn HQ; [lia|].
  pose proof (so_rep _ _ (ko_sched _ _ _ _ Hko)) as HR. cbn [trigger_loop].
  destruct l as [|x l]; cbn [List.hd].
  { rewrite bool_decide_true by done. apply wp_ret. rewrite <- (orb_false_r resched).
    apply (HQ k L dl); [done| |done|done]. unfold event_frame. by rewrite insert_id. }
  destruct (ko_member _ _ _ _ Hko (PendList CEvent e) _ x KTASK_SUSPEND eq_refl HL) as (t & td & -> & Et & _); [set_solver|].
  rewrite bool_decide_false by done. cbn [sched_entry]. wp_steps. eapply wp_event_get; [exact Ee|]. wp_steps.
  eapply wp_event_match; [exact Et|]. cbn [deliver sched_entry mbind option_bind] in HQ. rewrite Et in HQ.
  cbn [mbind option_bind] in HQ. cbn [events].
  assert (forall k2, links k2 = links k -> forall P : option link -> kstate -> Prop,
    P (Some (List.hd (PendList CEvent e) l)) k2 -> wp (klinks (get_next (SchedLink t))) P k2) as Hnext.
  { intros k2 El P HP. apply wp_klinks. rewrite El. apply wp_get_next; [eapply rep_alloc; [done|exact HL|set_solver]|].
    rewrite (rep_next _ _ _ pre (SchedLink t) l HR HL). by rewrite <- El. }
  destruct (satisfied ev td) as [td'|] eqn:Esat.
  - wp_steps. cbn [mbind option_bind] in HQ. apply Hnext; [done|]. wp_steps.
    eapply (wp_unbind (task_get t event_mode)), (wp_deliver k L I dl e o ev t td td' pre l); [done..|].
    intros k1 L1 dl1 Hko1 Hfr Ets HL1.
    destruct (deliver (consume ev td') (<[t := as_stat KTASK_READY td']> (tasks k)) l) as [[[ev' ts'] ws] r] eqn:Ed in HQ.
    assert (event_objs k1 = <[e := mkEvent o (consume ev td')]> (event_objs k)) as Eo1
      by (change (event_objs (core k1) = <[e := mkEvent o (consume ev td')]> (event_objs k)); by rewrite Hfr).
    assert (KTaskOsAssignLockNest k1 = KTaskOsAssignLockNest k) as En1
      by (change (KTaskOsAssignLockNest (core k1) = KTaskOsAssignLockNest k); by rewrite Hfr).
    apply (IH k1 L1 dl1 (consume ev td') pre l true Hko1); [by rewrite Eo1, lookup_insert_eq|done|cbn in Hf; lia|lia|].
    rewrite Ets, Ed. intros k' L' dl' Hko' Hfr' Ets' HL'. rewrite orb_true_l.
    replace true with (resched || negb (bool_decide (t :: ws = []))) by (rewrite bool_decide_false by done; apply orb_true_r).
    apply (HQ k' L' dl'); [done| |done|done].
    unfold event_frame in *. rewrite Hfr', Eo1, Hfr, insert_insert_eq. done.
  - wp_steps. cbn [mbind option_bind] in HQ. apply Hnext; [done|]. wp_steps.
    destruct (deliver ev (tasks k) l) as [[[ev' ts'] ws] r] eqn:Ed in HQ.
    apply (IH k L dl ev (pre ++ [SchedLink t]) l resched Hko); [done|by rewrite <- app_assoc|cbn in Hf; lia|done|].
    rewrite Ed. intros k' L' dl' Hko' Hfr' Ets' HL'. apply (HQ k' L' dl'); [done..|]. by rewrite HL', <- app_assoc.
Qed.



(** The end of [_EventTrigger]: the woken tasks [ws] are READY in [ts']. *)
Lemma wp_trigger_end k k3 L2 I dl2 e o ev' ts' ws l' c (Q : unit -> kstate -> Prop) :
  let upd := set_event_objs (<[e := mkEvent o ev']> (event_objs k)) k in
  kernel_ok k3 L2 I dl2 -> event_ok k3 L2 e (mkEvent o ev') l' -> core k3 = core upd -> tasks k3 = ts' ->
  os_running_task k = Some c -> KTaskOsAssignLockNest k = 0 -> isr_count k = 0 ->
  (forall w, w ∈ ws -> exists td, ts' !! w = Some td /\ stat_of td = KTASK_READY) ->
  (forall k' L' dl', kernel_ok k' L' I dl' -> event_ok k' L' e (mkEvent o ev') l' -> rescheduled (set_tasks ts' k) k' ->
     (ws <> [] -> runs_highest k') -> visible k' = visible upd -> Q tt k') ->
  wp (if false || negb (bool_decide (ws = [])) then DO_KTASK_ASSIGN else mret tt) Q k3.
Proof.
  intros upd Hko3 Hek Hcore Ets Hc Hn Hi Hws HQ. case_bool_decide as Hnil; cbn [orb negb].
  - apply wp_ret, (HQ k3 L2 dl2); [done|done| |done|by apply visible_outer, outer_core].
    intros t td E. exists td. split; [|split; [by destruct td|by left]]. by rewrite Ets.
  - destruct ws as [|w ws]; [done|]. destruct (Hws w ltac:(set_solver)) as (tdw & Ew & Hsw).
    eapply (wp_reschedule k3 L2 I dl2 c); [done| |left; exists w, tdw; split; [by rewrite Ets|done]|..].
    + change (os_running_task (core k3) = Some c). by rewrite Hcore.
    + change (KTaskOsAssignLockNest (core k3) = 0). by rewrite Hcore.
    + intros k4 L4 Hko4 Hvis _ Hrun Hres _ HL4.
      assert (visible k4 = visible upd) as Hv4 by (rewrite Hvis; by apply visible_outer, outer_core).
      apply (HQ k4 L4 dl2); [done| | |intros _|done].
      * split; [|rewrite HL4 by done; apply Hek]. change (event_objs (visible k4) !! e = Some (mkEvent o ev')). rewrite Hv4. apply lookup_insert_eq.
      * intros t td E. apply Hres. by rewrite Ets.
      * apply Hrun. change (isr_count (core k3) = 0). by rewrite Hcore.
Qed.

(** C23: triggering an event.  No bits, or an unknown event, give -ERROR without
    an effect.  Otherwise the bits are added and one pass over the waiting tasks in
    their order delivers them ([deliver]): a satisfied task leaves the list and can
    run, with the bits it waited for (EVENT_AND) or got (EVENT_OR) in its descriptor;
    EVENT_AUTOCLEAN takes these bits away before the next task is looked at.  If a
    task was satisfied the highest READY task runs. *)
Theorem KEventTrigger_correct k L I dl id e x l evs c :
  kernel_ok k L I dl -> has_object k L CEvent id e -> event_ok k L e x l ->
  os_running_task k = Some c -> KTaskOsAssignLockNest k = 0 -> isr_count k = 0 ->
  wp (KEventTrigger id evs) (fun r k' =>
    if evs =? 0 then r = - ERROR /\ k' = k
    else r = EOK /\
      let '(ev', ts', ws, l') := deliver (Z.lor (events x) evs mod 2 ^ 29) (tasks k) l in
      exists L' dl', kernel_ok k' L' I dl' /\ event_ok k' L' e (mkEvent (event_options x) ev') l' /\
        rescheduled (set_tasks ts' k) k' /\ (ws <> [] -> runs_highest k') /\
        visible k' = visible (set_event_objs (<[e := mkEvent (event_options x) ev']> (event_objs k)) k)) k.
Proof.
  intros Hko Hobj [Ee HL] Hc Hn Hi. unfold KEventTrigger. wp_steps. apply wp_KDEBUG_NOT_IN_INTERRUPT; [done|]. wp_steps.
  unfold FindEventById. eapply wp_find_object; [exact Hobj|lia|]. wp_steps. unfold _EventTrigger.
  destruct (evs =? 0); [by wp_steps|]. wp_steps. apply wp_CriticalAreaLock; [lia|]. wp_steps.
  eapply wp_event_set; [exact Ee|]. wp_steps. destruct x as [o ev]. cbn [events event_options].
  unfold set_events at 1. cbn [event_options]. set (ev0 := Z.lor ev evs mod 2 ^ 29) in *.
  set (k1 := set_event_objs _ (locked k)).
  assert (kernel_ok k1 L I dl) as Hko1 by by eapply kernel_ok_fields.
  assert (event_objs k1 !! e = Some (mkEvent o ev0)) as Ee1 by apply lookup_insert_eq.
  pose proof (so_rep _ _ (ko_sched _ _ _ _ Hko1)) as HR.
  apply wp_klinks. eapply (wp_IsDoubleLinkListEmpty _ L); [done|exact HL|]. rewrite set_links_id.
  assert (unlocked (interrupts k) k1 = set_event_objs (<[e := mkEvent o ev0]> (event_objs k)) k) as Ek1.
  { unfold unlocked, k1, locked. cbn. by rewrite Z.add_simpl_r. }
  destruct l as [|y l].
  { rewrite bool_decide_true by done. wp_steps. apply wp_CriticalAreaUnLock; [cbn; lia|]. rewrite Ek1. wp_steps.
    cbn [deliver]. split; [done|]. exists L, dl. split_and!; [by apply kernel_ok_event|by split|exact (rescheduled_refl k)|done|done]. }
  rewrite bool_decide_false by done. wp_steps. apply wp_klinks, wp_get_next; [by eapply alloc_nxt, rep_first|].
  rewrite (rep_first _ _ _ _ HR HL), set_links_id. wp_steps.
  pose proof (rep_length _ _ _ _ HR HL) as Hlen.
  destruct (deliver ev0 (tasks k) (y :: l)) as [[[ev' ts'] ws] l'] eqn:Ed.
  eapply (wp_trigger_loop _ k1 L I dl e o ev0 [] (y :: l)); [done..|lia|cbn; lia|].
  change (tasks k1) with (tasks k). rewrite Ed. intros k2 L2 dl2 Hko2 Hfr Ets HL2. wp_steps.
  assert (core (unlocked (interrupts k) k2) = core (set_event_objs (<[e := mkEvent o ev']> (event_objs k)) k)) as Hcore.
  { change (unlocked (interrupts k) (core k2) = core (set_event_objs (<[e := mkEvent o ev']> (event_objs k)) k)).
    rewrite Hfr. unfold unlocked, core, k1, locked. cbn. by rewrite insert_insert_eq, Z.add_simpl_r. }
  apply wp_CriticalAreaUnLock.
  { change (1 <= KTaskOsAssignLockNest (core k2) < 2 ^ 15). rewrite Hfr. cbn. lia. }
  set (k3 := unlocked (interrupts k) k2) in *.
  assert (kernel_ok k3 L2 I dl2) as Hko3 by by eapply kernel_ok_fields.
  assert (event_ok k3 L2 e (mkEvent o ev') l') as Hek.
  { split; [|done]. change (event_objs (core k3) !! e = Some (mkEvent o ev')). rewrite Hcore. apply lookup_insert_eq. }
  wp_steps. eapply (wp_trigger_end k k3 L2 I dl2 e o ev' ts' ws l' c); try done.
  - intros w Hw. pose proof (deliver_ready ev0 (tasks k) (y :: l) w) as Hr. rewrite Ed in Hr. apply Hr. by left.
  - intros k4 L4 dl4 H1 H2 H3 H4 H5. wp_steps. split; [done|]. by exists L4, dl4.
Qed.

(** Whether the bits [have] are what a caller asks for. *)
Definition occurred (have evs options : Z) : bool :=
  if has_flag options EVENT_AND then Z.land have evs =? evs else has_flag have evs.

Lemma wp_occurred have evs options (Q : bool -> kstate -> Prop) k :
  has_flag options EVENT_AND || has_flag options EVENT_OR = true -> Q (occurred have evs options) k ->
  wp (if has_flag options EVENT_AND then mret (Z.land have evs =? evs)
      else if has_flag options EVENT_OR then mret (has_flag have evs)
      else CHECK false;; mret false) Q k.
Proof. unfold occurred. destruct (has_flag options EVENT_AND), (has_flag options EVENT_OR); done. Qed.

(** Waiting for events.  No bits give -ERROR.  If they occurred already the call
    returns EOK and those that did, and EVENT_AUTOCLEAN clears the requested bits;
    otherwise the caller, with the bits and the mode it waits for in its descriptor,
    is suspended on the event with its delay set, and the highest READY task runs. *)
Theorem KEventProcess_correct k L I dl mem id e x l evs options msec t td :
  kernel_ok k L I dl -> has_object k L CEvent id e -> event_ok k L e x l -> task_context k t td mem ->
  has_flag options EVENT_AND || has_flag options EVENT_OR = true ->
  event_options x = LINKLIST_FLAG_FIFO \/ event_options x = LINKLIST_FLAG_PRIO ->
  wp (KEventProcess mem id evs options msec) (fun r k' =>
    let td1 := set_exstatus EOK td in
    let td2 := set_event_mode (Z.land options EVENT_OPTIONS_MASK)
                 (set_event_id_trigger (Z.land evs EVENT_EVENTS_MASK) td1) in
    if evs =? 0 then r = Some (- ERROR, None) /\ k' = k
    else if occurred (events x) evs options then
      let left := if has_flag options EVENT_AUTOCLEAN
                  then Z.land (events x) (Z.lnot evs) mod 2 ^ 29 else events x in
      r = Some (EOK, Some (Z.land (events x) evs)) /\
      k' = set_event_objs (<[e := set_events left x]> (event_objs k)) (set_tasks (<[t := td1]> (tasks k)) k)
    else r = None /\ runs_highest k' /\ outer k' = outer k /\
      exists L' dl' l', kernel_ok k' L' I dl' /\ event_ok k' L' e x l' /\ l' ≡ₚ SchedLink t :: l /\
        waits k' L' dl' t td2 (PendList CEvent e) (CalculteTickFromTimeMs (u32 msec)) (heartbeat_ticks k)) k.
Proof.
  intros Hko Hobj [Ee HL] Hctx Hopt Hflag. pose proof Hctx as [Hc Et Hst Hother Hn Hi Hfresh].
  unfold KEventProcess. wp_steps. apply wp_KDEBUG_NOT_IN_INTERRUPT; [done|]. wp_steps.
  unfold FindEventById. eapply wp_find_object; [exact Hobj|lia|]. wp_steps. unfold _EventProcess. wp_steps.
  apply (wp_KDEBUG_IN_KTASK_CONTEXT k t); [done|done|lia|]. wp_steps. destruct (evs =? 0); [by wp_steps|]. wp_steps.
  apply wp_GetKTaskDescriptor; [lia|]. rewrite Hc. wp_steps. eapply wp_task_set; [exact Et|]. wp_steps.
  set (k1 := set_tasks _ k). destruct (CalculteTickFromTimeMs_int32 (u32 msec)) as [Hb Hs]. rewrite Hs.
  apply wp_CriticalAreaLock; [cbn; lia|]. wp_steps. change (interrupts k1) with (interrupts k).
  eapply wp_event_get; [exact Ee|]. wp_steps.
  apply (wp_occurred (events x) evs options); [done|].
  assert (tasks (locked k1) !! t = Some (set_exstatus EOK td)) as Et1 by apply lookup_insert_eq.
  destruct (occurred (events x) evs options).
  - wp_steps. set (left := if has_flag options EVENT_AUTOCLEAN then Z.land (events x) (Z.lnot evs) mod 2 ^ 29 else events x).
    set (k2 := set_event_objs (<[e := set_events left x]> (event_objs k)) (locked k1)).
    assert (forall P : unit -> kstate -> Prop, P tt k2 ->
      wp (if has_flag options EVENT_AUTOCLEAN
          then event_set e (fun e => set_events (Z.land (events e) (Z.lnot evs) mod 2 ^ 29) e) else mret tt) P (locked k1)) as Hclean.
    { intros P HP. unfold k2, left in HP. destruct (has_flag options EVENT_AUTOCLEAN).
      - eapply wp_event_set; [exact Ee|]. exact HP.
      - apply wp_ret. rewrite insert_id in HP by (by destruct x). exact HP. }
    apply Hclean. wp_steps. apply wp_CriticalAreaUnLock; [cbn; lia|]. wp_steps.
    eapply wp_task_get; [exact Et1|]. wp_steps. split; [done|].
    unfold k2, k1, unlocked, locked. cbn. by rewrite Z.add_simpl_r.
  - rewrite (proj2 (Z.eqb_neq _ 0)) by lia. wp_steps. eapply wp_task_set; [exact Et1|]. wp_steps.
    eapply wp_task_set; [cbn; apply lookup_insert_eq|]. wp_steps. eapply wp_event_get; [exact Ee|].
    match goal with |- wp ?m ?Q ?s =>
      assert (s = set_tasks (<[t := set_event_mode (Z.land options EVENT_OPTIONS_MASK)
        (set_event_id_trigger (Z.land evs EVENT_EVENTS_MASK) (set_exstatus EOK td))]> (tasks k)) (locked k)) as ->
    end.
    { unfold k1, locked. cbn. by rewrite !insert_insert_eq. }
    eapply (wp_block_in_context k L I dl mem t td); [done|done|done|done|exact HL|done|].
    intros k' L' dl' Hko' Hout Hr HL' Hoth Hw _. split_and!; [done..|]. exists L', dl'. eexists.
    split_and!; [done|split; [|exact HL']| |exact Hw].
    + change (event_objs (outer k') !! e = Some x). by rewrite Hout.
    + unfold insert_nth. by rewrite <- Permutation_middle, take_drop.
Qed.


End Event.
