(* ===== verification/MsgQueue.v ===== *)
(** * Message queues: kernel/thread/msgqueue.c

    A queue stores up to [max_msgs] messages of [each_len] bytes in the ring
    [msg_buf].  Sending and receiving can wait several times; they are split at
    [DO_KTASK_ASSIGN]: [MqWaiting] carries the local variables [timeout] and
    [tick_delta] of the call, which [_resume] is given when the task runs
    again. *)

From S2P Require Import Prelude DoubleLink IdManager Bitmap Kernel ReadyVector Assign Delay Task TaskInv Deadlines PendList Waiting Semaphore.

Section MsgQueue.
Context `{C : KConfig} `{D : PriorityReadyVectorDone}.

Inductive mq_call : Type :=
| MqDone (ret : Z) (data : list Z)
| MqWaiting (timeout tick_delta : Z).

Definition mq_get {A : Type} (q : ptr) (f : MsgQueue -> A) : M kstate A :=
  k ← get; x ← deref (mqs k !! q); mret (f x).
Definition mq_set (q : ptr) (f : MsgQueue -> MsgQueue) : M kstate unit :=
  k ← get; x ← deref (mqs k !! q); modify (set_mqs (<[q := f x]> (mqs k))).

Definition mq_links (q : ptr) : list link :=
  [SendPendList q; PendList CMq q; ObjLink CMq q; IdLink CMq q].

Definition new_mq (q : ptr) : M kstate unit :=
  modify (fun k => set_mqs (<[q := mkMsgQueue None 0 0 0 0]> (mqs k)) (zero_links (mq_links q) k));;
  modify (fun k => set_node_ids (<[IdLink CMq q := 0]> (node_ids k)) k).
Definition free_mq (q : ptr) : M kstate unit :=
  k ← get;
  deref (mqs k !! q);;
  modify (fun k => set_mqs (delete q (mqs k)) (drop_links (mq_links q) k));;
  modify (fun k => set_node_ids (delete (IdLink CMq q) (node_ids k)) k).

Definition GetMsgQueueById (id : Z) : M kstate (option ptr) := find_object CMq id.

(** [buf n] is what [x_malloc(n)] returns: the bytes of the block. *)
Definition _InitMsgQueue (buf : Z -> option (list Z)) (mq : ptr) (msg_size max : Z) : M kstate Z :=
  mq_set mq (set_max_msgs (u16 max));;
  mq_set mq (set_num_msgs 0);;
  mq_set mq (set_each_len (u16 (ALIGN_MEN_UP msg_size MEM_ALIGN_SIZE)));;
  mq_set mq (set_mq_index 0);;
  klinks (InitDoubleLinkList (SendPendList mq));;
  klinks (InitDoubleLinkList (PendList CMq mq));;
  len ← mq_get mq each_len;
  n ← mq_get mq max_msgs;
  mq_set mq (set_msg_buf (buf (len * n)));;
  b ← mq_get mq msg_buf;
  match b with
  | None =>
      lock ← CriticalAreaLock;
      klinks (DoubleLinkListRmNode (ObjLink CMq mq));;
      CriticalAreaUnLock lock;;
      free_mq mq;;
      mret (- ENOMEMORY)
  | Some _ => mret EOK
  end.

(** [memcpy(msg, buffer, size)] into the slot that starts at byte [off]. *)
Definition mq_store (mq : ptr) (off : Z) (buffer : list Z) : M kstate unit :=
  b ← mq_get mq msg_buf;
  b ← deref b;
  if off + Z.of_nat (length buffer) <=? Z.of_nat (length b)
  then mq_set mq (set_msg_buf (Some (list_inserts (Z.to_nat off) buffer b))) else fault.

Definition mq_fetch (mq : ptr) (off n : Z) : M kstate (list Z) :=
  b ← mq_get mq msg_buf;
  b ← deref b;
  if off + n <=? Z.of_nat (length b) then mret (take (Z.to_nat n) (drop (Z.to_nat off) b)) else fault.

(** [mq->msg_buf + ((mq->index + mq->num_msgs) % mq->max_msgs) * mq->each_len] *)
Definition write_offset (mq : ptr) : M kstate Z :=
  q ← mq_get mq (fun q => q);
  if max_msgs q =? 0 then fault
  else mret ((mq_index q + num_msgs q) mod max_msgs q * each_len q).

(** Resume the first task of [list], leave the critical area and reschedule. *)
Definition wake_first (list : link) (lock : bool) : M kstate unit :=
  empty ← klinks (IsDoubleLinkListEmpty list);
  if negb empty then
    LinklistResume list;;
    CriticalAreaUnLock lock;;
    DO_KTASK_ASSIGN
  else CriticalAreaUnLock lock.

(** Suspend the task on [list], with a delay when the timeout is positive, and
    give up the processor; the result is the new [tick_delta]. *)
Definition mq_wait (mem : option ptr) (task : ptr) (list : link) (timeout tick_delta : Z) (lock : bool) : M kstate Z :=
  LinklistSuspend list task LINKLIST_FLAG_FIFO;;
  tick_delta ← (if 0 <? timeout then
                  now ← CurrentTicksGain;
                  KTaskSetDelay mem task timeout;;
                  mret now
                else mret tick_delta);
  CriticalAreaUnLock lock;;
  DO_KTASK_ASSIGN;;
  mret tick_delta.

(** The rest of the timeout after a wait. *)
Definition remaining (timeout tick_delta : Z) : M kstate Z :=
  now ← CurrentTicksGain;
  mret (if 0 <? timeout then
          let timeout := s32 (timeout - u32 (now - tick_delta)) in
          if timeout <? 0 then 0 else timeout
        else timeout).

(** ** Sending *)

(** [while (mq->num_msgs >= mq->max_msgs)] and what follows it, in the critical area. *)
Definition send_loop (mem : option ptr) (mq : ptr) (cur : option ptr) (buffer : list Z) (timeout tick_delta : Z) (lock : bool)
    : M kstate mq_call :=
  num ← mq_get mq num_msgs;
  max ← mq_get mq max_msgs;
  if max <=? num then
    task ← deref cur;
    task_set task (set_exstatus EOK);;
    if timeout =? 0 then CriticalAreaUnLock lock;; mret (MqDone (- EFULL) [])
    else
      KDEBUG_IN_KTASK_CONTEXT;;
      tick_delta ← mq_wait mem task (SendPendList mq) timeout tick_delta lock;
      mret (MqWaiting timeout tick_delta)
  else
    off ← write_offset mq;
    mq_store mq off buffer;;
    mq_set mq (fun q => set_num_msgs (u16 (num_msgs q + 1)) q);;
    wake_first (PendList CMq mq) lock;;
    mret (MqDone EOK []).

Definition _MsgQueueSend (mem : option ptr) (mq : ptr) (buffer : list Z) (msec : Z) : M kstate mq_call :=
  len ← mq_get mq each_len;
  if len <? Z.of_nat (length buffer) then mret (MqDone (- ERROR) [])
  else
    cur ← GetKTaskDescriptor;
    let timeout := s32 (CalculteTickFromTimeMs (u32 msec)) in
    lock ← CriticalAreaLock;
    num ← mq_get mq num_msgs;
    max ← mq_get mq max_msgs;
    if (max <=? num) && (timeout =? 0) then CriticalAreaUnLock lock;; mret (MqDone (- EFULL) [])
    else send_loop mem mq cur buffer timeout 0 lock.

Definition _MsgQueueSend_resume (mem : option ptr) (mq task : ptr) (buffer : list Z) (timeout tick_delta : Z)
    : M kstate mq_call :=
  st ← task_get task exstatus;
  if negb (st =? EOK) then mret (MqDone st [])
  else
    lock ← CriticalAreaLock;
    timeout ← remaining timeout tick_delta;
    send_loop mem mq (Some task) buffer timeout tick_delta lock.

Definition _MsgQueueUrgentSend (mq : ptr) (buffer : list Z) : M kstate Z :=
  len ← mq_get mq each_len;
  if len <? Z.of_nat (length buffer) then mret (- ERROR)
  else
    lock ← CriticalAreaLock;
    num ← mq_get mq num_msgs;
    max ← mq_get mq max_msgs;
    if max <=? num then CriticalAreaUnLock lock;; mret (- EFULL)
    else
      mq_set mq (fun q => set_mq_index (u16 (mq_index q - 1)) q);;
      idx ← mq_get mq mq_index;
      (if idx <? 0 then mq_set mq (fun q => set_mq_index (u16 (mq_index q + max_msgs q)) q) else mret tt);;
      off ← write_offset mq;
      mq_store mq off buffer;;
      mq_set mq (fun q => set_num_msgs (u16 (num_msgs q + 1)) q);;
      wake_first (SendPendList mq) lock;;
      mret EOK.

(** ** Receiving *)

Definition recv_loop (mem : option ptr) (mq : ptr) (cur : option ptr) (size timeout tick_delta : Z) (lock : bool)
    : M kstate mq_call :=
  num ← mq_get mq num_msgs;
  if num <=? 0 then
    KDEBUG_IN_KTASK_CONTEXT;;
    task ← deref cur;
    task_set task (set_exstatus EOK);;
    if timeout =? 0 then
      CriticalAreaUnLock lock;;
      task_set task (set_exstatus (- ETIMEOUT));;
      mret (MqDone (- ETIMEOUT) [])
    else
      tick_delta ← mq_wait mem task (PendList CMq mq) timeout tick_delta lock;
      mret (MqWaiting timeout tick_delta)
  else
    q ← mq_get mq (fun q => q);
    let off := mq_index q * each_len q in
    (if max_msgs q =? 0 then fault
     else mq_set mq (set_mq_index ((mq_index q + 1) mod max_msgs q)));;
    data ← mq_fetch mq off (if each_len q <? size then each_len q else size);
    mq_set mq (fun q => set_num_msgs (u16 (num_msgs q - 1)) q);;
    wake_first (SendPendList mq) lock;;
    mret (MqDone EOK data).

Definition _MsgQueueRecv (mem : option ptr) (mq : ptr) (size msec : Z) : M kstate mq_call :=
  cur ← GetKTaskDescriptor;
  let timeout := s32 (CalculteTickFromTimeMs (u32 msec)) in
  lock ← CriticalAreaLock;
  idx ← mq_get mq mq_index;
  if (idx =? 0) && (timeout =? 0) then CriticalAreaUnLock lock;; mret (MqDone (- ETIMEOUT) [])
  else recv_loop mem mq cur size timeout 0 lock.

Definition _MsgQueueRecv_resume (mem : option ptr) (mq task : ptr) (size timeout tick_delta : Z)
    : M kstate mq_call :=
  st ← task_get task exstatus;
  if negb (st =? EOK) then mret (MqDone st [])
  else
    lock ← CriticalAreaLock;
    timeout ← remaining timeout tick_delta;
    recv_loop mem mq (Some task) size timeout tick_delta lock.

(** ** Reset and deletion *)

Definition _MsgQueueReinit (mq : ptr) : M kstate Z :=
  lock ← CriticalAreaLock;
  LinklistResumeAll (SendPendList mq);;
  LinklistResumeAll (PendList CMq mq);;
  mq_set mq (set_mq_index 0);;
  mq_set mq (set_num_msgs 0);;
  CriticalAreaUnLock lock;;
  DO_KTASK_ASSIGN;;
  mret EOK.

Definition _DeleteMsgQueue (mq : ptr) : M kstate Z :=
  LinklistResumeAll (SendPendList mq);;
  LinklistResumeAll (PendList CMq mq);;
  mq_get mq msg_buf;;
  lock ← CriticalAreaLock;
  klinks (DoubleLinkListRmNode (ObjLink CMq mq));;
  CriticalAreaUnLock lock;;
  free_mq mq;;
  mret EOK.

Definition KCreateMsgQueue (mem : option ptr) (buf : Z -> option (list Z)) (msg_size max : Z) : M kstate Z :=
  match mem with
  | None => mret (- ENOMEMORY)
  | Some mq =>
      new_mq mq;;
      lock ← CriticalAreaLock;
      id ← kid CMq (IdInsertObj (Bucket CMq) (IdLink CMq mq));
      CriticalAreaUnLock lock;;
      if id <? 0 then free_mq mq;; mret (- ENOMEMORY)
      else
        lock ← CriticalAreaLock;
        klinks (DoubleLinkListInsertNodeAfter (ListHead CMq) (ObjLink CMq mq));;
        CriticalAreaUnLock lock;;
        ret ← _InitMsgQueue buf mq msg_size max;
        if ret =? EOK then object_id CMq mq else mret (- ERROR)
  end.

Definition KMsgQueueReinit (id : Z) : M kstate Z :=
  mq ← GetMsgQueueById id;
  match mq with Some mq => _MsgQueueReinit mq | None => mret (- EINVALED) end.

Definition KMsgQueueRecv (mem : option ptr) (id size timeout : Z) : M kstate mq_call :=
  mq ← GetMsgQueueById id;
  match mq with
  | Some mq => _MsgQueueRecv mem mq size timeout
  | None => mret (MqDone (- EINVALED) [])
  end.

Definition KDeleteMsgQueue (id : Z) : M kstate Z :=
  mq ← GetMsgQueueById id;
  match mq with Some mq => _DeleteMsgQueue mq | None => mret (- EINVALED) end.

Definition KMsgQueueUrgentSend (id : Z) (buffer : list Z) : M kstate Z :=
  mq ← GetMsgQueueById id;
  match mq with Some mq => _MsgQueueUrgentSend mq buffer | None => mret (- EINVALED) end.

Definition KMsgQueueSendwait (mem : option ptr) (id : Z) (buffer : list Z) (timeout : Z) : M kstate mq_call :=
  mq ← GetMsgQueueById id;
  match mq with
  | Some mq => _MsgQueueSend mem mq buffer timeout
  | None => mret (MqDone (- EINVALED) [])
  end.

Definition KMsgQueueSend (mem : option ptr) (id : Z) (buffer : list Z) : M kstate mq_call :=
  mq ← GetMsgQueueById id;
  match mq with
  | Some mq => _MsgQueueSend mem mq buffer 0
  | None => mret (MqDone (- EINVALED) [])
  end.

(** ** The ring of messages *)

(** Slot [j] of a ring whose first message is in slot [i]. *)
Lemma slot_wrap i j cap : 0 <= i < cap -> 0 <= j < cap ->
  (i + j) mod cap = if i + j <? cap then i + j else i + j - cap.
Proof.
  intros Hi Hj. destruct (Z.ltb_spec (i + j) cap); [apply Z.mod_small; lia|].
  symmetry. apply (Z.mod_unique_pos _ _ 1); lia.
Qed.

(** Different slots do not overlap. *)
Lemma slots_apart i j n cap len : 0 <= i < cap -> 0 <= j < n -> n < cap -> 0 <= len ->
  (i + j) mod cap * len + len <= (i + n) mod cap * len \/ (i + n) mod cap * len + len <= (i + j) mod cap * len.
Proof.
  intros Hi Hj Hn Hl. assert ((i + j) mod cap <> (i + n) mod cap) as Hne.
  { rewrite !slot_wrap by lia. destruct (Z.ltb_spec (i + j) cap), (Z.ltb_spec (i + n) cap); lia. }
  generalize dependent ((i + j) mod cap). generalize dependent ((i + n) mod cap). intros a b Hab.
  destruct (Z.lt_ge_cases a b); [right|left]; nia.
Qed.

(** The buffer [b] holds the messages [ms] from slot [i] on, each at the start of
    a slot of [len] bytes. *)
Record ring (cap len : Z) (b : list Z) (i : Z) (ms : list (list Z)) : Prop := {
  rg_length : Z.of_nat (length b) = len * cap;
  rg_cap : 0 < cap < 2 ^ 16;
  rg_each : 0 <= len < 2 ^ 16;
  rg_index : 0 <= i < cap;
  rg_num : Z.of_nat (length ms) <= cap;
  rg_msg : forall j m, ms !! j = Some m -> Z.of_nat (length m) <= len /\
    forall n e, m !! n = Some e -> b !! (Z.to_nat ((i + Z.of_nat j) mod cap * len) + n)%nat = Some e;
}.

Lemma ring_slot cap len b i ms j : ring cap len b i ms ->
  0 <= (i + j) mod cap * len /\ (i + j) mod cap * len + len <= Z.of_nat (length b).
Proof. intros []. pose proof (Z.mod_pos_bound (i + j) cap ltac:(lia)). nia. Qed.

Lemma ring_send cap len b i ms m :
  ring cap len b i ms -> Z.of_nat (length ms) < cap -> Z.of_nat (length m) <= len ->
  ring cap len (list_inserts (Z.to_nat ((i + Z.of_nat (length ms)) mod cap * len)) m b) i (ms ++ [m]).
Proof.
  intros HR Hlt Hm. pose proof HR as [Hb Hc He Hi _ Hmsg].
  pose proof (ring_slot cap len b i ms (Z.of_nat (length ms)) HR) as Hs.
  split; [by rewrite length_inserts|done|done|done|rewrite length_app; cbn; lia|].
  intros j x Hx. apply lookup_app_Some in Hx as [Hx|[Hj Hx]].
  - pose proof (lookup_lt_Some _ _ _ Hx) as Hj. destruct (Hmsg j x Hx) as [Hxl Hxe]. split; [done|]. intros n e Hn.
    pose proof (lookup_lt_Some _ _ _ Hn). pose proof (ring_slot cap len b i ms (Z.of_nat j) HR) as Hs'.
    destruct (slots_apart i (Z.of_nat j) (Z.of_nat (length ms)) cap len); [lia..|rewrite list_lookup_inserts_lt by lia|
      rewrite list_lookup_inserts_ge by lia]; by apply Hxe.
  - destruct (j - length ms)%nat eqn:E; [|done]. injection Hx as <-. assert (j = length ms) as -> by lia.
    split; [done|]. intros n e Hn. pose proof (lookup_lt_Some _ _ _ Hn).
    rewrite list_lookup_inserts by lia. by replace (_ + n - _)%nat with n by lia.
Qed.

Lemma ring_recv cap len b i m ms size :
  ring cap len b i (m :: ms) -> 0 <= size ->
  let n := if len <? size then len else size in
  let data := take (Z.to_nat n) (drop (Z.to_nat (i * len)) b) in
  ring cap len b ((i + 1) mod cap) ms /\ i * len + n <= Z.of_nat (length b) /\
  Z.of_nat (length data) = n /\ take (Z.to_nat size) m `prefix_of` data.
Proof.
  intros HR Hsz n data. pose proof HR as [Hb Hc He Hi Hn Hmsg]. cbn [length] in Hn.
  assert (0 <= n <= len) as Hnl by (unfold n; destruct (Z.ltb_spec len size); lia).
  assert (i * len + len <= Z.of_nat (length b)) as Hfit by nia.
  split; [|split; [lia|split]].
  - split; [done|done|done|apply Z.mod_pos_bound; lia|lia|]. intros j x Hx.
    specialize (Hmsg (S j) x Hx). rewrite Zplus_mod_idemp_l.
    by replace (i + 1 + Z.of_nat j) with (i + Z.of_nat (S j)) by lia.
  - unfold data. rewrite length_take, length_drop. lia.
  - destruct (Hmsg 0%nat m eq_refl) as [Hml Hme]. rewrite Z.add_0_r, (Z.mod_small i) in Hme by lia.
    exists (drop (length (take (Z.to_nat size) m)) data). rewrite <- (take_drop (length (take (Z.to_nat size) m)) data) at 1.
    f_equal. apply list_eq. intros j. destruct (decide (j < length (take (Z.to_nat size) m))%nat) as [Hj|Hj].
    all: rewrite length_take in Hj.
    2:{ rewrite !lookup_ge_None_2; [done|rewrite !length_take; lia..]. }
    rewrite !lookup_take_lt by (rewrite ?length_take; lia). unfold data.
    rewrite lookup_take_lt by (unfold n; destruct (Z.ltb_spec len size); lia). rewrite lookup_drop.
    destruct (lookup_lt_is_Some_2 m j) as [e Ee]; [lia|]. rewrite Ee. by apply Hme.
Qed.

(** ** Correctness *)

Implicit Types (k : kstate) (L : gmap link (list link)) (I : gmap Z link) (dl : list ptr).

(** The queue [q] of [cap] messages of at most [len] bytes holds [ms]; [ls] wait
    to send and [lr] to receive. *)
Record mq_ok k L (q : ptr) (cap len : Z) (ms : list (list Z)) (ls lr : list link) : Prop := {
  mk_object : exists b i, mqs k !! q = Some (mkMsgQueue (Some b) i (Z.of_nat (length ms)) len cap) /\ ring cap len b i ms;
  mk_send : L !! SendPendList q = Some ls;
  mk_recv : L !! PendList CMq q = Some lr;
}.

Lemma wp_mq_get {A : Type} q (f : MsgQueue -> A) x (Q : A -> kstate -> Prop) k :
  mqs k !! q = Some x -> Q (f x) k -> wp (mq_get q f) Q k.
Proof. intros E HQ. unfold mq_get. wp_steps. rewrite E. by wp_steps. Qed.

Lemma wp_mq_set q f x (Q : unit -> kstate -> Prop) k :
  mqs k !! q = Some x -> Q tt (set_mqs (<[q := f x]> (mqs k)) k) -> wp (mq_set q f) Q k.
Proof. intros E HQ. unfold mq_set. wp_steps. rewrite E. by wp_steps. Qed.

Lemma kernel_ok_mqs k L I dl v : kernel_ok k L I dl -> kernel_ok (set_mqs v k) L I dl.
Proof. intros H. by eapply kernel_ok_fields. Qed.

(** Of what the scheduler does not change only the queue [q] differs. *)
Definition mq_frame k k' (q : ptr) : Prop :=
  exists x, visible k' = visible (set_mqs (<[q := x]> (mqs k)) k).

(** If tasks wait on a list the first of them can run. *)
Definition first_woken (l : list link) k' : Prop :=
  forall x, head l = Some x -> exists w, x = SchedLink w /\ woken k' w.

Context `{CO : !KConfigOk C} `{DL : !ReadyVectorLaws D}.

Lemma wp_wake_first k L I dl c hd l lock (Q : unit -> kstate -> Prop) :
  kernel_ok k L I dl -> os_running_task k = Some c -> KTaskOsAssignLockNest k = 1 ->
  pend_list hd -> L !! hd = Some l ->
  (forall k' L' dl', kernel_ok k' L' I dl' -> visible k' = visible (unlocked lock k) -> first_woken l k' ->
     (l <> [] -> isr_count k = 0 -> runs_highest k') -> L' !! hd = Some (tail l) -> other_lists_kept hd L L' -> Q tt k') ->
  wp (wake_first hd lock) Q k.
Proof.
  intros Hko Hc Hn Hhd HL HQ. unfold wake_first. wp_steps. apply wp_klinks.
  eapply (wp_IsDoubleLinkListEmpty _ L); [apply Hko|exact HL|]. rewrite set_links_id. destruct l as [|x l].
  - rewrite bool_decide_true by done. cbn [negb]. apply wp_CriticalAreaUnLock; [lia|].
    apply (HQ _ L dl); [by eapply kernel_ok_fields|done..].
  - rewrite bool_decide_false by done. cbn [negb]. wp_steps.
    destruct (ko_member _ _ _ _ Hko hd _ x KTASK_SUSPEND Hhd HL) as (w & tdw & -> & Ew & _); [set_solver|].
    eapply wp_mono; [eapply (wp_resume_switch k L I dl c hd w l lock Q); [done..|]|wp_next; done].
    intros k' L' dl' Hko' Hvis Hr Hw HL' Hoth _.
    apply (HQ k' L' dl'); [done|done| |done|done|done]. intros x [= <-]. by exists w.
Qed.

Lemma wp_send_stores k L I dl c mem q cur buffer timeout tick lock cap len ms ls lr (Q : mq_call -> kstate -> Prop) :
  kernel_ok k L I dl -> os_running_task k = Some c -> KTaskOsAssignLockNest k = 1 ->
  mq_ok k L q cap len ms ls lr -> Z.of_nat (length ms) < cap -> Z.of_nat (length buffer) <= len ->
  (forall k' L' dl', kernel_ok k' L' I dl' -> mq_ok k' L' q cap len (ms ++ [buffer]) ls (tail lr) ->
     mq_frame (unlocked lock k) k' q -> first_woken lr k' -> (lr <> [] -> isr_count k = 0 -> runs_highest k') ->
     Q (MqDone EOK []) k') ->
  wp (send_loop mem q cur buffer timeout tick lock) Q k.
Proof.
  intros Hko Hc Hn [(b & i & Eq & HR) HLs HLr] Hlt Hbuf HQ. unfold send_loop. wp_steps.
  eapply wp_mq_get; [exact Eq|]. wp_steps. eapply wp_mq_get; [exact Eq|]. cbn [num_msgs max_msgs].
  rewrite (proj2 (Z.leb_gt _ _)) by done. unfold write_offset. wp_steps. eapply wp_mq_get; [exact Eq|].
  cbn [num_msgs max_msgs mq_index each_len]. pose proof (rg_cap _ _ _ _ _ HR) as Hcap.
  rewrite (proj2 (Z.eqb_neq _ _)) by lia. wp_steps. unfold mq_store. wp_steps. eapply wp_mq_get; [exact Eq|].
  cbn [msg_buf]. wp_steps. pose proof (ring_slot _ _ _ _ _ (Z.of_nat (length ms)) HR).
  rewrite (proj2 (Z.leb_le _ _)) by lia. eapply wp_mq_set; [exact Eq|]. wp_steps.
  eapply wp_mq_set; [cbn; apply lookup_insert_eq|]. wp_steps.
  unfold set_msg_buf, set_num_msgs. cbn [mq_index num_msgs each_len max_msgs msg_buf mqs set_mqs].
  set (b' := list_inserts _ _ _). set (x := mkMsgQueue _ _ _ _ _). set (k1 := set_mqs _ _).
  assert (kernel_ok k1 L I dl) as Hko1 by by do 2 apply kernel_ok_mqs.
  assert (mqs k1 = <[q := x]> (mqs k)) as Ek1 by (cbn; by rewrite insert_insert_eq).
  eapply (wp_wake_first k1 L I dl c (PendList CMq q) lr); [done..|].
  intros k' L' dl' Hko' Hvis Hw Hr HL' Hoth. wp_steps. apply (HQ k' L' dl'); [done| | |done|done].
  - split; [|by rewrite Hoth|done]. exists b', i. split.
    + change (mqs (visible k') !! q = Some (mkMsgQueue (Some b') i (Z.of_nat (length (ms ++ [buffer]))) len cap)).
      rewrite Hvis. change (mqs k1 !! q = Some (mkMsgQueue (Some b') i (Z.of_nat (length (ms ++ [buffer]))) len cap)).
      rewrite Ek1, lookup_insert_eq. unfold x. do 2 f_equal. rewrite u16_small, length_app by lia. cbn. lia.
    + by apply ring_send.
  - exists x. rewrite Hvis. unfold k1, unlocked. cbn. by rewrite insert_insert_eq.
Qed.

Lemma wp_recv_takes k L I dl c mem q cur size timeout tick lock cap len m ms ls lr (Q : mq_call -> kstate -> Prop) :
  kernel_ok k L I dl -> os_running_task k = Some c -> KTaskOsAssignLockNest k = 1 ->
  mq_ok k L q cap len (m :: ms) ls lr -> 0 <= size ->
  (forall k' L' dl' data, kernel_ok k' L' I dl' -> mq_ok k' L' q cap len ms (tail ls) lr ->
     mq_frame (unlocked lock k) k' q -> first_woken ls k' -> (ls <> [] -> isr_count k = 0 -> runs_highest k') ->
     Z.of_nat (length data) = (if len <? size then len else size) -> take (Z.to_nat size) m `prefix_of` data ->
     Q (MqDone EOK data) k') ->
  wp (recv_loop mem q cur size timeout tick lock) Q k.
Proof.
  intros Hko Hc Hn [(b & i & Eq & HR) HLs HLr] Hsz HQ. unfold recv_loop. wp_steps.
  eapply wp_mq_get; [exact Eq|]. cbn [num_msgs length]. rewrite (proj2 (Z.leb_gt _ _)) by lia. wp_steps.
  eapply wp_mq_get; [exact Eq|]. cbn [num_msgs max_msgs mq_index each_len]. pose proof (rg_cap _ _ _ _ _ HR) as Hcap.
  rewrite (proj2 (Z.eqb_neq _ _)) by lia. wp_steps. eapply wp_mq_set; [exact Eq|]. wp_steps.
  pose proof (rg_num _ _ _ _ _ HR) as Hnum. cbn [length] in Hnum.
  destruct (ring_recv cap len b i m ms size HR Hsz) as (HR' & Hfit & Hdl & Hpre).
  unfold mq_fetch. wp_steps. eapply wp_mq_get; [cbn; apply lookup_insert_eq|]. cbn [msg_buf set_mq_index]. wp_steps.
  rewrite (proj2 (Z.leb_le _ _)) by done. wp_steps. eapply wp_mq_set; [cbn; apply lookup_insert_eq|]. wp_steps.
  unfold set_mq_index, set_num_msgs. cbn [mq_index num_msgs each_len max_msgs msg_buf mqs set_mqs].
  set (x := mkMsgQueue _ _ _ _ _). set (k1 := set_mqs _ _). set (data := take _ _) in *.
  assert (kernel_ok k1 L I dl) as Hko1 by by do 2 apply kernel_ok_mqs.
  assert (mqs k1 = <[q := x]> (mqs k)) as Ek1 by (cbn; by rewrite insert_insert_eq).
  eapply (wp_wake_first k1 L I dl c (SendPendList q) ls); [done..|].
  intros k' L' dl' Hko' Hvis Hw Hr HL' Hoth. wp_steps. apply (HQ k' L' dl'); [done| | |done|done|done|done].
  - split; [|done|by rewrite Hoth]. exists b, ((i + 1) mod cap). split; [|done].
    change (mqs (visible k') !! q = Some (mkMsgQueue (Some b) ((i + 1) mod cap) (Z.of_nat (length ms)) len cap)).
    rewrite Hvis. change (mqs k1 !! q = Some (mkMsgQueue (Some b) ((i + 1) mod cap) (Z.of_nat (length ms)) len cap)).
    rewrite Ek1, lookup_insert_eq. unfold x. do 2 f_equal. rewrite u16_small by lia. lia.
  - exists x. rewrite Hvis. unfold k1, unlocked. cbn. by rewrite insert_insert_eq.
Qed.

Lemma wp_mq_wait k L I dl mem t td td' hd l timeout tick (Q : Z -> kstate -> Prop) :
  kernel_ok k L I dl -> task_context k t td mem -> same_sched td td' -> pend_list hd -> L !! hd = Some l -> 0 < timeout ->
  (forall k' L' dl', kernel_ok k' L' I dl' -> outer k' = outer k -> runs_highest k' ->
     L' !! hd = Some (l ++ [SchedLink t]) -> other_lists_kept hd L L' ->
     waits k' L' dl' t td' hd timeout (heartbeat_ticks k) -> Q (heartbeat_ticks k) k') ->
  wp (mq_wait mem t hd timeout tick (interrupts k)) Q (set_tasks (<[t := td']> (tasks k)) (locked k)).
Proof.
  intros Hko Hctx Hss Hhd HL Ht HQ. unfold mq_wait. rewrite (proj2 (Z.ltb_lt _ _) Ht). apply wp_bind.
  eapply wp_mono; [eapply (wp_block_steps_in_context k L I dl mem t td td' hd l LINKLIST_FLAG_FIFO timeout Q);
    [done..|by left|]|].
  - intros k' L' dl' Hko' Hout Hr HL' Hoth Hw _. apply (HQ k' L' dl'); [done|done|done| |done|done].
    rewrite HL'. unfold insert_nth, wait_position. change (LINKLIST_FLAG_FIFO =? LINKLIST_FLAG_PRIO) with false.
    by rewrite take_ge, drop_ge by done.
  - rewrite (proj2 (Z.ltb_lt _ _) Ht). intros _ k1 H. unfold CurrentTicksGain. wp_steps.
    apply wp_unbind in H. eapply wp_mono; [exact H|]. do 2 wp_next. intros ? k4 ?. by wp_steps.
Qed.

(** What a call leaves that waits on the list [hd] ... *)
Definition mq_waits k k' I (q t : ptr) (td : TaskDescriptor) (hd : link) cap len ms ls lr timeout (r : mq_call) : Prop :=
  r = MqWaiting timeout (heartbeat_ticks k) /\ runs_highest k' /\ outer k' = outer k /\
  exists L' dl', kernel_ok k' L' I dl' /\ mq_ok k' L' q cap len ms ls lr /\
    waits k' L' dl' t (set_exstatus EOK td) hd timeout (heartbeat_ticks k).

(** ... and one that returns and wakes the first task of the list [l]. *)
Definition mq_done k k' I (q : ptr) cap len ms ls lr l : Prop :=
  exists L' dl', kernel_ok k' L' I dl' /\ mq_ok k' L' q cap len ms ls lr /\
    mq_frame k k' q /\ first_woken l k' /\ (l <> [] -> isr_count k = 0 -> runs_highest k').

Lemma mq_ok_kept k k' L L' q cap len ms ls lr ls' lr' :
  mq_ok k L q cap len ms ls lr -> outer k' = outer k ->
  L' !! SendPendList q = Some ls' -> L' !! PendList CMq q = Some lr' -> mq_ok k' L' q cap len ms ls' lr'.
Proof.
  intros [(b & i & Eq & HR) _ _] Ho Hs Hr. split; [|done|done]. exists b, i. split; [|done].
  rewrite <- Eq. change (mqs (outer k') !! q = mqs (outer k) !! q). by rewrite Ho.
Qed.

(** C37: sending.  A message longer than a slot gives -ERROR.  While the queue has
    room the message becomes its last one and, in a task or an interrupt handler,
    the first waiting receiver can run; when it is full the caller waits behind the
    other senders, also one that asked not to wait, with its delay set, and the
    highest READY task runs. *)
Theorem KMsgQueueSendwait_correct k L I dl mem id q cap len ms ls lr buffer msec t td :
  kernel_ok k L I dl -> has_object k L CMq id q -> mq_ok k L q cap len ms ls lr ->
  os_running_task k = Some t -> KTaskOsAssignLockNest k = 0 ->
  (Z.of_nat (length ms) = cap -> task_context k t td mem) ->
  wp (KMsgQueueSendwait mem id buffer msec) (fun r k' =>
    if len <? Z.of_nat (length buffer) then r = MqDone (- ERROR) [] /\ k' = k
    else if Z.of_nat (length ms) <? cap then r = MqDone EOK [] /\ mq_done k k' I q cap len (ms ++ [buffer]) ls (tail lr) lr
    else mq_waits k k' I q t td (SendPendList q) cap len ms (ls ++ [SchedLink t]) lr
           (CalculteTickFromTimeMs (u32 msec)) r) k.
Proof.
  intros Hko Hobj Hmq Hc Hn Hctx. pose proof Hmq as [(b & i & Eq & HR) HLs HLr]. unfold KMsgQueueSendwait. wp_steps.
  eapply wp_find_object; [exact Hobj|lia|]. wp_steps. unfold _MsgQueueSend. wp_steps.
  eapply wp_mq_get; [exact Eq|]. cbn [each_len]. destruct (Z.ltb_spec len (Z.of_nat (length buffer))) as [|Hlen]; [by wp_steps|].
  wp_steps. apply wp_GetKTaskDescriptor; [lia|]. rewrite Hc.
  destruct (CalculteTickFromTimeMs_int32 (u32 msec)) as [Hb Hs]. rewrite Hs.
  wp_steps. apply wp_CriticalAreaLock; [lia|]. wp_steps. eapply wp_mq_get; [exact Eq|]. wp_steps.
  eapply wp_mq_get; [exact Eq|]. rewrite (proj2 (Z.eqb_neq _ 0)) by lia. rewrite andb_false_r.
  pose proof (rg_num _ _ _ _ _ HR) as Hnum. destruct (Z.ltb_spec (Z.of_nat (length ms)) cap) as [Hlt|Hge].
  - eapply (wp_send_stores (locked k) L I dl t); [by eapply kernel_ok_fields|done|cbn; lia|by split; [exists b, i| |]|done|done|].
    rewrite unlocked_locked. intros k' L' dl' ? ? ? ? ?. split; [done|]. by exists L', dl'.
  - assert (task_context k t td mem) as Hctx' by (apply Hctx; lia). unfold send_loop. wp_steps.
    eapply wp_mq_get; [exact Eq|]. wp_steps. eapply wp_mq_get; [exact Eq|]. cbn [num_msgs max_msgs].
    rewrite (proj2 (Z.leb_le _ _)) by lia. wp_steps. eapply wp_task_set; [apply (tc_task _ _ _ _ Hctx')|].
    rewrite (proj2 (Z.eqb_neq _ 0)) by lia. wp_steps.
    apply (wp_KDEBUG_IN_KTASK_CONTEXT _ t); [done|apply Hctx'|cbn; lia|]. wp_steps.
    eapply (wp_mq_wait k L I dl mem t td); [done|done|done|done|exact HLs|lia|].
    intros k' L' dl' Hko' Hout Hr HL' Hoth Hw. wp_steps. split_and!; [done..|]. exists L', dl'.
    split_and!; [done| |done]. eapply mq_ok_kept; [exact Hmq|done|done|by rewrite Hoth].
Qed.

(** C24: receiving.  The first message leaves the queue: the data are [size] bytes,
    at most a slot, and begin with the message (the code keeps no message lengths);
    the first waiting sender can run.  On an empty queue the caller waits behind the
    other receivers with its delay set and the highest READY task runs. *)
Theorem KMsgQueueRecv_correct k L I dl mem id q cap len ms ls lr size msec t td :
  kernel_ok k L I dl -> has_object k L CMq id q -> mq_ok k L q cap len ms ls lr -> 0 <= size ->
  os_running_task k = Some t -> KTaskOsAssignLockNest k = 0 -> (ms = [] -> task_context k t td mem) ->
  wp (KMsgQueueRecv mem id size msec) (fun r k' =>
    match ms with
    | m :: ms' => exists data, r = MqDone EOK data /\ mq_done k k' I q cap len ms' (tail ls) lr ls /\
        Z.of_nat (length data) = (if len <? size then len else size) /\ take (Z.to_nat size) m `prefix_of` data
    | [] => mq_waits k k' I q t td (PendList CMq q) cap len [] ls (lr ++ [SchedLink t])
              (CalculteTickFromTimeMs (u32 msec)) r
    end) k.
Proof.
  intros Hko Hobj Hmq Hsz Hc Hn Hctx. pose proof Hmq as [(b & i & Eq & HR) HLs HLr]. unfold KMsgQueueRecv. wp_steps.
  eapply wp_find_object; [exact Hobj|lia|]. wp_steps. unfold _MsgQueueRecv. wp_steps.
  apply wp_GetKTaskDescriptor; [lia|]. rewrite Hc.
  destruct (CalculteTickFromTimeMs_int32 (u32 msec)) as [Hb Hs]. rewrite Hs.
  wp_steps. apply wp_CriticalAreaLock; [lia|]. wp_steps. eapply wp_mq_get; [exact Eq|].
  rewrite (proj2 (Z.eqb_neq (CalculteTickFromTimeMs _) 0)) by lia. rewrite andb_false_r. destruct ms as [|m ms].
  - specialize (Hctx eq_refl). unfold recv_loop. wp_steps. eapply wp_mq_get; [exact Eq|]. cbn [num_msgs length].
    change (Z.of_nat 0 <=? 0) with true. wp_steps.
    apply (wp_KDEBUG_IN_KTASK_CONTEXT _ t); [done|apply Hctx|cbn; lia|]. wp_steps.
    eapply wp_task_set; [apply (tc_task _ _ _ _ Hctx)|]. rewrite (proj2 (Z.eqb_neq _ 0)) by lia. wp_steps.
    eapply (wp_mq_wait k L I dl mem t td); [done|done|done|done|exact HLr|lia|].
    intros k' L' dl' Hko' Hout Hr HL' Hoth Hw. wp_steps. split_and!; [done..|]. exists L', dl'.
    split_and!; [done| |done]. eapply mq_ok_kept; [exact Hmq|done|by rewrite Hoth|done].
  - eapply (wp_recv_takes (locked k) L I dl t); [by eapply kernel_ok_fields|done|cbn; lia|by split; [exists b, i| |]|done|].
    rewrite unlocked_locked. intros k' L' dl' data ? ? ? ? ? ? ?. exists data. split_and!; [done| |done|done]. by exists L', dl'.
Qed.

End MsgQueue.
