(* ===== verification/WorkQueue.v ===== *)
(** * Work queues: kernel/thread/workqueue.c

    A ring of [MAX_WORK_QUEUE] entries and a task that runs the callbacks of the
    entries in their order.  The one queue of the kernel is [sys_workq].  Callbacks
    are addresses of code, 0 for NONE. *)

From S2P Require Import Prelude DoubleLink IdManager Bitmap Kernel ReadyVector Assign Delay Task TaskInv Deadlines PendList Waiting Interrupt Ticks Sleep.

(** ** The state *)

Definition MAX_WORK_QUEUE : Z := 32.

Record Work : Type := mkWork { cb_func : Z; cb_param : Z }.

Record WorkqueueType : Type := mkWorkqueue {
  front : Z;
  rear : Z;
  base : list Work;
  work_task : Z;  (* the identifier of the task *)
}.

(** The kernel with its work queue. *)
Record work_state : Type := mkWorkState { ws_kernel : kstate; sys_workq : WorkqueueType }.

Definition set_ws_kernel (k : kstate) (s : work_state) : work_state := mkWorkState k (sys_workq s).
Definition set_sys_workq (q : WorkqueueType) (s : work_state) : work_state := mkWorkState (ws_kernel s) q.

Definition on_kernel {A : Type} : M kstate A -> M work_state A := zoom ws_kernel set_ws_kernel.

Section WorkQueue.
Context `{C : KConfig} `{D : PriorityReadyVectorDone}.

(** ** Submitting *)

Definition WorkInit (work_func work_data : Z) : Work := mkWork work_func work_data.

(** The ring after an entry was written at [rear]. *)
Definition add_work (work : Work) (q : WorkqueueType) : WorkqueueType :=
  mkWorkqueue (front q) (Z.rem (rear q + 1) MAX_WORK_QUEUE) (<[Z.to_nat (rear q) := work]> (base q)) (work_task q).

(** [None] where the function ends without a return statement: the result is
    indeterminate. *)
Definition WorkSubmit_immediate (work : Work) : M work_state (option Z) :=
  lock ← on_kernel CriticalAreaLock;
  q ← gets sys_workq;
  if Z.rem (rear q + 1 + MAX_WORK_QUEUE) MAX_WORK_QUEUE =? front q then
    on_kernel (CriticalAreaUnLock lock);; mret (Some (- ERROR))
  else
    deref (base q !! Z.to_nat (rear q));;
    modify (fun s => set_sys_workq (add_work work (sys_workq s)) s);;
    on_kernel (KTaskWakeup (work_task q));;
    on_kernel (CriticalAreaUnLock lock);;
    on_kernel DO_KTASK_ASSIGN;;
    mret None.

(** ** The task of the queue *)

(** The first half of a turn of [WorkQueueKTaskEntry], up to where it leaves the
    critical area: the index of the entry it took, or [None] from an empty queue. *)
Definition take_work : M work_state (option Z) :=
  lock ← on_kernel CriticalAreaLock;
  q ← gets sys_workq;
  if negb (front q =? rear q) then
    modify (fun s => let q := sys_workq s in
      set_sys_workq (mkWorkqueue (Z.rem (front q + 1) MAX_WORK_QUEUE) (rear q) (base q) (work_task q)) s);;
    on_kernel (CriticalAreaUnLock lock);;
    mret (Some (front q))
  else on_kernel (CriticalAreaUnLock lock);; mret None.

(** The second half; [call f i p] runs the code at [f] on the entry at [i] and [p]. *)
Definition run_work (call : Z -> Z -> Z -> M work_state unit) (taken : option Z) : M work_state unit :=
  match taken with
  | Some i =>
      q ← gets sys_workq;
      work ← deref (base q !! Z.to_nat i);
      if negb (cb_func work =? 0) then call (cb_func work) i (cb_param work) else mret tt
  | None =>
      q ← gets sys_workq;
      on_kernel (SuspendKTask (work_task q));;
      on_kernel DO_KTASK_ASSIGN
  end.

(** One turn of the loop. *)
Definition WorkQueueKTaskEntry (call : Z -> Z -> Z -> M work_state unit) : M work_state unit :=
  taken ← take_work; run_work call taken.

(** ** Creating a queue *)

(** [p_queue] and [base] are the addresses of the two blocks, if any.  The task field
    is read before [p_queue] is tested. *)
Definition DeInitWorkQueue (p_queue base : option Z) (task : Z) : M kstate unit :=
  deref p_queue;;
  (if negb (task =? 0) then KTaskDelete task;; mret tt else mret tt);;
  free_block base;;
  free_block p_queue.

(** [entry] is the address of [WorkQueueKTaskEntry]; [p_queue], [base], [mem] and
    [stack] are what the allocations return.  The parameter [stack_size] is not used. *)
Definition CreateWorkQueue (entry : Z) (p_queue base : option Z) (mem : option ptr) (stack : option Z)
    (nm : string) (stack_size priority : Z) : M kstate (option WorkqueueType) :=
  q ← malloc_block p_queue;
  match q with
  | None => DeInitWorkQueue None None 0;; mret None
  | Some addr =>
      b ← malloc_block base;
      match b with
      | None => DeInitWorkQueue q None 0;; mret None
      | Some _ =>
          task ← KTaskCreate mem stack (Some nm) (Some entry) addr 2048 priority;
          if task =? 0 then DeInitWorkQueue q b 0;; mret None
          else
            StartupKTask task;;
            mret (Some (mkWorkqueue 0 0 (replicate (Z.to_nat MAX_WORK_QUEUE) (mkWork 0 0)) task))
      end
  end.

(** [sys] is the queue of the system, if it exists already; [mem0] the allocation of
    its descriptor. *)
Definition WorkSysWorkQueueInit (entry WORKQUEUE_KTASK_STACKSIZE WORKQUEUE_KTASK_PRIORITY : Z)
    (mem0 p_queue base : option Z) (mem : option ptr) (stack : option Z) (sys : option WorkqueueType) :
    M kstate (option WorkqueueType * Z) :=
  match sys with
  | Some q => mret (Some q, 0)
  | None =>
      b ← malloc_block mem0;
      deref b;;
      q ← CreateWorkQueue entry p_queue base mem stack "sys_work" WORKQUEUE_KTASK_STACKSIZE WORKQUEUE_KTASK_PRIORITY;
      mret (q, match q with None => ERROR | Some _ => EOK end)
  end.

(** ** The ring as a queue *)

Definition count (q : WorkqueueType) : nat := Z.to_nat ((rear q - front q) mod MAX_WORK_QUEUE).

(** The entries from [front] to [rear]. *)
Definition works (q : WorkqueueType) : list Work :=
  (fun i => default (mkWork 0 0) (base q !! Z.to_nat ((front q + Z.of_nat i) mod MAX_WORK_QUEUE))) <$> seq 0 (count q).

Record wq_ok (q : WorkqueueType) : Prop := {
  wo_length : length (base q) = Z.to_nat MAX_WORK_QUEUE;
  wo_front : 0 <= front q < MAX_WORK_QUEUE;
  wo_rear : 0 <= rear q < MAX_WORK_QUEUE;
}.

Lemma works_length q : length (works q) = count q.
Proof. unfold works. by rewrite length_fmap, length_seq. Qed.

Lemma rem_mod x : 0 <= x -> Z.rem x MAX_WORK_QUEUE = x mod MAX_WORK_QUEUE.
Proof. intros. by apply Z.rem_mod_nonneg. Qed.

(** One place always stays free. *)
Lemma full_spec q : wq_ok q ->
  (Z.rem (rear q + 1 + MAX_WORK_QUEUE) MAX_WORK_QUEUE =? front q) = bool_decide (length (works q) = 31%nat).
Proof.
  intros [_ Hf Hr]. rewrite works_length, rem_mod by lia. unfold count, MAX_WORK_QUEUE in *.
  destruct (Z.eqb_spec ((rear q + 1 + 32) mod 32) (front q)); case_bool_decide as E; try done; exfalso; [apply E|];
    Z.div_mod_to_equations; lia.
Qed.

Lemma empty_spec q : wq_ok q -> (front q =? rear q) = bool_decide (works q = []).
Proof.
  intros [_ Hf Hr]. assert (works q = [] <-> count q = 0%nat) as E.
  { rewrite <- works_length. destruct (works q); done. }
  rewrite (bool_decide_ext _ _ E). unfold count, MAX_WORK_QUEUE in *.
  destruct (Z.eqb_spec (front q) (rear q)) as [Ef|Ef]; case_bool_decide as Ec; try done; exfalso.
  - apply Ec. rewrite Ef, Z.sub_diag. done.
  - Z.div_mod_to_equations. lia.
Qed.

Lemma add_work_ok w q : wq_ok q -> length (works q) <> 31%nat ->
  wq_ok (add_work w q) /\ works (add_work w q) = works q ++ [w].
Proof.
  intros Hq Hfull. pose proof Hq as [Hl Hf Hr]. rewrite works_length in Hfull.
  unfold add_work. rewrite rem_mod by lia. unfold count, MAX_WORK_QUEUE in *. split.
  - split; cbn; [by rewrite length_insert|done|apply Z.mod_pos_bound; unfold MAX_WORK_QUEUE; lia].
  - unfold works, count, MAX_WORK_QUEUE. cbn.
    assert (Z.to_nat (((rear q + 1) mod 32 - front q) mod 32) = S (Z.to_nat ((rear q - front q) mod 32))) as ->.
    { Z.div_mod_to_equations. lia. }
    rewrite seq_S, fmap_app. cbn [fmap list_fmap Nat.add]. f_equal.
    + apply list_fmap_ext. intros i x Hi. apply lookup_seq in Hi as [-> Hi]. f_equal. apply list_lookup_insert_ne.
      clear Hfull. Z.div_mod_to_equations. lia.
    + rewrite Z2Nat.id by (apply Z.mod_pos_bound; lia).
      assert ((front q + (rear q - front q) mod 32) mod 32 = rear q) as ->.
      { clear Hfull. Z.div_mod_to_equations. lia. }
      rewrite list_lookup_insert_eq by lia. done.
Qed.

Lemma take_work_ok q w ws : wq_ok q -> works q = w :: ws ->
  let q' := mkWorkqueue (Z.rem (front q + 1) MAX_WORK_QUEUE) (rear q) (base q) (work_task q) in
  wq_ok q' /\ works q' = ws /\ base q !! Z.to_nat (front q) = Some w.
Proof.
  intros Hq Hw. pose proof Hq as [Hl Hf Hr]. cbv zeta. rewrite rem_mod by lia.
  assert (count q = S (length ws)) as Hc by (rewrite <- works_length, Hw; done).
  unfold works in Hw. rewrite Hc in Hw. cbn [seq fmap list_fmap] in Hw. injection Hw as Hw1 Hw2.
  unfold MAX_WORK_QUEUE in *. split_and!.
  - split; cbn; [done|apply Z.mod_pos_bound; unfold MAX_WORK_QUEUE; lia|done].
  - unfold works, count in *. cbn. unfold MAX_WORK_QUEUE in *. rewrite <- Hw2.
    assert (Z.to_nat ((rear q - (front q + 1) mod 32) mod 32) = length ws) as ->.
    { clear Hw1 Hw2. Z.div_mod_to_equations. lia. }
    rewrite <- seq_shift, <- list_fmap_compose. apply list_fmap_ext. intros i x Hi. cbn. do 2 f_equal.
    apply lookup_seq in Hi as [-> Hi]. f_equal. clear Hw1 Hw2 Hc. Z.div_mod_to_equations. lia.
  - rewrite Z.add_0_r, Z.mod_small in Hw1 by lia. destruct (base q !! Z.to_nat (front q)) as [w'|] eqn:E; [by subst|].
    apply lookup_ge_None in E. lia.
Qed.

(** ** Rules *)

Context `{CO : !KConfigOk C} `{DL : !ReadyVectorLaws D}.
Implicit Types (k : kstate) (L : gmap link (list link)) (I : gmap Z link) (dl : list ptr) (q : WorkqueueType).

Lemma wp_on_kernel {A : Type} (m : M kstate A) (Q : A -> work_state -> Prop) s :
  wp m (fun a k => Q a (set_ws_kernel k s)) (ws_kernel s) -> wp (on_kernel m) Q s.
Proof. apply wp_zoom. Qed.

(** What submitting does to the pending entries: the newest is dropped when there is no place for it. *)
Definition submit (w : Work) (ws : list Work) : list Work := take 31 (ws ++ [w]).

Definition pending (ws : list Work) (q : WorkqueueType) : Prop := wq_ok q /\ works q = ws.

(** What submitting leaves alone: the task, the front, and the entry before the
    front, which the task may be about to run. *)
Record same_taken (q q' : WorkqueueType) : Prop := {
  st_task : work_task q' = work_task q;
  st_front : front q' = front q;
  st_entry : base q' !! Z.to_nat ((front q - 1) mod MAX_WORK_QUEUE) = base q !! Z.to_nat ((front q - 1) mod MAX_WORK_QUEUE);
}.

Lemma same_taken_trans q0 q1 q2 : same_taken q0 q1 -> same_taken q1 q2 -> same_taken q0 q2.
Proof. intros [T0 F0 E0] [T1 F1 E1]. rewrite F0 in E1. split; congruence. Qed.

Lemma add_work_same_taken w q : wq_ok q -> length (works q) <> 31%nat -> same_taken q (add_work w q).
Proof.
  intros [Hl Hf Hr] Hfull. rewrite works_length in Hfull. split; [done..|]. cbn. apply list_lookup_insert_ne.
  intros E. apply Hfull. unfold count, MAX_WORK_QUEUE in *. clear Hfull. Z.div_mod_to_equations. lia.
Qed.

Lemma pending_length ws q : pending ws q -> (length ws <= 31)%nat.
Proof. intros [[_ Hf Hr] <-]. rewrite works_length. unfold count, MAX_WORK_QUEUE in *. Z.div_mod_to_equations. lia. Qed.

(** Submitting, up to the request for a switch. *)
Lemma wp_WorkSubmit_immediate s L I dl t td work ws (Q : option Z -> work_state -> Prop) :
  kernel_ok (ws_kernel s) L I dl -> pending ws (sys_workq s) -> I !! work_task (sys_workq s) = Some (IdLink CTask t) ->
  tasks (ws_kernel s) !! t = Some td -> 0 <= KTaskOsAssignLockNest (ws_kernel s) < 2 ^ 15 - 3 ->
  (length ws = 31%nat -> Q (Some (- ERROR)) s) ->
  (forall k' L' q', (length ws < 31)%nat -> kernel_ok k' L' I (wake_delays td dl) -> quiet (ws_kernel s) k' ->
     tasks k' = wake_task t (tasks (ws_kernel s)) -> (forall y, foreign y = true -> L' !! y = L !! y) ->
     pending (ws ++ [work]) q' -> same_taken (sys_workq s) q' ->
     wp DO_KTASK_ASSIGN (fun _ k'' => Q None (mkWorkState k'' q')) k') ->
  wp (WorkSubmit_immediate work) Q s.
Proof.
  intros Hko Hp Hid Et Hn Hfull HQ. pose proof (pending_length _ _ Hp) as Hlen. destruct Hp as [Hwq Hws].
  unfold WorkSubmit_immediate. wp_steps. apply wp_on_kernel, wp_CriticalAreaLock; [lia|]. wp_steps.
  cbn [sys_workq set_ws_kernel]. rewrite full_spec, Hws by done. case_bool_decide as Hb.
  { wp_steps. apply wp_on_kernel, wp_CriticalAreaUnLock; [cbn; lia|]. cbn [ws_kernel set_ws_kernel].
    rewrite unlocked_locked. wp_steps. replace (set_ws_kernel _ _) with s by (by destruct s). by apply Hfull. }
  destruct (base (sys_workq s) !! Z.to_nat (rear (sys_workq s))) as [old|] eqn:Eold.
  2:{ exfalso. apply lookup_ge_None in Eold. destruct Hwq as [Hl _ Hr]. lia. }
  wp_steps. apply wp_on_kernel. cbn [ws_kernel set_sys_workq set_ws_kernel sys_workq work_task].
  eapply (wp_wake_task (locked (ws_kernel s)) L I dl); [by eapply kernel_ok_fields|exact Hid|exact Et|cbn; lia|].
  intros r k' L' Hko' Hq Ets HL. wp_steps. apply wp_on_kernel. cbn [ws_kernel set_ws_kernel].
  assert (KTaskOsAssignLockNest k' = KTaskOsAssignLockNest (ws_kernel s) + 1) as En by (by rewrite (quiet_nest _ _ Hq)).
  apply wp_CriticalAreaUnLock; [lia|]. wp_steps. apply wp_on_kernel. cbn [ws_kernel set_ws_kernel].
  rewrite <- Hws in Hb. destruct (add_work_ok work _ Hwq Hb) as [Hwq' Hws'].
  eapply wp_mono.
  { eapply (HQ _ L' (add_work work (sys_workq s))); [rewrite Hws in Hb; lia|by eapply kernel_ok_fields|
      by apply quiet_unlocked|exact Ets|done|split; [done|by rewrite Hws', Hws]|by apply add_work_same_taken]. }
  intros [] k'' H''. wp_steps. exact H''.
Qed.

(** ... in an interrupt: the switch is requested. *)
Lemma wp_WorkSubmit_isr s L I dl t td work ws (Q : option Z -> work_state -> Prop) :
  kernel_ok (ws_kernel s) L I dl -> pending ws (sys_workq s) -> I !! work_task (sys_workq s) = Some (IdLink CTask t) ->
  tasks (ws_kernel s) !! t = Some td -> KTaskOsAssignLockNest (ws_kernel s) = 0 -> isr_count (ws_kernel s) <> 0 ->
  (forall r k' L' q', let room := bool_decide (length ws < 31)%nat in
     kernel_ok k' L' I (if room then wake_delays td dl else dl) ->
     quiet (set_isr_switch_trigger_flag (if room then 1 else isr_switch_trigger_flag (ws_kernel s)) (ws_kernel s)) k' ->
     tasks k' = (if room then wake_task t (tasks (ws_kernel s)) else tasks (ws_kernel s)) ->
     (forall y, foreign y = true -> L' !! y = L !! y) ->
     pending (submit work ws) q' -> same_taken (sys_workq s) q' -> Q r (mkWorkState k' q')) ->
  wp (WorkSubmit_immediate work) Q s.
Proof.
  intros Hko Hp Hid Et Hn Hi HQ. eapply wp_WorkSubmit_immediate; [done..|lia| |].
  - intros Hlen. rewrite bool_decide_false in HQ by lia. destruct s as [k q]. cbn in *. apply (HQ _ k L q); [done|by destruct k|done..| |done].
    unfold submit. by rewrite take_app_le, take_ge by lia.
  - intros k' L' q' Hlen Hko' Hq Ets HL Hp' Ew. apply wp_DO_KTASK_ASSIGN_isr; [by rewrite (quiet_nest _ _ Hq)| |].
    { change (isr_count (core k') <> 0). by rewrite (q_core _ _ Hq). }
    rewrite bool_decide_true in HQ by done. eapply (HQ _ _ L'); [by eapply kernel_ok_fields| |exact Ets|done| |done].
    + destruct Hq as [H1 H2 H3 H4]. split; [|done..].
      change (set_isr_switch_trigger_flag 1 (core k') = set_isr_switch_trigger_flag 1 (core (ws_kernel s))). by rewrite H1.
    + unfold submit. rewrite take_ge; [done|]. rewrite length_app. cbn. lia.
Qed.

(** ** A turn of the task *)

Lemma wp_take_work s L I dl w ws (Q : option Z -> work_state -> Prop) :
  kernel_ok (ws_kernel s) L I dl -> pending (w :: ws) (sys_workq s) -> 0 <= KTaskOsAssignLockNest (ws_kernel s) < 2 ^ 15 - 1 ->
  (forall q', let i := front (sys_workq s) in pending ws q' -> work_task q' = work_task (sys_workq s) ->
     i = (front q' - 1) mod MAX_WORK_QUEUE -> base q' !! Z.to_nat i = Some w -> Q (Some i) (set_sys_workq q' s)) ->
  wp take_work Q s.
Proof.
  intros Hko [Hwq Hws] Hn HQ. unfold take_work. wp_steps. apply wp_on_kernel, wp_CriticalAreaLock; [lia|]. wp_steps.
  cbn [sys_workq set_ws_kernel]. rewrite empty_spec, Hws, bool_decide_false by done. cbn [negb]. wp_steps.
  apply wp_on_kernel, wp_CriticalAreaUnLock; [cbn; lia|]. cbn [ws_kernel set_sys_workq set_ws_kernel sys_workq].
  rewrite unlocked_locked. wp_steps. destruct (take_work_ok _ _ _ Hwq Hws) as (Hwq' & Hws' & Ew).
  match goal with |- Q _ (set_ws_kernel _ (set_sys_workq ?q _)) => apply (HQ q) end; [done|done| |done].
  destruct Hwq as [_ Hf _]. cbn. rewrite rem_mod by lia. unfold MAX_WORK_QUEUE in *. Z.div_mod_to_equations. lia.
Qed.

(** Interrupts that submit entries, like the ticks that end timers do. *)
Fixpoint submit_all (subs : list Work) : M work_state unit :=
  match subs with
  | [] => mret tt
  | w :: subs => WorkSubmit_immediate w;; submit_all subs
  end.

Definition interrupting (subs : list Work) : M work_state unit :=
  on_kernel IncIsrCounter;; submit_all subs;; on_kernel KTaskOsAssignAfterIrq;; on_kernel DecIsrCounter.

Definition submitted (subs ws : list Work) : list Work := foldl (fun ws w => submit w ws) ws subs.

(** ... while the task [t] of the queue is running. *)
Lemma wp_submit_all I t subs : forall s L dl td ws (Q : unit -> work_state -> Prop),
  kernel_ok (ws_kernel s) L I dl -> pending ws (sys_workq s) -> I !! work_task (sys_workq s) = Some (IdLink CTask t) ->
  tasks (ws_kernel s) !! t = Some td -> stat_of td = KTASK_RUNNING ->
  KTaskOsAssignLockNest (ws_kernel s) = 0 -> isr_count (ws_kernel s) <> 0 ->
  (forall k' L' q', kernel_ok k' L' I dl -> visible k' = visible (ws_kernel s) -> os_running_task k' = os_running_task (ws_kernel s) ->
     tasks k' = tasks (ws_kernel s) ->
     pending (submitted subs ws) q' -> same_taken (sys_workq s) q' -> Q tt (mkWorkState k' q')) ->
  wp (submit_all subs) Q s.
Proof.
  induction subs as [|w subs IH]; intros s L dl td ws Q Hko Hp Hid Et Hst Hn Hi HQ; cbn [submit_all].
  { wp_steps. destruct s as [k q]. by apply (HQ k L q). }
  wp_steps. eapply wp_WorkSubmit_isr; [done..|]. intros r k' L' q' room Hko' Hq Ets _ Hp' Hst'.
  assert (tasks k' = tasks (ws_kernel s)) as Ets'.
  { rewrite Ets. destruct room; [|done]. unfold wake_task. apply map_eq. intros y.
    destruct (decide (y = t)) as [->|]; [|by rewrite lookup_alter_ne]. by rewrite lookup_alter_eq, Et; cbn; rewrite Hst. }
  assert ((if room then wake_delays td dl else dl) = dl) as Edl by (unfold wake_delays; rewrite Hst; by destruct room).
  rewrite Edl in Hko'. clearbody room.
  assert (os_running_task k' = os_running_task (ws_kernel s) /\ isr_count k' = isr_count (ws_kernel s)) as [Ec Ei].
  { change (os_running_task (core k') = os_running_task (ws_kernel s) /\ isr_count (core k') = isr_count (ws_kernel s)).
    by rewrite (q_core _ _ Hq). }
  eapply (IH (mkWorkState k' q')); [exact Hko'|exact Hp'|cbn; by rewrite (st_task _ _ Hst')|cbn; by rewrite Ets'|done| |cbn; congruence|].
  { cbn. by rewrite (quiet_nest _ _ Hq). }
  cbn [ws_kernel sys_workq]. intros k2 L2 q2 Hko2 Hv2 Ec2 Ets2 Hp2 Hst2. apply (HQ k2 L2 q2); [done| |congruence|congruence|done|by eapply same_taken_trans].
  rewrite Hv2. unfold visible, outer. by rewrite (q_core _ _ Hq).
Qed.

(** C4: the turn of the task of a work queue that holds [w] and then [ws], interrupted
    by submissions between the two halves.  The task calls the callback of the oldest
    entry [w] with its parameter: the submissions never overwrite the entry although
    its place in the ring is free by then.  They are appended in their order as long
    as there are places, the invariant is kept, and if the interrupt asked for a
    switch the processor is given to the task of the highest priority. *)
Theorem WorkQueueKTaskEntry_runs_oldest call s L I dl t td w ws subs :
  kernel_ok (ws_kernel s) L I dl -> pending (w :: ws) (sys_workq s) ->
  I !! work_task (sys_workq s) = Some (IdLink CTask t) -> os_running_task (ws_kernel s) = Some t ->
  tasks (ws_kernel s) !! t = Some td -> stat_of td = KTASK_RUNNING -> cb_func w <> 0 ->
  KTaskOsAssignLockNest (ws_kernel s) = 0 -> isr_count (ws_kernel s) = 0 ->
  exists s' L' i,
    (taken ← take_work; interrupting subs;; run_work call taken) s = call (cb_func w) i (cb_param w) s' /\
    base (sys_workq s') !! Z.to_nat i = Some w /\
    pending (submitted subs ws) (sys_workq s') /\ kernel_ok (ws_kernel s') L' I dl /\
    KTaskOsAssignLockNest (ws_kernel s') = 0 /\ isr_count (ws_kernel s') = 0.
Proof.
  intros Hko Hp Hid Hc Et Hst Hcb Hn Hi.
  set (R := fun s' i => exists L', base (sys_workq s') !! Z.to_nat i = Some w /\ pending (submitted subs ws) (sys_workq s') /\
    kernel_ok (ws_kernel s') L' I dl /\ KTaskOsAssignLockNest (ws_kernel s') = 0 /\ isr_count (ws_kernel s') = 0).
  assert (wp (taken ← take_work; interrupting subs;; mret taken) (fun r s' => exists i, r = Some i /\ R s' i) s) as Hwp.
  { wp_steps. eapply wp_take_work; [done..|lia|]. intros q' i Hp' Ew' Ei Eb. unfold interrupting. wp_steps.
    apply wp_on_kernel. unfold IncIsrCounter. wp_steps. cbn [ws_kernel set_sys_workq]. rewrite Hi.
    change (u16 (0 + 1)) with 1.
    eapply (wp_submit_all I t subs _ L dl td ws); [by eapply kernel_ok_fields|done|cbn; by rewrite Ew'|done..|].
    intros k1 L1 q1 Hko1 Hv Hc1 Ets1 Hp1 [_ Ef1 Ee1]. wp_steps. apply wp_on_kernel. cbn [ws_kernel].
    assert (KTaskOsAssignLockNest k1 = 0 /\ isr_count k1 = 1) as [En1 Ei1].
    { change (KTaskOsAssignLockNest (visible k1) = 0 /\ isr_count (visible k1) = 1). by rewrite Hv. }
    cbn in Hc1, Ets1, Ef1, Ee1.
    eapply (wp_KTaskOsAssignAfterIrq k1 L1 I dl t td); [done|congruence|congruence|done|done|].
    intros k2 L2 Hko2 Hfr _ _ _. wp_steps. apply wp_on_kernel. unfold DecIsrCounter. wp_steps. cbn [ws_kernel set_ws_kernel].
    assert (KTaskOsAssignLockNest k2 = 0 /\ isr_count k2 = 1) as [En2 Ei2].
    { change (KTaskOsAssignLockNest (rest k2) = 0 /\ isr_count (rest k2) = 1). by rewrite (fr_rest _ _ _ _ Hfr). }
    rewrite Ei2. exists i. split; [done|]. exists L2. split_and!; [|done|by eapply kernel_ok_fields|done|done].
    cbn. rewrite <- Eb, Ei. exact Ee1. }
  apply wp_inv in Hwp as (r & s' & E & i & -> & L' & Eb & HR). exists s', L', i. split; [|done].
  unfold mbind, M_bind in E |- *. destruct (take_work s) as [r1 s1| |] eqn:E1; [|done..].
  destruct (interrupting subs s1) as [[] s2| |]; [|done..]. injection E as -> ->.
  unfold run_work, gets, mbind, M_bind. rewrite Eb. cbn. by rewrite (proj2 (Z.eqb_neq _ _) Hcb).
Qed.

(** Submitting to a queue.  A full queue refuses with -ERROR without an effect.
    Otherwise the entry is appended, the task of the queue is woken if it is
    suspended, the invariant is kept, and outside of interrupts the task of the
    highest priority runs afterwards. *)
Theorem WorkSubmit_immediate_correct s L I dl c t td work ws :
  kernel_ok (ws_kernel s) L I dl -> pending ws (sys_workq s) ->
  I !! work_task (sys_workq s) = Some (IdLink CTask t) -> tasks (ws_kernel s) !! t = Some td ->
  os_running_task (ws_kernel s) = Some c -> can_run (ws_kernel s) ->
  KTaskOsAssignLockNest (ws_kernel s) = 0 ->
  wp (WorkSubmit_immediate work) (fun ret s' =>
    if bool_decide (length ws = 31%nat) then ret = Some (- ERROR) /\ s' = s
    else pending (ws ++ [work]) (sys_workq s') /\ work_task (sys_workq s') = work_task (sys_workq s) /\
      (exists L', kernel_ok (ws_kernel s') L' I (wake_delays td dl)) /\
      (stat_of td = KTASK_SUSPEND -> woken (ws_kernel s') t) /\
      visible (ws_kernel s') = visible (ws_kernel s) /\
      (isr_count (ws_kernel s) = 0 -> runs_highest (ws_kernel s'))) s.
Proof.
  intros Hko Hp Hid Et Hc Hrun Hn. eapply wp_WorkSubmit_immediate; [done..|lia|by intros Hlen; rewrite bool_decide_true|].
  intros k' L' q' Hlen Hko' Hq Ets _ Hp' [Ew _ _]. rewrite bool_decide_false by lia.
  assert (os_running_task k' = Some c /\ isr_count k' = isr_count (ws_kernel s)) as [Ec Ei].
  { change (os_running_task (core k') = Some c /\ isr_count (core k') = isr_count (ws_kernel s)). by rewrite (q_core _ _ Hq). }
  assert (tasks k' !! t = Some (if stat_of td =? KTASK_SUSPEND then as_stat KTASK_READY td else td)) as Et'
    by (by rewrite Ets; unfold wake_task; rewrite lookup_alter_eq, Et).
  eapply (wp_reschedule k' L' I); [exact Hko'|exact Ec| |by rewrite (quiet_nest _ _ Hq)|].
  - destruct (Z.eqb_spec (stat_of td) KTASK_SUSPEND) as [Es|Es].
    { left. exists t, (as_stat KTASK_READY td). split; [done|by apply stat_of_as_stat]. }
    destruct Hrun as [(y & tdy & Ey & Hsy)|(y & tdy & Hy & Ey & Hsy)]; [left|right]; exists y, tdy;
      rewrite Ets; (rewrite (lookup_wake_task _ _ _ tdy) by (done || by rewrite Hsy)); split_and?; congruence.
  - intros k2 L2 Hko2 Hv2 _ Hrh Hres _ _. cbn. split_and!; [done|done|by exists L2| | |].
    + intros Hs. rewrite Hs in Et'. cbn in Et'. eapply woken_rescheduled; [done..|by apply stat_of_as_stat].
    + rewrite Hv2. unfold visible, outer. by rewrite (q_core _ _ Hq).
    + intros ?. apply Hrh. congruence.
Qed.

End WorkQueue.
