(* ===== verification/SoftTimer.v ===== *)
(** * Software timers: kernel/thread/softtimer.c

    A timer that runs is linked into [xiaoshan_timer_sort_head], in the order of the
    deadlines.  [CheckTimerList], called by the tick interrupt, takes those that are
    due off the list, starts the periodic ones again and submits their callbacks to
    the work queue.

    Results of memory allocations are parameters. *)

From S2P Require Import Prelude DoubleLink IdManager Bitmap Kernel ReadyVector Assign Delay Task TaskInv Deadlines PendList Waiting Interrupt Ticks Sleep WorkQueue.

Section SoftTimer.
Context `{C : KConfig} `{D : PriorityReadyVectorDone}.

(** xs_timer.h *)
Definition TIMER_TRIGGER_ONCE : Z := 1.
Definition TIMER_TRIGGER_PERIODIC : Z := 2.
Definition TIMER_ACTIVE_FALSE : Z := 1.
Definition TIMER_ACTIVE_TRUE : Z := 2.

Definition timer_get {A : Type} (t : ptr) (f : Timer -> A) : M kstate A :=
  k ← get; x ← deref (timers k !! t); mret (f x).
Definition timer_set (t : ptr) (f : Timer -> Timer) : M kstate unit :=
  k ← get; x ← deref (timers k !! t); modify (set_timers (<[t := f x]> (timers k))).

(** ** One timer *)

Definition timer_links (t : ptr) : list link := [IdLink CTimer t; ObjLink CTimer t; SortList t].

(** A timer filled with zero bytes. *)
Definition new_timer (t : ptr) : M kstate unit :=
  modify (fun k => set_timers (<[t := mkTimer "" 0 0 0 0 0 0 0 None]> (timers k)) (zero_links (timer_links t) k));;
  modify (fun k => set_node_ids (<[IdLink CTimer t := 0]> (node_ids k)) k).
Definition free_timer (t : ptr) : M kstate unit :=
  k ← get;
  deref (timers k !! t);;
  modify (fun k => set_timers (delete t (timers k)) (drop_links (timer_links t) k));;
  modify (fun k => set_node_ids (delete (IdLink CTimer t) (node_ids k)) k).

Definition _Init (timer : ptr) (nm : string) (timeout parameter time trigger : Z) : M kstate unit :=
  lock ← CriticalAreaLock;
  klinks (DoubleLinkListInsertNodeAfter (ListHead CTimer) (ObjLink CTimer timer));;
  CriticalAreaUnLock lock;;
  cur ← GetKTaskDescriptor;
  task ← deref cur;
  prio ← task_get task origin_prio;
  timer_set timer (fun x => mkTimer (String.substring 0 (Z.to_nat NAME_NUM_MAX) nm) TIMER_ACTIVE_FALSE trigger
                             timeout parameter time 0 prio (t_work x)).

Definition _Delete (timer : ptr) : M kstate Z :=
  lock ← CriticalAreaLock;
  klinks (DoubleLinkListRmNode (SortList timer));;
  klinks (DoubleLinkListRmNode (ObjLink CTimer timer));;
  CriticalAreaUnLock lock;;
  free_timer timer;;
  mret EOK.

Definition sort_entry (a : link) : option ptr := match a with SortList t => Some t | _ => None end.

(** The test of the walk of [_StartRun], which inserts the timer before the node it
    stops at or before the head: [timer->deadline_timeslice < pNode->deadline_timeslice]. *)
Definition ends_before (timer : ptr) (node : link) : M kstate bool :=
  pNode ← deref (sort_entry node);
  mine ← timer_get timer deadline_timeslice;
  its ← timer_get pNode deadline_timeslice;
  mret (mine <? its).

Definition _StartRun (timer : ptr) : M kstate Z :=
  lock ← CriticalAreaLock;
  timer_set timer (set_active_status TIMER_ACTIVE_FALSE);;
  origin ← timer_get timer timer_origin;
  CHECK (origin <? TICK_SIZE_MAX / 2);;
  now ← CurrentTicksGain;
  timer_set timer (set_deadline_timeslice (u32 (now + origin)));;
  timer_set timer (set_active_status TIMER_ACTIVE_TRUE);;
  nx ← klinks (get_next TimerSortHead);
  first ← deref nx;
  k ← get;
  pLink ← for_each_until (fun x => klinks (get_next x)) (ends_before timer)
            (S (size (links k))) TimerSortHead first;
  klinks (DoubleLinkListInsertNodeBefore pLink (SortList timer));;
  CriticalAreaUnLock lock;;
  mret EOK.

Definition _QuitRun (timer : ptr) : M kstate Z :=
  status ← timer_get timer active_status;
  if negb (status =? TIMER_ACTIVE_TRUE) then mret (- ERROR)
  else
    lock ← CriticalAreaLock;
    timer_set timer (set_active_status TIMER_ACTIVE_FALSE);;
    timer_set timer (set_deadline_timeslice 0);;
    klinks (DoubleLinkListRmNode (SortList timer));;
    CriticalAreaUnLock lock;;
    mret EOK.

Definition _Modify (timer : ptr) (ticks : Z) : M kstate Z :=
  if ticks =? 0 then mret (- EINVALED)
  else timer_set timer (set_timer_origin ticks);; mret EOK.

(** ** By identifier

    [KCreateTimer] returns [NONE], which is 0, when it fails, and 0 is also the first
    identifier.  The functions that end without a return statement return nothing
    here. *)

Definition KGetTimer (id : Z) : M kstate (option ptr) :=
  lock ← CriticalAreaLock;
  idnode ← kid CTimer (IdGetObj (Bucket CTimer) (u16 id));
  match idnode with
  | None => CriticalAreaUnLock lock;; mret None
  | Some a => timer ← deref (id_entry CTimer a); CriticalAreaUnLock lock;; mret (Some timer)
  end.

Definition KGetTimerID (timer : ptr) : M kstate Z := k ← get; deref (node_ids k !! IdLink CTimer timer).

Definition KCreateTimer (mem : option ptr) (nm : string) (timeout parameter time trigger : Z) : M kstate Z :=
  match mem with
  | None => mret 0
  | Some timer =>
      new_timer timer;;
      id ← kid CTimer (IdInsertObj (Bucket CTimer) (IdLink CTimer timer));
      if id <? 0 then free_timer timer;; mret 0
      else _Init timer nm timeout parameter time trigger;; mret id
  end.

Definition KDeleteTimer (timer_id : Z) : M kstate unit :=
  t ← KGetTimer timer_id; timer ← deref t; _Delete timer;; mret tt.

Definition KTimerStartRun (timer_id : Z) : M kstate Z :=
  t ← KGetTimer timer_id; timer ← deref t; _StartRun timer.

Definition KTimerQuitRun (timer_id : Z) : M kstate unit :=
  t ← KGetTimer timer_id; timer ← deref t; _QuitRun timer;; mret tt.

Definition KTimerModify (timer_id ticks : Z) : M kstate unit :=
  t ← KGetTimer timer_id; timer ← deref t; _Modify timer ticks;; mret tt.

Definition KTimerAssignMemberRun (timer_id ticks : Z) : M kstate Z :=
  t ← KGetTimer timer_id; timer ← NULL_PARAM_CHECK t;
  if ticks =? 0 then mret (- EINVALED)
  else timer_set timer (set_timer_origin ticks);; _StartRun timer.

(** ** Submitting work to be done later *)

(** [param] is the address of the [WorkTimerParamType], [work_elem_timeout] that of
    the function. *)
Definition WorkSubmit (work_elem_timeout : Z) (param : option Z) (mem : option ptr) (work : Work) (time : Z) :
    M work_state Z :=
  if time =? 0 then WorkSubmit_immediate work;; mret EOK
  else
    b ← on_kernel (malloc_block param);
    param ← deref b;
    id ← on_kernel (KCreateTimer mem "wk_timer" work_elem_timeout param time TIMER_TRIGGER_ONCE);
    if id =? 0 then on_kernel (free_block (Some param));; mret (- ERROR)
    else on_kernel (KTimerStartRun id);; mret EOK.

(** ** The tick interrupt *)

(** The callback of the work entries starts a task that runs the timer's callback. *)
Definition timer_work_func (TimerCBEnter : Z) (mem : option ptr) (stack : option Z) (t : ptr) : M kstate unit :=
  prio ← timer_get t timer_prio;
  id ← KTaskCreate mem stack (Some "timer_work_thr"%string) (Some TimerCBEnter) (Z.pos t) 2048 prio;
  StartupKTask id;;
  mret tt.

Section check.
(** The address of [timer_work_func], and what [x_malloc] returns for a [Work] of a timer. *)
Context (work_func : Z) (mem : ptr -> option Z).

(** A timer that was taken off the list: started again or stopped, and submitted. *)
Definition fire (lock : bool) (t : ptr) : M work_state bool :=
  mode ← on_kernel (timer_get t trigger_mode);
  (if mode =? TIMER_TRIGGER_PERIODIC then on_kernel (_StartRun t) else on_kernel (_QuitRun t));;
  b ← on_kernel (malloc_block (mem t));
  on_kernel (timer_set t (set_t_work b));;
  deref b;;
  on_kernel (CriticalAreaUnLock lock);;
  WorkSubmit_immediate (WorkInit work_func (Z.pos t));;
  on_kernel CriticalAreaLock.

(** The loop; one step of fuel per turn. *)
Fixpoint check_timers (fuel : nat) (lock : bool) (current_tick : Z) : M work_state bool :=
  match fuel with
  | O => hang
  | S fuel =>
      empty ← on_kernel (klinks (IsDoubleLinkListEmpty TimerSortHead));
      if (empty : bool) then mret lock
      else
        nx ← on_kernel (klinks (get_next TimerSortHead));
        t ← deref (nx ≫= sort_entry);
        deadline ← on_kernel (timer_get t deadline_timeslice);
        if u32 (current_tick - deadline) <? TICK_SIZE_MAX / 2 then
          status ← on_kernel (timer_get t active_status);
          if status =? TIMER_ACTIVE_TRUE then
            on_kernel (klinks (DoubleLinkListRmNode (SortList t)));;
            current_tick ← on_kernel CurrentTicksGain;
            lock ← fire lock t;
            check_timers fuel lock current_tick
          else check_timers fuel lock current_tick
        else mret lock
  end.

Definition CheckTimerList : M work_state unit :=
  current_tick ← on_kernel CurrentTicksGain;
  lock ← on_kernel CriticalAreaLock;
  s ← get;
  lock ← check_timers (S (size (links (ws_kernel s)))) lock current_tick;
  on_kernel (CriticalAreaUnLock lock).

End check.

End SoftTimer.
