(* ===== verification/TimerInv.v ===== *)
(** * Running timers: the invariant and single timers

    [timers_ok k L tl]: the list of the running timers is [tl], it holds exactly
    the active timers, and a stopped timer can be linked in.  Starting and stopping
    keep it and the invariant of the tasks. *)

From S2P Require Import Prelude DoubleLink IdManager Bitmap Kernel ReadyVector Assign Delay Task TaskInv Deadlines PendList Waiting Interrupt Ticks Sleep WorkQueue SoftTimer.

(** ** Links that neither tasks nor delays nor identifiers use *)

Section foreign.
Context `{C : KConfig} `{D : PriorityReadyVectorDone}.
Implicit Types (k : kstate) (L : gmap link (list link)) (I : gmap Z link) (dl : list ptr).

(** A step that moves foreign nodes between foreign lists and touches no task. *)
Record foreign_step k L k' L' : Prop := {
  fo_rep : rep (links k') L';
  fo_tasks : tasks k' = tasks k;
  fo_delays : delays k' = delays k;
  fo_rv : os_assign_read_vector k' = os_assign_read_vector k;
  fo_running : os_running_task k' = os_running_task k;
  fo_ids : node_ids k' = node_ids k;
  fo_managers : managers k' = managers k;
  fo_alloc : forall y, alloc (links k') y <-> alloc (links k) y;
  fo_null : forall y, foreign y = false -> prv (links k) y = None -> prv (links k') y = None;
  fo_lists : forall y, foreign y = false -> L' !! y = L !! y;
  fo_members : forall hd l x, foreign hd = true -> L' !! hd = Some l -> x ∈ l -> foreign x = true;
}.

Lemma sched_ok_foreign k L k' L' I dl : kernel_ok k L I dl -> foreign_step k L k' L' -> sched_ok k' L'.
Proof.
  intros Hko [HR Et Ed Erv Er Ei Em Ha Hn HL Hm]. pose proof (ko_sched _ _ _ _ Hko) as Hk. split; rewrite ?Et, ?Erv, ?Er.
  - done.
  - intros p Hp. rewrite HL by done. by apply (so_lists _ _ Hk).
  - intros p l x HL0. rewrite HL in HL0 by done. by apply (so_ready _ _ Hk).
  - intros t td E Hst. destruct (so_on_list _ _ Hk _ _ E Hst) as (l & ? & ?). exists l. by rewrite HL.
  - intros t td E. destruct (so_linked _ _ Hk _ _ E) as [?|(hd & l & HL0 & Hin)]; [left; by rewrite HL|right].
    exists hd, l. rewrite HL; [done|]. pose proof (ko_typed _ _ _ _ Hko _ _ _ HL0 Hin). by destruct hd.
  - intros t td E Hst. rewrite HL by done. by apply (so_detached _ _ Hk _ _ E).
  - apply Hk.
  - apply Hk.
  - apply Hk.
  - eapply rv_ok_ext; [apply Hk|]. intros q. unfold ready_nonempty. by rewrite HL.
Qed.

Lemma kernel_ok_foreign k L k' L' I dl : kernel_ok k L I dl -> foreign_step k L k' L' -> kernel_ok k' L' I dl.
Proof.
  intros Hko Hf. pose proof Hf as [HR Et Ed Erv Er Ei Em Ha Hn HL Hm].
  assert (forall hd l t, L' !! hd = Some l -> SchedLink t ∈ l -> task_link hd = true) as Hty.
  { intros hd l t HL0 Hx. destruct (foreign hd) eqn:Ef.
    - by specialize (Hm _ _ _ Ef HL0 Hx).
    - rewrite HL in HL0 by done. by eapply (ko_typed _ _ _ _ Hko). }
  split; [by eapply sched_ok_foreign| |exact Hty| |].
  - intros hd l x s Es HL0 Hx. rewrite HL in HL0 by (by destruct hd). rewrite Et. by eapply (ko_member _ _ _ _ Hko).
  - destruct (ko_delays _ _ _ _ Hko) as [Hl Ho Ht]. split; rewrite ?Et, ?Ed; [by rewrite HL|done|].
    intros t td d E1 E2. destruct (Ht t td d E1 E2) as (x & Ex & ? & Hal & ? & Hun). exists x.
    split_and!; [done|done|by apply Ha|done|]. intros Hs hd l HL0 Hx. destruct (foreign hd) eqn:Ef.
    + apply elem_of_cons in Hx as [<-|Hx]; [done|]. by specialize (Hm _ _ _ Ef HL0 Hx).
    + rewrite HL in HL0 by done. by apply (Hun Hs).
  - eapply ids_ok_frame; [apply Hko|done|done|done|by rewrite Et|by intros; apply HL|].
    intros j Hal Hp. split; [by apply Ha|by apply Hn].
Qed.

End foreign.

(** ** Running timers *)

Section timers.
Context `{C : KConfig} `{D : PriorityReadyVectorDone}.
Implicit Types (k : kstate) (L : gmap link (list link)) (I : gmap Z link) (dl tl : list ptr).

Definition ends_at (ts : gmap ptr Timer) (t : ptr) : Z := default 0 (deadline_timeslice <$> ts !! t).

(** Nothing points at the list node of a timer that does not run: it points at
    itself, or it was never linked. *)
Definition idle k L (t : ptr) : Prop := L !! SortList t = Some [] \/ prv (links k) (SortList t) = None.

Lemma idle_unlinked k L t : rep (links k) L -> idle k L t -> unlinked L (SortList t).
Proof.
  intros HR [HL|Hn]; [|by eapply prv_None_unlinked]. intros hd l HL' Hx.
  assert (hd = SortList t) as -> by (apply (rep_disj _ _ HR _ _ _ _ (SortList t) HL' HL); set_solver).
  split; [done|]. rewrite HL in HL'. by injection HL' as <-.
Qed.

(** The invariant for all timers but [t], which is being worked on. *)
Record timers_but (t : ptr) k L tl : Prop := {
  tb_list : L !! TimerSortHead = Some (SortList <$> tl);
  tb_active : forall u, u ∈ tl -> u <> t -> exists x, timers k !! u = Some x /\ active_status x = TIMER_ACTIVE_TRUE;
  tb_timer : forall u x, timers k !! u = Some x -> u <> t ->
    (active_status x = TIMER_ACTIVE_TRUE -> u ∈ tl) /\
    (active_status x <> TIMER_ACTIVE_TRUE -> idle k L u);
  tb_alloc : forall u, is_Some (timers k !! u) -> alloc (links k) (SortList u);
  tb_self : forall u l, L !! SortList u = Some l -> l = [];
}.

Record timers_ok k L tl : Prop := {
  tk_but : forall t, timers_but t k L tl;
}.

Lemma tk_timer k L tl t x : timers_ok k L tl -> timers k !! t = Some x ->
  (active_status x = TIMER_ACTIVE_TRUE -> t ∈ tl) /\ (active_status x <> TIMER_ACTIVE_TRUE -> idle k L t).
Proof.
  intros [Hb] E. apply (tb_timer _ _ _ _ (Hb (t + 1)%positive) t x E). lia.
Qed.

Lemma tk_active k L tl t : timers_ok k L tl -> t ∈ tl ->
  exists x, timers k !! t = Some x /\ active_status x = TIMER_ACTIVE_TRUE.
Proof. intros [Hb] Ht. apply (tb_active _ _ _ _ (Hb (t + 1)%positive) t Ht). lia. Qed.

(** The end of an operation on [t]. *)
Lemma timers_close t k L tl x :
  timers_but t k L tl -> timers k !! t = Some x ->
  (if decide (active_status x = TIMER_ACTIVE_TRUE) then (t ∈ tl) else (t ∉ tl) /\ idle k L t) ->
  timers_ok k L tl.
Proof.
  intros [Hl Ha Ht Hal Hs] E Hx. split. intros u. split; [done| | |done|done].
  - intros v Hv _. destruct (decide (v = t)) as [->|Hne]; [|by apply Ha]. exists x. split; [done|].
    destruct (decide _); [done|]. by destruct Hx.
  - intros v y Ey _. destruct (decide (v = t)) as [->|Hne]; [|by apply Ht].
    rewrite E in Ey. injection Ey as <-. destruct (decide _); [done|]. destruct Hx. done.
Qed.

(** Changing the fields of [t]. *)
Lemma timers_but_set t k L tl x x' :
  timers_but t k L tl -> timers k !! t = Some x ->
  timers_but t (set_timers (<[t := x']> (timers k)) k) L tl.
Proof.
  intros [Hl Ha Ht Hal Hs] E. split; [done| | | |done]; cbn.
  - intros u Hu Hne. rewrite lookup_insert_ne by done. by apply Ha.
  - intros u y. destruct (decide (u = t)) as [->|Hne]; [done|]. rewrite lookup_insert_ne by done. by apply Ht.
  - intros u [y Ey]. apply Hal. destruct (decide (u = t)) as [->|Hne]; [by exists x|].
    rewrite lookup_insert_ne in Ey by done. by exists y.
Qed.

Lemma timers_but_fields t k k' L tl :
  timers_but t k L tl -> timers k' = timers k -> links k' = links k -> timers_but t k' L tl.
Proof. intros [Hl Ha Ht Hal Hs] E1 E2. unfold idle in *. split; unfold idle; rewrite ?E1, ?E2; done. Qed.

(** A step of tasks and delays. *)
Lemma timers_but_quiet t k k' L L' tl :
  timers_but t k L tl -> quiet k k' -> (forall y, foreign y = true -> L' !! y = L !! y) -> timers_but t k' L' tl.
Proof.
  intros [Hl Ha Ht Hal Hs] Hq HL. assert (timers k' = timers k) as E.
  { change (timers (core k') = timers k). by rewrite (q_core _ _ Hq). }
  split; rewrite ?E.
  - by rewrite HL.
  - done.
  - intros u x Eu Hne. destruct (Ht u x Eu Hne) as [H1 H2]. split; [done|]. intros Hst. unfold idle. rewrite HL by done.
    destruct (H2 Hst) as [?|?]; [by left|right]. by apply (q_null _ _ Hq).
  - intros u Hu. by apply (q_alloc _ _ Hq), Hal.
  - intros u l. rewrite HL by done. apply Hs.
Qed.

Lemma timers_ok_quiet k k' L L' tl :
  timers_ok k L tl -> quiet k k' -> (forall y, foreign y = true -> L' !! y = L !! y) -> timers_ok k' L' tl.
Proof. intros [Hb] ? ?. split. intros t. by eapply timers_but_quiet. Qed.

Lemma timers_ok_fields k k' L tl : timers_ok k L tl -> timers k' = timers k -> links k' = links k -> timers_ok k' L tl.
Proof. intros [Hb] ? ?. split. intros t. by eapply timers_but_fields. Qed.

Lemma sort_inj : Inj (=) (=) SortList.
Proof. by intros ? ? [=]. Qed.

(** *** Taking [t] off the list *)

Section remove.
Context k L I dl tl (t : ptr) (h' : gmap link (node link)).
Hypothesis Hko : kernel_ok k L I dl.
Hypothesis Hb : timers_but t k L tl.
Hypothesis Hlink : t ∈ tl \/ L !! SortList t = Some [].
Hypothesis HR : rep h' (detach (SortList t) L).
Hypothesis Hsl : same_links (SortList t) (links k) h'.

Lemma remove_other y : y <> TimerSortHead -> y <> SortList t -> detach (SortList t) L !! y = L !! y.
Proof.
  intros Hy Hyt. rewrite lookup_detach_ne by done. destruct (L !! y) as [l|] eqn:E; [|done].
  cbn. rewrite without_not_in; [done|]. intros Hin. pose proof (so_rep _ _ (ko_sched _ _ _ _ Hko)) as HR0.
  destruct Hlink as [Ht|Ht].
  - apply Hy. apply (rep_disj _ _ HR0 _ _ _ _ (SortList t) E (tb_list _ _ _ _ Hb)); [set_solver|].
    apply elem_of_cons. right. by apply list_elem_of_fmap_2.
  - apply Hyt. apply (rep_disj _ _ HR0 _ _ _ _ (SortList t) E Ht); set_solver.
Qed.

Lemma remove_foreign : foreign_step k L (set_links h' k) (detach (SortList t) L).
Proof.
  split; try done.
  - intros y. by apply Hsl.
  - intros y Hy. apply Hsl. by intros ->.
  - intros y Hy. apply remove_other; by intros ->.
  - intros hd l x Hf HL Hx. destruct hd as [| | | | | | | | |u|]; try done.
    + destruct (decide (u = t)) as [->|Hne].
      * rewrite lookup_detach_eq in HL. injection HL as <-. by apply elem_of_nil in Hx.
      * rewrite remove_other in HL by congruence. apply (tb_self _ _ _ _ Hb) in HL as ->. by apply elem_of_nil in Hx.
    + rewrite lookup_detach_ne, (tb_list _ _ _ _ Hb) in HL by done. injection HL as <-.
      apply elem_of_without in Hx as [_ Hx]. by apply list_elem_of_fmap in Hx as (u & -> & _).
Qed.

Lemma remove_but : timers_but t (set_links h' k) (detach (SortList t) L) (without t tl) /\
  unlinked (detach (SortList t) L) (SortList t) /\ kernel_ok (set_links h' k) (detach (SortList t) L) I dl.
Proof.
  split; [|split; [apply unlinked_detach; by right|by eapply kernel_ok_foreign, remove_foreign]].
  pose proof Hb as [Hl Ha Ht Hal Hs]. split.
  - rewrite lookup_detach_ne, Hl by done. cbn. f_equal. apply (without_fmap _ t tl), sort_inj.
  - intros u [_ Hu]%elem_of_without. by apply Ha.
  - intros u x E Hne. destruct (Ht u x E Hne) as [H1 H2]. split.
    + intros Hst. apply elem_of_without. auto.
    + intros Hst. unfold idle. rewrite remove_other by congruence. destruct (H2 Hst) as [?|?]; [by left|right].
      apply Hsl; [congruence|done].
  - intros u Hu. apply Hsl. by apply Hal.
  - intros u l [[_ ->]|(_ & l' & HL & ->)]%lookup_detach_Some; [done|]. by rewrite (Hs u l' HL).
Qed.

End remove.

(** *** Linking [t] in *)

Section insert.
Context k L I dl tl (t : ptr) (n : nat) (h' : gmap link (node link)).
Hypothesis Hko : kernel_ok k L I dl.
Hypothesis Hb : timers_but t k L tl.
Let L' := attach TimerSortHead (SortList <$> insert_nth n t tl) (SortList t) L.
Hypothesis HR : rep h' L'.
Hypothesis Hsl : same_links (SortList t) (links k) h'.

Lemma insert_other y : y <> TimerSortHead -> y <> SortList t -> L' !! y = L !! y.
Proof. intros. by apply lookup_attach_ne. Qed.

Lemma insert_foreign : foreign_step k L (set_links h' k) L'.
Proof.
  split; try done.
  - intros y. by apply Hsl.
  - intros y Hy. apply Hsl. by intros ->.
  - intros y Hy. apply insert_other; by intros ->.
  - intros hd l x Hf HL Hx. destruct hd as [| | | | | | | | |u|]; try done.
    + unfold L', attach in HL. rewrite lookup_insert_ne in HL by done. apply lookup_delete_Some in HL as [_ HL].
      apply (tb_self _ _ _ _ Hb) in HL as ->. by apply elem_of_nil in Hx.
    + unfold L' in HL. rewrite lookup_attach_eq in HL. injection HL as <-.
      by apply list_elem_of_fmap in Hx as (u & -> & _).
Qed.

Lemma insert_but : timers_but t (set_links h' k) L' (insert_nth n t tl) /\ kernel_ok (set_links h' k) L' I dl.
Proof.
  split; [|by eapply kernel_ok_foreign, insert_foreign]. pose proof Hb as [Hl Ha Ht Hal Hs]. split.
  - apply lookup_attach_eq.
  - intros u [->|Hu]%elem_of_insert_nth Hne; [done|by apply Ha].
  - intros u x E Hne. destruct (Ht u x E Hne) as [H1 H2]. split.
    + intros Hst. apply elem_of_insert_nth. auto.
    + intros Hst. unfold idle. rewrite insert_other by congruence. destruct (H2 Hst) as [?|?]; [by left|right].
      apply Hsl; [congruence|done].
  - intros u Hu. apply Hsl. by apply Hal.
  - intros u l HL. unfold L', attach in HL. rewrite lookup_insert_ne in HL by done. apply lookup_delete_Some in HL as [_ HL]. by apply (Hs u).
Qed.

End insert.
(** *** The operations on one timer *)

Lemma wp_timer_get {A : Type} t (f : Timer -> A) x (Q : A -> kstate -> Prop) k :
  timers k !! t = Some x -> Q (f x) k -> wp (timer_get t f) Q k.
Proof. intros E HQ. unfold timer_get. wp_steps. rewrite E. by wp_steps. Qed.

Lemma wp_timer_set t f x (Q : unit -> kstate -> Prop) k :
  timers k !! t = Some x -> Q tt (set_timers (<[t := f x]> (timers k)) k) -> wp (timer_set t f) Q k.
Proof. intros E HQ. unfold timer_set. wp_steps. rewrite E. by wp_steps. Qed.

Lemma wp_rm_timer k L I dl tl t (Q : unit -> kstate -> Prop) :
  kernel_ok k L I dl -> timers_but t k L tl -> t ∈ tl \/ L !! SortList t = Some [] ->
  (forall h' L', kernel_ok (set_links h' k) L' I dl -> timers_but t (set_links h' k) L' (without t tl) ->
     unlinked L' (SortList t) -> L' !! SortList t = Some [] -> Q tt (set_links h' k)) ->
  wp (klinks (DoubleLinkListRmNode (SortList t))) Q k.
Proof.
  intros Hko Hb Hlink HQ. apply wp_klinks.
  apply (wp_DoubleLinkListRmNode _ L); [apply (ko_sched _ _ _ _ Hko)| |].
  { destruct Hlink as [Ht|?]; [right|by left]. exists TimerSortHead, (SortList <$> tl).
    split; [apply (tb_list _ _ _ _ Hb)|by apply list_elem_of_fmap_2]. }
  intros h' HR Hsl. destruct (remove_but k L I dl tl t h') as (? & ? & ?); [done..|].
  eapply HQ; [done..|apply lookup_detach_eq].
Qed.

Definition ends_later (ts : gmap ptr Timer) (T : Z) (t : ptr) : bool := bool_decide (T < ends_at ts t).

(** The running timers after [t] was started. *)
Definition with_timer (ts : gmap ptr Timer) (t : ptr) (tl : list ptr) : list ptr :=
  insert_nth (default (length tl) (fst <$> list_find (ends_later ts (ends_at ts t)) tl)) t tl.

Definition armed (now : Z) (x : Timer) : Timer :=
  set_active_status TIMER_ACTIVE_TRUE (set_deadline_timeslice (u32 (now + timer_origin x)) x).

Definition stopped (x : Timer) : Timer := set_deadline_timeslice 0 (set_active_status TIMER_ACTIVE_FALSE x).

Lemma wp_ends_before k t T u x y (Q : bool -> kstate -> Prop) :
  timers k !! t = Some x -> deadline_timeslice x = T -> timers k !! u = Some y ->
  Q (ends_later (timers k) T u) k -> wp (ends_before t (SortList u)) Q k.
Proof.
  intros Ex ET Ey HQ. unfold ends_before, sort_entry. wp_steps. eapply wp_timer_get; [exact Ex|]. wp_steps.
  eapply wp_timer_get; [exact Ey|]. wp_steps. unfold ends_later, ends_at in HQ. rewrite Ey in HQ. cbn in HQ. rewrite ET.
  destruct (Z.ltb_spec T (deadline_timeslice y)); [rewrite bool_decide_true in HQ by done|rewrite bool_decide_false in HQ by lia];
    by wp_steps.
Qed.

Lemma wp__StartRun k L I dl tl t x (Q : Z -> kstate -> Prop) :
  kernel_ok k L I dl -> timers_but t k L tl -> t ∉ tl -> unlinked L (SortList t) -> timers k !! t = Some x ->
  timer_origin x < TICK_SIZE_MAX / 2 -> 0 <= KTaskOsAssignLockNest k < 2 ^ 15 - 1 ->
  (forall h' L', let ts := <[t := armed (heartbeat_ticks k) x]> (timers k) in
     kernel_ok (set_links h' (set_timers ts k)) L' I dl ->
     timers_ok (set_links h' (set_timers ts k)) L' (with_timer ts t tl) -> Q EOK (set_links h' (set_timers ts k))) ->
  wp (_StartRun t) Q k.
Proof.
  intros Hko Hb Htl Hun Ex Ho Hn HQ. set (ts := <[t := armed (heartbeat_ticks k) x]> (timers k)) in *.
  pose proof (so_rep _ _ (ko_sched _ _ _ _ Hko)) as HR. pose proof (tb_list _ _ _ _ Hb) as HL.
  unfold _StartRun, CurrentTicksGain. wp_steps. apply wp_CriticalAreaLock; [done|]. wp_steps.
  eapply wp_timer_set; [exact Ex|]. wp_steps. eapply wp_timer_get; [apply lookup_insert_eq|]. wp_steps.
  apply wp_check; [by apply Z.ltb_lt|]. wp_steps. eapply wp_timer_set; [apply lookup_insert_eq|]. wp_steps.
  eapply wp_timer_set; [apply lookup_insert_eq|]. wp_steps. cbn [timers set_timers]. rewrite !insert_insert_eq.
  match goal with |- wp _ _ ?s => set (k1 := s) end.
  assert (k1 = locked (set_timers ts k)) as Ek1 by done.
  apply wp_klinks, wp_get_next; [eapply alloc_nxt, (rep_first _ _ _ _ HR HL)|].
  change (links k1) with (links k). rewrite (rep_first _ _ _ _ HR HL). change (set_links (links k) k1) with k1. wp_steps.
  change (links k1) with (links k).
  assert (timers k1 !! t = Some (armed (heartbeat_ticks k) x)) as Et1 by apply lookup_insert_eq.
  set (T := ends_at ts t). assert (deadline_timeslice (armed (heartbeat_ticks k) x) = T) as ET
    by (unfold T, ends_at, ts; by rewrite lookup_insert_eq).
  apply (wp_for_each_until _ _ (fun y => match sort_entry y with Some u => ends_later ts T u | None => false end)
           k1 (links k) L _ [] (SortList <$> tl)).
  - done.
  - done.
  - intros y Hy. assert (alloc (links k) y) as [nd Hnd] by (eapply rep_alloc; [done..|set_solver]).
    unfold klinks, zoom, get_next, load, nxt, mbind, M_bind. change (links k1) with (links k). by rewrite Hnd.
  - intros y Hy. apply list_elem_of_fmap in Hy as (u & -> & Hu).
    destruct (tb_active _ _ _ _ Hb u Hu) as (y & Ey & _); [by intros ->|].
    destruct (wp_inv _ (fun b k' => b = ends_later ts T u /\ k' = k1) k1
      (wp_ends_before k1 t T u _ y _ Et1 ET ltac:(cbn; unfold ts; by rewrite lookup_insert_ne by (intros ->; done)) (conj eq_refl eq_refl)))
      as (b & k' & -> & -> & ->). done.
  - pose proof (rep_length _ _ _ _ HR HL). lia.
  - rewrite (find_position SortList (ends_later ts T)) by done. fold (with_timer ts t tl).
    set (n := default (length tl) (fst <$> list_find (ends_later ts T) tl)).
    wp_steps. apply wp_klinks.
    apply (wp_DoubleLinkListInsertNodeBefore _ L TimerSortHead (take n (SortList <$> tl)) (drop n (SortList <$> tl)));
      [done|by rewrite take_drop|done|done|apply (tb_alloc _ _ _ _ Hb); by eexists|done|].
    intros h' HR' Hsl. wp_steps. apply wp_CriticalAreaUnLock; [cbn; lia|]. wp_steps.
    rewrite <- fmap_insert_nth in HR'.
    assert (kernel_ok (set_timers ts k) L I dl) as Hko0 by by eapply kernel_ok_fields.
    destruct (insert_but (set_timers ts k) L I dl tl t n h' Hko0) as [Hb' Hko'];
      [by eapply timers_but_set|done|done|].
    match goal with |- Q EOK ?s => assert (s = set_links h' (set_timers ts k)) as -> end.
    { unfold unlocked. cbn. by rewrite Z.add_simpl_r. }
    apply (HQ h' _ Hko'). apply (timers_close t _ _ _ (armed (heartbeat_ticks k) x)); [exact Hb'|apply lookup_insert_eq|].
    rewrite decide_True by done. apply elem_of_insert_nth. by left.
Qed.

Lemma wp__QuitRun k L I dl tl t x (Q : Z -> kstate -> Prop) :
  kernel_ok k L I dl -> timers_but t k L tl -> t ∈ tl \/ L !! SortList t = Some [] -> timers k !! t = Some x ->
  active_status x = TIMER_ACTIVE_TRUE -> 0 <= KTaskOsAssignLockNest k < 2 ^ 15 - 1 ->
  (forall h' L', let ts := <[t := stopped x]> (timers k) in
     kernel_ok (set_links h' (set_timers ts k)) L' I dl ->
     timers_ok (set_links h' (set_timers ts k)) L' (without t tl) -> Q EOK (set_links h' (set_timers ts k))) ->
  wp (_QuitRun t) Q k.
Proof.
  intros Hko Hb Hlink Ex Hs Hn HQ. set (ts := <[t := stopped x]> (timers k)) in *.
  unfold _QuitRun. wp_steps. eapply wp_timer_get; [exact Ex|]. rewrite Hs, Z.eqb_refl. cbn [negb]. wp_steps.
  apply wp_CriticalAreaLock; [done|]. wp_steps. eapply wp_timer_set; [exact Ex|]. wp_steps.
  eapply wp_timer_set; [apply lookup_insert_eq|]. wp_steps. cbn [timers set_timers]. rewrite !insert_insert_eq.
  change (set_timers (<[t := ?y]> (timers (locked k))) ?s) with (locked (set_timers ts k)).
  eapply (wp_rm_timer (locked (set_timers ts k)) L I dl tl t); [by eapply kernel_ok_fields| |done|].
  { eapply timers_but_fields; [by eapply (timers_but_set t k)|done|done]. }
  intros h' L' Hko' Hb' Hun HLt. wp_steps. apply wp_CriticalAreaUnLock; [cbn; lia|]. wp_steps.
  match goal with |- Q EOK ?s => assert (s = set_links h' (set_timers ts k)) as -> end.
  { unfold unlocked, locked. cbn. by rewrite Z.add_simpl_r. }
  apply (HQ h' L'); [by eapply kernel_ok_fields|].
  apply (timers_close t _ _ _ (stopped x)); [by eapply timers_but_fields|apply lookup_insert_eq|].
  rewrite decide_False by done. split; [|by left]. intros [? _]%elem_of_without. done.
Qed.

End timers.
