(* ===== verification/TimerList.v ===== *)
(** * The list of running timers

    Starting a timer by its identifier, and [CheckTimerList], which the tick
    interrupt calls: it takes the timers that are due off the list, starts the
    periodic ones again and submits their callbacks to the work queue. *)

From S2P Require Import Prelude DoubleLink IdManager Bitmap Kernel ReadyVector Assign Delay Task TaskInv Deadlines PendList Waiting Interrupt Ticks Sleep Semaphore WorkQueue SoftTimer TimerInv.

Section TimerList.
Context `{C : KConfig} `{D : PriorityReadyVectorDone} `{CO : !KConfigOk C} `{DL : !ReadyVectorLaws D}.
Implicit Types (k : kstate) (L : gmap link (list link)) (I : gmap Z link) (dl tl : list ptr) (ts : gmap ptr Timer).

Definition by_end ts tl : Prop := sorted_by (ends_at ts) tl.

(** ** The list *)

Lemma timers_nodup k L tl : rep (links k) L -> timers_ok k L tl -> NoDup tl.
Proof.
  intros HR [Hb]. pose proof (rep_nodup _ _ HR _ _ (tb_list _ _ _ _ (Hb 1%positive))) as [_ Hnd]%NoDup_cons.
  by apply NoDup_fmap_1 in Hnd.
Qed.

Lemma ends_at_ne ts t x u : u <> t -> ends_at (<[t := x]> ts) u = ends_at ts u.
Proof. intros Hne. unfold ends_at. by rewrite lookup_insert_ne. Qed.

(** A timer that is not in the list is started in its order. *)
Lemma with_timer_sorted ts t x tl : t ∉ tl -> by_end ts tl ->
  by_end (<[t := x]> ts) (with_timer (<[t := x]> ts) t tl).
Proof.
  intros Ht Hby. apply sorted_by_insert; [done|]. apply (sorted_by_ext (ends_at ts)); [|done].
  intros u Hu. apply ends_at_ne. by intros ->.
Qed.

(** Fields that the list does not depend on. *)
Lemma timers_ok_update k L tl t x x' :
  timers_ok k L tl -> timers k !! t = Some x -> active_status x' = active_status x ->
  timers_ok (set_timers (<[t := x']> (timers k)) k) L tl.
Proof.
  intros Hok E Es. apply (timers_close t _ _ _ x').
  - apply (timers_but_set t k L tl x x'); [apply Hok|done].
  - apply lookup_insert_eq.
  - destruct (tk_timer _ _ _ _ _ Hok E) as [H1 H2]. rewrite Es. destruct (decide _) as [Ea|Ea]; [by apply H1|].
    split; [|by apply H2]. intros Hin. destruct (tk_active _ _ _ _ Hok Hin) as (y & Ey & Hy). congruence.
Qed.

(** ** One timer that is due *)

Section check.
Context (work_func : Z) (mem : ptr -> option Z).

Definition entry (t : ptr) : Work := WorkInit work_func (Z.pos t).

Definition restarted (now : Z) (x : Timer) : Timer :=
  if trigger_mode x =? TIMER_TRIGGER_PERIODIC then armed now x else stopped x.
Definition fired (now : Z) (t : ptr) (x : Timer) : Timer := set_t_work (mem t) (restarted now x).

(** The running timers after [t], the first of them, was taken off and fired. *)
Definition refire ts (t : ptr) (x : Timer) tl : list ptr :=
  if trigger_mode x =? TIMER_TRIGGER_PERIODIC then with_timer ts t tl else tl.

(** The state without what the timers change. *)
Definition timer_core (k : kstate) : kstate := set_timers ∅ (set_blocks ∅ (tick_core k)).

Lemma timer_core_fields k k' : timer_core k' = timer_core k ->
  KTaskOsAssignLockNest k' = KTaskOsAssignLockNest k /\ isr_count k' = isr_count k /\
  heartbeat_ticks k' = heartbeat_ticks k /\ interrupts k' = interrupts k /\ os_running_task k' = os_running_task k.
Proof.
  intros E. change (KTaskOsAssignLockNest (timer_core k') = KTaskOsAssignLockNest k /\ isr_count (timer_core k') = isr_count k /\
    heartbeat_ticks (timer_core k') = heartbeat_ticks k /\ interrupts (timer_core k') = interrupts k /\
    os_running_task (timer_core k') = os_running_task k). by rewrite E.
Qed.

(** Whether firing wakes the task of the queue. *)
Definition room (ws : list Work) : bool := bool_decide (length ws < 31)%nat.

(** Taking the first timer off, starting or stopping it. *)
Lemma wp_restart k L I dl t x tl (Q : Z -> kstate -> Prop) :
  kernel_ok k L I dl -> timers_ok k L (t :: tl) -> timers k !! t = Some x ->
  (trigger_mode x = TIMER_TRIGGER_PERIODIC -> timer_origin x < TICK_SIZE_MAX / 2) ->
  0 <= KTaskOsAssignLockNest k < 2 ^ 15 - 1 ->
  (forall h' L', let ts := <[t := restarted (heartbeat_ticks k) x]> (timers k) in let k' := set_links h' (set_timers ts k) in
     kernel_ok k' L' I dl -> timers_ok k' L' (refire ts t x tl) -> Q EOK k') ->
  wp (klinks (DoubleLinkListRmNode (SortList t))) (fun _ k1 =>
    timers k1 = timers k /\ heartbeat_ticks k1 = heartbeat_ticks k /\
    wp (if trigger_mode x =? TIMER_TRIGGER_PERIODIC then _StartRun t else _QuitRun t) Q k1) k.
Proof.
  intros Hko Hok Ex Ho Hn HQ. pose proof (so_rep _ _ (ko_sched _ _ _ _ Hko)) as HR.
  pose proof (timers_nodup _ _ _ HR Hok) as [Ht Hnd]%NoDup_cons.
  eapply (wp_rm_timer k L I dl (t :: tl) t); [done|apply Hok|left; set_solver|].
  intros h' L' Hko' Hb' Hun HLt.
  assert (without t (t :: tl) = tl) as Ewo by (apply (without_middle t [] tl); set_solver). rewrite Ewo in Hb'.
  split_and!; [done..|]. unfold refire, restarted in HQ. destruct (Z.eqb_spec (trigger_mode x) TIMER_TRIGGER_PERIODIC) as [Em|Em].
  - eapply wp__StartRun; [exact Hko'|exact Hb'|done|done|exact Ex|by apply Ho|done|].
    intros h2 L2 ts Hko2 Hok2. by apply (HQ h2 L2).
  - destruct (tk_active k L _ t Hok) as (x0 & Ex0 & Ha); [set_solver|].
    eapply wp__QuitRun; [exact Hko'|exact Hb'|by right|exact Ex|congruence|done|].
    intros h2 L2 ts Hko2 Hok2. rewrite without_not_in in Hok2 by done. by apply (HQ h2 L2).
Qed.

Lemma wp_fire {B : Type} (f : Z -> bool -> M work_state B) s L I dl tl t x tq td ws lock (Q : B -> work_state -> Prop) :
  let k := ws_kernel s in
  kernel_ok k L I dl -> timers_ok k L (t :: tl) -> timers k !! t = Some x ->
  (trigger_mode x = TIMER_TRIGGER_PERIODIC -> timer_origin x < TICK_SIZE_MAX / 2) ->
  is_Some (mem t) -> pending ws (sys_workq s) -> I !! work_task (sys_workq s) = Some (IdLink CTask tq) ->
  tasks k !! tq = Some td -> KTaskOsAssignLockNest k = 1 -> isr_count k <> 0 -> interrupts k = false ->
  (forall k' L' q', kernel_ok k' L' I (if room ws then wake_delays td dl else dl) ->
     timers k' = <[t := fired (heartbeat_ticks k) t x]> (timers k) ->
     timers_ok k' L' (refire (<[t := restarted (heartbeat_ticks k) x]> (timers k)) t x tl) ->
     tasks k' = (if room ws then wake_task tq (tasks k) else tasks k) -> same_delays (delays k) (delays k') ->
     timer_core k' = timer_core k -> (isr_switch_trigger_flag k' = if room ws then 1 else isr_switch_trigger_flag k) ->
     pending (submit (entry t) ws) q' -> same_taken (sys_workq s) q' -> wp (f (heartbeat_ticks k) lock) Q (mkWorkState k' q')) ->
  wp (on_kernel (klinks (DoubleLinkListRmNode (SortList t)));; current_tick ← on_kernel CurrentTicksGain;
      lock ← fire work_func mem lock t; f current_tick lock) Q s.
Proof.
  intros k Hko Hok Ex Ho [b Eb] Hp Hid Et Hn Hi Hint HQ. wp_steps. apply wp_on_kernel. fold k.
  eapply wp_mono.
  { eapply (wp_restart k L I dl t x tl (fun r k' => r = EOK /\ exists h' L', let ts := <[t := restarted (heartbeat_ticks k) x]> (timers k) in
      k' = set_links h' (set_timers ts k) /\ kernel_ok k' L' I dl /\ timers_ok k' L' (refire ts t x tl))); [done..|lia|].
    intros h' L' ts k' Hko' Hok'. split; [done|]. exists h', L'. done. }
  cbn beta. intros [] k1 (Et1 & Enow1 & Hwp). wp_steps. apply wp_on_kernel. cbn [ws_kernel set_ws_kernel]. unfold CurrentTicksGain. wp_steps.
  rewrite Enow1.
  unfold fire. wp_steps. apply wp_on_kernel. cbn [ws_kernel set_ws_kernel]. eapply wp_timer_get; [by rewrite Et1|].
  assert (wp (if trigger_mode x =? TIMER_TRIGGER_PERIODIC then on_kernel (_StartRun t) else on_kernel (_QuitRun t))
    (fun r s' => r = EOK /\ exists h' L', let ts := <[t := restarted (heartbeat_ticks k) x]> (timers k) in
      let k' := set_links h' (set_timers ts k) in s' = set_ws_kernel k' s /\
      kernel_ok k' L' I dl /\ timers_ok k' L' (refire ts t x tl)) (set_ws_kernel k1 s)) as Hwp'.
  { destruct (trigger_mode x =? TIMER_TRIGGER_PERIODIC); apply wp_on_kernel; (eapply wp_mono; [exact Hwp|]);
      intros r k' (-> & h' & L' & -> & ? & ?); (split; [done|]); exists h', L'; done. }
  wp_steps. change (set_ws_kernel k1 (set_ws_kernel k1 ?s')) with (set_ws_kernel k1 s'). eapply wp_mono; [exact Hwp'|]. clear Hwp Hwp' Et1 Enow1 k1.
  cbn beta zeta. intros r s1 (Er & h' & L1 & Es1 & Hko1 & Hok1). subst s1. set (ts := <[t := restarted (heartbeat_ticks k) x]> (timers k)) in *.
  wp_steps. apply wp_on_kernel. unfold malloc_block. rewrite Eb. wp_steps. apply wp_on_kernel.
  cbn [ws_kernel set_ws_kernel]. eapply wp_timer_set; [apply lookup_insert_eq|]. wp_steps. apply wp_on_kernel.
  cbn [ws_kernel set_ws_kernel timers set_timers set_links set_blocks].
  match goal with |- wp _ _ (set_timers ?y ?z) => set (k2 := set_timers y z) end.
  assert (timers k2 = <[t := fired (heartbeat_ticks k) t x]> (timers k)) as Et2.
  { unfold k2. cbn. unfold ts. rewrite insert_insert_eq. unfold fired. by rewrite Eb. }
  assert (timers_ok k2 L1 (refire ts t x tl)) as Hok2.
  { eapply (timers_ok_update (set_blocks _ (set_links h' (set_timers ts k)))); [|apply lookup_insert_eq|done].
    by eapply timers_ok_fields. }
  apply wp_CriticalAreaUnLock; [cbn; lia|]. wp_steps.
  eapply (wp_WorkSubmit_isr (mkWorkState (unlocked lock k2) (sys_workq s)) L1 I dl tq td _ ws);
    [by eapply kernel_ok_fields|done|done|done|cbn; lia|done|].
  cbn [ws_kernel sys_workq]. fold (room ws). intros r3 k3 L3 q' Hko3 Hq3 Ets3 HL3 Hp3 Hst3.
  wp_steps. apply wp_on_kernel. cbn [ws_kernel set_ws_kernel].
  assert (KTaskOsAssignLockNest k3 = 0) as En3 by (rewrite (quiet_nest _ _ Hq3); cbn; lia).
  apply wp_CriticalAreaLock; [lia|].
  assert (interrupts k3 = lock /\ timers k3 = timers k2 /\ isr_switch_trigger_flag k3 = if room ws then 1 else isr_switch_trigger_flag k)
    as (Ei3 & Et3 & Ef3).
  { change (interrupts (core k3) = lock /\ timers (core k3) = timers k2 /\
      isr_switch_trigger_flag (core k3) = if room ws then 1 else isr_switch_trigger_flag k). rewrite (q_core _ _ Hq3). done. }
  rewrite Ei3. apply (HQ _ L3 q').
  - by eapply kernel_ok_fields.
  - by rewrite <- Et2.
  - apply (timers_ok_fields k3); [|done..]. eapply timers_ok_quiet; [|exact Hq3|exact HL3]. by apply (timers_ok_fields k2).
  - exact Ets3.
  - apply Hq3.
  - change (timer_core (locked k3)) with (locked (timer_core k3)). unfold timer_core at 1. unfold tick_core. rewrite (q_core _ _ Hq3).
    unfold timer_core, tick_core, core, locked. cbn. fold k. rewrite Z.sub_add, <- Hint. done.
  - exact Ef3.
  - done.
  - done.
Qed.

(** ** All that are due *)

Definition is_due (now : Z) ts (t : ptr) : Prop := ends_at ts t <= now.
#[export] Instance is_due_decision now ts t : Decision (is_due now ts t).
Proof. unfold is_due. apply _. Defined.

(** The deadlines and the current tick are less than half the range of the
    counter apart; the periodic timers that are due have a period in the range of
    the counter, and none of their deadlines wraps around. *)
Record timely (now : Z) ts tl : Prop := {
  ty_range : forall t, t ∈ tl -> 0 <= ends_at ts t < 2 ^ 32 /\ - 2 ^ 31 <= now - ends_at ts t < 2 ^ 31 - 1;
  ty_period : forall t x, t ∈ tl -> ts !! t = Some x -> is_due now ts t -> trigger_mode x = TIMER_TRIGGER_PERIODIC ->
    1 <= timer_origin x < 2 ^ 31 - 1 /\ now + timer_origin x < 2 ^ 32;
}.

Lemma is_due_spec now ts tl t x : timely now ts tl -> t ∈ tl -> ts !! t = Some x -> 0 <= now < 2 ^ 32 ->
  (u32 (now - deadline_timeslice x) <? TICK_SIZE_MAX / 2) = bool_decide (is_due now ts t).
Proof.
  intros [Hr _] Ht Ex Hnow. specialize (Hr t Ht). unfold is_due.
  assert (ends_at ts t = deadline_timeslice x) as E by (unfold ends_at; by rewrite Ex). rewrite E in *. unfold u32.
  change (TICK_SIZE_MAX / 2) with (2 ^ 31 - 1). case_bool_decide as Hd.
  - rewrite Z.mod_small by lia. apply Z.ltb_lt. lia.
  - rewrite <- (Z_mod_plus_full _ 1), Z.mod_small by lia. apply Z.ltb_ge. lia.
Qed.

Section refire.
Context (now : Z) ts tl (t : ptr) (x : Timer).
Hypothesis Hnd : t ∉ tl.
Hypothesis Ex : ts !! t = Some x.
Hypothesis Hby : by_end ts (t :: tl).
Hypothesis Hty : timely now ts (t :: tl).
Hypothesis Hdue : is_due now ts t.
Hypothesis Hnow : 0 <= now.
Let ts' := <[t := fired now t x]> ts.
Let tl' := refire (<[t := restarted now x]> ts) t x tl.

Lemma refire_ends_ne u : u ∈ tl -> ends_at ts' u = ends_at ts u.
Proof. intros Hu. apply ends_at_ne. by intros ->. Qed.

(** [t] is in the list again only if its new deadline lies ahead. *)
Lemma elem_of_refire u : u ∈ tl' -> u ∈ tl \/ u = t /\ now < ends_at ts' t < 2 ^ 32 /\ ends_at ts' t - now < 2 ^ 31.
Proof.
  unfold tl', refire. destruct (Z.eqb_spec (trigger_mode x) TIMER_TRIGGER_PERIODIC) as [Em|Em]; [|by left].
  intros [->|Hu]%elem_of_insert_nth; [right|by left]. split; [done|].
  destruct (ty_period _ _ _ Hty t x) as [H1 H2]; [set_solver|done..|].
  unfold ends_at, ts'. rewrite lookup_insert_eq. cbn. unfold restarted. rewrite (proj2 (Z.eqb_eq _ _) Em). cbn.
  rewrite u32_small by lia. lia.
Qed.

Lemma refire_sorted : by_end ts' tl'.
Proof.
  assert (forall u, ends_at ts' u = ends_at (<[t := restarted now x]> ts) u) as E.
  { intros u. unfold ends_at, ts'. destruct (decide (u = t)) as [->|]; [by rewrite !lookup_insert_eq|by rewrite !lookup_insert_ne]. }
  apply (sorted_by_ext (ends_at (<[t := restarted now x]> ts))); [intros u _; apply E|].
  assert (by_end ts tl) as Hby' by (by apply (sorted_by_app _ [t])).
  unfold tl', refire. destruct (_ =? _); [by apply with_timer_sorted|].
  apply (sorted_by_ext (ends_at ts)); [|done]. intros u Hu. rewrite <- E. by apply refire_ends_ne.
Qed.

Lemma refire_timely : timely now ts' tl'.
Proof.
  split.
  - intros u [Hu|(-> & H1 & H2)]%elem_of_refire; [|lia]. rewrite refire_ends_ne by done. apply (ty_range _ _ _ Hty). set_solver.
  - intros u y [Hu|(-> & H1 & _)]%elem_of_refire Ey Hd; [|unfold is_due in Hd; lia].
    assert (u <> t) as Hne by (by intros ->). unfold ts' in Ey. rewrite lookup_insert_ne in Ey by done.
    apply (ty_period _ _ _ Hty u y); [set_solver|done|]. unfold is_due in *. by rewrite refire_ends_ne in Hd.
Qed.

Lemma refire_due : filter (is_due now ts) (t :: tl) = t :: filter (is_due now ts') tl'.
Proof.
  rewrite filter_cons_True by done. f_equal.
  assert (filter (is_due now ts) tl = filter (is_due now ts') tl) as E.
  { apply filter_ext_in. intros u Hu. unfold is_due. by rewrite refire_ends_ne. }
  rewrite E. unfold tl', refire. destruct (Z.eqb_spec (trigger_mode x) TIMER_TRIGGER_PERIODIC) as [Em|Em]; [|done].
  unfold with_timer. set (n := default _ _). unfold insert_nth.
  rewrite filter_app, filter_cons_False, <- filter_app, take_drop; [done|].
  destruct (elem_of_refire t) as [?|(_ & ? & _)]; [|done|unfold is_due; lia].
  unfold tl', refire. rewrite (proj2 (Z.eqb_eq _ _) Em). apply elem_of_insert_nth. by left.
Qed.

End refire.

(** The effect of firing on the timers, and whether the task of the queue is woken. *)
Definition fire_all (now : Z) (due : list ptr) ts ts' : Prop :=
  forall t, ts' !! t = (fun x => if bool_decide (t ∈ due) then fired now t x else x) <$> ts !! t.
Definition wakes_queue (due : list ptr) (ws : list Work) : bool := negb (bool_decide (due = [])) && room ws.

Lemma fire_all_cons now due ts ts' t x :
  t ∉ due -> ts !! t = Some x -> fire_all now due (<[t := fired now t x]> ts) ts' -> fire_all now (t :: due) ts ts'.
Proof.
  intros Hnin Ex Hf u. rewrite (Hf u). destruct (decide (u = t)) as [->|Hne].
  - rewrite lookup_insert_eq, Ex. cbn. rewrite bool_decide_false by done. by rewrite bool_decide_true by set_solver.
  - rewrite lookup_insert_ne by done. by rewrite (bool_decide_ext (u ∈ t :: due) (u ∈ due)) by set_solver.
Qed.

Lemma wakes_queue_cons t due ws w : room ws || wakes_queue due (submit w ws) = wakes_queue (t :: due) ws.
Proof.
  unfold wakes_queue, room, submit. rewrite (bool_decide_false (t :: due = [])), length_take, length_app by done. cbn [negb andb length].
  destruct (bool_decide_reflect (length ws < 31)%nat) as [|]; [done|].
  rewrite (bool_decide_false (Nat.min _ _ < _)%nat) by lia. by rewrite andb_false_r.
Qed.

Lemma wake_task_twice t (tds : gmap ptr TaskDescriptor) : wake_task t (wake_task t tds) = wake_task t tds.
Proof.
  unfold wake_task. apply map_eq. intros y. destruct (decide (y = t)) as [->|]; [|by rewrite !lookup_alter_ne].
  rewrite !lookup_alter_eq. destruct (tds !! t) as [td|]; [|done]. cbn. f_equal.
  destruct (Z.eqb_spec (stat_of td) KTASK_SUSPEND) as [E|E]; [by rewrite stat_of_as_stat|by rewrite (proj2 (Z.eqb_neq _ _) E)].
Qed.

(** The loop. *)
Lemma wp_check_timers lock now I tq fuel : forall s L dl tl td ws (Q : bool -> work_state -> Prop),
  let k := ws_kernel s in
  kernel_ok k L I dl -> timers_ok k L tl -> by_end (timers k) tl -> timely now (timers k) tl ->
  let due := filter (is_due now (timers k)) tl in
  (forall t, t ∈ due -> is_Some (mem t)) -> (length due < fuel)%nat ->
  pending ws (sys_workq s) -> I !! work_task (sys_workq s) = Some (IdLink CTask tq) -> tasks k !! tq = Some td ->
  now = heartbeat_ticks k -> 0 <= now < 2 ^ 32 -> KTaskOsAssignLockNest k = 1 -> isr_count k <> 0 -> interrupts k = false ->
  (forall k' L' tl' q', let woke := wakes_queue due ws in
     kernel_ok k' L' I (if woke then wake_delays td dl else dl) ->
     timers_ok k' L' tl' -> by_end (timers k') tl' -> timely now (timers k') tl' ->
     (forall t, t ∈ tl' -> now < ends_at (timers k') t) -> fire_all now due (timers k) (timers k') ->
     tasks k' = (if woke then wake_task tq (tasks k) else tasks k) -> same_delays (delays k) (delays k') ->
     timer_core k' = timer_core k -> (isr_switch_trigger_flag k' = if woke then 1 else isr_switch_trigger_flag k) ->
     pending (submitted (entry <$> due) ws) q' -> same_taken (sys_workq s) q' -> Q lock (mkWorkState k' q')) ->
  wp (check_timers work_func mem fuel lock now) Q s.
Proof.
  induction fuel as [|fuel IH]; intros s L dl tl td ws Q k Hko Hok Hby Hty due Hmem Hf Hp Hid Et Enow Hnow Hn Hi Hint HQ; [lia|].
  cbn [check_timers]. pose proof (so_rep _ _ (ko_sched _ _ _ _ Hko)) as HR.
  pose proof (tb_list _ _ _ _ (tk_but _ _ _ Hok 1%positive)) as HL. wp_steps. apply wp_on_kernel, wp_klinks. fold k.
  eapply (wp_IsDoubleLinkListEmpty _ L); [done|exact HL|]. rewrite set_links_id.
  assert (set_ws_kernel k s = s) as Eks by (by destruct s).
  assert (due = [] -> (forall t, t ∈ tl -> now < ends_at (timers k) t) -> Q lock s) as Hnone.
  { intros Ed Hah. rewrite Ed in HQ. replace s with (mkWorkState k (sys_workq s)) by (by destruct s).
    apply (HQ k L tl (sys_workq s)); try done. intros t. by destruct (timers k !! t). }
  destruct tl as [|t tl].
  { rewrite bool_decide_true by done. wp_steps. rewrite Eks. apply Hnone; [done|]. intros t ?%not_elem_of_nil. done. }
  rewrite bool_decide_false by done. wp_steps. rewrite Eks. apply wp_on_kernel, wp_klinks.
  pose proof (rep_first _ _ _ _ HR HL) as Hfst. apply wp_get_next; [by eapply alloc_nxt|]. fold k.
  rewrite Hfst, set_links_id, Eks. cbn [List.hd fmap list_fmap]. wp_steps.
  destruct (tk_active k L _ t Hok) as (x & Ex & Ea); [set_solver|].
  change (Some (SortList t) ≫= sort_entry) with (Some t).
  wp_steps. apply wp_on_kernel. fold k. eapply wp_timer_get; [exact Ex|]. rewrite Eks.
  rewrite (is_due_spec now (timers k) (t :: tl) t x) by (done || set_solver). case_bool_decide as Hdue.
  2:{ wp_steps. assert (forall u, u ∈ t :: tl -> now < ends_at (timers k) u) as Hah.
    { unfold is_due in Hdue. intros u [->|Hu]%elem_of_cons; [lia|]. pose proof (sorted_by_head _ _ _ _ Hby Hu). lia. }
    apply Hnone; [|done]. apply filter_none. intros u Hu. specialize (Hah u Hu). unfold is_due. lia. }
  wp_steps. apply wp_on_kernel. fold k. eapply wp_timer_get; [exact Ex|]. rewrite Eks, Ea. change (TIMER_ACTIVE_TRUE =? TIMER_ACTIVE_TRUE) with true. cbn iota.
  pose proof (timers_nodup _ _ _ HR Hok) as [Hnin Hnd]%NoDup_cons.
  set (ts1 := <[t := fired now t x]> (timers k)). set (tl1 := refire (<[t := restarted now x]> (timers k)) t x tl).
  assert (0 <= now) as Hnow0 by lia.
  assert (due = t :: filter (is_due now ts1) tl1) as Edue by by apply refire_due.
  apply (wp_fire (fun tick lock => check_timers work_func mem fuel lock tick) s L I dl tl t x tq td ws lock); [done|done|done| |apply Hmem; rewrite Edue; set_solver|done..|].
  { intros Em. destruct (ty_period _ _ _ Hty t x) as [H1 _]; [set_solver|done..|]. change (TICK_SIZE_MAX / 2) with (2 ^ 31 - 1). lia. }
  fold k. rewrite <- Enow. fold ts1 tl1. intros k1 L1 q1 Hko1 Ets1 Hok1 Etk1 Hsd1 Hc1 Hfl1 Hp1 Hst1.
  set (td1 := if room ws && (stat_of td =? KTASK_SUSPEND) then as_stat KTASK_READY td else td).
  assert (tasks k1 !! tq = Some td1) as Et1.
  { rewrite Etk1. unfold td1. destruct (room ws); cbn [andb]; [|done]. unfold wake_task. by rewrite lookup_alter_eq, Et. }
  destruct (timer_core_fields _ _ Hc1) as (En1 & Ei1 & Enow1 & Eint1 & _).
  eapply (IH (mkWorkState k1 q1) L1 _ tl1 td1 (submit (entry t) ws)); cbn [ws_kernel sys_workq]; rewrite ?Ets1; rewrite ?Enow1;
    [exact Hko1|exact Hok1|by apply refire_sorted|by eapply refire_timely| | |done|by rewrite (st_task _ _ Hst1)|exact Et1|done..| | | |].
  { intros u Hu. apply Hmem. rewrite Edue. set_solver. }
  { rewrite Edue in Hf. cbn in Hf. lia. }
  { congruence. }
  { congruence. }
  { congruence. }
  set (due1 := filter (is_due now ts1) tl1) in *.
  intros k' L' tl' q' Hko' Hok' Hby' Hty' Hah Hfa Ets' Hsd' Hc' Hfl' Hp' Hst'.
  assert (t ∉ due1) as Hnd1.
  { pose proof (NoDup_filter (is_due now (timers k)) (t :: tl) (proj2 (NoDup_cons _ _) (conj Hnin Hnd))) as Hnd1.
    fold due in Hnd1. rewrite Edue in Hnd1. by apply NoDup_cons in Hnd1 as [? _]. }
  pose proof (wakes_queue_cons t due1 ws (entry t)) as Ew. rewrite <- Edue in Ew.
  apply (HQ k' L' tl' q'); cbv zeta; rewrite <- ?Ew; try done.
  - unfold td1 in Hko'. unfold wake_delays in *. destruct (room ws), (wakes_queue due1 _); cbn [andb orb] in *; try done.
    destruct (Z.eqb_spec (stat_of td) KTASK_SUSPEND) as [E|E]; [by rewrite stat_of_as_stat in Hko'|].
    by rewrite (proj2 (Z.eqb_neq _ _) E) in Hko'.
  - rewrite Edue. by apply (fire_all_cons _ _ _ _ _ x).
  - rewrite Ets', Etk1. destruct (room ws), (wakes_queue due1 _); cbn [orb]; try done. apply wake_task_twice.
  - intros d. by rewrite (Hsd' d), (Hsd1 d).
  - by rewrite Hc'.
  - rewrite Hfl', Hfl1. by destruct (room ws), (wakes_queue due1 _).
  - by rewrite Edue.
  - by eapply same_taken_trans.
Qed.
(** C3: the software timers in the tick interrupt.  When every period is at least 1 and
    no deadline wraps around the counter ([timely]; with the period 0 the loop does not
    end, see Defects.v), and the memory for the entries of the work queue is given,
    [CheckTimerList] terminates and fires exactly the timers whose deadline has come, in
    the order of the deadlines: a one-shot timer is
    stopped, a periodic one runs again from now on, and each of their callbacks is
    submitted to the work queue, dropped only if the queue is full.  The other timers
    are kept, all that run end in the future and are in the order of their deadlines,
    the task of the queue is woken, a switch is requested, and the invariants of the
    kernel, the timers and the queue are kept. *)
Theorem CheckTimerList_fires s L I dl tl tq td ws :
  let k := ws_kernel s in
  kernel_ok k L I dl -> timers_ok k L tl -> by_end (timers k) tl -> timely (heartbeat_ticks k) (timers k) tl ->
  let due := filter (is_due (heartbeat_ticks k) (timers k)) tl in
  (forall t, t ∈ due -> is_Some (mem t)) -> pending ws (sys_workq s) ->
  I !! work_task (sys_workq s) = Some (IdLink CTask tq) -> tasks k !! tq = Some td ->
  0 <= heartbeat_ticks k < 2 ^ 32 -> KTaskOsAssignLockNest k = 0 -> isr_count k <> 0 ->
  wp (CheckTimerList work_func mem) (fun _ s' =>
    let k' := ws_kernel s' in let woke := wakes_queue due ws in
    (exists L' tl', kernel_ok k' L' I (if woke then wake_delays td dl else dl) /\ timers_ok k' L' tl' /\
       by_end (timers k') tl' /\ forall t, t ∈ tl' -> heartbeat_ticks k < ends_at (timers k') t) /\
    fire_all (heartbeat_ticks k) due (timers k) (timers k') /\
    pending (submitted (entry <$> due) ws) (sys_workq s') /\
    tasks k' = (if woke then wake_task tq (tasks k) else tasks k) /\
    isr_switch_trigger_flag k' = (if woke then 1 else isr_switch_trigger_flag k) /\
    timer_core k' = timer_core k) s.
Proof.
  intros k Hko Hok Hby Hty due Hmem Hp Hid Et Hnow Hn Hi. unfold CheckTimerList, CurrentTicksGain. wp_steps.
  apply wp_on_kernel. fold k. wp_steps. apply wp_on_kernel, wp_CriticalAreaLock; [cbn; lia|]. wp_steps.
  cbn [ws_kernel set_ws_kernel sys_workq]. fold k.
  pose proof (so_rep _ _ (ko_sched _ _ _ _ Hko)) as HR.
  pose proof (rep_length _ _ _ _ HR (tb_list _ _ _ _ (tk_but _ _ _ Hok 1%positive))) as Hlen. rewrite length_fmap in Hlen.
  eapply (wp_check_timers _ _ I tq _ (mkWorkState (locked k) (sys_workq s)) L dl tl td ws);
    [by eapply kernel_ok_fields|by eapply timers_ok_fields|done|done|done| |done|done|exact Et|done|done|cbn; lia|done|done|].
  { cbn [ws_kernel links locked set_KTaskOsAssignLockNest set_interrupts timers]. pose proof (length_filter (is_due (heartbeat_ticks k) (timers k)) tl).
    unfold k in *. lia. }
  intros k' L' tl' q' woke Hko' Hok' Hby' Hty' Hah Hfa Ets' _ Hc' Hfl' Hp' _. wp_steps. apply wp_on_kernel. cbn [ws_kernel].
  destruct (timer_core_fields _ _ Hc') as (En & _). apply wp_CriticalAreaUnLock; [rewrite En; cbn; lia|].
  cbn [ws_kernel set_ws_kernel sys_workq]. split_and!; [|done..|].
  - exists L', tl'. split_and!; [by eapply kernel_ok_fields|by eapply timers_ok_fields|done|done].
  - change (timer_core (unlocked (interrupts k) k')) with (unlocked (interrupts k) (timer_core k')). rewrite Hc'.
    unfold timer_core, tick_core, core, unlocked, locked. cbn. by rewrite Z.add_simpl_r.
Qed.

End check.

(** ** By identifier *)

Lemma wp_KGetTimer k L id t (Q : option ptr -> kstate -> Prop) :
  has_object k L CTimer id t -> 0 <= KTaskOsAssignLockNest k < 2 ^ 15 - 1 -> Q (Some t) k -> wp (KGetTimer id) Q k.
Proof.
  intros (mgr & I & Em & Hrep & Hid) Hn HQ. pose proof (ir_dom _ _ _ _ Hrep _ _ Hid) as Hd.
  pose proof (ir_max _ _ _ _ Hrep). cbn [manager] in *.
  unfold KGetTimer. rewrite u16_small by lia. wp_steps. apply wp_CriticalAreaLock; [done|]. wp_steps.
  eapply wp_kid; [exact Em|]. eapply wp_IdGetObj_hit; [exact Hrep|exact Hid|]. cbn [manager node_id id_links].
  wp_steps. change (managers k) with (managers (locked k)). rewrite insert_id by done.
  change (set_managers (managers (locked k)) _) with (locked k).
  cbn [id_entry]. rewrite bool_decide_true by done. wp_steps. apply wp_CriticalAreaUnLock; [cbn; lia|].
  rewrite unlocked_locked. by wp_steps.
Qed.

(** The state with the timers [ts]. *)
Definition with_timers ts k k' : Prop := exists h', k' = set_links h' (set_timers ts k).

(** Starting a timer by its identifier.  A timer that does not run gets the
    deadline [timer_origin] ticks from now, runs, and is linked into the list before
    the first timer that ends later; the order of the list, the invariants and the
    rest of the state are kept. *)
Theorem KTimerStartRun_correct k L I dl tl id t x :
  kernel_ok k L I dl -> timers_ok k L tl -> has_object k L CTimer id t -> timers k !! t = Some x ->
  active_status x <> TIMER_ACTIVE_TRUE -> timer_origin x < TICK_SIZE_MAX / 2 -> 0 <= KTaskOsAssignLockNest k < 2 ^ 15 - 1 ->
  wp (KTimerStartRun id) (fun ret k' =>
    let ts := <[t := armed (heartbeat_ticks k) x]> (timers k) in
    ret = EOK /\ with_timers ts k k' /\
    (exists L', kernel_ok k' L' I dl /\ timers_ok k' L' (with_timer ts t tl)) /\
    (by_end (timers k) tl -> by_end ts (with_timer ts t tl))) k.
Proof.
  intros Hko Hok Hobj Ex Ha Ho Hn. unfold KTimerStartRun. wp_steps. eapply wp_KGetTimer; [exact Hobj|done|]. wp_steps.
  pose proof (so_rep _ _ (ko_sched _ _ _ _ Hko)) as HR. destruct (tk_timer _ _ _ _ _ Hok Ex) as [_ Hidle].
  assert (t ∉ tl) as Ht.
  { intros Hin. destruct (tk_active _ _ _ _ Hok Hin) as (y & Ey & Hy). congruence. }
  eapply (wp__StartRun k L I dl tl t x); [done|apply Hok|done|by eapply idle_unlinked, Hidle|done..|].
  intros h' L' ts Hko' Hok'. split_and!; [done|by exists h'|by exists L'|]. by apply with_timer_sorted.
Qed.

(** Stopping a timer by its identifier: a running timer leaves the list and is
    stopped, any other one is left alone. *)
Theorem KTimerQuitRun_correct k L I dl tl id t x :
  kernel_ok k L I dl -> timers_ok k L tl -> has_object k L CTimer id t -> timers k !! t = Some x ->
  0 <= KTaskOsAssignLockNest k < 2 ^ 15 - 1 ->
  wp (KTimerQuitRun id) (fun _ k' =>
    if active_status x =? TIMER_ACTIVE_TRUE
    then let ts := <[t := stopped x]> (timers k) in with_timers ts k k' /\
         (exists L', kernel_ok k' L' I dl /\ timers_ok k' L' (without t tl)) /\
         (by_end (timers k) tl -> by_end ts (without t tl))
    else k' = k) k.
Proof.
  intros Hko Hok Hobj Ex Hn. unfold KTimerQuitRun. wp_steps. eapply wp_KGetTimer; [exact Hobj|done|]. wp_steps.
  destruct (Z.eqb_spec (active_status x) TIMER_ACTIVE_TRUE) as [Ha|Ha].
  - destruct (tk_timer _ _ _ _ _ Hok Ex) as [Hin _].
    eapply (wp__QuitRun k L I dl tl t x); [done|apply Hok|left; by apply Hin|done..|].
    intros h' L' ts Hko' Hok'. wp_steps. split_and!; [by exists h'|by exists L'|]. intros Hby.
    apply (sorted_by_ext (ends_at (timers k))); [|by apply sorted_by_without].
    intros u [Hne _]%elem_of_without. by apply ends_at_ne.
  - unfold _QuitRun. wp_steps. eapply wp_timer_get; [exact Ex|]. rewrite (proj2 (Z.eqb_neq _ _) Ha). cbn [negb]. by wp_steps.
Qed.

End TimerList.
