(* ===== verification/SchedCheck.v ===== *)
(** * An executable test of the scheduler invariant

    [sched_ok] quantifies over lists, tasks and priorities of a state; on a
    concrete state [sched_check] evaluates it, and [sched_check_sound] turns the
    result into the invariant.  The file ends with a small kernel (two ready
    tasks and a running one) at which the theorems of Assign are applied. *)

From S2P Require Import Prelude DoubleLink IdManager Bitmap Kernel ReadyVector Assign.

(** ** Lists *)

Section rep_check.
Context {A : Type} `{Countable A}.
Implicit Types (h : gmap A (node A)) (L : gmap A (list A)).

Definition linked_check h (a b : A) : bool :=
  bool_decide (nxt h a = Some b) && bool_decide (prv h b = Some a).

Fixpoint chain_check h (a : A) (l : list A) (b : A) : bool :=
  match l with
  | [] => linked_check h a b
  | x :: l => linked_check h a x && chain_check h x l b
  end.

Definition rep_check h L : bool :=
  bool_decide (map_Forall (fun hd l => chain_check h hd l hd = true /\ NoDup (hd :: l)) L) &&
  bool_decide (map_Forall (fun hd1 l1 =>
    map_Forall (fun hd2 l2 => hd1 = hd2 \/ Forall (fun x => x ∉ hd2 :: l2) (hd1 :: l1)) L) L).

Lemma linked_check_sound h a b : linked_check h a b = true -> linked h a b.
Proof. intros [H1%bool_decide_eq_true H2%bool_decide_eq_true]%andb_true_iff. by split. Qed.

Lemma chain_check_sound h a l b : chain_check h a l b = true -> chain h a l b.
Proof.
  revert a. induction l as [|x l IH]; intros a; cbn; [apply linked_check_sound|].
  intros [?%linked_check_sound ?]%andb_true_iff. auto.
Qed.

Lemma rep_check_sound h L : rep_check h L = true -> rep h L.
Proof.
  intros [H1%bool_decide_eq_true H2%bool_decide_eq_true]%andb_true_iff. split.
  - intros hd l HL. apply chain_check_sound. by apply (H1 hd l).
  - intros hd l HL. by apply (H1 hd l).
  - intros hd1 l1 hd2 l2 x HL1 HL2 Hx1 Hx2. destruct (H2 hd1 l1 HL1 hd2 l2 HL2) as [?|HF]; [done|].
    rewrite Forall_forall in HF. by destruct (HF x).
Qed.

(** The memory that holds given lists. *)
Definition link_up (a b : A) h : gmap A (node A) :=
  let na := default (mkNode None None) (h !! a) in
  let h := <[a := mkNode (Some b) (node_prev na)]> h in
  let nb := default (mkNode None None) (h !! b) in
  <[b := mkNode (node_next nb) (Some a)]> h.
Fixpoint link_chain (a : A) (l : list A) (b : A) h : gmap A (node A) :=
  match l with
  | [] => link_up a b h
  | x :: l => link_chain x l b (link_up a x h)
  end.
Definition memory_of L : gmap A (node A) :=
  map_fold (fun hd l h => link_chain hd l hd h) ∅ L.
End rep_check.

(** ** The invariant *)

Section sched_check.
Context `{C : KConfig}.
Implicit Types (L : gmap link (list link)).

Definition priorities : list Z := seqZ 0 KTASK_PRIORITY_MAX.

Definition rv_check (rv : OsAssignReadyVector) L : bool :=
  (0 <=? priority_ready_group rv) && (priority_ready_group rv <? 2 ^ 32) &&
  (if two_level then
     bool_decide (length (ready_vector rv) = 32%nat) &&
     forallb (fun e => (0 <=? e) && (e <? 256)) (ready_vector rv) &&
     forallb (fun g => Bool.eqb (Z.testbit (priority_ready_group rv) g)
                         (negb (default 0 (ready_vector rv !! Z.to_nat g) =? 0))) (seqZ 0 32)
   else priority_ready_group rv <? 2 ^ KTASK_PRIORITY_MAX) &&
  forallb (fun p => Bool.eqb (ready_bit rv p) (ready_nonempty L p) &&
                    implb (ready_nonempty L p) (p <=? highest_prio rv)) priorities &&
  (ready_nonempty L (highest_prio rv) ||
   forallb (fun p => negb (ready_nonempty L p)) priorities && (highest_prio rv =? 0)).

Definition task_check (k : kstate) L (t : ptr) (td : TaskDescriptor) : bool :=
  let on_list := bool_decide (SchedLink t ∈ default [] (L !! ReadyVec (cur_prio td))) in
  implb (stat_of td =? KTASK_READY) on_list &&
  (bool_decide (L !! SchedLink t = Some []) ||
   existsb (fun '(hd, l) => bool_decide (SchedLink t ∈ l)) (map_to_list L)) &&
  implb (stat_of td =? KTASK_RUNNING)
    (bool_decide (L !! SchedLink t = Some []) && bool_decide (os_running_task k = Some t)) &&
  implb (negb (stat_of td =? KTASK_INIT))
    ((0 <=? cur_prio td) && (cur_prio td <? KTASK_PRIORITY_MAX) &&
     if two_level then (bitmap_offset td =? cur_prio td / 8) &&
       (bitmap_row td =? 2 ^ (cur_prio td mod 8)) && (bitmap_column td =? 2 ^ (cur_prio td / 8))
     else bitmap_column td =? 2 ^ cur_prio td).

Definition list_check (k : kstate) (x : link) (l : list link) : bool :=
  match x with
  | ReadyVec p =>
      forallb (fun y => match sched_entry y ≫= (fun t => tasks k !! t) with
                        | Some td => (stat_of td =? KTASK_READY) && (cur_prio td =? p)
                        | None => false
                        end) l && implb (negb (bool_decide (l = []))) (bool_decide (p ∈ priorities))
  | _ => true
  end.

Definition sched_check (k : kstate) L : bool :=
  rep_check (links k) L &&
  forallb (fun p => bool_decide (is_Some (L !! ReadyVec p))) priorities &&
  forallb (fun '(x, l) => list_check k x l) (map_to_list L) &&
  forallb (fun '(t, td) => task_check k L t td) (map_to_list (tasks k)) &&
  match os_running_task k with None => true | Some t => bool_decide (is_Some (tasks k !! t)) end &&
  rv_check (os_assign_read_vector k) L.

Context {CO : KConfigOk C}.

Lemma elem_of_priorities p : p ∈ priorities <-> 0 <= p < KTASK_PRIORITY_MAX.
Proof. unfold priorities. rewrite elem_of_seqZ. lia. Qed.

Lemma forallb_elem {A : Type} (f : A -> bool) (l : list A) x : forallb f l = true -> x ∈ l -> f x = true.
Proof. rewrite forallb_forall. intros HF Hx. apply HF. by apply list_elem_of_In. Qed.

Lemma rv_check_sound rv L :
  rv_check rv L = true -> (forall p, ready_nonempty L p = true -> 0 <= p < KTASK_PRIORITY_MAX) ->
  rv_ok rv (ready_nonempty L).
Proof.
  intros Hc Hin. pose proof (@cfg_prio C CO) as Hcfg. unfold rv_check in Hc.
  apply andb_true_iff in Hc as [Hc Htop]. apply andb_true_iff in Hc as [Hc Hbits].
  apply andb_true_iff in Hc as [Hg Hvec]. apply andb_true_iff in Hg as [Hg1%Z.leb_le Hg2%Z.ltb_lt].
  assert (forall p, 0 <= p < KTASK_PRIORITY_MAX -> ready_bit rv p = ready_nonempty L p /\
    (ready_nonempty L p = true -> p <= highest_prio rv)) as Hp.
  { intros p Hp. apply (forallb_elem _ _ p) in Hbits; [|by apply elem_of_priorities].
    apply andb_true_iff in Hbits as [He%eqb_prop Hi]. split; [done|]. intros E. rewrite E in Hi.
    by apply Z.leb_le. }
  assert (forall p, ~ (0 <= p < KTASK_PRIORITY_MAX) -> ready_nonempty L p = false) as Hout.
  { intros p Hp'. destruct (ready_nonempty L p) eqn:E; [|done]. by destruct Hp'; apply Hin. }
  split; [split|..].
  - lia.
  - intros E. rewrite E in Hvec. apply andb_true_iff in Hvec as [Hvec Hb].
    apply andb_true_iff in Hvec as [Hlen%bool_decide_eq_true Hby]. split_and!; [done| |].
    + intros j e He. apply (forallb_elem _ _ e) in Hby; [|by eapply list_elem_of_lookup_2].
      apply andb_true_iff in Hby as [?%Z.leb_le ?%Z.ltb_lt]. lia.
    + intros g Hg. destruct (lookup_lt_is_Some_2 (ready_vector rv) (Z.to_nat g)) as [e He]; [lia|].
      exists e. split; [done|]. apply (forallb_elem _ _ g) in Hb; [|apply elem_of_seqZ; lia].
      cbn beta in Hb; rewrite He in Hb. by apply eqb_prop.
  - intros p Hp0. destruct (decide (p < KTASK_PRIORITY_MAX)); [apply Hp; lia|].
    rewrite Hout by lia. unfold ready_bit. destruct two_level eqn:E.
    + apply andb_true_iff in Hvec as [Hvec _]. apply andb_true_iff in Hvec as [Hlen%bool_decide_eq_true _].
      apply two_level_true in E. unfold used_bit. rewrite lookup_ge_None_2; [done|].
      pose proof (Z.div_le_mono 256 p 8 ltac:(lia) ltac:(lia)). change (256 / 8) with 32 in *. lia.
    + apply Z.ltb_lt in Hvec. apply (testbit_high _ KTASK_PRIORITY_MAX); lia.
  - intros p Hp0. apply Hout. lia.
  - intros p E. apply Hp; [by apply Hin|done].
  - apply orb_true_iff in Htop as [?|[Hn ?%Z.eqb_eq]%andb_true_iff]; [by left|right]. split; [|done].
    intros p. destruct (decide (0 <= p < KTASK_PRIORITY_MAX)); [|by apply Hout].
    apply (forallb_elem _ _ p) in Hn; [by apply negb_true_iff|by apply elem_of_priorities].
Qed.

Lemma task_check_sound k L t td :
  task_check k L t td = true ->
  (stat_of td = KTASK_READY -> exists l, L !! ReadyVec (cur_prio td) = Some l /\ SchedLink t ∈ l) /\
  linked_or_detached L (SchedLink t) /\
  (stat_of td = KTASK_RUNNING -> L !! SchedLink t = Some [] /\ os_running_task k = Some t) /\
  (stat_of td <> KTASK_INIT -> site_ok td).
Proof.
  unfold task_check. intros Hc. apply andb_true_iff in Hc as [Hc Hsite].
  apply andb_true_iff in Hc as [Hc Hrun]. apply andb_true_iff in Hc as [Hready Hlink]. split_and!.
  - intros E. rewrite E in Hready. apply bool_decide_eq_true in Hready.
    destruct (L !! ReadyVec (cur_prio td)) as [l|]; [by exists l|by apply not_elem_of_nil in Hready].
  - apply orb_true_iff in Hlink as [?%bool_decide_eq_true|Hex]; [by left|right].
    apply existsb_exists in Hex as ([hd l] & Hin%list_elem_of_In%elem_of_map_to_list & ?%bool_decide_eq_true).
    by exists hd, l.
  - intros E. rewrite E in Hrun. by apply andb_true_iff in Hrun as [?%bool_decide_eq_true ?%bool_decide_eq_true].
  - intros E. rewrite (proj2 (Z.eqb_neq _ _) E) in Hsite. cbn [negb implb] in Hsite.
    apply andb_true_iff in Hsite as [[?%Z.leb_le ?%Z.ltb_lt]%andb_true_iff Hs]. split; [lia|].
    destruct two_level; [|by apply Z.eqb_eq].
    by apply andb_true_iff in Hs as [[?%Z.eqb_eq ?%Z.eqb_eq]%andb_true_iff ?%Z.eqb_eq].
Qed.

Theorem sched_check_sound k L : sched_check k L = true -> sched_ok k L.
Proof.
  unfold sched_check. intros Hc. apply andb_true_iff in Hc as [Hc Hrv]. apply andb_true_iff in Hc as [Hc Hcur].
  apply andb_true_iff in Hc as [Hc Htasks]. apply andb_true_iff in Hc as [Hc Hlists].
  apply andb_true_iff in Hc as [Hrep Hpr].
  assert (forall t td, tasks k !! t = Some td -> task_check k L t td = true) as Ht.
  { intros t td Htd. by apply (forallb_elem _ _ (t, td)) in Htasks; [|apply elem_of_map_to_list]. }
  assert (forall x l, L !! x = Some l -> list_check k x l = true) as Hl.
  { intros x l Hx. by apply (forallb_elem _ _ (x, l)) in Hlists; [|apply elem_of_map_to_list]. }
  split.
  - by apply rep_check_sound.
  - intros p Hp. by apply (forallb_elem _ _ p) in Hpr; [apply bool_decide_eq_true in Hpr|apply elem_of_priorities].
  - intros p l x HL Hx. apply Hl in HL. apply andb_true_iff in HL as [HL _].
    apply (forallb_elem _ _ x) in HL; [|done]. destruct x as [| | | | | |t| | | |]; try done. cbn in HL.
    destruct (tasks k !! t) as [td|] eqn:E; [|done].
    apply andb_true_iff in HL as [?%Z.eqb_eq ?%Z.eqb_eq]. by exists t, td.
  - intros t td Htd. by apply (task_check_sound k), Ht.
  - intros t td Htd. by eapply (task_check_sound k), Ht.
  - intros t td Htd Hst. by eapply (task_check_sound k), Hst; apply Ht.
  - intros t td Htd. by apply (task_check_sound k L t), Ht.
  - intros t td Htd Hst. by eapply (task_check_sound k), Hst; apply Ht.
  - intros t Et. rewrite Et in Hcur. by apply bool_decide_eq_true in Hcur.
  - apply rv_check_sound; [done|]. intros p Hp. unfold ready_nonempty in Hp.
    destruct (L !! ReadyVec p) as [[|x l]|] eqn:E; try done. apply Hl in E.
    apply andb_true_iff in E as [_ E]. cbn [negb bool_decide implb] in E.
    rewrite bool_decide_false in E by done. apply bool_decide_eq_true in E. by apply elem_of_priorities.
Qed.
End sched_check.

(** ** A small kernel *)

(** Eight priorities, FIFO. *)
#[export] Instance demo_config : KConfig := {|
  KTASK_PRIORITY_MAX := 8; sched_policy := SCHED_POLICY_FIFO; TICK_PER_SECOND := 100;
  ID_NUM_MAX := 16; ID_HTABLE_SIZE := 4; MEM_ALIGN_SIZE := 8; NAME_NUM_MAX := 32
|}.

#[export] Instance demo_config_ok : KConfigOk demo_config.
Proof. split; cbn; lia. Qed.

Definition demo_task (s prio : Z) : TaskDescriptor :=
  mkTask "task" (Some 1) 0 prio 512 None s 0 prio 0 0 0 0 (2 ^ prio) None 0 0 EOK.

(** A kernel with given lists beside the empty ready lists. *)
Definition demo_lists (l : list (link * list link)) : gmap link (list link) :=
  list_to_map l ∪ list_to_map ((fun p => (ReadyVec p, [])) <$> priorities).

Definition demo_kernel (l : list (link * list link)) (ts : list (ptr * TaskDescriptor))
    (group highest : Z) (running : option ptr) : kstate :=
  mkKernel (memory_of (demo_lists l)) (list_to_map ts) ∅ ∅ ∅ ∅ ∅ ∅ ∅ ∅
    (mkReadyVector group [] highest) running 0 0 true 0 0 0 EOK 0 ∅.

(** Task 1 runs at priority 3; tasks 2 and 3 are ready at priority 5, task 4 at 1. *)
Definition demo_ready_lists : list (link * list link) :=
  [(SchedLink 1, []); (ReadyVec 5, [SchedLink 2; SchedLink 3]); (ReadyVec 1, [SchedLink 4])].
Definition demo_tasks : list (ptr * TaskDescriptor) :=
  [(1%positive, demo_task KTASK_RUNNING 3); (2%positive, demo_task KTASK_READY 5);
   (3%positive, demo_task KTASK_READY 5); (4%positive, demo_task KTASK_READY 1)].
Definition demo : kstate := demo_kernel demo_ready_lists demo_tasks (2 ^ 5 + 2 ^ 1) 5 (Some 1%positive).

Lemma demo_ok : sched_ok demo (demo_lists demo_ready_lists).
Proof. apply sched_check_sound. vm_compute. reflexivity. Qed.

Lemma demo_can_run k : tasks k = list_to_map demo_tasks -> can_run k.
Proof. intros E. left. exists 2%positive, (demo_task KTASK_READY 5). rewrite E. done. Qed.

(** The switch goes from task 1 to task 2, the first at priority 5. *)
Lemma KTaskOsAssign_runs_highest_witness :
  exists k', KTaskOsAssign demo = Ret tt k' /\ os_running_task k' = Some 2%positive /\ runs_highest k'.
Proof.
  destruct (wp_inv _ _ _ (KTaskOsAssign_runs_highest demo _ 1%positive demo_ok eq_refl
    (demo_can_run demo eq_refl) eq_refl eq_refl)) as (u & k' & E & L' & _ & _ & Hr & _).
  exists k'. destruct u. split; [exact E|]. split; [|exact Hr].
  apply (f_equal (observe (fun _ k => os_running_task k))) in E. vm_compute in E. by injection E.
Defined.

Definition demo_irq : kstate := set_isr_switch_trigger_flag 1 demo.

Lemma KTaskOsAssignDoIrqSwitch_runs_highest_witness :
  exists k', KTaskOsAssignDoIrqSwitch demo_irq = Ret tt k' /\ runs_highest k' /\
             isr_switch_trigger_flag k' = 0.
Proof.
  assert (sched_ok demo_irq (demo_lists demo_ready_lists)) as Hk by by apply (sched_ok_fields demo _ _ demo_ok).
  destruct (wp_inv _ _ _ (KTaskOsAssignDoIrqSwitch_runs_highest demo_irq _ 1%positive Hk eq_refl
    (demo_can_run demo_irq eq_refl) eq_refl ltac:(discriminate))) as ([] & k' & E & L' & _ & Hr & Hf).
  exists k'. split; [exact E|]. split; [exact Hr|exact Hf].
Defined.

Lemma YieldOsAssign_hands_over_witness :
  exists k', YieldOsAssign demo = Ret EOK k' /\ os_running_task k' = Some 2%positive.
Proof.
  destruct (wp_inv _ _ _ (YieldOsAssign_hands_over demo _ 1%positive (demo_task KTASK_RUNNING 3)
    demo_ok eq_refl eq_refl eq_refl eq_refl eq_refl)) as (r & k' & E & [(-> & _)|(-> & _)]).
  - exfalso. apply (f_equal (observe (fun r _ => r))) in E. by vm_compute in E.
  - exists k'. split; [exact E|].
    apply (f_equal (observe (fun _ k => os_running_task k))) in E. vm_compute in E. by injection E.
Defined.

(** Before the first task runs: tasks 2 to 4 are ready. *)
Definition demo_start : kstate :=
  demo_kernel (tail demo_ready_lists) (tail demo_tasks) (2 ^ 5 + 2 ^ 1) 5 None.

Lemma StartupOsAssign_runs_highest_witness :
  exists k', StartupOsAssign demo_start = Ret tt k' /\ runs_highest k'.
Proof.
  assert (sched_ok demo_start (demo_lists (tail demo_ready_lists))) as Hk
    by (apply sched_check_sound; vm_compute; reflexivity).
  destruct (wp_inv _ _ _ (StartupOsAssign_runs_highest demo_start _ Hk
    ltac:(exists 2%positive, (demo_task KTASK_READY 5); done) eq_refl)) as ([] & k' & E & L' & _ & Hr).
  exists k'. split; [exact E|exact Hr].
Defined.

(** A kernel before [SysInitOsAssign]: the ready table is uninitialised memory. *)
Definition demo_boot : kstate :=
  mkKernel (list_to_map ((fun p => (ReadyVec p, mkNode None None)) <$> priorities)) ∅ ∅ ∅ ∅ ∅ ∅ ∅ ∅ ∅
    (mkReadyVector 77 [] 9) None 0 5 true 0 0 0 EOK 0 ∅.

Lemma SysInitOsAssign_ok_witness :
  exists k' L', SysInitOsAssign demo_boot = Ret tt k' /\ sched_ok k' L' /\ KTaskOsAssignLockNest k' = 0.
Proof.
  destruct (wp_inv _ _ _ (SysInitOsAssign_ok demo_boot ∅
    ltac:(split; intros *; by rewrite lookup_empty) eq_refl eq_refl
    ltac:(intros p Hp; split; [intros hd l; by rewrite lookup_empty|
      assert (p = 0 \/ p = 1 \/ p = 2 \/ p = 3 \/ p = 4 \/ p = 5 \/ p = 6 \/ p = 7) as Hc by (cbn in Hp; lia);
      repeat destruct Hc as [->|Hc]; subst; by eexists])
    ltac:(intros p l; by rewrite lookup_empty))) as ([] & k' & E & L' & Hk & Hn).
  exists k', L'. split; [exact E|]. split; [exact Hk|exact Hn].
Defined.
