(* ===== verification/KernelCheck.v ===== *)
(** * An executable test of the kernel invariant

    [kernel_check] evaluates [kernel_ok] on a concrete state the way
    [sched_check] evaluates [sched_ok], and [object_check] the lookup of an
    object.  The file builds a kernel with tasks, delays, a semaphore, mutexes,
    an event and a message queue, and applies the theorems on them there. *)

From S2P Require Import Prelude DoubleLink IdManager Bitmap Kernel ReadyVector Assign Delay Task TaskInv Deadlines Priority PendList Waiting Semaphore Mutex Event MsgQueue SchedCheck.

(** ** The test *)

Section kernel_check.
Context `{C : KConfig}.
Implicit Types (k : kstate) (L : gmap link (list link)) (I : gmap Z link) (dl : list ptr).

(** The identifier manager [mgr] of the class [c] implements [I]. *)
Definition ids_check (c : class) (k : kstate) (mgr : IdManager) L I : bool :=
  (0 <=? id_max mgr) && (id_max mgr <? 2 ^ 16) && (0 <? hoffset mgr) &&
  bool_decide (Z.of_nat (length (id_map mgr)) = (id_max mgr + 7) / 8) &&
  forallb (fun e => (0 <=? e) && (e <? 256)) (id_map mgr) &&
  forallb (fun i => Bool.eqb (used_bit (id_map mgr) i) (bool_decide (is_Some (I !! i))))
    (seqZ 0 (8 * Z.of_nat (length (id_map mgr)))) &&
  bool_decide (map_Forall (fun i a => 0 <= i < id_max mgr /\ node_ids k !! a = Some i /\
    a ∈ default [] (L !! Bucket c (i mod hoffset mgr))) I) &&
  forallb (fun j =>
    forallb (fun a => match node_ids k !! a with
                      | Some i => bool_decide (I !! i = Some a) && (i mod hoffset mgr =? j)
                      | None => false
                      end) (default [] (L !! Bucket c j)) &&
    (bool_decide (is_Some (L !! Bucket c j)) ||
     bool_decide (is_Some (links k !! Bucket c j)) && bool_decide (prv (links k) (Bucket c j) = None)))
    (seqZ 0 (hoffset mgr)).

Definition object_check (k : kstate) L I (c : class) (id : Z) (p : ptr) : bool :=
  match managers k !! c with
  | Some mgr => rep_check (links k) L && ids_check c k mgr L I && bool_decide (I !! id = Some (IdLink c p))
  | None => false
  end.

Definition member_check (k : kstate) (hd : link) (l : list link) : bool :=
  match list_stat hd with
  | Some s => forallb (fun x => match sched_entry x ≫= (fun t => tasks k !! t) with
                                | Some td => stat_of td =? s
                                | None => false
                                end) l
  | None => true
  end && (task_link hd || forallb (fun x => bool_decide (sched_entry x = None)) l).

Definition delay_check (k : kstate) L dl (t : ptr) (td : TaskDescriptor) : bool :=
  match delay td with
  | None => true
  | Some d =>
      match delays k !! d with
      | Some x => bool_decide (delay_task x = t) && bool_decide (is_Some (links k !! ObjLink CDelay d)) &&
          if delay_status x =? TASK_DELAY_ACTIVE then bool_decide (d ∈ dl)
          else bool_decide (map_Forall (fun hd l => ObjLink CDelay d ∈ hd :: l -> hd = ObjLink CDelay d /\ l = []) L)
      | None => false
      end
  end.

Definition owner_check (k : kstate) (d : ptr) : bool :=
  match delays k !! d with
  | Some x => (delay_status x =? TASK_DELAY_ACTIVE) &&
      bool_decide ((tasks k !! delay_task x) ≫= delay = Some d)
  | None => false
  end.

Definition task_id_check (k : kstate) I : bool :=
  forallb (fun '(i, a) => match a with
                          | IdLink CTask t => bool_decide (is_Some (tasks k !! t))
                          | _ => false
                          end) (map_to_list I) &&
  forallb (fun '(t, td) => match node_ids k !! IdLink CTask t with
                           | Some i => bool_decide (I !! i = Some (IdLink CTask t))
                           | None => false
                           end) (map_to_list (tasks k)).

Definition kernel_check (k : kstate) L I dl : bool :=
  sched_check k L &&
  forallb (fun '(hd, l) => member_check k hd l) (map_to_list L) &&
  bool_decide (L !! ListHead CDelay = Some (ObjLink CDelay <$> dl)) &&
  forallb (owner_check k) dl &&
  forallb (fun '(t, td) => delay_check k L dl t td) (map_to_list (tasks k)) &&
  match managers k !! CTask with Some mgr => ids_check CTask k mgr L I | None => false end &&
  task_id_check k I.

Context {CO : KConfigOk C}.

Lemma forallb_map {X Y : Type} `{Countable X} (f : X -> Y -> bool) (m : gmap X Y) x y :
  forallb (fun '(x, y) => f x y) (map_to_list m) = true -> m !! x = Some y -> f x y = true.
Proof. intros Hf E. apply (forallb_elem _ _ (x, y)) in Hf; [done|by apply elem_of_map_to_list]. Qed.

Lemma used_bit_beyond m i : 8 * Z.of_nat (length m) <= i -> used_bit m i = false.
Proof.
  intros Hi. unfold used_bit. rewrite lookup_ge_None_2; [done|].
  pose proof (Z.div_le_mono (8 * Z.of_nat (length m)) i 8 ltac:(lia) Hi) as Hd.
  rewrite Z.mul_comm, Z.div_mul in Hd by lia. lia.
Qed.

Lemma ids_check_sound c k mgr L I :
  ids_check c k mgr L I = true -> rep (links k) L -> id_rep (Bucket c) (mkIdState (links k) (node_ids k) mgr) L I.
Proof.
  unfold ids_check. intros Hc HR. apply andb_true_iff in Hc as [Hc Hbuck]. apply andb_true_iff in Hc as [Hc Hmap].
  apply andb_true_iff in Hc as [Hc Hbits]. apply andb_true_iff in Hc as [Hc Hby].
  apply andb_true_iff in Hc as [Hc Hlen%bool_decide_eq_true]. apply andb_true_iff in Hc as [Hc Hoff%Z.ltb_lt].
  apply andb_true_iff in Hc as [H0%Z.leb_le H1%Z.ltb_lt]. apply bool_decide_eq_true in Hmap.
  assert (forall j, 0 <= j < hoffset mgr -> bucket_ok (links k) L (Bucket c j) /\
    forall a, a ∈ default [] (L !! Bucket c j) -> exists i, I !! i = Some a /\ i mod hoffset mgr = j) as Hj.
  { intros j Hj. apply (forallb_elem _ _ j) in Hbuck; [|apply elem_of_seqZ; lia].
    apply andb_true_iff in Hbuck as [Hm Hb]. split.
    - apply orb_true_iff in Hb as [?%bool_decide_eq_true|[?%bool_decide_eq_true ?%bool_decide_eq_true]%andb_true_iff];
        [by left|by right].
    - intros a Ha. apply (forallb_elem _ _ a) in Hm; [|done]. cbn beta in Hm.
      destruct (node_ids k !! a) as [i|]; [|done]. apply andb_true_iff in Hm as [?%bool_decide_eq_true ?%Z.eqb_eq].
      by exists i. }
  split; cbn [id_links node_id manager]; try done.
  - intros j e He. apply (forallb_elem _ _ e) in Hby; [|by eapply list_elem_of_lookup_2].
    apply andb_true_iff in Hby as [?%Z.leb_le ?%Z.ltb_lt]. lia.
  - intros i Hi. destruct (decide (i < 8 * Z.of_nat (length (id_map mgr)))) as [Hlt|Hge].
    + apply (forallb_elem _ _ i) in Hbits; [|apply elem_of_seqZ; lia]. by apply eqb_prop.
    + rewrite used_bit_beyond by lia. symmetry. apply bool_decide_eq_false. intros [a Ha].
      destruct (Hmap i a Ha) as [Hr _]. rewrite Hlen in Hge. pose proof (Z.mod_pos_bound (id_max mgr + 7) 8 ltac:(lia)).
      pose proof (Z.div_mod (id_max mgr + 7) 8 ltac:(lia)). lia.
  - intros i a Ha. by destruct (Hmap i a Ha).
  - intros i a Ha. by destruct (Hmap i a Ha) as (_ & ? & _).
  - intros i a Ha. destruct (Hmap i a Ha) as (_ & _ & Hin).
    destruct (L !! Bucket c (i mod hoffset mgr)) as [l|]; [by exists l|by apply not_elem_of_nil in Hin].
  - intros j l a Hr HL Ha. apply (Hj j Hr). by rewrite HL.
  - intros j Hr. by apply Hj.
Qed.

Lemma object_check_sound k L I c id p : object_check k L I c id p = true -> has_object k L c id p.
Proof.
  unfold object_check. destruct (managers k !! c) as [mgr|] eqn:E; [|done].
  intros [[HR Hi]%andb_true_iff Hid%bool_decide_eq_true]%andb_true_iff. exists mgr, I. split; [done|].
  split; [|done]. apply ids_check_sound; [done|by apply rep_check_sound].
Qed.

Lemma delays_check_sound k L dl :
  L !! ListHead CDelay = Some (ObjLink CDelay <$> dl) -> forallb (owner_check k) dl = true ->
  (forall t td, tasks k !! t = Some td -> delay_check k L dl t td = true) -> delays_ok k L dl.
Proof.
  intros HL Ho Ht. split; [done| |].
  - intros d Hd. apply (forallb_elem _ _ d) in Ho; [|done]. unfold owner_check in Ho.
    destruct (delays k !! d) as [x|]; [|done]. apply andb_true_iff in Ho as [Hs%Z.eqb_eq Hb%bool_decide_eq_true].
    destruct (tasks k !! delay_task x) as [td|] eqn:E; [|done]. by exists x, td.
  - intros t td d Et Ed. specialize (Ht t td Et). unfold delay_check in Ht. rewrite Ed in Ht.
    destruct (delays k !! d) as [x|]; [|done].
    apply andb_true_iff in Ht as [[?%bool_decide_eq_true ?%bool_decide_eq_true]%andb_true_iff Hs].
    exists x. destruct (Z.eqb_spec (delay_status x) TASK_DELAY_ACTIVE); apply bool_decide_eq_true in Hs; by split_and!.
Qed.

Theorem kernel_check_sound k L I dl : kernel_check k L I dl = true -> kernel_ok k L I dl.
Proof.
  unfold kernel_check. intros Hc. apply andb_true_iff in Hc as [Hc Htid]. apply andb_true_iff in Hc as [Hc Hids].
  apply andb_true_iff in Hc as [Hc Hdel]. apply andb_true_iff in Hc as [Hc Hown].
  apply andb_true_iff in Hc as [Hc HL%bool_decide_eq_true]. apply andb_true_iff in Hc as [Hs Hmem].
  pose proof (sched_check_sound k L Hs) as Hsched.
  assert (forall hd l, L !! hd = Some l -> member_check k hd l = true) as Hm by (intros; by eapply (forallb_map (member_check k))).
  split; [done| | | |].
  - intros hd l x s Es Hl Hx. apply Hm in Hl. unfold member_check in Hl. rewrite Es in Hl.
    apply andb_true_iff in Hl as [Hl _]. apply (forallb_elem _ _ x) in Hl; [|done]. cbn beta in Hl.
    destruct x as [| | | | | |t| | | |]; try done. cbn in Hl. destruct (tasks k !! t) as [td|] eqn:E; [|done].
    exists t, td. split_and!; [done|done|by apply Z.eqb_eq].
  - intros hd l t Hl Hx. apply Hm in Hl. apply andb_true_iff in Hl as [_ [?|Hl]%orb_true_iff]; [done|].
    apply (forallb_elem _ _ (SchedLink t)) in Hl; [|done]. by apply bool_decide_eq_true in Hl.
  - apply delays_check_sound; [done..|]. intros t td. by apply (forallb_map (delay_check k L dl)).
  - apply andb_true_iff in Htid as [H1 H2]. split.
    + destruct (managers k !! CTask) as [mgr|]; [|done]. exists mgr. split; [done|].
      apply ids_check_sound; [done|apply Hsched].
    + intros i a Hi. apply (forallb_map _ _ i a) in H1; [|done]. cbn beta in H1.
      destruct a as [| | | |[] t| | | | | |]; try done. apply bool_decide_eq_true in H1. by exists t.
    + intros t [td Et]. apply (forallb_map _ _ t td) in H2; [|done]. cbn beta in H2.
      destruct (node_ids k !! IdLink CTask t) as [i|]; [|done]. apply bool_decide_eq_true in H2. by exists i.
Qed.
End kernel_check.

(** ** A kernel with waiting tasks *)

Definition wait_task (s prio : Z) (d : option ptr) (trigger mode : Z) : TaskDescriptor :=
  mkTask "task" (Some 1) 0 prio 512 None s 0 prio 0 0 0 0 (2 ^ prio) d trigger mode EOK.

(** Task 1 runs, 2 and 3 are READY, 4 waits for semaphore 1 and 5 for mutex 2, both
    with a delay, 6 and 7 for event 1 and 8 for a message in queue 1. *)
Definition box_tasks : list (ptr * TaskDescriptor) :=
  [(1%positive, wait_task KTASK_RUNNING 3 None 0 0); (2%positive, wait_task KTASK_READY 5 None 0 0);
   (3%positive, wait_task KTASK_READY 1 None 0 0); (4%positive, wait_task KTASK_SUSPEND 4 (Some 1%positive) 0 0);
   (5%positive, wait_task KTASK_SUSPEND 2 (Some 2%positive) 0 0); (6%positive, wait_task KTASK_SUSPEND 6 None 5 6);
   (7%positive, wait_task KTASK_SUSPEND 4 None 3 1); (8%positive, wait_task KTASK_SUSPEND 4 None 0 0)].

Definition box_buckets (c : class) (a0 a1 a2 a3 : list ptr) : list (link * list link) :=
  [(Bucket c 0, IdLink c <$> a0); (Bucket c 1, IdLink c <$> a1); (Bucket c 2, IdLink c <$> a2); (Bucket c 3, IdLink c <$> a3)].

Definition box_list : list (link * list link) :=
  [(SchedLink 1, []); (ReadyVec 5, [SchedLink 2]); (ReadyVec 1, [SchedLink 3]);
   (ListHead CDelay, [ObjLink CDelay 1; ObjLink CDelay 2]); (ZombieHead, []);
   (ListHead CTask, (fun i => ObjLink CTask (Pos.of_succ_nat i)) <$> seq 0 8);
   (PendList CSem 1, [SchedLink 4]); (PendList CSem 2, []);
   (PendList CMutex 1, []); (PendList CMutex 2, [SchedLink 5]); (PendList CMutex 3, []);
   (PendList CEvent 1, [SchedLink 6; SchedLink 7]);
   (PendList CMq 1, [SchedLink 8]); (SendPendList 1, []); (PendList CMq 2, []); (SendPendList 2, [])] ++
  box_buckets CTask [1%positive; 5%positive] [2%positive; 6%positive] [3%positive; 7%positive] [4%positive; 8%positive] ++
  box_buckets CSem [1%positive] [2%positive] [] [] ++ box_buckets CMutex [1%positive] [2%positive] [3%positive] [] ++
  box_buckets CEvent [1%positive] [] [] [] ++ box_buckets CMq [1%positive] [2%positive] [] [].
Definition box_lists : gmap link (list link) := demo_lists box_list.

(** Object [n + 1] of a class has the identifier [n]. *)
Definition box_ids (c : class) (n : nat) : gmap Z link :=
  list_to_map ((fun i => (Z.of_nat i, IdLink c (Pos.of_succ_nat i))) <$> seq 0 n).
Definition box_node_ids (c : class) (n : nat) : gmap link Z :=
  list_to_map ((fun i => (IdLink c (Pos.of_succ_nat i), Z.of_nat i)) <$> seq 0 n).
Definition box_manager (e : Z) : IdManager := mkIdManager 16 4 [e; 0].

Definition box : kstate :=
  mkKernel (memory_of box_lists) (list_to_map box_tasks)
    {[1%positive := mkDelay 4 20 TASK_DELAY_ACTIVE; 2%positive := mkDelay 5 30 TASK_DELAY_ACTIVE]}
    {[1%positive := mkSemaphore 0; 2%positive := mkSemaphore 2]}
    {[1%positive := mutex_repr None; 2%positive := mutex_repr (Some (1%positive, 1, 3));
      3%positive := mutex_repr (Some (5%positive, 1, 2))]}
    {[1%positive := mkEvent 0 0]}
    {[1%positive := mkMsgQueue (Some (replicate 8 0)) 1 0 4 2; 2%positive := mkMsgQueue (Some [7; 9; 0; 0]) 0 1 4 1]}
    ∅
    (box_node_ids CTask 8 ∪ box_node_ids CSem 2 ∪ box_node_ids CMutex 3 ∪ box_node_ids CEvent 1 ∪ box_node_ids CMq 2)
    {[CTask := box_manager 255; CSem := box_manager 3; CMutex := box_manager 7; CEvent := box_manager 1; CMq := box_manager 3]}
    (mkReadyVector (2 ^ 5 + 2 ^ 1) [] 5) (Some 1%positive) 0 0 true 0 0 10 EOK 2 ∅.

Abbreviation box_delays := [1%positive; 2%positive].

Lemma box_ok : kernel_ok box box_lists (box_ids CTask 8) box_delays.
Proof. apply kernel_check_sound. vm_compute. reflexivity. Qed.

Lemma box_object c n id p : object_check box box_lists (box_ids c n) c id p = true -> has_object box box_lists c id p.
Proof. apply object_check_sound. Qed.

Lemma box_other : other_ready box 1%positive.
Proof. by exists 2%positive, (wait_task KTASK_READY 5 None 0 0). Qed.

Lemma box_context mem : (forall d, mem = Some d -> d = 9%positive) ->
  task_context box 1%positive (wait_task KTASK_RUNNING 3 None 0 0) mem.
Proof.
  intros Hd. split; try done; [apply box_other|]. intros d _ ->%Hd. split; [|done].
  by apply eq_None_not_Some.
Qed.
