(* ===== verification/LifeCheck.v ===== *)
(** * The life of tasks on a concrete kernel

    Each lemma runs creation, start, deletion or recycling on a variant of the kernel
    [box] of KernelCheck.v and takes what the theorem on it promises. *)

From S2P Require Import Prelude DoubleLink IdManager Bitmap Kernel ReadyVector Assign Delay Task TaskInv Creation Deadlines Priority PendList Waiting Lifecycle Recycle Semaphore Mutex Event MsgQueue SchedCheck KernelCheck.

Lemma fresh_links_check (xs : list link) (h : gmap link (node link)) :
  forallb (fun x => bool_decide (h !! x = None)) xs = true -> fresh_links xs h.
Proof. intros Hf x Hx. by apply (forallb_elem _ _ x) in Hf; [apply bool_decide_eq_true in Hf|]. Qed.

(** Eight of the sixteen identifiers are used. *)
Lemma box_not_full : ~ all_used (box_manager 255) (box_ids CTask 8).
Proof. intros Hall. destruct (Hall 8) as [a Ha]; [cbn; lia|]. vm_compute in Ha. discriminate Ha. Qed.

(** A task of priority 6 is created. *)
Lemma KTaskCreate_correct_witness :
  exists id k' L', KTaskCreate (Some 20%positive) (Some 9) (Some "worker"%string) (Some 4096) 0 512 6 box = Ret id k' /\
    kernel_ok k' L' (<[id := IdLink CTask 20]> (box_ids CTask 8)) box_delays /\ L' !! SchedLink 20 = Some [].
Proof.
  destruct (wp_inv _ _ _ (KTaskCreate_correct box _ _ _ _ _ 20%positive 9 "worker" 4096 0 512 6 box_ok eq_refl eq_refl
    (fresh_links_check (task_links 20) (links box) eq_refl) eq_refl eq_refl eq_refl ltac:(cbn; lia) ltac:(cbn; lia)))
    as (id & k' & E & [(_ & Hall & _)|(_ & mgr' & h' & L' & _ & Hk & _ & HL)]); [by destruct box_not_full|].
  exists id, k', L'. split; [exact E|]. split; [exact Hk|exact HL].
Defined.

(** Task 8 was created with priority 7 and not started. *)
Definition newborn : TaskDescriptor := mkTask "task" (Some 1) 0 7 512 (Some 9) KTASK_INIT 0 7 10 10 0 0 0 None 0 0 EOK.
Definition nursery_lists : gmap link (list link) := <[SchedLink 8 := []]> (<[PendList CMq 1 := []]> box_lists).
Definition nursery : kstate :=
  set_links (memory_of nursery_lists) (set_tasks (<[8%positive := newborn]> (tasks box)) box).

Lemma nursery_ok : kernel_ok nursery nursery_lists (box_ids CTask 8) box_delays.
Proof. apply kernel_check_sound. vm_compute. reflexivity. Qed.

Lemma StartupKTask_correct_witness :
  exists k', StartupKTask 7 nursery = Ret EOK k' /\ runs_highest k' /\ exists L', kernel_ok k' L' (box_ids CTask 8) box_delays.
Proof.
  destruct (wp_inv _ _ _ (StartupKTask_correct nursery _ _ _ 7 8%positive newborn nursery_ok eq_refl eq_refl
    ltac:(cbn; lia) eq_refl)) as (r & k' & E & -> & Hk & _ & _ & Hr).
  exists k'. split; [exact E|]. split; [by apply Hr|exact Hk].
Defined.

(** Task 3 is the recycler; the sleeping task 4 is deleted. *)
Lemma box_recycler : recycler box (box_ids CTask 8) 3%positive (wait_task KTASK_READY 1 None 0 0).
Proof. split; [reflexivity|reflexivity|by left]. Qed.

(** The same kernel with the name of the recycler, which refuses to be deleted. *)
Definition called_recycler : TaskDescriptor := set_name "ZombieRecycleKTask" (wait_task KTASK_READY 1 None 0 0).
Definition recycling_box : kstate := set_tasks (<[3%positive := called_recycler]> (tasks box)) box.

Lemma recycling_box_ok : kernel_ok recycling_box box_lists (box_ids CTask 8) box_delays.
Proof. by apply (kernel_ok_update box _ _ _ 3 (wait_task KTASK_READY 1 None 0 0)); [exact box_ok|..]. Qed.

Lemma KTaskDelete_correct_witness :
  (exists k', KTaskDelete 3 box = Ret EOK k' /\ runs_highest k' /\ stat_of <$> tasks k' !! 4%positive = Some KTASK_CLOSE) /\
  KTaskDelete 2 recycling_box = Ret (- EINVALED) recycling_box.
Proof.
  split.
  - destruct (wp_inv _ _ _ (KTaskDelete_correct box _ _ _ 3 4%positive _ 1%positive 3%positive _ _ box_ok eq_refl eq_refl
      ltac:(discriminate) eq_refl box_recycler ltac:(discriminate) eq_refl eq_refl)) as (r & k' & E & -> & _ & Hr & Et & _).
    exists k'. split; [exact E|]. split; [by apply Hr|]. rewrite Et. vm_compute. reflexivity.
  - destruct (wp_inv _ _ _ (KTaskDelete_correct recycling_box _ _ _ 2 3%positive called_recycler 1%positive 3%positive called_recycler _
      recycling_box_ok eq_refl eq_refl ltac:(discriminate) eq_refl ltac:(by split; [..|left]) ltac:(reflexivity) eq_refl eq_refl))
      as (r & k' & E & -> & ->). exact E.
Defined.

(** Task 8 is closed. *)
Definition closed_task : TaskDescriptor := mkTask "task" (Some 1) 0 4 512 (Some 9) KTASK_CLOSE 0 4 10 10 0 0 16 None 0 0 EOK.
Definition graveyard_lists : gmap link (list link) := <[ZombieHead := [SchedLink 8]]> (<[PendList CMq 1 := []]> box_lists).
Definition graveyard : kstate :=
  set_blocks {[9]} (set_links (memory_of graveyard_lists) (set_tasks (<[8%positive := closed_task]> (tasks box)) box)).

Lemma graveyard_ok : kernel_ok graveyard graveyard_lists (box_ids CTask 8) box_delays.
Proof. apply kernel_check_sound. vm_compute. reflexivity. Qed.

Lemma ZombieKTaskEntry_recycles_witness :
  exists k' L', ZombieKTaskEntry graveyard = Ret tt k' /\ tasks k' !! 8%positive = None /\
    kernel_ok k' L' (delete 7 (box_ids CTask 8)) box_delays /\ L' !! ZombieHead = Some [].
Proof.
  destruct (wp_inv _ _ _ (ZombieKTaskEntry_recycles graveyard _ _ _ 8%positive closed_task 7 [] _ graveyard_ok eq_refl eq_refl
    eq_refl eq_refl ltac:(cbn; set_solver) eq_refl
    ltac:(intros b [= <-]; by apply elem_of_singleton) ltac:(discriminate) eq_refl ltac:(cbn; lia)))
    as ([] & k' & E & (Ets & _) & L' & Hk & HL & _).
  exists k', L'. split; [exact E|]. split; [rewrite Ets; apply lookup_delete_eq|]. split; [exact Hk|exact HL].
Defined.
