(* ===== verification/VfsCheck.v ===== *)
(** * The theorems on files applied to a concrete system

    The kernel [box] with a bus, its driver and two devices, on which VfsInit mounts the
    file system of devices at "/dev"; the mutexes are those of the kernel. *)

From S2P Require Import Prelude DoubleLink IdManager Bitmap Kernel ReadyVector Assign Delay Task TaskInv Deadlines PendList Waiting Semaphore Mutex Services MutexServices Bus Path Vfs VfsInv Descriptors FileTable MountTable Devicefile DeviceContract SchedCheck KernelCheck.
From Stdlib Require Import Ascii.

(** ** The system *)

(** [box] with the list of its mutexes. *)
Definition quay_lists : gmap link (list link) := <[ListHead CMutex := (fun i => ObjLink CMutex (Pos.of_succ_nat i)) <$> seq 0 3]> box_lists.
Definition quay : kstate := set_links (memory_of quay_lists) box.

(** The hardware is a log of the devices that were used. *)
Definition log (d : ptr) (w : list Z) : list Z := Z.pos d :: w.
Definition sensor_done : HalDevDone (list Z) :=
  mkHalDevDone (Some (fun d w => Ret 0 (log d w))) (Some (fun d w => Ret 0 (log d w)))
    (Some (fun d q w => Ret (wr_size q) (log d w))) (Some (fun d q w => Ret (EOK, mkReadParam (rd_pos q) (rd_buffer q) (rd_size q) 4) (log d w))).

Definition dock0 : bus_state kstate (list Z) :=
  mkBusState quay
    {[BusLink 1 := mkNode None None; BusHead := mkNode None None; DrvHead 1 := mkNode None None; DevHead 1 := mkNode None None;
      DrvLink 2 := mkNode None None; DevLink 3 := mkNode None None; DevLink 4 := mkNode None None; DevLink 5 := mkNode None None]}
    {[1%positive := mkBus "spi1" false 0 None None 0 0 0 0 0 0]}
    {[2%positive := mkDriver "spi1_drv" (Some (fun _ _ w => Ret 0 w)) None 0]}
    {[3%positive := mkDev "spi1_dev0" sensor_done None None 5; 4%positive := mkDev "spi1_dev1" sensor_done None None 6;
      5%positive := mkDev "spi1_dev2" sensor_done None None 7]}
    [] false.

Definition dock_setup : M (bus_state kstate (list Z)) Z :=
  BusRegister (Some 4%positive) (Some 1%positive);;
  DriverRegisterToBus (Some 1%positive) (Some 2%positive);;
  DeviceRegisterToBus (Some 1%positive) (Some 3%positive);;
  DeviceRegisterToBus (Some 1%positive) (Some 4%positive).

Definition final {T A : Type} (s : T) (m : M T A) : T := match m s with Ret _ s' => s' | Hang | Fault => s end.
Definition dock : bus_state kstate (list Z) := final dock0 dock_setup.

Definition port0 : vfs_state kstate (list Z) :=
  mkVfs dock {[7%positive := devicefile_fs]} {[MntList := mkNode None None]} ∅ (replicate 3 None) (replicate 61 None) ∅ ""
    (mkDirent 0 "") 0 0 0.
Definition port : vfs_state kstate (list Z) :=
  final port0 (VfsInit (Some 5%positive) (Some 6%positive) (Some 7%positive) (Some 8%positive) true 7).

Definition port_kernel : kstate := host port.

(** ** The kernel *)

Definition port_lists : gmap link (list link) :=
  <[Bucket CMutex 0 := [IdLink CMutex 5; IdLink CMutex 1]]> (<[Bucket CMutex 1 := [IdLink CMutex 6; IdLink CMutex 2]]>
  (<[Bucket CMutex 2 := [IdLink CMutex 7; IdLink CMutex 3]]> (<[Bucket CMutex 3 := [IdLink CMutex 4]]>
  (<[ListHead CMutex := ObjLink CMutex <$> [7; 6; 5; 4; 1; 2; 3]%positive]>
  (<[PendList CMutex 4 := []]> (<[PendList CMutex 5 := []]> (<[PendList CMutex 6 := []]> (<[PendList CMutex 7 := []]> quay_lists)))))))).

Lemma port_kernel_ok : kernel_ok port_kernel port_lists (box_ids CTask 8) box_delays.
Proof. apply kernel_check_sound. vm_compute. reflexivity. Qed.

Lemma port_context : task_context port_kernel 1%positive (wait_task KTASK_RUNNING 3 None 0 0) None.
Proof.
  split; try (vm_compute; reflexivity); [|done]. exists 2%positive, (wait_task KTASK_READY 5 None 0 0).
  split_and!; [done|vm_compute; reflexivity..].
Qed.

Lemma port_mutex id m : object_check port_kernel port_lists (box_ids CMutex 7) CMutex id m = true ->
  mutexes port_kernel !! m = Some (mutex_repr None) -> port_lists !! PendList CMutex m = Some [] ->
  has_object port_kernel port_lists CMutex id m /\ mutex_ok port_kernel port_lists m None [].
Proof. intros H1 H2 H3. split; [by eapply object_check_sound|]. by split. Qed.

Lemma port_locks : locks_free (vfs_locks port) (host port).
Proof.
  exists port_lists, (box_ids CTask 8), box_delays, 1%positive, (wait_task KTASK_RUNNING 3 None 0 0).
  split; [exact port_kernel_ok|exact port_context|]. intros id Hid.
  assert (id = 4 \/ id = 6 \/ id = 5) as Hid' by (vm_compute in Hid; set_solver).
  destruct Hid' as [-> |[-> | ->]]; [exists 5%positive|exists 7%positive|exists 6%positive]; apply port_mutex; vm_compute; reflexivity.
Qed.

(** ** The buses *)

Definition port_catalogue : catalogue := {|
  ct_lists := list_to_map [(BusHead, [BusLink 1]); (DrvHead 1, [DrvLink 2]); (DevHead 1, [DevLink 4; DevLink 3])];
  ct_buses := [1%positive];
  ct_drivers := fun _ => [2%positive];
  ct_devices := fun _ => [4%positive; 3%positive];
  ct_bus_name := fun _ => "spi1";
  ct_drv_name := fun _ => "spi1_drv";
  ct_dev_name := fun d => if bool_decide (d = 3%positive) then "spi1_dev0" else if bool_decide (d = 4%positive) then "spi1_dev1" else "spi1_dev2";
|}.

Lemma sensor_ok p nm z : dev_done z = sensor_done -> dev_name z = nm -> dev_owner_bus z = Some p -> device_ok p nm z.
Proof.
  intros Ed En Ep. split; [done|done|..]; rewrite Ed; cbn.
  - intros f d [= <-] w. by eexists _, _.
  - intros f d w [= <-]. by eexists.
  - intros f d q [= <-] w. by eexists _, _.
  - intros f d q [= <-] w. by eexists _, _.
Qed.

Lemma port_world : device_world port_catalogue (vfs_bus port).
Proof.
  split.
  - apply rep_check_sound. vm_compute. reflexivity.
  - reflexivity.
  - intros p ->%list_elem_of_singleton. eexists. split; [vm_compute; reflexivity|]. split; reflexivity.
  - intros p ->%list_elem_of_singleton. reflexivity.
  - intros p ->%list_elem_of_singleton. reflexivity.
  - intros p r ->%list_elem_of_singleton ->%list_elem_of_singleton. eexists. split; [vm_compute; reflexivity|]. split; [done..|].
    intros f d q [= <-] w. by eexists _, _.
  - intros p d ->%list_elem_of_singleton Hd. assert (d = 4%positive \/ d = 3%positive) as [-> | ->] by (cbn in Hd; set_solver);
      (eexists; split; [vm_compute; reflexivity|by apply sensor_ok]).
Qed.

(** ** The virtual file system *)

Definition port_mounts : gmap mlink (list mlink) := {[MntList := [MntNode 8]]}.
Definition port_name (m : ptr) : string := "/dev".

Lemma port_mounts_ok : mounts port port_mounts port_name [8%positive].
Proof.
  split.
  - apply rep_check_sound. vm_compute. reflexivity.
  - reflexivity.
  - intros m ->%list_elem_of_singleton. eexists. split; [vm_compute; reflexivity|]. split; reflexivity.
  - cbn. apply NoDup_singleton.
Qed.

Definition port_inv : files_inv (S := kstate) (DS := list Z) := device_inv port_catalogue.

Lemma port_fdtable : fdtable port = replicate 61 None.
Proof. vm_compute. reflexivity. Qed.

Lemma port_filesystem : filesystems port !! 7%positive = Some devicefile_fs.
Proof. reflexivity. Qed.

Lemma port_point m y : m ∈ [8%positive] -> mount_points port !! m = Some y -> mp_fs y = 7%positive.
Proof. intros ->%list_elem_of_singleton E. vm_compute in E. by injection E as <-. Qed.

Lemma port_ok : vfs_ok port_inv port port_mounts port_name [8%positive].
Proof.
  split; [exact port_mounts_ok|exact port_locks|exact port_world| |by rewrite port_fdtable| | |].
  - intros m ->%list_elem_of_singleton. exists devicefile_fs. split; [|apply device_fs_contract].
    eexists. split; [vm_compute; reflexivity|exact port_filesystem].
  - intros i d Hi. rewrite port_fdtable in Hi. apply lookup_replicate in Hi as [[=] _].
  - intros i j d Hi. rewrite port_fdtable in Hi. apply lookup_replicate in Hi as [[=] _].
  - assert (working_dir port = "/") as -> by (vm_compute; reflexivity). split; [done|]. by apply (bool_decide_unpack (no_nul _)).
Qed.

Lemma port_files : files_ok port_inv port port_mounts port_name [8%positive] [9%positive; 10%positive] ["/dev/spi1_dev0"; "/dev/spi1_dev1"] "/" (replicate 61 None).
Proof.
  split; [exact port_ok| |vm_compute; reflexivity|vm_compute; reflexivity| | |].
  - intros m fs Hm (y & E1 & E2). rewrite (port_point m y Hm E1), port_filesystem in E2. injection E2 as <-. apply device_fs_willing.
  - intros d p Hin. apply elem_of_replicate in Hin as [[=] _].
  - intros d Hd _. assert (d = 9%positive \/ d = 10%positive) as [-> | ->] by set_solver; vm_compute; reflexivity.
  - intros p m Hp (->%list_elem_of_singleton & _). assert (p = "/dev/spi1_dev0" \/ p = "/dev/spi1_dev1") as [-> | ->] by set_solver.
    + exists 1%positive, 3%positive, 2%positive, "spi1". split; [|by split_and!].
      exists ["d"; "e"; "v"; "0"]%char. split_and!; [reflexivity|by apply (bool_decide_unpack (_ ∉ _))|vm_compute; discriminate].
    + exists 1%positive, 4%positive, 2%positive, "spi1". split; [|by split_and!].
      exists ["d"; "e"; "v"; "1"]%char. split_and!; [reflexivity|by apply (bool_decide_unpack (_ ∉ _))|vm_compute; discriminate].
Qed.

(** ** Applications *)

(** Device 5 is registered and device 4 deleted. *)
Lemma port_devices : devices_ok (vfs_bus port) (ct_lists port_catalogue) 1%positive (ct_dev_name port_catalogue) [4%positive; 3%positive] [5%positive].
Proof.
  split; [apply (dw_rep _ _ port_world)|reflexivity|eexists; vm_compute; reflexivity| |].
  - intros d Hd. assert (d = 4%positive \/ d = 3%positive \/ d = 5%positive) as [-> |[-> | ->]] by (cbn in Hd; set_solver); vm_compute; reflexivity.
  - intros d ->%list_elem_of_singleton. split; [|eexists; vm_compute; reflexivity]. intros hd l Hl Hin. exfalso.
    apply elem_of_list_to_map_2 in Hl. repeat (apply elem_of_cons in Hl as [[= -> ->]|Hl]; [set_solver|]). by apply not_elem_of_nil in Hl.
Qed.

Lemma port_nodup : NoDup ([4%positive; 3%positive] ++ [5%positive]).
Proof. repeat (apply NoDup_cons; split; [set_solver|]). apply NoDup_nil_2. Qed.

Lemma Bus_refines_registry_witness :
  exists s', run_reg_ops 1%positive [FindDevice "spi1_dev2"; RegDevice 5%positive; FindDevice "spi1_dev2"; DelDevice 4%positive; FindDevice "spi1_dev1"]
    (vfs_bus port) = Ret [None; None; Some 5%positive; None; None] s'.
Proof.
  destruct (wp_inv _ _ _ (Bus_refines_registry 1%positive (ct_dev_name port_catalogue)
    [FindDevice "spi1_dev2"; RegDevice 5%positive; FindDevice "spi1_dev2"; DelDevice 4%positive; FindDevice "spi1_dev1"]
    [4%positive; 3%positive] [5%positive] _ _ _ _ port_devices
    port_nodup
    (reg_find _ _ _ _ _ _ _ (reg_register _ _ _ _ _ _ _ ltac:(by left)
      (reg_find _ _ _ _ _ _ _ (reg_delete _ _ _ _ _ _ _ ltac:(by right; left)
        (reg_find _ _ _ _ _ _ _ (reg_nil _ _ _)))))))) as (rs & s' & E & -> & _).
  exists s'. rewrite E. f_equal.
Defined.

Lemma GetMountPoint_longest_witness :
  exists h, GetMountPoint (Some "/dev/spi1_dev0") port = Ret (Some 8%positive) (set_host h port).
Proof.
  destruct (GetMountPoint_longest (vfs_locks port) "/dev/spi1_dev0" port _ _ _ port_mounts_ok port_locks
    ltac:(left)) as (r & h & E & _ & Hr).
  exists h. rewrite E. destruct r as [m|]; [|exfalso; specialize (Hr 8%positive ltac:(left)); discriminate Hr].
  destruct Hr as (->%list_elem_of_singleton & _). reflexivity.
Defined.

(** Both devices are opened, the first is read and closed, and then its number is not valid. *)
Definition session : list file_op :=
  [OpOpen 9 "/dev/spi1_dev0" 0; OpOpen 10 "dev/../dev//spi1_dev1" O_APPEND; OpRead 3 0 16; OpClose 3; OpWrite 3 0 16; OpOpen 9 "/dev/./spi1_dev1" O_TRUNC].
Definition session_answers : list (option Z) := [Some 3; Some 4; None; Some 0; Some (-1); Some 3].
Definition session_end : list (option (ptr * string)) :=
  [Some (9%positive, "/dev/spi1_dev1"); Some (10%positive, "/dev/spi1_dev1")] ++ replicate 59 None.

Lemma session_open t d p flags : d ∈ [9%positive; 10%positive] -> forallb (fun e => match e with Some (d', _) => negb (bool_decide (d' = d)) | None => true end) t = true ->
  no_nul (chars p) -> existsb hidden (components (full_path "/" p)) = false ->
  path_of (resolve [] (components (full_path "/" p))) ∈ ["/dev/spi1_dev0"; "/dev/spi1_dev1"] ->
  op_ok "/" [9%positive; 10%positive] (port_name <$> [8%positive]) ["/dev/spi1_dev0"; "/dev/spi1_dev1"] (OpOpen d p flags) t.
Proof.
  intros Hd Ht Hp Hh Hin. rewrite List.forallb_forall in Ht. split_and!; [done| |done|done|done|].
  - intros q Hq%list_elem_of_In. specialize (Ht _ Hq). cbn in Ht. by rewrite bool_decide_true in Ht.
  - exists "/dev". split; [by left|]. assert (forall r, r ∈ ["/dev/spi1_dev0"; "/dev/spi1_dev1"] -> covers r "/dev" = true) as Hc; [|by apply Hc].
    intros r Hr. apply elem_of_cons in Hr as [-> | ->%list_elem_of_singleton]; reflexivity.
Qed.

Lemma run_step wd pool names paths o os t e rs t1 t2 : op_ok wd pool names paths o t -> table_step wd o t = (t1, e) ->
  file_run wd pool names paths os t1 rs t2 -> file_run wd pool names paths (o :: os) t (e :: rs) t2.
Proof.
  intros Ho E Hr. pose proof (run_cons wd pool names paths o os t rs t2 Ho) as H. rewrite E in H. by apply H.
Qed.

Lemma session_run : file_run "/" [9%positive; 10%positive] (port_name <$> [8%positive]) ["/dev/spi1_dev0"; "/dev/spi1_dev1"]
  session (replicate 61 None) session_answers session_end.
Proof.
  unfold session, session_answers.
  eapply run_step; [|vm_compute; reflexivity|].
  { apply session_open; [by left|vm_compute; reflexivity|by apply (bool_decide_unpack (no_nul _))|reflexivity|by left]. }
  eapply run_step; [|vm_compute; reflexivity|].
  { apply session_open; [by right; left|vm_compute; reflexivity|by apply (bool_decide_unpack (no_nul _))|reflexivity|by right; left]. }
  do 3 (eapply run_step; [done|vm_compute; reflexivity|]).
  eapply run_step; [|vm_compute; reflexivity|apply run_nil].
  apply session_open; [by left|vm_compute; reflexivity|by apply (bool_decide_unpack (no_nul _))|reflexivity|by right; left].
Qed.

Lemma Files_refine_table_witness :
  exists r s', run_file_ops session port = Ret [3; 4; r; 0; -1; 3] s' /\
    files_ok port_inv s' port_mounts port_name [8%positive] [9%positive; 10%positive] ["/dev/spi1_dev0"; "/dev/spi1_dev1"] "/" session_end.
Proof.
  destruct (wp_inv _ _ _ (Files_refine_table port_inv session port _ _ _ _ _ _ _ _ _ port_files session_run)) as (rs & s' & E & Ha & H').
  unfold session_answers in Ha. repeat (apply Forall2_cons_inv_l in Ha as (? & ? & ? & Ha & ->)). apply Forall2_nil_inv_l in Ha as ->.
  cbn [answers] in *. subst. eexists _, s'. split; [exact E|exact H'].
Defined.

(** The first device is open. *)
Lemma final_wp {T A : Type} (m : M T A) (Q : A -> T -> Prop) s : wp m Q s -> exists v, Q v (final s m).
Proof. intros (v & s' & E & HQ)%wp_inv. exists v. unfold final. by rewrite E. Qed.

Lemma final_ret {T A : Type} (m : M T A) s v : observe (fun r _ => r) (m s) = Some v -> m s = Ret v (final s m).
Proof. unfold final. destruct (m s) as [r s'| |]; cbn; [by intros [= ->]|done..]. Qed.

Definition busy : vfs_state kstate (list Z) := final port (open (Some 9%positive) (mkPathMem true true) true (Some "/dev/spi1_dev0") 0).

Lemma busy_files : files_ok port_inv busy port_mounts port_name [8%positive] [9%positive; 10%positive] ["/dev/spi1_dev0"; "/dev/spi1_dev1"] "/"
  (Some (9%positive, "/dev/spi1_dev0") :: replicate 60 None).
Proof.
  destruct (final_wp _ _ _ (wp_open_step port_inv port _ _ _ _ _ _ _ 9%positive "/dev/spi1_dev0" 0 port_files
    (session_open (replicate 61 None) 9 "/dev/spi1_dev0" 0 ltac:(by left) eq_refl ltac:(by apply (bool_decide_unpack (no_nul _))) eq_refl ltac:(by left)))) as (v & _ & H).
  exact H.
Qed.

Lemma port_fs m fs : fs_of port m fs -> m ∈ [8%positive] -> fs = devicefile_fs.
Proof. intros (y & E1 & E2) Hm. rewrite (port_point m y Hm E1), port_filesystem in E2. by injection E2 as <-. Qed.

Lemma port_path : resolvable port "/dev/spi1_dev0".
Proof. split; [by apply (bool_decide_unpack (no_nul _))|vm_compute; reflexivity]. Qed.

Lemma open_correct_witness :
  exists fd s' h v t, open (Some 9%positive) (mkPathMem true true) true (Some "/dev/spi1_dev0") 0 port = Ret fd s' /\
    DevicefileOpen "spi1_dev0" (new_file "/dev/spi1_dev0" 8, set_bus_host h (vfs_bus port)) = Ret v t /\ (fd = if v <? 0 then -1 else 3).
Proof.
  destruct (wp_inv _ _ _ (open_correct port_inv port _ _ _ 9 "/dev/spi1_dev0" 0 0 port_ok
    port_path ltac:(by rewrite port_fdtable) ltac:(vm_compute; reflexivity)
    ltac:(exists 8%positive; split; [by left|vm_compute; reflexivity])
    ltac:(intros m Hm; apply (fo_paths _ _ _ _ _ _ _ _ _ port_files); [by left|exact Hm]))) as (fd & s' & E & m & fs & (Hm & _) & Hfs & Ho).
  rewrite (port_fs m fs Hfs Hm) in Ho. apply list_elem_of_singleton in Hm as ->.
  destruct Ho as (h & v & x & b & _ & _ & _ & _ & _ & Er & Hv). exists fd, s', h, v, (x, b). split; [exact E|]. split; [exact Er|].
  destruct (v <? 0); apply Hv.
Defined.

Lemma close_correct_witness : exists s', close 3 busy = Ret 0 s' /\ vfs_ok port_inv s' port_mounts port_name [8%positive].
Proof.
  destruct (wp_inv _ _ _ (close_correct port_inv 3 busy _ _ _ (fo_ok _ _ _ _ _ _ _ _ _ busy_files))) as (r & s' & E & Ho & H').
  exists s'. split; [|exact H']. rewrite E. f_equal. unfold close_outcome in Ho.
  assert (entry (fdtable busy) 3 = Some 9%positive) as Ee by (rewrite (fo_table _ _ _ _ _ _ _ _ _ busy_files); vm_compute; reflexivity).
  rewrite Ee in Ho. destruct Ho as (x & m & fs & Ex & Em & Hfs & Ho).
  destruct (vo_entry _ _ _ _ _ _ _ (fo_ok _ _ _ _ _ _ _ _ _ busy_files) Ee) as (x' & m' & fs' & Ex' & _ & Em' & Hfi & Hm & _).
  rewrite Ex in Ex'. injection Ex' as <-. rewrite Em in Em'. injection Em' as <-.
  assert (willing port_inv m fs) as [_ (f & Ef & Hpos)] by by apply (fo_willing _ _ _ _ _ _ _ _ _ busy_files).
  rewrite Ef in Ho. destruct Ho as (v & x' & b & h & _ & Er & Ho).
  rewrite (proj2 (Z.ltb_ge v 0)) in Ho; [by destruct Ho|]. refine (Hpos _ _ _ _ _ Hfi Em Er). apply (fo_ok _ _ _ _ _ _ _ _ _ busy_files).
Defined.


















Lemma DevicefileOpen_missing_witness :
  let x := new_file "/dev" 8 in
  DevicefileOpen "i2c1_dev0" (x, vfs_bus port) = Ret (- ENODEV) (x, vfs_bus port) /\ DevicefileOpen "spi1_dev7" (x, vfs_bus port) = Hang.
Proof.
  intros x. split.
  - apply (DevicefileOpen_missing port_catalogue "i2c1_dev0" "i2c1" x (vfs_bus port) port_world).
    exists ["d"; "e"; "v"; "0"]%char. split_and!; [reflexivity|by apply (bool_decide_unpack (_ ∉ _))|vm_compute; discriminate].
  - apply (DevicefileOpen_missing port_catalogue "spi1_dev7" "spi1" x (vfs_bus port) port_world); [|by right].
    exists ["d"; "e"; "v"; "7"]%char. split_and!; [reflexivity|by apply (bool_decide_unpack (_ ∉ _))|vm_compute; discriminate].
Defined.
