(* ===== verification/SerialCheck.v ===== *)
(** * Serial devices on a concrete board

    The theorems of SerialInv.v applied to devices of the kernel [box], one with the
    client of the CH376, and runs of
    SerialDevRead, SerialDevClose and SerialDevOpen that go wrong. *)

From S2P Require Import Prelude DoubleLink IdManager Bitmap Ring Kernel ReadyVector Assign Delay Task TaskInv Deadlines PendList Creation Waiting Semaphore Serial SerialInv SchedCheck KernelCheck.

(** ** The board

    The characters that arrived, and those that were sent; two can be sent at a time. *)
Definition board : Type := list Z * list Z.
#[export] Instance board_done : SerialHwDevDone board := {|
  put_char c w := if (length w.2 <? 2)%nat then Ret EOK (w.1, w.2 ++ [c]) else Ret (- ERROR) w;
  get_char w := match w.1 with [] => Ret (- ERROR) w | c :: cs => Ret c (cs, w.2) end;
  drv_set _ w := Ret EOK w;
  dev_recv_callback := None;
|}.

Definition device (sem : Z) : SerialHardwareDevice := mkSerial (Some 1%positive) None SIGN_OPER_INT_RX SIGN_OPER_INT_RX 0 4 sem.
(** A ring of four places, with [front] the place of its first character. *)
Definition port_of (sem front : Z) (buf : list Z) (n : nat) : ser_state board :=
  mkSer box ([], []) (device sem)
    {[1%positive := mkSerialRx (Some 1%positive) ((front + Z.of_nat n) mod 4) front false]} ∅ {[1%positive := buf]}.

Lemma port_holds sem front buf es : ring 4 front buf es -> holds_chars (port_of sem front buf (length es)) es.
Proof.
  intros Hr. split; [cbn; lia|]. eexists 1%positive, _, 1%positive, buf. by split_and!; [split|..].
Qed.

(** Task 4 waits for a character. *)
Definition tty0 : ser_state board := set_ser_hw ([97; 98; 99; 100], []) (port_of 0 3 [7; 7; 7; 7] 0).
Lemma tty0_ok : serial_ok tty0 box_lists (box_ids CTask 8) box_delays 1 0 [SchedLink 4] [].
Proof.
  split; [exact box_ok| |exact (box_object CSem 2 0 1%positive eq_refl)|by split].
  apply holds_chars_hw, (port_holds 0 3 _ []), ring_empty_intro; [lia|done].
Qed.

(** No task waits; one character is there. *)
Definition tty1 : ser_state board := port_of 1 3 [7; 7; 7; 120] 1.
Lemma tty1_ok mem : (forall d, mem = Some d -> d = 9%positive) ->
  serial_idle tty1 box_lists (box_ids CTask 8) box_delays 2 2 [120] 1 (wait_task KTASK_RUNNING 3 None 0 0) mem.
Proof.
  intros Hm. split; [split|done|by apply box_context].
  - exact box_ok.
  - apply (port_holds 1 3 _ [120]). split; [lia|cbn; lia|done|]. by intros i e [-> <-]%list_lookup_singleton_Some.
  - exact (box_object CSem 2 1 2%positive eq_refl).
  - by split.
Qed.

(** The board with the client of the CH376 and its semaphore [client_sem], and with the
    number of characters it was told of. *)
Section client.
Variable client_sem : Z.
Definition client_board : SerialHwDevDone (board * Z) := {|
  put_char c := zoom fst (fun w x => (w, x.2)) (put_char c);
  get_char := zoom fst (fun w x => (w, x.2)) get_char;
  drv_set c := zoom fst (fun w x => (w, x.2)) (drv_set c);
  dev_recv_callback := Some (HwCh376RxInd client_sem);
|}.
End client.
Definition with_client (told : Z) (s : ser_state board) : ser_state (board * Z) :=
  mkSer (ser_kernel s) (ser_hw s, told) (serial s) (rxs s) (txs s) (rx_buffers s).

Lemma with_client_holds told s es : holds_chars s es -> holds_chars (with_client told s) es.
Proof. intros [Hn (p & x & b & buf & [] & H)]. split; [done|]. by exists p, x, b, buf. Qed.

(** ** The theorems *)

(** Four characters arrive at a ring for three while task 4 waits for the device.  The
    callback counts three characters and releases semaphore 2 of the client, and then
    the waiting task can run. *)
Lemma SerialSetIsr_receives_witness :
  exists s', SerialSetIsr (HW := client_board 1) 5 SERIAL_EVENT_RX_IND (with_client 10 tty0) = Ret tt s' /\
    holds_chars s' [98; 99; 100] /\ woken (ser_kernel s') 4 /\ (ser_hw s').2 = 13.
Proof.
  assert (supplies (HW := client_board 1) (ser_hw (with_client 10 tty0)) [97; 98; 99; 100] (([], []), 10)) as Hsup.
  { repeat (eapply supplies_char; [reflexivity|discriminate|]). by apply supplies_end. }
  assert (has_object box box_lists CSem 1 2) as Hobj by exact (box_object CSem 2 1 2%positive eq_refl).
  destruct (wp_inv _ _ _ (SerialSetIsr_receives (HW := client_board 1) 5 SERIAL_EVENT_RX_IND (with_client 10 tty0) (box_ids CTask 8) 1 []
    [97; 98; 99; 100] _ (with_value 2 3 box) (([], []), 13) box_lists box_delays 0 [SchedLink 4]
    (with_client_holds 10 tty0 [] (sl_chars _ _ _ _ _ _ _ _ tty0_ok)) ltac:(cbn; lia) eq_refl Hsup ltac:(cbn; lia)
    ltac:(intros _; split;
      [exists EOK; exact (HwCh376RxInd_call 1 3 box ([], []) 10 box_lists 2 2 (so_rep _ _ (ko_sched _ _ _ _ box_ok)) Hobj
         ltac:(by split) ltac:(cbn; lia))
      |by split; [apply kernel_ok_sems; exact box_ok|exact (box_object CSem 2 0 1%positive eq_refl)|by split|eexists|]])))
    as ([] & s' & E & Hh & _ & Hrel & Hw & _).
  exists s'. split; [exact E|]. split; [exact Hh|]. split; [|by rewrite Hw].
  destruct Hrel as (w & Ew & Hwk & _). by injection Ew as <-.
Defined.

(** [box] with no task waiting for semaphore 1, which is the client's: task 4 waits for
    event 1. *)
Definition client_lists : gmap link (list link) :=
  <[PendList CSem 1 := []]> (<[PendList CEvent 1 := [SchedLink 6; SchedLink 7; SchedLink 4]]> box_lists).
Definition client_box : kstate := set_links (memory_of client_lists) box.
Lemma client_box_ok : kernel_ok client_box client_lists (box_ids CTask 8) box_delays.
Proof. apply kernel_check_sound. vm_compute. reflexivity. Qed.
Lemma client_object id p : object_check client_box client_lists (box_ids CSem 2) CSem id p = true -> has_object client_box client_lists CSem id p.
Proof. apply object_check_sound. Qed.
Lemma client_sem_free : sem_ok client_box client_lists 1 0 [].
Proof. by split. Qed.

Definition tty2 : ser_state (board * Z) := with_client 0 (set_ser_kernel client_box tty1).
Lemma tty2_ok : serial_idle tty2 client_lists (box_ids CTask 8) box_delays 2 2 [120] 1 (wait_task KTASK_RUNNING 3 None 0 0) (Some 9%positive).
Proof.
  split; [split|done|].
  - exact client_box_ok.
  - apply with_client_holds, holds_chars_kernel, (port_holds 1 3 _ [120]). split; [lia|cbn; lia|done|].
    by intros i e [-> <-]%list_lookup_singleton_Some.
  - apply client_object. vm_compute. reflexivity.
  - by split.
  - split; [reflexivity|reflexivity|reflexivity|by exists 2%positive, (wait_task KTASK_READY 5 None 0 0)|reflexivity|reflexivity|].
    intros d _ [= <-]. split; vm_compute; reflexivity.
Qed.

(** Characters and reads in turn. *)
Definition session : list (ser_op (DS := board * Z)) :=
  [SerArrive (([97; 98; 99; 100], []), 0) [97; 98; 99; 100]; SerRead 2; SerArrive (([101], []), 3) [101]; SerRead 9; SerRead 1; SerRead 1;
   SerRead 1].

(** The session on a device whose client releases semaphore 1 at every interrupt. *)
Lemma Serial_refines_stream_witness :
  exists s', run_ser_ops (HW := client_board 0) 5 (Some 9%positive) session tty2 =
      Ret [None; Some (EOK, [98; 99], 2); None; Some (EOK, [100; 101], 2); Some (EOK, [], 0); Some (EOK, [], 0)] s' /\ holds_chars s' [].
Proof.
  assert (Forall (ser_op_ok (HW := client_board 0) 5) session) as Hos.
  { repeat first [apply Forall_nil; exact Logic.I | apply Forall_cons; split]; cbn; try exact Logic.I;
      (split; [eexists; repeat (eapply supplies_char; [reflexivity|discriminate|]); by apply supplies_end|lia]). }
  destruct (wp_inv _ _ _ (Serial_refines_stream (HW := client_board 0) 5 (Some 9%positive) session tty2 _ _ _ _ _ _ _ _ _ tty2_ok
    (conj (client_object 0 1%positive eq_refl) (ex_intro _ 0 client_sem_free)) Hos
    (HwCh376RxInd_ok (HW := client_board 0) 0 1%positive _ _ 2%positive _ _ eq_refl ltac:(discriminate)))) as (rs & s' & E & Hq).
  assert (stream_ops (DS := board * Z) (Z.to_nat (serial_buffer_size (serial tty2) - 1)) ([120], 2) session =
    ([None; Some (EOK, [98; 99], 2); None; Some (EOK, [100; 101], 2); Some (EOK, [], 0); Some (EOK, [], 0)], ([], 0))) as Es by reflexivity.
  rewrite Es in Hq. destruct Hq as [-> Hh]. exact (ex_intro _ s' (conj E Hh)).
Defined.

(** ** What goes wrong *)

(** A read waits although two characters are there: the interrupt released the semaphore
    once for the three that came, and the first read took one. *)
Lemma read_waits_with_characters :
  observe (fun rs s => (rs, rx_buffers s !! 1%positive, exstatus <$> tasks (ser_kernel s) !! 1%positive, os_running_task (ser_kernel s)))
    (run_ser_ops 5 (Some 9%positive) [SerRead 1; SerRead 1; SerArrive ([97; 98; 99], []) []; SerRead 1; SerRead 1] tty1) =
  Some ([Some (EOK, [120], 1); Some (EOK, [], 0); None; Some (EOK, [97], 1)], Some [97; 98; 99; 120], Some EOK, Some 2%positive).
Proof. vm_compute. reflexivity. Qed.

(** Closing frees the structure of the receiver and leaves the pointer to it: when the
    device is opened again, the next character is stored in freed memory. *)
Definition terminal_lists : gmap link (list link) := <[ListHead CSem := [ObjLink CSem 1; ObjLink CSem 2]]> box_lists.
Definition terminal : ser_state board := set_ser_kernel (set_links (memory_of terminal_lists) box) tty1.
Definition reopen : M (ser_state board) Z :=
  SerialDevClose;; SerialDevOpen (Some 5%positive) (Some 5%positive) None None (Some 6%positive).
Lemma reopened_device_faults :
  observe (fun r _ => r) (reopen terminal) = Some EOK /\
  (reopen;; modify (set_ser_hw ([97], []));; SerialSetIsr 5 SERIAL_EVENT_RX_IND) terminal = Fault.
Proof. vm_compute. by split. Qed.

(** Without interrupts a read does not notice that there is no character: - ERROR becomes
    255, which is stored. *)
Lemma polling_reads_errors : observe (fun cs _ => cs) (SerialDevPollingRead 3 tty1) = Some [255; 255; 255].
Proof. reflexivity. Qed.

(** Nor does it return its characters: the semaphore that a read waits for is released by
    the interrupt of the receiver only, and [read_length] is not counted. *)
Definition polled : ser_state board := set_serial (mkSerial None None 0 0 0 4 1) (set_ser_hw ([104; 105], []) tty1).
Lemma polling_read_counts_nothing : observe (fun r _ => r) (SerialDevRead None 2 polled) = Some (Some (EOK, [104; 105], 0)).
Proof. vm_compute. reflexivity. Qed.
