(* ===== verification/FileDefects.v ===== *)
(** * What goes wrong with files

    Runs of the virtual file system and of the file system of devices, from the
    consistent state [port] of VfsCheck.v, that do not do what the code means to. *)

From S2P Require Import Prelude DoubleLink IdManager Bitmap Kernel ReadyVector Mutex Services MutexServices Bus Path Vfs VfsInv Descriptors FileTable Devicefile DeviceContract SchedCheck KernelCheck VfsCheck.
From Stdlib Require Import Ascii.

Definition good_memory : path_mem := mkPathMem true true.
Definition open_at (d : ptr) (path : string) : M (vfs_state kstate (list Z)) Z := open (Some d) good_memory true (Some path) 0.

(** Two devices of one bus are open: a read from the first number is a read from the
    device that was opened last (the log shows device 4, not 3). *)
Theorem second_open_redirects_reads :
  files_ok port_inv port port_mounts port_name [8%positive] [9%positive; 10%positive] ["/dev/spi1_dev0"; "/dev/spi1_dev1"] "/" (replicate 61 None) /\
  observe (fun r s => (r, hardware (vfs_bus s)))
    ((a ← open_at 9 "/dev/spi1_dev0"; b ← open_at 10 "/dev/spi1_dev1"; n ← read a 0 16; mret (a, b, n)) port) = Some ((3, 4, 4), [4; 4; 3]).
Proof. split; [exact port_files|vm_compute; reflexivity]. Qed.

(** A path below no mount point: the descriptor is given back before its path was set, and
    the pointer that is freed was never initialised. *)
Theorem open_unmounted_faults : open_at 9 "/lib/x" port = Fault.
Proof. vm_compute. reflexivity. Qed.

(** Without memory for the absolute path the mount point of a null pointer is asked for. *)
Theorem open_without_memory_faults : open (Some 9%positive) (mkPathMem false true) true (Some "/dev/spi1_dev0") 0 port = Fault.
Proof. vm_compute. reflexivity. Qed.

(** A name that begins with a dot. *)
Theorem open_hidden_hangs : open_at 9 "/dev/.config" port = Hang.
Proof. vm_compute. reflexivity. Qed.

(** A device file without an underscore in its name: the name of the bus is not terminated. *)
Theorem open_unnamed_bus_faults : open_at 9 "/dev/spi1" port = Fault.
Proof. vm_compute. reflexivity. Qed.

(** The file system of devices has no directories: chdir to its mount point fails, also for "/dev". *)
Theorem chdir_dev_fails : observe (fun r s => (r, working_dir s)) (chdir (Some 9%positive) good_memory good_memory true (Some "/dev") port) = Some (-1, "/").
Proof. vm_compute. reflexivity. Qed.

(** A device that refuses to open: the error of the bus is 1 and not negative, and open
    returns a number all the same. *)
Definition broken_done : HalDevDone (list Z) := mkHalDevDone (Some (fun _ w => Ret 5 w)) None None None.
Definition broken_port : vfs_state kstate (list Z) :=
  set_vfs_bus (set_haldevs {[3%positive := mkDev "spi1_dev0" broken_done None (Some 1%positive) 5;
    4%positive := mkDev "spi1_dev1" sensor_done None (Some 1%positive) 6]} (vfs_bus port)) port.
Theorem open_ignores_device_error :
  observe (fun r _ => r) (BusDevOpen (Some 3%positive) (vfs_bus broken_port)) = Some ERROR /\
  observe (fun r _ => r) (open_at 9 "/dev/spi1_dev0" broken_port) = Some 3.
Proof. split; vm_compute; reflexivity. Qed.

(** Registering a bus again after BusRelease empties its lists. *)
Theorem register_after_release_loses_devices :
  observe (fun r _ => r) ((BusRelease (Some 1%positive);; BusRegister (Some 11%positive) (Some 1%positive);; BusFindDevice (Some 1%positive) "spi1_dev0") (vfs_bus port)) =
    Some None /\
  observe (fun r _ => r) (BusFindDevice (Some 1%positive) "spi1_dev0" (vfs_bus port)) = Some (Some 3%positive).
Proof. split; vm_compute; reflexivity. Qed.
