(* ===== verification/ByteMemory.v ===== *)
(** * The heap: kernel/memory/byte_manage.c

    The memory region is a sequence of blocks, each with a header that holds its
    size and the size of the block before it.  Free blocks are linked into one
    doubly linked list that runs through the 15 list heads of the size classes.
    Headers and list heads are nodes at an [addr]; what a client stores in its
    blocks is not part of the state, and what it leaves in the [next] and [prev]
    fields of a header does not matter to the theorems.

    The build has no external memory and no separate user heap; addresses and
    sizes are those of a 32-bit target. *)

From S2P Require Import Prelude Kernel.

(** ** Constants *)

Definition SIZEOF_DYNAMICALLOCNODE_MEM : Z := 12.
Definition SIZEOF_XSFREENODE_MEM : Z := 20.
Definition MEM_LOW_SHIFT : Z := 6.
Definition MEM_HIGH_SHIFT : Z := 20.
Definition MEM_LOW_RANGE : Z := 64.
Definition MEM_HIGH_RANGE : Z := 2 ^ 20.
Definition MEM_LINKNRS : Z := 15.
Definition STATIC_BLOCK_MASK : Z := 0x80000000.
Definition DYNAMIC_BLOCK_MASK : Z := 0x40000000.
Definition ALLOC_BLOCK_MASK : Z := 0xc0000000.
Definition SIZEOF_32B : Z := 32.
Definition SIZEOF_64B : Z := 64.

(** Kconfig: the small segments, and where their descriptors are. *)
Class MemConfig : Type := {
  KERNEL_SMALL_MEM_ALLOC : bool;
  SMALL_NUMBER_32B : Z;
  SMALL_NUMBER_64B : Z;
  MM_PAGE_SIZE : Z;
  segment_address : bool -> Z;  (* of the segment for 64 bytes ([true]) and 32 bytes *)
}.

(** ** State *)

(** [&mm_freenode_list[i]], or an address in the region. *)
Inductive addr : Type := Head (i : Z) | At (a : Z).

#[export] Instance addr_eq_dec : EqDecision addr.
Proof. solve_decision. Defined.
Definition addr_code (x : addr) : Z + Z := match x with Head i => inl i | At a => inr a end.
Definition addr_decode (x : Z + Z) : addr := match x with inl i => Head i | inr a => At a end.
#[export] Instance addr_countable : Countable addr.
Proof. apply (inj_countable' addr_code addr_decode). by intros []. Defined.

(** [struct DynamicAllocNode] and [struct DynamicFreeNode]. *)
Record mnode : Type := mkMNode {
  nd_size : Z;
  prev_adj_size : Z;
  nd_flag : Z;
  nd_next : option addr;
  nd_prev : option addr;
}.

Definition set_nd_size (v : Z) (n : mnode) : mnode := mkMNode v (prev_adj_size n) (nd_flag n) (nd_next n) (nd_prev n).
Definition set_prev_adj_size (v : Z) (n : mnode) : mnode := mkMNode (nd_size n) v (nd_flag n) (nd_next n) (nd_prev n).
Definition set_nd_flag (v : Z) (n : mnode) : mnode := mkMNode (nd_size n) (prev_adj_size n) v (nd_next n) (nd_prev n).
Definition set_nd_next (v : option addr) (n : mnode) : mnode := mkMNode (nd_size n) (prev_adj_size n) (nd_flag n) v (nd_prev n).
Definition set_nd_prev (v : option addr) (n : mnode) : mnode := mkMNode (nd_size n) (prev_adj_size n) (nd_flag n) (nd_next n) v.

Record segment : Type := mkSegment {
  block_size : Z;
  freelist : Z;
  block_total_count : Z;
  block_free_count : Z;
}.

(** [struct ByteMemory], flat, with the nodes in the region. *)
Record ByteMemory : Type := mkByteMemory {
  mnodes : gmap addr mnode;
  dynamic_buddy_start : Z;
  dynamic_buddy_end : Z;
  active_memory : Z;
  max_ever_usedmem : Z;
  static_memory : Z;
  mm_total_size : Z;
  mm_dynamic_start : Z;
  mm_dynamic_end : Z;
  segment_32b : segment;
  segment_64b : segment;
}.

Definition set_mnodes (v : gmap addr mnode) (m : ByteMemory) : ByteMemory :=
  mkByteMemory v (dynamic_buddy_start m) (dynamic_buddy_end m) (active_memory m) (max_ever_usedmem m)
    (static_memory m) (mm_total_size m) (mm_dynamic_start m) (mm_dynamic_end m) (segment_32b m) (segment_64b m).
Definition set_bounds (s e : Z) (m : ByteMemory) : ByteMemory :=
  mkByteMemory (mnodes m) s e (active_memory m) (max_ever_usedmem m)
    (static_memory m) (mm_total_size m) (mm_dynamic_start m) (mm_dynamic_end m) (segment_32b m) (segment_64b m).
Definition set_usage (active max : Z) (m : ByteMemory) : ByteMemory :=
  mkByteMemory (mnodes m) (dynamic_buddy_start m) (dynamic_buddy_end m) active max
    (static_memory m) (mm_total_size m) (mm_dynamic_start m) (mm_dynamic_end m) (segment_32b m) (segment_64b m).
Definition set_static_memory (v : Z) (m : ByteMemory) : ByteMemory :=
  mkByteMemory (mnodes m) (dynamic_buddy_start m) (dynamic_buddy_end m) (active_memory m) (max_ever_usedmem m)
    v (mm_total_size m) (mm_dynamic_start m) (mm_dynamic_end m) (segment_32b m) (segment_64b m).
Definition set_total (v : Z) (m : ByteMemory) : ByteMemory :=
  mkByteMemory (mnodes m) (dynamic_buddy_start m) (dynamic_buddy_end m) (active_memory m) (max_ever_usedmem m)
    (static_memory m) v (mm_dynamic_start m) (mm_dynamic_end m) (segment_32b m) (segment_64b m).
Definition set_dynamic (s e : Z) (m : ByteMemory) : ByteMemory :=
  mkByteMemory (mnodes m) (dynamic_buddy_start m) (dynamic_buddy_end m) (active_memory m) (max_ever_usedmem m)
    (static_memory m) (mm_total_size m) s e (segment_32b m) (segment_64b m).
Definition set_segment (big : bool) (v : segment) (m : ByteMemory) : ByteMemory :=
  mkByteMemory (mnodes m) (dynamic_buddy_start m) (dynamic_buddy_end m) (active_memory m) (max_ever_usedmem m)
    (static_memory m) (mm_total_size m) (mm_dynamic_start m) (mm_dynamic_end m)
    (if big then segment_32b m else v) (if big then v else segment_64b m).
Definition get_segment (big : bool) (m : ByteMemory) : segment := if big then segment_64b m else segment_32b m.

Section ByteMemory.
Context `{C : KConfig} `{MC : MemConfig}.

(** Reading a field, and writing one of a node that exists or, in the region, of
    one that is created. *)
Definition node_get {A : Type} (x : addr) (f : mnode -> A) : M ByteMemory A :=
  m ← get; n ← deref (mnodes m !! x); mret (f n).
Definition node_set (x : addr) (f : mnode -> mnode) : M ByteMemory unit :=
  m ← get; n ← deref (mnodes m !! x); modify (set_mnodes (<[x := f n]> (mnodes m))).
Definition node_put (a : Z) (sz padj fl : Z) : M ByteMemory unit :=
  m ← get;
  if (dynamic_buddy_start m <=? a) && (a + SIZEOF_DYNAMICALLOCNODE_MEM <=? dynamic_buddy_end m) then
    modify (set_mnodes (<[At a := mkMNode sz padj fl
      (mnodes m !! At a ≫= nd_next) (mnodes m !! At a ≫= nd_prev)]> (mnodes m)))
  else fault.

(** [PTR2FREENODE((char* )node + n)] *)
Definition plus (x : addr) (n : Z) : M ByteMemory addr :=
  match x with At a => mret (At (a + n)) | Head _ => fault end.

(** ** The free list *)

(** [for (; size > 1; ndx++, size /= 2);] *)
Fixpoint halvings (fuel : nat) (size ndx : Z) : Z :=
  match fuel with
  | O => ndx
  | S fuel => if 1 <? size then halvings fuel (size / 2) (ndx + 1) else ndx
  end.

(** [size] is below 2^20, so after the shift below 2^14. *)
Definition CaculateBuddyIndex (size : Z) : Z :=
  if size <? MEM_HIGH_RANGE then halvings 14 (Z.shiftr size MEM_LOW_SHIFT) 0 else MEM_LINKNRS - 1.

(** The search of [AddNewNodeIntoBuddy]; the result is the pair of neighbours. *)
Fixpoint find_place (fuel : nat) (size : Z) (prev : addr) (next : option addr) : M ByteMemory (addr * option addr) :=
  match fuel with
  | O => hang
  | S fuel =>
      match next with
      | None => mret (prev, None)
      | Some x =>
          sz ← node_get x nd_size;
          if negb (sz =? 0) && (sz <? size) then nx ← node_get x nd_next; find_place fuel size x nx
          else mret (prev, Some x)
      end
  end.

Definition AddNewNodeIntoBuddy (release_node : addr) : M ByteMemory unit :=
  sz ← node_get release_node nd_size;
  let ndx := CaculateBuddyIndex sz in
  first ← node_get (Head ndx) nd_next;
  m ← get;
  place ← find_place (S (size (mnodes m))) sz (Head ndx) first;
  let '(prev, next) := place in
  node_set prev (set_nd_next (Some release_node));;
  node_set release_node (set_nd_prev (Some prev));;
  node_set release_node (set_nd_next next);;
  match next with Some x => node_set x (set_nd_prev (Some release_node)) | None => mret tt end.

(** [x->prev->next = x->next; if (x->next) x->next->prev = x->prev;] *)
Definition unlink_free (x : addr) : M ByteMemory unit :=
  pv ← node_get x nd_prev;
  p ← deref pv;
  nx ← node_get x nd_next;
  node_set p (set_nd_next nx);;
  nx ← node_get x nd_next;
  match nx with Some n => pv ← node_get x nd_prev; node_set n (set_nd_prev pv) | None => mret tt end.

(** ** The operations of [struct DynamicBuddyMemoryDone] *)

Definition JudgeValidAddressRange (pointer : Z) : M ByteMemory bool :=
  gets (fun m => (mm_dynamic_start m <? pointer) && (pointer <? mm_dynamic_end m)).

Definition InitBuddy (start size : Z) : M ByteMemory unit :=
  modify (fun m => set_total (mm_total_size m + size) m);;
  modify (fun m => set_dynamic start (mm_dynamic_end m) m);;
  node_put start SIZEOF_DYNAMICALLOCNODE_MEM 0 DYNAMIC_BLOCK_MASK;;
  let node := start + SIZEOF_DYNAMICALLOCNODE_MEM in
  let sz := size - 2 * SIZEOF_DYNAMICALLOCNODE_MEM in
  node_put node sz SIZEOF_DYNAMICALLOCNODE_MEM 0;;
  let end_ := start + size - SIZEOF_DYNAMICALLOCNODE_MEM in
  modify (fun m => set_dynamic (mm_dynamic_start m) end_ m);;
  node_put end_ SIZEOF_DYNAMICALLOCNODE_MEM sz DYNAMIC_BLOCK_MASK;;
  AddNewNodeIntoBuddy (At node).

(** [for (node = ...; node && (node->size < allocsize); node = node->next);] *)
Fixpoint find_fit (fuel : nat) (allocsize : Z) (node : option addr) : M ByteMemory (option addr) :=
  match fuel with
  | O => hang
  | S fuel =>
      match node with
      | None => mret None
      | Some x =>
          sz ← node_get x nd_size;
          if sz <? allocsize then nx ← node_get x nd_next; find_fit fuel allocsize nx else mret (Some x)
      end
  end.

(** Cutting the rest of the block off, when it is large enough. *)
Definition split_block (node : addr) (allocsize : Z) : M ByteMemory unit :=
  sz ← node_get node nd_size;
  let remaining := u32 (sz - allocsize) in
  if MEM_LOW_RANGE <=? remaining then
    next ← plus node sz;
    remainder ← plus node allocsize;
    match remainder with At r => node_put r remaining allocsize 0 | Head _ => fault end;;
    node_set node (set_nd_size allocsize);;
    node_set next (set_prev_adj_size remaining);;
    AddNewNodeIntoBuddy remainder
  else mret tt.

(** The result is the address of the data. *)
Definition BigMemMalloc (size extsram_mask : Z) : M ByteMemory (option Z) :=
  let allocsize := u32 (size + SIZEOF_DYNAMICALLOCNODE_MEM) in
  let ndx := if MEM_HIGH_RANGE <=? allocsize then MEM_LINKNRS - 1 else CaculateBuddyIndex allocsize in
  first ← node_get (Head ndx) nd_next;
  m ← get;
  node ← find_fit (S (base.size (mnodes m))) allocsize first;
  match node with
  | None => mret None
  | Some x =>
      sz ← node_get x nd_size;
      if sz <=? allocsize then mret None
      else
        unlink_free x;;
        split_block x allocsize;;
        node_set x (set_nd_flag extsram_mask);;
        result ← plus x SIZEOF_DYNAMICALLOCNODE_MEM;
        sz ← node_get x nd_size;
        modify (fun m => let active := u32 (active_memory m + sz) in
                         set_usage active (Z.max (max_ever_usedmem m) active) m);;
        match result with At r => mret (Some r) | Head _ => fault end
  end.

(** [(x->flag & DYNAMIC_BLOCK_MASK) == 0] *)
Definition is_free (x : addr) : M ByteMemory bool :=
  fl ← node_get x nd_flag; mret (Z.land fl DYNAMIC_BLOCK_MASK =? 0).

Definition BigMemFree (pointer : Z) : M ByteMemory unit :=
  let node := At (pointer - SIZEOF_DYNAMICALLOCNODE_MEM) in
  sz ← node_get node nd_size;
  modify (fun m => set_usage (u32 (active_memory m - sz)) (max_ever_usedmem m) m);;
  next ← plus node sz;
  free ← is_free next;
  next ← (if (free : bool) then
            nsz ← node_get next nd_size;
            andbeyond ← plus next nsz;
            unlink_free next;;
            nsz ← node_get next nd_size;
            node_set node (fun n => set_nd_size (u32 (nd_size n + nsz)) n);;
            sz ← node_get node nd_size;
            node_set andbeyond (set_prev_adj_size sz);;
            mret andbeyond
          else mret next);
  padj ← node_get node prev_adj_size;
  prev ← plus node (- padj);
  free ← is_free prev;
  node ← (if (free : bool) then
            unlink_free prev;;
            sz ← node_get node nd_size;
            node_set prev (fun n => set_nd_size (u32 (nd_size n + sz)) n);;
            sz ← node_get prev nd_size;
            node_set next (set_prev_adj_size sz);;
            mret prev
          else mret node);
  node_set node (set_nd_flag 0);;
  AddNewNodeIntoBuddy node.

(** ** The small segments *)

Definition seg_get {A : Type} (big : bool) (f : segment -> A) : M ByteMemory A := gets (fun m => f (get_segment big m)).
Definition seg_set (big : bool) (f : segment -> segment) : M ByteMemory unit :=
  modify (fun m => set_segment big (f (get_segment big m)) m).

(** [SMALL_SIZE_32B(SIZEOF_32B)] and [SMALL_SIZE_64B(SIZEOF_64B)] *)
Definition small_item (big : bool) : Z := if big then SIZEOF_64B else SIZEOF_32B.
Definition small_number (big : bool) : Z := if big then SMALL_NUMBER_64B else SMALL_NUMBER_32B.
Definition small_size (big : bool) : Z := (small_item big + SIZEOF_DYNAMICALLOCNODE_MEM) * small_number big.

(** [node->size = sz; node->flag = STATIC_BLOCK_MASK;] *)
Definition static_put (a sz : Z) : M ByteMemory unit :=
  m ← get;
  node_put a sz (default 0 (prev_adj_size <$> mnodes m !! At a)) STATIC_BLOCK_MASK.

(** [for (offset = 0; offset < item->block_total_count; offset++)]; the result is
    the last node. *)
Fixpoint static_loop (fuel : nat) (base item offset total : Z) (node : option Z) : M ByteMemory (option Z) :=
  match fuel with
  | O => hang
  | S fuel =>
      if offset <? total then
        let step := item + SIZEOF_DYNAMICALLOCNODE_MEM in
        static_put (base + offset * step) (base + (offset + 1) * step);;
        static_loop fuel base item (offset + 1) total (Some (base + offset * step))
      else mret node
  end.

(** One of the two halves of [SmallMemInit]; the result says whether it got its memory. *)
Definition segment_init (big : bool) : M ByteMemory bool :=
  r ← BigMemMalloc (small_size big) DYNAMIC_BLOCK_MASK;
  match r with
  | None =>
      seg_set big (fun s => mkSegment (block_size s) 0 (block_total_count s)
                              (if big then block_free_count s else 0));;
      mret false
  | Some a =>
      seg_set big (fun _ => mkSegment (small_item big) a (small_number big) (small_number big));;
      node ← static_loop (S (Z.to_nat (small_number big))) a (small_item big) 0 (small_number big) None;
      node ← deref node;
      node_set (At node) (set_nd_size 0);;
      mret true
  end.

Definition SmallMemInit : M ByteMemory unit :=
  ok ← segment_init false;
  if negb ok then mret tt
  else
    ok ← segment_init true;
    if negb ok then mret tt
    else modify (set_static_memory (small_size true + small_size false)).

Definition SmallMemMalloc (size : Z) : M ByteMemory (option Z) :=
  let big := negb (size =? SIZEOF_32B) in
  n ← seg_get big block_free_count;
  if 0 <? n then
    result ← seg_get big freelist;
    node_set (At result) (set_nd_flag STATIC_BLOCK_MASK);;
    nx ← node_get (At result) nd_size;
    seg_set big (fun s => mkSegment (block_size s) nx (block_total_count s) (block_free_count s - 1));;
    node_set (At result) (set_nd_size (segment_address big));;
    if result =? 0 then BigMemMalloc size DYNAMIC_BLOCK_MASK
    else mret (Some (result + SIZEOF_DYNAMICALLOCNODE_MEM))
  else BigMemMalloc size DYNAMIC_BLOCK_MASK.

(** [(struct segment* )node->size] *)
Definition segment_at (a : Z) : option bool :=
  if a =? segment_address false then Some false
  else if a =? segment_address true then Some true else None.

Definition SmallMemFree (pointer : Z) : M ByteMemory unit :=
  let node := pointer - SIZEOF_DYNAMICALLOCNODE_MEM in
  a ← node_get (At node) nd_size;
  big ← deref (segment_at a);
  fl ← seg_get big freelist;
  node_set (At node) (set_nd_size fl);;
  seg_set big (fun s => mkSegment (block_size s) node (block_total_count s) (block_free_count s + 1));;
  s ← seg_get big (fun s => s);
  CHECK (block_free_count s <=? block_total_count s).

(** ** The interface, with the kernel's critical area *)

Record sysmem : Type := mkSysmem { kern : kstate; byte_manager : ByteMemory }.

Definition on_kern {A : Type} : M kstate A -> M sysmem A := zoom kern (fun k s => mkSysmem k (byte_manager s)).
Definition on_heap {A : Type} : M ByteMemory A -> M sysmem A := zoom byte_manager (fun m s => mkSysmem (kern s) m).

(** [dynamic_buddy_end - dynamic_buddy_start - active_memory] *)
Definition remaining_memory (m : ByteMemory) : Z :=
  u32 (dynamic_buddy_end m - dynamic_buddy_start m - active_memory m).

(** The allocation inside the critical area of [x_malloc]. *)
Definition malloc_locked (size : Z) : M ByteMemory (option Z) :=
  if KERNEL_SMALL_MEM_ALLOC && (size <=? SIZEOF_32B) then SmallMemMalloc SIZEOF_32B
  else if KERNEL_SMALL_MEM_ALLOC && (size <=? SIZEOF_64B) then SmallMemMalloc SIZEOF_64B
  else
    ret ← BigMemMalloc size DYNAMIC_BLOCK_MASK;
    match ret with
    | Some p =>
        legal ← JudgeValidAddressRange (p - SIZEOF_DYNAMICALLOCNODE_MEM);
        CHECK legal;;
        mret (Some p)
    | None => mret None
    end.

Definition x_malloc (size : Z) : M sysmem (option Z) :=
  avail ← on_heap (gets remaining_memory);
  if (size =? 0) || (avail <? size) then mret None
  else
    lock ← on_kern CriticalAreaLock;
    ret ← on_heap (malloc_locked (ALIGN_MEN_UP size MEM_ALIGN_SIZE));
    on_kern (CriticalAreaUnLock lock);;
    mret ret.

(** The release inside the critical area of [x_free]. *)
Definition free_locked (pointer : Z) : M ByteMemory unit :=
  fl ← node_get (At (pointer - SIZEOF_DYNAMICALLOCNODE_MEM)) nd_flag;
  CHECK (negb (Z.land fl ALLOC_BLOCK_MASK =? 0));;
  if KERNEL_SMALL_MEM_ALLOC && negb (Z.land fl STATIC_BLOCK_MASK =? 0)
  then SmallMemFree pointer else BigMemFree pointer.

Definition x_free (pointer : option Z) : M sysmem unit :=
  match pointer with
  | None => mret tt
  | Some p =>
      legal ← on_heap (JudgeValidAddressRange p);
      CHECK legal;;
      lock ← on_kern CriticalAreaLock;
      on_heap (free_locked p);;
      on_kern (CriticalAreaUnLock lock)
  end.

(** ** Initialisation *)

(** [memset] of the list heads and their links. *)
Definition head_nodes : gmap addr mnode :=
  list_to_map ((fun i => (Head i, mkMNode 0 0 0
    (if i =? MEM_LINKNRS - 1 then None else Some (Head (i + 1)))
    (if i =? 0 then None else Some (Head (i - 1))))) <$> seqZ 0 MEM_LINKNRS).

Definition InitBoardMemory (start_phy_address end_phy_address : Z) : M sysmem unit :=
  CHECK (negb (start_phy_address =? 0));;
  CHECK (negb (end_phy_address =? 0));;
  on_kern KDEBUG_NOT_IN_INTERRUPT;;
  let s := ALIGN_MEN_UP start_phy_address MM_PAGE_SIZE in
  let e := ALIGN_MEN_DOWN end_phy_address MM_PAGE_SIZE in
  on_heap (modify (set_bounds s e));;
  if e <=? s then mret tt
  else
    on_heap (modify (fun m => set_total 0 (set_mnodes (head_nodes ∪ mnodes m) m)));;
    on_heap (InitBuddy s (e - s));;
    if KERNEL_SMALL_MEM_ALLOC then on_heap SmallMemInit else mret tt.

(** The total, the used and the largest amount of memory ever used. *)
Definition MemoryInfo : M sysmem (Z * Z * Z) :=
  on_heap (gets (fun m => (dynamic_buddy_end m - dynamic_buddy_start m, active_memory m, max_ever_usedmem m))).

End ByteMemory.
