(* ===== verification/HeapList.v ===== *)
(** * The free list of the heap

    [free_list ns fl]: the nodes [fl], the other list heads among them, are linked
    after the first list head.  They are in ascending order of [key], in which the
    head of a size class comes before the blocks of its class. *)

From S2P Require Import Prelude Kernel ByteMemory.

Section HeapList.
Implicit Types (ns : gmap addr mnode) (x y : addr) (r : Z) (l fl : list addr) (m : ByteMemory).

Definition nnext ns x : option addr := ns !! x ≫= nd_next.
Definition nprev ns x : option addr := ns !! x ≫= nd_prev.
Definition nsize ns x : Z := default 0 (nd_size <$> ns !! x).

(** Size, size of the block before and flag: what links do not touch. *)
Definition hdr ns x : option (Z * Z * Z) := (fun n => (nd_size n, prev_adj_size n, nd_flag n)) <$> ns !! x.

Fixpoint lseg ns (x : addr) (l : list addr) : Prop :=
  match l with
  | [] => True
  | y :: l => nnext ns x = Some y /\ nprev ns y = Some x /\ lseg ns y l
  end.

Record free_list ns fl : Prop := {
  fl_seg : lseg ns (Head 0) fl;
  fl_last : nnext ns (List.last fl (Head 0)) = None;
  fl_nodup : NoDup (Head 0 :: fl);
  fl_nodes : forall x, x ∈ Head 0 :: fl -> is_Some (ns !! x);
}.

Lemma lseg_app ns x l1 l2 : lseg ns x (l1 ++ l2) <-> lseg ns x l1 /\ lseg ns (List.last l1 x) l2.
Proof.
  revert x. induction l1 as [|y l1 IH]; intros x; [naive_solver|]. cbn [app lseg]. rewrite last_cons, IH. naive_solver.
Qed.

Lemma lseg_frame ns ns' x l :
  NoDup (x :: l) -> (forall y, y ∈ x :: l -> y <> List.last l x -> nnext ns' y = nnext ns y) ->
  (forall y, y ∈ l -> nprev ns' y = nprev ns y) -> lseg ns x l -> lseg ns' x l.
Proof.
  revert x. induction l as [|y l IH]; intros x Hnd Hn Hp; [done|]. intros (H1 & H2 & H3).
  apply NoDup_cons in Hnd as [Hx Hnd]. rewrite last_cons in Hn. split_and!.
  - rewrite Hn; [done|set_solver|]. intros E. apply Hx. rewrite E. apply last_in.
  - rewrite Hp; [done|set_solver].
  - apply IH; [done|intros z Hz; apply Hn; set_solver|intros z Hz; apply Hp; set_solver|done].
Qed.

Lemma free_list_next ns l1 l2 : free_list ns (l1 ++ l2) -> nnext ns (List.last l1 (Head 0)) = head l2.
Proof.
  intros [Hs Hl _ _]. apply lseg_app in Hs as [_ Hs]. rewrite last_app in Hl.
  destruct l2 as [|y l2]; [done|]. by destruct Hs as [? _].
Qed.

Lemma last_in_head l : List.last l (Head 0) ∈ Head 0 :: l.
Proof. apply last_in. Qed.

(** ** Rules *)

Lemma wp_node_get {A : Type} x (f : mnode -> A) n (Q : A -> ByteMemory -> Prop) m :
  mnodes m !! x = Some n -> Q (f n) m -> wp (node_get x f) Q m.
Proof. intros E HQ. unfold node_get. wp_steps. rewrite E. by wp_steps. Qed.

Lemma wp_node_set x f n (Q : unit -> ByteMemory -> Prop) m :
  mnodes m !! x = Some n -> Q tt (set_mnodes (<[x := f n]> (mnodes m)) m) -> wp (node_set x f) Q m.
Proof. intros E HQ. unfold node_set. wp_steps. rewrite E. by wp_steps. Qed.

(** Writing the links of existing nodes. *)
Definition relinked ns ns' : Prop := forall y, hdr ns' y = hdr ns y.

Lemma relinked_some ns ns' y : relinked ns ns' -> is_Some (ns' !! y) <-> is_Some (ns !! y).
Proof. intros H. specialize (H y). unfold hdr in H. destruct (ns' !! y), (ns !! y); naive_solver. Qed.

Lemma relinked_size ns ns' y : relinked ns ns' -> nsize ns' y = nsize ns y.
Proof.
  intros H. specialize (H y). unfold hdr in H. unfold nsize. destruct (ns' !! y), (ns !! y); cbn in *; congruence.
Qed.

Lemma relinked_insert ns x n n' :
  ns !! x = Some n -> (nd_size n', prev_adj_size n', nd_flag n') = (nd_size n, prev_adj_size n, nd_flag n) ->
  relinked ns (<[x := n']> ns).
Proof.
  intros E Eh y. unfold hdr. destruct (decide (y = x)) as [->|]; [|by rewrite lookup_insert_ne].
  rewrite lookup_insert_eq, E. cbn. by rewrite Eh.
Qed.

Lemma relinked_trans ns1 ns2 ns3 : relinked ns1 ns2 -> relinked ns2 ns3 -> relinked ns1 ns3.
Proof. intros H1 H2 y. by rewrite H2. Qed.

Lemma nnext_insert ns x y n : nnext (<[x := n]> ns) y = if decide (y = x) then nd_next n else nnext ns y.
Proof. unfold nnext. case_decide; subst; [by rewrite lookup_insert_eq|by rewrite lookup_insert_ne]. Qed.
Lemma nprev_insert ns x y n : nprev (<[x := n]> ns) y = if decide (y = x) then nd_prev n else nprev ns y.
Proof. unfold nprev. case_decide; subst; [by rewrite lookup_insert_eq|by rewrite lookup_insert_ne]. Qed.

Lemma nnext_set ns x y n f : ns !! x = Some n -> nd_next (f n) = nd_next n -> nnext (<[x := f n]> ns) y = nnext ns y.
Proof. intros E En. rewrite nnext_insert. case_decide as Hd; [|done]. subst. unfold nnext. by rewrite E. Qed.

(** The effect of writing the links: those of [p] and [n], the new neighbours, and
    of the node [r] between them. *)
Lemma wp_set_links m p (r : addr) (nx : option addr) (Q : unit -> ByteMemory -> Prop) :
  is_Some (mnodes m !! p) -> is_Some (mnodes m !! r) -> (forall n, nx = Some n -> is_Some (mnodes m !! n)) ->
  p <> r -> (forall n, nx = Some n -> n <> p /\ n <> r) ->
  (forall ns', relinked (mnodes m) ns' ->
     (forall y, nnext ns' y = if decide (y = p) then Some r else if decide (y = r) then nx else nnext (mnodes m) y) ->
     (forall y, nprev ns' y = if decide (y = r) then Some p else if decide (Some y = nx) then Some r else nprev (mnodes m) y) ->
     Q tt (set_mnodes ns' m)) ->
  wp (node_set p (set_nd_next (Some r));;
      node_set r (set_nd_prev (Some p));;
      node_set r (set_nd_next nx);;
      match nx with Some x => node_set x (set_nd_prev (Some r)) | None => mret tt end) Q m.
Proof.
  intros [np Ep] [nr Er] Hnx Hpr Hne HQ. wp_steps. eapply wp_node_set; [exact Ep|]. wp_steps.
  eapply wp_node_set; [cbn; rewrite lookup_insert_ne by done; exact Er|]. wp_steps.
  eapply wp_node_set; [cbn; apply lookup_insert_eq|]. wp_steps. cbn [mnodes set_mnodes].
  set (ns3 := <[r := _]> _).
  assert (relinked (mnodes m) ns3) as Hrel.
  { unfold ns3. rewrite insert_insert_eq. eapply relinked_trans; [apply (relinked_insert _ p np (set_nd_next (Some r) np)); [done|reflexivity]|].
    apply (relinked_insert _ r nr); [by rewrite lookup_insert_ne|reflexivity]. }
  assert (forall y, nnext ns3 y = if decide (y = p) then Some r else if decide (y = r) then nx else nnext (mnodes m) y) as Hn3.
  { intros y. unfold ns3. rewrite !nnext_insert. cbn [nd_next set_nd_next set_nd_prev]. repeat case_decide; congruence. }
  assert (forall y, nprev ns3 y = if decide (y = r) then Some p else nprev (mnodes m) y) as Hp3.
  { intros y. unfold ns3. rewrite !nprev_insert. cbn [nd_prev set_nd_next set_nd_prev].
    repeat case_decide; try congruence. subst. unfold nprev. by rewrite Ep. }
  destruct nx as [x|].
  - destruct (Hne x eq_refl) as [Hxp Hxr]. destruct (proj2 (relinked_some _ _ x Hrel) (Hnx x eq_refl)) as [nx Ex].
    eapply wp_node_set; [exact Ex|]. apply (HQ (<[x := set_nd_prev (Some r) nx]> ns3)).
    + eapply relinked_trans; [exact Hrel|]. by eapply relinked_insert.
    + intros y. rewrite nnext_set by done. apply Hn3.
    + intros y. rewrite nprev_insert, Hp3. cbn [nd_prev set_nd_prev]. repeat case_decide; congruence.
  - apply (HQ ns3 Hrel Hn3). intros y. rewrite Hp3. repeat case_decide; congruence.
Qed.

(** ** Insertion and removal *)

Lemma nodup_last_neq (l : list addr) y : NoDup (Head 0 :: l) -> y ∈ l -> List.last l (Head 0) <> Head 0.
Proof.
  intros Hnd Hy E. destruct l as [|z l]; [by apply not_elem_of_nil in Hy|]. rewrite last_cons in E.
  apply NoDup_cons in Hnd as [Hh _]. apply Hh. rewrite <- E. apply last_in.
Qed.

Lemma lseg_same ns ns' x l :
  (forall y, y ∈ x :: l -> nnext ns' y = nnext ns y) -> (forall y, y ∈ l -> nprev ns' y = nprev ns y) ->
  lseg ns x l -> lseg ns' x l.
Proof.
  revert x. induction l as [|y l IH]; intros x Hn Hp; [done|]. intros (H1 & H2 & H3). split_and!.
  - rewrite Hn; [done|set_solver].
  - rewrite Hp; [done|set_solver].
  - apply IH; [set_solver|set_solver|done].
Qed.

Lemma free_list_insert ns ns' l1 l2 (r : addr) :
  free_list ns (l1 ++ l2) -> r ∉ Head 0 :: l1 ++ l2 -> (forall y, is_Some (ns !! y) -> is_Some (ns' !! y)) -> is_Some (ns' !! r) ->
  (forall y, nnext ns' y = if decide (y = List.last l1 (Head 0)) then Some r else if decide (y = r) then head l2 else nnext ns y) ->
  (forall y, nprev ns' y = if decide (y = r) then Some (List.last l1 (Head 0))
                           else if decide (Some y = head l2) then Some r else nprev ns y) ->
  free_list ns' (l1 ++ r :: l2).
Proof.
  intros [Hs Hl Hnd Hns] Hr Hsome Hrs Hn Hp. set (p := List.last l1 (Head 0)) in *.
  apply lseg_app in Hs as [Hs1 Hs2]. fold p in Hs2.
  assert (p ∈ Head 0 :: l1) as Hpin by apply last_in_head.
  assert (forall y, y ∈ l2 -> y <> p /\ y ∉ Head 0 :: l1) as Hdis.
  { intros y Hy. change (Head 0 :: l1 ++ l2) with ((Head 0 :: l1) ++ l2) in Hnd.
    apply NoDup_app in Hnd as (_ & Hd & _). split; [intros ->; by apply (Hd p)|intros Hy1; by apply (Hd y)]. }
  assert (r <> p) as Hrp by (intros ->; set_solver).
  split.
  - apply lseg_app. split.
    + apply (lseg_frame ns); [| | |done].
      * change (Head 0 :: l1 ++ l2) with ((Head 0 :: l1) ++ l2) in Hnd. by apply NoDup_app in Hnd as [? _].
      * intros y Hy Hyp. rewrite Hn, !decide_False; [done|intros ->; set_solver|done].
      * intros y Hy. rewrite Hp, !decide_False; [done| |intros ->; set_solver].
        intros E. destruct l2 as [|z l2]; [done|]. injection E as ->. destruct (Hdis z); set_solver.
    + fold p. cbn [lseg]. rewrite Hn, decide_True, Hp, decide_True by done. split_and!; [done|done|].
      destruct l2 as [|z l2]; [done|]. destruct Hs2 as (_ & _ & Hs2). cbn [lseg].
      destruct (Hdis z) as [Hz _]; [set_solver|].
      rewrite Hn, (decide_False (P := r = p)), decide_True, Hp, decide_False, decide_True by (done || (intros ->; set_solver)).
      split_and!; [done|done|]. apply (lseg_same ns); [| |done].
      * intros y Hy. destruct (Hdis y Hy) as [? _]. rewrite Hn, !decide_False; [done|intros ->; set_solver|done].
      * intros y Hy. rewrite Hp, !decide_False; [done| |intros ->; set_solver]. intros [= ->].
        change (Head 0 :: l1 ++ z :: l2) with ((Head 0 :: l1) ++ z :: l2) in Hnd.
        apply NoDup_app in Hnd as (_ & _ & Hnd). apply NoDup_cons in Hnd as [? _]. done.
  - rewrite last_app. fold p. rewrite last_cons. rewrite last_app in Hl. fold p in Hl. rewrite Hn.
    destruct l2 as [|z l2].
    + cbn. by rewrite (decide_False (P := r = p)), decide_True.
    + rewrite last_cons in *. pose proof (last_in z l2) as Hin.
      rewrite !decide_False; [done|intros E; rewrite E in Hin; set_solver|].
      destruct (Hdis _ Hin) as [? _]. done.
  - change (Head 0 :: l1 ++ r :: l2) with ((Head 0 :: l1) ++ r :: l2). apply NoDup_middle. by split.
  - intros x Hx. destruct (decide (x = r)) as [->|]; [done|]. apply Hsome, Hns. set_solver.
Qed.

Lemma free_list_remove ns ns' l1 l2 x :
  free_list ns (l1 ++ x :: l2) -> (forall y, is_Some (ns !! y) -> is_Some (ns' !! y)) ->
  (forall y, nnext ns' y = if decide (y = List.last l1 (Head 0)) then head l2 else nnext ns y) ->
  (forall y, nprev ns' y = if decide (Some y = head l2) then Some (List.last l1 (Head 0)) else nprev ns y) ->
  free_list ns' (l1 ++ l2).
Proof.
  intros [Hs Hl Hnd Hns] Hsome Hn Hp. set (p := List.last l1 (Head 0)) in *.
  apply lseg_app in Hs as [Hs1 (_ & _ & Hs2)].
  change (Head 0 :: l1 ++ x :: l2) with ((Head 0 :: l1) ++ x :: l2) in Hnd. apply NoDup_middle in Hnd as [Hx Hnd].
  pose proof Hnd as (Hnd1 & Hd & Hnd2)%NoDup_app. assert (p ∈ Head 0 :: l1) as Hpin by apply last_in_head.
  assert (forall y, y ∈ l2 -> y <> p) as Hdp by (intros y Hy ->; by apply (Hd p)).
  split.
  - apply lseg_app. split.
    + apply (lseg_frame ns); [done| | |done].
      * intros y Hy Hyp. by rewrite Hn, decide_False.
      * intros y Hy. rewrite Hp, decide_False; [done|]. intros E. destruct l2 as [|z l2]; [done|]. injection E as ->.
        apply (Hd z); set_solver.
    + fold p. destruct l2 as [|z l2]; [done|]. destruct Hs2 as (_ & _ & Hs2). cbn [lseg].
      rewrite Hn, decide_True, Hp, decide_True by done. split_and!; [done|done|]. apply (lseg_same ns); [| |done].
      * intros y Hy. rewrite Hn, decide_False; [done|by apply Hdp].
      * intros y Hy. rewrite Hp, decide_False; [done|]. intros [= ->]. by apply NoDup_cons in Hnd2 as [? _].
  - rewrite last_app in *. fold p in Hl |- *. rewrite last_cons in Hl. rewrite Hn. destruct l2 as [|z l2].
    + cbn. by rewrite decide_True.
    + rewrite last_cons in *. rewrite decide_False; [done|]. apply Hdp. apply last_in.
  - done.
  - intros y Hy. apply Hsome, Hns. set_solver.
Qed.

Lemma wp_unlink_free m l1 x l2 (Q : unit -> ByteMemory -> Prop) :
  free_list (mnodes m) (l1 ++ x :: l2) ->
  (forall ns', relinked (mnodes m) ns' -> free_list ns' (l1 ++ l2) -> Q tt (set_mnodes ns' m)) ->
  wp (unlink_free x) Q m.
Proof.
  intros Hfl HQ. pose proof Hfl as [Hs _ Hnd Hns]. apply lseg_app in Hs as [_ (Hn & Hp & _)].
  set (p := List.last l1 (Head 0)) in *.
  assert (nnext (mnodes m) x = head l2) as Hnx.
  { pose proof (free_list_next (mnodes m) (l1 ++ [x]) l2) as H. rewrite last_app, last_cons in H. apply H. by rewrite <- app_assoc. }
  destruct (Hns x) as [n En]; [set_solver|].
  destruct (Hns p) as [np Ep]; [pose proof (last_in_head l1); set_solver|].
  assert (nd_next n = head l2 /\ nd_prev n = Some p) as [E1 E2].
  { unfold nnext, nprev in Hnx, Hp. rewrite En in Hnx, Hp. done. }
  change (Head 0 :: l1 ++ x :: l2) with ((Head 0 :: l1) ++ x :: l2) in Hnd. apply NoDup_middle in Hnd as [Hx Hnd].
  assert (x <> p) as Hxp by (intros ->; pose proof (last_in_head l1); set_solver).
  unfold unlink_free. wp_steps. eapply wp_node_get; [exact En|]. rewrite E2. wp_steps.
  eapply wp_node_get; [exact En|]. rewrite E1. wp_steps. eapply wp_node_set; [exact Ep|]. wp_steps.
  eapply wp_node_get; [cbn; rewrite lookup_insert_ne by done; exact En|]. rewrite E1.
  set (ns1 := <[p := _]> _).
  assert (relinked (mnodes m) ns1) as Hrel by (by eapply relinked_insert).
  assert (forall y, nnext ns1 y = if decide (y = p) then head l2 else nnext (mnodes m) y) as Hn1.
  { intros y. unfold ns1. by rewrite nnext_insert. }
  assert (forall y, nprev ns1 y = nprev (mnodes m) y) as Hp1.
  { intros y. unfold ns1. rewrite nprev_insert. case_decide as Hd; [|done]. subst. cbn. unfold nprev. by rewrite Ep. }
  destruct l2 as [|z l2]; cbn [head] in *.
  - wp_steps. apply (HQ ns1 Hrel). eapply (free_list_remove (mnodes m)); [exact Hfl| |done|done].
    intros y. by apply relinked_some.
  - wp_steps. eapply wp_node_get; [cbn; unfold ns1; rewrite lookup_insert_ne by done; exact En|]. rewrite E2. wp_steps.
    destruct (Hns z) as [nz Ez]; [set_solver|]. assert (z <> p) as Hzp.
    { intros ->. apply NoDup_app in Hnd as (_ & Hd & _). apply (Hd p); [apply last_in_head|set_solver]. }
    eapply wp_node_set; [cbn; unfold ns1; rewrite lookup_insert_ne by done; exact Ez|]. fold ns1.
    assert (ns1 !! z = Some nz) as Ez1 by (unfold ns1; by rewrite lookup_insert_ne).
    apply (HQ (<[z := set_nd_prev (Some p) nz]> ns1)).
    + eapply relinked_trans; [exact Hrel|]. by eapply relinked_insert.
    + eapply (free_list_remove (mnodes m)); [exact Hfl| | |].
      * intros y Hy. apply relinked_some with (ns := ns1); [by eapply relinked_insert|]. by apply relinked_some with (1 := Hrel).
      * intros y. by rewrite nnext_set.
      * intros y. rewrite nprev_insert, Hp1. cbn. repeat case_decide; first [done|congruence].
Qed.

(** ** Size classes *)

Lemma halvings_spec fuel size n : 0 < size < 2 ^ Z.of_nat (S fuel) -> halvings fuel size n = n + Z.log2 size.
Proof.
  revert size n. induction fuel as [|fuel IH]; intros size n Hs.
  - assert (size = 1) as -> by lia. cbn. lia.
  - cbn [halvings]. destruct (Z.ltb_spec 1 size) as [Hgt|].
    + change (size / 2) with (size / 2 ^ 1). rewrite <- (Z.shiftr_div_pow2 size 1) by lia. rewrite IH.
      * rewrite Z.log2_shiftr by lia. assert (1 <= Z.log2 size) by (apply Z.log2_le_pow2; lia). lia.
      * rewrite Z.shiftr_div_pow2 by lia. rewrite Nat2Z.inj_succ, Z.pow_succ_r in Hs by lia.
        split; [apply Z.div_str_pos; lia|apply Z.div_lt_upper_bound; lia].
    + assert (size = 1) as -> by lia. cbn. lia.
Qed.

(** Class [i] holds the sizes from 64 * 2^i up to 128 * 2^i; the first also
    smaller ones, the last also larger ones. *)
Lemma index_spec size : 0 <= size -> let i := CaculateBuddyIndex size in
  0 <= i <= 14 /\ (i <> 0 -> 64 * 2 ^ i <= size) /\ (i <> 14 -> size < 128 * 2 ^ i).
Proof.
  intros Hs. unfold CaculateBuddyIndex. destruct (Z.ltb_spec size MEM_HIGH_RANGE) as [Hlt|Hge].
  2:{ unfold MEM_HIGH_RANGE, MEM_LINKNRS in *. cbn. lia. }
  rewrite Z.shiftr_div_pow2 by (unfold MEM_LOW_SHIFT; lia). change (2 ^ MEM_LOW_SHIFT) with 64.
  pose proof (Z.div_mod size 64 ltac:(lia)) as Hdm. pose proof (Z.mod_pos_bound size 64 ltac:(lia)) as Hm.
  set (q := size / 64) in *. unfold MEM_HIGH_RANGE in Hlt.
  destruct (decide (q = 0)) as [E|Hq].
  { rewrite E. cbn. lia. }
  rewrite halvings_spec by (change (2 ^ Z.of_nat 15) with 32768; lia). rewrite Z.add_0_l. cbv zeta.
  pose proof (Z.log2_spec q ltac:(lia)) as [H1 H2]. rewrite Z.pow_succ_r in H2 by apply Z.log2_nonneg.
  pose proof (Z.log2_nonneg q). assert (Z.log2 q < 14) by (apply Z.log2_lt_pow2; lia). lia.
Qed.

Lemma index_mono i j : 0 <= i -> 128 * 2 ^ i - 1 <= 128 * 2 ^ j - 1 -> 0 <= j -> i <= j.
Proof. intros Hi H Hj. apply (Z.pow_le_mono_r_iff 2); lia. Qed.

Definition key ns x : Z := match x with Head i => 128 * 2 ^ i - 1 | At a => 2 * nsize ns (At a) end.

Record class_list ns fl : Prop := {
  cl_sorted : sorted_by (key ns) fl;
  cl_heads : forall i, Head i ∈ fl <-> 1 <= i <= 14;
  cl_zero : forall i, 0 <= i <= 14 -> nsize ns (Head i) = 0;
  cl_pos : forall a, At a ∈ fl -> 0 < nsize ns (At a);
}.

Lemma class_list_relinked ns ns' fl : relinked ns ns' -> class_list ns fl -> class_list ns' fl.
Proof.
  intros Hr [Hs Hh Hz Hp]. split; [|done|intros i Hi; rewrite (relinked_size ns) by done; auto|
    intros a Ha; rewrite (relinked_size ns) by done; auto].
  eapply sorted_by_ext; [|exact Hs]. intros [i|a] _; [done|]. cbn. by rewrite (relinked_size ns).
Qed.

(** The list around the head of a class. *)
Lemma split_at_class ns fl i : free_list ns fl -> class_list ns fl -> 0 <= i <= 14 ->
  exists l1 l2, fl = l1 ++ l2 /\ List.last l1 (Head 0) = Head i /\
    (forall x, x ∈ l1 -> i <> 0 /\ key ns x < 128 * 2 ^ i) /\ (forall j, Head j ∈ l2 -> i < j).
Proof.
  intros Hfl [Hs Hh _ _] Hi. destruct (decide (i = 0)) as [->|Hne].
  - exists [], fl. split_and!; [done|done|set_solver|]. intros j Hj%Hh. lia.
  - assert (Head i ∈ fl) as Hin by (apply Hh; lia). apply list_elem_of_split in Hin as (l1 & l2 & ->).
    exists (l1 ++ [Head i]), l2. split_and!.
    + by rewrite <- app_assoc.
    + by rewrite last_app.
    + apply sorted_by_app_inv in Hs as (_ & _ & Hle).
      intros x [Hx|[= ->]%list_elem_of_singleton]%elem_of_app; (split; [done|]); [|cbn; lia].
      specialize (Hle x (Head i) Hx ltac:(set_solver)). cbn [key] in Hle. lia.
    + intros j Hj. assert (1 <= j <= 14) as Hj' by (apply Hh; set_solver).
      apply sorted_by_app_inv in Hs as (_ & Hs & _). pose proof (sorted_by_head _ _ _ _ Hs Hj) as Hle. cbn [key] in Hle.
      assert (i <> j); [|pose proof (index_mono i j); lia].
      intros ->. pose proof (fl_nodup _ _ Hfl) as Hnd. apply NoDup_cons in Hnd as [_ Hnd].
      apply NoDup_middle in Hnd as [Hnin _]. set_solver.
Qed.

Lemma free_list_length ns fl : free_list ns fl -> (length fl < size ns)%nat.
Proof.
  intros [_ _ Hnd Hns].
  assert (length (Head 0 :: fl) <= size (dom ns))%nat as Hle; [|rewrite size_dom in Hle; cbn in Hle; lia].
  rewrite <- (size_list_to_set (C := gset addr)) by done. apply subseteq_size. intros x Hx%elem_of_list_to_set.
  by apply elem_of_dom, Hns.
Qed.

(** ** The searches *)

Lemma wp_find_place fuel m l1 l2 sz (Q : addr * option addr -> ByteMemory -> Prop) :
  free_list (mnodes m) (l1 ++ l2) -> (length l2 < fuel)%nat ->
  (forall c l2', l2 = c ++ l2' ->
     (forall x, x ∈ c -> nsize (mnodes m) x <> 0 /\ nsize (mnodes m) x < sz) ->
     (forall x, head l2' = Some x -> nsize (mnodes m) x = 0 \/ sz <= nsize (mnodes m) x) ->
     Q (List.last (l1 ++ c) (Head 0), head l2') m) ->
  wp (find_place fuel sz (List.last l1 (Head 0)) (head l2)) Q m.
Proof.
  revert l1 l2. induction fuel as [|fuel IH]; intros l1 l2 Hfl Hf HQ; [lia|]. cbn [find_place].
  destruct l2 as [|x l2]; cbn [head].
  { apply wp_ret. rewrite <- (app_nil_r l1). apply (HQ [] []); [done|set_solver|done]. }
  destruct (fl_nodes _ _ Hfl x) as [n En]; [set_solver|]. assert (nsize (mnodes m) x = nd_size n) as Esz
    by (unfold nsize; by rewrite En).
  wp_steps. eapply wp_node_get; [exact En|]. rewrite <- Esz.
  destruct (Z.eqb_spec (nsize (mnodes m) x) 0) as [E0|E0]; cbn [negb andb].
  { apply wp_ret. rewrite <- (app_nil_r l1). apply (HQ [] (x :: l2)); [done|set_solver|]. intros ? [= <-]. by left. }
  destruct (Z.ltb_spec (nsize (mnodes m) x) sz) as [Hlt|Hge].
  2:{ apply wp_ret. rewrite <- (app_nil_r l1). apply (HQ [] (x :: l2)); [done|set_solver|]. intros ? [= <-]. by right. }
  wp_steps. eapply wp_node_get; [exact En|].
  assert (nd_next n = head l2) as ->.
  { pose proof (free_list_next (mnodes m) (l1 ++ [x]) l2) as Hn. rewrite last_app in Hn.
    rewrite <- app_assoc in Hn. specialize (Hn Hfl). unfold nnext in Hn. cbn in Hn. by rewrite En in Hn. }
  assert (List.last (l1 ++ [x]) (Head 0) = x) as El by by rewrite last_app. rewrite <- El at 1.
  apply IH; [by rewrite <- app_assoc|cbn in Hf; lia|].
  intros c l2' -> Hc Hl. rewrite <- app_assoc. apply (HQ (x :: c) l2'); [done| |done].
  intros y [->|Hy]%elem_of_cons; [done|by apply Hc].
Qed.

Lemma wp_find_fit fuel m l1 l2 asz (Q : option addr -> ByteMemory -> Prop) :
  free_list (mnodes m) (l1 ++ l2) -> (length l2 < fuel)%nat ->
  (forall c l2', l2 = c ++ l2' -> (forall x, x ∈ c -> nsize (mnodes m) x < asz) ->
     (forall x, head l2' = Some x -> asz <= nsize (mnodes m) x) -> Q (head l2') m) ->
  wp (find_fit fuel asz (head l2)) Q m.
Proof.
  revert l1 l2. induction fuel as [|fuel IH]; intros l1 l2 Hfl Hf HQ; [lia|]. cbn [find_fit].
  destruct l2 as [|x l2]; cbn [head].
  { apply wp_ret. apply (HQ [] []); [done|set_solver|done]. }
  destruct (fl_nodes _ _ Hfl x) as [n En]; [set_solver|]. assert (nsize (mnodes m) x = nd_size n) as Esz
    by (unfold nsize; by rewrite En).
  wp_steps. eapply wp_node_get; [exact En|]. rewrite <- Esz.
  destruct (Z.ltb_spec (nsize (mnodes m) x) asz) as [Hlt|Hge].
  2:{ apply wp_ret. apply (HQ [] (x :: l2)); [done|set_solver|]. by intros ? [= <-]. }
  wp_steps. eapply wp_node_get; [exact En|].
  assert (nd_next n = head l2) as ->.
  { pose proof (free_list_next (mnodes m) (l1 ++ [x]) l2) as Hn. rewrite last_app in Hn.
    rewrite <- app_assoc in Hn. specialize (Hn Hfl). unfold nnext in Hn. cbn in Hn. by rewrite En in Hn. }
  apply (IH (l1 ++ [x])); [by rewrite <- app_assoc|cbn in Hf; lia|].
  intros c l2' -> Hc Hl. apply (HQ (x :: c) l2'); [done| |done].
  intros y [->|Hy]%elem_of_cons; [done|by apply Hc].
Qed.

(** ** Insertion into its class *)

Lemma key_zero ns fl x : class_list ns fl -> x ∈ fl -> nsize ns x = 0 -> exists j, x = Head j.
Proof. intros Hc Hx E. destruct x as [j|a]; [by exists j|]. pose proof (cl_pos _ _ Hc a Hx). lia. Qed.

Lemma key_nonzero ns fl x : class_list ns fl -> x ∈ fl -> nsize ns x <> 0 -> key ns x = 2 * nsize ns x.
Proof.
  intros Hc Hx E. destruct x as [j|a]; [|done]. destruct E. apply (cl_zero _ _ Hc).
  pose proof (proj1 (cl_heads _ _ Hc j) Hx). lia.
Qed.

(** Where the search stops, the new block is in order. *)
Lemma class_list_insert ns l1 c l2 r :
  free_list ns (l1 ++ c ++ l2) -> class_list ns (l1 ++ c ++ l2) -> 0 < nsize ns (At r) ->
  let i := CaculateBuddyIndex (nsize ns (At r)) in
  List.last l1 (Head 0) = Head i ->
  (forall x, x ∈ l1 -> key ns x <= 128 * 2 ^ i - 1) -> (forall j, Head j ∈ c ++ l2 -> i < j) ->
  (forall x, x ∈ c -> nsize ns x <> 0 /\ nsize ns x < nsize ns (At r)) ->
  (forall x, head l2 = Some x -> nsize ns x = 0 \/ nsize ns (At r) <= nsize ns x) ->
  class_list ns (l1 ++ c ++ At r :: l2).
Proof.
  intros Hfl Hc Hsz i Hlast Hk1 Hk2 Hc1 Hc2.
  destruct (index_spec (nsize ns (At r)) ltac:(lia)) as (Hi & Hlo & Hhi). fold i in Hi, Hlo, Hhi.
  assert (forall x, x ∈ l1 -> key ns x <= key ns (At r)) as H1.
  { intros x Hx. cbn [key]. destruct (decide (i = 0)) as [E|Hi0]; [|specialize (Hk1 x Hx); specialize (Hlo Hi0); lia].
    exfalso. rewrite E in Hlast. eapply (nodup_last_neq l1 x); [|exact Hx|exact Hlast].
    pose proof (fl_nodup _ _ Hfl) as Hnd. change (Head 0 :: l1 ++ c ++ l2) with ((Head 0 :: l1) ++ c ++ l2) in Hnd.
    by apply NoDup_app in Hnd as [? _]. }
  assert (forall x, x ∈ c -> key ns x <= key ns (At r)) as H2.
  { intros x Hx. destruct (Hc1 x Hx). rewrite (key_nonzero _ _ x Hc); [cbn [key]; lia|set_solver|done]. }
  assert (forall x, x ∈ l2 -> key ns (At r) <= key ns x) as H3.
  { destruct l2 as [|y l2]; [set_solver|]. specialize (Hc2 y eq_refl).
    assert (key ns (At r) <= key ns y) as Hy.
    { destruct Hc2 as [E0|Hle]; [|rewrite (key_nonzero _ _ y Hc); [cbn [key]; lia|set_solver|lia]].
      destruct (key_zero _ _ y Hc) as [j ->]; [set_solver|done|]. specialize (Hk2 j ltac:(set_solver)).
      assert (1 <= j <= 14) as Hj by (apply (cl_heads _ _ Hc); set_solver). specialize (Hhi ltac:(lia)). cbn [key].
      pose proof (Z.pow_le_mono_r 2 (i + 1) j ltac:(lia) ltac:(lia)) as Hpow. rewrite Z.pow_add_r in Hpow by lia. lia. }
    intros x [->|Hx]%elem_of_cons; [done|]. pose proof (cl_sorted _ _ Hc) as Hs.
    rewrite app_assoc in Hs. apply sorted_by_app_inv in Hs as (_ & Hs & _).
    pose proof (sorted_by_head _ _ _ _ Hs Hx). lia. }
  destruct Hc as [Hs Hh Hz Hp]. rewrite app_assoc in *. split.
  - apply sorted_by_middle; [done| |done]. intros y [Hy|Hy]%elem_of_app; auto.
  - intros j. rewrite elem_of_middle, Hh. naive_solver.
  - done.
  - intros a [[= ->]|Ha]%elem_of_middle; auto.
Qed.

Lemma wp_AddNewNodeIntoBuddy m fl r (Q : unit -> ByteMemory -> Prop) :
  free_list (mnodes m) fl -> class_list (mnodes m) fl -> is_Some (mnodes m !! At r) -> At r ∉ fl ->
  0 < nsize (mnodes m) (At r) ->
  (forall ns' l1 l2, fl = l1 ++ l2 -> relinked (mnodes m) ns' -> free_list ns' (l1 ++ At r :: l2) ->
     class_list ns' (l1 ++ At r :: l2) -> Q tt (set_mnodes ns' m)) ->
  wp (AddNewNodeIntoBuddy (At r)) Q m.
Proof.
  intros Hfl Hc [n En] Hr Hsz HQ. unfold AddNewNodeIntoBuddy. wp_steps. eapply wp_node_get; [exact En|]. wp_steps.
  assert (nsize (mnodes m) (At r) = nd_size n) as Esz by (unfold nsize; by rewrite En).
  rewrite <- Esz. destruct (index_spec (nsize (mnodes m) (At r)) ltac:(lia)) as (Hi & _ & _).
  destruct (split_at_class _ _ _ Hfl Hc Hi) as (l1 & l2 & -> & Hlast & Hk1 & Hk2).
  destruct (fl_nodes _ _ Hfl (Head (CaculateBuddyIndex (nsize (mnodes m) (At r))))) as [h Eh].
  { rewrite <- Hlast. pose proof (last_in_head l1). set_solver. }
  eapply wp_node_get; [exact Eh|]. wp_steps.
  assert (nd_next h = head l2) as ->.
  { pose proof (free_list_next _ _ _ Hfl) as Hn. rewrite Hlast in Hn. unfold nnext in Hn. by rewrite Eh in Hn. }
  rewrite <- Hlast. eapply wp_find_place; [exact Hfl| |].
  { apply free_list_length in Hfl. rewrite length_app in Hfl. lia. }
  intros c l2' -> Hc1 Hc2. cbn beta iota. set (p := List.last (l1 ++ c) (Head 0)).
  assert (p ∈ Head 0 :: l1 ++ c) as Hpin by apply last_in_head.
  assert (forall x, head l2' = Some x -> x ∈ l2') as Hhead by (by destruct l2'; intros ? [= ->]; set_solver).
  assert (NoDup ((Head 0 :: l1 ++ c) ++ l2')) as Hnd.
  { cbn. rewrite <- app_assoc. apply (fl_nodup _ _ Hfl). }
  apply NoDup_app in Hnd as (_ & Hdis & _).
  assert ((At r ∉ Head 0 :: l1 ++ c) /\ (At r ∉ l2')) as [Hr1 Hr2] by (clear - Hr; set_solver).
  apply wp_set_links.
  - apply (fl_nodes _ _ Hfl). clear - Hpin. set_solver.
  - by exists n.
  - intros x Hx%Hhead. apply (fl_nodes _ _ Hfl). clear - Hx. set_solver.
  - intros E. apply Hr1. by rewrite <- E.
  - intros x Hx%Hhead. split; [intros ->; by apply (Hdis p)|by intros ->].
  - intros ns' Hrel Hn Hp. apply (HQ ns' (l1 ++ c) l2'); [by rewrite <- app_assoc|done| |].
    + eapply (free_list_insert (mnodes m)); [by rewrite <- app_assoc|(rewrite <- app_assoc; clear - Hr; set_solver)| | |exact Hn|exact Hp].
      * intros y. by apply relinked_some.
      * apply (relinked_some _ _ _ Hrel). by exists n.
    + eapply class_list_relinked; [exact Hrel|]. rewrite <- app_assoc.
      apply class_list_insert; [done|done|done|done| |done|done|done].
      intros x Hx. destruct (Hk1 x Hx). lia.
Qed.

End HeapList.
