(* ===== verification/HeapLayout.v ===== *)
(** * The layout of the heap

    The region of the heap is a sequence of adjacent blocks between two headers
    that are never free.  A block is its size, with the header, and whether it is
    in use.  [heap_ok m bs fl]: the region of [m] consists of the blocks [bs], and
    [fl] is its free list. *)

From S2P Require Import Prelude Kernel ByteMemory HeapList.

Section HeapLayout.
Implicit Types (ns : gmap addr mnode) (m : ByteMemory) (a p x y sz : Z) (used : bool).

Definition block : Type := (Z * bool)%type.
Implicit Types (b : block) (bs : list block).

Definition flag_of (used : bool) : Z := if used then DYNAMIC_BLOCK_MASK else 0.
Fixpoint total bs : Z := match bs with [] => 0 | b :: bs => b.1 + total bs end.
Definition last_size p bs : Z := List.last (fst <$> bs) p.

(** [bs] from the address [a], after a block of size [p]. *)
Fixpoint lay ns a p bs : Prop :=
  match bs with
  | [] => True
  | b :: bs => hdr ns (At a) = Some (b.1, p, flag_of b.2) /\ lay ns (a + b.1) b.1 bs
  end.

(** With the headers at both ends. *)
Definition boundary : block := (SIZEOF_DYNAMICALLOCNODE_MEM, true).
Definition region bs : list block := boundary :: bs ++ [boundary].

(** No two free blocks side by side. *)
Fixpoint apart bs : Prop :=
  match bs with
  | b :: (b' :: _) as bs' => (b.2 || b'.2 = true) /\ apart bs'
  | _ => True
  end.

(** The free blocks' addresses, and the size of all blocks in use. *)
Fixpoint free_addrs a bs : list Z :=
  match bs with
  | [] => []
  | b :: bs => (if b.2 then [] else [a]) ++ free_addrs (a + b.1) bs
  end.
Fixpoint used_total bs : Z :=
  match bs with [] => 0 | b :: bs => (if b.2 then b.1 else 0) + used_total bs end.

(** The first block. *)
Definition first_block m : Z := dynamic_buddy_start m + SIZEOF_DYNAMICALLOCNODE_MEM.

(** The blocks are laid out, and those at [F] are in the free list. *)
Record heap_core m bs (F : list Z) (fl : list addr) : Prop := {
  hc_start : 0 < dynamic_buddy_start m;
  hc_end : dynamic_buddy_end m = dynamic_buddy_start m + total (region bs);
  hc_limit : dynamic_buddy_end m < 2 ^ 32;
  hc_mm_start : mm_dynamic_start m = dynamic_buddy_start m;
  hc_mm_end : mm_dynamic_end m = dynamic_buddy_end m - SIZEOF_DYNAMICALLOCNODE_MEM;
  hc_lay : lay (mnodes m) (dynamic_buddy_start m) 0 (region bs);
  hc_sizes : forall b, b ∈ bs -> SIZEOF_XSFREENODE_MEM <= b.1;
  hc_list : free_list (mnodes m) fl;
  hc_class : class_list (mnodes m) fl;
  hc_in : forall x, At x ∈ fl <-> x ∈ F;
  hc_free : forall x, x ∈ F -> x ∈ free_addrs (first_block m) bs;
}.

(** Between two operations all free blocks are in the list, no two of them are
    adjacent, and the memory in use is counted. *)
Record heap_ok m bs (fl : list addr) : Prop := {
  ho_core : heap_core m bs (free_addrs (first_block m) bs) fl;
  ho_apart : apart bs;
  ho_active : active_memory m = used_total bs;
}.

(** ** Sums and addresses *)

Lemma total_app bs1 bs2 : total (bs1 ++ bs2) = total bs1 + total bs2.
Proof. induction bs1; cbn; lia. Qed.
Lemma used_total_app bs1 bs2 : used_total (bs1 ++ bs2) = used_total bs1 + used_total bs2.
Proof. induction bs1; cbn; lia. Qed.
Lemma last_size_app p bs1 bs2 : last_size p (bs1 ++ bs2) = last_size (last_size p bs1) bs2.
Proof.
  unfold last_size. rewrite fmap_app. generalize (fst <$> bs1), (fst <$> bs2). intros l1 l2. revert p.
  induction l1 as [|y l1 IH]; intros p; [done|]. cbn [app]. by rewrite !last_cons.
Qed.

Definition positive bs : Prop := forall b, b ∈ bs -> 0 < b.1.

Lemma total_nonneg bs : positive bs -> 0 <= total bs.
Proof.
  unfold positive. induction bs as [|b bs IH]; cbn; intros H; [lia|].
  pose proof (H b ltac:(set_solver)). specialize (IH ltac:(set_solver)). lia.
Qed.

Lemma used_total_bounds bs : positive bs -> 0 <= used_total bs <= total bs.
Proof.
  unfold positive. induction bs as [|b bs IH]; cbn; intros H; [lia|]. pose proof (H b ltac:(set_solver)).
  specialize (IH ltac:(set_solver)). destruct b.2; lia.
Qed.

Lemma positive_app bs1 bs2 : positive (bs1 ++ bs2) <-> positive bs1 /\ positive bs2.
Proof. unfold positive. set_solver. Qed.

Lemma free_addrs_app a bs1 bs2 : free_addrs a (bs1 ++ bs2) = free_addrs a bs1 ++ free_addrs (a + total bs1) bs2.
Proof.
  revert a. induction bs1 as [|b bs1 IH]; intros a; cbn; [by rewrite Z.add_0_r|].
  rewrite IH, app_assoc. do 2 f_equal. lia.
Qed.

Lemma elem_of_free_addrs a bs x :
  x ∈ free_addrs a bs <-> exists bs1 sz bs2, bs = bs1 ++ (sz, false) :: bs2 /\ x = a + total bs1.
Proof.
  revert a. induction bs as [|[sz used] bs IH]; intros a; cbn [free_addrs fst snd].
  - split; [set_solver|]. intros (bs1 & ? & ? & E & _). by destruct bs1.
  - rewrite elem_of_app, IH. split.
    + intros [Hx|(bs1 & s & bs2 & -> & ->)].
      * destruct used; [set_solver|]. apply list_elem_of_singleton in Hx as ->. exists [], sz, bs. split; [done|cbn; lia].
      * exists ((sz, used) :: bs1), s, bs2. split; [done|]. cbn. lia.
    + intros ([|b bs1] & s & bs2 & E & ->).
      * injection E as -> -> ->. left. cbn. rewrite Z.add_0_r. set_solver.
      * injection E as <- ->. right. exists bs1, s, bs2. split; [done|]. cbn. lia.
Qed.

Lemma free_addrs_range a bs x : positive bs -> x ∈ free_addrs a bs -> a <= x < a + total bs.
Proof.
  intros Hp (bs1 & sz & bs2 & -> & ->)%elem_of_free_addrs. apply positive_app in Hp as [Hp1 Hp2].
  apply total_nonneg in Hp1. pose proof (Hp2 (sz, false) ltac:(set_solver)) as Hsz.
  assert (positive bs2) as Hp3%total_nonneg by (intros b Hb; apply Hp2; set_solver).
  rewrite total_app. cbn in *. lia.
Qed.

Lemma apart_app bs1 b bs2 : apart (bs1 ++ b :: bs2) <-> apart (bs1 ++ [b]) /\ apart (b :: bs2).
Proof.
  induction bs1 as [|b1 bs1 IH]; [cbn; naive_solver|]. cbn [app].
  destruct bs1 as [|b2 bs1]; [cbn; naive_solver|]. cbn [app] in *. cbn [apart] in *. naive_solver.
Qed.

Lemma apart_used_r bs sz : apart (bs ++ [(sz, true)]) <-> apart bs.
Proof.
  induction bs as [|b bs IH]; [done|]. cbn [app]. destruct bs as [|b2 bs]; cbn.
  - rewrite orb_true_r. naive_solver.
  - cbn in IH. naive_solver.
Qed.

Lemma apart_used_l bs sz : apart ((sz, true) :: bs) <-> apart bs.
Proof. destruct bs; cbn; naive_solver. Qed.

Lemma apart_size bs1 bs2 sz sz' used : apart (bs1 ++ (sz, used) :: bs2) -> apart (bs1 ++ (sz', used) :: bs2).
Proof.
  rewrite (apart_app bs1 (sz, used)), (apart_app bs1 (sz', used)). intros [H1 H2]. split; [|by destruct bs2].
  clear H2. induction bs1 as [|b bs1 IH]; [done|]. cbn [app] in *. destruct bs1; cbn in *; naive_solver.
Qed.

(** ** Headers *)

Lemma lay_app ns a p bs1 bs2 :
  lay ns a p (bs1 ++ bs2) <-> lay ns a p bs1 /\ lay ns (a + total bs1) (last_size p bs1) bs2.
Proof.
  revert a p. induction bs1 as [|b bs1 IH]; intros a p; cbn [app lay].
  - cbn. rewrite Z.add_0_r. naive_solver.
  - rewrite IH. unfold last_size. cbn [fmap list_fmap]. rewrite last_cons. cbn [total].
    rewrite Z.add_assoc. naive_solver.
Qed.

Lemma lay_frame ns ns' a p bs :
  positive bs -> (forall y, a <= y < a + total bs -> hdr ns' (At y) = hdr ns (At y)) -> lay ns a p bs -> lay ns' a p bs.
Proof.
  revert a p. induction bs as [|b bs IH]; intros a p Hp Hf; [done|]. intros [H1 H2]. cbn [total] in Hf.
  assert (0 < b.1) as Hb by (apply Hp; set_solver). assert (positive bs) as Hp' by (intros ? ?; apply Hp; set_solver).
  pose proof (total_nonneg _ Hp') as Ht. split.
  - rewrite Hf; [done|lia].
  - apply IH; [done| |done]. intros y Hy. apply Hf. lia.
Qed.

(** Replacing the blocks in the middle by others of the same size. *)
Lemma lay_replace ns ns' a p bs1 mid mid' b bs2 :
  positive (bs1 ++ mid ++ b :: bs2) -> total mid' = total mid ->
  (forall y, y < a + total bs1 \/ a + total bs1 + total mid < y -> hdr ns' (At y) = hdr ns (At y)) ->
  lay ns' (a + total bs1) (last_size p bs1) mid' ->
  hdr ns' (At (a + total bs1 + total mid)) = Some (b.1, last_size (last_size p bs1) mid', flag_of b.2) ->
  lay ns a p (bs1 ++ mid ++ b :: bs2) -> lay ns' a p (bs1 ++ mid' ++ b :: bs2).
Proof.
  intros Hp Et Hf Hm Hb Hl. apply positive_app in Hp as [Hp1 Hp]. apply positive_app in Hp as [_ Hp].
  assert (0 < b.1) as Hb1 by (apply Hp; set_solver). assert (positive bs2) as Hp2 by (intros ? ?; apply Hp; set_solver).
  rewrite !lay_app in *. destruct Hl as (H1 & _ & _ & H2). split_and!; [|done|].
  - eapply lay_frame; [done| |exact H1]. intros y Hy. apply Hf. lia.
  - rewrite Et. split; [done|]. eapply lay_frame; [done| |exact H2]. intros y Hy. apply Hf. lia.
Qed.

Lemma hdr_insert ns (x : addr) n (y : addr) :
  hdr (<[x := n]> ns) y = if decide (y = x) then Some (nd_size n, prev_adj_size n, nd_flag n) else hdr ns y.
Proof. unfold hdr. case_decide; subst; [by rewrite lookup_insert_eq|by rewrite lookup_insert_ne]. Qed.

Lemma hdr_lookup ns (x : addr) h : hdr ns x = Some h -> exists n, ns !! x = Some n /\ (nd_size n, prev_adj_size n, nd_flag n) = h.
Proof. unfold hdr. destruct (ns !! x) as [n|]; [|done]. intros [= <-]. by exists n. Qed.

Lemma hdr_size ns (x : addr) sz p f : hdr ns x = Some (sz, p, f) -> nsize ns x = sz.
Proof. unfold hdr, nsize. destruct (ns !! x); [|done]. by intros [= <- _ _]. Qed.

(** ** Changing headers and not links *)

Record same_links ns ns' : Prop := {
  sl_next : forall x : addr, nnext ns' x = nnext ns x;
  sl_prev : forall x : addr, nprev ns' x = nprev ns x;
  sl_some : forall x : addr, is_Some (ns !! x) -> is_Some (ns' !! x);
}.

Lemma same_links_insert ns (x : addr) n :
  nd_next n = nnext ns x -> nd_prev n = nprev ns x -> same_links ns (<[x := n]> ns).
Proof.
  intros En Ep. split; intros y.
  - rewrite nnext_insert. case_decide; by subst.
  - rewrite nprev_insert. case_decide; by subst.
  - intros Hy. destruct (decide (y = x)) as [->|]; [by rewrite lookup_insert_eq|by rewrite lookup_insert_ne].
Qed.

Lemma free_list_same_links ns ns' fl : same_links ns ns' -> free_list ns fl -> free_list ns' fl.
Proof.
  intros [Hn Hp Hs] [Hg Hl Hnd Hns]. split; [|by rewrite Hn|done|auto].
  eapply lseg_same; [| |exact Hg]; auto.
Qed.

Lemma class_list_sizes ns ns' fl :
  (forall x : addr, x ∈ fl -> nsize ns' x = nsize ns x) -> (forall i, nsize ns' (Head i) = nsize ns (Head i)) ->
  class_list ns fl -> class_list ns' fl.
Proof.
  intros Hf Hh [Hs Hi Hz Hp]. split; [|done|intros i Hi'; rewrite Hh; auto|intros x Hx; rewrite Hf; auto].
  eapply sorted_by_ext; [|exact Hs]. intros [i|x] Hx; [done|]. cbn. by rewrite Hf.
Qed.

Lemma class_list_remove ns l1 l2 x : class_list ns (l1 ++ At x :: l2) -> class_list ns (l1 ++ l2).
Proof.
  intros [Hs Hi Hz Hp]. split; [|intros i; rewrite <- Hi, elem_of_middle; naive_solver|done|].
  - apply sorted_by_app_inv in Hs as (H1 & H2 & H3). apply sorted_by_app_intro; [done| |set_solver].
    by apply (sorted_by_app _ [At x]).
  - intros y Hy. apply Hp. set_solver.
Qed.

(** ** Rules for headers *)

Lemma wp_get_hdr {A : Type} m (x : addr) (f : mnode -> A) v h (Q : A -> ByteMemory -> Prop) :
  hdr (mnodes m) x = Some h -> (forall n, (nd_size n, prev_adj_size n, nd_flag n) = h -> f n = v) -> Q v m ->
  wp (node_get x f) Q m.
Proof. intros (n & En & Eh)%hdr_lookup Hf HQ. eapply wp_node_get; [exact En|]. by rewrite (Hf n Eh). Qed.

Definition hdr_set ns ns' (x : addr) h : Prop :=
  same_links ns ns' /\ forall y : addr, hdr ns' y = if decide (y = x) then Some h else hdr ns y.

Lemma wp_set_hdr m (x : addr) (f : mnode -> mnode) h h' (Q : unit -> ByteMemory -> Prop) :
  hdr (mnodes m) x = Some h -> (forall n, nd_next (f n) = nd_next n /\ nd_prev (f n) = nd_prev n) ->
  (forall n, (nd_size n, prev_adj_size n, nd_flag n) = h ->
     (nd_size (f n), prev_adj_size (f n), nd_flag (f n)) = h') ->
  (forall ns', hdr_set (mnodes m) ns' x h' -> Q tt (set_mnodes ns' m)) ->
  wp (node_set x f) Q m.
Proof.
  intros (n & En & Eh)%hdr_lookup Hl Hf HQ. eapply wp_node_set; [exact En|]. apply HQ. destruct (Hl n) as [H1 H2].
  split; [apply same_links_insert; unfold nnext, nprev; by rewrite En|]. intros y. rewrite hdr_insert. by rewrite (Hf n Eh).
Qed.

Lemma wp_node_put m a sz p f (Q : unit -> ByteMemory -> Prop) :
  dynamic_buddy_start m <= a -> a + SIZEOF_DYNAMICALLOCNODE_MEM <= dynamic_buddy_end m ->
  (forall ns', hdr_set (mnodes m) ns' (At a) (sz, p, f) -> Q tt (set_mnodes ns' m)) -> wp (node_put a sz p f) Q m.
Proof.
  intros H1 H2 HQ. unfold node_put. wp_steps. rewrite (proj2 (Z.leb_le _ _) H1), (proj2 (Z.leb_le _ _) H2). cbn [andb].
  wp_steps. apply HQ. split; [by apply same_links_insert|]. intros y. by rewrite hdr_insert.
Qed.

End HeapLayout.
