(* ===== verification/Heap.v ===== *)
(** * The heap's operations

    Rules for the steps of [BigMemMalloc] and [BigMemFree] on [heap_core], and the
    theorems about allocation and release. *)

From S2P Require Import Prelude Kernel ByteMemory HeapList HeapLayout.

(** Arithmetic on addresses. *)
Ltac heap_lia :=
  unfold first_block, boundary, SIZEOF_DYNAMICALLOCNODE_MEM, SIZEOF_XSFREENODE_MEM, MEM_LOW_RANGE in *; cbn in *; lia.

(** Reading a field of the node with header [H], and writing one so that the header
    becomes [h']. *)
Ltac get_hdr H := eapply wp_get_hdr; [exact H|intros ? [= ? ? ?]; eassumption|].
Ltac set_hdr H h' := eapply (wp_set_hdr _ _ _ _ h'); [exact H|done|intros ? [= ? ? ?]; cbn; congruence|].

Section Heap.
Context `{C : KConfig}.
Implicit Types (ns : gmap addr mnode) (m : ByteMemory) (a p x y n sz : Z) (used : bool).
Implicit Types (b : block) (bs mid : list block) (F : list Z) (fl : list addr).

(** ** Facts about the blocks *)

Lemma hdr_set_eq ns ns' (x : addr) h : hdr_set ns ns' x h -> hdr ns' x = Some h.
Proof. intros [_ H]. by rewrite H, decide_True. Qed.
Lemma hdr_set_ne ns ns' (x y : addr) h : hdr_set ns ns' x h -> y <> x -> hdr ns' y = hdr ns y.
Proof. intros [_ H] Hne. by rewrite H, decide_False. Qed.

(** Outside of the addresses from [lo] to [hi] the headers stay. *)
Definition keeps (lo hi : Z) ns ns' : Prop := forall y, y < lo \/ hi < y -> hdr ns' (At y) = hdr ns (At y).

Lemma keeps_relinked lo hi ns ns' : relinked ns ns' -> keeps lo hi ns ns'.
Proof. intros H y _. apply H. Qed.
Lemma keeps_trans lo hi ns1 ns2 ns3 : keeps lo hi ns1 ns2 -> keeps lo hi ns2 ns3 -> keeps lo hi ns1 ns3.
Proof. intros H1 H2 y Hy. by rewrite H2, H1. Qed.
Lemma keeps_mono lo lo' hi hi' ns ns' : keeps lo hi ns ns' -> lo' <= lo -> hi <= hi' -> keeps lo' hi' ns ns'.
Proof. intros H H1 H2 y Hy. apply H. lia. Qed.

Lemma core_positive m bs F fl : heap_core m bs F fl -> positive bs.
Proof. intros H b Hb%(hc_sizes _ _ _ _ H). heap_lia. Qed.

Lemma core_lay m bs F fl : heap_core m bs F fl -> lay (mnodes m) (first_block m) 12 (bs ++ [boundary]).
Proof. intros H. apply hc_lay in H as [_ H]. exact H. Qed.

Lemma core_end m bs F fl : heap_core m bs F fl -> dynamic_buddy_end m = first_block m + total bs + 12.
Proof. intros H. rewrite (hc_end _ _ _ _ H). unfold region. cbn [total]. rewrite total_app. heap_lia. Qed.

(** A block, and the header after it. *)
Lemma core_block m bs1 sz used bs2 F fl :
  heap_core m (bs1 ++ (sz, used) :: bs2) F fl -> let a := first_block m + total bs1 in
  hdr (mnodes m) (At a) = Some (sz, last_size 12 bs1, flag_of used) /\
  hdr (mnodes m) (At (a + sz)) = Some ((List.hd boundary bs2).1, sz, flag_of (List.hd boundary bs2).2) /\
  20 <= sz /\ dynamic_buddy_start m + 12 <= a /\ a + sz + 12 <= dynamic_buddy_end m.
Proof.
  intros H a. pose proof (core_end _ _ _ _ H) as He. pose proof (core_positive _ _ _ _ H) as Hp.
  pose proof (hc_sizes _ _ _ _ H (sz, used) ltac:(set_solver)) as Hsz. apply core_lay in H.
  rewrite <- app_assoc in H. apply lay_app in H as (_ & H1 & H2). fold a in H1, H2. cbn [fst snd] in *.
  apply positive_app in Hp as [Hp1%total_nonneg Hp2]. rewrite total_app in He. cbn [total fst] in He.
  assert (positive bs2) as Hp3%total_nonneg by (intros b Hb; apply Hp2; set_solver).
  split_and!; [done|destruct bs2; apply H2|heap_lia|heap_lia|subst a; heap_lia].
Qed.

Lemma core_outside m bs1 mid bs2 F fl x :
  heap_core m (bs1 ++ mid ++ bs2) F fl -> x ∈ F -> let a := first_block m + total bs1 in
  x ∈ free_addrs (first_block m) bs1 /\ x < a \/ x ∈ free_addrs a mid \/
  x ∈ free_addrs (a + total mid) bs2 /\ a + total mid <= x.
Proof.
  intros H Hx a. pose proof (core_positive _ _ _ _ H) as Hp. apply positive_app in Hp as [Hp1 Hp].
  apply positive_app in Hp as [_ Hp2]. apply (hc_free _ _ _ _ H) in Hx. rewrite !free_addrs_app in Hx.
  apply elem_of_app in Hx as [Hx|Hx]; [left|]; [|apply elem_of_app in Hx as [Hx|Hx]; [by right; left|right; right]].
  - split; [done|]. pose proof (free_addrs_range _ _ _ Hp1 Hx). subst a. lia.
  - split; [done|]. pose proof (free_addrs_range _ _ _ Hp2 Hx). subst a. lia.
Qed.

(** ** Changing the blocks in the middle *)

Lemma nsize_hdr ns ns' (x : addr) : hdr ns' x = hdr ns x -> nsize ns' x = nsize ns x.
Proof. unfold hdr, nsize. destruct (ns' !! x), (ns !! x); cbn; congruence. Qed.

Lemma core_replace m ns' bs1 mid mid' bs2 F fl :
  heap_core m (bs1 ++ mid ++ bs2) F fl -> let a := first_block m + total bs1 in
  mid <> [] -> total mid' = total mid -> (forall b, b ∈ mid' -> SIZEOF_XSFREENODE_MEM <= b.1) ->
  same_links (mnodes m) ns' -> (forall i, hdr ns' (Head i) = hdr (mnodes m) (Head i)) ->
  keeps a (a + total mid) (mnodes m) ns' -> lay ns' a (last_size 12 bs1) mid' ->
  hdr ns' (At (a + total mid)) = Some ((List.hd boundary bs2).1, last_size (last_size 12 bs1) mid', flag_of (List.hd boundary bs2).2) ->
  (forall x, x ∈ F -> x ∈ free_addrs a mid -> False) ->
  heap_core (set_mnodes ns' m) (bs1 ++ mid' ++ bs2) F fl.
Proof.
  intros H a Hmid Et Hsz Hlinks Hheads Hk Hlay Hnext HF.
  pose proof (core_positive _ _ _ _ H) as Hp. pose proof (core_lay _ _ _ _ H) as Hl. rewrite <- !app_assoc in Hl.
  assert (exists bs3, bs2 ++ [boundary] = List.hd boundary bs2 :: bs3) as [bs3 E3] by (destruct bs2; eauto).
  assert (a + total mid >= first_block m + total bs1 + 20) as Hge.
  { destruct mid as [|b mid]; [done|]. pose proof (hc_sizes _ _ _ _ H b ltac:(set_solver)).
    assert (positive mid) as Hpm%total_nonneg by (intros ? ?; apply Hp; set_solver). subst a. heap_lia. }
  assert (dynamic_buddy_start m < a) as Hsa.
  { apply positive_app in Hp as [Hp%total_nonneg _]. subst a. heap_lia. }
  assert (lay ns' (first_block m) 12 (bs1 ++ mid' ++ bs2 ++ [boundary])) as Hl'.
  { rewrite E3 in *. eapply lay_replace; [|exact Et|exact Hk|exact Hlay|exact Hnext|exact Hl].
    rewrite <- E3. rewrite !app_assoc. apply positive_app. split; [by rewrite <- !app_assoc|].
    intros b ->%list_elem_of_singleton. heap_lia. }
  assert (forall x, x ∈ F -> nsize ns' (At x) = nsize (mnodes m) (At x)) as Hns.
  { intros x Hx. destruct (core_outside _ _ _ _ _ _ _ H Hx) as [[_ Hlt]|[Hin|[_ Hle]]]; [|destruct (HF x Hx Hin)|].
    - apply nsize_hdr, Hk. by left.
    - destruct (decide (x = a + total mid)) as [->|Hne]; [|apply nsize_hdr, Hk; subst a; right; lia].
      apply hdr_size in Hnext as ->. symmetry. rewrite E3 in Hl. rewrite !lay_app in Hl. destruct Hl as (_ & _ & Hl & _).
      by apply hdr_size in Hl. }
  split; try (by destruct H).
  - pose proof (hc_end _ _ _ _ H) as He. unfold region in *. cbn [total] in *. rewrite !total_app in *. cbn in *. lia.
  - split; [|by rewrite <- !app_assoc]. cbn [mnodes set_mnodes dynamic_buddy_start].
    rewrite Hk by (left; done). apply (hc_lay _ _ _ _ H).
  - intros b Hb. rewrite !elem_of_app in Hb. destruct Hb as [Hb|[Hb|Hb]]; [|by apply Hsz|];
      apply (hc_sizes _ _ _ _ H); set_solver.
  - eapply free_list_same_links; [done|apply (hc_list _ _ _ _ H)].
  - eapply class_list_sizes; [| |apply (hc_class _ _ _ _ H)].
    + intros [i|x] Hx; [by apply nsize_hdr|]. apply Hns. by apply (hc_in _ _ _ _ H).
    + intros i. by apply nsize_hdr.
  - intros x Hx. change (first_block (set_mnodes ns' m)) with (first_block m). rewrite !free_addrs_app, Et.
    destruct (core_outside _ _ _ _ _ _ _ H Hx) as [[Hin _]|[Hin|[Hin _]]]; [|destruct (HF x Hx Hin)|]; set_solver.
Qed.

(** ** The steps of the operations *)

Lemma core_relinked m ns' bs F F' fl fl' :
  heap_core m bs F fl -> relinked (mnodes m) ns' -> free_list ns' fl' -> class_list ns' fl' ->
  (forall x, At x ∈ fl' <-> x ∈ F') -> (forall x, x ∈ F' -> x ∈ free_addrs (first_block m) bs) ->
  heap_core (set_mnodes ns' m) bs F' fl'.
Proof.
  intros H Hr Hl Hc Hin Hf. split; try done; try apply H. eapply lay_frame; [| |apply (hc_lay _ _ _ _ H)].
  - intros b Hb. apply elem_of_cons in Hb as [->|[Hb| ->%list_elem_of_singleton]%elem_of_app]; [heap_lia| |heap_lia].
    apply (hc_sizes _ _ _ _ H) in Hb. heap_lia.
  - intros y _. apply Hr.
Qed.

Lemma core_unlink m bs F fl a (Q : unit -> ByteMemory -> Prop) :
  heap_core m bs F fl -> a ∈ F ->
  (forall ns' fl', relinked (mnodes m) ns' -> heap_core (set_mnodes ns' m) bs (without a F) fl' -> Q tt (set_mnodes ns' m)) ->
  wp (unlink_free (At a)) Q m.
Proof.
  intros H Ha HQ. apply (hc_in _ _ _ _ H) in Ha. apply list_elem_of_split in Ha as (l1 & l2 & E).
  eapply wp_unlink_free; [rewrite <- E; apply (hc_list _ _ _ _ H)|]. intros ns' Hr Hl.
  apply (HQ ns' (l1 ++ l2) Hr). pose proof (hc_class _ _ _ _ H) as Hc. pose proof (fl_nodup _ _ (hc_list _ _ _ _ H)) as Hnd.
  rewrite E in Hc, Hnd. apply NoDup_cons in Hnd as [_ Hnd]. apply NoDup_middle in Hnd as [Hni _].
  eapply core_relinked; [exact H|done|done| | |].
  - eapply class_list_relinked; [exact Hr|]. by eapply class_list_remove.
  - intros x. rewrite elem_of_without, <- (hc_in _ _ _ _ H), E, elem_of_middle. split; [|naive_solver].
    intros Hx. split; [by intros ->|by right].
  - intros x [_ Hx]%elem_of_without. by apply (hc_free _ _ _ _ H).
Qed.

Lemma core_add m bs1 sz bs2 F fl (Q : unit -> ByteMemory -> Prop) :
  heap_core m (bs1 ++ (sz, false) :: bs2) F fl -> let a := first_block m + total bs1 in
  a ∉ F ->
  (forall ns' fl', relinked (mnodes m) ns' -> heap_core (set_mnodes ns' m) (bs1 ++ (sz, false) :: bs2) (a :: F) fl' ->
     Q tt (set_mnodes ns' m)) ->
  wp (AddNewNodeIntoBuddy (At a)) Q m.
Proof.
  intros H a Ha HQ. destruct (core_block _ _ _ _ _ _ _ H) as (Hh & _ & Hsz & _). fold a in Hh.
  eapply wp_AddNewNodeIntoBuddy; [apply (hc_list _ _ _ _ H)|apply (hc_class _ _ _ _ H)| | | |].
  - apply hdr_lookup in Hh as (n & En & _). by exists n.
  - intros Hin. by apply Ha, (hc_in _ _ _ _ H).
  - apply hdr_size in Hh. lia.
  - intros ns' l1 l2 -> Hr Hl Hc. apply (HQ ns' (l1 ++ At a :: l2) Hr). eapply core_relinked; [exact H|done..| |].
    + intros x. rewrite elem_of_middle, elem_of_cons, <- (hc_in _ _ _ _ H). naive_solver.
    + intros x [->|Hx]%elem_of_cons; [|by apply (hc_free _ _ _ _ H)]. apply elem_of_free_addrs. by exists bs1, sz, bs2.
Qed.

(** A write of the flag. *)
Lemma core_flag m bs1 sz used used' bs2 F fl (Q : unit -> ByteMemory -> Prop) :
  heap_core m (bs1 ++ (sz, used) :: bs2) F fl -> let a := first_block m + total bs1 in
  a ∉ F ->
  (forall ns', keeps a (a + sz) (mnodes m) ns' -> heap_core (set_mnodes ns' m) (bs1 ++ (sz, used') :: bs2) F fl ->
     Q tt (set_mnodes ns' m)) ->
  wp (node_set (At a) (set_nd_flag (flag_of used'))) Q m.
Proof.
  intros H a Ha HQ. destruct (core_block _ _ _ _ _ _ _ H) as (Hh & Hn & Hsz & _). fold a in Hh, Hn.
  set_hdr Hh (sz, last_size 12 bs1, flag_of used'). intros ns' Hs.
  assert (keeps a (a + sz) (mnodes m) ns') as Hk.
  { intros y Hy. eapply hdr_set_ne; [exact Hs|]. intros [= ->]. lia. }
  apply (HQ ns' Hk). eapply (core_replace m ns' bs1 [(sz, used)] [(sz, used')] bs2); [exact H|done|done| |apply Hs| | | | |].
  - intros b ->%list_elem_of_singleton. apply (hc_sizes _ _ _ _ H (sz, used)). set_solver.
  - intros i. by eapply hdr_set_ne.
  - cbn [total fst]. by rewrite Z.add_0_r.
  - split; [|done]. eapply hdr_set_eq. exact Hs.
  - cbn [total fst]. rewrite Z.add_0_r. fold a. rewrite (hdr_set_ne _ _ _ _ _ Hs); [exact Hn|]. intros [= E]. lia.
  - intros x Hx Hin. cbn in Hin. destruct used; [by apply not_elem_of_nil in Hin|].
    apply list_elem_of_singleton in Hin as ->. done.
Qed.

Lemma keeps_hdr_set lo hi ns ns' y h : hdr_set ns ns' (At y) h -> lo <= y <= hi -> keeps lo hi ns ns'.
Proof. intros Hs Hy z Hz. apply (hdr_set_ne _ _ _ _ _ Hs). intros [= ->]. lia. Qed.

Lemma same_links_trans ns1 ns2 ns3 : same_links ns1 ns2 -> same_links ns2 ns3 -> same_links ns1 ns3.
Proof. intros [H1 H2 H3] [G1 G2 G3]. split; intros x; [by rewrite G1|by rewrite G2|auto]. Qed.

(** Two blocks become one. *)
Lemma core_join {B : Type} m bs1 s1 u1 s2 u2 bs2 F fl (k : M ByteMemory B) (Q : B -> ByteMemory -> Prop) :
  heap_core m (bs1 ++ (s1, u1) :: (s2, u2) :: bs2) F fl -> let a := first_block m + total bs1 in
  a ∉ F -> a + s1 ∉ F ->
  (forall ns', keeps a (a + s1 + s2) (mnodes m) ns' ->
     heap_core (set_mnodes ns' m) (bs1 ++ (s1 + s2, u1) :: bs2) F fl -> wp k Q (set_mnodes ns' m)) ->
  wp (node_set (At a) (fun d => set_nd_size (u32 (nd_size d + s2)) d);;
      sz ← node_get (At a) nd_size;
      node_set (At (a + s1 + s2)) (set_prev_adj_size sz);; k) Q m.
Proof.
  intros H a Ha1 Ha2 HQ. destruct (core_block _ _ _ _ _ _ _ H) as (Hh & _ & Hs1 & Hb1 & _). fold a in Hh, Hb1.
  assert (heap_core m ((bs1 ++ [(s1, u1)]) ++ (s2, u2) :: bs2) F fl) as H' by by rewrite <- app_assoc.
  destruct (core_block _ _ _ _ _ _ _ H') as (_ & Hn & Hs2 & _ & He).
  rewrite total_app in Hn, He. cbn [total fst] in Hn, He. rewrite Z.add_0_r, Z.add_assoc in Hn, He. fold a in Hn, He.
  pose proof (hc_limit _ _ _ _ H). pose proof (hc_start _ _ _ _ H). wp_step.
  assert (u32 (s1 + s2) = s1 + s2) as Eu by (apply u32_small; lia).
  set_hdr Hh (s1 + s2, last_size 12 bs1, flag_of u1). intros ns1 Hset1. wp_steps.
  pose proof (hdr_set_eq _ _ _ _ Hset1) as Hh1. get_hdr Hh1. wp_steps.
  assert (hdr ns1 (At (a + s1 + s2)) = Some ((List.hd boundary bs2).1, s2, flag_of (List.hd boundary bs2).2)) as Hn1.
  { rewrite (hdr_set_ne _ _ _ _ _ Hset1); [exact Hn|]. intros [= E]. lia. }
  set_hdr Hn1 ((List.hd boundary bs2).1, s1 + s2, flag_of (List.hd boundary bs2).2). intros ns2 Hset2.
  cbn [mnodes set_mnodes] in Hset2.
  assert (keeps a (a + s1 + s2) (mnodes m) ns2) as Hk.
  { eapply keeps_trans; [eapply keeps_hdr_set; [exact Hset1|lia]|eapply keeps_hdr_set; [exact Hset2|lia]]. }
  apply (HQ ns2 Hk).
  eapply (core_replace m ns2 bs1 [(s1, u1); (s2, u2)] [(s1 + s2, u1)] bs2); [exact H|done|cbn; lia| | | | | | |].
  - intros b ->%list_elem_of_singleton. heap_lia.
  - eapply same_links_trans; [apply Hset1|apply Hset2].
  - intros i. rewrite (hdr_set_ne _ _ _ _ _ Hset2) by done. by apply (hdr_set_ne _ _ _ _ _ Hset1).
  - cbn [total fst]. by rewrite Z.add_0_r, Z.add_assoc.
  - split; [|done]. cbn [fst snd]. rewrite (hdr_set_ne _ _ _ _ _ Hset2); [exact Hh1|]. intros [= E]. lia.
  - cbn [total fst]. rewrite Z.add_0_r, Z.add_assoc. fold a. apply (hdr_set_eq _ _ _ _ Hset2).
  - intros x Hx Hin. cbn in Hin. destruct u1, u2; cbn in Hin; set_solver.
Qed.

(** What [split_block] leaves of a block of size [sz] for [n] bytes, and cuts off. *)
Definition kept sz n : Z := if MEM_LOW_RANGE <=? sz - n then n else sz.
Definition cut sz n : list block := if MEM_LOW_RANGE <=? sz - n then [(sz - n, false)] else [].

Lemma wp_split_block m bs1 sz n bs2 F fl (Q : unit -> ByteMemory -> Prop) :
  heap_core m (bs1 ++ (sz, false) :: bs2) F fl -> let a := first_block m + total bs1 in
  a ∉ F -> 20 <= n < sz ->
  (forall ns' F' fl', keeps a (a + sz) (mnodes m) ns' ->
     heap_core (set_mnodes ns' m) (bs1 ++ (kept sz n, false) :: cut sz n ++ bs2) F' fl' ->
     (forall x, x ∈ F' <-> x ∈ F \/ x ∈ free_addrs (a + kept sz n) (cut sz n)) ->
     Q tt (set_mnodes ns' m)) ->
  wp (split_block (At a) n) Q m.
Proof.
  intros H a Ha Hn HQ. destruct (core_block _ _ _ _ _ _ _ H) as (Hh & Hnx & Hsz & Hb1 & He). fold a in Hh, Hnx, Hb1, He.
  pose proof (hc_limit _ _ _ _ H). pose proof (hc_start _ _ _ _ H).
  unfold split_block, kept, cut in *. wp_steps. get_hdr Hh. wp_steps. rewrite (u32_small (sz - n)) by lia.
  destruct (Z.leb_spec MEM_LOW_RANGE (sz - n)) as [Hge|Hlt].
  2:{ apply wp_ret. assert (set_mnodes (mnodes m) m = m) as Em by by destruct m. rewrite <- Em.
      eapply (HQ (mnodes m) F fl); [by intros ? ?|by rewrite Em|]. set_solver. }
  unfold MEM_LOW_RANGE in Hge. unfold plus. wp_steps.
  apply wp_node_put; [lia|heap_lia|]. intros ns1 Hs1. wp_steps.
  assert (hdr ns1 (At a) = Some (sz, last_size 12 bs1, 0)) as Hh1.
  { rewrite (hdr_set_ne _ _ _ _ _ Hs1); [exact Hh|]. intros [= E]. lia. }
  set_hdr Hh1 (n, last_size 12 bs1, 0). cbn [mnodes set_mnodes]. intros ns2 Hs2. wp_steps.
  assert (hdr ns2 (At (a + sz)) = Some ((List.hd boundary bs2).1, sz, flag_of (List.hd boundary bs2).2)) as Hn2.
  { rewrite (hdr_set_ne _ _ _ _ _ Hs2), (hdr_set_ne _ _ _ _ _ Hs1); [exact Hnx|intros [= E]; lia|intros [= E]; lia]. }
  set_hdr Hn2 ((List.hd boundary bs2).1, sz - n, flag_of (List.hd boundary bs2).2). cbn [mnodes set_mnodes]. intros ns3 Hs3.
  assert (keeps a (a + sz) (mnodes m) ns3) as Hk.
  { eapply keeps_trans; [eapply keeps_hdr_set; [exact Hs1|lia]|].
    eapply keeps_trans; [eapply keeps_hdr_set; [exact Hs2|lia]|eapply keeps_hdr_set; [exact Hs3|lia]]. }
  assert (heap_core (set_mnodes ns3 m) (bs1 ++ [(n, false); (sz - n, false)] ++ bs2) F fl) as H3.
  { apply (core_replace m ns3 bs1 [(sz, false)] [(n, false); (sz - n, false)] bs2); [exact H|done|cbn; lia| | | | | | |].
    - intros b [->| ->%list_elem_of_singleton]%elem_of_cons; heap_lia.
    - eapply same_links_trans; [apply Hs1|]. eapply same_links_trans; [apply Hs2|apply Hs3].
    - intros i. rewrite (hdr_set_ne _ _ _ _ _ Hs3), (hdr_set_ne _ _ _ _ _ Hs2) by done. by apply (hdr_set_ne _ _ _ _ _ Hs1).
    - cbn [total fst]. by rewrite Z.add_0_r.
    - cbn [lay fst snd]. fold a. split_and!; [| |done].
      + rewrite (hdr_set_ne _ _ _ _ _ Hs3); [by apply (hdr_set_eq _ _ _ _ Hs2)|intros [= E]; lia].
      + rewrite (hdr_set_ne _ _ _ _ _ Hs3), (hdr_set_ne _ _ _ _ _ Hs2); [by apply (hdr_set_eq _ _ _ _ Hs1)|intros [= E]; lia|intros [= E]; lia].
    - cbn [total fst]. rewrite Z.add_0_r. fold a. apply (hdr_set_eq _ _ _ _ Hs3).
    - intros x Hx Hin. cbn in Hin. set_solver. }
  assert (first_block m + total (bs1 ++ [(n, false)]) = a + n) as Er by (rewrite total_app; subst a; heap_lia).
  rewrite <- Er. eapply (core_add (set_mnodes ns3 m) (bs1 ++ [(n, false)]) (sz - n) bs2 F fl).
  - by rewrite <- app_assoc.
  - change (first_block (set_mnodes ns3 m)) with (first_block m). rewrite Er. intros Hin.
    destruct (core_outside _ bs1 [(sz, false)] bs2 _ _ _ H Hin) as [[_ Hlt]|[Hx|[_ Hle]]]; [subst a; lia| |subst a; heap_lia].
    cbn in Hx. apply list_elem_of_singleton in Hx. subst a. lia.
  - change (first_block (set_mnodes ns3 m)) with (first_block m). rewrite Er. rewrite <- app_assoc.
    intros ns4 fl4 Hr H4. apply (HQ ns4 (a + n :: F) fl4); [|exact H4|].
    + eapply keeps_trans; [exact Hk|]. by apply keeps_relinked.
    + intros x. cbn. set_solver.
Qed.

(** ** Allocation *)

(** A free block of size [sz] has a node in the free list, and conversely. *)
Lemma ok_free m bs fl sz : heap_ok m bs fl -> (sz, false) ∈ bs -> exists x, At x ∈ fl /\ nsize (mnodes m) (At x) = sz.
Proof.
  intros [H _ _] (bs1 & bs2 & ->)%list_elem_of_split. exists (first_block m + total bs1). split.
  - apply (hc_in _ _ _ _ H), elem_of_free_addrs. by exists bs1, sz, bs2.
  - destruct (core_block _ _ _ _ _ _ _ H) as (Hh & _). by apply hdr_size in Hh.
Qed.

Lemma ok_node m bs fl x : heap_ok m bs fl -> At x ∈ fl ->
  exists bs1 bs2, bs = bs1 ++ (nsize (mnodes m) (At x), false) :: bs2 /\ x = first_block m + total bs1.
Proof.
  intros [H _ _] (bs1 & sz & bs2 & -> & ->)%(hc_in _ _ _ _ H)%elem_of_free_addrs. exists bs1, bs2.
  destruct (core_block _ _ _ _ _ _ _ H) as (Hh & _). by apply hdr_size in Hh as ->.
Qed.

(** [sz] is the size of a smallest free block with at least [n] bytes. *)
Definition best_fit bs n sz : Prop := (sz, false) ∈ bs /\ n <= sz /\ forall sz', (sz', false) ∈ bs -> n <= sz' -> sz <= sz'.

Lemma wp_best_fit {B : Type} m bs fl n (k : option addr -> M ByteMemory B) (Q : B -> ByteMemory -> Prop) :
  heap_ok m bs fl -> 20 <= n ->
  ((forall sz, (sz, false) ∈ bs -> sz < n) -> wp (k None) Q m) ->
  (forall bs1 sz bs2, bs = bs1 ++ (sz, false) :: bs2 -> best_fit bs n sz ->
     wp (k (Some (At (first_block m + total bs1)))) Q m) ->
  wp (first ← node_get (Head (CaculateBuddyIndex n)) nd_next;
      m ← get; node ← find_fit (S (base.size (mnodes m))) n first; k node) Q m.
Proof.
  intros H Hn Hnone Hsome. pose proof (ho_core _ _ _ H) as HC.
  pose proof (hc_list _ _ _ _ HC) as Hl. pose proof (hc_class _ _ _ _ HC) as Hc.
  destruct (index_spec n ltac:(lia)) as (Hi & Hlo & _). set (i := CaculateBuddyIndex n) in *.
  destruct (split_at_class _ _ _ Hl Hc Hi) as (l1 & l2 & -> & Hlast & Hk & _).
  destruct (fl_nodes _ _ Hl (Head i)) as [h Eh].
  { rewrite <- Hlast. pose proof (last_in_head l1). set_solver. }
  wp_steps. eapply wp_node_get; [exact Eh|]. wp_steps.
  assert (nd_next h = head l2) as ->.
  { pose proof (free_list_next _ _ _ Hl) as E. rewrite Hlast in E. unfold nnext in E. by rewrite Eh in E. }
  eapply wp_find_fit; [exact Hl| |].
  { apply free_list_length in Hl. rewrite length_app in Hl. lia. }
  intros c l2' -> Hc1 Hc2.
  assert (forall x, At x ∈ l1 ++ c -> nsize (mnodes m) (At x) < n) as Hsmall.
  { intros x [Hx|Hx]%elem_of_app; [|by apply Hc1]. destruct (Hk _ Hx) as [Hi0 Hkx]. specialize (Hlo Hi0). cbn [key] in Hkx. lia. }
  destruct l2' as [|x l2']; cbn [head] in *.
  - apply Hnone. intros sz Hsz. destruct (ok_free m bs _ sz H Hsz) as (x & Hx & <-). apply Hsmall. set_solver.
  - specialize (Hc2 x eq_refl). destruct x as [j|x].
    { exfalso. rewrite (cl_zero _ _ Hc) in Hc2; [lia|]. assert (1 <= j <= 14); [|lia]. apply (cl_heads _ _ Hc). set_solver. }
    destruct (ok_node m bs _ x H) as (bs1 & bs2 & E & ->); [set_solver|].
    eapply Hsome; [exact E|]. split_and!; [rewrite E; set_solver|done|]. intros sz' Hsz' Hle.
    destruct (ok_free m bs _ sz' H Hsz') as (y & Hy & <-).
    pose proof (cl_sorted _ _ Hc) as Hs. rewrite app_assoc in Hs, Hy. apply sorted_by_app_inv in Hs as (_ & Hs & _).
    apply elem_of_app in Hy as [Hy|[[= ->]|Hy]%elem_of_cons]; [apply Hsmall in Hy; lia|done|].
    pose proof (sorted_by_head _ _ _ _ Hs Hy) as Hkey. cbn [key] in Hkey. lia.
Qed.

Lemma core_equiv m bs F F' fl : (forall x, x ∈ F' <-> x ∈ F) -> heap_core m bs F fl -> heap_core m bs F' fl.
Proof.
  intros HF H. split; try apply H; intros x; [rewrite HF; apply H|]. intros Hx%HF. by apply (hc_free _ _ _ _ H).
Qed.

Lemma core_usage m bs F fl active max : heap_core m bs F fl -> heap_core (set_usage active max m) bs F fl.
Proof. intros H. split; apply H. Qed.

Lemma core_used_bound m bs F fl : heap_core m bs F fl -> 0 <= used_total bs < 2 ^ 32.
Proof.
  intros H. pose proof (core_end _ _ _ _ H). pose proof (hc_limit _ _ _ _ H). pose proof (hc_start _ _ _ _ H).
  pose proof (used_total_bounds _ (core_positive _ _ _ _ H)). heap_lia.
Qed.

(** The blocks after an allocation of [n] bytes from the block [(sz, false)]. *)
Definition carve bs1 sz n bs2 : list block := bs1 ++ (kept sz n, true) :: cut sz n ++ bs2.

Lemma apart_carve bs1 sz n bs2 : apart (bs1 ++ (sz, false) :: bs2) -> apart (carve bs1 sz n bs2).
Proof.
  intros [H1 H2]%apart_app. assert (apart bs1) as H1'.
  { destruct bs1 as [|b bs1 _] using rev_ind; [done|]. rewrite <- app_assoc in H1. by apply apart_app in H1 as [? _]. }
  apply apart_app. rewrite apart_used_r, apart_used_l. split; [done|]. unfold cut. case_match; [by destruct bs2|].
  destruct bs2; [done|]. cbn. by destruct H2.
Qed.

Lemma used_total_carve bs1 sz n bs2 :
  used_total (carve bs1 sz n bs2) = used_total (bs1 ++ (sz, false) :: bs2) + kept sz n.
Proof. unfold carve, cut, kept. rewrite !used_total_app. cbn. rewrite used_total_app. case_match; cbn; lia. Qed.

Lemma free_addrs_carve a bs1 sz n bs2 x :
  positive (bs1 ++ (sz, false) :: bs2) ->
  x ∈ free_addrs a (carve bs1 sz n bs2) <->
  x ∈ without (a + total bs1) (free_addrs a (bs1 ++ (sz, false) :: bs2)) \/
  x ∈ free_addrs (a + total bs1 + kept sz n) (cut sz n).
Proof.
  intros [Hp1 Hp2]%positive_app. assert (positive bs2) as Hp3 by (intros ? ?; apply Hp2; set_solver).
  pose proof (Hp2 (sz, false) ltac:(set_solver)) as Hsz. cbn in Hsz.
  unfold carve. rewrite elem_of_without, !free_addrs_app, !elem_of_app. cbn [free_addrs fst snd app].
  rewrite free_addrs_app, elem_of_app, elem_of_cons.
  assert (a + total bs1 + kept sz n + total (cut sz n) = a + total bs1 + sz) as -> by (unfold kept, cut; case_match; cbn; lia).
  split; [|naive_solver].
  intros [Hx|[Hx|Hx]]; [left|by right|left]; (split; [|tauto]); apply free_addrs_range in Hx; (done || lia).
Qed.

Lemma wp_BigMemMalloc m bs fl size (Q : option Z -> ByteMemory -> Prop) :
  heap_ok m bs fl -> 8 <= size -> size + 12 < 2 ^ 32 ->
  ((forall sz, (sz, false) ∈ bs -> sz < size + 12) \/ (size + 12, false) ∈ bs -> Q None m) ->
  (forall bs1 sz bs2 ns' fl', let a := first_block m + total bs1 in
     let m' := set_usage (active_memory m + kept sz (size + 12))
                 (Z.max (max_ever_usedmem m) (active_memory m + kept sz (size + 12))) (set_mnodes ns' m) in
     bs = bs1 ++ (sz, false) :: bs2 -> best_fit bs (size + 12) sz -> size + 12 < sz ->
     keeps a (a + sz) (mnodes m) ns' -> heap_ok m' (carve bs1 sz (size + 12) bs2) fl' -> Q (Some (a + 12)) m') ->
  wp (BigMemMalloc size DYNAMIC_BLOCK_MASK) Q m.
Proof.
  intros H Hs1 Hs2 Hnone Hsome. unfold BigMemMalloc. change SIZEOF_DYNAMICALLOCNODE_MEM with 12 in *.
  rewrite (u32_small (size + 12)) by lia. set (n := size + 12) in *.
  assert ((if MEM_HIGH_RANGE <=? n then MEM_LINKNRS - 1 else CaculateBuddyIndex n) = CaculateBuddyIndex n) as ->.
  { unfold CaculateBuddyIndex. destruct (Z.leb_spec MEM_HIGH_RANGE n), (Z.ltb_spec n MEM_HIGH_RANGE); done || lia. }
  apply (wp_best_fit m bs fl); [done|lia| |].
  { intros Hlt. apply wp_ret, Hnone. by left. }
  intros bs1 sz bs2 -> Hbest. destruct H as [H Hap Hact]. set (a := first_block m + total bs1).
  destruct (core_block _ _ _ _ _ _ _ H) as (Hh & _ & Hsz & Hb1 & He). fold a in Hh, Hb1, He. cbn beta iota.
  wp_step. get_hdr Hh. destruct (Z.leb_spec sz n) as [Hle|Hgt].
  { apply wp_ret, Hnone. right. destruct Hbest as (Hin & Hge & _). assert (sz = n) as <- by lia. done. }
  wp_step. eapply core_unlink; [exact H|apply elem_of_free_addrs; by exists bs1, sz, bs2|].
  intros ns1 fl1 Hr1 H1. fold a in H1. wp_step. cbn beta iota.
  eapply (wp_split_block (set_mnodes ns1 m)); [exact H1| |lia|]; change (first_block (set_mnodes ns1 m)) with (first_block m); fold a.
  { intros [? _]%elem_of_without. done. }
  intros ns2 F2 fl2 Hk2 H2 HF2. cbn [mnodes set_mnodes] in Hk2. wp_step. cbn beta iota.
  change DYNAMIC_BLOCK_MASK with (flag_of true). eapply (core_flag (set_mnodes ns2 m) bs1 (kept sz n) false true (cut sz n ++ bs2)); [exact H2| |].
  { change (first_block (set_mnodes ns2 m)) with (first_block m). fold a. rewrite HF2. intros [[? _]%elem_of_without|Hin]; [done|].
    unfold cut, kept in Hin. case_match; cbn in Hin; set_solver by lia. }
  change (first_block (set_mnodes ns2 m)) with (first_block m). fold a. cbn [mnodes set_mnodes].
  intros ns3 Hk3 H3. unfold plus. wp_steps.
  destruct (core_block _ _ _ _ _ _ _ H3) as (Hh3 & _).
  change (first_block (set_mnodes ns3 (set_mnodes ns2 m))) with (first_block m) in Hh3. fold a in Hh3. get_hdr Hh3. wp_steps.
  assert (kept sz n <= sz) as Hkept by (unfold kept; case_match; lia).
  change (set_mnodes ns3 (set_mnodes ns2 m)) with (set_mnodes ns3 m) in *.
  pose proof (core_used_bound _ _ _ _ H3) as Hub. fold (carve bs1 sz n bs2) in Hub, H3. rewrite used_total_carve, <- Hact in Hub.
  cbn [active_memory set_mnodes max_ever_usedmem]. rewrite u32_small by lia.
  eapply (Hsome bs1 sz bs2 ns3 fl2); [done|done|lia| |].
  - eapply keeps_trans; [by apply keeps_relinked|]. eapply keeps_trans; [exact Hk2|]. eapply keeps_mono; [exact Hk3|lia|lia].
  - split; [|by apply apart_carve|].
    + apply core_usage. eapply core_equiv; [|exact H3]. intros x. rewrite HF2. apply free_addrs_carve.
      apply (core_positive _ _ _ _ H).
    + cbn. rewrite used_total_carve. lia.
Qed.

(** [BigMemMalloc] takes a smallest free block that is larger than the request
    with its header, cuts the rest off when it has 64 bytes or more, and leaves all
    other blocks as they are.  It refuses, and changes nothing, when every free block
    is smaller, but also when one has exactly the size, however many are larger. *)
Theorem BigMemMalloc_correct m bs fl size :
  heap_ok m bs fl -> 8 <= size -> size + 12 < 2 ^ 32 ->
  wp (BigMemMalloc size DYNAMIC_BLOCK_MASK) (fun r m' =>
    match r with
    | None => m' = m /\ ((forall sz, (sz, false) ∈ bs -> sz < size + 12) \/ (size + 12, false) ∈ bs)
    | Some p => exists bs1 sz bs2 fl', bs = bs1 ++ (sz, false) :: bs2 /\ best_fit bs (size + 12) sz /\ size + 12 < sz /\
        p = first_block m + total bs1 + 12 /\ first_block m' = first_block m /\
        heap_ok m' (carve bs1 sz (size + 12) bs2) fl' /\
        max_ever_usedmem m' = Z.max (max_ever_usedmem m) (active_memory m')
    end) m.
Proof.
  intros H Hs1 Hs2. eapply wp_BigMemMalloc; [exact H|done|done|done|].
  intros bs1 sz bs2 ns' fl' a m' E Hbest Hlt _ Hok. by exists bs1, sz, bs2, fl'.
Qed.

(** ** Release *)

(** A released block of size [sz] and the blocks after it, the block and those
    before it, when a free neighbour is joined. *)
Definition join_next sz bs2 : Z * list block :=
  match bs2 with (s2, false) :: bs2' => (sz + s2, bs2') | _ => (sz, bs2) end.
Definition join_prev bs1 sz : list block * Z :=
  match last bs1 with Some (s1, false) => (removelast bs1, s1 + sz) | _ => (bs1, sz) end.
Definition released bs1 sz bs2 : list block :=
  let '(sz, bs2) := join_next sz bs2 in
  let '(bs1, sz) := join_prev bs1 sz in
  bs1 ++ (sz, false) :: bs2.

Lemma apart_cons_free sz bs : apart ((sz, false) :: bs) <-> (forall b, head bs = Some b -> b.2 = true) /\ apart bs.
Proof. destruct bs; cbn; naive_solver. Qed.

Lemma apart_snoc_free sz bs : apart (bs ++ [(sz, false)]) <-> (forall b, last bs = Some b -> b.2 = true) /\ apart bs.
Proof.
  destruct bs as [|b bs _] using rev_ind; [cbn; naive_solver|]. rewrite last_snoc, <- app_assoc. cbn [app].
  rewrite apart_app. cbn [apart snd]. rewrite orb_false_r. naive_solver.
Qed.

Lemma apart_join_next bs1 sz bs2 : apart (bs1 ++ (sz, true) :: bs2) ->
  let '(sz', bs2') := join_next sz bs2 in apart bs1 /\ apart ((sz', false) :: bs2').
Proof.
  rewrite apart_app, apart_used_r, apart_used_l. intros [H1 H2].
  destruct bs2 as [|[s2 [|]] bs2]; by cbn [join_next].
Qed.

Lemma apart_join_prev bs1 sz bs2 : apart bs1 -> apart ((sz, false) :: bs2) ->
  let '(bs1', sz') := join_prev bs1 sz in apart (bs1' ++ (sz', false) :: bs2).
Proof.
  intros H1 H2. unfold join_prev. destruct bs1 as [|[s1 u1] bs1 _] using rev_ind; [done|]. rewrite last_snoc.
  destruct u1.
  - rewrite apart_app. split; [|done]. apply apart_snoc_free. split; [|done]. rewrite last_snoc. by intros ? [= <-].
  - rewrite removelast_last. apply apart_app. apply apart_snoc_free in H1 as [H1 H1'].
    split; [by apply apart_snoc_free|]. rewrite apart_cons_free in *. done.
Qed.

Lemma apart_released bs1 sz bs2 : apart (bs1 ++ (sz, true) :: bs2) -> apart (released bs1 sz bs2).
Proof.
  intros H%apart_join_next. unfold released. destruct (join_next sz bs2) as [sz' bs2']. destruct H as [H1 H2].
  pose proof (apart_join_prev _ _ _ H1 H2) as H. by destruct (join_prev bs1 sz').
Qed.

Lemma used_total_released bs1 sz bs2 :
  used_total (released bs1 sz bs2) = used_total (bs1 ++ (sz, true) :: bs2) - sz.
Proof.
  unfold released, join_next, join_prev. rewrite used_total_app.
  destruct bs2 as [|[s2 [|]] bs2]; destruct bs1 as [|[s1 [|]] bs1 _] using rev_ind;
    rewrite ?last_snoc, ?removelast_last, ?used_total_app; cbn; rewrite ?used_total_app; cbn; lia.
Qed.

Lemma wp_is_free m y sz p used (Q : bool -> ByteMemory -> Prop) :
  hdr (mnodes m) (At y) = Some (sz, p, flag_of used) -> Q (negb used) m -> wp (is_free (At y)) Q m.
Proof. intros Hh HQ. unfold is_free. wp_steps. get_hdr Hh. wp_steps. by destruct used. Qed.

(** ** The first half of [BigMemFree]: the next block *)

Lemma free_addrs_skip a bs1 sz bs2 x :
  x ∈ free_addrs a (bs1 ++ (sz, true) :: bs2) <-> x ∈ free_addrs a bs1 \/ x ∈ free_addrs (a + total bs1 + sz) bs2.
Proof. rewrite free_addrs_app, elem_of_app. done. Qed.

Lemma core_used_not_free m bs1 sz bs2 F fl :
  heap_core m (bs1 ++ (sz, true) :: bs2) F fl -> first_block m + total bs1 ∉ F.
Proof.
  intros H Hin. pose proof (core_block _ _ _ _ _ _ _ H) as (_ & _ & Hsz & _).
  destruct (core_outside _ bs1 [(sz, true)] bs2 _ _ _ H Hin) as [[_ Hlt]|[Hx|[_ Hle]]]; cbn in *; [lia|set_solver|lia].
Qed.

Lemma wp_absorb_next {B : Type} m bs1 sz bs2 fl (k : addr -> M ByteMemory B) (Q : B -> ByteMemory -> Prop) :
  heap_core m (bs1 ++ (sz, true) :: bs2) (free_addrs (first_block m) (bs1 ++ (sz, true) :: bs2)) fl ->
  let a := first_block m + total bs1 in
  (forall ns' fl', let '(sz', bs2') := join_next sz bs2 in keeps a (a + sz') (mnodes m) ns' ->
     heap_core (set_mnodes ns' m) (bs1 ++ (sz', true) :: bs2') (free_addrs (first_block m) (bs1 ++ (sz', true) :: bs2')) fl' ->
     wp (k (At (a + sz'))) Q (set_mnodes ns' m)) ->
  wp (free ← is_free (At (a + sz));
      next ← (if (free : bool) then
                nsz ← node_get (At (a + sz)) nd_size;
                andbeyond ← plus (At (a + sz)) nsz;
                unlink_free (At (a + sz));;
                nsz ← node_get (At (a + sz)) nd_size;
                node_set (At a) (fun d => set_nd_size (u32 (nd_size d + nsz)) d);;
                sz ← node_get (At a) nd_size;
                node_set andbeyond (set_prev_adj_size sz);;
                mret andbeyond
              else mret (At (a + sz)));
      k next) Q m.
Proof.
  intros H a HQ. destruct (core_block _ _ _ _ _ _ _ H) as (_ & Hn & Hsz & _). fold a in Hn.
  wp_step. eapply wp_is_free; [exact Hn|]. wp_step.
  destruct bs2 as [|[s2 [|]] bs2]; cbn [List.hd snd fst negb join_next boundary] in *.
  1, 2: apply wp_ret; assert (set_mnodes (mnodes m) m = m) as Em by (by destruct m); rewrite <- Em;
    eapply (HQ (mnodes m)); [by intros ? ?|by rewrite Em].
  pose proof (core_used_not_free _ _ _ _ _ _ H) as Ha. fold a in Ha.
  wp_step. get_hdr Hn. unfold plus. do 3 wp_step. cbn beta iota.
  eapply core_unlink; [exact H| |].
  { apply free_addrs_skip. right. fold a. set_solver. }
  intros ns1 fl1 Hr1 H1. wp_step.
  assert (hdr (mnodes (set_mnodes ns1 m)) (At (a + sz)) = hdr (mnodes m) (At (a + sz))) as E1 by apply Hr1. rewrite Hn in E1.
  get_hdr E1. eapply (core_join (set_mnodes ns1 m)); [exact H1|..]; change (first_block (set_mnodes ns1 m)) with (first_block m); fold a.
  - by intros [_ ?]%elem_of_without.
  - by intros [? _]%elem_of_without.
  - cbn [mnodes set_mnodes]. intros ns2 Hk2 H2. apply wp_ret. rewrite <- Z.add_assoc. apply (HQ ns2 fl1).
    + eapply keeps_trans; [by apply keeps_relinked|]. eapply keeps_mono; [exact Hk2|lia|lia].
    + eapply core_equiv; [|exact H2]. intros x. rewrite elem_of_without, !free_addrs_skip. fold a. cbn [free_addrs snd fst app].
      rewrite elem_of_cons, Z.add_assoc. pose proof (core_positive _ _ _ _ H) as [Hp1 Hp2]%positive_app.
      assert (positive bs2) as Hp3 by (intros ? ?; apply Hp2; set_solver).
      assert (0 < s2) as Hs2 by (apply (Hp2 (s2, false)); set_solver).
      split; [|naive_solver]. intros [Hx|Hx]; (split; [|tauto]); apply free_addrs_range in Hx; (done || lia).
Qed.

(** ** The second half: the block before, and the insertion *)

(** The flag is cleared and the block enters the free list. *)
Lemma wp_clear_and_add m bs1 sz used bs2 F fl (Q : unit -> ByteMemory -> Prop) :
  heap_core m (bs1 ++ (sz, used) :: bs2) F fl -> let a := first_block m + total bs1 in
  a ∉ F -> (forall x, x ∈ F <-> x ∈ free_addrs (first_block m) bs1 \/ x ∈ free_addrs (a + sz) bs2) ->
  (forall ns' fl', keeps a (a + sz) (mnodes m) ns' ->
     heap_core (set_mnodes ns' m) (bs1 ++ (sz, false) :: bs2)
       (free_addrs (first_block m) (bs1 ++ (sz, false) :: bs2)) fl' -> Q tt (set_mnodes ns' m)) ->
  wp (node_set (At a) (set_nd_flag 0);; AddNewNodeIntoBuddy (At a)) Q m.
Proof.
  intros H a Ha HF HQ. wp_step. change 0 with (flag_of false) at 1. eapply (core_flag m); [exact H|done|]. intros ns1 Hk1 H1.
  eapply (core_add (set_mnodes ns1 m)); [exact H1|done|]. intros ns2 fl2 Hr2 H2. apply (HQ ns2 fl2).
  - eapply keeps_trans; [exact Hk1|]. by apply keeps_relinked.
  - eapply core_equiv; [|exact H2]. intros x. rewrite free_addrs_app, elem_of_app. cbn [free_addrs snd fst app].
    rewrite !elem_of_cons, HF. change (first_block (set_mnodes ns1 m)) with (first_block m). fold a. tauto.
Qed.

Lemma core_prev m bs1 sz used bs2 F fl :
  heap_core m (bs1 ++ (sz, used) :: bs2) F fl -> let a := first_block m + total bs1 in
  exists p, hdr (mnodes m) (At (a - last_size 12 bs1)) = Some (last_size 12 bs1, p, flag_of (default true (snd <$> last bs1))).
Proof.
  intros H a. destruct bs1 as [|[s1 u1] bs1 _] using rev_ind.
  - exists 0. apply hc_lay in H as [H _]. cbn in *. subst a. unfold first_block, SIZEOF_DYNAMICALLOCNODE_MEM.
    replace (dynamic_buddy_start m + 12 + 0 - 12) with (dynamic_buddy_start m) by lia. exact H.
  - rewrite <- app_assoc in H. destruct (core_block _ _ _ _ _ _ _ H) as (Hh & _). exists (last_size 12 bs1).
    rewrite last_snoc, last_size_app. subst a. rewrite total_app. cbn.
    replace (first_block m + (total bs1 + (s1 + 0)) - s1) with (first_block m + total bs1) by lia. exact Hh.
Qed.

Lemma wp_absorb_prev m bs1 sz bs2 fl (Q : unit -> ByteMemory -> Prop) :
  heap_core m (bs1 ++ (sz, true) :: bs2) (free_addrs (first_block m) (bs1 ++ (sz, true) :: bs2)) fl ->
  let a := first_block m + total bs1 in
  (forall ns' fl', let '(bs1', sz') := join_prev bs1 sz in let a' := first_block m + total bs1' in
     keeps a' (a' + sz') (mnodes m) ns' ->
     heap_core (set_mnodes ns' m) (bs1' ++ (sz', false) :: bs2)
       (free_addrs (first_block m) (bs1' ++ (sz', false) :: bs2)) fl' -> Q tt (set_mnodes ns' m)) ->
  wp (padj ← node_get (At a) prev_adj_size;
      prev ← plus (At a) (- padj);
      free ← is_free prev;
      node ← (if (free : bool) then
                unlink_free prev;;
                asz ← node_get (At a) nd_size;
                node_set prev (fun d => set_nd_size (u32 (nd_size d + asz)) d);;
                psz ← node_get prev nd_size;
                node_set (At (a + sz)) (set_prev_adj_size psz);;
                mret prev
              else mret (At a));
      node_set node (set_nd_flag 0);;
      AddNewNodeIntoBuddy node) Q m.
Proof.
  intros H a HQ. destruct (core_block _ _ _ _ _ _ _ H) as (Hh & _ & Hsz & _). fold a in Hh.
  destruct (core_prev _ _ _ _ _ _ _ H) as [p Hp]. fold a in Hp. pose proof (core_used_not_free _ _ _ _ _ _ H) as Ha. fold a in Ha.
  wp_step. get_hdr Hh. unfold plus. do 2 wp_step. cbn beta iota. wp_step.
  rewrite Z.add_opp_r. eapply wp_is_free; [exact Hp|]. unfold join_prev in HQ.
  destruct (last bs1) as [[s1 [|]]|] eqn:El; cbn [fmap option_fmap option_map default snd id negb] in *.
  1, 3: wp_step; apply wp_ret; cbn beta; eapply (wp_clear_and_add m bs1 sz true bs2); [exact H|done| |exact HQ];
    intros x; apply free_addrs_skip.
  apply last_Some in El as [bs1' ->]. rewrite removelast_last in HQ. unfold a in *. clear a. rename bs1' into bs1.
  set (a := first_block m + total bs1) in *. rewrite last_size_app in *. rewrite total_app in *. cbn [total last_size fmap list_fmap List.last fst] in *.
  replace (first_block m + (total bs1 + (s1 + 0))) with (a + s1) in * by lia. change (last_size (last_size 12 bs1) [(s1, false)]) with s1 in *.
  replace (a + s1 - s1) with a in * by lia. rewrite <- app_assoc in *. cbn [app] in *.
  assert (forall x, x ∈ free_addrs (first_block m) (bs1 ++ (s1, false) :: (sz, true) :: bs2) <->
    x ∈ free_addrs (first_block m) bs1 \/ x = a \/ x ∈ free_addrs (a + s1 + sz) bs2) as HF.
  { intros x. rewrite free_addrs_app, elem_of_app. cbn [free_addrs fst snd app]. fold a. by rewrite elem_of_cons. }
  pose proof (core_positive _ _ _ _ H) as [Hp1 Hp2]%positive_app. assert (positive bs2) as Hp3 by (intros ? ?; apply Hp2; set_solver).
  assert (0 < s1) as Hs1 by (apply (Hp2 (s1, false)); set_solver).
  wp_step. wp_step. eapply core_unlink; [exact H|apply HF; tauto|]. intros ns1 fl1 Hr1 H1. wp_step.
  assert (hdr (mnodes (set_mnodes ns1 m)) (At (a + s1)) = hdr (mnodes m) (At (a + s1))) as E1 by apply Hr1. rewrite Hh in E1.
  get_hdr E1. eapply (core_join (set_mnodes ns1 m)); [exact H1|by intros [? _]%elem_of_without|by intros [_ ?]%elem_of_without|].
  change (first_block (set_mnodes ns1 m)) with (first_block m). fold a. cbn [mnodes set_mnodes]. intros ns2 Hk2 H2. apply wp_ret. cbn beta.
  eapply (wp_clear_and_add (set_mnodes ns2 (set_mnodes ns1 m))); [exact H2|by intros [? _]%elem_of_without| |].
  - intros x. change (first_block _) with (first_block m). fold a. rewrite elem_of_without, HF, Z.add_assoc.
    split; [tauto|]. intros [Hx|Hx]; (split; [|tauto]); apply free_addrs_range in Hx; (done || lia).
  - change (first_block _) with (first_block m). fold a. intros ns3 fl3 Hk3 H3. apply (HQ ns3 fl3); [|exact H3].
    eapply keeps_trans; [by apply keeps_relinked|]. eapply keeps_trans; [eapply keeps_mono; [exact Hk2|lia|lia]|exact Hk3].
Qed.

(** The address of the first block that [released] changes. *)
Definition joined_from bs1 sz : Z := total (join_prev bs1 sz).1.

Lemma wp_BigMemFree m bs1 sz bs2 fl (Q : unit -> ByteMemory -> Prop) :
  heap_ok m (bs1 ++ (sz, true) :: bs2) fl -> let a := first_block m + total bs1 in
  (forall ns' fl', let m' := set_usage (active_memory m - sz) (max_ever_usedmem m) (set_mnodes ns' m) in
     keeps (first_block m + joined_from bs1 sz) (a + (join_next sz bs2).1) (mnodes m) ns' ->
     heap_ok m' (released bs1 sz bs2) fl' -> Q tt m') ->
  wp (BigMemFree (a + 12)) Q m.
Proof.
  intros [H Hap Hact] a HQ. pose proof (core_block _ _ _ _ _ _ _ H) as (Hh & _ & Hsz & _). fold a in Hh.
  pose proof (core_used_bound _ _ _ _ H) as Hub. pose proof (used_total_released bs1 sz bs2) as Eu.
  pose proof (apart_released _ _ _ Hap) as Hap'.
  unfold BigMemFree. change SIZEOF_DYNAMICALLOCNODE_MEM with 12. rewrite Z.add_simpl_r. wp_step. get_hdr Hh. wp_steps.
  rewrite u32_small.
  2:{ rewrite Hact. rewrite used_total_app in *. cbn in *. pose proof (core_positive _ _ _ _ H) as [Hp1 Hp2]%positive_app.
      pose proof (used_total_bounds _ Hp1). assert (positive bs2) as Hp3%used_total_bounds by (intros ? ?; apply Hp2; set_solver). lia. }
  set (m1 := set_usage _ _ m). unfold plus at 1. wp_step. apply wp_ret. cbn beta.
  apply (wp_absorb_next m1 bs1 sz bs2 fl); [by apply core_usage|].
  intros ns2 fl2. unfold released, joined_from in *. destruct (join_next sz bs2) as [sz2 bs2'] eqn:En.
  intros Hk2 H2. eapply (wp_absorb_prev (set_mnodes ns2 m1)); [exact H2|]. intros ns3 fl3.
  assert ((join_prev bs1 sz2).1 = (join_prev bs1 sz).1) as E1 by (unfold join_prev; by destruct (last bs1) as [[? []]|]).
  assert (total (join_prev bs1 sz2).1 + (join_prev bs1 sz2).2 = total bs1 + sz2) as E2.
  { unfold join_prev. destruct (last bs1) as [[s1 [|]]|] eqn:El; [done| |done].
    apply last_Some in El as [bs1' ->]. rewrite removelast_last, total_app. cbn. lia. }
  assert (total (join_prev bs1 sz2).1 <= total bs1) as E3.
  { unfold join_prev. destruct (last bs1) as [[s1 [|]]|] eqn:El; [cbn; lia| |cbn; lia]. apply last_Some in El as [bs1' ->].
    rewrite removelast_last, total_app. pose proof (core_positive _ _ _ _ H (s1, false) ltac:(set_solver)). cbn in *. lia. }
  rewrite <- E1 in HQ. destruct (join_prev bs1 sz2) as [bs1' sz3]. cbn [fst snd] in *.
  change (first_block _) with (first_block m). intros Hk3 H3. apply (HQ ns3 fl3).
  - eapply keeps_trans; [eapply keeps_mono; [exact Hk2|subst a; change (first_block m1) with (first_block m); lia|done]|].
    eapply keeps_mono; [exact Hk3|lia|subst a; lia].
  - split; [exact H3|done|]. cbn. rewrite Eu. lia.
Qed.

End Heap.
