(* ===== verification/SmallMem.v ===== *)
(** * The heap with its small segments

    A segment is a block in use that is divided into items of equal size; the free
    ones form a singly linked list.  [heap_rep m D S]: the blocks [D] are in use
    by clients and the segments are in the states [S]; [heap_holds m L]: the
    memory that clients hold, as addresses with sizes, is [L]. *)

From S2P Require Import Prelude Kernel ByteMemory HeapList HeapLayout Heap.

(** What the linker and Kconfig guarantee. *)
Class MemConfigOk `{C : KConfig} `{MC : MemConfig} : Prop := {
  mc_align : 0 < MEM_ALIGN_SIZE;
  mc_least : KERNEL_SMALL_MEM_ALLOC = true \/ 8 <= MEM_ALIGN_SIZE;
  mc_32 : 0 < SMALL_NUMBER_32B;
  mc_64 : 0 < SMALL_NUMBER_64B;
  mc_segments : segment_address false <> segment_address true;
}.

Section SmallMem.
Context `{C : KConfig} `{MC : MemConfig} {MO : MemConfigOk}.
Implicit Types (ns : gmap addr mnode) (m : ByteMemory) (a x y z sz : Z) (big used : bool).
Implicit Types (bs : list block) (F : list Z) (fl : list addr) (D : list (Z * Z)).

(** ** Blocks in use *)

Fixpoint used_addrs a bs : list (Z * Z) :=
  match bs with
  | [] => []
  | b :: bs => (if b.2 then [(a, b.1)] else []) ++ used_addrs (a + b.1) bs
  end.

Lemma used_addrs_app a bs1 bs2 : used_addrs a (bs1 ++ bs2) = used_addrs a bs1 ++ used_addrs (a + total bs1) bs2.
Proof.
  revert a. induction bs1 as [|b bs1 IH]; intros a; cbn; [by rewrite Z.add_0_r|].
  rewrite IH, app_assoc. do 2 f_equal. lia.
Qed.

Lemma used_addrs_range a bs x z : positive bs -> (x, z) ∈ used_addrs a bs -> a <= x /\ 0 < z /\ x + z <= a + total bs.
Proof.
  intros Hp. revert a. induction bs as [|[sz used] bs IH]; intros a Hx; cbn in Hx; [by apply not_elem_of_nil in Hx|].
  assert (positive bs) as Hp' by (intros ? ?; apply Hp; set_solver).
  pose proof (Hp (sz, used) ltac:(set_solver)) as Hsz. cbn in Hsz. pose proof (total_nonneg _ Hp'). cbn [total fst].
  apply elem_of_app in Hx as [Hx|Hx].
  - destruct used; [|by apply not_elem_of_nil in Hx]. apply list_elem_of_singleton in Hx as [= -> ->]. lia.
  - apply (IH Hp') in Hx. lia.
Qed.

Definition disjoint_from (p q : Z * Z) : Prop := p.1 + p.2 <= q.1 \/ q.1 + q.2 <= p.1.

(** No block occurs twice, and no two of them overlap. *)
Definition separate (l : list (Z * Z)) : Prop :=
  NoDup l /\ forall p q, p ∈ l -> q ∈ l -> p = q \/ disjoint_from p q.

Lemma separate_perm l1 l2 : l1 ≡ₚ l2 -> separate l1 -> separate l2.
Proof. intros E [H1 H2]. split; [by rewrite <- E|]. intros p q. rewrite <- !E. apply H2. Qed.

Lemma separate_app_inv l1 l2 p q : separate (l1 ++ l2) -> p ∈ l1 -> q ∈ l2 -> disjoint_from p q.
Proof.
  intros [Hnd Hd] Hp Hq. destruct (Hd p q) as [->|]; [set_solver|set_solver| |done].
  apply NoDup_app in Hnd as (_ & Hnd & _). by destruct (Hnd q).
Qed.

Lemma used_addrs_separate a bs : positive bs -> separate (used_addrs a bs).
Proof.
  intros Hp. revert a. induction bs as [|[sz used] bs IH]; intros a; [split; [constructor|set_solver]|].
  assert (positive bs) as Hp' by (intros ? ?; apply Hp; set_solver).
  pose proof (Hp (sz, used) ltac:(set_solver)) as Hsz. cbn in Hsz. destruct (IH Hp' (a + sz)) as [Hnd Hd].
  cbn [used_addrs fst snd]. destruct used; [|done]. cbn [app].
  assert (forall q, q ∈ used_addrs (a + sz) bs -> a + sz <= q.1) as Hge.
  { intros [x z] Hq%used_addrs_range; [cbn; lia|done]. }
  split.
  - apply NoDup_cons. split; [|done]. intros Hin%Hge. cbn in Hin. lia.
  - unfold disjoint_from in *. intros p q [->|Hp1]%elem_of_cons [->|Hq1]%elem_of_cons; [by left| | |by apply Hd].
    + apply Hge in Hq1. right. left. cbn. lia.
    + apply Hge in Hp1. right. right. cbn. lia.
Qed.

Lemma elem_of_used_addrs a bs x z :
  (x, z) ∈ used_addrs a bs -> exists bs1 bs2, bs = bs1 ++ (z, true) :: bs2 /\ x = a + total bs1.
Proof.
  revert a. induction bs as [|[sz used] bs IH]; intros a Hx; cbn in Hx; [by apply not_elem_of_nil in Hx|].
  apply elem_of_app in Hx as [Hx|(bs1 & bs2 & -> & ->)%IH].
  - destruct used; [|by apply not_elem_of_nil in Hx]. apply list_elem_of_singleton in Hx as [= -> ->].
    exists [], bs. split; [done|cbn; lia].
  - exists ((sz, used) :: bs1), bs2. split; [done|cbn; lia].
Qed.

Lemma used_addrs_carve a bs1 sz n bs2 :
  used_addrs a (carve bs1 sz n bs2) ≡ₚ (a + total bs1, kept sz n) :: used_addrs a (bs1 ++ (sz, false) :: bs2).
Proof.
  unfold carve. rewrite !used_addrs_app. cbn [used_addrs fst snd app]. rewrite used_addrs_app.
  assert (used_addrs (a + total bs1 + kept sz n) (cut sz n) = []) as -> by (unfold cut; case_match; done).
  assert (a + total bs1 + kept sz n + total (cut sz n) = a + total bs1 + sz) as -> by (unfold kept, cut; case_match; cbn; lia).
  cbn. by rewrite <- Permutation_middle.
Qed.

Lemma used_addrs_join_next a sz bs2 :
  used_addrs (a + (join_next sz bs2).1) (join_next sz bs2).2 = used_addrs (a + sz) bs2.
Proof. destruct bs2 as [|[s2 [|]] bs2]; [done|done|]. cbn. by rewrite Z.add_assoc. Qed.

Lemma used_addrs_join_prev a bs1 sz :
  used_addrs a (join_prev bs1 sz).1 = used_addrs a bs1 /\
  total (join_prev bs1 sz).1 + (join_prev bs1 sz).2 = total bs1 + sz.
Proof.
  unfold join_prev. destruct bs1 as [|[s1 u1] bs1 _] using rev_ind; [done|]. rewrite last_snoc. destruct u1; [done|].
  rewrite removelast_last, used_addrs_app, total_app. cbn. rewrite app_nil_r. split; [done|lia].
Qed.

Lemma used_addrs_released a bs1 sz bs2 :
  used_addrs a (bs1 ++ (sz, true) :: bs2) ≡ₚ (a + total bs1, sz) :: used_addrs a (released bs1 sz bs2).
Proof.
  unfold released. pose proof (used_addrs_join_next (a + total bs1) sz bs2) as E. destruct (join_next sz bs2) as [sz' bs2'].
  pose proof (used_addrs_join_prev a bs1 sz') as [E1 E2]. destruct (join_prev bs1 sz') as [bs1' sz'']. cbn [fst snd] in *.
  rewrite !used_addrs_app, E1. cbn [used_addrs fst snd app]. rewrite <- E.
  replace (a + total bs1' + sz'') with (a + total bs1 + sz') by lia. by rewrite <- Permutation_middle.
Qed.

Lemma used_addrs_outside a bs1 sz bs2 x z :
  positive (bs1 ++ (sz, false) :: bs2) -> (x, z) ∈ used_addrs a (bs1 ++ (sz, false) :: bs2) ->
  x + z <= a + total bs1 \/ a + total bs1 + sz <= x.
Proof.
  intros [Hp1 Hp2]%positive_app. assert (positive bs2) as Hp3 by (intros ? ?; apply Hp2; set_solver).
  rewrite used_addrs_app, elem_of_app. cbn. intros [Hx|Hx]; [left|right]; apply used_addrs_range in Hx; (done || lia).
Qed.

Lemma positive_released bs1 sz bs2 : positive (bs1 ++ (sz, true) :: bs2) -> positive (released bs1 sz bs2).
Proof.
  intros Hp b Hb. unfold released, join_next, join_prev in Hb.
  destruct bs2 as [|[s2 [|]] bs2]; destruct bs1 as [|[s1 [|]] bs1 _] using rev_ind;
    rewrite ?last_snoc, ?removelast_last in Hb; apply elem_of_middle in Hb as [->|Hb]; cbn;
    repeat match goal with
    | |- 0 < ?s1 + (sz + ?s2) =>
        pose proof (Hp (s1, false) ltac:(set_solver)); pose proof (Hp (s2, false) ltac:(set_solver));
        pose proof (Hp (sz, true) ltac:(set_solver)); cbn in *; lia
    | |- 0 < sz + ?s2 =>
        pose proof (Hp (s2, false) ltac:(set_solver)); pose proof (Hp (sz, true) ltac:(set_solver)); cbn in *; lia
    | |- 0 < ?s1 + sz =>
        pose proof (Hp (s1, false) ltac:(set_solver)); pose proof (Hp (sz, true) ltac:(set_solver)); cbn in *; lia
    | |- 0 < sz => apply (Hp (sz, true)); set_solver
    | |- _ => apply Hp; set_solver
    end.
Qed.

Lemma released_outside a bs1 sz bs2 x z :
  positive (bs1 ++ (sz, true) :: bs2) -> (x, z) ∈ used_addrs a (released bs1 sz bs2) ->
  x + z <= a + joined_from bs1 sz \/ a + total bs1 + (join_next sz bs2).1 <= x.
Proof.
  intros Hp%positive_released Hx. unfold released, joined_from in *. destruct (join_next sz bs2) as [sz' bs2'].
  pose proof (used_addrs_join_prev a bs1 sz') as [_ E].
  assert ((join_prev bs1 sz').1 = (join_prev bs1 sz).1) as E1 by (unfold join_prev; by destruct (last bs1) as [[? []]|]).
  rewrite <- E1. destruct (join_prev bs1 sz') as [bs1' sz'']. cbn [fst snd] in *.
  apply used_addrs_outside in Hx; [|done]. lia.
Qed.

(** ** Segments *)

Record seg_state : Type := mkSeg { sg_block : option (Z * Z); sg_free : list Z; sg_live : list Z }.
Implicit Types (g : seg_state) (S : bool -> seg_state).

(** The item list from the pointer [v] on. *)
Fixpoint chain ns (v : Z) (l : list Z) : Prop :=
  match l with
  | [] => v = 0
  | y :: l => v = y /\ exists w p, hdr ns (At y) = Some (w, p, STATIC_BLOCK_MASK) /\ chain ns w l
  end.

Definition item_step big : Z := small_item big + SIZEOF_DYNAMICALLOCNODE_MEM.
Ltac item_lia := unfold item_step, small_item, SIZEOF_32B, SIZEOF_64B in *; heap_lia.
Definition items big (base : Z) : list Z := (fun k => base + k * item_step big) <$> seqZ 0 (small_number big).

Record seg_rep m big g : Prop := {
  sr_count : block_free_count (get_segment big m) = Z.of_nat (length (sg_free g));
  sr_live : forall y, y ∈ sg_live g -> exists p, hdr (mnodes m) (At y) = Some (segment_address big, p, STATIC_BLOCK_MASK);
  sr_items : match sg_block g with
             | None => sg_free g = [] /\ sg_live g = []
             | Some (x, z) => KERNEL_SMALL_MEM_ALLOC = true /\ small_size big + SIZEOF_DYNAMICALLOCNODE_MEM <= z /\
                 block_total_count (get_segment big m) = small_number big /\
                 chain (mnodes m) (freelist (get_segment big m)) (sg_free g) /\
                 sg_free g ++ sg_live g ≡ₚ items big (x + SIZEOF_DYNAMICALLOCNODE_MEM)
             end;
}.

Definition seg_blocks S : list (Z * Z) := option_list (sg_block (S false)) ++ option_list (sg_block (S true)).

Record heap_rep m D S : Prop := {
  hr_heap : exists bs fl, heap_ok m bs fl /\ used_addrs (first_block m) bs ≡ₚ D ++ seg_blocks S;
  hr_segs : forall big, seg_rep m big (S big);
  hr_start : MEM_ALIGN_SIZE + SIZEOF_DYNAMICALLOCNODE_MEM <= mm_dynamic_start m;
}.

(** Address and size of what clients hold. *)
Definition block_data (p : Z * Z) : Z * Z := (p.1 + SIZEOF_DYNAMICALLOCNODE_MEM, p.2 - SIZEOF_DYNAMICALLOCNODE_MEM).
Definition item_data big y : Z * Z := (y + SIZEOF_DYNAMICALLOCNODE_MEM, small_item big).
Definition held D S : list (Z * Z) :=
  (block_data <$> D) ++ (item_data false <$> sg_live (S false)) ++ (item_data true <$> sg_live (S true)).
Definition heap_holds m (L : list (Z * Z)) : Prop := exists D S, heap_rep m D S /\ L ≡ₚ held D S.

Lemma elem_of_items big base y : y ∈ items big base ->
  base <= y /\ y + item_step big <= base + small_size big.
Proof.
  unfold items. rewrite list_elem_of_fmap. intros (k & -> & Hk%elem_of_seqZ).
  unfold small_size, item_step, small_item, SIZEOF_DYNAMICALLOCNODE_MEM, SIZEOF_32B, SIZEOF_64B.
  generalize dependent (small_number big). intros n Hk. destruct big; lia.
Qed.

Lemma item_chain_frame ns ns' v l : (forall y, y ∈ l -> hdr ns' (At y) = hdr ns (At y)) -> chain ns v l -> chain ns' v l.
Proof.
  revert v. induction l as [|y l IH]; intros v Hf; [done|]. intros (-> & w & p & Hh & Hc). split; [done|].
  exists w, p. rewrite Hf by set_solver. split; [done|]. apply IH; [|done]. intros z Hz. apply Hf. set_solver.
Qed.

(** The items of a segment are inside of its block. *)
Lemma seg_item m big g y : seg_rep m big g -> y ∈ sg_free g ++ sg_live g ->
  exists x z, sg_block g = Some (x, z) /\ x + 12 <= y /\ y + item_step big <= x + z.
Proof.
  intros H Hy. pose proof (sr_items _ _ _ H) as Hi. destruct (sg_block g) as [[x z]|].
  - destruct Hi as (_ & Hz & _ & _ & Hperm). rewrite Hperm in Hy. apply elem_of_items in Hy.
    exists x, z. unfold SIZEOF_DYNAMICALLOCNODE_MEM in *. split; [done|lia].
  - destruct Hi as [E1 E2]. rewrite E1, E2 in Hy. by apply not_elem_of_nil in Hy.
Qed.

Lemma seg_rep_frame m m' big g :
  seg_rep m big g -> get_segment big m' = get_segment big m ->
  (forall y, y ∈ sg_free g ++ sg_live g -> hdr (mnodes m') (At y) = hdr (mnodes m) (At y)) -> seg_rep m' big g.
Proof.
  intros [Hc Hl Hi] E Hf. split; rewrite ?E.
  - done.
  - intros y Hy. rewrite Hf by set_solver. by apply Hl.
  - destruct (sg_block g) as [[x z]|]; [|done]. destruct Hi as (? & ? & ? & Hch' & ?). split_and!; try done.
    eapply item_chain_frame; [|exact Hch']. intros y Hy. apply Hf. set_solver.
Qed.

(** ** Blocks of [heap_rep] *)

Lemma seg_block_in S big p : sg_block (S big) = Some p -> p ∈ seg_blocks S.
Proof. intros E. unfold seg_blocks. destruct big; rewrite E; cbn; set_solver. Qed.

Lemma hdr_used m bs fl x z : heap_ok m bs fl -> (x, z) ∈ used_addrs (first_block m) bs ->
  (exists p, hdr (mnodes m) (At x) = Some (z, p, DYNAMIC_BLOCK_MASK)) /\
  dynamic_buddy_start m + 12 <= x /\ 20 <= z /\ x + z + 12 <= dynamic_buddy_end m.
Proof.
  intros [H _ _] (bs1 & bs2 & -> & ->)%elem_of_used_addrs. destruct (core_block _ _ _ _ _ _ _ H) as (Hh & _ & Hsz & Hb & He).
  split_and!; [by eexists|done|done|done].
Qed.

Lemma rep_separate m D S : heap_rep m D S -> separate (D ++ seg_blocks S).
Proof.
  intros [(bs & fl & H & E) _ _]. eapply separate_perm; [exact E|]. eapply used_addrs_separate, core_positive, H.
Qed.

(** The segments keep their state when only headers outside of their blocks change. *)
Lemma segs_frame m m' D S :
  heap_rep m D S -> (forall big, get_segment big m' = get_segment big m) ->
  (forall y x z, (x, z) ∈ seg_blocks S -> x < y < x + z -> hdr (mnodes m') (At y) = hdr (mnodes m) (At y)) ->
  forall big, seg_rep m' big (S big).
Proof.
  intros H E Hf big. eapply seg_rep_frame; [apply (hr_segs _ _ _ H)|done|]. intros y Hy.
  destruct (seg_item _ _ _ _ (hr_segs _ _ _ H big) Hy) as (x & z & Ex & H1 & H2).
  apply (Hf y x z); [by eapply seg_block_in|]. unfold item_step, small_item, SIZEOF_32B, SIZEOF_64B in *. destruct big; heap_lia.
Qed.

Definition same_bounds m m' : Prop := mm_dynamic_start m' = mm_dynamic_start m /\ mm_dynamic_end m' = mm_dynamic_end m.

Lemma rep_big_malloc m D S size (Q : option Z -> ByteMemory -> Prop) :
  heap_rep m D S -> 8 <= size -> size + 12 < 2 ^ 32 -> Q None m ->
  (forall m' a z, size + 12 <= z -> heap_rep m' ((a, z) :: D) S -> mm_dynamic_start m' < a < mm_dynamic_end m' ->
     Q (Some (a + 12)) m') ->
  wp (BigMemMalloc size DYNAMIC_BLOCK_MASK) Q m.
Proof.
  intros H Hs1 Hs2 Hnone Hsome. pose proof H as [(bs & fl & Hok & E) _ Hst].
  eapply wp_BigMemMalloc; [exact Hok|done|done|done|]. intros bs1 sz bs2 ns' fl' a m' -> Hbest Hlt Hk Hok'.
  pose proof (core_positive _ _ _ _ (ho_core _ _ _ Hok)) as Hp.
  assert (size + 12 <= kept sz (size + 12)) as Hkept by (unfold kept; case_match; lia).
  pose proof (used_addrs_carve (first_block m) bs1 sz (size + 12) bs2) as Ec. fold a in Ec.
  apply (Hsome m' a (kept sz (size + 12))); [done| |].
  - split; [| |exact Hst].
    + exists (carve bs1 sz (size + 12) bs2), fl'. split; [done|]. change (first_block m') with (first_block m). by rewrite Ec, E.
    + eapply segs_frame; [exact H|done|]. intros y x z Hx Hy. apply Hk.
      assert ((x, z) ∈ used_addrs (first_block m) (bs1 ++ (sz, false) :: bs2)) as Hin by (rewrite E; set_solver).
      apply used_addrs_outside in Hin; [|done]. fold a in Hin. lia.
  - destruct (hdr_used m' _ _ a (kept sz (size + 12)) Hok') as (_ & H1 & H2 & H3).
    { change (first_block m') with (first_block m). rewrite Ec. set_solver. }
    pose proof (hc_mm_start _ _ _ _ (ho_core _ _ _ Hok')). pose proof (hc_mm_end _ _ _ _ (ho_core _ _ _ Hok')). heap_lia.
Qed.

Lemma rep_big_free m a z D S (Q : unit -> ByteMemory -> Prop) :
  heap_rep m ((a, z) :: D) S -> (forall m', heap_rep m' D S -> Q tt m') -> wp (BigMemFree (a + 12)) Q m.
Proof.
  intros H HQ. pose proof H as [(bs & fl & Hok & E) _ Hst].
  assert ((a, z) ∈ used_addrs (first_block m) bs) as (bs1 & bs2 & -> & ->)%elem_of_used_addrs by (rewrite E; set_solver).
  pose proof (core_positive _ _ _ _ (ho_core _ _ _ Hok)) as Hp.
  eapply wp_BigMemFree; [exact Hok|]. intros ns' fl' m' Hk Hok'. apply HQ.
  rewrite used_addrs_released in E. apply Permutation_cons_inv in E. split; [| |exact Hst].
  - by exists (released bs1 z bs2), fl'.
  - eapply segs_frame; [exact H|done|]. intros y x z' Hx Hy. apply Hk.
    assert ((x, z') ∈ used_addrs (first_block m) (released bs1 z bs2)) as Hin by (rewrite E; set_solver).
    apply released_outside in Hin; [|done]. lia.
Qed.

(** ** Items *)

(** Writing inside of a block in use. *)
Lemma ok_inside m ns' bs fl x z : heap_ok m bs fl -> (x, z) ∈ used_addrs (first_block m) bs ->
  same_links (mnodes m) ns' -> (forall i, hdr ns' (Head i) = hdr (mnodes m) (Head i)) ->
  (forall y, y <= x \/ x + z <= y -> hdr ns' (At y) = hdr (mnodes m) (At y)) -> heap_ok (set_mnodes ns' m) bs fl.
Proof.
  intros [H Hap Hact] (bs1 & bs2 & -> & ->)%elem_of_used_addrs Hl Hheads Hout. split; [|done|done].
  destruct (core_block _ _ _ _ _ _ _ H) as (Hh & Hn & Hsz & _).
  change (first_block (set_mnodes ns' m)) with (first_block m).
  eapply (core_replace m ns' bs1 [(z, true)] [(z, true)] bs2); [exact H|done|done| |done|done| | | |].
  - intros b ->%list_elem_of_singleton. heap_lia.
  - intros y Hy. cbn in Hy. apply Hout. lia.
  - split; [|done]. rewrite Hout by lia. exact Hh.
  - cbn [total fst]. rewrite Z.add_0_r, Hout by lia. exact Hn.
  - intros w _ Hin. by apply not_elem_of_nil in Hin.
Qed.

Lemma ok_segment m bs fl big v : heap_ok m bs fl -> heap_ok (set_segment big v m) bs fl.
Proof. intros [H Hap Hact]. split; [|done|done]. split; apply H. Qed.

Lemma get_set_segment big big' v m :
  get_segment big' (set_segment big v m) = if Bool.eqb big' big then v else get_segment big' m.
Proof. by destruct big, big'. Qed.

Definition seg_update (big : bool) g S : bool -> seg_state := fun b => if Bool.eqb b big then g else S b.

Lemma seg_blocks_update S big g : sg_block g = sg_block (S big) -> seg_blocks (seg_update big g S) = seg_blocks S.
Proof. intros E. unfold seg_blocks, seg_update. destruct big; cbn; by rewrite E. Qed.

Lemma items_nodup big base : NoDup (items big base).
Proof.
  unfold items. apply NoDup_fmap_2; [|apply NoDup_seqZ]. intros i j. destruct big; item_lia.
Qed.

Lemma seg_nodup m big g : seg_rep m big g -> NoDup (sg_free g ++ sg_live g).
Proof.
  intros H. pose proof (sr_items _ _ _ H) as Hi. destruct (sg_block g) as [[x z]|].
  - destruct Hi as (_ & _ & _ & _ & ->). apply items_nodup.
  - destruct Hi as [-> ->]. constructor.
Qed.

(** Items of the two segments are different. *)
Lemma items_apart m D S y : heap_rep m D S ->
  y ∈ sg_free (S false) ++ sg_live (S false) -> y ∈ sg_free (S true) ++ sg_live (S true) -> False.
Proof.
  intros H H1 H2. destruct (seg_item _ _ _ _ (hr_segs _ _ _ H false) H1) as (x1 & z1 & E1 & ? & ?).
  destruct (seg_item _ _ _ _ (hr_segs _ _ _ H true) H2) as (x2 & z2 & E2 & ? & ?).
  destruct (rep_separate _ _ _ H) as [Hnd Hd]. apply NoDup_app in Hnd as (_ & _ & Hnd).
  assert (separate (seg_blocks S)) as Hsep by (split; [done|intros p q Hp Hq; apply Hd; set_solver]).
  unfold seg_blocks in Hsep. apply (separate_app_inv _ _ (x1, z1) (x2, z2)) in Hsep; [|rewrite E1; cbn; set_solver|rewrite E2; cbn; set_solver].
  unfold disjoint_from in *. item_lia.
Qed.

(** A segment operation: one header [y] and the segment record change. *)
Lemma rep_item m D S big y h ns' v g :
  heap_rep m D S -> y ∈ sg_free (S big) ++ sg_live (S big) -> hdr_set (mnodes m) ns' (At y) h ->
  sg_block g = sg_block (S big) -> seg_rep (set_mnodes ns' (set_segment big v m)) big g ->
  heap_rep (set_mnodes ns' (set_segment big v m)) D (seg_update big g S).
Proof.
  intros H Hy Hset Eg Hg. pose proof H as [(bs & fl & Hok & E) Hsegs Hst]. split; [| |exact Hst].
  - exists bs, fl. rewrite seg_blocks_update by done. split; [|done].
    destruct (seg_item _ _ _ _ (Hsegs big) Hy) as (x & z & Ex & H1 & H2).
    change (set_mnodes ns' (set_segment big v m)) with (set_segment big v (set_mnodes ns' m)).
    apply ok_segment. eapply (ok_inside m ns' bs fl x z); [done| |apply Hset| |].
    + rewrite E. apply elem_of_app. right. by eapply seg_block_in.
    + intros i. by apply (hdr_set_ne _ _ _ _ _ Hset).
    + intros w Hw. apply (hdr_set_ne _ _ _ _ _ Hset). intros [= ->]. destruct big; item_lia.
  - intros b. unfold seg_update. destruct (Bool.eqb b big) eqn:Eb; [by apply eqb_prop in Eb as ->|].
    apply eqb_false_iff in Eb. eapply seg_rep_frame; [apply Hsegs|by destruct b, big|]. intros w Hw.
    apply (hdr_set_ne _ _ _ _ _ Hset). intros [= ->].
    destruct b, big; first [done|by apply (items_apart _ _ _ y H)].
Qed.

Lemma rep_item_hdr m D S big y : heap_rep m D S -> y ∈ sg_live (S big) ->
  exists p, hdr (mnodes m) (At y) = Some (segment_address big, p, STATIC_BLOCK_MASK).
Proof. intros H. apply (sr_live _ _ _ (hr_segs _ _ _ H big)). Qed.

(** An item lies in the region. *)
Lemma rep_item_range m D S big y : heap_rep m D S -> y ∈ sg_free (S big) ++ sg_live (S big) ->
  mm_dynamic_start m < y /\ y + item_step big <= mm_dynamic_end m /\ 0 < mm_dynamic_start m.
Proof.
  intros H Hy. destruct (seg_item _ _ _ _ (hr_segs _ _ _ H big) Hy) as (x & z & Ex & H1 & H2).
  pose proof (hr_heap _ _ _ H) as (bs & fl & Hok & E).
  destruct (hdr_used m bs fl x z Hok) as (_ & H3 & H4 & H5); [rewrite E; apply elem_of_app; right; by eapply seg_block_in|].
  pose proof (hc_mm_start _ _ _ _ (ho_core _ _ _ Hok)). pose proof (hc_mm_end _ _ _ _ (ho_core _ _ _ Hok)).
  pose proof (hc_start _ _ _ _ (ho_core _ _ _ Hok)). destruct big; item_lia.
Qed.

(** ** Allocation *)

Lemma chain_cons ns v y l : chain ns v (y :: l) -> v = y /\ exists w p, hdr ns (At y) = Some (w, p, STATIC_BLOCK_MASK) /\ chain ns w l.
Proof. done. Qed.

Lemma held_live D S big o y fr :
  held D (seg_update big (mkSeg o fr (y :: sg_live (S big))) S) ≡ₚ item_data big y :: held D S.
Proof.
  unfold held, seg_update. destruct big; cbn.
  - rewrite !app_assoc. by rewrite <- Permutation_middle.
  - by rewrite <- Permutation_middle.
Qed.

Lemma seg_rep_take m ns' big g y fr v :
  seg_rep m big g -> sg_free g = y :: fr -> hdr_set (mnodes m) ns' (At y) (segment_address big, v.2, STATIC_BLOCK_MASK) ->
  hdr (mnodes m) (At y) = Some (v, STATIC_BLOCK_MASK) ->
  let s := get_segment big m in
  seg_rep (set_mnodes ns' (set_segment big (mkSegment (block_size s) v.1 (block_total_count s) (block_free_count s - 1)) m))
    big (mkSeg (sg_block g) fr (y :: sg_live g)).
Proof.
  intros H Ef Hset Hh s. pose proof (seg_nodup _ _ _ H) as Hnd. rewrite Ef in Hnd. cbn in Hnd. apply NoDup_cons in Hnd as [Hni Hnd].
  assert (get_segment big (set_mnodes ns' (set_segment big (mkSegment (block_size s) v.1 (block_total_count s) (block_free_count s - 1)) m)) =
    mkSegment (block_size s) v.1 (block_total_count s) (block_free_count s - 1)) as Eg by by destruct big.
  destruct H as [Hc Hl Hi]. rewrite Ef in *. split; rewrite ?Eg; cbn [sg_free sg_live sg_block block_free_count freelist block_total_count mnodes set_mnodes].
  - subst s. rewrite Hc. cbn [length]. lia.
  - intros z [->|Hz]%elem_of_cons; [exists v.2; apply (hdr_set_eq _ _ _ _ Hset)|].
    destruct (Hl z Hz) as [p Hp]. exists p. rewrite (hdr_set_ne _ _ _ _ _ Hset); [done|]. intros [= ->]. set_solver.
  - destruct (sg_block g) as [[x z]|]; [|by destruct Hi]. destruct Hi as (H1 & H2 & H3 & Hch & Hperm). split_and!; [done|done|done| |].
    + apply chain_cons in Hch as (Ev & w & p & Hh' & Hch). rewrite Hh in Hh'. injection Hh' as ->. eapply item_chain_frame; [|exact Hch].
      intros z' Hz'. apply (hdr_set_ne _ _ _ _ _ Hset). intros [= ->]. set_solver.
    + rewrite <- Hperm. cbn. by rewrite Permutation_middle.
Qed.

Lemma wp_SmallMemMalloc m D S big (Q : option Z -> ByteMemory -> Prop) :
  heap_rep m D S -> Q None m ->
  (forall m' D' S' p u, heap_rep m' D' S' -> held D' S' ≡ₚ (p, u) :: held D S -> small_item big <= u -> Q (Some p) m') ->
  wp (SmallMemMalloc (small_item big)) Q m.
Proof.
  intros H Hnone Hsome. unfold SmallMemMalloc.
  assert (negb (small_item big =? SIZEOF_32B) = big) as -> by by destruct big.
  assert (forall Q', Q' None m -> (forall m' a z, small_item big + 12 <= z -> heap_rep m' ((a, z) :: D) S -> Q' (Some (a + 12)) m') ->
    wp (BigMemMalloc (small_item big) DYNAMIC_BLOCK_MASK) Q' m) as Hbig.
  { intros Q' H1 H2. eapply rep_big_malloc; [exact H|destruct big; item_lia|destruct big; item_lia|done|].
    intros m' a z Hz Hr _. by eapply H2. }
  pose proof (hr_segs _ _ _ H big) as Hseg. pose proof (sr_count _ _ _ Hseg) as Hc. unfold seg_get. wp_steps. rewrite Hc.
  destruct (sg_free (S big)) as [|y fr] eqn:Ef.
  { cbn [length Z.of_nat Z.ltb Z.compare]. apply Hbig; [done|]. intros m' a z Hz Hr.
    eapply (Hsome m' _ _ (a + 12) (z - 12)); [exact Hr|reflexivity|lia]. }
  rewrite (proj2 (Z.ltb_lt _ _)) by (cbn [length]; lia).
  assert (y ∈ sg_free (S big) ++ sg_live (S big)) as Hy by (rewrite Ef; set_solver).
  destruct (rep_item_range _ _ _ _ _ H Hy) as (Hr1 & _ & Hr2). pose proof (sr_items _ _ _ Hseg) as Hi.
  destruct (sg_block (S big)) as [[x z]|] eqn:Eb; [|destruct Hi as [Hi _]; by rewrite Hi in Ef].
  destruct Hi as (_ & _ & _ & Hch & _). rewrite Ef in Hch. apply chain_cons in Hch as (Ey & w & p & Hh & _).
  wp_steps. rewrite Ey. set_hdr Hh (w, p, STATIC_BLOCK_MASK). intros ns1 Hs1. wp_steps.
  pose proof (hdr_set_eq _ _ _ _ Hs1) as Hh1. get_hdr Hh1. unfold seg_set. wp_steps.
  eapply (wp_set_hdr _ _ _ (w, p, STATIC_BLOCK_MASK) (segment_address big, p, STATIC_BLOCK_MASK));
    [exact Hh1|done|intros ? [= ? ? ?]; cbn; congruence|].
  cbn [mnodes set_mnodes set_segment]. intros ns2 Hs2. rewrite (proj2 (Z.eqb_neq y 0)) by lia. wp_steps.
  assert (hdr_set (mnodes m) ns2 (At y) (segment_address big, p, STATIC_BLOCK_MASK)) as Hs.
  { split; [eapply same_links_trans; [apply Hs1|apply Hs2]|]. intros q. rewrite (proj2 Hs2), (proj2 Hs1). by case_decide. }
  pose proof (seg_rep_take m ns2 big (S big) y fr (w, p) Hseg Ef Hs Hh) as Hseg'.
  pose proof (rep_item m D S big y _ ns2 _ (mkSeg (sg_block (S big)) fr (y :: sg_live (S big))) H Hy Hs eq_refl Hseg') as Hrep.
  eapply (Hsome _ D _ (y + 12) (small_item big)); [|by apply held_live|done]. rewrite Eb in Hrep. exact Hrep.
Qed.

(** ** Release *)

Lemma seg_rep_release m ns' big g y l1 l2 :
  seg_rep m big g -> sg_live g = l1 ++ y :: l2 ->
  (exists p, hdr_set (mnodes m) ns' (At y) (freelist (get_segment big m), p, STATIC_BLOCK_MASK)) ->
  let s := get_segment big m in
  seg_rep (set_mnodes ns' (set_segment big (mkSegment (block_size s) y (block_total_count s) (block_free_count s + 1)) m))
    big (mkSeg (sg_block g) (y :: sg_free g) (l1 ++ l2)) /\
  block_free_count s + 1 <= block_total_count s.
Proof.
  intros H El [p Hset] s. pose proof (seg_nodup _ _ _ H) as Hnd. rewrite El, app_assoc in Hnd.
  apply NoDup_middle in Hnd as [Hni Hnd]. rewrite <- app_assoc in Hni.
  assert (get_segment big (set_mnodes ns' (set_segment big (mkSegment (block_size s) y (block_total_count s) (block_free_count s + 1)) m)) =
    mkSegment (block_size s) y (block_total_count s) (block_free_count s + 1)) as Eg by by destruct big.
  destruct H as [Hc Hl Hi]. rewrite El in *. destruct (sg_block g) as [[x z]|]; [|destruct Hi as [_ Hi]; by destruct l1].
  destruct Hi as (H1 & H2 & H3 & Hch & Hperm). split.
  - split; rewrite ?Eg; cbn [sg_free sg_live sg_block block_free_count freelist block_total_count mnodes set_mnodes].
    + subst s. rewrite Hc. cbn [length]. lia.
    + intros w Hw. destruct (Hl w ltac:(set_solver)) as [q Hq]. exists q. rewrite (hdr_set_ne _ _ _ _ _ Hset); [done|].
      intros [= ->]. set_solver.
    + split_and!; [done|done|done| |].
      * split; [done|]. exists (freelist (get_segment big m)), p. split; [apply (hdr_set_eq _ _ _ _ Hset)|].
        eapply item_chain_frame; [|exact Hch]. intros w Hw. apply (hdr_set_ne _ _ _ _ _ Hset). intros [= ->]. set_solver.
      * rewrite <- Hperm. cbn. rewrite <- (Permutation_middle l1 l2 y). by rewrite <- Permutation_middle.
  - subst s. rewrite Hc, H3. apply Permutation_length in Hperm. unfold items in Hperm.
    rewrite length_fmap, length_app, length_app, length_seqZ in Hperm. cbn [length] in Hperm. lia.
Qed.

Lemma held_release D S big o y l1 l2 fr : sg_live (S big) = l1 ++ y :: l2 ->
  held D S ≡ₚ item_data big y :: held D (seg_update big (mkSeg o fr (l1 ++ l2)) S).
Proof.
  intros E. unfold held, seg_update. destruct big; cbn; rewrite E, !fmap_app, fmap_cons.
  - rewrite <- (Permutation_middle (item_data true <$> l1)). rewrite !(app_assoc (block_data <$> D)). by rewrite <- Permutation_middle.
  - rewrite <- (Permutation_middle (item_data false <$> l1)). rewrite <- app_comm_cons. by rewrite <- Permutation_middle.
Qed.

Lemma wp_SmallMemFree m D S big y (Q : unit -> ByteMemory -> Prop) :
  heap_rep m D S -> y ∈ sg_live (S big) ->
  (forall m' S', heap_rep m' D S' -> held D S ≡ₚ item_data big y :: held D S' -> Q tt m') ->
  wp (SmallMemFree (y + 12)) Q m.
Proof.
  intros H Hy HQ. destruct (rep_item_hdr _ _ _ _ _ H Hy) as [p Hh]. pose proof (hr_segs _ _ _ H big) as Hseg.
  pose proof Hy as (l1 & l2 & El)%list_elem_of_split.
  unfold SmallMemFree, seg_get, seg_set. change SIZEOF_DYNAMICALLOCNODE_MEM with 12. rewrite Z.add_simpl_r.
  wp_step. get_hdr Hh. wp_step. apply (wp_deref _ _ _ big).
  { unfold segment_at. destruct big; [|by rewrite Z.eqb_refl]. pose proof mc_segments.
    rewrite (proj2 (Z.eqb_neq _ _)) by congruence. by rewrite Z.eqb_refl. }
  wp_steps. set_hdr Hh (freelist (get_segment big m), p, STATIC_BLOCK_MASK). intros ns1 Hs1.
  destruct (seg_rep_release m ns1 big (S big) y l1 l2 Hseg El (ex_intro _ p Hs1)) as [Hseg' Hle]. wp_steps.
  rewrite get_set_segment, eqb_reflx. cbn [block_free_count block_total_count].
  apply wp_check; [by apply Z.leb_le|].
  eapply (HQ _ (seg_update big (mkSeg (sg_block (S big)) (y :: sg_free (S big)) (l1 ++ l2)) S)); [|by apply held_release].
  exact (rep_item m D S big y _ ns1 _ (mkSeg (sg_block (S big)) (y :: sg_free (S big)) (l1 ++ l2)) H
    (proj2 (elem_of_app _ _ _) (or_intror Hy)) Hs1 eq_refl Hseg').
Qed.

(** ** The interface *)

Lemma align_up size : 0 < size -> size <= ALIGN_MEN_UP size MEM_ALIGN_SIZE /\ MEM_ALIGN_SIZE <= ALIGN_MEN_UP size MEM_ALIGN_SIZE /\
  ALIGN_MEN_UP size MEM_ALIGN_SIZE < size + MEM_ALIGN_SIZE.
Proof.
  pose proof mc_align. apply ALIGN_MEN_UP_bounds. lia.
Qed.

Lemma wp_malloc_locked m D S size (Q : option Z -> ByteMemory -> Prop) :
  heap_rep m D S -> KERNEL_SMALL_MEM_ALLOC = true \/ 8 <= size -> size + 12 < 2 ^ 32 -> Q None m ->
  (forall m' D' S' p u, heap_rep m' D' S' -> held D' S' ≡ₚ (p, u) :: held D S -> size <= u -> Q (Some p) m') ->
  wp (malloc_locked size) Q m.
Proof.
  intros H Hs1 Hs2 Hnone Hsome. unfold malloc_locked.
  destruct (KERNEL_SMALL_MEM_ALLOC && (size <=? SIZEOF_32B)) eqn:E1.
  { apply andb_prop in E1 as [_ E1]. apply Z.leb_le in E1. apply (wp_SmallMemMalloc m D S false); [done|done|].
    intros m' D' S' p u Hr Hp Hu. eapply Hsome; [done|done|cbn in Hu; lia]. }
  destruct (KERNEL_SMALL_MEM_ALLOC && (size <=? SIZEOF_64B)) eqn:E2.
  { apply andb_prop in E2 as [_ E2]. apply Z.leb_le in E2. apply (wp_SmallMemMalloc m D S true); [done|done|].
    intros m' D' S' p u Hr Hp Hu. eapply Hsome; [done|done|cbn in Hu; lia]. }
  assert (8 <= size) as Hs8.
  { destruct Hs1 as [HK|Hs1]; [|done]. rewrite HK in E2. apply Z.leb_gt in E2. unfold SIZEOF_64B in E2. lia. }
  wp_step. eapply rep_big_malloc; [exact H|done|done|by wp_steps|]. intros m' a z Hz Hr Hrange.
  unfold JudgeValidAddressRange. wp_steps. apply wp_check.
  { apply andb_true_intro. split; apply Z.ltb_lt; heap_lia. }
  wp_steps. eapply (Hsome m' _ _ (a + 12) (z - 12)); [exact Hr|reflexivity|lia].
Qed.

Lemma wp_free_locked m D S p u L (Q : unit -> ByteMemory -> Prop) :
  heap_rep m D S -> held D S ≡ₚ (p, u) :: L -> (forall m', heap_holds m' L -> Q tt m') -> wp (free_locked p) Q m.
Proof.
  intros H E HQ. assert ((p, u) ∈ held D S) as Hin by (rewrite E; set_solver). unfold free_locked.
  assert ((exists a z, p = a + 12 /\ u = z - 12 /\ (a, z) ∈ D) \/ exists big y, (p, u) = item_data big y /\ y ∈ sg_live (S big)) as Hcase.
  { unfold held in Hin. rewrite !elem_of_app, !list_elem_of_fmap in Hin. destruct Hin as [([a z] & [= -> ->] & Ha)|[(y & Ey & Hy)|(y & Ey & Hy)]].
    - left. by exists a, z.
    - right. by exists false, y.
    - right. by exists true, y. }
  change SIZEOF_DYNAMICALLOCNODE_MEM with 12. destruct Hcase as [(a & z & -> & -> & Ha)|(big & y & [= -> ->] & Hy)].
  - rewrite Z.add_simpl_r. pose proof (hr_heap _ _ _ H) as (bs & fl & Hok & Eb).
    destruct (hdr_used m bs fl a z Hok) as [[q Hh] _]; [rewrite Eb; set_solver|].
    wp_step. get_hdr Hh. change (Z.land DYNAMIC_BLOCK_MASK ALLOC_BLOCK_MASK =? 0) with false.
    change (Z.land DYNAMIC_BLOCK_MASK STATIC_BLOCK_MASK =? 0) with true. rewrite andb_false_r. wp_steps.
    apply list_elem_of_split in Ha as (D1 & D2 & ->).
    assert (heap_rep m ((a, z) :: D1 ++ D2) S) as H'.
    { destruct H as [_ Hs Hst]. split; [|done|done]. exists bs, fl. split; [done|]. rewrite Eb. by rewrite Permutation_middle. }
    eapply rep_big_free; [exact H'|]. intros m' Hr. apply HQ. exists (D1 ++ D2), S. split; [done|].
    apply (Permutation_cons_inv (a := (a + 12, z - 12))). rewrite <- E. unfold held. rewrite !fmap_app, fmap_cons.
    rewrite <- !app_assoc. cbn [app]. by rewrite <- Permutation_middle.
  - change SIZEOF_DYNAMICALLOCNODE_MEM with 12 in *. rewrite Z.add_simpl_r. destruct (rep_item_hdr _ _ _ _ _ H Hy) as [q Hh].
    wp_step. get_hdr Hh. change (Z.land STATIC_BLOCK_MASK ALLOC_BLOCK_MASK =? 0) with false.
    change (Z.land STATIC_BLOCK_MASK STATIC_BLOCK_MASK =? 0) with false.
    assert (KERNEL_SMALL_MEM_ALLOC = true) as ->.
    { pose proof (sr_items _ _ _ (hr_segs _ _ _ H big)) as Hi. destruct (sg_block (S big)) as [[? ?]|]; [apply Hi|].
      destruct Hi as [_ Hi]. rewrite Hi in Hy. by apply not_elem_of_nil in Hy. }
    cbn [negb andb]. wp_steps. eapply wp_SmallMemFree; [exact H|done|]. intros m' S' Hr Hp. apply HQ. exists D, S'. split; [done|].
    apply (Permutation_cons_inv (a := item_data big y)). rewrite <- Hp. by rewrite <- E.
Qed.

End SmallMem.

(** Arithmetic on items. *)
Ltac item_lia := unfold item_step, small_item, SIZEOF_32B, SIZEOF_64B in *; heap_lia.
