(* ===== verification/Memory.v ===== *)
(** * Allocation and release

    What [x_malloc] and [x_free] promise: [heap_holds m L] says that clients hold
    the memory [L], a list of addresses with sizes. *)

From S2P Require Import Prelude Kernel ByteMemory HeapList HeapLayout Heap SmallMem.

Section Memory.
Context `{C : KConfig} `{MC : MemConfig} {MO : MemConfigOk}.
Implicit Types (ns : gmap addr mnode) (m : ByteMemory) (a x y z sz u size : Z) (big used : bool) (s : sysmem).
Implicit Types (bs : list block) (fl : list addr) (D L : list (Z * Z)) (p q : Z * Z).

(** ** What clients hold does not overlap *)

Lemma elem_of_held p D S : p ∈ held D S <->
  (exists b, p = block_data b /\ b ∈ D) \/ exists big y, p = item_data big y /\ y ∈ sg_live (S big).
Proof.
  unfold held. rewrite !elem_of_app, !list_elem_of_fmap. split; [naive_solver|].
  intros [?|([] & y & ? & ?)]; [by left|right; right; by exists y|right; left; by exists y].
Qed.

Lemma disjoint_sym p q : disjoint_from p q -> disjoint_from q p.
Proof. unfold disjoint_from. tauto. Qed.

Lemma rep_block m D S b : heap_rep m D S -> b ∈ D ++ seg_blocks S ->
  mm_dynamic_start m < b.1 /\ 20 <= b.2 /\ b.1 + b.2 <= mm_dynamic_end m.
Proof.
  intros [(bs & fl & Hok & E) _ _] Hb. rewrite <- E in Hb. destruct b as [x z].
  destruct (hdr_used _ _ _ _ _ Hok Hb) as (_ & H3 & H4 & H5).
  pose proof (hc_mm_start _ _ _ _ (ho_core _ _ _ Hok)). pose proof (hc_mm_end _ _ _ _ (ho_core _ _ _ Hok)). heap_lia.
Qed.

(** A live item: its segment's block contains it. *)
Lemma rep_item_block m D S big y : heap_rep m D S -> y ∈ sg_live (S big) ->
  exists b, sg_block (S big) = Some b /\ b.1 + 12 <= y /\ y + item_step big <= b.1 + b.2.
Proof.
  intros H Hy. destruct (seg_item _ _ _ _ (hr_segs _ _ _ H big) (proj2 (elem_of_app _ _ _) (or_intror Hy))) as (x & z & E & ? & ?).
  by exists (x, z).
Qed.

Lemma held_block_item m D S b big y : heap_rep m D S -> b ∈ D -> y ∈ sg_live (S big) ->
  disjoint_from (block_data b) (item_data big y).
Proof.
  intros H Hb Hy. destruct (rep_item_block _ _ _ _ _ H Hy) as (c & Ec & H1 & H2).
  pose proof (separate_app_inv _ _ b c (rep_separate _ _ _ H) Hb (seg_block_in _ _ _ Ec)) as Hd.
  unfold disjoint_from, block_data, item_data in *. destruct big; item_lia.
Qed.

Lemma held_items m D S y1 y2 : heap_rep m D S -> y1 ∈ sg_live (S false) -> y2 ∈ sg_live (S true) ->
  disjoint_from (item_data false y1) (item_data true y2).
Proof.
  intros H Hy1 Hy2. destruct (rep_item_block _ _ _ _ _ H Hy1) as (b & Eb & H1 & H2).
  destruct (rep_item_block _ _ _ _ _ H Hy2) as (c & Ec & H3 & H4).
  destruct (rep_separate _ _ _ H) as [Hnd Hd]. apply NoDup_app in Hnd as (_ & _ & Hnd).
  assert (separate (seg_blocks S)) as Hsep by (split; [done|intros p q Hp Hq; apply Hd; set_solver]).
  unfold seg_blocks in Hsep. rewrite Eb, Ec in Hsep.
  apply (separate_app_inv _ _ b c) in Hsep; [|set_solver|set_solver].
  unfold disjoint_from, item_data in *. item_lia.
Qed.

(** Two items of one segment. *)
Lemma held_same_segment m D S big y1 y2 : heap_rep m D S -> y1 ∈ sg_live (S big) -> y2 ∈ sg_live (S big) ->
  y1 = y2 \/ disjoint_from (item_data big y1) (item_data big y2).
Proof.
  intros H Hy1 Hy2. pose proof (sr_items _ _ _ (hr_segs _ _ _ H big)) as Hi.
  destruct (sg_block (S big)) as [[x z]|]; [|destruct Hi as [_ Hi]; rewrite Hi in Hy1; by apply not_elem_of_nil in Hy1].
  destruct Hi as (_ & _ & _ & _ & Hperm).
  assert (forall y, y ∈ sg_live (S big) -> exists k, y = x + 12 + k * item_step big) as Hk.
  { intros y Hy. assert (y ∈ items big (x + 12)) as Hin by (unfold SIZEOF_DYNAMICALLOCNODE_MEM in Hperm; rewrite <- Hperm; set_solver).
    unfold items in Hin. apply list_elem_of_fmap in Hin as (k & -> & _). by exists k. }
  destruct (Hk y1 Hy1) as [k1 ->], (Hk y2 Hy2) as [k2 ->]. destruct (Z.lt_trichotomy k1 k2) as [Hlt|[->|Hgt]]; [|by left|];
    right; unfold disjoint_from, item_data; cbn [fst snd]; destruct big; item_lia.
Qed.

Lemma held_separate m D S : heap_rep m D S -> separate (held D S).
Proof.
  intros H. destruct (rep_separate _ _ _ H) as [Hnd Hd]. split.
  - assert (forall p, 0 < p.2 -> ~ disjoint_from p p) as Hself by (unfold disjoint_from; intros p ? ?; lia).
    assert (forall big, NoDup (item_data big <$> sg_live (S big))) as Hndi.
    { intros big. apply NoDup_fmap_2; [intros ? ? [= ?]; heap_lia|]. pose proof (seg_nodup _ _ _ (hr_segs _ _ _ H big)) as Hn.
      by apply NoDup_app in Hn as (_ & _ & ?). }
    unfold held. apply NoDup_app in Hnd as (Hnd & _ & _). apply NoDup_app. split_and!; [|intros p|apply NoDup_app; split_and!].
    + apply NoDup_fmap_2; [|done]. intros [] [] [= ? ?]. f_equal; heap_lia.
    + rewrite list_elem_of_fmap. intros (b & -> & Hb). rewrite elem_of_app, !list_elem_of_fmap. intros [(y & E & Hy)|(y & E & Hy)].
      * apply (Hself (item_data false y)); [done|]. rewrite <- E at 1. by eapply held_block_item.
      * apply (Hself (item_data true y)); [done|]. rewrite <- E at 1. by eapply held_block_item.
    + done.
    + intros p. rewrite !list_elem_of_fmap. intros (y1 & -> & Hy1) (y2 & E & Hy2).
      apply (Hself (item_data true y2)); [done|]. rewrite <- E at 1. by eapply held_items.
    + done.
  - intros p q [(b & -> & Hb)|(big & y & -> & Hy)]%elem_of_held [(c & -> & Hc)|(big' & y' & -> & Hy')]%elem_of_held.
    + destruct (Hd b c) as [->|Hbc]; [set_solver|set_solver|by left|right]. unfold disjoint_from, block_data in *. heap_lia.
    + right. by eapply held_block_item.
    + right. apply disjoint_sym. by eapply held_block_item.
    + destruct big, big'.
      * destruct (held_same_segment _ _ _ _ _ _ H Hy Hy') as [->|]; [by left|by right].
      * right. apply disjoint_sym. by eapply held_items.
      * right. by eapply held_items.
      * destruct (held_same_segment _ _ _ _ _ _ H Hy Hy') as [->|]; [by left|by right].
Qed.

Lemma held_range m D S p : heap_rep m D S -> p ∈ held D S ->
  mm_dynamic_start m < p.1 < mm_dynamic_end m /\ 0 < p.2 /\ p.1 + p.2 <= mm_dynamic_end m.
Proof.
  intros H [(b & -> & Hb)|(big & y & -> & Hy)]%elem_of_held.
  - pose proof (rep_block _ _ _ b H ltac:(set_solver)). unfold block_data. heap_lia.
  - destruct (rep_item_block _ _ _ _ _ H Hy) as (c & Ec & H1 & H2).
    assert (c ∈ D ++ seg_blocks S) as Hc by (apply elem_of_app; right; by eapply seg_block_in).
    pose proof (rep_block _ _ _ c H Hc). unfold item_data. destruct big; item_lia.
Qed.

(** The memory clients hold lies in the region, and no two pieces overlap. *)
Lemma heap_holds_separate m L : heap_holds m L ->
  separate L /\ forall p, p ∈ L -> mm_dynamic_start m < p.1 < mm_dynamic_end m /\ 0 < p.2 /\ p.1 + p.2 <= mm_dynamic_end m.
Proof.
  intros (D & S & H & E). split; [eapply separate_perm; [symmetry; exact E|by eapply held_separate]|].
  intros p. rewrite E. by apply held_range.
Qed.

(** ** The critical area around the heap *)

(** The depth of critical areas, an int16, can grow. *)
Definition may_lock s : Prop := 0 <= KTaskOsAssignLockNest (kern s) < 2 ^ 15 - 1.

Lemma wp_on_kern {A : Type} (f : M kstate A) (Q : A -> sysmem -> Prop) s :
  wp f (fun v k => Q v (mkSysmem k (byte_manager s))) (kern s) -> wp (on_kern f) Q s.
Proof. intros H. by apply (wp_zoom kern (fun k s => mkSysmem k (byte_manager s))). Qed.

Lemma wp_on_heap {A : Type} (f : M ByteMemory A) (Q : A -> sysmem -> Prop) s :
  wp f (fun v m => Q v (mkSysmem (kern s) m)) (byte_manager s) -> wp (on_heap f) Q s.
Proof. intros H. by apply (wp_zoom byte_manager (fun m s => mkSysmem (kern s) m)). Qed.

Lemma wp_critical {A : Type} (f : M ByteMemory A) (Q : A -> sysmem -> Prop) s :
  may_lock s ->
  wp f (fun v m => Q v (mkSysmem (kern s) m)) (byte_manager s) ->
  wp (lock ← on_kern CriticalAreaLock; v ← on_heap f; on_kern (CriticalAreaUnLock lock);; mret v) Q s.
Proof.
  unfold may_lock. intros Hn Hf. wp_step. apply wp_on_kern, wp_CriticalAreaLock; [done|]. wp_step. apply wp_on_heap.
  eapply wp_mono; [exact Hf|]. intros v m HQ. cbn beta. wp_step. apply wp_on_kern, wp_CriticalAreaUnLock; [cbn; lia|].
  cbn [kern]. rewrite unlocked_locked. by wp_steps.
Qed.

Lemma remaining_bound m bs fl : heap_ok m bs fl ->
  remaining_memory m = dynamic_buddy_end m - dynamic_buddy_start m - used_total bs.
Proof.
  intros [H _ Hact]. unfold remaining_memory. rewrite Hact. apply u32_small.
  pose proof (core_used_bound _ _ _ _ H). pose proof (used_total_bounds _ (core_positive _ _ _ _ H)).
  pose proof (core_end _ _ _ _ H). pose proof (hc_limit _ _ _ _ H). pose proof (hc_start _ _ _ _ H). heap_lia.
Qed.

(** A request that is not refused at once is so small that its size does not wrap. *)
Lemma remaining_no_wrap m bs fl size :
  heap_ok m bs fl -> MEM_ALIGN_SIZE + 12 <= mm_dynamic_start m -> 0 < size -> (remaining_memory m <? size) = false ->
  (KERNEL_SMALL_MEM_ALLOC = true \/ 8 <= ALIGN_MEN_UP size MEM_ALIGN_SIZE) /\ ALIGN_MEN_UP size MEM_ALIGN_SIZE + 12 < 2 ^ 32.
Proof.
  intros [H Hap Hact] Hst Hs Hav%Z.ltb_ge. rewrite (remaining_bound _ bs fl) in Hav by done.
  pose proof (align_up size Hs) as Hal. pose proof (core_used_bound _ _ _ _ H).
  pose proof (hc_limit _ _ _ _ H). pose proof (hc_mm_start _ _ _ _ H). split; [|heap_lia].
  destruct mc_least; [by left|right; lia].
Qed.

Lemma wp_x_malloc s L size (Q : option Z -> sysmem -> Prop) :
  heap_holds (byte_manager s) L -> may_lock s -> 0 <= size -> Q None s ->
  (forall m' (p : Z) u, size <= u -> heap_holds m' ((p, u) :: L) -> Q (Some p) (mkSysmem (kern s) m')) ->
  wp (x_malloc size) Q s.
Proof.
  intros (D & S & H & E) Hn Hs Hnone Hsome. unfold x_malloc. wp_step. apply wp_on_heap, wp_gets.
  assert (mkSysmem (kern s) (byte_manager s) = s) as Es by by destruct s. rewrite Es.
  destruct (Z.eqb_spec size 0) as [->|Hs0]; [by apply wp_ret|]. cbn [orb].
  destruct (remaining_memory (byte_manager s) <? size) eqn:Hav; [by apply wp_ret|].
  pose proof H as [(bs & fl & Hok & _) _ Hst].
  destruct (remaining_no_wrap _ _ _ size Hok Hst ltac:(lia) Hav) as [H1 H2]. pose proof (align_up size ltac:(lia)) as Hal.
  apply (wp_critical (malloc_locked _)); [done|]. eapply wp_malloc_locked; [exact H|done|done|by rewrite Es|].
  intros m' D' S' p u Hr Ep Hu. apply (Hsome m' p u); [lia|]. exists D', S'. split; [done|]. by rewrite Ep, E.
Qed.

Lemma wp_x_free s L (p : Z) u (Q : unit -> sysmem -> Prop) :
  heap_holds (byte_manager s) ((p, u) :: L) -> may_lock s ->
  (forall m', heap_holds m' L -> Q tt (mkSysmem (kern s) m')) -> wp (x_free (Some p)) Q s.
Proof.
  unfold may_lock. intros H Hn HQ. pose proof (heap_holds_separate _ _ H) as [_ Hr].
  destruct (Hr (p, u)) as (Hp & _); [set_solver|]. destruct H as (D & S & H & E). unfold x_free. wp_step. apply wp_on_heap.
  unfold JudgeValidAddressRange. apply wp_gets. assert (mkSysmem (kern s) (byte_manager s) = s) as -> by by destruct s.
  wp_step. apply wp_check; [apply andb_true_intro; split; apply Z.ltb_lt; cbn in Hp; lia|].
  wp_step. apply wp_on_kern, wp_CriticalAreaLock; [done|]. wp_step. apply wp_on_heap.
  eapply wp_free_locked; [exact H|symmetry; exact E|]. intros m' Hm'. apply wp_on_kern, wp_CriticalAreaUnLock; [cbn; lia|].
  cbn [kern byte_manager]. rewrite unlocked_locked. by apply HQ.
Qed.

(** C8: [x_malloc] returns or refuses; a refusal changes nothing.  Otherwise the
    client gets at least the size it asked for, inside the region, overlapping
    nothing that clients hold, and they keep all they had; the kernel's state, its
    interrupt mask included, is as before. *)
Theorem x_malloc_correct s L size :
  heap_holds (byte_manager s) L -> may_lock s -> 0 <= size ->
  wp (x_malloc size) (fun r s' =>
    match r with
    | None => s' = s
    | Some p => kern s' = kern s /\ exists u, size <= u /\ heap_holds (byte_manager s') ((p, u) :: L) /\
        mm_dynamic_start (byte_manager s') < p /\ p + u <= mm_dynamic_end (byte_manager s') /\
        forall q, q ∈ L -> disjoint_from (p, u) q
    end) s.
Proof.
  intros H Hn Hs. eapply wp_x_malloc; [exact H|done|done|done|]. intros m' p u Hu Hh. split; [done|]. exists u.
  cbn [byte_manager]. pose proof (heap_holds_separate _ _ Hh) as [Hsep Hrange].
  destruct (Hrange (p, u)) as (Hp1 & _ & Hp2); [set_solver|]. cbn in Hp1, Hp2.
  split_and!; [done|done|lia|lia|]. intros q Hq. by apply (separate_app_inv [(p, u)] L); [|set_solver|].
Qed.

(** C9: [x_free] of memory that a client holds always returns, and exactly this
    memory is no longer held; freeing no memory does nothing. *)
Theorem x_free_correct s L o :
  heap_holds (byte_manager s) (option_list o ++ L) -> may_lock s ->
  wp (x_free (fst <$> o)) (fun _ s' => kern s' = kern s /\ heap_holds (byte_manager s') L) s.
Proof.
  intros H Hn. destruct o as [[p u]|]; [|by apply wp_ret]. by eapply wp_x_free; [exact H|done|].
Qed.

(** ** Release undoes allocation *)

Lemma released_carve bs1 sz n bs2 :
  apart (bs1 ++ (sz, false) :: bs2) -> released bs1 (kept sz n) (cut sz n ++ bs2) = bs1 ++ (sz, false) :: bs2.
Proof.
  rewrite apart_app, apart_snoc_free, apart_cons_free. intros [[H1 _] [H2 _]].
  assert (forall z, join_prev bs1 z = (bs1, z)) as Ep.
  { intros z. unfold join_prev. destruct (last bs1) as [[s1 u1]|]; [|done]. specialize (H1 _ eq_refl). cbn in H1. by rewrite H1. }
  unfold released, kept, cut. destruct (MEM_LOW_RANGE <=? sz - n); cbn [app join_next].
  - rewrite Ep. by replace (n + (sz - n)) with sz by lia.
  - assert (join_next sz bs2 = (sz, bs2)) as ->.
    { destruct bs2 as [|[s2 u2] bs2]; [done|]. specialize (H2 _ eq_refl). cbn in H2. by rewrite H2. }
    by rewrite Ep.
Qed.

(** Requests that do not go to the small segments. *)
Definition large size : Prop := KERNEL_SMALL_MEM_ALLOC = false \/ SIZEOF_64B < size.

Lemma wp_x_malloc_large s bs fl size (Q : option Z -> sysmem -> Prop) :
  heap_ok (byte_manager s) bs fl -> may_lock s ->
  MEM_ALIGN_SIZE + 12 <= mm_dynamic_start (byte_manager s) -> 0 <= size -> large size -> Q None s ->
  (forall bs1 sz bs2 m' fl', let n := ALIGN_MEN_UP size MEM_ALIGN_SIZE + 12 in
     bs = bs1 ++ (sz, false) :: bs2 -> first_block m' = first_block (byte_manager s) ->
     active_memory m' = active_memory (byte_manager s) + kept sz n -> heap_ok m' (carve bs1 sz n bs2) fl' ->
     Q (Some (first_block m' + total bs1 + 12)) (mkSysmem (kern s) m')) ->
  wp (x_malloc size) Q s.
Proof.
  intros H Hn Hst Hs Hbig Hnone Hsome. unfold x_malloc. wp_step. apply wp_on_heap, wp_gets.
  assert (mkSysmem (kern s) (byte_manager s) = s) as Es by by destruct s. rewrite Es.
  destruct (Z.eqb_spec size 0) as [E0|Hs0]; [by apply wp_ret|]. cbn [orb].
  destruct (remaining_memory (byte_manager s) <? size) eqn:Hav; [by apply wp_ret|].
  destruct (remaining_no_wrap _ _ _ size H Hst ltac:(lia) Hav) as [H1 H2]. pose proof (align_up size ltac:(lia)) as Hal.
  assert (forall n, n <= 64 -> KERNEL_SMALL_MEM_ALLOC && (ALIGN_MEN_UP size MEM_ALIGN_SIZE <=? n) = false) as Hsm.
  { intros n Hn64. unfold large, SIZEOF_64B in Hbig. destruct Hbig as [->|Hbig]; [done|].
    rewrite (proj2 (Z.leb_gt _ _)) by lia. by rewrite andb_false_r. }
  apply (wp_critical (malloc_locked _)); [done|]. unfold malloc_locked. rewrite !Hsm by (unfold SIZEOF_32B, SIZEOF_64B; lia).
  assert (8 <= ALIGN_MEN_UP size MEM_ALIGN_SIZE) as H8.
  { destruct H1 as [HK|H1]; [|done]. unfold large, SIZEOF_64B in Hbig. destruct Hbig; [congruence|lia]. }
  wp_step. eapply wp_BigMemMalloc; [exact H|lia|lia|intros _; apply wp_ret; by rewrite Es|].
  intros bs1 sz bs2 ns' fl' a m' E Hbest Hlt Hk Hok.
  assert ((a, kept sz (ALIGN_MEN_UP size MEM_ALIGN_SIZE + 12)) ∈ used_addrs (first_block m') (carve bs1 sz (ALIGN_MEN_UP size MEM_ALIGN_SIZE + 12) bs2)) as Hin.
  { rewrite used_addrs_carve. change (first_block m') with (first_block (byte_manager s)). fold a. set_solver. }
  destruct (hdr_used _ _ _ _ _ Hok Hin) as (_ & H3 & H4 & H5).
  pose proof (hc_mm_start _ _ _ _ (ho_core _ _ _ Hok)). pose proof (hc_mm_end _ _ _ _ (ho_core _ _ _ Hok)).
  unfold JudgeValidAddressRange. wp_steps. apply wp_check.
  { apply andb_true_intro. split; apply Z.ltb_lt; heap_lia. }
  wp_steps. by apply (Hsome bs1 sz bs2 m' fl').
Qed.

(** C36: Allocating a large block and releasing it at once restores the layout of
    the whole heap, block for block, and the count of used memory: the remainder
    that was cut off is joined again and nothing else is. *)
Theorem x_malloc_x_free s bs fl size :
  heap_ok (byte_manager s) bs fl -> may_lock s ->
  MEM_ALIGN_SIZE + 12 <= mm_dynamic_start (byte_manager s) -> 0 <= size -> large size ->
  wp (p ← x_malloc size; x_free p) (fun _ s' =>
    kern s' = kern s /\ active_memory (byte_manager s') = active_memory (byte_manager s) /\
    exists fl', heap_ok (byte_manager s') bs fl') s.
Proof.
  intros H Hn Hst Hs Hbig. apply wp_bind. eapply wp_x_malloc_large; [exact H|done|done|done|done|apply wp_ret; eauto|].
  intros bs1 sz bs2 m' fl' n -> _ Ha Hok. set (a := first_block m' + total bs1).
  assert ((a, kept sz n) ∈ used_addrs (first_block m') (carve bs1 sz n bs2)) as Hin.
  { rewrite used_addrs_carve. fold a. set_solver. }
  destruct (hdr_used _ _ _ _ _ Hok Hin) as ([p Hh] & H3 & H4 & H5).
  pose proof (hc_mm_start _ _ _ _ (ho_core _ _ _ Hok)). pose proof (hc_mm_end _ _ _ _ (ho_core _ _ _ Hok)).
  unfold may_lock in Hn. unfold x_free, JudgeValidAddressRange. wp_step. apply wp_on_heap, wp_gets. wp_step.
  apply wp_check; [apply andb_true_intro; split; apply Z.ltb_lt; cbn [byte_manager]; heap_lia|].
  wp_step. apply wp_on_kern, wp_CriticalAreaLock; [done|]. wp_step. apply wp_on_heap. cbn [byte_manager kern].
  unfold free_locked. change SIZEOF_DYNAMICALLOCNODE_MEM with 12. rewrite Z.add_simpl_r. wp_step. get_hdr Hh.
  change (Z.land DYNAMIC_BLOCK_MASK ALLOC_BLOCK_MASK =? 0) with false.
  change (Z.land DYNAMIC_BLOCK_MASK STATIC_BLOCK_MASK =? 0) with true. rewrite andb_false_r. wp_steps.
  eapply wp_BigMemFree; [exact Hok|]. intros ns2 fl2 m2 _ Hok2. apply wp_on_kern, wp_CriticalAreaUnLock; [cbn; lia|].
  cbn [kern byte_manager]. rewrite unlocked_locked. split; [done|]. rewrite released_carve in Hok2 by apply (ho_apart _ _ _ H).
  split; [subst m2; cbn [active_memory set_usage]; lia|by exists fl2].
Qed.

End Memory.

