(* ===== verification/MemoryInit.v ===== *)
(** * Initialisation of the heap *)

From S2P Require Import Prelude Kernel ByteMemory HeapList HeapLayout Heap SmallMem Memory Waiting.

Section MemoryInit.
Context `{C : KConfig} `{MC : MemConfig} {MO : MemConfigOk}.
Implicit Types (ns : gmap addr mnode) (m : ByteMemory) (a x y z sz size : Z) (big used : bool) (s : sysmem).

(** ** The list heads *)

Definition head_node (i : Z) : mnode :=
  mkMNode 0 0 0 (if i =? MEM_LINKNRS - 1 then None else Some (Head (i + 1))) (if i =? 0 then None else Some (Head (i - 1))).

Lemma head_nodes_lookup i ns : 0 <= i <= 14 -> (head_nodes ∪ ns) !! Head i = Some (head_node i).
Proof.
  intros Hi. apply lookup_union_Some_l. unfold head_nodes. apply elem_of_list_to_map_1.
  - rewrite <- list_fmap_compose. apply NoDup_fmap_2; [by intros ? ? [= ->]|apply NoDup_seqZ].
  - apply list_elem_of_fmap. exists i. split; [done|]. apply elem_of_seqZ. unfold MEM_LINKNRS. lia.
Qed.

Definition heads : list addr := Head <$> seqZ 1 14.

Lemma heads_lseg ns i k : 0 <= i -> i + Z.of_nat k <= 14 -> lseg (head_nodes ∪ ns) (Head i) (Head <$> seqZ (i + 1) (Z.of_nat k)).
Proof.
  revert i. induction k as [|k IH]; intros i Hi Hk; [done|].
  rewrite seqZ_cons by lia. rewrite fmap_cons. cbn [lseg].
  replace (Z.pred (Z.of_nat (S k))) with (Z.of_nat k) by lia. replace (Z.succ (i + 1)) with (i + 1 + 1) by lia.
  split_and!; [| |apply IH; lia].
  - unfold nnext. rewrite head_nodes_lookup by lia. cbn. by rewrite (proj2 (Z.eqb_neq _ _)) by (unfold MEM_LINKNRS; lia).
  - unfold nprev. rewrite head_nodes_lookup by lia. cbn. rewrite (proj2 (Z.eqb_neq _ _)) by lia. by rewrite Z.add_simpl_r.
Qed.

Lemma heads_free_list ns : free_list (head_nodes ∪ ns) heads.
Proof.
  split.
  - by apply (heads_lseg ns 0 14).
  - change (List.last heads (Head 0)) with (Head 14). unfold nnext. by rewrite head_nodes_lookup.
  - change (Head 0 :: heads) with (Head <$> seqZ 0 15). apply NoDup_fmap_2; [by intros ? ? [= ->]|apply NoDup_seqZ].
  - change (Head 0 :: heads) with (Head <$> seqZ 0 15). intros x (i & -> & Hi%elem_of_seqZ)%list_elem_of_fmap.
    rewrite head_nodes_lookup by lia. by eexists.
Qed.

Lemma heads_class_list ns : class_list (head_nodes ∪ ns) heads.
Proof.
  assert (forall i, Head i ∈ heads <-> 1 <= i <= 14) as Hin.
  { intros i. unfold heads. rewrite list_elem_of_fmap. split; [intros (j & [= ->] & Hj%elem_of_seqZ); lia|].
    intros Hi. exists i. split; [done|]. apply elem_of_seqZ. lia. }
  split; [|done| |].
  - unfold sorted_by, heads. cbn. repeat (apply SSorted_cons; [|repeat (apply List.Forall_cons; [cbn; lia|]); apply List.Forall_nil]).
    apply SSorted_nil.
  - intros i Hi. unfold nsize. by rewrite head_nodes_lookup.
  - intros a Ha. unfold heads in Ha. apply list_elem_of_fmap in Ha as (? & [=] & _).
Qed.

(** ** One large block *)

Lemma wp_InitBuddy m ns start size (Q : unit -> ByteMemory -> Prop) :
  mnodes m = head_nodes ∪ ns -> 0 < start -> dynamic_buddy_start m = start -> dynamic_buddy_end m = start + size ->
  start + size < 2 ^ 32 -> 44 <= size -> active_memory m = 0 ->
  (forall m' fl, heap_ok m' [(size - 24, false)] fl -> mm_dynamic_start m' = start ->
     (forall big, get_segment big m' = get_segment big m) -> Q tt m') ->
  wp (InitBuddy start size) Q m.
Proof.
  intros En Hst Es Ee Hlim Hsz Ha HQ. unfold InitBuddy. change SIZEOF_DYNAMICALLOCNODE_MEM with 12. wp_steps.
  apply wp_node_put; [cbn; lia|heap_lia|]. cbn [mnodes set_mnodes set_total set_dynamic]. intros ns1 Hs1. wp_steps.
  apply wp_node_put; [cbn; lia|heap_lia|]. cbn [mnodes set_mnodes set_total set_dynamic]. intros ns2 Hs2. wp_steps.
  apply wp_node_put; [cbn; lia|heap_lia|]. cbn [mnodes set_mnodes set_total set_dynamic mm_dynamic_start]. intros ns3 Hs3.
  set (M := set_mnodes ns3 _).
  assert (hdr ns3 (At start) = Some (12, 0, DYNAMIC_BLOCK_MASK) /\ hdr ns3 (At (start + 12)) = Some (size - 24, 12, 0) /\
          hdr ns3 (At (start + 12 + (size - 24))) = Some (12, size - 24, DYNAMIC_BLOCK_MASK)) as (Hh1 & Hh2 & Hh3).
  { replace (start + 12 + (size - 24)) with (start + size - 12) by lia. split_and!.
    - rewrite (hdr_set_ne _ _ _ _ _ Hs3), (hdr_set_ne _ _ _ _ _ Hs2); [apply (hdr_set_eq _ _ _ _ Hs1)|intros [= E]; lia|intros [= E]; lia].
    - rewrite (hdr_set_ne _ _ _ _ _ Hs3); [apply (hdr_set_eq _ _ _ _ Hs2)|intros [= E]; lia].
    - apply (hdr_set_eq _ _ _ _ Hs3). }
  assert (same_links (head_nodes ∪ ns) ns3) as Hl.
  { rewrite <- En. eapply same_links_trans; [apply Hs1|]. eapply same_links_trans; [apply Hs2|apply Hs3]. }
  assert (heap_core M [(size - 24, false)] [] heads) as HM.
  { split; cbn -[hdr].
    - lia.
    - rewrite Es, Ee. heap_lia.
    - lia.
    - done.
    - rewrite Ee. heap_lia.
    - rewrite Es. by split_and!.
    - intros b ->%list_elem_of_singleton. heap_lia.
    - eapply free_list_same_links; [exact Hl|apply heads_free_list].
    - eapply class_list_sizes; [| |apply (heads_class_list ns)].
      + intros x (i & -> & _)%list_elem_of_fmap. apply nsize_hdr. rewrite <- En.
        rewrite (hdr_set_ne _ _ _ _ _ Hs3), (hdr_set_ne _ _ _ _ _ Hs2) by done. by apply (hdr_set_ne _ _ _ _ _ Hs1).
      + intros i. apply nsize_hdr. rewrite <- En.
        rewrite (hdr_set_ne _ _ _ _ _ Hs3), (hdr_set_ne _ _ _ _ _ Hs2) by done. by apply (hdr_set_ne _ _ _ _ _ Hs1).
    - intros x. split; [|set_solver]. intros (? & [=] & _)%list_elem_of_fmap.
    - set_solver. }
  assert (first_block M + total [] = start + 12) as EM by (unfold first_block; cbn; heap_lia).
  rewrite <- EM. eapply (core_add M [] (size - 24) [] [] heads); [exact HM|set_solver|].
  intros ns4 fl4 _ H4. cbn [app] in H4. apply (HQ _ fl4); [|done|by intros []].
  split; [|done|by cbn]. eapply core_equiv; [|exact H4]. intros x. cbn. by rewrite Z.add_0_r.
Qed.

(** ** The items of a segment *)

Definition item_at base big k : Z := base + k * item_step big.

(** What the loop has written: the items from [off] on refer to the next one. *)
Record items_written ns ns' big base (off total : Z) : Prop := {
  iw_links : same_links ns ns';
  iw_heads : forall i, hdr ns' (Head i) = hdr ns (Head i);
  iw_items : forall k, off <= k < total ->
    exists p, hdr ns' (At (item_at base big k)) = Some (item_at base big (k + 1), p, STATIC_BLOCK_MASK);
  iw_rest : forall y, y < item_at base big off \/ item_at base big total <= y -> hdr ns' (At y) = hdr ns (At y);
}.

Lemma item_at_lt base big i j : i < j <-> item_at base big i < item_at base big j.
Proof. unfold item_at. destruct big; item_lia. Qed.

Lemma wp_static_put m a w (Q : unit -> ByteMemory -> Prop) :
  dynamic_buddy_start m <= a -> a + 12 <= dynamic_buddy_end m ->
  (forall ns' p, hdr_set (mnodes m) ns' (At a) (w, p, STATIC_BLOCK_MASK) -> Q tt (set_mnodes ns' m)) ->
  wp (static_put a w) Q m.
Proof.
  intros H1 H2 HQ. unfold static_put. wp_steps. apply wp_node_put; [done|heap_lia|]. intros ns' Hs. by eapply HQ.
Qed.

Lemma wp_static_loop big base fuel off total m node (Q : option Z -> ByteMemory -> Prop) :
  (Z.to_nat (total - off) < fuel)%nat -> off <= total ->
  dynamic_buddy_start m <= item_at base big off -> item_at base big total <= dynamic_buddy_end m ->
  (forall ns', items_written (mnodes m) ns' big base off total ->
     Q (if off <? total then Some (item_at base big (total - 1)) else node) (set_mnodes ns' m)) ->
  wp (static_loop fuel base (small_item big) off total node) Q m.
Proof.
  revert off m node. induction fuel as [|fuel IH]; intros off m node Hf Hle Hs He HQ; [lia|]. cbn [static_loop].
  destruct (Z.ltb_spec off total) as [Hlt|Hge].
  2:{ assert (set_mnodes (mnodes m) m = m) as Em by by destruct m. apply wp_ret. rewrite <- Em.
      apply (HQ (mnodes m)). split; [by split|done| |done]. intros k Hk. lia. }
  pose proof (proj1 (item_at_lt base big off (off + 1)) ltac:(lia)) as Hnext.
  assert (item_at base big (off + 1) <= item_at base big total) as Hnt.
  { destruct (decide (off + 1 = total)) as [->|]; [done|]. pose proof (proj1 (item_at_lt base big (off + 1) total)). lia. }
  assert (item_at base big off + 12 <= item_at base big (off + 1)) as Hstep by (unfold item_at; destruct big; item_lia).
  wp_steps. change (base + off * (small_item big + SIZEOF_DYNAMICALLOCNODE_MEM)) with (item_at base big off).
  change (base + (off + 1) * (small_item big + SIZEOF_DYNAMICALLOCNODE_MEM)) with (item_at base big (off + 1)).
  apply wp_static_put; [lia|lia|]. intros ns1 p Hs1. wp_steps.
  apply (IH (off + 1)); [lia|lia|cbn; lia|cbn; lia|]. cbn [mnodes set_mnodes]. intros ns2 [Hl2 Hh2 Hi2 Hr2].
  assert (items_written (mnodes m) ns2 big base off total) as Hw.
  { split.
    - eapply same_links_trans; [apply Hs1|exact Hl2].
    - intros i. rewrite Hh2. by apply (hdr_set_ne _ _ _ _ _ Hs1).
    - intros k Hk. destruct (decide (k = off)) as [->|]; [|apply Hi2; lia]. exists p.
      rewrite Hr2 by lia. apply (hdr_set_eq _ _ _ _ Hs1).
    - intros y Hy. rewrite Hr2 by lia. apply (hdr_set_ne _ _ _ _ _ Hs1). intros [= ->]. lia. }
  specialize (HQ ns2 Hw). destruct (Z.ltb_spec (off + 1) total); [done|]. by replace (total - 1) with off in HQ by lia.
Qed.

(** The items are a list that ends at the last one. *)
Lemma items_chain ns ns' big base total last p :
  items_written ns ns' big base 0 total -> 0 < total -> last = item_at base big (total - 1) ->
  forall ns2, hdr_set ns' ns2 (At last) (0, p, STATIC_BLOCK_MASK) ->
  chain ns2 base ((fun k => base + k * item_step big) <$> seqZ 0 total).
Proof.
  intros Hw Ht -> ns2 Hs.
  assert (forall n off, 0 <= off -> off + Z.of_nat (S n) = total ->
    chain ns2 (item_at base big off) ((fun k => base + k * item_step big) <$> seqZ off (Z.of_nat (S n)))) as H.
  { induction n as [|n IH]; intros off Ho En.
    - change (seqZ off (Z.of_nat 1)) with [0 + off]. rewrite Z.add_0_l. cbn. split; [done|]. exists 0, p. split; [|done].
      fold (item_at base big off). replace off with (total - 1) by lia. apply (hdr_set_eq _ _ _ _ Hs).
    - rewrite seqZ_cons by lia. rewrite fmap_cons. split; [done|]. fold (item_at base big off).
      destruct (iw_items _ _ _ _ _ _ Hw off ltac:(lia)) as [q Hq]. exists (item_at base big (off + 1)), q. split.
      + rewrite (hdr_set_ne _ _ _ _ _ Hs); [done|]. intros [= E].
        pose proof (proj1 (item_at_lt base big off (total - 1)) ltac:(lia)). lia.
      + replace (Z.succ off) with (off + 1) by lia. replace (Z.pred (Z.of_nat (S (S n)))) with (Z.of_nat (S n)) by lia.
        apply IH; lia. }
  specialize (H (Z.to_nat (total - 1)) 0 ltac:(lia) ltac:(lia)). unfold item_at in H.
  replace (Z.of_nat (S (Z.to_nat (total - 1)))) with total in H by lia. by replace (base + 0 * item_step big) with base in H by lia.
Qed.

Definition empty_seg : seg_state := mkSeg None [] [].

(** A block in use with items in it becomes a segment. *)
Lemma rep_new_segment m m' S big a z g :
  heap_rep m [(a, z)] S -> S big = empty_seg ->
  same_links (mnodes m) (mnodes m') -> (forall i, hdr (mnodes m') (Head i) = hdr (mnodes m) (Head i)) ->
  (forall y, y <= a \/ a + z <= y -> hdr (mnodes m') (At y) = hdr (mnodes m) (At y)) ->
  m' = set_mnodes (mnodes m') (set_segment big (get_segment big m') m) ->
  sg_block g = Some (a, z) -> seg_rep m' big g -> heap_rep m' [] (seg_update big g S).
Proof.
  intros H Es Hl Hh Hout Em Eg Hg. pose proof H as [(bs & fl & Hok & E) Hsegs Hst]. split.
  - exists bs, fl. rewrite Em. split.
    + change (set_mnodes (mnodes m') (set_segment big (get_segment big m') m)) with
        (set_segment big (get_segment big m') (set_mnodes (mnodes m') m)).
      apply ok_segment. eapply (ok_inside m (mnodes m') bs fl a z); [done| |done|done|done]. rewrite E. set_solver.
    + change (first_block (set_mnodes (mnodes m') (set_segment big (get_segment big m') m))) with (first_block m).
      rewrite E. unfold seg_blocks, seg_update. destruct big; cbn [Bool.eqb app]; rewrite Eg, Es; cbn; [|done].
      rewrite app_nil_r. apply Permutation_cons_append.
  - intros b. unfold seg_update. destruct (Bool.eqb b big) eqn:Eb; [by apply eqb_prop in Eb as ->|].
    apply eqb_false_iff in Eb. eapply seg_rep_frame; [apply Hsegs| |].
    + rewrite Em. by destruct b, big.
    + intros y Hy. apply Hout. destruct (seg_item _ _ _ _ (Hsegs b) Hy) as (x & z' & Ex & H1 & H2).
      pose proof (separate_app_inv _ _ (a, z) (x, z') (rep_separate _ _ _ H) ltac:(set_solver) (seg_block_in _ _ _ Ex)) as Hd.
      unfold disjoint_from in Hd. destruct b; item_lia.
  - rewrite Em. exact Hst.
Qed.

Lemma small_number_pos big : 0 < small_number big.
Proof. destruct big; [apply mc_64|apply mc_32]. Qed.

Lemma small_size_eq big : small_size big = item_step big * small_number big.
Proof. done. Qed.

Lemma wp_segment_init m S big (Q : bool -> ByteMemory -> Prop) :
  heap_rep m [] S -> S big = empty_seg -> KERNEL_SMALL_MEM_ALLOC = true -> small_size big + 12 < 2 ^ 32 ->
  (forall m', heap_rep m' [] S -> Q false m') ->
  (forall m' g, heap_rep m' [] (seg_update big g S) -> sg_live g = [] -> Q true m') ->
  wp (segment_init big) Q m.
Proof.
  intros H Es HK Hlim Hfail Hok. unfold segment_init. pose proof (small_number_pos big) as Hpos.
  assert (item_step big <= small_size big) as Hss by (rewrite small_size_eq; destruct big; item_lia).
  wp_step. eapply rep_big_malloc; [exact H|destruct big; item_lia|done| |].
  { unfold seg_set. wp_steps. apply Hfail. pose proof (hr_segs _ _ _ H big) as Hseg. rewrite Es in Hseg.
    pose proof (sr_count _ _ _ Hseg) as Hc. cbn in Hc. pose proof H as [(bs & fl & Hk & E) Hsegs Hst]. split; [|intros b|exact Hst].
    - exists bs, fl. split; [by apply ok_segment|done].
    - destruct (decide (b = big)) as [->|Hne].
      + rewrite Es. split; [|intros y Hy; by apply not_elem_of_nil in Hy|done].
        rewrite get_set_segment, eqb_reflx. cbn. destruct big; [exact Hc|done].
      + eapply seg_rep_frame; [apply Hsegs| |done]. by destruct b, big. }
  intros m1 a z Hz H1 _. pose proof (rep_block _ _ _ (a, z) H1 ltac:(set_solver)) as (Ha1 & Ha2 & Ha3). cbn [fst snd] in *.
  pose proof H1 as [(bs & fl & Hk & _) _ _]. pose proof (hc_mm_start _ _ _ _ (ho_core _ _ _ Hk)). pose proof (hc_mm_end _ _ _ _ (ho_core _ _ _ Hk)).
  assert (item_at (a + 12) big (small_number big) = a + 12 + small_size big) as Etot by (rewrite small_size_eq; unfold item_at; lia).
  unfold seg_set. wp_steps.
  apply wp_static_loop; [rewrite Z.sub_0_r; lia|lia|unfold item_at; heap_lia|rewrite Etot; heap_lia|].
  cbn [mnodes set_segment]. intros ns1 Hw. rewrite (proj2 (Z.ltb_lt _ _)) by lia. wp_steps.
  assert (0 <= small_number big - 1 < small_number big) as Hlast by lia.
  destruct (iw_items _ _ _ _ _ _ Hw _ Hlast) as [p Hp].
  set_hdr Hp (0, p, STATIC_BLOCK_MASK). cbn [mnodes set_mnodes]. intros ns2 Hs2. wp_steps.
  pose proof (items_chain _ _ _ _ _ _ p Hw Hpos eq_refl ns2 Hs2) as Hch.
  set (last := item_at (a + 12) big (small_number big - 1)) in *.
  assert (a + 12 <= last /\ last + 32 <= a + z) as [Hl1 Hl2].
  { unfold last, item_at. rewrite small_size_eq in Hz. destruct big; item_lia. }
  apply (Hok _ (mkSeg (Some (a, z)) (items big (a + 12)) [])); [|done].
  eapply (rep_new_segment m1 _ S big a z); [exact H1|done| | | | |done|].
  - eapply same_links_trans; [apply (iw_links _ _ _ _ _ _ Hw)|apply Hs2].
  - intros i. cbn -[hdr]. rewrite (hdr_set_ne _ _ _ _ _ Hs2) by done. apply (iw_heads _ _ _ _ _ _ Hw).
  - intros y Hy. cbn -[hdr]. rewrite (hdr_set_ne _ _ _ _ _ Hs2) by (intros [= ->]; lia). apply (iw_rest _ _ _ _ _ _ Hw).
    rewrite Etot. unfold item_at. lia.
  - by destruct big.
  - split.
    + change (get_segment big _) with (get_segment big (set_segment big (mkSegment (small_item big) (a + 12) (small_number big) (small_number big)) m1)).
      rewrite get_set_segment, eqb_reflx. cbn. unfold items. rewrite length_fmap, length_seqZ. lia.
    + intros y Hy. by apply not_elem_of_nil in Hy.
    + cbn [sg_block sg_free sg_live].
      change (get_segment big _) with (get_segment big (set_segment big (mkSegment (small_item big) (a + 12) (small_number big) (small_number big)) m1)).
      rewrite get_set_segment, eqb_reflx. split_and!; [done|heap_lia|done|exact Hch|by rewrite app_nil_r].
Qed.

(** ** [InitBoardMemory] *)

(** The counters at the start of the system, when static data is 0. *)
Definition cleared m : Prop := active_memory m = 0 /\ forall big, block_free_count (get_segment big m) = 0.

Lemma wp_SmallMemInit m (Q : unit -> ByteMemory -> Prop) :
  heap_rep m [] (fun _ => empty_seg) -> KERNEL_SMALL_MEM_ALLOC = true ->
  (forall big, small_size big + 12 < 2 ^ 32) -> (forall m', heap_holds m' [] -> Q tt m') -> wp SmallMemInit Q m.
Proof.
  intros H HK Hlim HQ. unfold SmallMemInit. wp_step. eapply wp_segment_init; [exact H|done|done|done| |].
  { intros m1 H1. apply wp_ret, HQ. by exists [], (fun _ => empty_seg). }
  intros m1 g1 H1 Eg1. cbn [negb]. wp_step. eapply wp_segment_init; [exact H1|done|done|done| |].
  { intros m2 H2. apply wp_ret, HQ. exists [], (seg_update false g1 (fun _ => empty_seg)). split; [done|].
    unfold held, seg_update. cbn. by rewrite Eg1. }
  intros m2 g2 H2 Eg2. cbn [negb]. apply wp_modify, HQ. exists [], (seg_update true g2 (seg_update false g1 (fun _ => empty_seg))).
  split; [|unfold held, seg_update; cbn; by rewrite Eg1, Eg2].
  destruct H2 as [(bs & fl & [Hc Hap Hact] & E) Hs Hst]. split; [|intros big|exact Hst].
  - exists bs, fl. split; [|exact E]. split; [|done|done]. split; apply Hc.
  - eapply seg_rep_frame; [apply Hs|by destruct big|done].
Qed.

Lemma wp_InitBoardMemory s start_phy_address end_phy_address (Q : unit -> sysmem -> Prop) :
  let lo := ALIGN_MEN_UP start_phy_address MM_PAGE_SIZE in
  let hi := ALIGN_MEN_DOWN end_phy_address MM_PAGE_SIZE in
  start_phy_address <> 0 -> end_phy_address <> 0 -> isr_count (kern s) = 0 ->
  MEM_ALIGN_SIZE + 12 <= lo -> hi < 2 ^ 32 -> hi <= lo \/ lo + 44 <= hi ->
  (forall big, small_size big + 12 < 2 ^ 32) ->
  cleared (byte_manager s) ->
  (hi <= lo -> Q tt (mkSysmem (kern s) (set_bounds lo hi (byte_manager s)))) ->
  (forall m, lo < hi -> heap_holds m [] -> Q tt (mkSysmem (kern s) m)) ->
  wp (InitBoardMemory start_phy_address end_phy_address) Q s.
Proof.
  intros lo hi H1 H2 Hi Hlo Hhi Hsz Hlim [Ha Hc] HQ1 HQ2. pose proof mc_align as Hal. unfold InitBoardMemory.
  rewrite (proj2 (Z.eqb_neq _ _) H1), (proj2 (Z.eqb_neq _ _) H2). cbn [negb]. wp_steps.
  apply wp_on_kern, wp_KDEBUG_NOT_IN_INTERRUPT; [done|].
  fold lo hi. wp_steps. apply wp_on_heap, wp_modify. cbn [kern byte_manager].
  destruct (Z.leb_spec hi lo) as [Hle|Hlt]; [by apply wp_ret, HQ1|]. destruct Hsz as [Hsz|Hsz]; [lia|].
  wp_step. apply wp_on_heap, wp_modify. wp_step. apply wp_on_heap. cbn [kern byte_manager].
  eapply wp_InitBuddy; [reflexivity|lia|done|cbn; lia|lia|lia|done|]. intros m fl Hok Hst Hsegs.
  assert (heap_rep m [] (fun _ => empty_seg)) as Hrep.
  { split; [|intros big|rewrite Hst; heap_lia].
    - exists [(hi - lo - 24, false)], fl. by split.
    - split; [|intros y Hy; by apply not_elem_of_nil in Hy|done]. rewrite Hsegs. destruct big; [exact (Hc true)|exact (Hc false)]. }
  destruct KERNEL_SMALL_MEM_ALLOC eqn:HK.
  - apply wp_on_heap. cbn [kern byte_manager]. apply wp_SmallMemInit; [done|done|done|]. intros m' Hm'. by apply HQ2.
  - apply wp_ret, HQ2; [done|]. by exists [], (fun _ => empty_seg).
Qed.

(** C39: [InitBoardMemory] on a region of at least one block, in the state in which
    the system starts, returns with a heap whose whole memory is free, and touches
    nothing of the kernel; of a region that is empty after alignment only the bounds
    are recorded. *)
Theorem InitBoardMemory_ok s start_phy_address end_phy_address :
  let lo := ALIGN_MEN_UP start_phy_address MM_PAGE_SIZE in
  let hi := ALIGN_MEN_DOWN end_phy_address MM_PAGE_SIZE in
  start_phy_address <> 0 -> end_phy_address <> 0 -> isr_count (kern s) = 0 ->
  MEM_ALIGN_SIZE + 12 <= lo -> hi < 2 ^ 32 -> hi <= lo \/ lo + 44 <= hi ->
  (forall big, small_size big + 12 < 2 ^ 32) ->
  cleared (byte_manager s) ->
  wp (InitBoardMemory start_phy_address end_phy_address) (fun _ s' => kern s' = kern s /\
    if hi <=? lo then byte_manager s' = set_bounds lo hi (byte_manager s) else heap_holds (byte_manager s') []) s.
Proof.
  intros lo hi H1 H2 Hi Hlo Hhi Hsz Hlim Hc. apply wp_InitBoardMemory; try done.
  - intros Hle. fold lo hi in Hle |- *. split; [done|]. destruct (Z.leb_spec hi lo); [done|lia].
  - intros m Hlt Hm. fold lo hi in Hlt |- *. split; [done|]. destruct (Z.leb_spec hi lo); [lia|done].
Qed.

End MemoryInit.
