(* ===== verification/TimerCheck.v ===== *)
(** * Timers and the work queue of a concrete kernel

    [timers_check] evaluates [timers_ok]; the kernel [bell] has running and stopped
    timers and a work queue, and the theorems on them are applied there. *)

From S2P Require Import Prelude DoubleLink IdManager Bitmap Kernel ReadyVector Assign Delay Task TaskInv Deadlines PendList Waiting Interrupt Ticks Sleep Semaphore WorkQueue SoftTimer TimerInv TimerList SchedCheck KernelCheck.

(** ** The test *)

Section timers_check.
Context `{C : KConfig}.
Implicit Types (k : kstate) (L : gmap link (list link)) (tl : list ptr).

Definition timer_check k L tl (t : ptr) (x : Timer) : bool :=
  bool_decide (is_Some (links k !! SortList t)) &&
  if active_status x =? TIMER_ACTIVE_TRUE then bool_decide (t ∈ tl)
  else bool_decide (L !! SortList t = Some []) || bool_decide (prv (links k) (SortList t) = None).

Definition self_check (hd : link) (l : list link) : bool :=
  match hd with SortList _ => bool_decide (l = []) | _ => true end.

Definition timers_check k L tl : bool :=
  bool_decide (L !! TimerSortHead = Some (SortList <$> tl)) &&
  forallb (fun t => match timers k !! t with Some x => active_status x =? TIMER_ACTIVE_TRUE | None => false end) tl &&
  forallb (fun '(t, x) => timer_check k L tl t x) (map_to_list (timers k)) &&
  forallb (fun '(hd, l) => self_check hd l) (map_to_list L).

Lemma timers_check_sound k L tl : timers_check k L tl = true -> timers_ok k L tl.
Proof.
  unfold timers_check. intros Hc. apply andb_true_iff in Hc as [Hc Hself]. apply andb_true_iff in Hc as [Hc Ht].
  apply andb_true_iff in Hc as [HL%bool_decide_eq_true Hin].
  assert (forall t x, timers k !! t = Some x -> timer_check k L tl t x = true) as Htc
    by (intros t x; by apply (forallb_map (timer_check k L tl))).
  split. intros t. split; [done| | | |].
  - intros u Hu _. apply (forallb_elem _ _ u) in Hin; [|done]. cbn beta in Hin. destruct (timers k !! u) as [x|]; [|done].
    apply Z.eqb_eq in Hin. by exists x.
  - intros u x E _. apply Htc in E as [_ Ha]%andb_true_iff.
    destruct (Z.eqb_spec (active_status x) TIMER_ACTIVE_TRUE); [by apply bool_decide_eq_true in Ha|split; [done|]].
    intros _. apply orb_true_iff in Ha as [?%bool_decide_eq_true|?%bool_decide_eq_true]; [by left|by right].
  - intros u [x E]. apply Htc in E as [Ha%bool_decide_eq_true _]%andb_true_iff. exact Ha.
  - intros u l HL'. apply (forallb_map self_check _ (SortList u) l) in Hself; [|done]. by apply bool_decide_eq_true in Hself.
Qed.
End timers_check.

(** ** A kernel with timers *)

(** Task 1 runs, 2 is READY and 3, of the work queue, is suspended.  The timers 1,
    2 and 4 run, 1 every 10 ticks; 3 is stopped. *)
Definition bell_tasks : list (ptr * TaskDescriptor) :=
  [(1%positive, wait_task KTASK_RUNNING 3 None 0 0); (2%positive, wait_task KTASK_READY 2 None 0 0);
   (3%positive, wait_task KTASK_SUSPEND 5 None 0 0)].

Definition bell_list : list (link * list link) :=
  [(SchedLink 1, []); (SchedLink 3, []); (ReadyVec 2, [SchedLink 2]); (ListHead CDelay, []); (ZombieHead, []);
   (ListHead CTask, [ObjLink CTask 1; ObjLink CTask 2; ObjLink CTask 3]);
   (ListHead CTimer, (fun i => ObjLink CTimer (Pos.of_succ_nat i)) <$> seq 0 4);
   (TimerSortHead, [SortList 1; SortList 2; SortList 4]); (SortList 3, [])] ++
  box_buckets CTask [1%positive] [2%positive] [3%positive] [] ++
  box_buckets CTimer [1%positive] [2%positive] [3%positive] [4%positive].
Definition bell_lists : gmap link (list link) := demo_lists bell_list.

Definition bell_timer (status mode origin deadline : Z) : Timer :=
  mkTimer "timer" status mode 8192 0 origin deadline 5 None.

Definition bell_timers : gmap ptr Timer :=
  {[1%positive := bell_timer TIMER_ACTIVE_TRUE TIMER_TRIGGER_PERIODIC 10 15;
    2%positive := bell_timer TIMER_ACTIVE_TRUE TIMER_TRIGGER_ONCE 8 18;
    3%positive := bell_timer TIMER_ACTIVE_FALSE TIMER_TRIGGER_ONCE 12 0;
    4%positive := bell_timer TIMER_ACTIVE_TRUE TIMER_TRIGGER_ONCE 60 70]}.

Definition bell : kstate :=
  mkKernel (memory_of bell_lists) (list_to_map bell_tasks) ∅ ∅ ∅ ∅ ∅ bell_timers
    (box_node_ids CTask 3 ∪ box_node_ids CTimer 4)
    {[CTask := box_manager 7; CTimer := box_manager 15]}
    (mkReadyVector (2 ^ 2) [] 2) (Some 1%positive) 0 0 true 0 0 10 EOK 2 ∅.

Abbreviation bell_running := [1%positive; 2%positive; 4%positive].

Lemma bell_ok : kernel_ok bell bell_lists (box_ids CTask 3) [].
Proof. apply kernel_check_sound. vm_compute. reflexivity. Qed.

Lemma bell_timers_ok : timers_ok bell bell_lists bell_running.
Proof. apply timers_check_sound. vm_compute. reflexivity. Qed.

Lemma bell_sorted : by_end (timers bell) bell_running.
Proof. repeat (apply SSorted_cons; [|repeat constructor; vm_compute; discriminate]). apply SSorted_nil. Qed.

(** The queue holds one entry; the callback of the timers is at 4096. *)
Definition bell_queue : WorkqueueType := mkWorkqueue 31 0 (replicate 31 (mkWork 0 0) ++ [mkWork 4000 7]) 2.
Definition bell_work : work_state := mkWorkState bell bell_queue.

Lemma bell_pending : pending [mkWork 4000 7] bell_queue.
Proof. split; [by split; cbn; unfold MAX_WORK_QUEUE; try lia|vm_compute; reflexivity]. Qed.

(** The task of the queue is woken and runs, having the highest priority. *)
Lemma WorkSubmit_immediate_correct_witness :
  exists r s', WorkSubmit_immediate (mkWork 4096 3) bell_work = Ret r s' /\
    works (sys_workq s') = [mkWork 4000 7; mkWork 4096 3] /\ woken (ws_kernel s') 3%positive /\ runs_highest (ws_kernel s').
Proof.
  destruct (wp_inv _ _ _ (WorkSubmit_immediate_correct bell_work bell_lists (box_ids CTask 3) [] 1%positive 3%positive _
    (mkWork 4096 3) _ bell_ok bell_pending eq_refl eq_refl eq_refl
    ltac:(by left; exists 2%positive, (wait_task KTASK_READY 2 None 0 0)) eq_refl)) as (r & s' & E & H).
  rewrite bool_decide_false in H by discriminate. destruct H as ([_ Hw] & _ & _ & Hwk & _ & Hr).
  exists r, s'. split; [exact E|]. split; [exact Hw|]. split; [by apply Hwk|by apply Hr].
Defined.

(** The task of the queue runs; while it has left the critical area two entries are
    submitted. *)
Definition bell_turn_tasks : list (ptr * TaskDescriptor) :=
  [(1%positive, wait_task KTASK_SUSPEND 3 None 0 0); (2%positive, wait_task KTASK_READY 2 None 0 0);
   (3%positive, wait_task KTASK_RUNNING 5 None 0 0)].
Definition bell_turn : work_state :=
  mkWorkState (set_os_running_task (Some 3%positive) (set_tasks (list_to_map bell_turn_tasks) bell)) bell_queue.

Lemma bell_turn_ok : kernel_ok (ws_kernel bell_turn) bell_lists (box_ids CTask 3) [].
Proof. apply kernel_check_sound. vm_compute. reflexivity. Qed.

(** A callback that leaves its parameter in the exit status. *)
Definition bell_call (f i p : Z) : M work_state unit := on_kernel (modify (fun k => set_exstatus_global p k)).

Lemma WorkQueueKTaskEntry_runs_oldest_witness :
  exists s' i, (taken ← take_work; interrupting [mkWork 4096 1; mkWork 4096 2];; run_work bell_call taken) bell_turn =
      bell_call 4000 i 7 s' /\
    works (sys_workq s') = [mkWork 4096 1; mkWork 4096 2].
Proof.
  destruct (WorkQueueKTaskEntry_runs_oldest bell_call bell_turn bell_lists (box_ids CTask 3) [] 3%positive _ (mkWork 4000 7) []
    [mkWork 4096 1; mkWork 4096 2] bell_turn_ok bell_pending eq_refl eq_refl eq_refl eq_refl ltac:(discriminate) eq_refl eq_refl)
    as (s' & L' & i & E & _ & [_ Hw] & _).
  exists s', i. split; [exact E|exact Hw].
Defined.

Lemma bell_object id t : object_check bell bell_lists (box_ids CTimer 4) CTimer id t = true -> has_object bell bell_lists CTimer id t.
Proof. apply object_check_sound. Qed.

(** Timer 3, of 12 ticks, ends between timers 2 and 4. *)
Lemma KTimerStartRun_correct_witness :
  exists k' L', KTimerStartRun 2 bell = Ret EOK k' /\
    timers_ok k' L' [1%positive; 2%positive; 3%positive; 4%positive] /\ kernel_ok k' L' (box_ids CTask 3) [].
Proof.
  destruct (wp_inv _ _ _ (KTimerStartRun_correct bell _ _ _ _ 2 3%positive _ bell_ok bell_timers_ok (bell_object 2 3%positive eq_refl)
    eq_refl ltac:(discriminate) eq_refl ltac:(cbn; lia))) as (r & k' & E & -> & _ & (L' & Hk & Ht) & _).
  exists k', L'. split; [exact E|]. split; [|exact Hk]. exact Ht.
Defined.

Lemma KTimerQuitRun_correct_witness :
  exists r k' L', KTimerQuitRun 1 bell = Ret r k' /\ timers_ok k' L' [1%positive; 4%positive] /\ kernel_ok k' L' (box_ids CTask 3) [].
Proof.
  destruct (wp_inv _ _ _ (KTimerQuitRun_correct bell _ _ _ _ 1 2%positive _ bell_ok bell_timers_ok (bell_object 1 2%positive eq_refl)
    eq_refl ltac:(cbn; lia))) as (r & k' & E & _ & (L' & Hk & Ht) & _).
  exists r, k', L'. split; [exact E|]. split; [|exact Hk]. exact Ht.
Defined.

(** At tick 20 timers 1 and 2 are due: timer 1 ends again at tick 30, timer 2 is
    stopped, and the two callbacks follow the entry of the queue. *)
Definition bell_tick : work_state := mkWorkState (set_isr_count 1 (set_heartbeat_ticks 20 bell)) bell_queue.
Definition bell_mem (t : ptr) : option Z := Some (Z.pos t * 256).

Lemma bell_timely : timely 20 (timers bell) bell_running.
Proof.
  split.
  - intros t Ht. repeat (apply elem_of_cons in Ht as [->|Ht]; [vm_compute; repeat split; discriminate|]). by apply elem_of_nil in Ht.
  - intros t x Ht. repeat (apply elem_of_cons in Ht as [->|Ht]; [intros [= <-]; vm_compute; try discriminate; done|]).
    by apply elem_of_nil in Ht.
Qed.

Lemma CheckTimerList_fires_witness :
  exists s', CheckTimerList 4096 bell_mem bell_tick = Ret tt s' /\
    works (sys_workq s') = [mkWork 4000 7; mkWork 4096 1; mkWork 4096 2] /\
    deadline_timeslice <$> timers (ws_kernel s') !! 1%positive = Some 30 /\
    active_status <$> timers (ws_kernel s') !! 2%positive = Some TIMER_ACTIVE_FALSE /\
    timers (ws_kernel s') !! 4%positive = timers bell !! 4%positive /\
    stat_of <$> tasks (ws_kernel s') !! 3%positive = Some KTASK_READY.
Proof.
  assert (kernel_ok (ws_kernel bell_tick) bell_lists (box_ids CTask 3) []) as Hko by by apply (kernel_ok_fields bell _ _ _ _ bell_ok).
  assert (timers_ok (ws_kernel bell_tick) bell_lists bell_running) as Hok by by apply (timers_ok_fields bell _ _ _ bell_timers_ok).
  destruct (wp_inv _ _ _ (CheckTimerList_fires 4096 bell_mem bell_tick bell_lists (box_ids CTask 3) [] bell_running 3%positive _ _
    Hko Hok bell_sorted bell_timely ltac:(intros t _; by eexists) bell_pending eq_refl eq_refl ltac:(cbn; lia) eq_refl ltac:(discriminate)))
    as ([] & s' & E & _ & Hf & [_ Hw] & Ets & _).
  exists s'. split; [exact E|]. split; [rewrite Hw; vm_compute; reflexivity|].
  split; [rewrite (Hf 1%positive); vm_compute; reflexivity|].
  split; [rewrite (Hf 2%positive); vm_compute; reflexivity|].
  split; [rewrite (Hf 4%positive); vm_compute; reflexivity|]. rewrite Ets. vm_compute. reflexivity.
Defined.
