(* ===== verification/Applications.v ===== *)
(** * The theorems on waiting tasks applied to a concrete kernel

    Each lemma runs one entry point on the kernel [box] of KernelCheck.v and takes
    what the theorem on it promises. *)

From S2P Require Import Prelude DoubleLink IdManager Bitmap Ring Kernel ReadyVector Assign Delay Task TaskInv Deadlines Priority PendList Creation Waiting WaitQueue BlockPool Interrupt Ticks Sleep Semaphore DataQueue Mutex Event MsgQueue SchedCheck KernelCheck ByteMemory HeapList HeapLayout Heap SmallMem Memory MemoryInit.

(** With 100 ticks a second 25 ms are 2 ticks. *)
Lemma CalculteTickFromTimeMs_bounds_witness :
  0 <= 25 * TICK_PER_SECOND < 2 ^ 32 /\ CalculteTickFromTimeMs 25 = 2.
Proof.
  assert (0 <= 25 * TICK_PER_SECOND < 2 ^ 32) as Hr by (cbn; lia). split; [exact Hr|].
  destruct (CalculteTickFromTimeMs_bounds 25) as (_ & _ & H). specialize (H Hr). rewrite H. vm_compute. reflexivity.
Defined.

(** The running task cannot be woken, but it can be suspended. *)
Lemma SuspendKTask_correct_witness :
  exists k', SuspendKTask 0 box = Ret EOK k' /\ exists L', kernel_ok k' L' (box_ids CTask 8) box_delays.
Proof.
  destruct (wp_inv _ _ _ (SuspendKTask_correct box _ _ _ 0 1%positive _ box_ok eq_refl eq_refl ltac:(cbn; lia)))
    as (r & k' & E & -> & _ & _ & L' & Hk & _).
  exists k'. split; [exact E|]. exists L'. exact Hk.
Defined.

Lemma KTaskWakeup_correct_witness :
  exists k', KTaskWakeup 3 box = Ret EOK k' /\ exists L', kernel_ok k' L' (box_ids CTask 8) [2%positive].
Proof.
  destruct (wp_inv _ _ _ (KTaskWakeup_correct box _ _ _ 3 4%positive _ box_ok eq_refl eq_refl ltac:(cbn; lia)))
    as (r & k' & E & -> & _ & _ & L' & Hk & _).
  exists k'. split; [exact E|]. exists L'. exact Hk.
Defined.

Lemma box_sorted : by_deadline (delays box) box_delays.
Proof.
  apply SSorted_cons; [apply SSorted_cons; constructor|]. constructor; [vm_compute; discriminate|constructor].
Qed.

(** A task that never waited gets its first [Delay], 15 ticks ahead. *)
Lemma KTaskSetDelay_correct_witness :
  exists k' d dl', KTaskSetDelay (Some 9%positive) 6%positive 15 box = Ret EOK k' /\
    by_deadline (delays k') dl' /\ dl' ≡ₚ [d; 1%positive; 2%positive] /\
    delays k' !! d = Some (mkDelay 6 25 TASK_DELAY_ACTIVE).
Proof.
  destruct (wp_inv _ _ _ (KTaskSetDelay_correct box _ _ _ (Some 9%positive) 6%positive _ 15 box_ok box_sorted eq_refl
    ltac:(cbn; lia) ltac:(intros d _ [= <-]; by split))) as (r & k' & E & [(_ & _ & _ & Hm)|(-> & d & L' & dl' & _ & Hby & Hp & _ & Hd)]);
    [discriminate Hm|].
  exists k', d, dl'. split; [exact E|]. split; [exact Hby|]. split; [exact Hp|exact Hd].
Defined.

(** In the tick interrupt at tick 20 task 4 times out and task 5 does not. *)
Definition box_tick : kstate := set_isr_count 1 (set_heartbeat_ticks 20 box).

Lemma box_in_range : in_range box_tick box_delays.
Proof.
  split; [cbn; lia|]. intros d Hd.
  repeat (apply elem_of_cons in Hd as [->|Hd]; [vm_compute; repeat split; discriminate|]). by apply elem_of_nil in Hd.
Qed.

Lemma CheckTaskDelay_expires_witness :
  exists k', CheckTaskDelay box_tick = Ret tt k' /\
    exstatus <$> tasks k' !! 4%positive = Some (- ETIMEOUT) /\ tasks k' !! 5%positive = tasks box !! 5%positive.
Proof.
  assert (kernel_ok box_tick box_lists (box_ids CTask 8) box_delays) as Hko by by apply (kernel_ok_fields box _ _ _ _ box_ok).
  assert (in_range box_tick box_delays) as Hr by apply box_in_range.
  destruct (wp_inv _ _ _ (CheckTaskDelay_expires box_tick _ _ _ Hko box_sorted Hr eq_refl ltac:(discriminate)))
    as ([] & k' & E & _ & _ & Ht).
  exists k'. split; [exact E|]. split.
  - rewrite (Ht 4%positive _ eq_refl). vm_compute. reflexivity.
  - rewrite (Ht 5%positive _ eq_refl). vm_compute. reflexivity.
Defined.

(** The board's handler of the tick interrupt, at address 4096. *)
Definition box_call (h vector par : Z) : M isr_state unit :=
  if h =? 4096 then SysTick_Handler vector par else hang.
Definition box_irqs : isr_state :=
  mkIsrState box (<[15%nat := mkIrqDesc 4096 0]> (replicate 256 no_irq)).

Lemma RegisterHwIrq_dispatches_witness :
  IsrCommon box_call 20 box_irqs = Hang /\
  exists s1, RegisterHwIrq 20 4096 7 box_irqs = Ret EOK s1 /\ IsrCommon box_call 20 s1 = box_call 4096 20 7 s1.
Proof.
  split; [reflexivity|].
  destruct (RegisterHwIrq_dispatches box_call 20 4096 7 box_irqs ltac:(lia) eq_refl ltac:(discriminate))
    as (s1 & s2 & E & Hd & _).
  exists s1. split; [exact E|exact Hd].
Defined.

Lemma box_steady : steady box box_lists (box_ids CTask 8) box_delays.
Proof.
  split; [apply box_ok|apply box_sorted|cbn; lia| |done|done|by exists 1%positive, (wait_task KTASK_RUNNING 3 None 0 0)].
  intros d Hd. repeat (apply elem_of_cons in Hd as [->|Hd]; [vm_compute; repeat split; discriminate|]). by apply elem_of_nil in Hd.
Qed.

(** Task 1 sleeps for 50 ms, 5 ticks; meanwhile task 8 is woken. *)
Lemma MdelayKTask_wakes_on_time_witness :
  exists s', (r ← in_kernel (MdelayKTask (Some 9%positive) 50);
              run box_call ([Tick; Tick; Other (in_kernel (KTaskWakeup 7);; mret tt); Tick; Tick] ++ [Tick]);; mret r) box_irqs =
             Ret None s' /\ heartbeat_ticks (kernel s') = 15 /\ timed_out (kernel s') 1%positive.
Proof.
  destruct (wp_inv _ _ _ (proj2 (MdelayKTask_wakes_on_time box_call 4096 0 ltac:(discriminate) (fun _ _ => eq_refl)
    (box_ids CTask 8) box_lists box_delays (Some 9%positive) 1%positive (wait_task KTASK_RUNNING 3 None 0 0) 50
    [Tick; Tick; Other (in_kernel (KTaskWakeup 7);; mret tt); Tick; Tick] box_irqs box_steady
    (box_context (Some 9%positive) ltac:(intros d Hd; by injection Hd)) ltac:(discriminate) eq_refl ltac:(discriminate) eq_refl
    ltac:(repeat first [apply Forall_nil; exact Logic.I | apply Forall_cons; split];
          first [exact Logic.I | by apply (KTaskWakeup_undisturbing 4096 0 _ _ _ 7 8%positive)])) eq_refl))
    as (r & s' & E & -> & Hnow & Ht & _).
  exists s'. split; [exact E|]. split; [exact Hnow|exact Ht].
Defined.

(** The running task gets priority 7. *)
Lemma KTaskPrioSet_not_ready_witness :
  exists k', KTaskPrioSet 0 7 box = Ret EOK k' /\ kernel_ok k' box_lists (box_ids CTask 8) box_delays.
Proof.
  destruct (wp_inv _ _ _ (KTaskPrioSet_not_ready box _ _ _ 0 1%positive _ 7 box_ok eq_refl eq_refl ltac:(discriminate)
    ltac:(cbn; lia))) as (r & k' & E & -> & _ & Hk).
  exists k'. split; [exact E|]. apply Hk. cbn. lia.
Defined.

(** The running task, of priority 3, waits on the mutex before task 5 would be: its
    priority is larger. *)
Lemma LinklistSuspend_order_witness :
  exists k' L', LinklistSuspend (PendList CMutex 2) 1%positive LINKLIST_FLAG_FIFO box = Ret EOK k' /\
    L' !! PendList CMutex 2 = Some [SchedLink 5; SchedLink 1] /\ kernel_ok k' L' (box_ids CTask 8) box_delays.
Proof.
  destruct (wp_inv _ _ _ (LinklistSuspend_order box _ _ _ 1%positive _ (PendList CMutex 2) _ LINKLIST_FLAG_FIFO
    box_ok eq_refl eq_refl eq_refl eq_refl eq_refl ltac:(by left) ltac:(cbn; lia)))
    as (r & k' & E & -> & _ & _ & L' & l' & Hk & HL & _ & Hf & _).
  exists k', L'. split; [exact E|]. split; [|exact Hk]. rewrite HL, (Hf eq_refl). reflexivity.
Defined.

(** ** Semaphores, mutexes, events and queues *)

Lemma box_sem_2 : sem_ok box box_lists 2 2 [].
Proof. by split. Qed.

Lemma box_sem_1 : sem_ok box box_lists 1 0 [SchedLink 4].
Proof. split; [reflexivity|lia|reflexivity]. Qed.

(** Semaphore 2 is free; on semaphore 1, with the value 0, task 1 has to wait. *)
Lemma KSemaphoreObtain_correct_witness :
  exists k1 k2, KSemaphoreObtain None 1 100 box = Ret (Some EOK) k1 /\
    KSemaphoreObtain (Some 9%positive) 0 100 box = Ret None k2 /\ runs_highest k2 /\
    sems k1 !! 2%positive = Some (mkSemaphore 1).
Proof.
  destruct (wp_inv _ _ _ (KSemaphoreObtain_correct box _ _ _ None 1 _ _ _ 100 _ _ box_ok
    (box_object CSem 2 1 2%positive eq_refl) box_sem_2 (box_context None ltac:(discriminate))))
    as (r1 & k1 & E1 & -> & Ek1).
  destruct (wp_inv _ _ _ (KSemaphoreObtain_correct box _ _ _ (Some 9%positive) 0 _ _ _ 100 _ _ box_ok
    (box_object CSem 2 0 1%positive eq_refl) box_sem_1 (box_context (Some 9%positive) ltac:(by intros d [= <-]))))
    as (r2 & k2 & E2 & -> & Hr & _).
  exists k1, k2. split; [exact E1|]. split; [exact E2|]. split; [exact Hr|]. by rewrite Ek1.
Defined.

(** Task 4 gets semaphore 1. *)
Lemma KSemaphoreAbandon_correct_witness :
  exists k', KSemaphoreAbandon 0 box = Ret EOK k' /\ woken k' 4%positive /\ runs_highest k'.
Proof.
  destruct (wp_inv _ _ _ (KSemaphoreAbandon_correct box _ _ _ 0 _ _ _ 1%positive box_ok
    (box_object CSem 2 0 1%positive eq_refl) box_sem_1 eq_refl eq_refl))
    as (r & k' & E & -> & w & L' & dl' & Ew & _ & _ & Hw & Hr & _).
  injection Ew as <-. exists k'. split; [exact E|]. split; [exact Hw|]. by apply Hr.
Defined.

Lemma box_mutex_ok (m : ptr) o l :
  mutexes box !! m = Some (mutex_repr o) -> box_lists !! PendList CMutex m = Some l -> (o = None -> l = []) ->
  match o with Some (_, n, origin) => n = 1 /\ 0 <= origin < 8 | None => True end -> mutex_ok box box_lists m o l.
Proof. intros Em HL Hf Ho. split; [done..|]. intros t n origin ->. destruct Ho as [-> ?]. cbn. lia. Qed.

(** [box] with mutex 3 held by the READY task 3 of priority 1. *)
Definition held_box : kstate := set_mutexes (<[3%positive := mutex_repr (Some (3%positive, 1, 1))]> (mutexes box)) box.

Lemma held_box_moves : moves_soundly box_lists 3 1 3.
Proof. intros lq lp Hq Hp. vm_compute in Hq, Hp. injection Hq as <-. injection Hp as <-. by vm_compute. Qed.

Lemma held_box_ok : kernel_ok held_box box_lists (box_ids CTask 8) box_delays.
Proof. eapply kernel_ok_fields; [exact box_ok|done..]. Qed.

Lemma held_box_mutex : mutex_ok held_box box_lists 3 (Some (3%positive, 1, 1)) [].
Proof. split; [done|done|done|]. intros t n origin [= <- <- <-]. cbn. lia. Qed.

Lemma held_box_context : task_context held_box 1 (wait_task KTASK_RUNNING 3 None 0 0) None.
Proof. by destruct (box_context None ltac:(discriminate)). Qed.

(** Mutex 1 is free; mutex 3 belongs to the suspended task 5, or to the READY task 3,
    which both inherit priority 3. *)
Lemma KMutexObtain_correct_witness :
  exists k1 k3 k4, KMutexObtain None 0 100 box = Ret (Some EOK) k1 /\
    mutexes k1 !! 1%positive = Some (mutex_repr (Some (1%positive, 1, 3))) /\
    KMutexObtain None 2 100 box = Ret None k3 /\ runs_highest k3 /\ (cur_prio <$> tasks k3 !! 5%positive) = Some 3 /\
    KMutexObtain None 2 100 held_box = Ret None k4 /\ runs_highest k4 /\ (cur_prio <$> tasks k4 !! 3%positive) = Some 3.
Proof.
  destruct (wp_inv _ _ _ (KMutexObtain_correct box _ _ _ None 0 1%positive None [] 100 _ _ box_ok
    (box_object CMutex 3 0 1%positive eq_refl) (box_mutex_ok 1 None [] eq_refl eq_refl (fun _ => eq_refl) Logic.I)
    (box_context None ltac:(discriminate)) ltac:(discriminate))) as (r1 & k1 & E1 & -> & Ek1).
  destruct (wp_inv _ _ _ (KMutexObtain_correct box _ _ _ None 2 3%positive (Some (5%positive, 1, 2)) [] 100 _ _ box_ok
    (box_object CMutex 3 2 3%positive eq_refl)
    (box_mutex_ok 3 (Some (5%positive, 1, 2)) [] eq_refl eq_refl (fun _ => eq_refl) ltac:(cbn; lia))
    (box_context None ltac:(discriminate))
    ltac:(intros h n o [= <- <- <-] _; eexists; split; [reflexivity|discriminate]))) as (r3 & k3 & E3 & H3).
  rewrite bool_decide_false in H3 by discriminate.
  destruct H3 as (-> & Hr & _ & _ & _ & _ & _ & _ & _ & _ & td5 & td5' & Etd5 & Etd5' & E5).
  destruct (wp_inv _ _ _ (KMutexObtain_correct held_box _ _ _ None 2 3%positive (Some (3%positive, 1, 1)) [] 100 _ _ held_box_ok
    (box_object CMutex 3 2 3%positive eq_refl) held_box_mutex held_box_context
    ltac:(intros h n o [= <- <- <-] _; eexists; split; [reflexivity|intros _ _; exact held_box_moves])))
    as (r4 & k4 & E4 & H4).
  rewrite bool_decide_false in H4 by discriminate.
  destruct H4 as (-> & Hr4 & _ & _ & _ & _ & _ & _ & _ & _ & td3 & td3' & Etd3 & Etd3' & E6).
  exists k1, k3, k4. split; [exact E1|]. split; [rewrite Ek1; vm_compute; reflexivity|].
  split; [exact E3|]. split; [exact Hr|]. split.
  { rewrite Etd5'. injection Etd5 as <-. cbn [fmap option_fmap option_map]. f_equal. rewrite E5. vm_compute. reflexivity. }
  split; [exact E4|]. split; [exact Hr4|].
  rewrite Etd3'. injection Etd3 as <-. cbn [fmap option_fmap option_map]. f_equal. rewrite E6. vm_compute. reflexivity.
Defined.

(** [box] with mutex 2 taken by task 1 at priority 0. *)
Definition inherited_box : kstate := set_mutexes (<[2%positive := mutex_repr (Some (1%positive, 1, 0))]> (mutexes box)) box.

Lemma inherited_box_ok : kernel_ok inherited_box box_lists (box_ids CTask 8) box_delays.
Proof. eapply kernel_ok_fields; [exact box_ok|done..]. Qed.

Lemma inherited_box_mutex : mutex_ok inherited_box box_lists 2 (Some (1%positive, 1, 0)) [SchedLink 5].
Proof. split; [done|done|done|]. intros t n origin [= <- <- <-]. cbn. lia. Qed.

(** Task 1, which inherited priority 3 and took mutex 2 at priority 0, gives it back:
    task 5 gets it and task 1 its old priority. *)
Lemma KMutexAbandon_correct_witness :
  exists k', KMutexAbandon 1 inherited_box = Ret EOK k' /\ woken k' 5%positive /\ runs_highest k' /\
    (cur_prio <$> tasks k' !! 1%positive) = Some 0.
Proof.
  destruct (wp_inv _ _ _ (KMutexAbandon_correct inherited_box _ _ _ 1 2%positive (Some (1%positive, 1, 0)) [SchedLink 5] 1%positive _
    inherited_box_ok (box_object CMutex 3 1 2%positive eq_refl) inherited_box_mutex
    eq_refl eq_refl eq_refl eq_refl eq_refl)) as (r & k' & E & H).
  rewrite bool_decide_true in H by reflexivity.
  destruct H as (-> & w & tdw & L' & dl' & Ew & _ & _ & _ & Hw & Hr & td1 & Etd1 & E1).
  injection Ew as <-. exists k'. split; [exact E|]. split; [exact Hw|]. split; [exact Hr|].
  rewrite Etd1. cbn [fmap option_fmap option_map]. f_equal. rewrite E1. vm_compute. reflexivity.
Defined.

Lemma box_event : event_ok box box_lists 1 (mkEvent 0 0) [SchedLink 6; SchedLink 7].
Proof. by split. Qed.

(** Bit 2 wakes task 6, which takes it away; task 7 goes on waiting. *)
Lemma KEventTrigger_correct_witness :
  exists k', KEventTrigger 0 4 box = Ret EOK k' /\ runs_highest k' /\ event_objs k' !! 1%positive = Some (mkEvent 0 0).
Proof.
  destruct (wp_inv _ _ _ (KEventTrigger_correct box _ _ _ 0 _ _ _ 4 1%positive box_ok
    (box_object CEvent 1 0 1%positive eq_refl) box_event eq_refl eq_refl eq_refl)) as (r & k' & E & H).
  change (4 =? 0) with false in H. cbv iota in H. destruct H as (-> & H).
  destruct (deliver _ _ _) as [[[ev' ts'] ws] l'] eqn:Ed in H.
  vm_compute in Ed. injection Ed as <- <- <- <-. destruct H as (L' & dl' & _ & He & _ & Hr & _).
  exists k'. split; [exact E|]. split; [by apply Hr|]. apply (ek_object _ _ _ _ _ He).
Defined.

Lemma KEventProcess_correct_witness :
  exists k', KEventProcess None 0 8 EVENT_OR 100 box = Ret None k' /\ runs_highest k'.
Proof.
  destruct (wp_inv _ _ _ (KEventProcess_correct box _ _ _ None 0 _ _ _ 8 EVENT_OR 100 _ _ box_ok
    (box_object CEvent 1 0 1%positive eq_refl) box_event (box_context None ltac:(discriminate)) eq_refl ltac:(by left)))
    as (r & k' & E & H).
  change (8 =? 0) with false in H. change (occurred _ _ _) with false in H. cbv iota zeta in H.
  destruct H as (-> & Hr & _). exists k'. split; [exact E|exact Hr].
Defined.

Lemma box_mq_1 : mq_ok box box_lists 1 2 4 [] [] [SchedLink 8].
Proof.
  split; [|done..]. exists (replicate 8 0), 1. split; [done|]. split; [done|lia|lia|lia|cbn; lia|].
  intros j m Hm. by rewrite lookup_nil in Hm.
Qed.

Lemma box_mq_2 : mq_ok box box_lists 2 1 4 [[7; 9]] [] [].
Proof.
  split; [|done..]. exists [7; 9; 0; 0], 0. split; [done|]. split; [done|lia|lia|lia|cbn; lia|].
  intros [|j] m Hm; [|done]. injection Hm as <-. split; [cbn; lia|].
  intros [|[|n]] e He; cbn in He; [by injection He as <-|by injection He as <-|done].
Qed.

(** Task 8 gets the message sent to queue 1; queue 2 is full. *)
Lemma KMsgQueueSendwait_correct_witness :
  exists k1 k2, KMsgQueueSendwait None 0 [5] 100 box = Ret (MqDone EOK []) k1 /\
    KMsgQueueSendwait None 1 [5] 100 box = Ret (MqWaiting 10 10) k2 /\ runs_highest k2.
Proof.
  destruct (wp_inv _ _ _ (KMsgQueueSendwait_correct box _ _ _ None 0 _ _ _ _ _ _ [5] 100 _ (wait_task KTASK_RUNNING 3 None 0 0)
    box_ok (box_object CMq 2 0 1%positive eq_refl) box_mq_1 eq_refl eq_refl
    ltac:(intros _; by apply box_context))) as (r1 & k1 & E1 & -> & _).
  destruct (wp_inv _ _ _ (KMsgQueueSendwait_correct box _ _ _ None 1 _ _ _ _ _ _ [5] 100 _ (wait_task KTASK_RUNNING 3 None 0 0)
    box_ok (box_object CMq 2 1 2%positive eq_refl) box_mq_2 eq_refl eq_refl
    ltac:(intros _; by apply box_context))) as (r2 & k2 & E2 & -> & Hr & _).
  exists k1, k2. split; [exact E1|]. split; [exact E2|exact Hr].
Defined.

Lemma KMsgQueueRecv_correct_witness :
  exists k1 k2 data, KMsgQueueRecv None 0 4 100 box = Ret (MqWaiting 10 10) k1 /\ runs_highest k1 /\
    KMsgQueueRecv None 1 2 100 box = Ret (MqDone EOK data) k2 /\ [7; 9] `prefix_of` data.
Proof.
  destruct (wp_inv _ _ _ (KMsgQueueRecv_correct box _ _ _ None 0 _ _ _ _ _ _ 4 100 _ (wait_task KTASK_RUNNING 3 None 0 0)
    box_ok (box_object CMq 2 0 1%positive eq_refl) box_mq_1 ltac:(lia) eq_refl eq_refl
    ltac:(intros _; by apply box_context))) as (r1 & k1 & E1 & -> & Hr & _).
  destruct (wp_inv _ _ _ (KMsgQueueRecv_correct box _ _ _ None 1 _ _ _ _ _ _ 2 100 _ (wait_task KTASK_RUNNING 3 None 0 0)
    box_ok (box_object CMq 2 1 2%positive eq_refl) box_mq_2 ltac:(lia) eq_refl eq_refl
    ltac:(discriminate))) as (r2 & k2 & E2 & data & -> & _ & _ & Hp).
  exists k1, k2, data. split; [exact E1|]. split; [exact Hr|]. split; [exact E2|exact Hp].
Defined.

(** ** Wait queues *)

(** Queue 5 has the node 1, of the suspended task 4. *)
Definition queue_lists : gmap wlink (list wlink) := {[WHead 5 := [WNode 1]]}.
Definition queue_nodes : gmap ptr WaitqueueNode := {[1%positive := mkWaitNode (Some 4%positive) None 0 0]}.
Definition box_queue : wq_state := mkWqState box (memory_of queue_lists) queue_nodes.

Lemma queue_rep : rep (memory_of queue_lists) queue_lists.
Proof. apply rep_check_sound. vm_compute. reflexivity. Qed.

(** Task 1 waits there for 20 ticks. *)
Lemma WqueueWait_never_times_out_witness :
  exists s', WqueueWait (Some 9%positive) (Some 2%positive) 5 20 box_queue = Ret None s' /\ runs_highest (wq_kernel s') /\
    exists L' dl' td', kernel_ok (wq_kernel s') L' (box_ids CTask 8) dl' /\ tasks (wq_kernel s') !! 1%positive = Some td' /\
      unset td' dl' = dl'.
Proof.
  destruct (wp_inv _ _ _ (WqueueWait_never_times_out box _ _ _ (memory_of queue_lists) _ queue_nodes (Some 9%positive)
    1%positive _ 5 2 _ 20 box_ok (box_context (Some 9%positive) ltac:(intros d Hd; by injection Hd)) queue_rep eq_refl eq_refl
    ltac:(discriminate))) as (r & s' & E & -> & [Hr _ _ _ (L' & dl' & td' & Hk & Et & _ & Hun)]).
  exists s'. split; [exact E|]. split; [exact Hr|]. exists L', dl', td'. split; [exact Hk|]. split; [exact Et|exact Hun].
Defined.

(** Task 4 is woken, and task 1 goes on running. *)
Lemma WakeupWqueue_wakes_witness :
  exists k', WakeupWqueue (fun _ _ _ => mret 0) 5 1 box_queue = Ret tt (mkWqState k' (memory_of queue_lists) queue_nodes) /\
    os_running_task k' = Some 1%positive /\ stat_of <$> tasks k' !! 4%positive = Some KTASK_READY.
Proof.
  destruct (wp_inv _ _ _ (WakeupWqueue_wakes (fun _ _ _ => mret 0) (fun _ _ _ => 0) (fun _ _ _ _ => eq_refl) box _ _ _
    (memory_of queue_lists) _ queue_nodes 5 [1%positive] 1 box_ok queue_rep eq_refl
    ltac:(intros n ->%list_elem_of_singleton; eexists _, _; split; [reflexivity|split; [reflexivity|by eexists]]) ltac:(lia) ltac:(cbn; lia)))
    as ([] & s' & E & k' & L' & dl' & -> & _ & _ & Hr & Ets).
  exists k'. split; [exact E|]. split; [exact Hr|]. rewrite Ets. vm_compute. reflexivity.
Defined.

(** ** A data queue *)

(** One more semaphore with the value 1; the queue of four places holds one element. *)
Definition depot_lists : gmap link (list link) :=
  <[Bucket CSem 2 := [IdLink CSem 3]]> (<[PendList CSem 3 := []]> box_lists).
Definition depot : kstate :=
  set_managers (<[CSem := box_manager 7]> (managers box)) (set_node_ids (<[IdLink CSem 3 := 2]> (node_ids box))
    (set_links (memory_of depot_lists) (set_sems (<[3%positive := mkSemaphore 1]> (sems box)) box))).

Lemma depot_ok : kernel_ok depot depot_lists (box_ids CTask 8) box_delays.
Proof. apply kernel_check_sound. vm_compute. reflexivity. Qed.

Lemma depot_object id p : object_check depot depot_lists (box_ids CSem 3) CSem id p = true -> has_object depot depot_lists CSem id p.
Proof. apply object_check_sound. Qed.

Lemma depot_context mem : (forall d, mem = Some d -> d = 9%positive) ->
  task_context depot 1%positive (wait_task KTASK_RUNNING 3 None 0 0) mem.
Proof.
  intros Hd. split; try done; [by exists 2%positive, (wait_task KTASK_READY 5 None 0 0)|].
  intros d _ ->%Hd. split; [|done]. by apply eq_None_not_Some.
Qed.

Definition element (n : Z) : DataElemType := mkDataElem (4096 + n) n.
Definition depot_queue : DataQueueType :=
  mkDataqueue 3 0 4 (Some [element 0; element 0; element 0; element 1]) 1 2.

Lemma depot_ring : dq_ring depot_queue [element 1].
Proof.
  split; [cbn; lia|reflexivity|]. eexists. split; [reflexivity|]. split; [cbn; lia..|].
  by intros i e [-> <-]%list_lookup_singleton_Some.
Qed.

Lemma depot_objects : dq_objects (mkDqState depot depot_queue) depot_lists 2 3.
Proof. split; [by apply depot_object|by apply depot_object|done]. Qed.

Lemma depot_rep : dq_rep (mkDqState depot depot_queue) depot_lists 2 3 2 1 [] [] [element 1].
Proof. split; [apply depot_ring|by split|by split|cbn; lia|cbn; lia]. Qed.


Lemma PushDataqueue_correct_witness :
  exists s' L', PushDataqueue None (Some 4098) 2 0 (mkDqState depot depot_queue) = Ret (Some EOK) s' /\
    dq_rep s' L' 2 3 1 2 [] [] [element 1; element 2].
Proof.
  destruct (wp_inv _ _ _ (PushDataqueue_correct depot depot_queue _ _ _ None _ _ _ _ _ _ _ 4098 2 0 _ _ depot_ok depot_rep
    depot_objects (depot_context None ltac:(discriminate)) ltac:(by left))) as (r & s' & E & L' & dl' & _ & -> & _ & Hrep).
  exists s', L'. split; [exact E|exact Hrep].
Defined.


(** The same kernel with a full queue: task 4 waits for a vacancy. *)
Definition full_queue : DataQueueType :=
  mkDataqueue 0 3 4 (Some [element 1; element 2; element 3; element 0]) 0 2.

Lemma full_rep : dq_rep (mkDqState depot full_queue) depot_lists 1 3 0 1 [SchedLink 4] [] [element 1; element 2; element 3].
Proof.
  split; [|split; [reflexivity|lia|reflexivity]|by split|cbn; lia|cbn; lia].
  split; [cbn; lia|reflexivity|]. eexists. split; [reflexivity|]. split; [cbn; lia..|].
  intros [|[|[|i]]] e Hi; cbn in Hi; [exact Hi..|done].
Qed.

Lemma full_objects : dq_objects (mkDqState depot full_queue) depot_lists 1 3.
Proof. split; [by apply depot_object|by apply depot_object|done]. Qed.

Lemma DataQueue_other_timeouts_witness :
  exists s', PushDataqueue None (Some 4100) 4 10 (mkDqState depot full_queue) = Ret (Some EOK) s' /\ dqueue s' = full_queue /\
    sems (dq_kernel s') !! 3%positive = Some (mkSemaphore 2).
Proof.
  destruct (wp_inv _ _ _ (proj1 (DataQueue_other_timeouts depot full_queue _ _ _ None _ _ _ _ _ _ _ 4100 4 10 1%positive
    depot_ok full_rep full_objects ltac:(discriminate) ltac:(discriminate) eq_refl eq_refl) eq_refl)) as (r & s' & E & -> & Eq & Hrel).
  exists s'. split; [exact E|]. split; [exact Eq|]. cbn in Hrel. rewrite Hrel. vm_compute. reflexivity.
Defined.

(** ** A block pool *)

(** A pool of three blocks of 8 bytes: the first is handed out, and task 8 waits. *)
Definition silo_lists : gmap link (list link) :=
  <[ListHead CGather := [ObjLink CGather 1]]> (<[PendList CGather 1 := [SchedLink 8]]> (<[PendList CMq 1 := []]> box_lists)).
Definition silo : kstate := set_links (memory_of silo_lists) box.

Lemma silo_ok : kernel_ok silo silo_lists (box_ids CTask 8) box_delays.
Proof. apply kernel_check_sound. vm_compute. reflexivity. Qed.

Lemma silo_context mem : (forall d, mem = Some d -> d = 9%positive) ->
  task_context silo 1%positive (wait_task KTASK_RUNNING 3 None 0 0) mem.
Proof.
  intros Hd. split; try done; [by exists 2%positive, (wait_task KTASK_READY 5 None 0 0)|].
  intros d _ ->%Hd. split; [|done]. by apply eq_None_not_Some.
Qed.

Definition grain : MemGather := mkGather "grain" 0 0 (Some 4096) 36 8 (Some 4108) 3 2.
Definition silo_words : gmap Z header := {[4096 := HPool 1; 4108 := HNext (Some 4120); 4120 := HNext None]}.

Lemma grain_ok : pool_ok grain silo_words 1 [4108; 4120] [4096].
Proof.
  split; [cbn; lia| |reflexivity| |].
  - exists 4096. split; [reflexivity|]. split; [lia|]. split; [vm_compute; reflexivity|].
    change (blocks_from 4096 (one_block_size grain + SIZEOF_PTR) 0 (Z.to_nat (block_total_number grain))) with [4096; 4108; 4120].
    apply (Permutation_app_comm [4108; 4120] [4096]).
  - split; [reflexivity|]. eexists. split; [reflexivity|]. split; [reflexivity|]. eexists. by split.
  - by intros b ->%list_elem_of_singleton.
Qed.

Definition grains : gmap ptr MemGather := {[1%positive := grain]}.
Definition silo_state : gm_state := mkGmState silo grains silo_words.

(** The second block is handed out. *)
Lemma AllocBlockMemGather_correct_witness :
  exists s' x', AllocBlockMemGather None (Some 1%positive) 100 silo_state = Ret (GmReturns (Some 4112)) s' /\
    pool_ok x' (words s') 1 [4120] [4108; 4096].
Proof.
  destruct (wp_inv _ _ _ (AllocBlockMemGather_correct silo _ _ _ grains silo_words None 1 grain _ _ _ 100 _ _
    silo_ok eq_refl grain_ok eq_refl (silo_context None ltac:(discriminate)))) as (r & s' & E & -> & _ & x' & _ & Hp & _).
  exists s', x'. split; [exact E|exact Hp].
Defined.

(** The first block comes back, and task 8 is woken. *)
Lemma FreeBlockMemGather_correct_witness :
  exists s' x', FreeBlockMemGather (Some 4100) silo_state = Ret tt s' /\
    pool_ok x' (words s') 1 [4096; 4108; 4120] [] /\ runs_highest (gm_kernel s').
Proof.
  destruct (wp_inv _ _ _ (FreeBlockMemGather_correct silo _ _ _ grains silo_words 1 grain 4096 _ _ _ 1%positive
    silo_ok eq_refl grain_ok eq_refl eq_refl eq_refl)) as ([] & s' & E & x' & _ & Hp & _ & t & L' & dl' & _ & _ & _ & _ & _ & Hr & _).
  exists s', x'. split; [exact E|]. split; [exact Hp|by apply Hr].
Defined.

(** A second pool of three blocks is created. *)
Lemma CreateMemGather_correct_witness :
  exists s' x, CreateMemGather (Some 2%positive) (fun _ => Some 4096) (Some "hay"%string) 3 5 silo_state = Ret (Some 2%positive) s' /\
    pool_ok x (words s') 2 [4096; 4108; 4120] [].
Proof.
  destruct (wp_inv _ _ _ (CreateMemGather_correct silo _ _ _ grains silo_words 2 (fun _ => Some 4096) "hay" 3 5 _
    silo_ok eq_refl ltac:(intros y Hy; repeat (apply elem_of_cons in Hy as [->|Hy]; [vm_compute; reflexivity|]); by apply elem_of_nil in Hy)
    eq_refl eq_refl ltac:(cbn; lia) ltac:(lia) ltac:(lia) ltac:(vm_compute; reflexivity)
    ltac:(intros start [= <-]; split; [lia|]; split; [vm_compute; reflexivity|];
          intros [|[|[|j]]] Hj; [vm_compute; by eexists..|vm_compute in Hj; lia])))
    as (r & s' & E & L' & _ & -> & (x & _ & _ & Hp) & _).
  exists s', x. split; [exact E|exact Hp].
Defined.

(** ** The heap *)

(** Two small segments in a region from 8192 to 16384. *)
#[export] Instance demo_memory : MemConfig := {
  KERNEL_SMALL_MEM_ALLOC := true;
  SMALL_NUMBER_32B := 4; SMALL_NUMBER_64B := 2; MM_PAGE_SIZE := 4096;
  segment_address big := if big then 200 else 100
}.
#[export] Instance demo_memory_ok : MemConfigOk.
Proof. split; try (vm_compute; congruence). by left. Qed.

Definition no_memory : sysmem :=
  mkSysmem box (mkByteMemory ∅ 0 0 0 0 0 0 0 0 (mkSegment 0 0 0 0) (mkSegment 0 0 0 0)).
Definition result {A : Type} (d : A) (o : outcome sysmem A) : A * sysmem :=
  match o with Ret v s => (v, s) | Hang | Fault => (d, no_memory) end.

Lemma result_wp {A : Type} (d : A) (f : M sysmem A) s (Q : A -> sysmem -> Prop) :
  wp f Q s -> Q (result d (f s)).1 (result d (f s)).2.
Proof. unfold wp. by destruct (f s). Qed.

(** After initialisation, and after an allocation of 100 bytes. *)
Definition started : sysmem := (result tt (InitBoardMemory 8000 20000 no_memory)).2.
Definition allocated : option Z * sysmem := result None (x_malloc 100 started).

Lemma started_holds : heap_holds (byte_manager started) [] /\ kern started = box.
Proof.
  apply (result_wp tt (InitBoardMemory 8000 20000) no_memory (fun _ s => heap_holds (byte_manager s) [] /\ kern s = box)).
  apply wp_InitBoardMemory;
    [done|done|done|by vm_compute|by vm_compute|right; by vm_compute|by intros []|by split; [|intros []]|by intros Hlt; vm_compute in Hlt|].
  intros m _ Hm. by split.
Qed.

Lemma x_malloc_result s k : heap_holds (byte_manager s) [] -> kern s = k -> may_lock s ->
  let r := result None (x_malloc 100 s) in
  r.1 = None \/ exists p u, heap_holds (byte_manager r.2) [(p, u)] /\ kern r.2 = k.
Proof.
  intros H <- Hn r.
  apply (result_wp None (x_malloc 100) s (fun v s' => v = None \/ exists p u, heap_holds (byte_manager s') [(p, u)] /\ kern s' = kern s)).
  eapply wp_x_malloc; [exact H|exact Hn|lia|by left|]. intros m p u _ Hm. right. by exists p, u.
Qed.

Lemma allocated_holds : exists p u, heap_holds (byte_manager allocated.2) [(p, u)] /\ kern allocated.2 = box.
Proof.
  destruct started_holds as [H Hk].
  destruct (x_malloc_result started box H Hk ltac:(unfold may_lock; rewrite Hk; vm_compute; split; congruence)) as [E|Hr]; [vm_compute in E; discriminate E|exact Hr].
Qed.

Lemma x_malloc_correct_witness : exists p u, heap_holds (byte_manager allocated.2) [(p, u)] /\
  wp (x_malloc 30) (fun r s' =>
    match r with
    | None => s' = allocated.2
    | Some p' => kern s' = kern allocated.2 /\ exists u', 30 <= u' /\ heap_holds (byte_manager s') ((p', u') :: [(p, u)]) /\
        mm_dynamic_start (byte_manager s') < p' /\ p' + u' <= mm_dynamic_end (byte_manager s') /\
        forall q, q ∈ [(p, u)] -> disjoint_from (p', u') q
    end) allocated.2.
Proof.
  destruct allocated_holds as (p & u & H & Hk). exists p, u. split; [exact H|].
  apply (x_malloc_correct allocated.2 [(p, u)] 30); [exact H|unfold may_lock; rewrite Hk; vm_compute; split; congruence|lia].
Defined.

Lemma x_free_correct_witness : exists p u, heap_holds (byte_manager allocated.2) [(p, u)] /\
  wp (x_free (Some p)) (fun _ s' => kern s' = kern allocated.2 /\ heap_holds (byte_manager s') []) allocated.2.
Proof.
  destruct allocated_holds as (p & u & H & Hk). exists p, u. split; [exact H|].
  apply (x_free_correct allocated.2 [] (Some (p, u))); [exact H|unfold may_lock; rewrite Hk; vm_compute; split; congruence].
Defined.

Lemma x_malloc_x_free_witness : exists bs fl, heap_ok (byte_manager started) bs fl /\
  wp (p ← x_malloc 100; x_free p) (fun _ s' =>
    kern s' = kern started /\ active_memory (byte_manager s') = active_memory (byte_manager started) /\
    exists fl', heap_ok (byte_manager s') bs fl') started.
Proof.
  destruct started_holds as [(D & S & [(bs & fl & H & _) _ _] & _) Hk]. exists bs, fl. split; [exact H|].
  apply (x_malloc_x_free started bs fl 100); [exact H|unfold may_lock; rewrite Hk; vm_compute; split; congruence|vm_compute; congruence|lia|right; vm_compute; congruence].
Defined.

Lemma BigMemMalloc_correct_witness : exists bs fl, heap_ok (byte_manager started) bs fl /\
  wp (BigMemMalloc 100 DYNAMIC_BLOCK_MASK) (fun r m' =>
    match r with
    | None => m' = byte_manager started /\ ((forall sz, (sz, false) ∈ bs -> sz < 112) \/ (112, false) ∈ bs)
    | Some p => exists bs1 sz bs2 fl', bs = bs1 ++ (sz, false) :: bs2 /\ best_fit bs 112 sz /\ 112 < sz /\
        p = first_block (byte_manager started) + total bs1 + 12 /\ first_block m' = first_block (byte_manager started) /\
        heap_ok m' (carve bs1 sz 112 bs2) fl' /\
        max_ever_usedmem m' = Z.max (max_ever_usedmem (byte_manager started)) (active_memory m')
    end) (byte_manager started).
Proof.
  destruct started_holds as [(D & S & [(bs & fl & H & _) _ _] & _) _]. exists bs, fl. split; [exact H|].
  apply (BigMemMalloc_correct (byte_manager started) bs fl 100); [exact H|lia|lia].
Defined.

Lemma InitBoardMemory_ok_witness :
  let lo := ALIGN_MEN_UP 8000 MM_PAGE_SIZE in
  let hi := ALIGN_MEN_DOWN 20000 MM_PAGE_SIZE in
  (hi <=? lo) = false /\
  wp (InitBoardMemory 8000 20000) (fun _ s' => kern s' = kern no_memory /\
    if hi <=? lo then byte_manager s' = set_bounds lo hi (byte_manager no_memory) else heap_holds (byte_manager s') []) no_memory.
Proof.
  split; [reflexivity|].
  apply (InitBoardMemory_ok no_memory 8000 20000);
    [done|done|done|by vm_compute|by vm_compute|right; by vm_compute|by intros []|by split; [|intros []]].
Defined.
