(* ===== verification/Defects.v ===== *)
(** * What goes wrong

    Runs of the code from states that satisfy the invariants, in which it does not
    do what it means to: a READY task that is lost or a scheduler that follows a
    stale bit after its priority was set, the delay of a deleted task that stays in
    the delay list, a task that could not be created and stays in the list of tasks,
    delays across the wrap-around of the tick counter, urgent
    messages, a work queue that sleeps on its entries, timers that are lost or fault,
    and memory that is refused or released twice. *)

From S2P Require Import Prelude DoubleLink IdManager Bitmap Kernel ReadyVector Assign Delay Task TaskInv Deadlines Priority PendList Waiting Interrupt Ticks Sleep Semaphore Mutex Event MsgQueue WorkQueue SoftTimer TimerInv TimerList SchedCheck KernelCheck ByteMemory HeapList HeapLayout Heap SmallMem Memory MemoryInit TimerCheck Applications.

(** ** The priority of a READY task *)

(** [box] with task 3 READY at priority 5, behind task 2. *)
Definition twins_lists : gmap link (list link) :=
  <[ReadyVec 5 := [SchedLink 2; SchedLink 3]]> (<[ReadyVec 1 := []]> box_lists).
Definition twins : kstate :=
  set_links (memory_of twins_lists)
    (set_tasks (<[3%positive := wait_task KTASK_READY 5 None 0 0]> (tasks box))
       (set_os_assign_read_vector (mkReadyVector (2 ^ 5) [] 5) box)).

Definition reprioritise (id prio : Z) : M kstate Z := r ← KTaskPrioSet id prio; DO_KTASK_ASSIGN;; mret r.

(** Whether a READY task has a larger priority than the current one. *)
Definition overtaken (k : kstate) : bool :=
  match os_running_task k ≫= (fun t => tasks k !! t) with
  | Some td => existsb (fun '(_, y) => (stat_of y =? KTASK_READY) && (cur_prio td <? cur_prio y)) (map_to_list (tasks k))
  | None => false
  end.

(** The priority of a READY task is changed before it leaves its ready list, so
    the bits of the wrong priority are looked at.  From sound states: when task 2 moves
    from 5 to 4 the bit of priority 5 is cleared although task 3 is READY there, and
    task 2 runs while task 3 should; when the only task at 5 moves to the priority of
    another READY task the bit of 5 stays set and the next switch follows an empty
    list. *)
Theorem KTaskPrioSet_ready_breaks :
  (kernel_ok twins twins_lists (box_ids CTask 8) box_delays /\
   observe (fun r k => (r, os_running_task k, overtaken k)) (reprioritise 1 4 twins) = Some (EOK, Some 2%positive, true)) /\
  (kernel_ok box box_lists (box_ids CTask 8) box_delays /\ reprioritise 1 1 box = Fault).
Proof.
  split; split; [apply kernel_check_sound|..|apply box_ok|]; vm_compute; reflexivity.
Qed.

(** ** Delays *)

Definition tick (now : Z) : M kstate unit :=
  modify (fun k => set_isr_count 1 (set_heartbeat_ticks now k));; CheckTaskDelay;; modify (set_isr_count 0).

Definition state_of (t : ptr) (k : kstate) : option Z := stat_of <$> tasks k !! t.

(** The recycler frees the [Delay] of a deleted task while it is still linked
    into the delay list: task 4 of a sound kernel is deleted while it sleeps and
    recycled, and the next expiry dereferences freed memory. *)
Theorem deleted_sleeper_faults :
  kernel_ok box box_lists (box_ids CTask 8) box_delays /\
  observe (fun _ k => (state_of 4 k, delays k !! 1%positive)) ((KTaskDelete 3;; ZombieKTaskEntry) box) = Some (None, None) /\
  (KTaskDelete 3;; ZombieKTaskEntry;; tick 20) box = Fault.
Proof. split; [apply box_ok|]. split; vm_compute; reflexivity. Qed.

(** A task with an invalid priority is refused after it was linked into the list of all
    tasks, and its descriptor is freed while it is still the first of the list, so the
    next creation writes to freed memory. *)
Theorem KTaskCreate_leaves_freed_link :
  let refused := KTaskCreate (Some 20%positive) (Some 9) (Some "bad"%string) (Some 4096) 0 512 KTASK_PRIORITY_MAX in
  kernel_ok box box_lists (box_ids CTask 8) box_delays /\
  observe (fun r k => (r, nxt (links k) (ListHead CTask), links k !! ObjLink CTask 20)) (refused box) =
    Some (- ERROR, Some (ObjLink CTask 20), None) /\
  (refused;; KTaskCreate (Some 21%positive) (Some 10) (Some "good"%string) (Some 4096) 0 512 3) box = Fault.
Proof. split; [apply box_ok|]. split; vm_compute; reflexivity. Qed.

(** Ten ticks before the counter wraps; the deadlines 20 and 30 lie behind the wrap. *)
Definition wrapping : kstate := set_heartbeat_ticks (2 ^ 32 - 10) box.

(** The delay list is sorted by the 32-bit deadlines, so a delay that ends before
    the counter wraps goes behind those that end after it: task 6, to be woken in 5
    ticks, still waits when the counter is about to wrap, and at tick 20, when task 4 is
    woken; it is woken only at tick 30, 35 ticks late. *)
Theorem wrapped_deadline_late :
  kernel_ok wrapping box_lists (box_ids CTask 8) box_delays /\
  observe (fun _ k => (delays k !! 9%positive, state_of 6 k))
    ((KTaskSetDelay (Some 9%positive) 6 5;; tick (2 ^ 32 - 1)) wrapping) =
    Some (Some (mkDelay 6 (2 ^ 32 - 5) TASK_DELAY_ACTIVE), Some KTASK_SUSPEND) /\
  observe (fun _ k => (state_of 4 k, state_of 6 k))
    ((KTaskSetDelay (Some 9%positive) 6 5;; tick (2 ^ 32 - 1);; tick 20) wrapping) = Some (Some KTASK_READY, Some KTASK_SUSPEND) /\
  observe (fun _ k => state_of 6 k)
    ((KTaskSetDelay (Some 9%positive) 6 5;; tick (2 ^ 32 - 1);; tick 20;; tick 30) wrapping) = Some (Some KTASK_READY).
Proof. split; [by apply (kernel_ok_fields box _ _ _ _ box_ok)|]. split; [|split]; vm_compute; reflexivity. Qed.

(** ** Urgent messages *)

(** Queue 2 is empty, with room for two messages, and its first slot is [i]. *)
Definition empty_queue (i : Z) : kstate :=
  set_mqs (<[2%positive := mkMsgQueue (Some (replicate 8 0)) i 0 4 2]> (mqs box)) box.

Definition recv1 : M kstate (list Z) := r ← KMsgQueueRecv None 1 1 0; mret (match r with MqDone _ data => data | _ => [] end).

(** An urgent message is written over the last message of the queue and the slot
    before the first one, which holds no message, is received first; with the first
    slot at 0 the index becomes 65535 and receiving reads outside the buffer. *)
Theorem KMsgQueueUrgentSend_breaks :
  (kernel_ok (empty_queue 1) box_lists (box_ids CTask 8) box_delays /\
   observe (fun r _ => r) ((KMsgQueueSend None 1 [5];; r ← KMsgQueueUrgentSend 1 [6];
     first ← recv1; second ← recv1; mret (r, first, second)) (empty_queue 1)) = Some (EOK, [0], [6])) /\
  (kernel_ok (empty_queue 0) box_lists (box_ids CTask 8) box_delays /\
   observe (fun r _ => r) (KMsgQueueUrgentSend 1 [6] (empty_queue 0)) = Some EOK /\
   (KMsgQueueUrgentSend 1 [6];; recv1) (empty_queue 0) = Fault).
Proof.
  split; (split; [apply kernel_ok_mqs, box_ok|]); [|split]; vm_compute; reflexivity.
Qed.

(** ** The heap *)

(** A free block of exactly the right size makes the allocation fail, although the
    block behind it has room: after a block of 104 bytes was released, 104 bytes
    cannot be had, but 200 can. *)
Theorem exact_fit_refused :
  observe (fun r _ => r) ((a ← x_malloc 104; b ← x_malloc 200; x_free a;; c ← x_malloc 104; d ← x_malloc 200; mret (b, c, d)) started) =
  Some (Some 8684, None, Some 8896).
Proof. vm_compute. reflexivity. Qed.

(** A block that was joined to the one before it keeps the flag of an allocated one,
    so releasing it again passes the check; the block of 300 bytes at 8896 then lies
    inside of the block of 500 bytes at 8568. *)
Theorem double_free_overlaps :
  observe (fun r _ => r) ((a ← x_malloc 100; b ← x_malloc 200; c ← x_malloc 300; x_free a;; x_free b;; x_free b;;
    d ← x_malloc 500; mret (c, d)) started) = Some (Some 8896, Some 8568).
Proof. vm_compute. reflexivity. Qed.

(** ** The work queue and the timers *)

(** [bell] with the task of the queue running and the queue empty. *)
Definition idle_queue : work_state := mkWorkState (ws_kernel bell_turn) (mkWorkqueue 0 0 (base bell_queue) 2).

(** A lost wake-up.  The task of the queue finds its queue empty and leaves the
    critical area; an interrupt that now submits an entry does not wake the task,
    which is not suspended yet; then the task suspends itself, and the entry is not
    run until another one is submitted. *)
Theorem WorkQueueKTaskEntry_loses_wakeup :
  kernel_ok (ws_kernel idle_queue) bell_lists (box_ids CTask 3) [] /\ pending [] (sys_workq idle_queue) /\
  observe (fun _ s => (works (sys_workq s), state_of 3 (ws_kernel s), os_running_task (ws_kernel s)))
    ((taken ← take_work; interrupting [mkWork 4096 1];; run_work bell_call taken) idle_queue) =
  Some ([mkWork 4096 1], Some KTASK_SUSPEND, Some 2%positive).
Proof.
  split; [apply bell_turn_ok|]. split; [|vm_compute; reflexivity].
  split; [by split; cbn; unfold MAX_WORK_QUEUE; try lia|vm_compute; reflexivity].
Qed.

Fixpoint walk (n : nat) (a : link) (k : kstate) : list link :=
  match n, nxt (links k) a with
  | S n, Some b => b :: walk n b k
  | _, _ => []
  end.

(** Starting the running timer 1 again links its node in a second time: timer 2 is
    still marked as running but no longer in the list, and will never end. *)
Theorem KTimerStartRun_loses_timer :
  timers_ok bell bell_lists bell_running /\
  observe (fun r k => (r, active_status <$> timers k !! 2%positive, walk 3 TimerSortHead k)) (KTimerStartRun 0 bell) =
  Some (EOK, Some TIMER_ACTIVE_TRUE, [SortList 1; SortList 4; TimerSortHead]).
Proof. split; [apply bell_timers_ok|vm_compute; reflexivity]. Qed.

(** A timer that was created and never started cannot be deleted: its list node is
    not initialised. *)
Theorem KDeleteTimer_faults :
  kernel_ok bell bell_lists (box_ids CTask 3) [] /\
  (id ← KCreateTimer (Some 9%positive) "timer" 8192 0 10 TIMER_TRIGGER_ONCE; KDeleteTimer id) bell = Fault.
Proof. split; [apply bell_ok|vm_compute; reflexivity]. Qed.
